(* ===== verification/_CoqProject ===== *)
-Q . S2P
Prelude.v
GoStrings.v
FileUtils.v
Objects.v
Utils.v
Templates.v
Conditions.v
Store.v
EventLoop.v
References.v
TreeCore.v
InstalledVersions.v
GatewayClass.v
Listener.v
Gateway.v
Route.v
HaproxyConf.v
Backends.v
RouteMaps.v
Enqueue.v
Sources.v
Status.v
Certificates.v
Sha1.v
Servers.v
Frontends.v
CertRuntime.v
RouteFill.v
ConfMgr.v
Client.v
ClientRuns.v
Process.v
Logging.v
GateTree.v
Handler.v
Pipeline.v
Startup.v
CRDs.v
Storage.v
Assembly.v
