(* ===== verification/Prelude.v ===== *)
(** * The HAProxy Unified Gateway controller, in Rocq

    This library models the control loop of the controller: from the events of
    the Kubernetes API to the configuration, the files and the runtime of
    HAProxy.  Paths below are under src/k8s/gate/ unless they say otherwise.
    Go names are kept; a prefix is added where two Go types share a field name.

    ** The program and the files that model it

    At start:

    - start-up: [Startup] (src/hug/configuration, src/hug/startup, src/cmd/start,
      config/, options/, New of controller.go) goes from the flags to the
      configuration and reads what HAProxy runs; [CRDs] (src/api/definition) is
      the job that installs the definitions; [Storage] (haproxy/storage) makes and
      cleans the directories; [Assembly] (Add and Run of controller.go,
      manager.go) puts the parts together.

    A change in the cluster then goes through the parts in this order.

    - sources: [Sources] (controller.go, register.go, reconciler.go, predicate/)
      has one controller per kind of object, whose predicate filters the changes
      and whose reconciler reads the object again; [Enqueue] (enqueuefor.go) is
      the table of who is recomputed when something else changes;
    - events: [EventLoop] (handler/monitor.go) collects events in one slice
      while a goroutine handles the batch in another;
    - store: [Store] (store/, handler/batch.go) keeps the objects of the cluster
      and one update per key touched by the batch;
    - tree: [References] (who references which secret), [TreeCore] (what every
      resource of the tree shares; secrets, services), [InstalledVersions],
      [GatewayClass], [Listener], [Gateway] and [Route] (tree/) recompute the
      resources the batch touches, with their checks and their conditions
      ([Conditions], conditions/); [Certificates] (tree/certificate_builder.go,
      haproxy/storage/cert.go, crt-list.go) writes the files of certificates;
    - configuration: [HaproxyConf] (haproxy/configuration.go) keeps the sections
      of HAProxy and the diffs of a cycle; [Frontends], [Backends], [Servers],
      [RouteMaps], [CertRuntime] (haproxy/*.go) change them from the tree, and
      [ConfMgr] (haproxy/haproxyconf_mgr.go) runs them in order; [RouteFill]
      shows that the routes the builders make never stop the loops over them;
    - application: [HaproxyConf] also holds applyCfgUpdates
      (src/hug/haproxy/main.go), which replays the diffs on the HAProxy client;
      [Client] (src/hug/haproxy/api) is that client over client-native, and
      [ClientRuns] what its cycles do to the file and to the process; [Process]
      (src/hug/haproxy/process, and the manager of src/hug/haproxy/main.go)
      starts, reloads and stops HAProxy;
    - assembly: [GateTree] (handler/tree.go) puts the parts of the tree together
      and carries their invariants from batch to batch, [Handler]
      (handler/batch.go) is the whole of what a batch does, and [Logging]
      (tree/hug_conf.go, logging/) the levels of the logs it reads from the
      configuration of the controller;
    - status: [Status] (status/) compares the conditions of the tree with those
      of the cluster and writes them back.

    [Pipeline] composes the runs of the reconcilers, of the loop and of the
    handler into one statement.

    [Prelude], [GoStrings], [FileUtils], [Objects], [Utils], [Templates] and [Sha1]
    hold the language, the standard library, the objects of Kubernetes and the
    generic helpers (utils/, fileutils/, html/template, crypto/sha1).

    ** How Go is modelled

    - A Go map is a [gmap]; [range] visits it in an order that is an instance of
      [RangeOrder], and the theorems hold for every instance.  In the same way
      [GoSort] leaves the order of equal elements open.
    - A struct is a record, a pointer an [option].  Objects reached from one
      place are values; listeners, routes, sections of the configuration, the
      batches of the event loop are shared, so they live in stores
      ([gmap nat _]) and are held by their location.
    - An error is [Err] of [result]; a panic is [None]; a function that mutates
      its receiver returns it.
    - Code outside the repository (client-native, the Kubernetes client, mergo,
      MD5, the semantic-version library, the disk, the runtime socket) is an
      argument or a class; the classes of laws state what it documents, and have
      an instance on which the theorems are run.  Of html/template, [Templates]
      has the templates made of text and fields, any other is an argument.
    - The theorems on frontends ask for a template that tells the listeners with
      names of the API apart ([RouteMaps.names_apart]); the default one, which is
      the one the program runs with, does ([RouteMaps.default_names_apart]).
    - What HAProxy is asked to write ([HaproxyConf.write_laws_on]) is apart from
      what a reload answers: only the theorems on whole runs suppose that a reload
      gives no error ([HaproxyConf.client_laws_on]).

    ** What the theorems show

    - End to end: the program starts, whatever the flags but the type of log, when
      the manager of controller-runtime takes its parts, and the handler it starts
      stands every sequence of valid batches ([Assembly.controller_starts]); when the
      reconcilers have nothing left to do, the loop hands over every event and the
      handler shows the objects of the cluster and drives HAProxy to them
      ([Pipeline.cluster_to_haproxy]).
    - Whole runs: any sequence of valid batches of events is handled without a
      panic, the store is the one of the events, and in the end HAProxy holds the
      configuration of the controller and the disk the certificates of the tree
      ([Handler.controller_runs]; [ConfMgr.haproxy_mirrors_controller] is the part
      of the manager); every batch leaves a tree that is well formed
      ([Handler.tree_well_formed]); the first one deletes the sections nobody
      asked for ([ConfMgr.first_batch_cleans]).
    - Sources: the store converges to the cluster, for every kind whose changes the
      predicates let by ([Sources.store_mirrors_cluster]); each kind has exactly
      one controller.
    - The file and the process: a cycle whose operations are accepted leaves in the
      file the sections of the controller and tells the process to reload on it when
      they ask for it, whatever the reload then answers; one that fails before leaves
      the file as it was ([ClientRuns]); a service call on the process
      ends ([Process]); files that exist are never overwritten at start
      ([Startup]), and a newer definition of a resource is never replaced by an
      older one ([CRDs]).
    - Events: each event is handled once, in order, and a batch is always
      handled in the end ([EventLoop]); a batch changes the store by exactly its
      events ([Store]); an event that enqueues nothing changes no verdict,
      unless a list of the cache failed ([Enqueue]).
    - Tree: references, secrets, classes, gateways, listeners and routes are what
      a recomputation from nothing gives; the verdicts and the conditions are
      characterised by the questions they depend on.
    - Files and HAProxy: certificates, lists and maps on disk, frontends,
      backends and servers are those of the tree; the runtime follows the files,
      and the commands fit its buffer.
    - Defects: the behaviours a reader would not expect are theorems as well (a
      secret with a short name, a CRD created and deleted in a batch, a backend
      of two routes, a port no service has, the entries of deleted routes, the
      updates of services that are never seen, a reload without a master socket).

    ** Bounds

    Recursion is structural, except [TrimSpace] and the cleaning of paths in
    [GoStrings] and the chunks of [Sha1], whose fuel is the length of the input
    (each step consumes a byte), and the service of the process in [Process],
    whose calls of itself are bounded by the theorem that it ends.  Integers are
    [Z], cut to their width where the code converts them.  Batches are handled
    one after the other in [ConfMgr] and [Handler], as the event loop does.

    ** Not modelled

    What is logged beside the filter of the records, and metrics; client-native,
    the Kubernetes client, controller-runtime, the operating system and the
    parsers of YAML and of versions, which are classes or arguments; the templates
    with more than text and fields; and the calls that only configure them (the New of
    src/hug/haproxy/api, the schemes of manager.go); the parsing of flags and
    main, which waits for a signal; an unused copy of the conditions
    (conditions/conditions.go); the declarations and the generated code of
    src/api/gate; tests, tools and continuous integration (src/test, src/ci, the
    other commands of src/cmd). *)

From Stdlib Require Export ssreflect.
From stdpp Require Export base gmap strings list fin_maps sorting pretty.

(** Notations of the development live in a scope of their own. *)
Global Open Scope general_if_scope.
Declare Scope gate_scope.
Delimit Scope gate_scope with gate.

(** ** Go maps and their iteration order

    A Go map is a [gmap].  [range] over a map visits every entry once, in an
    order the language leaves open: the order is an instance of [RangeOrder],
    and every theorem about a loop holds for every instance. *)
Class RangeOrder := {
  range : ∀ {K} `{Countable K} {V}, gmap K V → list (K * V);
  range_perm : ∀ {K} `{Countable K} {V} (m : gmap K V),
    range m ≡ₚ map_to_list m
}.

(** The order used by the concrete witnesses. *)
Definition key_order : RangeOrder.
Proof.
  refine {| range := λ K _ _ V m, map_to_list m |}.
  done.
Defined.

(** The loop [for k, v := range m { s = f(k, v, s) }]. *)
Definition range_fold `{RangeOrder} {K} `{Countable K} {V S}
    (f : K → V → S → S) (m : gmap K V) (s : S) : S :=
  foldl (λ s kv, f kv.1 kv.2 s) s (range m).

(** [range] over a set ([map\[K\]struct{}]). *)
Definition set_entries {K} `{Countable K} (X : gset K) : gmap K unit :=
  gset_to_gmap () X.

Definition range_set `{RangeOrder} {K} `{Countable K} (X : gset K) : list K :=
  (range (set_entries X)).*1.

Section range.
Context {RO : RangeOrder} {K : Type} {EqK : EqDecision K} {CK : Countable K} {V : Type}.
Implicit Types (m : gmap K V).

Lemma elem_of_range m k v : (k, v) ∈ range m ↔ m !! k = Some v.
Proof. by rw range_perm elem_of_map_to_list. Qed.

Lemma NoDup_fst_range m : NoDup (range m).*1.
Proof. rw range_perm. apply NoDup_fst_map_to_list. Qed.

Lemma range_nil_inv m : range m = [] → m = ∅.
Proof.
  intros Hr. apply map_to_list_empty_iff, Permutation_nil_r.
  by rw -range_perm Hr.
Qed.

Lemma length_range m : length (range m) = size m.
Proof. by rw range_perm length_map_to_list. Qed.

Lemma list_to_map_range m : list_to_map (range m) = m.
Proof.
  rw -{2}(list_to_map_to_list m). apply list_to_map_proper.
  - apply NoDup_fst_range.
  - apply range_perm.
Qed.

(** Loop invariant: [P done s] relates the entries already visited to the
    accumulated state. *)
Lemma range_fold_ind {S} (P : gmap K V → S → Prop) (f : K → V → S → S) m s0 :
  P ∅ s0 →
  (∀ k v done s, m !! k = Some v → done !! k = None → done ⊆ m →
     P done s → P (<[k := v]> done) (f k v s)) →
  P m (range_fold f m s0).
Proof.
  intros H0 Hstep. unfold range_fold.
  cut (∀ l1 l2 s, range m = l1 ++ l2 → P (list_to_map (reverse l1)) s →
         P m (foldl (λ s kv, f kv.1 kv.2 s) s l2)).
  { intros Hgen. apply (Hgen [] (range m)); [done|]. by rw reverse_nil. }
  intros l1 l2. revert l1. induction l2 as [|[k v] l2 IH]; intros l1 s Heq HP.
  - rw app_nil_r in Heq. simpl. rw -Heq in HP.
    replace m with (list_to_map (reverse (range m)) : gmap K V) at 1; [done|].
    rw -{2}(list_to_map_range m). apply list_to_map_proper.
    + rw fmap_reverse reverse_Permutation. apply NoDup_fst_range.
    + apply reverse_Permutation.
  - simpl. apply (IH (l1 ++ [(k, v)])).
    { by rw Heq -app_assoc. }
    rw reverse_snoc. simpl.
    assert (Hnd := NoDup_fst_range m). rw Heq fmap_app in Hnd.
    apply NoDup_app in Hnd as (Hnd1 & Hdisj & Hnd2). simpl in *.
    apply Hstep; [| | |done].
    + apply elem_of_range. rw Heq. set_solver.
    + apply not_elem_of_list_to_map_1. rw fmap_reverse.
      rw elem_of_reverse. intros Hin. apply (Hdisj _ Hin). set_solver.
    + apply map_subseteq_spec. intros k' v' Hk'.
      apply elem_of_list_to_map_2 in Hk'. apply elem_of_range.
      rw Heq. rw elem_of_reverse in Hk'. set_solver.
Qed.

(** A loop whose body only inserts at the visited key is a map traversal. *)
Lemma range_fold_insert {W} (f : K → V → W) m (w : gmap K W) :
  range_fold (λ k v acc, <[k := f k v]> acc) m w = map_imap (λ k v, Some (f k v)) m ∪ w.
Proof.
  apply (range_fold_ind (λ d s, s = map_imap (λ k v, Some (f k v)) d ∪ w)).
  - rw map_imap_empty. by rw map_empty_union.
  - intros k v d s _ Hd _ ->. rw map_imap_insert. by rw insert_union_l.
Qed.
End range.

Section range_set.
Context {RO : RangeOrder} {K : Type} {EqK : EqDecision K} {CK : Countable K}.
Implicit Types (X : gset K).

Lemma elem_of_range_set X k : k ∈ range_set X ↔ k ∈ X.
Proof.
  unfold range_set. rw list_elem_of_fmap. split.
  - intros ([k' []] & -> & Hk%elem_of_range). simpl.
    by apply lookup_gset_to_gmap_Some in Hk as [? _].
  - intros Hk. exists (k, ()). split; [done|]. apply elem_of_range.
    by apply lookup_gset_to_gmap_Some.
Qed.

Lemma NoDup_range_set X : NoDup (range_set X).
Proof. apply NoDup_fst_range. Qed.

Lemma range_set_empty : range_set (∅ : gset K) = [].
Proof.
  destruct (range_set ∅) as [|k l] eqn:E; [done|].
  assert (k ∈ (∅ : gset K)); [|set_solver].
  apply elem_of_range_set. rw E. set_solver.
Qed.
End range_set.

(** ** [slices.SortFunc]: sorts, and leaves the order of equal elements open *)
Class GoSort := {
  SortFunc : ∀ {A}, (A → A → comparison) → list A → list A;
  SortFunc_perm : ∀ {A} (cmp : A → A → comparison) l, SortFunc cmp l ≡ₚ l;
  SortFunc_sorted : ∀ {A} (cmp : A → A → comparison) l,
    Total (λ a b, cmp a b ≠ Gt) → Transitive (λ a b, cmp a b ≠ Gt) →
    StronglySorted (λ a b, cmp a b ≠ Gt) (SortFunc cmp l)
}.

#[export] Instance cmp_dec {A} (cmp : A → A → comparison) : RelDecision (λ a b, cmp a b ≠ Gt).
Proof. intros a b. solve_decision. Defined.

(** The sort used by the concrete witnesses. *)
Definition stable_sort : GoSort.
Proof.
  refine {| SortFunc := λ A cmp l, merge_sort (λ a b, cmp a b ≠ Gt) l |}.
  - intros. apply merge_sort_Permutation.
  - intros. by apply StronglySorted_merge_sort.
Defined.

(** ** Results of fallible functions: Go's [(T, error)] *)
Inductive result (A : Type) := Ok (a : A) | Err (e : string).
Arguments Ok {A} a.
Arguments Err {A} e.

Definition is_ok {A} (r : result A) : bool :=
  match r with Ok _ => true | Err _ => false end.

Definition result_bind {A B} (r : result A) (f : A → result B) : result B :=
  match r with Ok a => f a | Err e => Err e end.

Notation "x <-! r ; k" := (result_bind r (λ x, k))
  (at level 100, r at next level, right associativity) : gate_scope.

(** ** Lists *)

(** [foldl] with an invariant. *)
Lemma foldl_ind {A B} (P : B → Prop) (f : B → A → B) l b :
  P b → (∀ b a, a ∈ l → P b → P (f b a)) → P (foldl f b l).
Proof.
  revert b. induction l as [|a l IH]; intros b Hb Hf; simpl; [done|].
  apply IH; [apply Hf; [set_solver|done]|]. intros; apply Hf; [set_solver|done].
Qed.

(** A loop invariant indexed by the prefix already visited. *)
Lemma foldl_prefix_ind {A B} (P : list A → B → Prop) (f : B → A → B) l b :
  P [] b → (∀ pre a b, pre ++ [a] `prefix_of` l → P pre b → P (pre ++ [a]) (f b a)) →
  P l (foldl f b l).
Proof.
  intros Hb Hf. cut (∀ l2 pre b, l = pre ++ l2 → P pre b → P l (foldl f b l2)).
  { intros Hgen. by apply (Hgen l []). }
  induction l2 as [|a l2 IH]; intros pre b' Heq HP; simpl.
  - by rw app_nil_r in Heq; subst.
  - apply (IH (pre ++ [a])); [by rw -app_assoc|]. apply Hf; [|done].
    exists l2. by rw -app_assoc.
Qed.

Lemma foldl_ext {A B} (f g : B → A → B) l b :
  (∀ b a, a ∈ l → f b a = g b a) → foldl f b l = foldl g b l.
Proof.
  revert b. induction l as [|a l IH]; intros b Hfg; simpl; [done|].
  rw Hfg; [set_solver|]. apply IH. intros; apply Hfg; set_solver.
Qed.

Lemma foldl_id {A B} (f : B → A → B) l b :
  (∀ b a, a ∈ l → f b a = b) → foldl f b l = b.
Proof.
  induction l as [|a l IH]; intros Hf; simpl; [done|].
  rw Hf; [set_solver|]. apply IH. intros; apply Hf; set_solver.
Qed.

Lemma existsb_exists_elem {A} (f : A → bool) l :
  existsb f l = true ↔ ∃ x, x ∈ l ∧ f x = true.
Proof. rw existsb_exists. by setoid_rewrite list_elem_of_In. Qed.

Lemma existsb_perm {A} (f : A → bool) l1 l2 :
  l1 ≡ₚ l2 → existsb f l1 = existsb f l2.
Proof.
  intros Hp. apply eq_true_iff_eq. rw !existsb_exists_elem. by setoid_rewrite Hp.
Qed.

Lemma omap_none {A B} (f : A → option B) l : (∀ x, x ∈ l → f x = None) → omap f l = [].
Proof.
  induction l as [|x l IH]; intros Hf; [done|]. cbn. rw Hf; [by left|].
  apply IH. intros y Hy. apply Hf. by right.
Qed.

(** ** Loops that may panic *)
Definition mfold {A S} (f : A → S → option S) (l : list A) (s : S) : option S :=
  foldl (λ acc a, s ← acc; f a s) (Some s) l.

Definition range_mfold `{RangeOrder} {K} `{Countable K} {V S} (f : K → V → S → option S)
    (m : gmap K V) (s : S) : option S := mfold (λ kv, f kv.1 kv.2) (range m) s.

Lemma mfold_app {A S} (f : A → S → option S) l1 l2 s :
  mfold f (l1 ++ l2) s = s' ← mfold f l1 s; mfold f l2 s'.
Proof.
  unfold mfold. rw foldl_app. destruct (foldl _ (Some s) l1) as [s'|]; [done|]. cbn.
  induction l2 as [|a l2 IH]; [done|]. exact IH.
Qed.

Lemma mfold_cons {A S} (f : A → S → option S) a l s :
  mfold f (a :: l) s = s' ← f a s; mfold f l s'.
Proof. by rw (mfold_app f [a] l s). Qed.

Lemma mfold_fmap {A B S} (f : B → S → option S) (g : A → B) l s :
  mfold f (g <$> l) s = mfold (λ a, f (g a)) l s.
Proof.
  revert s. induction l as [|a l IH]; intros s; [done|]. cbn [fmap list_fmap].
  rw !mfold_cons. destruct (f (g a) s); [apply IH|done].
Qed.

Lemma mfold_id {A S} (f : A → S → option S) l s :
  (∀ a, a ∈ l → f a s = Some s) → mfold f l s = Some s.
Proof.
  intros Hf. induction l as [|a l IH]; [done|]. rw mfold_cons Hf; [by left|]. cbn.
  apply IH. intros a' Ha'. apply Hf. by right.
Qed.

Lemma range_mfold_id `{RangeOrder} {K} `{Countable K} {V S} (f : K → V → S → option S)
    (m : gmap K V) s :
  (∀ k v, m !! k = Some v → f k v s = Some s) → range_mfold f m s = Some s.
Proof. intros Hf. apply mfold_id. intros [k v] Hkv%elem_of_range. by apply Hf. Qed.

(** Loop invariant, and the loop does not panic. *)
Lemma range_mfold_ind `{RangeOrder} {K} `{Countable K} {V S} (P : gmap K V → S → Prop)
    (f : K → V → S → option S) (m : gmap K V) s0 :
  P ∅ s0 →
  (∀ k v done s, m !! k = Some v → done !! k = None → P done s →
     ∃ s', f k v s = Some s' ∧ P (<[k := v]> done) s') →
  ∃ s, range_mfold f m s0 = Some s ∧ P m s.
Proof.
  intros Hs0 Hstep.
  apply (range_fold_ind (λ dn acc, ∃ s, acc = Some s ∧ P dn s)
    (λ k v acc, s ← acc; f k v s) m (Some s0)); [by exists s0|].
  intros k v dn acc Hk Hdn _ (s & -> & HP). by apply Hstep.
Qed.

(** A step that panics in every state stops the loop. *)
Lemma mfold_stops {A S} (f : A → S → option S) a l s :
  a ∈ l → (∀ s, f a s = None) → mfold f l s = None.
Proof.
  intros Ha Hf. revert s. induction l as [|b l IH]; intros s; [by apply elem_of_nil in Ha|].
  rw mfold_cons. apply elem_of_cons in Ha as [<-|Ha]; [by rw Hf|].
  destruct (f b s); [by apply IH|done].
Qed.

Lemma mfold_total {A S} (P : S → Prop) (f : A → S → option S) l s :
  P s → (∀ a s, a ∈ l → P s → ∃ s', f a s = Some s' ∧ P s') → ∃ s', mfold f l s = Some s' ∧ P s'.
Proof.
  revert s. induction l as [|a l IH]; intros s Hs Hf; [by exists s|].
  destruct (Hf a s) as (s' & Hs' & HP); [by left|done|]. rw mfold_cons Hs'. cbn.
  apply IH; [done|]. intros a' s1 Ha'. apply Hf. by right.
Qed.

Lemma mfold_keeps {A S} (P : S → Prop) (f : A → S → option S) l s s' :
  (∀ a s s', a ∈ l → P s → f a s = Some s' → P s') → P s → mfold f l s = Some s' → P s'.
Proof.
  revert s. induction l as [|a l IH]; intros s Hf Hs; [by intros [= <-]|].
  rw mfold_cons. destruct (f a s) as [s1|] eqn:Ha; [|done]. cbn. apply IH.
  - intros a' s2 s3 Hin. apply Hf. by right.
  - eapply Hf; [by left|done|done].
Qed.

(** Loops and sequences that do not panic. *)
Lemma mfold_runs {A S} (P : S → Prop) (f : A → S → option S) l s :
  P s → (∀ a s, a ∈ l → P s → ∃ s', f a s = Some s' ∧ P s') → ∃ s', mfold f l s = Some s'.
Proof. intros Hs Hf. destruct (mfold_total P f l s Hs Hf) as (s' & H & _). by exists s'. Qed.

Lemma bind_runs {A B} (o : option A) (k : A → option B) :
  (∃ a, o = Some a) → (∀ a, ∃ b, k a = Some b) → ∃ b, (o ≫= k) = Some b.
Proof. intros [a ->] Hk. apply Hk. Qed.

Lemma range_mfold_runs `{RangeOrder} {K} `{Countable K} {V S} (f : K → V → S → option S)
    (m : gmap K V) s :
  (∀ k v s, m !! k = Some v → ∃ s', f k v s = Some s') → ∃ s', range_mfold f m s = Some s'.
Proof.
  intros Hf. apply (mfold_runs (λ _, True)); [done|]. intros [k v] s' Hk%elem_of_range _.
  destruct (Hf k v s' Hk) as [s'' ?]. by exists s''.
Qed.

(** ** Automation *)
Create HintDb gate.
#[export] Hint Resolve range_perm NoDup_fst_range NoDup_range_set : gate.

(** An equation between closed terms, decided by the virtual machine without
    reading the normal forms back. *)
Ltac vm_refl := lazymatch goal with |- _ = ?b => vm_cast_no_check (@eq_refl _ b) end.

(** Closes map and case-analysis goals of the component files. *)
Ltac gate_solve :=
  intros; simplify_map_eq; repeat (case_decide || case_bool_decide);
  simplify_map_eq; naive_solver.
