(* ===== verification/GoStrings.v ===== *)
(** * GoStrings: the functions of Go's [strings], [sort], [fmt] and
    [path/filepath] packages the controller calls, on [String.string] (one [ascii] per byte).

    [HasPrefix], [HasSuffix], [TrimPrefix], [Split], [SplitN (.., 2)] and
    [Join] follow the documentation of the Go standard library; the lemmas
    give their usual specifications and the round trip of [Split] and [Join]
    that the key encodings of the controller rely on. *)

From Stdlib Require Import Ascii.
From S2P Require Import Prelude.


Definition HasPrefix (s p : string) : bool := String.prefix p s.

(** [s\[n:\]] for [n <= len(s)]. *)
Fixpoint drop_string (n : nat) (s : string) : string :=
  match n, s with
  | O, _ => s
  | S n, String _ s => drop_string n s
  | S _, EmptyString => ""
  end.

Definition TrimPrefix (s p : string) : string :=
  if HasPrefix s p then drop_string (String.length p) s else s.

Fixpoint HasSuffix (s p : string) : bool :=
  bool_decide (s = p) ||
  match s with EmptyString => false | String _ s' => HasSuffix s' p end.

(** [strings.Split(s, sep)] for a separator of one byte. *)
Fixpoint Split (c : ascii) (s : string) : list string :=
  match s with
  | EmptyString => [""]
  | String a s' =>
      if decide (a = c) then "" :: Split c s'
      else match Split c s' with
           | h :: t => String a h :: t
           | [] => [String a ""]
           end
  end.

(** [strings.SplitN(s, sep, 2)] for a separator of one byte. *)
Fixpoint Cut (c : ascii) (s : string) : option (string * string) :=
  match s with
  | EmptyString => None
  | String a s' =>
      if decide (a = c) then Some ("", s')
      else '(x, y) ← Cut c s'; Some (String a x, y)
  end.

Definition SplitN2 (c : ascii) (s : string) : list string :=
  match Cut c s with Some (x, y) => [x; y] | None => [s] end.

Definition Join (parts : list string) (sep : string) : string :=
  String.concat sep parts.

(** [sort.Strings] and [slices.Sort] on strings. *)
Definition SortStrings (l : list string) : list string := merge_sort String.le l.

(** The encodings in UTF-8 of the code points for which [unicode.IsSpace]. *)
Definition space_encodings : list (list N) :=
  [[9]; [10]; [11]; [12]; [13]; [32]; [194; 133]; [194; 160]; [225; 154; 128];
   [226; 128; 128]; [226; 128; 129]; [226; 128; 130]; [226; 128; 131]; [226; 128; 132];
   [226; 128; 133]; [226; 128; 134]; [226; 128; 135]; [226; 128; 136]; [226; 128; 137];
   [226; 128; 138]; [226; 128; 168]; [226; 128; 169]; [226; 128; 175]; [226; 129; 159];
   [227; 128; 128]]%N.

(** Removes the sequences of [seqs] from the front, one per unit of fuel. *)
Fixpoint trim_front (seqs : list (list ascii)) (fuel : nat) (s : list ascii) : list ascii :=
  match fuel with
  | O => s
  | S fuel =>
      match list_find (λ q, take (length q) s = q) seqs with
      | Some (_, q) => trim_front seqs fuel (drop (length q) s)
      | None => s
      end
  end.

(** [strings.TrimSpace]: each step removes a byte at least, so the length is
    enough fuel.  The sequences are prefixes of no other one, from both ends. *)
Definition TrimSpace (s : string) : string :=
  let seqs := (λ q, ascii_of_N <$> q) <$> space_encodings in
  let l := trim_front seqs (String.length s) (String.list_ascii_of_string s) in
  let l := trim_front (reverse <$> seqs) (String.length s) (reverse l) in
  String.string_of_list_ascii (reverse l).

(** [filepath.Clean] on Unix: the components that stay, the last one first. *)
Fixpoint clean_components (rooted : bool) (parts out : list string) : list string :=
  match parts with
  | [] => out
  | part :: parts =>
      if bool_decide (part = "") || bool_decide (part = ".") then clean_components rooted parts out
      else if bool_decide (part = "..") then
        clean_components rooted parts
          match out with
          | [] => if rooted then [] else [".."]
          | top :: rest => if bool_decide (top = "..") then ".." :: out else rest
          end
      else clean_components rooted parts (part :: out)
  end.

Definition filepath_Clean (path : string) : string :=
  let rooted := HasPrefix path "/" in
  let parts := reverse (clean_components rooted (Split "/" path) []) in
  let cleaned := (if rooted then "/" else "") +:+ Join parts "/" in
  if bool_decide (cleaned = "") then "." else cleaned.

(** [filepath.Join]: the empty elements before the first one are ignored. *)
Fixpoint filepath_Joins (elems : list string) : string :=
  match elems with
  | [] => ""
  | e :: rest =>
      if bool_decide (e = "") then filepath_Joins rest else filepath_Clean (Join (e :: rest) "/")
  end.

Definition filepath_Join (a b : string) : string := filepath_Joins [a; b].

Fixpoint has_byte (c : ascii) (s : string) : bool :=
  match s with
  | EmptyString => false
  | String a s' => bool_decide (a = c) || has_byte c s'
  end.

Lemma string_app_cons x (a b : string) : String x a +:+ b = String x (a +:+ b).
Proof. done. Qed.

Lemma string_app_nil (b : string) : "" +:+ b = b.
Proof. done. Qed.

Lemma string_app_assoc (a b c : string) : (a +:+ b) +:+ c = a +:+ (b +:+ c).
Proof. induction a as [|x a IH]; [done|]. by rw !string_app_cons IH. Qed.

Lemma string_app_nil_r (a : string) : a +:+ "" = a.
Proof. induction a as [|x a IH]; [done|]. by rw string_app_cons IH. Qed.

Lemma string_length_app (a b : string) :
  (String.length (a +:+ b) = String.length a + String.length b)%nat.
Proof. induction a as [|x a IH]; [done|]. rw string_app_cons /=. by rw IH. Qed.

(** Reduction of concatenations, which [simpl] leaves alone. *)
Ltac str_simpl :=
  repeat first
    [ progress rw ?string_app_cons ?string_app_nil /=
    | progress rw ?string_app_cons ?string_app_nil ].
Ltac str_simpl_in H :=
  repeat first
    [ progress rw ?string_app_cons ?string_app_nil /= in H
    | progress rw ?string_app_cons ?string_app_nil in H ].

Lemma HasPrefix_spec s p : HasPrefix s p = true ↔ ∃ t, s = p +:+ t.
Proof.
  unfold HasPrefix. revert s. induction p as [|a p IH]; intros s.
  - split; [intros _; by exists s|]. intros _. by destruct s.
  - destruct s as [|b s]; simpl.
    + split; [done|]. by intros [t ?].
    + destruct (ascii_dec a b) as [<-|Hab].
      * rw IH. split; intros [t Ht]; exists t; [by rw Ht|].
        rw string_app_cons in Ht. by simplify_eq.
      * split; [done|]. intros [t Ht]. rw string_app_cons in Ht. by simplify_eq.
Qed.

Lemma HasSuffix_spec s p : HasSuffix s p = true ↔ ∃ t, s = t +:+ p.
Proof.
  induction s as [|a s IH]; cbn [HasSuffix].
  - rw orb_false_r bool_decide_eq_true. split; [intros <-; by exists ""|].
    intros [[|? t] Ht]; [done|]. rw string_app_cons in Ht. by simplify_eq.
  - rw orb_true_iff bool_decide_eq_true IH. split.
    + intros [<-|[t ->]]; [by exists ""|]. by exists (String a t).
    + intros [[|b t] Ht]; [by left|]. rw string_app_cons in Ht. simplify_eq.
      right. by exists t.
Qed.

Lemma drop_string_app p t : drop_string (String.length p) (p +:+ t) = t.
Proof. induction p as [|a p IH]; [done|]. by rw string_app_cons /= IH. Qed.

Lemma TrimPrefix_app p t : TrimPrefix (p +:+ t) p = t.
Proof.
  unfold TrimPrefix. rw (proj2 (HasPrefix_spec _ _)); [by exists t|].
  apply drop_string_app.
Qed.

Lemma has_byte_app c a b : has_byte c (a +:+ b) = has_byte c a || has_byte c b.
Proof.
  induction a as [|x a IH]; [done|]. by rw string_app_cons /= IH orb_assoc.
Qed.

Lemma Split_no_sep c s : has_byte c s = false → Split c s = [s].
Proof.
  induction s as [|a s IH]; simpl; [done|]. case_bool_decide; [done|].
  simpl. intros Hs. rw decide_False //. by rw (IH Hs).
Qed.

Lemma Split_app c s t :
  has_byte c s = false → Split c (s +:+ String c t) = s :: Split c t.
Proof.
  induction s as [|a s IH]; str_simpl.
  - intros _. by rw decide_True.
  - case_bool_decide; [done|]. simpl. intros Hs. by rw decide_False // (IH Hs).
Qed.

(** Splitting what [Join] produced gives the parts back, when no part holds
    the separator. *)
Lemma Split_Join c parts :
  parts ≠ [] → Forall (λ p, has_byte c p = false) parts →
  Split c (Join parts (String c "")) = parts.
Proof.
  unfold Join. induction parts as [|p parts IH]; [done|]. intros _ Hall.
  apply Forall_cons in Hall as [Hp Hall].
  destruct parts as [|q parts]; simpl.
  - by apply Split_no_sep.
  - rw (Split_app c p (String.concat (String c "") (q :: parts)) Hp).
    f_equal. by apply IH.
Qed.

Lemma Split_nonempty c s : Split c s ≠ [].
Proof.
  destruct s as [|a s]; simpl; [done|]. case_decide; [done|]. by destruct (Split c s).
Qed.

(** [Split] loses nothing: joining the parts gives the string back. *)
Lemma Join_Split c s : Join (Split c s) (String c "") = s.
Proof.
  unfold Join. induction s as [|a s IH]; simpl; [done|].
  case_decide as Hac; subst.
  - destruct (Split c s) as [|h t] eqn:E; [by apply Split_nonempty in E|].
    simpl in *. by rw string_app_nil IH.
  - destruct (Split c s) as [|h t] eqn:E; [by apply Split_nonempty in E|].
    destruct t; simpl in *; rw ?string_app_cons; by rw IH.
Qed.

Lemma Cut_app c x y : has_byte c x = false → Cut c (x +:+ String c y) = Some (x, y).
Proof.
  induction x as [|a x IH]; str_simpl.
  - intros _. by rw decide_True.
  - case_bool_decide; [done|]. simpl. intros Hx. by rw decide_False // (IH Hx).
Qed.

Lemma Cut_Some c s x y : Cut c s = Some (x, y) → s = x +:+ String c y ∧ has_byte c x = false.
Proof.
  revert x. induction s as [|a s IH]; intros x; simpl; [done|]. case_decide as Ha.
  - intros [= <- <-]. by subst.
  - destruct (Cut c s) as [[x' y']|] eqn:E; simpl; [|done]. intros [= <- <-].
    destruct (IH x' eq_refl) as [-> Hx]. simpl. by rw bool_decide_false.
Qed.

Lemma Cut_None c s : Cut c s = None ↔ has_byte c s = false.
Proof.
  induction s as [|a s IH]; simpl; [done|]. case_bool_decide as Ha; simpl.
  - rw decide_True //.
  - rw decide_False //. rw -IH. destruct (Cut c s) as [[]|]; simpl; naive_solver.
Qed.

Lemma SortStrings_Permutation l1 l2 :
  l1 ≡ₚ l2 → SortStrings l1 = SortStrings l2.
Proof.
  intros Hp. unfold SortStrings. apply (Sorted_unique String.le).
  - apply Sorted_merge_sort. apply _.
  - apply Sorted_merge_sort. apply _.
  - by rw !merge_sort_Permutation.
Qed.

Lemma elem_of_SortStrings x l : x ∈ SortStrings l ↔ x ∈ l.
Proof. unfold SortStrings. by rw merge_sort_Permutation. Qed.

Create HintDb gostrings.
Create Rewrite HintDb gostrings.
#[export] Hint Rewrite string_app_assoc string_app_nil_r string_length_app
  has_byte_app : gostrings.
#[export] Hint Resolve SortStrings_Permutation Split_nonempty : gostrings.

(** ** [TrimSpace] and the paths on examples *)
Example TrimSpace_spaces : TrimSpace "  a b 	" = "a b".
Proof. vm_compute. reflexivity. Qed.

Example filepath_Join_parent : filepath_Join "/maps" "../fe" = "/fe".
Proof. vm_compute. reflexivity. Qed.

Example filepath_Join_plain : filepath_Join "/maps/" "./fe" = "/maps/fe".
Proof. vm_compute. reflexivity. Qed.
