(* ===== verification/FileUtils.v ===== *)
(** * FileUtils: fileutils/filepath.go and fileutils/fileutils.go

    Paths of files, and the files of keys and values the storage reads back. *)

From Stdlib Require Import Ascii.
From S2P Require Import Prelude GoStrings.

(** ** filepath.go *)
Record FilePath := mkFilePath { Dir : string; FileName : string }.

Definition FullPath (fp : FilePath) : string := filepath_Join (Dir fp) (FileName fp).

(** ** fileutils/fileutils.go *)
Definition newline : ascii := "010"%char.

(** The lines of [bufio.Scanner]: without the newline, nor a carriage return
    before it; the text after the last newline is a line unless it is empty. *)
Fixpoint drop_cr (s : string) : string :=
  match s with
  | EmptyString => EmptyString
  | String "013" EmptyString => EmptyString
  | String c s => String c (drop_cr s)
  end.

Definition raw_lines (content : string) : list string :=
  let lines := Split newline content in
  if bool_decide (last lines = Some "") then take (length lines - 1) lines else lines.

Definition ScanLines (content : string) : list string := drop_cr <$> raw_lines content.

(** [bufio.MaxScanTokenSize]. *)
Definition max_line : nat := Z.to_nat 65536.

(** What [os.Open] finds. *)
Inductive File := NoFile | FileError (err : string) | Content (content : string).

Definition read_line (separator : ascii) (data : gmap string string) (line : string) :
    gmap string string :=
  match SplitN2 separator line with
  | [k; v] =>
      let key := TrimSpace k in
      let value := TrimSpace v in
      if negb (bool_decide (key = "")) then <[key := value]> data else data
  | _ => data
  end.

Definition ReadKeyValueFile (file : File) (separator : ascii) : result (gmap string string) :=
  match file with
  | NoFile => Ok ∅
  | FileError err => Err err
  | Content content =>
      if existsb (λ line, Nat.leb max_line (String.length line)) (raw_lines content)
      then Err "bufio.Scanner: token too long"
      else Ok (foldl (read_line separator) ∅ (ScanLines content))
  end.

(** ** The last element of a path *)

(** A name of a file: one element of a path. *)
Definition plain (f : string) : Prop :=
  f ≠ "" ∧ f ≠ "." ∧ f ≠ ".." ∧ has_byte "/" f = false.

Lemma clean_components_last rooted parts f out :
  plain f →
  ∃ out', clean_components rooted (parts ++ [f]) out = f :: out'.
Proof.
  intros (H1 & H2 & H3 & _). revert out. induction parts as [|p parts IH]; intros out; cbn.
  - rw !bool_decide_eq_false_2 //=. by eexists.
  - repeat case_bool_decide; cbn; apply IH.
Qed.

Lemma Join_snoc l f : Join (l ++ [f]) "/" = match l with [] => f | _ => Join l "/" +:+ "/" +:+ f end.
Proof.
  induction l as [|x l IH]; [done|]. destruct l as [|y l]; [done|].
  change (Join ((x :: y :: l) ++ [f]) "/") with (x +:+ "/" +:+ Join ((y :: l) ++ [f]) "/").
  rw IH. change (Join (x :: y :: l) "/") with (x +:+ "/" +:+ Join (y :: l) "/").
  by rw !string_app_assoc.
Qed.

Lemma Split_app_sep c x y : Split c (x +:+ String c y) = Split c x ++ Split c y.
Proof.
  induction x as [|a x IH].
  - rw string_app_nil. cbn [Split]. by rw decide_True.
  - rw string_app_cons. cbn [Split]. rw IH. case_decide; [done|].
    destruct (Split c x) eqn:Hx; [by apply Split_nonempty in Hx|done].
Qed.

Lemma last_FullPath fp : plain (FileName fp) → last (Split "/" (FullPath fp)) = Some (FileName fp).
Proof.
  destruct fp as [dir f]. intros Hf. cbn [FileName] in *. unfold FullPath. cbn [Dir FileName].
  assert (∃ path parts, filepath_Join dir f = filepath_Clean path ∧
    Split "/" path = parts ++ [f]) as (path & parts & -> & Hsplit).
  { unfold filepath_Join. cbn [filepath_Joins]. destruct Hf as (Hne & _ & _ & Hb).
    rw (bool_decide_eq_false_2 _ Hne). case_bool_decide.
    - exists f, []. split; [done|]. by rw Split_no_sep.
    - exists (dir +:+ "/" +:+ f), (Split "/" dir). split; [done|].
      change ("/" +:+ f) with (String "/" f). rw Split_app_sep (Split_no_sep "/" f) //. }
  unfold filepath_Clean. rw Hsplit.
  destruct (clean_components_last (HasPrefix path "/") parts f [] Hf) as [out ->].
  rw reverse_cons Join_snoc. set (prefix := if HasPrefix path "/" then "/" else "").
  set (cleaned := match reverse out with [] => f | _ => _ end).
  assert (cleaned = f ∨ ∃ x, cleaned = x +:+ String "/" f) as Hc.
  { unfold cleaned. destruct (reverse out) as [|y l]; [by left|right]. by eexists. }
  assert (prefix +:+ cleaned = f ∨ ∃ x, prefix +:+ cleaned = x +:+ String "/" f) as Hpc.
  { destruct Hc as [->|[x ->]].
    - unfold prefix. destruct (HasPrefix path "/"); [right; by exists ""|by left].
    - right. exists (prefix +:+ x). by rw string_app_assoc. }
  destruct Hf as (Hne & _ & _ & Hb). destruct Hpc as [->|[x ->]].
  - rw bool_decide_eq_false_2 // Split_no_sep //.
  - rw bool_decide_eq_false_2; [by destruct x|]. rw Split_app_sep (Split_no_sep "/" f) // last_snoc //.
Qed.

Lemma FullPath_inj fp fp' :
  plain (FileName fp) → plain (FileName fp') → FullPath fp = FullPath fp' →
  FileName fp = FileName fp'.
Proof.
  intros H1%last_FullPath H2%last_FullPath Heq. rw Heq H2 in H1. by injection H1.
Qed.
