(* ===== verification/Objects.v ===== *)
(** * Objects: the Kubernetes and Gateway API objects the controller reads

    The types of [k8s.io/api], [sigs.k8s.io/gateway-api] and the like are not
    part of the repository.  Each record below carries the fields the sources
    read, under the Go field name with a prefix for its struct; Go pointers
    are [option]s, [int32]/[int64] are [Z].  The types of [api/gate/v3] are
    the repository's own.

    The dynamic Go type of a [client.Object] is an [ObjKind]; the library
    function that maps it to its group, version and kind ([ExtractGVK]) is a
    parameter of the definitions that call it. *)

From S2P Require Import Prelude.


(** ** Keys *)
Record NamespacedName := NN { Namespace : string; Name : string }.

#[export] Instance NamespacedName_eq_dec : EqDecision NamespacedName.
Proof. solve_decision. Defined.
#[export] Instance NamespacedName_countable : Countable NamespacedName.
Proof.
  refine (inj_countable' (λ k, (Namespace k, Name k)) (λ p, NN p.1 p.2) _).
  by intros [].
Defined.

(** [types.NamespacedName.String]: the two parts around a slash. *)
Definition NamespacedName_String (k : NamespacedName) : string :=
  Namespace k +:+ "/" +:+ Name k.

Record GroupVersionKind := GVK { gvk_Group : string; gvk_Version : string; gvk_Kind : string }.

#[export] Instance GVK_eq_dec : EqDecision GroupVersionKind.
Proof. solve_decision. Defined.
#[export] Instance GVK_countable : Countable GroupVersionKind.
Proof.
  refine (inj_countable' (λ g, (gvk_Group g, gvk_Version g, gvk_Kind g))
            (λ p, GVK p.1.1 p.1.2 p.2) _).
  by intros [].
Defined.

(** The Go types of the objects the cluster store keeps. *)
Inductive ObjKind :=
  | KGatewayClass | KGateway | KHTTPRoute | KTLSRoute | KService | KNamespace
  | KSecret | KConfigMap | KCustomResourceDefinition | KHugGate | KBackend
  | KHugConf | KEndpointSlice.

#[export] Instance ObjKind_eq_dec : EqDecision ObjKind.
Proof. solve_decision. Defined.

(** [utilsk8s.ExtractGVK], applied to a value of the given Go type. *)
Definition ExtractGVK := ObjKind → GroupVersionKind.

Record ObjectMeta := Meta {
  meta_Namespace : string;
  meta_Name : string;
  meta_Generation : Z;
  meta_Annotations : gmap string string;
  meta_Labels : gmap string string;
  meta_CreationTimestamp : Z
}.

(** [client.ObjectKeyFromObject]. *)
Definition meta_key (m : ObjectMeta) : NamespacedName :=
  NN (meta_Namespace m) (meta_Name m).

Definition simple_meta (ns name : string) (gen : Z) : ObjectMeta :=
  Meta ns name gen ∅ ∅ 0.

(** ** Conditions as Kubernetes stores them *)
Record metav1Condition := MetaCondition {
  mc_Type : string;
  mc_Status : string;
  mc_Reason : string;
  mc_Message : string;
  mc_ObservedGeneration : Z;
  mc_LastTransitionTime : Z
}.

Definition ConditionTrue : string := "True".
Definition ConditionFalse : string := "False".
Definition ConditionUnknown : string := "Unknown".

(** ** GatewayClass *)
Record ParametersReference := ParamsRef {
  pr_Group : string; pr_Kind : string; pr_Name : string;
  pr_Namespace : option string
}.

Record K8sGatewayClass := {
  gwc_Meta : ObjectMeta;
  gwc_ControllerName : string;
  gwc_ParametersRef : option ParametersReference;
  gwc_Status_Conditions : list metav1Condition
}.

(** ** Gateway *)
Record RouteGroupKind := RGK { rgk_Group : option string; rgk_Kind : string }.

#[export] Instance RouteGroupKind_eq_dec : EqDecision RouteGroupKind.
Proof. solve_decision. Defined.

Record SecretObjectReference := SecretRef {
  sr_Group : option string; sr_Kind : option string; sr_Name : string;
  sr_Namespace : option string
}.

Record GatewayTLSConfig := TLSConfig {
  tls_Mode : option string;
  tls_CertificateRefs : list SecretObjectReference
}.

Record AllowedRoutes := { ar_Kinds : list RouteGroupKind }.

Record K8sListener := {
  l_Name : string;
  l_Hostname : option string;
  l_Port : Z;
  l_Protocol : string;
  l_TLS : option GatewayTLSConfig;
  l_AllowedRoutes : option AllowedRoutes
}.

Record LocalParametersReference := LocalParamsRef {
  lpr_Group : string; lpr_Kind : string; lpr_Name : string
}.

Record ListenerStatus := {
  ls_Name : string;
  (** [None] is the nil slice, which [cmp.Equal] tells from an empty one *)
  ls_SupportedKinds : option (list RouteGroupKind);
  ls_AttachedRoutes : Z;
  ls_Conditions : list metav1Condition
}.

Record K8sGateway := {
  gw_Meta : ObjectMeta;
  gw_GatewayClassName : string;
  gw_Listeners : list K8sListener;
  (** [Spec.Infrastructure], and its [ParametersRef] *)
  gw_Infrastructure : option (option LocalParametersReference);
  gw_Status_Conditions : list metav1Condition;
  gw_Status_Listeners : list ListenerStatus
}.

Definition HTTPProtocolType : string := "HTTP".
Definition HTTPSProtocolType : string := "HTTPS".
Definition TLSProtocolType : string := "TLS".
Definition TCPProtocolType : string := "TCP".
Definition TLSModeTerminate : string := "Terminate".
Definition TLSModePassthrough : string := "Passthrough".
(** [gatewayv1.GroupName]. *)
Definition GroupName : string := "gateway.networking.k8s.io".

(** ** Routes *)
Record ParentReference := ParentRef {
  p_Group : option string; p_Kind : option string; p_Namespace : option string;
  p_Name : string; p_SectionName : option string; p_Port : option Z
}.

Record BackendObjectReference := BackendObjRef {
  b_Group : option string; b_Kind : option string; b_Name : string;
  b_Namespace : option string; b_Port : option Z
}.

Record LocalObjectReference := LocalObjRef {
  lo_Group : string; lo_Kind : string; lo_Name : string
}.

Record HTTPRouteFilter := {
  f_Type : string;
  f_ExtensionRef : option LocalObjectReference
}.

Definition HTTPRouteFilterExtensionRef : string := "ExtensionRef".

Record HTTPBackendRef := {
  hb_Ref : BackendObjectReference;
  hb_Weight : option Z;
  hb_Filters : list HTTPRouteFilter
}.

Record HTTPPathMatch := PathMatch { pm_Type : option string; pm_Value : option string }.

Record HTTPRouteMatch := { m_Path : option HTTPPathMatch }.

Definition PathMatchExact : string := "Exact".
Definition PathMatchPathPrefix : string := "PathPrefix".
Definition PathMatchRegularExpression : string := "RegularExpression".

Record K8sHTTPRouteRule := {
  hr_Matches : list HTTPRouteMatch;
  hr_BackendRefs : list HTTPBackendRef
}.

Record RouteParentStatus := {
  rps_ParentRef : ParentReference;
  rps_ControllerName : string;
  rps_Conditions : list metav1Condition
}.

Record K8sHTTPRoute := {
  hroute_Meta : ObjectMeta;
  hroute_ParentRefs : list ParentReference;
  hroute_Hostnames : list string;
  hroute_Rules : list K8sHTTPRouteRule;
  hroute_Status_Parents : list RouteParentStatus
}.

Record K8sBackendRef := { tb_Ref : BackendObjectReference; tb_Weight : option Z }.

Record K8sTLSRouteRule := { tr_BackendRefs : list K8sBackendRef }.

Record K8sTLSRoute := {
  troute_Meta : ObjectMeta;
  troute_ParentRefs : list ParentReference;
  troute_Hostnames : list string;
  troute_Rules : list K8sTLSRouteRule;
  troute_Status_Parents : list RouteParentStatus
}.

(** ** Core objects *)

(** [intstr.IntOrString]. *)
Inductive IntOrString := IntVal (n : Z) | StrVal (s : string).

Record ServicePort := { sp_Port : Z; sp_TargetPort : IntOrString }.

Record K8sService := { svc_Meta : ObjectMeta; svc_Ports : list ServicePort }.
Record K8sNamespace := { ns_Meta : ObjectMeta }.
Record K8sSecret := { sec_Meta : ObjectMeta; sec_Data : gmap string string }.
Record K8sConfigMap := { cm_Meta : ObjectMeta }.

(** [metav1.PartialObjectMetadata], for the Gateway API CRDs. *)
Record PartialObjectMetadata := { crd_Meta : ObjectMeta }.

Record Endpoint := { ep_Addresses : list string; ep_Ready : option bool }.
Record EndpointPort := { epp_Name : option string; epp_Port : option Z }.

Record K8sEndpointSlice := {
  eps_Meta : ObjectMeta;
  eps_AddressType : string;
  eps_Endpoints : list Endpoint;
  eps_Ports : list EndpointPort
}.

(** ** The repository's own custom resources: [api/gate/v3] *)

(** api/gate/v3/gate.go *)
Record HugGate := { hg_Meta : ObjectMeta; MWorkerMaxReload : Z }.

(** api/gate/v3/hug-conf.go *)
Record CategoryLevel := { Category : string; Level : string }.
Record Logging := { DefaultLevel : string; CategoryLevelList : list CategoryLevel }.
Record HugConf := { hc_Meta : ObjectMeta; hc_Logging : Logging }.

(** api/gate/v3/backend.go; the embedded HAProxy model (a type of
    client-native) is kept as its JSON text. *)
Record BackendCR := { bcr_Meta : ObjectMeta; bcr_Spec : string }.

(** A value of the Go interface [client.Object]. *)
Inductive Object :=
  | OGatewayClass (o : K8sGatewayClass) | OGateway (o : K8sGateway)
  | OHTTPRoute (o : K8sHTTPRoute) | OTLSRoute (o : K8sTLSRoute)
  | OService (o : K8sService) | ONamespace (o : K8sNamespace)
  | OSecret (o : K8sSecret) | OConfigMap (o : K8sConfigMap)
  | OCRD (o : PartialObjectMetadata) | OHugGate (o : HugGate)
  | OBackend (o : BackendCR) | OHugConf (o : HugConf)
  | OEndpointSlice (o : K8sEndpointSlice).

Definition kind_of (o : Object) : ObjKind :=
  match o with
  | OGatewayClass _ => KGatewayClass | OGateway _ => KGateway
  | OHTTPRoute _ => KHTTPRoute | OTLSRoute _ => KTLSRoute
  | OService _ => KService | ONamespace _ => KNamespace
  | OSecret _ => KSecret | OConfigMap _ => KConfigMap
  | OCRD _ => KCustomResourceDefinition | OHugGate _ => KHugGate
  | OBackend _ => KBackend | OHugConf _ => KHugConf
  | OEndpointSlice _ => KEndpointSlice
  end.

Definition meta_of (o : Object) : ObjectMeta :=
  match o with
  | OGatewayClass o => gwc_Meta o | OGateway o => gw_Meta o
  | OHTTPRoute o => hroute_Meta o | OTLSRoute o => troute_Meta o
  | OService o => svc_Meta o | ONamespace o => ns_Meta o
  | OSecret o => sec_Meta o | OConfigMap o => cm_Meta o
  | OCRD o => crd_Meta o | OHugGate o => hg_Meta o
  | OBackend o => bcr_Meta o | OHugConf o => hc_Meta o
  | OEndpointSlice o => eps_Meta o
  end.

(** [client.ObjectKeyFromObject]. *)
Definition ObjectKeyFromObject (o : Object) : NamespacedName := meta_key (meta_of o).

(** The Go type behind each kind, and the type assertion [obj.(T)]. *)
Definition kind_type (k : ObjKind) : Type :=
  match k with
  | KGatewayClass => K8sGatewayClass | KGateway => K8sGateway
  | KHTTPRoute => K8sHTTPRoute | KTLSRoute => K8sTLSRoute
  | KService => K8sService | KNamespace => K8sNamespace
  | KSecret => K8sSecret | KConfigMap => K8sConfigMap
  | KCustomResourceDefinition => PartialObjectMetadata | KHugGate => HugGate
  | KBackend => BackendCR | KHugConf => HugConf
  | KEndpointSlice => K8sEndpointSlice
  end.

Definition type_assert (k : ObjKind) (o : Object) : option (kind_type k) :=
  match k, o return option (kind_type k) with
  | KGatewayClass, OGatewayClass o => Some o | KGateway, OGateway o => Some o
  | KHTTPRoute, OHTTPRoute o => Some o | KTLSRoute, OTLSRoute o => Some o
  | KService, OService o => Some o | KNamespace, ONamespace o => Some o
  | KSecret, OSecret o => Some o | KConfigMap, OConfigMap o => Some o
  | KCustomResourceDefinition, OCRD o => Some o | KHugGate, OHugGate o => Some o
  | KBackend, OBackend o => Some o | KHugConf, OHugConf o => Some o
  | KEndpointSlice, OEndpointSlice o => Some o
  | _, _ => None
  end.

Lemma type_assert_kind k o : is_Some (type_assert k o) ↔ kind_of o = k.
Proof. destruct k, o; simpl; split; intros Hk; (by destruct Hk) || done || by eexists. Qed.
