(* ===== verification/Utils.v ===== *)
(** * Utils: k8s/gate/utils (utils.go, keymap.go, errors.go)

    [KeyMap] with its key encodings for parent and backend references, the
    hostname intersection used to fill the route maps, set operations on map
    keys and the error accumulator. *)

From Stdlib Require Import Ascii.
From S2P Require Import Prelude GoStrings Objects.


(** ** keymap.go: maps keyed by a computed string *)
Record KeyMap (KEY VALUE : Type) := mkKeyMap {
  data : gmap string VALUE;
  computeKey : KEY → string
}.
Arguments mkKeyMap {KEY VALUE} data computeKey.
Arguments data {KEY VALUE} k.
Arguments computeKey {KEY VALUE} k.

Module KeyMaps.
Section keymap.
Context {KEY VALUE : Type}.

Definition NewKeyMap (keygen : KEY → string) : KeyMap KEY VALUE := mkKeyMap ∅ keygen.

Definition Get (m : KeyMap KEY VALUE) (key : KEY) : option VALUE :=
  data m !! computeKey m key.

Definition Exists (m : KeyMap KEY VALUE) (key : KEY) : bool :=
  match data m !! computeKey m key with Some _ => true | None => false end.

Definition Set_ (m : KeyMap KEY VALUE) (key : KEY) (value : VALUE) : KeyMap KEY VALUE :=
  mkKeyMap (<[computeKey m key := value]> (data m)) (computeKey m).

Definition Delete (m : KeyMap KEY VALUE) (key : KEY) : KeyMap KEY VALUE :=
  mkKeyMap (delete (computeKey m key) (data m)) (computeKey m).

Definition Len (m : KeyMap KEY VALUE) : nat := size (data m).

Definition Clear (m : KeyMap KEY VALUE) : KeyMap KEY VALUE := mkKeyMap ∅ (computeKey m).

(** [Iterate]: the callback threads a state and says whether to go on. *)
Fixpoint iterate_entries {S} (callback : string → VALUE → S → S * bool)
    (l : list (string * VALUE)) (s : S) : S :=
  match l with
  | [] => s
  | (k, v) :: l =>
      let '(s', continue) := callback k v s in
      if (continue : bool) then iterate_entries callback l s' else s'
  end.

Definition Iterate `{RangeOrder} {S} (m : KeyMap KEY VALUE)
    (callback : string → VALUE → S → S * bool) (s : S) : S :=
  iterate_entries callback (range (data m)) s.

(** [DeepCopy]: values are copied through their own [DeepCopy() VALUE]
    method; a value type without that method ([copier = None]) is dropped. *)
Definition DeepCopy (copier : option (VALUE → VALUE)) (m : KeyMap KEY VALUE) :
    KeyMap KEY VALUE :=
  match copier with
  | Some copy => mkKeyMap (copy <$> data m) (computeKey m)
  | None => mkKeyMap ∅ (computeKey m)
  end.
End keymap.
End KeyMaps.

(** ** keymap.go: string encodings of references *)
Definition StrPtrToString (p : option string) : string :=
  match p with None => "_" | Some s => s end.

Definition StringToPtr (s : string) : option string :=
  if bool_decide (s = "_") then None else Some s.

Definition colon : Ascii.ascii := ":"%char.

Definition ParentRefToKey (parentRef : ParentReference) : string :=
  Join [StrPtrToString (p_Group parentRef); StrPtrToString (p_Kind parentRef);
        StrPtrToString (p_Namespace parentRef); p_Name parentRef;
        StrPtrToString (p_SectionName parentRef)] ":".

Definition KeyToParentRef (key : string) : result ParentReference :=
  match Split colon key with
  | [g; k; ns; n; sec] =>
      Ok (ParentRef (StringToPtr g) (StringToPtr k) (StringToPtr ns) n (StringToPtr sec) None)
  | parts => Err ("invalid parent reference key: expected 5 parts, got " +:+ pretty (length parts))
  end.

Definition BackendObjectReferenceToKey (backendRef : BackendObjectReference) : string :=
  Join [StrPtrToString (b_Group backendRef); StrPtrToString (b_Kind backendRef);
        StrPtrToString (b_Namespace backendRef); b_Name backendRef] ":".

Definition KeyToBackendObjectReference (key : string) : result BackendObjectReference :=
  match Split colon key with
  | [g; k; ns; n] =>
      Ok (BackendObjRef (StringToPtr g) (StringToPtr k) n (StringToPtr ns) None)
  | parts => Err ("invalid backendref key: expected 4 parts, got " +:+ pretty (length parts))
  end.

(** ** utils.go *)
Definition ParseNamespacedName (s : string) : result NamespacedName :=
  match SplitN2 "/" s with
  | [ns; n] => Ok (NN ns n)
  | _ => Err ("invalid format: expected namespace/name, got " +:+ s)
  end.

Definition ObjectKeyFromNamespacedName (s : string) : result NamespacedName :=
  match Split "/" s with
  | [ns; n] => Ok (NN ns n)
  | _ => Err ("invalid format: expected namespace/name, got " +:+ s)
  end.

(** [ClearMap]: deletes every key while ranging over the map. *)
Definition ClearMap `{RangeOrder} {K} `{Countable K} {V} (m : gmap K V) : gmap K V :=
  range_fold (λ k _ acc, delete k acc) m m.

Definition Keys `{RangeOrder} {K} `{Countable K} {V} (src : gmap K V) : gset K :=
  range_fold (λ k _ dst, {[k]} ∪ dst) src ∅.

Definition NamespaceAsString (ns : option string) : string :=
  match ns with None => "" | Some s => s end.

Definition RouteGroupKindsToString (routesGK : list RouteGroupKind) : string :=
  "[" +:+ Join (rgk_Kind <$> routesGK) ", " +:+ "]".

Definition SetDifference `{RangeOrder} {K} `{Countable K} {V W}
    (mapA : gmap K V) (mapB : gmap K W) : gset K :=
  range_fold (λ key _ diff,
    match mapB !! key with None => {[key]} ∪ diff | Some _ => diff end) mapA ∅.

Definition SetIntersection `{RangeOrder} {K} `{Countable K} {V W}
    (mapA : gmap K V) (mapB : gmap K W) : gset K :=
  range_fold (λ key _ intersection,
    match mapB !! key with Some _ => {[key]} ∪ intersection | None => intersection end)
    mapA ∅.

(** [ComparePointers] with the comparison of the pointed values. *)
Definition ComparePointers {T} (cmp : T → T → comparison) (a b : option T) : comparison :=
  match a, b with
  | None, Some _ => Lt
  | Some _, None => Gt
  | Some a, Some b => cmp a b
  | None, None => Eq
  end.

Definition PointerDefaultValueIfNil {T} (zero : T) (arg : option T) : T :=
  match arg with None => zero | Some a => a end.

Definition GetNamespacedName (name namespace defaultNamespace : string) : NamespacedName :=
  if bool_decide (namespace = "") then NN defaultNamespace name else NN namespace name.

Definition hostnamesMatchingRouteAndListener (pattern hostname : string) : bool :=
  if negb (HasPrefix pattern "*.") then bool_decide (pattern = hostname)
  else HasSuffix hostname (drop_string 1 pattern).

(** One iteration of the loop over the route hostnames. *)
Definition matchedHostname (listenerHostname routeHostname : string) : option string :=
  if hostnamesMatchingRouteAndListener routeHostname listenerHostname
  then Some listenerHostname
  else if hostnamesMatchingRouteAndListener listenerHostname routeHostname
  then Some routeHostname
  else None.

Definition GetHostnamesForRouteWithListener `{RangeOrder}
    (listenerHostname : option string) (routeHostnames : list string) : list string :=
  match listenerHostname with
  | None => routeHostnames
  | Some l =>
      match routeHostnames with
      | [] => [l]
      | _ =>
          let matched := foldl (λ acc r,
            match matchedHostname l r with
            | Some h => {[h]} ∪ acc | None => acc end) (∅ : gset string) routeHostnames in
          SortStrings (range_set matched)
      end
  end.

Definition ConvertSliceWithFunc {U V} (arg : list U) (f : U → V) : list V := f <$> arg.

(** ** errors.go: the accumulator of errors of a loop *)
Definition Errors := list string.

(** [Add]: a nil error ([None]) is not recorded. *)
Definition Errors_Add (e : Errors) (errs : list (option string)) : Errors :=
  foldl (λ e err, match err with Some err => e ++ [err] | None => e end) e errs.

Definition Errors_Result (e : Errors) : option string :=
  let result := foldl (λ acc err, acc +:+ err +:+ String "010" "") "" e in
  if bool_decide (result = "") then None else Some result.

Definition Errors_AddErrors (e errs : Errors) : Errors :=
  foldl (λ e err, Errors_Add e [Some err]) e errs.

(** ** Lemmas: set operations on keys *)
Section sets.
Context {RO : RangeOrder} {K : Type} {EqK : EqDecision K} {CK : Countable K}.
Context {V W : Type}.
Implicit Types (m : gmap K V) (mB : gmap K W).

Lemma Keys_dom m : Keys m = dom m.
Proof.
  unfold Keys. apply (range_fold_ind (λ d s, s = dom d)).
  - by rw dom_empty_L.
  - intros k v d s _ _ _ ->. by rw dom_insert_L.
Qed.

Lemma SetDifference_spec m mB : SetDifference m mB = dom m ∖ dom mB.
Proof.
  unfold SetDifference. apply (range_fold_ind (λ d s, s = dom d ∖ dom mB)).
  - rw dom_empty_L. set_solver.
  - intros k v d s _ _ _ ->. rw dom_insert_L. destruct (mB !! k) eqn:Hk.
    + assert (k ∈ dom mB) by (apply elem_of_dom; eauto). set_solver.
    + assert (k ∉ dom mB) by (by apply not_elem_of_dom). set_solver.
Qed.

Lemma SetIntersection_spec m mB : SetIntersection m mB = dom m ∩ dom mB.
Proof.
  unfold SetIntersection. apply (range_fold_ind (λ d s, s = dom d ∩ dom mB)).
  - rw dom_empty_L. set_solver.
  - intros k v d s _ _ _ ->. rw dom_insert_L. destruct (mB !! k) eqn:Hk.
    + assert (k ∈ dom mB) by (apply elem_of_dom; eauto). set_solver.
    + assert (k ∉ dom mB) by (by apply not_elem_of_dom). set_solver.
Qed.

(** Deleting while ranging leaves nothing, whatever the order. *)
Lemma ClearMap_empty m : ClearMap m = ∅.
Proof.
  apply map_empty. intros k.
  enough (∀ k, ClearMap m !! k = match m !! k with Some _ => None | None => m !! k end)
    as -> by (by destruct (m !! k)).
  unfold ClearMap.
  apply (range_fold_ind (λ d s, ∀ k,
    s !! k = match d !! k with Some _ => None | None => m !! k end)).
  - intros k'. by rw lookup_empty.
  - intros k1 v d s _ _ _ IH k'. destruct (decide (k1 = k')) as [->|Hne].
    + by rw lookup_delete_eq lookup_insert_eq.
    + rw lookup_delete_ne // lookup_insert_ne //.
Qed.
End sets.

(** ** Lemmas: hostnames *)
Lemma elem_of_matched (l h : string) (rs : list string) (acc : gset string) :
  h ∈ foldl (λ acc r, match matchedHostname l r with
                      | Some h => {[h]} ∪ acc | None => acc end) acc rs ↔
  h ∈ acc ∨ ∃ r, r ∈ rs ∧ matchedHostname l r = Some h.
Proof.
  revert acc. induction rs as [|r rs IH]; intros acc; simpl.
  - set_solver.
  - rw IH. destruct (matchedHostname l r) eqn:E; set_solver.
Qed.

Section hostnames.
Context {RO : RangeOrder}.

Lemma elem_of_GetHostnames l rs h :
  rs ≠ [] →
  h ∈ GetHostnamesForRouteWithListener (Some l) rs ↔
  ∃ r, r ∈ rs ∧ matchedHostname l r = Some h.
Proof.
  intros Hrs. destruct rs as [|r0 rs]; [done|]. unfold GetHostnamesForRouteWithListener.
  rw elem_of_SortStrings elem_of_range_set elem_of_matched. set_solver.
Qed.

(** The hostnames a listener accepts for a route, sorted and without
    duplicates, do not depend on the iteration order of the Go map. *)
Lemma GetHostnames_sorted l rs :
  rs ≠ [] →
  StronglySorted String.le (GetHostnamesForRouteWithListener (Some l) rs) ∧
  NoDup (GetHostnamesForRouteWithListener (Some l) rs).
Proof.
  intros Hrs. destruct rs as [|r rs]; [done|]. unfold GetHostnamesForRouteWithListener.
  split.
  - unfold SortStrings. apply StronglySorted_merge_sort; apply _.
  - unfold SortStrings. rw merge_sort_Permutation. apply NoDup_range_set.
Qed.
End hostnames.

Lemma GetHostnames_order_independent (RO1 RO2 : RangeOrder) l rs :
  @GetHostnamesForRouteWithListener RO1 l rs = @GetHostnamesForRouteWithListener RO2 l rs.
Proof.
  destruct l as [l|]; [|done]. destruct rs as [|r rs]; [done|].
  unfold GetHostnamesForRouteWithListener. apply SortStrings_Permutation.
  apply NoDup_Permutation; [apply NoDup_range_set..|].
  intros x. by rw !elem_of_range_set.
Qed.

(** ** Lemmas: key encodings *)

(** A component survives the encoding when it holds no colon and, for an
    optional one, is not the text ["_"] that stands for nil. *)
Definition key_part_ok (s : string) : Prop := has_byte colon s = false.
Definition key_opt_ok (p : option string) : Prop :=
  match p with None => True | Some s => key_part_ok s ∧ s ≠ "_" end.

Lemma StringToPtr_StrPtrToString p : key_opt_ok p → StringToPtr (StrPtrToString p) = p.
Proof. destruct p as [s|]; [|done]. intros [_ Hs]. unfold StringToPtr. simpl. by case_bool_decide. Qed.

Lemma StrPtrToString_StringToPtr s : StrPtrToString (StringToPtr s) = s.
Proof. unfold StringToPtr. by case_bool_decide; subst. Qed.

Lemma StrPtrToString_ok p : key_opt_ok p → has_byte colon (StrPtrToString p) = false.
Proof. destruct p as [s|]; [by intros [? _]|done]. Qed.

Definition parentRef_ok (p : ParentReference) : Prop :=
  key_opt_ok (p_Group p) ∧ key_opt_ok (p_Kind p) ∧ key_opt_ok (p_Namespace p) ∧
  key_part_ok (p_Name p) ∧ key_opt_ok (p_SectionName p).

Definition forget_port (p : ParentReference) : ParentReference :=
  ParentRef (p_Group p) (p_Kind p) (p_Namespace p) (p_Name p) (p_SectionName p) None.

Lemma KeyToParentRef_Key p :
  parentRef_ok p → KeyToParentRef (ParentRefToKey p) = Ok (forget_port p).
Proof.
  intros (Hg & Hk & Hns & Hn & Hs). unfold KeyToParentRef, ParentRefToKey, colon.
  rw Split_Join //.
  - repeat constructor; auto using StrPtrToString_ok.
  - by rw /= !StringToPtr_StrPtrToString.
Qed.

Lemma ParentRefToKey_KeyTo key p : KeyToParentRef key = Ok p → ParentRefToKey p = key.
Proof.
  unfold KeyToParentRef. intros Hk. rw -(Join_Split colon key).
  destruct (Split colon key) as [|a [|b [|c [|d [|e [|? ?]]]]]]; simplify_eq.
  unfold ParentRefToKey; simpl p_Group; simpl p_Kind; simpl p_Namespace;
    simpl p_Name; simpl p_SectionName. by rw !StrPtrToString_StringToPtr.
Qed.

Definition backendRef_ok (b : BackendObjectReference) : Prop :=
  key_opt_ok (b_Group b) ∧ key_opt_ok (b_Kind b) ∧ key_opt_ok (b_Namespace b) ∧
  key_part_ok (b_Name b).

Lemma KeyToBackendObjectReference_Key b :
  backendRef_ok b →
  KeyToBackendObjectReference (BackendObjectReferenceToKey b) =
  Ok (BackendObjRef (b_Group b) (b_Kind b) (b_Name b) (b_Namespace b) None).
Proof.
  intros (Hg & Hk & Hns & Hn).
  unfold KeyToBackendObjectReference, BackendObjectReferenceToKey, colon.
  rw Split_Join //.
  - repeat constructor; auto using StrPtrToString_ok.
  - by rw /= !StringToPtr_StrPtrToString.
Qed.

(** ** Lemmas: KeyMap *)
Section keymap_lemmas.
Context {KEY VALUE : Type}.
Implicit Types (m : KeyMap KEY VALUE).

Lemma Get_Set_eq m k v : KeyMaps.Get (KeyMaps.Set_ m k v) k = Some v.
Proof. unfold KeyMaps.Get, KeyMaps.Set_. simpl. apply lookup_insert_eq. Qed.

Lemma Get_Set_ne m k k' v :
  computeKey m k ≠ computeKey m k' →
  KeyMaps.Get (KeyMaps.Set_ m k v) k' = KeyMaps.Get m k'.
Proof. intros. unfold KeyMaps.Get, KeyMaps.Set_. simpl. by rw lookup_insert_ne. Qed.

Lemma Get_NewKeyMap f k : KeyMaps.Get (KeyMaps.NewKeyMap f : KeyMap KEY VALUE) k = None.
Proof. apply lookup_empty. Qed.

(** A callback that always goes on makes [Iterate] a fold. *)
Lemma Iterate_fold {RO : RangeOrder} {S} m (f : string → VALUE → S → S) s :
  KeyMaps.Iterate m (λ k v s, (f k v s, true)) s = range_fold f (data m) s.
Proof.
  unfold KeyMaps.Iterate, range_fold. generalize (range (data m)). intros l.
  revert s. induction l as [|[k v] l IH]; intros s; simpl; [done|]. apply IH.
Qed.
End keymap_lemmas.

(** ** Lemmas: Errors *)
Lemma Errors_AddErrors_app e errs : Errors_AddErrors e errs = e ++ errs.
Proof.
  unfold Errors_AddErrors. revert e. induction errs as [|x errs IH]; intros e; simpl.
  - by rw app_nil_r.
  - rw IH. unfold Errors_Add. simpl. by rw -app_assoc.
Qed.

Lemma Errors_Result_None e : Errors_Result e = None ↔ e = [].
Proof.
  unfold Errors_Result. split; [|by intros ->].
  case_bool_decide as Hr; [|done]. intros _.
  destruct e as [|x e]; [done|]. exfalso.
  enough (∀ l acc, acc ≠ "" →
    foldl (λ acc err, acc +:+ err +:+ String "010" "") acc l ≠ "") as Hne.
  { eapply (Hne e); [|exact Hr]. simpl. rw string_app_nil.
    intros Hx. by destruct x. }
  induction l as [|y l IH]; intros acc Hacc; simpl; [done|].
  apply IH. by destruct acc.
Qed.

(** ** Properties *)

(** C12: the string key of a parent reference decodes to the reference it came
    from, port excepted, when no component holds the separator or the text
    that stands for nil; and any key that decodes re-encodes to itself. *)
Theorem ParentRefToKey_roundtrip p key q :
  parentRef_ok p → KeyToParentRef key = Ok q →
  KeyToParentRef (ParentRefToKey p) = Ok (forget_port p) ∧ ParentRefToKey q = key.
Proof.
  intros Hp Hq. split; [by apply KeyToParentRef_Key|by apply ParentRefToKey_KeyTo].
Qed.

Lemma ParentRefToKey_roundtrip_witness :
  let p := ParentRef None (Some "Gateway") (Some "ns") "gw" (Some "https") (Some 443%Z) in
  let q := ParentRef (Some "g") None None "n" None None in
  KeyToParentRef (ParentRefToKey p) = Ok (forget_port p) ∧
  ParentRefToKey q = "g:_:_:n:_".
Proof.
  apply ParentRefToKey_roundtrip; [|reflexivity].
  repeat split; done.
Defined.
