(* ===== verification/Templates.v ===== *)
(** * Templates: templates/templates.go, and [html/template] as the names use it

    The names of the frontends come from a template of [html/template].  A
    template that only has text and fields, such as the default one, is parsed
    and executed here; what the library does with any other is an argument.

    The names that the validation of Kubernetes accepts have neither the
    separator of the default template nor a character that is escaped, so the
    default template tells the listeners of all the Gateways apart. *)

From Stdlib Require Import Ascii.
From S2P Require Import Prelude GoStrings Objects.

Local Open Scope gate_scope.

(** ** html/template *)
Inductive TemplateItem := TText (s : string) | TField (name : string).

(** [strings.Cut] at two bytes. *)
Fixpoint cut2 (a b : ascii) (s : string) : option (string * string) :=
  match s with
  | String x (String y s' as rest) =>
      if bool_decide (x = a) && bool_decide (y = b) then Some ("", s')
      else '(u, v) ← cut2 a b rest; Some (String x u, v)
  | _ => None
  end.

Definition in_range (lo hi : nat) (c : ascii) : bool :=
  let n := nat_of_ascii c in (lo <=? n)%nat && (n <=? hi)%nat.

Definition is_digit : ascii → bool := in_range 48 57.
Definition is_lower : ascii → bool := in_range 97 122.
Definition is_upper : ascii → bool := in_range 65 90.

Fixpoint all_bytes (p : ascii → bool) (s : string) : bool :=
  match s with EmptyString => true | String c s => p c && all_bytes p s end.

(** The field of an action [.NAME]; any other action is not one. *)
Definition field_of (action : string) : option string :=
  match TrimSpace action with
  | String "." (String c name' as name) =>
      if negb (is_digit c) && all_bytes (λ c, is_digit c || is_lower c || is_upper c || bool_decide (c = "_"%char)) name
      then Some name else None
  | _ => None
  end.

(** The items of a template; [None] when it has more than text and fields.  Text
    with a [<] would change how the fields after it are escaped. *)
Fixpoint parse_items (fuel : nat) (s : string) : option (list TemplateItem) :=
  match fuel with
  | O => None
  | S fuel =>
      match cut2 "{" "{" s with
      | None => if has_byte "<" s then None else Some [TText s]
      | Some (text, rest) =>
          if has_byte "<" text then None
          else
            '(action, rest) ← cut2 "}" "}" rest;
            name ← field_of action;
            items ← parse_items fuel rest;
            Some (TText text :: TField name :: items)
      end
  end.

(** Each action takes a byte at least. *)
Definition parse_template (s : string) : option (list TemplateItem) := parse_items (S (String.length s)) s.

(** The escaping of a field in text. *)
Definition html_escape_byte (c : ascii) : string :=
  match nat_of_ascii c with
  | 0 => String "239" (String "191" (String "189" ""))
  | 34 => "&#34;" | 38 => "&amp;" | 39 => "&#39;" | 43 => "&#43;" | 60 => "&lt;" | 62 => "&gt;"
  | _ => String c ""
  end%nat.

Fixpoint html_escape (s : string) : string :=
  match s with EmptyString => "" | String c s => html_escape_byte c +:+ html_escape s end.

(** The fields of the data, each with its text; a field it lacks is an error. *)
Fixpoint execute_items (fields : string → option string) (items : list TemplateItem) : result string :=
  match items with
  | [] => Ok ""
  | TText s :: items => rest <-! execute_items fields items; Ok (s +:+ rest)
  | TField name :: items =>
      match fields name with
      | None => Err ("can't evaluate field " +:+ name +:+ " in type templates.TemplateData")
      | Some v => rest <-! execute_items fields items; Ok (html_escape v +:+ rest)
      end
  end.

(** [template.New(..).Parse(text)], then [Execute] on the data. *)
Definition template_expand (other : string → (string → option string) → result string) (text : string)
    (fields : string → option string) : result string :=
  match parse_template text with
  | Some items => execute_items fields items
  | None => other text fields
  end.

(** ** templates.TemplateData, for a frontend: the other fields are zero. *)
Definition frontend_fields (linkID : string) (gwKey : NamespacedName) (listener : string) (field : string) :
    option string :=
  if bool_decide (field = "GATEWAY_NAMESPACE") then Some (Namespace gwKey)
  else if bool_decide (field = "GATEWAY_NAME") then Some (Name gwKey)
  else if bool_decide (field = "LISTENER_NAME") then Some listener
  else if bool_decide (field = "LINK_ID") then Some linkID
  else if bool_decide (field = "SERVICE_PORT") then Some "0"
  else if bool_decide (field ∈ ["SERVICE_NAMESPACE"; "SERVICE_NAME"; "FILTER_HASH"; "POD_IP_PORT_HASH"]) then Some ""
  else None.

Definition defaultFrontendNameTemplate : string :=
  "{{ .LINK_ID }}_{{ .GATEWAY_NAMESPACE}}_{{ .GATEWAY_NAME }}_{{ .LISTENER_NAME }}".

(** ** The names the API accepts *)

(** The characters of the names of objects and of listeners: those of the
    subdomains of RFC 1123. *)
Definition dns_byte (c : ascii) : bool :=
  is_lower c || is_digit c || bool_decide (c = "-"%char) || bool_decide (c = "."%char).

Definition dns_name (s : string) : bool := all_bytes dns_byte s.

(** A Gateway and one of its listeners, as the API names them. *)
Definition api_names (gwKey : NamespacedName) (listener : string) : Prop :=
  dns_name (Namespace gwKey) = true ∧ dns_name (Name gwKey) = true ∧ dns_name listener = true.

(** The name the default template gives. *)
Definition default_name (linkID : string) (gwKey : NamespacedName) (listener : string) : string :=
  html_escape linkID +:+ "_" +:+ Namespace gwKey +:+ "_" +:+ Name gwKey +:+ "_" +:+ listener.

Lemma dns_byte_plain c : dns_byte c = true → html_escape_byte c = String c "" ∧ c ≠ "_"%char.
Proof. destruct c as [[] [] [] [] [] [] [] []]; (intros [=]; fail) || (intros _; by split). Qed.

Lemma html_escape_dns s : dns_name s = true → html_escape s = s.
Proof.
  unfold dns_name. induction s as [|c s IH]; cbn; [done|]. intros [Hc Hs]%andb_true_iff.
  by rw (proj1 (dns_byte_plain c Hc)) IH.
Qed.

Lemma dns_no_separator s : dns_name s = true → has_byte "_" s = false.
Proof.
  unfold dns_name. induction s as [|c s IH]; cbn; [done|]. intros [Hc Hs]%andb_true_iff.
  by rw IH // bool_decide_eq_false_2 //; apply dns_byte_plain.
Qed.

Lemma default_template_items :
  parse_template defaultFrontendNameTemplate =
  Some [TText ""; TField "LINK_ID"; TText "_"; TField "GATEWAY_NAMESPACE"; TText "_"; TField "GATEWAY_NAME";
        TText "_"; TField "LISTENER_NAME"; TText ""].
Proof. vm_compute. reflexivity. Qed.

Lemma default_template_name other linkID gwKey listener :
  api_names gwKey listener →
  template_expand other defaultFrontendNameTemplate (frontend_fields linkID gwKey listener) =
  Ok (default_name linkID gwKey listener).
Proof.
  intros (H1 & H2 & H3). unfold template_expand, default_name. rw default_template_items. cbn [execute_items].
  change (frontend_fields linkID gwKey listener "LINK_ID") with (Some linkID).
  change (frontend_fields linkID gwKey listener "GATEWAY_NAMESPACE") with (Some (Namespace gwKey)).
  change (frontend_fields linkID gwKey listener "GATEWAY_NAME") with (Some (Name gwKey)).
  change (frontend_fields linkID gwKey listener "LISTENER_NAME") with (Some listener).
  cbn [result_bind].
  by rw (html_escape_dns (Namespace gwKey)) // (html_escape_dns (Name gwKey)) // (html_escape_dns listener) //
    !string_app_nil_r.
Qed.

Lemma default_name_inj linkID gw ln gw' ln' :
  api_names gw ln → api_names gw' ln' →
  default_name linkID gw ln = default_name linkID gw' ln' → gw = gw' ∧ ln = ln'.
Proof.
  intros (H1 & H2 & _) (H1' & H2' & _). unfold default_name.
  intros Heq%(inj (String.append (html_escape linkID))). injection Heq as Heq.
  apply (f_equal (Cut "_")) in Heq. rw !Cut_app // in Heq; [by apply dns_no_separator..|]. injection Heq as Hns Heq.
  apply (f_equal (Cut "_")) in Heq. rw !Cut_app // in Heq; [by apply dns_no_separator..|]. injection Heq as Hn Hl.
  destruct gw, gw'. cbn in *. by subst.
Qed.

(** The separator is not told from a name that has it: names the API refuses can
    collide. *)
Lemma default_names_collide linkID :
  default_name linkID (NN "a" "b_c") "d" = default_name linkID (NN "a_b" "c") "d".
Proof. done. Qed.
