(* ===== verification/Conditions.v ===== *)
(** * Conditions: k8s/gate/conditions

    [generic/conditions.go] (the condition maps kept in the tree),
    [conditions.go] has the same type and functions;
    [gatewayclass.go], [gateway.go], [gateway_listener.go] and
    [routes/http-route.go] are the conditions the checks produce, and
    [routes/conditions-route.go] the per-parent conditions of a route. *)

From S2P Require Import Prelude GoStrings Objects Utils.

(** ** generic/conditions.go *)
Record Condition := Cond {
  Type_ : string;
  Status : string;
  Reason : string;
  Message : string;
  ObservedGeneration : Z
}.

#[export] Instance Condition_eq_dec : EqDecision Condition.
Proof. solve_decision. Defined.

(** [map\[ConditionType\]Condition]. *)
Abbreviation Conditions := (gmap string Condition).

(** Go's zero [Condition], read from a map at a missing key. *)
Definition zero_Condition : Condition := Cond "" "" "" "" 0.

(** [maps.Copy(c, b)]. *)
Definition MergeOverrideConditions (c b : Conditions) : Conditions := b ∪ c.

Definition Conditions_Equal `{RangeOrder} (c b : Conditions) : bool :=
  if negb (bool_decide (size c = size b)) then false
  else negb (existsb (λ kv, negb (bool_decide (default zero_Condition (b !! kv.1) = kv.2)))
               (range c)).

Definition with_generation (generation : Z) (c : Condition) : Condition :=
  Cond (Type_ c) (Status c) (Reason c) (Message c) generation.

(** The loop writes back under the [Type] field, not under the visited key. *)
Definition SetGeneration `{RangeOrder} (c : Conditions) (generation : Z) : Conditions :=
  range_fold (λ _ condition c,
    let condition := with_generation generation condition in
    <[Type_ condition := condition]> c) c c.

Definition NewConditionFromMetav1Condition (c : metav1Condition) : Condition :=
  Cond (mc_Type c) (mc_Status c) (mc_Reason c) (mc_Message c) (mc_ObservedGeneration c).

Definition NewConditionsFromMetav1Conditions (cs : list metav1Condition) : Conditions :=
  foldl (λ m c, <[mc_Type c := NewConditionFromMetav1Condition c]> m) ∅ cs.

Definition ToMetav1Condition (now : Z) (c : Condition) : metav1Condition :=
  MetaCondition (Type_ c) (Status c) (Reason c) (Message c) (ObservedGeneration c) now.

Definition ToMetav1Conditions `{RangeOrder} (now : Z) (c : Conditions) : list metav1Condition :=
  (λ kv, ToMetav1Condition now kv.2) <$> range c.

Definition GetCondition (c : Conditions) (conditionType : string) : option Condition :=
  c !! conditionType.

Definition GetMessage (c : Conditions) (conditionType : string) : string :=
  match GetCondition c conditionType with None => "" | Some cond => Message cond end.

(** ** Constants of [gatewayv1] the constructors use *)
Definition Accepted : string := "Accepted".
Definition Programmed : string := "Programmed".
Definition SupportedVersion : string := "SupportedVersion".
Definition ResolvedRefs : string := "ResolvedRefs".
Definition Conflicted : string := "Conflicted".

(** Every constructor of a one-entry map has this shape. *)
Definition one (key type status reason message : string) : Conditions :=
  {[key := Cond type status reason message 0]}.

(** ** gatewayclass.go *)
Definition NewGatewayClassAcceptedOK : Conditions :=
  one Accepted Accepted ConditionTrue "Accepted" "GatewayClass is accepted".

Definition NewDefaultGatewayClassConditions : Conditions :=
  <[Accepted := Cond Accepted ConditionTrue "Accepted" "GatewayClass is accepted" 0]>
  (one SupportedVersion SupportedVersion ConditionTrue "SupportedVersion"
     "Gateway API CRD versions are supported").

Definition NewGatewayClassAcceptedConflict : Conditions :=
  one Accepted Accepted ConditionFalse "GatewayClassConflict"
    "Resource ignored due to a conflicting GatewayClass resource".

Definition NewGatewayClassAcceptedUnsupported : Conditions :=
  one Accepted Accepted ConditionFalse "Unsupported"
    "Resource ignored due to an unsupported GatewayClass".

(** [err] is the text of the [field.Error]. *)
Definition NewGatewayClassAcceptedInvalidParameters (err : string) : Conditions :=
  one Accepted Accepted ConditionFalse "InvalidParameters"
    ("invalid parametersRef: " +:+ err).

Definition NewGatewayClassSupportedVersionUnsupportedVersion (recommendedVersion : string) :
    Conditions :=
  one SupportedVersion SupportedVersion ConditionFalse "UnsupportedVersion"
    ("Gateway API CRD versions are not supported. Please install version "
       +:+ recommendedVersion).

Definition NewGatewayClassSupportedVersionOK : Conditions :=
  one SupportedVersion SupportedVersion ConditionTrue "SupportedVersion"
    "Gateway API CRD versions are supported".

(** ** gateway.go *)
Definition NewGatewayAcceptedOK : Conditions :=
  one Accepted Accepted ConditionTrue "Accepted" "Gateway is accepted".

Definition NewGatewayAcceptedInvalidConditions (msg : string) : Conditions :=
  one Accepted Accepted ConditionFalse "Invalid"
    ("GatewayClass '" +:+ msg +:+ "' is not accepted").

(** Its [Type] field is the reason, not the condition type it is stored under. *)
Definition NewGatewayAcceptedInvalidParameters (err : string) : Conditions :=
  one Accepted "InvalidParameters" ConditionFalse "InvalidParameters"
    ("invalid parametersRef: " +:+ err).

Definition NewGatewayAcceptedListenerNotValidAtLeast1Valid : Conditions :=
  one Accepted Accepted ConditionTrue "ListenersNotValid" "Some listeners are Conflicting".

Definition NewGatewayAcceptedListenerNotValidAllInvalid : Conditions :=
  one Accepted Accepted ConditionFalse "ListenersNotValid"
    "GatewayClass is not accepted - All listeners are conflicting".

Definition NewGatewayProgrammedOK : Conditions :=
  one Programmed Programmed ConditionTrue "Programmed" "Gateway is programmed".

Definition NewGatewayProgrammedInvalidParameters (msg : string) : Conditions :=
  one Programmed Programmed ConditionFalse "InvalidParameters" msg.

(** ** gateway_listener.go *)
Definition NewListenerResolvedRefInvalidRouteKinds (msg : string) : Conditions :=
  one ResolvedRefs ResolvedRefs ConditionFalse "InvalidRouteKinds" msg.

(** The reason stored is that of a resolved reference. *)
Definition NewListenerResolvedRefInvalidCertificateRefs (msg : string) : Conditions :=
  one ResolvedRefs ResolvedRefs ConditionFalse "ResolvedRefs" msg.

Definition NewListenerResolvedRefOK : Conditions :=
  one ResolvedRefs ResolvedRefs ConditionTrue "ResolvedRefs"
    "Listener references have been resolved".

Definition NewListenerProgrammedPending : Conditions :=
  one Programmed Programmed ConditionUnknown "Pending"
    "Listener is pending Haproxy programmation".

Definition NewListenerProgrammedInvalid : Conditions :=
  one Programmed Programmed ConditionFalse "Invalid" "Listener is invalid".

Definition NewListenerProgrammedOK : Conditions :=
  one Programmed Programmed ConditionTrue "Programmed" "Listener is programmed in Haproxy".

Definition NewListenerAcceptedUnsupportedProtocol (msg : string) : Conditions :=
  one Accepted Accepted ConditionFalse "UnsupportedProtocol" msg.

Definition NewListenerAcceptedOK : Conditions :=
  one Accepted Accepted ConditionTrue "Accepted" "Listener is accepted".

Definition NewListenerConflicted (msg : string) : Conditions :=
  <[Conflicted := Cond Conflicted ConditionTrue "ProtocolConflict" msg 0]>
  (one Accepted Accepted ConditionFalse "Invalid"
     "Listener is invalid (see ConditionType Conflicted)").

(** ** routes/http-route.go *)
Definition ConditionAccepted : Conditions :=
  one Accepted Accepted ConditionTrue "Accepted" "Route Accepted".

Definition ConditionNotAcceptedNoMatchingParent : Conditions :=
  one Accepted Accepted ConditionFalse "NoMatchingParent" "No matching parent found".

Definition ConditionNotAcceptedNoMatchingHostname : Conditions :=
  one Accepted Accepted ConditionFalse "NoMatchingListenerHostname"
    "No matching hostname found".

Definition ConditionNotAcceptedRouteReasonNotAllowedByListeners : Conditions :=
  one Accepted Accepted ConditionFalse "NotAllowedByListeners"
    "Route kind not allowed by listeners".

Definition ConditionKOResolvedRefInvalidKind (backendRef : string) : Conditions :=
  one ResolvedRefs ResolvedRefs ConditionFalse "InvalidKind"
    ("Invalid Kind/Group for backendRef " +:+ backendRef).

Definition ConditionKOResolvedRefNotFound (backendRef : string) : Conditions :=
  one ResolvedRefs ResolvedRefs ConditionFalse "BackendNotFound"
    ("backendRef not found " +:+ backendRef).

Definition ConditionOKResolvedRef : Conditions :=
  one ResolvedRefs ResolvedRefs ConditionTrue "ResolvedRefs" "References resolved".

(** ** routes/conditions-route.go *)
Record RouteConditions := mkRouteConditions {
  rc_Conditions : KeyMap ParentReference Conditions;
  rc_ControllerName : string
}.

Definition NewRouteConditions (controllerName : string) : RouteConditions :=
  mkRouteConditions (KeyMaps.NewKeyMap ParentRefToKey) controllerName.

Definition MergeOverrideConditionsForParentRef (c : RouteConditions)
    (parentRef : ParentReference) (conds : Conditions) : RouteConditions :=
  let parentConds := default ∅ (KeyMaps.Get (rc_Conditions c) parentRef) in
  let parentConds := MergeOverrideConditions parentConds conds in
  mkRouteConditions (KeyMaps.Set_ (rc_Conditions c) parentRef parentConds)
    (rc_ControllerName c).

Definition RouteConditions_Equal `{RangeOrder} (c b : RouteConditions) : bool :=
  if negb (bool_decide (rc_ControllerName c = rc_ControllerName b)) then false
  else if negb (bool_decide (KeyMaps.Len (rc_Conditions c) = KeyMaps.Len (rc_Conditions b)))
  then false
  else KeyMaps.Iterate (rc_Conditions c) (λ key valA equal,
    match KeyToParentRef key with
    | Err _ => (false, false)
    | Ok parentRef =>
        match KeyMaps.Get (rc_Conditions b) parentRef with
        | None => (false, false)
        | Some valB => if Conditions_Equal valA valB then (equal, true) else (false, false)
        end
    end) true.

(** The inner maps are updated in place. *)
Definition RouteConditions_SetGeneration `{RangeOrder} (c : RouteConditions) (generation : Z) :
    RouteConditions :=
  mkRouteConditions
    (mkKeyMap ((λ conds, SetGeneration conds generation) <$> data (rc_Conditions c))
       (computeKey (rc_Conditions c)))
    (rc_ControllerName c).

Definition NewRouteConditionsFromV1RouteConditions (parents : list RouteParentStatus)
    (controllerName : string) : RouteConditions :=
  let conditionsMap := foldl (λ m parentConditions,
    if negb (bool_decide (rps_ControllerName parentConditions = controllerName)) then m
    else
      let condsForParent := default ∅ (KeyMaps.Get m (rps_ParentRef parentConditions)) in
      let condsForParent := foldl (λ cs condition,
        <[mc_Type condition := NewConditionFromMetav1Condition condition]> cs)
        condsForParent (rps_Conditions parentConditions) in
      KeyMaps.Set_ m (rps_ParentRef parentConditions) condsForParent)
    (KeyMaps.NewKeyMap ParentRefToKey) parents in
  mkRouteConditions conditionsMap controllerName.

Definition ToV1RouteConditions `{RangeOrder} (now : Z) (c : RouteConditions) :
    list RouteParentStatus :=
  KeyMaps.Iterate (rc_Conditions c) (λ key conditions parents,
    match KeyToParentRef key with
    | Err _ => (parents, true)
    | Ok parentRef =>
        (parents ++ [{| rps_ParentRef := parentRef;
                        rps_ControllerName := rc_ControllerName c;
                        rps_Conditions := ToMetav1Conditions now conditions |}], true)
    end) [].

Definition RouteConditions_GetCondition (c : RouteConditions) (conditionType : string)
    (parentRef : ParentReference) : option Condition :=
  match KeyMaps.Get (rc_Conditions c) parentRef with
  | None => None
  | Some parent => parent !! conditionType
  end.

(** ** Well-formed condition maps: every entry sits under its own type *)
Definition wf_conditions (c : Conditions) : Prop := map_Forall (λ k v, Type_ v = k) c.

Lemma lookup_Merge c b k :
  MergeOverrideConditions c b !! k =
  match b !! k with Some v => Some v | None => c !! k end.
Proof.
  unfold MergeOverrideConditions. rw lookup_union.
  by destruct (b !! k), (c !! k).
Qed.

Lemma wf_empty : wf_conditions ∅.
Proof. apply map_Forall_empty. Qed.

Lemma wf_one k s r m : wf_conditions (one k k s r m).
Proof. by apply map_Forall_singleton. Qed.

Lemma wf_Merge c b : wf_conditions c → wf_conditions b → wf_conditions (MergeOverrideConditions c b).
Proof. intros Hc Hb. by apply map_Forall_union_2. Qed.

Lemma Merge_empty_l b : MergeOverrideConditions ∅ b = b.
Proof. apply map_union_empty. Qed.

Lemma Merge_empty_r c : MergeOverrideConditions c ∅ = c.
Proof. apply map_empty_union. Qed.

Create HintDb conditions.
#[export] Hint Resolve wf_empty wf_one wf_Merge : conditions.

Section condition_lemmas.
Context {RO : RangeOrder}.

Lemma Conditions_Equal_refl c : Conditions_Equal c c = true.
Proof.
  unfold Conditions_Equal. rw bool_decide_true //=. apply negb_true_iff.
  destruct (existsb _ _) eqn:E; [|done].
  apply existsb_exists_elem in E as ([k v] & Hk & Hv). apply elem_of_range in Hk.
  simpl in Hv. rw Hk /= in Hv. by rw bool_decide_true in Hv.
Qed.

(** The comparison reads missing keys as the zero condition, so it decides
    equality only for maps that never hold that value. *)
Lemma Conditions_Equal_true c b :
  map_Forall (λ _ v, v ≠ zero_Condition) c →
  Conditions_Equal c b = true ↔ c = b.
Proof.
  intros Hnz. split; [|intros <-; apply Conditions_Equal_refl].
  unfold Conditions_Equal. case_bool_decide as Hs; [|done]. simpl.
  rw negb_true_iff. intros Hex.
  assert (c ⊆ b) as Hsub.
  { apply map_subseteq_spec. intros k v Hk.
    destruct (bool_decide (default zero_Condition (b !! k) = v)) eqn:E.
    - apply bool_decide_eq_true in E. destruct (b !! k) as [v'|] eqn:Eb; simplify_eq/=; [done|].
      by apply Hnz in Hk.
    - enough (existsb (λ kv, negb (bool_decide (default zero_Condition (b !! kv.1) = kv.2)))
                (range c) = true) by congruence.
      apply existsb_exists_elem. exists (k, v). split; [by apply elem_of_range|].
      simpl. by rw E. }
  apply map_subseteq_size_eq; [done|lia].
Qed.

Lemma SetGeneration_wf c g : wf_conditions c → SetGeneration c g = with_generation g <$> c.
Proof.
  intros Hwf. unfold SetGeneration.
  cut (∀ k, range_fold (λ _ condition c0,
      <[Type_ (with_generation g condition) := with_generation g condition]> c0) c c !! k =
    match c !! k with Some v => Some (with_generation g v) | None => None end).
  { intros Hall. apply map_eq. intros k. rw Hall lookup_fmap. by destruct (c !! k). }
  intros k.
  enough (range_fold (λ _ condition c0,
      <[Type_ (with_generation g condition) := with_generation g condition]> c0) c c !! k =
    match c !! k with Some v => Some (with_generation g v) | None => c !! k end) as ->
    by by destruct (c !! k).
  revert k. apply (range_fold_ind (λ d s, ∀ k, s !! k =
    match d !! k with Some v => Some (with_generation g v) | None => c !! k end)).
  - intros k. by rw lookup_empty.
  - intros k v d s Hk _ _ IH k'. assert (Type_ (with_generation g v) = k) as ->.
    { exact (Hwf k v Hk). }
    destruct (decide (k = k')) as [<-|Hne].
    + by rw !lookup_insert_eq.
    + by rw !lookup_insert_ne.
Qed.

Lemma wf_SetGeneration c g : wf_conditions c → wf_conditions (SetGeneration c g).
Proof.
  intros Hwf. rw SetGeneration_wf //. intros k v. rw lookup_fmap_Some.
  intros (v' & <- & Hk). exact (Hwf k v' Hk).
Qed.

(** Writing conditions to Kubernetes and reading them back. *)
Lemma metav1_roundtrip now c :
  wf_conditions c →
  NewConditionsFromMetav1Conditions (ToMetav1Conditions now c) = c.
Proof.
  intros Hwf. unfold NewConditionsFromMetav1Conditions, ToMetav1Conditions.
  rw foldl_fmap.
  change (range_fold (λ k v m, <[Type_ v := NewConditionFromMetav1Condition
    (ToMetav1Condition now v)]> m) c ∅ = c).
  apply (range_fold_ind (λ d s, s = d)); [done|].
  intros k v d s Hk _ _ ->. rw (Hwf k v Hk). f_equal.
  by destruct v.
Qed.

(** Reading with a start map. *)
Lemma fold_metav1 now c (m0 : Conditions) :
  wf_conditions c →
  foldl (λ cs condition, <[mc_Type condition := NewConditionFromMetav1Condition condition]> cs)
    m0 (ToMetav1Conditions now c) = c ∪ m0.
Proof.
  intros Hwf. unfold ToMetav1Conditions. rw foldl_fmap.
  change (range_fold (λ k v m, <[Type_ v := NewConditionFromMetav1Condition
    (ToMetav1Condition now v)]> m) c m0 = c ∪ m0).
  apply (range_fold_ind (λ d s, s = d ∪ m0)); [by rw map_empty_union|].
  intros k v d s Hk _ _ ->. rw (Hwf k v Hk) -insert_union_l. f_equal. by destruct v.
Qed.
End condition_lemmas.
#[export] Hint Resolve wf_SetGeneration Conditions_Equal_refl : conditions.

(** ** Route conditions *)
Definition wf_route_conditions (c : RouteConditions) : Prop :=
  computeKey (rc_Conditions c) = ParentRefToKey ∧
  map_Forall (λ k v, is_ok (KeyToParentRef k) = true ∧ wf_conditions v)
    (data (rc_Conditions c)).

Lemma wf_NewRouteConditions name : wf_route_conditions (NewRouteConditions name).
Proof. split; [done|]. apply map_Forall_empty. Qed.

Lemma wf_MergeForParentRef c p conds :
  wf_route_conditions c → wf_conditions conds → parentRef_ok p →
  wf_route_conditions (MergeOverrideConditionsForParentRef c p conds).
Proof.
  intros [Hk Hall] Hconds Hp. split; [done|]. simpl. rw Hk.
  apply map_Forall_insert_2; [|done]. split.
  - by rw KeyToParentRef_Key.
  - apply wf_Merge; [|done]. unfold KeyMaps.Get. rw Hk.
    destruct (data (rc_Conditions c) !! ParentRefToKey p) eqn:E; [|apply wf_empty].
    exact (proj2 (Hall _ _ E)).
Qed.
#[export] Hint Resolve wf_NewRouteConditions wf_MergeForParentRef : conditions.

Section route_condition_lemmas.
Context {RO : RangeOrder}.

(** The statuses written for the parents of a route, in range order. *)
Definition parent_status (now : Z) (name : string) (kv : string * Conditions) :
    list RouteParentStatus :=
  match KeyToParentRef kv.1 with
  | Err _ => []
  | Ok p => [{| rps_ParentRef := p; rps_ControllerName := name;
                rps_Conditions := ToMetav1Conditions now kv.2 |}]
  end.

Lemma ToV1_flat_map now c :
  ToV1RouteConditions now c =
  flat_map (parent_status now (rc_ControllerName c)) (range (data (rc_Conditions c))).
Proof.
  unfold ToV1RouteConditions, KeyMaps.Iterate.
  cut (∀ l acc, KeyMaps.iterate_entries (λ key conditions parents,
    match KeyToParentRef key with
    | Err _ => (parents, true)
    | Ok parentRef => (parents ++ [{| rps_ParentRef := parentRef;
          rps_ControllerName := rc_ControllerName c;
          rps_Conditions := ToMetav1Conditions now conditions |}], true)
    end) l acc = acc ++ flat_map (parent_status now (rc_ControllerName c)) l).
  { intros ->. done. }
  induction l as [|[k v] l IH]; intros acc; simpl; [by rw app_nil_r|].
  unfold parent_status at 1. simpl.
  destruct (KeyToParentRef k); simpl; rw IH; [by rw -app_assoc|done].
Qed.

(** Reading statuses of distinct parents back, in whatever order they are. *)
Lemma v1_of_entries now name l :
  NoDup l.*1 →
  (∀ k v, (k, v) ∈ l → is_ok (KeyToParentRef k) = true ∧ wf_conditions v) →
  NewRouteConditionsFromV1RouteConditions (flat_map (parent_status now name) l) name =
  mkRouteConditions (mkKeyMap (list_to_map l) ParentRefToKey) name.
Proof.
  intros Hnd Hall. unfold NewRouteConditionsFromV1RouteConditions. f_equal.
  set (step := λ (m : KeyMap ParentReference Conditions) (s : RouteParentStatus), _).
  enough (∀ m, computeKey m = ParentRefToKey → (∀ k, k ∈ l.*1 → data m !! k = None) →
    foldl step m (flat_map (parent_status now name) l) =
    mkKeyMap (list_to_map l ∪ data m) ParentRefToKey) as Hgen.
  { rw Hgen //. by cbn; rw map_union_empty. }
  induction l as [|[k v] l IH]; intros m Hm Hfresh.
  { cbn. rw map_empty_union. by destruct m as [d ck]; cbn in *; subst ck. }
  cbn [flat_map]. unfold parent_status at 1. cbn [fst snd].
  destruct (Hall k v ltac:(set_solver)) as [Hok Hwf].
  destruct (KeyToParentRef k) as [p|] eqn:Ep; [|done]. cbn [app foldl].
  apply ParentRefToKey_KeyTo in Ep.
  assert (step m {| rps_ParentRef := p; rps_ControllerName := name;
            rps_Conditions := ToMetav1Conditions now v |} =
          mkKeyMap (<[k := v]> (data m)) ParentRefToKey) as ->.
  { unfold step. simpl. rw bool_decide_true //=. rw fold_metav1 //.
    unfold KeyMaps.Set_, KeyMaps.Get. rw Hm Ep (Hfresh k); [set_solver|].
    simpl. by rw map_union_empty. }
  cbn in Hnd. apply NoDup_cons in Hnd as [Hk Hnd]. rw IH //.
  - intros k' v' ?. apply Hall. set_solver.
  - intros k' Hk'. cbn. rw lookup_insert_ne; [by intros <-|]. apply Hfresh. set_solver.
  - cbn. f_equal. rw -insert_union_l -insert_union_r //.
    by apply not_elem_of_list_to_map.
Qed.

Lemma route_conditions_roundtrip now c :
  wf_route_conditions c →
  NewRouteConditionsFromV1RouteConditions (ToV1RouteConditions now c) (rc_ControllerName c) = c.
Proof.
  intros [Hk Hall]. rw ToV1_flat_map v1_of_entries.
  - apply NoDup_fst_range.
  - intros k v Hin%elem_of_range. exact (Hall k v Hin).
  - destruct c as [[d ck] name]; cbn in *. subst ck.
    by rw list_to_map_range.
Qed.

(** The comparison, as long as the keys of both maps are keys of parents. *)
Lemma RouteConditions_Equal_entries c b :
  computeKey (rc_Conditions b) = ParentRefToKey →
  RouteConditions_Equal c b = true ↔
  rc_ControllerName c = rc_ControllerName b ∧
  size (data (rc_Conditions c)) = size (data (rc_Conditions b)) ∧
  Forall (λ kv, is_ok (KeyToParentRef kv.1) = true ∧
    ∃ vb, data (rc_Conditions b) !! kv.1 = Some vb ∧ Conditions_Equal kv.2 vb = true)
    (range (data (rc_Conditions c))).
Proof.
  intros Hkb. unfold RouteConditions_Equal, KeyMaps.Len, KeyMaps.Iterate.
  case_bool_decide as Hn; cbn [negb]; [|naive_solver].
  case_bool_decide as Hs; cbn [negb]; [|naive_solver].
  set (cb := λ key valA (equal : bool), _).
  enough (∀ l, KeyMaps.iterate_entries cb l true = true ↔
    Forall (λ kv, is_ok (KeyToParentRef kv.1) = true ∧
      ∃ vb, data (rc_Conditions b) !! kv.1 = Some vb ∧ Conditions_Equal kv.2 vb = true) l) as ->
    by naive_solver.
  induction l as [|[k v] l IH]; simpl; [done|]. rw Forall_cons. unfold cb at 1. simpl.
  destruct (KeyToParentRef k) as [p|] eqn:Ep; [|naive_solver].
  unfold KeyMaps.Get. rw Hkb (ParentRefToKey_KeyTo _ _ Ep).
  destruct (data (rc_Conditions b) !! k) as [vb|]; [|naive_solver].
  destruct (Conditions_Equal v vb) eqn:E; [rw IH; naive_solver|].
  split; [done|]. intros [(_ & ? & [= <-] & ?) _]. congruence.
Qed.

Lemma RouteConditions_Equal_sound c b :
  computeKey (rc_Conditions c) = ParentRefToKey → computeKey (rc_Conditions b) = ParentRefToKey →
  map_Forall (λ _ conds, map_Forall (λ _ v, v ≠ zero_Condition) conds)
    (data (rc_Conditions c)) →
  RouteConditions_Equal c b = true → c = b.
Proof.
  intros Hkc Hkb Hnz. rw RouteConditions_Equal_entries // Forall_forall. intros (Hn & Hs & Hall).
  destruct c as [[dc ckc] nc], b as [[db ckb] nb]. cbn in *. subst. f_equal. f_equal.
  apply map_subseteq_size_eq; [|lia]. apply map_subseteq_spec. intros k v Hk.
  destruct (Hall (k, v) (proj2 (elem_of_range _ _ _) Hk)) as (_ & vb & Hvb & Heq). cbn in Hvb, Heq.
  rw Conditions_Equal_true in Heq; [exact (Hnz k v Hk)|]. by subst.
Qed.

Lemma RouteConditions_Equal_true c b :
  wf_route_conditions c → wf_route_conditions b →
  map_Forall (λ _ conds, map_Forall (λ _ v, v ≠ zero_Condition) conds)
    (data (rc_Conditions c)) →
  RouteConditions_Equal c b = true ↔ c = b.
Proof.
  intros [Hkc Hc] [Hkb Hb] Hnz. split; [by apply RouteConditions_Equal_sound|].
  intros <-. apply RouteConditions_Equal_entries; [done|]. split_and!; [done..|].
  apply Forall_forall. intros [k v] Hin. cbn. apply elem_of_range in Hin.
  destruct (Hc k v Hin) as [Hok _]. eauto with conditions.
Qed.
End route_condition_lemmas.
