(* ===== verification/Store.v ===== *)
(** * Store: k8s/gate/store and the event dispatch of k8s/gate/handler/batch.go

    [object-store.go]: one store per Kubernetes type, which keeps the current
    objects and, for the batch being processed, one [Update] per touched key.
    [cluster-store.go] / [cluster-updates.go]: the thirteen stores behind one
    interface, dispatched on the group, version and kind of the object.
    [events/event.go] and [handler/batch.go]: a batch of events applied to
    the stores after the previous updates are forgotten. *)

From S2P Require Import Prelude GoStrings Objects Utils.

(** ** cluster-updates.go *)
Inductive StoreStatus := StatusUpserted | StatusDeleted | StatusUnchanged.

#[export] Instance StoreStatus_eq_dec : EqDecision StoreStatus.
Proof. solve_decision. Defined.

Record Update (T : Type) := mkUpdate {
  OldObject : option T;
  NewObject : option T;
  UStatus : StoreStatus;
  Indirect : bool
}.
Arguments mkUpdate {T}.
Arguments OldObject {T}.
Arguments NewObject {T}.
Arguments UStatus {T}.
Arguments Indirect {T}.

(** Go's zero [Update\[T\]]. *)
Definition zero_Update {T} : Update T := mkUpdate None None StatusUnchanged false.

(** ** object-store.go *)
Record objectStore (T : Type) := mkObjectStore {
  objects : gmap NamespacedName T;
  updates : gmap NamespacedName (Update T)
}.
Arguments mkObjectStore {T}.
Arguments objects {T}.
Arguments updates {T}.

Definition empty_store {T} : objectStore T := mkObjectStore ∅ ∅.

Definition is_Some_b {A} (o : option A) : bool :=
  match o with Some _ => true | None => false end.

(** [upsert]: the object is asserted to the type of the store first. *)
Definition upsert (k : ObjKind) (obj : Object) (m : objectStore (kind_type k)) :
    objectStore (kind_type k) :=
  match type_assert k obj with
  | None => m
  | Some t =>
      let key := ObjectKeyFromObject obj in
      let previousObj := objects m !! key in
      let objects' := <[key := t]> (objects m) in
      let firstUpdateOk := is_Some_b (updates m !! key) in
      let update := default zero_Update (updates m !! key) in
      let old := if firstUpdateOk then OldObject update else previousObj in
      mkObjectStore objects'
        (<[key := mkUpdate old (Some t) StatusUpserted (Indirect update)]> (updates m))
  end.

Definition delete_object {T} (nsname : NamespacedName) (m : objectStore T) : objectStore T :=
  let previousObj := objects m !! nsname in
  let firstUpdateOk := is_Some_b (updates m !! nsname) in
  let update := default zero_Update (updates m !! nsname) in
  let old := if firstUpdateOk then OldObject update else previousObj in
  mkObjectStore (delete nsname (objects m))
    (<[nsname := mkUpdate old None StatusDeleted (Indirect update)]> (updates m)).

Definition resetUpdates `{RangeOrder} {T} (m : objectStore T) : objectStore T :=
  mkObjectStore (objects m) (ClearMap (updates m)).

(** ** cluster-store.go: one store per kind, its objects and its updates *)
Record ClusterStore := {
  GatewayClasses : objectStore K8sGatewayClass;
  Gateways : objectStore K8sGateway;
  HTTPRoutes : objectStore K8sHTTPRoute;
  TLSRoutes : objectStore K8sTLSRoute;
  Services : objectStore K8sService;
  Namespaces : objectStore K8sNamespace;
  Secrets : objectStore K8sSecret;
  ConfigMaps : objectStore K8sConfigMap;
  GatewayAPICRDs : objectStore PartialObjectMetadata;
  HugGates : objectStore HugGate;
  BackendCRs : objectStore BackendCR;
  ControllerConfs : objectStore HugConf;
  EndpointSlices : objectStore K8sEndpointSlice
}.

Definition empty_cluster_store : ClusterStore :=
  {| GatewayClasses := empty_store; Gateways := empty_store; HTTPRoutes := empty_store;
     TLSRoutes := empty_store; Services := empty_store; Namespaces := empty_store;
     Secrets := empty_store; ConfigMaps := empty_store; GatewayAPICRDs := empty_store;
     HugGates := empty_store; BackendCRs := empty_store; ControllerConfs := empty_store;
     EndpointSlices := empty_store |}.

Definition store_of (k : ObjKind) (cs : ClusterStore) : objectStore (kind_type k) :=
  match k return objectStore (kind_type k) with
  | KGatewayClass => GatewayClasses cs | KGateway => Gateways cs
  | KHTTPRoute => HTTPRoutes cs | KTLSRoute => TLSRoutes cs
  | KService => Services cs | KNamespace => Namespaces cs
  | KSecret => Secrets cs | KConfigMap => ConfigMaps cs
  | KCustomResourceDefinition => GatewayAPICRDs cs | KHugGate => HugGates cs
  | KBackend => BackendCRs cs | KHugConf => ControllerConfs cs
  | KEndpointSlice => EndpointSlices cs
  end.

Definition map_stores (f : ∀ k, objectStore (kind_type k) → objectStore (kind_type k))
    (cs : ClusterStore) : ClusterStore :=
  {| GatewayClasses := f KGatewayClass (GatewayClasses cs);
     Gateways := f KGateway (Gateways cs);
     HTTPRoutes := f KHTTPRoute (HTTPRoutes cs);
     TLSRoutes := f KTLSRoute (TLSRoutes cs);
     Services := f KService (Services cs);
     Namespaces := f KNamespace (Namespaces cs);
     Secrets := f KSecret (Secrets cs);
     ConfigMaps := f KConfigMap (ConfigMaps cs);
     GatewayAPICRDs := f KCustomResourceDefinition (GatewayAPICRDs cs);
     HugGates := f KHugGate (HugGates cs);
     BackendCRs := f KBackend (BackendCRs cs);
     ControllerConfs := f KHugConf (ControllerConfs cs);
     EndpointSlices := f KEndpointSlice (EndpointSlices cs) |}.

(** [storeAdapter.stores]: the map literal of [NewClusterStoreUpdaterImpl];
    a later entry with the same key wins. *)
Definition stores (extractGVK : ExtractGVK) : list (GroupVersionKind * ObjKind) :=
  (λ k, (extractGVK k, k)) <$>
    [KGatewayClass; KGateway; KHTTPRoute; KTLSRoute; KService; KNamespace; KSecret;
     KConfigMap; KCustomResourceDefinition; KHugGate; KBackend; KHugConf; KEndpointSlice].

Definition objectStore_for (extractGVK : ExtractGVK) (gvk : GroupVersionKind) : option ObjKind :=
  foldl (λ found e, if bool_decide (e.1 = gvk) then Some e.2 else found) None
    (stores extractGVK).

Definition on_store (target : ObjKind)
    (f : ∀ k, objectStore (kind_type k) → objectStore (kind_type k)) (cs : ClusterStore) :
    ClusterStore :=
  map_stores (λ k m, if decide (k = target) then f k m else m) cs.

Definition ClusterStore_Upsert (extractGVK : ExtractGVK) (obj : Object) (cs : ClusterStore) :
    ClusterStore :=
  match objectStore_for extractGVK (extractGVK (kind_of obj)) with
  | None => cs
  | Some target => on_store target (λ k, upsert k obj) cs
  end.

(** [Delete] gets an object of the type and the key of the deleted one. *)
Definition ClusterStore_Delete (extractGVK : ExtractGVK) (type : ObjKind)
    (nsname : NamespacedName) (cs : ClusterStore) : ClusterStore :=
  match objectStore_for extractGVK (extractGVK type) with
  | None => cs
  | Some target => on_store target (λ _, delete_object nsname) cs
  end.

Definition ClusterStore_ResetUpdates `{RangeOrder} (cs : ClusterStore) : ClusterStore :=
  map_stores (λ _, resetUpdates) cs.

(** ** events/event.go and handler/batch.go *)
Inductive Event :=
  | UpsertEvent (Resource : Object)
  | DeleteEvent (Type_ : ObjKind) (NsName : NamespacedName).

Record EventBatch := mkBatch { Events : list Event; BatchID : Z }.

Definition updateClusterStore (extractGVK : ExtractGVK) (cs : ClusterStore) (event : Event) :
    ClusterStore :=
  match event with
  | UpsertEvent obj => ClusterStore_Upsert extractGVK obj cs
  | DeleteEvent type nsname => ClusterStore_Delete extractGVK type nsname cs
  end.

Definition processBatch `{RangeOrder} (extractGVK : ExtractGVK) (batch : EventBatch)
    (cs : ClusterStore) : ClusterStore :=
  foldl (updateClusterStore extractGVK) (ClusterStore_ResetUpdates cs) (Events batch).

(** ** Specification: the effect of a batch on one store *)

(** The events of a batch that concern the store of kind [k]. *)
Definition event_kind (e : Event) : ObjKind :=
  match e with UpsertEvent o => kind_of o | DeleteEvent k _ => k end.
Definition event_key (e : Event) : NamespacedName :=
  match e with UpsertEvent o => ObjectKeyFromObject o | DeleteEvent _ n => n end.

Definition store_step (k : ObjKind) (m : objectStore (kind_type k)) (e : Event) :
    objectStore (kind_type k) :=
  if decide (event_kind e = k) then
    match e with
    | UpsertEvent o => upsert k o m
    | DeleteEvent _ n => delete_object n m
    end
  else m.

(** What a batch promises for one key: either nothing happened to it, or its
    update spans from the object before the batch to the object after it. *)
Definition delta_ok {T} (before : gmap NamespacedName T) (m : objectStore T)
    (touched : Prop) (key : NamespacedName) : Prop :=
  match updates m !! key with
  | None => ¬ touched ∧ objects m !! key = before !! key
  | Some u =>
      touched ∧ OldObject u = before !! key ∧ NewObject u = objects m !! key ∧
      UStatus u = (if NewObject u is Some _ then StatusUpserted else StatusDeleted) ∧
      Indirect u = false
  end.

Lemma objectStore_for_inj (extractGVK : ExtractGVK) k :
  (∀ k1 k2, extractGVK k1 = extractGVK k2 → k1 = k2) →
  objectStore_for extractGVK (extractGVK k) = Some k.
Proof.
  intros Hinj. unfold objectStore_for.
  assert (∀ l found, (found = Some k ∨ k ∈ l) →
    foldl (λ found (e : GroupVersionKind * ObjKind),
      if bool_decide (e.1 = extractGVK k) then Some e.2 else found) found
      ((λ k, (extractGVK k, k)) <$> l) = Some k) as Hgen.
  { induction l as [|k' l IH]; intros found Hf; simpl.
    - by destruct Hf as [->|?%elem_of_nil].
    - apply IH. case_bool_decide as Hg.
      + apply Hinj in Hg as ->. by left.
      + destruct Hf as [->|[->|Hin]%elem_of_cons]; [by left| |by right]. done. }
  apply Hgen. right. destruct k; set_solver.
Qed.

Lemma store_of_map_stores f cs k : store_of k (map_stores f cs) = f k (store_of k cs).
Proof. by destruct k. Qed.

Lemma ClusterStore_ext cs1 cs2 : (∀ k, store_of k cs1 = store_of k cs2) → cs1 = cs2.
Proof.
  intros Hall. destruct cs1, cs2.
  pose proof (Hall KGatewayClass); pose proof (Hall KGateway); pose proof (Hall KHTTPRoute);
  pose proof (Hall KTLSRoute); pose proof (Hall KService); pose proof (Hall KNamespace);
  pose proof (Hall KSecret); pose proof (Hall KConfigMap);
  pose proof (Hall KCustomResourceDefinition); pose proof (Hall KHugGate);
  pose proof (Hall KBackend); pose proof (Hall KHugConf); pose proof (Hall KEndpointSlice).
  simpl in *. by subst.
Qed.

Section dispatch.
Context {RO : RangeOrder} (extractGVK : ExtractGVK).
Context (Hinj : ∀ k1 k2, extractGVK k1 = extractGVK k2 → k1 = k2).

Lemma store_of_updateClusterStore cs e k :
  store_of k (updateClusterStore extractGVK cs e) = store_step k (store_of k cs) e.
Proof.
  unfold store_step. destruct e as [o|kd n]; simpl;
    unfold ClusterStore_Upsert, ClusterStore_Delete, on_store;
    rw (objectStore_for_inj _ _ Hinj) store_of_map_stores;
    by repeat case_decide; subst.
Qed.

Lemma store_of_processBatch_steps batch cs k :
  store_of k (processBatch extractGVK batch cs) =
  foldl (store_step k) (resetUpdates (store_of k cs)) (Events batch).
Proof.
  unfold processBatch.
  assert (∀ l cs, store_of k (foldl (updateClusterStore extractGVK) cs l) =
    foldl (store_step k) (store_of k cs) l) as Hgen.
  { induction l as [|e l IH]; intros cs'; simpl; [done|].
    by rw IH store_of_updateClusterStore. }
  rw Hgen. unfold ClusterStore_ResetUpdates. by rw store_of_map_stores.
Qed.
End dispatch.

Section batch.
Context (k : ObjKind).
Implicit Types (m : objectStore (kind_type k)).

Lemma store_step_upsert m o t :
  type_assert k o = Some t →
  store_step k m (UpsertEvent o) =
  mkObjectStore (<[ObjectKeyFromObject o := t]> (objects m))
    (<[ObjectKeyFromObject o :=
       mkUpdate
         (match updates m !! ObjectKeyFromObject o with
          | Some u => OldObject u | None => objects m !! ObjectKeyFromObject o end)
         (Some t) StatusUpserted
         (match updates m !! ObjectKeyFromObject o with
          | Some u => Indirect u | None => false end)]> (updates m)).
Proof.
  intros Ht. unfold store_step. simpl.
  rw decide_True; [apply type_assert_kind; eauto|].
  unfold upsert. rw Ht. by destruct (updates m !! _).
Qed.

Lemma delta_ok_step before m (touched : NamespacedName → Prop) e :
  (∀ key, delta_ok before m (touched key) key) →
  ∀ key, delta_ok before (store_step k m e)
    (touched key ∨ event_kind e = k ∧ event_key e = key) key.
Proof.
  intros Hm key. specialize (Hm key). unfold delta_ok in *.
  destruct (decide (event_kind e = k)) as [He|He].
  2:{ unfold store_step. rw decide_False //. destruct (updates m !! key); naive_solver. }
  destruct e as [o|kd n]; simpl in *.
  - destruct (proj2 (type_assert_kind k o) He) as [t Ht].
    rw (store_step_upsert _ _ _ Ht) /=.
    destruct (decide (ObjectKeyFromObject o = key)) as [<-|Hne].
    + rw !lookup_insert_eq /=.
      destruct (updates m !! ObjectKeyFromObject o) as [u|]; naive_solver.
    + rw !lookup_insert_ne //. destruct (updates m !! key); naive_solver.
  - unfold store_step. simpl. rw decide_True //. unfold delete_object. simpl.
    destruct (decide (n = key)) as [<-|Hne].
    + rw lookup_insert_eq lookup_delete_eq /=.
      destruct (updates m !! n) as [u|]; naive_solver.
    + rw lookup_insert_ne // lookup_delete_ne //. destruct (updates m !! key); naive_solver.
Qed.

Lemma delta_ok_iff {T} before (m : objectStore T) P Q key :
  (P ↔ Q) → delta_ok before m P key → delta_ok before m Q key.
Proof. unfold delta_ok. destruct (updates m !! key); naive_solver. Qed.

Lemma batch_delta m es key :
  delta_ok (objects m) (foldl (store_step k) (mkObjectStore (objects m) ∅) es)
    (∃ e, e ∈ es ∧ event_kind e = k ∧ event_key e = key) key.
Proof.
  revert key.
  apply (foldl_prefix_ind (λ pre s, ∀ key, delta_ok (objects m) s
    (∃ e, e ∈ pre ∧ event_kind e = k ∧ event_key e = key) key)).
  - intros key. unfold delta_ok. simpl. rw lookup_empty.
    split; [|done]. intros (e & ?%elem_of_nil & _). done.
  - intros pre e s _ IH key.
    eapply delta_ok_iff; [|by apply (delta_ok_step _ _ _ e IH)].
    set_solver.
Qed.
End batch.

(** The objects of a store depend on the events of its kind only. *)
Lemma objects_step k (m m' : objectStore (kind_type k)) e :
  objects m = objects m' → objects (store_step k m e) = objects (store_step k m' e).
Proof.
  intros Hm. unfold store_step. case_decide; [|done]. destruct e as [o|kd n]; cbn; [|by rw Hm].
  unfold upsert. destruct (type_assert k o); [|done]. cbn. by rw Hm.
Qed.

Lemma objects_events k es (m m' : objectStore (kind_type k)) :
  objects m = objects m' →
  objects (foldl (store_step k) m es) = objects (foldl (store_step k) m' (filter (λ e, event_kind e = k) es)).
Proof.
  revert m m'. induction es as [|e es IH]; intros m m' Hm; [done|]. cbn [foldl].
  rw filter_cons. case_decide as He.
  - cbn [foldl]. apply IH. by apply objects_step.
  - apply IH. unfold store_step. by rw decide_False.
Qed.

Lemma resetUpdates_eq {RO : RangeOrder} {T} (m : objectStore T) :
  resetUpdates m = mkObjectStore (objects m) ∅.
Proof. unfold resetUpdates. by rw ClearMap_empty. Qed.

(** The touched keys of a batch in the store of kind [k]. *)
Definition touched (k : ObjKind) (batch : EventBatch) (key : NamespacedName) : Prop :=
  ∃ e, e ∈ Events batch ∧ event_kind e = k ∧ event_key e = key.

Lemma processBatch_delta_ok (RO : RangeOrder) (extractGVK : ExtractGVK) batch cs k key :
  (∀ k1 k2, extractGVK k1 = extractGVK k2 → k1 = k2) →
  delta_ok (objects (store_of k cs)) (store_of k (processBatch extractGVK batch cs))
    (touched k batch key) key.
Proof.
  intros Hinj. rw store_of_processBatch_steps //. rw resetUpdates_eq.
  apply batch_delta.
Qed.

Lemma delta_ok_touched {T} before (m : objectStore T) P key :
  delta_ok before m P key → delta_ok before m (is_Some (updates m !! key)) key.
Proof.
  unfold delta_ok. destruct (updates m !! key); [|].
  - intros (_ & H). split; [eauto|done].
  - intros (_ & H). split; [|done]. by intros [? ?].
Qed.

(** ** Properties *)

(** C11: after a batch, each store holds exactly one update per key the batch
    touched.  That update goes from the object before the batch to the object
    after it, whatever upserts and deletes happened between, its status says
    whether the key exists now, and an untouched key keeps its object and has
    no update, even when earlier updates were still pending. *)
Theorem processBatch_delta (RO : RangeOrder) (extractGVK : ExtractGVK) batch cs k key :
  (∀ k1 k2, extractGVK k1 = extractGVK k2 → k1 = k2) →
  delta_ok (objects (store_of k cs)) (store_of k (processBatch extractGVK batch cs))
    (touched k batch key) key.
Proof. apply processBatch_delta_ok. Qed.

(** A group-version-kind function for the witnesses. *)
Definition kind_name (k : ObjKind) : string :=
  match k with
  | KGatewayClass => "GatewayClass" | KGateway => "Gateway" | KHTTPRoute => "HTTPRoute"
  | KTLSRoute => "TLSRoute" | KService => "Service" | KNamespace => "Namespace"
  | KSecret => "Secret" | KConfigMap => "ConfigMap"
  | KCustomResourceDefinition => "CustomResourceDefinition" | KHugGate => "HugGate"
  | KBackend => "Backend" | KHugConf => "HugConf" | KEndpointSlice => "EndpointSlice"
  end.
Definition example_gvk : ExtractGVK := λ k, GVK "" "v1" (kind_name k).

Lemma example_gvk_inj k1 k2 : example_gvk k1 = example_gvk k2 → k1 = k2.
Proof. by destruct k1, k2. Qed.

Lemma processBatch_delta_witness :
  let batch := mkBatch [DeleteEvent KNamespace (NN "" "a");
                        UpsertEvent (ONamespace {| ns_Meta := simple_meta "" "a" 2 |})] 1 in
  let before := {| ns_Meta := simple_meta "" "a" 1 |} in
  let cs := ClusterStore_Upsert example_gvk (ONamespace before) empty_cluster_store in
  delta_ok (objects (Namespaces cs))
    (Namespaces (@processBatch key_order example_gvk batch cs))
    (touched KNamespace batch (NN "" "a")) (NN "" "a") ∧
  touched KNamespace batch (NN "" "a").
Proof.
  intros batch before cs. split.
  - apply (processBatch_delta key_order example_gvk batch cs KNamespace (NN "" "a")).
    apply example_gvk_inj.
  - exists (DeleteEvent KNamespace (NN "" "a")). split; [left|done].
Defined.
