(* ===== verification/EventLoop.v ===== *)
(** * EventLoop: k8s/gate/handler/monitor.go

    The loop that collects events into [nextBatch] while a goroutine handles
    [currentBatch].  The two batches are Go slices over shared arrays, swapped
    and truncated with [\[:0\]], so the arrays are an explicit store here and
    the goroutine reads the events of its batch one at a time, interleaved
    with the loop.  One step is one case of the [select] or one step of the
    goroutine. *)

From S2P Require Import Prelude.

(** ** Go slices over a store of arrays *)

(** A slice starts at the front of its array (the loop never reslices from
    elsewhere); its capacity is the length of the array. *)
Record Slice := mkSlice { arr : nat; slen : nat }.

Abbreviation Arrays E := (gmap nat (list (option E))).

Definition cells {E} (h : Arrays E) (s : Slice) : list (option E) :=
  default [] (h !! arr s).

Definition contents {E} (h : Arrays E) (s : Slice) : list (option E) :=
  take (slen s) (cells h s).

(** [append(s, e)]: in place while the capacity allows it, else in a new array
    whose spare capacity [grow] the language leaves open. *)
Definition append_slice {E} (grow : nat → nat) (h : Arrays E) (s : Slice) (e : E) :
    Arrays E * Slice :=
  if bool_decide (slen s < length (cells h s)) then
    (<[arr s := <[slen s := Some e]> (cells h s)]> h, mkSlice (arr s) (S (slen s)))
  else
    let a := fresh (dom h) in
    (<[a := contents h s ++ [Some e] ++ replicate (grow (slen s)) None]> h,
     mkSlice a (S (slen s))).

(** ** The state of the loop *)
Record Batch := mkLoopBatch { Events : Slice; BatchID : Z }.

Record EventLoopConfig := { SyncPeriod : Z; StartupSyncPeriod : Z }.

(** The goroutine that handles a batch: the batch it was given, and the events
    read so far; then blocked on the send to [handlingDone]. *)
Inductive Worker E :=
  | Idle
  | Reading (b : Batch) (read : list (option E))
  | Waiting (b : Batch) (read : list (option E)).
Arguments Idle {E}.
Arguments Reading {E}.
Arguments Waiting {E}.

Inductive LoopStatus := Running | Stopping | Returned.

Record EventLoop E := mkEventLoop {
  arrays : Arrays E;
  isStartup : bool;
  timer : option Z;
  currentBatch : Batch;
  nextBatch : Batch;
  handling : bool;
  worker : Worker E;
  loop_status : LoopStatus;
  (** ghost: the events received, and the batches handled *)
  received : list E;
  handled : list (Z * list (option E))
}.
Arguments mkEventLoop {E}.
Arguments arrays {E}.
Arguments isStartup {E}.
Arguments timer {E}.
Arguments currentBatch {E}.
Arguments nextBatch {E}.
Arguments handling {E}.
Arguments worker {E}.
Arguments loop_status {E}.
Arguments received {E}.
Arguments handled {E}.

Inductive Label E :=
  | LEvent (e : E)       (** [case e := <-el.eventCh] *)
  | LTimer               (** [case <-el.timerC] *)
  | LDone                (** [case <-handlingDone] *)
  | LCancel              (** [case <-ctx.Done()] *)
  | LRead                (** the goroutine reads its next event *)
  | LFinish.             (** [HandleEventBatch] returns *)
Arguments LEvent {E}.
Arguments LTimer {E}.
Arguments LDone {E}.
Arguments LCancel {E}.
Arguments LRead {E}.
Arguments LFinish {E}.

Section loop.
Context {E : Type} (grow : nat → nat) (loopCfg : EventLoopConfig).
Implicit Types (el : EventLoop E).

Definition NewEventLoop : EventLoop E :=
  mkEventLoop {[ 0 := []; 1 := [] ]} true None
    (mkLoopBatch (mkSlice 0 0) 0) (mkLoopBatch (mkSlice 1 0) 1)
    false Idle Running [] [].

Definition sleepTime el : Z :=
  if isStartup el then
    if (StartupSyncPeriod loopCfg =? 0)%Z then SyncPeriod loopCfg
    else StartupSyncPeriod loopCfg
  else SyncPeriod loopCfg.

Definition startTimer el : EventLoop E :=
  match timer el with
  | Some _ => el
  | None =>
      mkEventLoop (arrays el) false (Some (sleepTime el)) (currentBatch el) (nextBatch el)
        (handling el) (worker el) (loop_status el) (received el) (handled el)
  end.

Definition stopTimer el : EventLoop E :=
  mkEventLoop (arrays el) (isStartup el) None (currentBatch el) (nextBatch el)
    (handling el) (worker el) (loop_status el) (received el) (handled el).

Definition swapBatches el : EventLoop E :=
  let current := nextBatch el in
  let next := mkLoopBatch (mkSlice (arr (Events (currentBatch el))) 0) (BatchID current + 1) in
  mkEventLoop (arrays el) (isStartup el) (timer el) current next
    (handling el) (worker el) (loop_status el) (received el) (handled el).

Definition handleBatch el : EventLoop E :=
  mkEventLoop (arrays el) (isStartup el) (timer el) (currentBatch el) (nextBatch el)
    true (Reading (currentBatch el) []) (loop_status el) (received el) (handled el).

Definition swapAndHandleBatch el : EventLoop E := handleBatch (swapBatches el).

Definition onEvent (e : E) el : EventLoop E :=
  let '(h, s) := append_slice grow (arrays el) (Events (nextBatch el)) e in
  let el' :=
    mkEventLoop h (isStartup el) (timer el) (currentBatch el)
      (mkLoopBatch s (BatchID (nextBatch el)))
      (handling el) (worker el) (loop_status el) (received el ++ [e]) (handled el) in
  if (BatchID (nextBatch el') =? 1)%Z then startTimer el' else el'.

Definition onTimer el : EventLoop E :=
  let el' := stopTimer el in
  if negb (handling el') && bool_decide (0 < slen (Events (nextBatch el')))
  then swapAndHandleBatch el'
  else startTimer el'.

(** The receive from [handlingDone] and the goroutine's send meet. *)
Definition onDone (b : Batch) (read : list (option E)) el : EventLoop E :=
  let el' :=
    mkEventLoop (arrays el) (isStartup el) (timer el) (currentBatch el) (nextBatch el)
      false Idle (loop_status el) (received el) (handled el ++ [(BatchID b, read)]) in
  match loop_status el with
  | Running => startTimer el'
  | _ =>
      mkEventLoop (arrays el') (isStartup el') (timer el') (currentBatch el') (nextBatch el')
        (handling el') (worker el') Returned (received el') (handled el')
  end.

Definition onCancel el : EventLoop E :=
  let el' := stopTimer el in
  mkEventLoop (arrays el') (isStartup el') (timer el') (currentBatch el') (nextBatch el')
    (handling el') (worker el') (if handling el' then Stopping else Returned)
    (received el') (handled el').

Definition set_worker (w : Worker E) el : EventLoop E :=
  mkEventLoop (arrays el) (isStartup el) (timer el) (currentBatch el) (nextBatch el)
    (handling el) w (loop_status el) (received el) (handled el).

(** One step of the loop or of the goroutine, when it is enabled. *)
Definition Start_step (l : Label E) el : option (EventLoop E) :=
  match l, loop_status el, worker el with
  | LEvent e, Running, _ => Some (onEvent e el)
  | LTimer, Running, _ => if timer el is Some _ then Some (onTimer el) else None
  | LCancel, Running, _ => Some (onCancel el)
  | LDone, (Running | Stopping), Waiting b read => Some (onDone b read el)
  | LRead, _, Reading b read =>
      match contents (arrays el) (Events b) !! length read with
      | Some e => Some (set_worker (Reading b (read ++ [e])) el)
      | None => None
      end
  | LFinish, _, Reading b read =>
      if bool_decide (length read = slen (Events b))
      then Some (set_worker (Waiting b read) el) else None
  | _, _, _ => None
  end.

Fixpoint Start_run (ls : list (Label E)) el : option (EventLoop E) :=
  match ls with
  | [] => Some el
  | l :: ls => match Start_step l el with Some el' => Start_run ls el' | None => None end
  end.
End loop.

(** ** append *)
Section append.
Context {E : Type} (grow : nat → nat).
Implicit Types (h : Arrays E) (s t : Slice).

Definition slice_ok h s : Prop := is_Some (h !! arr s) ∧ slen s ≤ length (cells h s).

Lemma contents_length h s : slice_ok h s → length (contents h s) = slen s.
Proof. intros [_ Hs]. unfold contents. rw length_take. lia. Qed.

Lemma append_slice_contents h s e h' s' :
  slice_ok h s → append_slice grow h s e = (h', s') →
  contents h' s' = contents h s ++ [Some e] ∧ slice_ok h' s'.
Proof.
  intros Hok Happ. pose proof (contents_length _ _ Hok) as Hlen.
  destruct Hok as [Hs Hle]. unfold append_slice in Happ.
  unfold slice_ok, contents, cells in *.
  case_bool_decide as Hcap; simplify_eq; simpl; rw !lookup_insert_eq /=.
  - rw (take_S_r _ _ (Some e)).
    { apply list_lookup_insert_eq. lia. }
    rw take_insert_ge //. split; [done|]. split; [eauto|].
    rw length_insert. lia.
  - split.
    + rw cons_middle app_assoc take_app_length' //. rw length_app Hlen /=. lia.
    + split; [eauto|]. rw !length_app Hlen /=. lia.
Qed.

(** A slice over another array of the store does not see the append. *)
Lemma append_slice_frame h s t e h' s' :
  append_slice grow h s e = (h', s') → arr t ≠ arr s → slice_ok h t →
  cells h' t = cells h t ∧ slice_ok h' t ∧ arr t ≠ arr s'.
Proof.
  unfold append_slice, slice_ok, cells. intros Happ Hne [Hdom Hle].
  case_bool_decide; simplify_eq; simpl.
  - rw lookup_insert_ne //.
  - assert (arr t ≠ fresh (dom h)) as Hfr.
    { intros Heq. apply (is_fresh (dom h)). rw -Heq. by apply elem_of_dom. }
    rw lookup_insert_ne //.
Qed.
End append.

(** ** The invariant *)
Section invariant.
Context {E : Type} (grow : nat → nat) (loopCfg : EventLoopConfig).
Implicit Types (el : EventLoop E).

(** The events of the batch being handled. *)
Definition in_flight el : list (option E) :=
  if handling el then contents (arrays el) (Events (currentBatch el)) else [].

Definition pending el : list (option E) := contents (arrays el) (Events (nextBatch el)).

Definition worker_ok el : Prop :=
  match worker el with
  | Idle => handling el = false
  | Reading b read =>
      handling el = true ∧ b = currentBatch el ∧ read `prefix_of` in_flight el
  | Waiting b read => handling el = true ∧ b = currentBatch el ∧ read = in_flight el
  end.

Definition buffers_ok el : Prop :=
  arr (Events (currentBatch el)) ≠ arr (Events (nextBatch el)) ∧
  slice_ok (arrays el) (Events (currentBatch el)) ∧
  slice_ok (arrays el) (Events (nextBatch el)).

Definition ids_ok el : Prop :=
  BatchID (nextBatch el) = (BatchID (currentBatch el) + 1)%Z ∧
  BatchID (currentBatch el) =
    (Z.of_nat (length (handled el)) + if handling el then 1 else 0)%Z ∧
  (handled el).*1 = seqZ 1 (Z.of_nat (length (handled el))).

Definition events_ok el : Prop :=
  Some <$> received el = concat (handled el).*2 ++ in_flight el ++ pending el.

(** No lost wake-up: while the loop runs, a pending event is backed by an
    armed timer or by a batch whose end will arm it. *)
Definition wakeup_ok el : Prop :=
  loop_status el = Running →
  pending el ≠ [] ∨ BatchID (nextBatch el) ≠ 1%Z →
  is_Some (timer el) ∨ handling el = true.

Definition status_ok el : Prop :=
  match loop_status el with
  | Running => True
  | Stopping => handling el = true
  | Returned => handling el = false
  end.

Record core_inv el : Prop := {
  li_worker : worker_ok el;
  li_buffers : buffers_ok el;
  li_ids : ids_ok el;
  li_events : events_ok el;
  li_status : status_ok el
}.

Definition loop_inv el : Prop := core_inv el ∧ wakeup_ok el.

(** The timer is not part of the core of the invariant. *)
Lemma core_inv_timer el el' :
  arrays el' = arrays el → currentBatch el' = currentBatch el →
  nextBatch el' = nextBatch el → handling el' = handling el → worker el' = worker el →
  loop_status el' = loop_status el → received el' = received el →
  handled el' = handled el → core_inv el → core_inv el'.
Proof.
  intros Ha Hc Hn Hh Hw Hs Hr Hd [H1 H2 H3 H4 H5].
  split; unfold worker_ok, buffers_ok, ids_ok, events_ok, status_ok, in_flight, pending in *;
    by rw ?Hw ?Ha ?Hc ?Hn ?Hh ?Hs ?Hr ?Hd.
Qed.

Lemma startTimer_inv el : core_inv el → loop_inv (startTimer loopCfg el).
Proof.
  intros Hel. unfold startTimer. destruct (timer el) eqn:Ht.
  - split; [done|]. intros _ _. left. by rw Ht.
  - split; [by apply (core_inv_timer el)|]. intros _ _. left. eauto.
Qed.

Lemma NewEventLoop_inv : loop_inv (NewEventLoop : EventLoop E).
Proof.
  split; [by split|].
  intros _ [Hp|Hb]; exfalso; [by apply Hp|by apply Hb].
Qed.

Lemma onEvent_core e el :
  core_inv el → loop_status el = Running →
  ∀ h s, append_slice grow (arrays el) (Events (nextBatch el)) e = (h, s) →
  core_inv (mkEventLoop h (isStartup el) (timer el) (currentBatch el)
    (mkLoopBatch s (BatchID (nextBatch el))) (handling el) (worker el)
    (loop_status el) (received el ++ [e]) (handled el)).
Proof.
  intros [Hw (Hne & Hc & Hn) Hi He Hs] Hrun h s Happ.
  destruct (append_slice_contents _ _ _ _ _ _ Hn Happ) as [Hcont Hok].
  destruct (append_slice_frame _ _ _ _ _ _ _ Happ Hne Hc) as (Hcell & Hcok & Hne').
  assert (contents h (Events (currentBatch el)) =
    contents (arrays el) (Events (currentBatch el))) as Hcur.
  { unfold contents. by rw Hcell. }
  split; [| | | |done]; unfold worker_ok, buffers_ok, ids_ok, events_ok, in_flight, pending in *;
    simpl; rw ?Hcur; try done.
  rw fmap_app He Hcont /= -!app_assoc //.
Qed.

Lemma onEvent_inv e el :
  loop_inv el → loop_status el = Running → loop_inv (onEvent grow loopCfg e el).
Proof.
  intros [Hcore Hwake] Hrun. unfold onEvent.
  destruct (append_slice _ _ _ _) as [h s] eqn:Happ.
  pose proof (onEvent_core e el Hcore Hrun _ _ Happ) as Hcore'. simpl.
  destruct (Z.eqb_spec (BatchID (nextBatch el)) 1) as [|Hid].
  - by apply startTimer_inv.
  - split; [done|]. intros _ _. simpl. apply Hwake; auto.
Qed.

Lemma swapAndHandleBatch_inv el :
  core_inv el → handling el = false → loop_status el = Running →
  loop_inv (swapAndHandleBatch el).
Proof.
  intros [Hw (Hne & Hc & Hn) (Hi1 & Hi2 & Hi3) He Hs] Hh Hrun.
  split; [|by intros; right].
  split; unfold worker_ok, buffers_ok, ids_ok, events_ok, status_ok, in_flight, pending,
    swapAndHandleBatch in *; simpl.
  - split_and!; [done|done|apply prefix_nil].
  - split_and!; [done|done|]. unfold slice_ok, cells in *. simpl. split; [by destruct Hc|lia].
  - rw Hh in Hi2. split_and!; [done|lia|done].
  - rw He Hh. simpl. unfold contents. rw /= !app_nil_r //.
  - by rw Hrun.
Qed.

Lemma onTimer_inv el :
  loop_inv el → loop_status el = Running → loop_inv (onTimer loopCfg el).
Proof.
  intros [Hcore _] Hrun. unfold onTimer.
  assert (core_inv (stopTimer el)) as Hc by (by apply (core_inv_timer el)).
  destruct (negb (handling (stopTimer el)) && _) eqn:Hb.
  - apply andb_true_iff in Hb as [Hh%negb_true_iff _]. by apply swapAndHandleBatch_inv.
  - by apply startTimer_inv.
Qed.

Lemma onDone_inv b read el :
  loop_inv el → worker el = Waiting b read → loop_status el ≠ Returned →
  loop_inv (onDone loopCfg b read el).
Proof.
  intros [[Hw Hb (Hi1 & Hi2 & Hi3) He Hs] _] Hwk Hst.
  unfold worker_ok in Hw. rw Hwk in Hw. destruct Hw as (Hh & -> & ->).
  assert (∀ st, (match st with Running => True | Stopping => False | Returned => True end) →
    core_inv (mkEventLoop (arrays el) (isStartup el) (timer el) (currentBatch el)
      (nextBatch el) false Idle st (received el)
      (handled el ++ [(BatchID (currentBatch el), in_flight el)]))) as Hcore.
  { intros st Hst'.
    split; unfold worker_ok, buffers_ok, ids_ok, events_ok, status_ok, in_flight, pending
      in *; simpl; try done.
    - rw length_app fmap_app /= Hi3. rw Hh in Hi2. split_and!; [done|lia|].
      rw (_ : Z.of_nat (length (handled el) + 1) = Z.of_nat (length (handled el)) + 1)%Z;
        [lia|]. rw seqZ_app; [lia|lia|]. f_equal. simpl. by rw Hi2 Z.add_comm.
    - rw He fmap_app concat_app /= app_nil_r -app_assoc //.
    - by destruct st. }
  unfold onDone. destruct (loop_status el) eqn:Hls.
  - apply startTimer_inv. by apply Hcore.
  - split; [by apply (Hcore Returned)|]. done.
  - done.
Qed.

Lemma onCancel_inv el : loop_inv el → loop_inv (onCancel el).
Proof.
  intros [[Hw Hb Hi He Hs] _]. split; [|unfold onCancel; simpl; by destruct (handling el)].
  split; try done. unfold status_ok, onCancel. simpl. by destruct (handling el) eqn:?.
Qed.

Lemma set_worker_inv w el :
  loop_inv el → worker_ok (set_worker w el) → loop_inv (set_worker w el).
Proof. intros [[Hw Hb Hi He Hs] Hwake] Hw'. by split; [split|]. Qed.

Lemma LRead_inv b read e el :
  loop_inv el → worker el = Reading b read →
  contents (arrays el) (Events b) !! length read = Some e →
  loop_inv (set_worker (Reading b (read ++ [e])) el).
Proof.
  intros Hel Hwk Hlk. pose proof Hel as [[Hw _ _ _ _] _].
  unfold worker_ok in Hw. rw Hwk in Hw. destruct Hw as (Hh & -> & [k Hpre]).
  apply set_worker_inv; [done|]. unfold worker_ok. simpl. split_and!; [done|done|].
  change (in_flight (set_worker _ el)) with (in_flight el). rw Hpre.
  apply prefix_app. unfold in_flight in Hpre. rw Hh in Hpre. rw Hpre in Hlk.
  rw lookup_app_r // Nat.sub_diag in Hlk. destruct k; simplify_eq/=. by eexists.
Qed.

Lemma LFinish_inv b read el :
  loop_inv el → worker el = Reading b read → length read = slen (Events b) →
  loop_inv (set_worker (Waiting b read) el).
Proof.
  intros Hel Hwk Hlen. pose proof Hel as [[Hw (_ & Hc & _) _ _ _] _].
  unfold worker_ok in Hw. rw Hwk in Hw. destruct Hw as (Hh & -> & Hpre).
  apply set_worker_inv; [done|]. unfold worker_ok. simpl. split_and!; [done|done|].
  change (in_flight (set_worker _ el)) with (in_flight el).
  apply prefix_length_eq; [done|]. unfold in_flight. rw Hh contents_length //. lia.
Qed.

Lemma Start_step_inv l el el' :
  loop_inv el → Start_step grow loopCfg l el = Some el' → loop_inv el'.
Proof.
  intros Hel Hstep. unfold Start_step in Hstep.
  destruct l; destruct (loop_status el) eqn:Hst; try done; repeat case_match;
    repeat case_bool_decide; simplify_eq;
    eauto using onEvent_inv, onTimer_inv, onCancel_inv, LRead_inv, LFinish_inv.
  all: apply onDone_inv; congruence.
Qed.

Lemma Start_run_inv ls el el' :
  loop_inv el → Start_run grow loopCfg ls el = Some el' → loop_inv el'.
Proof.
  revert el. induction ls as [|l ls IH]; intros el Hel Hrun; simplify_eq/=; [done|].
  destruct (Start_step _ _ _ _) as [el1|] eqn:Hs; [|done].
  eauto using Start_step_inv.
Qed.

(** ** Progress *)

(** The steps the environment cannot withhold: the timer fires, the goroutine
    goes on, its completion is received. *)
Definition internal (l : Label E) : Prop :=
  match l with LEvent _ | LCancel => False | _ => True end.

Lemma Start_run_app ls1 ls2 el el' :
  Start_run grow loopCfg ls1 el = Some el' →
  Start_run grow loopCfg (ls1 ++ ls2) el = Start_run grow loopCfg ls2 el'.
Proof.
  revert el. induction ls1 as [|l ls1 IH]; intros el Hrun; simplify_eq/=; [done|].
  destruct (Start_step _ _ _ _); [by apply IH|done].
Qed.

(** What draining the worker leaves untouched. *)
Definition same_queue el el' : Prop :=
  loop_status el' = loop_status el ∧ received el' = received el ∧ pending el' = pending el.

Definition drains el : Prop :=
  ∃ ls el', Forall internal ls ∧ Start_run grow loopCfg ls el = Some el' ∧
    loop_inv el' ∧ same_queue el el' ∧ handling el' = false.

Lemma drains_step l el el1 :
  internal l → Start_step grow loopCfg l el = Some el1 → same_queue el el1 →
  drains el1 → drains el.
Proof.
  intros Hl Hs (Hq1 & Hq2 & Hq3) (ls & el' & Hls & Hrun & Hinv & (Hr1 & Hr2 & Hr3) & Hh).
  exists (l :: ls), el'. split_and!; [by constructor|by rw /= Hs|done| |done].
  split_and!; congruence.
Qed.

Lemma drains_Waiting b read el :
  loop_inv el → loop_status el = Running → worker el = Waiting b read → drains el.
Proof.
  intros Hel Hst Hwk.
  exists [LDone], (onDone loopCfg b read el).
  split_and!; [by repeat constructor|by rw /= ?Hst Hwk|by apply onDone_inv; rw ?Hst| |].
  - unfold onDone, same_queue. rw Hst. unfold startTimer. by case_match.
  - unfold onDone. rw Hst. unfold startTimer. by case_match.
Qed.

Lemma drains_Reading n b read el :
  loop_inv el → loop_status el = Running → worker el = Reading b read →
  slen (Events b) - length read = n → drains el.
Proof.
  revert read el. induction n as [|n IH]; intros read el Hel Hst Hwk Hn.
  all: pose proof Hel as [[Hw (_ & Hc & _) _ _ _] _]; unfold worker_ok in Hw;
    rw Hwk in Hw; destruct Hw as (Hh & -> & Hpre); unfold in_flight in Hpre; rw Hh in Hpre;
    pose proof (prefix_length _ _ Hpre) as Hlen; rw contents_length // in Hlen.
  - assert (length read = slen (Events (currentBatch el))) as Heq by lia.
    eapply (drains_step LFinish);
      [done|rw /= ?Hst Hwk bool_decide_eq_true_2 //|done|].
    eapply drains_Waiting; [by apply LFinish_inv|done|done].
  - destruct (lookup_lt_is_Some_2 (contents (arrays el) (Events (currentBatch el)))
      (length read)) as [e He]; [rw contents_length //; lia|].
    eapply (drains_step LRead); [done|rw /= ?Hst Hwk He //|done|].
    eapply IH; [by apply LRead_inv|done|done|rw length_app /=; lia].
Qed.

Lemma running_drains el : loop_inv el → loop_status el = Running → drains el.
Proof.
  intros Hel Hst. destruct (worker el) as [|b read|b read] eqn:Hwk.
  - exists [], el. split_and!; try done.
    destruct Hel as [[Hw _ _ _ _] _]. unfold worker_ok in Hw. by rw Hwk in Hw.
  - by eapply drains_Reading.
  - by eapply drains_Waiting.
Qed.

Lemma idle_drained el :
  loop_inv el → handling el = false → pending el = [] →
  concat (handled el).*2 = Some <$> received el.
Proof.
  intros [[_ _ _ He _] _] Hh Hp. unfold events_ok, in_flight in He.
  by rw He Hh Hp !app_nil_r.
Qed.

(** The timer moves the pending events to the goroutine. *)
Lemma timer_swaps el :
  loop_inv el → loop_status el = Running → handling el = false → pending el ≠ [] →
  ∃ el', Start_step grow loopCfg LTimer el = Some el' ∧ loop_inv el' ∧
    loop_status el' = Running ∧ received el' = received el ∧ pending el' = [].
Proof.
  intros Hel Hst Hh Hp. pose proof Hel as [_ Hwake].
  destruct (Hwake Hst) as [[t Ht]|]; [by left| |congruence].
  exists (onTimer loopCfg el). split_and!; [by rw /= ?Hst Ht|by apply onTimer_inv|..].
  all: unfold onTimer; rw /= Hh bool_decide_eq_true_2 //=; destruct Hel as [[_ (_ & _ & Hn) _ _ _] _];
    pose proof (contents_length _ _ Hn); unfold pending in Hp;
    destruct (contents _ _); simpl in *; done || lia.
Qed.

Lemma loop_progress el :
  loop_inv el → loop_status el = Running →
  ∃ ls el', Forall internal ls ∧ Start_run grow loopCfg ls el = Some el' ∧
    received el' = received el ∧ concat (handled el').*2 = Some <$> received el.
Proof.
  intros Hel Hst.
  destruct (running_drains el Hel Hst) as (ls1 & el1 & Hi1 & Hr1 & Hinv1 & (Hs1 & Hq1 & Hp1) & Hh1).
  destruct (decide (pending el1 = [])) as [Hp|Hp].
  { exists ls1, el1. rw -Hq1. by rw idle_drained. }
  destruct (timer_swaps el1) as (el2 & Hr2 & Hinv2 & Hs2 & Hq2 & Hp2); [congruence..|].
  destruct (running_drains el2 Hinv2 Hs2)
    as (ls3 & el3 & Hi3 & Hr3 & Hinv3 & (Hs3 & Hq3 & Hp3) & Hh3).
  exists (ls1 ++ LTimer :: ls3), el3. split_and!.
  - apply Forall_app. by split; [|constructor].
  - rw (Start_run_app _ _ _ _ Hr1). cbn [Start_run]. by rw Hr2.
  - congruence.
  - rw idle_drained; congruence.
Qed.
End invariant.

(** ** Properties *)
Definition example_cfg : EventLoopConfig := {| SyncPeriod := 5; StartupSyncPeriod := 0 |}.

(** Two events, a batch in flight, an event during the handling that reuses
    the array of the previous batch, and the completion. *)
Definition example_labels : list (Label nat) :=
  [LEvent 1; LEvent 2; LTimer; LEvent 3; LRead; LRead; LFinish; LDone; LTimer; LEvent 4;
   LRead; LEvent 5].

Definition example_loop : EventLoop nat :=
  default NewEventLoop (Start_run (λ n, n) example_cfg example_labels NewEventLoop).

Lemma example_loop_run :
  Start_run (λ n, n) example_cfg example_labels NewEventLoop = Some example_loop.
Proof. by vm_compute. Qed.

(** C9: whatever the interleaving of events, timer, goroutine and completion,
    and however [append] grows its arrays, every event received is in exactly
    one place and in order: in the batches handled, then in the batch in
    flight, then in the pending batch; the batches handled are numbered 1, 2,
    3... without a gap; and what the goroutine has read so far is a prefix of
    the batch it was given, so the loop never overwrites a batch in flight. *)
Theorem EventLoop_delivers {E} grow loopCfg (ls : list (Label E)) el :
  Start_run grow loopCfg ls NewEventLoop = Some el →
  Some <$> received el = concat (handled el).*2 ++ in_flight el ++ pending el ∧
  (handled el).*1 = seqZ 1 (Z.of_nat (length (handled el))) ∧
  worker_ok el.
Proof.
  intros Hrun.
  destruct (Start_run_inv grow loopCfg ls _ _ NewEventLoop_inv Hrun)
    as [[Hw _ (_ & _ & Hid) He _] _].
  done.
Qed.

Lemma EventLoop_delivers_witness :
  let el := example_loop in
  handled el = [(1%Z, [Some 1; Some 2])] ∧ in_flight el = [Some 3] ∧
  pending el = [Some 4; Some 5] ∧
  Some <$> received el = concat (handled el).*2 ++ in_flight el ++ pending el.
Proof.
  intros el. split; [by vm_compute|]. split; [by vm_compute|]. split; [by vm_compute|].
  exact (proj1 (EventLoop_delivers _ _ _ _ example_loop_run)).
Defined.

(** C10: no event waits forever: from every state the running loop can reach,
    the timer, the goroutine and its completion alone lead to a state where
    every event received so far has been handled; in particular a pending
    event never finds the timer unarmed and no batch in flight. *)
Theorem EventLoop_progress {E} grow loopCfg (ls : list (Label E)) el :
  Start_run grow loopCfg ls NewEventLoop = Some el →
  loop_status el = Running →
  ∃ ls' el', Forall internal ls' ∧ Start_run grow loopCfg ls' el = Some el' ∧
    received el' = received el ∧ concat (handled el').*2 = Some <$> received el.
Proof.
  intros Hrun Hst. apply loop_progress; [|done].
  by eapply Start_run_inv; [apply NewEventLoop_inv|].
Qed.

Lemma EventLoop_progress_witness :
  pending example_loop ≠ [] ∧
  ∃ ls' el', Forall internal ls' ∧
    Start_run (λ n, n) example_cfg ls' example_loop = Some el' ∧
    received el' = received example_loop ∧
    concat (handled el').*2 = Some <$> received example_loop.
Proof.
  split; [by vm_compute|].
  apply (EventLoop_progress _ _ _ _ example_loop_run). by vm_compute.
Defined.
