(* ===== verification/References.v ===== *)
(** * References: k8s/gate/references and tree/references_manager.go

    Who references whom: for each referenced object, and for each kind of
    referencing object, the set of the keys that hold a reference.  The
    abstract content of the nested maps is a ternary relation; every operation
    is shown to implement its update of that relation. *)

From S2P Require Import Prelude GoStrings Objects Utils Store.

(** ** references.go *)
Abbreviation Owners :=
  (gmap NamespacedName (gmap GroupVersionKind (gset NamespacedName))).

Record ReferencedBy := mkReferencedBy { Owner : Owners; ref_Name : string }.

Definition NewReferencedBy (name : string) : ReferencedBy := mkReferencedBy ∅ name.

Definition AddReferencedByUsingKeys (ownedKey ownerKey : NamespacedName)
    (ownerGVK : GroupVersionKind) (r : ReferencedBy) : ReferencedBy :=
  let o1 :=
    match Owner r !! ownedKey with None => <[ownedKey := ∅]> (Owner r) | Some _ => Owner r end in
  let byGVK := default ∅ (o1 !! ownedKey) in
  let byGVK1 :=
    match byGVK !! ownerGVK with None => <[ownerGVK := ∅]> byGVK | Some _ => byGVK end in
  let owners := default ∅ (byGVK1 !! ownerGVK) in
  mkReferencedBy (<[ownedKey := <[ownerGVK := {[ownerKey]} ∪ owners]> byGVK1]> o1) (ref_Name r).

Definition AddReferencedBy (extractGVK : ExtractGVK) (ownedKey : NamespacedName)
    (owner : Object) (r : ReferencedBy) : ReferencedBy :=
  AddReferencedByUsingKeys ownedKey (ObjectKeyFromObject owner) (extractGVK (kind_of owner)) r.

Definition RemoveReferencedByUsingKeys (ownedKey ownerKey : NamespacedName)
    (ownerGVK : GroupVersionKind) (r : ReferencedBy) : ReferencedBy :=
  match Owner r !! ownedKey with
  | None => r
  | Some byGVK =>
      match byGVK !! ownerGVK with
      | None => r
      | Some owners =>
          let owners1 := owners ∖ {[ownerKey]} in
          let byGVK1 := <[ownerGVK := owners1]> byGVK in
          let byGVK2 := if (size owners1 =? 0)%nat then delete ownerGVK byGVK1 else byGVK1 in
          let o1 := <[ownedKey := byGVK2]> (Owner r) in
          let o2 := if (size byGVK2 =? 0)%nat then delete ownedKey o1 else o1 in
          mkReferencedBy o2 (ref_Name r)
      end
  end.

Definition RemoveReferencedBy (extractGVK : ExtractGVK) (ownedKey : NamespacedName)
    (owner : Object) (r : ReferencedBy) : ReferencedBy :=
  RemoveReferencedByUsingKeys ownedKey (ObjectKeyFromObject owner) (extractGVK (kind_of owner)) r.

Definition ReferencedByUsingKeys (r : ReferencedBy) (ownedKey : NamespacedName)
    (ownerGVK : GroupVersionKind) : gset NamespacedName :=
  match Owner r !! ownedKey with
  | None => ∅
  | Some byGVK => default ∅ (byGVK !! ownerGVK)
  end.

Definition ReferencedBy_of (r : ReferencedBy) (owned : Object) (ownerGVK : GroupVersionKind) :
    gset NamespacedName :=
  ReferencedByUsingKeys r (ObjectKeyFromObject owned) ownerGVK.

Definition AllReferenced `{RangeOrder} (r : ReferencedBy) (ownerGVK : GroupVersionKind) :
    gmap NamespacedName (gset NamespacedName) :=
  range_fold (λ ownedKey ownerByGVK referenced,
    let gwOwners := default ∅ (ownerByGVK !! ownerGVK) in
    if negb (size gwOwners =? 0)%nat then <[ownedKey := gwOwners]> referenced else referenced)
    (Owner r) ∅.

Definition ReferencedBy_DeepCopy `{RangeOrder} (r : ReferencedBy) : ReferencedBy :=
  mkReferencedBy
    (range_fold (λ k1 v1 ownerCopy,
       let innerCopy := range_fold (λ k2 v2 innerCopy,
         let deepestCopy := foldl (λ c k3, {[k3]} ∪ c) ∅ (range_set v2) in
         <[k2 := deepestCopy]> innerCopy) v1 ∅ in
       <[k1 := innerCopy]> ownerCopy) (Owner r) ∅)
    (ref_Name r).

Definition CleanOwners `{RangeOrder} (r : ReferencedBy) : ReferencedBy :=
  mkReferencedBy (range_fold (λ k _ o, delete k o) (Owner r) (Owner r)) (ref_Name r).

(** ** supported.go, secret.go and gateway_listener.go: keys of the references *)
Definition eq_or_nil (p : option string) (s : string) : bool :=
  match p with None => true | Some x => bool_decide (x = s) end.

Definition IsSecretGroupKindSupported (certRef : SecretObjectReference) : bool :=
  if negb (eq_or_nil (sr_Kind certRef) "Secret") then false
  else if negb (eq_or_nil (sr_Group certRef) "") then false
  else true.

Definition GetCertificateRefNamespacedName (certRef : SecretObjectReference)
    (gw : K8sGateway) : NamespacedName :=
  NN (default (meta_Namespace (gw_Meta gw)) (sr_Namespace certRef)) (sr_Name certRef).

Definition ListenerKeyFromListenerName (gw : K8sGateway) (listenerName : string) :
    NamespacedName :=
  NN (meta_Namespace (gw_Meta gw)) (meta_Name (gw_Meta gw) +:+ "_" +:+ listenerName).

Definition ListenerKey (gw : K8sGateway) (listener : K8sListener) : NamespacedName :=
  ListenerKeyFromListenerName gw (l_Name listener).

Definition underscore : Ascii.ascii := Ascii.Ascii true true true true true false true false.

Definition ConvertListenerKeyToGatewayKeyAndListenerName (listenerKey : NamespacedName) :
    result (NamespacedName * string) :=
  match Split underscore (Name listenerKey) with
  | [g; l] => Ok (NN (Namespace listenerKey) g, l)
  | _ => Err ("invalid listener key format: " +:+ Name listenerKey)
  end.

Definition ConvertListenerKeyToGatewayKey (listenerKey : NamespacedName) : NamespacedName :=
  match ConvertListenerKeyToGatewayKeyAndListenerName listenerKey with
  | Err _ => listenerKey
  | Ok (gatewayKey, _) => gatewayKey
  end.

(** ** references_manager.go *)
Record ReferencedObjects := {
  ReferencedSecrets : ReferencedBy;
  PreviousReferencedSecrets : ReferencedBy
}.

Definition NewReferencedObjects : ReferencedObjects :=
  {| ReferencedSecrets := NewReferencedBy "secret";
     PreviousReferencedSecrets := NewReferencedBy "secret" |}.

Definition needsReferencedSecretsRebuild (cs : ClusterStore) : bool :=
  negb (size (updates (Gateways cs)) =? 0)%nat.

Definition cleanReferencedObjects `{RangeOrder} (cs : ClusterStore) (ro : ReferencedObjects) :
    ReferencedObjects :=
  let previous := ReferencedBy_DeepCopy (ReferencedSecrets ro) in
  if needsReferencedSecretsRebuild cs
  then {| ReferencedSecrets := CleanOwners (ReferencedSecrets ro);
          PreviousReferencedSecrets := previous |}
  else {| ReferencedSecrets := ReferencedSecrets ro; PreviousReferencedSecrets := previous |}.

(** The body of the two inner loops, for one listener of one gateway. *)
Definition addListenerSecrets (extractGVK : ExtractGVK) (gw : K8sGateway)
    (listener : K8sListener) (r : ReferencedBy) : ReferencedBy :=
  match l_TLS listener with
  | None => r
  | Some tls =>
      foldl (λ r certRef,
        if negb (IsSecretGroupKindSupported certRef) then r
        else AddReferencedByUsingKeys (GetCertificateRefNamespacedName certRef gw)
               (ListenerKey gw listener) (extractGVK KGateway) r)
        r (tls_CertificateRefs tls)
  end.

Definition buildSecretReferences `{RangeOrder} (extractGVK : ExtractGVK) (cs : ClusterStore)
    (ro : ReferencedObjects) : ReferencedObjects :=
  if negb (needsReferencedSecretsRebuild cs) then ro
  else
    {| ReferencedSecrets :=
         range_fold (λ _ gw r,
           foldl (λ r listener, addListenerSecrets extractGVK gw listener r) r (gw_Listeners gw))
           (objects (Gateways cs)) (ReferencedSecrets ro);
       PreviousReferencedSecrets := PreviousReferencedSecrets ro |}.

Definition UpdateRefences `{RangeOrder} (extractGVK : ExtractGVK) (cs : ClusterStore)
    (ro : ReferencedObjects) : ReferencedObjects :=
  let ro1 := cleanReferencedObjects cs ro in
  if negb (needsReferencedSecretsRebuild cs) then ro1
  else buildSecretReferences extractGVK cs ro1.

(** ** The abstract relation and the representation invariant *)
Definition refers (r : ReferencedBy) (owned : NamespacedName) (gvk : GroupVersionKind)
    (owner : NamespacedName) : Prop :=
  owner ∈ ReferencedByUsingKeys r owned gvk.

(** No empty inner map or set is left behind. *)
Definition owners_canonical (r : ReferencedBy) : Prop :=
  map_Forall (λ _ byGVK, byGVK ≠ ∅ ∧ map_Forall (λ _ owners, owners ≠ ∅) byGVK) (Owner r).

Lemma refers_lookup r owned gvk owner :
  refers r owned gvk owner ↔
  ∃ byGVK owners, Owner r !! owned = Some byGVK ∧ byGVK !! gvk = Some owners ∧ owner ∈ owners.
Proof.
  unfold refers, ReferencedByUsingKeys. destruct (Owner r !! owned) as [byGVK|]; [|set_solver].
  destruct (byGVK !! gvk) eqn:E; simpl; naive_solver set_solver.
Qed.

Lemma ReferencedByUsingKeys_default r owned gvk :
  ReferencedByUsingKeys r owned gvk = default ∅ (default ∅ (Owner r !! owned) !! gvk).
Proof. unfold ReferencedByUsingKeys. by destruct (Owner r !! owned). Qed.

Lemma Owner_Add r owned owner gvk :
  Owner (AddReferencedByUsingKeys owned owner gvk r) =
  <[owned := <[gvk := {[owner]} ∪ ReferencedByUsingKeys r owned gvk]>
               (default ∅ (Owner r !! owned))]> (Owner r).
Proof.
  unfold AddReferencedByUsingKeys. rw ReferencedByUsingKeys_default /=.
  destruct (Owner r !! owned) as [byGVK|] eqn:Ho; rw ?lookup_insert_eq ?Ho /=.
  - destruct (byGVK !! gvk) eqn:Hb; rw ?lookup_insert_eq ?Hb /= ?insert_insert_eq //.
  - rw !lookup_empty /= ?lookup_insert_eq /= ?insert_insert_eq //.
Qed.

Lemma refers_Add r owned owner gvk owned' gvk' owner' :
  refers (AddReferencedByUsingKeys owned owner gvk r) owned' gvk' owner' ↔
  refers r owned' gvk' owner' ∨ (owned' = owned ∧ gvk' = gvk ∧ owner' = owner).
Proof.
  unfold refers. rw !(ReferencedByUsingKeys_default _ owned') Owner_Add.
  destruct (decide (owned = owned')) as [<-|Hne].
  - rw lookup_insert_eq /=. destruct (decide (gvk = gvk')) as [<-|Hg].
    + rw lookup_insert_eq /= ReferencedByUsingKeys_default. set_solver.
    + rw lookup_insert_ne //. naive_solver.
  - rw lookup_insert_ne //. naive_solver.
Qed.

Lemma size_set_0 (X : gset NamespacedName) : (size X =? 0) = bool_decide (X = ∅).
Proof.
  apply eq_true_iff_eq. rw Nat.eqb_eq bool_decide_eq_true size_empty_iff. set_solver.
Qed.

Lemma size_map_0 {K} `{Countable K} {V} (m : gmap K V) : (size m =? 0) = bool_decide (m = ∅).
Proof.
  apply eq_true_iff_eq. rw Nat.eqb_eq bool_decide_eq_true. apply map_size_empty_iff.
Qed.

(** What is left at the key after a removal. *)
Definition remaining (byGVK : gmap GroupVersionKind (gset NamespacedName))
    (gvk : GroupVersionKind) (owners : gset NamespacedName) :
    gmap GroupVersionKind (gset NamespacedName) :=
  if bool_decide (owners = ∅) then delete gvk byGVK else <[gvk := owners]> byGVK.

Lemma Owner_Remove r owned owner gvk byGVK owners :
  Owner r !! owned = Some byGVK → byGVK !! gvk = Some owners →
  Owner (RemoveReferencedByUsingKeys owned owner gvk r) =
  let left := remaining byGVK gvk (owners ∖ {[owner]}) in
  if bool_decide (left = ∅) then delete owned (Owner r) else <[owned := left]> (Owner r).
Proof.
  intros Ho Hb. unfold RemoveReferencedByUsingKeys, remaining. rw Ho Hb size_set_0 /=.
  case_bool_decide; rw ?delete_insert_eq size_map_0; repeat case_bool_decide;
    rw ?delete_insert_eq //.
Qed.

Lemma lookup_remaining byGVK gvk owners gvk' :
  default ∅ (remaining byGVK gvk owners !! gvk') =
  if decide (gvk = gvk') then owners else default ∅ (byGVK !! gvk').
Proof.
  unfold remaining. case_bool_decide; case_decide; subst;
    rw ?lookup_delete_eq ?lookup_insert_eq ?lookup_delete_ne ?lookup_insert_ne //.
Qed.

Lemma refers_Remove r owned owner gvk owned' gvk' owner' :
  refers (RemoveReferencedByUsingKeys owned owner gvk r) owned' gvk' owner' ↔
  refers r owned' gvk' owner' ∧ ¬ (owned' = owned ∧ gvk' = gvk ∧ owner' = owner).
Proof.
  destruct (Owner r !! owned) as [byGVK|] eqn:Ho.
  2:{ unfold RemoveReferencedByUsingKeys. rw Ho refers_lookup. naive_solver. }
  destruct (byGVK !! gvk) as [owners|] eqn:Hb.
  2:{ unfold RemoveReferencedByUsingKeys. rw Ho Hb refers_lookup. naive_solver. }
  unfold refers. rw !ReferencedByUsingKeys_default (Owner_Remove _ _ _ _ _ _ Ho Hb) /=.
  pose proof (lookup_remaining byGVK gvk (owners ∖ {[owner]}) gvk') as Hrem.
  destruct (decide (owned = owned')) as [<-|Hne].
  - case_bool_decide as Hl.
    + rw lookup_delete_eq Ho /= lookup_empty. rw Hl lookup_empty /= in Hrem.
      case_decide; subst; rw ?Hb /=; set_solver.
    + rw lookup_insert_eq Ho /= Hrem. case_decide; subst; rw ?Hb /=; set_solver.
  - case_bool_decide; rw ?lookup_delete_ne ?lookup_insert_ne //; naive_solver.
Qed.

Lemma canonical_Add r owned owner gvk :
  owners_canonical r → owners_canonical (AddReferencedByUsingKeys owned owner gvk r).
Proof.
  intros Hr. unfold owners_canonical. rw Owner_Add. apply map_Forall_insert_2; [|done].
  split; [apply insert_non_empty|]. apply map_Forall_insert_2; [set_solver|].
  destruct (Owner r !! owned) as [byGVK|] eqn:Ho; simpl; [by eapply Hr|].
  apply map_Forall_empty.
Qed.

Lemma canonical_Remove r owned owner gvk :
  owners_canonical r → owners_canonical (RemoveReferencedByUsingKeys owned owner gvk r).
Proof.
  intros Hr. destruct (Owner r !! owned) as [byGVK|] eqn:Ho;
    [|by unfold RemoveReferencedByUsingKeys; rw Ho].
  destruct (byGVK !! gvk) as [owners|] eqn:Hb;
    [|by unfold RemoveReferencedByUsingKeys; rw Ho Hb].
  unfold owners_canonical. rw (Owner_Remove _ _ _ _ _ _ Ho Hb) /=.
  case_bool_decide as Hl; [by apply map_Forall_delete|].
  apply map_Forall_insert_2; [|done]. split; [done|]. unfold remaining.
  destruct (Hr _ _ Ho) as [_ Hin].
  case_bool_decide; [by apply map_Forall_delete|by apply map_Forall_insert_2].
Qed.

(** A canonical representation is determined by its relation. *)
Lemma canonical_lookup r owned gvk :
  owners_canonical r →
  (Owner r !! owned) ≫= (.!! gvk) =
  (let owners := ReferencedByUsingKeys r owned gvk in
   if bool_decide (owners = ∅) then None else Some owners).
Proof.
  intros Hr. unfold ReferencedByUsingKeys. destruct (Owner r !! owned) as [byGVK|] eqn:Ho; simpl.
  - destruct (byGVK !! gvk) as [owners|] eqn:Hb; simpl; [|done].
    rw bool_decide_eq_false_2 //. by eapply (proj2 (Hr _ _ Ho)).
  - done.
Qed.

Lemma canonical_ext r1 r2 :
  owners_canonical r1 → owners_canonical r2 →
  (∀ owned gvk owner, refers r1 owned gvk owner ↔ refers r2 owned gvk owner) →
  Owner r1 = Owner r2.
Proof.
  intros H1 H2 Href. apply map_eq. intros owned.
  assert (∀ gvk, (Owner r1 !! owned) ≫= (.!! gvk) = (Owner r2 !! owned) ≫= (.!! gvk)) as Hall.
  { intros gvk. rw !canonical_lookup //.
    assert (ReferencedByUsingKeys r1 owned gvk = ReferencedByUsingKeys r2 owned gvk) as ->;
      [|done].
    apply set_eq. intros owner. apply Href. }
  destruct (Owner r1 !! owned) as [m1|] eqn:Ho1, (Owner r2 !! owned) as [m2|] eqn:Ho2;
    simpl in Hall; [|exfalso..|done].
  - f_equal. by apply map_eq.
  - apply (proj1 (H1 _ _ Ho1)). by apply map_empty.
  - apply (proj1 (H2 _ _ Ho2)). by apply map_empty.
Qed.

(** ** Copies, queries and the rebuild *)
Section ranged.
Context {RO : RangeOrder}.
Implicit Types (r : ReferencedBy).

Lemma range_fold_copy {K} `{Countable K} {V} (f : K → V → V) (m : gmap K V) :
  (∀ k v, f k v = v) → range_fold (λ k v acc, <[k := f k v]> acc) m ∅ = m.
Proof.
  intros Hf. rw range_fold_insert map_union_empty. apply map_eq. intros k.
  rw map_lookup_imap. destruct (m !! k); simpl; by rw ?Hf.
Qed.

Lemma set_copy {K} `{Countable K} (X : gset K) :
  foldl (λ c k, {[k]} ∪ c) ∅ (range_set X) = X.
Proof.
  apply set_eq. intros x. rw -(elem_of_range_set X x).
  assert (∀ l (c : gset K), x ∈ foldl (λ c k, {[k]} ∪ c) c l ↔ x ∈ c ∨ x ∈ l) as Hgen.
  { induction l as [|k l IH]; intros c; simpl; [set_solver|]. rw IH. set_solver. }
  rw Hgen. set_solver.
Qed.

Lemma ReferencedBy_DeepCopy_eq r : ReferencedBy_DeepCopy r = r.
Proof.
  destruct r as [o name]. unfold ReferencedBy_DeepCopy. simpl. f_equal.
  apply range_fold_copy. intros _ v1. apply range_fold_copy. intros _ v2. apply set_copy.
Qed.

Lemma CleanOwners_eq r : CleanOwners r = NewReferencedBy (ref_Name r).
Proof. unfold CleanOwners, NewReferencedBy. f_equal. apply ClearMap_empty. Qed.

Lemma lookup_AllReferenced r gvk owned :
  AllReferenced r gvk !! owned =
  if bool_decide (ReferencedByUsingKeys r owned gvk = ∅) then None
  else Some (ReferencedByUsingKeys r owned gvk).
Proof.
  destruct r as [o name]. unfold AllReferenced. simpl. revert owned.
  apply (range_fold_ind (λ d s, ∀ owned, s !! owned =
    if bool_decide (ReferencedByUsingKeys (mkReferencedBy d name) owned gvk = ∅) then None
    else Some (ReferencedByUsingKeys (mkReferencedBy d name) owned gvk)) _ o ∅).
  - intros k. unfold ReferencedByUsingKeys. simpl. by rw !lookup_empty.
  - intros k v d s _ Hd _ IH k'. rw size_set_0. specialize (IH k').
    unfold ReferencedByUsingKeys in *. simpl in *.
    destruct (decide (k = k')) as [<-|Hne].
    + rw lookup_insert_eq. rw Hd /= bool_decide_eq_true_2 // in IH.
      repeat case_bool_decide; rw /= ?lookup_insert_eq //.
    + rw (lookup_insert_ne d) //. rw -IH. clear IH.
      repeat case_bool_decide; rw /= ?lookup_insert_ne //.
Qed.

Lemma refers_addListenerSecrets extractGVK gw l r owned gvk owner :
  refers (addListenerSecrets extractGVK gw l r) owned gvk owner ↔
  refers r owned gvk owner ∨
  ∃ tls certRef, l_TLS l = Some tls ∧ certRef ∈ tls_CertificateRefs tls ∧
    IsSecretGroupKindSupported certRef = true ∧
    owned = GetCertificateRefNamespacedName certRef gw ∧ gvk = extractGVK KGateway ∧
    owner = ListenerKey gw l.
Proof.
  unfold addListenerSecrets. destruct (l_TLS l) as [tls|]; [|naive_solver].
  transitivity (refers r owned gvk owner ∨
    ∃ certRef, certRef ∈ tls_CertificateRefs tls ∧ IsSecretGroupKindSupported certRef = true ∧
      owned = GetCertificateRefNamespacedName certRef gw ∧ gvk = extractGVK KGateway ∧
      owner = ListenerKey gw l); [|naive_solver].
  generalize (tls_CertificateRefs tls) as refs. intros refs. revert r.
  induction refs as [|c refs IH]; intros r; simpl; [set_solver|].
  rw IH. clear IH. destruct (IsSecretGroupKindSupported c) eqn:Hc; simpl; rw ?refers_Add; split.
  - intros [[?|(-> & -> & ->)]|(c' & Hin & ?)]; [by left| |]; right.
    + exists c. split_and!; [left|done..].
    + exists c'. split; [by right|done].
  - intros [?|(c' & [->|Hin]%elem_of_cons & Hs)]; [by left; left|left; right|right].
    + by destruct Hs as (_ & -> & -> & ->).
    + by exists c'.
  - intros [?|(c' & Hin & ?)]; [by left|]. right. exists c'. split; [by right|done].
  - intros [?|(c' & [->|Hin]%elem_of_cons & Hs)]; [by left|destruct Hs; congruence|].
    right. by exists c'.
Qed.

(** A gateway of the store holds a certificate reference of a listener. *)
Definition certificate_reference (extractGVK : ExtractGVK) (gw : K8sGateway)
    (owned : NamespacedName) (gvk : GroupVersionKind) (owner : NamespacedName) : Prop :=
  ∃ l tls certRef, l ∈ gw_Listeners gw ∧ l_TLS l = Some tls ∧
    certRef ∈ tls_CertificateRefs tls ∧ IsSecretGroupKindSupported certRef = true ∧
    owned = GetCertificateRefNamespacedName certRef gw ∧ gvk = extractGVK KGateway ∧
    owner = ListenerKey gw l.

Lemma refers_gateway_listeners extractGVK gw r owned gvk owner :
  refers (foldl (λ r l, addListenerSecrets extractGVK gw l r) r (gw_Listeners gw))
    owned gvk owner ↔
  refers r owned gvk owner ∨ certificate_reference extractGVK gw owned gvk owner.
Proof.
  unfold certificate_reference. generalize (gw_Listeners gw) as ls. intros ls. revert r.
  induction ls as [|l ls IH]; intros r; simpl; [set_solver|].
  rw IH. setoid_rewrite elem_of_cons. rw refers_addListenerSecrets. naive_solver.
Qed.

Lemma refers_build extractGVK (gws : gmap NamespacedName K8sGateway) r owned gvk owner :
  refers (range_fold (λ _ gw r,
    foldl (λ r l, addListenerSecrets extractGVK gw l r) r (gw_Listeners gw)) gws r)
    owned gvk owner ↔
  refers r owned gvk owner ∨
  ∃ key gw, gws !! key = Some gw ∧ certificate_reference extractGVK gw owned gvk owner.
Proof.
  apply (range_fold_ind (λ d s, refers s owned gvk owner ↔ refers r owned gvk owner ∨
    ∃ key gw, d !! key = Some gw ∧ certificate_reference extractGVK gw owned gvk owner)).
  - setoid_rewrite lookup_empty. naive_solver.
  - intros k gw d s _ Hd _ IH. rw refers_gateway_listeners IH. split.
    + intros [[?|(k' & gw' & Hk' & ?)]|?]; [by left| |].
      * right. exists k', gw'. rw lookup_insert_ne //. congruence.
      * right. exists k, gw. by rw lookup_insert_eq.
    + intros [?|(k' & gw' & Hk' & ?)]; [by left; left|].
      apply lookup_insert_Some in Hk' as [[<- <-]|[_ ?]]; [by right|]. left. right. eauto.
Qed.
End ranged.

(** ** Properties *)

(** C13: the nested reference maps implement a set of triples: adding and
    removing a reference change exactly that triple, the representation never
    keeps an empty inner map, and so removing a reference that was absent
    before restores the maps themselves. *)
Theorem ReferencedBy_refines r owned owner gvk :
  owners_canonical r →
  (∀ o g k, refers (AddReferencedByUsingKeys owned owner gvk r) o g k ↔
     refers r o g k ∨ (o = owned ∧ g = gvk ∧ k = owner)) ∧
  (∀ o g k, refers (RemoveReferencedByUsingKeys owned owner gvk r) o g k ↔
     refers r o g k ∧ ¬ (o = owned ∧ g = gvk ∧ k = owner)) ∧
  owners_canonical (AddReferencedByUsingKeys owned owner gvk r) ∧
  owners_canonical (RemoveReferencedByUsingKeys owned owner gvk r) ∧
  (¬ refers r owned gvk owner →
     Owner (RemoveReferencedByUsingKeys owned owner gvk
       (AddReferencedByUsingKeys owned owner gvk r)) = Owner r).
Proof.
  intros Hr. split_and!.
  - intros. apply refers_Add.
  - intros. apply refers_Remove.
  - by apply canonical_Add.
  - by apply canonical_Remove.
  - intros Hnew. apply canonical_ext; [by apply canonical_Remove, canonical_Add|done|].
    intros o g k. rw refers_Remove refers_Add. naive_solver.
Qed.

Lemma ReferencedBy_refines_witness :
  let r := AddReferencedByUsingKeys (NN "ns" "cert") (NN "ns" "gw_https") (GVK "g" "v1" "Gateway")
             (NewReferencedBy "secret") in
  owners_canonical (RemoveReferencedByUsingKeys (NN "ns" "cert") (NN "ns" "gw_https")
    (GVK "g" "v1" "Gateway") r).
Proof.
  apply (ReferencedBy_refines (AddReferencedByUsingKeys (NN "ns" "cert") (NN "ns" "gw_https")
    (GVK "g" "v1" "Gateway") (NewReferencedBy "secret"))).
  apply canonical_Add. unfold owners_canonical. apply map_Forall_empty.
Defined.

(** C14: after an update of the references, a secret is referenced exactly by
    the listeners of the stored gateways whose certificate references name it,
    whatever the iteration order and whatever was referenced before; the
    references before the update are kept as the previous ones; and when no
    gateway changed, nothing is rebuilt. *)
Theorem UpdateRefences_spec (RO : RangeOrder) extractGVK cs ro :
  PreviousReferencedSecrets (UpdateRefences extractGVK cs ro) = ReferencedSecrets ro ∧
  if needsReferencedSecretsRebuild cs then
    ∀ owned gvk owner,
      refers (ReferencedSecrets (UpdateRefences extractGVK cs ro)) owned gvk owner ↔
      ∃ key gw, objects (Gateways cs) !! key = Some gw ∧
        certificate_reference extractGVK gw owned gvk owner
  else ReferencedSecrets (UpdateRefences extractGVK cs ro) = ReferencedSecrets ro.
Proof.
  unfold UpdateRefences, buildSecretReferences, cleanReferencedObjects.
  destruct (needsReferencedSecretsRebuild cs) eqn:Hn; simpl; rw ReferencedBy_DeepCopy_eq;
    (split; [done|]); [|done].
  intros owned gvk owner. rw refers_build CleanOwners_eq refers_lookup.
  split; [|by right]. intros [(? & ? & Ho & _)|?]; [|done]. by rw lookup_empty in Ho.
Qed.

(** The query of every referenced object of one kind of owner returns, in
    any iteration order, precisely the objects with at least one such owner,
    each with its owners. *)
Theorem AllReferenced_spec (RO : RangeOrder) r gvk owned owners :
  AllReferenced r gvk !! owned = Some owners ↔
  owners = ReferencedByUsingKeys r owned gvk ∧ ∃ owner, refers r owned gvk owner.
Proof.
  rw lookup_AllReferenced /=. unfold refers. case_bool_decide as Hempty.
  - split; [done|]. rw Hempty. set_solver.
  - apply set_choose_L in Hempty. naive_solver.
Qed.
