(* ===== verification/TreeCore.v ===== *)
(** * TreeCore: k8s/gate/tree/tree.go, secret.go, service.go and their builders

    The bookkeeping every resource of the gate tree shares: its [TreeStatus]
    says what the current batch did to it and keeps a deep copy of it as it
    was before, and is forgotten before the next batch.  Secrets and services
    carry nothing else; their builders mirror the cluster store in the tree.

    A resource of these two kinds is reachable from one map only, so it is
    modelled by value: a method that mutates the resource returns it, and the
    builder writes it back.  [OldTreeResource] points to a copy whose own
    [TreeStatus] is the zero value; it is the type [D] of the copied fields. *)

From S2P Require Import Prelude GoStrings Objects Utils Conditions Store.

(** ** tree.go *)
Record TreeUpdate (D : Type) := mkTreeUpdate {
  OldTreeResource : option D;
  Status : StoreStatus
}.
Arguments mkTreeUpdate {D}.
Arguments OldTreeResource {D}.
Arguments Status {D}.

Definition zero_TreeUpdate {D} : TreeUpdate D := mkTreeUpdate None StatusUnchanged.

Record CheckResult := mkCheckResult { check_Conditions : Conditions; check_Valid : bool }.

Definition zero_CheckResult : CheckResult := mkCheckResult ∅ false.

(** The interface [TreeObject\[T\]]. *)
Class TreeObject (R D : Type) := {
  GetTreeStatus : R → TreeUpdate D;
  SetTreeStatus : TreeUpdate D → R → R;
  DeepCopy : R → D
}.

Definition cleanTreeUpdates `{RangeOrder} {R D} `{TreeObject R D}
    (resourceMap : gmap NamespacedName R) : gmap NamespacedName R :=
  range_fold (λ key resource m,
    match Status (GetTreeStatus resource) with
    | StatusDeleted => delete key m
    | _ => <[key := SetTreeStatus (mkTreeUpdate None StatusUnchanged) resource]> m
    end) resourceMap resourceMap.

Definition setResourceStatus {R D} `{TreeObject R D} (status : StoreStatus) (treeResource : R) : R :=
  SetTreeStatus (mkTreeUpdate (Some (DeepCopy treeResource)) status) treeResource.

(** ** secret.go and service.go: a resource that only mirrors its object *)
Record Leaf (T : Type) := mkLeaf {
  K8sResource : option T;
  TreeStatus : TreeUpdate (option T)
}.
Arguments mkLeaf {T}.
Arguments K8sResource {T}.
Arguments TreeStatus {T}.

Definition Secret : Type := Leaf K8sSecret.
Definition Service : Type := Leaf K8sService.

#[export] Instance Leaf_TreeObject {T} : TreeObject (Leaf T) (option T) := {|
  GetTreeStatus := TreeStatus;
  SetTreeStatus ts s := mkLeaf (K8sResource s) ts;
  DeepCopy := K8sResource
|}.

Section leaf.
Context {T : Type} (meta : T → ObjectMeta).

Definition NewLeaf (k8sObject : option T) : Leaf T :=
  mkLeaf k8sObject (mkTreeUpdate None StatusUpserted).

Definition SetAsUpserted (newK8sResource : option T) (s : Leaf T) : Leaf T :=
  let s := setResourceStatus StatusUpserted s in
  mkLeaf newK8sResource (TreeStatus s).

Definition SetAsDeleted (s : Leaf T) : Leaf T :=
  let s := setResourceStatus StatusDeleted s in
  mkLeaf None (TreeStatus s).

(** The map is keyed by the object's own key; a nil object has none. *)
Definition SetAsManaged (s : Leaf T) (tree : gmap NamespacedName (Leaf T)) :
    gmap NamespacedName (Leaf T) :=
  match K8sResource s with
  | None => tree
  | Some o => <[meta_key (meta o) := s]> tree
  end.

Definition computeTreeLeafUpdate (key : NamespacedName) (update : Update T)
    (tree : gmap NamespacedName (Leaf T)) : gmap NamespacedName (Leaf T) :=
  match UStatus update with
  | StatusUpserted =>
      match tree !! key with
      | Some treeLeaf =>
          let treeLeaf := SetAsUpserted (NewObject update) treeLeaf in
          SetAsManaged treeLeaf (<[key := treeLeaf]> tree)
      | None => SetAsManaged (NewLeaf (NewObject update)) tree
      end
  | StatusDeleted =>
      match tree !! key with
      | Some treeLeaf => <[key := SetAsDeleted treeLeaf]> tree
      | None => tree
      end
  | StatusUnchanged => tree
  end.

Definition computeLeafTreeUpdates `{RangeOrder} (updates : gmap NamespacedName (Update T))
    (tree : gmap NamespacedName (Leaf T)) : gmap NamespacedName (Leaf T) :=
  range_fold computeTreeLeafUpdate updates tree.
End leaf.

(** ** secret_builder.go and service_builder.go *)
Definition computeTreeSecretUpdate := computeTreeLeafUpdate sec_Meta.
Definition computeTreeServiceUpdate := computeTreeLeafUpdate svc_Meta.

Definition Secret_ComputeTreeUpdates `{RangeOrder} (cs : ClusterStore)
    (tree : gmap NamespacedName Secret) : gmap NamespacedName Secret :=
  computeLeafTreeUpdates sec_Meta (updates (Secrets cs)) tree.

Definition Service_ComputeTreeUpdates `{RangeOrder} (cs : ClusterStore)
    (tree : gmap NamespacedName Service) : gmap NamespacedName Service :=
  computeLeafTreeUpdates svc_Meta (updates (Services cs)) tree.

(** ** Cleaning the updates *)
Section clean.
Context {RO : RangeOrder} {R D : Type} {TO : TreeObject R D}.

Definition clean_one (r : R) : option R :=
  match Status (GetTreeStatus r) with
  | StatusDeleted => None
  | _ => Some (SetTreeStatus zero_TreeUpdate r)
  end.

Lemma lookup_cleanTreeUpdates (m : gmap NamespacedName R) k :
  cleanTreeUpdates m !! k = m !! k ≫= clean_one.
Proof.
  enough (∀ k, cleanTreeUpdates m !! k =
    match m !! k with Some r => clean_one r | None => m !! k end) as ->
    by (by destruct (m !! k)).
  clear k. unfold cleanTreeUpdates.
  apply (range_fold_ind (λ d s, ∀ k, s !! k =
    match d !! k with Some r => clean_one r | None => m !! k end) _ m m).
  - intros k. by rw lookup_empty.
  - intros k r d s _ _ _ IH k'. unfold clean_one in *. specialize (IH k').
    destruct (decide (k = k')) as [<-|Hne].
    + rw (lookup_insert_eq d). clear IH. destruct (Status (GetTreeStatus r)); rw ?lookup_insert_eq ?lookup_delete_eq //.
    + rw (lookup_insert_ne d) // -IH.
      clear IH. destruct (Status (GetTreeStatus r)); rw ?lookup_insert_ne ?lookup_delete_ne //.
Qed.
End clean.

(** ** The tree mirrors the store *)
Section mirror.
Context {RO : RangeOrder} {T : Type} (meta : T → ObjectMeta).
Implicit Types (tree : gmap NamespacedName (Leaf T)) (m : objectStore T).

(** The object a leaf stands for: none once it is marked deleted. *)
Definition live (s : Leaf T) : option T :=
  match Status (TreeStatus s) with StatusDeleted => None | _ => K8sResource s end.

Definition mirrors (objs : gmap NamespacedName T) tree : Prop :=
  ∀ k, tree !! k ≫= live = objs !! k.

Definition keyed_by_meta (objs : gmap NamespacedName T) : Prop :=
  map_Forall (λ k o, meta_key (meta o) = k) objs.

(** What the tree says of one key after a batch: its object before, and after. *)
Definition leaf_after (before : option T) (u : option (Update T)) (after : option T) :
    option (Leaf T) :=
  match u, after, before with
  | None, _, _ => (λ o, mkLeaf (Some o) zero_TreeUpdate) <$> before
  | Some _, Some o, None => Some (mkLeaf (Some o) (mkTreeUpdate None StatusUpserted))
  | Some _, Some o, Some b => Some (mkLeaf (Some o) (mkTreeUpdate (Some (Some b)) StatusUpserted))
  | Some _, None, Some b => Some (mkLeaf None (mkTreeUpdate (Some (Some b)) StatusDeleted))
  | Some _, None, None => None
  end.

(** A tree right after [cleanTreeUpdates]. *)
Definition clean_mirror (objs : gmap NamespacedName T) tree : Prop :=
  ∀ k, tree !! k = (λ o, mkLeaf (Some o) zero_TreeUpdate) <$> objs !! k.

Lemma mirrors_clean objs tree :
  mirrors objs tree → (∀ k s, tree !! k = Some s → live s = None → Status (TreeStatus s) = StatusDeleted) →
  clean_mirror objs (cleanTreeUpdates tree).
Proof.
  intros Hm Hlive k. rw lookup_cleanTreeUpdates -Hm.
  destruct (tree !! k) as [s|] eqn:Hk; simpl; [|done].
  specialize (Hlive k s Hk). unfold live, clean_one in *. simpl in *.
  destruct s as [[o|] [old []]]; simpl in *; naive_solver.
Qed.

Lemma computeTreeLeafUpdate_lookup key u tree k :
  (∀ o, NewObject u = Some o → meta_key (meta o) = key) →
  UStatus u = (if NewObject u is Some _ then StatusUpserted else StatusDeleted) →
  computeTreeLeafUpdate meta key u tree !! k =
  if decide (key = k) then
    match NewObject u, tree !! key with
    | Some o, Some s => Some (SetAsUpserted (Some o) s)
    | Some o, None => Some (NewLeaf (Some o))
    | None, Some s => Some (SetAsDeleted s)
    | None, None => None
    end
  else tree !! k.
Proof.
  intros Hkey Hst. unfold computeTreeLeafUpdate, SetAsManaged. rw Hst.
  destruct (NewObject u) as [o|] eqn:Hn.
  - destruct (tree !! key) as [s|] eqn:Hk; simpl; rw (Hkey o) //;
      case_decide; subst; rw ?lookup_insert_eq ?lookup_insert_ne //.
  - destruct (tree !! key) as [s|] eqn:Hk;
      case_decide; subst; rw ?lookup_insert_eq ?lookup_insert_ne ?Hk //.
Qed.

Lemma computeLeafTreeUpdates_lookup before m tree :
  clean_mirror before tree → keyed_by_meta (objects m) →
  (∀ k, delta_ok before m (is_Some (updates m !! k)) k) →
  ∀ k, computeLeafTreeUpdates meta (updates m) tree !! k =
    leaf_after (before !! k) (updates m !! k) (objects m !! k).
Proof.
  intros Hclean Hkey Hdelta. unfold computeLeafTreeUpdates.
  apply (range_fold_ind (λ d s, ∀ k, s !! k =
    leaf_after (before !! k) (d !! k) (objects m !! k))).
  - intros k. by rw lookup_empty Hclean.
  - intros k u d s Hu Hd _ IH k'. specialize (Hdelta k). unfold delta_ok in Hdelta.
    rw Hu in Hdelta. destruct Hdelta as (_ & _ & Hnew & Hst & _).
    rw computeTreeLeafUpdate_lookup //.
    { intros o Ho. apply Hkey. by rw -Hnew. }
    destruct (decide (k = k')) as [<-|Hne].
    + rw lookup_insert_eq IH Hd Hnew /=.
      by destruct (before !! k), (objects m !! k).
    + by rw lookup_insert_ne.
Qed.
End mirror.

(** ** Properties *)

(** After each batch the secrets of the tree mirror the secrets of the
    store.  Starting from a tree left by the previous batch, cleaning it and
    applying the updates of the store gives, for every key and in any order of
    the maps: an untouched secret with a blank status, a new one marked
    upserted without an old version, a changed one marked upserted with the
    old version, and a deleted one marked deleted with the old version. *)
Theorem Secret_tree_mirrors (RO : RangeOrder) before cs tree k :
  mirrors before tree →
  (∀ k s, tree !! k = Some s → live s = None → Status (TreeStatus s) = StatusDeleted) →
  keyed_by_meta sec_Meta (objects (Secrets cs)) →
  (∀ k, delta_ok before (Secrets cs) (is_Some (updates (Secrets cs) !! k)) k) →
  Secret_ComputeTreeUpdates cs (cleanTreeUpdates tree) !! k =
  leaf_after (before !! k) (updates (Secrets cs) !! k) (objects (Secrets cs) !! k).
Proof.
  intros Hm Hl Hk Hd. by apply computeLeafTreeUpdates_lookup; [apply mirrors_clean|..].
Qed.

Definition example_secret (name : string) (gen : Z) : K8sSecret :=
  {| sec_Meta := simple_meta "ns" name gen; sec_Data := ∅ |}.

(** One secret changed. *)
Definition example_store (gen : Z) : ClusterStore :=
  ClusterStore_Upsert example_gvk (OSecret (example_secret "cert" gen)) empty_cluster_store.

(** One secret changed in a batch. *)
Definition example_batch : EventBatch :=
  mkBatch [UpsertEvent (OSecret (example_secret "cert" 2))] 2.

Definition example_store_after : ClusterStore :=
  @processBatch key_order example_gvk example_batch (example_store 1).

Lemma example_store_secrets gen :
  objects (Secrets (example_store gen)) = {[ NN "ns" "cert" := example_secret "cert" gen ]}.
Proof. reflexivity. Qed.

Lemma example_store_after_secrets :
  objects (Secrets example_store_after) = {[ NN "ns" "cert" := example_secret "cert" 2 ]}.
Proof. vm_refl. Qed.

Lemma Secret_tree_mirrors_witness :
  let tree := {[ NN "ns" "cert" := NewLeaf (Some (example_secret "cert" 1)) ]} in
  @Secret_ComputeTreeUpdates key_order example_store_after (@cleanTreeUpdates key_order _ _ _ tree)
    !! NN "ns" "cert" =
  Some (mkLeaf (Some (example_secret "cert" 2))
         (mkTreeUpdate (Some (Some (example_secret "cert" 1))) StatusUpserted)).
Proof.
  intros tree.
  rw (Secret_tree_mirrors key_order (objects (Secrets (example_store 1))));
    [| | | |vm_refl].
  - rw example_store_secrets. intros k. unfold tree.
    destruct (decide (NN "ns" "cert" = k)) as [<-|Hne].
    + by rw !lookup_insert_eq.
    + by rw !lookup_insert_ne.
  - intros k s [<- <-]%lookup_singleton_Some. done.
  - rw example_store_after_secrets. by intros k o [<- <-]%lookup_singleton_Some.
  - intros k. eapply delta_ok_touched.
    apply (processBatch_delta_ok key_order example_gvk example_batch (example_store 1) KSecret k
             example_gvk_inj).
Defined.
