(* ===== verification/InstalledVersions.v ===== *)
(** * InstalledVersions: k8s/gate/tree/installed_versions.go

    The bundle versions of the Gateway API CRDs installed in the cluster, with
    the number of CRDs of each, and whether all of them are supported.  The
    semantic-version library ([semver.NewConstraint], [NewVersion], [Check])
    is a parameter.  [previous.Annotations] on a nil object panics, so the
    builder's loop returns an option. *)

From S2P Require Import Prelude GoStrings Objects Utils Conditions Store TreeCore.

Definition BundleVersionAnnotation : string := "gateway.networking.k8s.io/bundle-version".
Definition SupportedGatewayAPIBundleVersion : list string := ["v1.2"; "v1.3"].
Definition SupportedVersions_String (s : list string) : string := Join s ", ".

Record InstalledVersions := mkInstalledVersions {
  Versions : gmap string Z;
  Updated : option bool;
  iv_Valid : bool
}.

Definition empty_InstalledVersions : InstalledVersions := mkInstalledVersions ∅ None false.

(** [o.Annotations\[BundleVersionAnnotation\]]: the zero value when absent. *)
Definition bundle_version (o : PartialObjectMetadata) : string :=
  default "" (meta_Annotations (crd_Meta o) !! BundleVersionAnnotation).

Definition decr (v : string) (versions : gmap string Z) : gmap string Z :=
  let n := (default 0 (versions !! v) - 1)%Z in
  let versions := <[v := n]> versions in
  if (n =? 0)%Z then delete v versions else versions.

Definition incr (v : string) (versions : gmap string Z) : gmap string Z :=
  <[v := (default 0 (versions !! v) + 1)%Z]> versions.

Definition buildUpserted (nsname : NamespacedName) (update : Update PartialObjectMetadata)
    (crds : gmap NamespacedName PartialObjectMetadata) (versions : gmap string Z) :
    gmap string Z :=
  match crds !! nsname with
  | None => versions
  | Some gwapiCRD =>
      let bundleVersion := bundle_version gwapiCRD in
      match OldObject update with
      | Some old =>
          let previousBundleVersion := bundle_version old in
          if bool_decide (previousBundleVersion = bundleVersion) then versions
          else incr bundleVersion (decr previousBundleVersion versions)
      | None => incr bundleVersion versions
      end
  end.

Definition buildDeleted (previous : option PartialObjectMetadata) (versions : gmap string Z) :
    option (gmap string Z) :=
  match previous with
  | None => None (* nil dereference *)
  | Some previous => Some (decr (bundle_version previous) versions)
  end.

Definition build_one (crds : gmap NamespacedName PartialObjectMetadata)
    (nsname : NamespacedName) (update : Update PartialObjectMetadata)
    (versions : option (gmap string Z)) : option (gmap string Z) :=
  versions ← versions;
  match UStatus update with
  | StatusUpserted => Some (buildUpserted nsname update crds versions)
  | StatusDeleted => buildDeleted (OldObject update) versions
  | StatusUnchanged => Some versions
  end.

Section versions.
Context {RO : RangeOrder} {Constraint_ Version_ : Type}.
Context (NewConstraint : string → option Constraint_) (NewVersion : string → option Version_).
Context (Check_ : Constraint_ → Version_ → bool).

(** The constraints are all built first; one that does not parse ends the check. *)
Fixpoint build_constraints (supportedVersions : list string) : option (list Constraint_) :=
  match supportedVersions with
  | [] => Some []
  | v :: vs =>
      match NewConstraint ("~" +:+ v) with
      | None => None
      | Some c => cs ← build_constraints vs; Some (c :: cs)
      end
  end.

Definition validateOneInstalledGwAPIVersion (supportedVersions : list string)
    (installedVersion : string) : bool :=
  match build_constraints supportedVersions with
  | None => false
  | Some constraints =>
      match NewVersion installedVersion with
      | None => false
      | Some sv => existsb (λ constraint, Check_ constraint sv) constraints
      end
  end.

(** Returns the new state and whether the validity changed. *)
Definition checkSupportedVersion (supportedVersions : list string) (iv : InstalledVersions) :
    InstalledVersions * bool :=
  let oldValue := iv_Valid iv in
  let newValue := range_fold (λ v _ newValue,
    newValue && validateOneInstalledGwAPIVersion supportedVersions v) (Versions iv) true in
  (mkInstalledVersions (Versions iv) (Updated iv) newValue, negb (eqb newValue oldValue)).

Definition onUpdateInstalledVersion (iv : InstalledVersions) : InstalledVersions :=
  let '(iv, versionValidUpdated) := checkSupportedVersion SupportedGatewayAPIBundleVersion iv in
  match Updated iv with
  | None => mkInstalledVersions (Versions iv) (Some true) (iv_Valid iv)
  | Some _ => mkInstalledVersions (Versions iv) (Some versionValidUpdated) (iv_Valid iv)
  end.

Definition InstalledVersions_Build (cs : ClusterStore) (iv : InstalledVersions) :
    option InstalledVersions :=
  let ups := updates (GatewayAPICRDs cs) in
  versions ← range_fold (build_one (objects (GatewayAPICRDs cs))) ups (Some (Versions iv));
  let iv := mkInstalledVersions versions (Updated iv) (iv_Valid iv) in
  Some (if negb (size ups =? 0) then onUpdateInstalledVersion iv else iv).
End versions.

(** controller_store.go *)
Definition CleanInstalledVersionsUpdates (iv : InstalledVersions) : InstalledVersions :=
  match Updated iv with
  | Some _ => mkInstalledVersions (Versions iv) (Some false) (iv_Valid iv)
  | None => iv
  end.

(** ** Counting CRDs by version *)
Abbreviation CRDs := (gmap NamespacedName PartialObjectMetadata).

Definition count (m : CRDs) (v : string) : Z :=
  Z.of_nat (size (filter (λ kv, bundle_version kv.2 = v) m)).

Definition one_if (o : option PartialObjectMetadata) (v : string) : Z :=
  match o with Some o => (if decide (bundle_version o = v) then 1 else 0)%Z | None => 0%Z end.

Lemma count_insert m k o v : m !! k = None → count (<[k := o]> m) v = (count m v + one_if (Some o) v)%Z.
Proof.
  intros Hk. unfold count, one_if. case_decide as Hv.
  - rw map_filter_insert_True // map_size_insert_None; [|lia].
    apply map_lookup_filter_None. by left.
  - rw map_filter_insert_not' //; [|lia]. intros ? Hx. congruence.
Qed.

(** Replacing what a key holds. *)
Lemma count_replace m k o v :
  count (partial_alter (λ _, o) k m) v = (count m v - one_if (m !! k) v + one_if o v)%Z.
Proof.
  assert (partial_alter (λ _, o) k m = partial_alter (λ _, o) k (delete k m)) as ->.
  { apply map_eq. intros k'. destruct (decide (k = k')) as [<-|].
    - by rw !lookup_partial_alter_eq.
    - by rw !lookup_partial_alter_ne // lookup_delete_ne. }
  assert (count m v = count (delete k m) v + one_if (m !! k) v)%Z as ->.
  { destruct (m !! k) as [x|] eqn:Hk.
    - rw -(count_insert (delete k m) k x v) ?lookup_delete_eq // insert_delete_id //.
    - rw delete_id // /=. lia. }
  destruct o as [o|].
  - change (partial_alter (λ _, Some o) k (delete k m)) with (<[k := o]> (delete k m)).
    rw count_insert ?lookup_delete_eq //. lia.
  - change (partial_alter (λ _, None) k (delete k m)) with (delete k (delete k m)).
    rw (delete_id (delete k m)) ?lookup_delete_eq //. simpl. lia.
Qed.

Lemma one_if_le_count m k v : (one_if (m !! k) v ≤ count m v)%Z.
Proof.
  destruct (m !! k) as [o|] eqn:Hk; [|unfold count; simpl; lia].
  rw -{1}(insert_delete_id m k o) // count_insert ?lookup_delete_eq //. unfold count. lia.
Qed.

(** The table of versions holds the positive counts. *)
Definition versions_ok (c : string → Z) (versions : gmap string Z) : Prop :=
  ∀ v, (0 ≤ c v)%Z ∧ versions !! v = if decide (c v = 0%Z) then None else Some (c v).

Lemma versions_ok_incr c v versions c' :
  versions_ok c versions →
  (∀ x, c' x = (c x + if decide (v = x) then 1 else 0)%Z) →
  versions_ok c' (incr v versions).
Proof.
  intros Hok Hc x. destruct (Hok x) as [Hpos Hx]. rw Hc. unfold incr.
  destruct (decide (v = x)) as [<-|Hne].
  - rw lookup_insert_eq Hx. split; [lia|].
    repeat case_decide; simpl; (lia || f_equal; lia).
  - rw lookup_insert_ne // Hx Z.add_0_r //.
Qed.

Lemma versions_ok_decr c v versions c' :
  versions_ok c versions → (1 ≤ c v)%Z →
  (∀ x, c' x = (c x - if decide (v = x) then 1 else 0)%Z) →
  versions_ok c' (decr v versions).
Proof.
  intros Hok Hv Hc x. destruct (Hok x) as [Hpos Hx]. rw Hc. unfold decr.
  assert (default 0%Z (versions !! v) = c v) as ->.
  { rw (proj2 (Hok v)) decide_False //. lia. }
  destruct (decide (v = x)) as [<-|Hne].
  - split; [lia|]. destruct (Z.eqb_spec (c v - 1) 0) as [H0|H0].
    + by rw lookup_delete_eq decide_True.
    + by rw lookup_insert_eq decide_False.
  - rw Z.sub_0_r. split; [done|]. destruct (_ =? _)%Z;
      rw ?lookup_delete_ne // lookup_insert_ne //.
Qed.

Section build.
Context {RO : RangeOrder}.
Context (before : CRDs) (m : objectStore PartialObjectMetadata).

(** One update moves one CRD from its version before to its version after. *)
Lemma build_one_ok cur k u versions :
  delta_ok before m True k → updates m !! k = Some u → cur !! k = before !! k →
  versions_ok (count cur) versions →
  (UStatus u = StatusDeleted → is_Some (OldObject u)) →
  ∃ versions', build_one (objects m) k u (Some versions) = Some versions' ∧
    versions_ok (count (partial_alter (λ _, objects m !! k) k cur)) versions'.
Proof.
  intros Hd Hu Hcur Hok Hdel. unfold delta_ok in Hd. rw Hu in Hd.
  destruct Hd as (_ & Hold & Hnew & Hst & _). rw -Hcur in Hold.
  pose proof (one_if_le_count cur k) as Hle.
  unfold build_one, buildUpserted, buildDeleted. rw Hst Hnew. rw Hst Hnew in Hdel. simpl.
  destruct (objects m !! k) as [o|] eqn:Ho; rw Hold in Hdel |- *;
    destruct (cur !! k) as [old|] eqn:Hk; simpl.
  - case_bool_decide as Hv; eexists; (split; [done|]).
    + intros x. rw count_replace Hk /= Hv Z.sub_add. apply Hok.
    + eapply (versions_ok_incr (λ x, count cur x - one_if (Some old) x)%Z).
      * eapply versions_ok_decr; [exact Hok| |done].
        specialize (Hle (bundle_version old)). simpl in Hle. by rw decide_True in Hle.
      * intros x. rw count_replace Hk //.
  - eexists; (split; [done|]). eapply versions_ok_incr; [exact Hok|].
    intros x. rw count_replace Hk /= Z.sub_0_r //.
  - eexists; (split; [done|]). eapply versions_ok_decr; [exact Hok| |].
    + specialize (Hle (bundle_version old)). simpl in Hle. by rw decide_True in Hle.
    + intros x. rw count_replace Hk /= Z.add_0_r //.
  - by destruct (Hdel eq_refl).
Qed.

(** The maps halfway through the loop. *)
Definition halfway (d : gmap NamespacedName (Update PartialObjectMetadata)) (cur : CRDs) : Prop :=
  ∀ k, cur !! k = if d !! k is Some _ then objects m !! k else before !! k.

Lemma build_loop_ok versions :
  (∀ k, delta_ok before m (is_Some (updates m !! k)) k) →
  (∀ k u, updates m !! k = Some u → UStatus u = StatusDeleted → is_Some (OldObject u)) →
  versions_ok (count before) versions →
  ∃ versions', range_fold (build_one (objects m)) (updates m) (Some versions) = Some versions' ∧
    versions_ok (count (objects m)) versions'.
Proof.
  intros Hd Hdel Hok.
  assert (∀ cur, halfway (updates m) cur → cur = objects m) as Hend.
  { intros cur Hcur. apply map_eq. intros k. rw Hcur. specialize (Hd k). unfold delta_ok in Hd.
    destruct (updates m !! k); [done|]. by destruct Hd. }
  enough (∃ cur versions', halfway (updates m) cur ∧
    range_fold (build_one (objects m)) (updates m) (Some versions) = Some versions' ∧
    versions_ok (count cur) versions') as (cur & versions' & Hcur & Heq & Hv).
  { exists versions'. split; [done|]. by rw -(Hend cur Hcur). }
  apply (range_fold_ind (λ d s, ∃ cur versions', halfway d cur ∧ s = Some versions' ∧
    versions_ok (count cur) versions')).
  - exists before, versions. split; [|done]. intros k. by rw lookup_empty.
  - intros k u d s Hu Hnd _ (cur & vs & Hcur & -> & Hv).
    destruct (build_one_ok cur k u vs) as (vs' & Heq & Hv'); [|done| |done|by eapply Hdel|].
    + specialize (Hd k). unfold delta_ok in *. rw Hu in Hd |- *. naive_solver.
    + by rw Hcur Hnd.
    + exists (partial_alter (λ _, objects m !! k) k cur), vs'. split; [|done].
      intros k'. destruct (decide (k = k')) as [<-|Hne].
      * by rw lookup_partial_alter_eq lookup_insert_eq.
      * rw lookup_partial_alter_ne // lookup_insert_ne //.
Qed.

Lemma build_loop_panics k u versions :
  updates m !! k = Some u → UStatus u = StatusDeleted → OldObject u = None →
  range_fold (build_one (objects m)) (updates m) versions = None.
Proof.
  intros Hu Hst Hold.
  enough (is_Some (updates m !! k) →
    range_fold (build_one (objects m)) (updates m) versions = None) as Hgen by (apply Hgen; eauto).
  apply (range_fold_ind (λ d s, is_Some (d !! k) → s = None)).
  - rw lookup_empty. by intros [? ?].
  - intros k' u' d s Hu' _ _ IH. destruct (decide (k' = k)) as [->|Hne].
    + intros _. simplify_eq. unfold build_one. destruct s; simpl; [|done].
      by rw Hst Hold.
    + rw lookup_insert_ne //. intros ->%IH. done.
Qed.
End build.

(** The whole build, when each deleted CRD was there before. *)
Lemma InstalledVersions_Build_ok (RO : RangeOrder) {C V : Type} NewConstraint NewVersion
    (Check_ : C → V → bool) before cs iv :
  (∀ k, delta_ok before (GatewayAPICRDs cs) (is_Some (updates (GatewayAPICRDs cs) !! k)) k) →
  (∀ k u, updates (GatewayAPICRDs cs) !! k = Some u → UStatus u = StatusDeleted →
     is_Some (OldObject u)) →
  versions_ok (count before) (Versions iv) →
  ∃ iv', InstalledVersions_Build NewConstraint NewVersion Check_ cs iv = Some iv' ∧
    versions_ok (count (objects (GatewayAPICRDs cs))) (Versions iv').
Proof.
  intros Hd Hdel Hok. unfold InstalledVersions_Build.
  destruct (build_loop_ok _ _ _ Hd Hdel Hok) as (vs & Heq & Hv). rw Heq /=.
  eexists; split; [done|]. case_match; [|done].
  unfold onUpdateInstalledVersion, checkSupportedVersion. simpl. by case_match.
Qed.

(** ** Properties *)

(** C15: the builder keeps, for every bundle version, the number of installed
    CRDs that carry it, and no entry for a version that none carries, through
    any sequence of installs, upgrades and removals of a batch and in any
    order of the updates.  It needs one thing: that a CRD reported as deleted
    existed before the batch. *)
Theorem InstalledVersions_counts (RO : RangeOrder) {C V : Type} NewConstraint NewVersion
    (Check_ : C → V → bool) before cs iv :
  (∀ k, delta_ok before (GatewayAPICRDs cs) (is_Some (updates (GatewayAPICRDs cs) !! k)) k) →
  (∀ k u, updates (GatewayAPICRDs cs) !! k = Some u → UStatus u = StatusDeleted →
     is_Some (OldObject u)) →
  versions_ok (count before) (Versions iv) →
  ∃ iv', InstalledVersions_Build NewConstraint NewVersion Check_ cs iv = Some iv' ∧
    versions_ok (count (objects (GatewayAPICRDs cs))) (Versions iv').
Proof. apply InstalledVersions_Build_ok. Qed.

Definition example_crd (version : string) : PartialObjectMetadata :=
  {| crd_Meta := Meta "" "gateways" 1 {[ BundleVersionAnnotation := version ]} ∅ 0 |}.

Definition example_crds_before : ClusterStore :=
  ClusterStore_Upsert example_gvk (OCRD (example_crd "v1.2.1")) empty_cluster_store.

Definition example_crd_batch : EventBatch := mkBatch [UpsertEvent (OCRD (example_crd "v1.3.0"))] 2.

Definition example_crds_after : ClusterStore :=
  @processBatch key_order example_gvk example_crd_batch example_crds_before.

Lemma example_crds_updates :
  updates (GatewayAPICRDs example_crds_after) =
  {[ NN "" "gateways" := mkUpdate (Some (example_crd "v1.2.1")) (Some (example_crd "v1.3.0"))
       StatusUpserted false ]}.
Proof. vm_refl. Qed.

Lemma count_singleton k o v : count {[ k := o ]} v = one_if (Some o) v.
Proof.
  change ({[k := o]} : CRDs) with (<[k := o]> (∅ : CRDs)). rw count_insert //.
Qed.

Lemma InstalledVersions_counts_witness :
  let iv := mkInstalledVersions {[ "v1.2.1" := 1%Z ]} (Some false) true in
  ∃ iv', @InstalledVersions_Build key_order _ _ Some Some String.eqb example_crds_after iv = Some iv' ∧
    versions_ok (count (objects (GatewayAPICRDs example_crds_after))) (Versions iv').
Proof.
  intros iv.
  apply (InstalledVersions_counts key_order Some Some String.eqb
    (objects (GatewayAPICRDs example_crds_before))).
  - intros k. eapply delta_ok_touched.
    apply (processBatch_delta_ok key_order example_gvk example_crd_batch example_crds_before
             KCustomResourceDefinition k example_gvk_inj).
  - rw example_crds_updates. by intros k u [<- <-]%lookup_singleton_Some.
  - intros v. change (objects (GatewayAPICRDs example_crds_before)) with
      ({[ NN "" "gateways" := example_crd "v1.2.1" ]} : CRDs).
    rw count_singleton. unfold iv. simpl Versions. unfold one_if.
    change (bundle_version (example_crd "v1.2.1")) with "v1.2.1".
    destruct (decide ("v1.2.1" = v)) as [<-|Hne]; [done|]. rw lookup_singleton_ne //.
Defined.

(** A CRD that is created and deleted within one batch makes the builder
    dereference a nil object: whatever the order of the updates, the build
    panics. *)
Theorem InstalledVersions_panics (RO : RangeOrder) {C V : Type} NewConstraint NewVersion
    (Check_ : C → V → bool) cs iv k u :
  updates (GatewayAPICRDs cs) !! k = Some u → UStatus u = StatusDeleted → OldObject u = None →
  InstalledVersions_Build NewConstraint NewVersion Check_ cs iv = None.
Proof.
  intros Hu Hst Hold. unfold InstalledVersions_Build.
  by rw (build_loop_panics _ _ _ _ Hu Hst Hold).
Qed.

Lemma InstalledVersions_panics_witness :
  let es := [UpsertEvent (OCRD (example_crd "v1.3.0"));
             DeleteEvent KCustomResourceDefinition (NN "" "gateways")] in
  let cs := @processBatch key_order example_gvk (mkBatch es 1) empty_cluster_store in
  @InstalledVersions_Build key_order _ _ Some Some String.eqb cs empty_InstalledVersions = None.
Proof.
  intros es cs.
  apply (InstalledVersions_panics key_order Some Some String.eqb cs _ (NN "" "gateways")
    (mkUpdate None None StatusDeleted false)); vm_refl.
Defined.
