(* ===== verification/GatewayClass.v ===== *)
(** * GatewayClass: tree/gate.go, tree/gatewayclass.go, tree/gatewayclass_builder.go

    The gateway classes of the tree, the check of their [parametersRef]
    against the stored [HugGate]s, their conditions, and the builder that
    recomputes the touched classes (all of them when the validity of the
    installed Gateway API versions changed).

    The texts of [field.NotSupported], [field.Required] and [field.NotFound]
    (k8s.io/apimachinery) are a parameter: they only end up in messages. *)

From S2P Require Import Prelude GoStrings Objects Utils Conditions Store TreeCore.
From S2P Require Import InstalledVersions.

(** The [Error()] texts of package [field]: path, value, supported values. *)
Class FieldErrors := {
  field_NotSupported : string → string → list string → string;
  field_Required : string → string → string;
  field_NotFound : string → string → string
}.

(** ** gate.go *)
Definition SupportedParametersRefKind : string := "HugGate".
Definition SupportedParametersRefGroup : string := "gate.v3.haproxy.org".

Record HugGateParamsRefChecker := {
  ParamRef : option ParametersReference;
  StoreHugGates : gmap NamespacedName HugGate
}.

Definition params_path : string := "spec.parametersRef".

Definition CheckGatewayClass `{FieldErrors} (c : HugGateParamsRefChecker) :
    CheckResult * option HugGate :=
  let conds : Conditions := ∅ in
  let invalid err :=
    (mkCheckResult (MergeOverrideConditions conds (NewGatewayClassAcceptedInvalidParameters err))
       false, None) in
  let ok huggate := (mkCheckResult NewGatewayClassAcceptedOK true, huggate) in
  match ParamRef c with
  | None => ok None
  | Some ref =>
      if negb (bool_decide (pr_Kind ref = SupportedParametersRefKind)) then
        invalid (field_NotSupported (params_path +:+ ".kind") (pr_Kind ref)
                   [SupportedParametersRefKind])
      else if negb (bool_decide (pr_Group ref = SupportedParametersRefGroup)) then
        invalid (field_NotSupported (params_path +:+ ".group") (pr_Group ref)
                   [SupportedParametersRefGroup])
      else
        match pr_Namespace ref with
        | None => invalid (field_Required (params_path +:+ ".namespace") "namespace is required")
        | Some ns =>
            match StoreHugGates c !! NN ns (pr_Name ref) with
            | None => invalid (field_NotFound params_path (pr_Name ref))
            | Some huggate => ok (Some huggate)
            end
        end
  end.

Definition CheckGateway `{FieldErrors} (c : HugGateParamsRefChecker) :
    CheckResult * option HugGate :=
  let conds : Conditions := ∅ in
  let invalid err :=
    (mkCheckResult (MergeOverrideConditions conds (NewGatewayAcceptedInvalidParameters err))
       false, None) in
  let ok huggate := (mkCheckResult NewGatewayAcceptedOK true, huggate) in
  match ParamRef c with
  | None => ok None
  | Some ref =>
      if negb (bool_decide (pr_Kind ref = SupportedParametersRefKind)) then
        invalid (field_NotSupported (params_path +:+ ".kind") (pr_Kind ref)
                   [SupportedParametersRefKind])
      else if negb (bool_decide (pr_Group ref = SupportedParametersRefGroup)) then
        invalid (field_NotSupported (params_path +:+ ".group") (pr_Group ref)
                   [SupportedParametersRefGroup])
      else
        match pr_Namespace ref with
        | None => invalid (field_Required (params_path +:+ ".namespace") "namespace is required")
        | Some ns =>
            match StoreHugGates c !! NN ns (pr_Name ref) with
            | None => invalid (field_NotFound params_path (pr_Name ref))
            | Some huggate => ok (Some huggate)
            end
        end
  end.

(** ** gatewayclass.go *)

(** The fields a deep copy keeps. *)
Record GatewayClassData := mkGatewayClassData {
  gc_K8sResource : option K8sGatewayClass;
  gc_HugGate : option HugGate;
  gc_Conditions : Conditions;
  gc_CheckParamsRef : CheckResult;
  gc_Valid : bool;
  gc_Managed : bool
}.

Record GatewayClass := mkGatewayClass {
  gc_data : GatewayClassData;
  gc_TreeStatus : TreeUpdate GatewayClassData
}.

#[export] Instance GatewayClass_TreeObject : TreeObject GatewayClass GatewayClassData := {|
  GetTreeStatus := gc_TreeStatus;
  SetTreeStatus ts g := mkGatewayClass (gc_data g) ts;
  DeepCopy := gc_data
|}.

Definition NewGatewayClass (k8sObject : option K8sGatewayClass) : GatewayClass :=
  mkGatewayClass (mkGatewayClassData k8sObject None NewGatewayClassAcceptedOK zero_CheckResult
    false true) (mkTreeUpdate None StatusUpserted).

Definition on_data (f : GatewayClassData → GatewayClassData) (g : GatewayClass) : GatewayClass :=
  mkGatewayClass (f (gc_data g)) (gc_TreeStatus g).

Definition GatewayClass_SetAsUpserted (newK8sResource : option K8sGatewayClass) (g : GatewayClass) :
    GatewayClass :=
  on_data (λ d, mkGatewayClassData newK8sResource (gc_HugGate d) (gc_Conditions d)
    (gc_CheckParamsRef d) (gc_Valid d) (gc_Managed d)) (setResourceStatus StatusUpserted g).

Definition GatewayClass_SetAsDeleted (g : GatewayClass) : GatewayClass :=
  on_data (λ d, mkGatewayClassData None (gc_HugGate d) (gc_Conditions d)
    (gc_CheckParamsRef d) (gc_Valid d) (gc_Managed d)) (setResourceStatus StatusDeleted g).

Definition GatewayClass_ResetChecks (g : GatewayClass) : GatewayClass :=
  on_data (λ d, mkGatewayClassData (gc_K8sResource d) None NewGatewayClassAcceptedOK
    zero_CheckResult false (gc_Managed d)) g.

(** The two maps of gateway classes: managed and unmanaged. *)
Abbreviation GWCs := (gmap NamespacedName GatewayClass).

Definition GatewayClass_SetAsManaged (g : GatewayClass) (trees : GWCs * GWCs) : GWCs * GWCs :=
  match gc_K8sResource (gc_data g) with
  | None => trees
  | Some o =>
      let key := meta_key (gwc_Meta o) in
      (<[key := g]> trees.1, delete key trees.2)
  end.

Definition GatewayClass_SetAsUnmanaged (g : GatewayClass) (trees : GWCs * GWCs) : GWCs * GWCs :=
  match gc_K8sResource (gc_data g) with
  | None => trees
  | Some o =>
      let key := meta_key (gwc_Meta o) in
      (delete key trees.1, <[key := g]> trees.2)
  end.

Section gatewayclass.
Context {RO : RangeOrder} {FE : FieldErrors}.

Definition GatewayClass_checkParametersRef (hugGates : gmap NamespacedName HugGate)
    (g : GatewayClass) : GatewayClass :=
  match Status (gc_TreeStatus g) with
  | StatusUpserted =>
      let paramRef := gc_K8sResource (gc_data g) ≫= gwc_ParametersRef in
      let '(check, hugGate) :=
        CheckGatewayClass {| ParamRef := paramRef; StoreHugGates := hugGates |} in
      on_data (λ d, mkGatewayClassData (gc_K8sResource d)
        (if check_Valid check then hugGate else gc_HugGate d) (gc_Conditions d) check
        (gc_Valid d) (gc_Managed d)) g
  | _ => g
  end.

(** [GetGeneration] of the resource; the builder calls it on upserted ones only. *)
Definition generation_of (o : option K8sGatewayClass) : Z :=
  match o with Some o => meta_Generation (gwc_Meta o) | None => 0 end.

Definition set_Conditions (c : Conditions) (d : GatewayClassData) : GatewayClassData :=
  mkGatewayClassData (gc_K8sResource d) (gc_HugGate d) c (gc_CheckParamsRef d) (gc_Valid d)
    (gc_Managed d).

Definition buildConditionsManaged (versionsValid : bool) (g : GatewayClass) : GatewayClass :=
  on_data (λ d,
    let c := MergeOverrideConditions (gc_Conditions d)
      (if versionsValid then NewGatewayClassSupportedVersionOK
       else NewGatewayClassSupportedVersionUnsupportedVersion
              (SupportedVersions_String SupportedGatewayAPIBundleVersion)) in
    let c := MergeOverrideConditions c (check_Conditions (gc_CheckParamsRef d)) in
    set_Conditions (SetGeneration c (generation_of (gc_K8sResource d))) d) g.

Definition buildConditionsIgnored (g : GatewayClass) : GatewayClass :=
  on_data (λ d,
    let c := MergeOverrideConditions (gc_Conditions d) NewGatewayClassAcceptedUnsupported in
    set_Conditions (SetGeneration c (generation_of (gc_K8sResource d))) d) g.

Definition GatewayClass_BuildConditions (versionsValid : bool) (g : GatewayClass) : GatewayClass :=
  if gc_Managed (gc_data g) then buildConditionsManaged versionsValid g
  else buildConditionsIgnored g.

(** ** gatewayclass_builder.go *)
Definition addIndirectGatewayClassesFromInstalledVersions (iv : InstalledVersions)
    (m : objectStore K8sGatewayClass) : objectStore K8sGatewayClass :=
  match InstalledVersions.Updated iv with
  | Some true =>
      range_fold (λ gwcKey gwc m,
        match updates m !! gwcKey with
        | Some _ => m
        | None =>
            mkObjectStore (objects m)
              (<[gwcKey := mkUpdate (Some gwc) (Some gwc) StatusUpserted true]> (updates m))
        end) (objects m) m
  | _ => m
  end.

Definition set_Valid (g : GatewayClass) : GatewayClass :=
  on_data (λ d, mkGatewayClassData (gc_K8sResource d) (gc_HugGate d) (gc_Conditions d)
    (gc_CheckParamsRef d) (check_Valid (gc_CheckParamsRef d)) (gc_Managed d)) g.

(** The pointer found in one of the maps is mutated there before it is moved. *)
Definition write_back (key : NamespacedName) (g : GatewayClass) (trees : GWCs * GWCs) :
    GWCs * GWCs :=
  if trees.1 !! key is Some _ then (<[key := g]> trees.1, trees.2)
  else if trees.2 !! key is Some _ then (trees.1, <[key := g]> trees.2)
  else trees.

Definition computeTreeGatewayClassUpdate (hugGates : gmap NamespacedName HugGate)
    (versionsValid : bool) (gwcKey : NamespacedName) (gwcUpdate : Update K8sGatewayClass)
    (trees : GWCs * GWCs) : GWCs * GWCs :=
  let treeGwc := match trees.1 !! gwcKey with Some g => Some g | None => trees.2 !! gwcKey end in
  match UStatus gwcUpdate with
  | StatusUpserted =>
      let g :=
        match treeGwc with
        | Some g => GatewayClass_ResetChecks (GatewayClass_SetAsUpserted (NewObject gwcUpdate) g)
        | None => NewGatewayClass (NewObject gwcUpdate)
        end in
      let g := GatewayClass_checkParametersRef hugGates g in
      let g := set_Valid g in
      let g := GatewayClass_BuildConditions versionsValid g in
      let trees := write_back gwcKey g trees in
      if gc_Managed (gc_data g) then GatewayClass_SetAsManaged g trees
      else GatewayClass_SetAsUnmanaged g trees
  | StatusDeleted =>
      match treeGwc with
      | Some g => write_back gwcKey (GatewayClass_ResetChecks (GatewayClass_SetAsDeleted g)) trees
      | None => trees
      end
  | StatusUnchanged => trees
  end.

Definition GatewayClass_ComputeTreeUpdates (cs : ClusterStore) (iv : InstalledVersions)
    (trees : GWCs * GWCs) : objectStore K8sGatewayClass * (GWCs * GWCs) :=
  let m := addIndirectGatewayClassesFromInstalledVersions iv (GatewayClasses cs) in
  (m, range_fold (computeTreeGatewayClassUpdate (objects (HugGates cs)) (iv_Valid iv))
        (updates m) trees).
End gatewayclass.

(** ** The checker *)
Section checker.
Context {FE : FieldErrors}.

(** The reference names an existing [HugGate] in the only way accepted. *)
Definition params_ok (c : HugGateParamsRefChecker) : Prop :=
  match ParamRef c with
  | None => True
  | Some r =>
      pr_Kind r = SupportedParametersRefKind ∧ pr_Group r = SupportedParametersRefGroup ∧
      ∃ ns, pr_Namespace r = Some ns ∧ is_Some (StoreHugGates c !! NN ns (pr_Name r))
  end.

Definition params_target (c : HugGateParamsRefChecker) : option HugGate :=
  r ← ParamRef c; ns ← pr_Namespace r; StoreHugGates c !! NN ns (pr_Name r).

Lemma CheckGatewayClass_cases c :
  (params_ok c ∧
   CheckGatewayClass c = (mkCheckResult NewGatewayClassAcceptedOK true, params_target c)) ∨
  (¬ params_ok c ∧ ∃ err,
   CheckGatewayClass c =
     (mkCheckResult (NewGatewayClassAcceptedInvalidParameters err) false, None)).
Proof.
  unfold CheckGatewayClass, params_ok, params_target. destruct (ParamRef c) as [r|]; [|by left].
  rw !Merge_empty_l. simpl.
  do 2 (case_bool_decide; simpl; [|right; split; [tauto|eauto]]).
  destruct (pr_Namespace r) as [ns|]; simpl.
  - destruct (StoreHugGates c !! NN ns (pr_Name r)) eqn:Hl.
    + left. split; [|done]. split_and!; [done..|]. exists ns. rw Hl. eauto.
    + right. split; [|eauto]. intros (_ & _ & ns' & [= <-] & Hs). rw Hl in Hs.
      by destruct Hs.
  - right. split; [|eauto]. intros (_ & _ & ns & ? & _). done.
Qed.
End checker.

(** ** The builder recomputes the touched classes from scratch *)
Section builder.
Context {RO : RangeOrder} {FE : FieldErrors}.
Context (hugGates : gmap NamespacedName HugGate) (versionsValid : bool).

Definition version_conditions : Conditions :=
  if versionsValid then NewGatewayClassSupportedVersionOK
  else NewGatewayClassSupportedVersionUnsupportedVersion
         (SupportedVersions_String SupportedGatewayAPIBundleVersion).

(** What the tree must hold for a stored gateway class, whatever it held. *)
Definition class_view (o : K8sGatewayClass) : GatewayClassData :=
  let '(check, hugGate) :=
    CheckGatewayClass {| ParamRef := gwc_ParametersRef o; StoreHugGates := hugGates |} in
  mkGatewayClassData (Some o) (if check_Valid check then hugGate else None)
    (with_generation (meta_Generation (gwc_Meta o)) <$>
       MergeOverrideConditions
         (MergeOverrideConditions NewGatewayClassAcceptedOK version_conditions)
         (check_Conditions check))
    check (check_Valid check) true.

Definition deleted_view : GatewayClassData :=
  mkGatewayClassData None None NewGatewayClassAcceptedOK zero_CheckResult false true.

Lemma wf_version_conditions : wf_conditions version_conditions.
Proof. unfold version_conditions. destruct versionsValid; apply wf_one. Qed.

Lemma wf_CheckGatewayClass c : wf_conditions (check_Conditions (CheckGatewayClass c).1).
Proof. destruct (CheckGatewayClass_cases c) as [[_ ->]|[_ [? ->]]]; apply wf_one. Qed.

(** The checks and the conditions of an upserted, freshly reset class. *)
Lemma checks_view o ts :
  Status ts = StatusUpserted →
  GatewayClass_BuildConditions versionsValid (set_Valid
    (GatewayClass_checkParametersRef hugGates
      (mkGatewayClass (mkGatewayClassData (Some o) None NewGatewayClassAcceptedOK
         zero_CheckResult false true) ts))) = mkGatewayClass (class_view o) ts.
Proof.
  intros Hst. unfold GatewayClass_checkParametersRef, class_view. simpl. rw Hst.
  pose proof (wf_CheckGatewayClass
    {| ParamRef := gwc_ParametersRef o; StoreHugGates := hugGates |}) as Hwf.
  destruct (CheckGatewayClass _) as [check hg]. simpl in Hwf.
  unfold GatewayClass_BuildConditions, buildConditionsManaged, on_data, set_Conditions, set_Valid.
  simpl. rw SetGeneration_wf //.
  apply wf_Merge; [|done]. apply wf_Merge; [apply wf_one|apply wf_version_conditions].
Qed.

Definition all_managed (trees : GWCs * GWCs) : Prop :=
  map_Forall (λ _ g, gc_Managed (gc_data g) = true) trees.1 ∧ trees.2 = ∅.

(** The tree at a key that had [before] and whose update is [u]. *)
Definition class_after (before : option GatewayClass) (u : Update K8sGatewayClass) :
    option GatewayClass :=
  match NewObject u, before with
  | Some o, _ =>
      Some (mkGatewayClass (class_view o)
        (mkTreeUpdate (gc_data <$> before) StatusUpserted))
  | None, Some g =>
      Some (mkGatewayClass deleted_view (mkTreeUpdate (Some (gc_data g)) StatusDeleted))
  | None, None => None
  end.

Definition update_ok (k : NamespacedName) (u : Update K8sGatewayClass) : Prop :=
  UStatus u = (if NewObject u is Some _ then StatusUpserted else StatusDeleted) ∧
  ∀ o, NewObject u = Some o → meta_key (gwc_Meta o) = k.

Lemma class_view_managed o : gc_Managed (class_view o) = true.
Proof. unfold class_view. by destruct (CheckGatewayClass _). Qed.

Lemma class_view_resource o : gc_K8sResource (class_view o) = Some o.
Proof. unfold class_view. by destruct (CheckGatewayClass _). Qed.

Lemma computeTreeGatewayClassUpdate_eq key u trees :
  all_managed trees → update_ok key u →
  computeTreeGatewayClassUpdate hugGates versionsValid key u trees =
  (partial_alter (λ _, class_after (trees.1 !! key) u) key trees.1, ∅).
Proof.
  intros [Hman Hun] [Hst Hkey]. destruct trees as [managed unmanaged]. simpl in *. subst.
  unfold computeTreeGatewayClassUpdate, class_after. simpl. rw Hst lookup_empty.
  destruct (NewObject u) as [o|].
  - assert (∀ g, managed !! key = Some g → gc_Managed (gc_data g) = true) as Hm
      by (intros g; apply Hman).
    destruct (managed !! key) as [[d ts]|] eqn:Hk; simpl.
    + specialize (Hm _ eq_refl). simpl in Hm.
      unfold GatewayClass_SetAsUpserted, GatewayClass_ResetChecks, on_data. simpl. rw Hm.
      rw checks_view //. unfold write_back, GatewayClass_SetAsManaged. simpl. rw Hk /=.
      rw class_view_managed class_view_resource (Hkey o) // insert_insert_eq //.
    + unfold NewGatewayClass. rw checks_view //.
      unfold write_back, GatewayClass_SetAsManaged. simpl. rw Hk lookup_empty /=.
      rw class_view_managed class_view_resource (Hkey o) //.
  - destruct (managed !! key) as [[d ts]|] eqn:Hk; simpl.
    + unfold write_back. simpl. rw Hk.
      pose proof (Hman _ _ Hk) as Hm. simpl in Hm.
      unfold GatewayClass_ResetChecks, GatewayClass_SetAsDeleted, on_data, deleted_view. simpl.
      by rw Hm.
    + f_equal. symmetry. apply map_eq. intros k. destruct (decide (key = k)) as [<-|].
      * by rw lookup_partial_alter_eq.
      * by rw lookup_partial_alter_ne.
Qed.

Lemma class_after_managed before u g :
  class_after before u = Some g → gc_Managed (gc_data g) = true.
Proof.
  unfold class_after. destruct (NewObject u), before; intros; simplify_eq; simpl;
    auto using class_view_managed.
Qed.

Lemma compute_loop (ups : gmap NamespacedName (Update K8sGatewayClass)) trees :
  all_managed trees → map_Forall update_ok ups →
  let trees' := range_fold (computeTreeGatewayClassUpdate hugGates versionsValid) ups trees in
  all_managed trees' ∧
  ∀ k, trees'.1 !! k =
    match ups !! k with Some u => class_after (trees.1 !! k) u | None => trees.1 !! k end.
Proof.
  intros Hman Hups. simpl.
  apply (range_fold_ind (λ d s, all_managed s ∧ ∀ k, s.1 !! k =
    match d !! k with Some u => class_after (trees.1 !! k) u | None => trees.1 !! k end)).
  - split; [done|]. intros k. by rw lookup_empty.
  - intros k u d s Hu Hd _ [Hs IH]. rw computeTreeGatewayClassUpdate_eq //; [by apply Hups|].
    split; [split; [|done]|]; simpl.
    + intros k' g. destruct (decide (k = k')) as [<-|Hne].
      * rw lookup_partial_alter_eq. apply class_after_managed.
      * rw lookup_partial_alter_ne //. apply Hs.
    + intros k'. destruct (decide (k = k')) as [<-|Hne].
      * rw lookup_partial_alter_eq lookup_insert_eq IH Hd //.
      * rw lookup_partial_alter_ne // lookup_insert_ne //.
Qed.
End builder.

(** The indirect updates: every stored class that has no update yet. *)
Lemma lookup_addIndirect (RO : RangeOrder) iv m k :
  updates (addIndirectGatewayClassesFromInstalledVersions iv m) !! k =
  match updates m !! k with
  | Some u => Some u
  | None =>
      match InstalledVersions.Updated iv with
      | Some true => (λ o, mkUpdate (Some o) (Some o) StatusUpserted true) <$> objects m !! k
      | _ => None
      end
  end ∧
  objects (addIndirectGatewayClassesFromInstalledVersions iv m) = objects m.
Proof.
  unfold addIndirectGatewayClassesFromInstalledVersions.
  destruct (InstalledVersions.Updated iv) as [[]|]; [|by destruct (updates m !! k)..].
  revert k. apply (range_fold_ind (λ d s, ∀ k, updates s !! k =
    match updates m !! k with
    | Some u => Some u
    | None => (λ o, mkUpdate (Some o) (Some o) StatusUpserted true) <$> d !! k
    end ∧ objects s = objects m)).
  - intros k. rw lookup_empty. by destruct (updates m !! k).
  - intros k o d s _ Hd _ IH k'. destruct (IH k) as [IHk _], (IH k') as [IHk' Ho].
    destruct (updates s !! k) eqn:Hs; simpl; split; try done.
    + rw IHk'. destruct (updates m !! k') eqn:Hm; [done|].
      rw lookup_insert_ne //. intros <-. rw Hm Hd // in IHk.
    + destruct (decide (k = k')) as [<-|Hne].
      * rw !lookup_insert_eq. by destruct (updates m !! k).
      * rw !lookup_insert_ne //.
Qed.

(** ** Properties *)

(** The check of a [parametersRef] accepts exactly an absent reference or
    one of the supported kind and group, with a namespace, that names a stored
    [HugGate], and returns that [HugGate]; every other case returns none and a
    single condition Accepted=False with reason InvalidParameters. *)
Theorem CheckGatewayClass_spec (FE : FieldErrors) c :
  let '(check, hugGate) := CheckGatewayClass c in
  (check_Valid check = true ↔ params_ok c) ∧
  hugGate = (if check_Valid check then params_target c else None) ∧
  if check_Valid check then check_Conditions check = NewGatewayClassAcceptedOK
  else ∃ msg, check_Conditions check =
    {[ Accepted := Cond Accepted ConditionFalse "InvalidParameters" msg 0 ]}.
Proof.
  destruct (CheckGatewayClass_cases c) as [[Hok ->]|[Hko [err ->]]]; simpl.
  - done.
  - split_and!; [done|done|eexists; reflexivity].
Qed.

(** C16: the tree of gateway classes is recomputed incrementally but equals a
    computation from scratch: a class with an update (direct, or indirect when
    the validity of the installed versions changed) gets the view computed
    from its object, the stored [HugGate]s and the versions alone, with its
    previous data kept as the old version; a deleted class is blanked and
    marked; every other class is left as it was.  No order of the maps
    matters and no class is ever unmanaged. *)
Theorem GatewayClass_tree_recomputed (RO : RangeOrder) (FE : FieldErrors) cs iv trees :
  all_managed trees →
  map_Forall update_ok (updates (GatewayClasses cs)) →
  map_Forall (λ k o, meta_key (gwc_Meta o) = k) (objects (GatewayClasses cs)) →
  let '(m, trees') := GatewayClass_ComputeTreeUpdates cs iv trees in
  all_managed trees' ∧
  (∀ k, is_Some (updates m !! k) ↔ is_Some (updates (GatewayClasses cs) !! k) ∨
     InstalledVersions.Updated iv = Some true ∧ is_Some (objects (GatewayClasses cs) !! k)) ∧
  ∀ k, trees'.1 !! k =
    match updates m !! k with
    | Some u => class_after (objects (HugGates cs)) (iv_Valid iv) (trees.1 !! k) u
    | None => trees.1 !! k
    end.
Proof.
  intros Hman Hups Hobjs. simpl.
  set (m := addIndirectGatewayClassesFromInstalledVersions iv (GatewayClasses cs)).
  assert (map_Forall update_ok (updates m)) as Hm.
  { intros k u. rw (proj1 (lookup_addIndirect RO iv (GatewayClasses cs) k)).
    destruct (updates (GatewayClasses cs) !! k) eqn:Hu; [intros [= <-]; by apply Hups|].
    destruct (InstalledVersions.Updated iv) as [[]|]; try done.
    destruct (objects (GatewayClasses cs) !! k) eqn:Ho; simpl; [|done]. intros [= <-].
    split; [done|]. intros ? [= <-]. by apply Hobjs. }
  destruct (compute_loop (objects (HugGates cs)) (iv_Valid iv) _ _ Hman Hm) as [H1 H2].
  split_and!; [done| |done].
  intros k. unfold m. rw (proj1 (lookup_addIndirect RO iv (GatewayClasses cs) k)).
  rw -!not_eq_None_Some.
  destruct (updates (GatewayClasses cs) !! k); [naive_solver|].
  destruct (InstalledVersions.Updated iv) as [[]|], (objects (GatewayClasses cs) !! k);
    naive_solver.
Qed.

Definition example_errors : FieldErrors := {|
  field_NotSupported p v _ := p +:+ ": Unsupported value: " +:+ v;
  field_Required p m := p +:+ ": Required value: " +:+ m;
  field_NotFound p v := p +:+ ": Not found: " +:+ v
|}.

Definition example_class : K8sGatewayClass :=
  {| gwc_Meta := simple_meta "" "haproxy" 3; gwc_ControllerName := "hug";
     gwc_ParametersRef := None; gwc_Status_Conditions := [] |}.

Lemma GatewayClass_tree_recomputed_witness :
  let cs := ClusterStore_Upsert example_gvk (OGatewayClass example_class) empty_cluster_store in
  let '(m, trees') :=
    @GatewayClass_ComputeTreeUpdates key_order example_errors cs empty_InstalledVersions (∅, ∅) in
  all_managed trees' ∧ is_Some (updates m !! NN "" "haproxy").
Proof.
  intros cs.
  assert (updates (GatewayClasses cs) =
    {[ NN "" "haproxy" := mkUpdate None (Some example_class) StatusUpserted false ]}) as Hu
    by reflexivity.
  assert (objects (GatewayClasses cs) = {[ NN "" "haproxy" := example_class ]}) as Ho
    by reflexivity.
  pose proof (GatewayClass_tree_recomputed key_order example_errors cs empty_InstalledVersions
    (∅, ∅)) as Hthm.
  destruct (GatewayClass_ComputeTreeUpdates _ _ _) as [m trees'].
  destruct Hthm as (H1 & H2 & _).
  - by split; [apply map_Forall_empty|].
  - rw Hu. intros k u [<- <-]%lookup_singleton_Some. split; [done|]. by intros ? [= <-].
  - rw Ho. by intros k o [<- <-]%lookup_singleton_Some.
  - split; [done|]. apply H2. left. rw Hu. eexists. apply lookup_singleton_eq.
Defined.

(** The conditions written for an upserted class are exactly Accepted and
    SupportedVersion, each stamped with the generation of the object; Accepted
    is True exactly when the class is valid and SupportedVersion exactly when
    all the installed versions are supported. *)
Theorem GatewayClass_conditions (RO : RangeOrder) (FE : FieldErrors) hugGates versionsValid o ts :
  let d := gc_data (GatewayClass_BuildConditions versionsValid (set_Valid
    (GatewayClass_checkParametersRef hugGates (GatewayClass_SetAsUpserted (Some o)
      (mkGatewayClass (gc_data (NewGatewayClass None)) ts))))) in
  dom (gc_Conditions d) = {[ Accepted; SupportedVersion ]} ∧
  map_Forall (λ k c, Type_ c = k ∧ ObservedGeneration c = meta_Generation (gwc_Meta o))
    (gc_Conditions d) ∧
  (Conditions.Status <$> gc_Conditions d !! Accepted) =
    Some (if gc_Valid d then ConditionTrue else ConditionFalse) ∧
  (Conditions.Status <$> gc_Conditions d !! SupportedVersion) =
    Some (if versionsValid then ConditionTrue else ConditionFalse).
Proof.
  change (GatewayClass_SetAsUpserted (Some o) (mkGatewayClass (gc_data (NewGatewayClass None)) ts))
    with (mkGatewayClass (mkGatewayClassData (Some o) None NewGatewayClassAcceptedOK
      zero_CheckResult false true)
      (mkTreeUpdate (Some (gc_data (NewGatewayClass None))) StatusUpserted)).
  rw checks_view //. unfold class_view.
  destruct (CheckGatewayClass_cases {| ParamRef := gwc_ParametersRef o; StoreHugGates := hugGates |})
    as [[_ ->]|[_ [err ->]]]; unfold version_conditions; destruct versionsValid; simpl;
    unfold NewGatewayClassAcceptedOK, NewGatewayClassAcceptedInvalidParameters,
      NewGatewayClassSupportedVersionOK, NewGatewayClassSupportedVersionUnsupportedVersion, one;
    (split_and!; [rw dom_fmap_L /MergeOverrideConditions !dom_union_L !dom_singleton_L; set_solver
                 |intros k c Hk|rw lookup_fmap !lookup_Merge !lookup_singleton //..]).
  all: apply lookup_fmap_Some in Hk as (c' & <- & Hk); rw !lookup_Merge !lookup_singleton in Hk;
    repeat case_decide; by simplify_eq/=.
Qed.
