(* ===== verification/Listener.v ===== *)
(** * Listener: k8s/gate/tree/gateway_listener.go

    A listener of a gateway: the checks the gateway builder runs on it and the
    conditions they lead to.  Methods that mutate the listener return it; the
    sharing of listeners between gateways and routes is the business of the
    store of listeners in [Gateway]. *)

From S2P Require Import Prelude GoStrings Objects Utils Conditions Store TreeCore.
From S2P Require Import References GatewayClass.

Abbreviation AttachedRoutes := (gset NamespacedName).

Record Listener := mkListener {
  lst_K8sResource : K8sListener;
  lst_Conditions : Conditions;
  lst_AttachedRoutes : AttachedRoutes;
  lst_Owner : NamespacedName;
  CheckRouteGroupKind : CheckResult;
  CheckProtocol : CheckResult;
  CheckSecret : CheckResult;
  CheckConflict : CheckResult;
  AllowedRouteKinds : list RouteGroupKind;
  lst_Valid : bool
}.

(** The four checks of a listener, which each method below updates. *)
Definition set_checks (k p s c : CheckResult) (l : Listener) : Listener :=
  mkListener (lst_K8sResource l) (lst_Conditions l) (lst_AttachedRoutes l) (lst_Owner l)
    k p s c (AllowedRouteKinds l) (lst_Valid l).
Definition set_CheckRouteGroupKind (k : CheckResult) (l : Listener) : Listener :=
  set_checks k (CheckProtocol l) (CheckSecret l) (CheckConflict l) l.
Definition set_CheckProtocol (p : CheckResult) (l : Listener) : Listener :=
  set_checks (CheckRouteGroupKind l) p (CheckSecret l) (CheckConflict l) l.
Definition set_CheckSecret (s : CheckResult) (l : Listener) : Listener :=
  set_checks (CheckRouteGroupKind l) (CheckProtocol l) s (CheckConflict l) l.
Definition set_CheckConflict (c : CheckResult) (l : Listener) : Listener :=
  set_checks (CheckRouteGroupKind l) (CheckProtocol l) (CheckSecret l) c l.
Definition set_lst_Conditions (c : Conditions) (v : bool) (l : Listener) : Listener :=
  mkListener (lst_K8sResource l) c (lst_AttachedRoutes l) (lst_Owner l)
    (CheckRouteGroupKind l) (CheckProtocol l) (CheckSecret l) (CheckConflict l)
    (AllowedRouteKinds l) v.

(** object-types/object_types.go *)
Definition RouteKindHTTP : RouteGroupKind := RGK (Some GroupName) "HTTPRoute".
Definition RouteKindTLS : RouteGroupKind := RGK (Some GroupName) "TLSRoute".

Abbreviation SupportedRouteKinds := (gmap string (list RouteGroupKind)).

Definition gateSupportedRouteKindsByProtocol : SupportedRouteKinds :=
  list_to_map [(HTTPProtocolType, [RouteKindHTTP]); (HTTPSProtocolType, [RouteKindHTTP]);
               (TLSProtocolType, [RouteKindTLS])].

(** [gatewaylistener] of gateway_builder.go: where a listener comes from. *)
Record gatewaylistener := mkGl { gl_listenerKey : NamespacedName; gl_gatewayKey : NamespacedName }.

Definition sortRouteKinds (a b : RouteGroupKind) : comparison :=
  let groupA := default GroupName (rgk_Group a) in
  let groupB := default GroupName (rgk_Group b) in
  match String.compare groupA groupB with
  | Eq => String.compare (rgk_Kind a) (rgk_Kind b)
  | c => c
  end.

Definition isSupportedProtocolRouteKind (kind : RouteGroupKind)
    (supportedRouteKinds : list RouteGroupKind) : bool :=
  if match rgk_Group kind with
     | Some g => negb (bool_decide (g = GroupName)) | None => false end
  then false
  else existsb (λ k, bool_decide (rgk_Kind k = rgk_Kind kind)) supportedRouteKinds.

Definition allowed_kinds (l : K8sListener) : list RouteGroupKind :=
  match l_AllowedRoutes l with None => [] | Some a => ar_Kinds a end.

Definition supportedKinds `{GoSort} (listener : K8sListener)
    (gateSupportedRouteKinds : SupportedRouteKinds) : list RouteGroupKind :=
  let gateSupportedRouteKindsForProtocol :=
    default [] (gateSupportedRouteKinds !! l_Protocol listener) in
  match allowed_kinds listener with
  | [] => SortFunc sortRouteKinds gateSupportedRouteKindsForProtocol
  | kinds =>
      SortFunc sortRouteKinds
        (foldl (λ acc k,
           if isSupportedProtocolRouteKind k gateSupportedRouteKindsForProtocol
           then acc ++ [k] else acc) [] kinds)
  end.

(** The secret and its tree status are all that [checkCertificateRefs] reads. *)
Definition secret_usable (gateSecrets : gmap NamespacedName Secret) (nsName : NamespacedName) :
    bool :=
  match gateSecrets !! nsName with
  | None => false
  | Some treeSecret =>
      match Status (TreeStatus treeSecret) with StatusDeleted => false | _ => true end
  end.

Definition isSupportedCertKindGroup (certRef : SecretObjectReference) : bool :=
  eq_or_nil (sr_Kind certRef) "Secret" && eq_or_nil (sr_Group certRef) "".

Section checks.
Context {RO : RangeOrder} {GS : GoSort} {FE : FieldErrors}.

(** [treeGw.Valid] and [treeGw.K8sResource] are all the listener needs of its gateway. *)
Context (gwValid : bool) (gw : K8sGateway).

Definition checkRouteGroupKind (gateSupportedRouteKinds : SupportedRouteKinds) (l : Listener) :
    Listener :=
  if negb gwValid then set_CheckRouteGroupKind zero_CheckResult l
  else
    let listener := lst_K8sResource l in
    let forProtocol := default [] (gateSupportedRouteKinds !! l_Protocol listener) in
    match allowed_kinds listener with
    | [] => set_CheckRouteGroupKind (mkCheckResult ∅ true) l
    | kinds =>
        let unsupportedRoute := foldl (λ unsupported k,
          if isSupportedProtocolRouteKind k forProtocol then unsupported else rgk_Kind k)
          "" kinds in
        if negb (bool_decide (unsupportedRoute = "")) then
          let acceptedKinds := SortFunc sortRouteKinds forProtocol in
          let msg := unsupportedRoute +:+
            " is not supported. Supported Route Kinds for this protocol " +:+
            RouteGroupKindsToString acceptedKinds in
          set_CheckRouteGroupKind
            (mkCheckResult (NewListenerResolvedRefInvalidRouteKinds msg) false) l
        else set_CheckRouteGroupKind (mkCheckResult ∅ true) l
    end.

Definition checkProtocol (gateSupportedRouteKinds : SupportedRouteKinds) (l : Listener) :
    Listener :=
  let listener := lst_K8sResource l in
  match default [] (gateSupportedRouteKinds !! l_Protocol listener) with
  | [] =>
      let supportedProtocols := SortStrings (range gateSupportedRouteKinds).*1 in
      set_CheckProtocol (mkCheckResult
        (NewListenerAcceptedUnsupportedProtocol
           (field_NotSupported "protocol" (l_Protocol listener) supportedProtocols)) false) l
  | _ => set_CheckProtocol (mkCheckResult ∅ true) l
  end.

Fixpoint checkCertificateRefs_loop (gateSecrets : gmap NamespacedName Secret)
    (certRefs : list SecretObjectReference) (l : Listener) : Listener :=
  match certRefs with
  | [] => l
  | certRef :: certRefs =>
      if negb (isSupportedCertKindGroup certRef) then
        set_CheckSecret (mkCheckResult (NewListenerResolvedRefInvalidCertificateRefs
          "Listener CertificateRefs must be of Group/Kind Secret") false) l
      else
        let nsName := GetCertificateRefNamespacedName certRef gw in
        let l :=
          if negb (secret_usable gateSecrets nsName) then
            set_CheckSecret (mkCheckResult (NewListenerResolvedRefInvalidCertificateRefs
              ("Secret " +:+ Namespace nsName +:+ "/" +:+ Name nsName +:+ " does not exist"))
              false) l
          else l in
        checkCertificateRefs_loop gateSecrets certRefs l
  end.

Definition checkCertificateRefs (gateSecrets : gmap NamespacedName Secret) (l : Listener) :
    Listener :=
  if negb gwValid then set_CheckSecret zero_CheckResult l
  else
    match l_TLS (lst_K8sResource l) with
    | None => set_CheckSecret (mkCheckResult ∅ true) l
    | Some tls =>
        match tls_CertificateRefs tls with
        | [] => set_CheckSecret (mkCheckResult ∅ true) l
        | certRefs => checkCertificateRefs_loop gateSecrets certRefs l
        end
    end.

Definition checkConflict (multipleListenersPerPort : gmap Z (list gatewaylistener))
    (l : Listener) : Listener :=
  if negb gwValid then set_CheckConflict zero_CheckResult l
  else
    match multipleListenersPerPort !! l_Port (lst_K8sResource l) with
    | None => l
    | Some gls =>
        let conflictingKeys := (λ gl, NamespacedName_String (gl_listenerKey gl)) <$> gls in
        let msg := "Conflicting listeners: " +:+ Join (SortStrings conflictingKeys) ", " in
        set_CheckConflict (mkCheckResult (NewListenerConflicted msg) false) l
    end.

Definition resetChecks (l : Listener) : Listener :=
  set_checks zero_CheckResult zero_CheckResult zero_CheckResult zero_CheckResult l.

(** The conditions before their generation is set, and [shouldProgramm]. *)
Definition mergedConditions (l : Listener) : Conditions * bool :=
  let c : Conditions := ∅ in
  let c := MergeOverrideConditions c (check_Conditions (CheckRouteGroupKind l)) in
  let c := MergeOverrideConditions c (check_Conditions (CheckProtocol l)) in
  let c := MergeOverrideConditions c (check_Conditions (CheckSecret l)) in
  let c := MergeOverrideConditions c (check_Conditions (CheckConflict l)) in
  let '(c, shouldProgramm) :=
    match GetCondition c Accepted with
    | None => (MergeOverrideConditions c NewListenerAcceptedOK, true)
    | Some _ => (MergeOverrideConditions c NewListenerProgrammedInvalid, false)
    end in
  let '(c, shouldProgramm) :=
    match GetCondition c ResolvedRefs with
    | None => (MergeOverrideConditions c NewListenerResolvedRefOK, shouldProgramm)
    | Some _ => (MergeOverrideConditions c NewListenerProgrammedInvalid, false)
    end in
  let '(c, shouldProgramm) :=
    match GetCondition c Conflicted with
    | None => (c, shouldProgramm)
    | Some _ => (MergeOverrideConditions c NewListenerProgrammedInvalid, false)
    end in
  let c := if (shouldProgramm : bool) then MergeOverrideConditions c NewListenerProgrammedPending
           else c in
  (c, shouldProgramm).

Definition BuildConditions (l : Listener) : Listener :=
  let '(c, shouldProgramm) := mergedConditions l in
  set_lst_Conditions (SetGeneration c (meta_Generation (gw_Meta gw))) shouldProgramm l.

(** The body of the loop of [buildListeners] (gateway_builder.go): the checks
    of each protocol. *)
Definition check_listener (gateSecrets : gmap NamespacedName Secret)
    (multipleListenersPerPort : gmap Z (list gatewaylistener)) (l : Listener) : Listener :=
  let kinds := gateSupportedRouteKindsByProtocol in
  let l := resetChecks l in
  let protocol := l_Protocol (lst_K8sResource l) in
  if bool_decide (protocol = HTTPProtocolType) then
    checkConflict multipleListenersPerPort (checkProtocol kinds (checkRouteGroupKind kinds l))
  else if bool_decide (protocol = HTTPSProtocolType) then
    checkConflict multipleListenersPerPort
      (checkProtocol kinds (checkCertificateRefs gateSecrets (checkRouteGroupKind kinds l)))
  else checkConflict multipleListenersPerPort (checkProtocol kinds l).
End checks.

Lemma forallb_filter {A} (f : A → bool) (l : list A) :
  forallb f l = true → filter (λ x, f x = true) l = l.
Proof.
  induction l as [|x l IH]; simpl; [done|]. intros [Hx Hl]%andb_true_iff.
  by rw filter_cons decide_True // IH.
Qed.

(** ** What the checks accept *)
Definition kinds_ok (l : K8sListener) : bool :=
  let forProtocol := default [] (gateSupportedRouteKindsByProtocol !! l_Protocol l) in
  forallb (λ k, isSupportedProtocolRouteKind k forProtocol) (allowed_kinds l).

Definition protocol_ok (l : K8sListener) : bool :=
  bool_decide (l_Protocol l ∈ [HTTPProtocolType; HTTPSProtocolType; TLSProtocolType]).

Definition certificate_ok (gw : K8sGateway) (gateSecrets : gmap NamespacedName Secret)
    (certRef : SecretObjectReference) : bool :=
  isSupportedCertKindGroup certRef &&
  secret_usable gateSecrets (GetCertificateRefNamespacedName certRef gw).

Definition certificates_ok (gw : K8sGateway) (gateSecrets : gmap NamespacedName Secret)
    (l : K8sListener) : bool :=
  match l_TLS l with
  | None => true
  | Some tls => forallb (certificate_ok gw gateSecrets) (tls_CertificateRefs tls)
  end.

Definition conflict_free (multi : gmap Z (list gatewaylistener)) (l : K8sListener) : bool :=
  match multi !! l_Port l with None => true | Some _ => false end.

Definition is_https (l : K8sListener) : bool := bool_decide (l_Protocol l = HTTPSProtocolType).
Definition is_http_s (l : K8sListener) : bool :=
  bool_decide (l_Protocol l = HTTPProtocolType) || is_https l.

(** The references of a listener resolve; an invalid gateway does not look. *)
Definition refs_resolve (gwValid : bool) (gw : K8sGateway)
    (gateSecrets : gmap NamespacedName Secret) (l : K8sListener) : bool :=
  negb gwValid ||
  (negb (is_http_s l) || kinds_ok l) && (negb (is_https l) || certificates_ok gw gateSecrets l).

Definition accepts (gwValid : bool) (multi : gmap Z (list gatewaylistener)) (l : K8sListener) :
    bool :=
  protocol_ok l && (negb gwValid || conflict_free multi l).

(** ** Lemmas *)
Section lemmas.
Context {RO : RangeOrder} {GS : GoSort} {FE : FieldErrors}.
Context (gwValid : bool) (gw : K8sGateway).
Implicit Types (l : Listener).

Lemma protocol_ok_spec k :
  protocol_ok k = match default [] (gateSupportedRouteKindsByProtocol !! l_Protocol k) with
                  | [] => false | _ => true end.
Proof.
  unfold protocol_ok.
  destruct (decide (l_Protocol k = HTTPProtocolType)) as [->|H1]; [done|].
  destruct (decide (l_Protocol k = HTTPSProtocolType)) as [->|H2]; [done|].
  destruct (decide (l_Protocol k = TLSProtocolType)) as [->|H3]; [done|].
  unfold gateSupportedRouteKindsByProtocol. simpl.
  rw !lookup_insert_ne // lookup_empty /=. apply bool_decide_eq_false_2. set_solver.
Qed.

Lemma unsupported_fold sup (kinds : list RouteGroupKind) acc :
  Forall (λ k, rgk_Kind k ≠ "") kinds →
  foldl (λ unsupported k, if isSupportedProtocolRouteKind k sup then unsupported
                          else rgk_Kind k) acc kinds = "" ↔
  acc = "" ∧ forallb (λ k, isSupportedProtocolRouteKind k sup) kinds = true.
Proof.
  intros Hall. revert acc. induction Hall as [|k kinds Hk Hall IH]; intros acc; simpl; [tauto|].
  rw IH. destruct (isSupportedProtocolRouteKind k sup); simpl; naive_solver.
Qed.

Lemma checkRouteGroupKind_spec l :
  Forall (λ k, rgk_Kind k ≠ "") (allowed_kinds (lst_K8sResource l)) →
  ∃ check msg, checkRouteGroupKind gwValid gateSupportedRouteKindsByProtocol l =
    set_CheckRouteGroupKind check l ∧
  check_Conditions check =
    if negb gwValid || kinds_ok (lst_K8sResource l) then ∅
    else NewListenerResolvedRefInvalidRouteKinds msg.
Proof.
  intros Hne. unfold checkRouteGroupKind, kinds_ok. destruct gwValid; cbn [negb orb].
  2:{ by exists zero_CheckResult, "". }
  destruct (allowed_kinds (lst_K8sResource l)) as [|k kinds] eqn:Hk.
  { by exists (mkCheckResult ∅ true), "". }
  case_bool_decide as Hu; cbn [negb].
  - exists (mkCheckResult ∅ true), "". split; [done|].
    apply unsupported_fold in Hu as [_ ->]; done.
  - eexists _, _. split; [reflexivity|].
    destruct (forallb _ _) eqn:Hf; [|reflexivity]. destruct Hu.
    by apply unsupported_fold.
Qed.

Lemma checkProtocol_spec l :
  ∃ check msg, checkProtocol gateSupportedRouteKindsByProtocol l = set_CheckProtocol check l ∧
  check_Conditions check =
    if protocol_ok (lst_K8sResource l) then ∅ else NewListenerAcceptedUnsupportedProtocol msg.
Proof.
  unfold checkProtocol. rw protocol_ok_spec.
  destruct (default [] _); [eexists _, _|exists (mkCheckResult ∅ true), ""]; by split.
Qed.

Lemma checkCertificateRefs_loop_spec secrets refs l :
  ∃ check msg, checkCertificateRefs_loop gw secrets refs l = set_CheckSecret check l ∧
  check_Conditions check =
    if forallb (certificate_ok gw secrets) refs then check_Conditions (CheckSecret l)
    else NewListenerResolvedRefInvalidCertificateRefs msg.
Proof.
  revert l. induction refs as [|c refs IH]; intros l; simpl.
  { exists (CheckSecret l), "". by destruct l. }
  unfold certificate_ok at 1. destruct (isSupportedCertKindGroup c); simpl.
  2:{ eexists _, _. by split. }
  destruct (secret_usable _ _); simpl; [apply IH|].
  edestruct IH as (check & msg & -> & Hc).
  destruct (forallb _ refs); [eexists _, _|exists check, msg]; (split; [reflexivity|exact Hc]).
Qed.

Lemma checkCertificateRefs_spec secrets l :
  check_Conditions (CheckSecret l) = ∅ →
  ∃ check msg, checkCertificateRefs gwValid gw secrets l = set_CheckSecret check l ∧
  check_Conditions check =
    if negb gwValid || certificates_ok gw secrets (lst_K8sResource l) then ∅
    else NewListenerResolvedRefInvalidCertificateRefs msg.
Proof.
  intros Hl. unfold checkCertificateRefs, certificates_ok. destruct gwValid; cbn [negb orb].
  2:{ by exists zero_CheckResult, "". }
  destruct (l_TLS _) as [tls|]; [|by exists (mkCheckResult ∅ true), ""].
  destruct (tls_CertificateRefs tls) as [|c refs] eqn:Hr.
  { by exists (mkCheckResult ∅ true), "". }
  rw -Hl. apply (checkCertificateRefs_loop_spec secrets (c :: refs)).
Qed.

Lemma checkConflict_spec multi l :
  check_Conditions (CheckConflict l) = ∅ →
  ∃ check msg, checkConflict gwValid multi l = set_CheckConflict check l ∧
  check_Conditions check =
    if negb gwValid || conflict_free multi (lst_K8sResource l) then ∅
    else NewListenerConflicted msg.
Proof.
  intros Hl. unfold checkConflict, conflict_free. destruct gwValid; simpl.
  2:{ by exists zero_CheckResult, "". }
  destruct (multi !! _); [eexists _, _|exists (CheckConflict l), ""]; split; try done.
  by destruct l.
Qed.

(** The conditions of the four checks after the loop body, up to messages. *)
Lemma check_listener_spec secrets multi l :
  Forall (λ k, rgk_Kind k ≠ "") (allowed_kinds (lst_K8sResource l)) →
  let k8s := lst_K8sResource l in
  ∃ k p s c m1 m2 m3 m4,
    check_listener gwValid gw secrets multi l = set_checks k p s c l ∧
    check_Conditions k = (if negb (is_http_s k8s) || (negb gwValid || kinds_ok k8s) then ∅
                          else NewListenerResolvedRefInvalidRouteKinds m1) ∧
    check_Conditions p = (if protocol_ok k8s then ∅
                          else NewListenerAcceptedUnsupportedProtocol m2) ∧
    check_Conditions s =
      (if negb (is_https k8s) || (negb gwValid || certificates_ok gw secrets k8s) then ∅
       else NewListenerResolvedRefInvalidCertificateRefs m3) ∧
    check_Conditions c = (if negb gwValid || conflict_free multi k8s then ∅
                          else NewListenerConflicted m4).
Proof.
  intros Hne k8s. unfold check_listener. set (l0 := resetChecks l).
  change (lst_K8sResource l0) with k8s. unfold is_http_s, is_https.
  destruct (checkRouteGroupKind_spec l0 Hne) as (k & m1 & Hk & Hck).
  case_bool_decide as Hhttp; [|case_bool_decide as Hhttps]; simpl.
  - rw Hk. destruct (checkProtocol_spec (set_CheckRouteGroupKind k l0)) as (p & m2 & -> & Hcp).
    edestruct (checkConflict_spec multi (set_CheckProtocol p (set_CheckRouteGroupKind k l0)))
      as (c & m4 & -> & Hcc); [done|].
    rw bool_decide_eq_false_2 //; [by rw Hhttp|].
    exists k, p, zero_CheckResult, c, m1, m2, "", m4. done.
  - rw Hk. destruct (checkCertificateRefs_spec secrets (set_CheckRouteGroupKind k l0))
      as (s & m3 & -> & Hcs); [done|].
    destruct (checkProtocol_spec (set_CheckSecret s (set_CheckRouteGroupKind k l0)))
      as (p & m2 & -> & Hcp).
    edestruct (checkConflict_spec multi
      (set_CheckProtocol p (set_CheckSecret s (set_CheckRouteGroupKind k l0))))
      as (c & m4 & -> & Hcc); [done|].
    exists k, p, s, c, m1, m2, m3, m4. done.
  - destruct (checkProtocol_spec l0) as (p & m2 & -> & Hcp).
    edestruct (checkConflict_spec multi (set_CheckProtocol p l0)) as (c & m4 & -> & Hcc); [done|].
    exists zero_CheckResult, p, zero_CheckResult, c, "", m2, "", m4. done.
Qed.

Lemma wf_NewListenerConflicted msg : wf_conditions (NewListenerConflicted msg).
Proof. apply map_Forall_insert_2; [done|apply wf_one]. Qed.

Lemma wf_mergedConditions l :
  wf_conditions (check_Conditions (CheckRouteGroupKind l)) →
  wf_conditions (check_Conditions (CheckProtocol l)) →
  wf_conditions (check_Conditions (CheckSecret l)) →
  wf_conditions (check_Conditions (CheckConflict l)) →
  wf_conditions (mergedConditions l).1.
Proof.
  intros. unfold mergedConditions. repeat case_match; simplify_eq; simpl;
    repeat (apply wf_Merge || apply wf_empty || apply wf_one || done).
Qed.

Lemma mergedConditions_of_checks (K P S C : bool) k p s c m1 m2 m3 m4 l :
  check_Conditions k = (if K then ∅ else NewListenerResolvedRefInvalidRouteKinds m1) →
  check_Conditions p = (if P then ∅ else NewListenerAcceptedUnsupportedProtocol m2) →
  check_Conditions s = (if S then ∅ else NewListenerResolvedRefInvalidCertificateRefs m3) →
  check_Conditions c = (if C then ∅ else NewListenerConflicted m4) →
  let m := mergedConditions (set_checks k p s c l) in
  m.2 = K && P && S && C ∧
  (Conditions.Status <$> m.1 !! Accepted) =
    Some (if P && C then ConditionTrue else ConditionFalse) ∧
  (Conditions.Status <$> m.1 !! ResolvedRefs) =
    Some (if K && S then ConditionTrue else ConditionFalse) ∧
  (Conditions.Status <$> m.1 !! Conflicted) = (if C then None else Some ConditionTrue) ∧
  (Conditions.Status <$> m.1 !! Programmed) =
    Some (if K && P && S && C then ConditionUnknown else ConditionFalse).
Proof.
  intros Hk Hp Hs Hc. unfold mergedConditions. simpl. rw Hk Hp Hs Hc. clear.
  destruct K, P, S, C; split_and!; vm_refl.
Qed.

(** The outcome of [BuildConditions] for checks that pass or fail as given. *)
Lemma BuildConditions_of_checks (K P S C : bool) k p s c m1 m2 m3 m4 l :
  check_Conditions k = (if K then ∅ else NewListenerResolvedRefInvalidRouteKinds m1) →
  check_Conditions p = (if P then ∅ else NewListenerAcceptedUnsupportedProtocol m2) →
  check_Conditions s = (if S then ∅ else NewListenerResolvedRefInvalidCertificateRefs m3) →
  check_Conditions c = (if C then ∅ else NewListenerConflicted m4) →
  let l' := BuildConditions gw (set_checks k p s c l) in
  lst_Valid l' = K && P && S && C ∧
  (Conditions.Status <$> lst_Conditions l' !! Accepted) =
    Some (if P && C then ConditionTrue else ConditionFalse) ∧
  (Conditions.Status <$> lst_Conditions l' !! ResolvedRefs) =
    Some (if K && S then ConditionTrue else ConditionFalse) ∧
  (Conditions.Status <$> lst_Conditions l' !! Conflicted) =
    (if C then None else Some ConditionTrue) ∧
  (Conditions.Status <$> lst_Conditions l' !! Programmed) =
    Some (if K && P && S && C then ConditionUnknown else ConditionFalse) ∧
  map_Forall (λ k c, Type_ c = k ∧ ObservedGeneration c = meta_Generation (gw_Meta gw))
    (lst_Conditions l').
Proof.
  intros Hk Hp Hs Hc l'. unfold l', BuildConditions.
  assert (wf_conditions (mergedConditions (set_checks k p s c l)).1) as Hwf.
  { apply wf_mergedConditions; simpl; rw ?Hk ?Hp ?Hs ?Hc;
      [destruct K|destruct P|destruct S|destruct C];
      first [apply wf_empty|apply wf_one|apply wf_NewListenerConflicted]. }
  pose proof (mergedConditions_of_checks _ _ _ _ _ _ _ _ _ _ _ _ l Hk Hp Hs Hc) as Hm.
  destruct (mergedConditions _) as [cs v]. simpl in Hwf, Hm |- *. rw SetGeneration_wf //.
  assert (∀ key, Conditions.Status <$>
    (with_generation (meta_Generation (gw_Meta gw)) <$> cs) !! key =
    Conditions.Status <$> (cs !! key)) as Hst.
  { intros key. rw lookup_fmap. by destruct (cs !! key). }
  rw !Hst. destruct Hm as (Hm1 & Hm2 & Hm3 & Hm4 & Hm5).
  split_and!; try done. intros key x Hx. apply lookup_fmap_Some in Hx as (y & <- & Hy).
  by split; [exact (Hwf _ _ Hy)|].
Qed.
End lemmas.

(** ** Properties *)

(** C17: the verdict on a listener.  It is programmed exactly when its protocol
    is supported, no other listener shares its port, the route kinds it allows
    all fit its protocol and all its certificates exist (the last two for the
    protocols that look at them, and none but the protocol when the gateway
    itself is invalid).  Its conditions say which part failed: Accepted,
    ResolvedRefs, Conflicted and Programmed are each True, False, Unknown or
    absent accordingly, and all carry the generation of the gateway. *)
Theorem listener_verdict (RO : RangeOrder) (GS : GoSort) (FE : FieldErrors)
    gwValid gw secrets multi l :
  Forall (λ k, rgk_Kind k ≠ "") (allowed_kinds (lst_K8sResource l)) →
  let k8s := lst_K8sResource l in
  let l' := BuildConditions gw (check_listener gwValid gw secrets multi l) in
  let status key := Conditions.Status <$> lst_Conditions l' !! key in
  let accepted := accepts gwValid multi k8s in
  let resolved := refs_resolve gwValid gw secrets k8s in
  lst_Valid l' = accepted && resolved ∧
  status Accepted = Some (if accepted then ConditionTrue else ConditionFalse) ∧
  status ResolvedRefs = Some (if resolved then ConditionTrue else ConditionFalse) ∧
  status Conflicted =
    (if negb gwValid || conflict_free multi k8s then None else Some ConditionTrue) ∧
  status Programmed =
    Some (if accepted && resolved then ConditionUnknown else ConditionFalse) ∧
  map_Forall (λ k c, Type_ c = k ∧ ObservedGeneration c = meta_Generation (gw_Meta gw))
    (lst_Conditions l').
Proof.
  intros Hne k8s l' status.
  destruct (check_listener_spec gwValid gw secrets multi l Hne)
    as (k & p & s & c & m1 & m2 & m3 & m4 & Heq & Hk & Hp & Hs & Hc).
  pose proof (BuildConditions_of_checks gw _ _ _ _ _ _ _ _ _ _ _ _ l Hk Hp Hs Hc) as Hb.
  unfold status, l'. rw Heq. fold k8s in Hb |- *. unfold accepts, refs_resolve.
  simpl in Hb. destruct Hb as (-> & -> & -> & -> & -> & Hgen).
  split_and!; [| | | | |exact Hgen];
    destruct gwValid, (is_http_s k8s), (is_https k8s), (protocol_ok k8s), (kinds_ok k8s),
      (certificates_ok gw secrets k8s), (conflict_free multi k8s); done.
Qed.

Definition example_listener (port : Z) (protocol : string) : K8sListener :=
  {| l_Name := "web"; l_Hostname := None; l_Port := port; l_Protocol := protocol;
     l_TLS := None; l_AllowedRoutes := Some {| ar_Kinds := [RGK None "HTTPRoute"] |} |}.

Definition new_listener (owner : NamespacedName) (k8s : K8sListener)
    (kinds : list RouteGroupKind) : Listener :=
  mkListener k8s ∅ ∅ owner zero_CheckResult zero_CheckResult zero_CheckResult zero_CheckResult
    kinds false.

Definition example_gateway (listeners : list K8sListener) : K8sGateway :=
  {| gw_Meta := simple_meta "ns" "gw" 7; gw_GatewayClassName := "haproxy";
     gw_Listeners := listeners; gw_Infrastructure := None; gw_Status_Conditions := [];
     gw_Status_Listeners := [] |}.

Lemma listener_verdict_witness :
  let gw := example_gateway [example_listener 80 "HTTP"] in
  let l := new_listener (NN "ns" "gw") (example_listener 80 "HTTP") [] in
  lst_Valid (@BuildConditions key_order gw
    (@check_listener key_order stable_sort example_errors true gw ∅ ∅ l)) = true.
Proof.
  intros gw l.
  destruct (listener_verdict key_order stable_sort example_errors true gw ∅ ∅ l) as [-> _].
  - by repeat constructor.
  - vm_refl.
Defined.

(** The route kinds a listener offers are those its gateway supports for
    its protocol when it names none, and otherwise the kinds it names that fit
    the protocol, all of them when the check of its kinds passes; the sort
    loses and invents none. *)
Theorem supportedKinds_spec (GS : GoSort) l :
  let forProtocol := default [] (gateSupportedRouteKindsByProtocol !! l_Protocol l) in
  supportedKinds l gateSupportedRouteKindsByProtocol ≡ₚ
    (match allowed_kinds l with
     | [] => forProtocol
     | kinds => filter (λ k, isSupportedProtocolRouteKind k forProtocol = true) kinds
     end) ∧
  (allowed_kinds l ≠ [] → kinds_ok l = true →
   supportedKinds l gateSupportedRouteKindsByProtocol ≡ₚ allowed_kinds l).
Proof.
  intros forProtocol. unfold supportedKinds, kinds_ok. fold forProtocol.
  assert (∀ kinds acc, foldl (λ acc k,
    if isSupportedProtocolRouteKind k forProtocol then acc ++ [k] else acc) acc kinds =
    acc ++ filter (λ k, isSupportedProtocolRouteKind k forProtocol = true) kinds) as Hf.
  { induction kinds as [|k kinds IH]; intros acc; simpl; [by rw app_nil_r|].
    rw IH filter_cons. destruct (isSupportedProtocolRouteKind k forProtocol); simpl; [|done].
    by rw -app_assoc. }
  destruct (allowed_kinds l) as [|k kinds]; rw SortFunc_perm; [done|].
  rw Hf. split; [done|]. intros _ Hall. cbn [app].
  rw (forallb_filter _ (k :: kinds)) //.
Qed.

(** The key of a listener leads back to its gateway and its name when
    neither name holds the separator (an underscore, which Kubernetes names
    cannot hold), so no two listeners of the cluster share a key. *)
Theorem ListenerKey_roundtrip gw listener gw' listener' :
  has_byte underscore (meta_Name (gw_Meta gw)) = false →
  has_byte underscore (l_Name listener) = false →
  has_byte underscore (meta_Name (gw_Meta gw')) = false →
  has_byte underscore (l_Name listener') = false →
  ConvertListenerKeyToGatewayKeyAndListenerName (ListenerKey gw listener) =
    Ok (meta_key (gw_Meta gw), l_Name listener) ∧
  ConvertListenerKeyToGatewayKey (ListenerKey gw listener) = meta_key (gw_Meta gw) ∧
  (ListenerKey gw listener = ListenerKey gw' listener' →
   meta_key (gw_Meta gw) = meta_key (gw_Meta gw') ∧ l_Name listener = l_Name listener').
Proof.
  intros Hg Hl Hg' Hl'.
  assert (∀ g l, has_byte underscore (meta_Name (gw_Meta g)) = false →
    has_byte underscore (l_Name l) = false →
    ConvertListenerKeyToGatewayKeyAndListenerName (ListenerKey g l) =
    Ok (meta_key (gw_Meta g), l_Name l)) as Hconv.
  { intros g l Hg0 Hl0. unfold ConvertListenerKeyToGatewayKeyAndListenerName, ListenerKey,
      ListenerKeyFromListenerName. simpl.
    change (meta_Name (gw_Meta g) +:+ "_" +:+ l_Name l) with
      (Join [meta_Name (gw_Meta g); l_Name l] "_").
    rw (Split_Join underscore) //. by repeat constructor. }
  split_and!.
  - by apply Hconv.
  - unfold ConvertListenerKeyToGatewayKey. by rw Hconv.
  - intros Heq. pose proof (Hconv gw listener Hg Hl) as H1. rw Heq Hconv // in H1.
    split; congruence.
Qed.

Lemma ListenerKey_roundtrip_witness :
  let gw := example_gateway [] in let l := example_listener 80 "HTTP" in
  ConvertListenerKeyToGatewayKey (ListenerKey gw l) = NN "ns" "gw".
Proof. intros gw l. by apply (ListenerKey_roundtrip gw l gw l). Defined.
