(* ===== verification/Gateway.v ===== *)
(** * Gateway: k8s/gate/tree/gateway.go and tree/gateway_builder.go

    The gateways of the tree and the builder that recomputes the touched ones:
    which are managed (their class is ours and valid), which ports are claimed
    by several listeners across all gateways, and the listeners and conditions
    of each gateway.

    Listeners are shared by pointer with the routes attached to them, so they
    live in a store ([heap]) and a gateway holds their locations; the deep
    copy kept as the old version of a gateway holds the listeners themselves.
    A gateway is reachable from one of the two maps only, so it is modelled by
    value and written back. *)

From S2P Require Import Prelude GoStrings Objects Utils Conditions Store TreeCore.
From S2P Require Import References InstalledVersions GatewayClass Listener.

(** ** gateway.go *)

(** The fields of [Gateway]; [L] is a location, or a listener in a copy. *)
Record GatewayData (L : Type) := mkGatewayData {
  gt_K8sResource : option K8sGateway;
  gt_HugGate : option HugGate;
  gt_Conditions : Conditions;
  gt_Listeners : gmap string L;
  CheckParamsRef : CheckResult;
  CheckValidGatewayClass : CheckResult;
  gt_CheckConflict : CheckResult;
  gt_Valid : bool
}.
Arguments mkGatewayData {L}.
Arguments gt_K8sResource {L}.
Arguments gt_HugGate {L}.
Arguments gt_Conditions {L}.
Arguments gt_Listeners {L}.
Arguments CheckParamsRef {L}.
Arguments CheckValidGatewayClass {L}.
Arguments gt_CheckConflict {L}.
Arguments gt_Valid {L}.

Record Gateway := mkGateway {
  gt_data : GatewayData nat;
  gt_TreeStatus : TreeUpdate (GatewayData Listener)
}.

Abbreviation Listeners := (gmap nat Listener).
Abbreviation PortListeners := (gmap Z (list gatewaylistener)).

(** [DeepCopy]: the listeners are copied out of the store. *)
Definition Gateway_DeepCopy (heap : Listeners) (g : Gateway) : GatewayData Listener :=
  let d := gt_data g in
  mkGatewayData (gt_K8sResource d) (gt_HugGate d) (gt_Conditions d)
    (omap (λ loc, heap !! loc) (gt_Listeners d)) (CheckParamsRef d) (CheckValidGatewayClass d)
    (gt_CheckConflict d) (gt_Valid d).

Definition Gateway_TreeObject (heap : Listeners) : TreeObject Gateway (GatewayData Listener) := {|
  GetTreeStatus := gt_TreeStatus;
  SetTreeStatus ts g := mkGateway (gt_data g) ts;
  DeepCopy := Gateway_DeepCopy heap
|}.

Definition NewGateway (k8sObject : option K8sGateway) : Gateway :=
  mkGateway (mkGatewayData k8sObject None NewGatewayAcceptedOK ∅ zero_CheckResult
    zero_CheckResult zero_CheckResult false) (mkTreeUpdate None StatusUpserted).

Definition GetK8sResource (g : Gateway) : option K8sGateway :=
  match gt_K8sResource (gt_data g) with
  | Some o => Some o
  | None => OldTreeResource (gt_TreeStatus g) ≫= gt_K8sResource
  end.

(** [reset], given the resource already stored. *)
Definition Gateway_reset (k8s : option K8sGateway) : GatewayData nat :=
  mkGatewayData k8s None ∅ ∅ zero_CheckResult zero_CheckResult zero_CheckResult false.

Definition Gateway_SetAsUpserted (heap : Listeners) (newK8sResource : option K8sGateway)
    (g : Gateway) : Gateway :=
  let g := @setResourceStatus _ _ (Gateway_TreeObject heap) StatusUpserted g in
  mkGateway (Gateway_reset newK8sResource) (gt_TreeStatus g).

Definition Gateway_SetAsDeleted (heap : Listeners) (g : Gateway) : Gateway :=
  let g := @setResourceStatus _ _ (Gateway_TreeObject heap) StatusDeleted g in
  mkGateway (Gateway_reset None) (gt_TreeStatus g).

Definition isManaged {L} (d : GatewayData L) : bool := check_Valid (CheckValidGatewayClass d).

Abbreviation GWs := (gmap NamespacedName Gateway).

Definition Gateway_SetAsManaged (g : Gateway) (trees : GWs * GWs) : GWs * GWs :=
  match gt_K8sResource (gt_data g) with
  | None => trees
  | Some o =>
      let key := meta_key (gw_Meta o) in
      (<[key := g]> trees.1, delete key trees.2)
  end.

Definition Gateway_SetAsUnmanaged (g : Gateway) (trees : GWs * GWs) : GWs * GWs :=
  match gt_K8sResource (gt_data g) with
  | None => trees
  | Some o =>
      let key := meta_key (gw_Meta o) in
      (delete key trees.1, <[key := g]> trees.2)
  end.

Definition zero_HugGate : HugGate := {| hg_Meta := simple_meta "" "" 0; MWorkerMaxReload := 0 |}.

(** What the checks of a gateway read of the controller store. *)
Record GatewayEnv := {
  env_HugGates : gmap NamespacedName HugGate;
  env_GatewayClasses : gmap NamespacedName GatewayClass;
  env_Secrets : gmap NamespacedName Secret
}.

Section gateway.
Context {RO : RangeOrder} {GS : GoSort} {FE : FieldErrors}.
(** [mergo.MergeWithOverwrite(dst, src)] on [HugGate]s. *)
Context (MergeWithOverwrite : HugGate → HugGate → HugGate).
Context (env : GatewayEnv).

(** The class a gateway names, when the tree holds it as valid. *)
Definition valid_class (k8s : K8sGateway) : option GatewayClass :=
  match env_GatewayClasses env !! NN "" (gw_GatewayClassName k8s) with
  | Some c => if gc_Valid (gc_data c) then Some c else None
  | None => None
  end.

Definition checkParametersRef (k8s : K8sGateway) (d : GatewayData nat) : GatewayData nat :=
  let set check hugGate :=
    mkGatewayData (gt_K8sResource d) hugGate (gt_Conditions d) (gt_Listeners d) check
      (CheckValidGatewayClass d) (gt_CheckConflict d) (gt_Valid d) in
  match gw_Infrastructure k8s with
  | Some (Some gwParamRef) =>
      let paramRef := ParamsRef (lpr_Group gwParamRef) (lpr_Kind gwParamRef)
        (lpr_Name gwParamRef) (Some (meta_Namespace (gw_Meta k8s))) in
      let '(check, gwHugGate) :=
        CheckGatewayClass {| ParamRef := Some paramRef; StoreHugGates := env_HugGates env |} in
      if check_Valid check then
        match valid_class k8s with
        | Some treeGwc =>
            match gc_HugGate (gc_data treeGwc) with
            | Some gwcHugGate =>
                let merged := MergeWithOverwrite zero_HugGate gwcHugGate in
                let merged :=
                  match gwHugGate with Some h => MergeWithOverwrite merged h | None => merged end in
                set check (Some merged)
            | None => set check (gt_HugGate d)
            end
        | None => set check gwHugGate
        end
      else set check (gt_HugGate d)
  | _ => set (mkCheckResult NewGatewayAcceptedOK true) (gt_HugGate d)
  end.

Definition checkGatewayClassIsValid (k8s : K8sGateway) (d : GatewayData nat) : GatewayData nat :=
  let check :=
    match valid_class k8s with
    | Some _ => mkCheckResult NewGatewayAcceptedOK true
    | None => mkCheckResult (NewGatewayAcceptedInvalidConditions (gw_GatewayClassName k8s)) false
    end in
  mkGatewayData (gt_K8sResource d) (gt_HugGate d) (gt_Conditions d) (gt_Listeners d)
    (CheckParamsRef d) check (gt_CheckConflict d) (gt_Valid d).

Definition set_gt_Valid (v : bool) (d : GatewayData nat) : GatewayData nat :=
  mkGatewayData (gt_K8sResource d) (gt_HugGate d) (gt_Conditions d) (gt_Listeners d)
    (CheckParamsRef d) (CheckValidGatewayClass d) (gt_CheckConflict d) v.

(** Some listener of the gateway carries the condition Conflicted. *)
Definition someListenersAreConflicted (heap : Listeners) (d : GatewayData nat) : bool :=
  existsb (λ kv,
    match heap !! kv.2 with
    | Some l => match GetCondition (lst_Conditions l) Conflicted with Some _ => true | None => false end
    | None => false
    end) (range (gt_Listeners d)).

Definition checkListenerConflicts (heap : Listeners) (portWithoutConflict : gset Z)
    (k8s : K8sGateway) (d : GatewayData nat) : GatewayData nat :=
  let found1PortWithoutConflict :=
    existsb (λ l, bool_decide (l_Port l ∈ portWithoutConflict)) (gw_Listeners k8s) in
  let check :=
    if someListenersAreConflicted heap d then
      if negb found1PortWithoutConflict
      then mkCheckResult NewGatewayAcceptedListenerNotValidAllInvalid false
      else mkCheckResult NewGatewayAcceptedListenerNotValidAtLeast1Valid true
    else mkCheckResult (check_Conditions (gt_CheckConflict d)) true in
  mkGatewayData (gt_K8sResource d) (gt_HugGate d) (gt_Conditions d) (gt_Listeners d)
    (CheckParamsRef d) (CheckValidGatewayClass d) check (gt_Valid d && check_Valid check).

Definition Gateway_BuildConditions (k8s : K8sGateway) (d : GatewayData nat) : GatewayData nat :=
  let set c :=
    mkGatewayData (gt_K8sResource d) (gt_HugGate d)
      (SetGeneration c (meta_Generation (gw_Meta k8s))) (gt_Listeners d)
      (CheckParamsRef d) (CheckValidGatewayClass d) (gt_CheckConflict d) (gt_Valid d) in
  if negb (isManaged d) then d
  else
    let c : Conditions := ∅ in
    if negb (check_Valid (CheckValidGatewayClass d)) then
      set (MergeOverrideConditions c (check_Conditions (CheckValidGatewayClass d)))
    else if negb (check_Valid (CheckParamsRef d)) then
      let c := MergeOverrideConditions c (check_Conditions (CheckParamsRef d)) in
      let messageInvalidParams := GetMessage c Accepted in
      set (MergeOverrideConditions c (NewGatewayProgrammedInvalidParameters messageInvalidParams))
    else
      match GetCondition (check_Conditions (gt_CheckConflict d)) Accepted with
      | Some _ =>
          let c := MergeOverrideConditions c (check_Conditions (gt_CheckConflict d)) in
          if negb (check_Valid (gt_CheckConflict d)) then set c
          else set (MergeOverrideConditions c NewGatewayProgrammedOK)
      | None =>
          set (MergeOverrideConditions (MergeOverrideConditions c NewGatewayAcceptedOK)
                 NewGatewayProgrammedOK)
      end.

(** ** gateway_builder.go *)

(** [CheckGatewayClassExists] of controller_store.go. *)
Definition CheckGatewayClassExists (gwcName : string) : bool :=
  is_Some_b (env_GatewayClasses env !! NN "" gwcName).

(** The pointer found in one of the maps is mutated there. *)
Definition gateway_write_back (key : NamespacedName) (g : Gateway) (trees : GWs * GWs) :
    GWs * GWs :=
  if trees.1 !! key is Some _ then (<[key := g]> trees.1, trees.2)
  else if trees.2 !! key is Some _ then (trees.1, <[key := g]> trees.2)
  else trees.

(** [key] is where the pointer was found, if it was. *)
Definition processManagementChecks (key : NamespacedName) (g : Gateway) (trees : GWs * GWs) :
    GWs * GWs :=
  match gt_K8sResource (gt_data g) with
  | None => gateway_write_back key g trees
  | Some k8s =>
      if negb (CheckGatewayClassExists (gw_GatewayClassName k8s))
      then gateway_write_back key g trees
      else
        let d := checkGatewayClassIsValid k8s (checkParametersRef k8s (gt_data g)) in
        let d := set_gt_Valid
          (check_Valid (CheckParamsRef d) && check_Valid (CheckValidGatewayClass d)) d in
        let g := mkGateway d (gt_TreeStatus g) in
        let trees := gateway_write_back key g trees in
        if isManaged d then Gateway_SetAsManaged g trees else Gateway_SetAsUnmanaged g trees
  end.

Definition computeTreeGatewayUpdate (heap : Listeners) (gwKey : NamespacedName)
    (gwUpdate : Update K8sGateway) (trees : GWs * GWs) : GWs * GWs :=
  let treeGw := match trees.1 !! gwKey with Some g => Some g | None => trees.2 !! gwKey end in
  match UStatus gwUpdate with
  | StatusUpserted =>
      let g :=
        match treeGw with
        | Some g => Gateway_SetAsUpserted heap (NewObject gwUpdate) g
        | None => NewGateway (NewObject gwUpdate)
        end in
      processManagementChecks gwKey g trees
  | StatusDeleted =>
      match treeGw with
      | Some g => gateway_write_back gwKey (Gateway_SetAsDeleted heap g) trees
      | None => trees
      end
  | StatusUnchanged => trees
  end.

(** The listeners by port over all the gateways of the tree. *)
Definition add_gateway_listeners (g : Gateway) (byPort : gmap Z (list gatewaylistener)) :
    gmap Z (list gatewaylistener) :=
  match gt_K8sResource (gt_data g) with
  | None => byPort
  | Some k8s =>
      foldl (λ byPort listener,
        let byPort := match byPort !! l_Port listener with
                      | None => <[l_Port listener := []]> byPort | Some _ => byPort end in
        let gl := mkGl (ListenerKey k8s listener) (meta_key (gw_Meta k8s)) in
        <[l_Port listener := default [] (byPort !! l_Port listener) ++ [gl]]> byPort)
        byPort (gw_Listeners k8s)
  end.

Definition listenersByPort (gateways : GWs) : gmap Z (list gatewaylistener) :=
  range_fold (λ _ g byPort, add_gateway_listeners g byPort) gateways ∅.

(** The ports with several listeners and the ports with one. *)
Definition split_ports (byPort : PortListeners) : PortListeners * gset Z :=
  range_fold (λ port gls acc,
    if (1 <? length gls)%nat then (<[port := gls]> acc.1, acc.2)
    else (acc.1, {[port]} ∪ acc.2)) byPort (∅, ∅).

Definition gatewaysWithPortConflicts (multi : PortListeners) : gset NamespacedName :=
  range_fold (λ _ gls gwKeys,
    foldl (λ gwKeys gl, {[gl_gatewayKey gl]} ∪ gwKeys) gwKeys gls) multi ∅.

(** The gateways in conflict now or before this batch are recomputed. *)
Definition upsert_conflicted (heap : Listeners) (gwKeys : gset NamespacedName)
    (trees : GWs * GWs) : GWs * GWs :=
  foldl (λ trees gwKey,
    match trees.1 !! gwKey with
    | None => trees
    | Some treeGw =>
        match Status (gt_TreeStatus treeGw) with
        | StatusUnchanged =>
            processManagementChecks gwKey
              (Gateway_SetAsUpserted heap (gt_K8sResource (gt_data treeGw)) treeGw) trees
        | _ => trees
        end
    end) trees (range_set gwKeys).

(** [builder.checkListenerConflicts]: the ports with several listeners, the
    ports with one, and the trees. *)
Definition builder_checkListenerConflicts (heap : Listeners) (previousMulti : PortListeners)
    (trees : GWs * GWs) : PortListeners * gset Z * (GWs * GWs) :=
  let oldGwWithPortConflicts := gatewaysWithPortConflicts previousMulti in
  let '(multi, single) := split_ports (listenersByPort trees.1) in
  let newGwWithPortConflict := gatewaysWithPortConflicts multi in
  (multi, single, upsert_conflicted heap (newGwWithPortConflict ∪ oldGwWithPortConflicts) trees).

Definition new_Listener (owner : NamespacedName) (listener : K8sListener) : Listener :=
  mkListener listener ∅ ∅ owner zero_CheckResult zero_CheckResult zero_CheckResult
    zero_CheckResult (supportedKinds listener gateSupportedRouteKindsByProtocol) false.

(** Allocates the listeners of a gateway; a later one of the same name wins. *)
Definition alloc_listeners (k8s : K8sGateway) (heap : Listeners) : gmap string nat * Listeners :=
  foldl (λ acc listener,
    let loc := fresh (dom acc.2) in
    (<[l_Name listener := loc]> acc.1,
     <[loc := new_Listener (meta_key (gw_Meta k8s)) listener]> acc.2))
    (∅, heap) (gw_Listeners k8s).

Definition buildListeners (multi : PortListeners) (k8s : K8sGateway) (d : GatewayData nat)
    (heap : Listeners) : GatewayData nat * Listeners :=
  let '(listeners, heap) := alloc_listeners k8s heap in
  let heap := range_fold (λ _ loc heap,
    alter (check_listener (gt_Valid d) k8s (env_Secrets env) multi) loc heap) listeners heap in
  (mkGatewayData (gt_K8sResource d) (gt_HugGate d) (gt_Conditions d) listeners
     (CheckParamsRef d) (CheckValidGatewayClass d) (gt_CheckConflict d) (gt_Valid d), heap).

(** The body of the last loop of [computeGateTreeUpdates]. *)
Definition process_gateway (multi : PortListeners) (single : gset Z) (g : Gateway)
    (heap : Listeners) : Gateway * Listeners :=
  match Status (gt_TreeStatus g), gt_K8sResource (gt_data g) with
  | StatusUpserted, Some k8s =>
      if isManaged (gt_data g) then
        let '(d, heap) := buildListeners multi k8s (gt_data g) heap in
        let heap := range_fold (λ _ loc heap, alter (BuildConditions k8s) loc heap)
          (gt_Listeners d) heap in
        let d := checkListenerConflicts heap single k8s d in
        let d := Gateway_BuildConditions k8s d in
        (mkGateway d (gt_TreeStatus g), heap)
      else (g, heap)
  | _, _ => (g, heap)
  end.

(** The state of the builder and the gateways of the tree. *)
Record GatewayTree := mkGatewayTree {
  trees : GWs * GWs;
  heap : Listeners;
  portsWithOneListener : gset Z;
  portsWithMultipleListeners : PortListeners
}.

Definition Gateway_computeGateTreeUpdates (previousMulti : PortListeners)
    (gwUpdates : gmap NamespacedName (Update K8sGateway)) (ts : GWs * GWs) (heap : Listeners) :
    GatewayTree :=
  let ts := range_fold (computeTreeGatewayUpdate heap) gwUpdates ts in
  let '(multi, single, ts) := builder_checkListenerConflicts heap previousMulti ts in
  let '(managed, heap) := range_fold (λ key g acc,
    let '(g, heap) := process_gateway multi single g acc.2 in (<[key := g]> acc.1, heap))
    ts.1 (ts.1, heap) in
  mkGatewayTree (managed, ts.2) heap single multi.

(** [ComputeTreeUpdates], with the reset of the port tables. *)
Definition Gateway_ComputeTreeUpdates (gwUpdates : gmap NamespacedName (Update K8sGateway))
    (gt : GatewayTree) : GatewayTree :=
  Gateway_computeGateTreeUpdates (portsWithMultipleListeners gt) gwUpdates (trees gt) (heap gt).
End gateway.

(** ** The port tables *)
Section ports.
Context {RO : RangeOrder}.

(** The listeners one gateway has on a port, in the order of its spec. *)
Definition gateway_listeners_on (p : Z) (g : Gateway) : list gatewaylistener :=
  match gt_K8sResource (gt_data g) with
  | None => []
  | Some k8s =>
      (λ l, mkGl (ListenerKey k8s l) (meta_key (gw_Meta k8s))) <$>
        filter (λ l, l_Port l = p) (gw_Listeners k8s)
  end.

Definition listeners_on (p : Z) (gateways : GWs) : list gatewaylistener :=
  flat_map (λ kv, gateway_listeners_on p kv.2) (range gateways).

Definition nonempty {A} (l : list A) : option (list A) :=
  match l with [] => None | _ => Some l end.

Lemma default_nonempty {A} (l : list A) : default [] (nonempty l) = l.
Proof. by destruct l. Qed.

Lemma add_gateway_listeners_lookup g byPort p :
  add_gateway_listeners g byPort !! p =
  match gateway_listeners_on p g with
  | [] => byPort !! p
  | ls => Some (default [] (byPort !! p) ++ ls)
  end.
Proof.
  unfold add_gateway_listeners, gateway_listeners_on.
  destruct (gt_K8sResource (gt_data g)) as [k8s|]; [|done].
  revert byPort. induction (gw_Listeners k8s) as [|l ls IH]; intros byPort; simpl; [done|].
  rw IH filter_cons. clear IH. case_decide as Hp; simpl.
  - subst. rw lookup_insert_eq.
    assert (default [] ((match byPort !! l_Port l with
      | Some _ => byPort | None => <[l_Port l:=[]]> byPort end) !! l_Port l) =
      default [] (byPort !! l_Port l)) as ->.
    { destruct (byPort !! l_Port l) eqn:Hb; rw ?Hb ?lookup_insert_eq //. }
    destruct (filter _ ls) as [|l' ls']; simpl; [done|]. by rw -app_assoc.
  - rw lookup_insert_ne //.
    assert ((match byPort !! l_Port l with
      | Some _ => byPort | None => <[l_Port l:=[]]> byPort end) !! p = byPort !! p) as ->.
    { destruct (byPort !! l_Port l); rw ?lookup_insert_ne //. }
    done.
Qed.

Lemma listenersByPort_lookup gateways p :
  listenersByPort gateways !! p = nonempty (listeners_on p gateways).
Proof.
  unfold listenersByPort, range_fold, listeners_on. revert p.
  apply (foldl_prefix_ind (λ pre s, ∀ p, s !! p =
    nonempty (flat_map (λ kv, gateway_listeners_on p kv.2) pre))).
  - intros p. by rw lookup_empty.
  - intros pre kv s _ IH p. rw add_gateway_listeners_lookup IH flat_map_app /= app_nil_r.
    destruct (gateway_listeners_on p kv.2); simpl; rw ?app_nil_r // default_nonempty.
    by destruct (flat_map _ pre).
Qed.

Lemma elem_of_listeners_on gateways p gl :
  gl ∈ listeners_on p gateways ↔
  ∃ key g k8s l, gateways !! key = Some g ∧ gt_K8sResource (gt_data g) = Some k8s ∧
    l ∈ gw_Listeners k8s ∧ l_Port l = p ∧
    gl = mkGl (ListenerKey k8s l) (meta_key (gw_Meta k8s)).
Proof.
  unfold listeners_on. rw list_elem_of_In in_flat_map. split.
  - intros ([key g] & Hin & Hgl). apply list_elem_of_In, elem_of_range in Hin.
    apply list_elem_of_In in Hgl. simpl in Hgl. unfold gateway_listeners_on in Hgl.
    destruct (gt_K8sResource (gt_data g)) as [k8s|] eqn:Hr; [|by apply elem_of_nil in Hgl].
    apply list_elem_of_fmap in Hgl as (l & -> & [Hp Hl]%list_elem_of_filter).
    by exists key, g, k8s, l.
  - intros (key & g & k8s & l & Hg & Hr & Hl & Hp & ->). exists (key, g).
    split; [by apply list_elem_of_In, elem_of_range|]. apply list_elem_of_In.
    simpl. unfold gateway_listeners_on. rw Hr. apply list_elem_of_fmap.
    exists l. by rw list_elem_of_filter.
Qed.

Lemma split_ports_spec byPort p :
  ((split_ports byPort).1 !! p =
     (gls ← byPort !! p; if (1 <? length gls)%nat then Some gls else None)) ∧
  (p ∈ (split_ports byPort).2 ↔ ∃ gls, byPort !! p = Some gls ∧ length gls ≤ 1).
Proof.
  unfold split_ports.
  apply (range_fold_ind (λ d s,
    (s.1 !! p = gls ← d !! p; if (1 <? length gls)%nat then Some gls else None) ∧
    (p ∈ s.2 ↔ ∃ gls, d !! p = Some gls ∧ length gls ≤ 1))).
  - rw !lookup_empty. set_solver.
  - intros q gls d [multi single] _ Hd _ [IH1 IH2]. simpl in *.
    destruct (Nat.ltb_spec 1 (length gls)) as [Hlt|Hle]; simpl;
      destruct (decide (q = p)) as [<-|Hne].
    + rw !lookup_insert_eq /= (proj2 (Nat.ltb_lt _ _)) // IH2 Hd. naive_solver lia.
    + rw !lookup_insert_ne //.
    + rw lookup_insert_eq IH1 Hd /= (proj2 (Nat.ltb_ge _ _)) //. set_solver.
    + rw lookup_insert_ne // IH1. set_solver.
Qed.

Lemma elem_of_gatewaysWithPortConflicts multi k :
  k ∈ gatewaysWithPortConflicts multi ↔
  ∃ p gls gl, multi !! p = Some gls ∧ gl ∈ gls ∧ k = gl_gatewayKey gl.
Proof.
  unfold gatewaysWithPortConflicts.
  assert (∀ gls (s : gset NamespacedName),
    k ∈ foldl (λ gwKeys gl, {[gl_gatewayKey gl]} ∪ gwKeys) s gls ↔
    k ∈ s ∨ ∃ gl, gl ∈ gls ∧ k = gl_gatewayKey gl) as Hgen.
  { induction gls as [|gl gls IH]; intros s; simpl; [set_solver|]. rw IH. set_solver. }
  apply (range_fold_ind (λ d s, k ∈ s ↔
    ∃ p gls gl, d !! p = Some gls ∧ gl ∈ gls ∧ k = gl_gatewayKey gl)).
  - setoid_rewrite lookup_empty. set_solver.
  - intros p gls d s _ Hd _ IH. rw Hgen IH. split.
    + intros [(p' & gls' & gl & Hp & Hin & ->)|(gl & Hin & ->)].
      * exists p', gls', gl. rw lookup_insert_ne //. congruence.
      * exists p, gls, gl. by rw lookup_insert_eq.
    + intros (p' & gls' & gl & Hp & Hin & ->).
      apply lookup_insert_Some in Hp as [[<- <-]|[_ Hp]]; [by right; exists gl|left].
      by exists p', gls', gl.
Qed.
End ports.

(** ** Moving gateways between the trees *)
Section trees.
Context {RO : RangeOrder} {GS : GoSort} {FE : FieldErrors}.
Context (MergeWithOverwrite : HugGate → HugGate → HugGate) (env : GatewayEnv).

Definition keyed_at (key : NamespacedName) (g : Gateway) : Prop :=
  ∀ o, gt_K8sResource (gt_data g) = Some o → meta_key (gw_Meta o) = key.

Definition keyed_tree (m : GWs) : Prop := map_Forall keyed_at m.

(** [g'] is [g] up to the outcome of its checks. *)
Definition same_resource (g g' : Gateway) : Prop :=
  gt_TreeStatus g' = gt_TreeStatus g ∧
  gt_K8sResource (gt_data g') = gt_K8sResource (gt_data g).

Lemma checks_keep_resource k8s d :
  gt_K8sResource (checkGatewayClassIsValid env k8s (checkParametersRef MergeWithOverwrite env k8s d))
  = gt_K8sResource d.
Proof. unfold checkParametersRef. simpl. repeat case_match; done. Qed.

Lemma write_back_spec key g ts :
  let ts' := gateway_write_back key g ts in
  (∀ k, k ≠ key → ts'.1 !! k = ts.1 !! k) ∧
  (∀ g', ts'.1 !! key = Some g' → g' = g).
Proof.
  unfold gateway_write_back. destruct (ts.1 !! key) eqn:H1; simpl.
  - split; [intros; by rw lookup_insert_ne|]. rw lookup_insert_eq. naive_solver.
  - destruct (ts.2 !! key); simpl; (split; [done|]); rw H1; done.
Qed.

Lemma processManagementChecks_spec key g ts :
  keyed_at key g →
  let ts' := processManagementChecks MergeWithOverwrite env key g ts in
  (∀ k, k ≠ key → ts'.1 !! k = ts.1 !! k) ∧
  (∀ g', ts'.1 !! key = Some g' → same_resource g g').
Proof.
  intros Hkey. unfold processManagementChecks.
  destruct (gt_K8sResource (gt_data g)) as [k8s|] eqn:Hr.
  2:{ destruct (write_back_spec key g ts) as [H1 H2]. split; [done|]. by intros g' ->%H2. }
  destruct (negb _).
  { destruct (write_back_spec key g ts) as [H1 H2]. split; [done|]. by intros g' ->%H2. }
  cbn zeta. set (d := set_gt_Valid _ _). set (g1 := mkGateway d _).
  assert (same_resource g g1) as Hsame by (split; [done|apply checks_keep_resource]).
  assert (gt_K8sResource (gt_data g1) = Some k8s) as Hr1.
  { rw -Hr. apply Hsame. }
  destruct (write_back_spec key g1 ts) as [H1 H2].
  destruct (isManaged d); unfold Gateway_SetAsManaged, Gateway_SetAsUnmanaged; rw Hr1 (Hkey k8s) //=.
  - split; [intros k Hk; rw lookup_insert_ne //; auto|]. rw lookup_insert_eq. by intros g' [= <-].
  - split; [intros k Hk; rw lookup_delete_ne //; auto|]. by rw lookup_delete_eq.
Qed.

Lemma upsert_conflicted_spec heap gwKeys ts :
  keyed_tree ts.1 →
  let ts' := upsert_conflicted MergeWithOverwrite env heap gwKeys ts in
  keyed_tree ts'.1 ∧
  (∀ k, k ∉ gwKeys → ts'.1 !! k = ts.1 !! k) ∧
  (∀ k g, k ∈ gwKeys → ts'.1 !! k = Some g → Status (gt_TreeStatus g) ≠ StatusUnchanged).
Proof.
  intros Hkeyed. simpl.
  enough (let ts' := upsert_conflicted MergeWithOverwrite env heap gwKeys ts in
    keyed_tree ts'.1 ∧
    (∀ k, k ∉ range_set gwKeys → ts'.1 !! k = ts.1 !! k) ∧
    (∀ k g, k ∈ range_set gwKeys → ts'.1 !! k = Some g →
       Status (gt_TreeStatus g) ≠ StatusUnchanged)) as (H1 & H2 & H3).
  { split_and!; [done| |].
    - intros k Hk. apply H2. by rw elem_of_range_set.
    - intros k g Hk. apply H3. by rw elem_of_range_set. }
  unfold upsert_conflicted.
  apply (foldl_prefix_ind (λ pre s, keyed_tree s.1 ∧ (∀ k, k ∉ pre → s.1 !! k = ts.1 !! k) ∧
    ∀ k g, k ∈ pre → s.1 !! k = Some g → Status (gt_TreeStatus g) ≠ StatusUnchanged)).
  - split_and!; [done|done|]. intros k g Hk. by apply elem_of_nil in Hk.
  - intros pre key s _ (IH1 & IH2 & IH3).
    setoid_rewrite elem_of_app. setoid_rewrite list_elem_of_singleton.
    destruct (s.1 !! key) as [g|] eqn:Hg; [destruct (Status (gt_TreeStatus g)) eqn:Hst|].
    1,2,4: split_and!; [done|intros k Hk; apply IH2; naive_solver|];
      intros k g' [Hk| ->] Hk'; [by eapply IH3|congruence].
    set (g1 := Gateway_SetAsUpserted heap (gt_K8sResource (gt_data g)) g).
    destruct (processManagementChecks_spec key g1 s) as [H1 H2]; [exact (IH1 _ _ Hg)|].
    split_and!.
    + intros k g' Hk'. destruct (decide (k = key)) as [->|Hne].
      * destruct (H2 _ Hk') as [_ Hr]. unfold keyed_at. rw Hr. exact (IH1 _ _ Hg).
      * rw H1 // in Hk'. by apply IH1.
    + intros k Hk. rw H1; [naive_solver|]. apply IH2. naive_solver.
    + intros k g' Hin Hk'. destruct (decide (k = key)) as [->|Hne].
      * destruct (H2 _ Hk') as [-> _]. done.
      * rw H1 // in Hk'. destruct Hin as [Hin|?]; [by eapply IH3|done].
Qed.
(** The parameters a gateway refers to, if any, are a [HugGate] of its namespace
    that exists. *)
Definition params_resolve (k8s : K8sGateway) : bool :=
  match gw_Infrastructure k8s with
  | Some (Some ref) =>
      bool_decide (lpr_Kind ref = SupportedParametersRefKind) &&
      bool_decide (lpr_Group ref = SupportedParametersRefGroup) &&
      is_Some_b (env_HugGates env !! NN (meta_Namespace (gw_Meta k8s)) (lpr_Name ref))
  | _ => true
  end.

(** A gateway marked upserted and managed was checked in this build: its class is
    in the tree and valid, and it is itself valid when its parameters resolve. *)
Definition checked (g : Gateway) : Prop :=
  ∀ k8s, Status (gt_TreeStatus g) = StatusUpserted → gt_K8sResource (gt_data g) = Some k8s →
    isManaged (gt_data g) = true →
    is_Some (valid_class env k8s) ∧ gt_Valid (gt_data g) = params_resolve k8s.

Lemma checkParametersRef_resolve k8s d :
  check_Valid (CheckParamsRef (checkParametersRef MergeWithOverwrite env k8s d)) = params_resolve k8s.
Proof.
  unfold checkParametersRef, params_resolve. destruct (gw_Infrastructure k8s) as [[ref|]|]; [|done..].
  unfold CheckGatewayClass. cbn. case_bool_decide; [|done]. case_bool_decide; [|done]. cbn.
  destruct (env_HugGates env !! _); cbn; [|done]. by repeat case_match.
Qed.

Lemma processManagementChecks_checked key g ts :
  keyed_at key g → isManaged (gt_data g) = false →
  ∀ g', (processManagementChecks MergeWithOverwrite env key g ts).1 !! key = Some g' → checked g'.
Proof.
  intros Hkey Hnew g'. unfold processManagementChecks.
  assert (checked g) as Hg by (intros k8s _ _ Hm; congruence).
  destruct (gt_K8sResource (gt_data g)) as [k8s|] eqn:Hr; [|by intros ->%write_back_spec].
  destruct (negb _); [by intros ->%write_back_spec|].
  cbn zeta. set (d := set_gt_Valid _ _). set (g1 := mkGateway d _).
  assert (gt_K8sResource d = Some k8s) as Hr1 by (rw -Hr; apply checks_keep_resource).
  destruct (isManaged d) eqn:Hm; unfold Gateway_SetAsManaged, Gateway_SetAsUnmanaged; cbn [gt_data g1];
    rw Hr1 (Hkey k8s) //=; [|by rw lookup_delete_eq].
  rw lookup_insert_eq. intros [= <-] k8s' _ Hk8s' _. cbn in Hk8s'. rw Hr1 in Hk8s'. injection Hk8s' as <-.
  unfold isManaged, d in Hm. cbn in Hm. destruct (valid_class env k8s) as [c|] eqn:Hc; [|done].
  split; [by eexists|]. cbn. rw Hc. cbn. rw andb_true_r. apply checkParametersRef_resolve.
Qed.

Definition tree_checked (ts : GWs * GWs) : Prop := map_Forall (λ k g, keyed_at k g ∧ checked g) ts.1.

Lemma processManagementChecks_tree_checked key g ts :
  keyed_at key g → isManaged (gt_data g) = false → tree_checked ts →
  tree_checked (processManagementChecks MergeWithOverwrite env key g ts).
Proof.
  intros Hkey Hnew Hts k g' Hg'. destruct (processManagementChecks_spec key g ts Hkey) as [H1 H2].
  destruct (decide (k = key)) as [->|Hne]; [|rw H1 // in Hg'; by apply Hts].
  split; [|by eapply processManagementChecks_checked]. destruct (H2 _ Hg') as [_ Hr]. unfold keyed_at. by rw Hr.
Qed.

Lemma upsert_conflicted_checked heap gwKeys ts :
  tree_checked ts → tree_checked (upsert_conflicted MergeWithOverwrite env heap gwKeys ts).
Proof.
  intros Hts. unfold upsert_conflicted. apply (foldl_prefix_ind (λ _ s, tree_checked s)); [done|].
  intros _ key s _ IH. destruct (s.1 !! key) as [g|] eqn:Hg; [|done].
  destruct (Status (gt_TreeStatus g)); [done..|].
  apply processManagementChecks_tree_checked; [exact (proj1 (IH _ _ Hg))|done|done].
Qed.
End trees.

(** ** The listeners of a processed gateway *)
Section built.
Context {RO : RangeOrder} {GS : GoSort} {FE : FieldErrors}.

(** Every listener of the map is stored, outside the locations [old]. *)
Record alloc_inv (k8s : K8sGateway) (heap0 : Listeners) (pre : list K8sListener)
    (s : gmap string nat * Listeners) : Prop := {
  ai_lookup name loc : s.1 !! name = Some loc →
    heap0 !! loc = None ∧ ∃ l, l ∈ pre ∧ l_Name l = name ∧
    s.2 !! loc = Some (new_Listener (meta_key (gw_Meta k8s)) l);
  ai_dom l : l ∈ pre → is_Some (s.1 !! l_Name l);
  ai_inj n1 n2 loc : s.1 !! n1 = Some loc → s.1 !! n2 = Some loc → n1 = n2;
  ai_old loc : is_Some (heap0 !! loc) → s.2 !! loc = heap0 !! loc
}.

Lemma alloc_listeners_inv k8s heap0 :
  alloc_inv k8s heap0 (gw_Listeners k8s) (alloc_listeners k8s heap0).
Proof.
  unfold alloc_listeners.
  apply (foldl_prefix_ind (λ pre s, alloc_inv k8s heap0 pre s)).
  - split; simpl; [intros ? ?; by rw lookup_empty|intros l Hl; by apply elem_of_nil in Hl
      |intros ? ? ?; by rw lookup_empty|done].
  - intros pre l [m h] _ [H1 H2 H3 H4]. simpl in *. set (loc := fresh (dom h)).
    assert (h !! loc = None) as Hloc by (apply not_elem_of_dom, is_fresh).
    assert (∀ name loc', m !! name = Some loc' → loc' ≠ loc) as Hne.
    { intros name loc' Hm ->. destruct (H1 _ _ Hm) as (_ & l' & _ & _ & Hl). congruence. }
    split; simpl.
    + intros name loc' Hm. apply lookup_insert_Some in Hm as [[<- <-]|[_ Hm]].
      * split.
        { apply eq_None_not_Some. intros Ho. pose proof (H4 _ Ho). rw Hloc in H.
          rw -H in Ho. by destruct Ho. }
        exists l. rw lookup_insert_eq. set_solver.
      * destruct (H1 _ _ Hm) as (Hnew & l' & Hin & Hn & Hl). split; [done|].
        exists l'. rw lookup_insert_ne; [|set_solver]. intros <-. by eapply Hne.
    + intros l' [Hl'|Hl']%elem_of_app.
      * destruct (decide (l_Name l = l_Name l')) as [<-|]; [rw lookup_insert_eq; eauto|].
        rw lookup_insert_ne //. auto.
      * apply list_elem_of_singleton in Hl' as ->. rw lookup_insert_eq. eauto.
    + intros n1 n2 loc' [[<- <-]|[Hn1 Hm1]]%lookup_insert_Some
        [[<- Heq]|[Hn2 Hm2]]%lookup_insert_Some; try done.
      * by destruct (Hne _ _ Hm2).
      * subst. by destruct (Hne _ _ Hm1).
      * by eapply H3.
    + intros loc' Hold. rw lookup_insert_ne; [|by apply H4]. intros <-.
      pose proof (H4 _ Hold). destruct Hold. congruence.
Qed.

(** A loop that updates each location of an injective map once. *)
Lemma alter_loop (f : Listener → Listener) (m : gmap string nat) (h : Listeners) :
  (∀ n1 n2 loc, m !! n1 = Some loc → m !! n2 = Some loc → n1 = n2) →
  let h' := range_fold (λ _ loc h, alter f loc h) m h in
  (∀ name loc, m !! name = Some loc → h' !! loc = f <$> h !! loc) ∧
  (∀ loc, (∀ name, m !! name ≠ Some loc) → h' !! loc = h !! loc).
Proof.
  intros Hinj. simpl.
  cut ((λ d s,
    (∀ name loc, m !! name = Some loc →
       s !! loc = if d !! name is Some _ then f <$> h !! loc else h !! loc) ∧
    (∀ loc, (∀ name, m !! name ≠ Some loc) → s !! loc = h !! loc)) m
    (range_fold (λ _ loc h, alter f loc h) m h)).
  { intros [H1 H2]. split; [|done]. intros name loc Hm. rw (H1 _ _ Hm) Hm //. }
  apply range_fold_ind.
  - split; [|done]. intros name loc _. by rw lookup_empty.
  - intros n loc d s Hn Hd _ [H1 H2]. split.
    + intros name loc' Hm. destruct (decide (loc = loc')) as [<-|Hne].
      * rw lookup_alter_eq (Hinj _ _ _ Hm Hn) lookup_insert_eq (H1 _ _ Hn) Hd //.
      * rw lookup_alter_ne // lookup_insert_ne; [|by apply H1]. intros <-. congruence.
    + intros loc' Hno. rw lookup_alter_ne; [|by apply H2]. intros <-. by eapply Hno.
Qed.

Lemma process_gateway_listeners env multi single g heap0 k8s :
  Status (gt_TreeStatus g) = StatusUpserted → gt_K8sResource (gt_data g) = Some k8s →
  isManaged (gt_data g) = true →
  let '(g', heap') := process_gateway env multi single g heap0 in
  (∀ name, is_Some (gt_Listeners (gt_data g') !! name) ↔
     ∃ l, l ∈ gw_Listeners k8s ∧ l_Name l = name) ∧
  (∀ name loc, gt_Listeners (gt_data g') !! name = Some loc →
     heap0 !! loc = None ∧ ∃ l, l ∈ gw_Listeners k8s ∧ l_Name l = name ∧
     heap' !! loc = Some (BuildConditions k8s
       (check_listener (gt_Valid (gt_data g)) k8s (env_Secrets env) multi
          (new_Listener (meta_key (gw_Meta k8s)) l)))) ∧
  (∀ loc, is_Some (heap0 !! loc) → heap' !! loc = heap0 !! loc).
Proof.
  intros Hst Hr Hm. unfold process_gateway. rw Hst Hr Hm.
  pose proof (alloc_listeners_inv k8s heap0) as Hai.
  unfold buildListeners. destruct (alloc_listeners k8s heap0) as [ls h1] eqn:Hal.
  destruct Hai as [H1 H2 H3 H4]. simpl in *.
  set (h2 := range_fold (λ _ loc heap, alter (check_listener _ _ _ _) loc heap) ls h1).
  set (h3 := range_fold (λ _ loc heap, alter (BuildConditions k8s) loc heap) ls h2).
  destruct (alter_loop (check_listener (gt_Valid (gt_data g)) k8s (env_Secrets env) multi)
    ls h1 H3) as [Ha1 Ha2].
  destruct (alter_loop (BuildConditions k8s) ls h2 H3) as [Hb1 Hb2].
  assert (∀ d, gt_Listeners (Gateway_BuildConditions k8s d) = gt_Listeners d) as Hls.
  { intros d. unfold Gateway_BuildConditions. by repeat case_match. }
  rw Hls /=. split_and!.
  - intros name. split.
    + intros [loc Hloc]. destruct (H1 _ _ Hloc) as (_ & l & Hin & Hn & _). by exists l.
    + intros (l & Hin & <-). by apply H2.
  - intros name loc Hloc. destruct (H1 _ _ Hloc) as (Hnew & l & Hin & Hn & Hl).
    split; [done|]. exists l. split_and!; [done..|].
    unfold h3. rw (Hb1 _ _ Hloc). unfold h2. rw (Ha1 _ _ Hloc) Hl //.
  - intros loc Hold.
    assert (∀ name, ls !! name ≠ Some loc) as Hno.
    { intros name Hloc. destruct (H1 _ _ Hloc) as (Hnew & _). rw Hnew in Hold. by destruct Hold. }
    unfold h3. rw Hb2 //. unfold h2. rw Ha2 //. by apply H4.
Qed.
End built.

(** ** The whole build *)
Section build.
Context {RO : RangeOrder} {GS : GoSort} {FE : FieldErrors}.
Context (MergeWithOverwrite : HugGate → HugGate → HugGate) (env : GatewayEnv).

Definition gateway_update_keyed (k : NamespacedName) (u : Update K8sGateway) : Prop :=
  ∀ o, NewObject u = Some o → meta_key (gw_Meta o) = k.

Lemma computeTreeGatewayUpdate_keyed heap key u ts :
  gateway_update_keyed key u → keyed_tree ts.1 →
  keyed_tree (computeTreeGatewayUpdate MergeWithOverwrite env heap key u ts).1.
Proof.
  intros Hu Hts. unfold computeTreeGatewayUpdate.
  assert (∀ g (ts' : GWs * GWs), (∀ k, k ≠ key → ts'.1 !! k = ts.1 !! k) →
    (∀ g', ts'.1 !! key = Some g' → gt_K8sResource (gt_data g') = gt_K8sResource (gt_data g)) →
    keyed_at key g → keyed_tree ts'.1) as Hgen.
  { intros g ts' H1 H2 Hg k g' Hk. destruct (decide (k = key)) as [->|Hne].
    - unfold keyed_at. rw (H2 _ Hk). done.
    - rw H1 // in Hk. by apply Hts. }
  destruct (UStatus u); [| |done].
  - set (g := match _ with Some g => Gateway_SetAsUpserted _ _ g | None => _ end).
    assert (keyed_at key g) as Hg.
    { unfold g. destruct (match ts.1 !! key with Some g => Some g | None => _ end); exact Hu. }
    destruct (processManagementChecks_spec MergeWithOverwrite env key g ts Hg) as [H1 H2].
    eapply Hgen; [exact H1|intros g' Hg'; by apply H2|done].
  - destruct (match ts.1 !! key with Some g => Some g | None => _ end) as [g|]; [|done].
    destruct (write_back_spec key (Gateway_SetAsDeleted heap g) ts) as [H1 H2].
    eapply Hgen; [exact H1|intros g' Hg'; by rw (H2 _ Hg')|done].
Qed.

Lemma updates_loop_keyed heap (ups : gmap NamespacedName (Update K8sGateway)) ts :
  map_Forall gateway_update_keyed ups → keyed_tree ts.1 →
  keyed_tree (range_fold (computeTreeGatewayUpdate MergeWithOverwrite env heap) ups ts).1.
Proof.
  intros Hups Hts. apply (range_fold_ind (λ _ s, keyed_tree s.1)); [done|].
  intros k u d s Hu _ _ IH. apply computeTreeGatewayUpdate_keyed; [by apply Hups|done].
Qed.

(** The statuses of the tree were cleaned after the last build. *)
Definition no_pending (m : GWs) : Prop := map_Forall (λ _ g, Status (gt_TreeStatus g) = StatusUnchanged) m.

Lemma updates_loop_checked heap (ups : gmap NamespacedName (Update K8sGateway)) ts :
  map_Forall gateway_update_keyed ups → keyed_tree ts.1 → no_pending ts.1 →
  tree_checked env (range_fold (computeTreeGatewayUpdate MergeWithOverwrite env heap) ups ts).
Proof.
  intros Hups Hts Hclean. apply (range_fold_ind (λ _ s, tree_checked env s)).
  - intros k g Hg. split; [by apply Hts|]. intros k8s Hst. by rw (Hclean _ _ Hg) in Hst.
  - intros key u _ ts' Hu _ _ IH. unfold computeTreeGatewayUpdate. destruct (UStatus u); [| |done].
    + apply processManagementChecks_tree_checked; [|by repeat case_match|done].
      specialize (Hups _ _ Hu). by repeat case_match.
    + destruct (match ts'.1 !! key with Some g => Some g | None => _ end) as [g|]; [|done].
      intros k g' Hg'. destruct (write_back_spec key (Gateway_SetAsDeleted heap g) ts') as [H1 H2].
      destruct (decide (k = key)) as [->|Hne]; [|rw H1 // in Hg'; by apply IH]. by rw (H2 _ Hg').
Qed.

(** The listeners of [g'] are the freshly checked listeners of the spec. *)
Definition listeners_checked (multi : PortListeners) (valid : bool) (k8s : K8sGateway)
    (g : Gateway) (h : Listeners) : Prop :=
  (∀ name, is_Some (gt_Listeners (gt_data g) !! name) ↔
     ∃ l, l ∈ gw_Listeners k8s ∧ l_Name l = name) ∧
  (∀ name loc, gt_Listeners (gt_data g) !! name = Some loc →
     ∃ l, l ∈ gw_Listeners k8s ∧ l_Name l = name ∧
     h !! loc = Some (BuildConditions k8s
       (check_listener valid k8s (env_Secrets env) multi
          (new_Listener (meta_key (gw_Meta k8s)) l)))).

(** [g0] went through the last loop and became [g]. *)
Definition processed (multi : PortListeners) (g0 g : Gateway) (h : Listeners) : Prop :=
  gt_TreeStatus g = gt_TreeStatus g0 ∧
  gt_K8sResource (gt_data g) = gt_K8sResource (gt_data g0) ∧
  isManaged (gt_data g) = isManaged (gt_data g0) ∧
  ∀ k8s, Status (gt_TreeStatus g0) = StatusUpserted → gt_K8sResource (gt_data g0) = Some k8s →
    isManaged (gt_data g0) = true → listeners_checked multi (gt_Valid (gt_data g0)) k8s g h.

Lemma process_gateway_processed multi single g0 h0 :
  let '(g, h) := process_gateway env multi single g0 h0 in
  processed multi g0 g h ∧ (∀ loc, is_Some (h0 !! loc) → h !! loc = h0 !! loc).
Proof.
  pose proof (process_gateway_listeners env multi single g0 h0) as Hpl.
  assert (let '(g, h) := process_gateway env multi single g0 h0 in
    gt_TreeStatus g = gt_TreeStatus g0 ∧
    gt_K8sResource (gt_data g) = gt_K8sResource (gt_data g0) ∧
    isManaged (gt_data g) = isManaged (gt_data g0)) as Hkeep.
  { unfold process_gateway. repeat case_match; simplify_eq; try done. simpl.
    unfold buildListeners in *. destruct (alloc_listeners _ _). simplify_eq/=.
    split; [done|]. unfold Gateway_BuildConditions. by repeat case_match. }
  destruct (process_gateway env multi single g0 h0) as [g h] eqn:Hg.
  destruct Hkeep as (H1 & H2 & H3). split.
  - split_and!; [done..|]. intros k8s Hst Hr Hm.
    destruct (Hpl k8s Hst Hr Hm) as (Hd & Hl & _). split; [done|].
    intros name loc Hloc. destruct (Hl _ _ Hloc) as (_ & l & Hl'). by exists l.
  - unfold process_gateway in Hg.
    destruct (Status (gt_TreeStatus g0)) eqn:Hst; [|by simplify_eq..].
    destruct (gt_K8sResource (gt_data g0)) as [k8s|] eqn:Hr; [|by simplify_eq].
    destruct (isManaged (gt_data g0)) eqn:Hm; [|by simplify_eq].
    by destruct (Hpl k8s eq_refl eq_refl eq_refl) as (_ & _ & ?).
Qed.

Lemma processed_frame multi g0 g h h' :
  processed multi g0 g h → (∀ loc, is_Some (h !! loc) → h' !! loc = h !! loc) →
  processed multi g0 g h'.
Proof.
  intros (H1 & H2 & H3 & H4) Hf. split_and!; [done..|]. intros k8s Hst Hr Hm.
  destruct (H4 k8s Hst Hr Hm) as [Hd Hl]. split; [done|]. intros name loc Hloc.
  destruct (Hl _ _ Hloc) as (l & Hin & Hn & Hh). exists l. split_and!; [done..|].
  by rw Hf ?Hh.
Qed.

Lemma process_loop multi single (managed : GWs) h0 :
  let '(managed', h') := range_fold (λ key g acc,
    let '(g, heap) := process_gateway env multi single g acc.2 in (<[key := g]> acc.1, heap))
    managed (managed, h0) in
  ∀ k, match managed !! k, managed' !! k with
       | Some g0, Some g => processed multi g0 g h'
       | None, None => True
       | _, _ => False
       end.
Proof.
  set (P := λ (d : GWs) (s : GWs * Listeners), ∀ k, match managed !! k, s.1 !! k with
    | Some g0, Some g => if d !! k is Some _ then processed multi g0 g s.2 else g = g0
    | None, None => True
    | _, _ => False
    end).
  enough (P managed (range_fold (λ key g acc,
    let '(g, heap) := process_gateway env multi single g acc.2 in (<[key := g]> acc.1, heap))
    managed (managed, h0))) as Hgen.
  { unfold P in Hgen. destruct (range_fold _ _ _) as [managed' h']. simpl in Hgen. intros k.
    specialize (Hgen k). by destruct (managed !! k), (managed' !! k). }
  apply range_fold_ind; unfold P.
  - intros k. simpl. destruct (managed !! k); [by rw lookup_empty|done].
  - intros k g d [m h] Hk Hd _ IH. simpl in *.
    pose proof (process_gateway_processed multi single g h) as Hp.
    destruct (process_gateway env multi single g h) as [g' h']. destruct Hp as [Hp Hf]. simpl.
    intros k'. specialize (IH k'). destruct (decide (k = k')) as [<-|Hne].
    + by rw Hk !lookup_insert_eq.
    + rw !lookup_insert_ne //. destruct (managed !! k'), (m !! k'); try done.
      destruct (d !! k'); [|done]. by eapply processed_frame.
Qed.
End build.

(** ** Properties *)

(** The port tables.  For every port, whatever the order of the maps: it
    is listed with several listeners exactly when the live gateways of the
    tree have at least two listeners on it, all of them listed, whichever
    gateways they belong to, and as having one listener exactly when there is
    one. *)
Theorem port_tables (RO : RangeOrder) gateways p :
  let '(multi, single) := split_ports (listenersByPort gateways) in
  let ls := listeners_on p gateways in
  (multi !! p = if (1 <? length ls)%nat then Some ls else None) ∧
  (p ∈ single ↔ length ls = 1) ∧
  (∀ gl, gl ∈ ls ↔
     ∃ key g k8s l, gateways !! key = Some g ∧ gt_K8sResource (gt_data g) = Some k8s ∧
       l ∈ gw_Listeners k8s ∧ l_Port l = p ∧
       gl = mkGl (ListenerKey k8s l) (meta_key (gw_Meta k8s))).
Proof.
  pose proof (split_ports_spec (listenersByPort gateways) p) as [H1 H2].
  destruct (split_ports _) as [multi single]. simpl in *.
  rw listenersByPort_lookup in H1 H2. split_and!.
  - rw H1. by destruct (listeners_on p gateways).
  - rw H2. destruct (listeners_on p gateways) as [|gl [|gl' ls]]; simpl; naive_solver lia.
  - apply elem_of_listeners_on.
Qed.

(** C18: no verdict about port conflicts goes stale.  In a build that starts from
    cleaned statuses, a gateway of the tree that takes part in a port conflict, or
    did before the batch, is marked as changed, even if its own object did not
    change.  And a managed gateway marked upserted was checked against the classes
    and the parameters of this build: its class is valid, and its listeners are
    exactly those of its spec, one per name, each with the verdict of the checks on
    the port table of all the gateways and on the current secrets; the checks are
    those of a valid gateway exactly when its parameters resolve (the listeners of
    an invalid one are not compared with the table). *)
Theorem Gateway_conflicts_current (RO : RangeOrder) (GS : GoSort) (FE : FieldErrors)
    MergeWithOverwrite env previousMulti gwUpdates ts heap0 :
  keyed_tree ts.1 → no_pending ts.1 → map_Forall gateway_update_keyed gwUpdates →
  let gt := Gateway_computeGateTreeUpdates MergeWithOverwrite env previousMulti gwUpdates ts heap0 in
  let multi := portsWithMultipleListeners gt in
  ∀ k g, (trees gt).1 !! k = Some g →
    (k ∈ gatewaysWithPortConflicts multi ∪ gatewaysWithPortConflicts previousMulti →
     Status (gt_TreeStatus g) ≠ StatusUnchanged) ∧
    (∀ k8s, Status (gt_TreeStatus g) = StatusUpserted → gt_K8sResource (gt_data g) = Some k8s →
     isManaged (gt_data g) = true →
     is_Some (valid_class env k8s) ∧
     listeners_checked env multi (params_resolve env k8s) k8s g (heap gt)).
Proof.
  intros Hts Hclean Hups. unfold Gateway_computeGateTreeUpdates, builder_checkListenerConflicts.
  pose proof (updates_loop_keyed MergeWithOverwrite env heap0 _ _ Hups Hts) as Hts1.
  pose proof (updates_loop_checked MergeWithOverwrite env heap0 _ _ Hups Hts Hclean) as Hchecked.
  set (ts1 := range_fold _ gwUpdates ts) in *.
  destruct (split_ports (listenersByPort ts1.1)) as [multi single].
  pose proof (upsert_conflicted_checked MergeWithOverwrite env heap0
    (gatewaysWithPortConflicts multi ∪ gatewaysWithPortConflicts previousMulti) ts1 Hchecked) as Hall.
  destruct (upsert_conflicted_spec MergeWithOverwrite env heap0
    (gatewaysWithPortConflicts multi ∪ gatewaysWithPortConflicts previousMulti) ts1 Hts1) as (_ & _ & Hup).
  set (ts2 := upsert_conflicted _ _ _ _ _) in *.
  pose proof (process_loop env multi single ts2.1 heap0) as Hloop.
  destruct (range_fold _ ts2.1 _) as [managed h]. simpl.
  intros k g Hk. specialize (Hloop k). rw Hk in Hloop.
  destruct (ts2.1 !! k) as [g0|] eqn:Hg0; [|done]. destruct Hloop as (H1 & H2 & H3 & H4).
  rw H1 H2 H3. split; [intros Hin; by eapply Hup|]. intros k8s Hst Hr Hm.
  destruct (Hall _ _ Hg0) as [_ Hc]. destruct (Hc k8s Hst Hr Hm) as [Hclass Hv]. split; [done|].
  rw -Hv. by apply H4.
Qed.

(** Two listeners on one port, in a gateway of a valid class; its own object did
    not change. *)
Definition example_conflicting : K8sGateway :=
  example_gateway [example_listener 80 "HTTP"; {| (example_listener 80 "HTTP") with l_Name := "other" |}].

Definition example_valid_class : GatewayClass :=
  mkGatewayClass (mkGatewayClassData (Some example_class) None ∅ zero_CheckResult true true) zero_TreeUpdate.

Definition example_env : GatewayEnv :=
  {| env_HugGates := ∅; env_GatewayClasses := {[ NN "" "haproxy" := example_valid_class ]}; env_Secrets := ∅ |}.

Definition example_trees : GWs * GWs :=
  ({[ NN "ns" "gw" := mkGateway (Gateway_reset (Some example_conflicting)) zero_TreeUpdate ]}, ∅).

Definition example_tree : GatewayTree :=
  @Gateway_computeGateTreeUpdates key_order stable_sort example_errors (λ _ h, h) example_env ∅ ∅
    example_trees ∅.

Lemma Gateway_conflicts_current_witness :
  ∃ g, (trees example_tree).1 !! NN "ns" "gw" = Some g ∧
    Status (gt_TreeStatus g) ≠ StatusUnchanged ∧ isManaged (gt_data g) = true ∧
    is_Some (gt_Listeners (gt_data g) !! "other") ∧
    ∀ loc, gt_Listeners (gt_data g) !! "other" = Some loc →
      (λ l, bool_decide (is_Some (GetCondition (lst_Conditions l) Conflicted))) <$> heap example_tree !! loc = Some true.
Proof.
  destruct ((trees example_tree).1 !! NN "ns" "gw") as [g|] eqn:Hg.
  2:{ exfalso. enough (is_Some_b ((trees example_tree).1 !! NN "ns" "gw") = true) as Ht
        by (by rw Hg in Ht). vm_refl. }
  assert ((λ g, (Status (gt_TreeStatus g), gt_K8sResource (gt_data g), isManaged (gt_data g))) <$>
    (trees example_tree).1 !! NN "ns" "gw" = Some (StatusUpserted, Some example_conflicting, true)) as Hfacts by vm_refl.
  rw Hg in Hfacts. cbn in Hfacts. injection Hfacts as Hst Hr Hm.
  destruct (Gateway_conflicts_current key_order stable_sort example_errors (λ _ h, h) example_env ∅ ∅
    example_trees ∅) with (k := NN "ns" "gw") (g := g) as [Hc Hl]; [| | |exact Hg|].
  - intros k g' Hg'. unfold example_trees in Hg'. cbn [fst] in Hg'.
    apply lookup_singleton_Some in Hg' as [<- <-]. by intros o [= <-].
  - intros k g' Hg'. unfold example_trees in Hg'. cbn [fst] in Hg'. by apply lookup_singleton_Some in Hg' as [<- <-].
  - apply map_Forall_empty.
  - destruct (Hl _ Hst Hr Hm) as [_ [Hnames Hheap]]. exists g. split; [done|].
    split; [apply Hc; eapply bool_decide_eq_true_1; vm_refl|]. split; [exact Hm|]. split.
    + apply Hnames. eexists. split; [right; left; reflexivity|reflexivity].
    + intros loc Hloc. destruct (Hheap _ _ Hloc) as (l & Hin & Hname & Hh).
      change (heap _) with (heap example_tree) in Hh. rw Hh.
      apply elem_of_cons in Hin as [->|Hin%list_elem_of_singleton]; [done|subst l]. vm_refl.
Defined.

(** The verdict on a managed gateway whose class is valid.  Its validity
    and its conditions depend on two questions only: does its [parametersRef]
    resolve, and are all its ports in conflict.  An unresolved reference gives
    Accepted and Programmed False; conflicts everywhere give Accepted False
    and no Programmed; conflicts on some ports only leave it accepted. *)
Theorem Gateway_verdict (RO : RangeOrder) heap single k8s d :
  isManaged d = true → check_Conditions (gt_CheckConflict d) = ∅ →
  (check_Valid (CheckParamsRef d) = false → ∃ err,
     check_Conditions (CheckParamsRef d) = NewGatewayClassAcceptedInvalidParameters err) →
  let d' := Gateway_BuildConditions k8s (checkListenerConflicts heap single k8s d) in
  let status key := Conditions.Status <$> gt_Conditions d' !! key in
  let params := check_Valid (CheckParamsRef d) in
  let conflicted := someListenersAreConflicted heap d &&
    negb (existsb (λ l, bool_decide (l_Port l ∈ single)) (gw_Listeners k8s)) in
  gt_Valid d' = gt_Valid d && negb conflicted ∧
  status Accepted = Some (if params && negb conflicted then ConditionTrue else ConditionFalse) ∧
  status Programmed =
    (if negb params then Some ConditionFalse
     else if conflicted then None else Some ConditionTrue) ∧
  map_Forall (λ k c, Type_ c = k ∧ ObservedGeneration c = meta_Generation (gw_Meta k8s))
    (gt_Conditions d').
Proof.
  intros Hman Hempty Hparams d' status params conflicted. unfold isManaged in Hman.
  assert (∃ cs, wf_conditions cs ∧
    gt_Conditions d' = SetGeneration cs (meta_Generation (gw_Meta k8s)) ∧
    gt_Valid d' = gt_Valid d && negb conflicted ∧
    (Conditions.Status <$> cs !! Accepted) =
      Some (if params && negb conflicted then ConditionTrue else ConditionFalse) ∧
    (Conditions.Status <$> cs !! Programmed) =
      (if negb params then Some ConditionFalse
       else if conflicted then None else Some ConditionTrue)) as (cs & Hwf & Hc & Hv & Ha & Hp).
  { unfold d', Gateway_BuildConditions, checkListenerConflicts, isManaged, params, conflicted.
    simpl. rw Hman. simpl.
    destruct (check_Valid (CheckParamsRef d)); simpl.
    - destruct (someListenersAreConflicted heap d); simpl.
      + destruct (existsb _ _); simpl; eexists; (split; [|split; [reflexivity|]]);
          try (repeat first [apply wf_Merge|apply wf_empty|apply wf_one]);
          (split_and!; [done|vm_refl..]).
      + rw Hempty. simpl. eexists; (split; [|split; [reflexivity|]]);
          try (repeat first [apply wf_Merge|apply wf_empty|apply wf_one]);
          (split_and!; [done|vm_refl..]).
    - destruct (Hparams eq_refl) as [err ->].
      eexists; (split; [|split; [reflexivity|]]);
        try (repeat first [apply wf_Merge|apply wf_empty|apply wf_one]).
      split_and!; [|vm_refl..].
      destruct (someListenersAreConflicted heap d); simpl; [|done].
      by destruct (existsb _ _). }
  unfold status. rw Hc Hv SetGeneration_wf // !lookup_fmap. split_and!; [done| | |].
  - by destruct (cs !! Accepted).
  - by destruct (cs !! Programmed).
  - intros key x Hx. apply lookup_fmap_Some in Hx as (y & <- & Hy).
    by split; [exact (Hwf _ _ Hy)|].
Qed.

Lemma Gateway_verdict_witness :
  let gw := example_gateway [example_listener 80 "HTTP"] in
  let ok := mkCheckResult NewGatewayAcceptedOK true in
  let d := mkGatewayData (Some gw) None ∅ ∅ ok ok zero_CheckResult true in
  gt_Valid (@Gateway_BuildConditions key_order gw
    (@checkListenerConflicts key_order ∅ ∅ gw d)) = true.
Proof.
  intros gw ok d.
  destruct (Gateway_verdict key_order ∅ ∅ gw d) as [-> _]; done.
Defined.
