(* ===== verification/Route.v ===== *)
(** * Route: HTTPRoute.go, TLSRoute.go, their builders and their rules

    The routes of the tree: to which listeners of which gateways a route
    attaches, whether its backend references resolve, and the conditions of
    each parent.  HTTPRoute.go and TLSRoute.go are two copies of one
    algorithm; the class [RouteKind] holds what differs between them.

    A route can be in the managed and in the unmanaged map at once, so routes
    live in a store and the maps hold locations, as for listeners. *)

From S2P Require Import Prelude GoStrings Objects Utils Conditions Store TreeCore.
From S2P Require Import References GatewayClass Listener Gateway.

(** ** What differs between the two kinds of routes *)
Class RouteKind (R Rule : Type) := {
  route_kind : ObjKind;
  route_Meta : R → ObjectMeta;
  route_ParentRefs : R → list ParentReference;
  route_Hostnames : R → list string;
  route_Rules : R → list Rule;
  rule_BackendRefs : Rule → list BackendObjectReference;
  (** a check on a listener named by [sectionName] *)
  section_admits : K8sListener → bool;
  (** [DeepCopy] gives the route its listeners back *)
  copy_keeps_listeners : bool
}.

#[export] Instance HTTPRoute_kind : RouteKind K8sHTTPRoute K8sHTTPRouteRule := {|
  route_kind := KHTTPRoute;
  route_Meta := hroute_Meta;
  route_ParentRefs := hroute_ParentRefs;
  route_Hostnames := hroute_Hostnames;
  route_Rules := hroute_Rules;
  rule_BackendRefs r := hb_Ref <$> hr_BackendRefs r;
  section_admits _ := true;
  copy_keeps_listeners := false
|}.

(** TLSRoute.go: [tlsMode == nil || *tlsMode != TLSModePassthrough] refuses. *)
Definition is_passthrough (l : K8sListener) : bool :=
  match l_TLS l ≫= tls_Mode with
  | Some m => bool_decide (m = TLSModePassthrough)
  | None => false
  end.

#[export] Instance TLSRoute_kind : RouteKind K8sTLSRoute K8sTLSRouteRule := {|
  route_kind := KTLSRoute;
  route_Meta := troute_Meta;
  route_ParentRefs := troute_ParentRefs;
  route_Hostnames := troute_Hostnames;
  route_Rules := troute_Rules;
  rule_BackendRefs r := tb_Ref <$> tr_BackendRefs r;
  section_admits := is_passthrough;
  copy_keeps_listeners := true
|}.

(** ** Data *)
Record CheckResultRoute := mkCheckResultRoute { cr_Conditions : RouteConditions; cr_Valid : bool }.

(** The zero value; the key function of its map is never called. *)
Definition zero_CheckResultRoute : CheckResultRoute :=
  mkCheckResultRoute (NewRouteConditions "") false.

Record RouteRule (Rule : Type) := mkRouteRule {
  rule_K8sResource : Rule;
  CheckBackendRef : KeyMap BackendObjectReference CheckResult;
  rule_Valid : bool
}.
Arguments mkRouteRule {Rule}.
Arguments rule_K8sResource {Rule}.
Arguments CheckBackendRef {Rule}.
Arguments rule_Valid {Rule}.

Record RouteData (R Rule : Type) := mkRouteData {
  rt_K8sResource : option R;
  rt_Listeners : KeyMap ParentReference (list nat);
  Rules : list (RouteRule Rule);
  rt_Conditions : RouteConditions;
  ControllerName : string;
  CheckParentRefs : CheckResultRoute;
  rt_Valid : bool
}.
Arguments mkRouteData {R Rule}.
Arguments rt_K8sResource {R Rule}.
Arguments rt_Listeners {R Rule}.
Arguments Rules {R Rule}.
Arguments rt_Conditions {R Rule}.
Arguments ControllerName {R Rule}.
Arguments CheckParentRefs {R Rule}.
Arguments rt_Valid {R Rule}.

Record Route (R Rule : Type) := mkRoute {
  rt_data : RouteData R Rule;
  rt_TreeStatus : TreeUpdate (RouteData R Rule)
}.
Arguments mkRoute {R Rule}.
Arguments rt_data {R Rule}.
Arguments rt_TreeStatus {R Rule}.

(** The gateways and the listeners a route attaches to: both are mutated. *)
Record Attach := mkAttach { at_gateways : GWs * GWs; at_heap : Listeners }.

(** The routes of one kind, their two maps, and the rest of the tree. *)
Record RouteTree (R Rule : Type) := mkRouteTree {
  routes : gmap nat (Route R Rule);
  managedRoutes : gmap NamespacedName nat;
  unmanagedRoutes : gmap NamespacedName nat;
  attach : Attach
}.
Arguments mkRouteTree {R Rule}.
Arguments routes {R Rule}.
Arguments managedRoutes {R Rule}.
Arguments unmanagedRoutes {R Rule}.
Arguments attach {R Rule}.

(** ** Attaching to listeners: gateway_listener.go *)

(** Finds the gateway of a listener and marks it upserted, unless it is gone. *)
Definition addAttachedRoute (routeKey : NamespacedName) (loc : nat) (st : Attach) : Attach :=
  match at_heap st !! loc with
  | None => st
  | Some l =>
      let l' := mkListener (lst_K8sResource l) (lst_Conditions l)
        ({[routeKey]} ∪ lst_AttachedRoutes l) (lst_Owner l) (CheckRouteGroupKind l)
        (CheckProtocol l) (CheckSecret l) (CheckConflict l) (AllowedRouteKinds l) (lst_Valid l) in
      let heap := <[loc := l']> (at_heap st) in
      let gws := at_gateways st in
      match gws.1 !! lst_Owner l with
      | None => mkAttach gws heap
      | Some treeGw =>
          match Status (gt_TreeStatus treeGw) with
          | StatusDeleted => mkAttach gws heap
          | _ =>
              let treeGw := mkGateway (gt_data treeGw)
                (mkTreeUpdate (Some (Gateway_DeepCopy heap treeGw)) StatusUpserted) in
              mkAttach (<[lst_Owner l := treeGw]> gws.1, gws.2) heap
          end
      end
  end.

Definition deleteAttachedRoute (routeKey : NamespacedName) (loc : nat) (st : Attach) : Attach :=
  match at_heap st !! loc with
  | None => st
  | Some l =>
      let l' := mkListener (lst_K8sResource l) (lst_Conditions l)
        (lst_AttachedRoutes l ∖ {[routeKey]}) (lst_Owner l) (CheckRouteGroupKind l)
        (CheckProtocol l) (CheckSecret l) (CheckConflict l) (AllowedRouteKinds l) (lst_Valid l) in
      let heap := <[loc := l']> (at_heap st) in
      let gws := at_gateways st in
      match gws.1 !! lst_Owner l with
      | None => mkAttach gws heap
      | Some treeGw =>
          match Status (gt_TreeStatus treeGw) with
          | StatusDeleted => mkAttach gws heap
          | _ =>
              let treeGw := mkGateway (gt_data treeGw)
                (mkTreeUpdate (OldTreeResource (gt_TreeStatus treeGw)) StatusUpserted) in
              mkAttach (<[lst_Owner l := treeGw]> gws.1, gws.2) heap
          end
      end
  end.

(** ** Hostnames and kinds *)
Definition match_ (routeHostname listenerHostname : string) : bool :=
  if bool_decide (routeHostname = listenerHostname) then true
  else if HasPrefix listenerHostname "*." &&
          (let domain := TrimPrefix listenerHostname "*." in
           negb (bool_decide (routeHostname = domain)) && HasSuffix routeHostname ("." +:+ domain))
  then true
  else if HasPrefix routeHostname "*." &&
          (let domain := TrimPrefix routeHostname "*." in
           negb (bool_decide (listenerHostname = domain)) &&
           HasSuffix listenerHostname ("." +:+ domain))
  then true
  else false.

Definition matchHostname (routeHostnames : list string) (listenerHostname : option string) : bool :=
  match listenerHostname with
  | None => true
  | Some h =>
      if bool_decide (h = "") then true
      else if existsb (λ r, bool_decide (r = "") || match_ r h) routeHostnames then true
      else bool_decide (length routeHostnames = 0)
  end.

Definition getNamespace (ns : option string) (defaultNamespace : string) : string :=
  match ns with Some ns => ns | None => defaultNamespace end.

Definition GetParentRefNamespacedName (parentRef : ParentReference) (defaultNamespace : string) :
    NamespacedName :=
  NN (getNamespace (p_Namespace parentRef) defaultNamespace) (p_Name parentRef).

Definition ServiceNsNameKey (routeNs : string) (backendRef : BackendObjectReference) :
    NamespacedName :=
  match b_Namespace backendRef with
  | None => NN routeNs (b_Name backendRef)
  | Some ns => if bool_decide (ns = "") then NN routeNs (b_Name backendRef)
               else NN ns (b_Name backendRef)
  end.

Section route.
Context {RO : RangeOrder} {R Rule : Type} {RK : RouteKind R Rule}.
Context (extractGVK : ExtractGVK).

Definition IsParentRefGroupKindSupported (parentRef : ParentReference) : bool :=
  let gvk := extractGVK KGateway in
  if negb (eq_or_nil (p_Kind parentRef) (gvk_Kind gvk)) then false
  else if negb (eq_or_nil (p_Group parentRef) (gvk_Group gvk)) then false
  else true.

Definition isBackendRefGroupKindSupported (backendRef : BackendObjectReference) : bool :=
  let gvk := extractGVK KService in
  if negb (eq_or_nil (b_Kind backendRef) (gvk_Kind gvk)) then false
  else if negb (eq_or_nil (b_Group backendRef) (gvk_Group gvk)) then false
  else true.

Definition isAllowedRouteKind (listener : Listener) : bool :=
  let gvk := extractGVK route_kind in
  existsb (λ allowed,
    match rgk_Group allowed with
    | Some g => bool_decide (g = gvk_Group gvk) && bool_decide (rgk_Kind allowed = gvk_Kind gvk)
    | None => bool_decide (rgk_Kind allowed = gvk_Kind gvk)
    end) (AllowedRouteKinds listener).

(** ** Checks of the parents *)
Record checkParentRefResult := mkParentResult {
  pr_Conditions : Conditions; pr_Managed : bool; pr_Valid : bool
}.

(** [listener.Valid], then its hostname, then the kinds it allows: the
    condition of the first one that fails. *)
Definition listener_refusal (k8s : R) (listener : Listener) : option Conditions :=
  if negb (lst_Valid listener) then Some ConditionNotAcceptedNoMatchingParent
  else if negb (matchHostname (route_Hostnames k8s) (l_Hostname (lst_K8sResource listener)))
  then Some ConditionNotAcceptedNoMatchingHostname
  else if negb (isAllowedRouteKind listener)
  then Some ConditionNotAcceptedRouteReasonNotAllowedByListeners
  else None.

(** The state of the loop over the attachable listeners: the failing
    conditions, the valid listeners, [r.Listeners], and what is mutated. *)
Record AttachLoop := mkAttachLoop {
  al_conds : Conditions; al_valid : list nat;
  al_listeners : KeyMap ParentReference (list nat); al_attach : Attach
}.

Definition attach_listener (k8s : R) (parentRef : ParentReference) (s : AttachLoop) (loc : nat) :
    AttachLoop :=
  match at_heap (al_attach s) !! loc with
  | None => s
  | Some listener =>
      match listener_refusal k8s listener with
      | Some c =>
          mkAttachLoop (MergeOverrideConditions (al_conds s) c) (al_valid s) (al_listeners s)
            (al_attach s)
      | None =>
          let existing := default [] (KeyMaps.Get (al_listeners s) parentRef) in
          mkAttachLoop (al_conds s) (al_valid s ++ [loc])
            (KeyMaps.Set_ (al_listeners s) parentRef (existing ++ [loc]))
            (addAttachedRoute (meta_key (route_Meta k8s)) loc (al_attach s))
      end
  end.

(** The listeners a parent reference can attach to, or the early return. *)
Definition attachable_listeners (parentRef : ParentReference) (treeGw : Gateway)
    (heap : Listeners) : list nat + Conditions :=
  match p_SectionName parentRef with
  | Some section =>
      match gt_Listeners (gt_data treeGw) !! section with
      | None => inr ConditionNotAcceptedNoMatchingParent
      | Some loc =>
          match heap !! loc with
          | None => inl []
          | Some l => if section_admits (lst_K8sResource l) then inl [loc]
                      else inr ConditionNotAcceptedRouteReasonNotAllowedByListeners
          end
      end
  | None => inl (range (gt_Listeners (gt_data treeGw))).*2
  end.

Definition checkParentRef (k8s : R) (parentRef : ParentReference)
    (listeners : KeyMap ParentReference (list nat)) (st : Attach) :
    checkParentRefResult * KeyMap ParentReference (list nat) * Attach :=
  if negb (IsParentRefGroupKindSupported parentRef)
  then (mkParentResult ∅ false false, listeners, st)
  else
    let gwKey := GetParentRefNamespacedName parentRef (meta_Namespace (route_Meta k8s)) in
    match (at_gateways st).1 !! gwKey with
    | None => (mkParentResult ∅ false false, listeners, st)
    | Some treeGw =>
        match Status (gt_TreeStatus treeGw) with
        | StatusDeleted =>
            (mkParentResult ConditionNotAcceptedNoMatchingParent true false, listeners, st)
        | _ =>
            match attachable_listeners parentRef treeGw (at_heap st) with
            | inr c => (mkParentResult c true false, listeners, st)
            | inl attachableListeners =>
                let s := foldl (attach_listener k8s parentRef) (mkAttachLoop ∅ [] listeners st)
                           attachableListeners in
                if bool_decide (length (al_valid s) = 0)
                then (mkParentResult (al_conds s) true false, al_listeners s, al_attach s)
                else (mkParentResult ConditionAccepted true true, al_listeners s, al_attach s)
            end
        end
    end.

(** The state of the loop over the parent references. *)
Record ParentLoop := mkParentLoop {
  pl_conditions : RouteConditions; pl_valid : bool;
  pl_listeners : KeyMap ParentReference (list nat); pl_attach : Attach
}.

Definition check_one_parent (k8s : R) (s : ParentLoop) (parentRef : ParentReference) :
    ParentLoop :=
  let '(result, listeners, st) := checkParentRef k8s parentRef (pl_listeners s) (pl_attach s) in
  if negb (pr_Managed result) then mkParentLoop (pl_conditions s) (pl_valid s) listeners st
  else
    let c := MergeOverrideConditionsForParentRef (pl_conditions s) parentRef (pr_Conditions result) in
    if negb (pr_Valid result) then mkParentLoop c (pl_valid s) listeners st
    else mkParentLoop c true listeners st.

Definition checkParentRefs (d : RouteData R Rule) (st : Attach) : RouteData R Rule * Attach :=
  let routeConditions := NewRouteConditions (ControllerName d) in
  let set check listeners :=
    mkRouteData (rt_K8sResource d) listeners (Rules d) (rt_Conditions d) (ControllerName d) check
      (rt_Valid d) in
  match rt_K8sResource d with
  | None => (set (mkCheckResultRoute routeConditions false) (rt_Listeners d), st)
  | Some k8s =>
      let s := foldl (check_one_parent k8s)
        (mkParentLoop routeConditions false (rt_Listeners d) st) (route_ParentRefs k8s) in
      (set (mkCheckResultRoute (pl_conditions s) (pl_valid s)) (pl_listeners s), pl_attach s)
  end.

Definition processChecks (d : RouteData R Rule) (st : Attach) : RouteData R Rule * Attach :=
  let '(d, st) := checkParentRefs d st in
  (mkRouteData (rt_K8sResource d) (rt_Listeners d) (Rules d) (rt_Conditions d)
     (ControllerName d) (CheckParentRefs d) (cr_Valid (CheckParentRefs d)), st).

Definition Route_isManaged (d : RouteData R Rule) : bool := cr_Valid (CheckParentRefs d).

(** ** Conditions *)
Definition Route_BuildConditions (d : RouteData R Rule) : RouteData R Rule :=
  if negb (Route_isManaged d) then d
  else
    let c := NewRouteConditions (ControllerName d) in
    let generation :=
      match rt_K8sResource d with Some k => meta_Generation (route_Meta k) | None => 0%Z end in
    let c := RouteConditions_SetGeneration c generation in
    let c := KeyMaps.Iterate (rc_Conditions (cr_Conditions (CheckParentRefs d)))
      (λ key parentRefConds c,
        match KeyToParentRef key with
        | Err _ => (c, true)
        | Ok parentRef => (MergeOverrideConditionsForParentRef c parentRef parentRefConds, true)
        end) c in
    mkRouteData (rt_K8sResource d) (rt_Listeners d) (Rules d) c (ControllerName d)
      (CheckParentRefs d) (cr_Valid (CheckParentRefs d)).

(** The failing conditions of the backend references of all the rules. *)
Definition koBackendRefConds (rules : list (RouteRule Rule)) : Conditions :=
  foldl (λ ko rule,
    KeyMaps.Iterate (CheckBackendRef rule) (λ _ checkResult ko,
      (if negb (check_Valid checkResult)
       then MergeOverrideConditions ko (check_Conditions checkResult) else ko, true)) ko)
    ∅ rules.

Definition mergeBackendConditions (d : RouteData R Rule) : RouteData R Rule :=
  let ko := koBackendRefConds (Rules d) in
  let resolvedRefConds := if (0 <? size ko)%nat then ko else ConditionOKResolvedRef in
  let c := KeyMaps.Iterate (rc_Conditions (rt_Conditions d))
    (λ key _ c,
      match KeyToParentRef key with
      | Err _ => (c, true)
      | Ok parentRefKey => (MergeOverrideConditionsForParentRef c parentRefKey resolvedRefConds, true)
      end) (rt_Conditions d) in
  mkRouteData (rt_K8sResource d) (rt_Listeners d) (Rules d) c (ControllerName d)
    (CheckParentRefs d) (rt_Valid d).

(** ** Rules: route-rule.go, tls-route-rule.go *)
Definition service_usable (services : gmap NamespacedName Service) (key : NamespacedName) : bool :=
  match services !! key with
  | None => false
  | Some service =>
      match Status (TreeStatus service) with StatusDeleted => false | _ => true end
  end.

(** One iteration: the state is [routeValid] and the rule. *)
Definition check_one_backendRef (routeNs : string) (services : gmap NamespacedName Service)
    (s : bool * RouteRule Rule) (backendRef : BackendObjectReference) : bool * RouteRule Rule :=
  let '(routeValid, r) := s in
  let set check v :=
    mkRouteRule (rule_K8sResource r) (KeyMaps.Set_ (CheckBackendRef r) backendRef check) v in
  if negb (isBackendRefGroupKindSupported backendRef) then
    (false, set (mkCheckResult
       (ConditionKOResolvedRefInvalidKind (BackendObjectReferenceToKey backendRef)) false)
       (rule_Valid r))
  else if negb (service_usable services (ServiceNsNameKey routeNs backendRef)) then
    (false, set (mkCheckResult
       (ConditionKOResolvedRefNotFound (BackendObjectReferenceToKey backendRef)) false)
       (rule_Valid r))
  else (routeValid, set (mkCheckResult ConditionOKResolvedRef true) routeValid).

Definition checkBackendRef (routeNs : string) (services : gmap NamespacedName Service)
    (r : RouteRule Rule) : RouteRule Rule :=
  (foldl (check_one_backendRef routeNs services) (true, r)
     (rule_BackendRefs (rule_K8sResource r))).2.

Definition buildRules (services : gmap NamespacedName Service) (d : RouteData R Rule) :
    RouteData R Rule :=
  match rt_K8sResource d with
  | None => d
  | Some k8s =>
      let rules := (λ rule, mkRouteRule rule (KeyMaps.NewKeyMap BackendObjectReferenceToKey) false)
        <$> route_Rules k8s in
      mkRouteData (rt_K8sResource d) (rt_Listeners d)
        (checkBackendRef (meta_Namespace (route_Meta k8s)) services <$> rules)
        (rt_Conditions d) (ControllerName d) (CheckParentRefs d) (rt_Valid d)
  end.

(** ** The routes of the tree *)
Definition NewRoute (k8sObject : option R) (controllerName : string) : Route R Rule :=
  mkRoute (mkRouteData k8sObject (KeyMaps.NewKeyMap ParentRefToKey) []
    (NewRouteConditions "") controllerName
    (mkCheckResultRoute (NewRouteConditions controllerName) false) false)
    (mkTreeUpdate None StatusUpserted).

(** [DeepCopy]: the JSON of a [KeyMap] is empty, and the copy of the listeners
    drops every entry since a slice has no [DeepCopy] method.  The first
    component is what the call leaves of the route itself. *)
Definition Route_DeepCopy (d : RouteData R Rule) : RouteData R Rule * RouteData R Rule :=
  let listeners := rt_Listeners d in
  let set l d :=
    mkRouteData (rt_K8sResource d) l (Rules d) (rt_Conditions d) (ControllerName d)
      (CheckParentRefs d) (rt_Valid d) in
  let copied :=
    mkRouteData (rt_K8sResource d) (KeyMaps.DeepCopy None listeners)
      ((λ r, mkRouteRule (rule_K8sResource r) (KeyMaps.Clear (CheckBackendRef r)) (rule_Valid r))
         <$> Rules d)
      (mkRouteConditions (KeyMaps.Clear (rc_Conditions (rt_Conditions d)))
         (rc_ControllerName (rt_Conditions d)))
      (ControllerName d)
      (mkCheckResultRoute
         (mkRouteConditions (KeyMaps.Clear (rc_Conditions (cr_Conditions (CheckParentRefs d))))
            (rc_ControllerName (cr_Conditions (CheckParentRefs d))))
         (cr_Valid (CheckParentRefs d))) (rt_Valid d) in
  (set (if copy_keeps_listeners then listeners else KeyMaps.Clear listeners) d, copied).

(** [setResourceStatus] and the new resource. *)
Definition Route_set_status (status : StoreStatus) (k8s : option R) (r : Route R Rule) :
    Route R Rule :=
  let '(d, copied) := Route_DeepCopy (rt_data r) in
  mkRoute (mkRouteData k8s (rt_Listeners d) (Rules d) (rt_Conditions d) (ControllerName d)
             (CheckParentRefs d) (rt_Valid d))
    (mkTreeUpdate (Some copied) status).

Definition Route_SetAsUpserted (newK8sResource : option R) := Route_set_status StatusUpserted newK8sResource.
Definition Route_SetAsDeleted := Route_set_status StatusDeleted None.

Definition Route_ResetChecks (r : Route R Rule) : Route R Rule :=
  let d := rt_data r in
  mkRoute (mkRouteData (rt_K8sResource d) (KeyMaps.Clear (rt_Listeners d)) (Rules d)
             (rt_Conditions d) (ControllerName d) zero_CheckResultRoute (rt_Valid d))
    (rt_TreeStatus r).

(** [SetAsManaged]/[SetAsUnmanaged] write the route in one map of routes, and
    delete its key from the map of the other tree's gateways. *)
Definition Route_SetAsManaged (key : NamespacedName) (loc : nat) (t : RouteTree R Rule) :
    RouteTree R Rule :=
  let st := attach t in
  mkRouteTree (routes t) (<[key := loc]> (managedRoutes t)) (unmanagedRoutes t)
    (mkAttach ((at_gateways st).1, delete key (at_gateways st).2) (at_heap st)).

Definition Route_SetAsUnmanaged (key : NamespacedName) (loc : nat) (t : RouteTree R Rule) :
    RouteTree R Rule :=
  let st := attach t in
  mkRouteTree (routes t) (managedRoutes t) (<[key := loc]> (unmanagedRoutes t))
    (mkAttach (delete key (at_gateways st).1, (at_gateways st).2) (at_heap st)).

Definition computeTreeRouteUpdate (controllerName : string) (key : NamespacedName)
    (routeUpdate : Update R) (t : RouteTree R Rule) : RouteTree R Rule :=
  let found := match managedRoutes t !! key with
               | Some loc => Some loc | None => unmanagedRoutes t !! key end in
  let treeRoute := loc ← found; r ← routes t !! loc; Some (loc, r) in
  match UStatus routeUpdate with
  | StatusUpserted =>
      let '(loc, r) :=
        match treeRoute with
        | Some (loc, r) =>
            (loc, Route_ResetChecks (Route_SetAsUpserted (NewObject routeUpdate) r))
        | None =>
            (fresh (dom (routes t)), NewRoute (NewObject routeUpdate) controllerName)
        end in
      let '(d, st) := processChecks (rt_data r) (attach t) in
      let managed := Route_isManaged d in
      let r := mkRoute (Route_BuildConditions d) (rt_TreeStatus r) in
      let t := mkRouteTree (<[loc := r]> (routes t)) (managedRoutes t) (unmanagedRoutes t) st in
      match rt_K8sResource d with
      | None => t
      | Some k8s =>
          if managed then Route_SetAsManaged (meta_key (route_Meta k8s)) loc t
          else Route_SetAsUnmanaged (meta_key (route_Meta k8s)) loc t
      end
  | StatusDeleted =>
      match treeRoute with
      | Some (loc, r) =>
          let st :=
            match rt_K8sResource (rt_data r) with
            | None => attach t
            | Some k8s =>
                range_fold (λ _ listeners st,
                  foldl (λ st l, deleteAttachedRoute (meta_key (route_Meta k8s)) l st) st listeners)
                  (data (rt_Listeners (rt_data r))) (attach t)
            end in
          mkRouteTree (<[loc := Route_ResetChecks (Route_SetAsDeleted r)]> (routes t))
            (managedRoutes t) (unmanagedRoutes t) st
      | None => t
      end
  | StatusUnchanged => t
  end.

(** The second loop: the rules and the conditions of the upserted routes. *)
Definition finish_route (services : gmap NamespacedName Service) (r : Route R Rule) :
    Route R Rule :=
  match Status (rt_TreeStatus r) with
  | StatusUpserted =>
      let d := rt_data r in
      let d := if Route_isManaged d then buildRules services d else d in
      mkRoute (mergeBackendConditions d) (rt_TreeStatus r)
  | _ => r
  end.

Definition Route_ComputeTreeUpdates (controllerName : string)
    (services : gmap NamespacedName Service) (updates : gmap NamespacedName (Update R))
    (t : RouteTree R Rule) : RouteTree R Rule :=
  let t := range_fold (computeTreeRouteUpdate controllerName) updates t in
  mkRouteTree
    (range_fold (λ _ loc routes, alter (finish_route services) loc routes) (managedRoutes t)
       (routes t))
    (managedRoutes t) (unmanagedRoutes t) (attach t).

(** [cleanTreeUpdates] on each map: a deleted route leaves the map, another
    one forgets its update. *)
Definition clean_route_map (m : gmap NamespacedName nat) (rs : gmap nat (Route R Rule)) :
    gmap NamespacedName nat * gmap nat (Route R Rule) :=
  range_fold (λ key loc acc,
    match acc.2 !! loc with
    | None => acc
    | Some r =>
        match Status (rt_TreeStatus r) with
        | StatusDeleted => (delete key acc.1, acc.2)
        | _ => (acc.1, <[loc := mkRoute (rt_data r) zero_TreeUpdate]> acc.2)
        end
    end) m (m, rs).

Definition Route_CleanTreeUpdates (t : RouteTree R Rule) : RouteTree R Rule :=
  let '(managed, rs) := clean_route_map (managedRoutes t) (routes t) in
  let '(unmanaged, rs) := clean_route_map (unmanagedRoutes t) rs in
  mkRouteTree rs managed unmanaged (attach t).
End route.

(** ** TLS routes: TLSRoute.go, TLSRoute-builder.go, tls-route-rule.go

    These files repeat those of the HTTP routes, with the differences
    [TLSRoute_kind] holds. *)
Abbreviation TLSRoute := (Route K8sTLSRoute K8sTLSRouteRule).
Abbreviation TLSRouteData := (RouteData K8sTLSRoute K8sTLSRouteRule).
Abbreviation TLSRouteRule := (RouteRule K8sTLSRouteRule).

Section tls_route.
Context {RO : RangeOrder} (extractGVK : ExtractGVK).

Definition NewTLSRoute (k8sObject : option K8sTLSRoute) (controllerName : string) : TLSRoute :=
  NewRoute k8sObject controllerName.

Definition TLSRoute_SetAsUpserted (newK8sResource : option K8sTLSRoute) (r : TLSRoute) : TLSRoute :=
  Route_SetAsUpserted newK8sResource r.

Definition TLSRoute_SetAsDeleted (r : TLSRoute) : TLSRoute := Route_SetAsDeleted r.

Definition TLSRoute_DeepCopy (d : TLSRouteData) : TLSRouteData * TLSRouteData := Route_DeepCopy d.

Definition TLSRoute_checkParentRef (k8s : K8sTLSRoute) :=
  checkParentRef extractGVK k8s.

Definition TLSRoute_processChecks (d : TLSRouteData) (st : Attach) : TLSRouteData * Attach :=
  processChecks extractGVK d st.

Definition TLSRoute_checkParentRefs (d : TLSRouteData) (st : Attach) : TLSRouteData * Attach :=
  checkParentRefs extractGVK d st.

Definition TLSRoute_BuildConditions (d : TLSRouteData) : TLSRouteData := Route_BuildConditions d.

Definition TLSRoute_mergeBackendConditions (d : TLSRouteData) : TLSRouteData :=
  mergeBackendConditions d.

Definition TLSRoute_checkBackendRef (tlsRoute : K8sTLSRoute)
    (services : gmap NamespacedName Service) (r : TLSRouteRule) : TLSRouteRule :=
  checkBackendRef extractGVK (meta_Namespace (troute_Meta tlsRoute)) services r.

Definition TLSRoute_buildRules (services : gmap NamespacedName Service) (d : TLSRouteData) :
    TLSRouteData := buildRules extractGVK services d.

Definition computeTreeTLSRouteUpdate (controllerName : string) (key : NamespacedName)
    (routeUpdate : Update K8sTLSRoute) (t : RouteTree K8sTLSRoute K8sTLSRouteRule) :
    RouteTree K8sTLSRoute K8sTLSRouteRule :=
  computeTreeRouteUpdate extractGVK controllerName key routeUpdate t.

Definition TLSRoute_ComputeTreeUpdates (cs : ClusterStore) (controllerName : string)
    (services : gmap NamespacedName Service) (t : RouteTree K8sTLSRoute K8sTLSRouteRule) :
    RouteTree K8sTLSRoute K8sTLSRouteRule :=
  Route_ComputeTreeUpdates extractGVK controllerName services (updates (TLSRoutes cs)) t.

Definition HTTPRoute_ComputeTreeUpdates (cs : ClusterStore) (controllerName : string)
    (services : gmap NamespacedName Service) (t : RouteTree K8sHTTPRoute K8sHTTPRouteRule) :
    RouteTree K8sHTTPRoute K8sHTTPRouteRule :=
  Route_ComputeTreeUpdates extractGVK controllerName services (updates (HTTPRoutes cs)) t.
End tls_route.

(** ** Hostnames *)
Lemma wildcard_parts h :
  HasPrefix h "*." = true → ∃ d, h = "*." +:+ d ∧ TrimPrefix h "*." = d ∧
    drop_string 1 h = "." +:+ d.
Proof.
  intros [d ->]%HasPrefix_spec. exists d. split_and!; [done|apply TrimPrefix_app|done].
Qed.

(** A name is shorter than its own subdomains. *)
Lemma not_suffix_of_domain h d : HasSuffix h ("." +:+ d) = true → h ≠ d.
Proof.
  intros [t ->]%HasSuffix_spec Heq. apply (f_equal String.length) in Heq.
  rw !string_length_app /= in Heq. lia.
Qed.

Lemma match_spec r l :
  match_ r l = hostnamesMatchingRouteAndListener r l || hostnamesMatchingRouteAndListener l r.
Proof.
  assert (∀ h x, HasPrefix h "*." = true →
    negb (bool_decide (x = TrimPrefix h "*.")) && HasSuffix x ("." +:+ TrimPrefix h "*.") =
    HasSuffix x (drop_string 1 h)) as Hwild.
  { intros h x (d & -> & -> & ->)%wildcard_parts.
    destruct (HasSuffix x ("." +:+ d)) eqn:Hs; [|by rw andb_false_r].
    by rw bool_decide_eq_false_2; [apply not_suffix_of_domain|]. }
  unfold match_, hostnamesMatchingRouteAndListener. case_bool_decide as Heq.
  - subst r. destruct (HasPrefix l "*.") eqn:Hp; cbn [negb]; [|done].
    destruct (wildcard_parts _ Hp) as (d & -> & _ & ->). symmetry. apply orb_true_iff. left.
    apply HasSuffix_spec. by exists "*".
  - rw (bool_decide_eq_false_2 (l = r)); [congruence|].
    destruct (HasPrefix l "*.") eqn:Hl, (HasPrefix r "*.") eqn:Hr; cbn [negb andb];
      rw ?Hwild // ?orb_false_r;
      destruct (HasSuffix r (drop_string 1 l)), (HasSuffix l (drop_string 1 r)); done.
Qed.

Lemma matchedHostname_is_Some l r :
  is_Some (matchedHostname l r) ↔ match_ r l = true.
Proof.
  rw match_spec. unfold matchedHostname.
  destruct (hostnamesMatchingRouteAndListener r l), (hostnamesMatchingRouteAndListener l r);
    simpl; split; first [done|by eauto|by intros [? ?]].
Qed.

(** ** Attaching a route only adds its key to listeners *)
Section attaching.
Context {RO : RangeOrder} {R Rule : Type} {RK : RouteKind R Rule}.
Context (extractGVK : ExtractGVK).

(** A listener without its attached routes, a gateway without its status. *)
Definition strip (l : Listener) : Listener :=
  mkListener (lst_K8sResource l) (lst_Conditions l) ∅ (lst_Owner l) (CheckRouteGroupKind l)
    (CheckProtocol l) (CheckSecret l) (CheckConflict l) (AllowedRouteKinds l) (lst_Valid l).

Definition gw_core (g : Gateway) : GatewayData nat * bool :=
  (gt_data g, match Status (gt_TreeStatus g) with StatusDeleted => true | _ => false end).

Definition static (st st' : Attach) : Prop :=
  (∀ k, gw_core <$> (at_gateways st).1 !! k = gw_core <$> (at_gateways st').1 !! k) ∧
  (∀ loc, strip <$> at_heap st !! loc = strip <$> at_heap st' !! loc).

(** Between [st] and [st'], [key] was attached to the listeners in [S]. *)
Definition attaches (key : NamespacedName) (S : nat → Prop) (st st' : Attach) : Prop :=
  static st st' ∧
  ∀ loc l l', at_heap st !! loc = Some l → at_heap st' !! loc = Some l' →
    ∀ k, k ∈ lst_AttachedRoutes l' ↔ k ∈ lst_AttachedRoutes l ∨ (k = key ∧ S loc).

Lemma static_refl st : static st st.
Proof. done. Qed.

Lemma static_trans st1 st2 st3 : static st1 st2 → static st2 st3 → static st1 st3.
Proof. intros [H1 H2] [H3 H4]. split; intros; [by rw H1|by rw H2]. Qed.

Lemma static_sym st1 st2 : static st1 st2 → static st2 st1.
Proof. intros [H1 H2]. by split. Qed.

Lemma attaches_refl key st : attaches key (λ _, False) st st.
Proof. split; [done|]. intros loc l l' Hl Hl'. simplify_eq. naive_solver. Qed.

Lemma attaches_trans key S1 S2 st1 st2 st3 :
  attaches key S1 st1 st2 → attaches key S2 st2 st3 →
  attaches key (λ loc, S1 loc ∨ S2 loc) st1 st3.
Proof.
  intros [H1 H2] [H3 H4]. split; [by eapply static_trans|].
  intros loc l l'' Hl Hl'' k.
  destruct (at_heap st2 !! loc) as [l'|] eqn:Hl'.
  - rw (H4 _ _ _ Hl' Hl'') (H2 _ _ _ Hl Hl'). naive_solver.
  - pose proof (proj2 H1 loc) as Hst. by rw Hl Hl' in Hst.
Qed.

Lemma attaches_iff key S1 S2 st1 st2 :
  (∀ loc, S1 loc ↔ S2 loc) → attaches key S1 st1 st2 → attaches key S2 st1 st2.
Proof. intros HS [H1 H2]. split; [done|]. intros. by rw (H2 loc l l') // HS. Qed.

Lemma addAttachedRoute_attaches key loc st :
  attaches key (λ loc', loc' = loc) st (addAttachedRoute key loc st).
Proof.
  unfold addAttachedRoute. destruct (at_heap st !! loc) as [l|] eqn:Hl.
  2:{ split; [done|]. intros loc' l l' Hl1 Hl2 k. simplify_eq.
      split; [by left|]. intros [?|[_ ->]]; congruence. }
  cbv zeta. set (l' := mkListener _ _ _ _ _ _ _ _ _ _).
  assert (strip l' = strip l) as Hstrip by done.
  assert (∀ st', at_heap st' = <[loc := l']> (at_heap st) →
    (∀ k, gw_core <$> (at_gateways st).1 !! k = gw_core <$> (at_gateways st').1 !! k) →
    attaches key (λ loc', loc' = loc) st st') as Hgen.
  { intros st' Hh Hg. split; [split; [done|]|].
    - intros loc'. rw Hh. destruct (decide (loc = loc')) as [<-|Hne].
      + by rw lookup_insert_eq Hl /= Hstrip.
      + by rw lookup_insert_ne.
    - intros loc' l1 l2 Hl1 Hl2 k. rw Hh in Hl2. destruct (decide (loc = loc')) as [<-|Hne].
      + rw lookup_insert_eq in Hl2. assert (l2 = l') as -> by congruence.
        assert (l1 = l) as -> by congruence. simpl. set_solver.
      + rw lookup_insert_ne // in Hl2. simplify_eq. naive_solver. }
  destruct ((at_gateways st).1 !! lst_Owner l) as [g|] eqn:Hg; [|by apply Hgen].
  destruct (Status (gt_TreeStatus g)) eqn:Hst; apply Hgen; try done; intros k; simpl.
  all: destruct (decide (lst_Owner l = k)) as [<-|Hne]; [|by rw lookup_insert_ne].
  all: rw Hg lookup_insert_eq /=; unfold gw_core; simpl; by rw Hst.
Qed.

(** ** Detaching *)

(** Between [st] and [st'], [key] was detached from the listeners in [S]. *)
Definition detaches (key : NamespacedName) (S : nat → Prop) (st st' : Attach) : Prop :=
  static st st' ∧
  ∀ loc l l', at_heap st !! loc = Some l → at_heap st' !! loc = Some l' →
    ∀ k, k ∈ lst_AttachedRoutes l' ↔ k ∈ lst_AttachedRoutes l ∧ ¬ (k = key ∧ S loc).

Lemma detaches_refl key st : detaches key (λ _, False) st st.
Proof. split; [done|]. intros loc l l' Hl Hl'. simplify_eq. naive_solver. Qed.

Lemma detaches_trans key S1 S2 st1 st2 st3 :
  detaches key S1 st1 st2 → detaches key S2 st2 st3 →
  detaches key (λ loc, S1 loc ∨ S2 loc) st1 st3.
Proof.
  intros [H1 H2] [H3 H4]. split; [by eapply static_trans|].
  intros loc l l'' Hl Hl'' k.
  destruct (at_heap st2 !! loc) as [l'|] eqn:Hl'.
  - rw (H4 _ _ _ Hl' Hl'') (H2 _ _ _ Hl Hl'). naive_solver.
  - pose proof (proj2 H1 loc) as Hst. by rw Hl Hl' in Hst.
Qed.

Lemma detaches_iff key S1 S2 st1 st2 :
  (∀ loc, S1 loc ↔ S2 loc) → detaches key S1 st1 st2 → detaches key S2 st1 st2.
Proof. intros HS [H1 H2]. split; [done|]. intros. by rw (H2 loc l l') // HS. Qed.

Lemma deleteAttachedRoute_detaches key loc st :
  detaches key (λ loc', loc' = loc) st (deleteAttachedRoute key loc st).
Proof.
  unfold deleteAttachedRoute. destruct (at_heap st !! loc) as [l|] eqn:Hl.
  2:{ split; [done|]. intros loc' l l' Hl1 Hl2 k. simplify_eq.
      split; [|by intros [??]]. intros ?. split; [done|]. intros [_ ->]. congruence. }
  cbv zeta. set (l' := mkListener _ _ _ _ _ _ _ _ _ _).
  assert (strip l' = strip l) as Hstrip by done.
  assert (∀ st', at_heap st' = <[loc := l']> (at_heap st) →
    (∀ k, gw_core <$> (at_gateways st).1 !! k = gw_core <$> (at_gateways st').1 !! k) →
    detaches key (λ loc', loc' = loc) st st') as Hgen.
  { intros st' Hh Hg. split; [split; [done|]|].
    - intros loc'. rw Hh. destruct (decide (loc = loc')) as [<-|Hne].
      + by rw lookup_insert_eq Hl /= Hstrip.
      + by rw lookup_insert_ne.
    - intros loc' l1 l2 Hl1 Hl2 k. rw Hh in Hl2. destruct (decide (loc = loc')) as [<-|Hne].
      + rw lookup_insert_eq in Hl2. assert (l2 = l') as -> by congruence.
        assert (l1 = l) as -> by congruence. simpl. set_solver.
      + rw lookup_insert_ne // in Hl2. simplify_eq. naive_solver. }
  destruct ((at_gateways st).1 !! lst_Owner l) as [g|] eqn:Hg; [|by apply Hgen].
  destruct (Status (gt_TreeStatus g)) eqn:Hst; apply Hgen; try done; intros k; simpl.
  all: destruct (decide (lst_Owner l = k)) as [<-|Hne]; [|by rw lookup_insert_ne].
  all: rw Hg lookup_insert_eq /=; unfold gw_core; simpl; by rw Hst.
Qed.

Lemma detach_all key locs st :
  detaches key (λ loc, loc ∈ locs) st (foldl (λ st l, deleteAttachedRoute key l st) st locs).
Proof.
  apply (foldl_prefix_ind (λ pre s, detaches key (λ loc, loc ∈ pre) st s)).
  - eapply detaches_iff; [|apply detaches_refl]. intros loc. cbn. by rw elem_of_nil.
  - intros pre loc s _ IH. eapply detaches_iff; [|eapply detaches_trans; [exact IH|apply deleteAttachedRoute_detaches]].
    intros loc'. cbn. by rw elem_of_app list_elem_of_singleton.
Qed.

(** The listeners of some parent reference of the table. *)
Definition in_table (m : gmap string (list nat)) (loc : nat) : Prop :=
  ∃ parent locs, m !! parent = Some locs ∧ loc ∈ locs.

Lemma detach_table key (m : gmap string (list nat)) st :
  detaches key (in_table m) st
    (range_fold (λ _ listeners st, foldl (λ st l, deleteAttachedRoute key l st) st listeners) m st).
Proof.
  apply (range_fold_ind (λ d s, detaches key (in_table d) st s) _ m st).
  - eapply detaches_iff; [|apply detaches_refl]. intros loc. split; [done|].
    by intros (p & locs & Hp%lookup_empty_Some & _).
  - intros p locs d s _ Hd _ IH.
    eapply detaches_iff; [|eapply detaches_trans; [exact IH|apply detach_all]].
    intros loc. cbn. unfold in_table. split.
    + intros [(p' & locs' & Hp' & Hin)|Hin]; [|exists p, locs; by rw lookup_insert_eq].
      exists p', locs'. rw lookup_insert_ne; [by intros ->; congruence|done].
    + intros (p' & locs' & [[<- <-]|[_ Hp']]%lookup_insert_Some & Hin); [by right|left; eauto].
Qed.

(** ** Which listeners a parent reference attaches to *)
Implicit Types (k8s : R) (pr : ParentReference).

Definition listener_accepts k8s (st : Attach) (loc : nat) : Prop :=
  ∃ l, at_heap st !! loc = Some l ∧ lst_Valid l = true ∧
    matchHostname (route_Hostnames k8s) (l_Hostname (lst_K8sResource l)) = true ∧
    isAllowedRouteKind extractGVK l = true.

(** The reference names a live gateway of ours, and [loc] is the listener it
    names, or any listener when it names none. *)
Definition parent_reaches k8s (st : Attach) pr (loc : nat) : Prop :=
  IsParentRefGroupKindSupported extractGVK pr = true ∧
  ∃ g, (at_gateways st).1 !! GetParentRefNamespacedName pr (meta_Namespace (route_Meta k8s)) = Some g ∧
    Status (gt_TreeStatus g) ≠ StatusDeleted ∧
    match p_SectionName pr with
    | Some section =>
        gt_Listeners (gt_data g) !! section = Some loc ∧
        ∃ l, at_heap st !! loc = Some l ∧ section_admits (lst_K8sResource l) = true
    | None => ∃ name, gt_Listeners (gt_data g) !! name = Some loc
    end.

Definition attach_ok k8s (st : Attach) pr (loc : nat) : Prop :=
  parent_reaches k8s st pr loc ∧ listener_accepts k8s st loc.

Lemma listener_accepts_eq k8s st loc :
  listener_accepts k8s st loc ↔
  ∃ l, at_heap st !! loc = Some l ∧ listener_refusal extractGVK k8s l = None.
Proof.
  unfold listener_accepts, listener_refusal. split; intros (l & Hl & Hr); exists l; split; try done.
  - by destruct Hr as (-> & -> & ->).
  - destruct (lst_Valid l), (matchHostname _ _), (isAllowedRouteKind _ _); done.
Qed.

Lemma refusal_strip k8s l : listener_refusal extractGVK k8s (strip l) = listener_refusal extractGVK k8s l.
Proof. done. Qed.

Lemma static_listener st st' loc l :
  static st st' → at_heap st !! loc = Some l →
  ∃ l', at_heap st' !! loc = Some l' ∧ strip l' = strip l.
Proof.
  intros [_ Hs] Hl. specialize (Hs loc). rw Hl in Hs.
  destruct (at_heap st' !! loc) as [l'|]; simpl in Hs; [|done]. exists l'. split; congruence.
Qed.

Lemma static_gateway st st' k g :
  static st st' → (at_gateways st).1 !! k = Some g →
  ∃ g', (at_gateways st').1 !! k = Some g' ∧ gt_data g' = gt_data g ∧
    (Status (gt_TreeStatus g') = StatusDeleted ↔ Status (gt_TreeStatus g) = StatusDeleted).
Proof.
  intros [Hs _] Hg. specialize (Hs k). rw Hg in Hs.
  destruct ((at_gateways st').1 !! k) as [g'|]; simpl in Hs; [|done].
  exists g'. unfold gw_core in Hs. injection Hs as H1 H2. split_and!; [done..|].
  by destruct (Status (gt_TreeStatus g)), (Status (gt_TreeStatus g')).
Qed.

Lemma listener_accepts_static k8s st st' loc :
  static st st' → listener_accepts k8s st loc ↔ listener_accepts k8s st' loc.
Proof.
  assert (∀ st st', static st st' → listener_accepts k8s st loc → listener_accepts k8s st' loc)
    as Hgen.
  { intros st1 st2 Hs (l & Hl & Hr)%listener_accepts_eq. apply listener_accepts_eq. destruct (static_listener _ _ _ _ Hs Hl) as (l' & Hl' & Heq).
    exists l'. split; [done|]. by rw -refusal_strip Heq refusal_strip. }
  split; [by apply Hgen|]. apply Hgen. by apply static_sym.
Qed.

Lemma attach_ok_static k8s st st' pr loc :
  static st st' → attach_ok k8s st pr loc ↔ attach_ok k8s st' pr loc.
Proof.
  assert (∀ st st', static st st' → attach_ok k8s st pr loc → attach_ok k8s st' pr loc) as Hgen.
  { intros st1 st2 Hs [(Hk & g & Hg & Hst & Hsec) Hacc].
    split; [|by eapply listener_accepts_static; [apply static_sym|]].
    destruct (static_gateway _ _ _ _ Hs Hg) as (g' & Hg' & Hd & Hdel).
    split; [done|]. exists g'. split_and!; [done|tauto|]. rw Hd.
    destruct (p_SectionName pr); [|done]. destruct Hsec as (Hloc & l & Hl & Hadm).
    split; [done|]. destruct (static_listener _ _ _ _ Hs Hl) as (l' & Hl' & Heq).
    exists l'. split; [done|]. apply (f_equal lst_K8sResource) in Heq. simpl in Heq. by rw Heq. }
  split; [by apply Hgen|]. apply Hgen. by apply static_sym.
Qed.

(** The loop over the attachable listeners. *)
Lemma attach_loop k8s pr locs listeners st :
  let s := foldl (attach_listener extractGVK k8s pr) (mkAttachLoop ∅ [] listeners st) locs in
  (∀ loc, loc ∈ al_valid s ↔ loc ∈ locs ∧ listener_accepts k8s st loc) ∧
  attaches (meta_key (route_Meta k8s)) (λ loc, loc ∈ al_valid s) st (al_attach s).
Proof.
  apply (foldl_prefix_ind (λ pre s,
    (∀ loc, loc ∈ al_valid s ↔ loc ∈ pre ∧ listener_accepts k8s st loc) ∧
    attaches (meta_key (route_Meta k8s)) (λ loc, loc ∈ al_valid s) st (al_attach s))).
  - simpl. split; [set_solver|]. eapply attaches_iff; [|apply attaches_refl]. set_solver.
  - intros pre loc s _ [IH1 IH2]. unfold attach_listener.
    assert (listener_accepts k8s st loc ↔ ∃ l, at_heap (al_attach s) !! loc = Some l ∧
      listener_refusal extractGVK k8s l = None) as Hacc.
    { rw (listener_accepts_static _ _ (al_attach s)); [apply IH2|apply listener_accepts_eq]. }
    setoid_rewrite elem_of_app. setoid_rewrite list_elem_of_singleton.
    destruct (at_heap (al_attach s) !! loc) as [l|]; simpl;
      [destruct (listener_refusal extractGVK k8s l) eqn:Hr; simpl|].
    + split; [|done]. intros loc'. rw IH1. split; [naive_solver|].
      intros [[?| ->] Ha]; [done|]. exfalso. apply Hacc in Ha as (? & [= <-] & ?). congruence.
    + split.
      * intros loc'. rw elem_of_app list_elem_of_singleton IH1. split; [|naive_solver].
        intros [?| ->]; [naive_solver|]. split; [by right|]. apply Hacc. eauto.
      * eapply attaches_iff; [|eapply attaches_trans; [exact IH2|apply addAttachedRoute_attaches]].
        intros loc'. simpl. by rw elem_of_app list_elem_of_singleton.
    + split; [|done]. intros loc'. rw IH1. split; [naive_solver|].
      intros [[?| ->] Ha]; [done|]. exfalso. apply Hacc in Ha as (? & ? & _). done.
Qed.

(** Whether the attachable listeners are those the reference reaches. *)
Lemma attachable_listeners_spec k8s st pr g :
  IsParentRefGroupKindSupported extractGVK pr = true →
  (at_gateways st).1 !! GetParentRefNamespacedName pr (meta_Namespace (route_Meta k8s)) = Some g →
  Status (gt_TreeStatus g) ≠ StatusDeleted →
  ∀ loc, attach_ok k8s st pr loc ↔
    match attachable_listeners pr g (at_heap st) with
    | inl locs => loc ∈ locs ∧ listener_accepts k8s st loc
    | inr _ => False
    end.
Proof.
  intros Hk Hg Hst loc. unfold attach_ok, parent_reaches, attachable_listeners.
  assert (∀ P, (IsParentRefGroupKindSupported extractGVK pr = true ∧ ∃ g0,
    (at_gateways st).1 !! GetParentRefNamespacedName pr (meta_Namespace (route_Meta k8s)) = Some g0 ∧
    Status (gt_TreeStatus g0) ≠ StatusDeleted ∧ P g0) ↔ P g) as Hg0.
  { intros P. split; [|eauto]. intros (_ & g0 & Hg' & _ & HP). congruence. }
  rw (Hg0 (λ g0, match p_SectionName pr with Some section => _ | None => _ end)).
  destruct (p_SectionName pr) as [section|].
  - destruct (gt_Listeners (gt_data g) !! section) as [loc'|]; [|naive_solver].
    destruct (at_heap st !! loc') as [l|] eqn:Hl.
    + destruct (section_admits (lst_K8sResource l)) eqn:Ha.
      * rw list_elem_of_singleton. split; [by intros [[[= ->] _] ?]|].
        intros [-> ?]. eauto 6.
      * split; [|done]. intros [[[= ->] (l0 & Hl0 & Ha0)] _]. congruence.
    + rw elem_of_nil. split; [|by intros [? _]].
      intros [[[= ->] (l0 & Hl0 & _)] _]. congruence.
  - apply and_iff_compat_r. rw list_elem_of_fmap. split.
    + intros [name Hn]. exists (name, loc). split; [done|]. by apply elem_of_range.
    + intros ([name loc'] & -> & Hin%elem_of_range). by exists name.
Qed.

Lemma no_attach k8s st pr :
  (∀ g, (at_gateways st).1 !! GetParentRefNamespacedName pr (meta_Namespace (route_Meta k8s)) = Some g →
     IsParentRefGroupKindSupported extractGVK pr = true →
     Status (gt_TreeStatus g) = StatusDeleted) →
  ∀ loc, ¬ attach_ok k8s st pr loc.
Proof. intros Hno loc [(Hk & g & Hg & Hst & _) _]. by apply Hst, Hno. Qed.

Lemma checkParentRef_spec k8s pr listeners st :
  let '(res, _, st') := checkParentRef extractGVK k8s pr listeners st in
  (pr_Valid res = true ↔ ∃ loc, attach_ok k8s st pr loc) ∧
  (pr_Valid res = true → pr_Managed res = true) ∧
  attaches (meta_key (route_Meta k8s)) (attach_ok k8s st pr) st st'.
Proof.
  unfold checkParentRef.
  assert ((∀ loc, ¬ attach_ok k8s st pr loc) →
    ∀ c m,
    (pr_Valid (mkParentResult c m false) = true ↔ ∃ loc, attach_ok k8s st pr loc) ∧
    (pr_Valid (mkParentResult c m false) = true → pr_Managed (mkParentResult c m false) = true) ∧
    attaches (meta_key (route_Meta k8s)) (attach_ok k8s st pr) st st) as Hfail.
  { intros Hno c m. simpl. split_and!; [naive_solver|done|].
    eapply attaches_iff; [|apply attaches_refl]. naive_solver. }
  destruct (IsParentRefGroupKindSupported extractGVK pr) eqn:Hk; cbn [negb].
  2:{ eapply Hfail, no_attach. intros; congruence. }
  destruct ((at_gateways st).1 !! _) as [g|] eqn:Hg.
  2:{ eapply Hfail, no_attach. intros g Hg'. congruence. }
  destruct (decide (Status (gt_TreeStatus g) = StatusDeleted)) as [Hst|Hst].
  { rw Hst. eapply Hfail, no_attach. intros; congruence. }
  assert (match Status (gt_TreeStatus g) with StatusDeleted => False | _ => True end) as Hst'.
  { by destruct (Status (gt_TreeStatus g)). }
  pose proof (attachable_listeners_spec k8s st pr g Hk Hg Hst) as Hok.
  destruct (Status (gt_TreeStatus g)); [|done|].
  all: destruct (attachable_listeners pr g (at_heap st)) as [locs|c]; [|eapply Hfail; intros loc Hloc; by apply Hok in Hloc].
  all: destruct (attach_loop k8s pr locs listeners st) as [H1 H2]; cbv zeta in H1, H2.
  all: set (s := foldl _ _ locs) in *.
  all: assert (attaches (meta_key (route_Meta k8s)) (attach_ok k8s st pr) st (al_attach s)) as H3
    by (eapply attaches_iff; [|exact H2]; intros loc; cbn beta; rw H1 Hok //).
  all: case_bool_decide as Hlen; simpl; split_and!; try done; split; try done.
  all: try (intros [loc Hloc]; apply Hok in Hloc; apply H1 in Hloc;
    apply nil_length_inv in Hlen; rw Hlen in Hloc; by apply elem_of_nil in Hloc).
  all: intros _; destruct (al_valid s) as [|loc vs] eqn:Hv; [done|]; exists loc; apply Hok, H1; left.
Qed.

(** Some parent reference of the list attaches the route to the listener. *)
Definition attached_by k8s (st : Attach) (prs : list ParentReference) (loc : nat) : Prop :=
  ∃ pr, pr ∈ prs ∧ attach_ok k8s st pr loc.

Lemma attached_by_snoc k8s st prs pr loc :
  attached_by k8s st (prs ++ [pr]) loc ↔ attached_by k8s st prs loc ∨ attach_ok k8s st pr loc.
Proof.
  unfold attached_by. split.
  - intros (pr0 & [Hin|Hin]%elem_of_app & Hok); [left; eauto|right].
    by apply list_elem_of_singleton in Hin as ->.
  - intros [(pr0 & Hin & Hok)|Hok]; [exists pr0|exists pr]; (split; [|done]);
      apply elem_of_app; [by left|right; left].
Qed.

(** The loop over the parent references. *)
Lemma parents_loop k8s prs c listeners st :
  let s := foldl (check_one_parent extractGVK k8s) (mkParentLoop c false listeners st) prs in
  (pl_valid s = true ↔ ∃ loc, attached_by k8s st prs loc) ∧
  attaches (meta_key (route_Meta k8s)) (attached_by k8s st prs) st (pl_attach s).
Proof.
  apply (foldl_prefix_ind (λ pre s,
    (pl_valid s = true ↔ ∃ loc, attached_by k8s st pre loc) ∧
    attaches (meta_key (route_Meta k8s)) (attached_by k8s st pre) st (pl_attach s))).
  - assert (∀ loc, ¬ attached_by k8s st [] loc) as Hno.
    { intros loc (pr & Hin & _). by apply elem_of_nil in Hin. }
    split; [split; [done|]; by intros [loc Hloc%Hno]|].
    eapply attaches_iff; [|apply attaches_refl]. intros loc. split; [done|apply Hno].
  - intros pre pr s _ [IH1 IH2]. unfold check_one_parent.
    pose proof (checkParentRef_spec k8s pr (pl_listeners s) (pl_attach s)) as Hpr.
    destruct (checkParentRef _ _ _ _ _) as [[res ls] st']. destruct Hpr as (Hv & Hm & Ha).
    assert (∀ loc, attach_ok k8s (pl_attach s) pr loc ↔ attach_ok k8s st pr loc) as Hst.
    { intros loc. apply attach_ok_static, static_sym, IH2. }
    assert (attaches (meta_key (route_Meta k8s)) (attached_by k8s st (pre ++ [pr])) st st') as Hatt.
    { eapply attaches_iff; [|eapply attaches_trans; [exact IH2|exact Ha]].
      intros loc. cbn beta. by rw Hst attached_by_snoc. }
    assert ((pl_valid s || pr_Valid res) = true ↔ ∃ loc, attached_by k8s st (pre ++ [pr]) loc)
      as Hval.
    { rw orb_true_iff IH1 Hv. split.
      - intros [[loc H]|[loc H%Hst]]; exists loc; apply attached_by_snoc; auto.
      - intros [loc [H|H]%attached_by_snoc]; [left; eauto|right; exists loc; by apply Hst]. }
    destruct (pr_Managed res), (pr_Valid res); simpl;
      rw ?orb_false_r ?orb_true_r in Hval; try done.
    by specialize (Hm eq_refl).
Qed.

Lemma processChecks_attached (d : RouteData R Rule) k8s st :
  rt_K8sResource d = Some k8s →
  let '(d', st') := processChecks extractGVK d st in
  rt_K8sResource (Route_BuildConditions d') = Some k8s ∧ rt_K8sResource d' = Some k8s ∧
  attaches (meta_key (route_Meta k8s)) (attached_by k8s st (route_ParentRefs k8s)) st st' ∧
  if Route_isManaged d'
  then ∃ loc, attached_by k8s st (route_ParentRefs k8s) loc
  else ¬ ∃ loc, attached_by k8s st (route_ParentRefs k8s) loc.
Proof.
  intros Hk. unfold processChecks, checkParentRefs. rw Hk.
  destruct (parents_loop k8s (route_ParentRefs k8s)
    (NewRouteConditions (ControllerName d)) (rt_Listeners d) st) as [Hv Hs].
  set (s := foldl _ _ _) in *. unfold Route_BuildConditions, Route_isManaged. simpl.
  destruct (pl_valid s); simpl; split_and!; try done; [by apply Hv|]. by intros ?%Hv.
Qed.
End attaching.

(** ** Rules *)
Section rules.
Context {R Rule : Type} {RK : RouteKind R Rule} (extractGVK : ExtractGVK).
Context (routeNs : string) (services : gmap NamespacedName Service).

Definition backend_ok (b : BackendObjectReference) : bool :=
  isBackendRefGroupKindSupported extractGVK b && service_usable services (ServiceNsNameKey routeNs b).

Definition backend_check (b : BackendObjectReference) : CheckResult :=
  if negb (isBackendRefGroupKindSupported extractGVK b)
  then mkCheckResult (ConditionKOResolvedRefInvalidKind (BackendObjectReferenceToKey b)) false
  else if negb (service_usable services (ServiceNsNameKey routeNs b))
  then mkCheckResult (ConditionKOResolvedRefNotFound (BackendObjectReferenceToKey b)) false
  else mkCheckResult ConditionOKResolvedRef true.

Lemma backend_check_Valid b : check_Valid (backend_check b) = backend_ok b.
Proof.
  unfold backend_check, backend_ok.
  destruct (isBackendRefGroupKindSupported _ _), (service_usable _ _); done.
Qed.

(** The validity left by the loop: that of the prefix up to the last reference
    that resolves. *)
Fixpoint rule_verdict (routeValid valid : bool) (bs : list BackendObjectReference) : bool :=
  match bs with
  | [] => valid
  | b :: bs => if backend_ok b then rule_verdict routeValid routeValid bs
               else rule_verdict false valid bs
  end.

Lemma check_one_eq v (r : RouteRule Rule) b :
  check_one_backendRef extractGVK routeNs services (v, r) b =
  (if backend_ok b then v else false,
   mkRouteRule (rule_K8sResource r) (KeyMaps.Set_ (CheckBackendRef r) b (backend_check b))
     (if backend_ok b then v else rule_Valid r)).
Proof.
  unfold check_one_backendRef, backend_check, backend_ok.
  destruct (isBackendRefGroupKindSupported _ _), (service_usable _ _); done.
Qed.

Lemma check_loop bs v (r : RouteRule Rule) :
  (foldl (check_one_backendRef extractGVK routeNs services) (v, r) bs).2 =
  mkRouteRule (rule_K8sResource r)
    (foldl (λ m b, KeyMaps.Set_ m b (backend_check b)) (CheckBackendRef r) bs)
    (rule_verdict v (rule_Valid r) bs).
Proof.
  revert v r. induction bs as [|b bs IH]; intros v r; [by destruct r|].
  cbn [foldl]. rw check_one_eq IH. simpl. by destruct (backend_ok b).
Qed.

Lemma rule_verdict_false v bs :
  rule_verdict false v bs = true ↔ v = true ∧ forallb (λ b, negb (backend_ok b)) bs = true.
Proof.
  revert v. induction bs as [|b bs IH]; intros v; simpl; [tauto|].
  destruct (backend_ok b); simpl; rw IH; [naive_solver|tauto].
Qed.

(** The references up to some resolved one all resolve, and none after it does. *)
Definition ok_then_ko (bs : list BackendObjectReference) : Prop :=
  ∃ pre b suf, bs = pre ++ b :: suf ∧ forallb backend_ok (pre ++ [b]) = true ∧
    forallb (λ b, negb (backend_ok b)) suf = true.

Lemma ok_then_ko_cons b bs :
  ok_then_ko (b :: bs) ↔
  backend_ok b = true ∧ (forallb (λ b, negb (backend_ok b)) bs = true ∨ ok_then_ko bs).
Proof.
  split.
  - intros ([|b' pre] & x & suf & Heq & Hok & Hko); simplify_eq/=.
    + apply andb_true_iff in Hok as [Hok _]. auto.
    + apply andb_true_iff in Hok as [Hb Hok]. split; [done|]. right. by exists pre, x, suf.
  - intros [Hb [Hko|(pre & x & suf & -> & Hok & Hko)]].
    + exists [], b, bs. simpl. by rw Hb.
    + exists (b :: pre), x, suf. simpl. by rw Hb.
Qed.

Lemma rule_verdict_true v bs :
  rule_verdict true v bs = true ↔
  (v = true ∧ forallb (λ b, negb (backend_ok b)) bs = true) ∨ ok_then_ko bs.
Proof.
  revert v. induction bs as [|b bs IH]; intros v; simpl.
  - split; [tauto|]. intros [[? _]|([] & ? & ? & ? & _)]; done.
  - rw ok_then_ko_cons. destruct (backend_ok b); simpl; [rw IH|rw rule_verdict_false]; naive_solver.
Qed.

(** The table of the checks, by the key of the reference (which has no port). *)
Lemma check_table bs (m : KeyMap BackendObjectReference CheckResult) b :
  computeKey m = BackendObjectReferenceToKey → Forall backendRef_ok bs → backendRef_ok b →
  b ∈ bs →
  KeyMaps.Get (foldl (λ m b, KeyMaps.Set_ m b (backend_check b)) m bs) b = Some (backend_check b).
Proof.
  intros Hm Hbs Hb.
  assert (∀ b', backendRef_ok b' →
    BackendObjectReferenceToKey b' = BackendObjectReferenceToKey b →
    backend_check b' = backend_check b) as Hsame.
  { intros b' Hb' Hkey. pose proof (KeyToBackendObjectReference_Key _ Hb') as H1.
    rw Hkey KeyToBackendObjectReference_Key // in H1.
    destruct b, b'. simpl in H1. simplify_eq. unfold backend_check. by rw Hkey. }
  enough (∀ bs m, computeKey m = BackendObjectReferenceToKey → Forall backendRef_ok bs →
    (b ∈ bs ∨ KeyMaps.Get m b = Some (backend_check b)) →
    KeyMaps.Get (foldl (λ m b, KeyMaps.Set_ m b (backend_check b)) m bs) b = Some (backend_check b))
    as Hgen by auto.
  clear bs m Hm Hbs. induction bs as [|b' bs IH]; intros m Hm Hbs Hin; simpl.
  - destruct Hin as [Hin|]; [by apply elem_of_nil in Hin|done].
  - apply Forall_cons in Hbs as [Hb' Hbs]. apply IH; [done|done|].
    destruct (decide (BackendObjectReferenceToKey b' = BackendObjectReferenceToKey b)) as [Hk|Hk].
    + right. unfold KeyMaps.Get, KeyMaps.Set_. simpl. rw Hm Hk lookup_insert_eq. f_equal. auto.
    + destruct Hin as [[->|?]%elem_of_cons|Hg]; [done|by left|].
      right. rw Get_Set_ne // Hm //.
Qed.
End rules.

(** ** The conditions of the backend references *)
Section resolved.
Context {RO : RangeOrder} {R Rule : Type} {RK : RouteKind R Rule} (extractGVK : ExtractGVK).

(** A failed check holds one condition, ResolvedRefs=False. *)
Definition ko_conditions (c : Conditions) : Prop :=
  ∃ cond, c = {[ ResolvedRefs := cond ]} ∧ Conditions.Status cond = ConditionFalse.

Definition check_shape (c : CheckResult) : Prop :=
  check_Valid c = false → ko_conditions (check_Conditions c).

Lemma backend_check_shape ns services b : check_shape (backend_check extractGVK ns services b).
Proof.
  unfold backend_check, check_shape. repeat case_match; simpl; try done; intros _;
    eexists; split; reflexivity.
Qed.

Definition checks_valid (rules : list (RouteRule Rule)) : Prop :=
  Forall (λ r, map_Forall (λ _ c, check_Valid c = true) (data (CheckBackendRef r))) rules.

(** Nothing failed yet, or one ResolvedRefs=False is kept. *)
Definition ko_state (ok : Prop) (ko : Conditions) : Prop :=
  (ok ∧ ko = ∅) ∨ (¬ ok ∧ ko_conditions ko).

Lemma ko_state_iff P Q ko : (P ↔ Q) → ko_state P ko → ko_state Q ko.
Proof. unfold ko_state. tauto. Qed.

Lemma ko_state_step ok ko c :
  ko_state ok ko → check_shape c →
  ko_state (ok ∧ check_Valid c = true)
    (if negb (check_Valid c) then MergeOverrideConditions ko (check_Conditions c) else ko).
Proof.
  intros Hko Hc. unfold check_shape in Hc. destruct (check_Valid c); simpl.
  - eapply ko_state_iff; [|done]. tauto.
  - right. split; [naive_solver|]. destruct (Hc eq_refl) as (cond & -> & Hst).
    exists cond. split; [|done]. destruct Hko as [[_ ->]|(_ & cond' & -> & _)].
    + apply Merge_empty_l.
    + unfold MergeOverrideConditions. apply map_eq. intros k. rw lookup_union !lookup_singleton.
      by case_decide.
Qed.

Lemma koBackendRefConds_state rules :
  Forall (λ r, map_Forall (λ _ c, check_shape c) (data (CheckBackendRef r))) rules →
  ko_state (checks_valid rules) (koBackendRefConds rules).
Proof.
  intros Hshape. unfold koBackendRefConds, checks_valid.
  apply (foldl_prefix_ind (λ pre ko, ko_state
    (Forall (λ r, map_Forall (λ _ c, check_Valid c = true) (data (CheckBackendRef r))) pre) ko)).
  - by left.
  - intros pre r ko [suf Hpre] IH. rw Iterate_fold.
    assert (map_Forall (λ _ c, check_shape c) (data (CheckBackendRef r))) as Hr.
    { subst rules. apply Forall_app in Hshape as [Hshape _].
      apply Forall_app in Hshape as [_ Hr]. exact (proj1 (Forall_singleton _ _) Hr). }
    eapply ko_state_iff; [by rw Forall_app Forall_singleton|].
    apply (range_fold_ind (λ d s, ko_state
      (Forall (λ r, map_Forall (λ _ c, check_Valid c = true) (data (CheckBackendRef r))) pre ∧
       map_Forall (λ _ c, check_Valid c = true) d) s)).
    + eapply ko_state_iff; [|exact IH]. split; [|tauto]. split; [done|]. apply map_Forall_empty.
    + intros k c d s Hk Hd _ IH'.
      eapply ko_state_iff; [|eapply ko_state_step; [exact IH'|by eapply Hr]].
      rw map_Forall_insert //. tauto.
Qed.

(** A loop over the parents of a table of conditions. *)
Lemma Iterate_parents {S} (m : KeyMap ParentReference Conditions)
    (f : ParentReference → Conditions → S → S) s :
  KeyMaps.Iterate m (λ key conds s,
    match KeyToParentRef key with Err _ => (s, true) | Ok p => (f p conds s, true) end) s =
  range_fold (λ key conds s,
    match KeyToParentRef key with Err _ => s | Ok p => f p conds s end) (data m) s.
Proof.
  rw -Iterate_fold. unfold KeyMaps.Iterate. revert s. induction (range (data m)) as [|[k v] l IH];
    intros s; simpl; [done|]. destruct (KeyToParentRef k); apply IH.
Qed.

(** Merging, for each entry of [m], conditions computed from it: the entries of
    [m] are merged into the conditions of their parents. *)
Lemma merge_parents (g : Conditions → Conditions) (m : gmap string Conditions)
    (c : RouteConditions) :
  computeKey (rc_Conditions c) = ParentRefToKey →
  map_Forall (λ k _, is_ok (KeyToParentRef k) = true) m →
  let c' := range_fold (λ key conds s,
    match KeyToParentRef key with
    | Err _ => s | Ok p => MergeOverrideConditionsForParentRef s p (g conds) end) m c in
  computeKey (rc_Conditions c') = ParentRefToKey ∧
  ∀ k, data (rc_Conditions c') !! k =
    match m !! k with
    | Some conds => Some (MergeOverrideConditions (default ∅ (data (rc_Conditions c) !! k)) (g conds))
    | None => data (rc_Conditions c) !! k
    end.
Proof.
  intros Hck Hm.
  apply (range_fold_ind (λ d s, computeKey (rc_Conditions s) = ParentRefToKey ∧
    ∀ k, data (rc_Conditions s) !! k =
      match d !! k with
      | Some conds => Some (MergeOverrideConditions (default ∅ (data (rc_Conditions c) !! k)) (g conds))
      | None => data (rc_Conditions c) !! k
      end) _ m c).
  - split; [done|]. intros k. by rw lookup_empty.
  - intros k v d s Hk Hd _ [Hs IH]. pose proof (Hm _ _ Hk) as Hok. cbn beta in Hok.
    destruct (KeyToParentRef k) as [p|] eqn:Hp; [|done]. apply ParentRefToKey_KeyTo in Hp.
    unfold MergeOverrideConditionsForParentRef, KeyMaps.Set_, KeyMaps.Get. simpl. rw Hs Hp.
    split; [done|]. intros k'. destruct (decide (k = k')) as [<-|Hne].
    + by rw !lookup_insert_eq IH Hd.
    + rw !lookup_insert_ne //.
Qed.

(** The conditions every parent gets. *)
Lemma merge_loop (c : RouteConditions) (rr : Conditions) :
  wf_route_conditions c →
  let c' := KeyMaps.Iterate (rc_Conditions c) (λ key (_ : Conditions) c,
    match KeyToParentRef key with
    | Err _ => (c, true)
    | Ok p => (MergeOverrideConditionsForParentRef c p rr, true)
    end) c in
  ∀ k, data (rc_Conditions c') !! k = (λ conds, MergeOverrideConditions conds rr) <$> data (rc_Conditions c) !! k.
Proof.
  intros [Hck Hwf] c' k. unfold c'.
  rw (Iterate_parents _ (λ p _ s, MergeOverrideConditionsForParentRef s p rr)).
  destruct (merge_parents (λ _, rr) (data (rc_Conditions c)) c Hck) as [_ ->].
  - intros k' v [Hok _]%Hwf. exact Hok.
  - by destruct (data (rc_Conditions c) !! k).
Qed.

(** The conditions of a managed route are those of its checks. *)
Lemma BuildConditions_checks (d : RouteData R Rule) :
  wf_route_conditions (cr_Conditions (CheckParentRefs d)) → Route_isManaged d = true →
  computeKey (rc_Conditions (rt_Conditions (Route_BuildConditions d))) = ParentRefToKey ∧
  data (rc_Conditions (rt_Conditions (Route_BuildConditions d))) =
  data (rc_Conditions (cr_Conditions (CheckParentRefs d))).
Proof.
  intros [_ Hwf] Hm. unfold Route_BuildConditions. rw Hm. cbn [negb rt_Conditions].
  rw (Iterate_parents _ (λ p conds s, MergeOverrideConditionsForParentRef s p conds)).
  edestruct (merge_parents (λ conds, conds)) as [H1 H2].
  3:{ split; [exact H1|]. apply map_eq. intros k. etrans; [apply H2|]. cbn.
      rw fmap_empty lookup_empty.
      destruct (data (rc_Conditions (cr_Conditions (CheckParentRefs d))) !! k); [|done].
      cbn. unfold MergeOverrideConditions. by rw map_union_empty. }
  - done.
  - intros k' v [Hok _]%Hwf. exact Hok.
Qed.
End resolved.

(** ** Well-formed conditions *)
Section well_formed.
Context {RO : RangeOrder} {R Rule : Type} {RK : RouteKind R Rule} (extractGVK : ExtractGVK).
Implicit Types (k8s : R) (pr : ParentReference).

(** The conditions a check makes: no generation was recorded in them. *)
Definition new_conditions (c : Conditions) : Prop :=
  map_Forall (λ k v, Type_ v = k ∧ ObservedGeneration v = 0%Z) c.

Definition new_route_conditions (c : RouteConditions) : Prop :=
  computeKey (rc_Conditions c) = ParentRefToKey ∧
  map_Forall (λ k v, is_ok (KeyToParentRef k) = true ∧ new_conditions v) (data (rc_Conditions c)).

Lemma new_empty : new_conditions ∅.
Proof. apply map_Forall_empty. Qed.

Lemma new_one k s r m : new_conditions (one k k s r m).
Proof. by apply map_Forall_singleton. Qed.

Lemma new_Merge c b : new_conditions c → new_conditions b → new_conditions (MergeOverrideConditions c b).
Proof. intros Hc Hb. by apply map_Forall_union_2. Qed.

Lemma new_MergeForParentRef c p conds :
  new_route_conditions c → new_conditions conds → parentRef_ok p →
  new_route_conditions (MergeOverrideConditionsForParentRef c p conds).
Proof.
  intros [Hk Hall] Hconds Hp. split; [done|]. simpl. rw Hk.
  apply map_Forall_insert_2; [|done]. split; [by rw KeyToParentRef_Key|].
  apply new_Merge; [|done]. unfold KeyMaps.Get. rw Hk.
  destruct (data (rc_Conditions c) !! ParentRefToKey p) eqn:E; [|apply new_empty].
  exact (proj2 (Hall _ _ E)).
Qed.

Lemma new_route_conditions_wf c : new_route_conditions c → wf_route_conditions c.
Proof.
  intros [Hk Hall]. split; [done|]. intros k v Hv. destruct (Hall k v Hv) as [H1 H2].
  split; [done|]. intros t x Hx. by destruct (H2 t x Hx).
Qed.

Lemma new_listener_refusal k8s l c :
  listener_refusal extractGVK k8s l = Some c → new_conditions c.
Proof. unfold listener_refusal. repeat case_match; intros; simplify_eq; apply new_one. Qed.

Lemma new_al_conds k8s pr locs s :
  new_conditions (al_conds s) →
  new_conditions (al_conds (foldl (attach_listener extractGVK k8s pr) s locs)).
Proof.
  revert s. induction locs as [|loc locs IH]; intros s Hs; [done|]. cbn [foldl]. apply IH.
  unfold attach_listener. destruct (at_heap _ !! loc) as [l|]; [|done].
  destruct (listener_refusal _ _ _) eqn:Hr; [|done].
  apply new_Merge; [done|by eapply new_listener_refusal].
Qed.

Lemma new_pr_Conditions k8s pr listeners st :
  new_conditions (pr_Conditions (checkParentRef extractGVK k8s pr listeners st).1.1).
Proof.
  unfold checkParentRef.
  destruct (negb _); [apply new_empty|]. destruct ((at_gateways st).1 !! _) as [g|]; [|apply new_empty].
  assert (∀ c, attachable_listeners pr g (at_heap st) = inr c → new_conditions c) as Hc.
  { unfold attachable_listeners. intros c. repeat case_match; intros; simplify_eq; apply new_one. }
  destruct (Status (gt_TreeStatus g)); [|apply new_one|].
  all: destruct (attachable_listeners pr g (at_heap st)) as [locs|c]; [|by apply Hc].
  all: case_bool_decide; [by apply new_al_conds|apply new_one].
Qed.

Lemma new_parents_loop k8s prs s :
  Forall parentRef_ok prs → new_route_conditions (pl_conditions s) →
  new_route_conditions (pl_conditions (foldl (check_one_parent extractGVK k8s) s prs)).
Proof.
  intros Hprs. revert s. induction Hprs as [|pr prs Hpr _ IH]; intros s Hs; [done|].
  cbn [foldl]. apply IH. unfold check_one_parent.
  pose proof (new_pr_Conditions k8s pr (pl_listeners s) (pl_attach s)) as Hwf.
  destruct (checkParentRef _ _ _ _ _) as [[res ls] st']. cbn [fst] in Hwf.
  destruct (pr_Managed res), (pr_Valid res); simpl; try done; by apply new_MergeForParentRef.
Qed.

Lemma new_checkParentRefs (d : RouteData R Rule) st k8s :
  rt_K8sResource d = Some k8s → Forall parentRef_ok (route_ParentRefs k8s) →
  new_route_conditions (cr_Conditions (CheckParentRefs (checkParentRefs extractGVK d st).1)).
Proof.
  intros Hk Hok. unfold checkParentRefs. rw Hk. apply new_parents_loop; [done|].
  split; [done|]. apply map_Forall_empty.
Qed.

Lemma wf_BuildConditions (d : RouteData R Rule) :
  wf_route_conditions (cr_Conditions (CheckParentRefs d)) → Route_isManaged d = true →
  wf_route_conditions (rt_Conditions (Route_BuildConditions d)).
Proof.
  intros Hwf Hm. destruct (BuildConditions_checks d Hwf Hm) as [H1 H2].
  split; [done|]. rw H2. apply Hwf.
Qed.
End well_formed.

(** ** The rules of a route *)
Section built_rules.
Context {RO : RangeOrder} {R Rule : Type} {RK : RouteKind R Rule} (extractGVK : ExtractGVK).
Context (ns : string) (services : gmap NamespacedName Service).

Definition new_rule (rule : Rule) : RouteRule Rule :=
  mkRouteRule rule (KeyMaps.NewKeyMap BackendObjectReferenceToKey) false.

Lemma checkBackendRef_table r :
  CheckBackendRef (checkBackendRef extractGVK ns services r) =
  foldl (λ m b, KeyMaps.Set_ m b (backend_check extractGVK ns services b)) (CheckBackendRef r)
    (rule_BackendRefs (rule_K8sResource r)).
Proof. unfold checkBackendRef. by rw check_loop. Qed.

(** Every entry of the table is the check of one of the references. *)
Lemma table_Forall (P : CheckResult → Prop) bs (m : KeyMap BackendObjectReference CheckResult) :
  map_Forall (λ _ c, P c) (data m) → Forall (λ b, P (backend_check extractGVK ns services b)) bs →
  map_Forall (λ _ c, P c)
    (data (foldl (λ m b, KeyMaps.Set_ m b (backend_check extractGVK ns services b)) m bs)).
Proof.
  revert m. induction bs as [|b bs IH]; intros m Hm; simpl; [by intros _|].
  intros [Hb Hbs]%Forall_cons. apply IH; [|done]. by apply map_Forall_insert_2.
Qed.

Lemma table_valid rule :
  Forall backendRef_ok (rule_BackendRefs rule) →
  map_Forall (λ _ c, check_Valid c = true)
    (data (CheckBackendRef (checkBackendRef extractGVK ns services (new_rule rule)))) ↔
  Forall (λ b, backend_ok extractGVK ns services b = true) (rule_BackendRefs rule).
Proof.
  intros Hok. rw checkBackendRef_table /=. split.
  - intros Hall. apply Forall_forall. intros b Hb. rw -backend_check_Valid.
    apply (Hall (BackendObjectReferenceToKey b)).
    assert (backendRef_ok b) as Hbok by (by eapply Forall_forall in Hok).
    pose proof (check_table extractGVK ns services (rule_BackendRefs rule)
      (KeyMaps.NewKeyMap BackendObjectReferenceToKey) b eq_refl Hok Hbok Hb) as Hget.
    unfold KeyMaps.Get in Hget. rw -Hget. f_equal.
    assert (∀ l m, computeKey m = BackendObjectReferenceToKey →
      computeKey (foldl (λ m b, KeyMaps.Set_ m b (backend_check extractGVK ns services b)) m l) =
      BackendObjectReferenceToKey) as Hck.
    { induction l as [|x l IHl]; intros m Hm; simpl; [done|]. by apply IHl. }
    by rw Hck.
  - intros Hall. apply table_Forall; [apply map_Forall_empty|].
    eapply Forall_impl; [exact Hall|]. intros b Hb. by rw backend_check_Valid.
Qed.

Lemma checks_valid_built rules :
  Forall (λ rule, Forall backendRef_ok (rule_BackendRefs rule)) rules →
  checks_valid (checkBackendRef extractGVK ns services <$> (new_rule <$> rules)) ↔
  Forall (λ rule, Forall (λ b, backend_ok extractGVK ns services b = true) (rule_BackendRefs rule))
    rules.
Proof.
  unfold checks_valid. induction rules as [|rule rules IH]; intros Hok; [by split; constructor|].
  apply Forall_cons in Hok as [H1 H2]. cbn [fmap list_fmap].
  rw !Forall_cons table_valid // IH //.
Qed.

Lemma checks_shape_built rules :
  Forall (λ r, map_Forall (λ _ c, check_shape c) (data (CheckBackendRef r)))
    (checkBackendRef extractGVK ns services <$> (new_rule <$> rules)).
Proof.
  apply Forall_forall. intros r (x & -> & (rule & -> & _)%list_elem_of_fmap)%list_elem_of_fmap.
  rw checkBackendRef_table. apply table_Forall; [apply map_Forall_empty|].
  apply Forall_forall. intros. apply backend_check_shape.
Qed.
End built_rules.

(** ** Cleaning the updates *)
Section cleaning.
Context {RO : RangeOrder} {R Rule : Type}.
Implicit Types (rs : gmap nat (Route R Rule)) (m : gmap NamespacedName nat).

Definition deleted rs (loc : nat) : Prop :=
  ∃ r, rs !! loc = Some r ∧ Status (rt_TreeStatus r) = StatusDeleted.

(** [rs'] is [rs] with the updates forgotten of the live routes in [S]. *)
Definition forgotten (S : nat → Prop) rs rs' : Prop :=
  (∀ loc, rt_data <$> rs' !! loc = rt_data <$> rs !! loc) ∧
  (∀ loc, deleted rs' loc ↔ deleted rs loc) ∧
  (∀ loc r, rs' !! loc = Some r → S loc → ¬ deleted rs loc → rt_TreeStatus r = zero_TreeUpdate) ∧
  (∀ loc r, rs !! loc = Some r → rt_TreeStatus r = zero_TreeUpdate → rs' !! loc = Some r).

Lemma clean_route_map_spec m rs :
  let '(m', rs') := clean_route_map m rs in
  (∀ k loc, m' !! k = Some loc ↔ m !! k = Some loc ∧ ¬ deleted rs loc) ∧
  forgotten (λ loc, ∃ k, m !! k = Some loc) rs rs'.
Proof.
  unfold clean_route_map.
  enough (let acc := range_fold (λ key loc acc,
    match acc.2 !! loc with
    | None => acc
    | Some r =>
        match Status (rt_TreeStatus r) with
        | StatusDeleted => (delete key acc.1, acc.2)
        | _ => (acc.1, <[loc := mkRoute (rt_data r) zero_TreeUpdate]> acc.2)
        end
    end) m (m, rs) in
    (∀ k loc, acc.1 !! k = Some loc ↔ m !! k = Some loc ∧ ¬ (is_Some (m !! k) ∧ deleted rs loc)) ∧
    forgotten (λ loc, ∃ k, m !! k = Some loc) rs acc.2) as Hgen.
  { cbv zeta in Hgen. destruct (range_fold _ m (m, rs)) as [m' rs']. destruct Hgen as [H1 H2].
    split; [|exact H2]. intros k loc. rw H1. naive_solver. }
  apply (range_fold_ind (λ done acc,
    (∀ k loc, acc.1 !! k = Some loc ↔ m !! k = Some loc ∧ ¬ (is_Some (done !! k) ∧ deleted rs loc)) ∧
    forgotten (λ loc, ∃ k, done !! k = Some loc) rs acc.2) _ m (m, rs)).
  - split; [|split_and!]; try done.
    + intros k loc. rw lookup_empty. split; [|by intros [? _]]. intros ?. split; [done|].
      by intros [[? ?] _].
    + intros loc r _ [k Hk]. by rw lookup_empty in Hk.
  - intros key loc d [am ars] Hkey Hd _ [IH1 (F1 & F2 & F3 & F4)]. cbn [fst snd] in *.
    assert (∀ k, is_Some (<[key := loc]> d !! k) ↔ key = k ∨ is_Some (d !! k)) as Hin.
    { intros k. apply lookup_insert_is_Some'. }
    assert (¬ deleted rs loc → ∀ k loc', am !! k = Some loc' ↔
      m !! k = Some loc' ∧ ¬ (is_Some (<[key := loc]> d !! k) ∧ deleted rs loc')) as Hkeep.
    { intros Hnd k loc'. pose proof (Hin k) as Hk. pose proof (IH1 k loc') as IHk.
      split; intros Hm; [|tauto]. split; [tauto|]. intros [[->|?]%Hk ?]; [|tauto].
      apply IHk in Hm as [Hm _]. congruence. }
    destruct (ars !! loc) as [r|] eqn:Hr.
    + destruct (decide (Status (rt_TreeStatus r) = StatusDeleted)) as [Hdel|Hlive].
      * assert (deleted rs loc) as Hdl by (apply F2; by exists r).
        rw Hdel. cbn [fst snd]. split; [|split_and!; try done].
        -- intros k loc'. rw lookup_delete_Some IH1. pose proof (Hin k) as Hk. split.
           ++ intros (Hne & Hm & Hn). split; [done|]. tauto.
           ++ intros [Hm Hn]. split_and!; [|done|tauto]. intros ->. apply Hn.
              split; [tauto|]. congruence.
        -- intros loc' r' Hr' [k [[_ <-]|[_ Hk]]%lookup_insert_Some] Hn; [done|]. eapply F3; eauto.
      * assert (¬ deleted rs loc) as Hnd.
        { intros (r' & Hr' & Hdel)%F2. congruence. }
        assert ((match Status (rt_TreeStatus r) with
          | StatusDeleted => (delete key am, ars)
          | _ => (am, <[loc := mkRoute (rt_data r) zero_TreeUpdate]> ars) end) =
          (am, <[loc := mkRoute (rt_data r) zero_TreeUpdate]> ars)) as ->.
        { by destruct (Status (rt_TreeStatus r)). }
        cbn [fst snd]. split; [|split_and!].
        -- by apply Hkeep.
        -- intros loc'. destruct (decide (loc = loc')) as [<-|Hne].
           ++ by rw lookup_insert_eq -F1 Hr.
           ++ rw lookup_insert_ne //.
        -- intros loc'. unfold deleted at 1. destruct (decide (loc = loc')) as [<-|Hne].
           ++ split; [|done]. rw lookup_insert_eq. by intros (? & [= <-] & ?).
           ++ rw lookup_insert_ne //. apply F2.
        -- intros loc' r' [[<- <-]|[Hne Hr']]%lookup_insert_Some; [done|].
           intros [k [[_ <-]|[_ Hk]]%lookup_insert_Some]; [done|]. eauto.
        -- intros loc' r' Hr' Hz. pose proof (F4 _ _ Hr' Hz) as Hr2.
           destruct (decide (loc = loc')) as [<-|Hne]; [|by rw lookup_insert_ne].
           rw lookup_insert_eq. simplify_eq. destruct r as [rd rts]. cbn in *. by subst rts.
    + assert (rs !! loc = None) as Hrs.
      { specialize (F1 loc). rw Hr in F1. by destruct (rs !! loc). }
      assert (¬ deleted rs loc) as Hnd by (intros (? & ? & _); congruence).
      cbn [fst snd]. split; [|split_and!; try done].
      * by apply Hkeep.
      * intros loc' r' Hr' [k [[_ <-]|[_ Hk]]%lookup_insert_Some]; [congruence|]. eauto.
Qed.
End cleaning.

(** ** Properties *)
Definition example_parentRef : ParentReference :=
  ParentRef None (Some "Gateway") None "gw" (Some "web") None.

Definition example_backend (name : string) : BackendObjectReference :=
  BackendObjRef None None name None (Some 80%Z).

Definition example_rule (backends : list string) : K8sHTTPRouteRule :=
  {| hr_Matches := [];
     hr_BackendRefs := (λ name, {| hb_Ref := example_backend name; hb_Weight := None;
                                   hb_Filters := [] |}) <$> backends |}.

Definition example_route (name : string) (backends : list string) : K8sHTTPRoute :=
  {| hroute_Meta := simple_meta "ns" name 3; hroute_ParentRefs := [example_parentRef];
     hroute_Hostnames := ["www.example.com"]; hroute_Rules := [example_rule backends];
     hroute_Status_Parents := [] |}.

(** The gateway ns/gw has one valid listener, at location 0. *)
Definition example_attach : Attach :=
  mkAttach
    ({[ NN "ns" "gw" := mkGateway
          (mkGatewayData (Some (example_gateway [example_listener 80 "HTTP"])) None ∅
             {[ "web" := 0 ]} zero_CheckResult zero_CheckResult zero_CheckResult true)
          zero_TreeUpdate ]}, ∅)
    {[ 0 := mkListener (example_listener 80 "HTTP") ∅ ∅ (NN "ns" "gw") zero_CheckResult
              zero_CheckResult zero_CheckResult zero_CheckResult [RGK None "HTTPRoute"] true ]}.

Definition example_route_data (name : string) (backends : list string) :
    RouteData K8sHTTPRoute K8sHTTPRouteRule :=
  rt_data (NewRoute (Some (example_route name backends)) "haproxy.org/gate").

Definition example_services : gmap NamespacedName Service :=
  {[ NN "ns" "svc" := mkLeaf None zero_TreeUpdate ]}.

(** C20: a listener whose hostname is not empty accepts the hostnames of a
    route exactly when one of them is empty, or the two have a hostname in common,
    which [GetHostnamesForRouteWithListener] lists.  (An empty hostname of a route,
    which the API refuses, is accepted whatever the listener, but is not listed.) *)
Theorem matchHostname_spec (RO : RangeOrder) h rs :
  h ≠ "" →
  matchHostname rs (Some h) = true ↔ "" ∈ rs ∨ GetHostnamesForRouteWithListener (Some h) rs ≠ [].
Proof.
  intros Hh. unfold matchHostname. rw bool_decide_eq_false_2 //.
  destruct rs as [|r0 rs]; [by split; [right|]|]. set (all := r0 :: rs) in *.
  rw (bool_decide_eq_false_2 (length all = 0)) //. destruct (existsb _ all) eqn:He.
  - split; [|done]. intros _.
    apply existsb_exists in He as (r & Hr%list_elem_of_In & [->%bool_decide_eq_true|Hm]%orb_true_iff); [by left|right].
    apply matchedHostname_is_Some in Hm as [x Hx].
    intros Hnil. apply (not_elem_of_nil x). rw -Hnil. apply elem_of_GetHostnames; [done|]. eauto.
  - split; [done|]. intros Hor. rw -He. apply existsb_exists.
    destruct Hor as [Hin%list_elem_of_In|Hnil]; [by exists ""|].
    destruct (GetHostnamesForRouteWithListener (Some h) all) as [|x xs] eqn:Hg; [done|].
    assert (x ∈ GetHostnamesForRouteWithListener (Some h) all) as Hx by (rw Hg; left).
    apply elem_of_GetHostnames in Hx as (r & Hr & Hx); [|done].
    assert (match_ r h = true) as Hm by (apply matchedHostname_is_Some; eauto).
    exists r. rw Hm orb_true_r. by split; [apply list_elem_of_In|].
Qed.

(** A hostname in common, none, and an empty one. *)
Lemma matchHostname_spec_witness :
  @GetHostnamesForRouteWithListener key_order (Some "*.example.com") ["a.org"; "www.example.com"] ≠ [] ∧
  matchHostname ["a.org"] (Some "*.example.com") ≠ true ∧
  matchHostname [""] (Some "*.example.com") = true.
Proof.
  split_and!.
  - destruct (proj1 (matchHostname_spec key_order "*.example.com" ["a.org"; "www.example.com"] ltac:(done)) eq_refl)
      as [Hin|H]; [|exact H]. by apply elem_of_cons in Hin as [[=]|[=]%list_elem_of_singleton].
  - intros Hm. destruct (proj1 (matchHostname_spec key_order "*.example.com" ["a.org"] ltac:(done)) Hm) as [Hin|H];
      [by apply list_elem_of_singleton in Hin|]. apply H. vm_refl.
  - apply (matchHostname_spec key_order); [done|]. left. by left.
Defined.

(** C19: a route attaches to exactly the listeners its parent references reach
    and that accept it: a listener is valid, has a hostname in common with the
    route and allows its kind.  The route is valid when there is one; the
    listeners it attaches to gain its key.  Nothing else changes of a listener,
    and of a gateway at most that it is marked upserted. *)
Theorem checkParentRefs_spec (RO : RangeOrder) (R Rule : Type) (RK : RouteKind R Rule)
    extractGVK (d : RouteData R Rule) k8s st :
  rt_K8sResource d = Some k8s →
  let '(d', st') := checkParentRefs extractGVK d st in
  let reached := attached_by extractGVK k8s st (route_ParentRefs k8s) in
  (cr_Valid (CheckParentRefs d') = true ↔ ∃ loc, reached loc) ∧
  static st st' ∧
  ∀ loc l l', at_heap st !! loc = Some l → at_heap st' !! loc = Some l' →
    ∀ k, k ∈ lst_AttachedRoutes l' ↔
         k ∈ lst_AttachedRoutes l ∨ (k = meta_key (route_Meta k8s) ∧ reached loc).
Proof.
  intros Hk. unfold checkParentRefs. rw Hk.
  destruct (parents_loop extractGVK k8s (route_ParentRefs k8s)
    (NewRouteConditions (ControllerName d)) (rt_Listeners d) st) as [Hv [Hs Ha]].
  split_and!; [exact Hv|exact Hs|exact Ha].
Qed.

Lemma checkParentRefs_spec_witness :
  let d := example_route_data "web" ["svc"] in
  let k8s := example_route "web" ["svc"] in
  (∃ loc, attached_by example_gvk k8s example_attach [example_parentRef] loc) ∧
  lst_AttachedRoutes <$>
    at_heap (@checkParentRefs key_order _ _ _ example_gvk d example_attach).2 !! 0 =
    Some {[ NN "ns" "web" ]}.
Proof.
  intros d k8s. pose proof (checkParentRefs_spec key_order K8sHTTPRoute K8sHTTPRouteRule _
    example_gvk d k8s example_attach eq_refl) as H.
  destruct (checkParentRefs example_gvk d example_attach) as [d' st'] eqn:Heq.
  split.
  - apply H. change d' with (d', st').1. rw -Heq. vm_refl.
  - cbn [snd]. change st' with (d', st').2. rw -Heq. vm_refl.
Defined.

(** The table of a rule holds, for each backend reference, the check of
    that reference: invalid kind, no such live service, or resolved.  The
    verdict on the rule depends on the order: a rule is valid when the
    references up to some resolved one all resolve and none after it does, so
    that trailing references that fail leave it valid, and leading ones do
    not. *)
Theorem checkBackendRef_spec (R Rule : Type) (RK : RouteKind R Rule) extractGVK ns services rule :
  Forall backendRef_ok (rule_BackendRefs rule) →
  let r := checkBackendRef extractGVK ns services (new_rule rule) in
  (rule_Valid r = true ↔ ok_then_ko extractGVK ns services (rule_BackendRefs rule)) ∧
  ∀ b, b ∈ rule_BackendRefs rule →
    KeyMaps.Get (CheckBackendRef r) b = Some (backend_check extractGVK ns services b).
Proof.
  intros Hok r. split.
  - unfold r, checkBackendRef. rw check_loop. simpl. rw rule_verdict_true. naive_solver.
  - intros b Hb. unfold r. rw checkBackendRef_table. apply check_table; try done.
    by eapply Forall_forall in Hok.
Qed.

Lemma checkBackendRef_spec_witness :
  let valid refs := rule_Valid (checkBackendRef example_gvk "ns" example_services
    (new_rule (example_rule refs))) in
  valid ["svc"; "missing"] = true ∧ valid ["missing"; "svc"] = false.
Proof.
  intros valid. split; [|vm_refl].
  apply (checkBackendRef_spec _ _ HTTPRoute_kind example_gvk "ns" example_services
    (example_rule ["svc"; "missing"])).
  - by repeat constructor.
  - exists [], (example_backend "svc"), [example_backend "missing"]. split_and!; vm_refl.
Defined.

(** C21: after the second pass, a managed route tells each of its parents
    whether the references of all its rules resolve: ResolvedRefs is True when
    each of them names a live service, False when one does not, and the other
    conditions of the parent are kept. *)
Theorem finish_route_resolved (RO : RangeOrder) (R Rule : Type) (RK : RouteKind R Rule)
    extractGVK services (r : Route R Rule) k8s key conds :
  let refs := flat_map rule_BackendRefs (route_Rules k8s) in
  let ns := meta_Namespace (route_Meta k8s) in
  Status (rt_TreeStatus r) = StatusUpserted → Route_isManaged (rt_data r) = true →
  rt_K8sResource (rt_data r) = Some k8s → wf_route_conditions (rt_Conditions (rt_data r)) →
  Forall backendRef_ok refs →
  data (rc_Conditions (rt_Conditions (rt_data r))) !! key = Some conds →
  ∃ conds' resolved,
    data (rc_Conditions (rt_Conditions (rt_data (finish_route extractGVK services r)))) !! key =
      Some conds' ∧
    (∀ ty, ty ≠ ResolvedRefs → conds' !! ty = conds !! ty) ∧
    conds' !! ResolvedRefs = Some resolved ∧
    Conditions.Status resolved =
      if forallb (backend_ok extractGVK ns services) refs then ConditionTrue else ConditionFalse.
Proof.
  intros refs ns Hst Hm Hk Hwf Hok Hkey. unfold finish_route. rw Hst Hm.
  unfold buildRules. rw Hk. cbn [rt_data]. unfold mergeBackendConditions at 1.
  cbn [rt_Conditions Rules].
  set (rules := checkBackendRef extractGVK _ services <$> _).
  pose proof (koBackendRefConds_state rules
    (checks_shape_built extractGVK ns services (route_Rules k8s))) as Hko.
  rw (merge_loop (rt_Conditions (rt_data r))) // Hkey. cbn [fmap option_fmap option_map].
  assert (checks_valid rules ↔ forallb (backend_ok extractGVK ns services) refs = true) as Hiff.
  { unfold rules. etrans.
    - apply (checks_valid_built extractGVK ns services (route_Rules k8s)).
      unfold refs in Hok. clear -Hok. induction (route_Rules k8s); simpl in Hok; [constructor|].
      apply Forall_app in Hok as [??]. constructor; auto.
    - unfold refs. clear. induction (route_Rules k8s) as [|x l IH]; simpl; [by split; constructor|].
      rw Forall_cons IH forallb_app andb_true_iff. apply and_iff_compat_r.
      rw Forall_forall forallb_forall. setoid_rewrite list_elem_of_In. done. }
  unfold MergeOverrideConditions.
  destruct Hko as [[Hc ->]|[Hc (cond & -> & Hcond)]]; eexists.
  - rw (proj1 Hiff Hc) map_size_empty /=. unfold ConditionOKResolvedRef, one.
    eexists. split_and!; [done| |apply lookup_union_Some_l, lookup_singleton_eq|done].
    intros ty Hty. apply lookup_union_r. by apply lookup_singleton_ne.
  - destruct (forallb _ refs) eqn:Hall; [by exfalso; apply Hc, Hiff|].
    rw map_size_singleton /=. exists cond. split_and!; [done| | |done].
    + intros ty Hty. apply lookup_union_r. by apply lookup_singleton_ne.
    + apply lookup_union_Some_l. apply lookup_singleton_eq.
Qed.

Lemma finish_route_resolved_witness :
  let d := (@checkParentRefs key_order _ _ _ example_gvk
              (example_route_data "web" ["svc"; "missing"]) example_attach).1 in
  let r := mkRoute (@Route_BuildConditions key_order _ _ _ d)
             (mkTreeUpdate None StatusUpserted) in
  ∃ conds' resolved,
    data (rc_Conditions (rt_Conditions (rt_data
      (@finish_route key_order _ _ _ example_gvk example_services r)))) !!
      ParentRefToKey example_parentRef = Some conds' ∧
    (∀ ty, ty ≠ ResolvedRefs → conds' !! ty = ConditionAccepted !! ty) ∧
    conds' !! ResolvedRefs = Some resolved ∧ Conditions.Status resolved = ConditionFalse.
Proof.
  intros d r.
  apply (finish_route_resolved key_order _ _ HTTPRoute_kind example_gvk example_services r
    (example_route "web" ["svc"; "missing"]) (ParentRefToKey example_parentRef)
    ConditionAccepted).
  - done.
  - vm_refl.
  - vm_refl.
  - apply wf_BuildConditions; [|vm_refl].
    apply new_route_conditions_wf, (new_checkParentRefs _ _ _ (example_route "web" ["svc"; "missing"])); [done|].
    by repeat constructor.
  - by repeat constructor.
  - vm_refl.
Defined.

(** The conditions of a managed route are, parent by parent, those of the
    checks of its parents.  [SetGeneration] is called on the empty table, before
    the conditions are merged into it, so the generation of the route is in
    none of them: every condition of every parent observes generation 0. *)
Theorem BuildConditions_generation (RO : RangeOrder) (R Rule : Type) (RK : RouteKind R Rule)
    extractGVK (d : RouteData R Rule) st k8s :
  rt_K8sResource d = Some k8s → Forall parentRef_ok (route_ParentRefs k8s) →
  let checked := (processChecks extractGVK d st).1 in
  let built := Route_BuildConditions checked in
  Route_isManaged checked = true →
  data (rc_Conditions (rt_Conditions built)) =
    data (rc_Conditions (cr_Conditions (CheckParentRefs checked))) ∧
  ∀ key conds ty c,
    data (rc_Conditions (rt_Conditions built)) !! key = Some conds → conds !! ty = Some c →
    Type_ c = ty ∧ ObservedGeneration c = 0%Z.
Proof.
  intros Hk Hok checked built Hm.
  pose proof (new_checkParentRefs extractGVK d st k8s Hk Hok) as Hnew.
  assert (CheckParentRefs checked = CheckParentRefs (checkParentRefs extractGVK d st).1) as Hc.
  { unfold checked, processChecks. by destruct (checkParentRefs extractGVK d st). }
  rw -Hc in Hnew.
  destruct (BuildConditions_checks checked (new_route_conditions_wf _ Hnew) Hm) as [_ Heq].
  split; [exact Heq|]. intros key conds ty c Hkey Hty. unfold built in Hkey. rw Heq in Hkey.
  destruct Hnew as [_ Hall]. exact (proj2 (Hall _ _ Hkey) _ _ Hty).
Qed.

Lemma BuildConditions_generation_witness :
  let d := example_route_data "web" ["svc"] in
  let checked := (@processChecks key_order _ _ _ example_gvk d example_attach).1 in
  meta_Generation (hroute_Meta (example_route "web" ["svc"])) = 3%Z ∧
  data (rc_Conditions (rt_Conditions (@Route_BuildConditions key_order _ _ _ checked))) !!
    ParentRefToKey example_parentRef = Some ConditionAccepted ∧
  ∀ ty c, ConditionAccepted !! ty = Some c → ObservedGeneration c = 0%Z.
Proof.
  intros d checked. split; [done|].
  destruct (BuildConditions_generation key_order _ _ HTTPRoute_kind example_gvk d example_attach
    (example_route "web" ["svc"]) eq_refl) as [H1 H2].
  - by repeat constructor.
  - vm_refl.
  - split; [vm_refl|]. intros ty c Hc.
    refine (proj2 (H2 (ParentRefToKey example_parentRef) ConditionAccepted ty c _ Hc)). vm_refl.
Defined.

(** An update of a route the tree does not have.  It becomes a route of
    the tree, under its own name in the managed map when one of its parent
    references attaches it, and otherwise in the unmanaged map, never in
    both.  But the deletion that goes with it is made on the gateways: an
    unmanaged route removes from the tree the managed gateway of its name, and
    a managed one the unmanaged gateway of its name. *)
Theorem computeTreeRouteUpdate_new (RO : RangeOrder) (R Rule : Type) (RK : RouteKind R Rule)
    extractGVK controllerName key (u : Update R) k8s (t : RouteTree R Rule) :
  managedRoutes t !! key = None → unmanagedRoutes t !! key = None →
  UStatus u = StatusUpserted → NewObject u = Some k8s →
  let t' := computeTreeRouteUpdate extractGVK controllerName key u t in
  let name := meta_key (route_Meta k8s) in
  let attached := ∃ loc, attached_by extractGVK k8s (attach t) (route_ParentRefs k8s) loc in
  let loc := fresh (dom (routes t)) in
  (∃ r, routes t' = <[loc := r]> (routes t) ∧ rt_K8sResource (rt_data r) = Some k8s ∧
        Status (rt_TreeStatus r) = StatusUpserted) ∧
  (attached → managedRoutes t' = <[name := loc]> (managedRoutes t) ∧
    unmanagedRoutes t' = unmanagedRoutes t ∧
    (at_gateways (attach t')).2 !! name = None) ∧
  (¬ attached → managedRoutes t' = managedRoutes t ∧
    unmanagedRoutes t' = <[name := loc]> (unmanagedRoutes t) ∧
    (at_gateways (attach t')).1 !! name = None ∧
    ∀ k, k ≠ name → gw_core <$> (at_gateways (attach t')).1 !! k =
                    gw_core <$> (at_gateways (attach t)).1 !! k).
Proof.
  intros Hm Hu Hs Hn t' name attached loc. unfold t', computeTreeRouteUpdate.
  rw Hm Hu Hs Hn. cbn [mbind option_bind]. cbv zeta.
  pose proof (processChecks_attached extractGVK
    (rt_data (NewRoute (Some k8s) controllerName)) k8s (attach t) eq_refl) as Hpc.
  destruct (processChecks _ _ _) as [d st]. destruct Hpc as (Hk & Hk' & [Hst _] & Hman). rw Hk'.
  split; [by destruct (Route_isManaged d); eauto|].
  destruct (Route_isManaged d); split; intros Hatt; try done; cbn.
  - split_and!; [done..|]. apply lookup_delete_eq.
  - split_and!; [done|done|apply lookup_delete_eq|]. intros k Hne.
    rw lookup_delete_ne //. symmetry. apply Hst.
Qed.

(** A route named as its gateway, whose listener does not exist. *)
Lemma computeTreeRouteUpdate_new_witness :
  let k8s := {| hroute_Meta := simple_meta "ns" "gw" 1;
                hroute_ParentRefs := [ParentRef None None None "gw" (Some "no-such") None];
                hroute_Hostnames := []; hroute_Rules := []; hroute_Status_Parents := [] |} in
  let t : RouteTree K8sHTTPRoute K8sHTTPRouteRule := mkRouteTree ∅ ∅ ∅ example_attach in
  is_Some ((at_gateways (attach t)).1 !! NN "ns" "gw") ∧
  (at_gateways (attach (@computeTreeRouteUpdate key_order _ _ _ example_gvk "haproxy.org/gate"
     (NN "ns" "gw") (mkUpdate None (Some k8s) StatusUpserted false) t))).1 !! NN "ns" "gw" = None.
Proof.
  intros k8s t. split; [by eexists|].
  apply (computeTreeRouteUpdate_new key_order _ _ HTTPRoute_kind example_gvk "haproxy.org/gate"
    (NN "ns" "gw") (mkUpdate None (Some k8s) StatusUpserted false) k8s t); try done.
  intros (loc & pr & ->%list_elem_of_singleton & (_ & g & Hg & _ & Hsec & _) & _).
  cbn in Hg, Hsec. apply lookup_singleton_Some in Hg as [_ <-].
  cbn in Hsec. by apply lookup_singleton_Some in Hsec as [[=] _].
Defined.

(** C39: an update never detaches a route.  The listeners it is attached to are
    forgotten, not told: every listener keeps the routes it had, so a route
    moved to another gateway stays counted by the listeners it left. *)
Theorem computeTreeRouteUpdate_keeps (RO : RangeOrder) (R Rule : Type) (RK : RouteKind R Rule)
    extractGVK controllerName key (u : Update R) k8s (t : RouteTree R Rule) :
  UStatus u = StatusUpserted → NewObject u = Some k8s →
  let t' := computeTreeRouteUpdate extractGVK controllerName key u t in
  ∀ loc l l', at_heap (attach t) !! loc = Some l → at_heap (attach t') !! loc = Some l' →
    ∀ k, k ∈ lst_AttachedRoutes l' ↔ k ∈ lst_AttachedRoutes l ∨
      (k = meta_key (route_Meta k8s) ∧
       attached_by extractGVK k8s (attach t) (route_ParentRefs k8s) loc).
Proof.
  intros Hs Hn t'. unfold t', computeTreeRouteUpdate. rw Hs Hn.
  set (found := match managedRoutes t !! key with Some _ => _ | None => _ end).
  assert (∃ loc0 r0, rt_K8sResource (rt_data r0) = Some k8s ∧
    match (loc ← found; r ← routes t !! loc; Some (loc, r)) with
    | Some (loc, r) => (loc, Route_ResetChecks (Route_SetAsUpserted (Some k8s) r))
    | None => (fresh (dom (routes t)), NewRoute (Some k8s) controllerName)
    end = (loc0, r0)) as (loc0 & r0 & Hk0 & ->).
  { destruct found as [loc0|]; cbn; [destruct (routes t !! loc0) as [r0|]; cbn|].
    - do 2 eexists. split; [|done]. unfold Route_SetAsUpserted, Route_set_status.
      by destruct (Route_DeepCopy (rt_data r0)).
    - by do 2 eexists; split; [|done].
    - by do 2 eexists; split; [|done]. }
  pose proof (processChecks_attached extractGVK (rt_data r0) k8s (attach t) Hk0) as Hpc.
  destruct (processChecks _ _ _) as [d st]. destruct Hpc as (_ & Hk & [_ Hat] & _). rw Hk.
  destruct (Route_isManaged d); exact Hat.
Qed.

(** The tree once the route ns/web is attached to the gateway, and the route
    that then names another gateway. *)
Definition example_route_tree : RouteTree K8sHTTPRoute K8sHTTPRouteRule :=
  @computeTreeRouteUpdate key_order _ _ _ example_gvk "haproxy.org/gate" (NN "ns" "web")
    (mkUpdate None (Some (example_route "web" ["svc"])) StatusUpserted false)
    (mkRouteTree ∅ ∅ ∅ example_attach).

Definition example_moved : K8sHTTPRoute :=
  {| hroute_Meta := simple_meta "ns" "web" 4;
     hroute_ParentRefs := [ParentRef None None None "other" None None];
     hroute_Hostnames := []; hroute_Rules := []; hroute_Status_Parents := [] |}.

Definition attached_routes (t : RouteTree K8sHTTPRoute K8sHTTPRouteRule) (loc : nat) :
    option (gset NamespacedName) := lst_AttachedRoutes <$> at_heap (attach t) !! loc.

Lemma computeTreeRouteUpdate_keeps_witness :
  let t' := @computeTreeRouteUpdate key_order _ _ _ example_gvk "haproxy.org/gate" (NN "ns" "web")
    (mkUpdate None (Some example_moved) StatusUpserted false) example_route_tree in
  ∃ routes, attached_routes t' 0 = Some routes ∧ NN "ns" "web" ∈ routes.
Proof.
  intros t'. unfold attached_routes.
  destruct (at_heap (attach t') !! 0) as [l'|] eqn:Hl'.
  2:{ exfalso. enough (is_Some_b (at_heap (attach t') !! 0) = true) as Ht by (by rw Hl' in Ht).
      vm_refl. }
  destruct (at_heap (attach example_route_tree) !! 0) as [l|] eqn:Hl.
  2:{ exfalso. enough (is_Some_b (at_heap (attach example_route_tree) !! 0) = true) as Ht
        by (by rw Hl in Ht). vm_refl. }
  eexists. split; [done|].
  apply (computeTreeRouteUpdate_keeps key_order _ _ HTTPRoute_kind example_gvk "haproxy.org/gate"
    (NN "ns" "web") (mkUpdate None (Some example_moved) StatusUpserted false) example_moved
    example_route_tree eq_refl eq_refl 0 l l' Hl Hl' (NN "ns" "web")). left.
  assert (attached_routes example_route_tree 0 = Some {[ NN "ns" "web" ]}) as Ha by vm_refl.
  unfold attached_routes in Ha. rw Hl in Ha. injection Ha as ->. set_solver.
Defined.

(** The deletion of a route of the tree detaches it from the listeners it
    was attached to since its last update, and from those only; the route is
    kept, marked deleted and without listeners, until the next clean-up. *)
Theorem computeTreeRouteUpdate_deleted (RO : RangeOrder) (R Rule : Type) (RK : RouteKind R Rule)
    extractGVK controllerName key (u : Update R) loc r k8s (t : RouteTree R Rule) :
  UStatus u = StatusDeleted → managedRoutes t !! key = Some loc →
  routes t !! loc = Some r → rt_K8sResource (rt_data r) = Some k8s →
  let t' := computeTreeRouteUpdate extractGVK controllerName key u t in
  (∃ r', routes t' !! loc = Some r' ∧ Status (rt_TreeStatus r') = StatusDeleted ∧
         data (rt_Listeners (rt_data r')) = ∅) ∧
  static (attach t) (attach t') ∧
  ∀ loc' l l', at_heap (attach t) !! loc' = Some l → at_heap (attach t') !! loc' = Some l' →
    ∀ k, k ∈ lst_AttachedRoutes l' ↔ k ∈ lst_AttachedRoutes l ∧
      ¬ (k = meta_key (route_Meta k8s) ∧ in_table (data (rt_Listeners (rt_data r))) loc').
Proof.
  intros Hs Hm Hr Hk t'. unfold t', computeTreeRouteUpdate. rw Hs Hm. cbn [mbind option_bind].
  rw Hr. cbn -[range_fold]. rw Hk. destruct (detach_table (meta_key (route_Meta k8s))
    (data (rt_Listeners (rt_data r))) (attach t)) as [H1 H2].
  split_and!; [|exact H1|exact H2]. rw lookup_insert_eq. eexists. split_and!; [done| |].
  - unfold Route_SetAsDeleted, Route_set_status. by destruct (Route_DeepCopy (rt_data r)).
  - unfold Route_SetAsDeleted, Route_set_status. by destruct (Route_DeepCopy (rt_data r)).
Qed.

Lemma computeTreeRouteUpdate_deleted_witness :
  let t' := @computeTreeRouteUpdate key_order _ _ _ example_gvk "haproxy.org/gate" (NN "ns" "web")
    (mkUpdate None None StatusDeleted false) example_route_tree in
  ∃ loc r', managedRoutes example_route_tree !! NN "ns" "web" = Some loc ∧
    routes t' !! loc = Some r' ∧ Status (rt_TreeStatus r') = StatusDeleted.
Proof.
  intros t'.
  destruct (managedRoutes example_route_tree !! NN "ns" "web") as [loc|] eqn:Hloc.
  2:{ exfalso. enough (is_Some_b (managedRoutes example_route_tree !! NN "ns" "web") = true) as Ht
        by (by rw Hloc in Ht). vm_refl. }
  assert ((loc ← managedRoutes example_route_tree !! NN "ns" "web";
           r ← routes example_route_tree !! loc; rt_K8sResource (rt_data r)) =
          Some (example_route "web" ["svc"])) as Hr by vm_refl.
  rw Hloc /= in Hr. destruct (routes example_route_tree !! loc) as [r|] eqn:Hr'; [|done].
  destruct (computeTreeRouteUpdate_deleted key_order _ _ HTTPRoute_kind example_gvk
    "haproxy.org/gate" (NN "ns" "web") (mkUpdate None None StatusDeleted false) loc r
    (example_route "web" ["svc"]) example_route_tree eq_refl Hloc Hr' Hr) as [(r' & H1 & H2 & _) _].
  by exists loc, r'.
Defined.

(** The clean-up after a batch.  The deleted routes leave the two maps and
    the others stay, under the same names; every route that is still in a map
    has no pending update, and the data of no route changes. *)
Theorem Route_CleanTreeUpdates_spec (RO : RangeOrder) (R Rule : Type) (t : RouteTree R Rule) :
  let t' := Route_CleanTreeUpdates t in
  (∀ k loc, managedRoutes t' !! k = Some loc ↔
            managedRoutes t !! k = Some loc ∧ ¬ deleted (routes t) loc) ∧
  (∀ k loc, unmanagedRoutes t' !! k = Some loc ↔
            unmanagedRoutes t !! k = Some loc ∧ ¬ deleted (routes t) loc) ∧
  (∀ loc, rt_data <$> routes t' !! loc = rt_data <$> routes t !! loc) ∧
  (∀ k loc r, managedRoutes t' !! k = Some loc ∨ unmanagedRoutes t' !! k = Some loc →
    routes t' !! loc = Some r → rt_TreeStatus r = zero_TreeUpdate).
Proof.
  cbv zeta. unfold Route_CleanTreeUpdates.
  pose proof (clean_route_map_spec (managedRoutes t) (routes t)) as H1.
  destruct (clean_route_map _ _) as [m1 rs1]. destruct H1 as [M1 (F1 & G1 & Z1 & K1)].
  pose proof (clean_route_map_spec (unmanagedRoutes t) rs1) as H2.
  destruct (clean_route_map _ _) as [m2 rs2]. destruct H2 as [M2 (F2 & G2 & Z2 & K2)]. cbn.
  assert (∀ k loc, m2 !! k = Some loc ↔
    unmanagedRoutes t !! k = Some loc ∧ ¬ deleted (routes t) loc) as M2'.
  { intros k loc. by rw M2 G1. }
  split_and!; [exact M1|exact M2'|intros loc; by rw F2 F1|].
  intros k loc r [[Hk Hn]%M1|[Hk Hn]%M2'] Hr.
  - destruct (rs1 !! loc) as [r1|] eqn:Hr1.
    + assert (rt_TreeStatus r1 = zero_TreeUpdate) as Hz by eauto.
      rw (K2 _ _ Hr1 Hz) in Hr. by simplify_eq.
    + specialize (F2 loc). by rw Hr Hr1 in F2.
  - eapply Z2; [done|by eexists|]. by rw G1.
Qed.

Lemma Route_CleanTreeUpdates_spec_witness :
  let t := @Route_CleanTreeUpdates key_order _ _ example_route_tree in
  ∃ loc r, managedRoutes t !! NN "ns" "web" = Some loc ∧ routes t !! loc = Some r ∧
    rt_TreeStatus r = zero_TreeUpdate.
Proof.
  intros t.
  destruct (managedRoutes t !! NN "ns" "web") as [loc|] eqn:Hloc.
  2:{ exfalso. enough (is_Some_b (managedRoutes t !! NN "ns" "web") = true) as Ht
        by (by rw Hloc in Ht). vm_refl. }
  assert (is_Some_b (loc ← managedRoutes t !! NN "ns" "web"; routes t !! loc) = true) as Hr by vm_refl.
  rw Hloc /= in Hr. destruct (routes t !! loc) as [r|] eqn:Hr'; [|done].
  exists loc, r. split_and!; [done..|].
  destruct (Route_CleanTreeUpdates_spec key_order _ _ example_route_tree) as (_ & _ & _ & H).
  apply (H (NN "ns" "web") loc r); [by left|done].
Defined.
