(* ===== verification/HaproxyConf.v ===== *)
(** * HaproxyConf: haproxy/configuration.go, structured.go, diffs.go, and the
    goroutine that applies the diffs (hug/haproxy/main.go)

    The structured HAProxy configuration the controller keeps, the diffs of a
    cycle, and their application to HAProxy.  Frontends and backends are
    pointers which the configuration and the diffs share, so they live in a
    store; each kind of section has its own.  The models are types of
    client-native: a backend is its name, its metadata, its servers and the
    rest, a frontend is opaque. *)

From S2P Require Import Prelude GoStrings Objects Utils.

(** ** metadata/metadata.go *)
Record K8sObjectInfo := mkObjectInfo { LinkID : string; Generation : Z }.

#[export] Instance K8sObjectInfo_eq_dec : EqDecision K8sObjectInfo.
Proof. solve_decision. Defined.

(** map[kind] -> map[objectKey], under the key [hug]; the JSON round trip only
    changes the Go types of the values. *)
Definition MetaData : Type := gmap string (gmap string (gmap string K8sObjectInfo)).

Definition UnifiedGatewayMetaDataKey : string := "hug".

(** ** Sections: one kind of the structured configuration and of the diffs

    [cur] is [structured]; [deleted] holds the names the diffs map to nil. *)
Record Sections (M : Type) := mkSections {
  objs : gmap nat M;
  cur : gmap string nat;
  created : gmap string nat;
  updated : gmap string nat;
  removed : gset string
}.
Arguments mkSections {M}.
Arguments objs {M}.
Arguments cur {M}.
Arguments created {M}.
Arguments updated {M}.
Arguments removed {M}.

(** A new object, and the pointer to it. *)
Definition alloc {M} (b : M) (s : Sections M) : nat * Sections M :=
  let loc := fresh (dom (objs s)) in
  (loc, mkSections (<[loc := b]> (objs s)) (cur s) (created s) (updated s) (removed s)).

(** What a map of pointers holds now. *)
Definition view {M} (s : Sections M) (m : gmap string nat) : gmap string M :=
  omap (λ loc, objs s !! loc) m.

Definition resetDiffs {M} (s : Sections M) : Sections M :=
  mkSections (objs s) (cur s) ∅ ∅ ∅.

Definition Sections_IsEmpty {M} (s : Sections M) : bool :=
  bool_decide (size (created s) = 0) && bool_decide (size (updated s) = 0) &&
  bool_decide (size (removed s) = 0).

(** [deleteFrontend] and [deleteBackend]. *)
Definition delete_section {M} (name : M → string) (n : string) (s : Sections M) : Sections M :=
  match cur s !! n ≫= λ loc, objs s !! loc with
  | None => s
  | Some b =>
      mkSections (objs s) (delete n (cur s)) (created s) (updated s) ({[name b]} ∪ removed s)
  end.

(** ** Frontends *)
Section frontends.
Context {Frontend : Type} (fe_Name : Frontend → string).
Context (fe_Equal : Frontend → Frontend → bool).

Definition upsertFrontend (fe : option Frontend) (s : Sections Frontend) :
    Sections Frontend * option string :=
  match fe with
  | None => (s, Some "nil frontend")
  | Some fe =>
      match cur s !! fe_Name fe ≫= λ loc, objs s !! loc with
      | Some previousFe =>
          if fe_Equal previousFe fe then (s, None)
          else
            let '(p, s) := alloc fe s in
            let '(deepCopied, s) := alloc fe s in
            (mkSections (objs s) (<[fe_Name fe := p]> (cur s)) (created s)
               (<[fe_Name fe := deepCopied]> (updated s)) (removed s), None)
      | None =>
          let '(deepCopied, s) := alloc fe s in
          (mkSections (objs s) (<[fe_Name fe := deepCopied]> (cur s))
             (<[fe_Name fe := deepCopied]> (created s)) (updated s) (removed s), None)
      end
  end.

Definition deleteFrontend (feName : string) (s : Sections Frontend) : Sections Frontend :=
  delete_section fe_Name feName s.
End frontends.

(** ** Backends *)
Record BackendModel (Server Base : Type) := mkBackend {
  be_Name : string;
  be_Metadata : MetaData;
  be_Servers : gmap string Server;
  be_Base : Base
}.
Arguments mkBackend {Server Base}.
Arguments be_Name {Server Base}.
Arguments be_Metadata {Server Base}.
Arguments be_Servers {Server Base}.
Arguments be_Base {Server Base}.

Record RuntimeServerStateData := mkServerState {
  rs_BackendName : string; rs_ServerName : string; rs_IP : string; rs_State : string; rs_Port : Z
}.

Section backends.
Context {RO : RangeOrder} {Server Base : Type} {EqS : EqDecision Server} {EqB : EqDecision Base}.
Implicit Types (s : Sections (BackendModel Server Base)).

Definition with_servers (servers : gmap string Server) (be : BackendModel Server Base) :
    BackendModel Server Base :=
  mkBackend (be_Name be) (be_Metadata be) servers (be_Base be).

Definition with_metadata (md : MetaData) (be : BackendModel Server Base) :
    BackendModel Server Base :=
  mkBackend (be_Name be) md (be_Servers be) (be_Base be).

(** [cmp.Equal] with the servers ignored. *)
Definition equal_but_servers (a b : BackendModel Server Base) : bool :=
  bool_decide (be_Name a = be_Name b) && bool_decide (be_Metadata a = be_Metadata b) &&
  bool_decide (be_Base a = be_Base b).

Definition upsertBackend (be : option (BackendModel Server Base)) s :
    Sections (BackendModel Server Base) * option string :=
  match be with
  | None => (s, Some "nil backend")
  | Some be =>
      match cur s !! be_Name be ≫= λ loc, objs s !! loc with
      | Some previousBe =>
          if equal_but_servers previousBe be then (s, None)
          else
            let be := with_servers (be_Servers previousBe) be in
            let '(p, s) := alloc be s in
            let '(deepCopied, s) := alloc be s in
            (mkSections (objs s) (<[be_Name be := p]> (cur s)) (created s)
               (<[be_Name be := deepCopied]> (updated s)) (removed s), None)
      | None =>
          let '(deepCopied, s) := alloc be s in
          (mkSections (objs s) (<[be_Name be := deepCopied]> (cur s))
             (<[be_Name be := deepCopied]> (created s)) (updated s) (removed s), None)
      end
  end.

(** The backend is modified in place, whether or not its servers differ.  A nil map
    of servers is not told from an empty one: [cmp.Equal] tells them apart, so that
    the code may write once more a backend that has no servers and had none. *)
Definition upsertBackendWithServers (beName : string) (servers : gmap string Server) s :
    Sections (BackendModel Server Base) * result (list RuntimeServerStateData) :=
  match cur s !! beName with
  | None => (s, Err ("could not find backend " +:+ beName))
  | Some loc =>
      match objs s !! loc with
      | None => (s, Err ("could not find backend " +:+ beName))
      | Some be =>
          let s := mkSections (<[loc := with_servers servers be]> (objs s)) (cur s) (created s)
                     (updated s) (removed s) in
          if bool_decide (be_Servers be = servers) then (s, Ok [])
          else
            let deletedServerNames := SetDifference (be_Servers be) servers in
            (mkSections (objs s) (<[be_Name be := loc]> (cur s)) (created s)
               (<[be_Name be := loc]> (updated s)) (removed s),
             Ok ((λ serverName, mkServerState (be_Name be) serverName "127.0.0.1" "maint" 1) <$>
                   range_set deletedServerNames))
      end
  end.

Definition upsertBackendMetadata (beName : string) (md : MetaData) s :
    Sections (BackendModel Server Base) :=
  match cur s !! beName with
  | None => s
  | Some loc =>
      match objs s !! loc with
      | None => s
      | Some previousBe =>
          let be := with_metadata md previousBe in
          let s := mkSections (<[loc := be]> (objs s)) (cur s) (created s) (updated s)
                     (removed s) in
          let '(deepCopied, s) := alloc be s in
          mkSections (objs s) (<[beName := loc]> (cur s)) (created s)
            (<[beName := deepCopied]> (updated s)) (removed s)
      end
  end.

Definition deleteBackend (beName : string) s : Sections (BackendModel Server Base) :=
  delete_section be_Name beName s.
End backends.

(** The whole configuration with its diffs. *)
Record Configuration (Frontend Server Base : Type) := mkConfiguration {
  c_Frontends : Sections Frontend;
  c_Backends : Sections (BackendModel Server Base);
  ReloadNeed : bool
}.
Arguments mkConfiguration {Frontend Server Base}.
Arguments c_Frontends {Frontend Server Base}.
Arguments c_Backends {Frontend Server Base}.
Arguments ReloadNeed {Frontend Server Base}.

(** ** hug/haproxy/main.go: applying the diffs

    [api.HAProxyClient] is an interface; each call gives its error, if any,
    and leaves a state of the client. *)
Class HAProxyClient (Frontend Backend T : Type) := {
  APIStartTransaction : T → T * option string;
  APIFinalCommitTransaction : T → T * option string;
  APIDisposeTransaction : T → T;
  FrontendCreate : Frontend → T → T * option string;
  FrontendEdit : Frontend → T → T * option string;
  FrontendDelete : string → T → T * option string;
  BackendCreate : Backend → T → T * option string;
  BackendEdit : Backend → T → T * option string;
  BackendDelete : string → T → T * option string;
  (** [reload.Instance().NeedReload()], and the reload of the process *)
  NeedReload : T → bool;
  Reload : T → T * option string
}.

Section app_manager.
Context {RO : RangeOrder} {Frontend Server Base T : Type}.
Abbreviation Backend := (BackendModel Server Base).
Context {HC : HAProxyClient Frontend Backend T}.
Implicit Types (c : Configuration Frontend Server Base).

(** One call of a loop: its error is recorded and the loop goes on. *)
Definition call {A} (f : A → T → T * option string) (acc : T * Errors) (a : A) : T * Errors :=
  let '(t, err) := f a acc.1 in (t, Errors_Add acc.2 [err]).

Definition call_all {A} (f : A → T → T * option string) (l : list A) (acc : T * Errors) :
    T * Errors := foldl (call f) acc l.

(** The pointers are read when the loop reaches them. *)
Definition pointed {M} (s : Sections M) (m : gmap string nat) : list M :=
  omap (λ kv, objs s !! kv.2) (range m).

Definition processCreate c (t : T) : T * option string :=
  let acc := call_all FrontendCreate (pointed (c_Frontends c) (created (c_Frontends c))) (t, []) in
  let acc := call_all BackendCreate (pointed (c_Backends c) (created (c_Backends c))) acc in
  (acc.1, Errors_Result acc.2).

Definition processUpdate c (t : T) : T * option string :=
  let acc := call_all FrontendEdit (pointed (c_Frontends c) (updated (c_Frontends c))) (t, []) in
  let acc := call_all BackendEdit (pointed (c_Backends c) (updated (c_Backends c))) acc in
  (acc.1, Errors_Result acc.2).

Definition processDelete c (t : T) : T * option string :=
  let acc := call_all FrontendDelete (range_set (removed (c_Frontends c))) (t, []) in
  let acc := call_all BackendDelete (range_set (removed (c_Backends c))) acc in
  (acc.1, Errors_Result acc.2).

(** A step of [applyCfgUpdates]: an error returns. *)
Definition step (f : T → T * option string) (r : T * option string) : T * option string :=
  match r.2 with Some _ => r | None => f r.1 end.

Definition reload_if_needed (t : T) : T * option string :=
  if NeedReload t then Reload t else (t, None).

Definition applyCfgUpdates c (t : T) : T * option string :=
  if Sections_IsEmpty (c_Frontends c) && Sections_IsEmpty (c_Backends c) && negb (ReloadNeed c)
  then (t, None)
  else
    let r := APIStartTransaction t in
    let r := step (processCreate c) r in
    let r := step (processUpdate c) r in
    let r := step (processDelete c) r in
    let r := step APIFinalCommitTransaction r in
    let r := step reload_if_needed r in
    (APIDisposeTransaction r.1, r.2).
End app_manager.

(** ** The invariant of a cycle *)
Lemma option_union_Some_l {A} (a : A) (o : option A) : Some a ∪ o = Some a.
Proof. by destruct o. Qed.

Lemma option_union_None {A} (o1 o2 : option A) : o1 ∪ o2 = None → o1 = None ∧ o2 = None.
Proof. by destruct o1, o2. Qed.

Section cycle.
Context {M : Type} (name : M → string).
Implicit Types (s : Sections M) (base : gmap string M).

(** A pointer stored under a name points to an object of that name. *)
Definition named (objs : gmap nat M) (m : gmap string nat) : Prop :=
  ∀ n loc, m !! n = Some loc → ∃ b, objs !! loc = Some b ∧ name b = n.

Record wf_sections s : Prop := {
  wf_cur : named (objs s) (cur s);
  wf_created : named (objs s) (created s);
  wf_updated : named (objs s) (updated s)
}.

(** What applying the diffs to [base] gives. *)
Definition apply_diffs base s : gmap string M :=
  filter (λ nb, nb.1 ∉ removed s) (view s (updated s) ∪ (view s (created s) ∪ base)).

(** [base] was the configuration when the diffs were reset. *)
Record cycle_inv base s : Prop := {
  inv_wf : wf_sections s;
  inv_exact : ∀ n, n ∉ removed s →
    view s (cur s) !! n = (view s (updated s) ∪ (view s (created s) ∪ base)) !! n;
  inv_known : ∀ n, n ∈ removed s ∨ is_Some (updated s !! n) →
    is_Some (base !! n) ∨ is_Some (created s !! n)
}.

Lemma lookup_view s m n : view s m !! n = m !! n ≫= λ loc, objs s !! loc.
Proof. apply lookup_omap. Qed.

Lemma view_Some objs m n loc :
  named objs m → m !! n = Some loc → ∃ b, m !! n ≫= (λ loc, objs !! loc) = Some b ∧ name b = n.
Proof. intros Hm Hn. destruct (Hm _ _ Hn) as (b & Hb & Hname). exists b. by rw Hn. Qed.

Lemma view_is_Some s m n : named (objs s) m → is_Some (view s m !! n) ↔ is_Some (m !! n).
Proof.
  intros Hm. rw lookup_view. destruct (m !! n) as [loc|] eqn:Hn; simpl.
  - destruct (Hm _ _ Hn) as (b & -> & _). split; eauto.
  - split; by intros [? ?].
Qed.

Lemma inv_cur_known base s n :
  cycle_inv base s → is_Some (cur s !! n) → is_Some (base !! n) ∨ is_Some (created s !! n).
Proof.
  intros [[W1 W2 W3] Hex Hk] Hn. destruct (decide (n ∈ removed s)) as [Hr|Hr]; [by apply Hk; left|].
  apply (view_is_Some s (cur s) n W1) in Hn. rw (Hex _ Hr) in Hn.
  apply lookup_union_is_Some in Hn as [Hn|[Hn|Hn]%lookup_union_is_Some].
  - apply Hk. right. by apply (view_is_Some s (updated s) n W3).
  - right. by apply (view_is_Some s (created s) n W2).
  - by left.
Qed.

Lemma cycle_start s : wf_sections s → cycle_inv (view s (cur s)) (resetDiffs s).
Proof.
  intros [Hc _ _]. split.
  - split; [exact Hc|intros n loc Hn..]; by rw lookup_empty in Hn.
  - intros n _. unfold view at 2 3. simpl. rw !omap_empty !map_empty_union. done.
  - intros n [?|[? Hn]]; [set_solver|]. by rw lookup_empty in Hn.
Qed.

(** [s'] changes nothing but the objects named [n]. *)
Definition same_but n (o o' : gmap nat M) : Prop :=
  ∀ loc b, o !! loc = Some b →
    ∃ b', o' !! loc = Some b' ∧ name b' = name b ∧ (name b ≠ n → b' = b).

Lemma named_same_but n o o' m : same_but n o o' → named o m → named o' m.
Proof.
  intros Ho Hm n' loc Hn'. destruct (Hm _ _ Hn') as (b & Hb & Hname).
  destruct (Ho _ _ Hb) as (b' & Hb' & Hname' & _). exists b'. split; congruence.
Qed.

Lemma named_insert n o m loc b :
  named o m → o !! loc = Some b → name b = n → named o (<[n := loc]> m).
Proof.
  intros Hm Hb Hn n' loc'. intros [[<- <-]|[_ ?]]%lookup_insert_Some; [by exists b|by apply Hm].
Qed.

Lemma named_delete n o m : named o m → named o (delete n m).
Proof. intros Hm n' loc [_ ?]%lookup_delete_Some. by apply Hm. Qed.

Lemma same_but_view n n' o o' (m : gmap string nat) :
  same_but n o o' → named o m → n' ≠ n →
  m !! n' ≫= (λ loc, o' !! loc) = m !! n' ≫= (λ loc, o !! loc).
Proof.
  intros Ho Hm Hne. destruct (m !! n') as [loc|] eqn:Hn'; simpl; [|done].
  destruct (Hm _ _ Hn') as (b & Hb & Hname). destruct (Ho _ _ Hb) as (b' & -> & _ & Heq).
  rw Heq //. by rw Hname.
Qed.

(** The three ways an operation on [n] changes the sections.  First, the object
    [b] is current and in the updates. *)
Lemma cycle_update base s s' n b p q :
  cycle_inv base s → is_Some (cur s !! n) → name b = n → same_but n (objs s) (objs s') →
  cur s' = <[n := p]> (cur s) → objs s' !! p = Some b →
  updated s' = <[n := q]> (updated s) → objs s' !! q = Some b →
  created s' = created s → removed s' = removed s →
  cycle_inv base s'.
Proof.
  intros Hinv Hn Hb Ho Hc Hp Hu Hq Hcr Hr. pose proof (inv_cur_known _ _ _ Hinv Hn) as Hkn.
  destruct Hinv as [[W1 W2 W3] Hex Hk]. split.
  - split; rw ?Hc ?Hu ?Hcr.
    + by eapply named_insert; [eapply named_same_but| |].
    + by eapply named_same_but.
    + by eapply named_insert; [eapply named_same_but| |].
  - intros n'. rw Hr. intros Hnr. specialize (Hex _ Hnr). rw !lookup_union !lookup_view in Hex.
    rw !lookup_union !lookup_view Hc Hu Hcr. destruct (decide (n = n')) as [<-|Hne].
    + rw !lookup_insert_eq /= Hp Hq option_union_Some_l //.
    + rw !lookup_insert_ne // !(same_but_view n n' (objs s) (objs s')) //.
  - intros n'. rw Hr Hu Hcr. intros [?|Hn']; [by apply Hk; left|].
    apply lookup_insert_is_Some' in Hn' as [<-|?]; [done|]. apply Hk. by right.
Qed.

(** Second, a new object. *)
Lemma cycle_create base s s' n b p :
  cycle_inv base s → cur s !! n = None → name b = n → same_but n (objs s) (objs s') →
  cur s' = <[n := p]> (cur s) → objs s' !! p = Some b →
  created s' = <[n := p]> (created s) → updated s' = updated s → removed s' = removed s →
  cycle_inv base s'.
Proof.
  intros [[W1 W2 W3] Hex Hk] Hn Hb Ho Hc Hp Hcr Hu Hr. split.
  - split; rw ?Hc ?Hu ?Hcr.
    + by eapply named_insert; [eapply named_same_but| |].
    + by eapply named_insert; [eapply named_same_but| |].
    + by eapply named_same_but.
  - intros n'. rw Hr. intros Hnr. specialize (Hex _ Hnr). rw !lookup_union !lookup_view in Hex.
    rw !lookup_union !lookup_view Hc Hu Hcr. destruct (decide (n = n')) as [<-|Hne].
    + rw Hn /= in Hex. symmetry in Hex. apply option_union_None in Hex as [Hun _].
      assert (updated s !! n = None) as ->.
      { apply eq_None_not_Some. intros Hsome. apply (view_is_Some s) in Hsome; [|done].
        rw lookup_view Hun in Hsome. by destruct Hsome. }
      rw !lookup_insert_eq /= Hp option_union_Some_l //.
    + rw !lookup_insert_ne // !(same_but_view n n' (objs s) (objs s')) //.
  - intros n'. rw Hr Hu Hcr. intros [?|?].
    + destruct (Hk n') as [?|?]; [by left|by left|right]. apply lookup_insert_is_Some'. by right.
    + destruct (Hk n') as [?|?]; [by right|by left|right]. apply lookup_insert_is_Some'. by right.
Qed.

(** Third, a deletion. *)
Lemma cycle_delete base s n :
  cycle_inv base s → cycle_inv base (delete_section name n s).
Proof.
  intros Hinv. unfold delete_section.
  destruct (cur s !! n) as [loc|] eqn:Hn; cbn; [|done].
  destruct (wf_cur _ (inv_wf _ _ Hinv) _ _ Hn) as (b & Hb & Hname). rw Hb Hname.
  pose proof (inv_cur_known _ _ n Hinv (ex_intro _ _ Hn)) as Hkn.
  destruct Hinv as [[W1 W2 W3] Hex Hk]. split; cbn.
  - split; cbn; [by apply named_delete|done|done].
  - intros n' Hnr. apply not_elem_of_union in Hnr as [Hne Hnr].
    specialize (Hex _ Hnr). rw lookup_view in Hex. rw lookup_view. cbn.
    rw lookup_delete_ne; [set_solver|exact Hex].
  - intros n' [[Hin|Hin]%elem_of_union|Hup]; [|apply Hk; by left|apply Hk; by right].
    apply elem_of_singleton in Hin as ->. done.
Qed.

Lemma removed_delete_section s n n' :
  wf_sections s → n' ∈ removed (delete_section name n s) → n' ∈ removed s ∨ n' = n.
Proof.
  intros Hwf. unfold delete_section. destruct (cur s !! n) as [loc|] eqn:Hn; cbn; [|by left].
  destruct (wf_cur _ Hwf _ _ Hn) as (b & Hb & Hbn). rw Hb. cbn.
  intros [?%elem_of_singleton|?]%elem_of_union; [right; congruence|by left].
Qed.

(** The diffs are exact for the names that are not both deleted and back. *)
Lemma cycle_exact base s :
  cycle_inv base s → (∀ n, n ∈ removed s → cur s !! n = None) →
  apply_diffs base s = view s (cur s).
Proof.
  intros [Hwf Hex _] Hdel. apply map_eq. intros n. unfold apply_diffs. rw map_lookup_filter.
  destruct (decide (n ∈ removed s)) as [Hin|Hnin].
  - rw lookup_view (Hdel _ Hin). cbn.
    destruct ((_ ∪ _) !! n) as [b|]; cbn; [|done]. rw option_guard_False; [|done]. set_solver.
  - rw (Hex _ Hnin). destruct ((_ ∪ _) !! n) as [b|]; cbn; [|done]. by rw option_guard_True.
Qed.

(** The diffs are exact. *)
Definition tidy base s : Prop := cycle_inv base s ∧ ∀ n, n ∈ removed s → cur s !! n = None.

Lemma cur_delete_section n s : wf_sections s → cur (delete_section name n s) = delete n (cur s).
Proof.
  intros Hwf. unfold delete_section. destruct (cur s !! n) as [loc|] eqn:Hn; cbn.
  - by destruct (wf_cur _ Hwf _ _ Hn) as (b & -> & _).
  - symmetry. by apply delete_id.
Qed.

Lemma tidy_delete base n s : tidy base s → tidy base (delete_section name n s).
Proof.
  intros [H1 H2]. split; [by apply cycle_delete|]. intros n' Hn'.
  rw cur_delete_section; [by eapply inv_wf|]. apply lookup_delete_None.
  apply removed_delete_section in Hn' as [?%H2|<-]; [by right|by left|by eapply inv_wf].
Qed.
End cycle.

(** ** Every operation keeps the invariant *)
Lemma fresh_dom_objs {M} (o : gmap nat M) : o !! fresh (dom o) = None.
Proof. apply not_elem_of_dom, is_fresh. Qed.

Section operations.
Context {RO : RangeOrder} {Frontend : Type} (fe_Name : Frontend → string).
Context (fe_Equal : Frontend → Frontend → bool).
Context {Server Base : Type} {EqS : EqDecision Server} {EqB : EqDecision Base}.

Lemma same_but_refl {M} (name : M → string) n o : same_but name n o o.
Proof. intros loc b Hb. by exists b. Qed.

Lemma same_but_fresh {M} (name : M → string) n (o o' : gmap nat M) b :
  same_but name n o o' → same_but name n o (<[fresh (dom o') := b]> o').
Proof.
  intros Ho loc b0 Hb0. destruct (Ho _ _ Hb0) as (b' & Hb' & ?). exists b'. split; [|done].
  rw lookup_insert_ne; [|done]. intros <-. by rw fresh_dom_objs in Hb'.
Qed.

Lemma same_but_modify {M} (name : M → string) n o loc b b' :
  o !! loc = Some b → name b = n → name b' = n → same_but name n o (<[loc := b']> o).
Proof.
  intros Hb Hn Hn' loc0 b0 Hb0. destruct (decide (loc = loc0)) as [<-|Hne].
  - simplify_eq. exists b'. rw lookup_insert_eq. split_and!; [done|by rw Hn'|done].
  - exists b0. by rw lookup_insert_ne.
Qed.

(** The two allocations of an update. *)
Lemma upsert_update {M} (name : M → string) base s b prev :
  cycle_inv name base s → cur s !! name b ≫= (λ loc, objs s !! loc) = Some prev →
  cycle_inv name base
    (let '(p, s) := alloc b s in
     let '(q, s) := alloc b s in
     mkSections (objs s) (<[name b := p]> (cur s)) (created s) (<[name b := q]> (updated s))
       (removed s)).
Proof.
  intros Hinv Hprev. eapply (cycle_update name base s _ (name b) b); cbn; try done.
  - by destruct (cur s !! name b).
  - by apply same_but_fresh, same_but_fresh, same_but_refl.
  - rw lookup_insert_ne; [|apply lookup_insert_eq].
    intros Heq. pose proof (is_fresh (dom (<[fresh (dom (objs s)):=b]> (objs s)))) as Hf.
    apply Hf. rw Heq. apply elem_of_dom. rw lookup_insert_eq. eauto.
  - apply lookup_insert_eq.
Qed.

(** The allocation of a creation. *)
Lemma upsert_create {M} (name : M → string) base s b :
  cycle_inv name base s → cur s !! name b ≫= (λ loc, objs s !! loc) = None →
  cycle_inv name base
    (let '(p, s) := alloc b s in
     mkSections (objs s) (<[name b := p]> (cur s)) (<[name b := p]> (created s)) (updated s)
       (removed s)).
Proof.
  intros Hinv Hprev. eapply (cycle_create name base s _ (name b) b); cbn; try done.
  - destruct (cur s !! name b) as [loc|] eqn:Hn; [|done].
    destruct (wf_cur _ _ (inv_wf _ _ _ Hinv) _ _ Hn) as (b' & Hb' & _). cbn in Hprev. congruence.
  - by apply same_but_fresh, same_but_refl.
  - apply lookup_insert_eq.
Qed.

Lemma upsertFrontend_inv base fe s :
  cycle_inv fe_Name base s → cycle_inv fe_Name base (upsertFrontend fe_Name fe_Equal fe s).1.
Proof.
  intros Hinv. destruct fe as [fe|]; cbn [upsertFrontend]; [|done].
  destruct (cur s !! fe_Name fe ≫= _) as [prev|] eqn:Hprev; [|by eapply upsert_create].
  destruct (fe_Equal prev fe); [done|]. by eapply upsert_update.
Qed.

Implicit Types (s : Sections (BackendModel Server Base)).

Lemma upsertBackend_inv base be s :
  cycle_inv be_Name base s → cycle_inv be_Name base (upsertBackend be s).1.
Proof.
  intros Hinv. destruct be as [be|]; cbn [upsertBackend]; [|done].
  destruct (cur s !! be_Name be ≫= _) as [prev|] eqn:Hprev; [|by eapply upsert_create].
  destruct (equal_but_servers prev be); [done|].
  by eapply (upsert_update be_Name base s (with_servers (be_Servers prev) be)).
Qed.

Lemma upsertBackendWithServers_inv base n servers s :
  cycle_inv be_Name base s → cycle_inv be_Name base (upsertBackendWithServers n servers s).1.
Proof.
  intros Hinv. unfold upsertBackendWithServers.
  destruct (cur s !! n) as [loc|] eqn:Hn; [|done].
  destruct (wf_cur _ _ (inv_wf _ _ _ Hinv) _ _ Hn) as (be & Hbe & Hname). rw Hbe.
  case_bool_decide as Heq.
  - cbn [fst]. assert (<[loc:=with_servers servers be]> (objs s) = objs s) as ->; [|by destruct s].
    apply insert_id. rw Hbe. f_equal. destruct be. by rw -Heq.
  - cbn. rw Hname.
    eapply (cycle_update be_Name base s _ n (with_servers servers be)); cbn; try done.
    + eapply same_but_modify; done.
    + apply lookup_insert_eq.
    + apply lookup_insert_eq.
Qed.

Lemma upsertBackendMetadata_inv base n md s :
  cycle_inv be_Name base s → cycle_inv be_Name base (upsertBackendMetadata n md s).
Proof.
  intros Hinv. unfold upsertBackendMetadata.
  destruct (cur s !! n) as [loc|] eqn:Hn; [|done].
  destruct (wf_cur _ _ (inv_wf _ _ _ Hinv) _ _ Hn) as (be & Hbe & Hname). rw Hbe. cbn.
  eapply (cycle_update be_Name base s _ n (with_metadata md be)); cbn; try done.
  - apply same_but_fresh. by eapply same_but_modify.
  - rw lookup_insert_ne; [|apply lookup_insert_eq].
    intros Heq. pose proof (is_fresh (dom (<[loc:=with_metadata md be]> (objs s)))) as Hf.
    apply Hf. rw Heq. apply elem_of_dom. rw lookup_insert_eq. eauto.
  - apply lookup_insert_eq.
Qed.

(** *** Sequences of operations *)
Inductive ConfOp :=
  | UpsertFrontend (fe : option Frontend)
  | DeleteFrontend (feName : string)
  | UpsertBackend (be : option (BackendModel Server Base))
  | UpsertServers (beName : string) (servers : gmap string Server)
  | UpsertMetadata (beName : string) (md : MetaData)
  | DeleteBackend (beName : string).

Definition run_op (c : Configuration Frontend Server Base) (op : ConfOp) :
    Configuration Frontend Server Base :=
  let fe fes := mkConfiguration fes (c_Backends c) (ReloadNeed c) in
  let be bes := mkConfiguration (c_Frontends c) bes (ReloadNeed c) in
  match op with
  | UpsertFrontend f => fe (upsertFrontend fe_Name fe_Equal f (c_Frontends c)).1
  | DeleteFrontend n => fe (deleteFrontend fe_Name n (c_Frontends c))
  | UpsertBackend b => be (upsertBackend b (c_Backends c)).1
  | UpsertServers n servers => be (upsertBackendWithServers n servers (c_Backends c)).1
  | UpsertMetadata n md => be (upsertBackendMetadata n md (c_Backends c))
  | DeleteBackend n => be (deleteBackend n (c_Backends c))
  end.

Definition run_cycle (c : Configuration Frontend Server Base) (ops : list ConfOp) :
    Configuration Frontend Server Base :=
  foldl run_op
    (mkConfiguration (resetDiffs (c_Frontends c)) (resetDiffs (c_Backends c)) (ReloadNeed c)) ops.

Definition wf_configuration (c : Configuration Frontend Server Base) : Prop :=
  wf_sections fe_Name (c_Frontends c) ∧ wf_sections be_Name (c_Backends c).

Lemma run_cycle_inv c ops :
  wf_configuration c →
  cycle_inv fe_Name (view (c_Frontends c) (cur (c_Frontends c))) (c_Frontends (run_cycle c ops)) ∧
  cycle_inv be_Name (view (c_Backends c) (cur (c_Backends c))) (c_Backends (run_cycle c ops)).
Proof.
  intros [Hfe Hbe]. unfold run_cycle. apply foldl_ind.
  - split; by apply cycle_start.
  - intros c' op _ [H1 H2]. destruct op; cbn [run_op c_Frontends c_Backends]; split;
      first [done|by apply upsertFrontend_inv|by apply upsertBackend_inv
            |by apply upsertBackendWithServers_inv|by apply upsertBackendMetadata_inv
            |by apply cycle_delete].
Qed.
End operations.

(** ** The application of the diffs *)
Section application.
Context {RO : RangeOrder} {Frontend Server Base T : Type} (fe_Name : Frontend → string).
Context {HC : HAProxyClient Frontend (BackendModel Server Base) T}.

(** The configuration a client has committed, and the one of its transaction. *)
Abbreviation Conf := (gmap string Frontend * gmap string (BackendModel Server Base))%type.
Context (committed pending : T → Conf).

(** The states in which a transaction is open, the sections the client accepts,
    and the pairs of configurations it tells apart when it commits. *)
Context (live : T → Prop) (ok_fe : Frontend → Prop) (ok_be : BackendModel Server Base → Prop).
Context (sees : Conf → Conf → Prop).

(** A call changes the configuration of the transaction into [cf]. *)
Definition moves (t : T) (cf : Conf) (t' : T) : Prop :=
  live t' ∧ committed t' = committed t ∧ pending t' = cf.

(** What the client promises: a transaction starts from the committed
    configuration, a creation or an edition stores the model under its name, the
    edition and the deletion of a section that exists succeed, and a commit makes
    the transaction the configuration. *)
Record write_laws_on : Prop := {
  law_start t : ∃ t', APIStartTransaction t = (t', None) ∧ moves t (committed t) t';
  law_commit t : live t → sees (committed t) (pending t) →
    ∃ t', APIFinalCommitTransaction t = (t', None) ∧ committed t' = pending t;
  law_dispose t : committed (APIDisposeTransaction t) = committed t;
  law_fe_create fe t : live t → ok_fe fe → ∃ t', FrontendCreate fe t = (t', None) ∧
    moves t (<[fe_Name fe := fe]> (pending t).1, (pending t).2) t';
  law_fe_edit fe t : live t → ok_fe fe → is_Some ((pending t).1 !! fe_Name fe) →
    ∃ t', FrontendEdit fe t = (t', None) ∧
      moves t (<[fe_Name fe := fe]> (pending t).1, (pending t).2) t';
  law_fe_delete n t : live t → is_Some ((pending t).1 !! n) →
    ∃ t', FrontendDelete n t = (t', None) ∧
      moves t (delete n (pending t).1, (pending t).2) t';
  law_be_create be t : live t → ok_be be → ∃ t', BackendCreate be t = (t', None) ∧
    moves t ((pending t).1, <[be_Name be := be]> (pending t).2) t';
  law_be_edit be t : live t → ok_be be → is_Some ((pending t).2 !! be_Name be) →
    ∃ t', BackendEdit be t = (t', None) ∧
      moves t ((pending t).1, <[be_Name be := be]> (pending t).2) t';
  law_be_delete n t : live t → is_Some ((pending t).2 !! n) →
    ∃ t', BackendDelete n t = (t', None) ∧
      moves t ((pending t).1, delete n (pending t).2) t'
}.

(** A client that reloads the process without error, too. *)
Record client_laws_on : Prop := {
  law_writes : write_laws_on;
  law_reload t : NeedReload t = true →
    ∃ t', Reload t = (t', None) ∧ committed t' = committed t
}.

(** A loop of calls that all succeed. *)
Lemma call_all_ok {A} (f : A → T → T * option string) l t (P : list A → Conf → Prop) :
  live t → P [] (pending t) →
  (∀ pre a t, pre ++ [a] `prefix_of` l → live t → P pre (pending t) →
     ∃ t' cf, f a t = (t', None) ∧ moves t cf t' ∧ P (pre ++ [a]) cf) →
  ∃ t', call_all f l (t, []) = (t', []) ∧ moves t (pending t') t' ∧ P l (pending t').
Proof.
  intros Hlive H0 Hstep. unfold call_all.
  apply (foldl_prefix_ind (λ pre (acc : T * Errors),
    ∃ t', acc = (t', []) ∧ moves t (pending t') t' ∧ P pre (pending t'))).
  - by exists t.
  - intros pre a acc Hpre (t' & -> & (Hl & Hc & _) & HP).
    destruct (Hstep pre a t' Hpre Hl HP) as (t'' & cf & Hf & (Hl' & Hc' & <-) & HP').
    exists t''. unfold call. cbn. rw Hf. split_and!; [done|split_and!; [done|congruence|done]|done].
Qed.

(** One kind of section in a pair of configurations. *)
Record lens (M : Type) := mkLens {
  get : Conf → gmap string M;
  put : gmap string M → Conf → Conf;
  get_put m cf : get (put m cf) = m;
  put_put m m' cf : put m (put m' cf) = put m cf;
  put_get cf : put (get cf) cf = cf
}.
Arguments get {M}.
Arguments put {M}.

Definition fe_lens : lens Frontend.
Proof. by refine (mkLens _ fst (λ m cf, (m, cf.2)) _ _ _); [..|intros []]. Defined.

Definition be_lens : lens (BackendModel Server Base).
Proof. by refine (mkLens _ snd (λ m cf, (cf.1, m)) _ _ _); [..|intros []]. Defined.

Section one_kind.
Context {M : Type} (name : M → string) (L : lens M).

Definition store_all (m : gmap string M) (l : list M) : gmap string M :=
  foldl (λ acc b, <[name b := b]> acc) m l.

Lemma store_all_snoc m l b : store_all m (l ++ [b]) = <[name b := b]> (store_all m l).
Proof. unfold store_all. by rw foldl_app. Qed.

Lemma store_all_keeps m l n : is_Some (m !! n) → is_Some (store_all m l !! n).
Proof.
  intros Hn. unfold store_all. apply (foldl_ind (λ acc, is_Some (acc !! n))); [done|].
  intros acc b _ Hacc. apply lookup_insert_is_Some'. by right.
Qed.

Lemma store_all_other m l n : n ∉ name <$> l → store_all m l !! n = m !! n.
Proof using Type.
  intros Hn. unfold store_all. apply (foldl_ind (λ acc, acc !! n = m !! n)); [done|].
  intros acc b Hb Hacc. rw lookup_insert_ne //. intros <-. apply Hn. by apply list_elem_of_fmap_2.
Qed.

Lemma store_all_pointed (s : Sections M) m base :
  named name (objs s) m → store_all base (pointed s m) = view s m ∪ base.
Proof.
  intros Hm. unfold store_all, pointed.
  trans (range_fold (λ _ loc acc, match objs s !! loc with
    | Some b => <[name b := b]> acc | None => acc end) m base).
  { unfold range_fold. generalize (range m). intros l. revert base.
    induction l as [|[n loc] l IH]; intros base; simpl; [done|].
    destruct (objs s !! loc); apply IH. }
  apply (range_fold_ind (λ d acc, acc = view s d ∪ base) _ m base).
  - unfold view. by rw omap_empty map_empty_union.
  - intros n loc d acc Hn Hd _ ->. destruct (Hm _ _ Hn) as (b & Hb & Hname). rw Hb Hname.
    unfold view. by rw (omap_insert_Some _ _ _ _ b) // insert_union_l.
Qed.

(** A loop over pointers visits each name once. *)
Lemma NoDup_pointed (s : Sections M) m : named name (objs s) m → NoDup (name <$> pointed s m).
Proof using Type.
  intros Hm. assert (name <$> pointed s m = (range m).*1) as ->; [|apply NoDup_fst_range].
  unfold pointed. assert (∀ n loc, (n, loc) ∈ range m → ∃ b, objs s !! loc = Some b ∧ name b = n) as Hr.
  { intros n loc Hin%elem_of_range. by apply Hm. }
  induction (range m) as [|[n loc] l IH]; [done|].
  destruct (Hr n loc) as (b & Hb & Hn); [by left|]. cbn. rw Hb /=. rw Hn. f_equal. apply IH.
  intros n' loc' Hin. apply Hr. by right.
Qed.

Lemma elem_of_pointed (s : Sections M) m b :
  named name (objs s) m → b ∈ pointed s m → is_Some (m !! name b).
Proof.
  intros Hm ([n loc] & Hin & Hb)%list_elem_of_omap. apply elem_of_range in Hin.
  destruct (Hm _ _ Hin) as (b' & Hb' & <-). cbn in Hb. simplify_eq. eauto.
Qed.

(** Creations, and editions ([must]) of sections that exist. *)
Lemma store_calls (f : M → T → T * option string) (must : bool) l t :
  (∀ b t, live t → b ∈ l → (must = true → is_Some (get L (pending t) !! name b)) →
     ∃ t', f b t = (t', None) ∧
       moves t (put L (<[name b := b]> (get L (pending t))) (pending t)) t') →
  live t → (must = true → ∀ b, b ∈ l → is_Some (get L (pending t) !! name b)) →
  ∃ t', call_all f l (t, []) = (t', []) ∧
    moves t (put L (store_all (get L (pending t)) l) (pending t)) t'.
Proof.
  intros Hf Hlive Hmust.
  destruct (call_all_ok f l t (λ pre cf, cf = put L (store_all (get L (pending t)) pre) (pending t)))
    as (t' & Hrun & Hm & <-); [done|symmetry; apply put_get| |by exists t'].
  intros pre b t' [suf Hl] Hlive' Ht'.
  assert (b ∈ l) as Hb by (rw Hl; set_solver).
  destruct (Hf b t' Hlive' Hb) as (t'' & Hft & Ht'').
  - intros Hm. rw Ht' get_put. by apply store_all_keeps, Hmust.
  - eexists t'', _. split_and!; [done|exact Ht''|]. by rw Ht' get_put put_put store_all_snoc.
Qed.

Lemma delete_calls (f : string → T → T * option string) (X : gset string) t :
  (∀ n t, live t → is_Some (get L (pending t) !! n) →
     ∃ t', f n t = (t', None) ∧ moves t (put L (delete n (get L (pending t))) (pending t)) t') →
  live t → (∀ n, n ∈ X → is_Some (get L (pending t) !! n)) →
  ∃ t', call_all f (range_set X) (t, []) = (t', []) ∧
    moves t (put L (filter (λ nb, nb.1 ∉ X) (get L (pending t))) (pending t)) t'.
Proof.
  intros Hf Hlive HX.
  destruct (call_all_ok f (range_set X) t (λ pre cf,
    cf = put L (filter (λ nb, nb.1 ∉ pre) (get L (pending t))) (pending t))) as (t' & H1 & Hm & H2).
  - done.
  - rw map_filter_id; [|by rw put_get]. intros n b _. set_solver.
  - intros pre n t' [suf Hl] Hlive' Ht'.
    assert (n ∉ pre) as Hn.
    { pose proof (NoDup_range_set X) as Hnd. rw Hl -app_assoc in Hnd.
      apply NoDup_app in Hnd as (_ & Hdisj & _). intros Hin. apply (Hdisj _ Hin). set_solver. }
    assert (n ∈ X) as HnX by (apply elem_of_range_set; rw Hl; set_solver).
    destruct (Hf n t' Hlive') as (t'' & Hft & Ht'').
    + rw Ht' get_put. destruct (HX _ HnX) as [b Hb]. exists b.
      by apply map_lookup_filter_Some.
    + eexists t'', _. split_and!; [done|exact Ht''|]. rw Ht' get_put put_put. f_equal.
      apply map_eq. intros n'. rw map_lookup_filter. destruct (decide (n = n')) as [<-|Hne].
      * rw lookup_delete_eq. destruct (get L (pending t) !! n); cbn; [|done].
        rw option_guard_False; [set_solver|done].
      * rw lookup_delete_ne // map_lookup_filter. destruct (get L (pending t) !! n'); cbn; [|done].
        destruct (decide (n' ∈ pre)).
        -- rw !option_guard_False; [set_solver..|done].
        -- rw !option_guard_True; [set_solver..|done].
  - exists t'. split; [done|]. destruct Hm as (Hl & Hc & _). split_and!; [done|done|]. rw H2. f_equal.
    apply map_filter_ext. intros n b _. cbn. by rw elem_of_range_set.
Qed.
End one_kind.

(** *** The phases of the application *)
Implicit Types (c : Configuration Frontend Server Base).

Section writes.
Context (laws : write_laws_on).

Definition put_both (fes : gmap string Frontend) (bes : gmap string (BackendModel Server Base))
    (cf : Conf) : Conf := put be_lens bes (put fe_lens fes cf).

(** The client accepts every section of the configuration and of the diffs. *)
Definition accepted c : Prop :=
  (∀ loc fe, objs (c_Frontends c) !! loc = Some fe → ok_fe fe) ∧
  (∀ loc be, objs (c_Backends c) !! loc = Some be → ok_be be).

Lemma pointed_object {M} (P : M → Prop) (s : Sections M) m b :
  (∀ loc b, objs s !! loc = Some b → P b) → b ∈ pointed s m → P b.
Proof using Type. intros HP ([n loc] & _ & Hb)%list_elem_of_omap. by apply (HP loc). Qed.

Lemma processCreate_ok c t :
  named fe_Name (objs (c_Frontends c)) (created (c_Frontends c)) →
  named be_Name (objs (c_Backends c)) (created (c_Backends c)) →
  accepted c → live t →
  ∃ t', processCreate c t = (t', None) ∧
    moves t (view (c_Frontends c) (created (c_Frontends c)) ∪ (pending t).1,
             view (c_Backends c) (created (c_Backends c)) ∪ (pending t).2) t'.
Proof.
  intros Hfe Hbe [Afe Abe] Hlive. unfold processCreate.
  destruct (store_calls fe_Name fe_lens FrontendCreate false
    (pointed (c_Frontends c) (created (c_Frontends c))) t) as (t1 & -> & (L1 & C1 & H1));
    [intros b t0 Hl Hb _; apply (law_fe_create laws); [done|eapply pointed_object, Hb; exact Afe]|done..|].
  destruct (store_calls be_Name be_lens BackendCreate false
    (pointed (c_Backends c) (created (c_Backends c))) t1) as (t2 & -> & (L2 & C2 & H2));
    [intros b t0 Hl Hb _; apply (law_be_create laws); [done|eapply pointed_object, Hb; exact Abe]|done..|].
  exists t2. split; [done|]. split_and!; [done|congruence|]. rw H2 H1 !store_all_pointed //.
Qed.

Lemma processUpdate_ok c t :
  named fe_Name (objs (c_Frontends c)) (updated (c_Frontends c)) →
  named be_Name (objs (c_Backends c)) (updated (c_Backends c)) →
  (∀ n, is_Some (updated (c_Frontends c) !! n) → is_Some ((pending t).1 !! n)) →
  (∀ n, is_Some (updated (c_Backends c) !! n) → is_Some ((pending t).2 !! n)) →
  accepted c → live t →
  ∃ t', processUpdate c t = (t', None) ∧
    moves t (view (c_Frontends c) (updated (c_Frontends c)) ∪ (pending t).1,
             view (c_Backends c) (updated (c_Backends c)) ∪ (pending t).2) t'.
Proof.
  intros Hfe Hbe Hfk Hbk [Afe Abe] Hlive. unfold processUpdate.
  destruct (store_calls fe_Name fe_lens FrontendEdit true
    (pointed (c_Frontends c) (updated (c_Frontends c))) t) as (t1 & -> & (L1 & C1 & H1)).
  { intros b t0 Hl Hin Hb. apply (law_fe_edit laws); [done|eapply pointed_object, Hin; exact Afe|by apply Hb]. }
  { done. }
  { intros _ b Hb. apply Hfk. by eapply elem_of_pointed. }
  destruct (store_calls be_Name be_lens BackendEdit true
    (pointed (c_Backends c) (updated (c_Backends c))) t1) as (t2 & -> & (L2 & C2 & H2)).
  { intros b t0 Hl Hin Hb. apply (law_be_edit laws); [done|eapply pointed_object, Hin; exact Abe|by apply Hb]. }
  { done. }
  { intros _ b Hb. rw H1. apply Hbk. by eapply elem_of_pointed. }
  exists t2. split; [done|]. split_and!; [done|congruence|]. rw H2 H1 !store_all_pointed //.
Qed.

Lemma processDelete_ok c t :
  (∀ n, n ∈ removed (c_Frontends c) → is_Some ((pending t).1 !! n)) →
  (∀ n, n ∈ removed (c_Backends c) → is_Some ((pending t).2 !! n)) → live t →
  ∃ t', processDelete c t = (t', None) ∧
    moves t (filter (λ nb, nb.1 ∉ removed (c_Frontends c)) (pending t).1,
             filter (λ nb, nb.1 ∉ removed (c_Backends c)) (pending t).2) t'.
Proof.
  intros Hfk Hbk Hlive. unfold processDelete.
  destruct (delete_calls fe_Name fe_lens FrontendDelete (removed (c_Frontends c)) t)
    as (t1 & -> & (L1 & C1 & H1)); [intros n t0; apply (law_fe_delete laws)|done..|].
  destruct (delete_calls be_Name be_lens BackendDelete (removed (c_Backends c)) t1)
    as (t2 & -> & (L2 & C2 & H2)).
  { intros n t0. apply (law_be_delete laws). }
  { done. }
  { intros n Hn. rw H1. by apply Hbk. }
  exists t2. split; [done|]. split_and!; [done|congruence|]. by rw H2 H1.
Qed.

(** The sections are known when they are edited or deleted. *)
Lemma known_after_create {M} (name : M → string) base (s : Sections M) n :
  cycle_inv name base s → n ∈ removed s ∨ is_Some (updated s !! n) →
  is_Some ((view s (created s) ∪ base) !! n).
Proof.
  intros Hinv Hn. apply lookup_union_is_Some.
  destruct (inv_known _ _ _ Hinv _ Hn) as [?|?]; [by right|left].
  apply (view_is_Some name); [apply (inv_wf _ _ _ Hinv)|done].
Qed.

Lemma apply_diffs_empty {M} base (s : Sections M) :
  Sections_IsEmpty s = true → apply_diffs base s = base.
Proof.
  unfold Sections_IsEmpty. rw !andb_true_iff !bool_decide_eq_true.
  intros [[Hc%map_size_empty_inv Hu%map_size_empty_inv] Hr%size_empty_inv].
  unfold apply_diffs, view. rw Hc Hu !omap_empty !map_empty_union.
  apply map_filter_id. intros n b _. cbn. set_solver.
Qed.

(** Up to the commit. *)
Lemma commit_ok c t :
  cycle_inv fe_Name (committed t).1 (c_Frontends c) →
  cycle_inv be_Name (committed t).2 (c_Backends c) →
  accepted c →
  sees (committed t) (apply_diffs (committed t).1 (c_Frontends c),
                      apply_diffs (committed t).2 (c_Backends c)) →
  ∃ t', step APIFinalCommitTransaction (step (processDelete c) (step (processUpdate c)
      (step (processCreate c) (APIStartTransaction t)))) = (t', None) ∧
    committed t' = (apply_diffs (committed t).1 (c_Frontends c),
                    apply_diffs (committed t).2 (c_Backends c)).
Proof.
  intros Hfe Hbe Hacc Hsees.
  destruct (law_start laws t) as (t0 & -> & (L0 & C0 & H0)). unfold step. cbn [fst snd].
  destruct (processCreate_ok c t0) as (t1 & -> & (L1 & C1 & H1));
    [apply (inv_wf _ _ _ Hfe)|apply (inv_wf _ _ _ Hbe)|done..|]. cbn [fst snd].
  destruct (processUpdate_ok c t1) as (t2 & -> & (L2 & C2 & H2));
    [apply (inv_wf _ _ _ Hfe)|apply (inv_wf _ _ _ Hbe)| | |done..|].
  { intros n Hn. rw H1 H0. eapply known_after_create; eauto. }
  { intros n Hn. rw H1 H0. eapply known_after_create; eauto. }
  cbn [fst snd]. destruct (processDelete_ok c t2) as (t3 & -> & (L3 & C3 & H3)).
  { intros n Hn. rw H2 H1 H0. apply lookup_union_is_Some. right.
    eapply known_after_create; eauto. }
  { intros n Hn. rw H2 H1 H0. apply lookup_union_is_Some. right.
    eapply known_after_create; eauto. }
  { done. }
  assert (pending t3 = (apply_diffs (committed t).1 (c_Frontends c),
                        apply_diffs (committed t).2 (c_Backends c))) as H3'
    by by rw H3 H2 H1 H0.
  assert (committed t3 = committed t) as C by congruence.
  cbn [fst snd]. destruct (law_commit laws t3 L3) as (t4 & -> & H4).
  { by rw C H3'. }
  exists t4. by rw H4.
Qed.
End writes.

Lemma applyCfgUpdates_ok (laws : client_laws_on) c t :
  cycle_inv fe_Name (committed t).1 (c_Frontends c) →
  cycle_inv be_Name (committed t).2 (c_Backends c) →
  accepted c →
  sees (committed t) (apply_diffs (committed t).1 (c_Frontends c),
                      apply_diffs (committed t).2 (c_Backends c)) →
  ∃ t', applyCfgUpdates c t = (t', None) ∧
    committed t' = (apply_diffs (committed t).1 (c_Frontends c),
                    apply_diffs (committed t).2 (c_Backends c)).
Proof.
  destruct laws as [laws Hreload]. intros Hfe Hbe Hacc Hsees. unfold applyCfgUpdates.
  destruct (Sections_IsEmpty (c_Frontends c) && Sections_IsEmpty (c_Backends c) && _) eqn:He.
  { apply andb_true_iff in He as [[He1 He2]%andb_true_iff _]. exists t. split; [done|].
    rw !apply_diffs_empty //. by destruct (committed t). }
  clear He. cbv zeta. destruct (commit_ok laws c t Hfe Hbe Hacc Hsees) as (t4 & -> & H5).
  unfold step, reload_if_needed. cbn [fst snd]. destruct (NeedReload t4) eqn:Hn.
  - destruct (Hreload t4 Hn) as (t5 & -> & H6).
    eexists. split; [done|]. by rw (law_dispose laws) H6.
  - eexists. split; [done|]. by rw (law_dispose laws).
Qed.
End application.

(** A client that accepts everything, in any state. *)
Definition client_laws {Frontend Server Base T : Type} (fe_Name : Frontend → string)
    `{HC : HAProxyClient Frontend (BackendModel Server Base) T} committed pending : Prop :=
  client_laws_on fe_Name committed pending (λ _, True) (λ _, True) (λ _, True) (λ _ _, True).

(** A change of metadata reaches the current object, and no other. *)
Section metadata.
Context {Server Base : Type}.
Implicit Types (s : Sections (BackendModel Server Base)).

Lemma metadata_changes n md s p b :
  cur s !! n = Some p → objs s !! p = Some b →
  objs (upsertBackendMetadata n md s) !! p = Some (with_metadata md b).
Proof.
  intros Hn Hp. unfold upsertBackendMetadata. rw Hn Hp. cbn.
  rw lookup_insert_ne; [|apply lookup_insert_eq]. intros Heq.
  pose proof (is_fresh (dom (<[p := with_metadata md b]> (objs s)))) as Hf. apply Hf.
  rw Heq. apply elem_of_dom. rw lookup_insert_eq. eauto.
Qed.

Lemma metadata_keeps n md s q b :
  objs s !! q = Some b → cur s !! n ≠ Some q →
  objs (upsertBackendMetadata n md s) !! q = Some b.
Proof.
  intros Hq Hn. unfold upsertBackendMetadata. destruct (cur s !! n) as [p|] eqn:Hcur; [|done].
  destruct (objs s !! p) as [prev|] eqn:Hp; [|done]. cbn.
  assert (<[p := with_metadata md prev]> (objs s) !! q = Some b) as Hq'.
  { rw lookup_insert_ne; [congruence|done]. }
  rw lookup_insert_ne; [|done]. intros Heq. apply (is_fresh (dom (<[p := with_metadata md prev]> (objs s)))).
  rw Heq. apply elem_of_dom. eauto.
Qed.
End metadata.

(** ** Properties *)

(** After any sequence of operations of a cycle, the diffs applied to what
    the configuration was when they were reset (creations first, then updates,
    then deletions) give the configuration now, exactly when no section is both
    deleted by the diffs and present: a section deleted and created again in
    one cycle would be lost. *)
Theorem diffs_exact (RO : RangeOrder) (Frontend Server Base : Type) (EqS : EqDecision Server)
    (EqB : EqDecision Base) (fe_Name : Frontend → string) fe_Equal
    (c : Configuration Frontend Server Base) (ops : list (ConfOp (Frontend := Frontend))) :
  wf_configuration fe_Name c →
  let c' := run_cycle fe_Name fe_Equal c ops in
  let before := view (c_Backends c) (cur (c_Backends c)) in
  let s := c_Backends c' in
  apply_diffs before s = view s (cur s) ↔ (∀ n, n ∈ removed s → cur s !! n = None).
Proof.
  intros Hwf c' before s. destruct (run_cycle_inv fe_Name fe_Equal c ops Hwf) as [_ Hinv].
  fold c' before s in Hinv. split; [|by apply (cycle_exact be_Name)].
  intros Heq n Hn. apply eq_None_not_Some. intros Hsome.
  apply (view_is_Some be_Name s (cur s) n (wf_cur _ _ (inv_wf _ _ _ Hinv))) in Hsome as [b Hb].
  rw -Heq in Hb. apply map_lookup_filter_Some in Hb as [_ Hb]. by apply Hb.
Qed.

(** A concrete client: the committed configuration and the transaction. *)
Abbreviation example_conf := (gmap string string * gmap string (BackendModel Z bool))%type.

Definition example_edit {M} (name : M → string) (m : gmap string M) (b : M) :
    gmap string M * option string :=
  if m !! name b is Some _ then (<[name b := b]> m, None) else (m, Some "no such section").

Definition example_delete {M} (m : gmap string M) (n : string) : gmap string M * option string :=
  if m !! n is Some _ then (delete n m, None) else (m, Some "no such section").

#[export] Instance example_client :
    HAProxyClient string (BackendModel Z bool) (example_conf * example_conf) := {|
  APIStartTransaction t := ((t.1, t.1), None);
  APIFinalCommitTransaction t := ((t.2, t.2), None);
  APIDisposeTransaction t := (t.1, t.1);
  FrontendCreate fe t := ((t.1, (<[fe := fe]> t.2.1, t.2.2)), None);
  FrontendEdit fe t := let '(m, err) := example_edit id t.2.1 fe in ((t.1, (m, t.2.2)), err);
  FrontendDelete n t := let '(m, err) := example_delete t.2.1 n in ((t.1, (m, t.2.2)), err);
  BackendCreate be t := ((t.1, (t.2.1, <[be_Name be := be]> t.2.2)), None);
  BackendEdit be t := let '(m, err) := example_edit be_Name t.2.2 be in ((t.1, (t.2.1, m)), err);
  BackendDelete n t := let '(m, err) := example_delete t.2.2 n in ((t.1, (t.2.1, m)), err);
  NeedReload _ := true;
  Reload t := (t, None)
|}.

Lemma example_client_laws : @client_laws string Z bool _ id example_client fst snd.
Proof.
  split; [split|]; intros; cbn; try match goal with H : is_Some _ |- _ => destruct H as [x Hx] end.
  all: unfold example_edit, example_delete; cbn in *; rw ?Hx; by eexists.
Qed.

Definition example_backend_model (name : string) (servers : gmap string Z) :
    BackendModel Z bool := mkBackend name ∅ servers true.

(** One backend, at location 0. *)
Definition example_sections : Sections (BackendModel Z bool) :=
  mkSections {[ 0 := example_backend_model "be1" ∅ ]} {[ "be1" := 0 ]} ∅ ∅ ∅.

Definition example_configuration : Configuration string Z bool :=
  mkConfiguration (mkSections ∅ ∅ ∅ ∅ ∅) example_sections false.

Lemma example_configuration_wf : wf_configuration id example_configuration.
Proof.
  assert (∀ {M} (name : M → string) o, named name o ∅) as He by (intros M name o n loc []%lookup_empty_Some).
  split; split; try apply He.
  intros n loc Hn. cbn in Hn. apply lookup_singleton_Some in Hn as [<- <-].
  by exists (example_backend_model "be1" ∅).
Qed.

(** The backend is updated, a second one is created and gets a server. *)
Definition example_ops : list (ConfOp (Frontend := string)) :=
  [UpsertBackend (Some (mkBackend "be1" ∅ ∅ false));
   UpsertBackend (Some (example_backend_model "be2" ∅));
   UpsertServers "be2" {[ "s1" := 8080%Z ]}].

Lemma diffs_exact_witness :
  let c' := run_cycle (RO := key_order) id String.eqb example_configuration example_ops in
  let s := c_Backends c' in
  apply_diffs {[ "be1" := example_backend_model "be1" ∅ ]} s = view s (cur s).
Proof.
  intros c' s.
  apply (diffs_exact key_order string Z bool _ _ id String.eqb example_configuration example_ops
    example_configuration_wf).
  intros n Hn. exfalso. apply (not_elem_of_empty (C := gset string) n). exact Hn.
Defined.

(** HAProxy follows the controller.  When it holds the configuration the
    controller had at the start of a cycle, and the client keeps its promises,
    the diffs of the cycle are applied without error and leave HAProxy with the
    configuration the controller has, provided no section is both deleted by
    the diffs and present. *)
Theorem applyCfgUpdates_mirrors (RO : RangeOrder) (Frontend Server Base T : Type)
    (EqS : EqDecision Server) (EqB : EqDecision Base) (fe_Name : Frontend → string) fe_Equal
    (HC : HAProxyClient Frontend (BackendModel Server Base) T) committed pending
    (c : Configuration Frontend Server Base) (ops : list (ConfOp (Frontend := Frontend))) (t : T) :
  client_laws fe_Name committed pending → wf_configuration fe_Name c →
  let configuration c := (view (c_Frontends c) (cur (c_Frontends c)),
                          view (c_Backends c) (cur (c_Backends c))) in
  let c' := run_cycle fe_Name fe_Equal c ops in
  (∀ n, n ∈ removed (c_Frontends c') → cur (c_Frontends c') !! n = None) →
  (∀ n, n ∈ removed (c_Backends c') → cur (c_Backends c') !! n = None) →
  committed t = configuration c →
  ∃ t', applyCfgUpdates c' t = (t', None) ∧ committed t' = configuration c'.
Proof.
  intros laws Hwf configuration c' Hfe Hbe Ht.
  destruct (run_cycle_inv fe_Name fe_Equal c ops Hwf) as [H1 H2]. fold c' in H1, H2.
  assert ((committed t).1 = view (c_Frontends c) (cur (c_Frontends c))) as E1 by by rw Ht.
  assert ((committed t).2 = view (c_Backends c) (cur (c_Backends c))) as E2 by by rw Ht.
  rw -E1 in H1. rw -E2 in H2.
  destruct (applyCfgUpdates_ok fe_Name committed pending _ _ _ _ laws c' t H1 H2) as (t' & Happ & Hcom);
    [by split|done|].
  exists t'. split; [done|]. rw Hcom. unfold configuration.
  by rw (cycle_exact fe_Name _ _ H1 Hfe) (cycle_exact be_Name _ _ H2 Hbe).
Qed.

Lemma applyCfgUpdates_mirrors_witness :
  let c' := run_cycle (RO := key_order) id String.eqb example_configuration example_ops in
  let start : example_conf := (∅, {[ "be1" := example_backend_model "be1" ∅ ]}) in
  ∃ t', @applyCfgUpdates key_order _ _ _ _ example_client c' (start, start) = (t', None) ∧
    t'.1.2 = view (c_Backends c') (cur (c_Backends c')).
Proof.
  intros c' start.
  destruct (applyCfgUpdates_mirrors key_order string Z bool _ _ _ id String.eqb example_client
    fst snd example_configuration example_ops (start, start) example_client_laws
    example_configuration_wf) as (t' & H1 & H2).
  - intros n Hn. exfalso. apply (not_elem_of_empty (C := gset string) n). exact Hn.
  - intros n Hn. exfalso. apply (not_elem_of_empty (C := gset string) n). exact Hn.
  - vm_refl.
  - exists t'. split; [exact H1|]. by rw H2.
Defined.

(** The object of a created backend is shared by the configuration and the
    diffs, that of an updated one is copied.  A change of the metadata made in
    a later cycle changes what the diffs already sent hold of a creation, and
    nothing of what they hold of an update. *)
Theorem diffs_shared (RO : RangeOrder) (Server Base : Type) (EqS : EqDecision Server)
    (EqB : EqDecision Base) (s : Sections (BackendModel Server Base)) be md :
  let sent := (upsertBackend (Some be) (resetDiffs s)).1 in
  let later := upsertBackendMetadata (be_Name be) md (resetDiffs sent) in
  (cur s !! be_Name be = None →
    view sent (created sent) !! be_Name be = Some be ∧
    view later (created sent) !! be_Name be = Some (with_metadata md be)) ∧
  (∀ b, view sent (updated sent) !! be_Name be = Some b →
    view later (updated sent) !! be_Name be = Some b).
Proof.
  intros sent later. split.
  - intros Hn. unfold later, sent, upsertBackend. cbn -[view]. rw Hn. cbn -[view].
    set (f := fresh (dom (objs s))). rw !lookup_view lookup_insert_eq. cbn.
    split; [apply lookup_insert_eq|].
    apply metadata_changes; cbn; apply lookup_insert_eq.
  - intros b Hb. rw lookup_view in Hb. rw lookup_view.
    destruct (updated sent !! be_Name be) as [q|] eqn:Hq; [|done]. cbn in *.
    apply metadata_keeps; [done|]. revert Hq Hb. unfold sent, upsertBackend. cbn.
    destruct (cur s !! be_Name be ≫= _) as [prev|] eqn:Hprev; cbn.
    2:{ intros Hq. by rw lookup_empty in Hq. }
    destruct (equal_but_servers prev be); cbn; [intros Hq; by rw lookup_empty in Hq|].
    rw !lookup_insert_eq. intros [= <-] _ [= Heq].
    pose proof (is_fresh (dom (<[fresh (dom (objs s)) :=
      with_servers (be_Servers prev) be]> (objs s)))) as Hf.
    apply Hf. rw -Heq. apply elem_of_dom. rw lookup_insert_eq. eauto.
Qed.

Lemma diffs_shared_witness :
  let be := example_backend_model "be2" ∅ in
  let sent := (upsertBackend (Some be) (resetDiffs example_sections)).1 in
  let md := {[ "hug" := ∅ ]} in
  view (upsertBackendMetadata "be2" md (resetDiffs sent)) (created sent) !! "be2" =
    Some (with_metadata md be).
Proof.
  intros be sent md.
  by apply (diffs_shared key_order Z bool _ _ example_sections be md).
Defined.
