(* ===== verification/Backends.v ===== *)
(** * Backends: haproxy/backends.go, metadata/backend.go

    Which routes own which backend, the backends a cycle upserts, leaves
    unreferenced or deletes, and the backends written to the configuration.
    The code has one copy of the functions for HTTP routes and one for TLS
    routes; the class [BackendRoute] holds what differs. *)

From Stdlib Require Import Ascii.
From S2P Require Import Prelude GoStrings Objects Utils Conditions Store TreeCore Route HaproxyConf.

(** ** Data *)
Inductive BackendOwnerType := BackendOwnerTypeHTTPRoute | BackendOwnerTypeTLSRoute.

#[export] Instance BackendOwnerType_eq_dec : EqDecision BackendOwnerType.
Proof. solve_decision. Defined.

#[export] Instance BackendOwnerType_countable : Countable BackendOwnerType.
Proof.
  by refine (inj_countable' (λ t, if t is BackendOwnerTypeHTTPRoute then true else false)
    (λ b, if (b : bool) then BackendOwnerTypeHTTPRoute else BackendOwnerTypeTLSRoute) _); intros [].
Defined.

Definition owner_type_string (t : BackendOwnerType) : string :=
  match t with
  | BackendOwnerTypeHTTPRoute => "HTTPRoute" | BackendOwnerTypeTLSRoute => "TLSRoute"
  end.

(** map[backendName] -> map[ownerType] -> map[owner key] -> generation *)
Definition BackendReferencedBy : Type :=
  gmap string (gmap BackendOwnerType (gmap NamespacedName Z)).

Record BackendImpactedInCycle := mkImpacted {
  imp_Name : string; HTTPRouteKey : NamespacedName; imp_BackendRef : HTTPBackendRef
}.

Record BackendsImpactedInCycle := mkImpactedInCycle {
  Upserted : gmap string (gmap NamespacedName BackendImpactedInCycle);
  Deleted : gset string;
  Unreferenced : gset string
}.

(** templates.TemplateData, for a backend. *)
Record TemplateData := mkTemplateData {
  SERVICE_NAMESPACE : string; SERVICE_NAME : string; FILTER_HASH : string; LINK_ID : string;
  SERVICE_PORT : Z
}.

(** The fields of a backend the code sets; [Extra] holds the others. *)
Record BackendBase (Extra : Type) := mkBackendBase {
  Mode : string; From : string; BalanceAlgorithm : string; Abortonclose : string;
  ServerTimeout : Z; Forwardfor : option string; DefaultServerCheck : string; be_Extra : Extra
}.
Arguments mkBackendBase {Extra}.
Arguments Mode {Extra}.
Arguments be_Extra {Extra}.

#[export] Instance BackendBase_eq_dec {Extra} `{EqDecision Extra} : EqDecision (BackendBase Extra).
Proof. solve_decision. Defined.

(** The options of [mergo.Merge]: both override, one of them with empty
    slices, the other one appends slices. *)
Inductive MergeOption := WithOverride | WithAppendSlice | WithOverrideEmptySlice.

(** ** Ownership *)
Section owners.
Context {RO : RangeOrder}.

Definition add_owner (backendName : string) (ownerType : BackendOwnerType)
    (ownerKey : NamespacedName) (generation : Z) (bo : BackendReferencedBy) :
    BackendReferencedBy :=
  let ofBackend := default ∅ (bo !! backendName) in
  let ofType := default ∅ (ofBackend !! ownerType) in
  <[backendName := <[ownerType := <[ownerKey := generation]> ofType]> ofBackend]> bo.

Definition remove_owner (backendName : string) (ownerType : BackendOwnerType)
    (ownerKey : NamespacedName) (bo : BackendReferencedBy) : BackendReferencedBy :=
  match bo !! backendName with
  | None => bo
  | Some ownersForBackend =>
      match ownersForBackend !! ownerType with
      | None => bo
      | Some ownersForType =>
          <[backendName := <[ownerType := delete ownerKey ownersForType]> ownersForBackend]> bo
      end
  end.

Definition getBackendsReferencedBy (ownerType : BackendOwnerType) (ownerKey : NamespacedName)
    (bo : BackendReferencedBy) : gset string :=
  range_fold (λ backendName ownersForBackend backends,
    match ownersForBackend !! ownerType with
    | None => backends
    | Some ownersForType =>
        match ownersForType !! ownerKey with
        | Some _ => {[backendName]} ∪ backends
        | None => backends
        end
    end) bo ∅.
End owners.

(** ** The part of [HaproxyConfMgrImpl] the backends use *)
Record BackendMgr (Server Extra : Type) := mkBackendMgr {
  owners : BackendReferencedBy;
  backendsImpactedInCycle : BackendsImpactedInCycle;
  configuration : Sections (BackendModel Server (BackendBase Extra));
  firstSync_flag : bool;
  firstSync_backends : gset string
}.
Arguments mkBackendMgr {Server Extra}.
Arguments owners {Server Extra}.
Arguments backendsImpactedInCycle {Server Extra}.
Arguments configuration {Server Extra}.
Arguments firstSync_flag {Server Extra}.
Arguments firstSync_backends {Server Extra}.

(** The parameters of the manager, and the libraries it calls: the parsed name
    template, the MD5 of the JSON of the filters (an error when they
    have none), client-native's model of a
    Backend resource, and mergo. *)
Class BackendParams (Server Extra : Type) := {
  bp_LinkID : string;
  DefaultsSectionName : string;
  BackendNameTemplate : TemplateData → result string;
  md5_filters : list HTTPRouteFilter → result string;
  no_extra : Extra;
  spec_backend : BackendCR → BackendModel Server (BackendBase Extra);
  mergo_Merge : list MergeOption → BackendModel Server (BackendBase Extra) →
    BackendModel Server (BackendBase Extra) → result (BackendModel Server (BackendBase Extra))
}.

(** What differs between the two kinds of routes: the references of a rule,
    with the hash of their filters and what the cycle records of them. *)
Class BackendRoute (R Rule : Type) := {
  br_kind :: RouteKind R Rule;
  owner_type : BackendOwnerType;
  rule_refs : (list HTTPRouteFilter → result string) → Rule →
    list (BackendObjectReference * string * HTTPBackendRef)
}.

Definition getFilterHash (md5 : list HTTPRouteFilter → result string) (filters : list HTTPRouteFilter) :
    string :=
  if bool_decide (length filters = 0) then "_"
  else match md5 filters with Ok hash => hash | Err _ => "_" end.

#[export] Instance HTTPRoute_backends : BackendRoute K8sHTTPRoute K8sHTTPRouteRule := {|
  br_kind := HTTPRoute_kind;
  owner_type := BackendOwnerTypeHTTPRoute;
  rule_refs md5 r := (λ b, (hb_Ref b, getFilterHash md5 (hb_Filters b), b)) <$> hr_BackendRefs r
|}.

Definition zero_HTTPBackendRef : HTTPBackendRef :=
  {| hb_Ref := BackendObjRef None None "" None None; hb_Weight := None; hb_Filters := [] |}.

#[export] Instance TLSRoute_backends : BackendRoute K8sTLSRoute K8sTLSRouteRule := {|
  br_kind := TLSRoute_kind;
  owner_type := BackendOwnerTypeTLSRoute;
  rule_refs _ r := (λ b, (tb_Ref b, "", zero_HTTPBackendRef)) <$> tr_BackendRefs r
|}.

(** [strings.EqualFold], for a name made of ASCII letters against any text: the
    two runes outside ASCII that fold to a letter are the Kelvin sign and the
    long s. *)
Definition lower (c : ascii) : ascii :=
  let n := nat_of_ascii c in
  if (65 <=? n)%nat && (n <=? 90)%nat then ascii_of_nat (n + 32) else c.

Fixpoint fold_case (s : string) : string :=
  match s with
  | String "226" (String "132" (String "170" s)) => String "k" (fold_case s)
  | String "197" (String "191" s) => String "s" (fold_case s)
  | String c s => String (lower c) (fold_case s)
  | EmptyString => EmptyString
  end.

Definition EqualFold (name text : string) : bool := bool_decide (fold_case name = fold_case text).

Definition IsFilterExtensionRefKindSupported (extractGVK : ExtractGVK)
    (extensionRef : option LocalObjectReference) : bool :=
  let backendGVK := extractGVK KBackend in
  match extensionRef with
  | None => false
  | Some ref =>
      if negb (EqualFold (gvk_Kind backendGVK) (lo_Kind ref)) then false
      else if negb (bool_decide (gvk_Group backendGVK = lo_Group ref)) then false
      else true
  end.

Definition IsFilterExtensionRefKindMergeType (extractGVK : ExtractGVK)
    (extensionRef : option LocalObjectReference) : bool :=
  let backendGVK := extractGVK KBackend in
  match extensionRef with
  | None => false
  | Some ref =>
      if negb (EqualFold "MergeType" (lo_Kind ref)) then false
      else if negb (bool_decide (gvk_Group backendGVK = lo_Group ref)) then false
      else if negb (EqualFold "Override" (lo_Name ref) || EqualFold "Append" (lo_Name ref))
      then false
      else true
  end.

(** ** metadata/backend.go *)
Record RouteMetadaInfo := mkRouteInfo { OwnerType : string; ri_Generation : Z }.

Definition BackendMetaData `{RangeOrder} (linkID : string) (routesInfo : gmap string RouteMetadaInfo) :
    MetaData :=
  let backendMetadata := range_fold (λ routeKey routeInfo md,
    let ofType := default ∅ (md !! OwnerType routeInfo) in
    <[OwnerType routeInfo := <[routeKey := mkObjectInfo linkID (ri_Generation routeInfo)]> ofType]> md)
    routesInfo (∅ : gmap string (gmap string K8sObjectInfo)) in
  {[ UnifiedGatewayMetaDataKey := backendMetadata ]}.

(** ** The cycle *)
Section manager.
Context {RO : RangeOrder} {Server Extra : Type} {EqS : EqDecision Server} {EqE : EqDecision Extra}.
Context {BP : BackendParams Server Extra} (extractGVK : ExtractGVK).
Context (backendCRs : gmap NamespacedName BackendCR).
Implicit Types (m : BackendMgr Server Extra).

Definition getBackendName (svcKey : NamespacedName) (svcPort : Z) (filterHash : string) :
    result string :=
  BackendNameTemplate (mkTemplateData (Namespace svcKey) (Name svcKey) filterHash bp_LinkID svcPort).

Definition set_owners (bo : BackendReferencedBy) m : BackendMgr Server Extra :=
  mkBackendMgr bo (backendsImpactedInCycle m) (configuration m) (firstSync_flag m)
    (firstSync_backends m).

Definition set_impacted (c : BackendsImpactedInCycle) m : BackendMgr Server Extra :=
  mkBackendMgr (owners m) c (configuration m) (firstSync_flag m) (firstSync_backends m).

Definition addImpactedBackendUpserted (backendName : string) (routeKey : NamespacedName)
    (backendRef : HTTPBackendRef) m : BackendMgr Server Extra :=
  let c := backendsImpactedInCycle m in
  let ofBackend := default ∅ (Upserted c !! backendName) in
  set_impacted (mkImpactedInCycle
    (<[backendName := <[routeKey := mkImpacted backendName routeKey backendRef]> ofBackend]>
       (Upserted c)) (Deleted c) (Unreferenced c)) m.

Definition addImpactedBackendDeleted (backendName : string) m : BackendMgr Server Extra :=
  let c := backendsImpactedInCycle m in
  set_impacted (mkImpactedInCycle (Upserted c) ({[backendName]} ∪ Deleted c) (Unreferenced c)) m.

Definition addImpactedBackendUnreferenced (backendName : string) m : BackendMgr Server Extra :=
  let c := backendsImpactedInCycle m in
  set_impacted (mkImpactedInCycle (Upserted c) (Deleted c) ({[backendName]} ∪ Unreferenced c)) m.

(** *** Routes *)
Section routes.
Context {R Rule : Type} {BR : BackendRoute R Rule}.

(** The state of the loops of [upsertHTTPRouteBackends]. *)
Record UpsertLoop := mkUpsertLoop {
  ul_mgr : BackendMgr Server Extra; ul_upserted : gset string; ul_errs : Errors
}.

Definition upsert_backendRef (routeKey : NamespacedName) (k8s : R) (rule : RouteRule Rule)
    (s : UpsertLoop) (ref : BackendObjectReference * string * HTTPBackendRef) : UpsertLoop :=
  let '(backendRef, filterHash, recorded) := ref in
  let svcPort := default 0%Z (b_Port backendRef) in
  let svcNsName := ServiceNsNameKey (meta_Namespace (route_Meta k8s)) backendRef in
  match getBackendName svcNsName svcPort filterHash with
  | Err err => mkUpsertLoop (ul_mgr s) (ul_upserted s) (Errors_Add (ul_errs s) [Some err])
  | Ok beName =>
      match KeyMaps.Get (CheckBackendRef rule) backendRef with
      | None => s
      | Some checkResult =>
          if check_Valid checkResult then
            let m := ul_mgr s in
            let m := set_owners (add_owner beName owner_type routeKey
                                   (meta_Generation (route_Meta k8s)) (owners m)) m in
            mkUpsertLoop (addImpactedBackendUpserted beName routeKey recorded m)
              ({[beName]} ∪ ul_upserted s) (ul_errs s)
          else s
      end
  end.

Definition upsert_rule (routeKey : NamespacedName) (k8s : R) (s : UpsertLoop)
    (rule : RouteRule Rule) : UpsertLoop :=
  if rule_Valid rule
  then foldl (upsert_backendRef routeKey k8s rule) s (rule_refs md5_filters (rule_K8sResource rule))
  else s.

Definition unreference (routeKey : NamespacedName) m (beName : string) : BackendMgr Server Extra :=
  addImpactedBackendUnreferenced beName
    (set_owners (remove_owner beName owner_type routeKey (owners m)) m).

Definition upsertRouteBackends (routeKey : NamespacedName) (k8s : R) (rules : list (RouteRule Rule))
    m : BackendMgr Server Extra * option string :=
  let s := foldl (upsert_rule routeKey k8s) (mkUpsertLoop m ∅ []) rules in
  let backendsReferencedByRoute :=
    getBackendsReferencedBy owner_type routeKey (owners (ul_mgr s)) in
  let unreferenced :=
    SetDifference (set_entries backendsReferencedByRoute) (set_entries (ul_upserted s)) in
  (foldl (unreference routeKey) (ul_mgr s) (range_set unreferenced), Errors_Result (ul_errs s)).

(** [onDeletedHTTPRoute], and [onInvalidHTTPRouteUpserted]. *)
Definition release (routeKey : NamespacedName) m (beName : string) : BackendMgr Server Extra :=
  addImpactedBackendDeleted beName
    (set_owners (remove_owner beName owner_type routeKey (owners m)) m).

Definition onDeletedRoute (routeKey : NamespacedName) m : BackendMgr Server Extra :=
  foldl (release routeKey) m (range_set (getBackendsReferencedBy owner_type routeKey (owners m))).

(** One iteration of [processHTTPRoutes] or [processTLSRoutes]. *)
Definition process_route (rs : gmap nat (Route R Rule)) (routeKey : NamespacedName) (loc : nat)
    (acc : BackendMgr Server Extra * Errors) : BackendMgr Server Extra * Errors :=
  match rs !! loc with
  | None => acc
  | Some route =>
      match Status (rt_TreeStatus route) with
      | StatusUnchanged => acc
      | StatusUpserted =>
          if rt_Valid (rt_data route) then
            match rt_K8sResource (rt_data route) with
            | None => acc
            | Some k8s =>
                let '(m, err) := upsertRouteBackends routeKey k8s (Rules (rt_data route)) acc.1 in
                (m, Errors_Add acc.2 [err])
            end
          else (onDeletedRoute routeKey acc.1, acc.2)
      | StatusDeleted => (onDeletedRoute routeKey acc.1, acc.2)
      end
  end.
End routes.

(** *** Clean-up of the owners *)
Definition cleanupUnreferencedBackendsForRoutes (ownerType : BackendOwnerType) m :
    BackendMgr Server Extra :=
  range_fold (λ beName ownersForBackend m,
    match ownersForBackend !! ownerType with
    | None => m
    | Some ownersForType =>
        let ownersForBackend :=
          if bool_decide (size ownersForType = 0) then delete ownerType ownersForBackend
          else ownersForBackend in
        if bool_decide (size ownersForBackend = 0)
        then addImpactedBackendDeleted beName (set_owners (delete beName (owners m)) m)
        else set_owners (<[beName := ownersForBackend]> (owners m)) m
    end) (owners m) m.

Definition cleanupUnreferencedBackends m : BackendMgr Server Extra :=
  cleanupUnreferencedBackendsForRoutes BackendOwnerTypeTLSRoute
    (cleanupUnreferencedBackendsForRoutes BackendOwnerTypeHTTPRoute m).

(** *** The backends *)
Definition merge_filter (namespace : string)
    (s : list MergeOption * BackendModel Server (BackendBase Extra) * Errors)
    (filter : HTTPRouteFilter) :
    list MergeOption * BackendModel Server (BackendBase Extra) * Errors :=
  let '(opts, newBackend, errs) := s in
  match f_ExtensionRef filter with
  | None => s
  | Some ref =>
      let isFilterExtensionRefKindSupported :=
        IsFilterExtensionRefKindSupported extractGVK (f_ExtensionRef filter) in
      let isFilterExtensionRefKindMergeType :=
        IsFilterExtensionRefKindMergeType extractGVK (f_ExtensionRef filter) in
      if negb (bool_decide (f_Type filter = HTTPRouteFilterExtensionRef)) then s
      else if negb (isFilterExtensionRefKindSupported || isFilterExtensionRefKindMergeType) then s
      else if isFilterExtensionRefKindMergeType && bool_decide (lo_Name ref = "Override")
      then ([WithOverride; WithOverrideEmptySlice], newBackend, errs)
      else if isFilterExtensionRefKindMergeType && bool_decide (lo_Name ref = "Append")
      then ([WithOverride; WithAppendSlice], newBackend, errs)
      else
        match backendCRs !! NN namespace (lo_Name ref) with
        | None => s
        | Some beCR =>
            let spec := spec_backend beCR in
            let spec := mkBackend "" (be_Metadata spec) (be_Servers spec) (be_Base spec) in
            match mergo_Merge opts newBackend spec with
            | Ok newBackend => (opts, newBackend, errs)
            | Err err => (opts, newBackend, Errors_Add errs [Some err])
            end
        end
  end.

Definition mergeWithBackendCRs (backendRef : HTTPBackendRef)
    (newBackend : BackendModel Server (BackendBase Extra)) (namespace : string) :
    BackendModel Server (BackendBase Extra) * Errors :=
  let '(_, newBackend, errs) :=
    foldl (merge_filter namespace) ([WithOverride; WithAppendSlice], newBackend, [])
      (hb_Filters backendRef) in
  (newBackend, errs).

Definition newBackend (backendName : string) (md : MetaData) (backendRef : HTTPBackendRef)
    (namespace : string) (isHTTPBackend : bool) :
    BackendModel Server (BackendBase Extra) * option string :=
  let base := mkBackendBase (if isHTTPBackend then "http" else "tcp") DefaultsSectionName
    "roundrobin" "disabled" 50000 (if isHTTPBackend then Some "enabled" else None) "enabled"
    no_extra in
  let '(be, errs) := mergeWithBackendCRs backendRef (mkBackend backendName md ∅ base) namespace in
  (be, Errors_Result errs).

(** The owners whose metadata the backend carries: the HTTP routes, or the TLS
    routes when it has no entry for HTTP routes. *)
Definition owners_of (ofBackend : gmap BackendOwnerType (gmap NamespacedName Z)) :
    option (BackendOwnerType * gmap NamespacedName Z) :=
  match ofBackend !! BackendOwnerTypeHTTPRoute with
  | Some ownersForRoute => Some (BackendOwnerTypeHTTPRoute, ownersForRoute)
  | None =>
      match ofBackend !! BackendOwnerTypeTLSRoute with
      | Some ownersForRoute => Some (BackendOwnerTypeTLSRoute, ownersForRoute)
      | None => None
      end
  end.

Definition routes_info (ownerType : BackendOwnerType) (ownersForRoute : gmap NamespacedName Z) :
    gmap string RouteMetadaInfo :=
  range_fold (λ routeKey generation info,
    <[NamespacedName_String routeKey := mkRouteInfo (owner_type_string ownerType) generation]> info)
    ownersForRoute ∅.

Definition set_configuration (c : Sections (BackendModel Server (BackendBase Extra))) m :
    BackendMgr Server Extra :=
  mkBackendMgr (owners m) (backendsImpactedInCycle m) c (firstSync_flag m) (firstSync_backends m).

Definition set_firstSync (X : gset string) m : BackendMgr Server Extra :=
  mkBackendMgr (owners m) (backendsImpactedInCycle m) (configuration m) (firstSync_flag m)
    (if firstSync_flag m then X else firstSync_backends m).

Definition upsert_one_backend (backendName : string)
    (mapImpactedBEs : gmap NamespacedName BackendImpactedInCycle)
    (acc : BackendMgr Server Extra * Errors) : BackendMgr Server Extra * Errors :=
  let '(m, errs) := acc in
  match owners m !! backendName with
  | None => (m, Errors_Add errs [Some ("could not find owner for backend " +:+ backendName)])
  | Some ofBackend =>
      match owners_of ofBackend with
      | None =>
          (m, Errors_Add errs [Some "could not find owners for type HTTPRoute/TLSRoute"])
      | Some (ownerType, ownersForRoute) =>
          let isHTTPBackend := bool_decide (ownerType = BackendOwnerTypeHTTPRoute) in
          let beMd := BackendMetaData bp_LinkID (routes_info ownerType ownersForRoute) in
          let backendRef := foldl (λ _ kv, imp_BackendRef kv.2) zero_HTTPBackendRef
                              (range mapImpactedBEs) in
          let namespace := match range ownersForRoute with
                           | (owner, _) :: _ => Namespace owner | [] => "" end in
          let '(be, err) := newBackend backendName beMd backendRef namespace isHTTPBackend in
          match err with
          | Some err => (m, Errors_Add errs [Some err])
          | None =>
              let '(c, err) := upsertBackend (Some be) (configuration m) in
              let m := set_configuration c m in
              match err with
              | Some err => (m, Errors_Add errs [Some err])
              | None => (set_firstSync ({[be_Name be]} ∪ firstSync_backends m) m, errs)
              end
          end
      end
  end.

Definition unreferenced_one_backend (m : BackendMgr Server Extra) (backendName : string) :
    BackendMgr Server Extra :=
  match owners m !! backendName with
  | None => m
  | Some ofBackend =>
      match owners_of ofBackend with
      | None =>
          let m := set_configuration (deleteBackend backendName (configuration m)) m in
          set_firstSync (firstSync_backends m ∖ {[backendName]}) m
      | Some (ownerType, ownersForRoute) =>
          let beMd := BackendMetaData bp_LinkID (routes_info ownerType ownersForRoute) in
          let m := set_configuration (upsertBackendMetadata backendName beMd (configuration m)) m in
          set_firstSync ({[backendName]} ∪ firstSync_backends m) m
      end
  end.

Definition delete_one_backend (m : BackendMgr Server Extra) (backendName : string) :
    BackendMgr Server Extra :=
  let m := set_configuration (deleteBackend backendName (configuration m)) m in
  set_firstSync (firstSync_backends m ∖ {[backendName]}) m.

Definition processBackendsModifiedInCycle m : BackendMgr Server Extra * Errors :=
  let '(m, errs) := range_fold upsert_one_backend (Upserted (backendsImpactedInCycle m)) (m, []) in
  let m := foldl unreferenced_one_backend m
             (range_set (Unreferenced (backendsImpactedInCycle m))) in
  let m := foldl delete_one_backend m (range_set (Deleted (backendsImpactedInCycle m))) in
  (m, errs).

(** [processHTTPRoutes] and [processTLSRoutes]. *)
Definition processRoutes {R Rule : Type} {BR : BackendRoute R Rule}
    (routesOf : gmap NamespacedName nat) (rs : gmap nat (Route R Rule)) m :
    BackendMgr Server Extra * option string :=
  let '(m, errs) := range_fold (process_route rs) routesOf (m, []) in
  let m := cleanupUnreferencedBackends m in
  let '(m, errs') := processBackendsModifiedInCycle m in
  (m, Errors_Result (Errors_Add errs [Errors_Result errs'])).

(** The start of [ComputeDiffs]. *)
Definition start_cycle m : BackendMgr Server Extra :=
  set_impacted (mkImpactedInCycle ∅ ∅ ∅) (set_configuration (resetDiffs (configuration m)) m).

(** The functions the file has for each kind of route. *)
Definition upsertHTTPRouteBackends routeKey (k8s : K8sHTTPRoute) := upsertRouteBackends routeKey k8s.
Definition upsertTLSRouteBackends routeKey (k8s : K8sTLSRoute) := upsertRouteBackends routeKey k8s.
Definition processHTTPRoutes routesOf (rs : gmap nat (Route K8sHTTPRoute K8sHTTPRouteRule)) :=
  processRoutes routesOf rs.
Definition processTLSRoutes routesOf (rs : gmap nat (Route K8sTLSRoute K8sTLSRouteRule)) :=
  processRoutes routesOf rs.
End manager.

(** ** The owners as a relation *)
Definition gen_of (bo : BackendReferencedBy) (be : string) (ty : BackendOwnerType)
    (key : NamespacedName) : option Z :=
  ofBackend ← bo !! be; ofType ← ofBackend !! ty; ofType !! key.

Section relation.
Context {RO : RangeOrder}.
Implicit Types (bo : BackendReferencedBy).

Lemma gen_of_add bo be ty key g be' ty' key' :
  gen_of (add_owner be ty key g bo) be' ty' key' =
  if decide (be = be' ∧ ty = ty' ∧ key = key') then Some g else gen_of bo be' ty' key'.
Proof.
  unfold add_owner, gen_of. destruct (decide (be = be')) as [<-|Hbe].
  2:{ rw lookup_insert_ne // decide_False //. naive_solver. }
  rw lookup_insert_eq. cbn. destruct (decide (ty = ty')) as [<-|Hty].
  2:{ rw lookup_insert_ne // decide_False; [naive_solver|].
      destruct (bo !! be); cbn; [done|]. by rw lookup_empty. }
  rw lookup_insert_eq. cbn. destruct (decide (key = key')) as [<-|Hkey].
  { by rw lookup_insert_eq decide_True. }
  rw lookup_insert_ne // decide_False; [naive_solver|].
  destruct (bo !! be) as [ofb|]; cbn; [|by rw lookup_empty].
  destruct (ofb !! ty); cbn; [done|]. by rw lookup_empty.
Qed.

Lemma gen_of_remove bo be ty key be' ty' key' :
  gen_of (remove_owner be ty key bo) be' ty' key' =
  if decide (be = be' ∧ ty = ty' ∧ key = key') then None else gen_of bo be' ty' key'.
Proof.
  unfold remove_owner. destruct (bo !! be) as [ofb|] eqn:Hof; [destruct (ofb !! ty) as [ot|] eqn:Hot|].
  - unfold gen_of. destruct (decide (be = be')) as [<-|Hbe].
    2:{ rw lookup_insert_ne // decide_False //. naive_solver. }
    rw lookup_insert_eq Hof. cbn. destruct (decide (ty = ty')) as [<-|Hty].
    2:{ rw lookup_insert_ne // decide_False //. naive_solver. }
    rw lookup_insert_eq Hot. cbn. destruct (decide (key = key')) as [<-|Hkey].
    + by rw lookup_delete_eq decide_True.
    + rw lookup_delete_ne // decide_False //. naive_solver.
  - destruct (decide _) as [(<- & <- & <-)|_]; [|done]. unfold gen_of. by rw Hof /= Hot.
  - destruct (decide _) as [(<- & <- & <-)|_]; [|done]. unfold gen_of. by rw Hof.
Qed.

Lemma elem_of_getBackendsReferencedBy bo ty key be :
  be ∈ getBackendsReferencedBy ty key bo ↔ is_Some (gen_of bo be ty key).
Proof.
  unfold getBackendsReferencedBy.
  apply (range_fold_ind (λ d s, ∀ be, be ∈ s ↔ is_Some (gen_of d be ty key)) _ bo ∅).
  - intros be'. unfold gen_of. rw lookup_empty. split; [set_solver|by intros [? ?]].
  - intros n ofb d s _ Hd _ IH be'.
    assert (gen_of (<[n := ofb]> d) be' ty key =
      if decide (n = be') then ofType ← ofb !! ty; ofType !! key else gen_of d be' ty key) as ->.
    { unfold gen_of. destruct (decide (n = be')) as [<-|Hne]; [by rw lookup_insert_eq|].
      by rw lookup_insert_ne. }
    assert (n = be' → be' ∉ s) as Hn.
    { intros <- Hin%IH. unfold gen_of in Hin. rw Hd in Hin. by destruct Hin. }
    destruct (ofb !! ty) as [ot|]; cbn; [destruct (ot !! key) as [g|]; cbn|];
      destruct (decide (n = be')) as [Heq|Hne].
    all: rw ?elem_of_union ?elem_of_singleton ?IH.
    + subst. split; eauto.
    + naive_solver.
    + rw -IH. split; [by intros ?%Hn|by intros [? ?]].
    + done.
    + rw -IH. split; [by intros ?%Hn|by intros [? ?]].
    + done.
Qed.
End relation.

(** ** The loops over the backends of a route *)
Section loops.
Context {RO : RangeOrder} {Server Extra : Type} {EqS : EqDecision Server} {EqE : EqDecision Extra}.
Context {BP : BackendParams Server Extra}.
Implicit Types (m : BackendMgr Server Extra).

(** Only the owners of [key] for the backends in [S] change, to [g]. *)
Definition changes_owners (ty : BackendOwnerType) (key : NamespacedName) (S : string → Prop)
    (g : option Z) (bo bo' : BackendReferencedBy) : Prop :=
  ∀ be ty' key',
    (ty = ty' ∧ key = key' ∧ S be → gen_of bo' be ty' key' = g) ∧
    (¬ (ty = ty' ∧ key = key' ∧ S be) → gen_of bo' be ty' key' = gen_of bo be ty' key').

Lemma changes_owners_refl ty key g bo : changes_owners ty key (λ _, False) g bo bo.
Proof. intros be ty' key'. split; [by intros (_ & _ & [])|done]. Qed.

Lemma changes_owners_iff ty key (S1 S2 : string → Prop) g bo bo' :
  (∀ be, S1 be ↔ S2 be) → changes_owners ty key S1 g bo bo' → changes_owners ty key S2 g bo bo'.
Proof.
  intros HS H be ty' key'. destruct (H be ty' key') as [H1 H2].
  split; intros Hc; [apply H1|apply H2]; by rw HS.
Qed.

Lemma changes_owners_snoc ty key (S : string → Prop) g bo bo1 bo2 be0 :
  changes_owners ty key S g bo bo1 →
  (∀ be ty' key', gen_of bo2 be ty' key' =
     if decide (be0 = be ∧ ty = ty' ∧ key = key') then g else gen_of bo1 be ty' key') →
  changes_owners ty key (λ be, S be ∨ be = be0) g bo bo2.
Proof.
  intros H1 H2 be ty' key'. rw H2. destruct (H1 be ty' key') as [H3 H4].
  destruct (decide _) as [(<- & <- & <-)|Hd]; [split; [done|]; intros Hn; exfalso; apply Hn; auto|].
  split.
  - intros (<- & <- & [HS| ->]); [by apply H3|]. exfalso. by apply Hd.
  - intros Hn. apply H4. intros (<- & <- & HS). apply Hn. auto.
Qed.

Section routes.
Context {R Rule : Type} {BR : BackendRoute R Rule}.

Lemma release_all key l m :
  let m' := foldl (release key) m l in
  changes_owners owner_type key (λ be, be ∈ l) None (owners m) (owners m') ∧
  Deleted (backendsImpactedInCycle m') ≡ list_to_set l ∪ Deleted (backendsImpactedInCycle m) ∧
  configuration m' = configuration m.
Proof.
  apply (foldl_prefix_ind (λ pre m',
    changes_owners owner_type key (λ be, be ∈ pre) None (owners m) (owners m') ∧
    Deleted (backendsImpactedInCycle m') ≡ list_to_set pre ∪ Deleted (backendsImpactedInCycle m) ∧
    configuration m' = configuration m)).
  - split_and!; [|set_solver|done].
    eapply changes_owners_iff; [|apply changes_owners_refl]. set_solver.
  - intros pre be m' _ (H1 & H2 & H3). split_and!; [| |done].
    + eapply changes_owners_iff; [|eapply changes_owners_snoc; [exact H1|]].
      * intros be'. cbn. by rw elem_of_app list_elem_of_singleton.
      * intros be' ty' key'. apply gen_of_remove.
    + cbn. rw H2. set_solver.
Qed.

Lemma unreference_all key l m :
  let m' := foldl (unreference key) m l in
  changes_owners owner_type key (λ be, be ∈ l) None (owners m) (owners m') ∧
  Deleted (backendsImpactedInCycle m') = Deleted (backendsImpactedInCycle m) ∧
  configuration m' = configuration m.
Proof.
  apply (foldl_prefix_ind (λ pre m',
    changes_owners owner_type key (λ be, be ∈ pre) None (owners m) (owners m') ∧
    Deleted (backendsImpactedInCycle m') = Deleted (backendsImpactedInCycle m) ∧
    configuration m' = configuration m)).
  - split_and!; [|done|done].
    eapply changes_owners_iff; [|apply changes_owners_refl]. set_solver.
  - intros pre be m' _ (H1 & H2 & H3). split_and!; [|done|done].
    eapply changes_owners_iff; [|eapply changes_owners_snoc; [exact H1|]].
    + intros be'. cbn. by rw elem_of_app list_elem_of_singleton.
    + intros be' ty' key'. apply gen_of_remove.
Qed.

Lemma onDeletedRoute_spec key m :
  let m' := onDeletedRoute key m in
  changes_owners owner_type key (λ _, True) None (owners m) (owners m') ∧
  (∀ be, be ∈ Deleted (backendsImpactedInCycle m') ↔
    is_Some (gen_of (owners m) be owner_type key) ∨ be ∈ Deleted (backendsImpactedInCycle m)) ∧
  configuration m' = configuration m.
Proof.
  unfold onDeletedRoute. cbv zeta.
  destruct (release_all key (range_set (getBackendsReferencedBy owner_type key (owners m))) m)
    as (H1 & H2 & H3). split_and!; [| |done].
  - intros be ty' key'. destruct (H1 be ty' key') as [H4 H5]. cbv zeta in *.
    rw elem_of_range_set elem_of_getBackendsReferencedBy in H4, H5.
    split; [|intros Hn; apply H5; intros (? & ? & _); by apply Hn].
    intros (<- & <- & _). destruct (gen_of (owners m) be owner_type key) as [g|] eqn:Hg.
    + apply H4. split_and!; [done..|eauto].
    + rw H5; [|done]. intros (_ & _ & [? ?]). done.
  - intros be. rw H2 elem_of_union elem_of_list_to_set elem_of_range_set.
    by rw elem_of_getBackendsReferencedBy.
Qed.

(** The backends a route uses: the names of the references that resolve, in the
    rules that are valid. *)
Definition names_backend (k8s : R) (rule : RouteRule Rule)
    (ref : BackendObjectReference * string * HTTPBackendRef) (be : string) : Prop :=
  getBackendName (ServiceNsNameKey (meta_Namespace (route_Meta k8s)) ref.1.1)
    (default 0%Z (b_Port ref.1.1)) ref.1.2 = Ok be ∧
  ∃ c, KeyMaps.Get (CheckBackendRef rule) ref.1.1 = Some c ∧ check_Valid c = true.

Definition uses (k8s : R) (rules : list (RouteRule Rule)) (be : string) : Prop :=
  ∃ rule ref, rule ∈ rules ∧ rule_Valid rule = true ∧
    ref ∈ rule_refs md5_filters (rule_K8sResource rule) ∧ names_backend k8s rule ref be.

(** The two nested loops as one, over the pairs of a rule and a reference. *)
Definition rule_pairs (rules : list (RouteRule Rule)) :
    list (RouteRule Rule * (BackendObjectReference * string * HTTPBackendRef)) :=
  flat_map (λ rule, if rule_Valid rule
    then pair rule <$> rule_refs md5_filters (rule_K8sResource rule) else []) rules.

Lemma upsert_rules_pairs key k8s rules s :
  foldl (upsert_rule key k8s) s rules =
  foldl (λ s p, upsert_backendRef key k8s p.1 s p.2) s (rule_pairs rules).
Proof.
  revert s. induction rules as [|rule rules IH]; intros s; [done|]. cbn. rw foldl_app IH. f_equal.
  unfold upsert_rule. destruct (rule_Valid rule); [|done].
  generalize (rule_refs md5_filters (rule_K8sResource rule)) as refs. intros refs.
  revert s. induction refs as [|ref refs IHr]; intros s; [done|]. cbn. apply IHr.
Qed.

Lemma uses_pairs k8s rules be :
  uses k8s rules be ↔ ∃ p, p ∈ rule_pairs rules ∧ names_backend k8s p.1 p.2 be.
Proof.
  unfold uses, rule_pairs. setoid_rewrite list_elem_of_In. setoid_rewrite in_flat_map. split.
  - intros (rule & ref & Hr & Hv & Href & Hn). exists (rule, ref). split; [|done].
    exists rule. rw Hv. split; [done|]. apply list_elem_of_In, list_elem_of_fmap.
    exists ref. by rw list_elem_of_In.
  - intros ([rule ref] & (rule' & Hr & Hin) & Hn). destruct (rule_Valid rule') eqn:Hv; [|done].
    apply list_elem_of_In, list_elem_of_fmap in Hin as (ref' & [= -> ->] & Href%list_elem_of_In).
    by exists rule', ref'.
Qed.

Lemma upsert_backendRef_spec key k8s rule ref s :
  let s' := upsert_backendRef key k8s rule s ref in
  let g := meta_Generation (route_Meta k8s) in
  (∀ be, be ∈ ul_upserted s' ↔ be ∈ ul_upserted s ∨ names_backend k8s rule ref be) ∧
  (∀ bo, changes_owners owner_type key (λ be, be ∈ ul_upserted s) (Some g) bo (owners (ul_mgr s)) →
    changes_owners owner_type key (λ be, be ∈ ul_upserted s') (Some g) bo (owners (ul_mgr s'))) ∧
  Deleted (backendsImpactedInCycle (ul_mgr s')) = Deleted (backendsImpactedInCycle (ul_mgr s)) ∧
  configuration (ul_mgr s') = configuration (ul_mgr s).
Proof.
  destruct ref as [[ref hash] recorded]. unfold names_backend, upsert_backendRef. cbn [fst snd].
  destruct (getBackendName _ _ hash) as [be|err]; [destruct (KeyMaps.Get _ ref) as [c|]|]; cbn.
  2,3: split_and!; [naive_solver|naive_solver|done|done].
  destruct (check_Valid c) eqn:Hv; cbn.
  2:{ split_and!; [|naive_solver|done|done]. intros be'. split; [by left|].
      intros [?|(_ & c' & [= <-] & ?)]; congruence. }
  split_and!; [| |done|done].
  - intros be'. rw elem_of_union elem_of_singleton. split.
    + intros [->|?]; [right; eauto|by left].
    + intros [?|[[= <-] _]]; [by right|by left].
  - intros bo Hbo. eapply changes_owners_iff; [|eapply changes_owners_snoc; [exact Hbo|]].
    + intros be'. cbn. rw elem_of_union elem_of_singleton. naive_solver.
    + intros be' ty' key'. apply gen_of_add.
Qed.

Lemma upsert_rules_spec key k8s rules m :
  let s := foldl (upsert_rule key k8s) (mkUpsertLoop m ∅ []) rules in
  let g := meta_Generation (route_Meta k8s) in
  (∀ be, be ∈ ul_upserted s ↔ uses k8s rules be) ∧
  changes_owners owner_type key (λ be, be ∈ ul_upserted s) (Some g) (owners m) (owners (ul_mgr s)) ∧
  Deleted (backendsImpactedInCycle (ul_mgr s)) = Deleted (backendsImpactedInCycle m) ∧
  configuration (ul_mgr s) = configuration m.
Proof.
  cbv zeta. rw upsert_rules_pairs. setoid_rewrite uses_pairs.
  apply (foldl_prefix_ind (λ pre s,
    (∀ be, be ∈ ul_upserted s ↔ ∃ p, p ∈ pre ∧ names_backend k8s p.1 p.2 be) ∧
    changes_owners owner_type key (λ be, be ∈ ul_upserted s)
      (Some (meta_Generation (route_Meta k8s))) (owners m) (owners (ul_mgr s)) ∧
    Deleted (backendsImpactedInCycle (ul_mgr s)) = Deleted (backendsImpactedInCycle m) ∧
    configuration (ul_mgr s) = configuration m)).
  - split_and!; try done.
    + intros be. split; [set_solver|]. by intros (p & Hp%elem_of_nil & _).
    + eapply changes_owners_iff; [|apply changes_owners_refl]. set_solver.
  - intros pre p s _ (H1 & H2 & H3 & H4).
    destruct (upsert_backendRef_spec key k8s p.1 p.2 s) as (G1 & G2 & G3 & G4).
    split_and!; [|by apply G2|by rw G3|by rw G4].
    intros be. rw G1 H1. setoid_rewrite elem_of_app. setoid_rewrite list_elem_of_singleton.
    naive_solver.
Qed.

Lemma upsertRouteBackends_owners key k8s rules m :
  let m' := (upsertRouteBackends key k8s rules m).1 in
  (∀ be, gen_of (owners m') be owner_type key =
     Some (meta_Generation (route_Meta k8s)) ∧ uses k8s rules be ∨
     gen_of (owners m') be owner_type key = None ∧ ¬ uses k8s rules be) ∧
  (∀ be ty' key', ¬ (owner_type = ty' ∧ key = key') →
     gen_of (owners m') be ty' key' = gen_of (owners m) be ty' key') ∧
  Deleted (backendsImpactedInCycle m') = Deleted (backendsImpactedInCycle m) ∧
  configuration m' = configuration m.
Proof.
  unfold upsertRouteBackends. cbv zeta. cbn [fst].
  destruct (upsert_rules_spec key k8s rules m) as (H1 & H2 & H3 & H4). cbv zeta in H2.
  set (s := foldl (upsert_rule key k8s) _ rules) in *.
  destruct (unreference_all key (range_set (SetDifference
    (set_entries (getBackendsReferencedBy owner_type key (owners (ul_mgr s))))
    (set_entries (ul_upserted s)))) (ul_mgr s)) as (G1 & G2 & G3).
  assert (∀ be, be ∈ range_set (SetDifference
    (set_entries (getBackendsReferencedBy owner_type key (owners (ul_mgr s))))
    (set_entries (ul_upserted s))) ↔
    is_Some (gen_of (owners (ul_mgr s)) be owner_type key) ∧ be ∉ ul_upserted s) as Hun.
  { intros be. rw elem_of_range_set SetDifference_spec elem_of_difference.
    rw !dom_gset_to_gmap elem_of_getBackendsReferencedBy //. }
  split_and!; [| |by rw G2|by rw G3].
  - intros be. destruct (G1 be owner_type key) as [G4 G5]. destruct (H2 be owner_type key) as [H5 H6].
    cbv beta in *. destruct (decide (be ∈ ul_upserted s)) as [Hin|Hin].
    + left. split; [|by apply H1]. rw G5; [|by apply H5].
      intros (_ & _ & Hbe%Hun). by apply Hbe.
    + right. split; [|by rw -H1].
      destruct (gen_of (owners (ul_mgr s)) be owner_type key) as [g|] eqn:Hg.
      * apply G4. split_and!; [done..|]. apply Hun. rw Hg. eauto.
      * rw G5; [|done]. intros (_ & _ & Hbe%Hun). rw Hg in Hbe. by destruct Hbe as [[? ?] _].
  - intros be ty' key' Hne. rw (proj2 (G1 be ty' key')); [tauto|].
    apply (proj2 (H2 be ty' key')). tauto.
Qed.
End routes.
End loops.

(** ** The phases of a cycle *)
Section cycle.
Context {RO : RangeOrder} {Server Extra : Type} {EqS : EqDecision Server} {EqE : EqDecision Extra}.
Context {BP : BackendParams Server Extra} (extractGVK : ExtractGVK).
Context (backendCRs : gmap NamespacedName BackendCR).
Implicit Types (m : BackendMgr Server Extra).

Lemma process_route_spec {R Rule : Type} {BR : BackendRoute R Rule} rs key loc
    (acc : BackendMgr Server Extra * Errors) :
  let acc' := process_route rs key loc acc in
  (∀ be ty' key', ¬ (owner_type = ty' ∧ key = key') →
     gen_of (owners acc'.1) be ty' key' = gen_of (owners acc.1) be ty' key') ∧
  Deleted (backendsImpactedInCycle acc.1) ⊆ Deleted (backendsImpactedInCycle acc'.1) ∧
  configuration acc'.1 = configuration acc.1 ∧
  (∀ r, rs !! loc = Some r → Status (rt_TreeStatus r) = StatusDeleted →
     ∀ be, is_Some (gen_of (owners acc.1) be owner_type key) →
       be ∈ Deleted (backendsImpactedInCycle acc'.1)) ∧
  (∀ r, rs !! loc = Some r → Status (rt_TreeStatus r) = StatusUnchanged → acc' = acc).
Proof.
  destruct acc as [m errs]. unfold process_route. destruct (rs !! loc) as [r|] eqn:Hr; [|done].
  destruct (onDeletedRoute_spec key m) as (D1 & D2 & D3). cbv zeta in *. cbn [fst snd].
  assert (Status (rt_TreeStatus r) ≠ StatusUnchanged →
    let acc' := (onDeletedRoute key m, errs) in
    (∀ be ty' key', ¬ (owner_type = ty' ∧ key = key') →
       gen_of (owners acc'.1) be ty' key' = gen_of (owners m) be ty' key') ∧
    Deleted (backendsImpactedInCycle m) ⊆ Deleted (backendsImpactedInCycle acc'.1) ∧
    configuration acc'.1 = configuration m ∧
    (∀ r0, Some r = Some r0 → Status (rt_TreeStatus r0) = StatusDeleted →
       ∀ be, is_Some (gen_of (owners m) be owner_type key) →
         be ∈ Deleted (backendsImpactedInCycle acc'.1)) ∧
    (∀ r0, Some r = Some r0 → Status (rt_TreeStatus r0) = StatusUnchanged → acc' = (m, errs)))
    as Hdel.
  { intros Hst. cbn [fst]. split_and!; [| |done| |intros r0 [= <-] ?; done].
    - intros be ty' key' Hne. apply (D1 be ty' key'). tauto.
    - intros be. rw D2. by right.
    - intros r0 _ _ be Hbe. apply D2. by left. }
  destruct (Status (rt_TreeStatus r)) eqn:Hst.
  - destruct (rt_Valid (rt_data r)); [|by apply Hdel].
    destruct (rt_K8sResource (rt_data r)) as [k8s|].
    + destruct (upsertRouteBackends_owners key k8s (Rules (rt_data r)) m) as (U1 & U2 & U3 & U4).
      destruct (upsertRouteBackends _ _ _ _) as [m' err]. cbn [fst snd] in *.
      split_and!; [exact U2|by rw U3|exact U4|intros r0 [= <-] ?; congruence..].
    + split_and!; [done..|intros r0 [= <-] ?; congruence|done].
  - by apply Hdel.
  - split_and!; [done..|intros r0 [= <-] ?; congruence|done].
Qed.

Lemma cleanup_spec ty m :
  let m' := cleanupUnreferencedBackendsForRoutes ty m in
  (∀ be ty' key', gen_of (owners m') be ty' key' = gen_of (owners m) be ty' key') ∧
  Deleted (backendsImpactedInCycle m) ⊆ Deleted (backendsImpactedInCycle m') ∧
  configuration m' = configuration m.
Proof.
  unfold cleanupUnreferencedBackendsForRoutes. cbv zeta.
  enough (let m' := cleanupUnreferencedBackendsForRoutes ty m in
    (∀ be, is_Some (owners m !! be) ∨ owners m' !! be = owners m !! be) ∧
    (∀ be ty' key', gen_of (owners m') be ty' key' = gen_of (owners m) be ty' key') ∧
    Deleted (backendsImpactedInCycle m) ⊆ Deleted (backendsImpactedInCycle m') ∧
    configuration m' = configuration m) as [_ H] by exact H.
  apply (range_fold_ind (λ d s,
    (∀ be, is_Some (d !! be) ∨ owners s !! be = owners m !! be) ∧
    (∀ be ty' key', gen_of (owners s) be ty' key' = gen_of (owners m) be ty' key') ∧
    Deleted (backendsImpactedInCycle m) ⊆ Deleted (backendsImpactedInCycle s) ∧
    configuration s = configuration m) _ (owners m) m).
  { split_and!; try done. by right. }
  intros n ofb d s Hn Hd _ (IH1 & IH2 & IH3 & IH4).
  assert (owners s !! n = Some ofb) as Hs.
  { destruct (IH1 n) as [[? ?]|Heq]; [congruence|]. by rw Heq. }
  assert (∀ o : BackendReferencedBy, (∀ be, be ≠ n → o !! be = owners s !! be) →
    ∀ be, is_Some (<[n := ofb]> d !! be) ∨ o !! be = owners m !! be) as Hd1.
  { intros o Ho be. destruct (decide (n = be)) as [<-|Hne]; [left; by rw lookup_insert_eq|].
    rw lookup_insert_ne // Ho //. }
  assert (∀ o : BackendReferencedBy, (∀ be, be ≠ n → o !! be = owners s !! be) →
    (∀ ty' key', gen_of o n ty' key' = ofType ← ofb !! ty'; ofType !! key') →
    ∀ be ty' key', gen_of o be ty' key' = gen_of (owners m) be ty' key') as Hd2.
  { intros o Ho Hg be ty' key'. rw -IH2. destruct (decide (be = n)) as [->|Hne].
    - rw Hg. unfold gen_of. by rw Hs.
    - unfold gen_of. by rw Ho. }
  destruct (ofb !! ty) as [ot|] eqn:Hot.
  2:{ split_and!; try done. apply Hd1. done. }
  set (ofb' := if bool_decide (size ot = 0) then delete ty ofb else ofb).
  assert (∀ ty' key', (ofType ← ofb' !! ty'; ofType !! key') = ofType ← ofb !! ty'; ofType !! key')
    as Hofb.
  { intros ty' key'. unfold ofb'. case_bool_decide as Hz; [|done].
    apply map_size_empty_inv in Hz. subst ot. destruct (decide (ty = ty')) as [<-|Hne].
    - rw lookup_delete_eq Hot. cbn. by rw lookup_empty.
    - by rw lookup_delete_ne. }
  cbv zeta. case_bool_decide as Hz; cbn; split_and!; try done.
  - apply Hd1. intros be Hne. by rw lookup_delete_ne.
  - apply Hd2; [intros be Hne; by rw lookup_delete_ne|].
    intros ty' key'. unfold gen_of. rw lookup_delete_eq. cbn. rw -Hofb.
    apply map_size_empty_inv in Hz. by rw Hz lookup_empty.
  - set_solver.
  - apply Hd1. intros be Hne. by rw lookup_insert_ne.
  - apply Hd2; [intros be Hne; by rw lookup_insert_ne|].
    intros ty' key'. unfold gen_of. rw lookup_insert_eq. apply Hofb.
Qed.

Lemma cleanupUnreferencedBackends_spec m :
  let m' := cleanupUnreferencedBackends m in
  (∀ be ty' key', gen_of (owners m') be ty' key' = gen_of (owners m) be ty' key') ∧
  Deleted (backendsImpactedInCycle m) ⊆ Deleted (backendsImpactedInCycle m') ∧
  configuration m' = configuration m.
Proof.
  unfold cleanupUnreferencedBackends. cbv zeta.
  destruct (cleanup_spec BackendOwnerTypeHTTPRoute m) as (A1 & A2 & A3).
  destruct (cleanup_spec BackendOwnerTypeTLSRoute
    (cleanupUnreferencedBackendsForRoutes BackendOwnerTypeHTTPRoute m)) as (B1 & B2 & B3).
  split_and!; [intros; by rw B1 A1|by etrans|by rw B3 A3].
Qed.

(** The last phases leave the owners alone, and keep the invariant of the
    configuration. *)
Definition conf_ok (base : gmap string (BackendModel Server (BackendBase Extra))) m : Prop :=
  cycle_inv be_Name base (configuration m).

Lemma upsert_one_backend_spec base n impacted (acc : BackendMgr Server Extra * Errors) :
  let acc' := upsert_one_backend extractGVK backendCRs n impacted acc in
  owners acc'.1 = owners acc.1 ∧
  backendsImpactedInCycle acc'.1 = backendsImpactedInCycle acc.1 ∧
  (conf_ok base acc.1 → conf_ok base acc'.1).
Proof.
  destruct acc as [m errs]. unfold upsert_one_backend, conf_ok.
  destruct (owners m !! n) as [ofb|]; [|done]. destruct (owners_of ofb) as [[ty own]|]; [|done].
  destruct (newBackend _ _ _ _ _ _ _) as [be [err|]]; [done|].
  pose proof (upsertBackend_inv base (Some be) (configuration m)) as Hinv.
  destruct (upsertBackend (Some be) (configuration m)) as [c [err|]]; done.
Qed.

Lemma unreferenced_one_backend_spec base n m :
  let m' := unreferenced_one_backend m n in
  owners m' = owners m ∧ backendsImpactedInCycle m' = backendsImpactedInCycle m ∧
  (conf_ok base m → conf_ok base m').
Proof.
  unfold unreferenced_one_backend, conf_ok. destruct (owners m !! n) as [ofb|]; [|done].
  destruct (owners_of ofb) as [[ty own]|]; cbn; split_and!; try done.
  - apply upsertBackendMetadata_inv.
  - apply cycle_delete.
Qed.

Lemma delete_all_backends base l m :
  conf_ok base m →
  let m' := foldl delete_one_backend m l in
  owners m' = owners m ∧ ∀ n, n ∈ l → cur (configuration m') !! n = None.
Proof.
  intros Hm.
  enough (let m' := foldl delete_one_backend m l in conf_ok base m' ∧ owners m' = owners m ∧
    ∀ n, n ∈ l → cur (configuration m') !! n = None) as [_ H] by exact H.
  apply (foldl_prefix_ind (λ pre m', conf_ok base m' ∧ owners m' = owners m ∧
    ∀ n, n ∈ pre → cur (configuration m') !! n = None)).
  - split_and!; [done..|set_solver].
  - intros pre n m' _ (H1 & H2 & H3). split_and!; [by apply cycle_delete|done|].
    intros n'. rw elem_of_app list_elem_of_singleton. cbn. unfold deleteBackend, delete_section.
    destruct (cur (configuration m') !! n) as [loc|] eqn:Hn; cbn.
    + destruct (wf_cur _ _ (inv_wf _ _ _ H1) _ _ Hn) as (b & -> & _). cbn.
      intros [Hin| ->]; [|apply lookup_delete_eq]. destruct (decide (n = n')) as [<-|Hne].
      * apply lookup_delete_eq.
      * rw lookup_delete_ne //. by apply H3.
    + intros [Hin| ->]; [by apply H3|done].
Qed.

Lemma processBackendsModified_spec base m :
  conf_ok base m →
  let m' := (processBackendsModifiedInCycle extractGVK backendCRs m).1 in
  owners m' = owners m ∧
  ∀ n, n ∈ Deleted (backendsImpactedInCycle m) → cur (configuration m') !! n = None.
Proof.
  intros Hm. unfold processBackendsModifiedInCycle. cbv zeta.
  set (acc := range_fold (upsert_one_backend extractGVK backendCRs)
    (Upserted (backendsImpactedInCycle m)) (m, [])).
  assert (owners acc.1 = owners m ∧ backendsImpactedInCycle acc.1 = backendsImpactedInCycle m ∧
    conf_ok base acc.1) as (A1 & A2 & A3).
  { unfold acc, range_fold. apply (foldl_ind (λ acc, owners acc.1 = owners m ∧
      backendsImpactedInCycle acc.1 = backendsImpactedInCycle m ∧ conf_ok base acc.1)); [done|].
    intros acc' [n impacted] _ (B1 & B2 & B3).
    destruct (upsert_one_backend_spec base n impacted acc') as (C1 & C2 & C3).
    split_and!; [by rw C1|by rw C2|by apply C3]. }
  destruct acc as [m1 errs]. cbn [fst] in *.
  set (m2 := foldl unreferenced_one_backend m1 _).
  assert (owners m2 = owners m ∧ backendsImpactedInCycle m2 = backendsImpactedInCycle m ∧
    conf_ok base m2) as (B1 & B2 & B3).
  { unfold m2. apply (foldl_ind (λ m', owners m' = owners m ∧
      backendsImpactedInCycle m' = backendsImpactedInCycle m ∧ conf_ok base m')); [done|].
    intros m' n _ (C1 & C2 & C3).
    destruct (unreferenced_one_backend_spec base n m') as (D1 & D2 & D3).
    split_and!; [by rw D1|by rw D2|by apply D3]. }
  cbn [fst]. destruct (delete_all_backends base
    (range_set (Deleted (backendsImpactedInCycle m2))) m2 B3) as [C1 C2].
  split; [by rw C1|]. intros n Hn. apply C2, elem_of_range_set. by rw B2.
Qed.
End cycle.

(** ** A cycle leaves no backend both deleted and present *)
Section tidy.
Context {RO : RangeOrder} {Server Extra : Type} {EqS : EqDecision Server} {EqE : EqDecision Extra}.
Context {BP : BackendParams Server Extra} (extractGVK : ExtractGVK).
Context (backendCRs : gmap NamespacedName BackendCR).
Context (base : gmap string (BackendModel Server (BackendBase Extra))).
Implicit Types (m : BackendMgr Server Extra).

(** A backend that is recorded has owners of some type, if only an empty map. *)
Definition owners_filled (bo : BackendReferencedBy) : Prop := map_Forall (λ _ ofb, ofb ≠ ∅) bo.

(** The steps before the backends are written: the configuration is as it was,
    and the deletions of the cycle only grow. *)
Record before_write m m' : Prop := {
  bw_filled : owners_filled (owners m) → owners_filled (owners m');
  bw_deleted : Deleted (backendsImpactedInCycle m) ⊆ Deleted (backendsImpactedInCycle m');
  bw_configuration : configuration m' = configuration m;
  bw_owned n : is_Some (owners m !! n) →
    is_Some (owners m' !! n) ∨ n ∈ Deleted (backendsImpactedInCycle m');
  bw_first : firstSync_flag m' = firstSync_flag m ∧ firstSync_backends m' = firstSync_backends m
}.

#[export] Instance before_write_preorder : PreOrder before_write.
Proof.
  split; [by intros m; split; auto|]. intros m1 m2 m3 [A1 A2 A3 A4 [A5 A6]] [B1 B2 B3 B4 [B5 B6]].
  split; [auto|by etrans|by rw B3| |by rw B5 B6].
  intros n [Hn|Hn]%A4; [by apply B4|right; by apply B2].
Qed.

Lemma before_write_foldl {A} (f : BackendMgr Server Extra → A → BackendMgr Server Extra) l m :
  (∀ m a, before_write m (f m a)) → before_write m (foldl f m l).
Proof. intros Hf. apply (foldl_ind (before_write m)); [done|]. intros m' a _ H. by etrans. Qed.

Lemma filled_add be ty key g bo : owners_filled bo → owners_filled (add_owner be ty key g bo).
Proof. intros H. apply map_Forall_insert_2; [apply insert_non_empty|done]. Qed.

Lemma owned_add be ty key g bo n : is_Some (bo !! n) → is_Some (add_owner be ty key g bo !! n).
Proof. intros H. apply lookup_insert_is_Some'. by right. Qed.

Lemma owned_remove be ty key bo n : is_Some (bo !! n) → is_Some (remove_owner be ty key bo !! n).
Proof.
  intros H. unfold remove_owner. destruct (bo !! be) as [ofb|]; [|done].
  destruct (ofb !! ty); [|done]. apply lookup_insert_is_Some'. by right.
Qed.

Lemma filled_remove be ty key bo : owners_filled bo → owners_filled (remove_owner be ty key bo).
Proof.
  intros H. unfold remove_owner. destruct (bo !! be) as [ofb|]; [|done].
  destruct (ofb !! ty); [|done]. apply map_Forall_insert_2; [apply insert_non_empty|done].
Qed.

Section routes.
Context {R Rule : Type} {BR : BackendRoute R Rule}.

Lemma unreference_before key m be : before_write m (unreference key m be).
Proof.
  split; [apply filled_remove|done|done| |done]. intros n Hn. left. by apply owned_remove.
Qed.

Lemma release_before key m be : before_write m (release key m be).
Proof.
  split; [apply filled_remove| |done| |done]; [cbn; set_solver|].
  intros n Hn. left. by apply owned_remove.
Qed.

Lemma upsert_backendRef_before key k8s rule s ref :
  before_write (ul_mgr s) (ul_mgr (upsert_backendRef key k8s rule s ref)).
Proof.
  unfold upsert_backendRef. destruct ref as [[backendRef hash] recorded]. cbv zeta.
  destruct (getBackendName _ _ _) as [be|]; [|done]. destruct (KeyMaps.Get _ _) as [c|]; [|done].
  destruct (check_Valid c); [|done]. split; [apply filled_add|done|done| |done].
  intros n Hn. left. by apply owned_add.
Qed.

Lemma upsertRouteBackends_before key k8s rules m :
  before_write m (upsertRouteBackends key k8s rules m).1.
Proof.
  unfold upsertRouteBackends. cbv zeta. cbn [fst].
  etrans; [|apply before_write_foldl; intros; apply unreference_before].
  apply (foldl_ind (λ s, before_write m (ul_mgr s))); [done|]. intros s rule _ Hs.
  unfold upsert_rule. destruct (rule_Valid rule); [|done].
  apply (foldl_ind (λ s, before_write m (ul_mgr s))); [done|]. intros s' ref _ Hs'.
  etrans; [exact Hs'|apply upsert_backendRef_before].
Qed.

Lemma process_route_before rs key loc acc :
  before_write acc.1 (process_route rs key loc acc).1.
Proof.
  destruct acc as [m errs]. unfold process_route. destruct (rs !! loc) as [r|]; [|done].
  assert (before_write m (onDeletedRoute key m)) as Hdel.
  { apply before_write_foldl. intros. apply release_before. }
  destruct (Status (rt_TreeStatus r)); [|done..]. destruct (rt_Valid (rt_data r)); [|done].
  destruct (rt_K8sResource (rt_data r)) as [k8s|]; [|done]. cbn [fst].
  pose proof (upsertRouteBackends_before key k8s (Rules (rt_data r)) m) as H.
  by destruct (upsertRouteBackends _ _ _ _).
Qed.
End routes.

Lemma cleanup_before ty m : before_write m (cleanupUnreferencedBackendsForRoutes ty m).
Proof.
  unfold cleanupUnreferencedBackendsForRoutes, range_fold.
  apply (foldl_ind (before_write m)); [done|]. intros m' [be ofb] _ H. etrans; [exact H|].
  cbn [fst snd]. destruct (ofb !! ty) as [ot|]; [|done]. cbv zeta. case_bool_decide as Hz; split; cbn.
  - intros Hf. by apply map_Forall_delete.
  - set_solver.
  - done.
  - intros n Hn. destruct (decide (be = n)) as [<-|Hne]; [right; set_solver|left].
    by rw lookup_delete_ne.
  - done.
  - intros Hf. apply map_Forall_insert_2; [|done]. intros He. apply Hz. by rw He map_size_empty.
  - done.
  - done.
  - intros n Hn. left. apply lookup_insert_is_Some'. by right.
  - done.
Qed.

(** *** The backends are written *)
Definition pass_inv m : Prop :=
  conf_ok base m ∧ owners_filled (owners m) ∧
  removed (configuration m) ⊆ Deleted (backendsImpactedInCycle m).

Lemma pass_inv_before m m' : before_write m m' → pass_inv m → pass_inv m'.
Proof.
  intros [H1 H2 H3 _ _] (A1 & A2 & A3). unfold pass_inv, conf_ok. rw H3.
  split_and!; [done|by apply H1|by etrans].
Qed.

Lemma removed_upsertBackend be (s : Sections (BackendModel Server (BackendBase Extra))) :
  removed (upsertBackend be s).1 = removed s.
Proof.
  unfold upsertBackend. destruct be as [be|]; [|done].
  destruct (_ ≫= _) as [prev|]; [destruct (equal_but_servers prev be)|]; done.
Qed.

Lemma removed_upsertBackendMetadata n md (s : Sections (BackendModel Server (BackendBase Extra))) :
  removed (upsertBackendMetadata n md s) = removed s.
Proof.
  unfold upsertBackendMetadata. destruct (cur s !! n) as [loc|]; [|done].
  by destruct (objs s !! loc).
Qed.

Lemma upsert_one_backend_pass n impacted acc :
  pass_inv acc.1 → pass_inv (upsert_one_backend extractGVK backendCRs n impacted acc).1.
Proof.
  intros (H1 & H2 & H3).
  destruct (upsert_one_backend_spec extractGVK backendCRs base n impacted acc) as (A1 & A2 & A3).
  split_and!; [by apply A3|by rw A1|rw A2]. clear A1 A2 A3. destruct acc as [m errs].
  unfold upsert_one_backend. destruct (owners m !! n) as [ofb|]; [|done].
  destruct (owners_of ofb) as [[ty own]|]; [|done].
  destruct (newBackend _ _ _ _ _ _ _) as [be [err|]]; [done|].
  pose proof (removed_upsertBackend (Some be) (configuration m)) as Hr.
  destruct (upsertBackend (Some be) (configuration m)) as [c [err|]]; cbn in *; by rw Hr.
Qed.

Lemma unreferenced_one_backend_pass m n : pass_inv m → pass_inv (unreferenced_one_backend m n).
Proof.
  intros (H1 & H2 & H3). destruct (unreferenced_one_backend_spec base n m) as (A1 & A2 & A3).
  split_and!; [by apply A3|by rw A1|rw A2]. clear A1 A2 A3.
  unfold unreferenced_one_backend. destruct (owners m !! n) as [ofb|] eqn:Hn; [|done].
  destruct (owners_of ofb) as [[ty own]|] eqn:Ho; cbn.
  - by rw removed_upsertBackendMetadata.
  - exfalso. apply (H2 _ _ Hn), map_empty. intros ty. unfold owners_of in Ho.
    destruct (ofb !! BackendOwnerTypeHTTPRoute) eqn:E1; [done|].
    destruct (ofb !! BackendOwnerTypeTLSRoute) eqn:E2; [done|]. by destruct ty.
Qed.

Lemma delete_one_backend_pass m n :
  n ∈ Deleted (backendsImpactedInCycle m) → pass_inv m → pass_inv (delete_one_backend m n).
Proof.
  intros Hn (H1 & H2 & H3). split_and!; [by apply cycle_delete|done|]. cbn. intros n'.
  intros [?| ->]%removed_delete_section; [by apply H3|done|by eapply inv_wf].
Qed.

(** After the backends are written, those to delete are gone. *)
Lemma processBackendsModified_pass m :
  pass_inv m →
  let m' := (processBackendsModifiedInCycle extractGVK backendCRs m).1 in
  pass_inv m' ∧ owners m' = owners m ∧ backendsImpactedInCycle m' = backendsImpactedInCycle m ∧
  ∀ n, n ∈ Deleted (backendsImpactedInCycle m') → cur (configuration m') !! n = None.
Proof.
  intros Hm. destruct (processBackendsModified_spec extractGVK backendCRs base m (proj1 Hm)) as [Ho Hd].
  cbv zeta in *. rw Ho.
  enough (pass_inv (processBackendsModifiedInCycle extractGVK backendCRs m).1 ∧
    backendsImpactedInCycle (processBackendsModifiedInCycle extractGVK backendCRs m).1 =
    backendsImpactedInCycle m) as [H1 H2] by (rw H2; by split_and!).
  clear Ho Hd. unfold processBackendsModifiedInCycle.
  set (acc := range_fold (upsert_one_backend extractGVK backendCRs)
    (Upserted (backendsImpactedInCycle m)) (m, [])).
  assert (pass_inv acc.1 ∧ backendsImpactedInCycle acc.1 = backendsImpactedInCycle m) as [A1 A2].
  { unfold acc, range_fold. apply (foldl_ind (λ acc, pass_inv acc.1 ∧
      backendsImpactedInCycle acc.1 = backendsImpactedInCycle m)); [done|].
    intros acc' [n impacted] _ [B1 B2]. split; [by apply upsert_one_backend_pass|].
    by rw (proj1 (proj2 (upsert_one_backend_spec extractGVK backendCRs base n impacted acc'))). }
  destruct acc as [m1 errs]. cbn [fst] in *.
  set (m2 := foldl unreferenced_one_backend m1 _).
  assert (pass_inv m2 ∧ backendsImpactedInCycle m2 = backendsImpactedInCycle m) as [B1 B2].
  { apply (foldl_ind (λ m', pass_inv m' ∧
      backendsImpactedInCycle m' = backendsImpactedInCycle m)); [done|].
    intros m' n _ [C1 C2]. split; [by apply unreferenced_one_backend_pass|].
    by rw (proj1 (proj2 (unreferenced_one_backend_spec base n m'))). }
  apply (foldl_ind (λ m', pass_inv m' ∧
    backendsImpactedInCycle m' = backendsImpactedInCycle m)); [done|].
  intros m' n Hn [C1 C2]. split; [|done]. apply delete_one_backend_pass; [|done].
  rw C2 -B2. by apply elem_of_range_set.
Qed.
(** *** A whole pass over the routes of a kind *)
Section pass.
Context {R Rule : Type} {BR : BackendRoute R Rule}.
Context (rs : gmap nat (Route R Rule)) (routesOf : gmap NamespacedName nat).

Lemma process_routes_before m errs : before_write m (range_fold (process_route rs) routesOf (m, errs)).1.
Proof.
  unfold range_fold. apply (foldl_ind (λ acc, before_write m acc.1)); [done|].
  intros acc [key loc] _ H. etrans; [exact H|apply process_route_before].
Qed.

Lemma processRoutes_pass m :
  pass_inv m →
  let m' := (processRoutes extractGVK backendCRs routesOf rs m).1 in
  pass_inv m' ∧ ∀ n, n ∈ Deleted (backendsImpactedInCycle m') → cur (configuration m') !! n = None.
Proof.
  intros Hm. unfold processRoutes. cbv zeta.
  pose proof (process_routes_before m []) as H1.
  destruct (range_fold (process_route rs) routesOf (m, [])) as [m1 errs] eqn:Hrun. rw Hrun in H1.
  cbn [fst] in H1.
  assert (pass_inv (cleanupUnreferencedBackends m1)) as H2.
  { eapply pass_inv_before; [|exact Hm]. etrans; [exact H1|].
    unfold cleanupUnreferencedBackends. etrans; [apply (cleanup_before BackendOwnerTypeHTTPRoute)|].
    apply cleanup_before. }
  destruct (processBackendsModified_pass _ H2) as (H3 & _ & _ & H4).
  by destruct (processBackendsModifiedInCycle _ _ _).
Qed.

(** The pass changes the owners of its kind only, and leaves none to a route
    that is deleted. *)
Lemma processRoutes_owners m :
  conf_ok base m →
  let m' := (processRoutes extractGVK backendCRs routesOf rs m).1 in
  (∀ be ty key, owner_type ≠ ty → gen_of (owners m') be ty key = gen_of (owners m) be ty key) ∧
  (∀ key loc r be, routesOf !! key = Some loc → rs !! loc = Some r →
     Status (rt_TreeStatus r) = StatusDeleted → gen_of (owners m') be owner_type key = None).
Proof.
  intros Hm. unfold processRoutes. cbv zeta.
  assert (let acc := range_fold (process_route rs) routesOf (m, []) in
    (∀ be ty key, owner_type ≠ ty → gen_of (owners acc.1) be ty key = gen_of (owners m) be ty key) ∧
    ∀ key loc r be, routesOf !! key = Some loc → rs !! loc = Some r →
      Status (rt_TreeStatus r) = StatusDeleted → gen_of (owners acc.1) be owner_type key = None)
    as [H1 H2].
  { apply (range_fold_ind (λ dn acc,
      (∀ be ty key, owner_type ≠ ty → gen_of (owners acc.1) be ty key = gen_of (owners m) be ty key) ∧
      ∀ key loc r be, dn !! key = Some loc → rs !! loc = Some r →
        Status (rt_TreeStatus r) = StatusDeleted → gen_of (owners acc.1) be owner_type key = None)
      _ routesOf (m, [])).
    - split; [done|]. intros key loc r be. by rw lookup_empty.
    - intros key loc dn acc _ Hdn _ [I1 I2].
      destruct (process_route_spec rs key loc acc) as (P1 & _). split.
      + intros be ty key' Hty. rw P1; [by intros [? _]|]. by apply I1.
      + intros key' loc' r be [[<- <-]|[Hne Hl]]%lookup_insert_Some Hr Hst.
        * unfold process_route. destruct acc as [m1 errs]. rw Hr Hst. cbn [fst].
          by apply (proj1 (onDeletedRoute_spec key m1) be owner_type key).
        * rw P1; [by intros [_ ?]|]. by eapply I2. }
  destruct (range_fold (process_route rs) routesOf (m, [])) as [m1 errs] eqn:Hrun. cbn [fst] in *.
  destruct (cleanupUnreferencedBackends_spec m1) as (B1 & _ & B3).
  assert (conf_ok base (cleanupUnreferencedBackends m1)) as Hok.
  { unfold conf_ok. rw B3. pose proof (bw_configuration _ _ (process_routes_before m [])) as Hc.
    rw Hrun in Hc. cbn in Hc. by rw Hc. }
  destruct (processBackendsModified_spec extractGVK backendCRs base _ Hok) as [C1 _].
  destruct (processBackendsModifiedInCycle _ _ _) as [m3 errs']. cbn [fst] in *.
  split; intros; rw C1 B1; eauto.
Qed.
End pass.
End tidy.

(** ** The backends of the first sync *)
Section first_sync.
Context {RO : RangeOrder} {Server Extra : Type} {EqS : EqDecision Server} {EqE : EqDecision Extra}.
Context {BP : BackendParams Server Extra} (extractGVK : ExtractGVK).
Context (backendCRs : gmap NamespacedName BackendCR).
(** [mergo] leaves a field alone when the source has its zero value. *)
Hypothesis mergo_name : ∀ opts dst spec merged, be_Name spec = "" →
  mergo_Merge (Server := Server) (Extra := Extra) opts dst spec = Ok merged →
  be_Name merged = be_Name dst.
Implicit Types (m : BackendMgr Server Extra).

Lemma newBackend_name n md ref ns http :
  be_Name (newBackend (Server := Server) extractGVK backendCRs n md ref ns http).1 = n.
Proof using mergo_name.
  unfold newBackend, mergeWithBackendCRs. cbv zeta.
  set (start := ([WithOverride; WithAppendSlice], _, _)).
  assert (be_Name (foldl (merge_filter extractGVK backendCRs ns) start (hb_Filters ref)).1.2 = n) as H.
  { apply (foldl_ind (λ s : _ * BackendModel Server (BackendBase Extra) * _, be_Name s.1.2 = n)); [done|].
    intros [[opts be] errs] f _ Hs. cbn in Hs. unfold merge_filter.
    destruct (f_ExtensionRef f) as [ref'|]; [|done].
    repeat match goal with |- context [if ?c then _ else _] => destruct c; [done|] end.
    destruct (backendCRs !! _) as [cr|]; [|done]. cbv zeta.
    destruct (mergo_Merge _ _ _) as [merged|err] eqn:Hm; [|done]. cbn.
    by rw (mergo_name opts be _ merged _ Hm). }
  by destruct (foldl (merge_filter extractGVK backendCRs ns) start (hb_Filters ref)) as [[opts be] errs].
Qed.

(** During the first sync, the backends that are kept have owners. *)
Definition keeps_owned m : Prop :=
  firstSync_flag m = true ∧ ∀ n, n ∈ firstSync_backends m →
    is_Some (owners m !! n) ∨ n ∈ Deleted (backendsImpactedInCycle m).

Lemma keeps_before m m' : before_write m m' → keeps_owned m → keeps_owned m'.
Proof.
  intros [_ H2 _ H4 [H5 H6]] [K1 K2]. split; [by rw H5|]. intros n. rw H6.
  intros [?%H4|?]%K2; [done|right; by apply H2].
Qed.

(** A step that keeps the owners and the deletions, and may keep one more
    backend, that has owners. *)
Lemma keeps_step m m' X :
  owners m' = owners m → backendsImpactedInCycle m' = backendsImpactedInCycle m →
  firstSync_flag m' = firstSync_flag m → firstSync_backends m' ⊆ X ∪ firstSync_backends m →
  (∀ n, n ∈ X → is_Some (owners m !! n)) → keeps_owned m → keeps_owned m'.
Proof.
  intros E1 E2 E3 E4 HX [K1 K2]. split; [by rw E3|]. intros n Hn. rw E1 E2.
  apply E4, elem_of_union in Hn as [?|?]; [left; by apply HX|by apply K2].
Qed.

Lemma upsert_one_backend_keeps n impacted acc :
  keeps_owned acc.1 → keeps_owned (upsert_one_backend extractGVK backendCRs n impacted acc).1.
Proof using mergo_name.
  intros K. destruct acc as [m errs]. unfold upsert_one_backend. cbn [fst] in *.
  destruct (owners m !! n) as [ofb|] eqn:Hn; [|done].
  destruct (owners_of ofb) as [[ty own]|]; [|done]. cbv zeta.
  match goal with |- context [newBackend ?a ?b ?c ?d ?e ?f ?g] =>
    pose proof (newBackend_name c d e f g) as Hname; destruct (newBackend a b c d e f g) as [be err]
  end. cbn [fst] in Hname. destruct err; [done|].
  destruct (upsertBackend (Some be) (configuration m)) as [c [err|]]; cbn [fst].
  - by apply (keeps_step m _ ∅); [..|set_solver|set_solver|].
  - apply (keeps_step m _ {[n]}); [done..| |set_solver|done].
    cbn. rw (proj1 K) Hname. done.
Qed.

Lemma unreferenced_one_backend_keeps m n : keeps_owned m → keeps_owned (unreferenced_one_backend m n).
Proof.
  intros K. unfold unreferenced_one_backend. destruct (owners m !! n) as [ofb|] eqn:Hn; [|done].
  destruct (owners_of ofb) as [[ty own]|].
  - apply (keeps_step m _ {[n]}); [done..| |set_solver|done]. cbn. by rw (proj1 K).
  - apply (keeps_step m _ ∅); [done..| |set_solver|done]. cbn. rw (proj1 K). set_solver.
Qed.

Lemma delete_all_keeps l m :
  keeps_owned m →
  keeps_owned (foldl delete_one_backend m l) ∧
  ∀ n, n ∈ l → n ∉ firstSync_backends (foldl delete_one_backend m l).
Proof.
  intros K. apply (foldl_prefix_ind (λ pre m', keeps_owned m' ∧
    ∀ n, n ∈ pre → n ∉ firstSync_backends m')); [split; [done|set_solver]|].
  intros pre n m' _ [K' Hpre]. assert (firstSync_backends (delete_one_backend m' n) =
    firstSync_backends m' ∖ {[n]}) as He by (cbn; by rw (proj1 K')).
  split; [|rw He; set_solver].
  apply (keeps_step m' _ ∅); [done..| |set_solver|done]. rw He. set_solver.
Qed.

(** After a pass, they have owners. *)
Definition kept_owned m : Prop :=
  firstSync_flag m = true ∧ ∀ n, n ∈ firstSync_backends m → is_Some (owners m !! n).

Lemma processBackendsModified_kept m :
  keeps_owned m → kept_owned (processBackendsModifiedInCycle extractGVK backendCRs m).1.
Proof using mergo_name.
  intros K. unfold processBackendsModifiedInCycle.
  set (acc := range_fold (upsert_one_backend extractGVK backendCRs)
    (Upserted (backendsImpactedInCycle m)) (m, [])).
  assert (keeps_owned acc.1) as K1.
  { unfold acc, range_fold. apply (foldl_ind (λ acc : _ * Errors, keeps_owned acc.1)); [done|].
    intros a [n i] _ Ha. by apply upsert_one_backend_keeps. }
  destruct acc as [m1 errs]. cbn [fst] in *. set (m2 := foldl unreferenced_one_backend m1 _).
  assert (keeps_owned m2) as K2.
  { apply (foldl_ind keeps_owned); [done|]. intros. by apply unreferenced_one_backend_keeps. }
  destruct (delete_all_keeps (range_set (Deleted (backendsImpactedInCycle m2))) m2 K2) as [K3 Hd].
  cbn [fst]. split; [apply K3|]. intros n Hn. destruct (proj2 K3 n Hn) as [?|Hdel]; [done|exfalso].
  apply (Hd n); [|done]. apply elem_of_range_set.
  assert (∀ l m, backendsImpactedInCycle (foldl delete_one_backend m l) = backendsImpactedInCycle m) as He.
  { intros l m0. by apply (foldl_ind (λ m', backendsImpactedInCycle m' = backendsImpactedInCycle m0)). }
  by rw He in Hdel.
Qed.

(** What the clean-up leaves of the owners of a backend. *)
Definition cleaned_owners (ty : BackendOwnerType) (ofb : gmap BackendOwnerType (gmap NamespacedName Z)) :
    option (gmap BackendOwnerType (gmap NamespacedName Z)) :=
  match ofb !! ty with
  | None => Some ofb
  | Some ot =>
      let ofb := if bool_decide (size ot = 0) then delete ty ofb else ofb in
      if bool_decide (size ofb = 0) then None else Some ofb
  end.

Lemma lookup_cleanup ty m n :
  owners (cleanupUnreferencedBackendsForRoutes ty m) !! n = owners m !! n ≫= cleaned_owners ty.
Proof.
  unfold cleanupUnreferencedBackendsForRoutes.
  pose proof (range_fold_ind (λ d s, ∀ n, owners s !! n =
    match d !! n with Some ofb => cleaned_owners ty ofb | None => owners m !! n end)
    (λ beName ownersForBackend m,
      match ownersForBackend !! ty with
      | None => m
      | Some ownersForType =>
          let ownersForBackend :=
            if bool_decide (size ownersForType = 0) then delete ty ownersForBackend
            else ownersForBackend in
          if bool_decide (size ownersForBackend = 0)
          then addImpactedBackendDeleted beName (set_owners (delete beName (owners m)) m)
          else set_owners (<[beName := ownersForBackend]> (owners m)) m
      end) (owners m) m) as Hind.
  cbv beta zeta in Hind. rw Hind; [intros; by rw lookup_empty| |by case: (owners m !! n)].
  clear n Hind. intros k ofb d s Hk Hd _ IH n. destruct (decide (k = n)) as [<-|Hne].
  - rw lookup_insert_eq. unfold cleaned_owners. destruct (ofb !! ty) as [ot|]; [|by rw IH Hd].
    cbv zeta. case_bool_decide as Hz; cbn; [by rw lookup_delete_eq|by rw lookup_insert_eq].
  - rw lookup_insert_ne // -IH. destruct (ofb !! ty) as [ot|]; [|done].
    case_bool_decide as Hz; cbn; [by rw lookup_delete_ne|by rw lookup_insert_ne].
Qed.

(** Each type that is left has an owner. *)
Definition types_owned (ofb : gmap BackendOwnerType (gmap NamespacedName Z)) : Prop :=
  map_Forall (λ _ ot, ot ≠ ∅) ofb.

Lemma cleaned_owners_types ofb ofb1 ofb2 :
  cleaned_owners BackendOwnerTypeHTTPRoute ofb = Some ofb1 →
  cleaned_owners BackendOwnerTypeTLSRoute ofb1 = Some ofb2 → types_owned ofb2.
Proof.
  assert (∀ ty o o', cleaned_owners ty o = Some o' →
    (∀ ty' ot, o' !! ty' = Some ot → o !! ty' = Some ot) ∧ ∀ ot, o' !! ty = Some ot → ot ≠ ∅) as Hc.
  { intros ty o o'. unfold cleaned_owners. destruct (o !! ty) as [ot|] eqn:Ho.
    - case_bool_decide as Hz; case_bool_decide; intros [= <-]; split.
      + intros ty' ot' [_ ?]%lookup_delete_Some. done.
      + intros ot' [? _]%lookup_delete_Some. done.
      + done.
      + intros ot' Hot' ->. by simplify_eq.
    - intros [= <-]. split; [done|]. intros ot. by rw Ho. }
  intros [H1 H2]%Hc [H3 H4]%Hc ty ot Hot. destruct ty; [|by apply H4].
  by apply H2, H3.
Qed.

Section pass.
Context {R Rule : Type} {BR : BackendRoute R Rule}.

(** After a pass of the first sync, every backend that is kept is owned by some
    route. *)
Lemma processRoutes_kept (rs : gmap nat (Route R Rule)) routesOf m :
  owners_filled (owners m) → kept_owned m →
  let m' := (processRoutes extractGVK backendCRs routesOf rs m).1 in
  kept_owned m' ∧ ∀ n, is_Some (owners m' !! n) → ∃ ty key, is_Some (gen_of (owners m') n ty key).
Proof using mergo_name.
  intros Hfill [K1 K2]. unfold processRoutes. cbv zeta.
  pose proof (process_routes_before rs routesOf m []) as H1.
  destruct (range_fold (process_route rs) routesOf (m, [])) as [m1 errs] eqn:Hrun. rw Hrun in H1.
  cbn [fst] in H1.
  assert (before_write m1 (cleanupUnreferencedBackends m1)) as H2.
  { unfold cleanupUnreferencedBackends. etrans; [apply (cleanup_before BackendOwnerTypeHTTPRoute)|].
    apply cleanup_before. }
  assert (before_write m (cleanupUnreferencedBackends m1)) as H3 by by etrans.
  assert (keeps_owned (cleanupUnreferencedBackends m1)) as K.
  { eapply keeps_before; [exact H3|]. split; [done|]. intros n Hn. left. by apply K2. }
  pose proof (processBackendsModified_kept _ K) as Hk.
  assert (owners (processBackendsModifiedInCycle extractGVK backendCRs (cleanupUnreferencedBackends m1)).1 =
    owners (cleanupUnreferencedBackends m1)) as Ho.
  { unfold processBackendsModifiedInCycle.
    set (acc := range_fold _ _ _).
    assert (owners acc.1 = owners (cleanupUnreferencedBackends m1)) as A.
    { unfold acc, range_fold. apply (foldl_ind (λ acc : _ * Errors,
        owners acc.1 = owners (cleanupUnreferencedBackends m1))); [done|].
      intros a [n i] _ <-. apply (upsert_one_backend_spec extractGVK backendCRs ∅ n i a). }
    destruct acc as [m2 errs2]. cbn [fst] in *. rw -A.
    apply (foldl_ind (λ m, owners m = owners m2)); [|done].
    apply (foldl_ind (λ m, owners m = owners m2)); [done|]. intros m3 n _ <-.
    apply (unreferenced_one_backend_spec ∅ n m3). }
  destruct (processBackendsModifiedInCycle _ _ _) as [m3 errs']. cbn [fst] in *.
  split; [exact Hk|]. intros n [ofb Hn]. rw Ho in Hn.
  assert (types_owned ofb ∧ ofb ≠ ∅) as [Hty Hne].
  { split; [|by eapply (bw_filled _ _ H3 Hfill)]. revert Hn. unfold cleanupUnreferencedBackends.
    rw !lookup_cleanup. destruct (owners m1 !! n) as [o|]; cbn; [|done].
    destruct (cleaned_owners _ o) as [o1|] eqn:E1; cbn; [|done]. by apply cleaned_owners_types with o. }
  apply map_choose in Hne as (ty & ot & Hot). pose proof (Hty _ _ Hot) as Hne.
  apply map_choose in Hne as (key & g & Hg). exists ty, key. unfold gen_of.
  rw Ho Hn. cbn. rw Hot. cbn. rw Hg. by eexists.
Qed.
End pass.
End first_sync.

(** ** Properties *)

(** The nested maps of owners are a relation between backends, owner types
    and routes, with a generation: [add] puts one element, [remove] takes one
    away, the clean-up drops no element, and [getBackendsReferencedBy] lists
    the backends of a route. *)
Theorem BackendReferencedBy_refines (RO : RangeOrder) (Server Extra : Type)
    (m : BackendMgr Server Extra) be ty key g :
  let bo := owners m in
  (∀ be' ty' key', gen_of (add_owner be ty key g bo) be' ty' key' =
     if decide (be = be' ∧ ty = ty' ∧ key = key') then Some g else gen_of bo be' ty' key') ∧
  (∀ be' ty' key', gen_of (remove_owner be ty key bo) be' ty' key' =
     if decide (be = be' ∧ ty = ty' ∧ key = key') then None else gen_of bo be' ty' key') ∧
  (∀ be' ty' key', gen_of (owners (cleanupUnreferencedBackends m)) be' ty' key' =
     gen_of bo be' ty' key') ∧
  (be ∈ getBackendsReferencedBy ty key bo ↔ is_Some (gen_of bo be ty key)).
Proof.
  split_and!.
  - intros. apply gen_of_add.
  - intros. apply gen_of_remove.
  - intros. apply (cleanupUnreferencedBackends_spec m).
  - apply elem_of_getBackendsReferencedBy.
Qed.

(** C22: once a valid route is processed, the backends it owns are exactly those
    its valid rules name through references that resolve, each with the
    generation of the route: the backends it stopped using are released.  The
    other routes keep theirs. *)
Theorem upsertRouteBackends_exact (RO : RangeOrder) (Server Extra : Type)
    (BP : BackendParams Server Extra) (R Rule : Type) (BR : BackendRoute R Rule)
    key k8s rules (m : BackendMgr Server Extra) :
  let m' := (upsertRouteBackends key k8s rules m).1 in
  (∀ be, be ∈ getBackendsReferencedBy owner_type key (owners m') ↔ uses k8s rules be) ∧
  (∀ be, uses k8s rules be →
     gen_of (owners m') be owner_type key = Some (meta_Generation (route_Meta k8s))) ∧
  (∀ be ty' key', ¬ (owner_type = ty' ∧ key = key') →
     gen_of (owners m') be ty' key' = gen_of (owners m) be ty' key').
Proof.
  destruct (upsertRouteBackends_owners key k8s rules m) as (H1 & H2 & _). cbv zeta in *.
  split_and!; [| |exact H2].
  - intros be. rw elem_of_getBackendsReferencedBy.
    destruct (H1 be) as [[-> Hu]|[-> Hu]]; [by split; eauto|]. split; [by intros [? ?]|done].
  - intros be Hu. by destruct (H1 be) as [[Hg _]|[_ Hn]].
Qed.

(** C38: the deletion of a route takes its backends out of the configuration
    even when another route, left as it is, still owns them: the owner stays
    recorded and the backend is gone. *)
Theorem deleted_route_backends (RO : RangeOrder) (Server Extra : Type) (EqS : EqDecision Server)
    (EqE : EqDecision Extra) (BP : BackendParams Server Extra) extractGVK backendCRs
    (R Rule : Type) (BR : BackendRoute R Rule) (rs : gmap nat (Route R Rule))
    (routesOf : gmap NamespacedName nat) base (m : BackendMgr Server Extra)
    key loc r key' loc' r' be g g' :
  cycle_inv be_Name base (configuration m) →
  routesOf !! key = Some loc → rs !! loc = Some r → Status (rt_TreeStatus r) = StatusDeleted →
  routesOf !! key' = Some loc' → rs !! loc' = Some r' →
  Status (rt_TreeStatus r') = StatusUnchanged →
  gen_of (owners m) be owner_type key = Some g → gen_of (owners m) be owner_type key' = Some g' →
  let m' := (processRoutes extractGVK backendCRs routesOf rs m).1 in
  gen_of (owners m') be owner_type key' = Some g' ∧ cur (configuration m') !! be = None.
Proof.
  intros Hm Hkey Hr Hst Hkey' Hr' Hst' Hg Hg'. unfold processRoutes. cbv zeta.
  set (acc := range_fold (process_route rs) routesOf (m, [])).
  assert (gen_of (owners acc.1) be owner_type key' = Some g' ∧
    be ∈ Deleted (backendsImpactedInCycle acc.1) ∧ configuration acc.1 = configuration m)
    as (A1 & A2 & A3).
  { enough (gen_of (owners acc.1) be owner_type key' = Some g' ∧
      match routesOf !! key with
      | Some _ => be ∈ Deleted (backendsImpactedInCycle acc.1)
      | None => gen_of (owners acc.1) be owner_type key = Some g
      end ∧ configuration acc.1 = configuration m) as H by by rw Hkey in H.
    apply (range_fold_ind (λ d acc, gen_of (owners acc.1) be owner_type key' = Some g' ∧
      match d !! key with
      | Some _ => be ∈ Deleted (backendsImpactedInCycle acc.1)
      | None => gen_of (owners acc.1) be owner_type key = Some g
      end ∧ configuration acc.1 = configuration m) _ routesOf (m, [])).
    { by rw lookup_empty. }
    intros k l d a Hk Hd _ (IH1 & IH2 & IH3).
    destruct (process_route_spec rs k l a) as (P1 & P2 & P3 & P4 & P5). split_and!.
    - destruct (decide (k = key')) as [->|Hne]; [|rw P1 //; naive_solver].
      assert (l = loc') as -> by congruence. by rw (P5 _ Hr' Hst').
    - destruct (decide (k = key)) as [->|Hne].
      + assert (l = loc) as -> by congruence. rw lookup_insert_eq. rw Hd in IH2.
        apply (P4 _ Hr Hst). rw IH2. eauto.
      + rw lookup_insert_ne //. destruct (d !! key); [by apply P2|].
        rw P1 //. naive_solver.
    - by rw P3. }
  destruct acc as [m1 errs]. cbn [fst] in *.
  destruct (cleanupUnreferencedBackends_spec m1) as (B1 & B2 & B3).
  assert (conf_ok base (cleanupUnreferencedBackends m1)) as Hok by by rw /conf_ok B3 A3.
  destruct (processBackendsModified_spec extractGVK backendCRs base _ Hok) as [C1 C2].
  destruct (processBackendsModifiedInCycle _ _ _) as [m3 errs']. cbn [fst] in *.
  split; [by rw C1 B1|]. apply C2. set_solver.
Qed.

(** Concrete parameters: the default template of the names. *)
Definition example_backend_params (Server : Type) : BackendParams Server bool := {|
  bp_LinkID := "hug";
  DefaultsSectionName := "haproxytech";
  BackendNameTemplate d := Ok (LINK_ID d +:+ "_" +:+ SERVICE_NAMESPACE d +:+ "_" +:+
    SERVICE_NAME d +:+ "_" +:+ pretty (SERVICE_PORT d) +:+ "_" +:+ FILTER_HASH d);
  md5_filters _ := Ok "d41d8cd98f00b204e9800998ecf8427e";
  no_extra := true;
  spec_backend _ := mkBackend "" ∅ ∅ (mkBackendBase "" "" "" "" 0 None "" true);
  mergo_Merge _ be _ := Ok be
|}.

#[export] Instance example_params : BackendParams Z bool := example_backend_params Z.

Definition example_checked_rule : RouteRule K8sHTTPRouteRule :=
  checkBackendRef example_gvk "ns" example_services (new_rule (example_rule ["svc"; "missing"])).

(** Two routes own the backend of the service; the first one is deleted. *)
Definition example_owners : BackendReferencedBy :=
  {[ "hug_ns_svc_80__" := {[ BackendOwnerTypeHTTPRoute :=
       <[ NN "ns" "a" := 1%Z ]> {[ NN "ns" "b" := 1%Z ]} ]} ]}.

Definition example_manager : BackendMgr Z bool :=
  mkBackendMgr example_owners (mkImpactedInCycle ∅ ∅ ∅)
    (mkSections {[ 0 := mkBackend "hug_ns_svc_80__" ∅ ∅
                      (mkBackendBase "http" "" "" "" 0 None "" true) ]}
       {[ "hug_ns_svc_80__" := 0 ]} ∅ ∅ ∅) false ∅.

Definition example_tree_routes : gmap nat (Route K8sHTTPRoute K8sHTTPRouteRule) :=
  <[ 0 := mkRoute (example_route_data "a" ["svc"]) (mkTreeUpdate None StatusDeleted) ]>
    {[ 1 := mkRoute (example_route_data "b" ["svc"]) zero_TreeUpdate ]}.

Lemma upsertRouteBackends_exact_witness :
  let m' := (@upsertRouteBackends key_order _ _ _ _ _ _ (NN "ns" "c")
    (example_route "c" ["svc"; "missing"]) [example_checked_rule] example_manager).1 in
  gen_of (owners m') "hug_ns_svc_80__" BackendOwnerTypeHTTPRoute (NN "ns" "c") = Some 3%Z.
Proof.
  intros m'.
  apply (upsertRouteBackends_exact key_order Z bool example_params _ _ HTTPRoute_backends
    (NN "ns" "c") (example_route "c" ["svc"; "missing"]) [example_checked_rule] example_manager).
  exists example_checked_rule,
    (example_backend "svc", "_", {| hb_Ref := example_backend "svc"; hb_Weight := None;
                                    hb_Filters := [] |}).
  split; [by left|]. split; [vm_refl|]. split; [by left|]. split; [vm_refl|].
  exists (mkCheckResult ConditionOKResolvedRef true). split; vm_refl.
Defined.

Lemma deleted_route_backends_witness :
  let m' := (processRoutes (RO := key_order) example_gvk ∅
    (<[ NN "ns" "a" := 0 ]> {[ NN "ns" "b" := 1 ]}) example_tree_routes example_manager).1 in
  gen_of (owners m') "hug_ns_svc_80__" BackendOwnerTypeHTTPRoute (NN "ns" "b") = Some 1%Z ∧
  cur (configuration m') !! "hug_ns_svc_80__" = None.
Proof.
  intros m'.
  apply (deleted_route_backends key_order Z bool _ _ example_params example_gvk ∅ _ _
    HTTPRoute_backends example_tree_routes (<[ NN "ns" "a" := 0 ]> {[ NN "ns" "b" := 1 ]})
    (view (configuration example_manager) (cur (configuration example_manager)))
    example_manager (NN "ns" "a") 0
    (mkRoute (example_route_data "a" ["svc"]) (mkTreeUpdate None StatusDeleted)) (NN "ns" "b") 1
    (mkRoute (example_route_data "b" ["svc"]) zero_TreeUpdate) "hug_ns_svc_80__" 1%Z 1%Z);
    try vm_refl.
  apply (cycle_start be_Name (configuration example_manager)).
  split; [|intros n loc Hn; by rw lookup_empty in Hn..].
  intros n loc Hn. cbn in Hn. apply lookup_singleton_Some in Hn as [<- <-].
  eexists. by split; [apply lookup_singleton_eq|].
Defined.
