(* ===== verification/RouteMaps.v ===== *)
(** * RouteMaps: haproxy/routes.go, routes-maps.go, storage/maps.go,
    storage/maps/maps.go, fileutils/fileutils.go, domains.go

    The map files from which HAProxy chooses a backend: what a route writes in
    them, how they are stored on disk and read back, and how the changes of a
    cycle are sent to the runtime of HAProxy.

    A [*MapData] is designated by the full path under which the storage keeps
    it.  A result [None] is a panic: a nil pointer was dereferenced. *)

From Stdlib Require Import Ascii.
From S2P Require Import Prelude GoStrings FileUtils Objects Utils Templates Conditions Store TreeCore Listener.
From S2P Require Import Gateway Route HaproxyConf Backends.

(** ** storage/maps/maps.go *)
Record DynamicMapUpdates := mkDynamic {
  Add : gmap string string; Update : gmap string string; Delete : list string
}.

Record MapData := mkMapData {
  md_data : gmap string string; Path : FilePath; DynamicUpdates : DynamicMapUpdates
}.

Definition no_updates : DynamicMapUpdates := mkDynamic ∅ ∅ [].

Definition AddData (key val : string) (m : MapData) : MapData :=
  let u := DynamicUpdates m in
  let u := match md_data m !! key with
           | Some _ => mkDynamic (Add u) (<[key := val]> (Update u)) (Delete u)
           | None => mkDynamic (<[key := val]> (Add u)) (Update u) (Delete u)
           end in
  mkMapData (<[key := val]> (md_data m)) (Path m) u.

Definition DeleteData (key : string) (m : MapData) : MapData :=
  let u := DynamicUpdates m in
  mkMapData (delete key (md_data m)) (Path m) (mkDynamic (Add u) (Update u) (Delete u ++ [key])).

(** The text [WriteOnDisk] writes. *)
Definition WriteOnDisk {RO : RangeOrder} (m : MapData) : string :=
  foldl (λ text kv, text +:+ kv.1 +:+ " " +:+ kv.2 +:+ String newline "") "" (range (md_data m)).

(** ** domains.go *)
Definition isDomainWildcard (domain : string) : bool := HasPrefix domain "*.".

(** ** storage/maps.go *)
Definition PATH_EXACT_MAP : string := "path_exact".
Definition PATH_EXACT_DOMAIN_WILDCARD_MAP : string := "domain_wildcard_path_exact".
Definition PATH_PREFIX_MAP : string := "path_prefix".
Definition PATH_REGEX_MAP : string := "path_regex".
Definition SNI_MAP : string := "sni".
Definition SNI_DOMAIN_WILDCARD_MAP : string := "domain_wildcard_sni".

Abbreviation Maps := (gmap string MapData).

(** The base directory, the files on disk, the template of the names of the
    frontends and the link of the configuration, and what [html/template] does with
    a template that has more than text and fields. *)
Class MapsEnv := {
  MapsBaseDir : string;
  disk : string → File;
  FrontendNameTemplate : string;
  me_LinkID : string;
  other_template : string → (string → option string) → result string
}.

(** ** frontends.go: the name of the frontend of a listener *)
Definition expand_name {ME : MapsEnv} (gwKey : NamespacedName) (listenerName : string) : result string :=
  template_expand other_template FrontendNameTemplate (frontend_fields me_LinkID gwKey listenerName).

Definition getFrontendName {ME : MapsEnv} (gwKey : NamespacedName) (listener : K8sListener) : result string :=
  expand_name gwKey (l_Name listener).

(** For the names the API accepts, the template gives [name], which tells the
    Gateways and their listeners apart. *)
Definition names_apart {ME : MapsEnv} (name : NamespacedName → string → string) : Prop :=
  (∀ gw ln, api_names gw ln → expand_name gw ln = Ok (name gw ln)) ∧
  (∀ gw ln gw' ln', api_names gw ln → api_names gw' ln' → name gw ln = name gw' ln' → gw = gw' ∧ ln = ln').

(** The default template does, whatever the link. *)
Lemma default_names_apart {ME : MapsEnv} :
  FrontendNameTemplate = defaultFrontendNameTemplate → names_apart (default_name me_LinkID).
Proof.
  intros Ht. split; [|intros *; apply default_name_inj].
  intros gw ln Hn. unfold expand_name. rw Ht. by apply default_template_name.
Qed.

Section storage.
Context {ME : MapsEnv}.

Definition MapPath (frontendName mapName : string) : FilePath :=
  mkFilePath (filepath_Join MapsBaseDir frontendName) (mapName +:+ ".map").

(** An error of the disk is logged: the map stays empty. *)
Definition EnsureMapData (filePath : FilePath) (maps : Maps) : Maps :=
  let name := FullPath filePath in
  match maps !! name with
  | Some _ => maps
  | None =>
      match ReadKeyValueFile (disk name) " " with
      | Ok data => <[name := mkMapData data filePath no_updates]> maps
      | Err _ => <[name := mkMapData ∅ filePath no_updates]> maps
      end
  end.

(** The pointer, and the storage after the map was loaded. *)
Definition GetMapData (filePath : FilePath) (maps : Maps) : string * Maps :=
  (FullPath filePath, EnsureMapData filePath maps).

(** An operation through a pointer; a nil pointer panics. *)
Definition on_map (f : MapData → MapData) (p : option string) (maps : Maps) : option Maps :=
  name ← p; m ← maps !! name; Some (<[name := f m]> maps).
End storage.

(** ** routes.go *)
Section route_mgr.
Context {RO : RangeOrder} {ME : MapsEnv} {Server Extra : Type} {BP : BackendParams Server Extra}.
Implicit Types (maps : Maps).

(** The value of an entry: a backend, or the weights of several. *)
Definition weighted_value (backends : list (string * Z)) : string :=
  "{" +:+ String "034" "a" +:+ String "034" ":" +:+ String "034" "wr" +:+ String "034" "," +:+
  String "034" "l" +:+ String "034" ":" +:+ String "034"
    (Join ((λ nw, nw.1 +:+ ":" +:+ pretty nw.2) <$> backends) ",") +:+ String "034" "}".

(** The names and weights of the references of a rule that resolve. *)
Definition rule_backends {Rule : Type} (routeNs : string) (rule : RouteRule Rule)
    (refs : list (BackendObjectReference * string * option Z)) : list (string * Z) :=
  omap (λ '(backend, filterHash, weight),
    match KeyMaps.Get (CheckBackendRef rule) backend with
    | None => None
    | Some checkResult =>
        if negb (check_Valid checkResult) then None
        else
          let svckey := NN (getNamespace (b_Namespace backend) routeNs) (b_Name backend) in
          match getBackendName svckey (default 0%Z (b_Port backend)) filterHash with
          | Err _ => None
          | Ok backendName => Some (backendName, default 0%Z weight)
          end
    end) refs.

Definition http_refs (r : K8sHTTPRouteRule) : list (BackendObjectReference * string * option Z) :=
  (λ b, (hb_Ref b, getFilterHash md5_filters (hb_Filters b), hb_Weight b)) <$> hr_BackendRefs r.

Definition tls_refs (r : K8sTLSRouteRule) : list (BackendObjectReference * string * option Z) :=
  (λ b, (tb_Ref b, "", tb_Weight b)) <$> tr_BackendRefs r.

Definition http_routeValue (routeNs : string) (rule : RouteRule K8sHTTPRouteRule) : string :=
  match rule_backends routeNs rule (http_refs (rule_K8sResource rule)) with
  | [] => ""
  | [(backendName, _)] => backendName
  | backends => weighted_value backends
  end.

Definition tls_routeValue (routeNs : string) (rule : RouteRule K8sTLSRouteRule) : string :=
  match rule_backends routeNs rule (tls_refs (rule_K8sResource rule)) with
  | [(backendName, _)] => backendName
  | backends => weighted_value backends
  end.

(** The four maps of a frontend an HTTP route writes to. *)
Record HTTPMaps := mkHTTPMaps {
  mapExact : string; mapPrefix : string; mapRegex : string; mapDomainWPathExact : string
}.

Definition match_path (m : HTTPRouteMatch) : option (string * string) :=
  p ← m_Path m; Some (default "/" (pm_Value p), default PathMatchPathPrefix (pm_Type p)).

(** [mapData], which stays nil for an unknown type of path. *)
Definition map_of_type (ms : HTTPMaps) (pathType : string) : option string :=
  if bool_decide (pathType = PathMatchExact) then Some (mapExact ms)
  else if bool_decide (pathType = PathMatchPathPrefix) then Some (mapPrefix ms)
  else if bool_decide (pathType = PathMatchRegularExpression) then Some (mapRegex ms)
  else None.

Definition target_map (ms : HTTPMaps) (pathType hostname : string) : option string :=
  if bool_decide (pathType = PathMatchExact) && isDomainWildcard hostname
  then Some (mapDomainWPathExact ms) else map_of_type ms pathType.

Definition write_hostnames (f : string → MapData → MapData) (ms : HTTPMaps)
    (path pathType : string) (hostnames : list string) maps : option Maps :=
  mfold (λ hostname maps, on_map (f (hostname +:+ path)) (target_map ms pathType hostname) maps)
    hostnames maps.

Definition onDeletedHTTPRoute (k8s : K8sHTTPRoute) (rules : list (RouteRule K8sHTTPRouteRule))
    (ms : HTTPMaps) maps : option Maps :=
  mfold (λ rule maps,
    mfold (λ m maps,
      '(path, pathType) ← match_path m;
      write_hostnames DeleteData ms path pathType (hroute_Hostnames k8s) maps)
      (hr_Matches (rule_K8sResource rule)) maps) rules maps.

Definition onValidHTTPRouteUpserted (k8s : K8sHTTPRoute)
    (rules : list (RouteRule K8sHTTPRouteRule)) (ms : HTTPMaps)
    (acceptedHostnamesForRoute : list string) maps : option Maps :=
  mfold (λ rule maps,
    let routeValue := http_routeValue (meta_Namespace (hroute_Meta k8s)) rule in
    let write fullpath :=
      if rule_Valid rule then AddData fullpath routeValue else DeleteData fullpath in
    mfold (λ m maps,
      '(path, pathType) ← match_path m;
      maps ← write_hostnames write ms path pathType (hroute_Hostnames k8s) maps;
      write_hostnames write ms path pathType acceptedHostnamesForRoute maps)
      (hr_Matches (rule_K8sResource rule)) maps) rules maps.

Definition onInvalidHTTPRouteUpserted maps : option Maps := Some maps.

Definition onUpsertedHTTPRoute (k8s : K8sHTTPRoute)
    (d : RouteData K8sHTTPRoute K8sHTTPRouteRule) (ms : HTTPMaps)
    (acceptedHostnamesForRoute : list string) maps : option Maps :=
  if rt_Valid d then onValidHTTPRouteUpserted k8s (Rules d) ms acceptedHostnamesForRoute maps
  else onInvalidHTTPRouteUpserted maps.

(** [hostnamesInserted] is made anew for each rule. *)
Definition onValidTLSRouteUpserted (k8s : K8sTLSRoute) (rules : list (RouteRule K8sTLSRouteRule))
    (mapSNI mapSNIDomainWildcard : string) (acceptedHostnamesForRoute : list string) maps :
    option Maps :=
  mfold (λ rule maps,
    let routeValue := tls_routeValue (meta_Namespace (troute_Meta k8s)) rule in
    fst <$> mfold (λ hostname '(maps, hostnamesInserted),
      if rule_Valid rule then
        let p := if isDomainWildcard hostname then mapSNIDomainWildcard else mapSNI in
        maps ← on_map (AddData hostname routeValue) (Some p) maps;
        Some (maps, {[hostname]} ∪ hostnamesInserted)
      else if bool_decide (hostname ∈ hostnamesInserted) then Some (maps, hostnamesInserted)
      else
        maps ← on_map (DeleteData hostname) (Some mapSNI) maps;
        Some (maps, hostnamesInserted))
      acceptedHostnamesForRoute (maps, ∅ : gset string)) rules maps.

Definition onUpsertedTLSRoute (k8s : K8sTLSRoute) (d : RouteData K8sTLSRoute K8sTLSRouteRule)
    (mapSNI mapSNIDomainWildcard : string) (acceptedHostnamesForRoute : list string) maps :
    option Maps :=
  if rt_Valid d
  then onValidTLSRouteUpserted k8s (Rules d) mapSNI mapSNIDomainWildcard acceptedHostnamesForRoute maps
  else Some maps.

Definition onDeletedTLSRoute (k8s : K8sTLSRoute) (mapSNI mapSNIDomainWildcard : string) maps :
    option Maps :=
  mfold (λ hostname maps,
    on_map (DeleteData hostname)
      (Some (if isDomainWildcard hostname then mapSNIDomainWildcard else mapSNI)) maps)
    (troute_Hostnames k8s) maps.

(** ** routes-maps.go *)

(** An error in the name of the frontend is logged, and the name is empty. *)
Definition frontend_name (l : Listener) : string :=
  match getFrontendName (lst_Owner l) (lst_K8sResource l) with
  | Ok n => n | Err _ => ""
  end.

Definition http_maps (l : Listener) maps : HTTPMaps * Maps :=
  let fe := frontend_name l in
  let '(exact, maps) := GetMapData (MapPath fe PATH_EXACT_MAP) maps in
  let '(prefix, maps) := GetMapData (MapPath fe PATH_PREFIX_MAP) maps in
  let '(regex, maps) := GetMapData (MapPath fe PATH_REGEX_MAP) maps in
  let '(wildcard, maps) := GetMapData (MapPath fe PATH_EXACT_DOMAIN_WILDCARD_MAP) maps in
  (mkHTTPMaps exact prefix regex wildcard, maps).

Definition tls_maps (l : Listener) maps : string * string * Maps :=
  let fe := frontend_name l in
  let '(sni, maps) := GetMapData (MapPath fe SNI_MAP) maps in
  let '(wildcard, maps) := GetMapData (MapPath fe SNI_DOMAIN_WILDCARD_MAP) maps in
  (sni, wildcard, maps).

(** [for _, listeners := range route.Listeners.Iterate { for _, listener ... }] *)
Definition each_listener {R Rule : Type} (heap : Listeners) (d : RouteData R Rule)
    (f : Listener → R → Maps → option Maps) maps : option Maps :=
  range_mfold (λ _ listeners maps,
    mfold (λ loc maps, l ← heap !! loc; k8s ← rt_K8sResource d; f l k8s maps) listeners maps)
    (data (rt_Listeners d)) maps.

Definition accepted_hostnames (l : Listener) (routeHostnames : list string) : list string :=
  GetHostnamesForRouteWithListener (l_Hostname (lst_K8sResource l)) routeHostnames.

(** The two loops over the routes: the old resources are cleaned first. *)
Definition fill_maps {R Rule : Type} (heap : Listeners)
    (clean : RouteData R Rule → Listener → R → Maps → option Maps)
    (fill : Route R Rule → Listener → R → Maps → option Maps)
    (rs : gmap nat (Route R Rule)) (routesOf : gmap NamespacedName nat) maps : option Maps :=
  maps ← range_mfold (λ _ loc maps,
    match rs !! loc with
    | None => None
    | Some route =>
        match OldTreeResource (rt_TreeStatus route) with
        | None => Some maps
        | Some old => each_listener heap old (clean old) maps
        end
    end) routesOf maps;
  range_mfold (λ _ loc maps,
    match rs !! loc with
    | None => None
    | Some route => each_listener heap (rt_data route) (fill route) maps
    end) routesOf maps.

Definition fillMapsForHTTPRoutes (heap : Listeners)
    (rs : gmap nat (Route K8sHTTPRoute K8sHTTPRouteRule)) (routesOf : gmap NamespacedName nat)
    maps : option Maps :=
  fill_maps heap
    (λ old l k8s maps,
      let '(ms, maps) := http_maps l maps in onDeletedHTTPRoute k8s (Rules old) ms maps)
    (λ route l k8s maps,
      let '(ms, maps) := http_maps l maps in
      match Status (rt_TreeStatus route) with
      | StatusUnchanged => Some maps
      | StatusUpserted =>
          onUpsertedHTTPRoute k8s (rt_data route) ms
            (accepted_hostnames l (hroute_Hostnames k8s)) maps
      | StatusDeleted => onDeletedHTTPRoute k8s (Rules (rt_data route)) ms maps
      end) rs routesOf maps.

Definition fillMapsForTLSRoutes (heap : Listeners)
    (rs : gmap nat (Route K8sTLSRoute K8sTLSRouteRule)) (routesOf : gmap NamespacedName nat)
    maps : option Maps :=
  fill_maps heap
    (λ _ l k8s maps,
      let '(sni, wildcard, maps) := tls_maps l maps in onDeletedTLSRoute k8s sni wildcard maps)
    (λ route l k8s maps,
      let '(sni, wildcard, maps) := tls_maps l maps in
      match Status (rt_TreeStatus route) with
      | StatusUnchanged => Some maps
      | StatusUpserted =>
          onUpsertedTLSRoute k8s (rt_data route) sni wildcard
            (accepted_hostnames l (troute_Hostnames k8s)) maps
      | StatusDeleted => onDeletedTLSRoute k8s sni wildcard maps
      end) rs routesOf maps.

(** [writeMaps]: the files written, with their text. *)
Definition writeMaps (StoreMapsOnDisk : bool) maps : list (string * string) :=
  if negb StoreMapsOnDisk then []
  else (λ kv, (FullPath (Path kv.2), WriteOnDisk kv.2)) <$> range maps.
End route_mgr.

(** ** The runtime of HAProxy

    The runtime client of client-native: [ShowMaps] lists the files and the
    identifiers of the maps, the other calls change one entry. *)
Class RuntimeClient (T : Type) := {
  ShowMaps : T → list (string * string);
  DeleteMapEntry : string → string → T → T * option string;
  SetMapEntry : string → string → string → T → T * option string;
  AddMapEntry : string → string → string → T → T * option string;
  (** [strings.Contains(err.Error(), "already exists")] *)
  already_exists : string → bool
}.

Section runtime.
Context {RO : RangeOrder} {ME : MapsEnv} {T : Type} {RC : RuntimeClient T}.

Definition getMapID (fullPath : string) (t : T) : string :=
  match list_find (λ m, m.1 = fullPath) (ShowMaps t) with
  | Some (_, (_, id)) => "#" +:+ id
  | None => ""
  end.

(** One entry of a loop: the first error returns. *)
Definition sync_entry (md : MapData) (call : string → T → T * option string)
    (r : T * option string) : T * option string :=
  match r.2 with
  | Some _ => r
  | None =>
      let mapID := getMapID (FullPath (Path md)) r.1 in
      if bool_decide (mapID = "") then (r.1, Some "map not found") else call mapID r.1
  end.

Definition add_entry (key val mapID : string) (t : T) : T * option string :=
  let '(t, err) := AddMapEntry mapID key val t in
  match err with
  | Some err => if negb (already_exists err) then (t, Some err) else (t, None)
  | None => (t, None)
  end.

Definition sync_map (md : MapData) (r : T * option string) : T * option string :=
  let u := DynamicUpdates md in
  let r := foldl (λ r key, sync_entry md (λ id, DeleteMapEntry id key) r) r (rev (Delete u)) in
  let r := range_fold (λ key val r, sync_entry md (λ id, SetMapEntry id key val) r) (Update u) r in
  range_fold (λ key val r, sync_entry md (add_entry key val) r) (Add u) r.

Definition runtimeMapSync (maps : Maps) (t : T) : T * option string :=
  range_fold (λ _ md r, sync_map md r) maps (t, None).

(** The updates of the previous cycle are forgotten first. *)
Definition reset_updates (maps : Maps) : Maps :=
  (λ md, mkMapData (md_data md) (Path md) no_updates) <$> maps.

Definition processRoutes_maps {Server Extra : Type} {BP : BackendParams Server Extra}
    (heap : Listeners)
    (http : gmap nat (Route K8sHTTPRoute K8sHTTPRouteRule) * gmap NamespacedName nat)
    (tls : gmap nat (Route K8sTLSRoute K8sTLSRouteRule) * gmap NamespacedName nat)
    (StoreMapsOnDisk RuntimeUpdateHaproxy : bool) (maps : Maps) (t : T) :
    option (Maps * list (string * string) * (T * option string)) :=
  let maps := reset_updates maps in
  maps ← fillMapsForHTTPRoutes heap http.1 http.2 maps;
  maps ← fillMapsForTLSRoutes heap tls.1 tls.2 maps;
  let files := writeMaps StoreMapsOnDisk maps in
  if negb RuntimeUpdateHaproxy then Some (maps, files, (t, None))
  else Some (maps, files, runtimeMapSync maps t).
End runtime.

(** ** The text of a map *)
Section text.
Context {RO : RangeOrder}.

(** An entry that a line can hold. *)
Definition entry_ok (k v : string) : Prop :=
  k ≠ "" ∧ has_byte " " k = false ∧ has_byte newline k = false ∧ has_byte newline v = false ∧
  TrimSpace k = k ∧ TrimSpace v = v ∧ drop_cr v = v ∧
  (String.length k + String.length v < max_line - 1)%nat.

Definition entry_line (kv : string * string) : string := kv.1 +:+ " " +:+ kv.2.

(** The lines, each with its newline. *)
Definition text_of (lines : list string) : string :=
  foldr (λ line text, line +:+ String newline text) "" lines.

Lemma WriteOnDisk_text m : WriteOnDisk m = text_of (entry_line <$> range (md_data m)).
Proof.
  unfold WriteOnDisk. generalize (range (md_data m)) as l. intros l.
  enough (∀ acc, foldl (λ text (kv : string * string),
    text +:+ kv.1 +:+ " " +:+ kv.2 +:+ String newline "") acc l = acc +:+ text_of (entry_line <$> l))
    as H by by rw H.
  induction l as [|kv l IH]; intros acc; [by rw string_app_nil_r|].
  cbn [foldl fmap list_fmap]. rw IH. unfold entry_line at 2. cbn [text_of foldr].
  by rw !string_app_assoc.
Qed.

Lemma Split_text lines :
  Forall (λ line, has_byte newline line = false) lines →
  Split newline (text_of lines) = lines ++ [""].
Proof.
  induction 1 as [|line lines Hline _ IH]; [done|]. cbn. rw Split_app // IH //.
Qed.

Lemma raw_lines_text lines :
  Forall (λ line, has_byte newline line = false) lines → raw_lines (text_of lines) = lines.
Proof.
  intros Hl. unfold raw_lines. rw Split_text // last_snoc bool_decide_eq_true_2 //.
  rw length_app Nat.add_sub take_app_length //.
Qed.

Lemma drop_cr_app a v : v ≠ "" → drop_cr (a +:+ v) = a +:+ drop_cr v.
Proof.
  intros Hv. induction a as [|c a IH]; [done|]. rw !string_app_cons.
  assert (a +:+ v ≠ "") as Hne by by destruct a.
  destruct (a +:+ v) as [|c' s] eqn:Heq; [done|].
  rw -IH. destruct c as [[] [] [] [] [] [] [] []]; done.
Qed.

Lemma drop_cr_entry k v :
  entry_ok k v → drop_cr (entry_line (k, v)) = entry_line (k, v).
Proof.
  intros (_ & _ & _ & _ & _ & _ & Hcr & _). unfold entry_line. cbn [fst snd].
  destruct (decide (v = "")) as [->|Hv].
  - rw drop_cr_app //.
  - rw -string_app_assoc drop_cr_app // Hcr //.
Qed.

Lemma read_line_entry data k v :
  entry_ok k v →
  read_line " " data (entry_line (k, v)) = <[k := v]> data.
Proof.
  intros (Hk & Hsp & _ & _ & Htk & Htv & _). unfold read_line, entry_line, SplitN2. cbn [fst snd].
  change (" " +:+ v) with (String " " v). rw Cut_app // Htk Htv bool_decide_eq_false_2 //.
Qed.

Lemma read_written m :
  map_Forall entry_ok (md_data m) →
  ReadKeyValueFile (Content (WriteOnDisk m)) " " = Ok (md_data m).
Proof.
  intros Hall. unfold ReadKeyValueFile. rw WriteOnDisk_text.
  assert (Forall (λ kv, entry_ok kv.1 kv.2) (range (md_data m))) as Hl.
  { apply Forall_forall. intros [k v] Hkv%elem_of_range. by apply Hall. }
  assert (Forall (λ line, has_byte newline line = false) (entry_line <$> range (md_data m))) as Hnl.
  { apply Forall_fmap. eapply Forall_impl; [exact Hl|]. intros [k v] (_ & _ & Hk & Hv & _).
    cbn in *. unfold entry_line. rw !has_byte_app Hk Hv //. }
  unfold ScanLines. rw !raw_lines_text //.
  destruct (existsb _ _) eqn:He.
  { exfalso. apply existsb_exists_elem in He as (line & Hin & Hlen%Nat.leb_le).
    apply list_elem_of_fmap in Hin as ([k v] & -> & Hin). apply Forall_forall with (x := (k, v)) in Hl; [|done].
    destruct Hl as (_ & _ & _ & _ & _ & _ & _ & Hlen'). unfold entry_line in Hlen. cbn in *.
    rw !string_length_app in Hlen. cbn in Hlen. lia. }
  f_equal. trans (range_fold (λ k v acc, <[k := v]> acc) (md_data m) (∅ : gmap string string)).
  - unfold range_fold. clear Hnl He. revert Hl. generalize (∅ : gmap string string).
    generalize (range (md_data m)) as l. intros l acc Hl. revert acc.
    induction Hl as [|[k v] l Hkv _ IH]; intros acc; [done|].
    cbn [fmap list_fmap foldl fst snd]. rw drop_cr_entry // read_line_entry //.
  - rw range_fold_insert map_union_empty. apply map_eq. intros k. rw map_lookup_imap.
    by destruct (md_data m !! k).
Qed.
End text.

(** ** What the loops write *)
Section writes.
Implicit Types (maps : Maps).

Definition entry_of maps (p k : string) : option string := m ← maps !! p; md_data m !! k.

(** Between [maps] and [maps'], the entries of [l] were set to [v] (removed for
    [None]) and the others kept. *)
Definition effect (v : option string) (l : list (option string * string)) maps maps' : Prop :=
  (∀ p k, (Some p, k) ∈ l → entry_of maps' p k = v) ∧
  (∀ p k, (Some p, k) ∉ l → entry_of maps' p k = entry_of maps p k) ∧
  (∀ p, is_Some (maps' !! p) ↔ is_Some (maps !! p)).

(** A write through a pointer: [AddData] of a value, or [DeleteData]. *)
Definition write (v : option string) (k : string) : MapData → MapData :=
  match v with Some v => AddData k v | None => DeleteData k end.

Lemma md_data_write v k m : md_data (write v k m) = partial_alter (λ _, v) k (md_data m).
Proof. by destruct v. Qed.

Lemma mfold_writes v (l : list (option string * string)) maps :
  (∀ p k, (p, k) ∈ l → ∃ name, p = Some name ∧ is_Some (maps !! name)) →
  ∃ maps', mfold (λ pk, on_map (write v pk.2) pk.1) l maps = Some maps' ∧ effect v l maps maps'.
Proof.
  revert maps. induction l as [|[p k] l IH]; intros maps Hl.
  { exists maps. split; [done|]. split_and!; [|done..]. intros p k Hin. by apply elem_of_nil in Hin. }
  destruct (Hl p k) as (name & -> & [m Hm]); [by left|].
  rw mfold_cons. cbn [fst snd on_map mbind option_bind]. rw Hm. cbn [mbind option_bind].
  set (maps1 := <[name := write v k m]> maps).
  assert (∀ p', is_Some (maps1 !! p') ↔ is_Some (maps !! p')) as Hdom.
  { intros p'. unfold maps1. rw lookup_insert_is_Some'. split; [|by right].
    intros [<-|?]; [by exists m|done]. }
  destruct (IH maps1) as (maps' & Hf & E1 & E2 & E3).
  { intros p' k' Hin. destruct (Hl p' k') as (n' & -> & Hn'); [by right|]. exists n'.
    split; [done|]. by apply Hdom. }
  exists maps'. split; [done|].
  assert (∀ p' k', entry_of maps1 p' k' =
    if decide (name = p' ∧ k = k') then v else entry_of maps p' k') as Hentry.
  { intros p' k'. unfold entry_of, maps1. destruct (decide (name = p')) as [<-|Hne].
    - rw lookup_insert_eq Hm. cbn. rw md_data_write. destruct (decide (k = k')) as [<-|Hk].
      + by rw lookup_partial_alter_eq decide_True.
      + rw lookup_partial_alter_ne // decide_False //. naive_solver.
    - rw lookup_insert_ne // decide_False //. naive_solver. }
  split_and!.
  - intros p' k' Hin. destruct (decide ((Some p', k') ∈ l)) as [Hin'|Hin']; [by apply E1|].
    rw E2 // Hentry. apply elem_of_cons in Hin as [[= -> ->]|?]; [by rw decide_True|done].
  - intros p' k' [Hne Hin]%not_elem_of_cons. rw E2 // Hentry decide_False //.
    intros [-> ->]. by apply Hne.
  - intros p'. by rw E3.
Qed.
End writes.

(** ** The writes of an HTTP route *)
Section http_writes.
Context {RO : RangeOrder} {ME : MapsEnv} {Server Extra : Type} {BP : BackendParams Server Extra}.
Implicit Types (maps : Maps) (rule : RouteRule K8sHTTPRouteRule).

(** The entries a match writes: a map and a key per hostname. *)
Definition match_writes (ms : HTTPMaps) (hostnames : list string) (m : HTTPRouteMatch) :
    list (option string * string) :=
  match match_path m with
  | Some (path, pathType) => (λ h, (target_map ms pathType h, h +:+ path)) <$> hostnames
  | None => []
  end.

Definition rule_writes (ms : HTTPMaps) (hostnames : list string) rule :
    list (option string * string) :=
  flat_map (match_writes ms hostnames) (hr_Matches (rule_K8sResource rule)).

(** What the API server admits: a path, of one of the three types. *)
Definition match_ok (m : HTTPRouteMatch) : Prop :=
  ∃ p, m_Path m = Some p ∧
    default PathMatchPathPrefix (pm_Type p) ∈
      [PathMatchExact; PathMatchPathPrefix; PathMatchRegularExpression].

Definition loaded (ms : HTTPMaps) maps : Prop :=
  is_Some (maps !! mapExact ms) ∧ is_Some (maps !! mapPrefix ms) ∧
  is_Some (maps !! mapRegex ms) ∧ is_Some (maps !! mapDomainWPathExact ms).

Lemma target_loaded ms maps m hostnames p k :
  loaded ms maps → match_ok m → (p, k) ∈ match_writes ms hostnames m →
  ∃ name, p = Some name ∧ is_Some (maps !! name).
Proof.
  intros (H1 & H2 & H3 & H4) (path & Hp & Hty). unfold match_writes, match_path. rw Hp. cbn.
  intros (h & [= -> ->] & _)%list_elem_of_fmap. unfold target_map, map_of_type.
  repeat (rw elem_of_cons in Hty). rw elem_of_nil in Hty.
  destruct Hty as [->|[->|[->|[]]]]; cbn; [destruct (isDomainWildcard h)|..]; eauto.
Qed.

Definition rule_value (routeNs : string) rule : option string :=
  if rule_Valid rule then Some (http_routeValue routeNs rule) else None.

Lemma match_step ms v hs accepted m maps :
  match_ok m →
  ('(path, pathType) ← match_path m;
   maps ← write_hostnames (write v) ms path pathType hs maps;
   write_hostnames (write v) ms path pathType accepted maps) =
  mfold (λ pk, on_map (write v pk.2) pk.1) (match_writes ms (hs ++ accepted) m) maps.
Proof.
  intros (path & Hp & _). unfold match_writes, match_path. rw Hp. cbn [mbind option_bind].
  unfold write_hostnames. by rw -mfold_app mfold_fmap.
Qed.

(** The loop of a rule is one loop over the entries it writes. *)
Definition write_rule (ms : HTTPMaps) (k8s : K8sHTTPRoute) (accepted : list string) rule maps :
    option Maps :=
  mfold (λ pk, on_map (write (rule_value (meta_Namespace (hroute_Meta k8s)) rule) pk.2) pk.1)
    (rule_writes ms (hroute_Hostnames k8s ++ accepted) rule) maps.

Lemma rule_step ms k8s accepted rule maps :
  Forall match_ok (hr_Matches (rule_K8sResource rule)) →
  mfold (λ m maps,
    '(path, pathType) ← match_path m;
    maps ← write_hostnames (λ fullpath,
      if rule_Valid rule
      then AddData fullpath (http_routeValue (meta_Namespace (hroute_Meta k8s)) rule)
      else DeleteData fullpath) ms path pathType (hroute_Hostnames k8s) maps;
    write_hostnames (λ fullpath,
      if rule_Valid rule
      then AddData fullpath (http_routeValue (meta_Namespace (hroute_Meta k8s)) rule)
      else DeleteData fullpath) ms path pathType accepted maps)
    (hr_Matches (rule_K8sResource rule)) maps = write_rule ms k8s accepted rule maps.
Proof.
  intros Hok. unfold write_rule, rule_writes.
  set (v := rule_value (meta_Namespace (hroute_Meta k8s)) rule).
  assert ((λ fullpath, if rule_Valid rule
    then AddData fullpath (http_routeValue (meta_Namespace (hroute_Meta k8s)) rule)
    else DeleteData fullpath) = write v) as ->.
  { unfold v, rule_value. by destruct (rule_Valid rule). }
  generalize maps as s. induction Hok as [|m ms' Hm _ IH]; intros s; [done|].
  rw mfold_cons. cbn [flat_map]. rw mfold_app -(match_step ms v _ _ m s Hm).
  destruct (match_path m ≫= _); [apply IH|done].
Qed.

Lemma rules_step ms k8s accepted rules maps :
  Forall (λ rule, Forall match_ok (hr_Matches (rule_K8sResource rule))) rules →
  onValidHTTPRouteUpserted k8s rules ms accepted maps =
  mfold (write_rule ms k8s accepted) rules maps.
Proof.
  unfold onValidHTTPRouteUpserted. intros Hok. revert maps.
  induction Hok as [|rule rules Hrule _ IH]; intros maps; [done|].
  rw !mfold_cons -(rule_step _ _ _ _ maps Hrule). cbv zeta.
  destruct (mfold _ (hr_Matches _) maps); [apply IH|done].
Qed.

Lemma rule_write ms k8s accepted rule maps :
  loaded ms maps → Forall match_ok (hr_Matches (rule_K8sResource rule)) →
  ∃ maps', write_rule ms k8s accepted rule maps = Some maps' ∧
    effect (rule_value (meta_Namespace (hroute_Meta k8s)) rule)
      (rule_writes ms (hroute_Hostnames k8s ++ accepted) rule) maps maps'.
Proof.
  intros Hl Hok. apply mfold_writes.
  intros p k (m & Hm & Hin)%list_elem_of_In%in_flat_map. apply list_elem_of_In in Hm, Hin.
  eapply target_loaded; [exact Hl| |exact Hin]. by eapply Forall_forall in Hok.
Qed.

(** All the rules: the last one that writes an entry decides it. *)
Lemma rules_write ms k8s accepted rules maps :
  loaded ms maps → Forall (λ rule, Forall match_ok (hr_Matches (rule_K8sResource rule))) rules →
  let hs := hroute_Hostnames k8s ++ accepted in
  ∃ maps', onValidHTTPRouteUpserted k8s rules ms accepted maps = Some maps' ∧
    (∀ p k, (∀ rule, rule ∈ rules → (Some p, k) ∉ rule_writes ms hs rule) →
       entry_of maps' p k = entry_of maps p k) ∧
    (∀ pre rule suf p k, rules = pre ++ rule :: suf → (Some p, k) ∈ rule_writes ms hs rule →
       (∀ r, r ∈ suf → (Some p, k) ∉ rule_writes ms hs r) →
       entry_of maps' p k = rule_value (meta_Namespace (hroute_Meta k8s)) rule).
Proof.
  intros Hl Hok hs. rw rules_step //. revert maps Hl.
  induction Hok as [|rule rules Hrule _ IH]; intros maps Hl.
  { exists maps. split_and!; [done..|]. intros pre rule suf p k Heq. by destruct pre. }
  rw mfold_cons. destruct (rule_write ms k8s accepted rule maps Hl Hrule) as (maps1 & Hf & E1 & E2 & E3).
  rw Hf. cbn [mbind option_bind].
  assert (loaded ms maps1) as Hl1 by (unfold loaded; by rw !E3).
  destruct (IH maps1 Hl1) as (maps' & Hf' & G1 & G2). exists maps'. split; [exact Hf'|].
  split.
  - intros p k Hno. rw G1; [intros r Hr; apply Hno; by right|]. apply E2, Hno. by left.
  - intros pre r suf p k Heq Hin Hsuf. destruct pre as [|r0 pre]; simplify_eq/=.
    + rw G1 //. by apply E1.
    + by eapply G2.
Qed.

(** An entry written twice is in the updates of its map. *)
Definition holds (P : MapData → Prop) (p : string) maps : Prop := ∃ md, maps !! p = Some md ∧ P md.

Lemma on_map_keeps (P : MapData → Prop) f p q maps maps' :
  (∀ md, P md → P (f md)) → holds P p maps → on_map f q maps = Some maps' → holds P p maps'.
Proof.
  intros Hf (md & Hmd & HP). destruct q as [q|]; [|done]. cbn.
  destruct (maps !! q) as [md'|] eqn:Hq; [|done]. intros [= <-]. unfold holds.
  destruct (decide (q = p)) as [->|Hne].
  - rw lookup_insert_eq. simplify_eq. eauto.
  - rw lookup_insert_ne //. eauto.
Qed.

Definition updated (k : string) (md : MapData) : Prop := is_Some (Update (DynamicUpdates md) !! k).
Definition present (k : string) (md : MapData) : Prop := is_Some (md_data md !! k).

Lemma write_updated v k k' md : updated k md → updated k (write v k' md).
Proof.
  unfold updated. destruct v as [v|]; [|done]. cbn. unfold AddData.
  destruct (md_data md !! k'); cbn; [|done]. intros. rw lookup_insert_is_Some'. by right.
Qed.

Lemma write_present v k k' md : present k md → present k (write (Some v) k' md).
Proof. unfold present. cbn. intros. rw lookup_insert_is_Some'. by right. Qed.

Lemma write_twice v k md : present k md → updated k (write (Some v) k md).
Proof.
  intros [w Hw]. unfold updated, write, AddData. rw Hw. cbn. rw lookup_insert_is_Some'. by left.
Qed.

Lemma mfold_kept (P : MapData → Prop) v l p maps maps' :
  (∀ md k, P md → P (write v k md)) → holds P p maps →
  mfold (λ pk, on_map (write v pk.2) pk.1) l maps = Some maps' → holds P p maps'.
Proof.
  intros HP. apply mfold_keeps. intros [q k] s s' _. apply on_map_keeps. intros md. apply HP.
Qed.

Lemma mfold_written (Q P : MapData → Prop) v p k l maps maps' :
  (∀ md k', Q md → Q (write v k' md)) → (∀ md, Q md → P (write v k md)) →
  (∀ md k', P md → P (write v k' md)) → holds Q p maps → (Some p, k) ∈ l →
  mfold (λ pk, on_map (write v pk.2) pk.1) l maps = Some maps' → holds P p maps'.
Proof.
  intros HQ HQP HP Hp (l1 & l2 & ->)%list_elem_of_split. rw mfold_app.
  destruct (mfold _ l1 maps) as [m1|] eqn:H1; [|done]. cbn [mbind option_bind].
  apply (mfold_kept Q) with (p := p) in H1 as (md & Hmd & HQm); [|done..].
  rw mfold_cons. cbn [fst snd on_map mbind option_bind]. rw Hmd. cbn [mbind option_bind].
  apply (mfold_kept P); [done|]. exists (write v k md). rw lookup_insert_eq. eauto.
Qed.

Lemma match_updated ms v hs accepted m path pathType h p s s' :
  match_path m = Some (path, pathType) → h ∈ hs → h ∈ accepted →
  target_map ms pathType h = Some p → holds (λ _, True) p s →
  mfold (λ pk, on_map (write (Some v) pk.2) pk.1) (match_writes ms (hs ++ accepted) m) s = Some s' →
  holds (updated (h +:+ path)) p s'.
Proof.
  intros Hpath Hh Ha Hp Hs. unfold match_writes. rw Hpath fmap_app mfold_app.
  destruct (mfold _ _ s) as [s1|] eqn:H1; [|done]. cbn [mbind option_bind].
  assert (∀ l : list string, h ∈ l → (Some p, h +:+ path) ∈
    (λ h, (target_map ms pathType h, h +:+ path)) <$> l) as Hin.
  { intros l Hl. apply list_elem_of_fmap. exists h. by rw Hp. }
  apply (mfold_written (present (h +:+ path)) _ _ _ (h +:+ path)); [|intros; by apply write_twice| | |by apply Hin].
  - intros. by apply write_present.
  - intros. by apply write_updated.
  - revert H1. apply (mfold_written (λ _, True) _ _ _ (h +:+ path)); [done| | |done|by apply Hin].
    + intros md _. unfold present. cbn. rw lookup_insert_is_Some'. by left.
    + intros. by apply write_present.
Qed.

(** Such as the entry of a new hostname that the route asks for and the
    listener accepts. *)
Lemma rules_updated ms k8s accepted rules maps rule m path pathType h p :
  loaded ms maps → Forall (λ rule, Forall match_ok (hr_Matches (rule_K8sResource rule))) rules →
  rule ∈ rules → rule_Valid rule = true → m ∈ hr_Matches (rule_K8sResource rule) →
  match_path m = Some (path, pathType) → h ∈ hroute_Hostnames k8s → h ∈ accepted →
  target_map ms pathType h = Some p →
  ∃ maps', onValidHTTPRouteUpserted k8s rules ms accepted maps = Some maps' ∧
    holds (updated (h +:+ path)) p maps'.
Proof.
  intros Hl Hok Hrule Hv Hm Hpath Hh Ha Hp.
  destruct (rules_write ms k8s accepted rules maps Hl Hok) as (maps' & Hf & _).
  exists maps'. split; [done|]. rw rules_step // in Hf.
  apply list_elem_of_split in Hrule as (r1 & r2 & ->).
  apply Forall_app in Hok as [Hok1 [Hokr _]%Forall_cons]. revert Hf. rw mfold_app.
  destruct (mfold _ r1 maps) as [m1|] eqn:H1; [|done]. cbn [mbind option_bind]. rw mfold_cons.
  destruct (write_rule ms k8s accepted rule m1) as [m2|] eqn:H2; [|done]. cbn [mbind option_bind].
  apply (mfold_keeps (holds (updated (h +:+ path)) p)).
  { intros r s s' _ Hs Hr. eapply mfold_kept; [|exact Hs|exact Hr]. intros. by apply write_updated. }
  assert (holds (λ _, True) p m1) as Hm1.
  { assert (holds (λ _, True) p maps) as Hpm.
    { destruct (target_loaded ms maps m (hroute_Hostnames k8s) (Some p) (h +:+ path) Hl) as
        (? & [= <-] & [md Hmd]); [by eapply Forall_forall in Hokr| |by exists md].
      unfold match_writes. rw Hpath. apply list_elem_of_fmap. exists h. by rw Hp. }
    revert H1. apply (mfold_keeps (holds (λ _, True) p)); [|done].
    intros r s s' _ Hs Hr. eapply mfold_kept; [|exact Hs|exact Hr]. done. }
  unfold write_rule, rule_value in H2. rw Hv in H2.
  apply list_elem_of_split in Hm as (l1 & l2 & Hm). unfold rule_writes in H2.
  rw Hm flat_map_app mfold_app in H2. cbn [flat_map] in H2.
  destruct (mfold _ _ m1) as [m3|] eqn:H3; [|done]. cbn [mbind option_bind] in H2.
  apply (mfold_kept (λ _, True)) with (p := p) in H3; [|done..].
  rw mfold_app in H2. destruct (mfold _ _ m3) as [m4|] eqn:H4; [|done]. cbn [mbind option_bind] in H2.
  eapply mfold_kept in H2; [exact H2|intros; by apply write_updated|].
  by apply (match_updated _ _ _ _ _ _ _ _ _ _ _ Hpath Hh Ha Hp H3 H4).
Qed.
End http_writes.

(** ** Routes that own no listener write nothing *)
Section no_listeners.
Context {RO : RangeOrder} {R Rule : Type} {RK : RouteKind R Rule}.

Lemma each_listener_empty heap (d : RouteData R Rule) f maps :
  data (rt_Listeners d) = ∅ → each_listener heap d f maps = Some maps.
Proof.
  intros Hd. unfold each_listener. rw Hd. apply range_mfold_id. intros k v Hk.
  by rw lookup_empty in Hk.
Qed.

(** The old data of a route come from [DeepCopy]. *)
Definition old_copied (r : Route R Rule) : Prop :=
  ∀ old, OldTreeResource (rt_TreeStatus r) = Some old → ∃ d, old = (Route_DeepCopy d).2.

(** Cleaning the old data is skipped. *)
Lemma fill_maps_clean heap clean fill (rs : gmap nat (Route R Rule)) routesOf maps :
  (∀ k loc, routesOf !! k = Some loc → ∃ r, rs !! loc = Some r ∧ old_copied r) →
  fill_maps heap clean fill rs routesOf maps =
  range_mfold (λ _ loc maps,
    match rs !! loc with
    | None => None
    | Some route => each_listener heap (rt_data route) (fill route) maps
    end) routesOf maps.
Proof.
  intros Hold. unfold fill_maps. rw range_mfold_id; [|done].
  intros k loc Hk. destruct (Hold _ _ Hk) as (r & -> & Ho).
  destruct (OldTreeResource (rt_TreeStatus r)) as [old|] eqn:Hr; [|done].
  destruct (Ho _ Hr) as [d ->]. by apply each_listener_empty.
Qed.
End no_listeners.

(** ** Sending the changes of a cycle to the runtime *)
Section sync.
Context {RO : RangeOrder} {ME : MapsEnv} {T : Type} {RC : RuntimeClient T}.
Context (content : T → string → gmap string string).

(** What the runtime does: the list of maps does not change, an entry that is
    there can be deleted and set, one that is not can be added, and setting an
    entry that is not there is an error. *)
Record runtime_laws : Prop := {
  law_delete t id k : is_Some (content t id !! k) →
    ∃ t', DeleteMapEntry id k t = (t', None) ∧ ShowMaps t' = ShowMaps t ∧
      content t' id = delete k (content t id);
  law_set t id k v : is_Some (content t id !! k) →
    ∃ t', SetMapEntry id k v t = (t', None) ∧ ShowMaps t' = ShowMaps t ∧
      content t' id = <[k := v]> (content t id);
  law_add t id k v : content t id !! k = None →
    ∃ t', AddMapEntry id k v t = (t', None) ∧ ShowMaps t' = ShowMaps t ∧
      content t' id = <[k := v]> (content t id);
  law_set_absent t id k v : content t id !! k = None →
    ∃ t' err, SetMapEntry id k v t = (t', Some err);
  law_delete_absent t id k : content t id !! k = None →
    ∃ t' err, DeleteMapEntry id k t = (t', Some err)
}.
Context (laws : runtime_laws).

Definition map_id (md : MapData) (t : T) : string := getMapID (FullPath (Path md)) t.

Lemma getMapID_same p t t' : ShowMaps t' = ShowMaps t → getMapID p t' = getMapID p t.
Proof. unfold getMapID. by intros ->. Qed.

Lemma sync_entry_ok md (call : string → T → T * option string) (t0 t : T) :
  map_id md t = map_id md t0 → map_id md t0 ≠ "" →
  sync_entry md call (t, None) = call (map_id md t0) t.
Proof.
  intros Hid Hne. unfold sync_entry. cbn [fst snd]. unfold map_id in *. cbv zeta.
  rw Hid bool_decide_eq_false_2 //.
Qed.

(** The state of a synchronisation that goes well. *)
Definition synced (md : MapData) (t0 : T) (m : gmap string string) (r : T * option string) : Prop :=
  ∃ t, r = (t, None) ∧ ShowMaps t = ShowMaps t0 ∧ content t (map_id md t0) = m.

Lemma sync_deletes md t0 keys (r : T * option string) (m : gmap string string) :
  map_id md t0 ≠ "" → NoDup keys → (∀ k, k ∈ keys → is_Some (m !! k)) →
  synced md t0 m r →
  synced md t0 (filter (λ kv, kv.1 ∉ keys) m)
    (foldl (λ r key, sync_entry md (λ id, DeleteMapEntry id key) r) r keys).
Proof.
  intros Hid Hnd. revert r m. induction Hnd as [|k keys Hk _ IH]; intros r m Hin Hr.
  { rw map_filter_id; [|done]. intros k v _. set_solver. }
  destruct Hr as (t & -> & Hs & Hm). cbn [foldl].
  destruct (law_delete laws t (map_id md t0) k) as (t' & Ht' & Hs' & Hm').
  { rw Hm. apply Hin. by left. }
  rw (sync_entry_ok md _ t0 t) //; [by apply getMapID_same|]. rw Ht'.
  assert (filter (λ kv, kv.1 ∉ k :: keys) m = filter (λ kv, kv.1 ∉ keys) (delete k m)) as ->.
  { apply map_eq. intros k'. rw !map_lookup_filter. destruct (decide (k = k')) as [<-|Hne].
    - rw lookup_delete_eq. destruct (m !! k); cbn; [|done]. rw option_guard_False; [set_solver|done].
    - rw lookup_delete_ne //. destruct (m !! k') as [v|]; cbn; [|done].
      destruct (decide (k' ∈ keys)).
      + rw !option_guard_False; [set_solver..|done].
      + rw !option_guard_True; [set_solver..|done]. }
  apply IH.
  - intros k' Hk'. rw lookup_delete_ne; [by intros ->|]. apply Hin. by right.
  - exists t'. split_and!; [done|by rw Hs'|by rw Hm' Hm].
Qed.

Lemma sync_writes md t0 (call : string → string → string → T → T * option string)
    (u : gmap string string) (r : T * option string) (m : gmap string string) :
  map_id md t0 ≠ "" →
  (∀ t k v m', u !! k = Some v → content t (map_id md t0) = m' → m' !! k = m !! k →
     ∃ t', call k v (map_id md t0) t = (t', None) ∧ ShowMaps t' = ShowMaps t ∧
       content t' (map_id md t0) = <[k := v]> m') →
  synced md t0 m r →
  synced md t0 (u ∪ m)
    (range_fold (λ key val r, sync_entry md (call key val) r) u r).
Proof.
  intros Hid Hcall Hr.
  apply (range_fold_ind (λ d r, synced md t0 (d ∪ m) r) _ u r).
  { by rw map_empty_union. }
  intros k v d r' Hk Hd _ (t & -> & Hs & Hm).
  destruct (Hcall t k v (d ∪ m) Hk Hm) as (t' & Ht' & Hs' & Hm').
  { by rw lookup_union Hd left_id_L. }
  rw (sync_entry_ok md _ t0 t) //; [by apply getMapID_same|]. rw Ht'.
  exists t'. split_and!; [done|by rw Hs'|]. by rw Hm' insert_union_l.
Qed.

Lemma sync_map_spec md t0 :
  map_id md t0 ≠ "" →
  let u := DynamicUpdates md in let m := content t0 (map_id md t0) in
  NoDup (Delete u) → (∀ k, k ∈ Delete u → is_Some (m !! k)) →
  (∀ k, is_Some (Update u !! k) → is_Some (m !! k) ∧ k ∉ Delete u) →
  (∀ k, is_Some (Add u !! k) → m !! k = None) →
  synced md t0 (Add u ∪ (Update u ∪ filter (λ kv, kv.1 ∉ Delete u) m)) (sync_map md (t0, None)).
Proof.
  intros Hid u m Hnd Hdel Hup Hadd. unfold sync_map. fold u. cbv zeta.
  assert (filter (λ kv, kv.1 ∉ Delete u) m = filter (λ kv, kv.1 ∉ rev (Delete u)) m) as ->.
  { apply map_filter_ext. intros k v _. cbn. by rw !list_elem_of_In -in_rev. }
  assert (∀ k, k ∈ rev (Delete u) ↔ k ∈ Delete u) as Hrev.
  { intros k. by rw !list_elem_of_In -in_rev. }
  apply (sync_writes md t0 add_entry).
  - done.
  - intros t k v m' Hk Hm' Heq. unfold add_entry.
    destruct (law_add laws t (map_id md t0) k v) as (t' & -> & Hs & Hc).
    + rw Hm' Heq. assert (m !! k = None) as Hmk by (apply Hadd; eauto).
      apply lookup_union_None. split; [|apply map_lookup_filter_None; by left].
      apply eq_None_not_Some. intros [Hx _]%Hup. rw Hmk in Hx. by destruct Hx.
    + exists t'. split_and!; [done..|]. by rw Hc Hm'.
  - apply (sync_writes md t0 (λ key val id, SetMapEntry id key val)); [done| |].
    + intros t k v m' Hk Hm' Heq.
      destruct (law_set laws t (map_id md t0) k v) as (t' & -> & Hs & Hc).
      * rw Hm' Heq. destruct (Hup k) as [[x Hx] Hn]; [eauto|]. exists x.
        apply map_lookup_filter_Some. split; [done|]. cbn. by rw Hrev.
      * exists t'. split_and!; [done..|]. by rw Hc Hm'.
    + apply sync_deletes; [done| | |by exists t0].
      * by rw -Permutation_rev.
      * intros k Hk%Hrev. by apply Hdel.
Qed.

(** The writes of a cycle that touches no key twice, and deletes only entries
    that are there. *)
Definition writes (ops : list (string * option string)) (md : MapData) : MapData :=
  foldl (λ md kv, write kv.2 kv.1 md) md ops.

(** What the updates are after such writes on the entries [m]. *)
Record tracks (m : gmap string string) (keys : list string) (md : MapData) : Prop := {
  tr_data : md_data md = Add (DynamicUpdates md) ∪
    (Update (DynamicUpdates md) ∪ filter (λ kv, kv.1 ∉ Delete (DynamicUpdates md)) m);
  tr_nodup : NoDup (Delete (DynamicUpdates md));
  tr_delete k : k ∈ Delete (DynamicUpdates md) → is_Some (m !! k) ∧ k ∈ keys;
  tr_update k : is_Some (Update (DynamicUpdates md) !! k) → is_Some (m !! k) ∧ k ∈ keys;
  tr_once k : is_Some (Update (DynamicUpdates md) !! k) → k ∉ Delete (DynamicUpdates md);
  tr_add k : is_Some (Add (DynamicUpdates md) !! k) → m !! k = None ∧ k ∈ keys
}.

Lemma writes_Path ops md : Path (writes ops md) = Path md.
Proof.
  revert md. induction ops as [|[k [v|]] ops IH]; intros md; [done|..]; cbn; rw IH; [|done].
  by unfold AddData.
Qed.

Lemma tracks_other m keys md k : tracks m keys md → k ∉ keys → md_data md !! k = m !! k.
Proof.
  intros [Hd _ Hdel Hup _ Hadd] Hk. rw Hd lookup_union_r.
  { apply eq_None_not_Some. by intros [_ ?]%Hadd. }
  rw lookup_union_r.
  { apply eq_None_not_Some. by intros [_ ?]%Hup. }
  rw map_lookup_filter. destruct (m !! k) as [v|]; [|done]. cbn.
  rw option_guard_True; [by intros [_ ?]%Hdel|done].
Qed.

Lemma in_snoc {A} (x y : A) l : x ∈ l ++ [y] ↔ x ∈ l ∨ x = y.
Proof. by rw elem_of_app list_elem_of_singleton. Qed.

Lemma in_snoc_weaken {A} (P : Prop) (x y : A) l : P ∧ x ∈ l → P ∧ x ∈ l ++ [y].
Proof. intros [? ?]. rw in_snoc. tauto. Qed.

Lemma tracks_add m keys md k v :
  tracks m keys md → k ∉ keys → tracks m (keys ++ [k]) (AddData k v md).
Proof.
  intros Ht Hk. pose proof (tracks_other _ _ _ _ Ht Hk) as Hm. destruct Ht as [Hd Hn Hdel Hup Ho Hadd].
  unfold AddData. rw Hm. destruct (m !! k) as [w|] eqn:Hmk; split; cbn -[union];
    try done; try (intros k' Hk'; apply in_snoc_weaken; by eauto).
  - rw Hd. assert (Add (DynamicUpdates md) !! k = None) as Hak.
    { apply eq_None_not_Some. by intros [_ ?]%Hadd. }
    by rw -insert_union_l insert_union_r.
  - intros k' [<-|Hk']%lookup_insert_is_Some'; [|apply in_snoc_weaken; by eauto].
    split; [by exists w|]. rw in_snoc. by right.
  - intros k' [<-|?%Ho]%lookup_insert_is_Some'; [|done]. by intros [_ ?]%Hdel.
  - by rw Hd insert_union_l.
  - intros k' [<-|Hk']%lookup_insert_is_Some'; [|apply in_snoc_weaken; by eauto].
    split; [done|]. rw in_snoc. by right.
Qed.

Lemma tracks_delete m keys md k :
  tracks m keys md → k ∉ keys → is_Some (m !! k) → tracks m (keys ++ [k]) (DeleteData k md).
Proof.
  intros [Hd Hn Hdel Hup Ho Hadd] Hk Hm. split; cbn -[union];
    try (intros k' Hk'; apply in_snoc_weaken; by eauto).
  - rw Hd !delete_union (delete_id (Add _)) ?(delete_id (Update _)).
    + apply eq_None_not_Some. by intros [_ ?]%Hadd.
    + apply eq_None_not_Some. by intros [_ ?]%Hup.
    + do 2 f_equal. apply map_eq. intros k'. apply option_eq. intros v.
      rw lookup_delete_Some !map_lookup_filter_Some. cbn. rw in_snoc. naive_solver.
  - apply NoDup_app. split_and!; [done| |apply NoDup_singleton].
    by intros x [_ ?]%Hdel ->%list_elem_of_singleton.
  - intros k' [Hk'| ->]%in_snoc; [apply in_snoc_weaken; by eauto|].
    split; [done|]. rw in_snoc. by right.
  - intros k' Hk' [Hin| ->]%in_snoc; [by eapply Ho|]. by apply Hup in Hk' as [_ ?].
Qed.

Lemma writes_track (md : MapData) ops :
  DynamicUpdates md = no_updates → NoDup ops.*1 →
  (∀ k, (k, None) ∈ ops → is_Some (md_data md !! k)) →
  tracks (md_data md) ops.*1 (writes ops md).
Proof.
  intros Hnew. induction ops as [|[k v] ops IH] using rev_ind; intros Hnd Hdel.
  { split; cbn; rw Hnew; cbn -[union].
    - rw !map_empty_union map_filter_id; [|done]. intros k v _ Hin. by apply elem_of_nil in Hin.
    - apply NoDup_nil_2.
    - intros k Hin. by apply elem_of_nil in Hin.
    - intros k. rw lookup_empty. by intros [? ?].
    - intros k. rw lookup_empty. by intros [? ?].
    - intros k. rw lookup_empty. by intros [? ?]. }
  rw fmap_app in Hnd. apply NoDup_app in Hnd as (Hnd & Hnew' & _).
  unfold writes. rw foldl_app fmap_app. cbn [foldl fst snd fmap list_fmap].
  assert (k ∉ ops.*1) as Hk by (intros Hin; apply (Hnew' _ Hin); by left).
  assert (tracks (md_data md) ops.*1 (writes ops md)) as Ht.
  { apply IH; [done|]. intros k' Hk'. apply Hdel. apply elem_of_app. by left. }
  destruct v as [v|]; [by apply tracks_add|]. apply tracks_delete; [done..|].
  apply Hdel. apply elem_of_app. right. by left.
Qed.

(** An entry to update that the runtime does not have stops the
    synchronisation, whatever comes before it. *)
Definition stuck md t0 (k : string) (r : T * option string) : Prop :=
  is_Some r.2 ∨ ShowMaps r.1 = ShowMaps t0 ∧ content r.1 (map_id md t0) !! k = None.

Lemma sync_entry_stuck md t0 k (Q : T * option string → Prop) call r :
  (∀ r, is_Some r.2 → Q r) →
  (∀ t, ShowMaps t = ShowMaps t0 → content t (map_id md t0) !! k = None →
     Q (call (map_id md t0) t)) →
  stuck md t0 k r → Q (sync_entry md call r).
Proof.
  intros HQ Hcall Hr. unfold sync_entry. destruct r as [t [err|]]; cbn [fst snd].
  { apply HQ. by exists err. }
  destruct Hr as [[? ?]|[Hs Hc]]; [done|]. cbn [fst] in *. cbv zeta.
  rw (getMapID_same _ t0 t) //. destruct (bool_decide _); [|by apply Hcall].
  apply HQ. by exists "map not found".
Qed.

Lemma delete_stuck md t0 k key r :
  stuck md t0 k r → stuck md t0 k (sync_entry md (λ id, DeleteMapEntry id key) r).
Proof.
  apply sync_entry_stuck; [by left|]. intros t Hs Hc.
  destruct (content t (map_id md t0) !! key) as [v|] eqn:Hk.
  - destruct (law_delete laws t (map_id md t0) key) as (t' & -> & Hs' & Hc'); [by exists v|].
    right. cbn [fst]. rw Hs' Hc'. split; [done|]. rw lookup_delete_None. by right.
  - destruct (law_delete_absent laws t (map_id md t0) key Hk) as (t' & err & ->). left. by exists err.
Qed.

Lemma set_stuck md t0 k key val r :
  stuck md t0 k r →
  stuck md t0 k (sync_entry md (λ id, SetMapEntry id key val) r) ∧
  (key = k → is_Some (sync_entry md (λ id, SetMapEntry id key val) r).2).
Proof.
  intros Hr. split.
  - revert Hr. apply sync_entry_stuck; [by left|]. intros t Hs Hc.
    destruct (content t (map_id md t0) !! key) as [v|] eqn:Hk.
    + destruct (law_set laws t (map_id md t0) key val) as (t' & -> & Hs' & Hc'); [by exists v|].
      right. cbn [fst]. rw Hs' Hc'. split; [done|]. rw lookup_insert_ne //. by intros ->; rw Hc in Hk.
    + destruct (law_set_absent laws t (map_id md t0) key val Hk) as (t' & err & ->).
      left. by exists err.
  - intros ->. revert Hr. apply (sync_entry_stuck _ _ _ (λ r, is_Some r.2)); [done|].
    intros t Hs Hc. destruct (law_set_absent laws t (map_id md t0) k val Hc) as (t' & err & ->).
    by exists err.
Qed.

Lemma sync_map_stuck md k t0 :
  is_Some (Update (DynamicUpdates md) !! k) → content t0 (map_id md t0) !! k = None →
  is_Some (sync_map md (t0, None)).2.
Proof.
  intros Hup Hc. unfold sync_map. cbv zeta. set (r0 := foldl _ _ _).
  set (r1 := range_fold _ (Update _) r0).
  assert (stuck md t0 k r0) as Hr0.
  { unfold r0. assert (stuck md t0 k (t0, None)) as Hr by by right. revert Hr.
    generalize (t0, @None string) as r. induction (rev _) as [|key l IH]; intros r Hr; [done|].
    cbn [foldl]. apply IH. by apply delete_stuck. }
  assert (stuck md t0 k r1 ∧ (is_Some (Update (DynamicUpdates md) !! k) → is_Some r1.2)) as [_ Hr1].
  { apply (range_fold_ind (λ d r, stuck md t0 k r ∧ (is_Some (d !! k) → is_Some r.2)) _
      (Update (DynamicUpdates md)) r0).
    - split; [done|]. rw lookup_empty. by intros [? ?].
    - intros key val d r' _ _ _ [Hs Hd]. destruct (set_stuck md t0 k key val r' Hs) as [H1 H2].
      split; [done|]. intros [->|Hk]%lookup_insert_is_Some'; [by apply H2|].
      destruct (Hd Hk) as [err He]. unfold sync_entry. rw He. by exists err. }
  apply (range_fold_ind (λ _ r, is_Some r.2) _ (Add (DynamicUpdates md)) r1); [by apply Hr1|].
  intros key val _ r' _ _ _ [err He]. unfold sync_entry. rw He. by exists err.
Qed.
End sync.

(** ** The routes the maps are filled from *)
Section settled.
Context {RO : RangeOrder} (extractGVK : ExtractGVK) {R Rule : Type} {RK : RouteKind R Rule}.
Implicit Types (r : Route R Rule) (t : RouteTree R Rule).

Definition settled r : Prop :=
  old_copied r ∧
  (Status (rt_TreeStatus r) = StatusDeleted → data (rt_Listeners (rt_data r)) = ∅).

Definition settled_tree t : Prop := map_Forall (λ _, settled) (routes t).

(** The trees the builder makes, one batch of updates after the other; the
    rest of the tree, gateways and listeners, may change in between. *)
Inductive builds : RouteTree R Rule → Prop :=
  | builds_init st : builds (mkRouteTree ∅ ∅ ∅ st)
  | builds_compute t controllerName services updates :
      builds t → builds (Route_ComputeTreeUpdates extractGVK controllerName services updates t)
  | builds_clean t : builds t → builds (Route_CleanTreeUpdates t)
  | builds_attach t st :
      builds t → builds (mkRouteTree (routes t) (managedRoutes t) (unmanagedRoutes t) st).

Lemma set_status_copied status k8s r :
  ∃ d, rt_TreeStatus (Route_set_status status k8s r) =
       mkTreeUpdate (Some (Route_DeepCopy d).2) status.
Proof.
  unfold Route_set_status. destruct (Route_DeepCopy (rt_data r)) as [d copied] eqn:Hc.
  exists (rt_data r). by rw Hc.
Qed.

Lemma settled_status r d status :
  rt_TreeStatus r = mkTreeUpdate (Some (Route_DeepCopy d).2) status →
  (status = StatusDeleted → data (rt_Listeners (rt_data r)) = ∅) → settled r.
Proof.
  intros Hr Hd. split; [|by rw Hr].
  intros old. rw Hr. intros [= <-]. by exists d.
Qed.

Lemma settled_compute controllerName key u t :
  settled_tree t → settled_tree (computeTreeRouteUpdate extractGVK controllerName key u t).
Proof.
  intros Ht. unfold computeTreeRouteUpdate. cbv zeta.
  set (treeRoute := _ ≫= _). destruct (UStatus u) eqn:Hu; [| |exact Ht].
  - set (lr := match treeRoute with Some _ => _ | None => _ end).
    assert (∃ o, rt_TreeStatus lr.2 = mkTreeUpdate o StatusUpserted ∧
      (∀ old, o = Some old → ∃ d, old = (Route_DeepCopy d).2)) as (o & Hs & Ho).
    { unfold lr. destruct treeRoute as [[loc r]|]; cbn [snd].
      - destruct (set_status_copied StatusUpserted (NewObject u) r) as [d Hd].
        exists (Some (Route_DeepCopy d).2). split; [exact Hd|]. intros old [= <-]. by exists d.
      - by exists None. }
    destruct lr as [loc r]. cbn [snd] in Hs. destruct (processChecks extractGVK (rt_data r) (attach t)) as [d st].
    assert (settled_tree (mkRouteTree
      (<[loc := mkRoute (Route_BuildConditions d) (rt_TreeStatus r)]> (routes t))
      (managedRoutes t) (unmanagedRoutes t) st)) as Hset.
    { unfold settled_tree. apply map_Forall_insert_2; [|exact Ht]. split; cbn; rw Hs; [exact Ho|done]. }
    destruct (rt_K8sResource d); [|exact Hset]. by destruct (Route_isManaged d).
  - destruct treeRoute as [[loc r]|]; [|exact Ht]. unfold settled_tree. cbn [routes].
    apply map_Forall_insert_2; [|exact Ht].
    destruct (set_status_copied StatusDeleted None r) as [d Hd].
    by eapply settled_status.
Qed.

Lemma settled_finish services r : settled r → settled (finish_route extractGVK services r).
Proof.
  intros [Ho Hd]. unfold finish_route. destruct (Status (rt_TreeStatus r)) eqn:Hs; [|split; by [exact Ho|rw ?Hs]..].
  split; [exact Ho|]. cbn. by rw Hs.
Qed.

Lemma settled_clean_map m (rs : gmap nat (Route R Rule)) :
  map_Forall (λ _, settled) rs → map_Forall (λ _, settled) (clean_route_map m rs).2.
Proof.
  intros Hrs. unfold clean_route_map.
  apply (range_fold_ind (λ _ acc, map_Forall (λ _, settled) acc.2) _ m (m, rs)); [exact Hrs|].
  intros key loc _ [am ars] _ _ _ IH. cbn [fst snd] in *.
  destruct (ars !! loc) as [r|]; [|exact IH].
  assert (map_Forall (λ _, settled) (<[loc := mkRoute (rt_data r) zero_TreeUpdate]> ars)) as Hz.
  { apply map_Forall_insert_2; [|exact IH]. by split. }
  by destruct (Status (rt_TreeStatus r)).
Qed.

Lemma builds_settled t : builds t → settled_tree t.
Proof.
  induction 1 as [st|t c services updates _ IH|t _ IH|t st _ IH].
  - intros loc r Hr. by rw lookup_empty in Hr.
  - unfold Route_ComputeTreeUpdates, settled_tree. cbv zeta. cbn [routes].
    set (t1 := range_fold _ updates t).
    assert (settled_tree t1) as H1.
    { apply (range_fold_ind (λ _ t, settled_tree t) _ updates t); [exact IH|].
      intros k u _ t' _ _ _ Ht'. by apply settled_compute. }
    apply (range_fold_ind (λ _ rs, map_Forall (λ _, settled) rs) _ (managedRoutes t1) (routes t1));
      [exact H1|].
    intros _ loc _ rs _ _ _ Hrs loc' r. rw lookup_alter_Some.
    intros [(<- & r' & Hr' & ->)|[_ Hr]]; [|by eapply Hrs]. apply settled_finish. by eapply Hrs.
  - unfold Route_CleanTreeUpdates, settled_tree.
    pose proof (settled_clean_map (managedRoutes t) (routes t) IH) as H1.
    destruct (clean_route_map (managedRoutes t) (routes t)) as [m1 rs1].
    pose proof (settled_clean_map (unmanagedRoutes t) rs1 H1) as H2.
    by destruct (clean_route_map (unmanagedRoutes t) rs1) as [m2 rs2].
  - exact IH.
Qed.

(** A route the loops can go through: its listeners are there. *)
Definition resolves (heap : Listeners) r : Prop :=
  is_Some (rt_K8sResource (rt_data r)) ∧
  map_Forall (λ _ locs, ∀ l, l ∈ locs → is_Some (heap !! l)) (data (rt_Listeners (rt_data r))).

Lemma each_listener_total (P : Maps → Prop) heap r f maps :
  resolves heap r → P maps →
  (∀ l k8s maps, P maps → ∃ maps', f l k8s maps = Some maps' ∧ P maps') →
  ∃ maps', each_listener heap (rt_data r) f maps = Some maps' ∧ P maps'.
Proof.
  intros [[k8s Hk] Hl] Hm Hf. unfold each_listener, range_mfold.
  apply mfold_total; [exact Hm|]. intros [pr locs] m Hin%elem_of_range Hm'. cbn [fst snd] in *.
  apply mfold_total; [exact Hm'|]. intros l m2 Hll Hm2.
  destruct (Hl pr locs Hin l Hll) as [li ->]. rw Hk. cbn. by apply Hf.
Qed.
End settled.

(** ** Properties of the maps *)
Section maps_properties.
Context {RO : RangeOrder} {ME : MapsEnv} {Server Extra : Type} {BP : BackendParams Server Extra}.
Implicit Types (maps : Maps).

(** Loading a map adds it, and changes no other one. *)
Lemma EnsureMapData_grows fp maps : maps ⊆ EnsureMapData fp maps.
Proof.
  unfold EnsureMapData. destruct (maps !! FullPath fp) eqn:Hm; [done|].
  destruct (ReadKeyValueFile _ _); by apply insert_subseteq.
Qed.

Lemma http_maps_grows l maps : maps ⊆ (http_maps l maps).2.
Proof.
  unfold http_maps, GetMapData. cbn [snd]. repeat (etrans; [|apply EnsureMapData_grows]). done.
Qed.

(** The entries of a route that is deleted stay in the maps.  In a tree
    the builder made, when no route is upserted in the cycle, filling the maps
    changes none of them, whatever routes are deleted: a deleted route has no
    listener left to write for, and the old resource it is meant to be cleaned
    with is a [DeepCopy], which has none either.  The only effect is to load
    the maps of the frontends. *)
Theorem deleted_route_stays extractGVK (heap : Listeners)
    (t : RouteTree K8sHTTPRoute K8sHTTPRouteRule) maps :
  builds extractGVK t →
  (∀ key loc, managedRoutes t !! key = Some loc → ∃ r, routes t !! loc = Some r ∧
     Status (rt_TreeStatus r) ≠ StatusUpserted ∧
     (Status (rt_TreeStatus r) = StatusUnchanged → resolves heap r)) →
  ∃ maps', fillMapsForHTTPRoutes heap (routes t) (managedRoutes t) maps = Some maps' ∧
    maps ⊆ maps'.
Proof.
  intros Ht%builds_settled Hroutes. unfold fillMapsForHTTPRoutes.
  rw fill_maps_clean.
  { intros key loc Hk. destruct (Hroutes _ _ Hk) as (r & Hr & _). exists r.
    split; [done|]. by apply (Ht _ _ Hr). }
  unfold range_mfold.
  apply (mfold_total (λ m, maps ⊆ m)); [done|].
  intros [key loc] m Hk%elem_of_range Hm. cbn [fst snd] in *.
  destruct (Hroutes _ _ Hk) as (r & Hr & Hns & Hres). rw Hr.
  destruct (Status (rt_TreeStatus r)) eqn:Hs; [done| |].
  - rw each_listener_empty; [by apply (Ht _ _ Hr)|]. by exists m.
  - apply each_listener_total; [by apply Hres|done|].
    intros l k8s m1 Hm1. pose proof (http_maps_grows l m1) as Hg.
    destruct (http_maps l m1) as [ms m2]. exists m2. split; [done|]. by etrans.
Qed.

(** C27: an HTTP route that is valid writes its rules in the maps of a listener,
    in their order: an entry that some rule writes, the path of one of its
    matches under a hostname of the route or an accepted one, has the value of
    the last rule that writes it, or is removed when that rule is not valid;
    the entries that no rule writes are kept, and the loop does not panic. *)
Theorem http_route_writes ms k8s (d : RouteData K8sHTTPRoute K8sHTTPRouteRule) accepted maps :
  rt_Valid d = true → loaded ms maps →
  Forall (λ rule, Forall match_ok (hr_Matches (rule_K8sResource rule))) (Rules d) →
  let hs := hroute_Hostnames k8s ++ accepted in
  ∃ maps', onUpsertedHTTPRoute k8s d ms accepted maps = Some maps' ∧
    (∀ p k, (∀ rule, rule ∈ Rules d → (Some p, k) ∉ rule_writes ms hs rule) →
       entry_of maps' p k = entry_of maps p k) ∧
    (∀ pre rule suf p k, Rules d = pre ++ rule :: suf → (Some p, k) ∈ rule_writes ms hs rule →
       (∀ r, r ∈ suf → (Some p, k) ∉ rule_writes ms hs r) →
       entry_of maps' p k =
         if rule_Valid rule
         then Some (http_routeValue (meta_Namespace (hroute_Meta k8s)) rule) else None).
Proof.
  intros Hv Hl Hok hs. unfold onUpsertedHTTPRoute. rw Hv. by apply rules_write.
Qed.

(** C28: what [WriteOnDisk] writes, [ReadKeyValueFile] reads back, in any order
    of the entries, as long as each entry fits a line: a key that is not empty,
    without space or newline, a value without newline, no white space at their
    ends, and a line shorter than the buffer of the scanner. *)
Theorem map_file_roundtrip m :
  map_Forall entry_ok (md_data m) → ReadKeyValueFile (Content (WriteOnDisk m)) " " = Ok (md_data m).
Proof. apply read_written. Qed.

Context {T : Type} {RC : RuntimeClient T} (content : T → string → gmap string string).
Context (laws : runtime_laws content).

(** C29: the runtime follows the map.  When the runtime and the map have the
    same entries at the start of a cycle, and the cycle writes no key twice and
    deletes only keys that are there, then the synchronisation sends every
    change without error and the runtime has the entries of the map. *)
Theorem sync_follows (md : MapData) ops (t0 : T) :
  DynamicUpdates md = no_updates → NoDup ops.*1 →
  (∀ k, (k, None) ∈ ops → is_Some (md_data md !! k)) →
  map_id md t0 ≠ "" → content t0 (map_id md t0) = md_data md →
  ∃ t, sync_map (writes ops md) (t0, None) = (t, None) ∧ ShowMaps t = ShowMaps t0 ∧
    content t (map_id md t0) = md_data (writes ops md).
Proof.
  intros Hnew Hnd Hdel Hid Hc. destruct (writes_track md ops Hnew Hnd Hdel) as [Hd Hn Hdl Hu Ho Ha].
  assert (map_id (writes ops md) t0 = map_id md t0) as Hid'.
  { unfold map_id. by rw writes_Path. }
  pose proof (sync_map_spec content laws (writes ops md) t0) as Hs. cbv zeta in Hs.
  rw Hid' Hc in Hs. destruct Hs as (t & Hs & Ht & Hct); [done..| | | |].
  - intros k. by intros [? _]%Hdl.
  - intros k Hk. split; [by apply Hu|by apply Ho].
  - intros k. by intros [? _]%Ha.
  - exists t. split_and!; [done..|]. by rw -Hid' Hct Hd.
Qed.

(** A new entry of an HTTP route stops the synchronisation.  A hostname
    the route has and the listener accepts is written twice, by the loop over
    the hostnames of the route and by the loop over the accepted ones: its entry
    is then among the updates of the map as well, and the runtime is asked to
    set an entry it does not have, which is an error. *)
Theorem new_entry_stops_sync ms k8s accepted rules maps rule m path pathType h p :
  loaded ms maps → Forall (λ rule, Forall match_ok (hr_Matches (rule_K8sResource rule))) rules →
  rule ∈ rules → rule_Valid rule = true → m ∈ hr_Matches (rule_K8sResource rule) →
  match_path m = Some (path, pathType) → h ∈ hroute_Hostnames k8s → h ∈ accepted →
  target_map ms pathType h = Some p →
  ∃ maps' md, onValidHTTPRouteUpserted k8s rules ms accepted maps = Some maps' ∧
    maps' !! p = Some md ∧
    (∀ t0, content t0 (map_id md t0) !! (h +:+ path) = None →
       is_Some (sync_map md (t0, None)).2).
Proof.
  intros Hl Hok Hrule Hv Hm Hpath Hh Ha Hp.
  destruct (rules_updated ms k8s accepted rules maps rule m path pathType h p) as
    (maps' & Hf & md & Hmd & Hu); [done..|].
  exists maps', md. split_and!; [done..|]. intros t0. by apply (sync_map_stuck content laws).
Qed.
End maps_properties.

(** ** The properties on examples *)
#[local] Instance example_maps_env : MapsEnv := {|
  MapsBaseDir := "/maps"; disk := λ _, NoFile;
  FrontendNameTemplate := "{{ .GATEWAY_NAME }}_{{ .LISTENER_NAME }}"; me_LinkID := "hug";
  other_template _ _ := Err "not a name"
|}.

(** A runtime: the files with their identifiers, and the entries. *)
Abbreviation ExampleRuntime := (list (string * string) * gmap string (gmap string string))%type.

Definition example_content (t : ExampleRuntime) (id : string) : gmap string string :=
  default ∅ (t.2 !! id).

Definition example_change (id k : string) (v : option string) (must_exist : bool)
    (t : ExampleRuntime) : ExampleRuntime * option string :=
  let m := example_content t id in
  if Bool.eqb must_exist (bool_decide (is_Some (m !! k)))
  then ((t.1, <[id := partial_alter (λ _, v) k m]> t.2), None)
  else (t, Some (if must_exist then "entry not found" else "entry already exists")).

#[local] Instance example_runtime : RuntimeClient ExampleRuntime := {|
  ShowMaps := fst;
  DeleteMapEntry := λ id k, example_change id k None true;
  SetMapEntry := λ id k v, example_change id k (Some v) true;
  AddMapEntry := λ id k v, example_change id k (Some v) false;
  already_exists := λ err, bool_decide (err = "entry already exists")
|}.

Lemma example_change_ok id k v (b : bool) (t : ExampleRuntime) :
  b = bool_decide (is_Some (example_content t id !! k)) →
  ∃ t', example_change id k v b t = (t', None) ∧ t'.1 = t.1 ∧
    example_content t' id = partial_alter (λ _, v) k (example_content t id).
Proof.
  intros Hb. unfold example_change. cbv zeta. rw -Hb Bool.eqb_reflx. eexists. split_and!; [done..|].
  unfold example_content at 1. by rw lookup_insert_eq.
Qed.

Lemma example_change_ko id k v (t : ExampleRuntime) :
  example_content t id !! k = None → ∃ t' err, example_change id k v true t = (t', Some err).
Proof.
  intros Hk. unfold example_change. rw Hk bool_decide_eq_false_2; [by intros [? ?]|].
  by do 2 eexists.
Qed.

Lemma example_laws : runtime_laws example_content.
Proof.
  split; intros.
  - destruct (example_change_ok id k None true t) as (t' & ? & ? & ?);
      [by rw bool_decide_eq_true_2|by exists t'].
  - destruct (example_change_ok id k (Some v) true t) as (t' & ? & ? & ?);
      [by rw bool_decide_eq_true_2|by exists t'].
  - destruct (example_change_ok id k (Some v) false t) as (t' & ? & ? & ?);
      [rw bool_decide_eq_false_2 // H; by intros [? ?]|by exists t'].
  - by apply example_change_ko.
  - by apply example_change_ko.
Qed.

Definition example_ms : HTTPMaps := mkHTTPMaps "exact" "prefix" "regex" "wildcard".

Definition empty_map (name : string) : MapData := mkMapData ∅ (mkFilePath "/maps" name) no_updates.

Definition example_maps : Maps :=
  <["exact" := empty_map "exact"]> (<["prefix" := empty_map "prefix"]>
    (<["regex" := empty_map "regex"]> {["wildcard" := empty_map "wildcard"]})).

Definition example_match : HTTPRouteMatch :=
  {| m_Path := Some (PathMatch (Some PathMatchPathPrefix) (Some "/api")) |}.

Definition example_map_rule (valid : bool) : RouteRule K8sHTTPRouteRule :=
  mkRouteRule {| hr_Matches := [example_match]; hr_BackendRefs := [] |}
    (KeyMaps.NewKeyMap BackendObjectReferenceToKey) valid.

Definition example_map_data : RouteData K8sHTTPRoute K8sHTTPRouteRule :=
  mkRouteData (Some (example_route "web" [])) (KeyMaps.NewKeyMap ParentRefToKey)
    [example_map_rule true; example_map_rule false] (NewRouteConditions "") ""
    zero_CheckResultRoute true.

Lemma example_loaded : loaded example_ms example_maps.
Proof. split_and!; vm_compute; by eexists. Qed.

Lemma example_match_ok valid :
  Forall match_ok (hr_Matches (rule_K8sResource (example_map_rule valid))).
Proof.
  apply Forall_singleton. eexists. split; [done|]. cbn. set_solver.
Qed.

(** The last rule is not valid: it removes the entry. *)
Lemma http_route_writes_witness :
  ∃ maps', onUpsertedHTTPRoute (example_route "web" []) example_map_data example_ms
      ["www.example.com"] example_maps = Some maps' ∧
    entry_of maps' "prefix" "www.example.com/api" = None ∧
    entry_of maps' "exact" "www.example.com/api" = None.
Proof.
  destruct (http_route_writes example_ms (example_route "web" []) example_map_data
    ["www.example.com"] example_maps eq_refl example_loaded) as (maps' & Hf & Hkeep & Hlast).
  { do 2 (apply Forall_cons_2; [apply example_match_ok|]). by apply Forall_nil. }
  exists maps'. split_and!; [exact Hf| |].
  - apply (Hlast [example_map_rule true] (example_map_rule false) [] _ _ eq_refl).
    + vm_compute. by left.
    + intros r Hr. by apply elem_of_nil in Hr.
  - apply Hkeep. intros rule Hr Hin. apply elem_of_cons in Hr as [->|Hr].
    + vm_compute in Hin. set_solver.
    + apply list_elem_of_singleton in Hr as ->. vm_compute in Hin. set_solver.
Defined.

Definition example_entries : MapData :=
  mkMapData (<["www.example.com/api" := "ns_web_80"]> {["b.example.com/" := "ns b"]})
    (mkFilePath "/maps" "prefix.map") no_updates.

Lemma map_file_roundtrip_witness :
  ReadKeyValueFile (Content (WriteOnDisk (RO := key_order) example_entries)) " " =
  Ok (md_data example_entries).
Proof.
  apply (map_file_roundtrip (RO := key_order)).
  apply map_Forall_insert_2; [|apply map_Forall_singleton]; unfold entry_ok;
    (split; [discriminate|]); repeat (split; [vm_compute; reflexivity|]);
    apply Nat.ltb_lt; vm_compute; reflexivity.
Defined.

Definition example_runtime_state : ExampleRuntime :=
  ([("/maps/prefix.map", "7")], {["#7" := md_data example_entries]}).

Definition example_writes : list (string * option string) :=
  [("b.example.com/", None); ("c.example.com/", Some "ns_c_80");
   ("www.example.com/api", Some "ns_web_8080")].

Lemma sync_follows_witness :
  ∃ t, sync_map (RO := key_order) (writes example_writes example_entries)
         (example_runtime_state, None) = (t, None) ∧
    ShowMaps t = ShowMaps example_runtime_state ∧
    example_content t "#7" = md_data (writes example_writes example_entries).
Proof.
  apply (sync_follows (RO := key_order) example_content example_laws example_entries example_writes
    example_runtime_state).
  - done.
  - apply (bool_decide_unpack _). vm_compute. done.
  - intros k Hk. repeat (apply elem_of_cons in Hk as [Hk|Hk]; [simplify_eq; by eexists|]).
    by apply elem_of_nil in Hk.
  - vm_compute. discriminate.
  - vm_refl.
Defined.

Lemma new_entry_stops_sync_witness :
  ∃ maps' md, onValidHTTPRouteUpserted (example_route "web" []) [example_map_rule true] example_ms
      ["www.example.com"] example_maps = Some maps' ∧
    maps' !! "prefix" = Some md ∧
    is_Some (sync_map (RO := key_order) md ([("/maps/prefix", "1")], ∅ : gmap string _, None)).2.
Proof.
  destruct (new_entry_stops_sync (RO := key_order) example_content example_laws example_ms
    (example_route "web" []) ["www.example.com"] [example_map_rule true] example_maps
    (example_map_rule true) example_match "/api" PathMatchPathPrefix "www.example.com" "prefix"
    example_loaded) as (maps' & md & Hf & Hmd & Hs); try done; try by left.
  - apply Forall_singleton, example_match_ok.
  - exists maps', md. split_and!; [exact Hf|exact Hmd|]. by apply Hs.
Defined.

(** The route ns/web is created, then deleted: the entry it wrote stays. *)
Definition example_created : RouteTree K8sHTTPRoute K8sHTTPRouteRule :=
  Route_CleanTreeUpdates (RO := key_order) (Route_ComputeTreeUpdates (RO := key_order) example_gvk
    "haproxy.org/gate" example_services
    {[ NN "ns" "web" := mkUpdate None (Some (example_route "web" ["svc"])) StatusUpserted false ]}
    (mkRouteTree ∅ ∅ ∅ example_attach)).

Definition example_deleted : RouteTree K8sHTTPRoute K8sHTTPRouteRule :=
  Route_ComputeTreeUpdates (RO := key_order) example_gvk "haproxy.org/gate" example_services
    {[ NN "ns" "web" := mkUpdate (Some (example_route "web" ["svc"])) None StatusDeleted false ]}
    example_created.

Lemma deleted_route_stays_witness :
  Status ∘ rt_TreeStatus <$> routes example_deleted !! 0 = Some StatusDeleted ∧
  ∃ maps', fillMapsForHTTPRoutes (RO := key_order) (at_heap (attach example_deleted))
    (routes example_deleted) (managedRoutes example_deleted)
    (<["prefix" := example_entries]> example_maps) = Some maps' ∧
    <["prefix" := example_entries]> example_maps ⊆ maps'.
Proof.
  split; [vm_refl|].
  apply (deleted_route_stays (RO := key_order) example_gvk).
  - do 4 constructor.
  - assert (managedRoutes example_deleted = {[ NN "ns" "web" := 0 ]}) as -> by vm_refl.
    intros key loc [<- <-]%lookup_singleton_Some.
    destruct (routes example_deleted !! 0) as [r|] eqn:Hr; [|by vm_compute in Hr].
    exists r. split; [done|].
    assert (Status (rt_TreeStatus r) = StatusDeleted) as ->; [|by split].
    apply (f_equal (fmap (M := option) (Status ∘ rt_TreeStatus))) in Hr. revert Hr.
    assert (Status ∘ rt_TreeStatus <$> routes example_deleted !! 0 = Some StatusDeleted) as ->
      by vm_refl.
    by intros [= <-].
Defined.
