(* ===== verification/Enqueue.v ===== *)
(** * Enqueue: enqueuefor.go, index/endpointslice.go

    The watches of the controller: an event on an object is turned into requests
    for the objects that refer to it, which are then read again and recomputed.
    A list from the cache of the Kubernetes client is an argument, [Err] when the
    call fails; the observed object is its key. *)

From S2P Require Import Prelude GoStrings Objects Utils Conditions Store TreeCore.
From S2P Require Import References GatewayClass Listener Gateway Route HaproxyConf Backends.

Abbreviation Request := NamespacedName (only parsing).

(** [a.Name == o.GetName() && a.Namespace == o.GetNamespace()] *)
Definition is_observed (o key : NamespacedName) : bool :=
  bool_decide (Name key = Name o) && bool_decide (Namespace key = Namespace o).

Definition listed {A} (items : result (list A)) (requests : list A → list Request) : list Request :=
  match items with Err _ => [] | Ok items => requests items end.

(** A request for [key] when the condition holds. *)
Definition request_if (c : bool) (key : NamespacedName) : list Request := if c then [key] else [].

Definition gwc_key (gwc : K8sGatewayClass) : NamespacedName := meta_key (gwc_Meta gwc).
Definition gw_key (gw : K8sGateway) : NamespacedName := meta_key (gw_Meta gw).

Definition getGatewayClassParamsRefKey (gwc : K8sGatewayClass) : option NamespacedName :=
  match gwc_ParametersRef gwc with
  | None => None
  | Some paramsRef => Some (NN (NamespaceAsString (pr_Namespace paramsRef)) (pr_Name paramsRef))
  end.

Definition getGatewayParamsRefKey (gw : K8sGateway) : option NamespacedName :=
  match gw_Infrastructure gw with
  | Some (Some paramsRef) => Some (NN (meta_Namespace (gw_Meta gw)) (lpr_Name paramsRef))
  | _ => None
  end.

Definition refers_to (o : NamespacedName) (paramsRef : option NamespacedName) : bool :=
  match paramsRef with Some key => is_observed o key | None => false end.

Definition enqueueGatewayClassForHugGate (gwcList : result (list K8sGatewayClass))
    (o : NamespacedName) : list Request :=
  listed gwcList (λ items,
    gwc ← items; request_if (refers_to o (getGatewayClassParamsRefKey gwc)) (gwc_key gwc)).

Definition enqueueGatewayForHugGate (gwList : result (list K8sGateway))
    (gwcList : result (list K8sGatewayClass)) (o : NamespacedName) : list Request :=
  listed gwList (λ gws, listed gwcList (λ gwcs,
    gw ← gws;
    request_if (refers_to o (getGatewayParamsRefKey gw)) (gw_key gw) ++
    (gwc ← gwcs;
     request_if (bool_decide (gw_GatewayClassName gw = meta_Name (gwc_Meta gwc)) &&
                 refers_to o (getGatewayClassParamsRefKey gwc)) (gw_key gw)))).

Definition enqueueGatewayForGatewayClass (gwList : result (list K8sGateway)) (o : NamespacedName) :
    list Request :=
  listed gwList (λ gws,
    gw ← gws; request_if (bool_decide (gw_GatewayClassName gw = Name o)) (gw_key gw)).

Definition enqueueGatewayForSecret (gwList : result (list K8sGateway)) (o : NamespacedName) :
    list Request :=
  listed gwList (λ gws,
    gw ← gws; listener ← gw_Listeners gw;
    match l_TLS listener with
    | None => []
    | Some tls =>
        certRef ← tls_CertificateRefs tls;
        if negb (IsSecretGroupKindSupported certRef) then []
        else
          let secretNsName := GetNamespacedName (sr_Name certRef)
            (PointerDefaultValueIfNil "" (sr_Namespace certRef)) (meta_Namespace (gw_Meta gw)) in
          request_if (is_observed o secretNsName) (gw_key gw)
    end).

Section enqueue.
Context (extractGVK : ExtractGVK).

(** [utilsk8s.IsBackendRefGroupKindSupported] *)
Definition IsBackendRefGroupKindSupported (backendRef : BackendObjectReference) : bool :=
  let serviceGVK := extractGVK KService in
  if negb (eq_or_nil (b_Kind backendRef) (gvk_Kind serviceGVK)) then false
  else if negb (eq_or_nil (b_Group backendRef) (gvk_Group serviceGVK)) then false
  else true.

Section routes.
Context {R Rule : Type} {RK : RouteKind R Rule}.

Definition route_key (route : R) : NamespacedName := meta_key (route_Meta route).

(** [enqueueHTTPRouteForGateway] and [enqueueTLSRouteForGateway] *)
Definition enqueueRouteForGateway (routeList : result (list R)) (o : NamespacedName) : list Request :=
  listed routeList (λ items,
    route ← items; parentRef ← route_ParentRefs route;
    if negb (IsParentRefGroupKindSupported extractGVK parentRef) then []
    else
      let gwNsName := GetNamespacedName (p_Name parentRef)
        (PointerDefaultValueIfNil "" (p_Namespace parentRef)) (meta_Namespace (route_Meta route)) in
      request_if (is_observed o gwNsName) (route_key route)).

(** [enqueueHTTPRouteForService] and [enqueueTLSRouteForService] *)
Definition enqueueRouteForService (routeList : result (list R)) (o : NamespacedName) : list Request :=
  listed routeList (λ items,
    route ← items; rule ← route_Rules route; backendRef ← rule_BackendRefs rule;
    if negb (IsBackendRefGroupKindSupported backendRef) then []
    else
      let serviceNsName := GetNamespacedName (b_Name backendRef)
        (PointerDefaultValueIfNil "" (b_Namespace backendRef)) (meta_Namespace (route_Meta route)) in
      request_if (is_observed o serviceNsName) (route_key route)).
End routes.

Definition enqueueHTTPRouteForGateway := enqueueRouteForGateway (RK := HTTPRoute_kind).
Definition enqueueTLSRouteForGateway := enqueueRouteForGateway (RK := TLSRoute_kind).
Definition enqueueHTTPRouteForService := enqueueRouteForService (RK := HTTPRoute_kind).
Definition enqueueTLSRouteForService := enqueueRouteForService (RK := TLSRoute_kind).

Definition enqueueHTTPRouteForBackendCR (routeList : result (list K8sHTTPRoute)) (o : NamespacedName) :
    list Request :=
  listed routeList (λ items,
    route ← items; rule ← hroute_Rules route; backendRef ← hr_BackendRefs rule;
    filter ← hb_Filters backendRef;
    if negb (bool_decide (f_Type filter = HTTPRouteFilterExtensionRef)) then []
    else if negb (IsFilterExtensionRefKindSupported extractGVK (f_ExtensionRef filter)) then []
    else
      match f_ExtensionRef filter with
      | None => []
      | Some ref =>
          request_if (is_observed o (NN (meta_Namespace (hroute_Meta route)) (lo_Name ref)))
            (meta_key (hroute_Meta route))
      end).
End enqueue.

(** ** index/endpointslice.go *)
Definition EndpointSliceServiceNameLabel : string := "kubernetes.io/service-name".

Definition ServiceNameIndexFunc (obj : Object) : list string :=
  match obj with
  | OEndpointSlice slice =>
      let name := default "" (meta_Labels (eps_Meta slice) !! EndpointSliceServiceNameLabel) in
      if bool_decide (name = "") then [] else [name]
  | _ => []
  end.

(** ** What is left alone when nothing is enqueued *)
Lemma is_observed_spec o key : is_observed o key = true ↔ key = o.
Proof.
  unfold is_observed. rw andb_true_iff !bool_decide_eq_true. destruct o, key. cbn.
  split; [by intros [-> ->]|by intros [= -> ->]].
Qed.

Lemma elem_of_request_if c key k : k ∈ request_if c key ↔ c = true ∧ k = key.
Proof.
  unfold request_if. destruct c; [|by rw elem_of_nil; naive_solver].
  rw list_elem_of_singleton. naive_solver.
Qed.

(** Two maps that may differ at one key. *)
Definition differ_at {V} (o : NamespacedName) (m m' : gmap NamespacedName V) : Prop :=
  ∀ k, k ≠ o → m !! k = m' !! k.

Lemma default_namespace name ns routeNs :
  GetNamespacedName name (PointerDefaultValueIfNil "" ns) routeNs =
  match ns with
  | None => NN routeNs name
  | Some ns => if bool_decide (ns = "") then NN routeNs name else NN ns name
  end.
Proof.
  unfold GetNamespacedName, PointerDefaultValueIfNil. destruct ns as [ns|]; [done|].
  by rw bool_decide_eq_true_2.
Qed.

(** A Gateway that is not enqueued does not name the secret, when no reference
    gives the empty namespace. *)
Lemma not_enqueued_secret gws gw listener tls certRef o :
  gw ∈ gws → listener ∈ gw_Listeners gw → l_TLS listener = Some tls →
  certRef ∈ tls_CertificateRefs tls → sr_Namespace certRef ≠ Some "" →
  isSupportedCertKindGroup certRef = true →
  gw_key gw ∉ enqueueGatewayForSecret (Ok gws) o →
  GetCertificateRefNamespacedName certRef gw ≠ o.
Proof.
  intros Hgw Hl Htls Hc Hns Hsup Hno Heq. apply Hno. unfold enqueueGatewayForSecret, listed.
  rw list_elem_of_bind. exists gw. split; [|done].
  rw list_elem_of_bind. exists listener. split; [|done]. rw Htls.
  rw list_elem_of_bind. exists certRef. split; [|done].
  assert (IsSecretGroupKindSupported certRef = true) as ->.
  { revert Hsup. unfold isSupportedCertKindGroup, IsSecretGroupKindSupported.
    by destruct (eq_or_nil _ "Secret"), (eq_or_nil _ ""). }
  cbn [negb]. apply elem_of_request_if. split; [|done]. apply is_observed_spec.
  rw default_namespace -Heq. unfold GetCertificateRefNamespacedName.
  destruct (sr_Namespace certRef) as [ns|]; [|done]. cbn. rw bool_decide_eq_false_2; [congruence|done].
Qed.

(** The checks of a listener read the secrets its references name. *)
Lemma checkCertificateRefs_loop_differ gw secrets secrets' o certRefs :
  differ_at o secrets secrets' →
  (∀ certRef, certRef ∈ certRefs → isSupportedCertKindGroup certRef = true →
     GetCertificateRefNamespacedName certRef gw ≠ o) →
  ∀ l, checkCertificateRefs_loop gw secrets certRefs l = checkCertificateRefs_loop gw secrets' certRefs l.
Proof.
  intros Hd. induction certRefs as [|certRef certRefs IH]; intros Hne l; [done|].
  cbn [checkCertificateRefs_loop]. destruct (isSupportedCertKindGroup certRef) eqn:Hs; [|done].
  cbn [negb]. unfold secret_usable. rw (Hd (GetCertificateRefNamespacedName certRef gw)).
  { by apply Hne; [left|]. }
  apply IH. intros c Hc. apply Hne. by right.
Qed.

Section routes.
Context (extractGVK : ExtractGVK) {R Rule : Type} {RK : RouteKind R Rule}.

Lemma not_enqueued_service routes route rule backendRef o :
  route ∈ routes → rule ∈ route_Rules route → backendRef ∈ rule_BackendRefs rule →
  isBackendRefGroupKindSupported extractGVK backendRef = true →
  route_key route ∉ enqueueRouteForService extractGVK (Ok routes) o →
  ServiceNsNameKey (meta_Namespace (route_Meta route)) backendRef ≠ o.
Proof.
  intros Hr Hrule Hb Hsup Hno Heq. apply Hno. unfold enqueueRouteForService, listed.
  rw list_elem_of_bind. exists route. split; [|done].
  rw list_elem_of_bind. exists rule. split; [|done].
  rw list_elem_of_bind. exists backendRef. split; [|done].
  change (IsBackendRefGroupKindSupported extractGVK backendRef) with
    (isBackendRefGroupKindSupported extractGVK backendRef). rw Hsup. cbn [negb].
  apply elem_of_request_if. split; [|done]. apply is_observed_spec.
  by rw default_namespace -Heq.
Qed.

Lemma checkBackendRef_differ routeNs services services' o (r : RouteRule Rule) :
  differ_at o services services' →
  (∀ backendRef, backendRef ∈ rule_BackendRefs (rule_K8sResource r) →
     isBackendRefGroupKindSupported extractGVK backendRef = true →
     ServiceNsNameKey routeNs backendRef ≠ o) →
  checkBackendRef extractGVK routeNs services r = checkBackendRef extractGVK routeNs services' r.
Proof.
  intros Hd Hne. unfold checkBackendRef. f_equal. apply foldl_ext. intros [v r'] b Hb.
  unfold check_one_backendRef. destruct (isBackendRefGroupKindSupported extractGVK b) eqn:Hs; [|done].
  cbn [negb]. unfold service_usable. rw (Hd (ServiceNsNameKey routeNs b)); [by apply Hne|done].
Qed.
End routes.

(** *** Gateways *)

(** What a Gateway is watched for, with what an event on it may change: the
    event on a HugGate also reaches the classes that refer to it. *)
Inductive GatewayWatch := ForSecret | ForGatewayClass | ForHugGate.

Definition enqueueGateway (w : GatewayWatch) (gwList : result (list K8sGateway))
    (gwcList : result (list K8sGatewayClass)) (o : NamespacedName) : list Request :=
  match w with
  | ForSecret => enqueueGatewayForSecret gwList o
  | ForGatewayClass => enqueueGatewayForGatewayClass gwList o
  | ForHugGate => enqueueGatewayForHugGate gwList gwcList o
  end.

Definition event_changes (w : GatewayWatch) (gwcList : result (list K8sGatewayClass)) (o : NamespacedName)
    (env env' : GatewayEnv) : Prop :=
  match w with
  | ForSecret =>
      differ_at o (env_Secrets env) (env_Secrets env') ∧
      env_HugGates env = env_HugGates env' ∧ env_GatewayClasses env = env_GatewayClasses env'
  | ForGatewayClass =>
      differ_at o (env_GatewayClasses env) (env_GatewayClasses env') ∧
      env_HugGates env = env_HugGates env' ∧ env_Secrets env = env_Secrets env'
  | ForHugGate =>
      differ_at o (env_HugGates env) (env_HugGates env') ∧ env_Secrets env = env_Secrets env' ∧
      (∀ k, k ∉ enqueueGatewayClassForHugGate gwcList o →
         env_GatewayClasses env !! k = env_GatewayClasses env' !! k)
  end.

Lemma refers_to_spec o r : refers_to o r = true ↔ r = Some o.
Proof.
  unfold refers_to. destruct r as [k|]; [|by split]. rw is_observed_spec. naive_solver.
Qed.

Lemma class_unchanged w gws gwcs o env env' gw :
  gw ∈ gws → gw_key gw ∉ enqueueGateway w (Ok gws) (Ok gwcs) o → event_changes w (Ok gwcs) o env env' →
  env_GatewayClasses env !! NN "" (gw_GatewayClassName gw) =
  env_GatewayClasses env' !! NN "" (gw_GatewayClassName gw).
Proof.
  intros Hgw Hno Hev. destruct w; cbn in Hev, Hno.
  - by destruct Hev as (_ & _ & ->).
  - destruct Hev as (Hd & _). apply Hd. intros Heq. apply Hno.
    unfold enqueueGatewayForGatewayClass, listed. apply list_elem_of_bind. exists gw. split; [|done].
    apply elem_of_request_if. split; [|done]. apply bool_decide_eq_true. by rw -Heq.
  - destruct Hev as (_ & _ & Hc). apply Hc. unfold enqueueGatewayClassForHugGate, listed.
    rw list_elem_of_bind. intros (gwc & [Hr Hk]%elem_of_request_if & Hgwc). apply Hno.
    unfold enqueueGatewayForHugGate, listed. apply list_elem_of_bind. exists gw. split; [|done].
    apply elem_of_app. right. apply list_elem_of_bind. exists gwc. split; [|done].
    apply elem_of_request_if. split; [|done]. apply andb_true_iff. split; [|exact Hr].
    apply bool_decide_eq_true. by injection Hk.
Qed.

Lemma CheckGatewayClass_unchanged `{FieldErrors} w gws gwcs o env env' gw ref :
  gw ∈ gws → gw_key gw ∉ enqueueGateway w (Ok gws) (Ok gwcs) o → event_changes w (Ok gwcs) o env env' →
  gw_Infrastructure gw = Some (Some ref) →
  let paramRef := ParamsRef (lpr_Group ref) (lpr_Kind ref) (lpr_Name ref)
                    (Some (meta_Namespace (gw_Meta gw))) in
  CheckGatewayClass {| ParamRef := Some paramRef; StoreHugGates := env_HugGates env |} =
  CheckGatewayClass {| ParamRef := Some paramRef; StoreHugGates := env_HugGates env' |}.
Proof.
  intros Hgw Hno Hev Href. cbv zeta. unfold CheckGatewayClass. cbn [ParamRef StoreHugGates pr_Namespace pr_Name].
  enough (env_HugGates env !! NN (meta_Namespace (gw_Meta gw)) (lpr_Name ref) =
    env_HugGates env' !! NN (meta_Namespace (gw_Meta gw)) (lpr_Name ref)) as -> by done.
  destruct w; cbn in Hev, Hno; [by destruct Hev as (_ & -> & _)..|].
  destruct Hev as (Hd & _). apply Hd. intros Heq. apply Hno.
  unfold enqueueGatewayForHugGate, listed. apply list_elem_of_bind. exists gw. split; [|done].
  apply elem_of_app. left. apply elem_of_request_if. split; [|done]. apply refers_to_spec.
  unfold getGatewayParamsRefKey. by rw Href Heq.
Qed.

(** No certificate reference gives the empty namespace: such a reference is
    looked up in the namespace "" by the checks, and in the namespace of the
    gateway by the watch. *)
Definition no_empty_namespace (gw : K8sGateway) : Prop :=
  ∀ listener tls certRef, listener ∈ gw_Listeners gw → l_TLS listener = Some tls →
    certRef ∈ tls_CertificateRefs tls → sr_Namespace certRef ≠ Some "".

Lemma secrets_unchanged w gws gwcs o env env' gw listener tls (l : Listener) :
  gw ∈ gws → no_empty_namespace gw →
  gw_key gw ∉ enqueueGateway w (Ok gws) (Ok gwcs) o → event_changes w (Ok gwcs) o env env' →
  listener ∈ gw_Listeners gw → l_TLS listener = Some tls →
  checkCertificateRefs_loop gw (env_Secrets env) (tls_CertificateRefs tls) l =
  checkCertificateRefs_loop gw (env_Secrets env') (tls_CertificateRefs tls) l.
Proof.
  intros Hgw Hns Hno Hev Hl Htls. destruct w; cbn in Hev, Hno.
  - destruct Hev as (Hd & _). apply (checkCertificateRefs_loop_differ _ _ _ o); [done|].
    intros certRef Hc Hs. by apply (not_enqueued_secret gws gw listener tls); eauto.
  - by destruct Hev as (_ & _ & ->).
  - by destruct Hev as (_ & -> & _).
Qed.

Section gateway.
Context `{RO : RangeOrder} {GS : GoSort} {FE : FieldErrors}.
Context (w : GatewayWatch) (gws : list K8sGateway) (gwcs : list K8sGatewayClass).
Context (o : NamespacedName) (env env' : GatewayEnv) (gw : K8sGateway).
Context (Hgw : gw ∈ gws) (Hno : gw_key gw ∉ enqueueGateway w (Ok gws) (Ok gwcs) o).
Context (Hev : event_changes w (Ok gwcs) o env env').

Lemma check_listener_unchanged gwValid multi listener (l : Listener) :
  no_empty_namespace gw → listener ∈ gw_Listeners gw → lst_K8sResource l = listener →
  check_listener gwValid gw (env_Secrets env) multi l =
  check_listener gwValid gw (env_Secrets env') multi l.
Proof using All.
  intros Hns Hl <-. unfold check_listener. case_bool_decide; [done|]. case_bool_decide; [|done].
  do 2 f_equal.
  assert (lst_K8sResource (checkRouteGroupKind gwValid gateSupportedRouteKindsByProtocol
    (resetChecks l)) = lst_K8sResource l) as Hr.
  { unfold checkRouteGroupKind. by repeat case_match. }
  unfold checkCertificateRefs. destruct gwValid; [|done]. cbn [negb]. rw Hr.
  destruct (l_TLS (lst_K8sResource l)) as [tls|] eqn:Htls; [|done].
  destruct (tls_CertificateRefs tls) as [|c refs] eqn:Hrefs; [done|]. rw -Hrefs.
  by eapply secrets_unchanged.
Qed.

Lemma buildListeners_unchanged multi d heap :
  no_empty_namespace gw →
  buildListeners env multi gw d heap = buildListeners env' multi gw d heap.
Proof using All.
  intros Hns. unfold buildListeners. pose proof (alloc_listeners_inv gw heap) as [H1 _ H3 _].
  destruct (alloc_listeners gw heap) as [ls h] eqn:Hal. cbn in H1, H3. f_equal. apply map_eq. intros loc.
  destruct (alter_loop (check_listener (gt_Valid d) gw (env_Secrets env) multi) ls h H3) as [Ha Ha'].
  destruct (alter_loop (check_listener (gt_Valid d) gw (env_Secrets env') multi) ls h H3) as [Hb Hb'].
  destruct (decide (map_Exists (λ _ loc', loc' = loc) ls)) as [(name & ? & Hm & ->)|Hnone].
  - rw (Ha _ _ Hm) (Hb _ _ Hm). destruct (H1 _ _ Hm) as (_ & l & Hl & _ & ->). cbn. f_equal.
    by apply (check_listener_unchanged _ _ l).
  - assert (∀ name, ls !! name ≠ Some loc) as Hne.
    { intros name Hm. apply Hnone. by exists name, loc. }
    by rw (Ha' _ Hne) (Hb' _ Hne).
Qed.

Lemma processManagementChecks_unchanged MergeWithOverwrite key g ts :
  gt_K8sResource (gt_data g) = Some gw →
  processManagementChecks MergeWithOverwrite env key g ts =
  processManagementChecks MergeWithOverwrite env' key g ts.
Proof using All.
  intros Hg. pose proof (class_unchanged _ _ _ _ _ _ _ Hgw Hno Hev) as Hc.
  assert (valid_class env gw = valid_class env' gw) as Hv by (unfold valid_class; by rw Hc).
  assert (∀ d, checkParametersRef MergeWithOverwrite env gw d =
    checkParametersRef MergeWithOverwrite env' gw d) as Hp.
  { intros d. unfold checkParametersRef. destruct (gw_Infrastructure gw) as [[ref|]|] eqn:Hr; [|done..].
    rw (CheckGatewayClass_unchanged _ _ _ _ _ _ _ _ Hgw Hno Hev Hr) Hv. done. }
  unfold processManagementChecks, CheckGatewayClassExists. rw Hg Hc Hp.
  unfold checkGatewayClassIsValid. by rw Hv.
Qed.
End gateway.

(** C37: the watches of the gateways are complete, as far as the cache answers.
    When the lists of gateways and of classes are read, an event on a secret, a
    class or a HugGate that enqueues no request for a gateway of the cluster changes
    neither what the management checks of that gateway compute nor its listeners,
    provided that no certificate reference of the gateway gives the empty
    namespace.  When a list that the watch reads fails, the event is lost: nothing
    is enqueued, whatever it changes. *)
Theorem gateway_watches_complete `{RO : RangeOrder} {GS : GoSort} {FE : FieldErrors} M w gwList gwcList o env env' :
  event_changes w gwcList o env env' →
  (∀ gws gwcs gw multi, gwList = Ok gws → gwcList = Ok gwcs → gw ∈ gws → no_empty_namespace gw →
     gw_key gw ∉ enqueueGateway w gwList gwcList o →
     (∀ key g ts, gt_K8sResource (gt_data g) = Some gw →
        processManagementChecks M env key g ts = processManagementChecks M env' key g ts) ∧
     (∀ d heap, buildListeners env multi gw d heap = buildListeners env' multi gw d heap)) ∧
  (∀ err, gwList = Err err ∨ w = ForHugGate ∧ gwcList = Err err → enqueueGateway w gwList gwcList o = []).
Proof.
  intros Hev. split.
  - intros gws gwcs gw multi -> -> Hgw Hns Hno. split; intros.
    + by eapply processManagementChecks_unchanged.
    + by eapply buildListeners_unchanged.
  - intros err [->|[-> ->]]; [by destruct w|]. by destruct gwList.
Qed.

(** *** Backend resources *)

(** The API accepts the names of the merge types in any case; the code that
    merges does not. *)
Definition merge_type_exact (extractGVK : ExtractGVK) (filter : HTTPRouteFilter) : Prop :=
  IsFilterExtensionRefKindMergeType extractGVK (f_ExtensionRef filter) = true →
  ∃ ref, f_ExtensionRef filter = Some ref ∧ (lo_Name ref = "Override" ∨ lo_Name ref = "Append").

Lemma merge_filter_differ {Server Extra} {BP : BackendParams Server Extra} extractGVK crs crs' ns s filter o :
  differ_at o crs crs' → merge_type_exact extractGVK filter →
  (∀ ref, f_ExtensionRef filter = Some ref → f_Type filter = HTTPRouteFilterExtensionRef →
     IsFilterExtensionRefKindSupported extractGVK (Some ref) = true → NN ns (lo_Name ref) ≠ o) →
  merge_filter (Server := Server) extractGVK crs ns s filter = merge_filter extractGVK crs' ns s filter.
Proof.
  intros Hd Hexact Hne. destruct s as [[opts be] errs]. unfold merge_filter.
  destruct (f_ExtensionRef filter) as [ref|] eqn:Href; [|done]. cbv zeta.
  case_bool_decide as Hty; cbn [negb]; [|done].
  destruct (IsFilterExtensionRefKindSupported extractGVK (Some ref)) eqn:Hs; cbn [orb negb].
  - rw (Hd (NN ns (lo_Name ref))); [by apply Hne|done].
  - destruct (IsFilterExtensionRefKindMergeType extractGVK (Some ref)) eqn:Hm; [|done].
    destruct Hexact as (ref' & Heq & Hor); [by rw Href|]. rw Href in Heq. injection Heq as <-.
    by destruct Hor as [->| ->].
Qed.

(** The watches of the routes on services are complete: an event on a
    service that enqueues no request for a route leaves the rules of that route
    as they are, for HTTP routes and for TLS routes. *)
Theorem service_watches_complete {R Rule} {RK : RouteKind R Rule} extractGVK routes route o services
    services' d :
  route ∈ routes → rt_K8sResource d = Some route → differ_at o services services' →
  route_key route ∉ enqueueRouteForService extractGVK (Ok routes) o →
  buildRules extractGVK services d = buildRules extractGVK services' d.
Proof.
  intros Hr Hd Hs Hno. unfold buildRules. rw Hd. f_equal. rw -!list_fmap_compose.
  apply list_fmap_ext. intros i rule Hrule%list_elem_of_lookup_2. cbn.
  apply (checkBackendRef_differ _ _ _ _ o); [done|]. intros backendRef Hb Hsup.
  by eapply (not_enqueued_service extractGVK routes route rule).
Qed.

Section backend_crs.
Context {Server Extra : Type} {BP : BackendParams Server Extra} (extractGVK : ExtractGVK).

(** The watch on Backend resources is complete for the backends of a route
    that merge with the resources of its namespace, provided that its filters
    give the merge types in the case the code compares them with. *)
Theorem backend_cr_watch_complete routes route rule backendRef o crs crs' name md http :
  route ∈ routes → rule ∈ hroute_Rules route → backendRef ∈ hr_BackendRefs rule →
  Forall (merge_type_exact extractGVK) (hb_Filters backendRef) → differ_at o crs crs' →
  meta_key (hroute_Meta route) ∉ enqueueHTTPRouteForBackendCR extractGVK (Ok routes) o →
  newBackend (Server := Server) extractGVK crs name md backendRef (meta_Namespace (hroute_Meta route)) http =
  newBackend extractGVK crs' name md backendRef (meta_Namespace (hroute_Meta route)) http.
Proof.
  intros Hr Hrule Hb Hexact Hd Hno. unfold newBackend, mergeWithBackendCRs. cbv zeta.
  match goal with |- context [foldl ?f ?s (hb_Filters backendRef)] => set (start := s) end.
  assert (foldl (merge_filter (Server := Server) extractGVK crs (meta_Namespace (hroute_Meta route))) start
      (hb_Filters backendRef) =
    foldl (merge_filter extractGVK crs' (meta_Namespace (hroute_Meta route))) start
      (hb_Filters backendRef)) as ->; [|done].
  apply foldl_ext. intros s filter Hf. apply (merge_filter_differ _ _ _ _ _ _ o); [done| |].
  { by eapply Forall_forall. }
  intros ref Href Hty Hsup Heq. apply Hno. unfold enqueueHTTPRouteForBackendCR, listed.
  rw list_elem_of_bind. exists route. split; [|done].
  rw list_elem_of_bind. exists rule. split; [|done].
  rw list_elem_of_bind. exists backendRef. split; [|done].
  rw list_elem_of_bind. exists filter. split; [|done].
  rw (bool_decide_eq_true_2 _ Hty) Href Hsup. cbn [negb].
  apply elem_of_request_if. split; [|done]. by apply is_observed_spec.
Qed.

(** A merge type written in another case, [append] say, passes the test of
    the kind but is not taken for a merge type: the backend is merged with the
    Backend resource of that name, although no event on a Backend resource
    enqueues the route for such a filter. *)
Theorem other_case_reads_resource ns opts be crs cr route filter ref :
  EqualFold (gvk_Kind (extractGVK KBackend)) "MergeType" = false →
  filter = {| f_Type := HTTPRouteFilterExtensionRef; f_ExtensionRef := Some ref |} →
  lo_Kind ref = "MergeType" → lo_Group ref = gvk_Group (extractGVK KBackend) → lo_Name ref = "append" →
  (∀ rule backendRef, rule ∈ hroute_Rules route → backendRef ∈ hr_BackendRefs rule →
     ∀ f, f ∈ hb_Filters backendRef → f = filter) →
  crs !! NN ns "append" = Some cr →
  (merge_filter (Server := Server) extractGVK crs ns (opts, be, []) filter).1.2 =
  (let spec := spec_backend cr in
   match mergo_Merge opts be (mkBackend "" (be_Metadata spec) (be_Servers spec) (be_Base spec)) with
   | Ok merged => merged
   | Err _ => be
   end) ∧
  ∀ o, enqueueHTTPRouteForBackendCR extractGVK (Ok [route]) o = [].
Proof.
  intros Hk -> Hkind Hgroup Hname Hall Hcr.
  assert (IsFilterExtensionRefKindSupported extractGVK (Some ref) = false) as Hsup.
  { unfold IsFilterExtensionRefKindSupported. by rw Hkind Hk. }
  assert (IsFilterExtensionRefKindMergeType extractGVK (Some ref) = true) as Hmt.
  { unfold IsFilterExtensionRefKindMergeType. rw Hkind Hgroup Hname.
    by rw (bool_decide_eq_true_2 (gvk_Group _ = gvk_Group _)). }
  split.
  - unfold merge_filter. cbn [f_ExtensionRef f_Type]. cbv zeta.
    rw Hsup Hmt Hname Hcr (bool_decide_eq_true_2 (HTTPRouteFilterExtensionRef = _)) //. cbn.
    by destruct (mergo_Merge _ _ _).
  - intros o. apply elem_of_nil_inv. intros k. unfold enqueueHTTPRouteForBackendCR, listed.
    rw !list_elem_of_bind. intros (route' & Hk' & ->%list_elem_of_singleton). revert Hk'.
    rw list_elem_of_bind. intros (rule & Hk' & Hrule). revert Hk'.
    rw list_elem_of_bind. intros (b & Hk' & Hb). revert Hk'.
    rw list_elem_of_bind. intros (f & Hk' & Hf). rw (Hall _ _ Hrule Hb _ Hf) in Hk'.
    cbn [f_ExtensionRef f_Type] in Hk'.
    rw (bool_decide_eq_true_2 (HTTPRouteFilterExtensionRef = _)) // Hsup in Hk'.
    by apply elem_of_nil in Hk'.
Qed.
End backend_crs.

(** ** Concrete inputs *)
Definition example_cert_ref (ns : option string) : SecretObjectReference := SecretRef None None "cert" ns.

(** A gateway with one listener that refers to the secret [ns/cert]. *)
Definition example_watched (ns : option string) : K8sGateway :=
  example_gateway [{| l_Name := "web"; l_Hostname := None; l_Port := 443; l_Protocol := HTTPSProtocolType;
    l_TLS := Some (TLSConfig None [example_cert_ref ns]); l_AllowedRoutes := None |}].

Lemma example_watched_enqueued :
  gw_key (example_watched None) ∈ enqueueGateway ForSecret (Ok [example_watched None]) (Ok []) (NN "ns" "cert").
Proof. vm_compute. by left. Qed.

(** Another secret of the namespace is created. *)
Lemma gateway_watches_complete_witness :
  let env' := {| env_HugGates := ∅; env_GatewayClasses := env_GatewayClasses example_env;
                 env_Secrets := {[ NN "ns" "other" := (mkLeaf None zero_TreeUpdate : Secret) ]} |} in
  buildListeners (RO := key_order) (GS := stable_sort) (FE := example_errors) example_env ∅ (example_watched None)
    (Gateway_reset (Some (example_watched None))) ∅ =
  buildListeners (RO := key_order) (GS := stable_sort) (FE := example_errors) env' ∅ (example_watched None)
    (Gateway_reset (Some (example_watched None))) ∅.
Proof.
  intros env'.
  apply (gateway_watches_complete (RO := key_order) (GS := stable_sort) (FE := example_errors)
    (λ _ h, h) ForSecret (Ok [example_watched None]) (Ok []) (NN "ns" "other") example_env env') with
    (gws := [example_watched None]) (gwcs := []) (gw := example_watched None).
  - split; [|done]. intros k Hk. cbn. rw lookup_empty lookup_singleton_ne //.
  - done.
  - done.
  - by left.
  - intros l tls c Hl Htls Hc. apply list_elem_of_singleton in Hl as ->.
    injection Htls as <-. by apply list_elem_of_singleton in Hc as ->.
  - vm_compute. intros Hin. by inversion Hin.
Defined.

Lemma service_watches_complete_witness :
  buildRules (RK := HTTPRoute_kind) example_gvk example_services (example_route_data "a" ["svc"]) =
  buildRules example_gvk (delete (NN "ns" "other") example_services) (example_route_data "a" ["svc"]).
Proof.
  apply (service_watches_complete example_gvk [example_route "a" ["svc"]] (example_route "a" ["svc"])
    (NN "ns" "other")).
  - by left.
  - done.
  - intros k Hk. rw lookup_delete_ne //.
  - vm_compute. intros Hin. by inversion Hin.
Defined.

Definition example_filtered (kind name : string) : HTTPRouteFilter :=
  {| f_Type := HTTPRouteFilterExtensionRef;
     f_ExtensionRef := Some (LocalObjRef (gvk_Group (example_gvk KBackend)) kind name) |}.

Definition example_filtered_ref (kind name : string) : HTTPBackendRef :=
  {| hb_Ref := example_backend "svc"; hb_Weight := None; hb_Filters := [example_filtered kind name] |}.

Definition example_filtered_route (kind name : string) : K8sHTTPRoute :=
  {| hroute_Meta := simple_meta "ns" "a" 1; hroute_ParentRefs := []; hroute_Hostnames := [];
     hroute_Rules := [{| hr_Matches := []; hr_BackendRefs := [example_filtered_ref kind name] |}];
     hroute_Status_Parents := [] |}.

Lemma backend_cr_watch_complete_witness :
  let cr := {| bcr_Meta := simple_meta "ns" "tuned" 1; bcr_Spec := "" |} in
  let ref := example_filtered_ref "Backend" "tuned" in
  newBackend (Server := Z) example_gvk {[ NN "ns" "tuned" := cr ]} "b" ∅ ref "ns" true =
  newBackend example_gvk (<[ NN "ns" "other" := cr ]> {[ NN "ns" "tuned" := cr ]}) "b" ∅ ref "ns" true.
Proof.
  intros cr ref. set (route := example_filtered_route "Backend" "tuned").
  apply (backend_cr_watch_complete (Server := Z) example_gvk [route] route
    {| hr_Matches := []; hr_BackendRefs := [ref] |} ref (NN "ns" "other")).
  - by left.
  - by left.
  - by left.
  - apply Forall_singleton. intros H. by vm_compute in H.
  - intros k Hk. rw lookup_insert_ne //.
  - vm_compute. intros Hin. by inversion Hin.
Defined.

Lemma other_case_reads_resource_witness :
  enqueueHTTPRouteForBackendCR example_gvk (Ok [example_filtered_route "MergeType" "append"])
    (NN "ns" "append") = [].
Proof.
  set (cr := {| bcr_Meta := simple_meta "ns" "append" 1; bcr_Spec := "" |}).
  apply (other_case_reads_resource (Server := Z) example_gvk "ns" []
    (mkBackend "b" ∅ ∅ (mkBackendBase "" "" "" "" 0 None "" true)) {[ NN "ns" "append" := cr ]} cr
    (example_filtered_route "MergeType" "append") (example_filtered "MergeType" "append")
    (LocalObjRef (gvk_Group (example_gvk KBackend)) "MergeType" "append")); try vm_refl; try done.
  intros rule b ->%list_elem_of_singleton ->%list_elem_of_singleton f Hf.
  by apply list_elem_of_singleton in Hf.
Defined.
