(* ===== verification/Sources.v ===== *)
(** * Sources: controller.go, register.go, reconciler.go, predicate/

    Where the events come from: one controller per kind of object, each with a
    predicate that filters what happens to the objects of the cluster, and a
    reconciler that reads the object again and sends what it finds.  The
    predicates of controller-runtime are a class with laws; its work queue and
    the API server are the steps of [env_step]. *)

From S2P Require Import Prelude GoStrings Objects Utils Conditions Store TreeCore.
From S2P Require Import References GatewayClass Listener Gateway Route HaproxyConf Backends Enqueue.

(** An object as a watch delivers it. *)
Record Observed := mkObserved { ob_Object : Object; ob_ResourceVersion : string }.

Definition GetNamespace (o : Observed) : string := meta_Namespace (meta_of (ob_Object o)).
Definition GetName (o : Observed) : string := meta_Name (meta_of (ob_Object o)).
Definition GetGeneration (o : Observed) : Z := meta_Generation (meta_of (ob_Object o)).
Definition GetAnnotations (o : Observed) : gmap string string := meta_Annotations (meta_of (ob_Object o)).
Definition observed_key (o : Observed) : NamespacedName := NN (GetNamespace o) (GetName o).

(** [predicate.Predicate]; an object of an event can be nil. *)
Record Predicate := mkPredicate {
  p_Create : option Observed → bool;
  p_Update : option Observed → option Observed → bool;
  p_Delete : option Observed → bool
}.

(** The predicates of controller-runtime the code uses.  [Funcs] is what an
    embedded [predicate.Funcs] answers. *)
Class RuntimePredicates := {
  Funcs : Predicate;
  And : list Predicate → Predicate;
  GenerationChangedPredicate : Predicate;
  ResourceVersionChangedPredicate : Predicate
}.

(** What their documentation says. *)
Class RuntimePredicatesLaws {RP : RuntimePredicates} := {
  Funcs_Delete o : p_Delete Funcs o = true;
  And_Create ps o : p_Create (And ps) o = forallb (λ p, p_Create p o) ps;
  And_Update ps o o' : p_Update (And ps) o o' = forallb (λ p, p_Update p o o') ps;
  And_Delete ps o : p_Delete (And ps) o = forallb (λ p, p_Delete p o) ps;
  Generation_Create o : p_Create GenerationChangedPredicate o = true;
  Generation_Update o o' : p_Update GenerationChangedPredicate (Some o) (Some o') =
    negb (bool_decide (GetGeneration o = GetGeneration o'));
  Generation_Delete o : p_Delete GenerationChangedPredicate o = true;
  ResourceVersion_Create o : p_Create ResourceVersionChangedPredicate o = true;
  ResourceVersion_Update o o' : p_Update ResourceVersionChangedPredicate (Some o) (Some o') =
    negb (bool_decide (ob_ResourceVersion o = ob_ResourceVersion o'));
  ResourceVersion_Delete o : p_Delete ResourceVersionChangedPredicate o = true
}.

Section sources.
Context {RP : RuntimePredicates}.

(** ** predicate/namespace.go *)
Definition NamespacePredicate_Create (namespaces : gmap string bool) (o : option Observed) : bool :=
  match o with
  | None => false
  | Some o => if bool_decide (size namespaces = 0) then true
              else default false (namespaces !! GetNamespace o)
  end.

Definition NamespacePredicate_Update (namespaces : gmap string bool) (old new : option Observed) : bool :=
  if bool_decide (size namespaces = 0) then true
  else
    let allowed o := default false (namespaces !! GetNamespace o) in
    if from_option allowed false old then true
    else if from_option allowed false new then true
    else false.

Definition NamespacePredicate_Delete (namespaces : gmap string bool) (o : option Observed) : bool :=
  if bool_decide (size namespaces = 0) then true
  else match o with
       | None => false
       | Some o => default false (namespaces !! GetNamespace o)
       end.

Definition NewNamespacePredicate (ns : list string) : Predicate :=
  let namespaces := foldl (λ m v, <[v := true]> m) ∅ ns in
  mkPredicate (NamespacePredicate_Create namespaces) (NamespacePredicate_Update namespaces)
    (NamespacePredicate_Delete namespaces).

(** ** predicate/gatewayclass.go *)
Definition class_of_controller (ControllerName : string) (o : option Observed) : bool :=
  match o with
  | None => false
  | Some o =>
      match type_assert KGatewayClass (ob_Object o) with
      | None => false
      | Some gc => bool_decide (gwc_ControllerName gc = ControllerName)
      end
  end.

Definition GatewayClassPredicate (ControllerName : string) : Predicate :=
  mkPredicate (class_of_controller ControllerName)
    (λ old new, if class_of_controller ControllerName old then true
                else if class_of_controller ControllerName new then true else false)
    (class_of_controller ControllerName).

(** ** predicate/gateway.go

    [Update] reads the class of what the type assertion gives before it looks at
    [ok]: [None] is the panic on an object that is not a Gateway. *)
Definition gateway_allowed (GatewayClassNames : gset string) (o : option Observed) : bool :=
  match o with
  | None => false
  | Some o =>
      match type_assert KGateway (ob_Object o) with
      | None => false
      | Some gw => bool_decide (gw_GatewayClassName gw ∈ GatewayClassNames)
      end
  end.

Definition GatewayPredicate_Create := gateway_allowed.
Definition GatewayPredicate_Delete := gateway_allowed.

Definition GatewayPredicate_Update (GatewayClassNames : gset string) (old new : option Observed) : option bool :=
  let allowed (o : option Observed) : option bool :=
    match o with
    | None => Some false
    | Some o =>
        gw ← type_assert KGateway (ob_Object o);
        Some (bool_decide (gw_GatewayClassName gw ∈ GatewayClassNames))
    end in
  old_allowed ← allowed old;
  if old_allowed : bool then Some true else allowed new.

(** ** predicate/annotation.go *)
Definition AnnotationPredicate_Create (Annotation : string) (o : option Observed) : bool :=
  match o with
  | None => false
  | Some o => is_Some_b (GetAnnotations o !! Annotation)
  end.

Definition AnnotationPredicate_Update (Annotation : string) (old new : option Observed) : bool :=
  match old, new with
  | Some old, Some new =>
      negb (bool_decide (default "" (GetAnnotations old !! Annotation) =
                         default "" (GetAnnotations new !! Annotation)))
  | _, _ => false
  end.

Definition AnnotationPredicate (Annotation : string) : Predicate :=
  mkPredicate (AnnotationPredicate_Create Annotation) (AnnotationPredicate_Update Annotation) (p_Delete Funcs).

(** ** predicate/controller-conf.go *)
Definition conf_named (ControllerConfName : NamespacedName) (o : option Observed) : bool :=
  match o with
  | None => false
  | Some o => bool_decide (observed_key o = ControllerConfName)
  end.

Definition ControllerConfPredicate (ControllerConfName : NamespacedName) : Predicate :=
  mkPredicate (conf_named ControllerConfName)
    (λ old new, match old with
                | Some _ => conf_named ControllerConfName old
                | None => conf_named ControllerConfName new
                end)
    (conf_named ControllerConfName).

(** ** register.go *)

(** The lists the functions of the watches ask the cache for. *)
Record ApiLists := mkApiLists {
  list_GatewayClasses : result (list K8sGatewayClass);
  list_Gateways : result (list K8sGateway);
  list_HTTPRoutes : result (list K8sHTTPRoute);
  list_TLSRoutes : result (list K8sTLSRoute)
}.

Record enqueueForParams := mkEnqueueFor {
  watchSource : ObjKind;
  enqueueFunc : ExtractGVK → ApiLists → NamespacedName → list Request;
  ef_predicate : option Predicate
}.

(** ** index/endpointslice.go *)
Definition FieldIndices : Type := list (string * (Object → list string)).

Definition EndpointSliceServiceNameIndexField : string := "k8sServiceName".
Definition CreateEndpointSliceFieldIndices : FieldIndices :=
  [(EndpointSliceServiceNameIndexField, ServiceNameIndexFunc)].

Record recConfig := mkRecConfig {
  k8sPredicate : option Predicate;
  namespacedNameFilter : option (NamespacedName → bool);
  fieldIndices : FieldIndices;
  enqueueForList : list enqueueForParams;
  onlyMetadata : bool
}.

Definition defaultConfig : recConfig := mkRecConfig None None [] [] false.

Definition hasEnqueueFor (c : recConfig) : bool := negb (bool_decide (length (enqueueForList c) = 0)).

Definition Option : Type := recConfig → recConfig.
Definition WithNamespacedNameFilter (filter : NamespacedName → bool) : Option := λ cfg,
  mkRecConfig (k8sPredicate cfg) (Some filter) (fieldIndices cfg) (enqueueForList cfg) (onlyMetadata cfg).
Definition WithK8sPredicate (p : Predicate) : Option := λ cfg,
  mkRecConfig (Some p) (namespacedNameFilter cfg) (fieldIndices cfg) (enqueueForList cfg) (onlyMetadata cfg).
Definition WithFieldIndices (indices : FieldIndices) : Option := λ cfg,
  mkRecConfig (k8sPredicate cfg) (namespacedNameFilter cfg) indices (enqueueForList cfg) (onlyMetadata cfg).
Definition WithOnlyMetadata : Option := λ cfg,
  mkRecConfig (k8sPredicate cfg) (namespacedNameFilter cfg) (fieldIndices cfg) (enqueueForList cfg) true.
Definition WithEnqueueFor (l : list enqueueForParams) : Option := λ cfg,
  mkRecConfig (k8sPredicate cfg) (namespacedNameFilter cfg) (fieldIndices cfg) l (onlyMetadata cfg).

Definition apply_options (options : list Option) : recConfig := foldl (λ cfg opt, opt cfg) defaultConfig options.

(** A controller as the builder of controller-runtime is told of it. *)
Record Registration := mkRegistration {
  rg_name : string;
  rg_For : ObjKind;
  rg_OnlyMetadata : bool;
  rg_predicate : option Predicate;
  rg_Watches : list enqueueForParams;
  rg_filter : option (NamespacedName → bool)
}.

(** The manager of controller-runtime: whether it takes an index of a field,
    whether it takes a controller. *)
Record Manager := mkManager {
  mgr_IndexField : ObjKind → string → option string;
  mgr_Complete : Registration → option string
}.

(** [%T] of an object of the kind. *)
Definition go_type (k : ObjKind) : string :=
  match k with
  | KGatewayClass => "*v1.GatewayClass" | KGateway => "*v1.Gateway" | KHTTPRoute => "*v1.HTTPRoute"
  | KTLSRoute => "*v1alpha2.TLSRoute" | KService => "*v1.Service" | KNamespace => "*v1.Namespace"
  | KSecret => "*v1.Secret" | KConfigMap => "*v1.ConfigMap"
  | KCustomResourceDefinition => "*v1.CustomResourceDefinition" | KEndpointSlice => "*v1.EndpointSlice"
  | KHugGate => "*v3.HugGate" | KHugConf => "*v3.HugConf" | KBackend => "*v3.Backend"
  end.

Fixpoint add_indices (mgr : Manager) (k : ObjKind) (indices : FieldIndices) : option string :=
  match indices with
  | [] => None
  | (field, _) :: indices =>
      match mgr_IndexField mgr k field with
      | Some err => Some ("failed to add index for " +:+ go_type k +:+ " for field " +:+ field +:+ ": " +:+ err)
      | None => add_indices mgr k indices
      end
  end.

(** [gvkSet] tells whether the object carries its kind. *)
Definition Register (mgr : Manager) (name : string) (objectType : ObjKind) (gvkSet : bool) (options : list Option) :
    result Registration :=
  let cfg := apply_options options in
  match add_indices mgr objectType (fieldIndices cfg) with
  | Some err => Err err
  | None =>
      if onlyMetadata cfg && negb gvkSet then Err "the object must have its GVK set"
      else
        let builder := mkRegistration name objectType (onlyMetadata cfg) (k8sPredicate cfg)
          (if hasEnqueueFor cfg then enqueueForList cfg else []) (namespacedNameFilter cfg) in
        match mgr_Complete mgr builder with
        | Some err => Err ("cannot build a controller for " +:+ go_type objectType +:+ ": " +:+ err)
        | None => Ok builder
        end
  end.

(** ** controller.go: registerControllers *)
Record ctlrCfg := mkCtlrCfg {
  cc_name : string;
  objectType : ObjKind;
  gvkSet : bool;
  options : list Option
}.

Record SourcesConfig := mkSourcesConfig {
  cfg_ControllerName : string;
  cfg_Namespaces : list string;
  cfg_HugConfCRD : NamespacedName
}.
Implicit Types (cfg : SourcesConfig).

Definition BundleVersionAnnotation : string := "gateway.networking.k8s.io/bundle-version".

(** The two filters most kinds share. *)
Definition when_generation cfg : Predicate :=
  And [GenerationChangedPredicate; NewNamespacePredicate (cfg_Namespaces cfg)].
Definition when_version cfg : Predicate :=
  And [ResourceVersionChangedPredicate; NewNamespacePredicate (cfg_Namespaces cfg)].
Definition when_class cfg : Predicate :=
  And [GenerationChangedPredicate; GatewayClassPredicate (cfg_ControllerName cfg)].

Definition GatewayApiCRD_controller : ctlrCfg :=
  mkCtlrCfg "GatewayApiCRD" KCustomResourceDefinition true
    [WithOnlyMetadata; WithK8sPredicate (And [AnnotationPredicate BundleVersionAnnotation])].

Definition GatewayClass_controller cfg : ctlrCfg :=
  mkCtlrCfg "GatewayClass" KGatewayClass false
    [WithK8sPredicate (when_class cfg);
     WithEnqueueFor
       [mkEnqueueFor KHugGate (λ _ api, enqueueGatewayClassForHugGate (list_GatewayClasses api))
          (Some (when_version cfg))]].

Definition Gateway_controller cfg : ctlrCfg :=
  mkCtlrCfg "Gateway" KGateway false
    [WithK8sPredicate (when_generation cfg);
     WithEnqueueFor
       [mkEnqueueFor KHugGate (λ _ api, enqueueGatewayForHugGate (list_Gateways api) (list_GatewayClasses api))
          (Some (NewNamespacePredicate (cfg_Namespaces cfg)));
        mkEnqueueFor KGatewayClass (λ _ api, enqueueGatewayForGatewayClass (list_Gateways api)) (Some (when_class cfg));
        mkEnqueueFor KSecret (λ _ api, enqueueGatewayForSecret (list_Gateways api)) (Some (when_version cfg))]].

Definition HTTPRoute_controller cfg : ctlrCfg :=
  mkCtlrCfg "HTTPRoute" KHTTPRoute false
    [WithK8sPredicate (when_generation cfg);
     WithEnqueueFor
       [mkEnqueueFor KGateway (λ gvk api, enqueueHTTPRouteForGateway gvk (list_HTTPRoutes api)) (Some (when_version cfg));
        mkEnqueueFor KService (λ gvk api, enqueueHTTPRouteForService gvk (list_HTTPRoutes api)) (Some (when_version cfg));
        mkEnqueueFor KBackend (λ gvk api, enqueueHTTPRouteForBackendCR gvk (list_HTTPRoutes api))
          (Some (when_version cfg))]].

Definition Service_controller cfg : ctlrCfg :=
  mkCtlrCfg "Service" KService false [WithK8sPredicate (when_generation cfg)].
Definition Secret_controller cfg : ctlrCfg :=
  mkCtlrCfg "Secret" KSecret false [WithK8sPredicate (when_version cfg)].
Definition EndpointSlice_controller cfg : ctlrCfg :=
  mkCtlrCfg "EndpointSlice" KEndpointSlice false
    [WithK8sPredicate (when_version cfg); WithFieldIndices CreateEndpointSliceFieldIndices].
Definition Namespace_controller cfg : ctlrCfg :=
  mkCtlrCfg "Namespace" KNamespace false [WithK8sPredicate (when_version cfg)].
Definition ConfigMap_controller cfg : ctlrCfg :=
  mkCtlrCfg "ConfigMap" KConfigMap false [WithK8sPredicate (when_generation cfg)].
Definition HugGate_controller cfg : ctlrCfg :=
  mkCtlrCfg "HugGate" KHugGate false [WithK8sPredicate (when_version cfg)].
Definition ControllerConf_controller cfg : ctlrCfg :=
  mkCtlrCfg "ControllerConf" KHugConf false
    [WithK8sPredicate
       (And [ResourceVersionChangedPredicate; NewNamespacePredicate (cfg_Namespaces cfg);
             ControllerConfPredicate (cfg_HugConfCRD cfg)])].
Definition BackendCR_controller cfg : ctlrCfg :=
  mkCtlrCfg "BackendCR" KBackend false [WithK8sPredicate (when_version cfg)].

Definition TLSRoute_controller cfg : ctlrCfg :=
  mkCtlrCfg "TLSRoute" KTLSRoute false
    [WithK8sPredicate (when_generation cfg);
     WithEnqueueFor
       [mkEnqueueFor KGateway (λ gvk api, enqueueTLSRouteForGateway gvk (list_TLSRoutes api)) (Some (when_version cfg));
        mkEnqueueFor KService (λ gvk api, enqueueTLSRouteForService gvk (list_TLSRoutes api)) (Some (when_version cfg))]].

Definition controllerRegisterCfgs cfg : list ctlrCfg :=
  [GatewayApiCRD_controller; GatewayClass_controller cfg; Gateway_controller cfg; HTTPRoute_controller cfg;
   Service_controller cfg; Secret_controller cfg; EndpointSlice_controller cfg; Namespace_controller cfg;
   ConfigMap_controller cfg; HugGate_controller cfg; ControllerConf_controller cfg; BackendCR_controller cfg;
   TLSRoute_controller cfg].

(** The controllers are registered in turn until one is refused. *)
Fixpoint register_all (mgr : Manager) (cs : list ctlrCfg) : list Registration * option string :=
  match cs with
  | [] => ([], None)
  | c :: cs =>
      match Register mgr (cc_name c) (objectType c) (gvkSet c) (options c) with
      | Err err => ([], Some ("cannot register controller for " +:+ go_type (objectType c) +:+ ": " +:+ err))
      | Ok rg => let '(rgs, err) := register_all mgr cs in (rg :: rgs, err)
      end
  end.

Definition registerControllers (mgr : Manager) cfg : list Registration * option string :=
  register_all mgr (controllerRegisterCfgs cfg).

(** ** reconciler.go *)

(** What [Getter.Get] answers. *)
Inductive GetResult := Found (o : Object) | NotFound | Failed (err : string).

(** The event that is sent, if any, and the error: controller-runtime tries again
    after an error.  A filter of names can refuse the request, and a cancelled
    context drops the event. *)
Definition Reconcile (NamespacedNameFilter : option (NamespacedName → bool)) (ObjectType : ObjKind)
    (get : NamespacedName → GetResult) (cancelled : bool) (req : Request) : option Event * option string :=
  if negb (from_option (λ filter, filter req) true NamespacedNameFilter) then (None, None)
  else
    match get req with
    | Failed err => (None, Some err)
    | Found obj => (if cancelled then None else Some (UpsertEvent obj), None)
    | NotFound => (if cancelled then None else Some (DeleteEvent ObjectType req), None)
    end.

(** The reconciler [Register] makes. *)
Definition registered_Reconcile (c : ctlrCfg) :=
  Reconcile (namespacedNameFilter (apply_options (options c))) (objectType c).

(** The predicate of [For]; without one every event passes. *)
Definition source_predicate (c : ctlrCfg) : Predicate :=
  default (mkPredicate (λ _, true) (λ _ _, true) (λ _, true)) (k8sPredicate (apply_options (options c))).
End sources.

(** ** The cluster, the queue and the events of one controller *)
Section runs.
Context {RP : RuntimePredicates} (extractGVK : ExtractGVK) (cfg : SourcesConfig).
(** The GatewayClasses of this controller. *)
Context (ours : NamespacedName → bool).

Record Source := mkSource {
  cluster : gmap NamespacedName Observed;
  queue : gset NamespacedName;
  sent : list Event
}.

(** Objects that differ in their metadata and their status only. *)
Definition same_spec (a b : Object) : Prop :=
  match a, b with
  | OGatewayClass a, OGatewayClass b =>
      gwc_ControllerName a = gwc_ControllerName b ∧ gwc_ParametersRef a = gwc_ParametersRef b
  | OGateway a, OGateway b =>
      gw_GatewayClassName a = gw_GatewayClassName b ∧ gw_Listeners a = gw_Listeners b ∧
      gw_Infrastructure a = gw_Infrastructure b
  | OHTTPRoute a, OHTTPRoute b =>
      hroute_ParentRefs a = hroute_ParentRefs b ∧ hroute_Hostnames a = hroute_Hostnames b ∧
      hroute_Rules a = hroute_Rules b
  | OTLSRoute a, OTLSRoute b =>
      troute_ParentRefs a = troute_ParentRefs b ∧ troute_Hostnames a = troute_Hostnames b ∧
      troute_Rules a = troute_Rules b
  | _, _ => a = b
  end.

(** The kinds of which the API server counts the changes of the spec. *)
Definition counts_generations (k : ObjKind) : bool :=
  match k with KGatewayClass | KGateway | KHTTPRoute | KTLSRoute => true | _ => false end.

(** What the API server promises of an object, and of an update; of a class it is
    supposed besides that the objects of one name all have the same controller
    (the API keeps the field, but a class can be deleted and made again). *)
Definition valid_object (k : ObjKind) (key : NamespacedName) (o : Observed) : Prop :=
  kind_of (ob_Object o) = k ∧ observed_key o = key ∧
  (∀ gc, type_assert KGatewayClass (ob_Object o) = Some gc →
     bool_decide (gwc_ControllerName gc = cfg_ControllerName cfg) = ours key).

Definition valid_update (k : ObjKind) (o o' : Observed) : Prop :=
  (ob_ResourceVersion o = ob_ResourceVersion o' → o = o') ∧
  (counts_generations k = true → GetGeneration o = GetGeneration o' → same_spec (ob_Object o) (ob_Object o')).

Definition enqueue_if (b : bool) (key : NamespacedName) (q : gset NamespacedName) : gset NamespacedName :=
  if b then {[ key ]} ∪ q else q.

(** The answer of the cache. *)
Definition get_of (s : Source) (key : NamespacedName) : GetResult :=
  match cluster s !! key with Some o => Found (ob_Object o) | None => NotFound end.

Inductive env_step (c : ctlrCfg) (s : Source) : Source → Prop :=
  | step_create key o : cluster s !! key = None → valid_object (objectType c) key o →
      env_step c s (mkSource (<[key := o]> (cluster s))
        (enqueue_if (p_Create (source_predicate c) (Some o)) key (queue s)) (sent s))
  | step_update key o o' : cluster s !! key = Some o → valid_object (objectType c) key o' →
      valid_update (objectType c) o o' →
      env_step c s (mkSource (<[key := o']> (cluster s))
        (enqueue_if (p_Update (source_predicate c) (Some o) (Some o')) key (queue s)) (sent s))
  | step_delete key o : cluster s !! key = Some o →
      env_step c s (mkSource (delete key (cluster s))
        (enqueue_if (p_Delete (source_predicate c) (Some o)) key (queue s)) (sent s))
  (** another watch, or a resync *)
  | step_enqueue key : env_step c s (mkSource (cluster s) ({[ key ]} ∪ queue s) (sent s))
  (** a request is read; after an error it goes back to the queue *)
  | step_reconcile key get ev err :
      key ∈ queue s → get key = get_of s key ∨ (∃ e, get key = Failed e) →
      registered_Reconcile c get false key = (ev, err) →
      env_step c s (mkSource (cluster s) (match err with Some _ => queue s | None => queue s ∖ {[ key ]} end)
        (sent s ++ option_list ev)).

Definition reachable (c : ctlrCfg) (s : Source) : Prop := rtc (env_step c) (mkSource ∅ ∅ []) s.

(** The store of the controller, from the events alone. *)
Definition store_from (es : list Event) : ClusterStore := foldl (updateClusterStore extractGVK) empty_cluster_store es.

(** ** What a controller shows of the cluster *)
Definition watched_namespace (key : NamespacedName) : Prop :=
  cfg_Namespaces cfg = [] ∨ Namespace key ∈ cfg_Namespaces cfg.

Definition in_scope (k : ObjKind) (key : NamespacedName) : Prop :=
  match k with
  | KCustomResourceDefinition => True
  | KGatewayClass => ours key = true
  | KHugConf => watched_namespace key ∧ key = cfg_HugConfCRD cfg
  | _ => watched_namespace key
  end.

Definition bundle_version (o : Object) : option string := meta_Annotations (meta_of o) !! BundleVersionAnnotation.

(** Of the CRDs only those that carry a version of the Gateway API count. *)
Definition relevant (k : ObjKind) (o : Object) : Prop :=
  k = KCustomResourceDefinition → default "" (bundle_version o) ≠ "".

Definition same_seen (k : ObjKind) (a b : Object) : Prop :=
  if counts_generations k then same_spec a b
  else if bool_decide (k = KCustomResourceDefinition) then default "" (bundle_version a) = default "" (bundle_version b)
  else a = b.

(** Objects that show the cluster at a key, up to what the predicate lets by. *)
Definition shows (k : ObjKind) (objs : gmap NamespacedName (kind_type k)) (s : Source) (key : NamespacedName) : Prop :=
  match cluster s !! key with
  | None => objs !! key = None
  | Some o => relevant k (ob_Object o) →
      ∃ t old, objs !! key = Some t ∧ type_assert k old = Some t ∧ same_seen k old (ob_Object o)
  end.

Definition mirrored_at (k : ObjKind) (s : Source) (key : NamespacedName) : Prop :=
  shows k (objects (store_of k (store_from (sent s)))) s key.

Lemma same_spec_refl o : same_spec o o.
Proof using Type. by destruct o. Qed.

Lemma same_spec_trans a b c : same_spec a b → same_spec b c → same_spec a c.
Proof using Type. destruct a, b; try done; destruct c; cbn; try done; intros; destruct_and?; split_and?; congruence. Qed.

Lemma same_seen_refl k o : same_seen k o o.
Proof using Type. unfold same_seen. destruct (counts_generations k); [apply same_spec_refl|]. by case_bool_decide. Qed.

Lemma same_seen_trans k a b c : same_seen k a b → same_seen k b c → same_seen k a c.
Proof using Type.
  unfold same_seen. destruct (counts_generations k); [apply same_spec_trans|]. case_bool_decide; congruence.
Qed.

(** ** Predicates that let every change by *)
Record faithful (c : ctlrCfg) : Prop := {
  fa_filter : namespacedNameFilter (apply_options (options c)) = None;
  fa_create key o : in_scope (objectType c) key → valid_object (objectType c) key o →
    relevant (objectType c) (ob_Object o) → p_Create (source_predicate c) (Some o) = true;
  fa_update key o o' : in_scope (objectType c) key → valid_object (objectType c) key o →
    valid_object (objectType c) key o' → valid_update (objectType c) o o' →
    p_Update (source_predicate c) (Some o) (Some o') = true ∨
    (relevant (objectType c) (ob_Object o') →
     relevant (objectType c) (ob_Object o) ∧ same_seen (objectType c) (ob_Object o) (ob_Object o'));
  fa_delete key o : in_scope (objectType c) key → valid_object (objectType c) key o →
    p_Delete (source_predicate c) (Some o) = true
}.

Section invariant.
Context (Hinj : ∀ k1 k2, extractGVK k1 = extractGVK k2 → k1 = k2).
Context (c : ctlrCfg) (Hc : faithful c).

Definition source_inv (s : Source) : Prop :=
  (∀ key o, cluster s !! key = Some o → valid_object (objectType c) key o) ∧
  ∀ key, in_scope (objectType c) key → key ∈ queue s ∨ mirrored_at (objectType c) s key.

Lemma elem_of_enqueue_if b key key' q : key' ∈ q → key' ∈ enqueue_if b key q.
Proof using Type. intros H. unfold enqueue_if. destruct b; [|done]. by apply elem_of_union_r. Qed.

(** An event changes its own key. *)
Lemma store_from_snoc k es e :
  store_of k (store_from (es ++ [e])) = store_step k (store_of k (store_from es)) e.
Proof using Hinj. unfold store_from. rw foldl_app /=. by apply store_of_updateClusterStore. Qed.

Lemma store_step_other k (m : objectStore (kind_type k)) e key :
  event_key e ≠ key → objects (store_step k m e) !! key = objects m !! key.
Proof using Type.
  intros Hne. unfold store_step. case_decide as Hk; [|done]. destruct e as [o|kd n]; cbn in *.
  - unfold upsert. destruct (type_assert k o); [|done]. cbn. by rw lookup_insert_ne.
  - by rw lookup_delete_ne.
Qed.

(** The other keys keep what they have. *)
Lemma mirrored_at_other k s key key' o q :
  key' ≠ key → mirrored_at k s key' →
  mirrored_at k (mkSource (partial_alter (λ _, o) key (cluster s)) q (sent s)) key'.
Proof using Type. intros Hne. unfold mirrored_at, shows. cbn. by rw lookup_partial_alter_ne. Qed.

Lemma source_step_inv s s' : source_inv s → env_step c s s' → source_inv s'.
Proof using Hinj Hc.
  intros [Hval Hinv]. destruct 1 as [key o Hnew Ho|key o o' Hold Ho' Hup|key o Hold|key|key get ev err Hkey Hget Hrec];
    unfold source_inv; cbn.
  - split.
    { intros key' o' [[<- <-]|[_ ?]]%lookup_insert_Some; [done|by apply Hval]. }
    intros key' Hs. destruct (decide (key' = key)) as [->|Hne].
    + destruct (p_Create (source_predicate c) (Some o)) eqn:Hp; [left; cbn; set_solver|]. right.
      unfold mirrored_at, shows. cbn. rw lookup_insert_eq. intros Hrel. by rw (fa_create _ Hc key) in Hp.
    + destruct (Hinv key' Hs); [left; by apply elem_of_enqueue_if|right; by apply mirrored_at_other].
  - split.
    { intros key' o'' [[<- <-]|[_ ?]]%lookup_insert_Some; [done|by apply Hval]. }
    intros key' Hs. destruct (decide (key' = key)) as [->|Hne].
    + destruct (fa_update _ Hc key o o' Hs (Hval _ _ Hold) Ho' Hup) as [->|Hsame]; [left; cbn; set_solver|].
      destruct (Hinv key Hs) as [?|Hm]; [left; by apply elem_of_enqueue_if|right].
      unfold mirrored_at, shows in *. cbn. rw lookup_insert_eq. rw Hold in Hm. intros [Hrel Hs']%Hsame.
      destruct (Hm Hrel) as (t & old & ? & ? & ?). exists t, old. split_and!; [done..|]. by eapply same_seen_trans.
    + destruct (Hinv key' Hs); [left; by apply elem_of_enqueue_if|right; by apply mirrored_at_other].
  - split.
    { intros key' o'' [_ ?]%lookup_delete_Some. by apply Hval. }
    intros key' Hs. destruct (decide (key' = key)) as [->|Hne].
    + rw (fa_delete _ Hc key) //; [by apply Hval|]. left. cbn. set_solver.
    + destruct (Hinv key' Hs); [left; by apply elem_of_enqueue_if|right; by apply mirrored_at_other].
  - split; [done|]. intros key' Hs. destruct (Hinv key' Hs); [left; set_solver|by right].
  - split; [done|]. intros key' Hs. unfold registered_Reconcile, Reconcile in Hrec.
    rw (fa_filter _ Hc) in Hrec. cbn in Hrec.
    destruct Hget as [Hget|[e Hget]]; rw Hget in Hrec.
    2:{ injection Hrec as <- <-. cbn. rw app_nil_r. apply Hinv, Hs. }
    unfold get_of in Hrec.
    assert (Hother : ∀ e, event_key e = key → key' ≠ key → key' ∈ queue s ∨ mirrored_at (objectType c) s key' →
      key' ∈ queue s ∖ {[ key ]} ∨
      mirrored_at (objectType c) (mkSource (cluster s) (queue s ∖ {[ key ]}) (sent s ++ [e])) key').
    { intros e He Hne [?|Hm]; [left; apply elem_of_difference; split; [done|by apply not_elem_of_singleton]|right].
      unfold mirrored_at, shows in *. cbn. rw store_from_snoc store_step_other //. congruence. }
    destruct (cluster s !! key) as [o|] eqn:Ho; injection Hrec as <- <-; cbn.
    + destruct (Hval key o Ho) as (Hk & Hkey' & _).
      destruct (decide (key' = key)) as [->|Hne]; [right|by apply Hother; [|..|by apply Hinv]].
      unfold mirrored_at, shows. cbn. rw Ho store_from_snoc. intros Hrel.
      destruct (proj2 (type_assert_kind (objectType c) (ob_Object o)) Hk) as [t Ht].
      exists t, (ob_Object o). split_and!; [|done|apply same_seen_refl].
      rw (store_step_upsert _ _ _ _ Ht) /=. change (ObjectKeyFromObject (ob_Object o)) with (observed_key o).
      by rw Hkey' lookup_insert_eq.
    + destruct (decide (key' = key)) as [->|Hne]; [right|by apply Hother; [|..|by apply Hinv]].
      unfold mirrored_at, shows. cbn. rw Ho store_from_snoc. unfold store_step. cbn. rw decide_True //.
      unfold delete_object. cbn. apply lookup_delete_eq.
Qed.

Lemma reachable_inv s : reachable c s → source_inv s.
Proof using Hinj Hc.
  intros Hr. assert (H0 : source_inv (mkSource ∅ ∅ [])).
  { split; [intros key o H; cbn in H; by rw lookup_empty in H|]. intros key _. right. unfold mirrored_at, shows. cbn.
    rw lookup_empty. by destruct (objectType c). }
  induction Hr as [|s1 s2 s3 Hs _ IH]; [done|]. apply IH. by eapply source_step_inv.
Qed.

Lemma settled_mirrored s key :
  reachable c s → queue s = ∅ → in_scope (objectType c) key → mirrored_at (objectType c) s key.
Proof using Hinj Hc.
  intros Hr Hq Hs. destruct (reachable_inv s Hr) as [_ Hinv]. destruct (Hinv key Hs) as [Hin|?]; [|done].
  rw Hq in Hin. by apply elem_of_empty in Hin.
Qed.
End invariant.

(** The queue drains when the cluster rests. *)
Lemma drains c s : faithful c → ∃ s', rtc (env_step c) s s' ∧ cluster s' = cluster s ∧ queue s' = ∅.
Proof using Type.
  intros Hc. remember (queue s) as q eqn:Hq. revert s Hq.
  induction q as [|key q Hkey IH] using set_ind_L; intros s Hq; [by exists s|].
  destruct (registered_Reconcile c (get_of s) false key) as [ev err] eqn:Hrec.
  assert (err = None) as ->.
  { revert Hrec. unfold registered_Reconcile, Reconcile, get_of. rw (fa_filter _ Hc). cbn. destruct (cluster s !! key); by intros [= _ <-]. }
  destruct (IH (mkSource (cluster s) (queue s ∖ {[ key ]}) (sent s ++ option_list ev))) as (s' & Hrun & Hcl & Hs').
  { cbn. rw -Hq. set_solver. }
  exists s'. split; [|done]. eapply rtc_l; [|exact Hrun].
  apply (step_reconcile c s key (get_of s) ev None); [rw -Hq; set_solver|by left|done].
Qed.
End runs.

(** ** The predicates of the registered controllers *)
Section registered.
Context {RP : RuntimePredicates} {RPL : RuntimePredicatesLaws} (cfg : SourcesConfig) (ours : NamespacedName → bool).

Lemma namespaces_lookup (ns : list string) (m : gmap string bool) v :
  foldl (λ m v, <[v := true]> m) m ns !! v = if bool_decide (v ∈ ns) then Some true else m !! v.
Proof using Type.
  revert m. induction ns as [|n ns IH]; intros m; [done|]. cbn. rw IH.
  destruct (decide (v ∈ ns)) as [H|H].
  - rw !bool_decide_true //. by right.
  - rw bool_decide_false //. destruct (decide (n = v)) as [->|Hne].
    + rw lookup_insert_eq bool_decide_true //. by left.
    + rw lookup_insert_ne // bool_decide_false //. by intros [->|?]%elem_of_cons.
Qed.

Lemma namespaces_size (ns : list string) :
  bool_decide (size (foldl (λ m v, <[v := true]> m) (∅ : gmap string bool) ns) = 0) = bool_decide (ns = []).
Proof using Type.
  apply bool_decide_ext. split; [|by intros ->]. intros H%map_size_empty_inv. destruct ns as [|n ns]; [done|].
  pose proof (namespaces_lookup (n :: ns) ∅ n) as Hn. rw H bool_decide_true in Hn; [by left|].
  by rw lookup_empty in Hn.
Qed.

(** In a watched namespace the filter on namespaces lets everything by. *)
Lemma namespace_predicate_watched key o o' :
  watched_namespace cfg key → observed_key o = key →
  p_Create (NewNamespacePredicate (cfg_Namespaces cfg)) (Some o) = true ∧
  p_Update (NewNamespacePredicate (cfg_Namespaces cfg)) (Some o) o' = true ∧
  p_Delete (NewNamespacePredicate (cfg_Namespaces cfg)) (Some o) = true.
Proof using Type.
  intros Hns <-. unfold NewNamespacePredicate, NamespacePredicate_Create, NamespacePredicate_Update,
    NamespacePredicate_Delete. cbn -[size]. rw !namespaces_size !namespaces_lookup.
  destruct Hns as [->|Hin]; [done|]. case_bool_decide; [done|]. cbn in Hin. by rw bool_decide_true.
Qed.

(** In any other namespace it lets nothing by. *)
Lemma namespace_predicate_unwatched o o' :
  cfg_Namespaces cfg ≠ [] → GetNamespace o ∉ cfg_Namespaces cfg → GetNamespace o' = GetNamespace o →
  p_Create (NewNamespacePredicate (cfg_Namespaces cfg)) (Some o) = false ∧
  p_Update (NewNamespacePredicate (cfg_Namespaces cfg)) (Some o) (Some o') = false ∧
  p_Delete (NewNamespacePredicate (cfg_Namespaces cfg)) (Some o) = false.
Proof using Type.
  intros Hne Hin Ho'. unfold NewNamespacePredicate, NamespacePredicate_Create, NamespacePredicate_Update,
    NamespacePredicate_Delete. cbn -[size]. rw Ho' !namespaces_size !namespaces_lookup.
  rw (bool_decide_false (cfg_Namespaces cfg = [])) // (bool_decide_false (_ ∈ cfg_Namespaces cfg)) //.
Qed.

#[local] Arguments NewNamespacePredicate : simpl never.
#[local] Arguments class_of_controller : simpl never.

(** A kind whose changes are seen by the version of the object. *)
Lemma version_faithful c :
  namespacedNameFilter (apply_options (options c)) = None → source_predicate c = when_version cfg →
  objectType c ≠ KCustomResourceDefinition →
  (∀ key, in_scope cfg ours (objectType c) key → watched_namespace cfg key) → faithful cfg ours c.
Proof using RPL.
  intros Hf Hp Hk Hns. split; [done|..]; intros key o; rw Hp; unfold when_version.
  - intros Hs (_ & Ho & _) _. rw And_Create. cbn. rw ResourceVersion_Create.
    by destruct (namespace_predicate_watched key o None (Hns _ Hs) Ho) as [-> _].
  - intros o' Hs (_ & Ho & _) _ [Hup _]. rw And_Update. cbn. rw ResourceVersion_Update.
    destruct (namespace_predicate_watched key o (Some o') (Hns _ Hs) Ho) as (_ & -> & _).
    case_bool_decide as Hv; [|by left]. right. rw -(Hup Hv). intros H. split; [done|apply same_seen_refl].
  - intros Hs (_ & Ho & _). rw And_Delete. cbn. rw ResourceVersion_Delete.
    by destruct (namespace_predicate_watched key o None (Hns _ Hs) Ho) as (_ & _ & ->).
Qed.

(** A kind whose changes are seen by the generation of the object. *)
Lemma generation_faithful c :
  namespacedNameFilter (apply_options (options c)) = None → source_predicate c = when_generation cfg →
  counts_generations (objectType c) = true →
  (∀ key, in_scope cfg ours (objectType c) key → watched_namespace cfg key) → faithful cfg ours c.
Proof using RPL.
  intros Hf Hp Hk Hns. split; [done|..]; intros key o; rw Hp; unfold when_generation.
  - intros Hs (_ & Ho & _) _. rw And_Create. cbn. rw Generation_Create.
    by destruct (namespace_predicate_watched key o None (Hns _ Hs) Ho) as [-> _].
  - intros o' Hs (_ & Ho & _) _ [_ Hup]. rw And_Update. cbn. rw Generation_Update.
    destruct (namespace_predicate_watched key o (Some o') (Hns _ Hs) Ho) as (_ & -> & _).
    case_bool_decide as Hv; [|by left]. right. intros _. split; [by intros Heq; rw Heq in Hk|].
    unfold same_seen. rw Hk. by apply Hup.
  - intros Hs (_ & Ho & _). rw And_Delete. cbn. rw Generation_Delete.
    by destruct (namespace_predicate_watched key o None (Hns _ Hs) Ho) as (_ & _ & ->).
Qed.

Lemma class_predicate_ours key o :
  ours key = true → valid_object cfg ours KGatewayClass key o →
  class_of_controller (cfg_ControllerName cfg) (Some o) = true.
Proof using Type.
  intros Hours (Hk & _ & Hname). unfold class_of_controller.
  destruct (proj2 (type_assert_kind KGatewayClass (ob_Object o)) Hk) as [gc Hgc]. rw Hgc -Hours. by apply Hname.
Qed.

Lemma class_faithful : faithful cfg ours (GatewayClass_controller cfg).
Proof using RPL.
  split; [done|..]; intros key o; cbn; unfold source_predicate, when_class; cbn.
  - intros Hs Ho _. rw And_Create. cbn. rw Generation_Create. by rw (class_predicate_ours key).
  - intros o' Hs Ho _ [_ Hup]. rw And_Update. cbn.
    rw Generation_Update (class_predicate_ours key) //. case_bool_decide as Hv; [|by left]. right.
    intros _. split; [done|]. by apply Hup.
  - intros Hs Ho. rw And_Delete. cbn. rw Generation_Delete. by rw (class_predicate_ours key).
Qed.

Lemma crd_faithful : faithful cfg ours GatewayApiCRD_controller.
Proof using RPL.
  split; [done|..]; intros key o; cbn; unfold source_predicate; cbn.
  - intros _ _ Hrel. rw And_Create. cbn. specialize (Hrel eq_refl). unfold bundle_version in Hrel.
    unfold GetAnnotations. by destruct (_ !! BundleVersionAnnotation).
  - intros o' _ _ _ _. rw And_Update. cbn. unfold GetAnnotations. case_bool_decide as Hv; [|by left]. right.
    intros Hrel. specialize (Hrel eq_refl). unfold relevant, same_seen, bundle_version in *. cbn. by rw Hv.
  - intros _ _. rw And_Delete. cbn. by rw Funcs_Delete.
Qed.

Lemma conf_faithful : faithful cfg ours (ControllerConf_controller cfg).
Proof using RPL.
  split; [done|..]; intros key o; cbn; unfold source_predicate; cbn.
  - intros [Hns Hs] (_ & Ho & _) _. rw And_Create. cbn. rw ResourceVersion_Create.
    destruct (namespace_predicate_watched key o None Hns Ho) as [-> _]. by rw Ho bool_decide_true.
  - intros o' [Hns Hs] (_ & Ho & _) _ [Hup _]. rw And_Update. cbn. rw ResourceVersion_Update.
    destruct (namespace_predicate_watched key o (Some o') Hns Ho) as (_ & -> & _). rw Ho (bool_decide_true (key = _)) //.
    case_bool_decide as Hv; [|by left]. right. rw -(Hup Hv). by split.
  - intros [Hns Hs] (_ & Ho & _). rw And_Delete. cbn. rw ResourceVersion_Delete.
    destruct (namespace_predicate_watched key o None Hns Ho) as (_ & _ & ->). by rw Ho bool_decide_true.
Qed.

(** Every registered controller but those of the services and the configuration
    maps. *)
Lemma registered_faithful c :
  c ∈ controllerRegisterCfgs cfg → objectType c ≠ KService → objectType c ≠ KConfigMap → faithful cfg ours c.
Proof using RPL.
  intros Hc H1 H2. unfold controllerRegisterCfgs in Hc.
  repeat (apply elem_of_cons in Hc as [->|Hc]); [..|by apply elem_of_nil in Hc]; try done.
  - apply crd_faithful.
  - apply class_faithful.
  - by apply generation_faithful.
  - by apply generation_faithful.
  - by apply version_faithful.
  - by apply version_faithful.
  - by apply version_faithful.
  - by apply version_faithful.
  - apply conf_faithful.
  - by apply version_faithful.
  - by apply generation_faithful.
Qed.
End registered.

(** ** Properties *)
#[local] Arguments NewNamespacePredicate : simpl never.

(** C8: the store of the controller converges to the cluster.  For every kind but
    services and configuration maps, whatever happens to the objects, in any
    order with the requests of other watches and with failed reads: when the
    queue is empty the store shows, for every object the controller watches, the
    spec (the whole object, where its versions are watched; the bundle version,
    for a CRD) of the object of the cluster, and shows no object that is gone;
    and when the cluster rests the queue empties.  (The classes of one name are
    supposed to keep their controller, also when they are deleted and made again.) *)
Theorem store_mirrors_cluster (RP : RuntimePredicates) (RPL : RuntimePredicatesLaws) extractGVK cfg ours c s :
  (∀ k1 k2, extractGVK k1 = extractGVK k2 → k1 = k2) →
  c ∈ controllerRegisterCfgs cfg → objectType c ≠ KService → objectType c ≠ KConfigMap →
  reachable cfg ours c s →
  (queue s = ∅ → ∀ key, in_scope cfg ours (objectType c) key → mirrored_at extractGVK (objectType c) s key) ∧
  (∃ s', rtc (env_step cfg ours c) s s' ∧ cluster s' = cluster s ∧ queue s' = ∅).
Proof.
  intros Hinj Hc H1 H2 Hr. pose proof (registered_faithful cfg ours c Hc H1 H2) as Hf.
  split; [|by apply drains]. intros Hq key Hs. by apply (settled_mirrored extractGVK cfg ours Hinj c Hf).
Qed.

(** Services have no generation: their updates are never read.  A service that
    is created, read, then updated leaves a state where nothing is pending and
    the store has the service as it was. *)
Theorem service_updates_lost (RP : RuntimePredicates) (RPL : RuntimePredicatesLaws) extractGVK cfg ours key o o' :
  (∀ k1 k2, extractGVK k1 = extractGVK k2 → k1 = k2) →
  watched_namespace cfg key → valid_object cfg ours KService key o → valid_object cfg ours KService key o' →
  valid_update KService o o' → GetGeneration o = GetGeneration o' →
  ∃ s, reachable cfg ours (Service_controller cfg) s ∧ queue s = ∅ ∧ cluster s !! key = Some o' ∧
    objects (Services (store_from extractGVK (sent s))) !! key = type_assert KService (ob_Object o).
Proof.
  intros Hinj Hns Ho Ho' Hup Hgen. set (c := Service_controller cfg).
  assert (p_Create (source_predicate c) (Some o) = true) as Hcr.
  { unfold c, source_predicate, when_generation. cbn. rw And_Create. cbn. rw Generation_Create.
    by destruct (namespace_predicate_watched cfg key o None Hns (proj1 (proj2 Ho))) as [-> _]. }
  assert (p_Update (source_predicate c) (Some o) (Some o') = false) as Hno.
  { unfold c, source_predicate, when_generation. cbn. rw And_Update. cbn. by rw Generation_Update bool_decide_true. }
  exists (mkSource (<[key := o']> (<[key := o]> ∅)) (enqueue_if false key (({[ key ]} ∪ ∅) ∖ {[ key ]}))
    ([] ++ option_list (Some (UpsertEvent (ob_Object o))))).
  split; [|split_and!].
  - eapply rtc_l; [by apply (step_create cfg ours c _ key o)|]. rw Hcr. cbn [enqueue_if cluster queue sent].
    eapply rtc_l.
    { apply (step_reconcile cfg ours c _ key (λ _, Found (ob_Object o)) (Some (UpsertEvent (ob_Object o))) None);
        [set_solver| |done]. left. unfold get_of. cbn. by rw lookup_insert_eq. }
    eapply rtc_l; [|apply rtc_refl]. cbn [cluster queue sent].
    pose proof (step_update cfg ours c (mkSource (<[key := o]> ∅) (({[ key ]} ∪ ∅) ∖ {[ key ]})
      ([] ++ option_list (Some (UpsertEvent (ob_Object o))))) key o o') as Hstep.
    rw Hno in Hstep. apply Hstep; [apply lookup_insert_eq|done..].
  - cbn. set_solver.
  - apply lookup_insert_eq.
  - destruct (proj2 (type_assert_kind KService (ob_Object o)) (proj1 Ho)) as [t Ht].
    change (objects (store_of KService (store_from extractGVK ([] ++ [UpsertEvent (ob_Object o)]))) !! key =
      type_assert KService (ob_Object o)).
    rw Ht store_from_snoc // (store_step_upsert _ _ _ _ Ht). cbn.
    change (ObjectKeyFromObject (ob_Object o)) with (observed_key o). rw (proj1 (proj2 Ho)). apply lookup_insert_eq.
Qed.

(** Namespaces have no namespace: with a list of namespaces, none is ever seen. *)
Theorem namespaces_never_seen (RP : RuntimePredicates) (RPL : RuntimePredicatesLaws) cfg o o' :
  cfg_Namespaces cfg ≠ [] → "" ∉ cfg_Namespaces cfg → GetNamespace o = "" → GetNamespace o' = "" →
  let p := source_predicate (Namespace_controller cfg) in
  p_Create p (Some o) = false ∧ p_Update p (Some o) (Some o') = false ∧ p_Delete p (Some o) = false.
Proof.
  intros Hne Hin Ho Ho' p. unfold p, source_predicate, when_version. rw And_Create And_Update And_Delete. cbn.
  destruct (namespace_predicate_unwatched cfg o o' Hne) as (-> & -> & ->); [by rw Ho|by rw Ho Ho'|].
  by rw !andb_false_r.
Qed.

(** What a manager that takes everything is told of a controller. *)
Definition registered {RP : RuntimePredicates} (c : ctlrCfg) : Registration :=
  let cfg := apply_options (options c) in
  mkRegistration (cc_name c) (objectType c) (onlyMetadata cfg) (k8sPredicate cfg)
    (if hasEnqueueFor cfg then enqueueForList cfg else []) (namespacedNameFilter cfg).

Lemma Register_ok (RP : RuntimePredicates) mgr c :
  (∀ k field, mgr_IndexField mgr k field = None) → (∀ rg, mgr_Complete mgr rg = None) →
  onlyMetadata (apply_options (options c)) && negb (gvkSet c) = false →
  Register mgr (cc_name c) (objectType c) (gvkSet c) (options c) = Ok (registered c).
Proof.
  intros Hindex Hcomplete Hmeta. unfold Register. cbn zeta.
  assert (∀ indices, add_indices mgr (objectType c) indices = None) as ->.
  { induction indices as [|[field f] indices IH]; [done|]. cbn. by rw Hindex. }
  by rw Hmeta Hcomplete.
Qed.

Lemma register_all_ok (RP : RuntimePredicates) mgr cs :
  (∀ k field, mgr_IndexField mgr k field = None) → (∀ rg, mgr_Complete mgr rg = None) →
  Forall (λ c, onlyMetadata (apply_options (options c)) && negb (gvkSet c) = false) cs →
  register_all mgr cs = (registered <$> cs, None).
Proof.
  intros Hindex Hcomplete. induction 1 as [|c cs Hc _ IH]; [done|]. cbn [register_all].
  by rw (Register_ok RP mgr c Hindex Hcomplete Hc) IH.
Qed.

(** Registration is complete: with a manager that takes what it is given,
    [registerControllers] ends without an error and every kind of object the
    store holds is read by exactly one controller, whose events pass the
    predicate declared for it and whose requests no filter of names refuses. *)
Theorem every_kind_registered (RP : RuntimePredicates) mgr cfg k :
  (∀ k field, mgr_IndexField mgr k field = None) → (∀ rg, mgr_Complete mgr rg = None) →
  ∃ c, c ∈ controllerRegisterCfgs cfg ∧
    filter (λ rg, rg_For rg = k) (registerControllers mgr cfg).1 =
      [mkRegistration (cc_name c) k (bool_decide (k = KCustomResourceDefinition)) (Some (source_predicate c))
         (enqueueForList (apply_options (options c))) None] ∧
    (registerControllers mgr cfg).2 = None.
Proof.
  intros Hindex Hcomplete. unfold registerControllers. rw register_all_ok //.
  { by repeat constructor. }
  exists match k with
    | KCustomResourceDefinition => GatewayApiCRD_controller | KGatewayClass => GatewayClass_controller cfg
    | KGateway => Gateway_controller cfg | KHTTPRoute => HTTPRoute_controller cfg
    | KService => Service_controller cfg | KSecret => Secret_controller cfg
    | KEndpointSlice => EndpointSlice_controller cfg | KNamespace => Namespace_controller cfg
    | KConfigMap => ConfigMap_controller cfg | KHugGate => HugGate_controller cfg
    | KHugConf => ControllerConf_controller cfg | KBackend => BackendCR_controller cfg
    | KTLSRoute => TLSRoute_controller cfg
    end.
  split; [destruct k; unfold controllerRegisterCfgs; repeat ((by left) || right)|]. split; [|done]. by destruct k.
Qed.

(** *** Witnesses *)
#[local] Instance example_predicates : RuntimePredicates :=
  let changed (f : Observed → Observed → bool) := mkPredicate (λ _, true) (λ old new : option Observed,
    match old, new with Some o, Some o' => negb (f o o') | _, _ => false end) (λ _, true) in
  {| Funcs := mkPredicate (λ _, true) (λ _ _, true) (λ _, true);
     And ps := mkPredicate (λ o, forallb (λ p, p_Create p o) ps) (λ o o', forallb (λ p, p_Update p o o') ps)
       (λ o, forallb (λ p, p_Delete p o) ps);
     GenerationChangedPredicate := changed (λ o o', bool_decide (GetGeneration o = GetGeneration o'));
     ResourceVersionChangedPredicate :=
       changed (λ o o', bool_decide (ob_ResourceVersion o = ob_ResourceVersion o')) |}.

#[local] Instance example_predicates_laws : RuntimePredicatesLaws.
Proof. by split. Qed.

Definition example_sources : SourcesConfig := mkSourcesConfig "hug" ["ns"] (NN "ns" "conf").

Definition example_watched_service (rv : string) (port : Z) : Observed :=
  mkObserved (OService {| svc_Meta := simple_meta "ns" "svc" 0;
                          svc_Ports := [ {| sp_Port := port; sp_TargetPort := IntVal port |} ] |}) rv.

Definition example_watched_secret : Observed :=
  mkObserved (OSecret {| sec_Meta := simple_meta "ns" "tls" 0; sec_Data := {[ "tls.key" := "k" ]} |}) "1".

(** A secret is created, and the queue is drained. *)
Lemma store_mirrors_cluster_witness :
  ∃ s t, reachable example_sources (λ _, false) (Secret_controller example_sources) s ∧ queue s = ∅ ∧
    objects (Secrets (store_from example_gvk (sent s))) !! NN "ns" "tls" = Some t ∧ sec_Data t = {[ "tls.key" := "k" ]}.
Proof.
  set (c := Secret_controller example_sources).
  set (s0 := mkSource (<[NN "ns" "tls" := example_watched_secret]> ∅) {[ NN "ns" "tls" ]} []).
  assert (reachable example_sources (λ _, false) c s0) as Hs0.
  { eapply rtc_l; [|apply rtc_refl]. unfold s0.
    replace ({[ NN "ns" "tls" ]} : gset NamespacedName) with
      (enqueue_if (p_Create (source_predicate c) (Some example_watched_secret)) (NN "ns" "tls") ∅) by vm_refl.
    apply (step_create example_sources (λ _, false) c (mkSource ∅ ∅ []) (NN "ns" "tls") example_watched_secret);
      [done|]. split; [done|]. split; [done|]. by intros gc. }
  assert (c ∈ controllerRegisterCfgs example_sources) as Hc by (unfold controllerRegisterCfgs; set_solver).
  destruct (store_mirrors_cluster _ _ example_gvk example_sources (λ _, false) c s0 example_gvk_inj Hc)
    as [_ (s & Hrun & Hcl & Hq)]; [done|done|exact Hs0|].
  assert (reachable example_sources (λ _, false) c s) as Hs by (unfold reachable; by etransitivity).
  destruct (store_mirrors_cluster _ _ example_gvk example_sources (λ _, false) c s example_gvk_inj Hc)
    as [Hm _]; [done|done|exact Hs|].
  specialize (Hm Hq (NN "ns" "tls") ltac:(by right; left)). unfold mirrored_at, shows in Hm. rw Hcl in Hm. cbn in Hm.
  destruct Hm as (t & old & Ht & Hold & Hsame); [done|]. exists s, t. split_and!; [done|done|done|].
  change (old = ob_Object example_watched_secret) in Hsame. subst old. injection Hold as <-. done.
Defined.

Lemma service_updates_lost_witness :
  ∃ s t, reachable example_sources (λ _, false) (Service_controller example_sources) s ∧ queue s = ∅ ∧
    cluster s !! NN "ns" "svc" = Some (example_watched_service "2" 8080) ∧
    objects (Services (store_from example_gvk (sent s))) !! NN "ns" "svc" = Some t ∧
    (sp_Port <$> svc_Ports t) = [80%Z].
Proof.
  destruct (service_updates_lost _ _ example_gvk example_sources (λ _, false) (NN "ns" "svc")
    (example_watched_service "1" 80) (example_watched_service "2" 8080)) as (s & Hr & Hq & Hcl & Hst).
  - exact example_gvk_inj.
  - right. by left.
  - split; [done|]. split; [done|]. by intros gc.
  - split; [done|]. split; [done|]. by intros gc.
  - split; [|done]. discriminate.
  - done.
  - eexists s, _. split_and!; [exact Hr|exact Hq|exact Hcl|exact Hst|done].
Defined.

Lemma namespaces_never_seen_witness :
  p_Create (source_predicate (Namespace_controller example_sources))
    (Some (mkObserved (ONamespace {| ns_Meta := simple_meta "" "ns" 0 |}) "1")) = false.
Proof.
  destruct (namespaces_never_seen _ _ example_sources
    (mkObserved (ONamespace {| ns_Meta := simple_meta "" "ns" 0 |}) "1")
    (mkObserved (ONamespace {| ns_Meta := simple_meta "" "ns" 0 |}) "1")) as [H _]; try done.
  intros H. by apply list_elem_of_singleton in H.
Defined.

Lemma every_kind_registered_witness :
  length (filter (λ rg, rg_For rg = KTLSRoute)
    (registerControllers (mkManager (λ _ _, None) (λ _, None)) example_sources).1) = 1.
Proof.
  destruct (every_kind_registered _ (mkManager (λ _ _, None) (λ _, None)) example_sources KTLSRoute)
    as (c & _ & Hc & _); [done|done|]. by rw Hc.
Defined.
