(* ===== verification/Status.v ===== *)
(** * Status: k8s/gate/status

    After a batch, [UpdateStatus] writes the conditions of the tree to the
    Kubernetes objects.  Each object has a patcher ([status_patcher.go]) that
    compares its status with the wanted one and sets it; [status.go] reads the
    object, lets the patcher compare and set, and writes it back, under the
    retries of [wait.ExponentialBackoffWithContext].

    The client of the Kubernetes API and its retries are classes; [W] is the
    state of the cluster.  Logging is left out. *)

From S2P Require Import Prelude GoStrings Objects Utils Conditions Store TreeCore.
From S2P Require Import References InstalledVersions GatewayClass Listener Gateway Route.

(** ** object_types.go: the empty objects *)
Definition zero_meta : ObjectMeta := Meta "" "" 0 ∅ ∅ 0.

Definition ObjectTypeGatewayClass : Object := OGatewayClass
  {| gwc_Meta := zero_meta; gwc_ControllerName := ""; gwc_ParametersRef := None;
     gwc_Status_Conditions := [] |}.
Definition ObjectTypeGateway : Object := OGateway
  {| gw_Meta := zero_meta; gw_GatewayClassName := ""; gw_Listeners := []; gw_Infrastructure := None;
     gw_Status_Conditions := []; gw_Status_Listeners := [] |}.
Definition ObjectTypeHTTPRoute : Object := OHTTPRoute
  {| hroute_Meta := zero_meta; hroute_ParentRefs := []; hroute_Hostnames := []; hroute_Rules := [];
     hroute_Status_Parents := [] |}.
Definition ObjectTypeTLSRoute : Object := OTLSRoute
  {| troute_Meta := zero_meta; troute_ParentRefs := []; troute_Hostnames := []; troute_Rules := [];
     troute_Status_Parents := [] |}.

(** ** status_patcher.go *)

(** The interface [StatusPatcher].  A patcher is a pointer: comparing may
    change it. *)
Class StatusPatcher (P : Type) := {
  StatusEqual : P → Object → result bool * P;
  SetStatus : P → Object → result Object
}.

Definition wrong_type : string := "wrong type".

Section patchers.
Context {RO : RangeOrder} {GS : GoSort}.
(** [metav1.Now()]. *)
Context (now : Z).

(** *** GatewayClass *)
Record gatewayClassStatusPatcher := { gcsp_conditions : Conditions }.

Definition newGatewayClassStatusPatcher (gwc : GatewayClass) : gatewayClassStatusPatcher :=
  {| gcsp_conditions := gc_Conditions (gc_data gwc) |}.

Definition gatewayClass_StatusEqual (sp : gatewayClassStatusPatcher) (obj : Object) : result bool :=
  match type_assert KGatewayClass obj with
  | None => Err wrong_type
  | Some gwc =>
      let conds := NewConditionsFromMetav1Conditions (gwc_Status_Conditions gwc) in
      Ok (Conditions_Equal (gcsp_conditions sp) conds)
  end.

Definition gatewayClass_SetStatus (sp : gatewayClassStatusPatcher) (obj : Object) : result Object :=
  match type_assert KGatewayClass obj with
  | None => Err wrong_type
  | Some gwc =>
      Ok (OGatewayClass {| gwc_Meta := gwc_Meta gwc; gwc_ControllerName := gwc_ControllerName gwc;
        gwc_ParametersRef := gwc_ParametersRef gwc;
        gwc_Status_Conditions := ToMetav1Conditions now (gcsp_conditions sp) |})
  end.

#[export] Instance gatewayClass_patcher : StatusPatcher gatewayClassStatusPatcher := {|
  StatusEqual sp obj := (gatewayClass_StatusEqual sp obj, sp);
  SetStatus := gatewayClass_SetStatus
|}.

(** *** Gateway *)
Record gatewayStatusPatcher := mkGatewayPatcher {
  gsp_conditions : Conditions;
  gsp_listenerStatuses : list ListenerStatus
}.

(** [int32(n)] *)
Definition int32 (n : Z) : Z := (n + 2 ^ 31) `mod` 2 ^ 32 - 2 ^ 31.

Definition listener_status (l : Listener) : ListenerStatus :=
  {| ls_Name := l_Name (lst_K8sResource l);
     ls_SupportedKinds := Some (AllowedRouteKinds l);
     ls_AttachedRoutes := int32 (Z.of_nat (size (lst_AttachedRoutes l)));
     ls_Conditions := ToMetav1Conditions now (lst_Conditions l) |}.

Definition newGatewayStatusPatcher (heap : Listeners) (gw : Gateway) : gatewayStatusPatcher :=
  let d := gt_data gw in
  mkGatewayPatcher (gt_Conditions d)
    (if gt_Valid d
     then omap (λ kv : string * nat, listener_status <$> heap !! kv.2) (range (gt_Listeners d)) else []).

Definition name_order (a b : ListenerStatus) : comparison := String.compare (ls_Name a) (ls_Name b).

Definition sortListenerStatusByName (listeners : list ListenerStatus) : list ListenerStatus :=
  SortFunc name_order listeners.

Definition listenerStatusEqual (a b : ListenerStatus) : bool :=
  if negb (bool_decide (ls_Name a = ls_Name b)) then false
  else if negb (bool_decide (ls_AttachedRoutes a = ls_AttachedRoutes b)) then false
  else if negb (Conditions_Equal (NewConditionsFromMetav1Conditions (ls_Conditions a))
                  (NewConditionsFromMetav1Conditions (ls_Conditions b))) then false
  else bool_decide (ls_SupportedKinds a = ls_SupportedKinds b).

(** [slices.EqualFunc] *)
Fixpoint EqualFunc {A} (eq : A → A → bool) (a b : list A) : bool :=
  match a, b with
  | [], [] => true
  | x :: a, y :: b => eq x y && EqualFunc eq a b
  | _, _ => false
  end.

(** Both slices are sorted in place: the second component is [a] after it. *)
Definition ListenerStatusesEqual (a b : list ListenerStatus) : bool * list ListenerStatus :=
  let a := sortListenerStatusByName a in
  let b := sortListenerStatusByName b in
  (EqualFunc listenerStatusEqual a b, a).

Definition gateway_StatusEqual (sp : gatewayStatusPatcher) (obj : Object) :
    result bool * gatewayStatusPatcher :=
  match type_assert KGateway obj with
  | None => (Err wrong_type, sp)
  | Some gw =>
      let gwConds := NewConditionsFromMetav1Conditions (gw_Status_Conditions gw) in
      if negb (Conditions_Equal (gsp_conditions sp) gwConds) then (Ok false, sp)
      else
        let '(equal, sorted) :=
          ListenerStatusesEqual (gsp_listenerStatuses sp) (gw_Status_Listeners gw) in
        (Ok equal, mkGatewayPatcher (gsp_conditions sp) sorted)
  end.

Definition gateway_SetStatus (sp : gatewayStatusPatcher) (obj : Object) : result Object :=
  match type_assert KGateway obj with
  | None => Err wrong_type
  | Some gw =>
      Ok (OGateway {| gw_Meta := gw_Meta gw; gw_GatewayClassName := gw_GatewayClassName gw;
        gw_Listeners := gw_Listeners gw; gw_Infrastructure := gw_Infrastructure gw;
        gw_Status_Conditions := ToMetav1Conditions now (gsp_conditions sp);
        gw_Status_Listeners := gsp_listenerStatuses sp |})
  end.

#[export] Instance gateway_patcher : StatusPatcher gatewayStatusPatcher := {|
  StatusEqual := gateway_StatusEqual;
  SetStatus := gateway_SetStatus
|}.
End patchers.

(** *** Routes *)

(** The API server refuses a condition without a type. *)
Definition typed_statuses (ps : list RouteParentStatus) : Prop :=
  ∀ p c, p ∈ ps → c ∈ rps_Conditions p → mc_Type c ≠ "".

Definition served (o : Object) : Prop :=
  match o with
  | OHTTPRoute r => typed_statuses (hroute_Status_Parents r)
  | OTLSRoute r => typed_statuses (troute_Status_Parents r)
  | _ => True
  end.

(** What the patchers of [HTTPRoute] and of [TLSRoute] read and write of an
    object of their type. *)
Class RouteObject (R : Type) := {
  ro_kind : ObjKind;
  ro_assert : Object → option R;
  ro_object : R → Object;
  ro_Parents : R → list RouteParentStatus;
  ro_SetParents : list RouteParentStatus → R → R;
  ro_assert_object r : ro_assert (ro_object r) = Some r;
  ro_object_assert o r : ro_assert o = Some r → o = ro_object r;
  ro_Parents_Set ps r : ro_Parents (ro_SetParents ps r) = ps;
  ro_key ps r : kind_of (ro_object (ro_SetParents ps r)) = kind_of (ro_object r) ∧
    meta_of (ro_object (ro_SetParents ps r)) = meta_of (ro_object r);
  ro_assert_kind o : kind_of o = ro_kind → is_Some (ro_assert o);
  ro_served r : served (ro_object r) → typed_statuses (ro_Parents r)
}.

#[export] Program Instance HTTPRoute_object : RouteObject K8sHTTPRoute := {|
  ro_kind := KHTTPRoute;
  ro_assert := type_assert KHTTPRoute;
  ro_object := OHTTPRoute;
  ro_Parents := hroute_Status_Parents;
  ro_SetParents ps r := {| hroute_Meta := hroute_Meta r; hroute_ParentRefs := hroute_ParentRefs r;
    hroute_Hostnames := hroute_Hostnames r; hroute_Rules := hroute_Rules r;
    hroute_Status_Parents := ps |}
|}.
Solve All Obligations with by try destruct o; cbn; eauto; naive_solver.

#[export] Program Instance TLSRoute_object : RouteObject K8sTLSRoute := {|
  ro_kind := KTLSRoute;
  ro_assert := type_assert KTLSRoute;
  ro_object := OTLSRoute;
  ro_Parents := troute_Status_Parents;
  ro_SetParents ps r := {| troute_Meta := troute_Meta r; troute_ParentRefs := troute_ParentRefs r;
    troute_Hostnames := troute_Hostnames r; troute_Rules := troute_Rules r;
    troute_Status_Parents := ps |}
|}.
Solve All Obligations with by try destruct o; cbn; eauto; naive_solver.

Record routeStatusPatcher := mkRoutePatcher {
  rsp_controllerName : string;
  rsp_conditions : RouteConditions
}.

(** [newHTTPRouteStatusPatcher] and [newTLSRouteStatusPatcher] *)
Definition newRouteStatusPatcher {R Rule} (route : Route R Rule) : routeStatusPatcher :=
  mkRoutePatcher (ControllerName (rt_data route)) (rt_Conditions (rt_data route)).

(** The function given to [sort.Slice]. *)
Definition parentRef_less (a b : ParentReference) : bool :=
  let lt c := bool_decide (c = Lt) in
  let c := ComparePointers String.compare (p_Group a) (p_Group b) in
  if negb (bool_decide (c = Eq)) then lt c else
  let c := ComparePointers String.compare (p_Kind a) (p_Kind b) in
  if negb (bool_decide (c = Eq)) then lt c else
  let c := ComparePointers String.compare (p_Namespace a) (p_Namespace b) in
  if negb (bool_decide (c = Eq)) then lt c else
  if negb (bool_decide (p_Name a = p_Name b)) then lt (String.compare (p_Name a) (p_Name b)) else
  let c := ComparePointers String.compare (p_SectionName a) (p_SectionName b) in
  if negb (bool_decide (c = Eq)) then lt c else
  let c := ComparePointers Z.compare (p_Port a) (p_Port b) in
  if negb (bool_decide (c = Eq)) then lt c else false.

Definition less_order {A} (less : A → A → bool) (a b : A) : comparison :=
  if less a b then Lt else if less b a then Gt else Eq.

Definition sortRouteParentStatusByParentRef `{GoSort} (parents : list RouteParentStatus) :
    list RouteParentStatus :=
  SortFunc (less_order (λ a b, parentRef_less (rps_ParentRef a) (rps_ParentRef b))) parents.

(** [FilterStatusByControllerName] and [FilterTLSRouteStatusByControllerName] *)
Definition FilterStatusByControllerName (parents : list RouteParentStatus) (controllerName : string) :
    list RouteParentStatus :=
  filter (λ p, rps_ControllerName p = controllerName) parents.

Section route_patcher.
Context {RO : RangeOrder} {GS : GoSort} (now : Z) (R : Type) {ROb : RouteObject R}.

Definition route_StatusEqual (sp : routeStatusPatcher) (obj : Object) : result bool :=
  match ro_assert obj with
  | None => Err wrong_type
  | Some route =>
      let filtered := FilterStatusByControllerName (ro_Parents route) (rsp_controllerName sp) in
      let clusterConds := NewRouteConditionsFromV1RouteConditions filtered (rsp_controllerName sp) in
      Ok (RouteConditions_Equal clusterConds (rsp_conditions sp))
  end.

Definition route_SetStatus (sp : routeStatusPatcher) (obj : Object) : result Object :=
  match ro_assert obj with
  | None => Err wrong_type
  | Some route =>
      let preservedStatuses :=
        filter (λ p, rps_ControllerName p ≠ rsp_controllerName sp) (ro_Parents route) in
      let newParentStatuses := preservedStatuses ++ ToV1RouteConditions now (rsp_conditions sp) in
      Ok (ro_object (ro_SetParents (sortRouteParentStatusByParentRef newParentStatuses) route))
  end.

Definition route_patcher : StatusPatcher routeStatusPatcher := {|
  StatusEqual sp obj := (route_StatusEqual sp obj, sp);
  SetStatus := route_SetStatus
|}.
End route_patcher.

Definition HTTPRoute_patcher `{RangeOrder, GoSort} now := route_patcher now K8sHTTPRoute.
Definition TLSRoute_patcher `{RangeOrder, GoSort} now := route_patcher now K8sTLSRoute.

(** ** status.go *)
Inductive GetOutcome := Found (obj : Object) | NotFound | GetFailed.

(** The client of the Kubernetes API, and the context of the batch. *)
Class StatusClient (W : Type) := {
  Get : NamespacedName → Object → W → W * GetOutcome;
  Status_Update : Object → W → W * option string;
  (** the object and the one the patch is computed from *)
  Status_Patch : Object → Object → W → W * option string;
  ctx_Done : W → bool
}.

(** A condition function of the package [wait]: done, or an error. *)
Abbreviation ConditionFunc A := (A → A * (bool * option string)).

(** What [wait.ExponentialBackoffWithContext] documents: the condition runs
    until it is satisfied, gives an error, the steps are used up, or the
    context is done. *)
Inductive attempts {A} (condition : ConditionFunc A) : nat → A → A * option string → Prop :=
  | attempts_stop n s err : attempts condition n s (s, Some err)
  | attempts_done n s s' : condition s = (s', (true, None)) → attempts condition (S n) s (s', None)
  | attempts_error n s s' b err :
      condition s = (s', (b, Some err)) → attempts condition (S n) s (s', Some err)
  | attempts_retry n s s' r :
      condition s = (s', (false, None)) → attempts condition n s' r →
      attempts condition (S n) s r.

Class Wait := {
  ExponentialBackoffWithContext : ∀ {A}, nat → ConditionFunc A → A → A * option string;
  backoff_attempts : ∀ A steps (condition : ConditionFunc A) s,
    attempts condition steps s (ExponentialBackoffWithContext steps condition s)
}.

(** [Backoff.Steps] *)
Definition Steps : nat := 4.

Section update.
Context {W : Type} {SC : StatusClient W}.

Record StatusUpdateParams := { sup_Object : Object; sup_NsName : NamespacedName }.

(** The copy of [sup_Object] has its type: the assertion after it succeeds. *)
Definition getClusterObj (param : StatusUpdateParams) (w : W) : W * result Object :=
  let '(w, out) := Get (sup_NsName param) (sup_Object param) w in
  match out with
  | Found obj => (w, Ok obj)
  | NotFound => (w, Ok (sup_Object param))
  | GetFailed => (w, Err "failed to get cluster object")
  end.

Section patcher.
Context {P : Type} {SP : StatusPatcher P}.

Definition TryUpdateStatusFunc (param : StatusUpdateParams) : ConditionFunc (P * W) := λ s,
  let '(sp, w) := s in
  let '(w, got) := getClusterObj param w in
  match got with
  | Err err => ((sp, w), (false, Some err))
  | Ok clusterObj =>
      let '(equal, sp) := StatusEqual sp clusterObj in
      match equal with
      | Err err => ((sp, w), (false, Some err))
      | Ok true => ((sp, w), (true, None))
      | Ok false =>
          match SetStatus sp clusterObj with
          | Err _ => ((sp, w), (false, None))
          | Ok clusterObj =>
              let '(w, err) := Status_Update clusterObj w in
              match err with
              | Some _ => ((sp, w), (false, None))
              | None => ((sp, w), (true, None))
              end
          end
      end
  end.

Definition TryPatchStatusFunc (param : StatusUpdateParams) : ConditionFunc (P * W) := λ s,
  let '(sp, w) := s in
  let '(w, got) := getClusterObj param w in
  match got with
  | Err err => ((sp, w), (false, Some err))
  | Ok clusterObj =>
      let '(equal, sp) := StatusEqual sp clusterObj in
      match equal with
      | Err err => ((sp, w), (false, None))
      | Ok true => ((sp, w), (true, None))
      | Ok false =>
          let originalObj := clusterObj in
          match SetStatus sp clusterObj with
          | Err _ => ((sp, w), (false, None))
          | Ok clusterObj =>
              let '(w, err) := Status_Patch clusterObj originalObj w in
              match err with
              | Some _ => ((sp, w), (false, None))
              | None => ((sp, w), (true, None))
              end
          end
      end
  end.
End patcher.

(** *** The four writers.  An object that is gone is dereferenced: [None]. *)
Section writers.
Context {RO : RangeOrder} {GS : GoSort} {WT : Wait} (now : Z).

Definition writeGatewayClassStatus (gwc : GatewayClass) (w : W) : option (W * option string) :=
  match gc_K8sResource (gc_data gwc) with
  | None => None
  | Some k8s =>
      let param := {| sup_Object := ObjectTypeGatewayClass; sup_NsName := meta_key (gwc_Meta k8s) |} in
      let '((_, w), err) := ExponentialBackoffWithContext Steps
        (TryUpdateStatusFunc (SP := gatewayClass_patcher now) param)
        (newGatewayClassStatusPatcher gwc, w) in
      Some (w, err)
  end.

Definition writeGatewayStatus (heap : Listeners) (gw : Gateway) (w : W) : option (W * option string) :=
  match gt_K8sResource (gt_data gw) with
  | None => None
  | Some k8s =>
      let param := {| sup_Object := ObjectTypeGateway; sup_NsName := meta_key (gw_Meta k8s) |} in
      let '((_, w), err) := ExponentialBackoffWithContext Steps
        (TryUpdateStatusFunc (SP := gateway_patcher now) param)
        (newGatewayStatusPatcher now heap gw, w) in
      Some (w, err)
  end.

Definition writeRouteStatus {R Rule} {RK : RouteKind R Rule} {ROb : RouteObject R} (empty : Object)
    (route : Route R Rule) (w : W) : option (W * option string) :=
  match rt_K8sResource (rt_data route) with
  | None => None
  | Some k8s =>
      let param := {| sup_Object := empty; sup_NsName := meta_key (route_Meta k8s) |} in
      let '((_, w), err) := ExponentialBackoffWithContext Steps
        (TryPatchStatusFunc (SP := route_patcher now R) param) (newRouteStatusPatcher route, w) in
      Some (w, err)
  end.

Definition writeHTTPRouteStatus := writeRouteStatus (RK := HTTPRoute_kind) ObjectTypeHTTPRoute.
Definition writeTLSRouteStatus := writeRouteStatus (RK := TLSRoute_kind) ObjectTypeTLSRoute.

(** *** UpdateStatus *)
Definition touched_status (status : StoreStatus) : bool :=
  negb (bool_decide (status = StatusDeleted) || bool_decide (status = StatusUnchanged)).

(** One loop: it ends the whole function when the context is done.  The flag
    says whether to go on; errors are logged. *)
Definition update_loop {V} (select : V → bool) (write : V → W → option (W * option string))
    (m : gmap NamespacedName V) (s : option (W * bool)) : option (W * bool) :=
  range_fold (λ _ v s,
    match s with
    | Some (w, true) =>
        if ctx_Done w then Some (w, false)
        else if negb (select v) then Some (w, true)
        else (λ r, (r.1, true)) <$> write v w
    | _ => s
    end) m s.

Definition UpdateStatus (GatewayClasses : gmap NamespacedName GatewayClass) (Gateways : gmap NamespacedName Gateway)
    (heap : Listeners) (HTTPRoutes : gmap NamespacedName (Route K8sHTTPRoute K8sHTTPRouteRule))
    (TLSRoutes : gmap NamespacedName (Route K8sTLSRoute K8sTLSRouteRule)) (w : W) : option W :=
  let s := Some (w, true) in
  let s := update_loop (λ gwc, touched_status (TreeCore.Status (gc_TreeStatus gwc)) && gc_Managed (gc_data gwc))
    writeGatewayClassStatus GatewayClasses s in
  let s := update_loop (λ gw, touched_status (TreeCore.Status (gt_TreeStatus gw)))
    (writeGatewayStatus heap) Gateways s in
  let s := update_loop (λ r, touched_status (TreeCore.Status (rt_TreeStatus r))) writeHTTPRouteStatus HTTPRoutes s in
  let s := update_loop (λ r, touched_status (TreeCore.Status (rt_TreeStatus r))) writeTLSRouteStatus TLSRoutes s in
  fst <$> s.
End writers.
End update.

(** ** What a patcher promises *)
#[local] Arguments NewConditionsFromMetav1Conditions cs : simpl never.

Definition typed_conditions (c : Conditions) : Prop := wf_conditions c ∧ c !! "" = None.

Lemma typed_nonzero c : typed_conditions c → map_Forall (λ _ v, v ≠ zero_Condition) c.
Proof. intros [Hwf Hne] k v Hk ->. apply Hwf in Hk as Hty. cbn in Hty. subst k. by rw Hne in Hk. Qed.

Class PatcherLaws (P : Type) {SP : StatusPatcher P} (ok : P → Prop) (published : P → Object → Prop)
    (kind : ObjKind) : Prop := {
  equal_sound sp o sp' : ok sp → served o → StatusEqual sp o = (Ok true, sp') → published sp o;
  equal_ok sp o r sp' : ok sp → StatusEqual sp o = (r, sp') →
    ok sp' ∧ ∀ o', published sp' o' → published sp o';
  equal_total sp o : kind_of o = kind → is_ok (StatusEqual sp o).1 = true;
  set_total sp o : kind_of o = kind → is_ok (SetStatus sp o) = true;
  set_settles sp o o' : ok sp → SetStatus sp o = Ok o' →
    published sp o' ∧ kind_of o' = kind_of o ∧ meta_of o' = meta_of o ∧
    (StatusEqual sp o').1 = Ok true
}.

Section laws.
Context {RO : RangeOrder} {GS : GoSort} (now : Z).

Definition published_conditions (c : Conditions) (cs : list metav1Condition) : Prop :=
  NewConditionsFromMetav1Conditions cs = c.

(** *** GatewayClass *)
Definition gatewayClass_published (sp : gatewayClassStatusPatcher) (o : Object) : Prop :=
  match o with
  | OGatewayClass gwc => published_conditions (gcsp_conditions sp) (gwc_Status_Conditions gwc)
  | _ => False
  end.

#[export] Instance gatewayClass_laws :
  PatcherLaws (SP := gatewayClass_patcher now) gatewayClassStatusPatcher
    (λ sp, typed_conditions (gcsp_conditions sp)) gatewayClass_published KGatewayClass.
Proof.
  split.
  - intros sp o sp' Hok _ [= Heq _]. destruct o; try done. injection Heq as Heq.
    apply Conditions_Equal_true in Heq; [done|by apply typed_nonzero].
  - intros sp o r sp' Hok [= _ <-]. by split.
  - intros sp o Hk. by destruct o.
  - intros sp o Hk. by destruct o.
  - intros sp o o' [Hwf _] Hset. destruct o; try done. injection Hset as <-. cbn.
    unfold gatewayClass_StatusEqual, published_conditions. cbn.
    rw metav1_roundtrip //. by rw Conditions_Equal_refl.
Qed.

(** *** Gateway *)
Definition same_listener_status (a b : ListenerStatus) : Prop :=
  ls_Name a = ls_Name b ∧ ls_AttachedRoutes a = ls_AttachedRoutes b ∧
  NewConditionsFromMetav1Conditions (ls_Conditions a) = NewConditionsFromMetav1Conditions (ls_Conditions b) ∧
  ls_SupportedKinds a = ls_SupportedKinds b.

Definition gateway_published (sp : gatewayStatusPatcher) (o : Object) : Prop :=
  match o with
  | OGateway gw =>
      published_conditions (gsp_conditions sp) (gw_Status_Conditions gw) ∧
      ∃ ls, ls ≡ₚ gw_Status_Listeners gw ∧ Forall2 same_listener_status (gsp_listenerStatuses sp) ls
  | _ => False
  end.

Definition gateway_patcher_ok (sp : gatewayStatusPatcher) : Prop :=
  typed_conditions (gsp_conditions sp) ∧
  Forall (λ s, typed_conditions (NewConditionsFromMetav1Conditions (ls_Conditions s)))
    (gsp_listenerStatuses sp).

Lemma listenerStatusEqual_refl s : listenerStatusEqual s s = true.
Proof. unfold listenerStatusEqual. by rw !bool_decide_eq_true_2 // Conditions_Equal_refl. Qed.

Lemma listenerStatusEqual_same a b :
  typed_conditions (NewConditionsFromMetav1Conditions (ls_Conditions a)) →
  listenerStatusEqual a b = true → same_listener_status a b.
Proof.
  intros Ha. unfold listenerStatusEqual, same_listener_status.
  case_bool_decide as Hn; cbn [negb]; [|done]. case_bool_decide as Hr; cbn [negb]; [|done].
  destruct (Conditions_Equal _ _) eqn:Hc; cbn [negb]; [|done]. intros ?%bool_decide_eq_true.
  apply Conditions_Equal_true in Hc; [done|by apply typed_nonzero].
Qed.

Lemma Permutation_Forall2_l {A B} (Q : A → B → Prop) l l' k :
  l ≡ₚ l' → Forall2 Q l k → ∃ k', k' ≡ₚ k ∧ Forall2 Q l' k'.
Proof.
  intros Hl. revert k. induction Hl as [|x l l' Hl IH|x y l|l l' l'' H1 IH1 H2 IH2]; intros k Hk.
  - inversion Hk; subst. by exists [].
  - inversion Hk as [|? z ? k' Hx Hk']; subst. destruct (IH _ Hk') as (k'' & Hp & Hf).
    exists (z :: k''). split; [by rw Hp|by constructor].
  - inversion Hk as [|? z ? k1 Hx Hk1]; subst. inversion Hk1 as [|? z' ? k2 Hy Hk2]; subst.
    exists (z' :: z :: k2). split; [by constructor|by repeat constructor].
  - destruct (IH1 _ Hk) as (k1 & Hp1 & Hf1). destruct (IH2 _ Hf1) as (k2 & Hp2 & Hf2).
    exists k2. split; [by rw Hp2|done].
Qed.

Lemma EqualFunc_Forall2 {A} (eq : A → A → bool) a b :
  EqualFunc eq a b = true ↔ Forall2 (λ x y, eq x y = true) a b.
Proof.
  revert b. induction a as [|x a IH]; intros [|y b]; cbn.
  - by split.
  - split; [done|]. intros Hf. by inversion Hf.
  - split; [done|]. intros Hf. by inversion Hf.
  - rw andb_true_iff IH Forall2_cons. done.
Qed.

#[export] Instance gateway_laws :
  PatcherLaws (SP := gateway_patcher now) gatewayStatusPatcher gateway_patcher_ok gateway_published KGateway.
Proof.
  split.
  - intros sp o sp' [Hc Hl] _. cbn. unfold gateway_StatusEqual. destruct o; try done. cbn.
    destruct (Conditions_Equal _ _) eqn:Heq; cbn [negb]; [|done]. intros [= Hls _].
    apply Conditions_Equal_true in Heq; [|by apply typed_nonzero]. split; [done|].
    apply EqualFunc_Forall2 in Hls. unfold sortListenerStatusByName in Hls.
    assert (Forall (λ s, typed_conditions (NewConditionsFromMetav1Conditions (ls_Conditions s)))
      (SortFunc name_order (gsp_listenerStatuses sp))) as Hl' by (by rw SortFunc_perm). clear Hl.
    assert (Forall2 same_listener_status (SortFunc name_order (gsp_listenerStatuses sp))
      (SortFunc name_order (gw_Status_Listeners o))) as Hsame.
    { clear -Hls Hl'. induction Hls as [|x y a b Hxy Hab IH]; [done|].
      apply Forall_cons in Hl' as [Hx Ha]. constructor; [by apply listenerStatusEqual_same|auto]. }
    destruct (Permutation_Forall2_l _ _ _ _ (SortFunc_perm name_order (gsp_listenerStatuses sp)) Hsame)
      as (ls & Hp & Hf). exists ls. split; [by rw Hp SortFunc_perm|done].
  - intros sp o r sp' [Hc Hl]. cbn. unfold gateway_StatusEqual.
    destruct (type_assert KGateway o) as [gw|]; [|by intros [= _ <-]].
    destruct (negb _); [by intros [= _ <-]|]. intros [= _ <-]. split.
    + split; [done|]. cbn. unfold sortListenerStatusByName. by rw SortFunc_perm.
    + intros [] Hp; try done. destruct Hp as [Hp1 (ls & Hp2 & Hp3)]. split; [done|].
      destruct (Permutation_Forall2_l _ _ _ _ (SortFunc_perm name_order (gsp_listenerStatuses sp)) Hp3)
        as (ls' & Hp' & Hf). exists ls'. split; [by rw Hp'|done].
  - intros sp o Hk. destruct o; try done. cbn. unfold gateway_StatusEqual. cbn. by destruct (negb _).
  - intros sp o Hk. by destruct o.
  - intros sp o o' [[Hwf _] _] Hset. destruct o; try done. injection Hset as <-. cbn.
    unfold gateway_StatusEqual, published_conditions. cbn.
    rw metav1_roundtrip // Conditions_Equal_refl. cbn. split_and!; try done.
    + exists (gsp_listenerStatuses sp). split; [done|]. by apply Forall_Forall2_diag, Forall_forall.
    + f_equal. apply EqualFunc_Forall2, Forall_Forall2_diag, Forall_forall. intros.
      apply listenerStatusEqual_refl.
Qed.

(** *** Routes *)
Definition route_published {R} {ROb : RouteObject R} (sp : routeStatusPatcher) (o : Object) : Prop :=
  ∃ route, ro_assert o = Some route ∧
    NewRouteConditionsFromV1RouteConditions
      (FilterStatusByControllerName (ro_Parents route) (rsp_controllerName sp))
      (rsp_controllerName sp) = rsp_conditions sp.

Definition route_patcher_ok (sp : routeStatusPatcher) : Prop :=
  wf_route_conditions (rsp_conditions sp) ∧
  rc_ControllerName (rsp_conditions sp) = rsp_controllerName sp.

Lemma v1_nonzero parents name :
  typed_statuses parents →
  map_Forall (λ _ conds, map_Forall (λ _ v, v ≠ zero_Condition) conds)
    (data (rc_Conditions (NewRouteConditionsFromV1RouteConditions parents name))) ∧
  computeKey (rc_Conditions (NewRouteConditionsFromV1RouteConditions parents name)) = ParentRefToKey.
Proof.
  intros Hty. unfold NewRouteConditionsFromV1RouteConditions. cbn [rc_Conditions].
  set (nonzero := map_Forall (λ (_ : string) v, v ≠ zero_Condition)).
  apply (foldl_ind (λ m : KeyMap ParentReference Conditions,
    map_Forall (λ _ conds, nonzero conds) (data m) ∧ computeKey m = ParentRefToKey)).
  { split; [apply map_Forall_empty|done]. }
  intros m p Hin [IH1 IH2]. case_bool_decide; cbn [negb]; [|done]. split; [|done].
  apply map_Forall_insert_2; [|done].
  assert (nonzero (default ∅ (KeyMaps.Get m (rps_ParentRef p)))) as Hd.
  { unfold KeyMaps.Get. destruct (data m !! _) as [cs|] eqn:Hcs; [exact (IH1 _ _ Hcs)|apply map_Forall_empty]. }
  revert Hd. generalize (default ∅ (KeyMaps.Get m (rps_ParentRef p))). intros cs0 Hcs0.
  apply (foldl_ind nonzero); [done|]. intros cs c Hc Hcs.
  apply map_Forall_insert_2; [|done]. intros Hz.
  assert (mc_Type c = "") as Heq by (by destruct c; injection Hz).
  by apply (Hty p c Hin Hc).
Qed.

Lemma filter_all {A} (Q : A → Prop) `{∀ x, Decision (Q x)} l : Forall Q l → filter Q l = l.
Proof. induction 1 as [|x l Hx _ IH]; [done|]. by rw filter_cons_True // IH. Qed.

Lemma filter_none {A} (Q : A → Prop) `{∀ x, Decision (Q x)} l :
  Forall (λ x, ¬ Q x) l → filter Q l = [].
Proof. induction 1 as [|x l Hx _ IH]; [done|]. by rw filter_cons_False // IH. Qed.

Lemma own_statuses sp :
  wf_route_conditions (rsp_conditions sp) →
  rc_ControllerName (rsp_conditions sp) = rsp_controllerName sp →
  Forall (λ p, rps_ControllerName p = rsp_controllerName sp)
    (ToV1RouteConditions now (rsp_conditions sp)).
Proof.
  intros _ Hname. rw ToV1_flat_map. apply Forall_forall. intros p.
  rw list_elem_of_In in_flat_map. intros ([k v] & _ & Hp). unfold parent_status in Hp. cbn in Hp.
  destruct (KeyToParentRef k); [|done]. by destruct Hp as [<-|[]].
Qed.

(** The statuses of a route after it is set: those of the other controllers, and
    those of the conditions. *)
Lemma route_SetStatus_parents {R} {ROb : RouteObject R} sp o o' :
  route_patcher_ok sp → route_SetStatus now R sp o = Ok o' →
  ∃ route route', ro_assert o = Some route ∧ ro_assert o' = Some route' ∧
    filter (λ p, rps_ControllerName p ≠ rsp_controllerName sp) (ro_Parents route') ≡ₚ
    filter (λ p, rps_ControllerName p ≠ rsp_controllerName sp) (ro_Parents route) ∧
    FilterStatusByControllerName (ro_Parents route') (rsp_controllerName sp) ≡ₚ
    ToV1RouteConditions now (rsp_conditions sp).
Proof.
  intros [Hwf Hname]. unfold route_SetStatus. destruct (ro_assert o) as [route|] eqn:Hr; [|done].
  intros [= <-]. exists route. eexists. rw ro_assert_object. split_and!; [done..| |].
  all: rw ro_Parents_Set; unfold sortRouteParentStatusByParentRef, FilterStatusByControllerName;
    rw SortFunc_perm filter_app.
  - rw (filter_all _ (filter _ _)).
    { apply Forall_forall. intros p [Hp _]%list_elem_of_filter. exact Hp. }
    rw (filter_none _ (ToV1RouteConditions _ _)); [|by rw app_nil_r].
    eapply Forall_impl; [by apply own_statuses|]. naive_solver.
  - rw (filter_none _ (filter _ _)).
    { apply Forall_forall. intros p [Hp _]%list_elem_of_filter. exact Hp. }
    rw filter_all //. by apply own_statuses.
Qed.

(** Reading back the statuses of a route, in whatever order they are. *)
Lemma read_back c ps :
  wf_route_conditions c → ps ≡ₚ ToV1RouteConditions now c →
  NewRouteConditionsFromV1RouteConditions ps (rc_ControllerName c) = c.
Proof.
  intros [Hk Hall] Hps. rw ToV1_flat_map in Hps.
  set (status (kv : string * Conditions) := {|
    rps_ParentRef := match KeyToParentRef kv.1 with
                     | Ok p => p | Err _ => ParentRef None None None "" None None end;
    rps_ControllerName := rc_ControllerName c;
    rps_Conditions := ToMetav1Conditions now kv.2 |}).
  assert (∀ l, (∀ kv, kv ∈ l → is_ok (KeyToParentRef kv.1) = true) →
    flat_map (parent_status now (rc_ControllerName c)) l = map status l) as Hmap.
  { induction l as [|kv l IH]; intros Hl; [done|]. cbn. rw IH; [intros; apply Hl; by right|].
    assert (is_ok (KeyToParentRef kv.1) = true) as Hok by (apply Hl; by left).
    unfold parent_status, status. by destruct (KeyToParentRef kv.1). }
  assert (∀ kv, kv ∈ range (data (rc_Conditions c)) →
    is_ok (KeyToParentRef kv.1) = true ∧ wf_conditions kv.2) as Hin.
  { intros [k v] Hkv%elem_of_range. exact (Hall k v Hkv). }
  rw Hmap in Hps; [intros; by apply Hin|].
  apply Permutation_map_inv in Hps as (l & -> & Hl). rw -Hmap.
  { intros kv Hkv. apply Hin. by rw Hl. }
  rw v1_of_entries.
  - rw -Hl. apply NoDup_fst_range.
  - intros k v Hkv. apply (Hin (k, v)). by rw Hl.
  - destruct c as [[d ck] name]. cbn in *. subst ck. do 2 f_equal.
    trans (list_to_map (M := gmap string Conditions) (range d)); [|apply list_to_map_range].
    apply list_to_map_proper; [rw -Hl; apply NoDup_fst_range|done].
Qed.

#[export] Instance route_laws {R} {ROb : RouteObject R} :
  PatcherLaws (SP := route_patcher now R) routeStatusPatcher route_patcher_ok
    (route_published (R := R)) ro_kind.
Proof.
  split.
  - intros sp o sp' [Hwf Hname] Hserved. cbn. unfold route_StatusEqual.
    destruct (ro_assert o) as [route|] eqn:Hr; [|done]. intros [= Heq _]. exists route. split; [done|].
    apply ro_object_assert in Hr as ->. apply ro_served in Hserved.
    destruct (v1_nonzero (FilterStatusByControllerName (ro_Parents route) (rsp_controllerName sp))
      (rsp_controllerName sp)) as [Hnz Hck].
    { intros p c [_ Hp]%list_elem_of_filter Hc. by apply (Hserved p). }
    apply RouteConditions_Equal_sound in Heq; [done|done|by destruct Hwf|done].
  - intros sp o r sp' Hok [= _ <-]. by split.
  - intros sp o Hk. cbn. unfold route_StatusEqual. by destruct (ro_assert_kind o Hk) as [route ->].
  - intros sp o Hk. cbn. unfold route_SetStatus. by destruct (ro_assert_kind o Hk) as [route ->].
  - intros sp o o' Hok Hset. cbn in Hset. pose proof Hok as [Hwf Hname].
    destruct (route_SetStatus_parents sp o o' Hok Hset) as (route & route' & Hr & Hr' & _ & Hown).
    assert (NewRouteConditionsFromV1RouteConditions
      (FilterStatusByControllerName (ro_Parents route') (rsp_controllerName sp))
      (rsp_controllerName sp) = rsp_conditions sp) as Hback.
    { rw -{2}Hname. by apply read_back. }
    unfold route_SetStatus in Hset. rw Hr in Hset. injection Hset as Hset.
    apply ro_object_assert in Hr as ->. split_and!.
    + by exists route'.
    + rw -Hset. apply ro_key.
    + rw -Hset. apply ro_key.
    + cbn. unfold route_StatusEqual. rw Hr' Hback. f_equal.
      apply RouteConditions_Equal_entries; [by destruct Hwf|]. split_and!; [done..|].
      apply Forall_forall. intros [k v] Hkv%elem_of_range. cbn.
      destruct (proj2 Hwf k v Hkv) as [Hk _]. eauto using Conditions_Equal_refl.
Qed.
End laws.

(** ** What the client documents *)
Class ClientLaws (W : Type) {SC : StatusClient W} (stored : W → ObjKind → NamespacedName → option Object) :
    Prop := {
  get_found n empty w w' o : Get n empty w = (w', Found o) →
    stored w' (kind_of empty) n = Some o ∧ kind_of o = kind_of empty ∧ ObjectKeyFromObject o = n ∧ served o;
  update_stored o w w' : Status_Update o w = (w', None) →
    meta_Name (meta_of o) ≠ "" ∧ stored w' (kind_of o) (ObjectKeyFromObject o) = Some o;
  patch_stored o old w w' : Status_Patch o old w = (w', None) →
    meta_Name (meta_of o) ≠ "" ∧ stored w' (kind_of o) (ObjectKeyFromObject o) = Some o
}.

Section settles.
Context {W : Type} {SC : StatusClient W} {stored : W → ObjKind → NamespacedName → option Object}.
Context {CL : ClientLaws W stored}.
Context {P : Type} {SP : StatusPatcher P} {ok : P → Prop} {published : P → Object → Prop} {kind : ObjKind}.
Context {PL : PatcherLaws P ok published kind}.

(** The empty object of a writer has its kind and no name, and no status. *)
Definition empty_param (param : StatusUpdateParams) (sp : P) : Prop :=
  kind_of (sup_Object param) = kind ∧ meta_Name (meta_of (sup_Object param)) = "" ∧
  served (sup_Object param) ∧ ¬ published sp (sup_Object param).

(** One attempt: the patcher stays right, and when it is done the object is
    stored with its status. *)
Definition settling (condition : ConditionFunc (P * W)) (param : StatusUpdateParams) : Prop :=
  ∀ sp w sp' w' done_ err, condition (sp, w) = ((sp', w'), (done_, err)) → ok sp →
    empty_param param sp →
    ok sp' ∧ (∀ o, published sp' o → published sp o) ∧
    (done_ = true → err = None →
     ∃ o, stored w' kind (sup_NsName param) = Some o ∧ published sp o).

(** What reading the object and comparing it leave, and what is left to write. *)
Lemma read_compare param sp w w' o equal sp' :
  getClusterObj param w = (w', Ok o) → StatusEqual sp o = (Ok equal, sp') → ok sp →
  empty_param param sp →
  kind_of o = kind ∧ served o ∧
  (equal = true → stored w' kind (sup_NsName param) = Some o ∧ published sp o) ∧
  (meta_Name (meta_of o) ≠ "" → ObjectKeyFromObject o = sup_NsName param).
Proof using CL PL.
  intros Hget Heq Hok (Hk & Hn & Hs & Hp). unfold getClusterObj in Hget.
  destruct (Get _ _ w) as [w1 [o1| |]] eqn:Hg; [| |done]; injection Hget as <- <-.
  - apply get_found in Hg as (Hst & Hko & Hkey & Hserved). rw Hk in Hst Hko.
    split_and!; [done..| |done]. intros ->. split; [done|]. by eapply equal_sound.
  - split_and!; [done..| |by rw Hn]. intros ->. destruct Hp. by eapply equal_sound.
Qed.

Lemma set_stores sp sp' o o' w' n :
  ok sp → StatusEqual sp o = (Ok false, sp') → SetStatus sp' o = Ok o' → kind_of o = kind →
  (meta_Name (meta_of o) ≠ "" → ObjectKeyFromObject o = n) →
  meta_Name (meta_of o') ≠ "" → stored w' (kind_of o') (ObjectKeyFromObject o') = Some o' →
  ∃ o, stored w' kind n = Some o ∧ published sp o.
Proof using PL.
  intros Hok Heq Hset Hk Hkey Hn Hst. destruct (equal_ok _ _ _ _ Hok Heq) as [Hok' Hpub].
  destruct (set_settles _ _ _ Hok' Hset) as (Hp & Hk' & Hm & _). exists o'. split; [|by apply Hpub].
  unfold ObjectKeyFromObject in *. rw Hm in Hn Hst. rw Hk' Hk Hkey // in Hst.
Qed.

Lemma TryUpdate_settling param : settling (TryUpdateStatusFunc param) param.
Proof using CL PL.
  intros sp w sp' w' d err Htry Hok Hempty. unfold TryUpdateStatusFunc in Htry.
  destruct (getClusterObj param w) as [w1 [o|e]] eqn:Hget; [|by injection Htry as <- <- <- <-].
  destruct (StatusEqual sp o) as [[equal|e] sp1] eqn:Heq.
  2:{ injection Htry as <- <- <- <-. destruct (equal_ok _ _ _ _ Hok Heq). by split_and!. }
  destruct (equal_ok _ _ _ _ Hok Heq) as [Hok1 Hpub].
  destruct (read_compare _ _ _ _ _ _ _ Hget Heq Hok Hempty) as (Hk & _ & Hdone & Hkey).
  destruct equal; [injection Htry as <- <- <- <-; split_and!; eauto|].
  destruct (SetStatus sp1 o) as [o'|e] eqn:Hset; [|by injection Htry as <- <- <- <-].
  destruct (Status_Update o' w1) as [w2 [e|]] eqn:Hup; injection Htry as <- <- <- <-;
    split_and!; try done. intros _ _.
  apply update_stored in Hup as [Hn Hst]. by eapply set_stores.
Qed.

Lemma TryPatch_settling param : settling (TryPatchStatusFunc param) param.
Proof using CL PL.
  intros sp w sp' w' d err Htry Hok Hempty. unfold TryPatchStatusFunc in Htry.
  destruct (getClusterObj param w) as [w1 [o|e]] eqn:Hget; [|by injection Htry as <- <- <- <-].
  destruct (StatusEqual sp o) as [[equal|e] sp1] eqn:Heq.
  2:{ injection Htry as <- <- <- <-. destruct (equal_ok _ _ _ _ Hok Heq). by split_and!. }
  destruct (equal_ok _ _ _ _ Hok Heq) as [Hok1 Hpub].
  destruct (read_compare _ _ _ _ _ _ _ Hget Heq Hok Hempty) as (Hk & _ & Hdone & Hkey).
  destruct equal; [injection Htry as <- <- <- <-; split_and!; eauto|].
  destruct (SetStatus sp1 o) as [o'|e] eqn:Hset; [|by injection Htry as <- <- <- <-].
  destruct (Status_Patch o' o w1) as [w2 [e|]] eqn:Hup; injection Htry as <- <- <- <-;
    split_and!; try done. intros _ _.
  apply patch_stored in Hup as [Hn Hst]. by eapply set_stores.
Qed.

(** The retries end without an error only with the status in the cluster. *)
Lemma attempts_settle condition param n s s' :
  settling condition param → attempts condition n s (s', None) → ok s.1 → empty_param param s.1 →
  ∃ o, stored s'.2 kind (sup_NsName param) = Some o ∧ published s.1 o.
Proof.
  intros Hset Hatt. remember (s', None) as r eqn:Hr. revert Hr.
  induction Hatt as [|n s s1 Hc| |n s s1 r Hc Hatt IH]; intros Hr Hok Hempty; try done.
  - injection Hr as <-. destruct s as [sp w], s1 as [sp1 w1]. by eapply Hset in Hc as (_ & _ & Hd); eauto.
  - destruct s as [sp w], s1 as [sp1 w1]. destruct (Hset _ _ _ _ _ _ Hc Hok Hempty) as (Hok1 & Hpub & _).
    destruct IH as (o & Ho & Hp); [done..| |].
    + destruct Hempty as (? & ? & ? & Hp). split_and!; [done..|]. intros ?. by apply Hp, Hpub.
    + exists o. split; [done|]. by apply Hpub.
Qed.
End settles.

(** ** Properties *)
Section properties.
Context {RO : RangeOrder} {GS : GoSort} {WT : Wait} (now : Z).
Context {W : Type} {SC : StatusClient W} {stored : W → ObjKind → NamespacedName → option Object}.
Context {CL : ClientLaws W stored}.

Lemma newGatewayStatusPatcher_ok heap gw :
  typed_conditions (gt_Conditions (gt_data gw)) →
  (∀ name loc l, gt_Listeners (gt_data gw) !! name = Some loc → heap !! loc = Some l →
     typed_conditions (lst_Conditions l)) →
  gateway_patcher_ok (newGatewayStatusPatcher now heap gw).
Proof.
  intros Hc Hl. split; [done|]. cbn. destruct (gt_Valid (gt_data gw)); [|done].
  apply Forall_forall. intros s Hs. apply list_elem_of_omap in Hs as ([name loc] & Hin & Hs). cbn in Hs.
  apply elem_of_range in Hin. destruct (heap !! loc) as [l|] eqn:Hloc; [|done]. injection Hs as <-. cbn.
  pose proof (Hl _ _ _ Hin Hloc) as Hty. rw metav1_roundtrip //. by destruct Hty.
Qed.

(** C23: when writing the status of a Gateway ends without an error, whatever
    failed in between, the cluster holds the Gateway with the conditions of the
    tree and, when the tree has it as valid, a status for each of its listeners:
    its conditions, the kinds of routes it supports and the number of the routes
    attached to it.  An invalid Gateway has no listener in its status. *)
Theorem gateway_status_published heap gw k8s w w' :
  gt_K8sResource (gt_data gw) = Some k8s →
  typed_conditions (gt_Conditions (gt_data gw)) → gt_Conditions (gt_data gw) ≠ ∅ →
  (∀ name loc l, gt_Listeners (gt_data gw) !! name = Some loc → heap !! loc = Some l →
     typed_conditions (lst_Conditions l)) →
  writeGatewayStatus now heap gw w = Some (w', None) →
  ∃ gw', stored w' KGateway (meta_key (gw_Meta k8s)) = Some (OGateway gw') ∧
    NewConditionsFromMetav1Conditions (gw_Status_Conditions gw') = gt_Conditions (gt_data gw) ∧
    (gt_Valid (gt_data gw) = false → gw_Status_Listeners gw' = []) ∧
    (gt_Valid (gt_data gw) = true → ∀ name loc l,
       gt_Listeners (gt_data gw) !! name = Some loc → heap !! loc = Some l →
       ∃ s, s ∈ gw_Status_Listeners gw' ∧ same_listener_status (listener_status now l) s).
Proof using CL.
  intros Hk Hty Hne Hls Hw. unfold writeGatewayStatus in Hw. rw Hk in Hw. cbv zeta in Hw.
  set (param := {| sup_Object := ObjectTypeGateway; sup_NsName := meta_key (gw_Meta k8s) |}) in Hw.
  set (sp := newGatewayStatusPatcher now heap gw) in Hw.
  destruct (ExponentialBackoffWithContext _ _ _) as [[sp' w1] err] eqn:Hb. injection Hw as -> ->.
  pose proof (backoff_attempts _ Steps (TryUpdateStatusFunc (SP := gateway_patcher now) param) (sp, w)) as Ha.
  rw Hb in Ha.
  destruct (attempts_settle _ param _ _ _ (TryUpdate_settling (PL := gateway_laws now) param) Ha)
    as (o & Ho & Hp).
  - by apply newGatewayStatusPatcher_ok.
  - split_and!; try done. intros [Hc _]. apply Hne. symmetry. exact Hc.
  - cbn in Ho, Hp. destruct o as [|gw'| | | | | | | | | | |]; try done. destruct Hp as (Hc & ls & Hperm & Hf).
    exists gw'. split_and!; [done..| |].
    + intros Hv. unfold sp, newGatewayStatusPatcher in Hf. cbn in Hf. rw Hv in Hf.
      inversion Hf; subst. by apply Permutation_nil in Hperm.
    + intros Hv name loc l Hn Hl. unfold sp, newGatewayStatusPatcher in Hf. cbn in Hf. rw Hv in Hf.
      assert (listener_status now l ∈ omap (λ kv : string * nat, listener_status now <$> heap !! kv.2)
        (range (gt_Listeners (gt_data gw)))) as Hin.
      { apply list_elem_of_omap. exists (name, loc). cbn. rw Hl. split; [by apply elem_of_range|done]. }
      apply list_elem_of_lookup in Hin as [i Hi].
      destruct (Forall2_lookup_l _ _ _ _ _ Hf Hi) as (s & Hs & Hsame). exists s. split; [|done].
      rw -Hperm. by eapply list_elem_of_lookup_2.
Qed.

(** The object of a Gateway that is not found is not given up: each attempt
    writes the status to an object without a name, which the API server refuses,
    so that the four attempts are made and an error is logged. *)
Theorem missing_gateway_retries heap gw k8s w w' err :
  gt_K8sResource (gt_data gw) = Some k8s →
  typed_conditions (gt_Conditions (gt_data gw)) → gt_Conditions (gt_data gw) ≠ ∅ →
  (∀ w, (Get (meta_key (gw_Meta k8s)) ObjectTypeGateway w).2 = NotFound) →
  let param := {| sup_Object := ObjectTypeGateway; sup_NsName := meta_key (gw_Meta k8s) |} in
  (∀ sp w, gsp_conditions sp = gt_Conditions (gt_data gw) →
     ∃ o w1, ObjectKeyFromObject o = NN "" "" ∧
       TryUpdateStatusFunc (SP := gateway_patcher now) param (sp, w) =
       let '(w2, err) := Status_Update o w1 in
       ((sp, w2), (match err with None => true | Some _ => false end, None))) ∧
  (writeGatewayStatus now heap gw w = Some (w', err) → err ≠ None).
Proof using CL.
  intros Hk Hty Hne Hnone param.
  assert (∀ sp w, gsp_conditions sp = gt_Conditions (gt_data gw) →
     ∃ o w1, ObjectKeyFromObject o = NN "" "" ∧
       TryUpdateStatusFunc (SP := gateway_patcher now) param (sp, w) =
       let '(w2, err) := Status_Update o w1 in
       ((sp, w2), (match err with None => true | Some _ => false end, None))) as Htry.
  { intros sp w0 Hsp. unfold TryUpdateStatusFunc, getClusterObj. specialize (Hnone w0). cbn [sup_NsName sup_Object param].
    destruct (Get _ _ w0) as [w1 out]. cbn in Hnone. subst out. cbn [StatusEqual SetStatus gateway_patcher].
    unfold gateway_StatusEqual, gateway_SetStatus. cbn [type_assert ObjectTypeGateway].
    destruct (Conditions_Equal (gsp_conditions sp) _) eqn:Heq.
    { apply Conditions_Equal_true in Heq; [|rw Hsp; by apply typed_nonzero]. by rw Hsp in Heq. }
    cbn [negb]. match goal with |- context [Status_Update ?obj w1] => exists obj, w1 end.
    split; [done|]. by destruct (Status_Update _ w1) as [w2 [e|]]. }
  split; [done|]. intros Hw ->. unfold writeGatewayStatus in Hw. rw Hk in Hw. cbv zeta in Hw. fold param in Hw.
  set (sp := newGatewayStatusPatcher now heap gw) in Hw.
  destruct (ExponentialBackoffWithContext _ _ _) as [[sp' w1] err] eqn:Hb. injection Hw as -> ->.
  pose proof (backoff_attempts _ Steps (TryUpdateStatusFunc (SP := gateway_patcher now) param) (sp, w)) as Ha.
  rw Hb in Ha. assert (gsp_conditions (sp, w).1 = gt_Conditions (gt_data gw)) as Hsp by done.
  remember ((sp', w'), None) as r eqn:Hr. clear Hb.
  induction Ha as [|n s s1 Hc| |n s s1 r Hc Ha IH]; try done.
  - destruct s as [sp0 w0]. destruct (Htry sp0 w0 Hsp) as (o & w2 & Ho & Heq). rw Hc in Heq.
    destruct (Status_Update o w2) as [w3 [e|]] eqn:Hup; [done|]. apply update_stored in Hup as [Hn _].
    destruct Hn. by injection Ho.
  - destruct s as [sp0 w0]. destruct (Htry sp0 w0 Hsp) as (o & w2 & Ho & Heq). rw Hc in Heq.
    destruct (Status_Update o w2) as [w3 [e|]] eqn:Hup; [|done]. injection Heq as ->. by apply IH.
Qed.

(** When writing the status of a route ends without an error, the cluster
    holds the route with the conditions of the tree for each of its parents, read
    back from the statuses of the controller. *)
Theorem route_status_published {R Rule} {RK : RouteKind R Rule} {ROb : RouteObject R} empty route k8s w w' :
  rt_K8sResource (rt_data route) = Some k8s →
  wf_route_conditions (rt_Conditions (rt_data route)) →
  rc_ControllerName (rt_Conditions (rt_data route)) = ControllerName (rt_data route) →
  data (rc_Conditions (rt_Conditions (rt_data route))) ≠ ∅ →
  kind_of empty = ro_kind → meta_Name (meta_of empty) = "" →
  (∃ r, ro_assert empty = Some r ∧ ro_Parents r = []) → served empty →
  writeRouteStatus now empty route w = Some (w', None) →
  ∃ r', stored w' ro_kind (meta_key (route_Meta k8s)) = Some (ro_object r') ∧
    NewRouteConditionsFromV1RouteConditions
      (FilterStatusByControllerName (ro_Parents r') (ControllerName (rt_data route)))
      (ControllerName (rt_data route)) = rt_Conditions (rt_data route).
Proof using CL.
  intros Hk Hwf Hname Hne He1 He2 (r0 & He3 & He4) He5 Hw. unfold writeRouteStatus in Hw. rw Hk in Hw.
  cbv zeta in Hw.
  set (param := {| sup_Object := empty; sup_NsName := meta_key (route_Meta k8s) |}) in Hw.
  set (sp := newRouteStatusPatcher route) in Hw.
  destruct (ExponentialBackoffWithContext _ _ _) as [[sp' w1] err] eqn:Hb. injection Hw as -> ->.
  pose proof (backoff_attempts _ Steps (TryPatchStatusFunc (SP := route_patcher now R) param) (sp, w)) as Ha.
  rw Hb in Ha.
  destruct (attempts_settle _ param _ _ _ (TryPatch_settling (PL := route_laws now) param) Ha)
    as (o & Ho & r' & Hr' & Hp).
  - by split.
  - split_and!; try done. intros (r & Hr & Hp). cbn in Hr. rw He3 in Hr. injection Hr as <-.
    rw He4 in Hp. cbn in Hp. apply Hne. rw -Hp. done.
  - cbn in Ho. apply ro_object_assert in Hr' as ->. by exists r'.
Qed.
End properties.

(** C24: setting the status of a route keeps the statuses that the other
    controllers wrote, replaces those of this controller by one status per
    parent of its conditions, and leaves a status that compares as up to date. *)
Theorem route_status_keeps_others (RO : RangeOrder) (GS : GoSort) now {R} {ROb : RouteObject R} sp o o' :
  wf_route_conditions (rsp_conditions sp) →
  rc_ControllerName (rsp_conditions sp) = rsp_controllerName sp →
  route_SetStatus now R sp o = Ok o' →
  ∃ route route', ro_assert o = Some route ∧ ro_assert o' = Some route' ∧
    filter (λ p, rps_ControllerName p ≠ rsp_controllerName sp) (ro_Parents route') ≡ₚ
    filter (λ p, rps_ControllerName p ≠ rsp_controllerName sp) (ro_Parents route) ∧
    FilterStatusByControllerName (ro_Parents route') (rsp_controllerName sp) ≡ₚ
    ToV1RouteConditions now (rsp_conditions sp) ∧
    route_StatusEqual R sp o' = Ok true.
Proof.
  intros Hwf Hname Hset.
  destruct (route_SetStatus_parents now sp o o' (conj Hwf Hname) Hset) as (r & r' & H1 & H2 & H3 & H4).
  exists r, r'. split_and!; [done..|].
  exact (proj2 (proj2 (proj2 (set_settles (PatcherLaws := route_laws now) sp o o' (conj Hwf Hname) Hset)))).
Qed.

(** *** UpdateStatus does not dereference a nil object *)
Section total.
Context {RO : RangeOrder} {GS : GoSort} {WT : Wait} (now : Z) {W : Type} {SC : StatusClient W}.

Lemma update_loop_total {V} (select : V → bool) (write : V → W → option (W * option string))
    (m : gmap NamespacedName V) s :
  (∀ k v w, m !! k = Some v → select v = true → is_Some (write v w)) →
  is_Some s → is_Some (update_loop select write m s).
Proof.
  intros Hw. unfold update_loop. revert s.
  enough (∀ s, is_Some s → is_Some (foldl (λ s kv,
    match s with
    | Some (w, true) =>
        if ctx_Done w then Some (w, false)
        else if negb (select kv.2) then Some (w, true)
        else (λ r, (r.1, true)) <$> write kv.2 w
    | _ => s
    end) s (range m))) by done.
  intros s Hs. apply (foldl_ind is_Some); [done|].
  intros s' [k v] Hin%elem_of_range ([w [|]] & ->); [|by eexists].
  destruct (ctx_Done w); [by eexists|]. cbn [fst snd]. destruct (select v) eqn:Hsel; [|by eexists]. cbn.
  by destruct (Hw k v w Hin Hsel) as [r ->].
Qed.

(** When the objects the batch touched are there, as they are for the upserted
    entries of the trees, the update of the statuses runs to its end. *)
Theorem UpdateStatus_total classes gateways heap https tlss w :
  (∀ k v, classes !! k = Some v → touched_status (TreeCore.Status (gc_TreeStatus v)) = true →
     is_Some (gc_K8sResource (gc_data v))) →
  (∀ k v, gateways !! k = Some v → touched_status (TreeCore.Status (gt_TreeStatus v)) = true →
     is_Some (gt_K8sResource (gt_data v))) →
  (∀ k v, https !! k = Some v → touched_status (TreeCore.Status (rt_TreeStatus v)) = true →
     is_Some (rt_K8sResource (rt_data v))) →
  (∀ k v, tlss !! k = Some v → touched_status (TreeCore.Status (rt_TreeStatus v)) = true →
     is_Some (rt_K8sResource (rt_data v))) →
  is_Some (UpdateStatus now classes gateways heap https tlss w).
Proof.
  intros H1 H2 H3 H4. unfold UpdateStatus. cbv zeta.
  apply fmap_is_Some. repeat apply update_loop_total; [..|done].
  - intros k r w' Hk Hs. destruct (H4 k r Hk Hs) as [k8s Hr].
    unfold writeTLSRouteStatus, writeRouteStatus. rw Hr. by destruct (ExponentialBackoffWithContext _ _ _) as [[? ?] ?].
  - intros k r w' Hk Hs. destruct (H3 k r Hk Hs) as [k8s Hr].
    unfold writeHTTPRouteStatus, writeRouteStatus. rw Hr. by destruct (ExponentialBackoffWithContext _ _ _) as [[? ?] ?].
  - intros k g w' Hk Hs. destruct (H2 k g Hk Hs) as [k8s Hr].
    unfold writeGatewayStatus. rw Hr. by destruct (ExponentialBackoffWithContext _ _ _) as [[? ?] ?].
  - intros k c w' Hk [Hs _]%andb_true_iff. destruct (H1 k c Hk Hs) as [k8s Hr].
    unfold writeGatewayClassStatus. rw Hr. by destruct (ExponentialBackoffWithContext _ _ _) as [[? ?] ?].
Qed.
End total.

(** ** Concrete inputs *)

(** A cluster, and the number of writes that fail before one is accepted. *)
Definition ExampleCluster : Type := gmap NamespacedName Object * nat.

Definition served_b (o : Object) : bool :=
  let typed := forallb (λ p, forallb (λ c, negb (bool_decide (mc_Type c = ""))) (rps_Conditions p)) in
  match o with
  | OHTTPRoute r => typed (hroute_Status_Parents r)
  | OTLSRoute r => typed (troute_Status_Parents r)
  | _ => true
  end.

Lemma served_b_spec o : served_b o = true → served o.
Proof.
  assert (∀ ps, forallb (λ p, forallb (λ c, negb (bool_decide (mc_Type c = ""))) (rps_Conditions p)) ps = true →
    typed_statuses ps) as Hps.
  { intros ps Hps p c Hp Hc. rw forallb_forall in Hps. specialize (Hps p). rw forallb_forall in Hps.
    assert (negb (bool_decide (mc_Type c = "")) = true) as H.
    { apply Hps; by apply list_elem_of_In. }
    by apply negb_true_iff, bool_decide_eq_false in H. }
  destruct o; cbn; auto.
Qed.

Definition example_write (o : Object) (w : ExampleCluster) : ExampleCluster * option string :=
  if bool_decide (meta_Name (meta_of o) = "") then (w, Some "resource name may not be empty")
  else match w.2 with
       | 0 => ((<[ObjectKeyFromObject o := o]> w.1, 0), None)
       | S n => ((w.1, n), Some "conflict")
       end.

#[export] Instance example_status_client : StatusClient ExampleCluster := {|
  Get n empty w :=
    (w, match w.1 !! n with
        | Some o =>
            if bool_decide (kind_of o = kind_of empty) && bool_decide (ObjectKeyFromObject o = n) && served_b o
            then Found o else NotFound
        | None => NotFound
        end);
  Status_Update := example_write;
  Status_Patch o _ := example_write o;
  ctx_Done _ := false
|}.

Definition example_stored (w : ExampleCluster) (k : ObjKind) (n : NamespacedName) : option Object :=
  match w.1 !! n with Some o => if bool_decide (kind_of o = k) then Some o else None | None => None end.

Lemma example_write_stored o w w' :
  example_write o w = (w', None) →
  meta_Name (meta_of o) ≠ "" ∧ example_stored w' (kind_of o) (ObjectKeyFromObject o) = Some o.
Proof.
  unfold example_write, example_stored. case_bool_decide; [done|]. destruct w.2; [|done]. intros [= <-].
  cbn. by rw lookup_insert_eq bool_decide_eq_true_2.
Qed.

#[export] Instance example_status_laws : ClientLaws ExampleCluster example_stored.
Proof.
  split.
  - intros n empty w w' o. cbn. destruct (w.1 !! n) as [o'|] eqn:Hn; [|done].
    destruct (_ && _) eqn:Hb; [|done]. apply andb_true_iff in Hb as [[Hk Hkey]%andb_true_iff Hs].
    apply bool_decide_eq_true in Hk. apply bool_decide_eq_true in Hkey. intros [= <- <-].
    split_and!; [|done..|by apply served_b_spec].
    unfold example_stored. by rw Hn bool_decide_eq_true_2.
  - apply example_write_stored.
  - intros o old. apply example_write_stored.
Qed.

Fixpoint retry {A} (n : nat) (condition : ConditionFunc A) (s : A) : A * option string :=
  match n with
  | 0 => (s, Some "timed out waiting for the condition")
  | S n =>
      let '(s, (done_, err)) := condition s in
      match err with
      | Some err => (s, Some err)
      | None => if done_ then (s, None) else retry n condition s
      end
  end.

#[export] Instance example_wait : Wait.
Proof.
  refine {| ExponentialBackoffWithContext := @retry |}.
  intros A n condition. induction n as [|n IH]; intros s; cbn; [apply attempts_stop|].
  destruct (condition s) as [s' [d [err|]]] eqn:Hc; [by eapply attempts_error|].
  destruct d; [by apply attempts_done|]. by eapply attempts_retry.
Defined.

(** A valid gateway with a listener, in a cluster where two writes fail. *)
Definition example_status_gateway : Gateway :=
  mkGateway (mkGatewayData (Some (example_gateway [example_listener 80 "HTTP"])) None NewGatewayAcceptedOK
    {[ "web" := 0 ]} zero_CheckResult zero_CheckResult zero_CheckResult true) zero_TreeUpdate.

Definition example_status_heap : Listeners :=
  {[ 0 := mkListener (example_listener 80 "HTTP") NewListenerAcceptedOK {[ NN "ns" "route" ]} (NN "ns" "gw")
            zero_CheckResult zero_CheckResult zero_CheckResult zero_CheckResult [RGK None "HTTPRoute"] true ]}.

Definition example_cluster : ExampleCluster :=
  ({[ NN "ns" "gw" := OGateway (example_gateway [example_listener 80 "HTTP"]) ]}, 2).

Lemma typed_one k s r m : k ≠ "" → typed_conditions (one k k s r m).
Proof. intros Hk. split; [apply wf_one|]. by apply lookup_singleton_ne. Qed.

Lemma gateway_status_published_witness :
  ∃ w' gw', writeGatewayStatus (RO := key_order) (GS := stable_sort) 5 example_status_heap
      example_status_gateway example_cluster = Some (w', None) ∧
    example_stored w' KGateway (NN "ns" "gw") = Some (OGateway gw') ∧
    NewConditionsFromMetav1Conditions (gw_Status_Conditions gw') = NewGatewayAcceptedOK.
Proof.
  destruct (writeGatewayStatus (RO := key_order) (GS := stable_sort) 5 example_status_heap
    example_status_gateway example_cluster) as [[w' [err|]]|] eqn:Hw.
  - exfalso. assert (option_map snd (writeGatewayStatus (RO := key_order) (GS := stable_sort) 5
      example_status_heap example_status_gateway example_cluster) = Some None) as H by vm_refl.
    by rw Hw in H.
  - destruct (gateway_status_published (RO := key_order) (GS := stable_sort) (WT := example_wait)
      (stored := example_stored) 5 example_status_heap example_status_gateway
      (example_gateway [example_listener 80 "HTTP"]) example_cluster w') as (gw' & H1 & H2 & _).
    + done.
    + by apply typed_one.
    + by apply map_non_empty_singleton.
    + intros name loc l Hn Hl. cbn in Hn. apply lookup_singleton_Some in Hn as [_ <-].
      unfold example_status_heap in Hl. apply lookup_singleton_Some in Hl as [_ <-]. by apply typed_one.
    + exact Hw.
    + exists w', gw'. split; [exact eq_refl|]. split; [exact H1|exact H2].
  - exfalso. assert (option_map snd (writeGatewayStatus (RO := key_order) (GS := stable_sort) 5
      example_status_heap example_status_gateway example_cluster) = Some None) as H by vm_refl.
    by rw Hw in H.
Defined.

(** A cluster that lost the object: every write fails. *)
Definition gone_client : StatusClient unit := {|
  Get _ _ w := (w, NotFound);
  Status_Update _ w := (w, Some "not found");
  Status_Patch _ _ w := (w, Some "not found");
  ctx_Done _ := false
|}.

Lemma gone_laws : ClientLaws (SC := gone_client) unit (λ _ _ _, None).
Proof. by split. Qed.

Lemma missing_gateway_retries_witness :
  ∃ err, writeGatewayStatus (SC := gone_client) (RO := key_order) (GS := stable_sort) 5 example_status_heap
    example_status_gateway tt = Some (tt, err) ∧ err ≠ None.
Proof.
  destruct (writeGatewayStatus (SC := gone_client) (RO := key_order) (GS := stable_sort) 5
    example_status_heap example_status_gateway tt) as [[[] err]|] eqn:Hw.
  - exists err. split; [exact eq_refl|].
    refine (proj2 (missing_gateway_retries (CL := gone_laws) (RO := key_order) (GS := stable_sort)
      (WT := example_wait) 5 example_status_heap example_status_gateway
      (example_gateway [example_listener 80 "HTTP"]) tt tt err eq_refl _ _ _) Hw).
    + by apply typed_one.
    + by apply map_non_empty_singleton.
    + intros w. exact eq_refl.
  - exfalso. assert (is_Some_b (writeGatewayStatus (SC := gone_client) (RO := key_order) (GS := stable_sort) 5
      example_status_heap example_status_gateway tt) = true) as H by vm_refl. by rw Hw in H.
Defined.

(** A route with one accepted parent, whose object carries the status of another
    controller. *)
Definition example_status_conditions : RouteConditions :=
  MergeOverrideConditionsForParentRef (NewRouteConditions "haproxy.org/gate") example_parentRef ConditionAccepted.

Definition example_status_route : Route K8sHTTPRoute K8sHTTPRouteRule :=
  let d := example_route_data "a" ["svc"] in
  mkRoute (mkRouteData (rt_K8sResource d) (rt_Listeners d) (Rules d) example_status_conditions
    "haproxy.org/gate" (CheckParentRefs d) true) zero_TreeUpdate.

Definition example_other_status : RouteParentStatus :=
  {| rps_ParentRef := example_parentRef; rps_ControllerName := "other"; rps_Conditions := [] |}.

Definition example_status_object : K8sHTTPRoute :=
  ro_SetParents [example_other_status] (example_route "a" ["svc"]).

Lemma example_status_conditions_wf : wf_route_conditions example_status_conditions.
Proof.
  apply wf_MergeForParentRef; [apply wf_NewRouteConditions|apply wf_one|].
  repeat split; done.
Qed.

Lemma route_status_published_witness :
  ∃ w' r', writeHTTPRouteStatus (RO := key_order) (GS := stable_sort) 5 example_status_route
      ({[ NN "ns" "a" := OHTTPRoute example_status_object ]}, 3) = Some (w', None) ∧
    example_stored w' KHTTPRoute (NN "ns" "a") = Some (OHTTPRoute r').
Proof.
  set (w := ({[ NN "ns" "a" := OHTTPRoute example_status_object ]}, 3) : ExampleCluster).
  assert (option_map snd (writeHTTPRouteStatus (RO := key_order) (GS := stable_sort) 5
    example_status_route w) = Some None) as Hrun by vm_refl.
  destruct (writeHTTPRouteStatus (RO := key_order) (GS := stable_sort) 5 example_status_route w)
    as [[w' err]|] eqn:Hw; [|discriminate Hrun]. injection Hrun as ->.
  destruct (route_status_published (RO := key_order) (GS := stable_sort) (WT := example_wait)
    (stored := example_stored) (RK := HTTPRoute_kind) 5 ObjectTypeHTTPRoute example_status_route
    (example_route "a" ["svc"]) w w' eq_refl example_status_conditions_wf eq_refl) as (r' & H1 & _).
  - apply insert_non_empty.
  - exact eq_refl.
  - exact eq_refl.
  - eexists. split; exact eq_refl.
  - clear. intros p c Hp. by apply elem_of_nil in Hp.
  - exact Hw.
  - exists w', r'. split; [exact Hw|exact H1].
Defined.

Lemma route_status_keeps_others_witness :
  ∃ route', route_SetStatus (RO := key_order) (GS := stable_sort) 5 K8sHTTPRoute
      (newRouteStatusPatcher example_status_route) (OHTTPRoute example_status_object) = Ok (OHTTPRoute route') ∧
    example_other_status ∈ hroute_Status_Parents route'.
Proof.
  destruct (route_SetStatus (RO := key_order) (GS := stable_sort) 5 K8sHTTPRoute
    (newRouteStatusPatcher example_status_route) (OHTTPRoute example_status_object)) as [o'|] eqn:Hset; [|done].
  destruct (route_status_keeps_others key_order stable_sort 5 (R := K8sHTTPRoute) (newRouteStatusPatcher example_status_route)
    (OHTTPRoute example_status_object) o') as (r & r' & Hr & Hr' & Hp & _ & _).
  - apply example_status_conditions_wf.
  - done.
  - exact Hset.
  - exists r'. apply ro_object_assert in Hr' as ->. split; [done|]. injection Hr as <-.
    assert (example_other_status ∈ filter (λ p, rps_ControllerName p ≠ "haproxy.org/gate")
      (hroute_Status_Parents r')) as [_ Hin]%list_elem_of_filter; [|done].
    change (hroute_Status_Parents r') with (ro_Parents r'). rw Hp. cbn. by left.
Defined.
