(* ===== verification/Certificates.v ===== *)
(** * Certificates: haproxy/certificate, haproxy/storage/cert.go and crt-list.go,
    tree/certificate_builder.go, and the certificates of tree/controller_store.go

    The certificates the listeners reference, one file per secret, and the
    lists of them, one file per listener: how a batch of changes is turned into
    files to create, update and delete, and what is then on disk.

    [CertPath] takes the first two bytes of the name of a secret, and panics on
    a shorter one; a result [None] is that panic. *)

From Stdlib Require Import Ascii.
From S2P Require Import Prelude GoStrings FileUtils Objects Utils Conditions Store References TreeCore.

(** ** haproxy/certificate *)
Record CertificateData := mkCertificateData {
  cert_Path : FilePath; cert_Data : string; cert_ReloadNeeded : bool
}.

Definition certificate_NewCertificateData (path : FilePath) (data : string) : CertificateData :=
  mkCertificateData path data true.

Definition Certificate_MapKey (c : CertificateData) : string := FileName (cert_Path c).

Record CrtListData := mkCrtListData {
  crt_Path : FilePath; crt_Content : list string; crt_ReloadNeeded : bool
}.

Definition certificate_NewCrtListData (path : FilePath) (certificateFullPaths : list string) :
    CrtListData := mkCrtListData path certificateFullPaths true.

Definition CrtList_MapKey (c : CrtListData) : string := FileName (crt_Path c).

(** ** storage/cert.go and crt-list.go *)
Class CertEnv := { CertsBaseDir : string; CertFilesBaseDir : string }.

Section storage.
Context {CE : CertEnv}.

Definition cert_file_name (secretKey : NamespacedName) : string :=
  Namespace secretKey +:+ "_" +:+ Name secretKey +:+ ".pem".

Definition CertPath (secretKey : NamespacedName) : option FilePath :=
  match Name secretKey with
  | String a (String b _) =>
      Some (mkFilePath
        (filepath_Joins [CertsBaseDir; Namespace secretKey; String a (String b "")])
        (cert_file_name secretKey))
  | _ => None
  end.

Definition certContent (key crt : string) : string :=
  (if negb (bool_decide (key = "")) && negb (HasSuffix key (String newline ""))
   then key +:+ String newline "" else key) +:+ crt.

(** One iteration of the loop over the kinds of keys: [pemOk] and [certData]. *)
Definition cert_of_kind (secret : K8sSecret) (k : string) (certData : option CertificateData) :
    option (option CertificateData) :=
  let secretNsName := meta_key (sec_Meta secret) in
  match sec_Data secret !! (k +:+ ".key"), sec_Data secret !! (k +:+ ".crt") with
  | Some keyValue, Some crtValue =>
      certFilePath ← CertPath secretNsName;
      let certPath := FullPath certFilePath in
      let certFilePath :=
        if negb (bool_decide (k = "tls"))
        then mkFilePath (Dir certFilePath) (certPath +:+ "." +:+ k) else certFilePath in
      Some (Some (certificate_NewCertificateData certFilePath (certContent keyValue crtValue)))
  | _, _ => Some certData
  end.

Definition NewCertificateData (secret : K8sSecret) : option (result CertificateData) :=
  certData ← mfold (cert_of_kind secret) ["tls"; "rsa"; "ecdsa"; "dsa"] None;
  Some match certData with
       | Some certData => Ok certData
       | None =>
           Err ("certificate or private key missing in " +:+
                NamespacedName_String (meta_key (sec_Meta secret)))
       end.

Definition CertListPath (listenerKey : NamespacedName) : FilePath :=
  mkFilePath CertFilesBaseDir (Namespace listenerKey +:+ "_" +:+ Name listenerKey +:+ ".list").

Definition NewCrtListData {RO : RangeOrder} (listenerKey : NamespacedName)
    (secretKeys : gset NamespacedName) : option CrtListData :=
  certFullPaths ← mapM (λ secretKey, FullPath <$> CertPath secretKey) (range_set secretKeys);
  Some (certificate_NewCrtListData (CertListPath listenerKey) (SortStrings certFullPaths)).
End storage.

(** *** The files

    The operations on a path may fail, according to [disk_ok]: the error is
    ignored, and the file stays as it was.  Directories are left out. *)
Abbreviation Disk := (gmap string string).

Section disk.
Context (disk_ok : string → bool).

Definition write_file (path content : string) (d : Disk) : Disk :=
  if disk_ok path then <[path := content]> d else d.

Definition remove_file (path : string) (d : Disk) : Disk :=
  if disk_ok path then delete path d else d.

Definition WriteOnDisk (certData : CertificateData) : Disk → Disk :=
  write_file (FullPath (cert_Path certData)) (cert_Data certData).

Definition DeleteFromDisk (certData : CertificateData) : Disk → Disk :=
  remove_file (FullPath (cert_Path certData)).

Definition crt_list_text (content : list string) : string :=
  foldl (λ text crtFullPath, text +:+ crtFullPath +:+ String newline "") ""
    (SortStrings content).

Definition WriteCrtListOnDisk (crtList : CrtListData) : Disk → Disk :=
  write_file (FullPath (crt_Path crtList)) (crt_list_text (crt_Content crtList)).

Definition DeleteCrtListFromDisk (crtListData : CrtListData) : Disk → Disk :=
  remove_file (FullPath (crt_Path crtListData)).
End disk.

(** ** controller_store.go: [CertUpdates] and [CrtListUpdates] *)
Record FileUpdates (D : Type) := mkFileUpdates {
  fu_Created : gmap string D; fu_Updated : gmap string D; fu_Deleted : gmap string D
}.
Arguments mkFileUpdates {D}.
Arguments fu_Created {D}.
Arguments fu_Updated {D}.
Arguments fu_Deleted {D}.

Abbreviation CertUpdates := (FileUpdates CertificateData).
Abbreviation CrtListUpdates := (FileUpdates CrtListData).

Definition reset_file_updates {D} : FileUpdates D := mkFileUpdates ∅ ∅ ∅.
Definition ResetCertificateUpdates : CertUpdates := reset_file_updates.
Definition ResetCrtListUpdates : CrtListUpdates := reset_file_updates.

Definition addCreated {D} (MapKey : D → string) (c : D) (u : FileUpdates D) : FileUpdates D :=
  mkFileUpdates (<[MapKey c := c]> (fu_Created u)) (fu_Updated u) (fu_Deleted u).
Definition addUpdated {D} (MapKey : D → string) (c : D) (u : FileUpdates D) : FileUpdates D :=
  mkFileUpdates (fu_Created u) (<[MapKey c := c]> (fu_Updated u)) (fu_Deleted u).
Definition addDeleted {D} (MapKey : D → string) (c : D) (u : FileUpdates D) : FileUpdates D :=
  mkFileUpdates (fu_Created u) (fu_Updated u) (<[MapKey c := c]> (fu_Deleted u)).

Definition addCreatedCertificate := addCreated Certificate_MapKey.
Definition addUpdatedCertificate := addUpdated Certificate_MapKey.
Definition addDeletedCertificate := addDeleted Certificate_MapKey.
Definition addCreatedCrtList := addCreated CrtList_MapKey.
Definition addUpdatedCrtList := addUpdated CrtList_MapKey.
Definition addDeletedCrtList := addDeleted CrtList_MapKey.

(** ** tree/certificate_builder.go *)

(** The secrets referenced, each with the listeners that reference it. *)
Abbreviation RefSecrets := (gmap NamespacedName (gset NamespacedName)).

Section builder.
Context {RO : RangeOrder} {CE : CertEnv}.
Context (secrets : gmap NamespacedName Secret).
Context (secretUpdates : gmap NamespacedName (Update K8sSecret)).

(** *** Certificates *)
Definition new_referenced_secret (nsName : NamespacedName) (u : CertUpdates) : option CertUpdates :=
  match secrets !! nsName with
  | None => Some u
  | Some secret =>
      match Status (TreeStatus secret) with
      | StatusDeleted => Some u
      | _ =>
          k8s ← K8sResource secret;
          certData ← NewCertificateData k8s;
          Some match certData with
               | Err _ => u
               | Ok certData => addCreatedCertificate certData u
               end
      end
  end.

Definition handleNewReferencedSecretsStorage (previousRefSecrets newRefSecrets : RefSecrets)
    (u : CertUpdates) : option CertUpdates :=
  mfold new_referenced_secret (range_set (SetDifference newRefSecrets previousRefSecrets)) u.

Definition delete_secret (nsName : NamespacedName) (u : CertUpdates) : option CertUpdates :=
  certPath ← CertPath nsName;
  Some (addDeletedCertificate (certificate_NewCertificateData certPath "") u).

Definition handleDeReferencedSecretsStorage (previousRefSecrets newRefSecrets : RefSecrets)
    (u : CertUpdates) : option CertUpdates :=
  mfold delete_secret (range_set (SetDifference previousRefSecrets newRefSecrets)) u.

Definition updated_secret (secretKey : NamespacedName) (u : CertUpdates) : option CertUpdates :=
  match secretUpdates !! secretKey with
  | None => Some u
  | Some secretUpdate =>
      match UStatus secretUpdate with
      | StatusUpserted =>
          k8s ← NewObject secretUpdate;
          certData ← NewCertificateData k8s;
          Some match certData with
               | Err _ => u
               | Ok certData =>
                   match OldObject secretUpdate with
                   | None => addCreatedCertificate certData u
                   | Some _ => addUpdatedCertificate certData u
                   end
               end
      | StatusDeleted => delete_secret secretKey u
      | StatusUnchanged => Some u
      end
  end.

Definition handleUpdatedSecretsStorage (previousRefSecrets newRefSecrets : RefSecrets)
    (u : CertUpdates) : option CertUpdates :=
  mfold updated_secret (range_set (SetIntersection previousRefSecrets newRefSecrets)) u.

(** *** Lists of certificates *)
Definition secretsPerGatewayListener (gatewaysPerSecret : RefSecrets) :
    gmap NamespacedName (gset NamespacedName) :=
  range_fold (λ secretKey gateways secretsPerGateway,
    foldl (λ secretsPerGateway gatewayKey,
      <[gatewayKey := {[secretKey]} ∪ default ∅ (secretsPerGateway !! gatewayKey)]>
        secretsPerGateway)
      secretsPerGateway (range_set gateways)) gatewaysPerSecret ∅.

(** The set that is returned; the keys the function also deletes from its
    argument are not read again. *)
Definition keepOnlyExistingSecrets (secretKeys : gset NamespacedName) : gset NamespacedName :=
  foldl (λ res secretKey,
    match secrets !! secretKey with
    | None => res
    | Some secret =>
        match Status (TreeStatus secret) with
        | StatusDeleted => res
        | _ => {[secretKey]} ∪ res
        end
    end) ∅ (range_set secretKeys).

Definition handleNewReferencedCrtList (previousSecrets newSecrets : RefSecrets)
    (u : CrtListUpdates) : option CrtListUpdates :=
  mfold (λ listenerKey u,
    let filteredSecretKeys := keepOnlyExistingSecrets (default ∅ (newSecrets !! listenerKey)) in
    crtListData ← NewCrtListData listenerKey filteredSecretKeys;
    Some (addCreatedCrtList crtListData u))
    (range_set (SetDifference newSecrets previousSecrets)) u.

Definition handleDeReferencedCrtList (previousSecrets newSecrets : RefSecrets)
    (u : CrtListUpdates) : option CrtListUpdates :=
  mfold (λ listenerKey u,
    crtListData ← NewCrtListData listenerKey ∅; Some (addDeletedCrtList crtListData u))
    (range_set (SetDifference previousSecrets newSecrets)) u.

(** A secret the listener referenced and still does: the set, and [crtlistUpdated]. *)
Definition unchanged_secret_ref (s : gset NamespacedName * bool) (secretKey : NamespacedName) :
    gset NamespacedName * bool :=
  match secrets !! secretKey with
  | None => s
  | Some treeSecret =>
      match Status (TreeStatus treeSecret) with
      | StatusUpserted => ({[secretKey]} ∪ s.1, true)
      | StatusDeleted => (s.1, true)
      | StatusUnchanged => ({[secretKey]} ∪ s.1, s.2)
      end
  end.

Definition crt_list_content (previousSecretRefKeys newSecretRefKeys : gset NamespacedName) :
    gset NamespacedName * bool :=
  let previous := set_entries previousSecretRefKeys in
  let new := set_entries newSecretRefKeys in
  let secretKeys := keepOnlyExistingSecrets (SetDifference new previous) in
  let s := foldl unchanged_secret_ref (secretKeys, negb (bool_decide (size secretKeys = 0)))
             (range_set (SetIntersection new previous)) in
  (s.1, if negb (bool_decide (size (SetDifference previous new) = 0)) then true else s.2).

Definition handleUpdatedCrtList (previousSecrets newSecrets : RefSecrets) (u : CrtListUpdates) :
    option CrtListUpdates :=
  mfold (λ listenerKey u,
    let '(secretKeys, crtlistUpdated) :=
      crt_list_content (default ∅ (previousSecrets !! listenerKey))
        (default ∅ (newSecrets !! listenerKey)) in
    if crtlistUpdated then
      crtListData ← NewCrtListData listenerKey secretKeys;
      Some (if negb (bool_decide (size secretKeys = 0)) then addUpdatedCrtList crtListData u
            else addDeletedCrtList crtListData u)
    else Some u)
    (range_set (SetIntersection previousSecrets newSecrets)) u.

Definition handleCrtList (previousRefSecrets newRefSecrets : RefSecrets) (u : CrtListUpdates) :
    option CrtListUpdates :=
  let previousSecrets := secretsPerGatewayListener previousRefSecrets in
  let newSecrets := secretsPerGatewayListener newRefSecrets in
  u ← handleNewReferencedCrtList previousSecrets newSecrets u;
  u ← handleDeReferencedCrtList previousSecrets newSecrets u;
  handleUpdatedCrtList previousSecrets newSecrets u.

(** *** The builder *)
Definition computeCertificateDiffs (extractGVK : ExtractGVK) (ro : ReferencedObjects)
    (certs : CertUpdates) (crts : CrtListUpdates) : option (CertUpdates * CrtListUpdates) :=
  let current := AllReferenced (ReferencedSecrets ro) (extractGVK KGateway) in
  let previous := AllReferenced (PreviousReferencedSecrets ro) (extractGVK KGateway) in
  certs ← handleNewReferencedSecretsStorage previous current certs;
  certs ← handleDeReferencedSecretsStorage previous current certs;
  certs ← handleUpdatedSecretsStorage previous current certs;
  crts ← handleCrtList previous current crts;
  Some (certs, crts).

Definition ensureCertificatesStorage (disk_ok : string → bool) (certs : CertUpdates)
    (crts : CrtListUpdates) (d : Disk) : Disk :=
  let write {D} (f : D → Disk → Disk) (m : gmap string D) d := range_fold (λ _, f) m d in
  let d := write (WriteOnDisk disk_ok) (fu_Created certs) d in
  let d := write (WriteOnDisk disk_ok) (fu_Updated certs) d in
  let d := write (DeleteFromDisk disk_ok) (fu_Deleted certs) d in
  let d := write (WriteCrtListOnDisk disk_ok) (fu_Created crts) d in
  let d := write (WriteCrtListOnDisk disk_ok) (fu_Updated crts) d in
  write (DeleteCrtListFromDisk disk_ok) (fu_Deleted crts) d.

Definition Certificate_ComputeTreeUpdates (extractGVK : ExtractGVK) (storeCertificateOnDisk : bool)
    (disk_ok : string → bool) (ro : ReferencedObjects)
    (s : CertUpdates * CrtListUpdates * Disk) : option (CertUpdates * CrtListUpdates * Disk) :=
  let '(certs, crts, d) := s in
  '(certs, crts) ← computeCertificateDiffs extractGVK ro certs crts;
  Some (certs, crts,
    if storeCertificateOnDisk then ensureCertificatesStorage disk_ok certs crts d else d).
End builder.

(** ** Updates of files

    Files of one kind: [file] gives the file of a key, and different keys have
    different files. *)
Section file_updates.
Context {RO : RangeOrder} {D : Type} (path : D → FilePath) (text : D → string).
Context (ok : NamespacedName → Prop) (file : NamespacedName → FilePath).
Context (file_plain : ∀ k, ok k → plain (FileName (file k))).
Context (file_inj : ∀ k k', ok k → ok k' → FileName (file k) = FileName (file k') → k = k').
Abbreviation name k := (FileName (file k)).
Abbreviation MapKey c := (FileName (path c)).
Implicit Types (u : FileUpdates D) (d : Disk).

Definition filed (m : gmap string D) : Prop :=
  map_Forall (λ n c, ∃ k, ok k ∧ n = name k ∧ path c = file k) m.

(** What the updates make of the file with this name: [Some None] removes it. *)
Definition pending u (n : string) : option (option string) :=
  match fu_Deleted u !! n with
  | Some _ => Some None
  | None => match fu_Updated u !! n with
            | Some c => Some (Some (text c))
            | None => Some ∘ text <$> fu_Created u !! n
            end
  end.

(** The updates are the changes [g], one at most for each key. *)
Record describes (g : gmap NamespacedName (option string)) u : Prop := {
  desc_created : filed (fu_Created u);
  desc_updated : filed (fu_Updated u);
  desc_deleted : filed (fu_Deleted u);
  desc_pending k : ok k → pending u (name k) = g !! k
}.

Lemma describes_reset : describes ∅ reset_file_updates.
Proof. split; [apply map_Forall_empty..|]. intros k _. by rw lookup_empty. Qed.

Lemma pending_None u n :
  pending u n = None → fu_Created u !! n = None ∧ fu_Updated u !! n = None ∧ fu_Deleted u !! n = None.
Proof.
  unfold pending. destruct (fu_Deleted u !! n); [done|]. destruct (fu_Updated u !! n); [done|].
  by destruct (fu_Created u !! n).
Qed.

(** The three ways to record a change. *)
Inductive change := Create | Refresh | Remove.

Definition add (ch : change) (c : D) u : FileUpdates D :=
  match ch with
  | Create => addCreated (λ c, MapKey c) c u
  | Refresh => addUpdated (λ c, MapKey c) c u
  | Remove => addDeleted (λ c, MapKey c) c u
  end.

Definition change_text (ch : change) (c : D) : option string :=
  match ch with Remove => None | _ => Some (text c) end.

Lemma pending_add ch u c n :
  pending u (MapKey c) = None →
  pending (add ch c u) n = if decide (MapKey c = n) then Some (change_text ch c) else pending u n.
Proof.
  intros (N1 & N2 & N3)%pending_None.
  destruct ch; unfold pending; cbn; case_decide; subst;
    rw ?lookup_insert_eq ?lookup_insert_ne // ?N1 ?N2 ?N3 //.
Qed.

Lemma describes_add ch g u c k :
  describes g u → ok k → g !! k = None → path c = file k →
  describes (<[k := change_text ch c]> g) (add ch c u).
Proof.
  intros [H1 H2 H3 Hp] Hk Hg Hc.
  assert (∀ m, filed m → filed (<[MapKey c := c]> m)) as Hins.
  { intros m Hm. apply map_Forall_insert_2; [|exact Hm]. exists k. by rw Hc. }
  split; [destruct ch; (exact H1 || exact H2 || exact H3 || by apply Hins)..|].
  intros k' Hk'. rw pending_add; [by rw Hc Hp|]. rw Hc.
  destruct (decide (k = k')) as [<-|Hne].
  - by rw lookup_insert_eq decide_True.
  - rw lookup_insert_ne // decide_False ?Hp //. by intros ?%file_inj.
Qed.

(** *** Their effect on the files *)
Definition write_text (disk_ok : string → bool) (c : D) : Disk → Disk :=
  write_file disk_ok (FullPath (path c)) (text c).
Definition remove_text (disk_ok : string → bool) (c : D) : Disk → Disk :=
  remove_file disk_ok (FullPath (path c)).

Definition apply_updates u d : Disk :=
  let d := range_fold (λ _, write_text (λ _, true)) (fu_Created u) d in
  let d := range_fold (λ _, write_text (λ _, true)) (fu_Updated u) d in
  range_fold (λ _, remove_text (λ _, true)) (fu_Deleted u) d.

Lemma FullPath_file k k' :
  ok k → ok k' → FullPath (file k) = FullPath (file k') ↔ k = k'.
Proof.
  intros Hk Hk'. split; [|by intros ->]. intros Heq. apply file_inj; [done..|].
  apply FullPath_inj; by auto.
Qed.

Lemma files_loop (f : D → option string) (step : D → Disk → Disk) (m : gmap string D) d :
  (∀ c d, step c d = partial_alter (λ _, f c) (FullPath (path c)) d) → filed m →
  (∀ k, ok k → range_fold (λ _, step) m d !! FullPath (file k) =
     match m !! name k with Some c => f c | None => d !! FullPath (file k) end) ∧
  (∀ p, (∀ k, ok k → FullPath (file k) ≠ p) → range_fold (λ _, step) m d !! p = d !! p).
Proof.
  intros Hstep Hm. apply (range_fold_ind (λ dn s,
    (∀ k, ok k → s !! FullPath (file k) =
       match dn !! name k with Some c => f c | None => d !! FullPath (file k) end) ∧
    (∀ p, (∀ k, ok k → FullPath (file k) ≠ p) → s !! p = d !! p)) _ m d).
  { split; [|done]. intros k _. by rw lookup_empty. }
  intros n c dn s Hn _ _ [H1 H2]. rw Hstep. destruct (Hm _ _ Hn) as (k0 & Hk0 & -> & ->).
  split.
  - intros k Hk. destruct (decide (k0 = k)) as [<-|Hne].
    + by rw lookup_partial_alter_eq lookup_insert_eq.
    + rw lookup_partial_alter_ne; [by intros ?%FullPath_file|].
      rw lookup_insert_ne; [by intros ?%file_inj|]. by apply H1.
  - intros p Hp. rw lookup_partial_alter_ne; [by apply Hp|]. by apply H2.
Qed.

Lemma apply_updates_spec g u d :
  describes g u →
  (∀ k, ok k → apply_updates u d !! FullPath (file k) =
     match g !! k with Some v => v | None => d !! FullPath (file k) end) ∧
  (∀ p, (∀ k, ok k → FullPath (file k) ≠ p) → apply_updates u d !! p = d !! p).
Proof.
  intros [H1 H2 H3 Hp]. unfold apply_updates.
  set (w := write_text (λ _, true)). set (r := remove_text (λ _, true)).
  assert (∀ c d, w c d = partial_alter (λ _, Some (text c)) (FullPath (path c)) d) as Hw by done.
  assert (∀ c d, r c d = partial_alter (λ _, None) (FullPath (path c)) d) as Hr by done.
  destruct (files_loop _ w _ d Hw H1) as [A1 B1].
  destruct (files_loop _ w _ (range_fold (λ _, w) (fu_Created u) d) Hw H2) as [A2 B2].
  destruct (files_loop _ r _ (range_fold (λ _, w) (fu_Updated u)
    (range_fold (λ _, w) (fu_Created u) d)) Hr H3) as [A3 B3]. cbv zeta. split.
  - intros k Hk. rw A3 // -(Hp k Hk). unfold pending.
    destruct (fu_Deleted u !! name k); [done|]. rw A2 //.
    destruct (fu_Updated u !! name k); [done|]. rw A1 //. by destruct (fu_Created u !! name k).
  - intros p Hno. by rw B3 // B2 // B1.
Qed.

(** A loop over keys, each recording the change [h] of its key, if any. *)
Definition with_change (g : gmap NamespacedName (option string)) k (v : option (option string)) :=
  match v with Some v => <[k := v]> g | None => g end.

Lemma describes_mfold (f : NamespacedName → FileUpdates D → option (FileUpdates D)) h keys g u :
  NoDup keys → (∀ k, k ∈ keys → g !! k = None) → describes g u →
  (∀ k g u, k ∈ keys → describes g u → g !! k = None →
     ∃ u', f k u = Some u' ∧ describes (with_change g k (h k)) u') →
  ∃ u' g', mfold f keys u = Some u' ∧ describes g' u' ∧
    ∀ k, g' !! k = if decide (k ∈ keys) then h k else g !! k.
Proof.
  intros Hnd. revert g u. induction Hnd as [|k keys Hk _ IH]; intros g u Hg Hd Hf.
  { exists u, g. split_and!; [done..|]. intros k.
    destruct (decide _) as [Hin|]; [by apply elem_of_nil in Hin|done]. }
  destruct (Hf k g u) as (u1 & Hu1 & Hd1); [by left|done|by apply Hg; left|].
  destruct (IH (with_change g k (h k)) u1) as (u' & g' & Hu' & Hd' & Hg'); [|done|..].
  - intros k' Hk'. destruct (h k); cbn; [|apply Hg; by right].
    rw lookup_insert_ne; [by intros ->|]. apply Hg. by right.
  - intros. apply Hf; [by right|done..].
  - exists u', g'. rw mfold_cons Hu1. split_and!; [done..|]. intros k'. rw Hg'.
    destruct (decide (k' ∈ keys)) as [Hin|Hin].
    + rw decide_True //. by right.
    + destruct (decide (k' = k)) as [->|Hne].
      * rw decide_True; [by left|]. assert (g !! k = None) as Hgk by (apply Hg; by left).
        destruct (h k); cbn; by rw ?lookup_insert_eq.
      * rw decide_False; [by intros [->|?]%elem_of_cons|]. destruct (h k); cbn; [|done].
        by rw lookup_insert_ne.
Qed.
End file_updates.

(** ** The names of the files *)
Section names.
Context {CE : CertEnv}.

(** The namespaces are DNS labels, and the names have two bytes or more: a
    secret of one byte makes [CertPath] panic. *)
Definition file_key_ok (k : NamespacedName) : Prop :=
  has_byte "/" (Namespace k) = false ∧ has_byte underscore (Namespace k) = false ∧
  has_byte "/" (Name k) = false.

Definition secret_key_ok (k : NamespacedName) : Prop :=
  file_key_ok k ∧ (2 ≤ String.length (Name k))%nat.

Definition cert_file (k : NamespacedName) : FilePath :=
  mkFilePath (filepath_Joins [CertsBaseDir; Namespace k; String.substring 0 2 (Name k)])
    (cert_file_name k).

Lemma CertPath_file k : (2 ≤ String.length (Name k))%nat → CertPath k = Some (cert_file k).
Proof.
  unfold CertPath, cert_file. destruct (Name k) as [|a [|b n]]; cbn; try lia.
  intros _. repeat f_equal. by destruct n.
Qed.

(** [ns_name] and an extension. *)
Lemma underscore_inj ns n ns' n' :
  has_byte underscore ns = false → has_byte underscore ns' = false →
  ns +:+ "_" +:+ n = ns' +:+ "_" +:+ n' → ns = ns' ∧ n = n'.
Proof.
  intros H1 H2 Heq. apply (f_equal (Cut underscore)) in Heq.
  change ("_" +:+ n) with (String underscore n) in Heq.
  change ("_" +:+ n') with (String underscore n') in Heq.
  rw !Cut_app // in Heq. by injection Heq.
Qed.

Lemma plain_ext x ext : has_byte "/" x = false → has_byte "/" ext = false →
  (3 ≤ String.length ext)%nat → plain (x +:+ ext).
Proof.
  intros Hx He Hl. assert (3 ≤ String.length (x +:+ ext))%nat as Hlen.
  { rw string_length_app. lia. }
  split_and!; [intros H; rw H in Hlen; cbn in Hlen; lia..|]. by rw has_byte_app Hx He.
Qed.

Lemma plain_key k ext : file_key_ok k → has_byte "/" ext = false → (3 ≤ String.length ext)%nat →
  plain (Namespace k +:+ "_" +:+ Name k +:+ ext).
Proof.
  intros (H1 & H2 & H3) He Hl. rw -!string_app_assoc. apply plain_ext; [|done..].
  by rw !has_byte_app H1 H3.
Qed.

Lemma list_ascii_app (a b : string) :
  String.list_ascii_of_string (a +:+ b) =
  String.list_ascii_of_string a ++ String.list_ascii_of_string b.
Proof. induction a as [|c a IH]; [done|]. rw string_app_cons. cbn. by rw IH. Qed.

Lemma string_app_inj_r (x y z : string) : x +:+ z = y +:+ z → x = y.
Proof.
  intros H. apply (f_equal String.list_ascii_of_string) in H.
  rw !list_ascii_app in H. apply app_inv_tail in H.
  apply (f_equal String.string_of_list_ascii) in H.
  by rw !String.string_of_list_ascii_of_string in H.
Qed.

Lemma key_file_inj k k' ext : file_key_ok k → file_key_ok k' →
  Namespace k +:+ "_" +:+ Name k +:+ ext = Namespace k' +:+ "_" +:+ Name k' +:+ ext → k = k'.
Proof.
  intros (_ & H1 & _) (_ & H2 & _) Heq. apply underscore_inj in Heq as [Hns Hn]; [|done..].
  apply string_app_inj_r in Hn. destruct k, k'. cbn in *. by subst.
Qed.

Lemma cert_file_plain k : secret_key_ok k → plain (FileName (cert_file k)).
Proof. intros [Hk _]. by apply plain_key; [done|done|cbn; lia]. Qed.

Lemma cert_file_inj k k' : secret_key_ok k → secret_key_ok k' →
  FileName (cert_file k) = FileName (cert_file k') → k = k'.
Proof. intros [Hk _] [Hk' _]. by apply key_file_inj. Qed.

Lemma list_file_plain k : file_key_ok k → plain (FileName (CertListPath k)).
Proof. intros Hk. by apply plain_key; [done|done|cbn; lia]. Qed.

Lemma list_file_inj k k' : file_key_ok k → file_key_ok k' →
  FileName (CertListPath k) = FileName (CertListPath k') → k = k'.
Proof. apply key_file_inj. Qed.

(** A certificate and a list are different files. *)
Lemma cert_list_file k l : secret_key_ok k → file_key_ok l →
  FullPath (cert_file k) ≠ FullPath (CertListPath l).
Proof.
  intros Hk Hl Heq. apply FullPath_inj in Heq; [|by apply cert_file_plain|by apply list_file_plain].
  assert (HasSuffix (FileName (cert_file k)) ".pem" = true) as Hs.
  { apply HasSuffix_spec. exists (Namespace k +:+ "_" +:+ Name k).
    cbn. unfold cert_file_name. by rw !string_app_assoc. }
  rw Heq in Hs. apply HasSuffix_spec in Hs as [t Ht]. cbn in Ht.
  rw -!string_app_assoc in Ht. apply (f_equal String.list_ascii_of_string) in Ht.
  rw !list_ascii_app in Ht. apply (f_equal last) in Ht. by rw !last_app in Ht.
Qed.
End names.

(** ** A batch *)
Definition cert_content (o : K8sSecret) : option string :=
  key ← sec_Data o !! "tls.key"; crt ← sec_Data o !! "tls.crt"; Some (certContent key crt).

(** A secret of type [kubernetes.io/tls], without the other keys. *)
Definition only_tls (o : K8sSecret) : Prop :=
  Forall (λ k, sec_Data o !! (k +:+ ".key") = None ∨ sec_Data o !! (k +:+ ".crt") = None)
    ["rsa"; "ecdsa"; "dsa"].

Section batch.
Context {RO : RangeOrder} {CE : CertEnv}.
Context (before : gmap NamespacedName K8sSecret) (m : objectStore K8sSecret).
Context (secrets : gmap NamespacedName Secret).
Hypothesis Hdelta : ∀ k, delta_ok before m (is_Some (updates m !! k)) k.
Hypothesis Htree : ∀ k, secrets !! k = leaf_after (before !! k) (updates m !! k) (objects m !! k).
Hypothesis Hkeyed : keyed_by_meta sec_Meta (objects m).
Hypothesis Htls : map_Forall (λ _, only_tls) (objects m).

Lemma cert_of_kind_none o k acc :
  sec_Data o !! (k +:+ ".key") = None ∨ sec_Data o !! (k +:+ ".crt") = None →
  cert_of_kind o k acc = Some acc.
Proof.
  unfold cert_of_kind. cbv zeta. intros [-> | ->]; [done|].
  by destruct (sec_Data o !! (k +:+ ".key")).
Qed.

Lemma cert_of_kind_pair o k acc key crt :
  sec_Data o !! (k +:+ ".key") = Some key → sec_Data o !! (k +:+ ".crt") = Some crt →
  (2 ≤ String.length (Name (meta_key (sec_Meta o))))%nat →
  let file := cert_file (meta_key (sec_Meta o)) in
  cert_of_kind o k acc = Some (Some (certificate_NewCertificateData
    (if bool_decide (k = "tls") then file else mkFilePath (Dir file) (FullPath file +:+ "." +:+ k))
    (certContent key crt))).
Proof.
  intros H1 H2 Hlen file. unfold cert_of_kind. cbv zeta. rw H1 H2 CertPath_file //.
  cbn [mbind option_bind]. by destruct (bool_decide (k = "tls")).
Qed.

Lemma NewCertificateData_tls o k :
  only_tls o → meta_key (sec_Meta o) = k → secret_key_ok k →
  match cert_content o with
  | Some c => NewCertificateData o = Some (Ok (certificate_NewCertificateData (cert_file k) c))
  | None => ∃ err, NewCertificateData o = Some (Err err)
  end.
Proof.
  intros Ho Hk [_ Hlen]. unfold NewCertificateData, only_tls in *.
  rw !Forall_cons in Ho. destruct Ho as (Hr & He & Hd & _).
  assert (∀ acc, mfold (cert_of_kind o) ["rsa"; "ecdsa"; "dsa"] acc = Some acc) as Hrest.
  { intros acc. do 3 (rw mfold_cons cert_of_kind_none //; cbn [mbind option_bind]). }
  assert (cert_of_kind o "tls" None =
    Some (certificate_NewCertificateData (cert_file k) <$> cert_content o)) as Ht.
  { unfold cert_of_kind, cert_content. cbv zeta.
    change ("tls" +:+ ".key") with "tls.key". change ("tls" +:+ ".crt") with "tls.crt".
    destruct (sec_Data o !! "tls.key") as [key|], (sec_Data o !! "tls.crt") as [crt|];
      [|done..]. by rw Hk CertPath_file // bool_decide_eq_true_2. }
  rw mfold_cons Ht. cbn [mbind option_bind]. rw Hrest.
  destruct (cert_content o); [done|by eexists].
Qed.

Lemma present_spec k : secrets !! k ≫= live = objects m !! k.
Proof.
  rw Htree. specialize (Hdelta k). unfold delta_ok in Hdelta. unfold live, leaf_after.
  destruct (updates m !! k) as [u|]; cbn.
  - by destruct (objects m !! k), (before !! k).
  - destruct Hdelta as [_ ->]. by destruct (before !! k).
Qed.

Abbreviation cert_describes :=
  (describes cert_Path cert_Data secret_key_ok cert_file).

Lemma cert_add ch k c g u :
  cert_describes g u → secret_key_ok k → g !! k = None →
  let data := certificate_NewCertificateData (cert_file k) c in
  cert_describes (<[k := match ch with Remove => None | _ => Some c end]> g)
    match ch with
    | Create => addCreatedCertificate data u
    | Refresh => addUpdatedCertificate data u
    | Remove => addDeletedCertificate data u
    end.
Proof.
  intros Hd Hk Hg data.
  pose proof (describes_add cert_Path cert_Data secret_key_ok cert_file cert_file_inj ch g u data k
    Hd Hk Hg eq_refl) as H. by destruct ch.
Qed.

Lemma new_secret_step k g u :
  cert_describes g u → secret_key_ok k → g !! k = None →
  ∃ u', new_referenced_secret secrets k u = Some u' ∧
    cert_describes (with_change g k (Some <$> (objects m !! k ≫= cert_content))) u'.
Proof.
  intros Hd Hk Hg. unfold new_referenced_secret. pose proof (present_spec k) as Hp.
  destruct (objects m !! k) as [o|] eqn:Ho; cbn [mbind option_bind].
  - destruct (secrets !! k) as [s|]; [|done]. cbn in Hp. unfold live in Hp.
    assert (K8sResource s = Some o ∧ Status (TreeStatus s) ≠ StatusDeleted) as [Hs Hn].
    { by destruct (Status (TreeStatus s)). }
    pose proof (NewCertificateData_tls o k (Htls _ _ Ho) (Hkeyed _ _ Ho) Hk) as Hc.
    exists (match cert_content o with
            | Some c => addCreatedCertificate (certificate_NewCertificateData (cert_file k) c) u
            | None => u end).
    split.
    + rw Hs. cbn [mbind option_bind]. destruct (cert_content o); [rw Hc|destruct Hc as [err ->]];
        by destruct (Status (TreeStatus s)).
    + destruct (cert_content o) as [c|]; [|exact Hd]. cbn.
      by apply (cert_add Create).
  - exists u. split; [|exact Hd]. destruct (secrets !! k) as [s|] eqn:Hs; [|done].
    destruct (Status (TreeStatus s)) eqn:Hst; [|done|].
    all: cbn in Hp; unfold live in Hp; rw Hst in Hp; rw Htree in Hs; unfold leaf_after in Hs;
      pose proof (Hdelta k) as Hdk; unfold delta_ok in Hdk; rw Ho in Hs Hdk;
      destruct (updates m !! k) as [up|]; [by destruct (before !! k); simplify_eq|];
      destruct Hdk as [_ Hb]; rw -Hb in Hs; done.
Qed.

Lemma delete_secret_step k g u :
  cert_describes g u → secret_key_ok k → g !! k = None →
  ∃ u', delete_secret k u = Some u' ∧ cert_describes (with_change g k (Some None)) u'.
Proof.
  intros Hd Hk Hg. unfold delete_secret. rw CertPath_file; [by destruct Hk|]. cbn.
  eexists. split; [done|].
  by apply (cert_add Remove).
Qed.

(** What an update of a secret makes of its certificate. *)
Definition update_change (k : NamespacedName) : option (option string) :=
  match updates m !! k with
  | None => None
  | Some _ => match objects m !! k with Some o => Some <$> cert_content o | None => Some None end
  end.

Lemma updated_secret_step k g u :
  cert_describes g u → secret_key_ok k → g !! k = None →
  ∃ u', updated_secret (updates m) k u = Some u' ∧
    cert_describes (with_change g k (update_change k)) u'.
Proof.
  intros Hd Hk Hg. unfold updated_secret, update_change.
  pose proof (Hdelta k) as Hdk. unfold delta_ok in Hdk.
  destruct (updates m !! k) as [up|]; [|by exists u].
  destruct Hdk as (_ & Hold & Hnew & Hst & _). rw Hst Hnew.
  destruct (objects m !! k) as [o|] eqn:Ho; [|by apply delete_secret_step].
  pose proof (NewCertificateData_tls o k (Htls _ _ Ho) (Hkeyed _ _ Ho) Hk) as Hc. cbn [mbind option_bind].
  destruct (cert_content o) as [c|]; [rw Hc|destruct Hc as [err ->]; by exists u].
  cbn [mbind option_bind].
  destruct (OldObject up); eexists; (split; [done|]).
  - by apply (cert_add Refresh).
  - by apply (cert_add Create).
Qed.

Context (previous current : RefSecrets).
Hypothesis Hkeys : ∀ k, is_Some (previous !! k) ∨ is_Some (current !! k) → secret_key_ok k.

(** The certificates of the batch. *)
Definition cert_changes (k : NamespacedName) : option (option string) :=
  match previous !! k, current !! k with
  | None, None => None
  | None, Some _ => Some <$> (objects m !! k ≫= cert_content)
  | Some _, None => Some None
  | Some _, Some _ => update_change k
  end.

Lemma certificate_diffs :
  ∃ certs g,
    (certs ← handleNewReferencedSecretsStorage secrets previous current reset_file_updates;
     certs ← handleDeReferencedSecretsStorage previous current certs;
     handleUpdatedSecretsStorage (updates m) previous current certs) = Some certs ∧
    cert_describes g certs ∧ ∀ k, g !! k = cert_changes k.
Proof.
  unfold handleNewReferencedSecretsStorage, handleDeReferencedSecretsStorage,
    handleUpdatedSecretsStorage.
  rw !SetDifference_spec SetIntersection_spec.
  assert (∀ k (A B : RefSecrets), k ∈ dom A ∖ dom B ↔ is_Some (A !! k) ∧ B !! k = None) as Hdiff.
  { intros k A B. by rw elem_of_difference elem_of_dom not_elem_of_dom. }
  destruct (describes_mfold cert_Path cert_Data secret_key_ok cert_file
    (new_referenced_secret secrets) (λ k, Some <$> (objects m !! k ≫= cert_content))
    (range_set (dom current ∖ dom previous)) ∅ reset_file_updates)
    as (u1 & g1 & E1 & D1 & G1); [apply NoDup_range_set|by intros; rw lookup_empty| |..].
  { apply describes_reset. }
  { intros k g u [Hk _]%elem_of_range_set%Hdiff Hd Hg. apply new_secret_step; auto. }
  destruct (describes_mfold cert_Path cert_Data secret_key_ok cert_file
    delete_secret (λ _, Some None) (range_set (dom previous ∖ dom current)) g1 u1)
    as (u2 & g2 & E2 & D2 & G2); [apply NoDup_range_set| |exact D1|..].
  { intros k [[? Hk] Hk']%elem_of_range_set%Hdiff. rw G1 decide_False ?lookup_empty //.
    intros [[? ?] ?]%elem_of_range_set%Hdiff. congruence. }
  { intros k g u [Hk _]%elem_of_range_set%Hdiff Hd Hg. apply delete_secret_step; auto. }
  destruct (describes_mfold cert_Path cert_Data secret_key_ok cert_file
    (updated_secret (updates m)) update_change (range_set (dom previous ∩ dom current)) g2 u2)
    as (u3 & g3 & E3 & D3 & G3); [apply NoDup_range_set| |exact D2|..].
  { intros k [[? Hp]%elem_of_dom [? Hc]%elem_of_dom]%elem_of_range_set%elem_of_intersection.
    rw G2 decide_False; [intros [_ ?]%elem_of_range_set%Hdiff; congruence|].
    rw G1 decide_False ?lookup_empty //. intros [_ ?]%elem_of_range_set%Hdiff. congruence. }
  { intros k g u [Hk _]%elem_of_range_set%elem_of_intersection Hd Hg.
    apply updated_secret_step; [done| |done]. apply Hkeys. left. by apply elem_of_dom. }
  exists u3, g3. split_and!; [by rw E1 /= E2 /= E3|done|]. intros k. rw G3 G2 G1 lookup_empty.
  unfold cert_changes.
  destruct (decide _) as [H1|H1]; [|destruct (decide _) as [H2|H2]; [|destruct (decide _) as [H3|H3]]];
    repeat match goal with
           | H : context [_ ∈ range_set _] |- _ =>
               rw elem_of_range_set ?elem_of_intersection ?Hdiff ?elem_of_dom in H
           end;
    destruct (previous !! k), (current !! k); naive_solver.
Qed.

(** *** The lists of the batch *)

(** The listener references the secret. *)
Definition lists (refs : RefSecrets) (l k : NamespacedName) : Prop :=
  ∃ ls, refs !! k = Some ls ∧ l ∈ ls.

Lemma lookup_per_listener (refs : RefSecrets) l k :
  k ∈ default ∅ (secretsPerGatewayListener refs !! l) ↔ lists refs l k.
Proof using Type.
  clear Hdelta Htree Hkeyed Htls Hkeys.
  unfold secretsPerGatewayListener.
  apply (range_fold_ind (λ dn s, ∀ l k, k ∈ default ∅ (s !! l) ↔ lists dn l k) _ refs ∅).
  { clear. intros l k. rw lookup_empty /=. split; [set_solver|].
    intros (ls & Hk & _). by rw lookup_empty in Hk. }
  clear l k. intros s ls dn acc _ Hdn _ IH.
  assert (∀ X l k, k ∈ default ∅ (foldl (λ acc l,
    <[l := {[s]} ∪ default ∅ (acc !! l)]> acc) acc X !! l) ↔
    (k = s ∧ l ∈ X) ∨ k ∈ default ∅ (acc !! l)) as Hgen.
  { clear. intros X. revert acc. induction X as [|x X IHX]; intros acc l k; cbn [foldl].
    - split; [by right|]. intros [[_ Hl]|?]; [by apply elem_of_nil in Hl|done].
    - rw IHX. destruct (decide (x = l)) as [<-|Hne].
      + rw lookup_insert_eq /=. rw elem_of_union elem_of_singleton elem_of_cons. naive_solver.
      + rw lookup_insert_ne // elem_of_cons. naive_solver. }
  intros l k. rw Hgen elem_of_range_set IH. unfold lists.
  destruct (decide (s = k)) as [<-|Hne].
  - rw lookup_insert_eq Hdn. naive_solver.
  - rw lookup_insert_ne //. naive_solver.
Qed.

Lemma per_listener_is_Some (refs : RefSecrets) l :
  is_Some (secretsPerGatewayListener refs !! l) ↔ ∃ k, lists refs l k.
Proof using Type.
  clear Hdelta Htree Hkeyed Htls Hkeys.
  setoid_rewrite <- lookup_per_listener. split; [|intros [k Hk]].
  - unfold secretsPerGatewayListener.
    apply (range_fold_ind (λ _ s, ∀ l, is_Some (s !! l) → ∃ k, k ∈ default ∅ (s !! l)) _ refs ∅).
    { intros l'. rw lookup_empty. by intros [? ?]. }
    intros s ls dn acc _ _ _ IH. clear l.
    apply (foldl_ind (λ acc, ∀ l, is_Some (acc !! l) → ∃ k, k ∈ default ∅ (acc !! l))); [exact IH|].
    intros acc' x _ IH' l. destruct (decide (x = l)) as [<-|Hne].
    + rw lookup_insert_eq /=. exists s. set_solver.
    + rw lookup_insert_ne //. apply IH'.
  - destruct (secretsPerGatewayListener refs !! l) eqn:Hl; [by eexists|].
    by apply elem_of_empty in Hk.
Qed.

Definition live_secrets (objs : gmap NamespacedName K8sSecret) (X : gset NamespacedName) :
    gset NamespacedName := filter (λ k, is_Some (objs !! k)) X.

Lemma present_is_Some k :
  is_Some (objects m !! k) ↔
  ∃ s, secrets !! k = Some s ∧ Status (TreeStatus s) ≠ StatusDeleted.
Proof using Hdelta Htree.
  rw Htree. pose proof (Hdelta k) as Hd. unfold delta_ok, leaf_after in *.
  destruct (updates m !! k) as [u|]; cbn.
  - destruct (objects m !! k) as [o|]; [split; [|by eexists]|split; [by intros [? ?]|]].
    + intros _. by destruct (before !! k); eexists.
    + intros (s & Hs & Hn). by destruct (before !! k); simplify_eq/=.
  - destruct Hd as [_ ->]. destruct (before !! k) as [o|]; cbn.
    + split; [intros _; by eexists|by eexists].
    + split; [by intros [? ?]|by intros (? & ? & _)].
Qed.

Lemma keepOnlyExistingSecrets_spec X :
  keepOnlyExistingSecrets secrets X = live_secrets (objects m) X.
Proof using Hdelta Htree.
  clear Hkeyed Htls Hkeys.
  apply set_eq. intros k. unfold live_secrets. rw elem_of_filter present_is_Some -(elem_of_range_set X).
  unfold keepOnlyExistingSecrets. generalize (range_set X) as l. intros l.
  match goal with |- context [foldl ?f ∅ _] => set (step := f) end.
  assert (∀ acc, k ∈ foldl step acc l ↔ k ∈ acc ∨
    (∃ s, secrets !! k = Some s ∧ Status (TreeStatus s) ≠ StatusDeleted) ∧ k ∈ l) as Hgen;
    [|rw Hgen; set_solver].
  induction l as [|x l IH]; intros acc; cbn [foldl].
  - split; [by left|]. intros [?|[_ Hk]]; [done|by apply elem_of_nil in Hk].
  - assert (k ∈ step acc x ↔ k ∈ acc ∨
      k = x ∧ ∃ s, secrets !! x = Some s ∧ Status (TreeStatus s) ≠ StatusDeleted) as Hstep.
    { unfold step. destruct (secrets !! x) as [s|].
      - destruct (decide (Status (TreeStatus s) = StatusDeleted)) as [Hd|Hd].
        + rw Hd. split; [by left|]. intros [?|(_ & ? & [= <-] & ?)]; done.
        + assert (match Status (TreeStatus s) with
            StatusDeleted => acc | _ => {[x]} ∪ acc end = {[x]} ∪ acc) as ->.
          { by destruct (Status (TreeStatus s)). }
          rw elem_of_union elem_of_singleton. split; [intros [?|?]; [right; eauto|by left]|].
          intros [?|[? _]]; [by right|by left].
      - split; [by left|]. by intros [?|(_ & ? & ? & _)]. }
    rw IH Hstep elem_of_cons. split.
    + intros [[?|[-> ?]]|[? ?]]; [by left|right..]; (split; [done|]); [by left|by right].
    + intros [?|[? [->|?]]]; [by left; left|left; by right|by right].
Qed.

Lemma unchanged_refs_spec l s0 :
  let s := foldl (unchanged_secret_ref secrets) s0 l in
  (∀ k, k ∈ s.1 ↔ k ∈ s0.1 ∨ k ∈ l ∧ is_Some (objects m !! k)) ∧
  (s.2 = false → s0.2 = false ∧ ∀ k, k ∈ l → (is_Some (before !! k) ↔ is_Some (objects m !! k))).
Proof using Hdelta Htree.
  clear Hkeyed Htls Hkeys.
  revert s0. induction l as [|x l IH]; intros s0; cbv zeta; cbn [foldl].
  { split; [|intros ?; split; [done|]; intros k Hk; by apply elem_of_nil in Hk].
    intros k. split; [by left|]. intros [?|[Hk _]]; [done|by apply elem_of_nil in Hk]. }
  destruct (IH (unchanged_secret_ref secrets s0 x)) as [H1 H2].
  assert ((∀ k, k ∈ (unchanged_secret_ref secrets s0 x).1 ↔
      k ∈ s0.1 ∨ k = x ∧ is_Some (objects m !! x)) ∧
    ((unchanged_secret_ref secrets s0 x).2 = false →
      s0.2 = false ∧ (is_Some (before !! x) ↔ is_Some (objects m !! x)))) as [S1 S2].
  { clear IH H1 H2. unfold unchanged_secret_ref. rw Htree.
    pose proof (Hdelta x) as Hd. unfold delta_ok, leaf_after in *.
    destruct (updates m !! x) as [u|]; [|destruct Hd as [_ Hd]; rw Hd];
      destruct (objects m !! x) as [o|] eqn:Ho, (before !! x) as [b|] eqn:Hb; cbn;
      (split; [intros k; rw ?elem_of_union ?elem_of_singleton; split;
        [intros Hk; first [by left|destruct Hk as [->|?]; [right; split; [done|by eexists]|by left]]
        |intros [?|[-> [? ?]]]; first [by right|by left|done]]|];
       intros; (done || (split; [done|]; split; intros [? ?]; by eexists))). }
  split.
  - intros k. rw H1 S1 elem_of_cons. naive_solver.
  - intros Hs. destruct (H2 Hs) as [Hs1 Hl]. destruct (S2 Hs1) as [? ?]. split; [done|].
    intros k [->|Hk]%elem_of_cons; [done|by apply Hl].
Qed.

Lemma crt_list_content_spec (P N : gset NamespacedName) :
  let '(content, upd) := crt_list_content secrets P N in
  content = live_secrets (objects m) N ∧
  (upd = false → live_secrets (objects m) N = live_secrets before P).
Proof using Hdelta Htree.
  clear Hkeyed Htls Hkeys.
  unfold crt_list_content. cbv zeta. rw !SetDifference_spec SetIntersection_spec.
  unfold set_entries. rw !dom_gset_to_gmap keepOnlyExistingSecrets_spec.
  set (s0 := live_secrets (objects m) (N ∖ P)).
  destruct (unchanged_refs_spec (range_set (N ∩ P)) (s0, negb (bool_decide (size s0 = 0)))) as [H1 H2].
  cbn [fst snd] in *. unfold live_secrets in *.
  set (s := foldl (unchanged_secret_ref secrets) _ _) in *.
  assert (s.1 = filter (λ k, is_Some (objects m !! k)) N) as ->.
  { apply set_eq. intros k. rw H1 elem_of_range_set elem_of_intersection. unfold s0.
    rw !elem_of_filter elem_of_difference. destruct (decide (k ∈ P)); naive_solver. }
  split; [done|]. destruct (bool_decide (size (P ∖ N) = 0)) eqn:Hsz; cbn; [|done].
  apply bool_decide_eq_true, size_empty_inv in Hsz. intros [H0 Hl]%H2.
  apply negb_false_iff, bool_decide_eq_true, size_empty_inv in H0.
  apply set_eq. intros k. rw !elem_of_filter.
  assert (k ∉ P ∖ N) as HPN by (rw Hsz; apply not_elem_of_empty).
  assert (k ∉ s0) as Hs0 by (rw H0; apply not_elem_of_empty). unfold s0 in Hs0.
  rw elem_of_filter elem_of_difference in Hs0. rw elem_of_difference in HPN.
  specialize (Hl k). rw elem_of_range_set elem_of_intersection in Hl.
  clear H1 H2 H0 Hsz. destruct (decide (k ∈ P)), (decide (k ∈ N)); tauto.
Qed.

Definition list_content (X : gset NamespacedName) : list string :=
  SortStrings ((λ k, FullPath (cert_file k)) <$> elements X).

(** The text of the list of these secrets. *)
Definition list_text (X : gset NamespacedName) : string := crt_list_text (list_content X).

Definition crt_text (c : CrtListData) : string := crt_list_text (crt_Content c).

Abbreviation list_describes := (describes crt_Path crt_text file_key_ok CertListPath).

Lemma NewCrtListData_spec l X :
  (∀ k, k ∈ X → secret_key_ok k) →
  NewCrtListData l X = Some (certificate_NewCrtListData (CertListPath l) (list_content X)).
Proof.
  intros HX. unfold NewCrtListData.
  assert (mapM (λ secretKey, FullPath <$> CertPath secretKey) (range_set X) =
    Some ((λ k, FullPath (cert_file k)) <$> range_set X)) as ->.
  { assert (∀ k, k ∈ range_set X → secret_key_ok k) as Hl by (intros k ?%elem_of_range_set; auto).
    revert Hl. generalize (range_set X) as ks. induction ks as [|k ks IH]; intros Hl; [done|].
    cbn. destruct (Hl k) as [_ Hlen]; [by left|]. rw CertPath_file //=.
    rw IH; [intros; apply Hl; by right|done]. }
  cbn. do 2 f_equal. unfold list_content. apply SortStrings_Permutation.
  apply fmap_Permutation, NoDup_Permutation; [apply NoDup_range_set|apply NoDup_elements|].
  intros k. by rw elem_of_range_set elem_of_elements.
Qed.

Lemma list_add ch l X g u :
  list_describes g u → file_key_ok l → g !! l = None →
  let data := certificate_NewCrtListData (CertListPath l) (list_content X) in
  list_describes (<[l := match ch with Remove => None | _ => Some (list_text X) end]> g)
    match ch with
    | Create => addCreatedCrtList data u
    | Refresh => addUpdatedCrtList data u
    | Remove => addDeletedCrtList data u
    end.
Proof.
  intros Hd Hl Hg data.
  pose proof (describes_add crt_Path crt_text file_key_ok CertListPath list_file_inj ch g u data l
    Hd Hl Hg eq_refl) as H. by destruct ch.
Qed.

Hypothesis Hlisteners : ∀ k l, lists previous l k ∨ lists current l k → file_key_ok l.

Abbreviation per refs := (secretsPerGatewayListener refs).

Definition list_changes (l : NamespacedName) : option (option string) :=
  match per previous !! l, per current !! l with
  | None, None => None
  | None, Some X => Some (Some (list_text (live_secrets (objects m) X)))
  | Some _, None => Some None
  | Some P, Some N =>
      let '(X, upd) := crt_list_content secrets P N in
      if upd then Some (if bool_decide (size X = 0) then None else Some (list_text X)) else None
  end.

Lemma listed_key_ok refs l k : refs = previous ∨ refs = current →
  k ∈ default ∅ (per refs !! l) → secret_key_ok k.
Proof.
  intros Hr (ls & Hk & _)%lookup_per_listener. apply Hkeys.
  destruct Hr as [-> | ->]; [left|right]; by exists ls.
Qed.

Lemma live_key_ok l k : k ∈ live_secrets (objects m) (default ∅ (per current !! l)) → secret_key_ok k.
Proof. intros [_ Hk]%elem_of_filter. by eapply listed_key_ok; [right|]. Qed.

Lemma listener_ok refs l : refs = previous ∨ refs = current → is_Some (per refs !! l) →
  file_key_ok l.
Proof.
  intros Hr [k Hk]%per_listener_is_Some. apply (Hlisteners k). destruct Hr as [-> | ->]; auto.
Qed.

Lemma list_diffs :
  ∃ crts g, handleCrtList secrets previous current reset_file_updates = Some crts ∧
    list_describes g crts ∧ ∀ l, g !! l = list_changes l.
Proof.
  unfold handleCrtList, handleNewReferencedCrtList, handleDeReferencedCrtList, handleUpdatedCrtList.
  cbv zeta. rw !SetDifference_spec SetIntersection_spec.
  assert (∀ l A B, l ∈ dom (per A) ∖ dom (per B) ↔ is_Some (per A !! l) ∧ per B !! l = None) as Hdiff.
  { intros l A B. by rw elem_of_difference elem_of_dom not_elem_of_dom. }
  match goal with |- context [mfold ?f (range_set (dom (per current) ∖ _))] => set (f1 := f) end.
  match goal with |- context [mfold ?f (range_set (dom (per previous) ∖ _))] => set (f2 := f) end.
  match goal with |- context [mfold ?f (range_set (dom (per previous) ∩ _))] => set (f3 := f) end.
  destruct (describes_mfold crt_Path crt_text file_key_ok CertListPath f1
    (λ l, Some (Some (list_text (live_secrets (objects m) (default ∅ (per current !! l))))))
    (range_set (dom (per current) ∖ dom (per previous))) ∅ reset_file_updates)
    as (u1 & g1 & E1 & D1 & G1); [apply NoDup_range_set|by intros; rw lookup_empty| |..].
  { apply describes_reset. }
  { intros l g u [Hl _]%elem_of_range_set%Hdiff Hd Hg. unfold f1.
    rw keepOnlyExistingSecrets_spec NewCrtListData_spec; [apply live_key_ok|].
    eexists. split; [done|]. apply (list_add Create); [done| |done].
    eapply listener_ok; [by right|done]. }
  destruct (describes_mfold crt_Path crt_text file_key_ok CertListPath f2 (λ _, Some None)
    (range_set (dom (per previous) ∖ dom (per current))) g1 u1)
    as (u2 & g2 & E2 & D2 & G2); [apply NoDup_range_set| |exact D1|..].
  { intros l [[? Hk] Hk']%elem_of_range_set%Hdiff. rw G1 decide_False ?lookup_empty //.
    intros [[? ?] ?]%elem_of_range_set%Hdiff. congruence. }
  { intros l g u [Hl _]%elem_of_range_set%Hdiff Hd Hg. unfold f2.
    rw NewCrtListData_spec; [set_solver|].
    eexists. split; [done|]. apply (list_add Remove); [done| |done].
    eapply listener_ok; [by left|done]. }
  destruct (describes_mfold crt_Path crt_text file_key_ok CertListPath f3 list_changes
    (range_set (dom (per previous) ∩ dom (per current))) g2 u2)
    as (u3 & g3 & E3 & D3 & G3); [apply NoDup_range_set| |exact D2|..].
  { intros l [[? Hp]%elem_of_dom [? Hc]%elem_of_dom]%elem_of_range_set%elem_of_intersection.
    rw G2 decide_False; [intros [_ ?]%elem_of_range_set%Hdiff; congruence|].
    rw G1 decide_False ?lookup_empty //. intros [_ ?]%elem_of_range_set%Hdiff. congruence. }
  { intros l g u [[P HP]%elem_of_dom [N HN]%elem_of_dom]%elem_of_range_set%elem_of_intersection Hd Hg.
    unfold f3, list_changes. rw HP HN. cbn [default from_option id].
    pose proof (crt_list_content_spec P N) as Hspec.
    destruct (crt_list_content secrets P N) as [X upd]. destruct Hspec as [-> _].
    destruct upd; [|by exists u].
    rw NewCrtListData_spec; [intros k Hk; apply (live_key_ok l); by rw HN|].
    eexists. split; [done|]. assert (file_key_ok l) as Hl by (eapply listener_ok; [by right|by eexists]).
    cbn [negb]. destruct (bool_decide _) eqn:Hsz; cbn [negb with_change].
    - by apply (list_add Remove).
    - by apply (list_add Refresh). }
  exists u3, g3. split_and!; [by rw E1 /= E2 /= E3|done|]. intros l. rw G3 G2 G1 lookup_empty.
  unfold list_changes.
  destruct (decide _) as [H1|H1]; [|destruct (decide _) as [H2|H2]; [|destruct (decide _) as [H3|H3]]];
    repeat match goal with
           | H : context [_ ∈ range_set _] |- _ =>
               rw elem_of_range_set ?elem_of_intersection ?Hdiff ?elem_of_dom in H
           end;
    destruct (per previous !! l), (per current !! l); naive_solver.
Qed.
End batch.

(** ** What is on disk *)
Section on_disk.
Context {CE : CertEnv}.

(** The listeners' secrets that exist. *)
Definition listed (refs : RefSecrets) (objs : gmap NamespacedName K8sSecret) (l : NamespacedName) :
    gset NamespacedName :=
  filter (λ k, l ∈ default ∅ (refs !! k) ∧ is_Some (objs !! k)) (dom refs).

(** One file per secret that is referenced, exists and holds a certificate,
    none for one that does not exist or is not referenced. *)
Definition files_ok (refs : RefSecrets) (objs : gmap NamespacedName K8sSecret) (d : Disk) : Prop :=
  ∀ k, secret_key_ok k →
    match refs !! k, objs !! k with
    | Some _, Some o =>
        match cert_content o with
        | Some c => d !! FullPath (cert_file k) = Some c
        | None => True
        end
    | _, _ => d !! FullPath (cert_file k) = None
    end.

(** One list per listener that references secrets, of those that exist: it may
    be missing when there are none. *)
Definition lists_ok (refs : RefSecrets) (objs : gmap NamespacedName K8sSecret) (d : Disk) : Prop :=
  ∀ l, file_key_ok l →
    let p := FullPath (CertListPath l) in
    (d !! p = Some (list_text (listed refs objs l)) ∧ (∃ k, lists refs l k)) ∨
    (d !! p = None ∧ listed refs objs l = ∅).

Lemma lists_lookup (refs : RefSecrets) l k : lists refs l k ↔ l ∈ default ∅ (refs !! k).
Proof.
  unfold lists. destruct (refs !! k); cbn; [naive_solver|].
  split; [by intros (? & ? & _)|by intros ?%elem_of_empty].
Qed.

Lemma live_listed {RO : RangeOrder} refs objs l :
  live_secrets objs (default ∅ (secretsPerGatewayListener refs !! l)) = listed refs objs l.
Proof.
  apply set_eq. intros k. unfold live_secrets, listed.
  rw !elem_of_filter lookup_per_listener -lists_lookup elem_of_dom. unfold lists. naive_solver.
Qed.
End on_disk.

Lemma files_step {RO : RangeOrder} {CE : CertEnv} before (m : objectStore K8sSecret) previous current
    d (d' : Disk) :
  (∀ k, delta_ok before m (is_Some (updates m !! k)) k) →
  files_ok previous before d →
  (∀ k, secret_key_ok k → d' !! FullPath (cert_file k) =
     match cert_changes m previous current k with
     | Some v => v | None => d !! FullPath (cert_file k) end) →
  files_ok current (objects m) d'.
Proof.
  intros Hdelta Hd Hd' k Hk. specialize (Hd k Hk). specialize (Hdelta k). rw Hd' //.
  unfold cert_changes, update_change, delta_ok in *.
  destruct (updates m !! k) as [u|]; [|destruct Hdelta as [_ Hb]; rw -Hb in Hd];
    destruct (previous !! k), (current !! k); try done;
    destruct (objects m !! k) as [o|]; try done; cbn [mbind option_bind];
    by destruct (cert_content o).
Qed.

Lemma lists_step {RO : RangeOrder} {CE : CertEnv} before (m : objectStore K8sSecret) secrets previous
    current d (d' : Disk) :
  (∀ k, delta_ok before m (is_Some (updates m !! k)) k) →
  (∀ k, secrets !! k = leaf_after (before !! k) (updates m !! k) (objects m !! k)) →
  lists_ok previous before d →
  (∀ l, file_key_ok l → d' !! FullPath (CertListPath l) =
     match list_changes m secrets previous current l with
     | Some v => v | None => d !! FullPath (CertListPath l) end) →
  lists_ok current (objects m) d'.
Proof.
  intros Hdelta Htree Hd Hd' l Hl. specialize (Hd l Hl). cbv zeta in *. rw Hd' //.
  rw -!live_listed in Hd. rw -live_listed -per_listener_is_Some. rw -per_listener_is_Some in Hd.
  unfold list_changes.
  destruct (secretsPerGatewayListener previous !! l) as [P|],
    (secretsPerGatewayListener current !! l) as [N|]; cbn [default from_option id] in *.
  - pose proof (crt_list_content_spec before m secrets Hdelta Htree P N) as Hspec.
    destruct (crt_list_content secrets P N) as [X upd]. destruct Hspec as [-> Hsame].
    destruct upd; [destruct (bool_decide (size (live_secrets (objects m) N) = 0)) eqn:Hsz|].
    + right. split; [done|]. apply bool_decide_eq_true, size_empty_inv in Hsz. by apply leibniz_equiv.
    + left. split; [done|by eexists].
    + rw Hsame //. destruct Hd as [[Hd _]|Hd]; [left; split; [done|by eexists]|by right].
  - right. split; [done|]. apply set_eq. intros k. unfold live_secrets. rw elem_of_filter. set_solver.
  - left. split; [done|by eexists].
  - right. destruct Hd as [[_ [? ?]]|[Hd _]]; [done|]. split; [done|].
    apply set_eq. intros k. unfold live_secrets. rw elem_of_filter. set_solver.
Qed.

(** The diffs of a batch, and what writing them leaves on any disk. *)
Lemma certificates_run {RO : RangeOrder} {CE : CertEnv} extractGVK before (m : objectStore K8sSecret)
    secrets ro :
  (∀ k, delta_ok before m (is_Some (updates m !! k)) k) →
  (∀ k, secrets !! k = leaf_after (before !! k) (updates m !! k) (objects m !! k)) →
  keyed_by_meta sec_Meta (objects m) → map_Forall (λ _, only_tls) (objects m) →
  let previous := AllReferenced (PreviousReferencedSecrets ro) (extractGVK KGateway) in
  let current := AllReferenced (ReferencedSecrets ro) (extractGVK KGateway) in
  (∀ k, is_Some (previous !! k) ∨ is_Some (current !! k) → secret_key_ok k) →
  (∀ k l, lists previous l k ∨ lists current l k → file_key_ok l) →
  ∃ certs crts,
    computeCertificateDiffs secrets (updates m) extractGVK ro ResetCertificateUpdates ResetCrtListUpdates =
      Some (certs, crts) ∧
    ∀ d : Disk, let d' := ensureCertificatesStorage (λ _, true) certs crts d in
      (∀ k, secret_key_ok k → d' !! FullPath (cert_file k) =
         match cert_changes m previous current k with
         | Some v => v | None => d !! FullPath (cert_file k) end) ∧
      (∀ l, file_key_ok l → d' !! FullPath (CertListPath l) =
         match list_changes m secrets previous current l with
         | Some v => v | None => d !! FullPath (CertListPath l) end).
Proof.
  intros Hdelta Htree Hkeyed Htls previous current Hkeys Hls.
  destruct (certificate_diffs before m secrets Hdelta Htree Hkeyed Htls previous current Hkeys)
    as (certs & g & Hc & Hdc & Hg).
  destruct (list_diffs before m secrets Hdelta Htree Hkeyed Htls previous current Hkeys Hls)
    as (crts & gl & Hl & Hdl & Hgl).
  exists certs, crts. split.
  - unfold computeCertificateDiffs. cbv zeta.
    fold previous current. unfold ResetCertificateUpdates, ResetCrtListUpdates.
    destruct (handleNewReferencedSecretsStorage _ _ _ _) as [u1|]; cbn [mbind option_bind] in *; [|done].
    destruct (handleDeReferencedSecretsStorage _ _ _) as [u2|]; cbn [mbind option_bind] in *; [|done].
    rw Hc. cbn [mbind option_bind]. by rw Hl.
  - intros d. destruct (apply_updates_spec _ _ _ _ cert_file_plain cert_file_inj g certs d Hdc) as [A1 B1].
    destruct (apply_updates_spec _ _ _ _ list_file_plain list_file_inj gl crts
      (apply_updates cert_Path cert_Data certs d) Hdl) as [A2 B2].
    change (ensureCertificatesStorage (λ _, true) certs crts d) with
      (apply_updates crt_Path crt_text crts (apply_updates cert_Path cert_Data certs d)).
    split.
    + intros k Hk. rw B2; [intros l Hl' Heq; by apply (cert_list_file k l)|]. by rw A1 // Hg.
    + intros l Hl'. rw A2 // Hgl B1 //. intros k Hk. by apply cert_list_file.
Qed.

(** ** Properties *)

(** C30: after each batch, the files of certificates are those of the secrets.
    When the updates of the store and the secrets of the tree come from one batch,
    the files were right before it and no write fails, then the certificate builder
    does not panic and leaves on disk, for each secret: its certificate when a
    listener references it and it holds one, nothing when it was deleted or is
    not referenced any more.  For each listener the list of certificates names
    the secrets the listener references that exist, in a fixed order.  A secret
    that exists but holds no certificate keeps the file it had, if any, although
    the list names it.

    This holds of secrets with one pair of keys, [tls], and under keys that can be
    files: the secrets that are referenced, now or before, have names of two bytes
    or more ([short_name_panics] otherwise), and their names, and those of the
    listeners, have no slash and their namespaces no slash and no underscore.  A
    secret with a pair of RSA, ECDSA or DSA besides is not covered: the builder
    goes on under another path ([bundle_keeps_last]). *)
Theorem certificates_on_disk (RO : RangeOrder) (CE : CertEnv) extractGVK before
    (m : objectStore K8sSecret) secrets ro d :
  (∀ k, delta_ok before m (is_Some (updates m !! k)) k) →
  (∀ k, secrets !! k = leaf_after (before !! k) (updates m !! k) (objects m !! k)) →
  keyed_by_meta sec_Meta (objects m) → map_Forall (λ _, only_tls) (objects m) →
  let previous := AllReferenced (PreviousReferencedSecrets ro) (extractGVK KGateway) in
  let current := AllReferenced (ReferencedSecrets ro) (extractGVK KGateway) in
  (∀ k, is_Some (previous !! k) ∨ is_Some (current !! k) → secret_key_ok k) →
  (∀ k l, lists previous l k ∨ lists current l k → file_key_ok l) →
  files_ok previous before d → lists_ok previous before d →
  ∃ certs crts d',
    Certificate_ComputeTreeUpdates secrets (updates m) extractGVK true (λ _, true) ro
      (ResetCertificateUpdates, ResetCrtListUpdates, d) = Some (certs, crts, d') ∧
    files_ok current (objects m) d' ∧ lists_ok current (objects m) d' ∧
    (∀ k o, is_Some (current !! k) → objects m !! k = Some o → cert_content o = None →
       d' !! FullPath (cert_file k) = d !! FullPath (cert_file k)).
Proof.
  intros Hdelta Htree Hkeyed Htls previous current Hkeys Hls Hfiles Hlists.
  destruct (certificates_run extractGVK before m secrets ro Hdelta Htree Hkeyed Htls Hkeys Hls)
    as (certs & crts & Hrun & Hdisk). destruct (Hdisk d) as [Hcert Hlist].
  exists certs, crts, (ensureCertificatesStorage (λ _, true) certs crts d). split_and!.
  - unfold Certificate_ComputeTreeUpdates. by rw Hrun.
  - by eapply files_step.
  - by eapply lists_step.
  - intros k o Hk Ho Hn. rw Hcert; [by apply Hkeys; right|]. unfold cert_changes, update_change.
    destruct Hk as [ls Hls']. fold current. rw Hls' Ho /= Hn. by destruct (AllReferenced _ _ !! k), (updates m !! k).
Qed.

(** A secret with a name of one byte stops the process.  When the Gateways
    begin to reference a live secret whose name is shorter than two bytes and
    that holds a certificate, the builder panics, whatever the other changes,
    the order of the maps and the settings. *)
Theorem short_name_panics (RO : RangeOrder) (CE : CertEnv) extractGVK secrets secretUpdates stored
    disk_ok ro s k sec o :
  k ∈ dom (AllReferenced (ReferencedSecrets ro) (extractGVK KGateway)) →
  k ∉ dom (AllReferenced (PreviousReferencedSecrets ro) (extractGVK KGateway)) →
  secrets !! k = Some sec → live sec = Some o →
  (String.length (Name (meta_key (sec_Meta o))) < 2)%nat → is_Some (cert_content o) →
  Certificate_ComputeTreeUpdates secrets secretUpdates extractGVK stored disk_ok ro s = None.
Proof.
  intros Hc Hp Hk Hl Hlen [c Hcc]. destruct s as [[certs crts] d].
  unfold Certificate_ComputeTreeUpdates, computeCertificateDiffs, handleNewReferencedSecretsStorage.
  cbv zeta. rw (mfold_stops _ k); [..|done].
  - by rw elem_of_range_set SetDifference_spec elem_of_difference.
  - intros u. unfold new_referenced_secret. rw Hk. unfold live in Hl.
    assert (K8sResource sec = Some o) as -> by by destruct (Status (TreeStatus sec)).
    cbn [mbind option_bind]. unfold NewCertificateData.
    rw mfold_cons. assert (cert_of_kind o "tls" None = None) as ->;
      [|by destruct (Status (TreeStatus sec))].
    unfold cert_of_kind. cbv zeta. change ("tls" +:+ ".key") with "tls.key".
    change ("tls" +:+ ".crt") with "tls.crt". unfold cert_content in Hcc.
    destruct (sec_Data o !! "tls.key"); [|done]. destruct (sec_Data o !! "tls.crt"); [|done].
    unfold CertPath. by destruct (Name (meta_key (sec_Meta o))) as [|a [|b n]]; cbn in Hlen; try lia.
Qed.

(** A secret that holds keys of several kinds keeps only the last one, at a
    path that repeats the directory.  The certificate of a secret with a [tls]
    pair and an [rsa] pair, and no other, is the content of the [rsa] pair alone,
    and its path is the directory joined with the whole path of the [tls] file:
    the file that the lists of certificates name and that is deleted later is
    another one. *)
Theorem bundle_keeps_last (CE : CertEnv) o key crt key' crt' :
  (2 ≤ String.length (Name (meta_key (sec_Meta o))))%nat →
  sec_Data o !! "tls.key" = Some key → sec_Data o !! "tls.crt" = Some crt →
  sec_Data o !! "rsa.key" = Some key' → sec_Data o !! "rsa.crt" = Some crt' →
  sec_Data o !! "ecdsa.key" = None → sec_Data o !! "dsa.key" = None →
  let file := cert_file (meta_key (sec_Meta o)) in
  NewCertificateData o = Some (Ok (certificate_NewCertificateData
    (mkFilePath (Dir file) (FullPath file +:+ ".rsa")) (certContent key' crt'))).
Proof.
  intros Hlen H1 H2 H3 H4 H5 H6. unfold NewCertificateData.
  rw mfold_cons (cert_of_kind_pair o "tls" None key crt) //. cbn [mbind option_bind].
  rw mfold_cons (cert_of_kind_pair o "rsa" _ key' crt') //. cbn [mbind option_bind].
  do 2 (rw mfold_cons cert_of_kind_none; [by left|]; cbn [mbind option_bind]). done.
Qed.

(** *** Witnesses *)
Definition example_cert_env : CertEnv := {| CertsBaseDir := "/certs"; CertFilesBaseDir := "/lists" |}.

Definition example_tls (name : string) (rest : gmap string string) : K8sSecret :=
  {| sec_Meta := simple_meta "ns" name 1;
     sec_Data := <["tls.key" := "KEY"]> (<["tls.crt" := "CRT"]> rest) |}.

(** The listener ns/l refers to the secret, which it did not before. *)
Definition example_references (name : string) : ReferencedObjects :=
  {| ReferencedSecrets := mkReferencedBy
       {[ NN "ns" name := {[ example_gvk KGateway := {[ NN "ns" "l" ]} ]} ]} "secret";
     PreviousReferencedSecrets := NewReferencedBy "secret" |}.

Definition example_created_secret (name : string) (o : K8sSecret) : objectStore K8sSecret :=
  mkObjectStore {[ NN "ns" name := o ]}
    {[ NN "ns" name := mkUpdate None (Some o) StatusUpserted false ]}.

Definition example_tree_secret (name : string) (o : K8sSecret) : gmap NamespacedName Secret :=
  {[ NN "ns" name := mkLeaf (Some o) (mkTreeUpdate None StatusUpserted) ]}.

Lemma certificates_on_disk_witness :
  let o := example_tls "web" ∅ in
  ∃ certs crts d',
    Certificate_ComputeTreeUpdates (RO := key_order) (CE := example_cert_env)
      (example_tree_secret "web" o) (updates (example_created_secret "web" o)) example_gvk true
      (λ _, true) (example_references "web") (ResetCertificateUpdates, ResetCrtListUpdates, ∅) =
      Some (certs, crts, d') ∧
    d' !! "/certs/ns/we/ns_web.pem" = Some ("KEY" +:+ String newline "CRT") ∧
    d' !! "/lists/ns_l.list" = Some ("/certs/ns/we/ns_web.pem" +:+ String newline "").
Proof.
  intros o.
  destruct (certificates_on_disk key_order example_cert_env example_gvk ∅
    (example_created_secret "web" o) (example_tree_secret "web" o) (example_references "web") ∅)
    as (certs & crts & d' & Hrun & Hf & Hl & _).
  - intros k. unfold delta_ok, example_created_secret. cbn.
    destruct (decide (NN "ns" "web" = k)) as [<-|Hne].
    + rw !lookup_insert_eq. by split_and!.
    + by rw !lookup_insert_ne.
  - intros k. unfold example_tree_secret, example_created_secret. cbn.
    destruct (decide (NN "ns" "web" = k)) as [<-|Hne].
    + by rw !lookup_insert_eq.
    + by rw !lookup_insert_ne.
  - intros k' o'. unfold example_created_secret. cbn. by intros [<- <-]%lookup_singleton_Some.
  - intros k' o'. unfold example_created_secret. cbn. intros [<- <-]%lookup_singleton_Some.
    repeat constructor; by left.
  - intros k. assert (@AllReferenced key_order (PreviousReferencedSecrets (example_references "web"))
      (example_gvk KGateway) = ∅) as -> by vm_refl.
    assert (@AllReferenced key_order (ReferencedSecrets (example_references "web"))
      (example_gvk KGateway) = {[ NN "ns" "web" := {[ NN "ns" "l" ]} ]}) as -> by vm_refl.
    intros [[? Hk]|[? [<- <-]%lookup_singleton_Some]]; [by rw lookup_empty in Hk|].
    split; [done|]. cbn. lia.
  - intros k l. assert (@AllReferenced key_order (PreviousReferencedSecrets (example_references "web"))
      (example_gvk KGateway) = ∅) as -> by vm_refl.
    assert (@AllReferenced key_order (ReferencedSecrets (example_references "web"))
      (example_gvk KGateway) = {[ NN "ns" "web" := {[ NN "ns" "l" ]} ]}) as -> by vm_refl.
    intros [(ls & Hk & _)|(ls & [<- <-]%lookup_singleton_Some & ->%elem_of_singleton)];
      [by rw lookup_empty in Hk|]. done.
  - intros k _. assert (@AllReferenced key_order (PreviousReferencedSecrets (example_references "web"))
      (example_gvk KGateway) = ∅) as -> by vm_refl. by rw !lookup_empty.
  - intros l _. right. split; [by rw lookup_empty|]. apply set_eq. intros k. unfold listed.
    rw elem_of_filter lookup_empty. split; by intros [[_ [? ?]] _].
  - exists certs, crts, d'. split; [exact Hrun|]. clear Hrun. revert Hf Hl.
    assert (@AllReferenced key_order (ReferencedSecrets (example_references "web"))
      (example_gvk KGateway) = {[ NN "ns" "web" := {[ NN "ns" "l" ]} ]}) as -> by vm_refl.
    intros Hf Hl. split.
    + pose proof (Hf (NN "ns" "web")) as H.
      assert ("/certs/ns/we/ns_web.pem" = FullPath (@cert_file example_cert_env (NN "ns" "web"))) as ->
        by vm_refl.
      rw lookup_singleton_eq in H. unfold example_created_secret in H. cbn [objects] in H.
      rw lookup_singleton_eq in H.
      assert (cert_content o = Some ("KEY" +:+ String newline "CRT")) as Ho by vm_refl.
      rw Ho in H. apply H. split; [done|]. cbn. lia.
    + assert (file_key_ok (NN "ns" "l")) as Hok by (clear Hf Hl; done).
      assert ("/lists/ns_l.list" = FullPath (@CertListPath example_cert_env (NN "ns" "l"))) as ->
        by vm_refl.
      assert (@listed {[NN "ns" "web" := {[NN "ns" "l"]}]}
        (objects (example_created_secret "web" o)) (NN "ns" "l") = {[ NN "ns" "web" ]}) as HX
        by vm_refl.
      specialize (Hl _ Hok). cbv zeta in Hl. clear Hf. rw HX in Hl.
      destruct Hl as [[H _]|[_ H]].
      * rw H. vm_refl.
      * exfalso. clear -H. set_solver.
Defined.

Lemma short_name_panics_witness :
  Certificate_ComputeTreeUpdates (RO := key_order) (CE := example_cert_env)
    (example_tree_secret "w" (example_tls "w" ∅)) ∅ example_gvk true (λ _, true)
    (example_references "w") (ResetCertificateUpdates, ResetCrtListUpdates, ∅) = None.
Proof.
  apply (short_name_panics _ _ _ _ _ _ _ _ _ (NN "ns" "w")
    (mkLeaf (Some (example_tls "w" ∅)) (mkTreeUpdate None StatusUpserted)) (example_tls "w" ∅)).
  - apply (bool_decide_unpack _). by vm_compute.
  - apply (bool_decide_unpack _). by vm_compute.
  - vm_refl.
  - done.
  - cbn. lia.
  - exists ("KEY" +:+ String newline "CRT"). vm_refl.
Defined.

Lemma bundle_keeps_last_witness :
  NewCertificateData (CE := example_cert_env)
    (example_tls "web" (<["rsa.key" := "KEY2"]> {[ "rsa.crt" := "CRT2" ]})) =
  Some (Ok (certificate_NewCertificateData
    (mkFilePath "/certs/ns/we" "/certs/ns/we/ns_web.pem.rsa")
    ("KEY2" +:+ String newline "CRT2"))).
Proof.
  rw (bundle_keeps_last example_cert_env _ "KEY" "CRT" "KEY2" "CRT2"); [cbn; lia|vm_refl..].
Defined.
