(* ===== verification/Sha1.v ===== *)
(** * Sha1: crypto/sha1 and encoding/hex, for the names of the servers

    SHA-1 over bytes (FIPS 180-4), on 32-bit words held in [Z]. *)

From Stdlib Require Import Ascii.
From S2P Require Import Prelude GoStrings.

Definition word (x : Z) : Z := Z.land x 0xffffffff.

Definition rotl (n x : Z) : Z := word (Z.lor (Z.shiftl x n) (Z.shiftr x (32 - n))).

(** The [n] bytes of a number, the most significant first. *)
Fixpoint big_endian (n : nat) (x : Z) : list Z :=
  match n with
  | O => []
  | S n => Z.land (Z.shiftr x (8 * Z.of_nat n)) 0xff :: big_endian n x
  end.

Definition from_big_endian (bytes : list Z) : Z :=
  foldl (λ x b, Z.lor (Z.shiftl x 8) b) 0%Z bytes.

Fixpoint chunks {A} (fuel n : nat) (l : list A) : list (list A) :=
  match fuel, l with
  | S fuel, _ :: _ => take n l :: chunks fuel n (drop n l)
  | _, _ => []
  end.

(** One bit, zeros, and the length in bits: a multiple of 64 bytes. *)
Definition pad (message : list Z) : list Z :=
  let len := length message in
  let zeros := ((119 - len mod 64) mod 64)%nat in
  message ++ [128%Z] ++ replicate zeros 0%Z ++ big_endian 8 (8 * Z.of_nat len).

(** The message schedule, the last word first. *)
Fixpoint schedule (n : nat) (w : list Z) : list Z :=
  match n with
  | O => w
  | S n =>
      let at_ i := nth i w 0%Z in
      schedule n (rotl 1 (Z.lxor (at_ 2%nat) (Z.lxor (at_ 7%nat)
        (Z.lxor (at_ 13%nat) (at_ 15%nat)))) :: w)
  end.

Record digest := Digest { d_a : Z; d_b : Z; d_c : Z; d_d : Z; d_e : Z }.

Definition initial : digest :=
  Digest 0x67452301 0xefcdab89 0x98badcfe 0x10325476 0xc3d2e1f0.

Definition choose (d : digest) : Z :=
  Z.lor (Z.land (d_b d) (d_c d)) (Z.land (Z.lxor (d_b d) 0xffffffff) (d_d d)).
Definition parity (d : digest) : Z := Z.lxor (d_b d) (Z.lxor (d_c d) (d_d d)).
Definition majority (d : digest) : Z :=
  Z.lor (Z.land (d_b d) (d_c d)) (Z.lor (Z.land (d_b d) (d_d d)) (Z.land (d_c d) (d_d d))).

Definition round_ (f : digest → Z) (k : Z) (d : digest) (w : Z) : digest :=
  Digest (word (rotl 5 (d_a d) + f d + d_e d + k + w)) (d_a d) (rotl 30 (d_b d)) (d_c d) (d_d d).

Definition sha1_block (h : digest) (block : list Z) : digest :=
  let w := reverse (schedule 64 (reverse (from_big_endian <$> chunks 16 4 block))) in
  let part i := take 20 (drop i w) in
  let d := foldl (round_ choose 0x5a827999) h (part 0%nat) in
  let d := foldl (round_ parity 0x6ed9eba1) d (part 20%nat) in
  let d := foldl (round_ majority 0x8f1bbcdc) d (part 40%nat) in
  let d := foldl (round_ parity 0xca62c1d6) d (part 60%nat) in
  Digest (word (d_a h + d_a d)) (word (d_b h + d_b d)) (word (d_c h + d_c d))
    (word (d_d h + d_d d)) (word (d_e h + d_e d)).

Definition sha1_Sum (data : string) : list Z :=
  let message := pad ((λ c, Z.of_nat (nat_of_ascii c)) <$> String.list_ascii_of_string data) in
  let d := foldl sha1_block initial (chunks (length message) 64 message) in
  d_list ← [d_a d; d_b d; d_c d; d_d d; d_e d]; big_endian 4 d_list.

Definition hex_digit (n : Z) : ascii :=
  ascii_of_nat (Z.to_nat (if Z.ltb n 10 then 48 + n else 87 + n)%Z).

Definition EncodeToString (bytes : list Z) : string :=
  foldr (λ b s, String (hex_digit (Z.shiftr b 4)) (String (hex_digit (Z.land b 15)) s)) "" bytes.

(** servers.go *)
Definition HashSHA1 (data : string) : string := EncodeToString (sha1_Sum data).

Lemma length_EncodeToString bytes : String.length (EncodeToString bytes) = (2 * length bytes)%nat.
Proof. induction bytes as [|b bytes IH]; cbn [EncodeToString foldr String.length length]; [done|].
  unfold EncodeToString in IH. rw IH. lia. Qed.

Lemma HashSHA1_length data : String.length (HashSHA1 data) = 40%nat.
Proof. unfold HashSHA1. by rw length_EncodeToString. Qed.

(** The test vectors of FIPS 180-4. *)
Example HashSHA1_abc : HashSHA1 "abc" = "a9993e364706816aba3e25717850c26c9cd0d89d".
Proof. vm_refl. Qed.

Example HashSHA1_empty : HashSHA1 "" = "da39a3ee5e6b4b0d3255bfef95601890afd80709".
Proof. vm_refl. Qed.

Example HashSHA1_two_blocks :
  HashSHA1 "abcdbcdecdefdefgefghfghighijhijkijkljklmklmnlmnomnopnopq" =
  "84983e441c3bd26ebaae4aa1f95129e5e54670f1".
Proof. vm_refl. Qed.
