(* ===== verification/Servers.v ===== *)
(** * Servers: haproxy/servers.go, haproxy/runtime.go, hug/reload/reload-mgr.go

    The servers of the backends: which services the backends use, the endpoints
    of a service, the servers they make, and the commands that take the removed
    servers out of the running HAProxy. *)

From Stdlib Require Import Ascii.
From S2P Require Import Prelude GoStrings Sha1 Objects Utils Conditions Store TreeCore Route.
From S2P Require Import HaproxyConf Backends.

(** ** hug/reload/reload-mgr.go *)
Record reloadMgr := mkReloadMgr { reload : bool; attempted : bool; failed : bool }.

Definition SetReload (rlm : reloadMgr) : reloadMgr := mkReloadMgr true (attempted rlm) (failed rlm).
Definition AttemptDynamicServerStateUpdate (rlm : reloadMgr) : reloadMgr :=
  mkReloadMgr (reload rlm) true (failed rlm).
Definition SetDynamicServerStateUpdateFailure (rlm : reloadMgr) : reloadMgr :=
  mkReloadMgr (reload rlm) (attempted rlm) true.
Definition reload_Reset (rlm : reloadMgr) : reloadMgr := mkReloadMgr false false false.
Definition reload_NeedReload (rlm : reloadMgr) : bool := reload rlm.
Definition DynamicUpdateServerStateFailed (rlm : reloadMgr) : bool := failed rlm.
Definition DynamicUpdateServerStateAttempted (rlm : reloadMgr) : bool := attempted rlm.

(** ** runtime.go *)

(** The runtime client of client-native, with its state. *)
Class RuntimeServers (T : Type) := {
  ExecuteRaw : string → T → T * result string;
  runtime_DeleteServer : string → string → T → T * option string
}.

Definition BufferSize : nat := Z.to_nat 16000.

(** The commands for one server. *)
Definition server_commands (server : RuntimeServerStateData) : string :=
  "set server " +:+ rs_BackendName server +:+ "/" +:+ rs_ServerName server +:+
  " addr " +:+ rs_IP server +:+
  (if bool_decide (0 < rs_Port server)%Z then " port " +:+ pretty (rs_Port server) else "") +:+
  ";set server " +:+ rs_BackendName server +:+ "/" +:+ rs_ServerName server +:+
  " state " +:+ rs_State server +:+ ";".

Section runtime.
Context {T : Type} {RT : RuntimeServers T}.

Definition runRaw (sb backendName : string) (t : T) : T * option string :=
  match ExecuteRaw sb t with
  | (t, Err err) => (t, Some err)
  | (t, Ok res) =>
      if (5 <? String.length res)%nat &&
         bool_decide (String.substring 0 4 res ∈ ["[3]:"; "[2]:"; "[1]:"; "[0]:"])
      then (t, Some ("runtime update failed for " +:+ backendName)) else (t, None)
  end.

(** The loop over the servers: [sb] is the buffer, [first] the backend of the
    first server. *)
Fixpoint send_commands (first : string) (servers : list RuntimeServerStateData) (sb : string)
    (t : T) : T * option string :=
  match servers with
  | [] => if (0 <? String.length sb)%nat then runRaw sb first t else (t, None)
  | server :: servers =>
      let cmd := server_commands server in
      if (BufferSize <=? String.length sb + String.length cmd)%nat then
        match runRaw sb (rs_BackendName server) t with
        | (t, Some err) => (t, Some err)
        | (t, None) => send_commands first servers cmd t
        end
      else send_commands first servers (sb +:+ cmd) t
  end.

Definition RuntimeSetServerAddrAndState (servers : list RuntimeServerStateData) (t : T) :
    T * option string :=
  match servers with
  | [] => (t, None)
  | server :: _ => send_commands (rs_BackendName server) servers "" t
  end.

Definition RuntimeDeleteServer (backendName serverName : string) (t : T) : T * option string :=
  runtime_DeleteServer backendName serverName t.
End runtime.

(** ** servers.go *)

(** The fields of [models.Server] the code sets. *)
Record ServerModel := mkServer {
  srv_Name : string; srv_Address : string; srv_Port : Z; srv_Maintenance : string
}.

#[export] Instance ServerModel_eq_dec : EqDecision ServerModel.
Proof. solve_decision. Defined.

Record BackendPort := mkBackendPort { backendName : string; svcPort : Z }.

#[export] Instance BackendPort_eq_dec : EqDecision BackendPort.
Proof. solve_decision. Defined.

#[export] Instance BackendPort_countable : Countable BackendPort.
Proof.
  refine (inj_countable' (λ b, (backendName b, svcPort b)) (λ p, mkBackendPort p.1 p.2) _).
  by intros [].
Defined.

Record Endpoints := mkEndpoints { endpoints : list Endpoint; ports : list EndpointPort }.

Abbreviation SvcEndpoints := (gmap string Endpoints).

(** The settings, the parsed name template applied to the hash of an address,
    and [misc.SanitizeIPv6Address] of client-native. *)
Class ServerParams := {
  SanitizeIPv6Address : string → string;
  ServerNameTemplate : string → result string;
  DisableIPv4 : bool;
  DisableIPv6 : bool
}.

Definition AddressTypeIPv4 : string := "IPv4".
Definition AddressTypeIPv6 : string := "IPv6".

Definition IntOrString_String (v : IntOrString) : string :=
  match v with IntVal n => pretty n | StrVal s => s end.

Section servers.
Context {RO : RangeOrder} {SP : ServerParams}.

Definition getServerName (address : string) (port : Z) : result string :=
  let cnServerAddress := SanitizeIPv6Address address +:+ ":" +:+ pretty port in
  ServerNameTemplate (HashSHA1 cnServerAddress).

(** The port of the service: its target port, the zero value when none matches. *)
Definition target_port (svcPorts : list ServicePort) (bePort : Z) : IntOrString :=
  match list_find (λ port, sp_Port port = bePort) svcPorts with
  | Some (_, port) => sp_TargetPort port
  | None => IntVal 0
  end.

Definition family_enabled (addressType : string) : bool :=
  if bool_decide (addressType = AddressTypeIPv4) then negb DisableIPv4
  else if bool_decide (addressType = AddressTypeIPv6) then negb DisableIPv6
  else true.

(** The first port of the endpoints that matches: [foundPort], [serverPort]. *)
Definition match_port (targetPort : IntOrString) (epPort : EndpointPort) : option Z :=
  match targetPort with
  | IntVal targetPortInt =>
      match epp_Port epPort with
      | Some port => if bool_decide (targetPortInt = port) then Some port else None
      | None => None
      end
  | StrVal targetPortStr =>
      match epp_Name epPort with
      | Some name =>
          if bool_decide (targetPortStr = name) then Some (default 0%Z (epp_Port epPort)) else None
      | None => None
      end
  end.

Definition find_port (targetPort : IntOrString) (epPorts : list EndpointPort) : option Z :=
  head (omap (match_port targetPort) epPorts).

(** The server of one address. *)
Definition add_address (bePort serverPort : Z) (acc : gmap string ServerModel * Errors)
    (address : string) : gmap string ServerModel * Errors :=
  match getServerName address bePort with
  | Err err => (acc.1, Errors_Add acc.2 [Some err])
  | Ok serverName =>
      (<[serverName := mkServer serverName address serverPort "disabled"]> acc.1, acc.2)
  end.

Definition add_family (bePort : Z) (targetPort : IntOrString) (addressType : string)
    (eps : Endpoints) (acc : gmap string ServerModel * Errors) :
    gmap string ServerModel * Errors :=
  if family_enabled addressType then
    match find_port targetPort (ports eps) with
    | None => acc
    | Some serverPort =>
        foldl (λ acc ep, foldl (add_address bePort serverPort) acc (ep_Addresses ep)) acc
          (endpoints eps)
    end
  else acc.

Definition getServersForBackend (services : gmap NamespacedName K8sService)
    (svcKey : NamespacedName) (be : BackendPort) (svcEndpoints : SvcEndpoints) :
    result (gmap string ServerModel) :=
  let bePort := svcPort be in
  match services !! svcKey with
  | None => Err ("could not retrieve the Service " +:+ NamespacedName_String svcKey)
  | Some svc =>
      let targetPort := target_port (svc_Ports svc) bePort in
      if bool_decide (IntOrString_String targetPort = "") ||
         bool_decide (IntOrString_String targetPort = "<nil>")
      then Err ("no TargetPort found on Service " +:+ NamespacedName_String svcKey +:+
                " matching Port " +:+ pretty bePort)
      else
        let '(servers, errs) := range_fold (add_family bePort targetPort) svcEndpoints (∅, []) in
        match Errors_Result errs with Some err => Err err | None => Ok servers end
  end.

(** *** The endpoints of a service *)
Definition endpoint_ready (ep : Endpoint) : bool := default false (ep_Ready ep).

Definition add_slice (svcEndpoints : SvcEndpoints) (eps : K8sEndpointSlice) : SvcEndpoints :=
  let old := default (mkEndpoints [] []) (svcEndpoints !! eps_AddressType eps) in
  <[eps_AddressType eps :=
      mkEndpoints (endpoints old ++ filter (λ ep, endpoint_ready ep) (eps_Endpoints eps))
        (ports old ++ eps_Ports eps)]> svcEndpoints.

(** [slices] is what the cache answers. *)
Definition getSvcEndpoints (slices : NamespacedName → result (list K8sEndpointSlice))
    (svcKey : NamespacedName) : result SvcEndpoints :=
  match slices svcKey with
  | Err err => Err err
  | Ok items => Ok (foldl add_slice ∅ items)
  end.

Definition getServiceNameFromEndpointSlice (eps : K8sEndpointSlice) : string :=
  default "" (meta_Labels (eps_Meta eps) !! "kubernetes.io/service-name").

(** An update without the object it is about makes the process panic. *)
Definition endpointSliceUpdatedByService
    (epsUpdates : gmap NamespacedName (Update K8sEndpointSlice)) :
    option (gmap NamespacedName (gmap NamespacedName K8sEndpointSlice)) :=
  range_mfold (λ epsKey eps res,
    k8sEps ← match UStatus eps with
             | StatusUpserted => NewObject eps
             | StatusDeleted => OldObject eps
             | StatusUnchanged => None
             end;
    let updatedSvcKey :=
      NN (meta_Namespace (eps_Meta k8sEps)) (getServiceNameFromEndpointSlice k8sEps) in
    Some (<[updatedSvcKey := <[epsKey := k8sEps]> (default ∅ (res !! updatedSvcKey))]> res))
    epsUpdates ∅.

(** *** The backends of each service *)
Section by_service.
Context {Extra : Type} {BP : BackendParams ServerModel Extra}.

Abbreviation ByService := (gmap NamespacedName (gset BackendPort)).

Section routes.
Context {R Rule : Type} {BR : BackendRoute R Rule}.
Context (rs : gmap nat (Route R Rule)) (treeRoutes : gmap NamespacedName nat).

Definition by_service_ref (routeNs beName : string) (servicesByBackend : ByService)
    (ref : BackendObjectReference * string * HTTPBackendRef) : ByService :=
  let '(backendRef, filterHash, _) := ref in
  let nsName := GetNamespacedName (b_Name backendRef) (default "" (b_Namespace backendRef)) routeNs in
  let svcPort := default 0%Z (b_Port backendRef) in
  match getBackendName nsName svcPort filterHash with
  | Err _ => servicesByBackend
  | Ok ruleBeName =>
      if bool_decide (ruleBeName = beName) then
        <[nsName := {[mkBackendPort beName svcPort]} ∪ default ∅ (servicesByBackend !! nsName)]>
          servicesByBackend
      else servicesByBackend
  end.

(** The namespace of a route that was deleted cannot be read: a panic, when a
    valid rule has a reference. *)
Definition by_service_rule (k8s : option R) (beName : string) (rule : RouteRule Rule)
    (servicesByBackend : ByService) : option ByService :=
  if rule_Valid rule then
    match rule_refs md5_filters (rule_K8sResource rule), k8s with
    | [], _ => Some servicesByBackend
    | refs, Some k8s =>
        Some (foldl (by_service_ref (meta_Namespace (route_Meta k8s)) beName) servicesByBackend refs)
    | _, None => None
    end
  else Some servicesByBackend.

Definition backendsByServiceForRoute (routeOwners : gmap NamespacedName Z) (beName : string)
    (servicesByBackend : ByService) : option ByService :=
  range_mfold (λ ownerRouteKey _ servicesByBackend,
    match treeRoutes !! ownerRouteKey ≫= λ loc, rs !! loc with
    | None => Some servicesByBackend
    | Some treeRoute =>
        mfold (by_service_rule (rt_K8sResource (rt_data treeRoute)) beName)
          (Rules (rt_data treeRoute)) servicesByBackend
    end) routeOwners servicesByBackend.
End routes.

Definition backendsByServiceForHTTPRoute :=
  backendsByServiceForRoute (R := K8sHTTPRoute) (Rule := K8sHTTPRouteRule).
Definition backendsByServiceForTLSRoute :=
  backendsByServiceForRoute (R := K8sTLSRoute) (Rule := K8sTLSRouteRule).

Definition backendsByService (https : gmap nat (Route K8sHTTPRoute K8sHTTPRouteRule))
    (HTTPRoutes : gmap NamespacedName nat) (tlss : gmap nat (Route K8sTLSRoute K8sTLSRouteRule))
    (TLSRoutes : gmap NamespacedName nat) (bo : BackendReferencedBy) : option ByService :=
  range_mfold (λ beName ofBackend servicesByBackend,
    match ofBackend !! BackendOwnerTypeHTTPRoute, ofBackend !! BackendOwnerTypeTLSRoute with
    | Some routeOwners, _ =>
        backendsByServiceForHTTPRoute https HTTPRoutes routeOwners beName servicesByBackend
    | None, Some routeOwners =>
        backendsByServiceForTLSRoute tlss TLSRoutes routeOwners beName servicesByBackend
    | None, None => Some servicesByBackend
    end) bo ∅.

(** *** The cycle *)
Section cycle.
Context {EqE : EqDecision Extra} {T : Type} {RT : RuntimeServers T}.
Context (services : gmap NamespacedName K8sService).
Context (slices : NamespacedName → result (list K8sEndpointSlice)).

Record EndpointsCycle := mkEndpointsCycle {
  ec_conf : Sections (BackendModel ServerModel (BackendBase Extra));
  ec_client : T;
  ec_reload : reloadMgr;
  ec_errs : Errors
}.

Definition ec_error (err : string) (c : EndpointsCycle) : EndpointsCycle :=
  mkEndpointsCycle (ec_conf c) (ec_client c) (ec_reload c) (Errors_Add (ec_errs c) [Some err]).

(** The removed servers are put in maintenance, then deleted; an error of the
    deletion is only logged. *)
Definition take_out (removed : list RuntimeServerStateData) (c : EndpointsCycle) :
    EndpointsCycle :=
  match removed with
  | [] => c
  | _ =>
      let rlm := AttemptDynamicServerStateUpdate (ec_reload c) in
      match RuntimeSetServerAddrAndState removed (ec_client c) with
      | (t, Some err) =>
          ec_error err
            (mkEndpointsCycle (ec_conf c) t (SetDynamicServerStateUpdateFailure rlm) (ec_errs c))
      | (t, None) =>
          let t := foldl (λ t server,
            (RuntimeDeleteServer (rs_BackendName server) (rs_ServerName server) t).1) t removed in
          mkEndpointsCycle (ec_conf c) t rlm (ec_errs c)
      end
  end.

Definition process_backend (svcKey : NamespacedName) (svcEndpoints : SvcEndpoints)
    (c : EndpointsCycle) (be : BackendPort) : EndpointsCycle :=
  match getServersForBackend services svcKey be svcEndpoints with
  | Err err => ec_error err c
  | Ok servers =>
      let '(conf, res) := upsertBackendWithServers (backendName be) servers (ec_conf c) in
      let c := mkEndpointsCycle conf (ec_client c) (ec_reload c) (ec_errs c) in
      match res with
      | Err err => ec_error err c
      | Ok removed => take_out removed c
      end
  end.

Definition created_or_updated (conf : Sections (BackendModel ServerModel (BackendBase Extra)))
    (be : BackendPort) : bool :=
  bool_decide (is_Some (created conf !! backendName be)) ||
  bool_decide (is_Some (updated conf !! backendName be)).

Definition process_service (epsUpdatesByService : gmap NamespacedName (gmap NamespacedName K8sEndpointSlice))
    (svcKey : NamespacedName) (backends : gset BackendPort) (c : EndpointsCycle) : EndpointsCycle :=
  let beCreatedOrUpdated := existsb (created_or_updated (ec_conf c)) (range_set backends) in
  if negb (bool_decide (is_Some (epsUpdatesByService !! svcKey))) && negb beCreatedOrUpdated then c
  else
    match getSvcEndpoints slices svcKey with
    | Err err => ec_error err c
    | Ok svcEndpoints => foldl (process_backend svcKey svcEndpoints) c (range_set backends)
    end.

Definition processEndpointSlices (epsUpdates : gmap NamespacedName (Update K8sEndpointSlice))
    (https : gmap nat (Route K8sHTTPRoute K8sHTTPRouteRule)) (HTTPRoutes : gmap NamespacedName nat)
    (tlss : gmap nat (Route K8sTLSRoute K8sTLSRouteRule)) (TLSRoutes : gmap NamespacedName nat)
    (bo : BackendReferencedBy) (c : EndpointsCycle) : option (EndpointsCycle * option string) :=
  if bool_decide (size epsUpdates = 0) && bool_decide (size (created (ec_conf c)) = 0) &&
     bool_decide (size (updated (ec_conf c)) = 0)
  then Some (c, None)
  else
    epsUpdatesByService ← endpointSliceUpdatedByService epsUpdates;
    backends ← backendsByService https HTTPRoutes tlss TLSRoutes bo;
    let c := range_fold (process_service epsUpdatesByService) backends
               (mkEndpointsCycle (ec_conf c) (ec_client c) (ec_reload c) []) in
    Some (c, Errors_Result (ec_errs c)).
End cycle.
End by_service.
End servers.

(** ** The commands in batches *)
Section batches.
Context {T : Type} {RT : RuntimeServers T}.

(** Batches of commands, each with the backend its error names: the first
    error stops. *)
Fixpoint run_batches (batches : list (string * string)) (t : T) : T * option string :=
  match batches with
  | [] => (t, None)
  | (sb, backend) :: batches =>
      match runRaw sb backend t with
      | (t, Some err) => (t, Some err)
      | (t, None) => run_batches batches t
      end
  end.

Definition joined (parts : list string) : string := foldr String.append "" parts.

Lemma server_commands_pos s : (0 < String.length (server_commands s))%nat.
Proof. unfold server_commands. rw string_length_app. cbn. lia. Qed.

(** The commands of some servers, as one batch. *)
Definition commands_of (servers : list RuntimeServerStateData) : string := joined (server_commands <$> servers).

Definition in_batches (batches : list (list RuntimeServerStateData * string)) : list (string * string) :=
  (λ b, (commands_of b.1, b.2)) <$> batches.

Lemma commands_of_snoc servers s : commands_of (servers ++ [s]) = commands_of servers +:+ server_commands s.
Proof using Type.
  unfold commands_of. rw fmap_app. induction servers as [|s' servers IH]; [cbn; by rw string_app_nil_r|].
  change (server_commands s' +:+ joined ((server_commands <$> servers) ++ [server_commands s]) =
    (server_commands s' +:+ joined (server_commands <$> servers)) +:+ server_commands s). by rw IH string_app_assoc.
Qed.

Lemma commands_of_pos servers : servers ≠ [] → (0 < String.length (commands_of servers))%nat.
Proof using Type.
  destruct servers as [|s servers]; [done|]. intros _. cbn. rw string_length_app. pose proof (server_commands_pos s). lia.
Qed.

(** The buffer holds the commands of the servers in [pending]. *)
Lemma send_commands_batches first servers pending :
  ∃ batches, concat batches.*1 = pending ++ servers ∧
    (∀ t, send_commands first servers (commands_of pending) t = run_batches (in_batches batches) t) ∧
    (Forall (λ s, String.length (server_commands s) < BufferSize)%nat servers →
     (String.length (commands_of pending) < BufferSize)%nat →
     Forall (λ b, b.1 ≠ [] ∧ String.length (commands_of b.1) < BufferSize)%nat batches).
Proof.
  revert pending. induction servers as [|s servers IH]; intros pending; cbn [send_commands].
  - rw app_nil_r. destruct pending as [|s pending].
    { exists []. split; [done|]. split; [done|]. by constructor. }
    pose proof (commands_of_pos (s :: pending) ltac:(done)) as Hpos.
    exists [(s :: pending, first)]. split_and!.
    + cbn. by rw app_nil_r.
    + intros t. rw (proj2 (Nat.ltb_lt _ _) Hpos). cbn [in_batches fmap list_fmap run_batches fst snd].
      by destruct (runRaw _ first t) as [t' [err|]].
    + intros _ Hsb. by constructor.
  - destruct (Nat.leb_spec BufferSize (String.length (commands_of pending) + String.length (server_commands s)))
      as [Hle|Hlt].
    + destruct (IH [s]) as (batches & Hall & Hrun & Hb). rw (commands_of_snoc [] s : commands_of [s] = _) in Hrun Hb.
      exists ((pending, rs_BackendName s) :: batches). split_and!.
      * cbn. by rw Hall.
      * intros t. cbn [in_batches fmap list_fmap run_batches fst snd].
        destruct (runRaw _ (rs_BackendName s) t) as [t' [err|]]; [done|]. apply Hrun.
      * intros [Hs Hservers]%Forall_cons Hsb. constructor; [|by apply Hb].
        cbn [fst]. split; [|done]. intros ->. cbn in Hle. lia.
    + destruct (IH (pending ++ [s])) as (batches & Hall & Hrun & Hb). rw commands_of_snoc in Hrun Hb.
      exists batches. split_and!; [by rw Hall -app_assoc|exact Hrun|].
      intros [_ Hservers]%Forall_cons _. apply Hb; [done|]. by rw string_length_app.
Qed.
End batches.

(** ** The servers of the endpoints *)
Section endpoints.
Context {RO : RangeOrder} {SP : ServerParams}.

(** The servers are those of the addresses and ports in [P]. *)
Definition made_from (bePort : Z) (P : string → Z → Prop)
    (acc : gmap string ServerModel * Errors) : Prop :=
  (∀ n, is_Some (acc.1 !! n) ↔ ∃ a p, P a p ∧ getServerName a bePort = Ok n) ∧
  (∀ n s, acc.1 !! n = Some s →
     ∃ a p, P a p ∧ getServerName a bePort = Ok n ∧ s = mkServer n a p "disabled") ∧
  ((acc.2 = [] ∧ ∀ a p, P a p → ∃ n, getServerName a bePort = Ok n) ∨
   (acc.2 ≠ [] ∧ ∃ a p err, P a p ∧ getServerName a bePort = Err err)).

Lemma made_from_ext bePort (P Q : string → Z → Prop) acc :
  (∀ a p, P a p ↔ Q a p) → made_from bePort P acc → made_from bePort Q acc.
Proof.
  intros HPQ (H1 & H2 & H3). split_and!.
  - intros n. rw H1. by setoid_rewrite HPQ.
  - intros n s Hs. destruct (H2 n s Hs) as (a & p & Ha & ?). exists a, p. by rw -HPQ.
  - destruct H3 as [[H Hall]|(H & a & p & err & Ha & ?)]; [left|right; split; [done|]].
    + split; [done|]. intros a p Ha. apply (Hall a p). by apply HPQ.
    + exists a, p, err. by rw -HPQ.
Qed.

Lemma add_address_made bePort p a P acc :
  made_from bePort P acc →
  made_from bePort (λ a' p', P a' p' ∨ (a' = a ∧ p' = p)) (add_address bePort p acc a).
Proof.
  intros (H1 & H2 & H3). unfold add_address.
  destruct (getServerName a bePort) as [n|err] eqn:Ha; cbn.
  - split_and!; cbn.
    + intros n'. rw lookup_insert_is_Some' H1. split.
      * intros [<-|(a' & p' & ? & ?)]; [exists a, p; auto|exists a', p'; auto].
      * intros (a' & p' & [?|[-> ->]] & Hn); [right; by exists a', p'|left; congruence].
    + intros n' s [[<- <-]|[_ Hs]]%lookup_insert_Some; [exists a, p; auto|].
      destruct (H2 _ _ Hs) as (a' & p' & ? & ?). exists a', p'. auto.
    + destruct H3 as [[H Hall]|(H & a' & p' & err & ? & ?)]; [left|right]; (split; [done|]).
      * intros a' p' [?|[-> ->]]; [by eapply Hall|by exists n].
      * exists a', p', err. auto.
  - split_and!; cbn.
    + intros n'. rw H1. split; intros (a' & p' & Hp & Hn); [exists a', p'; auto|].
      destruct Hp as [?|[-> ->]]; [by exists a', p'|congruence].
    + intros n' s Hs. destruct (H2 _ _ Hs) as (a' & p' & ? & ?). exists a', p'. auto.
    + right. split; [by intros [_ ?]%app_nil|]. exists a, p, err. auto.
Qed.

Lemma add_addresses_made bePort p l P acc :
  made_from bePort P acc →
  made_from bePort (λ a' p', P a' p' ∨ (a' ∈ l ∧ p' = p)) (foldl (add_address bePort p) acc l).
Proof.
  revert P acc. induction l as [|a l IH]; intros P acc Hacc; cbn [foldl].
  - eapply made_from_ext; [|exact Hacc]. intros a p'. cbn. rw elem_of_nil. naive_solver.
  - eapply made_from_ext; [|by apply IH, (add_address_made bePort p a)].
    intros a' p'. cbn. rw elem_of_cons. naive_solver.
Qed.

(** The addresses of ready endpoints that have a port. *)
Definition offered_by (targetPort : IntOrString) (addressType : string) (eps : Endpoints)
    (a : string) (p : Z) : Prop :=
  family_enabled addressType = true ∧ find_port targetPort (ports eps) = Some p ∧
  ∃ ep, ep ∈ endpoints eps ∧ a ∈ ep_Addresses ep.

Lemma add_family_made bePort targetPort ty eps P acc :
  made_from bePort P acc →
  made_from bePort (λ a p, P a p ∨ offered_by targetPort ty eps a p)
    (add_family bePort targetPort ty eps acc).
Proof.
  intros Hacc. unfold add_family, offered_by. destruct (family_enabled ty).
  2: { eapply made_from_ext; [|exact Hacc]. naive_solver. }
  destruct (find_port targetPort (ports eps)) as [p|].
  2: { eapply made_from_ext; [|exact Hacc]. naive_solver. }
  eapply (made_from_ext _ (λ a p', P a p' ∨ (∃ ep, ep ∈ endpoints eps ∧ a ∈ ep_Addresses ep) ∧ p' = p)).
  { intros a p'. split; [intros [?|[? ->]]|intros [?|(_ & [= ->] & ?)]]; auto. }
  revert P acc Hacc. induction (endpoints eps) as [|ep l IH]; intros P acc Hacc; cbn [foldl].
  - eapply made_from_ext; [|exact Hacc]. intros a p'. cbn. setoid_rewrite elem_of_nil. naive_solver.
  - eapply made_from_ext; [|by apply IH, (add_addresses_made bePort p (ep_Addresses ep))].
    intros a p'. cbn. setoid_rewrite elem_of_cons. naive_solver.
Qed.

Definition offered (targetPort : IntOrString) (svcEndpoints : SvcEndpoints) (a : string) (p : Z) :
    Prop := ∃ ty eps, svcEndpoints !! ty = Some eps ∧ offered_by targetPort ty eps a p.

Lemma families_made bePort targetPort svcEndpoints :
  made_from bePort (offered targetPort svcEndpoints)
    (range_fold (add_family bePort targetPort) svcEndpoints (∅, [])).
Proof.
  apply (range_fold_ind (λ dn acc, made_from bePort (offered targetPort dn) acc)).
  - unfold offered. split_and!; cbn.
    + intros n. rw lookup_empty. split; [by intros [? ?]|].
      intros (a & p & (ty & eps & Hl & _) & _). by rw lookup_empty in Hl.
    + intros n s Hs. by rw lookup_empty in Hs.
    + left. split; [done|]. intros a p (ty & eps & Hl & _). by rw lookup_empty in Hl.
  - intros ty eps dn acc _ Hdn _ IH. eapply made_from_ext; [|by apply add_family_made].
    intros a p. unfold offered. split.
    + intros [(ty' & eps' & Hl & ?)|?].
      * exists ty', eps'. rw lookup_insert_ne; [|done]. intros ->. congruence.
      * exists ty, eps. by rw lookup_insert_eq.
    + intros (ty' & eps' & [[<- <-]|[_ Hl]]%lookup_insert_Some & ?); [by right|left].
      by exists ty', eps'.
Qed.

(** *** The endpoints of the slices *)
Definition of_type (ty : string) (items : list K8sEndpointSlice) : list K8sEndpointSlice :=
  filter (λ eps, eps_AddressType eps = ty) items.

Lemma lookup_add_slices items acc ty :
  foldl add_slice acc items !! ty =
  match of_type ty items, acc !! ty with
  | [], old => old
  | slices, old =>
      Some (mkEndpoints
        (from_option endpoints [] old ++
         filter (λ ep, endpoint_ready ep) (slices ≫= eps_Endpoints))
        (from_option ports [] old ++ (slices ≫= eps_Ports)))
  end.
Proof.
  revert acc. induction items as [|eps items IH]; intros acc; cbn [foldl]; [done|].
  rw IH. unfold of_type. rw filter_cons. unfold add_slice at 1 2 3.
  destruct (decide (eps_AddressType eps = ty)) as [<-|Hne].
  - rw lookup_insert_eq. cbn [from_option]. fold (of_type (eps_AddressType eps) items).
    cbn [mbind list_bind]. rw filter_app.
    destruct (of_type (eps_AddressType eps) items) as [|x l]; cbn [mbind list_bind];
      destruct (acc !! eps_AddressType eps); cbn; rw ?app_nil_r ?app_assoc //.
  - by rw lookup_insert_ne.
Qed.
End endpoints.

(** ** A cycle of the endpoints *)
Section cycle_proofs.
Context {RO : RangeOrder} {SP : ServerParams} {Extra : Type} {EqE : EqDecision Extra}.
Context {BP : BackendParams ServerModel Extra} {T : Type} {RT : RuntimeServers T}.
Context (services : gmap NamespacedName K8sService).
Context (slices : NamespacedName → result (list K8sEndpointSlice)).
Abbreviation Conf := (Sections (BackendModel ServerModel (BackendBase Extra))).
Context (base : gmap string (BackendModel ServerModel (BackendBase Extra))).
Implicit Types (conf : Conf) (c : EndpointsCycle (Extra := Extra) (T := T)).

(** From [conf] to [conf'] only the backends in [P] change, and none appears,
    disappears or leaves the diffs. *)
Record frames (P : string → Prop) conf conf' : Prop := {
  fr_created : created conf' = created conf;
  fr_updated n : is_Some (updated conf !! n) → is_Some (updated conf' !! n);
  fr_cur n : is_Some (cur conf' !! n) ↔ is_Some (cur conf !! n);
  fr_view n : ¬ P n → view conf' (cur conf') !! n = view conf (cur conf) !! n
}.

Lemma frames_refl P conf : frames P conf conf.
Proof. by split. Qed.

Lemma frames_trans P Q conf1 conf2 conf3 :
  frames P conf1 conf2 → frames Q conf2 conf3 → frames (λ n, P n ∨ Q n) conf1 conf3.
Proof.
  intros [A1 A2 A3 A4] [B1 B2 B3 B4]. split.
  - by rw B1.
  - intros n Hn. by apply B2, A2.
  - intros n. by rw B3.
  - intros n [HP HQ]%Decidable.not_or. by rw B4 // A4.
Qed.

Lemma frames_weaken (P Q : string → Prop) conf conf' :
  (∀ n, P n → Q n) → frames P conf conf' → frames Q conf conf'.
Proof. intros HPQ [H1 H2 H3 H4]. split; [done..|]. intros n Hn. apply H4. by intros ?%HPQ. Qed.

Lemma created_or_updated_frames P conf conf' bp :
  frames P conf conf' → created_or_updated conf bp = true → created_or_updated conf' bp = true.
Proof.
  intros [H1 H2 _ _]. unfold created_or_updated. rw !orb_true_iff !bool_decide_eq_true H1.
  intros [?|?]; [by left|right; by apply H2].
Qed.

(** A loop whose steps change different backends. *)
Lemma frames_foldl {A} (f : EndpointsCycle → A → EndpointsCycle) (names : A → string → Prop)
    (pre post : A → Conf → Prop) l c :
  (∀ a c, a ∈ l → cycle_inv be_Name base (ec_conf c) →
     cycle_inv be_Name base (ec_conf (f c a)) ∧ frames (names a) (ec_conf c) (ec_conf (f c a)) ∧
     (pre a (ec_conf c) → post a (ec_conf (f c a)))) →
  (∀ a P conf conf', frames P conf conf' → pre a conf → pre a conf') →
  (∀ a P conf conf', frames P conf conf' → (∀ n, names a n → ¬ P n) → post a conf → post a conf') →
  NoDup l → (∀ a b n, a ∈ l → b ∈ l → names a n → names b n → a = b) →
  cycle_inv be_Name base (ec_conf c) →
  let c' := foldl f c l in
  cycle_inv be_Name base (ec_conf c') ∧
  frames (λ n, ∃ a, a ∈ l ∧ names a n) (ec_conf c) (ec_conf c') ∧
  (∀ a, a ∈ l → pre a (ec_conf c) → post a (ec_conf c')).
Proof.
  intros Hstep Hpre Hpost Hnd Hdis. revert c Hstep Hdis.
  induction Hnd as [|a l Ha Hnd IH]; intros c Hstep Hdis Hinv; cbn [foldl].
  { split_and!; [done|apply frames_refl|]. by intros a ?%elem_of_nil. }
  destruct (Hstep a c) as (Hinv1 & Hfr1 & Hpost1); [by left|done|].
  destruct (IH (f c a)) as (Hinv2 & Hfr2 & Hpost2); [| |done|].
  { intros b c1 Hb. apply Hstep. by right. }
  { intros b b' n Hb Hb'. apply Hdis; by right. }
  split_and!; [done| |].
  - eapply frames_weaken; [|by eapply frames_trans].
    intros n [?|(b & Hb & ?)]; [exists a; split; [by left|done]|exists b; split; [by right|done]].
  - intros b [->|Hb]%elem_of_cons Hp.
    + eapply Hpost; [exact Hfr2| |by apply Hpost1]. cbn. intros n Hn (b & Hb & Hbn).
      apply Ha. by rw (Hdis a b n); [left|right|..].
    + apply Hpost2; [done|]. by eapply Hpre.
Qed.

Lemma ec_conf_take_out removed c : ec_conf (take_out removed c) = ec_conf c.
Proof.
  unfold take_out. destruct removed as [|r rs]; [done|].
  by destruct (RuntimeSetServerAddrAndState (r :: rs) (ec_client c)) as [t [err|]].
Qed.

Lemma upsertBackendWithServers_frames n servers conf :
  wf_sections be_Name conf →
  let conf' := (upsertBackendWithServers n servers conf).1 in
  frames (λ n', n' = n) conf conf' ∧
  (is_Some (cur conf !! n) → be_Servers <$> view conf' (cur conf') !! n = Some servers).
Proof.
  intros [Hc _ _] conf'. subst conf'. unfold upsertBackendWithServers.
  destruct (cur conf !! n) as [loc|] eqn:Hn; cbn.
  2: { split; [apply frames_refl|]. by intros [? ?]. }
  destruct (Hc _ _ Hn) as (be & Hbe & Hname). rw Hbe.
  assert (∀ m up rm, dom m = dom (cur conf) → m !! n = Some loc →
    (∀ n', n' ≠ n → m !! n' = cur conf !! n') →
    (∀ n', is_Some (updated conf !! n') → is_Some (up !! n')) →
    let conf' := mkSections (<[loc := with_servers servers be]> (objs conf)) m (created conf) up rm in
    frames (λ n', n' = n) conf conf' ∧
    (is_Some (Some loc) → be_Servers <$> view conf' (cur conf') !! n = Some servers)) as Hgen.
  { intros m up rm Hdom Hm Hne Hup. split; [split; cbn; [done|exact Hup|..]|].
    - intros n'. by rw -!elem_of_dom Hdom.
    - intros n' Hn'. unfold view. rw !lookup_omap. rw (Hne n' Hn').
      destruct (cur conf !! n') as [loc'|] eqn:Hl; cbn; [|done].
      destruct (Hc _ _ Hl) as (be' & Hbe' & Hname'). rw lookup_insert_ne; [|done].
      intros ->. congruence.
    - intros _. rw lookup_view. cbn. by rw Hm /= lookup_insert_eq. }
  destruct (bool_decide (be_Servers be = servers)); cbn.
  - by apply Hgen.
  - rw Hname. apply Hgen.
    + rw dom_insert_lookup_L //.
    + by rw lookup_insert_eq.
    + intros n' Hn'. by rw lookup_insert_ne.
    + intros n' Hn'. apply lookup_insert_is_Some'. by right.
Qed.

Lemma process_backend_step svcKey eps bp c :
  cycle_inv be_Name base (ec_conf c) →
  let c' := process_backend services svcKey eps c bp in
  cycle_inv be_Name base (ec_conf c') ∧ frames (λ n, n = backendName bp) (ec_conf c) (ec_conf c') ∧
  (∀ servers, is_Some (cur (ec_conf c) !! backendName bp) →
     getServersForBackend services svcKey bp eps = Ok servers →
     be_Servers <$> view (ec_conf c') (cur (ec_conf c')) !! backendName bp = Some servers).
Proof.
  intros Hinv. unfold process_backend.
  destruct (getServersForBackend services svcKey bp eps) as [servers|err]; cbn zeta.
  2: { split_and!; [done|apply frames_refl|done]. }
  pose proof (upsertBackendWithServers_inv base (backendName bp) servers _ Hinv) as Hinv'.
  destruct (upsertBackendWithServers_frames (backendName bp) servers (ec_conf c)) as [Hfr Hs];
    [by eapply inv_wf|].
  destruct (upsertBackendWithServers (backendName bp) servers (ec_conf c)) as [conf' [removed|err]];
    cbn [fst] in *; rw ?ec_conf_take_out; cbn; split_and!; try done;
    by intros servers' Hn [= <-]; apply Hs.
Qed.
(** Different backends of a service have different names, and so have those of
    different services. *)
Definition one_name_each (bsvc : gmap NamespacedName (gset BackendPort)) : Prop :=
  ∀ k k' X X' bp bp', bsvc !! k = Some X → bsvc !! k' = Some X' → bp ∈ X → bp' ∈ X' →
    backendName bp = backendName bp' → k = k' ∧ bp = bp'.

(** The service is to be processed: its endpoints changed, or the diffs hold one
    of its backends. *)
Definition touched {V} (upd : gmap NamespacedName V) (conf : Conf) (k : NamespacedName)
    (X : gset BackendPort) : Prop :=
  is_Some (upd !! k) ∨ ∃ bp, bp ∈ X ∧ created_or_updated conf bp = true.

(** The backends of the service have the servers of its endpoints. *)
Definition reached (k : NamespacedName) (X : gset BackendPort) (conf : Conf) : Prop :=
  ∀ bp eps servers, bp ∈ X → getSvcEndpoints slices k = Ok eps →
    getServersForBackend services k bp eps = Ok servers → is_Some (cur conf !! backendName bp) →
    be_Servers <$> view conf (cur conf) !! backendName bp = Some servers.

Lemma process_service_step upd k X c :
  (∀ bp bp', bp ∈ X → bp' ∈ X → backendName bp = backendName bp' → bp = bp') →
  cycle_inv be_Name base (ec_conf c) →
  let c' := process_service services slices upd k X c in
  cycle_inv be_Name base (ec_conf c') ∧
  frames (λ n, ∃ bp, bp ∈ X ∧ backendName bp = n) (ec_conf c) (ec_conf c') ∧
  (touched upd (ec_conf c) k X → reached k X (ec_conf c')).
Proof.
  intros Hinj Hinv. unfold process_service. cbv zeta.
  destruct (negb _ && negb _) eqn:Hskip.
  { split_and!; [done|apply frames_refl|]. intros Ht. exfalso.
    apply andb_true_iff in Hskip as [H1 H2]. rw !negb_true_iff bool_decide_eq_false in H1 H2.
    destruct Ht as [?|(bp & Hbp & Hc)]; [done|]. revert H2. apply not_false_iff_true.
    apply existsb_exists_elem. exists bp. by rw elem_of_range_set. }
  clear Hskip. unfold reached. destruct (getSvcEndpoints slices k) as [eps|err]; cbn.
  2: { split_and!; [done|apply frames_refl|done]. }
  destruct (frames_foldl (process_backend services k eps) (λ bp n, n = backendName bp)
    (λ bp conf, is_Some (cur conf !! backendName bp))
    (λ bp conf, ∀ servers, getServersForBackend services k bp eps = Ok servers →
       be_Servers <$> view conf (cur conf) !! backendName bp = Some servers)
    (range_set X) c) as (Hinv' & Hfr & Hpost).
  - intros bp c1 _ Hc1. destruct (process_backend_step k eps bp c1 Hc1) as (? & ? & Hs).
    split_and!; [done..|]. intros ? servers ?. by apply Hs.
  - intros bp P conf conf' Hf Hp. by apply (fr_cur _ _ _ Hf).
  - intros bp P conf conf' Hf Hne Hp servers Hs. rw (fr_view _ _ _ Hf); [by apply Hne|]. by apply Hp.
  - apply NoDup_range_set.
  - intros bp bp' n. rw !elem_of_range_set. intros ? ? -> ?. by apply Hinj.
  - done.
  - split_and!; [done| |].
    + eapply frames_weaken; [|exact Hfr]. intros n (bp & Hbp & ->). exists bp.
      by rw -(elem_of_range_set X).
    + intros _ bp eps' servers Hbp [= <-] Hs Hn. apply Hpost; [by rw elem_of_range_set| |done].
      by apply (fr_cur _ _ _ Hfr).
Qed.

Lemma process_services upd (bsvc : gmap NamespacedName (gset BackendPort)) c :
  one_name_each bsvc → cycle_inv be_Name base (ec_conf c) →
  let c' := range_fold (process_service services slices upd) bsvc c in
  cycle_inv be_Name base (ec_conf c') ∧
  frames (λ n, ∃ k X bp, bsvc !! k = Some X ∧ bp ∈ X ∧ backendName bp = n)
    (ec_conf c) (ec_conf c') ∧
  (∀ k X, bsvc !! k = Some X → touched upd (ec_conf c) k X → reached k X (ec_conf c')).
Proof.
  intros Hone Hinv c'. subst c'. unfold range_fold.
  destruct (frames_foldl (λ c kv, process_service services slices upd kv.1 kv.2 c)
    (λ kv n, ∃ bp, bp ∈ kv.2 ∧ backendName bp = n) (λ kv conf, touched upd conf kv.1 kv.2)
    (λ kv conf, reached kv.1 kv.2 conf) (range bsvc) c) as (Hinv' & Hfr & Hpost).
  - intros [k X] c1 Hk%elem_of_range Hc1. apply process_service_step; [|done].
    intros bp bp' Hbp Hbp' Heq. by eapply (Hone k k X X).
  - intros [k X] P conf conf' Hf [?|(bp & Hbp & Hc)]; [by left|right]. exists bp.
    split; [done|]. by eapply created_or_updated_frames.
  - intros [k X] P conf conf' Hf Hne Hp bp eps servers Hbp He Hs Hn. cbn in *.
    rw (fr_view _ _ _ Hf); [by apply Hne; exists bp|]. eapply Hp; [done..|].
    by apply (fr_cur _ _ _ Hf).
  - eapply NoDup_fmap_1, NoDup_fst_range.
  - intros [k X] [k' X'] n Hk%elem_of_range Hk'%elem_of_range (bp & Hbp & Hn) (bp' & Hbp' & Hn').
    cbn in *. destruct (Hone k k' X X' bp bp') as [-> _]; [done..|congruence|]. congruence.
  - done.
  - split_and!; [exact Hinv'| |].
    + eapply frames_weaken; [|exact Hfr].
      intros n ([k X] & Hk%elem_of_range & bp & Hbp & Hn). by exists k, X, bp.
    + intros k X Hk. apply (Hpost (k, X)). by apply elem_of_range.
Qed.
(** *** The cycle does not panic, and keeps the diffs exact *)

(** The diffs are exact, and the backends are those of [conf0]. *)
Definition same_backends conf0 conf : Prop :=
  tidy be_Name base conf ∧ ∀ n, is_Some (cur conf !! n) ↔ is_Some (cur conf0 !! n).

Lemma upsertBackendWithServers_same conf0 n servers conf :
  same_backends conf0 conf → same_backends conf0 (upsertBackendWithServers n servers conf).1.
Proof.
  intros [[H1 H2] H3].
  destruct (upsertBackendWithServers_frames n servers conf (inv_wf _ _ _ H1)) as [[_ _ Hcur _] _].
  cbv zeta in *. split; [|intros n'; by rw Hcur]. split; [by apply upsertBackendWithServers_inv|].
  intros n' Hn'. rw eq_None_not_Some Hcur. intros Hs.
  assert (n' ∈ removed conf) as Hr%H2; [|rw Hr in Hs; by destruct Hs].
  revert Hn'. unfold upsertBackendWithServers. destruct (cur conf !! n) as [loc|]; [|done].
  destruct (objs conf !! loc) as [be|]; [|done]. by case_bool_decide.
Qed.

Lemma process_backend_same conf0 svcKey eps c bp :
  same_backends conf0 (ec_conf c) →
  same_backends conf0 (ec_conf (process_backend services svcKey eps c bp)).
Proof.
  intros Hc. unfold process_backend. destruct (getServersForBackend _ _ _ _) as [servers|]; [|done].
  pose proof (upsertBackendWithServers_same conf0 (backendName bp) servers _ Hc) as H.
  destruct (upsertBackendWithServers _ _ _) as [conf [removed|err]]; [|done]. by rw ec_conf_take_out.
Qed.

Lemma process_service_same conf0 upd k X c :
  same_backends conf0 (ec_conf c) →
  same_backends conf0 (ec_conf (process_service services slices upd k X c)).
Proof.
  intros Hc. unfold process_service. cbv zeta. destruct (_ && _); [done|].
  destruct (getSvcEndpoints slices k) as [eps|]; [|done].
  apply (foldl_ind (λ c, same_backends conf0 (ec_conf c))); [done|].
  intros. by apply process_backend_same.
Qed.

(** An update of a slice comes with the slice. *)
Definition slice_update_ok (u : Update K8sEndpointSlice) : Prop :=
  match UStatus u with
  | StatusUpserted => is_Some (NewObject u)
  | StatusDeleted => is_Some (OldObject u)
  | StatusUnchanged => False
  end.

Lemma endpointSliceUpdatedByService_total epsUpdates :
  map_Forall (λ _, slice_update_ok) epsUpdates →
  ∃ upd, endpointSliceUpdatedByService epsUpdates = Some upd.
Proof.
  intros Hok. unfold endpointSliceUpdatedByService.
  apply range_mfold_runs. intros k u res Hk. pose proof (Hok _ _ Hk) as Hu. unfold slice_update_ok in Hu.
  destruct (UStatus u); [destruct Hu as [e ->]|destruct Hu as [e ->]|done]; by eexists.
Qed.

(** The owners the tree still has come with their resource. *)
Definition owners_resolve {R Rule} (ty : BackendOwnerType) (rs : gmap nat (Route R Rule))
    (treeRoutes : gmap NamespacedName nat) (bo : BackendReferencedBy) : Prop :=
  ∀ be key loc r, is_Some (gen_of bo be ty key) → treeRoutes !! key = Some loc →
    rs !! loc = Some r → is_Some (rt_K8sResource (rt_data r)).

Lemma backendsByServiceForRoute_total {R Rule} {BR : BackendRoute R Rule} ty rs treeRoutes bo be ofBackend
    routeOwners svcs :
  owners_resolve ty rs treeRoutes bo → bo !! be = Some ofBackend → ofBackend !! ty = Some routeOwners →
  ∃ svcs', backendsByServiceForRoute (R := R) rs treeRoutes routeOwners be svcs = Some svcs'.
Proof.
  intros Hres Hbe Hty. unfold backendsByServiceForRoute.
  apply range_mfold_runs. intros key g s Hk. destruct (treeRoutes !! key) as [loc|] eqn:Hl; cbn; [|by exists s].
  destruct (rs !! loc) as [r|] eqn:Hr; [|by exists s].
  destruct (Hres be key loc r) as [k8s Hk8s]; [|done..|].
  { unfold gen_of. rw Hbe /= Hty /= Hk. by eexists. }
  rw Hk8s. apply (mfold_runs (λ _, True)); [done|]. intros rule s' _ _. unfold by_service_rule.
  destruct (rule_Valid rule); [|by exists s'].
  destruct (rule_refs md5_filters (rule_K8sResource rule)); by eexists.
Qed.

Lemma backendsByService_total https HTTPRoutes tlss TLSRoutes bo :
  owners_resolve BackendOwnerTypeHTTPRoute https HTTPRoutes bo →
  owners_resolve BackendOwnerTypeTLSRoute tlss TLSRoutes bo →
  ∃ bsvc, backendsByService https HTTPRoutes tlss TLSRoutes bo = Some bsvc.
Proof.
  intros H1 H2. unfold backendsByService.
  apply range_mfold_runs. intros be ofBackend s Hbe.
  destruct (ofBackend !! BackendOwnerTypeHTTPRoute) eqn:E1; [by eapply backendsByServiceForRoute_total|].
  destruct (ofBackend !! BackendOwnerTypeTLSRoute) eqn:E2; [by eapply backendsByServiceForRoute_total|].
  by exists s.
Qed.

Lemma processEndpointSlices_same epsUpdates https HTTPRoutes tlss TLSRoutes bo c :
  map_Forall (λ _, slice_update_ok) epsUpdates →
  owners_resolve BackendOwnerTypeHTTPRoute https HTTPRoutes bo →
  owners_resolve BackendOwnerTypeTLSRoute tlss TLSRoutes bo → tidy be_Name base (ec_conf c) →
  ∃ c' err,
    processEndpointSlices services slices epsUpdates https HTTPRoutes tlss TLSRoutes bo c =
      Some (c', err) ∧ same_backends (ec_conf c) (ec_conf c').
Proof.
  intros Hu H1 H2 Hc. unfold processEndpointSlices. destruct (_ && _ && _); [by exists c, None|].
  destruct (endpointSliceUpdatedByService_total _ Hu) as [upd ->].
  destruct (backendsByService_total _ _ _ _ _ H1 H2) as [bsvc ->]. cbn [mbind option_bind].
  eexists _, _. split; [done|]. unfold range_fold.
  apply (foldl_ind (λ c' : EndpointsCycle, same_backends (ec_conf c) (ec_conf c'))); [done|].
  intros c' [k X] _ Hc'. by apply process_service_same.
Qed.
End cycle_proofs.

(** ** Properties *)
Section spec.
Context {SP : ServerParams}.

(** The address is one of a ready endpoint in a slice of this type, and the
    slices of the type have a port for the target port: the first is [p]. *)
Definition ready_address (items : list K8sEndpointSlice) (targetPort : IntOrString) (ty a : string)
    (p : Z) : Prop :=
  family_enabled ty = true ∧ find_port targetPort (of_type ty items ≫= eps_Ports) = Some p ∧
  ∃ eps ep, eps ∈ items ∧ eps_AddressType eps = ty ∧ ep ∈ eps_Endpoints eps ∧
    ep_Ready ep = Some true ∧ a ∈ ep_Addresses ep.

Lemma endpoint_ready_true ep : endpoint_ready ep = true ↔ ep_Ready ep = Some true.
Proof. unfold endpoint_ready. destruct (ep_Ready ep) as [[]|]; naive_solver. Qed.

Lemma offered_items items targetPort a p :
  offered targetPort (foldl add_slice ∅ items) a p ↔
  ∃ ty, ready_address items targetPort ty a p.
Proof.
  unfold offered, offered_by, ready_address. apply exist_proper. intros ty.
  rw lookup_add_slices lookup_empty. cbn [from_option app].
  assert (∀ ep, ep ∈ filter (λ ep, endpoint_ready ep) (of_type ty items ≫= eps_Endpoints) ↔
    ∃ eps, eps ∈ items ∧ eps_AddressType eps = ty ∧ ep ∈ eps_Endpoints eps ∧
      ep_Ready ep = Some true) as Hep.
  { intros ep. rw list_elem_of_filter list_elem_of_bind. unfold of_type.
    setoid_rewrite list_elem_of_filter. pose proof (endpoint_ready_true ep). rw Is_true_true. naive_solver. }
  destruct (of_type ty items) as [|x l] eqn:Hof.
  - split; [by intros (? & ? & _)|]. intros (_ & Hp & _). by cbn in Hp.
  - rw -Hof in Hep |- *. split.
    + intros (eps & [= <-] & He & Hp & ep & (eps' & ? & ? & ? & ?)%Hep & ?). cbn in *.
      split_and!; [done..|]. by exists eps', ep.
    + intros (He & Hp & eps' & ep & ? & ? & ? & ? & ?). eexists. split; [done|]. cbn.
      split_and!; [done..|]. exists ep. split; [|done]. apply Hep. by exists eps'.
Qed.
End spec.

(** C35: the servers of a backend are the ready addresses of its service.  With
    the slices of the service from the cache: there is exactly one server per
    name of an address of a ready endpoint, over the address families that are
    enabled and whose slices have a port for the target port of the service, and
    each server has such an address and the first of these ports.  An error means
    that the target port is an empty name, or that an address has no name. *)
Theorem servers_of_ready_addresses (RO : RangeOrder) (SP : ServerParams) services slices svcKey svc
    items be :
  services !! svcKey = Some svc → slices svcKey = Ok items →
  let targetPort := target_port (svc_Ports svc) (svcPort be) in
  let name a := getServerName a (svcPort be) in
  ∃ eps, getSvcEndpoints slices svcKey = Ok eps ∧
    match getServersForBackend services svcKey be eps with
    | Ok servers =>
        (∀ n, is_Some (servers !! n) ↔
           ∃ ty a p, ready_address items targetPort ty a p ∧ name a = Ok n) ∧
        (∀ n s, servers !! n = Some s →
           ∃ ty a p, ready_address items targetPort ty a p ∧ name a = Ok n ∧
             s = mkServer n a p "disabled")
    | Err _ =>
        IntOrString_String targetPort ∈ [""; "<nil>"] ∨
        ∃ ty a p, ready_address items targetPort ty a p ∧ ∀ n, name a ≠ Ok n
    end.
Proof.
  intros Hsvc Hitems targetPort name. unfold getSvcEndpoints. rw Hitems. eexists. split; [done|].
  unfold getServersForBackend. rw Hsvc. cbv zeta. fold targetPort.
  destruct (bool_decide (IntOrString_String targetPort = "") ||
    bool_decide (IntOrString_String targetPort = "<nil>")) eqn:Ht.
  { left. rw !elem_of_cons. apply orb_true_iff in Ht as [?%bool_decide_eq_true|?%bool_decide_eq_true];
      auto. }
  destruct (families_made (svcPort be) targetPort (foldl add_slice ∅ items)) as (H1 & H2 & H3).
  destruct (range_fold _ _ _) as [servers errs]. cbn [fst snd] in *.
  setoid_rewrite offered_items in H1. setoid_rewrite offered_items in H2.
  setoid_rewrite offered_items in H3.
  destruct (Errors_Result errs) eqn:He.
  - right. destruct H3 as [[-> _]|(_ & a & p & err & [ty Ha] & Hn)]; [done|].
    exists ty, a, p. split; [done|]. intros n. by rw /name Hn.
  - split.
    + intros n. rw H1. naive_solver.
    + intros n s (a & p & [ty Ha] & ?)%H2. by exists ty, a, p.
Qed.

(** A backend whose port is not one of its service loses its servers.  When
    no port of the service has the number of the backend, the target port is the
    number zero, so that no error is returned: the backend gets no server, and
    the ones it had are removed. *)
Theorem unmatched_port_removes_servers (RO : RangeOrder) (SP : ServerParams) Extra
    (EqE : EqDecision Extra) (BP : BackendParams ServerModel Extra) T (RT : RuntimeServers T)
    services slices svcKey svc items be base (c : EndpointsCycle (Extra := Extra) (T := T)) :
  services !! svcKey = Some svc → Forall (λ port, sp_Port port ≠ svcPort be) (svc_Ports svc) →
  slices svcKey = Ok items → Forall (λ eps, Forall (λ p, epp_Port p ≠ Some 0%Z) (eps_Ports eps)) items →
  cycle_inv be_Name base (ec_conf c) → is_Some (cur (ec_conf c) !! backendName be) →
  ∃ eps, getSvcEndpoints slices svcKey = Ok eps ∧
    getServersForBackend services svcKey be eps = Ok ∅ ∧
    let c' := process_backend services svcKey eps c be in
    be_Servers <$> view (ec_conf c') (cur (ec_conf c')) !! backendName be = Some ∅.
Proof.
  intros Hsvc Hports Hitems Hzero Hinv Hcur. unfold getSvcEndpoints. rw Hitems.
  eexists. split; [done|].
  assert (target_port (svc_Ports svc) (svcPort be) = IntVal 0) as Ht.
  { unfold target_port. by rw (proj2 (list_find_None _ _) Hports). }
  assert (getServersForBackend services svcKey be (foldl add_slice ∅ items) = Ok ∅) as Hs.
  { unfold getServersForBackend. rw Hsvc Ht. cbv zeta.
    rw !bool_decide_eq_false_2; [done..|]. cbn [orb].
    destruct (families_made (svcPort be) (IntVal 0) (foldl add_slice ∅ items)) as (H1 & _ & H3).
    assert (∀ a p, ¬ offered (IntVal 0) (foldl add_slice ∅ items) a p) as Hno.
    { intros a p [ty (_ & Hp & _)]%offered_items. revert Hp. unfold find_port.
      enough (omap (match_port (IntVal 0)) (of_type ty items ≫= eps_Ports) = []) as -> by done.
      apply omap_none. intros q [eps [Hq [_ He]%list_elem_of_filter]]%list_elem_of_bind.
      rw Forall_forall in Hzero. pose proof (Hzero _ He) as Hz. rw Forall_forall in Hz.
      specialize (Hz _ Hq). unfold match_port. destruct (epp_Port q) as [port|]; [|done].
      rw bool_decide_eq_false_2; [|done]. congruence. }
    destruct (range_fold _ _ _) as [servers errs]. cbn [fst snd] in *.
    destruct H3 as [[-> _]|(_ & a & p & err & Ha & _)]; [|by apply Hno in Ha]. cbn. f_equal.
    apply map_eq. intros n. rw lookup_empty. apply eq_None_not_Some. rw H1.
    intros (a & p & Ha & _). by apply Hno in Ha. }
  split; [exact Hs|]. cbv zeta. by apply (process_backend_step services base svcKey _ be c Hinv).
Qed.

(** C36: the commands that take servers out fit the buffer of the runtime
    socket.  When the commands of each server are shorter than 16000 bytes, the
    servers are cut, in order, in groups that are not empty, and the commands of each
    group are sent as one batch, so that those of a server are never cut, and every
    batch is shorter than 16000 bytes.  The batches are sent one after the other
    until one fails, and the first failure is the result. *)
Theorem commands_fit_buffer T (RT : RuntimeServers T) servers :
  Forall (λ s, String.length (server_commands s) < BufferSize)%nat servers →
  ∃ batches, concat batches.*1 = servers ∧
    (∀ t, RuntimeSetServerAddrAndState servers t = run_batches (in_batches batches) t) ∧
    Forall (λ b, b.1 ≠ [] ∧ String.length (commands_of b.1) < BufferSize)%nat batches.
Proof.
  intros Hall. destruct servers as [|s servers]; [by exists []|].
  destruct (send_commands_batches (rs_BackendName s) (s :: servers) []) as (batches & Hcut & Hrun & Hb).
  exists batches. split_and!; [exact Hcut|exact Hrun|]. apply Hb; [done|cbn; unfold BufferSize; lia].
Qed.

(** C34: a cycle brings the backends up to date with the endpoints.  When no two
    backends share a name, then for each service with changed endpoints, or one
    of whose backends the diffs hold, each backend that is configured and whose
    servers can be computed has exactly these servers after the cycle, whatever
    fails for the others or at run time.  The other backends stay as they were,
    no backend appears or disappears, and the diffs stay exact. *)
Theorem endpoints_reach_backends (RO : RangeOrder) (SP : ServerParams) Extra
    (EqE : EqDecision Extra) (BP : BackendParams ServerModel Extra) T (RT : RuntimeServers T)
    services slices epsUpdates https HTTPRoutes tlss TLSRoutes bo base
    (c : EndpointsCycle (Extra := Extra) (T := T)) upd bsvc :
  cycle_inv be_Name base (ec_conf c) →
  endpointSliceUpdatedByService epsUpdates = Some upd →
  backendsByService https HTTPRoutes tlss TLSRoutes bo = Some bsvc → one_name_each bsvc →
  ∃ c' err,
    processEndpointSlices services slices epsUpdates https HTTPRoutes tlss TLSRoutes bo c =
      Some (c', err) ∧
    cycle_inv be_Name base (ec_conf c') ∧
    frames (λ n, ∃ k X bp, bsvc !! k = Some X ∧ bp ∈ X ∧ backendName bp = n)
      (ec_conf c) (ec_conf c') ∧
    (∀ k X, bsvc !! k = Some X → touched upd (ec_conf c) k X →
       reached services slices k X (ec_conf c')).
Proof.
  intros Hinv Hupd Hb Hone. unfold processEndpointSlices. rw Hupd Hb. cbn [mbind option_bind].
  destruct (_ && _ && _) eqn:Hskip.
  - exists c, None. split_and!; [done|done|apply frames_refl|]. intros k X _ Ht. exfalso.
    apply andb_true_iff in Hskip as [[H1%bool_decide_eq_true H2%bool_decide_eq_true]%andb_true_iff
      H3%bool_decide_eq_true].
    apply map_size_empty_inv in H1, H2, H3. subst epsUpdates.
    assert (upd = ∅) as ->.
    { unfold endpointSliceUpdatedByService, range_mfold in Hupd.
      assert (range (∅ : gmap NamespacedName (Update K8sEndpointSlice)) = []) as Hr.
      { apply Permutation_nil. symmetry. by rw range_perm map_to_list_empty. }
      rw Hr in Hupd. by injection Hupd. }
    destruct Ht as [[? Ht]|(bp & _ & Hc)]; [by rw lookup_empty in Ht|]. revert Hc.
    unfold created_or_updated. by rw H2 H3 !lookup_empty.
  - destruct (process_services services slices base upd bsvc
      (mkEndpointsCycle (ec_conf c) (ec_client c) (ec_reload c) []) Hone Hinv) as (? & ? & ?).
    eexists _, _. split; [done|]. by split_and!.
Qed.

(** *** Witnesses *)
#[local] Instance example_server_params : ServerParams := {|
  SanitizeIPv6Address a := a;
  ServerNameTemplate hash := Ok ("SRV_" +:+ hash);
  DisableIPv4 := false;
  DisableIPv6 := true
|}.

(** A client that records the commands it is sent. *)
#[local] Instance example_runtime_servers : RuntimeServers (list string) := {|
  ExecuteRaw cmd t := (t ++ [cmd], Ok "");
  runtime_DeleteServer be srv t := (t ++ ["del server " +:+ be +:+ "/" +:+ srv], None)
|}.

#[local] Instance example_server_backends : BackendParams ServerModel bool :=
  example_backend_params ServerModel.

Definition example_service (port : Z) : K8sService :=
  {| svc_Meta := simple_meta "ns" "svc" 1;
     svc_Ports := [ {| sp_Port := port; sp_TargetPort := StrVal "http" |} ] |}.

Definition example_slice : K8sEndpointSlice := {|
  eps_Meta := Meta "ns" "svc-1" 1 ∅ {[ "kubernetes.io/service-name" := "svc" ]} 0;
  eps_AddressType := "IPv4";
  eps_Endpoints := [ {| ep_Addresses := ["10.0.0.1"]; ep_Ready := Some true |};
                     {| ep_Addresses := ["10.0.0.2"]; ep_Ready := Some false |} ];
  eps_Ports := [ {| epp_Name := Some "http"; epp_Port := Some 8080%Z |} ]
|}.

Definition example_slices (k : NamespacedName) : result (list K8sEndpointSlice) :=
  if bool_decide (k = NN "ns" "svc") then Ok [example_slice] else Ok [].

Definition example_be_port : BackendPort := mkBackendPort "hug_ns_svc_80__" 80.

Definition example_old_server : ServerModel := mkServer "SRV_old" "10.0.0.9" 8080 "disabled".

Definition example_server_conf : Sections (BackendModel ServerModel (BackendBase bool)) :=
  mkSections {[ 0 := mkBackend "hug_ns_svc_80__" ∅ {[ "SRV_old" := example_old_server ]}
                      (mkBackendBase "http" "" "" "" 0 None "" true) ]}
    {[ "hug_ns_svc_80__" := 0 ]} ∅ ∅ ∅.

Definition example_endpoints_cycle : EndpointsCycle (Extra := bool) (T := list string) :=
  mkEndpointsCycle example_server_conf [] (mkReloadMgr false false false) [].

Lemma example_server_conf_inv :
  cycle_inv be_Name (view example_server_conf (cur example_server_conf)) example_server_conf.
Proof.
  apply (cycle_start be_Name example_server_conf).
  split; [|intros n loc Hn; by rw lookup_empty in Hn..].
  intros n loc Hn. cbn in Hn. apply lookup_singleton_Some in Hn as [<- <-].
  eexists. by split; [apply lookup_singleton_eq|].
Qed.

(** The name of the only ready address. *)
Definition example_server_name : string := "SRV_" +:+ HashSHA1 "10.0.0.1:80".

Lemma servers_of_ready_addresses_witness :
  ∃ eps servers, getSvcEndpoints example_slices (NN "ns" "svc") = Ok eps ∧
    getServersForBackend (RO := key_order) {[ NN "ns" "svc" := example_service 80 ]}
      (NN "ns" "svc") example_be_port eps = Ok servers ∧
    is_Some (servers !! example_server_name).
Proof.
  destruct (servers_of_ready_addresses key_order example_server_params
    {[ NN "ns" "svc" := example_service 80 ]} example_slices (NN "ns" "svc") (example_service 80)
    [example_slice] example_be_port) as (eps & He & H); [vm_refl..|].
  exists eps. destruct (getServersForBackend _ _ _ _) as [servers|err] eqn:Hs.
  - exists servers. split_and!; [done..|]. apply (proj1 H).
    exists "IPv4", "10.0.0.1", 8080%Z. split; [|vm_refl]. split; [vm_refl|]. split; [vm_refl|].
    exists example_slice, {| ep_Addresses := ["10.0.0.1"]; ep_Ready := Some true |}.
    split_and!; [by left|done|by left|done|by left].
  - exfalso. injection He as <-. revert Hs. match goal with |- ?r = _ → _ =>
      assert (match r with Ok _ => true | Err _ => false end = true) as Hok by vm_refl end.
    intros Hs. rw Hs in Hok. discriminate Hok.
Defined.

Lemma unmatched_port_removes_servers_witness :
  ∃ eps, getSvcEndpoints example_slices (NN "ns" "svc") = Ok eps ∧
    getServersForBackend (RO := key_order) {[ NN "ns" "svc" := example_service 443 ]}
      (NN "ns" "svc") example_be_port eps = Ok ∅.
Proof.
  destruct (unmatched_port_removes_servers key_order example_server_params bool _
    example_server_backends (list string) example_runtime_servers
    {[ NN "ns" "svc" := example_service 443 ]} example_slices (NN "ns" "svc") (example_service 443)
    [example_slice] example_be_port
    (view example_server_conf (cur example_server_conf)) example_endpoints_cycle)
    as (eps & He & Hs & _).
  - vm_refl.
  - by repeat constructor.
  - vm_refl.
  - by repeat constructor.
  - apply example_server_conf_inv.
  - by exists 0.
  - by exists eps.
Defined.

(** 400 servers do not fit one buffer. *)
Definition example_removed : list RuntimeServerStateData :=
  replicate 400 (mkServerState "hug_ns_svc_80__" "SRV_old" "127.0.0.1" "maint" 1).

Lemma commands_fit_buffer_witness :
  ∃ batches, concat batches.*1 = example_removed ∧
    RuntimeSetServerAddrAndState example_removed [] = run_batches (in_batches batches) [] ∧
    Forall (λ b, b.1 ≠ [] ∧ String.length (commands_of b.1) < BufferSize)%nat batches.
Proof.
  destruct (commands_fit_buffer (list string) _ example_removed) as (batches & Hcut & H & Hb).
  - apply Forall_replicate. apply Nat.ltb_lt. vm_refl.
  - exists batches. split_and!; [exact Hcut|exact (H [])|exact Hb].
Defined.

Definition example_server_routes : gmap nat (Route K8sHTTPRoute K8sHTTPRouteRule) :=
  let d := example_route_data "a" ["svc"] in
  {[ 0 := mkRoute (mkRouteData (rt_K8sResource d) (rt_Listeners d)
       [checkBackendRef example_gvk "ns" example_services (new_rule (example_rule ["svc"]))]
       (rt_Conditions d) (ControllerName d) (CheckParentRefs d) true) zero_TreeUpdate ]}.

Definition example_epsUpdates : gmap NamespacedName (Update K8sEndpointSlice) :=
  {[ NN "ns" "svc-1" := mkUpdate None (Some example_slice) StatusUpserted false ]}.

Lemma endpoints_reach_backends_witness :
  ∃ c' err,
    processEndpointSlices (RO := key_order) {[ NN "ns" "svc" := example_service 80 ]} example_slices
      example_epsUpdates example_server_routes {[ NN "ns" "a" := 0 ]} ∅ ∅
      {[ "hug_ns_svc_80__" := {[ BackendOwnerTypeHTTPRoute := {[ NN "ns" "a" := 1%Z ]} ]} ]}
      example_endpoints_cycle = Some (c', err) ∧
    be_Servers <$> view (ec_conf c') (cur (ec_conf c')) !! "hug_ns_svc_80__" =
      Some {[ example_server_name := mkServer example_server_name "10.0.0.1" 8080 "disabled" ]}.
Proof.
  destruct (endpoints_reach_backends key_order example_server_params bool _
    example_server_backends (list string) example_runtime_servers
    {[ NN "ns" "svc" := example_service 80 ]} example_slices example_epsUpdates
    example_server_routes {[ NN "ns" "a" := 0 ]} ∅ ∅
    {[ "hug_ns_svc_80__" := {[ BackendOwnerTypeHTTPRoute := {[ NN "ns" "a" := 1%Z ]} ]} ]}
    (view example_server_conf (cur example_server_conf)) example_endpoints_cycle
    {[ NN "ns" "svc" := {[ NN "ns" "svc-1" := example_slice ]} ]}
    {[ NN "ns" "svc" := {[ example_be_port ]} ]}) as (c' & err & Hrun & _ & Hfr & H).
  - apply example_server_conf_inv.
  - vm_refl.
  - vm_refl.
  - intros k k' X X' bp bp' [<- <-]%lookup_singleton_Some [<- <-]%lookup_singleton_Some.
    by intros ->%elem_of_singleton ->%elem_of_singleton.
  - exists c', err. split; [exact Hrun|]. clear Hrun.
    refine (H (NN "ns" "svc") {[ example_be_port ]} _ _ example_be_port
      {[ "IPv4" := mkEndpoints [ {| ep_Addresses := ["10.0.0.1"]; ep_Ready := Some true |} ]
           (eps_Ports example_slice) ]} _ _ _ _ _).
    + by rw lookup_singleton_eq.
    + left. exists {[ NN "ns" "svc-1" := example_slice ]}. by rw lookup_singleton_eq.
    + set_solver.
    + vm_refl.
    + vm_refl.
    + apply (fr_cur _ _ _ Hfr). by exists 0.
Defined.
