(* ===== verification/Frontends.v ===== *)
(** * Frontends: haproxy/frontends.go, metadata/frontend.go

    The frontends of the Gateways: one per valid listener, with its rules and
    its binds, and the frontends each Gateway owns, from which those that lost
    their listener are found.

    A result [None] is a panic: a nil pointer was dereferenced. *)

From Stdlib Require Import Ascii.
From S2P Require Import Prelude GoStrings FileUtils Objects Utils Templates Conditions Store References TreeCore.
From S2P Require Import Listener Gateway Route HaproxyConf Backends RouteMaps Certificates Servers.

(** ** The models of client-native: the fields the code sets *)
Record TCPRequestRule := mkTCPRule {
  tcp_Type : string; tcp_Action : string; tcp_Cond : string; tcp_CondTest : string;
  tcp_Timeout : option Z; tcp_VarName : string; tcp_VarScope : string; tcp_Expr : string
}.

(** [http_Hug] is the metadata under the key [hug]. *)
Record HTTPRequestRule := mkHTTPRule {
  http_Type : string; http_VarName : string; http_VarScope : string; http_VarExpr : string;
  http_LuaAction : string; http_Cond : string; http_CondTest : string; http_Hug : option string
}.

Record BackendSwitchingRule := mkSwitchingRule {
  bsw_Name : string; bsw_Cond : string; bsw_CondTest : string
}.

Record ACL := mkACL {
  acl_ACLName : string; acl_Criterion : string; acl_Value : string; acl_Hug : option string
}.

Record Bind := mkBind {
  bind_Name : string; bind_Port : Z; bind_Address : string; bind_CrtList : string; bind_Ssl : bool
}.

Record FrontendModel := mkFrontend {
  fe_Name : string; fe_From : string; fe_Metadata : MetaData; DefaultBackend : string;
  fe_Mode : string; ACLList : list ACL; TCPRequestRuleList : list TCPRequestRule;
  HTTPRequestRuleList : list HTTPRequestRule;
  BackendSwitchingRuleList : list BackendSwitchingRule; Binds : gmap string Bind
}.

#[export] Instance FrontendModel_eq_dec : EqDecision FrontendModel.
Proof.
  assert (EqDecision TCPRequestRule) by solve_decision.
  assert (EqDecision HTTPRequestRule) by solve_decision.
  assert (EqDecision BackendSwitchingRule) by solve_decision.
  assert (EqDecision ACL) by solve_decision.
  assert (EqDecision Bind) by solve_decision.
  solve_decision.
Defined.

(** ** metadata/frontend.go *)
Definition FrontendMetadata (objKey : NamespacedName) (kind : string) (generation : Z)
    (linkID : string) : MetaData :=
  {[ UnifiedGatewayMetaDataKey :=
       {[ kind := {[ NamespacedName_String objKey := mkObjectInfo linkID generation ]} ]} ]}.

Definition FrontendMetaData (extractGVK : ExtractGVK) (linkID : string) (treeGw : Gateway) :
    option MetaData :=
  k8sResource ← GetK8sResource treeGw;
  Some (FrontendMetadata (meta_key (gw_Meta k8sResource)) (gvk_Kind (extractGVK KGateway))
          (meta_Generation (gw_Meta k8sResource)) linkID).

(** ** The rules *)
Definition tcp_content (action cond condTest varName varScope expr : string) : TCPRequestRule :=
  mkTCPRule "content" action cond condTest None varName varScope expr.

Definition passthrough_tcpRules (sniMap sniDomainWildcardMap : string) : list TCPRequestRule :=
  [tcp_content "reject" "if" "!{ req_ssl_hello_type 1 }" "" "" "";
   mkTCPRule "inspect-delay" "" "" "" (Some 50000%Z) "" "" "";
   tcp_content "set-var" "" "" "sni" "sess" "req_ssl_sni";
   tcp_content "set-var" "" "" "sni_match" "txn" ("req_ssl_sni,map(" +:+ sniMap +:+ ")");
   tcp_content "set-var" "" "" "sni_match,ifnotexists" "txn"
     ("req_ssl_sni,map_end(" +:+ sniDomainWildcardMap +:+ ")")].

Definition backendSwitchingRules (variable : string) : list BackendSwitchingRule :=
  [mkSwitchingRule "%[var(txn.backend)]" "if" "route_is_json"; mkSwitchingRule variable "" ""].

Definition aclList (variable value : string) : list ACL :=
  [mkACL "route_is_json" ("var(" +:+ variable +:+ "),bytes(0,1)") value (Some "for lua routing")].

Definition set_var (varName varExpr : string) (hug : option string) : HTTPRequestRule :=
  mkHTTPRule "set-var" varName "txn" varExpr "" "" "" hug.

(** A rule that looks the request up in a map file. *)
Definition look_up (varName sample match_ file : string) (hug : string) : HTTPRequestRule :=
  set_var varName (sample +:+ "," +:+ match_ +:+ "(" +:+ file +:+ ")") (Some hug).

Definition http_rules (pathExactMap pathPrefixMap pathDomainWPathExactMap pathRegexMap : string) :
    list HTTPRequestRule :=
  let host := "var(txn.base)" in
  let next := "route,ifnotexists" in
  [set_var "path" "path" None;
   set_var "host" "req.hdr(Host),host_only" None;
   set_var "base" ("var(txn.host),concat(" +:+ String "034" (String "034" ",txn.path)")) None;
   look_up "route" host "map" pathExactMap "exact domain + exact path";
   look_up next "path" "map" pathExactMap "any domain + exact path";
   look_up next host "map_beg" pathPrefixMap "exact domain + path prefix";
   look_up next "path" "map_beg" pathPrefixMap "any domain + path prefix";
   look_up next host "map_end" pathDomainWPathExactMap "domain wildcard + exact path";
   look_up next "path" "map_reg" pathRegexMap "any domain + path regex";
   look_up next host "map_reg" pathRegexMap
     "domain wildcard + path prefix or regex, exact domain + path regex";
   mkHTTPRule "lua" "" "" "" "route" "if" "route_is_json" (Some "lua routing")].

(** ** The manager *)

(** The addresses to bind to; empty for all. *)
Class FrontendParams := { IPv4BindAddress : string; IPv6BindAddress : string }.

Record FrontendsOwnedbyGateway := mkOwned {
  current : gmap NamespacedName (gset string);
  byUpdatedGateways : gmap NamespacedName (gset string)
}.

Definition NewFrontendsOwnedbyGateway : FrontendsOwnedbyGateway := mkOwned ∅ ∅.

Definition AddToUpdated (gwKey : NamespacedName) (frontendName : string)
    (f : FrontendsOwnedbyGateway) : FrontendsOwnedbyGateway :=
  mkOwned (current f)
    (<[gwKey := {[frontendName]} ∪ default ∅ (byUpdatedGateways f !! gwKey)]> (byUpdatedGateways f)).

Definition RemoveFromUpdated (gwKey : NamespacedName) (frontendName : string)
    (f : FrontendsOwnedbyGateway) : FrontendsOwnedbyGateway :=
  mkOwned (current f)
    (<[gwKey := default ∅ (byUpdatedGateways f !! gwKey) ∖ {[frontendName]}]> (byUpdatedGateways f)).

(** The part of [HaproxyConfMgrImpl] the frontends use. *)
Record FrontendMgr := mkFrontendMgr {
  frontendsOwnedbyGateway : FrontendsOwnedbyGateway;
  fm_configuration : Sections FrontendModel;
  fm_flag : bool;
  firstSync_frontends : gset string;
  fm_maps : Maps
}.

Definition set_owned (f : FrontendsOwnedbyGateway → FrontendsOwnedbyGateway) (b : FrontendMgr) :
    FrontendMgr :=
  mkFrontendMgr (f (frontendsOwnedbyGateway b)) (fm_configuration b) (fm_flag b)
    (firstSync_frontends b) (fm_maps b).

Definition set_configuration (f : Sections FrontendModel → Sections FrontendModel)
    (b : FrontendMgr) : FrontendMgr :=
  mkFrontendMgr (frontendsOwnedbyGateway b) (f (fm_configuration b)) (fm_flag b)
    (firstSync_frontends b) (fm_maps b).

Definition set_first (f : gset string → gset string) (b : FrontendMgr) : FrontendMgr :=
  if fm_flag b then
    mkFrontendMgr (frontendsOwnedbyGateway b) (fm_configuration b) (fm_flag b)
      (f (firstSync_frontends b)) (fm_maps b)
  else b.

Section frontends.
Context {RO : RangeOrder} {ME : MapsEnv} {CE : CertEnv} {SP : ServerParams} {FP : FrontendParams}.
Context {Server Extra : Type} {BP : BackendParams Server Extra}.
Context (extractGVK : ExtractGVK) (fe_Equal : FrontendModel → FrontendModel → bool).
Context (heap : Listeners).
Implicit Types (b : FrontendMgr).

Definition bindParams (bindName : string) (address : string) (treeGw : Gateway)
    (treeListener : Listener) : option Bind :=
  let listener := lst_K8sResource treeListener in
  let bind := mkBind bindName (l_Port listener) address in
  match l_TLS listener with
  | None => Some (bind "" false)
  | Some tls =>
      if bool_decide (default "" (tls_Mode tls) = TLSModeTerminate) then
        k8s ← gt_K8sResource (gt_data treeGw);
        Some (bind (FullPath (CertListPath (ListenerKey k8s listener))) true)
      else Some (bind "" false)
  end.

Definition frontend_mode (listener : K8sListener) : string :=
  if bool_decide (l_Protocol listener = HTTPProtocolType) ||
     bool_decide (l_Protocol listener = HTTPSProtocolType) then "http"
  else if bool_decide (l_Protocol listener = "TCP") then "tcp" else "".

Definition passthrough (listener : K8sListener) : bool :=
  match l_TLS listener with
  | Some tls => bool_decide (default "" (tls_Mode tls) = TLSModePassthrough)
  | None => false
  end.

(** The bind of one address family, unless it is disabled. *)
Definition add_bind (disabled : bool) (bindName configured default_ : string) (treeGw : Gateway)
    (treeListener : Listener) (binds : gmap string Bind) : option (gmap string Bind) :=
  if disabled then Some binds
  else
    bind ← bindParams bindName (if negb (bool_decide (configured = "")) then configured else default_)
             treeGw treeListener;
    Some (<[bind_Name bind := bind]> binds).

(** The frontend, and the maps of routes that were loaded. *)
Definition newFrontend (gwKey : NamespacedName) (treeGw : Gateway) (treeListener : Listener)
    (maps : Maps) : option (result FrontendModel * Maps) :=
  let listener := lst_K8sResource treeListener in
  match getFrontendName gwKey listener with
  | Err err => Some (Err ("failed to get frontend name: " +:+ err), maps)
  | Ok frontendName =>
      md ← FrontendMetaData extractGVK bp_LinkID treeGw;
      let path mapName := MapPath frontendName mapName in
      let full mapName := FullPath (path mapName) in
      let maps := foldl (λ maps mapName, EnsureMapData (path mapName) maps) maps
        [PATH_EXACT_MAP; PATH_PREFIX_MAP; PATH_REGEX_MAP; PATH_EXACT_DOMAIN_WILDCARD_MAP; SNI_MAP;
         SNI_DOMAIN_WILDCARD_MAP] in
      let '(tcpRules, httpRules, switchingRules, acls) :=
        if passthrough listener then
          (passthrough_tcpRules (full SNI_MAP) (full SNI_DOMAIN_WILDCARD_MAP), [],
           backendSwitchingRules "%[var(txn.sni_match),field(1,.)]",
           aclList "txn.sni_match" "-m str {")
        else
          ([], http_rules (full PATH_EXACT_MAP) (full PATH_PREFIX_MAP)
                 (full PATH_EXACT_DOMAIN_WILDCARD_MAP) (full PATH_REGEX_MAP),
           backendSwitchingRules "%[var(txn.route)]", aclList "txn.route" "-m str {") in
      binds ← add_bind DisableIPv4 "v4" IPv4BindAddress "0.0.0.0" treeGw treeListener ∅;
      binds ← add_bind DisableIPv6 "v6" IPv6BindAddress "::" treeGw treeListener binds;
      Some (Ok (mkFrontend frontendName DefaultsSectionName md "backend_not_found"
                  (frontend_mode listener) acls tcpRules httpRules switchingRules binds), maps)
  end.

Definition mgr_deleteFrontend (gwKey : NamespacedName) (feName : string) b : FrontendMgr :=
  set_owned (RemoveFromUpdated gwKey feName)
    (set_configuration (HaproxyConf.deleteFrontend fe_Name feName) b).

Definition deleteFrontendForListener (gwKey : NamespacedName) (listener : K8sListener) b :
    FrontendMgr * option string :=
  match getFrontendName gwKey listener with
  | Err err => (b, Some err)
  | Ok feName => (set_first (λ s, s ∖ {[feName]}) (mgr_deleteFrontend gwKey feName b), None)
  end.

Definition deleteFrontendForAllListeners (gwKey : NamespacedName) (gw : Gateway) b :
    FrontendMgr * option string :=
  match GetK8sResource gw with
  | None => (b, Some ("no K8s resource found for gateway " +:+ NamespacedName_String gwKey))
  | Some k8sGateway =>
      (foldl (λ b listener, (deleteFrontendForListener gwKey listener b).1) b
         (gw_Listeners k8sGateway), None)
  end.

(** One iteration of [upsertFrontends]: an error stops the loop. *)
Definition upsert_listener (gwKey : NamespacedName) (gw : Gateway) (loc : nat)
    (s : FrontendMgr * option string) : option (FrontendMgr * option string) :=
  let '(b, err) := s in
  match err with
  | Some _ => Some s
  | None =>
      listener ← heap !! loc;
      if negb (lst_Valid listener) then
        Some ((deleteFrontendForListener gwKey (lst_K8sResource listener) b).1, None)
      else
        '(newFe, maps) ← newFrontend gwKey gw listener (fm_maps b);
        let b := mkFrontendMgr (frontendsOwnedbyGateway b) (fm_configuration b) (fm_flag b)
                   (firstSync_frontends b) maps in
        Some match newFe with
             | Err err => (b, Some err)
             | Ok newFe =>
                 let b := set_first (λ s, {[fe_Name newFe]} ∪ s) b in
                 match upsertFrontend fe_Name fe_Equal (Some newFe) (fm_configuration b) with
                 | (_, Some _) => (b, None)
                 | (conf, None) =>
                     (set_owned (AddToUpdated gwKey (fe_Name newFe)) (set_configuration (λ _, conf) b),
                      None)
                 end
             end
  end.

Definition upsertFrontends (gwKey : NamespacedName) (gw : Gateway) b :
    option (FrontendMgr * option string) :=
  range_mfold (λ _ loc, upsert_listener gwKey gw loc) (gt_Listeners (gt_data gw)) (b, None).

Definition onUpsertedGateway (gwKey : NamespacedName) (gw : Gateway) b :
    option (FrontendMgr * option string) :=
  if gt_Valid (gt_data gw) then upsertFrontends gwKey gw b
  else Some (deleteFrontendForAllListeners gwKey gw b).

(** One iteration of each loop of [processGateways]. *)
Definition process_managed (gwKey : NamespacedName) (gateway : Gateway)
    (s : FrontendMgr * Errors) : option (FrontendMgr * Errors) :=
  let add r := (r.1, Errors_Add s.2 [r.2]) in
  match Status (gt_TreeStatus gateway) with
  | StatusUnchanged => Some s
  | StatusUpserted => r ← onUpsertedGateway gwKey gateway s.1; Some (add r)
  | StatusDeleted => Some (add (deleteFrontendForAllListeners gwKey gateway s.1))
  end.

Definition process_unmanaged (gwKey : NamespacedName) (gateway : Gateway)
    (s : FrontendMgr * Errors) : FrontendMgr * Errors :=
  let r := deleteFrontendForAllListeners gwKey gateway s.1 in (r.1, Errors_Add s.2 [r.2]).

(** The inner loop of the clean-up: the frontends the Gateway owned. *)
Definition cleanup_gateway (gwKey : NamespacedName) b : FrontendMgr :=
  foldl (λ b frontendName,
    if bool_decide (frontendName ∈
         default ∅ (byUpdatedGateways (frontendsOwnedbyGateway b) !! gwKey)) then b
    else mgr_deleteFrontend gwKey frontendName b)
    b (range_set (default ∅ (current (frontendsOwnedbyGateway b) !! gwKey))).

Definition cleanupFrontendsForGateways b : FrontendMgr :=
  range_fold (λ gwKey _, cleanup_gateway gwKey) (byUpdatedGateways (frontendsOwnedbyGateway b)) b.

Definition finalizeFrontendsByGateway b : FrontendMgr :=
  set_owned (λ f, range_fold (λ gwKey fes f,
    mkOwned (<[gwKey := fes]> (current f)) (delete gwKey (byUpdatedGateways f)))
    (byUpdatedGateways f) f) b.

Definition processGateways (Gateways unmanagedGateways : gmap NamespacedName Gateway) b :
    option (FrontendMgr * option string) :=
  s ← range_mfold process_managed Gateways (b, []);
  let s := range_fold process_unmanaged unmanagedGateways s in
  Some (finalizeFrontendsByGateway (cleanupFrontendsForGateways s.1), Errors_Result s.2).
End frontends.

(** ** The frontends of the Gateways *)
Section ownership.
Context {RO : RangeOrder} {ME : MapsEnv} {CE : CertEnv} {SP : ServerParams} {FP : FrontendParams}.
Context {Server Extra : Type} {BP : BackendParams Server Extra}.
Context (extractGVK : ExtractGVK) (fe_Equal : FrontendModel → FrontendModel → bool).
Context (heap : Listeners) (base : gmap string FrontendModel).
Context (name : NamespacedName → string → string).
Hypothesis Hnames : names_apart name.
Implicit Types (b : FrontendMgr).

(** The frontends that are configured. *)
Definition configured (b : FrontendMgr) : gmap string FrontendModel :=
  view (fm_configuration b) (cur (fm_configuration b)).

Abbreviation updatedOf b := (byUpdatedGateways (frontendsOwnedbyGateway b)).
Abbreviation currentOf b := (current (frontendsOwnedbyGateway b)).
Abbreviation inv b := (cycle_inv fe_Name base (fm_configuration b)).
Abbreviation removedOf b := (removed (fm_configuration b)).

(** The frontend of a listener, or one the library calls equal to it. *)
Definition serves (gw : NamespacedName) (g : Gateway) (l : Listener) (fe : FrontendModel) : Prop :=
  ∃ maps maps' new, newFrontend extractGVK gw g l maps = Some (Ok new, maps') ∧
    (fe = new ∨ fe_Equal fe new = true).

(** One frontend of the Gateway is written or deleted. *)
Record acts (gw : NamespacedName) (n : string) (v : option FrontendModel) b b' : Prop := {
  act_inv : inv b → inv b';
  act_configured : inv b → ∀ n', configured b' !! n' = if decide (n = n') then v else configured b !! n';
  act_updated : updatedOf b' =
    <[gw := if v is Some _ then {[n]} ∪ default ∅ (updatedOf b !! gw)
            else default ∅ (updatedOf b !! gw) ∖ {[n]}]> (updatedOf b);
  act_current : currentOf b' = currentOf b;
  act_removed n' : inv b → n' ∈ removedOf b' → n' ∈ removedOf b ∨ (n' = n ∧ v = None)
}.

Lemma configured_delete n s n' :
  view (delete_section fe_Name n s) (cur (delete_section fe_Name n s)) !! n' =
  if decide (n = n') then None else view s (cur s) !! n'.
Proof.
  unfold delete_section, view. destruct (cur s !! n ≫= λ loc, objs s !! loc) as [fe|] eqn:Hn; cbn.
  - rw !lookup_omap. destruct (decide (n = n')) as [<-|Hne].
    + by rw lookup_delete_eq.
    + by rw lookup_delete_ne.
  - rw lookup_omap. destruct (decide (n = n')) as [<-|Hne]; [exact Hn|done].
Qed.

Lemma configured_upsert fe s n' :
  wf_sections fe_Name s →
  let s' := (upsertFrontend fe_Name fe_Equal (Some fe) s).1 in
  view s' (cur s') !! n' =
  if decide (fe_Name fe = n') then
    Some match view s (cur s) !! fe_Name fe with
         | Some prev => if fe_Equal prev fe then prev else fe
         | None => fe
         end
  else view s (cur s) !! n'.
Proof.
  intros Hwf. cbv zeta. rw (lookup_view s (cur s) (fe_Name fe)). unfold upsertFrontend.
  assert (∀ m o p, objs s ⊆ o → o !! p = Some fe → m = <[fe_Name fe := p]> (cur s) →
    ∀ cr up rm, view (mkSections o m cr up rm) m !! n' =
    if decide (fe_Name fe = n') then Some fe else view s (cur s) !! n') as Hgen.
  { intros m o p Ho Hp -> cr up rm. rw !lookup_view. cbn. destruct (decide (fe_Name fe = n')) as [<-|Hne].
    - by rw lookup_insert_eq.
    - rw lookup_insert_ne //. destruct (cur s !! n') as [loc|] eqn:Hn; cbn; [|done].
      destruct (wf_cur _ _ Hwf _ _ Hn) as (x & Hx & _). rw Hx. by eapply lookup_weaken. }
  assert (∀ o : gmap nat FrontendModel, objs s ⊆ o → objs s ⊆ <[fresh (dom o) := fe]> o) as Hfresh.
  { intros o Ho. etrans; [exact Ho|]. apply insert_subseteq, fresh_dom_objs. }
  destruct (cur s !! fe_Name fe ≫= λ loc, objs s !! loc) as [prev|] eqn:Hprev.
  - destruct (fe_Equal prev fe); unfold alloc; cbn [fst snd objs cur created updated removed].
    + destruct (decide (fe_Name fe = n')) as [<-|Hne]; [|done]. by rw lookup_view.
    + eapply Hgen; [by apply Hfresh, Hfresh| |done].
      rw lookup_insert_ne; [|by rw lookup_insert_eq].
      intros Heq. pose proof (is_fresh (dom (<[fresh (dom (objs s)) := fe]> (objs s)))) as Hf.
      apply Hf. rw Heq dom_insert. set_solver.
  - unfold alloc. cbn [fst snd objs cur created updated removed]. eapply Hgen; [by apply Hfresh| |done].
    by rw lookup_insert_eq.
Qed.

Lemma removed_upsert fe s : removed (upsertFrontend fe_Name fe_Equal fe s).1 = removed s.
Proof.
  unfold upsertFrontend. destruct fe as [fe|]; [|done].
  destruct (_ ≫= _) as [prev|]; [destruct (fe_Equal prev fe)|]; done.
Qed.

Lemma mgr_deleteFrontend_acts gw n b : acts gw n None b (mgr_deleteFrontend gw n b).
Proof.
  split; cbn.
  - intros Hb. by apply cycle_delete.
  - intros _ n'. apply configured_delete.
  - done.
  - done.
  - intros n' Hb [?|?]%removed_delete_section; [by left|by right|by eapply inv_wf].
Qed.

Lemma acts_set_first gw n v b b' f : acts gw n v b b' → acts gw n v b (set_first f b').
Proof. intros [H1 H2 H3 H4 H5]. unfold set_first. by destruct (fm_flag b'); split. Qed.

Lemma name_of gw ln : api_names gw ln → expand_name gw ln = Ok (name gw ln).
Proof. apply Hnames. Qed.

Lemma name_inj gw ln gw' ln' :
  api_names gw ln → api_names gw' ln' → name gw ln = name gw' ln' → gw = gw' ∧ ln = ln'.
Proof. apply Hnames. Qed.

Lemma deleteFrontendForListener_acts gw l b :
  api_names gw (l_Name l) → acts gw (name gw (l_Name l)) None b (deleteFrontendForListener gw l b).1.
Proof.
  intros Hl. unfold deleteFrontendForListener, getFrontendName. rw name_of //. cbn.
  apply acts_set_first, mgr_deleteFrontend_acts.
Qed.

(** A managed Gateway has its resource. *)
Lemma newFrontend_total gw g l k8s :
  gt_K8sResource (gt_data g) = Some k8s → api_names gw (l_Name (lst_K8sResource l)) →
  ∃ new, fe_Name new = name gw (l_Name (lst_K8sResource l)) ∧
    ∀ maps, ∃ maps', newFrontend extractGVK gw g l maps = Some (Ok new, maps').
Proof.
  intros Hk Hl. unfold newFrontend, getFrontendName, FrontendMetaData, GetK8sResource.
  rw name_of // Hk. cbn [mbind option_bind].
  assert (∀ bn a, ∃ bd, bindParams bn a g l = Some bd) as Hbind.
  { intros bn a. unfold bindParams. destruct (l_TLS _) as [tls|]; [|by eexists].
    destruct (bool_decide _); [|by eexists]. rw Hk. by eexists. }
  assert (∀ dis bn a a' bs, ∃ bs', add_bind dis bn a a' g l bs = Some bs') as Hadd.
  { intros dis bn a a' bs. unfold add_bind. destruct dis; [by eexists|].
    destruct (Hbind bn (if negb (bool_decide (a = "")) then a else a')) as [bd ->]. by eexists. }
  destruct (Hadd DisableIPv4 "v4" IPv4BindAddress "0.0.0.0" ∅) as [bs ->]. cbn [mbind option_bind].
  destruct (Hadd DisableIPv6 "v6" IPv6BindAddress "::" bs) as [bs' ->]. cbn [mbind option_bind].
  destruct (passthrough _); (eexists; split; [|intros maps; eexists; reflexivity]; done).
Qed.

Lemma upsert_listener_acts gw g k8s loc l b :
  gt_K8sResource (gt_data g) = Some k8s → heap !! loc = Some l →
  api_names gw (l_Name (lst_K8sResource l)) → inv b →
  ∃ b' v, upsert_listener extractGVK fe_Equal heap gw g loc (b, None) = Some (b', None) ∧
    acts gw (name gw (l_Name (lst_K8sResource l))) v b b' ∧
    if lst_Valid l then ∃ fe, v = Some fe ∧ serves gw g l fe else v = None.
Proof.
  intros Hk Hl Hln Hb. unfold upsert_listener. rw Hl. cbn [mbind option_bind].
  destruct (lst_Valid l); cbn [negb].
  2: { eexists _, None. split_and!; [done|by apply deleteFrontendForListener_acts|done]. }
  destruct (newFrontend_total gw g l k8s Hk Hln) as (new & Hn & Hnew).
  destruct (Hnew (fm_maps b)) as [maps' Hm]. rw Hm. cbn [mbind option_bind].
  set (b1 := set_first _ _). assert (fm_configuration b1 = fm_configuration b) as Hc1.
  { unfold b1, set_first. by destruct (fm_flag _). }
  assert (frontendsOwnedbyGateway b1 = frontendsOwnedbyGateway b) as Ho1.
  { unfold b1, set_first. by destruct (fm_flag _). }
  pose proof (upsertFrontend_inv fe_Name fe_Equal base (Some new) _ Hb) as Hinv'.
  pose proof (λ n', configured_upsert new (fm_configuration b) n' (inv_wf _ _ _ Hb)) as Hcfg.
  pose proof (removed_upsert (Some new) (fm_configuration b)) as Hrem.
  rw Hc1. destruct (upsertFrontend fe_Name fe_Equal (Some new) (fm_configuration b)) as [conf err] eqn:Hu.
  assert (err = None) as ->.
  { revert Hu. unfold upsertFrontend. destruct (_ ≫= _) as [prev|]; [destruct (fe_Equal prev new)|];
      cbn; by intros [= _ <-]. }
  cbn [fst] in *. rw -Hn.
  eexists _, (Some match configured b !! fe_Name new with
         | Some prev => if fe_Equal prev new then prev else new | None => new end).
  split_and!; [done| |].
  - split; cbn.
    + done.
    + intros _ n'. apply Hcfg.
    + by rw Ho1.
    + by rw Ho1.
    + intros n' _. rw Hrem. by left.
  - eexists. split; [done|]. exists (fm_maps b), maps', new. split; [done|].
    destruct (configured b !! fe_Name new) as [prev|]; [|by left].
    destruct (fe_Equal prev new) eqn:He; [by right|by left].
Qed.
(** *** One Gateway

    [V] gives what becomes of the frontends the loop meets. *)
Record does (gw : NamespacedName) (V : gmap string (option FrontendModel)) b b' : Prop := {
  does_inv : inv b → inv b';
  does_configured : inv b → ∀ n,
    configured b' !! n = match V !! n with Some v => v | None => configured b !! n end;
  does_updated : V ≠ ∅ → ∃ X, updatedOf b' = <[gw := X]> (updatedOf b) ∧
    ∀ n, n ∈ X ↔ match V !! n with
                 | Some v => is_Some v
                 | None => n ∈ default ∅ (updatedOf b !! gw)
                 end;
  does_nothing : V = ∅ → updatedOf b' = updatedOf b;
  does_current : currentOf b' = currentOf b;
  does_removed n : inv b → n ∈ removedOf b' → n ∈ removedOf b ∨ V !! n = Some None
}.

Lemma does_refl gw b : does gw ∅ b b.
Proof. split; try done. by left. Qed.

Lemma does_acts gw V b b1 b2 n v :
  does gw V b b1 → acts gw n v b1 b2 → (∀ v', V !! n = Some v' → v' = v) →
  does gw (<[n := v]> V) b b2.
Proof.
  intros [H1 H2 H3 H4 H5 H6] [A1 A2 A3 A4 A5] HVn. split.
  - auto.
  - intros Hb n'. rw (A2 (H1 Hb)) (H2 Hb). destruct (decide (n = n')) as [<-|Hne].
    + by rw lookup_insert_eq.
    + by rw lookup_insert_ne.
  - intros _. destruct (decide (V = ∅)) as [->|HV].
    + rw A3 H4 //. eexists. split; [done|]. intros n'. destruct (decide (n = n')) as [<-|Hne].
      * rw lookup_insert_eq. destruct v; [|set_solver]. split; [by eexists|set_solver].
      * rw lookup_insert_ne // lookup_empty. destruct v; set_solver.
    + destruct (H3 HV) as (X & HX & Hn). rw A3 HX lookup_insert_eq insert_insert_eq. cbn [default from_option id].
      eexists. split; [done|]. intros n'. destruct (decide (n = n')) as [<-|Hne].
      * rw lookup_insert_eq. destruct v; [|set_solver]. split; [by eexists|set_solver].
      * rw lookup_insert_ne // -Hn. destruct v; set_solver.
  - intros HV. by apply insert_non_empty in HV.
  - by rw A4.
  - intros n' Hb [Hn'| [-> ->]]%A5; [|right; by rw lookup_insert_eq|by apply H1].
    destruct (H6 n' Hb Hn') as [?|HV]; [by left|right]. destruct (decide (n = n')) as [<-|Hne].
    + rw lookup_insert_eq. f_equal. symmetry. by apply HVn.
    + by rw lookup_insert_ne.
Qed.

Lemma deleteFrontends_does gw ls b :
  Forall (λ l, api_names gw (l_Name l)) ls →
  ∃ V, does gw V b (foldl (λ b l, (deleteFrontendForListener gw l b).1) b ls) ∧
    (∀ n v, V !! n = Some v → v = None ∧ ∃ ln, api_names gw ln ∧ n = name gw ln) ∧
    (∀ l, l ∈ ls → V !! name gw (l_Name l) = Some None).
Proof.
  induction ls as [|l ls IH] using rev_ind.
  - intros _. exists ∅. split_and!; [apply does_refl|intros n v; by rw lookup_empty|]. by intros l ?%elem_of_nil.
  - rw Forall_app Forall_singleton. intros [Hls Hl]. destruct (IH Hls) as (V & HV & Hnone & Hall). rw foldl_app. cbn [foldl].
    eexists. split.
    { eapply does_acts; [exact HV|apply deleteFrontendForListener_acts, Hl|]. by intros v' [-> _]%Hnone. }
    split.
    + intros n v [[<- <-]|[_ ?]]%lookup_insert_Some; [|by apply Hnone]. split; [done|by exists (l_Name l)].
    + intros l' [Hl'| ->%list_elem_of_singleton]%elem_of_app; [|by rw lookup_insert_eq].
      destruct (decide (name gw (l_Name l) = name gw (l_Name l'))) as [->|Hne].
      * by rw lookup_insert_eq.
      * rw lookup_insert_ne //. by apply Hall.
Qed.

(** The listeners of a Gateway are under their names. *)
Definition listeners_ok (gw : NamespacedName) (g : Gateway) : Prop :=
  map_Forall (λ ln loc, api_names gw ln ∧ ∃ l, heap !! loc = Some l ∧ l_Name (lst_K8sResource l) = ln)
    (gt_Listeners (gt_data g)).

(** The frontend of the listener is [v]. *)
Definition served gw g ln (v : option FrontendModel) : Prop :=
  ∃ loc l, gt_Listeners (gt_data g) !! ln = Some loc ∧ heap !! loc = Some l ∧
    if lst_Valid l then ∃ fe, v = Some fe ∧ serves gw g l fe else v = None.

Lemma upsertFrontends_does gw g k8s b :
  gt_K8sResource (gt_data g) = Some k8s → listeners_ok gw g → inv b →
  ∃ b' V, upsertFrontends extractGVK fe_Equal heap gw g b = Some (b', None) ∧ does gw V b b' ∧
    (∀ n v, V !! n = Some v → ∃ ln, api_names gw ln ∧ n = name gw ln ∧ served gw g ln v) ∧
    (∀ ln, is_Some (gt_Listeners (gt_data g) !! ln) → is_Some (V !! name gw ln)).
Proof.
  intros Hk Hok Hb. unfold upsertFrontends.
  destruct (range_mfold_ind (λ dn s, s.2 = None ∧ ∃ V, does gw V b s.1 ∧
    (∀ n v, V !! n = Some v → ∃ ln, api_names gw ln ∧ n = name gw ln ∧ served gw g ln v) ∧
    (∀ ln, api_names gw ln → is_Some (V !! name gw ln) ↔ is_Some (dn !! ln)))
    (λ _ loc, upsert_listener extractGVK fe_Equal heap gw g loc)
    (gt_Listeners (gt_data g)) (b, None)) as ([b' err] & Hrun & Herr & V & H2 & H3 & H4).
  - split; [done|]. exists ∅. split_and!; [apply does_refl|intros n v; by rw lookup_empty|].
    intros ln _. by rw !lookup_empty.
  - intros ln loc dn [b1 err] Hln Hdn (Herr & V & H2 & H3 & H4). cbn in Herr, H2. subst err.
    destruct (Hok _ _ Hln) as (Hapi & l & Hl & Hname_l).
    destruct (upsert_listener_acts gw g k8s loc l b1 Hk Hl) as (b2 & v & Hrun & Hact & Hv).
    { by rw Hname_l. }
    { by apply (does_inv _ _ _ _ H2). }
    exists (b2, None). split; [done|]. split; [done|]. eexists. split_and!.
    + eapply does_acts; [done..|]. rw Hname_l. intros v' Hv'. exfalso.
      assert (is_Some (dn !! ln)) as Hs by (apply H4; [done|by eexists]). rw Hdn in Hs. by destruct Hs.
    + intros n v' [[<- <-]|[_ ?]]%lookup_insert_Some; [|by apply H3]. rw Hname_l.
      exists ln. split_and!; [done..|]. by exists loc, l.
    + intros ln' Hln'. rw !lookup_insert_is_Some' H4 // Hname_l. split; [|intros [->|?]; by [left|right]].
      intros [[_ ->]%name_inj|?]; [by left|done..|by right].
  - cbn in *. subst err. exists b', V. split_and!; [done..|]. intros ln [loc Hln].
    destruct (Hok _ _ Hln) as [Hapi _]. apply H4; [done|by eexists].
Qed.

(** *** All the Gateways *)

(** What becomes of the frontends of a Gateway that is processed; it is
    [live] when it was upserted and is valid. *)
Record outcome gw g (live : bool) (V : gmap string (option FrontendModel)) : Prop := {
  out_some : V ≠ ∅;
  out_named n v : V !! n = Some v →
    ∃ ln, api_names gw ln ∧ n = name gw ln ∧ if live then served gw g ln v else v = None;
  out_all ln : live = true → is_Some (gt_Listeners (gt_data g) !! ln) → is_Some (V !! name gw ln)
}.

(** The Gateways processed so far, with their outcomes. *)
Record all_done (D : gmap NamespacedName (gmap string (option FrontendModel))) b b' : Prop := {
  all_inv : inv b → inv b';
  all_named gw V n : D !! gw = Some V → is_Some (V !! n) → ∃ ln, api_names gw ln ∧ n = name gw ln;
  all_configured gw V n v : inv b → D !! gw = Some V → V !! n = Some v → configured b' !! n = v;
  all_others n : inv b → (∀ gw V, D !! gw = Some V → V !! n = None) →
    configured b' !! n = configured b !! n;
  all_updated gw : match D !! gw with
                   | Some V => ∃ X, updatedOf b' !! gw = Some X ∧
                       ∀ n, n ∈ X ↔ ∃ fe, V !! n = Some (Some fe)
                   | None => updatedOf b' !! gw = None
                   end;
  all_current : currentOf b' = currentOf b;
  all_removed n : inv b → n ∈ removedOf b' →
    n ∈ removedOf b ∨ ∃ gw V, D !! gw = Some V ∧ V !! n = Some None
}.

Lemma all_done_does D b b1 b2 gw g live V :
  all_done D b b1 → does gw V b1 b2 → D !! gw = None → outcome gw g live V →
  all_done (<[gw := V]> D) b b2.
Proof.
  intros [A1 A2 A3 A4 A5 A6 A7] [B1 B2 B3 _ B5 B6] HD [O1 O2 _].
  assert (∀ n, is_Some (V !! n) → ∃ ln, api_names gw ln ∧ n = name gw ln) as Hnamed.
  { intros n [v Hv]. destruct (O2 n v Hv) as (ln & Hln & -> & _). by exists ln. }
  assert (∀ gw' V' n, D !! gw' = Some V' → is_Some (V' !! n) → V !! n = None) as Hother.
  { intros gw' V' n HV' Hn. apply eq_None_not_Some. intros Hn'.
    destruct (A2 _ _ _ HV' Hn) as (ln & Hln & ->). destruct (Hnamed _ Hn') as (ln' & Hln' & Heq).
    apply name_inj in Heq as [-> _]; [congruence|done..]. }
  split.
  - auto.
  - intros gw' V' n [[<- <-]|[_ HV']]%lookup_insert_Some; [by apply Hnamed|by eapply A2].
  - intros gw' V' n v Hb [[<- <-]|[_ HV']]%lookup_insert_Some Hn; rw (B2 (A1 Hb)).
    + by rw Hn.
    + rw (Hother _ _ _ HV'); [by eexists|]. by eapply A3.
  - intros n Hb Hn. rw (B2 (A1 Hb)) (Hn gw V); [by rw lookup_insert_eq|]. apply A4; [done|].
    intros gw' V' HV'. apply (Hn gw'). rw lookup_insert_ne //. intros <-. congruence.
  - intros gw'. destruct (B3 O1) as (X & HX & Hn). rw HX. destruct (decide (gw = gw')) as [<-|Hne].
    + rw !lookup_insert_eq. exists X. split; [done|]. intros n. rw Hn.
      pose proof (A5 gw) as Hgw. rw HD in Hgw. rw Hgw. cbn.
      destruct (V !! n) as [[fe|]|]; [split; eauto|split; [by intros [? ?]|by intros [? ?]]|].
      split; [set_solver|by intros [? ?]].
    + rw !lookup_insert_ne //. apply A5.
  - by rw B5.
  - intros n Hb Hn. destruct (B6 n (A1 Hb) Hn) as [Hn'|HV].
    + destruct (A7 n Hb Hn') as [?|(gw' & V' & HV' & ?)]; [by left|right]. exists gw', V'.
      split; [|done]. rw lookup_insert_ne //. intros <-. congruence.
    + right. exists gw, V. by rw lookup_insert_eq.
Qed.
(** The Gateway was upserted and is valid. *)
Definition live_gateway (g : Gateway) : bool :=
  match Status (gt_TreeStatus g) with StatusUpserted => gt_Valid (gt_data g) | _ => false end.

(** What the API asks of the listeners of a Gateway: there is one, and the names
    are those of subdomains. *)
Definition spec_ok (gw : NamespacedName) (k8s : K8sGateway) : Prop :=
  gw_Listeners k8s ≠ [] ∧ Forall (λ l, api_names gw (l_Name l)) (gw_Listeners k8s).

(** A Gateway of the tree has a resource, with listeners. *)
Definition gateway_ok (gw : NamespacedName) (g : Gateway) : Prop :=
  (∃ k8s, GetK8sResource g = Some k8s ∧ spec_ok gw k8s) ∧
  (live_gateway g = true →
     is_Some (gt_K8sResource (gt_data g)) ∧ listeners_ok gw g ∧ gt_Listeners (gt_data g) ≠ ∅).

Lemma delete_all_step D b b1 gw g :
  all_done D b b1 → D !! gw = None → gateway_ok gw g →
  ∃ b2 V, deleteFrontendForAllListeners gw g b1 = (b2, None) ∧ all_done (<[gw := V]> D) b b2 ∧
    outcome gw g false V.
Proof.
  intros HD Hgw [(k8s & Hk & Hls & Hapi) _]. unfold deleteFrontendForAllListeners. rw Hk.
  destruct (deleteFrontends_does gw (gw_Listeners k8s) b1 Hapi) as (V & HV & Hn & Hall).
  assert (outcome gw g false V) as Hout.
  { split; [|intros n v (-> & ln & Hln & ->)%Hn; by exists ln|done]. intros ->.
    destruct (gw_Listeners k8s) as [|l ls]; [done|]. specialize (Hall l ltac:(by left)).
    by rw lookup_empty in Hall. }
  eexists _, V. split_and!; [done| |done]. by eapply all_done_does.
Qed.

Lemma managed_step D b b1 errs gw g :
  all_done D b b1 → D !! gw = None → gateway_ok gw g → inv b →
  Status (gt_TreeStatus g) ≠ StatusUnchanged →
  ∃ b2 V, process_managed extractGVK fe_Equal heap gw g (b1, errs) = Some (b2, errs) ∧
    all_done (<[gw := V]> D) b b2 ∧ outcome gw g (live_gateway g) V.
Proof.
  intros HD Hgw Hok Hb Hst. destruct (delete_all_step D b b1 gw g) as (b2 & V & Hdel & HV & Hout); [done..|].
  unfold process_managed, onUpsertedGateway. cbv zeta. cbn [fst snd].
  destruct (live_gateway g) eqn:Hlive.
  - destruct Hok as [_ Hok]. destruct (Hok Hlive) as ([k8s Hk] & Hls & Hne).
    unfold live_gateway in Hlive. destruct (Status (gt_TreeStatus g)); [|done..]. rw Hlive.
    destruct (upsertFrontends_does gw g k8s b1 Hk Hls) as (b3 & V' & Hrun & Hdoes & Hn & Hall).
    { by apply (all_inv _ _ _ HD). }
    assert (outcome gw g true V') as Hout'.
    { split; [|done|by auto]. intros ->. apply map_choose in Hne as (ln & loc & Hln).
      destruct (Hall ln) as [? Hx]; [by eexists|]. by rw lookup_empty in Hx. }
    rw Hrun. cbn. exists b3, V'. split_and!; [done|by eapply all_done_does|done].
  - exists b2, V. split_and!; [|done..]. unfold live_gateway in Hlive.
    destruct (Status (gt_TreeStatus g)); try done; by rw ?Hlive Hdel.
Qed.

(** The Gateways of a loop, each with its outcome. *)
Definition outcomes (Gs : gmap NamespacedName Gateway) (live : Gateway → bool)
    (processed : Gateway → Prop) (D : gmap NamespacedName (gmap string (option FrontendModel))) :=
  ∀ gw, match Gs !! gw with
        | Some g => (processed g ∧ ∃ V, D !! gw = Some V ∧ outcome gw g (live g) V) ∨
                    (¬ processed g ∧ D !! gw = None)
        | None => D !! gw = None
        end.

Definition processed (g : Gateway) : Prop := Status (gt_TreeStatus g) ≠ StatusUnchanged.

Lemma managed_done Gs b :
  (∀ gw, updatedOf b !! gw = None) → inv b →
  map_Forall (λ gw g, processed g → gateway_ok gw g) Gs →
  ∃ b' D, range_mfold (process_managed extractGVK fe_Equal heap) Gs (b, []) = Some (b', []) ∧
    all_done D b b' ∧ outcomes Gs live_gateway processed D.
Proof.
  intros Hup Hb Hok.
  destruct (range_mfold_ind (λ dn s, s.2 = [] ∧ ∃ D, all_done D b s.1 ∧
    outcomes dn live_gateway processed D)
    (process_managed extractGVK fe_Equal heap) Gs (b, [])) as ([b' errs] & Hrun & Herr & D & HD & Hout).
  - split; [done|]. exists ∅. split.
    + split; cbn; try done; intros *; rw ?lookup_empty //. by left.
    + intros gw. by rw lookup_empty.
  - intros gw g dn [b1 errs] Hg Hdn (Herr & D & HD & Hout). cbn in *. subst errs.
    assert (D !! gw = None) as HDgw by (pose proof (Hout gw) as H; by rw Hdn in H).
    destruct (decide (Status (gt_TreeStatus g) = StatusUnchanged)) as [Hst|Hst].
    + exists (b1, []). unfold process_managed. rw Hst. split; [done|]. split; [done|].
      exists D. split; [done|]. intros gw'. destruct (decide (gw = gw')) as [<-|Hne].
      * rw lookup_insert_eq. right. by split; [intros Hp; apply Hp|].
      * rw lookup_insert_ne //. apply Hout.
    + destruct (managed_step D b b1 [] gw g) as (b2 & V & Hrun & HV & Hout'); [done|done|by apply (Hok gw)|done..|].
      exists (b2, []). split; [done|]. split; [done|]. exists (<[gw := V]> D). split; [done|].
      intros gw'. destruct (decide (gw = gw')) as [<-|Hne].
      * rw !lookup_insert_eq. left. split; [done|]. by exists V.
      * rw !lookup_insert_ne //. apply Hout.
  - cbn in *. subst errs. by exists b', D.
Qed.

Lemma unmanaged_done Gs D b b1 :
  all_done D b b1 → (∀ gw, is_Some (Gs !! gw) → D !! gw = None) →
  map_Forall gateway_ok Gs →
  ∃ b' D', range_fold process_unmanaged Gs (b1, []) = (b', []) ∧ all_done D' b b' ∧
    ∀ gw, match Gs !! gw with
          | Some g => ∃ V, D' !! gw = Some V ∧ outcome gw g false V
          | None => D' !! gw = D !! gw
          end.
Proof.
  intros HD Hfresh Hok.
  destruct (range_fold_ind (λ dn s, s.2 = [] ∧ ∃ D', all_done D' b s.1 ∧
    ∀ gw, match dn !! gw with
          | Some g => ∃ V, D' !! gw = Some V ∧ outcome gw g false V
          | None => D' !! gw = D !! gw
          end) process_unmanaged Gs (b1, [])) as (Herr & D' & HD' & Hout).
  - split; [done|]. exists D. split; [done|]. intros gw. by rw lookup_empty.
  - intros gw g dn [b2 errs] Hg Hdn _ (Herr & D' & HD' & Hout). cbn in *. subst errs.
    assert (D' !! gw = None) as HDgw.
    { pose proof (Hout gw) as H. rw Hdn in H. rw H. apply Hfresh. by exists g. }
    destruct (delete_all_step D' b b2 gw g) as (b3 & V & Hrun & HV & Hout'); [done|done|by apply (Hok gw)|].
    unfold process_unmanaged. cbn. rw Hrun. split; [done|]. exists (<[gw := V]> D'). split; [done|].
    intros gw'. destruct (decide (gw = gw')) as [<-|Hne].
    + rw !lookup_insert_eq. by exists V.
    + rw !lookup_insert_ne //. apply Hout.
  - eexists _, D'. split_and!; [by apply injective_projections|done..].
Qed.

(** *** The clean-up *)
Lemma cleanup_gateway_spec gw b X :
  inv b → updatedOf b !! gw = Some X →
  let b' := cleanup_gateway gw b in
  inv b' ∧ updatedOf b' = updatedOf b ∧ currentOf b' = currentOf b ∧
  (∀ n, configured b' !! n =
     if decide (n ∈ default ∅ (currentOf b !! gw) ∧ n ∉ X) then None else configured b !! n) ∧
  (∀ n, n ∈ removedOf b' → n ∈ removedOf b ∨ configured b' !! n = None).
Proof.
  intros Hb HX b'. subst b'. unfold cleanup_gateway.
  assert (∀ l b1, inv b1 → updatedOf b1 = updatedOf b → currentOf b1 = currentOf b →
    let b' := foldl (λ b0 n, if bool_decide (n ∈ default ∅ (updatedOf b0 !! gw)) then b0
                             else mgr_deleteFrontend gw n b0) b1 l in
    inv b' ∧ updatedOf b' = updatedOf b ∧ currentOf b' = currentOf b ∧
    (∀ n, configured b' !! n = if decide (n ∈ l ∧ n ∉ X) then None else configured b1 !! n) ∧
    (∀ n, n ∈ removedOf b' → n ∈ removedOf b1 ∨ configured b' !! n = None)) as Hgen.
  { induction l as [|n l IH]; intros b1 Hb1 Hu Hc; cbn [foldl].
    - split_and!; [done..| |by left]. intros n.
      destruct (decide _) as [[H _]|]; [by apply elem_of_nil in H|done].
    - rw Hu HX. cbn [default from_option id]. destruct (bool_decide (n ∈ X)) eqn:Hn.
      + apply bool_decide_eq_true in Hn. destruct (IH b1) as (I1 & I2 & I3 & I4 & I5); [done..|].
        split_and!; [done..| |done]. intros n'. rw I4. apply decide_ext. rw elem_of_cons. naive_solver.
      + apply bool_decide_eq_false in Hn. pose proof (mgr_deleteFrontend_acts gw n b1) as [A1 A2 A3 A4 A5].
        destruct (IH (mgr_deleteFrontend gw n b1)) as (I1 & I2 & I3 & I4 & I5).
        * auto.
        * rw A3 Hu HX. cbn [default from_option id]. rw difference_disjoint_L; [set_solver|].
          by apply insert_id.
        * by rw A4.
        * split_and!; [done..| |].
          { intros n'. rw I4 A2 //. destruct (decide (n = n')) as [<-|Hne].
            - rw (decide_True (P := n ∈ n :: l ∧ n ∉ X)); [split; [by left|done]|].
              by destruct (decide _).
            - apply decide_ext. rw elem_of_cons. naive_solver. }
          intros n' [Hn'|?]%I5; [|by right]. destruct (A5 n' Hb1 Hn') as [?|[-> _]]; [by left|right].
          rw I4 A2 // (decide_True (P := n = n)) //. by destruct (decide _). }
  destruct (Hgen (range_set (default ∅ (currentOf b !! gw))) b) as (I1 & I2 & I3 & I4 & I5); [done..|].
  split_and!; [done..| |done]. intros n. rw I4. apply decide_ext. by rw elem_of_range_set.
Qed.

Lemma cleanupFrontends_spec b :
  inv b →
  let b' := cleanupFrontendsForGateways b in
  inv b' ∧ updatedOf b' = updatedOf b ∧ currentOf b' = currentOf b ∧
  (∀ gw X n, updatedOf b !! gw = Some X → n ∈ default ∅ (currentOf b !! gw) → n ∉ X →
     configured b' !! n = None) ∧
  (∀ n, (∀ gw X, updatedOf b !! gw = Some X → n ∈ default ∅ (currentOf b !! gw) → n ∈ X) →
     configured b' !! n = configured b !! n) ∧
  (∀ n, n ∈ removedOf b' → n ∈ removedOf b ∨ configured b' !! n = None) ∧
  (∀ n, configured b !! n = None → configured b' !! n = None).
Proof.
  intros Hb. unfold cleanupFrontendsForGateways.
  apply (range_fold_ind (λ dn b', inv b' ∧ updatedOf b' = updatedOf b ∧ currentOf b' = currentOf b ∧
    (∀ gw X n, dn !! gw = Some X → n ∈ default ∅ (currentOf b !! gw) → n ∉ X →
       configured b' !! n = None) ∧
    (∀ n, (∀ gw X, dn !! gw = Some X → n ∈ default ∅ (currentOf b !! gw) → n ∈ X) →
       configured b' !! n = configured b !! n) ∧
    (∀ n, n ∈ removedOf b' → n ∈ removedOf b ∨ configured b' !! n = None) ∧
    (∀ n, configured b !! n = None → configured b' !! n = None))).
  - split_and!; try done. by left.
  - intros gw X dn b1 Hgw Hdn _ (I1 & I2 & I3 & I4 & I5 & I6 & I7).
    destruct (cleanup_gateway_spec gw b1 X) as (J1 & J2 & J3 & J4 & J5); [done|by rw I2|].
    split_and!; [done|by rw J2|by rw J3| | | |by intros n Hn; rw J4 I7 //; destruct (decide _)].
    + intros gw' X' n [[<- <-]|[_ Hl]]%lookup_insert_Some Hn HX; rw J4 I3.
      * by rw decide_True.
      * rw (I4 gw' X' n) //. by destruct (decide _).
    + intros n Hn. rw J4 I3 decide_False.
      { intros [Hin HX]. apply HX, (Hn gw X); [by rw lookup_insert_eq|done]. }
      apply I5. intros gw' X' Hl. apply Hn. rw lookup_insert_ne //. intros <-. congruence.
    + intros n [Hn|?]%J5; [|by right]. destruct (I6 n Hn) as [?|Hnone]; [by left|right].
      rw J4 Hnone. by destruct (decide _).
Qed.

Lemma finalize_spec b :
  let b' := finalizeFrontendsByGateway b in
  fm_configuration b' = fm_configuration b ∧ updatedOf b' = ∅ ∧
  currentOf b' = updatedOf b ∪ currentOf b.
Proof.
  unfold finalizeFrontendsByGateway. cbn. split; [done|].
  set (f := frontendsOwnedbyGateway b).
  destruct (range_fold_ind (λ dn f', byUpdatedGateways f' = byUpdatedGateways f ∖ dn ∧
    current f' = dn ∪ current f)
    (λ gwKey fes f', mkOwned (<[gwKey := fes]> (current f')) (delete gwKey (byUpdatedGateways f')))
    (byUpdatedGateways f) f) as [H1 H2].
  - by rw map_difference_empty map_empty_union.
  - intros gw X dn f' Hgw Hdn _ [H1 H2]. cbn. rw H1 H2. split.
    + apply map_eq. intros gw'. apply option_eq. intros X'.
      rw lookup_delete_Some !lookup_difference_Some lookup_insert_None. naive_solver.
    + by rw insert_union_l.
  - by rw H1 H2 map_difference_diag.
Qed.
(** *** The whole cycle *)

(** Between two cycles, the frontends a Gateway owns are those configured under
    its names. *)
Definition owned b : Prop :=
  updatedOf b = ∅ ∧
  ∀ gw n, n ∈ default ∅ (currentOf b !! gw) ↔
    is_Some (configured b !! n) ∧ ∃ ln, api_names gw ln ∧ n = name gw ln.

Lemma cleaned D b b2 :
  inv b → owned b → all_done D b b2 →
  let b' := finalizeFrontendsByGateway (cleanupFrontendsForGateways b2) in
  inv b' ∧
  (∀ gw V ln, D !! gw = Some V → api_names gw ln → configured b' !! name gw ln = mjoin (V !! name gw ln)) ∧
  (∀ n, (∀ gw ln, is_Some (D !! gw) → api_names gw ln → n ≠ name gw ln) → configured b' !! n = configured b !! n) ∧
  owned b'.
Proof.
  intros Hb [_ Hown] HD b'. destruct HD as [A1 A2 A3 A4 A5 A6 A7]. specialize (A1 Hb).
  destruct (cleanupFrontends_spec b2 A1) as (C1 & C2 & C3 & C4 & C5 & C6 & _).
  destruct (finalize_spec (cleanupFrontendsForGateways b2)) as (F1 & F2 & F3). fold b' in F1, F2, F3.
  rw A6 in C3 C4 C5. rw C2 C3 in F3.
  assert (∀ n, configured b' !! n = configured (cleanupFrontendsForGateways b2) !! n) as Hcfg.
  { intros n. unfold configured. by rw F1. }
  assert (∀ gw V ln, D !! gw = Some V → api_names gw ln →
    configured b' !! name gw ln = mjoin (V !! name gw ln)) as Hin.
  { intros gw V ln HV Hapi. rw Hcfg. pose proof (A5 gw) as HX. rw HV in HX. destruct HX as (X & HX & Hn).
    assert (configured b2 !! name gw ln =
      match V !! name gw ln with Some v => v | None => configured b !! name gw ln end) as Hb2.
    { destruct (V !! name gw ln) as [v|] eqn:Hv; [by eapply A3|]. apply A4; [done|].
      intros gw' V' HV'. apply eq_None_not_Some. intros Hs. destruct (A2 _ _ _ HV' Hs) as (ln' & Hln' & Heq).
      apply name_inj in Heq as [-> _]; [|done..]. rw HV in HV'. injection HV' as <-. rw Hv in Hs. by destruct Hs. }
    destruct (decide (name gw ln ∈ default ∅ (currentOf b !! gw) ∧ name gw ln ∉ X)) as [[Hc HnX]|Hno].
    - rw (C4 gw X) //. destruct (V !! name gw ln) as [[fe|]|] eqn:Hv; [|done..].
      destruct HnX. apply Hn. by exists fe.
    - rw C5.
      { intros gw' X' HX' Hc. pose proof (proj1 (Hown _ _) Hc) as (_ & ln' & Hln' & Heq).
        apply name_inj in Heq as [<- <-]; [|done..]. rw HX in HX'. injection HX' as <-.
        apply dec_stable. intros HnX. by apply Hno. }
      rw Hb2. destruct (V !! name gw ln) as [v|] eqn:Hv; [done|]. cbn.
      apply eq_None_not_Some. intros Hs. apply Hno. split; [apply Hown; split; [done|by exists ln]|].
      rw Hn Hv. by intros [? ?]. }
  assert (∀ n, (∀ gw ln, is_Some (D !! gw) → api_names gw ln → n ≠ name gw ln) →
    configured b' !! n = configured b !! n) as Hout.
  { intros n Hn. rw Hcfg C5.
    - intros gw X HX (_ & ln & Hln & ->)%Hown. exfalso. pose proof (A5 gw) as Hgw.
      destruct (D !! gw) as [V|] eqn:HV; [|congruence]. by apply (Hn gw ln); [rw HV; by eexists|..].
    - apply A4; [done|]. intros gw V HV. apply eq_None_not_Some. intros (ln & Hln & ->)%(A2 _ _ _ HV).
      by apply (Hn gw ln); [rw HV; by eexists|..]. }
  split_and!; [by rw F1|exact Hin|exact Hout|]. split; [exact F2|]. intros gw n. rw F3.
  pose proof (A5 gw) as Hgw. destruct (D !! gw) as [V|] eqn:HV.
  - destruct Hgw as (X & HX & Hn). rw (lookup_union_Some_l _ _ _ _ HX). cbn [default from_option id].
    rw Hn. split.
    + intros [fe Hfe]. destruct (A2 _ _ n HV) as (ln & Hln & ->); [by eexists|].
      rw (Hin _ _ _ HV Hln) Hfe. split; [by eexists|by exists ln].
    + intros (Hs & ln & Hln & ->). rw (Hin _ _ _ HV Hln) in Hs.
      destruct (V !! name gw ln) as [[fe|]|]; [by exists fe|by destruct Hs..].
  - rw lookup_union_r // Hown.
    assert (∀ ln, api_names gw ln → ∀ gw' ln', is_Some (D !! gw') → api_names gw' ln' → name gw ln ≠ name gw' ln')
      as Hne.
    { intros ln Hln gw' ln' [V' HV'] Hln' Heq. apply name_inj in Heq as [<- _]; [congruence|done..]. }
    split; intros (Hs & ln & Hln & ->).
    + rw Hout; [by apply Hne|]. by split; [|exists ln].
    + rw Hout in Hs; [by apply Hne|]. by split; [|exists ln].
Qed.
(** A section is deleted only when it is gone. *)
Lemma cleaned_removed D b b2 :
  inv b → all_done D b b2 →
  let b' := finalizeFrontendsByGateway (cleanupFrontendsForGateways b2) in
  inv b' ∧ updatedOf b' = ∅ ∧ (∀ n, n ∈ removedOf b' → n ∈ removedOf b ∨ configured b' !! n = None).
Proof.
  intros Hb [A1 _ A3 _ _ _ A7] b'. specialize (A1 Hb).
  destruct (cleanupFrontends_spec b2 A1) as (C1 & _ & _ & _ & _ & C6 & C7).
  destruct (finalize_spec (cleanupFrontendsForGateways b2)) as (F1 & F2 & _). fold b' in F1, F2.
  split_and!; [by rw F1|exact F2|]. intros n. unfold configured. rw F1. intros [Hn|?]%C6; [|by right].
  destruct (A7 n Hb Hn) as [?|(gw & V & HV & HVn)]; [by left|right]. apply C7. by rw (A3 gw V n None).
Qed.

(** The Gateways [D] the loops processed. *)
Lemma processGateways_runs Gateways unmanaged b :
  map_Forall (λ gw g, processed g → gateway_ok gw g) Gateways →
  map_Forall gateway_ok unmanaged →
  (∀ gw g, Gateways !! gw = Some g → processed g → unmanaged !! gw = None) →
  inv b → updatedOf b = ∅ →
  ∃ b2 (D : gmap NamespacedName (gmap string (option FrontendModel))),
    processGateways extractGVK fe_Equal heap Gateways unmanaged b =
      Some (finalizeFrontendsByGateway (cleanupFrontendsForGateways b2), None) ∧
    all_done D b b2 ∧
    (∀ gw, match unmanaged !! gw, Gateways !! gw with
           | Some g, _ => ∃ V, D !! gw = Some V ∧ outcome gw g false V
           | None, Some g => (processed g ∧ ∃ V, D !! gw = Some V ∧ outcome gw g (live_gateway g) V) ∨
                             (¬ processed g ∧ D !! gw = None)
           | None, None => D !! gw = None
           end).
Proof.
  intros Hok Hunm Hdis Hb Hup.
  destruct (managed_done Gateways b) as (b1 & D & Hrun & HD & Hout); [intros gw; by rw Hup|done..|].
  destruct (unmanaged_done unmanaged D b b1) as (b2 & D' & Hrun' & HD' & Hout'); [done| |done|].
  { intros gw Hu. pose proof (Hout gw) as H. destruct (Gateways !! gw) as [g|] eqn:Hg; [|done].
    destruct H as [[Hp _]|[_ H]]; [|done]. rw (Hdis gw g) in Hu; [done..|by destruct Hu]. }
  exists b2, D'. split_and!; [|done|].
  { unfold processGateways. rw Hrun. cbn [mbind option_bind]. by rw Hrun'. }
  intros gw. pose proof (Hout gw) as H. pose proof (Hout' gw) as H'.
  destruct (unmanaged !! gw); [done|]. by rw H'.
Qed.
End ownership.

(** ** The frontends of the first sync *)
Section first_sync.
Context {RO : RangeOrder} {ME : MapsEnv} {CE : CertEnv} {SP : ServerParams} {FP : FrontendParams}.
Context {Server Extra : Type} {BP : BackendParams Server Extra}.
Context (extractGVK : ExtractGVK) (fe_Equal : FrontendModel → FrontendModel → bool).
Context (heap : Listeners) (Gateways : gmap NamespacedName Gateway).
Implicit Types (b : FrontendMgr).

(** The name of the frontend of a valid listener of a Gateway that was upserted
    and is valid. *)
Definition wanted (n : string) : Prop :=
  ∃ gw g ln loc l, Gateways !! gw = Some g ∧ live_gateway g = true ∧
    gt_Listeners (gt_data g) !! ln = Some loc ∧ heap !! loc = Some l ∧ lst_Valid l = true ∧
    getFrontendName gw (lst_K8sResource l) = Ok n.

(** The names that are kept are wanted. *)
Definition keeps_wanted b : Prop := ∀ n, n ∈ firstSync_frontends b → wanted n.

Lemma keeps_deleteFrontendForListener gw l b :
  keeps_wanted b → keeps_wanted (deleteFrontendForListener gw l b).1.
Proof.
  intros Hb. unfold deleteFrontendForListener. destruct (getFrontendName gw l); [|done].
  unfold set_first, keeps_wanted. cbn. destruct (fm_flag b); cbn; set_solver.
Qed.

Lemma keeps_deleteFrontendForAllListeners gw g b :
  keeps_wanted b → keeps_wanted (deleteFrontendForAllListeners gw g b).1.
Proof.
  intros Hb. unfold deleteFrontendForAllListeners. destruct (GetK8sResource g); [|done].
  apply (foldl_ind keeps_wanted); [done|]. intros. by apply keeps_deleteFrontendForListener.
Qed.

Lemma newFrontend_name gw g l maps new maps' :
  newFrontend extractGVK gw g l maps = Some (Ok new, maps') →
  getFrontendName gw (lst_K8sResource l) = Ok (fe_Name new).
Proof.
  unfold newFrontend. destruct (getFrontendName gw (lst_K8sResource l)) as [n|]; [|done].
  destruct (FrontendMetaData _ _ _); cbn [mbind option_bind]; [|done].
  destruct (passthrough _); destruct (add_bind _ _ _ _ _ _ ∅); cbn [mbind option_bind]; try done;
    destruct (add_bind _ _ _ _ _ _ _); cbn [mbind option_bind]; try done; by intros [= <- _].
Qed.

Lemma keeps_upsert_listener gw g ln loc s s' :
  Gateways !! gw = Some g → live_gateway g = true → gt_Listeners (gt_data g) !! ln = Some loc →
  keeps_wanted s.1 → upsert_listener extractGVK fe_Equal heap gw g loc s = Some s' →
  keeps_wanted s'.1.
Proof.
  intros Hg Hlive Hln Hs. unfold upsert_listener. destruct s as [b [err|]]; [by intros [= <-]|].
  destruct (heap !! loc) as [l|] eqn:Hl; cbn [mbind option_bind]; [|done].
  destruct (lst_Valid l) eqn:Hv; cbn [negb].
  2: { intros [= <-]. by apply keeps_deleteFrontendForListener. }
  destruct (newFrontend _ _ _ _ _) as [[newFe maps]|] eqn:Hnew; cbn [mbind option_bind]; [|done].
  destruct newFe as [new|err]; [|by intros [= <-]].
  apply newFrontend_name in Hnew.
  assert (∀ c, keeps_wanted (set_first (λ s, {[fe_Name new]} ∪ s) (mkFrontendMgr
    (frontendsOwnedbyGateway b) c (fm_flag b) (firstSync_frontends b) maps))) as Hk.
  { intros c. unfold set_first, keeps_wanted. cbn. destruct (fm_flag b); cbn; [|done].
    intros n [->%elem_of_singleton|?]%elem_of_union; [|by apply Hs]. by exists gw, g, ln, loc, l. }
  destruct (upsertFrontend fe_Name fe_Equal (Some new) _) as [conf [err|]]; intros [= <-];
    exact (Hk (fm_configuration b)).
Qed.

Lemma keeps_processGateways unmanaged b b' err :
  keeps_wanted b → processGateways extractGVK fe_Equal heap Gateways unmanaged b = Some (b', err) →
  keeps_wanted b'.
Proof.
  intros Hb. unfold processGateways.
  destruct (range_mfold (process_managed extractGVK fe_Equal heap) Gateways (b, [])) as [s|] eqn:Hm; cbn [mbind option_bind]; [|done].
  intros [= <- _].
  assert (keeps_wanted s.1) as Hs.
  { refine (mfold_keeps (λ s, keeps_wanted s.1) _ _ _ _ _ _ Hm); [|done].
    intros [gw g] [b1 errs] s' Hg%elem_of_range Hb1. cbn [fst snd] in *. unfold process_managed.
    destruct (Status (gt_TreeStatus g)) eqn:Hst; [|intros [= <-]; cbn; by apply keeps_deleteFrontendForAllListeners|by intros [= <-]].
    unfold onUpsertedGateway. cbn [fst snd]. destruct (gt_Valid (gt_data g)) eqn:Hv.
    2: { cbn [mbind option_bind]. intros [= <-]. cbn. by apply keeps_deleteFrontendForAllListeners. }
    destruct (upsertFrontends _ _ _ _ _ _) as [r|] eqn:Hr; cbn [mbind option_bind]; [|done].
    intros [= <-]. cbn. refine (mfold_keeps (λ s, keeps_wanted s.1) _ _ _ _ _ _ Hr); [|done].
    intros [ln loc] s1 s2 Hln%elem_of_range. cbn [fst snd]. apply keeps_upsert_listener with ln; [done| |done].
    unfold live_gateway. by rw Hst. }
  clear Hm. unfold finalizeFrontendsByGateway, keeps_wanted. cbn.
  enough (keeps_wanted (cleanupFrontendsForGateways (range_fold process_unmanaged unmanaged s).1)) as H
    by exact H.
  unfold cleanupFrontendsForGateways, range_fold. apply (foldl_ind keeps_wanted).
  - apply (foldl_ind (λ s : FrontendMgr * Errors, keeps_wanted s.1)); [done|].
    intros s1 [gw g] _ Hs1. by apply keeps_deleteFrontendForAllListeners.
  - intros b1 [gw X] _ Hb1. unfold cleanup_gateway. apply (foldl_ind keeps_wanted); [done|].
    intros b2 n _ Hb2. by case_bool_decide.
Qed.

End first_sync.

(** ** Properties *)

(** C32: the frontends follow the listeners.  Three things are asked: for the
    names the API accepts (those of DNS subdomains), the template of the names
    gives a name and tells the Gateways and their listeners apart, as the default
    template does; the Gateways have such names, a resource and a listener; and
    before the cycle each Gateway owns the frontends configured under its names.
    Then [processGateways] does not panic and returns no error, and afterwards: a
    valid Gateway that was upserted has exactly one frontend per valid listener,
    the one built from it or one the library calls equal; a Gateway that is
    invalid, deleted or not managed has none; the other frontends are as before;
    each Gateway again owns the frontends under its names; and the diffs are
    exact. *)
Theorem frontends_follow_listeners (RO : RangeOrder) (ME : MapsEnv) (CE : CertEnv)
    (SP : ServerParams) (FP : FrontendParams) Server Extra (BP : BackendParams Server Extra)
    extractGVK fe_Equal heap base name Gateways unmanaged b :
  names_apart name →
  map_Forall (λ gw g, processed g → gateway_ok heap gw g) Gateways →
  map_Forall (gateway_ok heap) unmanaged →
  (∀ gw g, Gateways !! gw = Some g → processed g → unmanaged !! gw = None) →
  cycle_inv fe_Name base (fm_configuration b) → owned name b →
  ∃ b', processGateways extractGVK fe_Equal heap Gateways unmanaged b = Some (b', None) ∧
    (∀ gw g ln, Gateways !! gw = Some g → processed g → api_names gw ln →
       match configured b' !! name gw ln with
       | Some fe => live_gateway g = true ∧ served extractGVK fe_Equal heap gw g ln (Some fe)
       | None => live_gateway g = true →
           ¬ ∃ loc l, gt_Listeners (gt_data g) !! ln = Some loc ∧ heap !! loc = Some l ∧
               lst_Valid l = true
       end) ∧
    (∀ gw ln, is_Some (unmanaged !! gw) → api_names gw ln → configured b' !! name gw ln = None) ∧
    (∀ n, (∀ gw ln, is_Some (unmanaged !! gw) ∨
             (∃ g, Gateways !! gw = Some g ∧ processed g) → api_names gw ln → n ≠ name gw ln) →
       configured b' !! n = configured b !! n) ∧
    owned name b' ∧ cycle_inv fe_Name base (fm_configuration b').
Proof.
  intros Hnames Hok Hunm Hdis Hb Hown. pose proof (name_inj name Hnames) as Hinj.
  destruct (processGateways_runs extractGVK fe_Equal heap base name Hnames Gateways unmanaged b)
    as (b2 & D & Hrun & HD & Hout); [done..|exact (proj1 Hown)|].
  destruct (cleaned base name Hnames D b b2) as (Hinv & Hin & Hrest & Hown'); [done..|].
  eexists. split; [exact Hrun|]. split_and!; [| | |done|done].
  - intros gw g ln Hg Hp Hapi. pose proof (Hout gw) as H. rw (Hdis gw g) // Hg in H.
    destruct H as [[_ (V & HV & Ho)]|[? _]]; [|done].
    rw (Hin gw V) //. destruct (V !! name gw ln) as [[fe|]|] eqn:Hv; cbn.
    + destruct (out_named _ _ _ _ _ _ _ _ Ho _ _ Hv) as (ln' & Ha & Heq & Hs). apply Hinj in Heq as [_ <-]; [|done..].
      by destruct (live_gateway g).
    + intros Hlive (loc & l & Hln & Hl & Hvalid).
      destruct (out_named _ _ _ _ _ _ _ _ Ho _ _ Hv) as (ln' & Ha & Heq & Hs). apply Hinj in Heq as [_ <-]; [|done..].
      rw Hlive in Hs. destruct Hs as (loc' & l' & Hln' & Hl' & Hs). simplify_eq.
      rw Hvalid in Hs. by destruct Hs as (? & ? & _).
    + intros Hlive (loc & l & Hln & Hl & Hvalid).
      destruct (out_all _ _ _ _ _ _ _ _ Ho ln Hlive) as [? Hs]; [by eexists|congruence].
  - intros gw ln [g Hg] Hapi. pose proof (Hout gw) as H. rw Hg in H. destruct H as (V & HV & Ho).
    rw (Hin gw V) //. destruct (V !! name gw ln) as [v|] eqn:Hv; [|done]. cbn.
    by destruct (out_named _ _ _ _ _ _ _ _ Ho _ _ Hv) as (ln' & _ & _ & ->).
  - intros n Hn. apply Hrest. intros gw ln HDgw Hapi. apply Hn; [|done]. pose proof (Hout gw) as H.
    destruct (unmanaged !! gw) as [g|]; [left; by eexists|right].
    destruct (Gateways !! gw) as [g|] eqn:Hg.
    + destruct H as [[Hp _]|[_ H]]; [by exists g|rw H in HDgw; by destruct HDgw].
    + rw H in HDgw. by destruct HDgw.
Qed.

(** *** Witness *)

(** The default template. *)
Definition example_name : NamespacedName → string → string := default_name "hug".

#[local] Instance example_frontend_env : MapsEnv := {|
  MapsBaseDir := "/maps"; disk := λ _, NoFile;
  FrontendNameTemplate := defaultFrontendNameTemplate; me_LinkID := "hug";
  other_template _ _ := Err "not a name"
|}.

Lemma example_names : names_apart example_name.
Proof. by apply (default_names_apart (ME := example_frontend_env)). Qed.

#[local] Instance example_frontend_params : FrontendParams :=
  {| IPv4BindAddress := ""; IPv6BindAddress := "" |}.

#[local] Existing Instances example_cert_env example_server_params.

Definition example_equal (a b : FrontendModel) : bool := bool_decide (a = b).

(** The Gateway ns/gw, upserted and valid, with one valid listener. *)
Definition example_upserted : gmap NamespacedName Gateway :=
  (λ g, mkGateway (gt_data g) (mkTreeUpdate None StatusUpserted)) <$> (at_gateways example_attach).1.

Definition example_frontend_mgr : FrontendMgr :=
  mkFrontendMgr NewFrontendsOwnedbyGateway (mkSections ∅ ∅ ∅ ∅ ∅) true ∅ ∅.

Lemma frontends_follow_listeners_witness :
  ∃ b', processGateways (RO := key_order) example_gvk example_equal (at_heap example_attach)
      example_upserted ∅ example_frontend_mgr = Some (b', None) ∧
    is_Some (configured b' !! example_name (NN "ns" "gw") "web").
Proof.
  destruct (frontends_follow_listeners key_order example_frontend_env example_cert_env
    example_server_params example_frontend_params Z bool example_params example_gvk example_equal
    (at_heap example_attach) (configured example_frontend_mgr) example_name example_upserted ∅ example_frontend_mgr)
    as (b' & Hrun & H & _).
  - exact example_names.
  - intros gw g. unfold example_upserted. rw map_fmap_singleton.
    intros [<- <-]%lookup_singleton_Some _. split.
    + eexists. split; [done|]. split; [discriminate|]. by constructor.
    + intros _. split; [by eexists|]. split.
      * intros ln loc. cbn [gt_data gt_Listeners]. intros [<- <-]%lookup_singleton_Some. split; [done|]. eexists. by split.
      * discriminate.
  - done.
  - intros gw g _ _. by rw lookup_empty.
  - apply (cycle_start fe_Name (fm_configuration example_frontend_mgr)). split; intros n loc Hn; by rw lookup_empty in Hn.
  - split; [done|]. intros gw n.
    assert (default ∅ (current (frontendsOwnedbyGateway example_frontend_mgr) !! gw) = ∅) as ->
      by reflexivity.
    split; [by intros ?%elem_of_empty|]. intros [[? Hn] _]. done.
  - exists b'. split; [exact Hrun|]. clear Hrun.
    assert (∃ g, example_upserted !! NN "ns" "gw" = Some g ∧ live_gateway g = true ∧
      gt_Listeners (gt_data g) !! "web" = Some 0) as (g & Hg & Hlive & Hln).
    { eexists. split; [|split]; [by rw /example_upserted map_fmap_singleton lookup_singleton_eq|done..]. }
    specialize (H _ _ "web" Hg). destruct (configured b' !! _); [by eexists|]. exfalso.
    apply H; [|done|done|].
    + unfold processed, live_gateway in *. by destruct (Status (gt_TreeStatus g)).
    + eexists 0, _. split_and!; [done| |]. 1: by rw lookup_singleton_eq. done.
Defined.
