(* ===== verification/CertRuntime.v ===== *)
(** * CertRuntime: haproxy/certificates.go

    The certificates and their lists in the running HAProxy: the changes of a
    batch are sent through the runtime socket, or a reload is asked for.  The
    mutex of the manager is left out: one goroutine runs these functions. *)

From S2P Require Import Prelude GoStrings FileUtils Objects Utils Conditions Store References TreeCore.
From S2P Require Import Certificates HaproxyConf Servers.

(** The runtime client of client-native; [ShowCrtListEntries] gives the files of
    the entries. *)
Class RuntimeCerts (T : Type) := {
  NewCertEntry : string → T → T * option string;
  SetCertEntry : string → string → T → T * option string;
  CommitCertEntry : string → T → T * option string;
  AbortCertEntry : string → T → T * option string;
  DeleteCertEntry : string → T → T * option string;
  ShowCrtListEntries : string → T → T * result (list string);
  AddCrtListEntry : string → string → T → T * option string;
  DeleteCrtListEntry : string → string → T → T * option string
}.

Section certificates.
Context {RO : RangeOrder} {T : Type} {RC : RuntimeCerts T}.

(** The first error returns. *)
Definition and_then (r : T * option string) (f : T → T * option string) : T * option string :=
  match r.2 with Some _ => r | None => f r.1 end.

(** A failed commit aborts the transaction; an error there is logged. *)
Definition commit_or_abort (certName : string) (t : T) : T * option string :=
  match CommitCertEntry certName t with
  | (t, Some err) => ((AbortCertEntry certName t).1, Some err)
  | (t, None) => (t, None)
  end.

Definition runtimeCreateCert (cert : CertificateData) (t : T) : T * option string :=
  let certName := FullPath (cert_Path cert) in
  and_then (NewCertEntry certName t) (λ t,
    and_then (SetCertEntry certName (cert_Data cert) t) (commit_or_abort certName)).

Definition runtimeUpdateCert (cert : CertificateData) (t : T) : T * option string :=
  let certName := FullPath (cert_Path cert) in
  and_then (SetCertEntry certName (cert_Data cert) t) (commit_or_abort certName).

Definition runtimeDeleteCert (cert : CertificateData) (t : T) : T * option string :=
  DeleteCertEntry (FullPath (cert_Path cert)) t.

(** A loop that returns at the first error. *)
Definition each {A} (f : A → T → T * option string) (l : list A) (t : T) : T * option string :=
  foldl (λ r a, and_then r (f a)) (t, None) l.

Definition runtimeUpdateCrtList (crtList : CrtListData) (t : T) : T * option string :=
  let path := FullPath (crt_Path crtList) in
  match ShowCrtListEntries path t with
  | (t, Err err) => (t, Some err)
  | (t, Ok files) =>
      let currentCerts := set_entries (list_to_set files : gset string) in
      let newContent := set_entries (list_to_set (crt_Content crtList) : gset string) in
      let addedCerts := SetDifference newContent currentCerts in
      let deletedCerts := SetDifference currentCerts newContent in
      and_then (each (AddCrtListEntry path) (range_set addedCerts) t)
        (each (DeleteCrtListEntry path) (range_set deletedCerts))
  end.

Definition runtimeCertificatesPrechecks (crts : CrtListUpdates) (rlm : reloadMgr) : reloadMgr :=
  let rlm := if negb (bool_decide (size (fu_Created crts) = 0)) then SetReload rlm else rlm in
  if negb (bool_decide (size (fu_Deleted crts) = 0)) then SetReload rlm else rlm.

(** One of the four loops; a failure asks for a reload. *)
Definition cert_loop {D} (f : D → T → T * option string) (m : gmap string D)
    (s : T * reloadMgr * option string) : T * reloadMgr * option string :=
  let '(t, rlm, err) := s in
  match err with
  | Some _ => s
  | None =>
      match each (λ kv, f kv.2) (range m) t with
      | (t, Some err) => (t, SetReload rlm, Some err)
      | (t, None) => (t, rlm, None)
      end
  end.

Definition executeRuntimeCertCommands (certs : CertUpdates) (crts : CrtListUpdates)
    (s : T * reloadMgr) : T * reloadMgr * option string :=
  if reload_NeedReload s.2 then (s, None)
  else
    let r := cert_loop runtimeCreateCert (fu_Created certs) (s, None) in
    let r := cert_loop runtimeUpdateCert (fu_Updated certs) r in
    let r := cert_loop runtimeUpdateCrtList (fu_Updated crts) r in
    cert_loop runtimeDeleteCert (fu_Deleted certs) r.

Definition processCertificates (RuntimeUpdateHaproxy : bool) (certs : CertUpdates)
    (crts : CrtListUpdates) (s : T * reloadMgr) : T * reloadMgr * option string :=
  if negb RuntimeUpdateHaproxy then (s, None)
  else executeRuntimeCertCommands certs crts (s.1, runtimeCertificatesPrechecks crts s.2).
End certificates.

(** ** What the runtime holds *)
Section runtime_certs.
Context {RO : RangeOrder} {T : Type} {RC : RuntimeCerts T}.

(** The certificates in use, the transaction in progress, and the lists. *)
Context (loaded : T → gmap string string) (transaction : T → option (string * string)).
Context (entries : T → string → gset string).

(** What a command that succeeds does. *)
Record cert_laws : Prop := {
  law_new n t t' : NewCertEntry n t = (t', None) → loaded t' = loaded t ∧ entries t' = entries t;
  law_set_cert n data t t' : SetCertEntry n data t = (t', None) →
    loaded t' = loaded t ∧ transaction t' = Some (n, data) ∧ entries t' = entries t;
  law_commit n data t t' : CommitCertEntry n t = (t', None) → transaction t = Some (n, data) →
    loaded t' = <[n := data]> (loaded t) ∧ entries t' = entries t;
  law_delete_cert n t t' : DeleteCertEntry n t = (t', None) →
    loaded t' = delete n (loaded t) ∧ entries t' = entries t;
  law_show l files t t' : ShowCrtListEntries l t = (t', Ok files) →
    loaded t' = loaded t ∧ entries t' = entries t ∧ entries t l = list_to_set files;
  law_add_entry l c t t' : AddCrtListEntry l c t = (t', None) → loaded t' = loaded t ∧
    ∀ l', entries t' l' = if decide (l = l') then {[c]} ∪ entries t l' else entries t l';
  law_delete_entry l c t t' : DeleteCrtListEntry l c t = (t', None) → loaded t' = loaded t ∧
    ∀ l', entries t' l' = if decide (l = l') then entries t l' ∖ {[c]} else entries t l'
}.
Context (laws : cert_laws).

Lemma and_then_None r f t' : and_then (T := T) r f = (t', None) → ∃ t, r = (t, None) ∧ f t = (t', None).
Proof. unfold and_then. destruct r as [t [err|]]; cbn; [done|]. by exists t. Qed.

Lemma commit_cert_ok n data t t' :
  commit_or_abort n t = (t', None) → transaction t = Some (n, data) →
  loaded t' = <[n := data]> (loaded t) ∧ entries t' = entries t.
Proof.
  unfold commit_or_abort. destruct (CommitCertEntry n t) as [t1 [err|]] eqn:Hc; [done|].
  intros [= <-]. by eapply law_commit.
Qed.

Lemma runtimeUpdateCert_ok c t t' :
  runtimeUpdateCert c t = (t', None) →
  loaded t' = write_text cert_Path cert_Data (λ _, true) c (loaded t) ∧ entries t' = entries t.
Proof.
  intros (t1 & (H1 & H2 & H3)%(law_set_cert laws) & Hc)%and_then_None.
  destruct (commit_cert_ok _ _ _ _ Hc H2) as [-> ->]. by rw H1.
Qed.

Lemma runtimeCreateCert_ok c t t' :
  runtimeCreateCert c t = (t', None) →
  loaded t' = write_text cert_Path cert_Data (λ _, true) c (loaded t) ∧ entries t' = entries t.
Proof.
  intros (t1 & [Hl He]%(law_new laws) & H)%and_then_None.
  destruct (runtimeUpdateCert_ok c t1 t' H) as [-> ->]. by rw Hl.
Qed.

Lemma runtimeDeleteCert_ok c t t' :
  runtimeDeleteCert c t = (t', None) →
  loaded t' = remove_text cert_Path (λ _, true) c (loaded t) ∧ entries t' = entries t.
Proof. intros H. by apply (law_delete_cert laws) in H. Qed.

(** A loop that succeeds runs every step. *)
Lemma each_ok {A} (f : A → T → T * option string) (P : list A → T → Prop) l t t' :
  P [] t →
  (∀ done a t t', a ∈ l → P done t → f a t = (t', None) → P (done ++ [a]) t') →
  each f l t = (t', None) → P l t'.
Proof.
  intros H0 Hstep. unfold each. revert t'.
  induction l as [|a l IH] using rev_ind; intros t'; [by intros [= <-]|].
  rw foldl_app. cbn. intros (t1 & H1 & H2)%and_then_None.
  apply (Hstep l a t1 t'); [set_solver| |done]. apply IH; [|done].
  intros dn b t2 t3 Hb. apply Hstep. set_solver.
Qed.

Lemma add_entries path X t t' :
  each (AddCrtListEntry path) X t = (t', None) →
  loaded t' = loaded t ∧
  ∀ l, entries t' l = if decide (path = l) then list_to_set X ∪ entries t l else entries t l.
Proof.
  intros H. apply (each_ok _ (λ dn t', loaded t' = loaded t ∧ ∀ l, entries t' l =
    if decide (path = l) then list_to_set dn ∪ entries t l else entries t l)) in H; [done| |].
  - split; [done|]. intros l. destruct (decide _); [set_solver|done].
  - intros dn c t1 t2 _ [Hl He] [Hl' He']%(law_add_entry laws). split; [by rw Hl'|].
    intros l. rw He' He. destruct (decide (path = l)); [|done]. set_solver.
Qed.

Lemma delete_entries path X t t' :
  each (DeleteCrtListEntry path) X t = (t', None) →
  loaded t' = loaded t ∧
  ∀ l, entries t' l = if decide (path = l) then entries t l ∖ list_to_set X else entries t l.
Proof.
  intros H. apply (each_ok _ (λ dn t', loaded t' = loaded t ∧ ∀ l, entries t' l =
    if decide (path = l) then entries t l ∖ list_to_set dn else entries t l)) in H; [done| |].
  - split; [done|]. intros l. destruct (decide _); [set_solver|done].
  - intros dn c t1 t2 _ [Hl He] [Hl' He']%(law_delete_entry laws). split; [by rw Hl'|].
    intros l. rw He' He. destruct (decide (path = l)); [|done]. set_solver.
Qed.

Lemma runtimeUpdateCrtList_ok c t t' :
  runtimeUpdateCrtList c t = (t', None) →
  loaded t' = loaded t ∧
  ∀ l, entries t' l =
    if decide (FullPath (crt_Path c) = l) then list_to_set (crt_Content c) else entries t l.
Proof.
  unfold runtimeUpdateCrtList. set (path := FullPath (crt_Path c)).
  destruct (ShowCrtListEntries path t) as [t1 [files|err]] eqn:Hs; [|done].
  apply (law_show laws) in Hs as (Hl & He & Hf). cbv zeta. rw !SetDifference_spec.
  unfold set_entries. rw !dom_gset_to_gmap.
  intros (t2 & [Hl2 He2]%add_entries & [Hl3 He3]%delete_entries)%and_then_None.
  split; [by rw Hl3 Hl2|]. intros l. rw He3 He2 He. destruct (decide (path = l)) as [<-|]; [|done].
  rw Hf. apply set_eq. intros x.
  rw elem_of_difference elem_of_union !elem_of_list_to_set !elem_of_range_set !elem_of_difference
    !elem_of_list_to_set.
  destruct (decide (x ∈ files)), (decide (x ∈ crt_Content c)); naive_solver.
Qed.

(** A loop over the certificates does to those in use what the same loop does
    to the files. *)
Lemma cert_loop_files (f : CertificateData → T → T * option string)
    (step : CertificateData → Disk → Disk) (m : gmap string CertificateData) t rlm t' rlm' :
  (∀ c t t', f c t = (t', None) → loaded t' = step c (loaded t) ∧ entries t' = entries t) →
  cert_loop f m (t, rlm, None) = (t', rlm', None) →
  loaded t' = range_fold (λ _, step) m (loaded t) ∧ entries t' = entries t ∧ rlm' = rlm.
Proof.
  intros Hf. unfold cert_loop. destruct (each _ _ _) as [t1 [err|]] eqn:He; [done|].
  intros [= <- <-].
  apply (each_ok _ (λ dn t', loaded t' = foldl (λ d kv, step kv.2 d) (loaded t) dn ∧
    entries t' = entries t)) in He as [H1 H2]; [done|done|].
  intros dn c t2 t3 _ [Hl He'] [Hl' He'']%Hf. rw foldl_app Hl' Hl He''. done.
Qed.

(** A failure comes with a reload, and the next loops do nothing. *)
Definition failure_reloads (s : T * reloadMgr * option string) : Prop :=
  s.2 = None ∨ reload s.1.2 = true.

Lemma cert_loop_reloads {D} (f : D → T → T * option string) m s :
  failure_reloads s → failure_reloads (cert_loop f m s).
Proof.
  unfold cert_loop. destruct s as [[t rlm] [err|]]; [done|]. intros _.
  by destruct (each _ _ _) as [t1 [err|]]; [right|left].
Qed.

Lemma cert_loop_None {D} (f : D → T → T * option string) m s t' rlm' :
  cert_loop f m s = (t', rlm', None) →
  ∃ t rlm, s = (t, rlm, None) ∧ cert_loop f m (t, rlm, None) = (t', rlm', None).
Proof. unfold cert_loop. destruct s as [[t rlm] [err|]]; [done|]. by exists t, rlm. Qed.

(** Lists that have paths of their own. *)
Definition distinct_lists (m : gmap string CrtListData) : Prop :=
  ∀ k k' c c', m !! k = Some c → m !! k' = Some c' →
    FullPath (crt_Path c) = FullPath (crt_Path c') → k = k'.

Lemma list_loop_ok (m : gmap string CrtListData) t rlm t' rlm' :
  distinct_lists m →
  cert_loop runtimeUpdateCrtList m (t, rlm, None) = (t', rlm', None) →
  loaded t' = loaded t ∧ rlm' = rlm ∧
  (∀ k c, m !! k = Some c → entries t' (FullPath (crt_Path c)) = list_to_set (crt_Content c)) ∧
  (∀ l, (∀ k c, m !! k = Some c → FullPath (crt_Path c) ≠ l) → entries t' l = entries t l).
Proof.
  intros Hm. unfold cert_loop. destruct (each _ _ _) as [t1 [err|]] eqn:He; [done|].
  intros [= <- <-].
  enough (loaded t1 = loaded t ∧
    (∀ kc, kc ∈ range m → entries t1 (FullPath (crt_Path kc.2)) = list_to_set (crt_Content kc.2)) ∧
    (∀ l, (∀ kc, kc ∈ range m → FullPath (crt_Path kc.2) ≠ l) → entries t1 l = entries t l))
    as (H1 & H2 & H3).
  { split_and!; [done|done| |].
    - intros k c Hk. apply (H2 (k, c)). by apply elem_of_range.
    - intros l Hl. apply H3. intros [k c] Hk%elem_of_range. by eapply Hl. }
  assert (∀ kc kc', kc ∈ range m → kc' ∈ range m →
    FullPath (crt_Path kc.2) = FullPath (crt_Path kc'.2) → kc = kc') as Hinj.
  { intros [k c] [k' c'] Hk%elem_of_range Hk'%elem_of_range Heq.
    pose proof (Hm _ _ _ _ Hk Hk' Heq) as ->. congruence. }
  eapply (each_ok _ (λ dn t1, (∀ kc, kc ∈ dn → kc ∈ range m) → loaded t1 = loaded t ∧
    (∀ kc, kc ∈ dn → entries t1 (FullPath (crt_Path kc.2)) = list_to_set (crt_Content kc.2)) ∧
    (∀ l, (∀ kc, kc ∈ dn → FullPath (crt_Path kc.2) ≠ l) → entries t1 l = entries t l)));
    [| |exact He|done].
  - intros _. split_and!; [done| |done]. by intros kc ?%elem_of_nil.
  - intros dn kc t2 t3 Hin Hdn [Hl Hent]%runtimeUpdateCrtList_ok Hsub.
    destruct Hdn as (H1 & H2 & H3); [set_solver|]. split_and!; [by rw Hl| |].
    + intros kc' Hkc'. rw Hent. destruct (decide _) as [Heq|Hne].
      * by pose proof (Hinj kc kc' Hin (Hsub _ Hkc') Heq) as ->.
      * apply H2. apply elem_of_app in Hkc' as [?|Hx]; [done|].
        apply list_elem_of_singleton in Hx as ->. done.
    + intros l Hno. rw Hent. destruct (decide _) as [Heq|Hne]; [exfalso; apply (Hno kc); set_solver|].
      apply H3. intros kc' Hkc'. apply Hno. set_solver.
Qed.
End runtime_certs.

(** ** Properties *)

(** C33: the running HAProxy follows the files, or is reloaded.  When runtime
    commands that succeed do what HAProxy documents, then after
    [processCertificates] either a reload was asked for, or no command failed, no
    list was created or deleted, the certificates in use changed exactly as the
    certificate files did, each updated list has exactly its content, and the
    other lists are as before. *)
Theorem runtime_follows_files (RO : RangeOrder) T (RC : RuntimeCerts T) loaded transaction entries
    certs crts (t t' : T) rlm rlm' err :
  cert_laws loaded transaction entries → distinct_lists (fu_Updated crts) →
  processCertificates true certs crts (t, rlm) = (t', rlm', err) →
  reload rlm' = true ∨
  (err = None ∧ rlm' = rlm ∧ fu_Created crts = ∅ ∧ fu_Deleted crts = ∅ ∧
   loaded t' = apply_updates cert_Path cert_Data certs (loaded t) ∧
   (∀ k c, fu_Updated crts !! k = Some c →
      entries t' (FullPath (crt_Path c)) = list_to_set (crt_Content c)) ∧
   (∀ l, (∀ k c, fu_Updated crts !! k = Some c → FullPath (crt_Path c) ≠ l) →
      entries t' l = entries t l)).
Proof.
  intros laws Hdist. unfold processCertificates. cbn [negb fst snd].
  unfold executeRuntimeCertCommands, reload_NeedReload. cbn [snd].
  destruct (reload (runtimeCertificatesPrechecks crts rlm)) eqn:Hr; [intros [= <- <- <-]; by left|].
  assert (runtimeCertificatesPrechecks crts rlm = rlm ∧ fu_Created crts = ∅ ∧ fu_Deleted crts = ∅)
    as (Hpre & Hc & Hd).
  { revert Hr. unfold runtimeCertificatesPrechecks.
    destruct (bool_decide (size (fu_Created crts) = 0)) eqn:H1,
      (bool_decide (size (fu_Deleted crts) = 0)) eqn:H2; cbn; try done. intros _.
    apply bool_decide_eq_true, map_size_empty_inv in H1, H2. done. }
  rw Hpre. clear Hpre Hr.
  intros E4. destruct err as [err|].
  { left. assert (failure_reloads (t', rlm', Some err)) as [?|?]; [|done..]. rw -E4.
    do 4 apply cert_loop_reloads. by left. }
  right. apply cert_loop_None in E4 as (t3 & rlm3 & E3 & E4).
  apply cert_loop_None in E3 as (t2 & rlm2 & E2 & E3).
  apply cert_loop_None in E2 as (t1 & rlm1 & E1 & E2).
  apply (cert_loop_files loaded transaction entries laws _ (write_text cert_Path cert_Data (λ _, true))) in E1
    as (L1 & N1 & R1); [|by eapply runtimeCreateCert_ok].
  apply (cert_loop_files loaded transaction entries laws _ (write_text cert_Path cert_Data (λ _, true))) in E2
    as (L2 & N2 & R2); [|by eapply runtimeUpdateCert_ok].
  apply (list_loop_ok loaded transaction entries laws) in E3 as (L3 & R3 & H3 & H3'); [|done].
  apply (cert_loop_files loaded transaction entries laws _ (remove_text cert_Path (λ _, true))) in E4
    as (L4 & N4 & R4); [|by eapply runtimeDeleteCert_ok].
  split_and!; [done|congruence|done..| | |].
  - by rw L4 L3 L2 L1.
  - intros k c Hk. rw N4. by eapply H3.
  - intros l Hl. by rw N4 H3' // N2 N1.
Qed.

(** *** Witness *)

(** A HAProxy: the certificates, the transaction, and the lists. *)
Record ExampleCerts := mkExampleCerts {
  ex_loaded : gmap string string; ex_transaction : option (string * string);
  ex_entries : gmap string (gset string)
}.

#[local] Instance example_certs : RuntimeCerts ExampleCerts := {|
  NewCertEntry n t := (t, None);
  SetCertEntry n data t := (mkExampleCerts (ex_loaded t) (Some (n, data)) (ex_entries t), None);
  CommitCertEntry n t :=
    match ex_transaction t with
    | Some (n', data) =>
        if bool_decide (n = n')
        then (mkExampleCerts (<[n := data]> (ex_loaded t)) None (ex_entries t), None)
        else (t, Some "no ongoing transaction")
    | None => (t, Some "no ongoing transaction")
    end;
  AbortCertEntry n t := (mkExampleCerts (ex_loaded t) None (ex_entries t), None);
  DeleteCertEntry n t :=
    (mkExampleCerts (delete n (ex_loaded t)) (ex_transaction t) (ex_entries t), None);
  ShowCrtListEntries l t := (t, Ok (elements (default ∅ (ex_entries t !! l))));
  AddCrtListEntry l c t :=
    (mkExampleCerts (ex_loaded t) (ex_transaction t)
       (<[l := {[c]} ∪ default ∅ (ex_entries t !! l)]> (ex_entries t)), None);
  DeleteCrtListEntry l c t :=
    (mkExampleCerts (ex_loaded t) (ex_transaction t)
       (<[l := default ∅ (ex_entries t !! l) ∖ {[c]}]> (ex_entries t)), None)
|}.

Definition example_entries_of (t : ExampleCerts) (l : string) : gset string :=
  default ∅ (ex_entries t !! l).

Lemma example_cert_laws : cert_laws ex_loaded ex_transaction example_entries_of.
Proof.
  split.
  - by intros n t t' [= <-].
  - by intros n data t t' [= <-].
  - intros n data t t'. cbn. intros H Ht. rw Ht bool_decide_eq_true_2 // in H. by injection H as <-.
  - by intros n t t' [= <-].
  - intros l files t t' [= <- <-]. split_and!; [done..|]. by rw list_to_set_elements_L.
  - intros l c t t' [= <-]. split; [done|]. intros l'. unfold example_entries_of. cbn [ex_entries].
    destruct (decide (l = l')) as [<-|Hne]; [by rw lookup_insert_eq|by rw lookup_insert_ne].
  - intros l c t t' [= <-]. split; [done|]. intros l'. unfold example_entries_of. cbn [ex_entries].
    destruct (decide (l = l')) as [<-|Hne]; [by rw lookup_insert_eq|by rw lookup_insert_ne].
Qed.

(** One certificate is updated, and the list of the listener gets it. *)
Definition example_cert_updates : CertUpdates :=
  mkFileUpdates ∅ {[ "ns_web.pem" :=
    certificate_NewCertificateData (mkFilePath "/certs/ns/we" "ns_web.pem") "PEM" ]} ∅.

Definition example_list_updates : CrtListUpdates :=
  mkFileUpdates ∅ {[ "ns_l.list" :=
    certificate_NewCrtListData (mkFilePath "/lists" "ns_l.list") ["/certs/ns/we/ns_web.pem"] ]} ∅.

Lemma runtime_follows_files_witness :
  let t := mkExampleCerts ∅ None {[ "/lists/ns_l.list" := {[ "/certs/ns/ol/ns_old.pem" ]} ]} in
  let r := processCertificates (RO := key_order) true example_cert_updates example_list_updates
             (t, mkReloadMgr false false false) in
  ex_loaded r.1.1 = {[ "/certs/ns/we/ns_web.pem" := "PEM" ]} ∧
  example_entries_of r.1.1 "/lists/ns_l.list" = {[ "/certs/ns/we/ns_web.pem" ]}.
Proof.
  intros t r. destruct r as [[t' rlm'] err] eqn:Hr.
  destruct (runtime_follows_files key_order ExampleCerts example_certs ex_loaded ex_transaction
    example_entries_of example_cert_updates example_list_updates t t' (mkReloadMgr false false false)
    rlm' err) as [Hrel|(_ & _ & _ & _ & Hl & He & _)].
  - exact example_cert_laws.
  - intros k k' c c'. unfold example_list_updates. cbn [fu_Updated]. intros [<- _]%lookup_singleton_Some [<- _]%lookup_singleton_Some _. done.
  - exact Hr.
  - exfalso. assert (reload r.1.2 = false) as H by vm_refl. by rw Hr Hrel in H.
  - cbn [fst]. split; [rw Hl; vm_refl|].
    specialize (He "ns_l.list" _ (lookup_singleton_eq _ _)).
    assert (FullPath (crt_Path (certificate_NewCrtListData (mkFilePath "/lists" "ns_l.list")
      ["/certs/ns/we/ns_web.pem"])) = "/lists/ns_l.list") as Hp by vm_refl.
    rw Hp in He. rw He. vm_refl.
Defined.
