(* ===== verification/RouteFill.v ===== *)
(** * RouteFill: the loops of haproxy/routes-maps.go do not panic

    The routes the builders of the tree make keep the loops that fill the maps
    away from their nil pointers. *)

From S2P Require Import Prelude GoStrings FileUtils Objects Utils Conditions Store TreeCore Listener.
From S2P Require Import Gateway Route HaproxyConf Backends RouteMaps.

Section loops.
Context {RO : RangeOrder} {R Rule : Type}.

(** Each listener the loop meets is there, and so is the resource of the route. *)
Definition ready (heap : Listeners) (d : RouteData R Rule) : Prop :=
  map_Forall (λ _ locs, ∀ l, l ∈ locs → is_Some (heap !! l) ∧ is_Some (rt_K8sResource d))
    (data (rt_Listeners d)).

Lemma ready_no_listeners heap d : data (rt_Listeners d) = ∅ → ready heap d.
Proof. intros He. unfold ready. rw He. apply map_Forall_empty. Qed.

Lemma ready_resolves heap (r : Route R Rule) : resolves heap r → ready heap (rt_data r).
Proof. intros [Hk Hl] pr locs Hlocs l Hll. split; [by eapply Hl|done]. Qed.

Lemma each_listener_ready heap d f maps :
  ready heap d → (∀ l k8s maps, ∃ maps', f l k8s maps = Some maps') →
  ∃ maps', each_listener heap d f maps = Some maps'.
Proof.
  intros Hd Hf. apply (mfold_runs (λ _, True)); [done|].
  intros [pr locs] m Hin%elem_of_range _. apply mfold_total; [done|]. intros loc m2 Hloc _.
  destruct (Hd pr locs Hin loc Hloc) as [[l ->] [k8s ->]]. cbn.
  destruct (Hf l k8s m2) as [m3 ->]. by exists m3.
Qed.

Lemma fill_maps_total heap clean fill rs routesOf maps :
  (∀ key loc, routesOf !! key = Some loc → ∃ r, rs !! loc = Some r ∧ ready heap (rt_data r) ∧
     (∀ l k8s maps, ∃ maps', fill r l k8s maps = Some maps') ∧
     ∀ old, OldTreeResource (rt_TreeStatus r) = Some old →
       ready heap old ∧ ∀ l k8s maps, ∃ maps', clean old l k8s maps = Some maps') →
  ∃ maps', fill_maps (R := R) (Rule := Rule) heap clean fill rs routesOf maps = Some maps'.
Proof.
  intros Hr. unfold fill_maps. apply bind_runs; [|intros m1];
    apply (mfold_runs (λ _, True)); [done| |done|]; intros [key loc] m Hk%elem_of_range _;
    cbn [fst snd]; destruct (Hr _ _ Hk) as (r & -> & H1 & H2 & Hold).
  - destruct (OldTreeResource _) as [old|]; [|by exists m]. destruct (Hold old) as [G1 G2]; [done|].
    destruct (each_listener_ready heap old (clean old) m G1 G2) as [m' ?]. by exists m'.
  - destruct (each_listener_ready heap (rt_data r) (fill r) m H1 H2) as [m' ?]. by exists m'.
Qed.
End loops.

(** ** The writes *)
Section writes.
Context {RO : RangeOrder} {ME : MapsEnv} {Server Extra : Type} {BP : BackendParams Server Extra}.
Implicit Types (maps : Maps).

Lemma EnsureMapData_loads fp maps : is_Some (EnsureMapData fp maps !! FullPath fp).
Proof.
  unfold EnsureMapData. destruct (maps !! FullPath fp) eqn:Hm; [by rw Hm|].
  destruct (ReadKeyValueFile _ _); rw lookup_insert_eq; by eexists.
Qed.

Lemma EnsureMapData_keeps fp maps p : is_Some (maps !! p) → is_Some (EnsureMapData fp maps !! p).
Proof. intros [m Hm]. exists m. eapply lookup_weaken; [exact Hm|apply EnsureMapData_grows]. Qed.

Lemma http_maps_loaded l maps : loaded (http_maps l maps).1 (http_maps l maps).2.
Proof.
  unfold http_maps, GetMapData, loaded. cbn [fst snd mapExact mapPrefix mapRegex mapDomainWPathExact].
  split_and!; repeat first [apply EnsureMapData_loads|apply EnsureMapData_keeps].
Qed.

Lemma on_map_total f p maps :
  is_Some (maps !! p) →
  ∃ maps', on_map f (Some p) maps = Some maps' ∧ ∀ q, is_Some (maps !! q) → is_Some (maps' !! q).
Proof.
  intros [m Hm]. cbn. rw Hm. cbn. eexists. split; [done|]. intros q Hq.
  apply lookup_insert_is_Some'. by right.
Qed.

Definition matches_ok (rules : list (RouteRule K8sHTTPRouteRule)) : Prop :=
  Forall (λ rule, Forall match_ok (hr_Matches (rule_K8sResource rule))) rules.

Lemma onDeletedHTTPRoute_total k8s rules ms maps :
  loaded ms maps → matches_ok rules → ∃ maps', onDeletedHTTPRoute k8s rules ms maps = Some maps'.
Proof.
  intros Hl Hok. unfold onDeletedHTTPRoute.
  apply (mfold_runs (loaded ms)); [done|].
  intros rule m1 Hrule Hm1. eapply Forall_forall in Hok; [|exact Hrule].
  apply mfold_total; [done|]. intros m m2 Hm Hm2. eapply Forall_forall in Hok; [|exact Hm].
  destruct Hok as (path & Hp & Hty). unfold match_path. rw Hp. cbn [mbind option_bind].
  apply mfold_total; [done|]. intros h m3 _ Hm3.
  destruct (target_loaded ms m3 m [h] (target_map ms (default PathMatchPathPrefix (pm_Type path)) h)
    (h +:+ default "/" (pm_Value path))) as (name & Hname & Hs); [done|by exists path| |].
  { unfold match_writes, match_path. rw Hp. cbn. by left. }
  rw Hname. destruct (on_map_total (DeleteData (h +:+ default "/" (pm_Value path))) name m3 Hs)
    as (m4 & -> & Hk). exists m4. split; [done|]. destruct Hm3 as (? & ? & ? & ?).
  split_and!; by apply Hk.
Qed.

(** An HTTP route of the tree that the loops go through. *)
Definition http_ready (heap : Listeners) (r : Route K8sHTTPRoute K8sHTTPRouteRule) : Prop :=
  ready heap (rt_data r) ∧ matches_ok (Rules (rt_data r)) ∧
  ∀ old, OldTreeResource (rt_TreeStatus r) = Some old → ready heap old ∧ matches_ok (Rules old).

Lemma fillMapsForHTTPRoutes_total heap rs routesOf maps :
  (∀ key loc, routesOf !! key = Some loc → ∃ r, rs !! loc = Some r ∧ http_ready heap r) →
  ∃ maps', fillMapsForHTTPRoutes heap rs routesOf maps = Some maps'.
Proof.
  intros Hr. apply fill_maps_total. intros key loc Hk.
  destruct (Hr _ _ Hk) as (r & Hrs & H1 & H2 & H3). exists r.
  assert (∀ l maps, ∃ ms maps', http_maps l maps = (ms, maps') ∧ loaded ms maps') as Hload.
  { intros l m. pose proof (http_maps_loaded l m) as Hl. destruct (http_maps l m) as [ms m']. eauto. }
  split_and!; [done..| |].
  - intros l k8s m. destruct (Hload l m) as (ms & m' & -> & Hl).
    destruct (Status (rt_TreeStatus r)); [|by apply onDeletedHTTPRoute_total|by exists m'].
    unfold onUpsertedHTTPRoute. destruct (rt_Valid (rt_data r)); [|by exists m'].
    destruct (rules_write ms k8s (accepted_hostnames l (hroute_Hostnames k8s)) (Rules (rt_data r)) m')
      as (m'' & ? & _); [done..|by exists m''].
  - intros old Hold. destruct (H3 old Hold) as [G1 G2]. split; [done|]. intros l k8s m.
    destruct (Hload l m) as (ms & m' & -> & Hl). by apply onDeletedHTTPRoute_total.
Qed.

(** *** TLS routes *)
Definition tls_loaded (sni wildcard : string) maps : Prop :=
  is_Some (maps !! sni) ∧ is_Some (maps !! wildcard).

Lemma tls_maps_loaded l maps :
  tls_loaded (tls_maps l maps).1.1 (tls_maps l maps).1.2 (tls_maps l maps).2.
Proof.
  unfold tls_maps, GetMapData, tls_loaded. cbn [fst snd].
  split; repeat first [apply EnsureMapData_loads|apply EnsureMapData_keeps].
Qed.

Lemma tls_write_total sni wildcard f (w : bool) maps :
  tls_loaded sni wildcard maps →
  ∃ maps', on_map f (Some (if w then wildcard else sni)) maps = Some maps' ∧
    tls_loaded sni wildcard maps'.
Proof.
  intros [H1 H2]. destruct (on_map_total f (if w then wildcard else sni) maps) as (m & -> & Hk);
    [by destruct w|]. exists m. split; [done|]. split; by apply Hk.
Qed.

Lemma onDeletedTLSRoute_total k8s sni wildcard maps :
  tls_loaded sni wildcard maps → ∃ maps', onDeletedTLSRoute k8s sni wildcard maps = Some maps'.
Proof.
  intros Hl. unfold onDeletedTLSRoute.
  apply (mfold_runs (tls_loaded sni wildcard)); [done|].
  intros h m _ Hm. by apply tls_write_total.
Qed.

Lemma onValidTLSRouteUpserted_total k8s rules sni wildcard accepted maps :
  tls_loaded sni wildcard maps →
  ∃ maps', onValidTLSRouteUpserted k8s rules sni wildcard accepted maps = Some maps'.
Proof.
  intros Hl. unfold onValidTLSRouteUpserted. cbv zeta.
  apply (mfold_runs (tls_loaded sni wildcard)); [done|].
  intros rule m _ Hm.
  enough (∃ s, mfold _ accepted (m, ∅) = Some s ∧ tls_loaded sni wildcard s.1)
    as ([m' seen] & -> & Hl') by by exists m'.
  apply (mfold_total (λ s : Maps * gset string, tls_loaded sni wildcard s.1)); [done|].
  intros h [m1 seen] _ Hm1. cbn [fst] in Hm1. destruct (rule_Valid rule).
  - destruct (tls_write_total sni wildcard (AddData h (tls_routeValue
      (meta_Namespace (troute_Meta k8s)) rule)) (isDomainWildcard h) m1 Hm1) as (m2 & -> & ?).
    by eexists.
  - case_bool_decide; [by eexists|].
    destruct (tls_write_total sni wildcard (DeleteData h) false m1 Hm1) as (m2 & -> & ?). by eexists.
Qed.

Definition tls_ready (heap : Listeners) (r : Route K8sTLSRoute K8sTLSRouteRule) : Prop :=
  ready heap (rt_data r) ∧ ∀ old, OldTreeResource (rt_TreeStatus r) = Some old → ready heap old.

Lemma fillMapsForTLSRoutes_total heap rs routesOf maps :
  (∀ key loc, routesOf !! key = Some loc → ∃ r, rs !! loc = Some r ∧ tls_ready heap r) →
  ∃ maps', fillMapsForTLSRoutes heap rs routesOf maps = Some maps'.
Proof.
  intros Hr. apply fill_maps_total. intros key loc Hk.
  destruct (Hr _ _ Hk) as (r & Hrs & H1 & H2). exists r.
  assert (∀ l maps, ∃ sni w maps', tls_maps l maps = (sni, w, maps') ∧ tls_loaded sni w maps') as Hload.
  { intros l m. pose proof (tls_maps_loaded l m) as Hl. destruct (tls_maps l m) as [[sni w] m']. eauto. }
  split_and!; [done..| |].
  - intros l k8s m. destruct (Hload l m) as (sni & w & m' & -> & Hl).
    destruct (Status (rt_TreeStatus r)); [|by apply onDeletedTLSRoute_total|by exists m'].
    unfold onUpsertedTLSRoute. destruct (rt_Valid (rt_data r)); [|by exists m'].
    by apply onValidTLSRouteUpserted_total.
  - intros old Hold. split; [by apply H2|]. intros l k8s m.
    destruct (Hload l m) as (sni & w & m' & -> & Hl). by apply onDeletedTLSRoute_total.
Qed.
End writes.
