(* ===== verification/ConfMgr.v ===== *)
(** * ConfMgr: haproxy/haproxyconf_mgr.go

    The manager of the HAProxy configuration: one cycle computes the diffs from
    the tree, by the steps of Frontends, CertRuntime, Backends, RouteMaps and
    Servers.  The theorem on a whole run, from the cluster to HAProxy, is here.

    A result [None] is a panic of one of the steps. *)

From S2P Require Import Prelude GoStrings FileUtils Objects Utils Conditions Store References TreeCore.
From S2P Require Import Listener Gateway Route HaproxyConf Backends RouteMaps Certificates Servers.
From S2P Require Import Frontends CertRuntime RouteFill.

(** What the manager reads of [tree.ControllerStore]. *)
Record ControllerStore := mkControllerStore {
  Gateways : gmap NamespacedName Gateway;
  unmanagedGateways : gmap NamespacedName Gateway;
  listenerHeap : Listeners;
  HTTPRoutes : gmap NamespacedName nat;
  httpHeap : gmap nat (Route K8sHTTPRoute K8sHTTPRouteRule);
  TLSRoutes : gmap NamespacedName nat;
  tlsHeap : gmap nat (Route K8sTLSRoute K8sTLSRouteRule);
  store_CertUpdates : CertUpdates;
  store_CrtListUpdates : CrtListUpdates;
  BackendCRs : gmap NamespacedName BackendCR;
  Services : gmap NamespacedName K8sService;
  Updates_EndpointSlices : gmap NamespacedName (Store.Update K8sEndpointSlice)
}.

(** The two flags of [HaproxyConfMgrParams]. *)
Record HaproxyConfMgrParams := mkParams { RuntimeUpdateHaproxy : bool; StoreMapsOnDisk : bool }.

Record FirstSync := mkFirstSync { fs_frontends : gset string; fs_backends : gset string; flag : bool }.

(** The manager, with the route maps of [MapsStorage], which it fills. *)
Record HaproxyConfMgrImpl (Extra : Type) := mkImpl {
  hm_backendsImpactedInCycle : BackendsImpactedInCycle;
  hm_frontendsOwnedbyGateway : FrontendsOwnedbyGateway;
  backendOwners : BackendReferencedBy;
  hm_configuration : Configuration FrontendModel ServerModel (BackendBase Extra);
  firstSync : FirstSync;
  MapsStorage : Maps
}.
Arguments mkImpl {Extra}.
Arguments hm_backendsImpactedInCycle {Extra}.
Arguments hm_frontendsOwnedbyGateway {Extra}.
Arguments backendOwners {Extra}.
Arguments hm_configuration {Extra}.
Arguments firstSync {Extra}.
Arguments MapsStorage {Extra}.

Section manager.
Context {Extra : Type}.
Implicit Types (b : HaproxyConfMgrImpl Extra).

(** The fields the files of the frontends and of the backends work on. *)
Definition frontend_part b : FrontendMgr :=
  mkFrontendMgr (hm_frontendsOwnedbyGateway b) (c_Frontends (hm_configuration b))
    (flag (firstSync b)) (fs_frontends (firstSync b)) (MapsStorage b).

Definition set_frontend_part (m : FrontendMgr) b : HaproxyConfMgrImpl Extra :=
  let c := hm_configuration b in
  mkImpl (hm_backendsImpactedInCycle b) (frontendsOwnedbyGateway m) (backendOwners b)
    (mkConfiguration (fm_configuration m) (c_Backends c) (ReloadNeed c))
    (mkFirstSync (firstSync_frontends m) (fs_backends (firstSync b)) (flag (firstSync b)))
    (fm_maps m).

Definition backend_part b : BackendMgr ServerModel Extra :=
  mkBackendMgr (backendOwners b) (hm_backendsImpactedInCycle b) (c_Backends (hm_configuration b))
    (flag (firstSync b)) (fs_backends (firstSync b)).

Definition set_backend_part (m : BackendMgr ServerModel Extra) b : HaproxyConfMgrImpl Extra :=
  let c := hm_configuration b in
  mkImpl (backendsImpactedInCycle m) (hm_frontendsOwnedbyGateway b) (owners m)
    (mkConfiguration (c_Frontends c) (configuration m) (ReloadNeed c))
    (mkFirstSync (fs_frontends (firstSync b)) (firstSync_backends m) (flag (firstSync b)))
    (MapsStorage b).

Definition set_ReloadNeed (need : bool) b : HaproxyConfMgrImpl Extra :=
  let c := hm_configuration b in
  mkImpl (hm_backendsImpactedInCycle b) (hm_frontendsOwnedbyGateway b) (backendOwners b)
    (mkConfiguration (c_Frontends c) (c_Backends c) need) (firstSync b) (MapsStorage b).

Definition set_maps (maps : Maps) b : HaproxyConfMgrImpl Extra :=
  mkImpl (hm_backendsImpactedInCycle b) (hm_frontendsOwnedbyGateway b) (backendOwners b)
    (hm_configuration b) (firstSync b) maps.

(** The configuration at startup has no diffs; [pointers] gives a section of it. *)
Definition NewHaproxyConfMgr (startup_frontends : Sections FrontendModel)
    (startup_backends : Sections (BackendModel ServerModel (BackendBase Extra))) (maps : Maps) :
    HaproxyConfMgrImpl Extra :=
  mkImpl (mkImpactedInCycle ∅ ∅ ∅) NewFrontendsOwnedbyGateway ∅
    (mkConfiguration startup_frontends startup_backends false) (mkFirstSync ∅ ∅ true) maps.

Section cycle.
Context {RO : RangeOrder} {ME : MapsEnv} {CE : CertEnv} {SP : ServerParams} {FP : FrontendParams}.
Context {EqE : EqDecision Extra} {BP : BackendParams ServerModel Extra}.
Context {T : Type} {RTC : RuntimeCerts T} {RTM : RuntimeClient T} {RTS : RuntimeServers T}.
Context (extractGVK : ExtractGVK) (fe_Equal : FrontendModel → FrontendModel → bool).
Context (params : HaproxyConfMgrParams).
(** The cache of the Kubernetes client: the slices of a service. *)
Context (slices : NamespacedName → result (list K8sEndpointSlice)).
Implicit Types (st : ControllerStore).

(** The new maps of the cycle. *)
Definition start_diffs b : HaproxyConfMgrImpl Extra :=
  let c := hm_configuration b in
  mkImpl (mkImpactedInCycle ∅ ∅ ∅) (hm_frontendsOwnedbyGateway b) (backendOwners b)
    (mkConfiguration (resetDiffs (c_Frontends c)) (resetDiffs (c_Backends c)) false)
    (firstSync b) (MapsStorage b).

(** Go lets a loop delete the entry it is at. *)
Definition delete_startup {M} (name : M → string) (keep : gset string) (s : Sections M) : Sections M :=
  foldl (λ s n, if bool_decide (n ∈ keep) then s else delete_section name n s) s
    (range (cur s)).*1.

Definition cleanupAfterFirstSync b : HaproxyConfMgrImpl Extra :=
  if negb (flag (firstSync b)) then b
  else
    let c := hm_configuration b in
    mkImpl (hm_backendsImpactedInCycle b) (hm_frontendsOwnedbyGateway b) (backendOwners b)
      (mkConfiguration
         (delete_startup fe_Name (fs_frontends (firstSync b)) (c_Frontends c))
         (delete_startup be_Name (fs_backends (firstSync b)) (c_Backends c)) (ReloadNeed c))
      (mkFirstSync ∅ ∅ false) (MapsStorage b).

(** One step of [ComputeDiffs] on a part of the manager: its error is logged. *)
Definition run_gateways st b : option (HaproxyConfMgrImpl Extra) :=
  '(m, _) ← processGateways extractGVK fe_Equal (listenerHeap st) (Gateways st)
              (unmanagedGateways st) (frontend_part b);
  Some (set_frontend_part m b).

Definition run_http_routes st b : HaproxyConfMgrImpl Extra :=
  set_backend_part
    (processHTTPRoutes extractGVK (BackendCRs st) (HTTPRoutes st) (httpHeap st) (backend_part b)).1 b.

Definition run_tls_routes st b : HaproxyConfMgrImpl Extra :=
  set_backend_part
    (processTLSRoutes extractGVK (BackendCRs st) (TLSRoutes st) (tlsHeap st) (backend_part b)).1 b.

(** The maps, the files written, and the client. *)
Definition run_routes st b (t : T) :
    option (HaproxyConfMgrImpl Extra * list (string * string) * T) :=
  '(maps, files, (t, _)) ← processRoutes_maps (listenerHeap st) (httpHeap st, HTTPRoutes st)
     (tlsHeap st, TLSRoutes st) (StoreMapsOnDisk params) (RuntimeUpdateHaproxy params)
     (MapsStorage b) t;
  Some (set_maps maps b, files, t).

Definition run_endpoints st b (t : T) (rlm : reloadMgr) :
    option (HaproxyConfMgrImpl Extra * T * reloadMgr) :=
  '(c, _) ← processEndpointSlices (Services st) slices (Updates_EndpointSlices st) (httpHeap st)
     (HTTPRoutes st) (tlsHeap st) (TLSRoutes st) (backendOwners b)
     (mkEndpointsCycle (c_Backends (hm_configuration b)) t rlm []);
  let conf := hm_configuration b in
  Some (mkImpl (hm_backendsImpactedInCycle b) (hm_frontendsOwnedbyGateway b) (backendOwners b)
          (mkConfiguration (c_Frontends conf) (ec_conf c) (ReloadNeed conf)) (firstSync b)
          (MapsStorage b), ec_client c, ec_reload c).

(** The manager, the files of the maps that were written, the runtime client and
    the reload manager. *)
Definition ComputeDiffs st b (t : T) (rlm : reloadMgr) :
    option (HaproxyConfMgrImpl Extra * list (string * string) * T * reloadMgr) :=
  b ← run_gateways st (start_diffs b);
  let '((t, rlm), _) := processCertificates (RuntimeUpdateHaproxy params) (store_CertUpdates st)
    (store_CrtListUpdates st) (t, rlm) in
  let b := run_http_routes st b in
  let b := run_tls_routes st b in
  let b := set_ReloadNeed (reload_NeedReload rlm) b in
  '(b, files, t) ← run_routes st b t;
  let b := cleanupAfterFirstSync b in
  '(b, t, rlm) ← run_endpoints st b t rlm;
  Some (b, files, t, rlm).

(** What is sent to the goroutine that applies the diffs. *)
Definition GetDiffs b : Configuration FrontendModel ServerModel (BackendBase Extra) :=
  hm_configuration b.
End cycle.
End manager.

(** ** A cycle *)
Section cycle_proofs.
Context {Extra : Type} {EqE : EqDecision Extra} {BP : BackendParams ServerModel Extra}.
Context {RO : RangeOrder} {ME : MapsEnv} {CE : CertEnv} {SP : ServerParams} {FP : FrontendParams}.
Context {T : Type} {RTC : RuntimeCerts T} {RTM : RuntimeClient T} {RTS : RuntimeServers T}.
Context (extractGVK : ExtractGVK) (fe_Equal : FrontendModel → FrontendModel → bool).
Context (params : HaproxyConfMgrParams) (slices : NamespacedName → result (list K8sEndpointSlice)).
(** The names of the frontends tell the listeners apart. *)
Context (name : NamespacedName → string → string).
Hypothesis Hnames : names_apart name.
Implicit Types (b : HaproxyConfMgrImpl Extra) (st : ControllerStore).

(** A route of the tree: its listeners are there, and so is its resource unless
    it was deleted. *)
Definition routes_ok {R Rule} (ready_route : Route R Rule → Prop) (rs : gmap nat (Route R Rule))
    (routesOf : gmap NamespacedName nat) : Prop :=
  map_Forall (λ _ loc, ∃ r, rs !! loc = Some r ∧ ready_route r ∧
    (Status (rt_TreeStatus r) ≠ StatusDeleted → is_Some (rt_K8sResource (rt_data r)))) routesOf.

(** What the builders of the tree give the manager. *)
Record store_ok st : Prop := {
  so_gateways : map_Forall (λ gw g, processed g → gateway_ok (listenerHeap st) gw g) (Gateways st);
  so_unmanaged : map_Forall (gateway_ok (listenerHeap st)) (unmanagedGateways st);
  so_either gw g : Gateways st !! gw = Some g → processed g → unmanagedGateways st !! gw = None;
  so_http : routes_ok (http_ready (listenerHeap st)) (httpHeap st) (HTTPRoutes st);
  so_tls : routes_ok (tls_ready (listenerHeap st)) (tlsHeap st) (TLSRoutes st);
  so_slices : map_Forall (λ _, slice_update_ok) (Updates_EndpointSlices st)
}.

(** The manager between two cycles. *)
Record mgr_ok b : Prop := {
  mo_frontends : wf_sections fe_Name (c_Frontends (hm_configuration b));
  mo_backends : wf_sections be_Name (c_Backends (hm_configuration b));
  mo_updated : byUpdatedGateways (hm_frontendsOwnedbyGateway b) = ∅;
  mo_owners : owners_filled (backendOwners b)
}.

(** The configuration of the controller. *)
Definition structured b : gmap string FrontendModel * gmap string (BackendModel ServerModel (BackendBase Extra)) :=
  let c := hm_configuration b in
  (view (c_Frontends c) (cur (c_Frontends c)), view (c_Backends c) (cur (c_Backends c))).

Abbreviation fe_tidy base b := (tidy fe_Name base (c_Frontends (hm_configuration b))).
Abbreviation be_tidy base b := (tidy be_Name base (c_Backends (hm_configuration b))).

Lemma delete_startup_spec {M} (nm : M → string) base keep s :
  tidy nm base s →
  tidy nm base (delete_startup nm keep s) ∧
  ∀ n, is_Some (cur (delete_startup nm keep s) !! n) → n ∈ keep.
Proof.
  intros Hs. unfold delete_startup.
  assert (let s' := foldl (λ s n, if bool_decide (n ∈ keep) then s else delete_section nm n s) s
      (range (cur s)).*1 in
    tidy nm base s' ∧ (∀ n, is_Some (cur s' !! n) → is_Some (cur s !! n)) ∧
    ∀ n, n ∈ (range (cur s)).*1 → n ∉ keep → cur s' !! n = None) as (H1 & H2 & H3).
  { apply (foldl_prefix_ind (λ pre s', tidy nm base s' ∧
      (∀ n, is_Some (cur s' !! n) → is_Some (cur s !! n)) ∧
      ∀ n, n ∈ pre → n ∉ keep → cur s' !! n = None)); [split_and!; [done..|set_solver]|].
    intros pre n s' _ (I1 & I2 & I3). case_bool_decide as Hk.
    - split_and!; [done..|]. intros n' [?| ->%list_elem_of_singleton]%elem_of_app ?; [by apply I3|done].
    - pose proof (inv_wf _ _ _ (proj1 I1)) as Hwf. split_and!; [by apply tidy_delete| |];
        intros n'; rw cur_delete_section //.
      + intros [x [_ Hx]%lookup_delete_Some]. apply I2. by eexists.
      + intros [?| ->%list_elem_of_singleton]%elem_of_app ?; [|by rw lookup_delete_eq].
        apply lookup_delete_None. right. by apply I3. }
  split; [done|]. intros n Hn. apply dec_stable. intros Hk. destruct (H2 n Hn) as [loc Hloc].
  assert (n ∈ (range (cur s)).*1) as Hin.
  { apply list_elem_of_fmap. exists (n, loc). split; [done|by apply elem_of_range]. }
  specialize (H3 n Hin Hk). rw H3 in Hn. by destruct Hn.
Qed.

Lemma cleanupAfterFirstSync_tidy fbase bbase b :
  fe_tidy fbase b → be_tidy bbase b →
  fe_tidy fbase (cleanupAfterFirstSync b) ∧ be_tidy bbase (cleanupAfterFirstSync b).
Proof.
  intros Hf Hb. unfold cleanupAfterFirstSync. destruct (flag (firstSync b)); cbn [negb]; [|done].
  split; by apply delete_startup_spec.
Qed.

Lemma run_gateways_tidy st b :
  mgr_ok b → store_ok st →
  ∃ b', run_gateways extractGVK fe_Equal st (start_diffs b) = Some b' ∧
    fe_tidy (structured b).1 b' ∧ byUpdatedGateways (hm_frontendsOwnedbyGateway b') = ∅ ∧
    backend_part b' = backend_part (start_diffs b).
Proof.
  intros [M1 M2 M3 M4] [S1 S2 S3 _ _ _]. unfold run_gateways.
  set (m := frontend_part (start_diffs b)).
  assert (cycle_inv fe_Name (structured b).1 (fm_configuration m)) as Hinv by by apply cycle_start.
  destruct (processGateways_runs extractGVK fe_Equal (listenerHeap st) (structured b).1 name Hnames
    (Gateways st) (unmanagedGateways st) m) as (b2 & D & -> & HD & _); [done..|].
  cbn [mbind option_bind]. destruct (cleaned_removed (structured b).1 name Hnames D m b2) as (R1 & R2 & R3); [done..|].
  eexists. split_and!; [done| |exact R2|done]. cbn. split; [exact R1|].
  intros n Hn. apply R3 in Hn as [Hn|Hn]; [by apply elem_of_empty in Hn|].
  apply eq_None_not_Some. intros Hs.
  apply (view_is_Some fe_Name _ _ n (wf_cur _ _ (inv_wf _ _ _ R1))) in Hs. unfold configured in Hn.
  rw Hn in Hs. by destruct Hs.
Qed.

(** The two passes over the routes. *)
Lemma run_all_routes_tidy st b bbase :
  cycle_inv be_Name bbase (c_Backends (hm_configuration b)) →
  removed (c_Backends (hm_configuration b)) = ∅ → owners_filled (backendOwners b) → store_ok st →
  let b' := run_tls_routes extractGVK st (run_http_routes extractGVK st b) in
  be_tidy bbase b' ∧ owners_filled (backendOwners b') ∧
  owners_resolve BackendOwnerTypeHTTPRoute (httpHeap st) (HTTPRoutes st) (backendOwners b') ∧
  owners_resolve BackendOwnerTypeTLSRoute (tlsHeap st) (TLSRoutes st) (backendOwners b').
Proof.
  intros Hinv Hrem Hfill [_ _ _ S4 S5 _].
  assert (pass_inv bbase (backend_part b)) as H0.
  { split_and!; [exact Hinv|exact Hfill|]. cbn. by rw Hrem. }
  destruct (processRoutes_pass extractGVK (BackendCRs st) bbase (httpHeap st) (HTTPRoutes st) _ H0)
    as [H1 _].
  destruct (processRoutes_owners extractGVK (BackendCRs st) bbase (httpHeap st) (HTTPRoutes st)
    _ (proj1 H0)) as [_ O2].
  set (b1 := run_http_routes extractGVK st b).
  assert (pass_inv bbase (backend_part b1)) as H1' by exact H1.
  destruct (processRoutes_pass extractGVK (BackendCRs st) bbase (tlsHeap st) (TLSRoutes st) _ H1')
    as [H2 H3].
  destruct (processRoutes_owners extractGVK (BackendCRs st) bbase (tlsHeap st) (TLSRoutes st)
    _ (proj1 H1')) as [P1 P2].
  intros b'. destruct H2 as (H4 & H5 & H6). split_and!.
  - split; [exact H4|]. intros n Hn. apply H3, H6, Hn.
  - exact H5.
  - intros be key loc r Hs Hl Hr. destruct (S4 key loc Hl) as (r' & Hr' & _ & Hk). simplify_eq.
    apply Hk. intros Hst. specialize (O2 key loc r be Hl Hr Hst).
    change (is_Some (gen_of (owners (processRoutes extractGVK (BackendCRs st) (TLSRoutes st) (tlsHeap st)
      (backend_part b1)).1) be BackendOwnerTypeHTTPRoute key)) in Hs. rw P1 // in Hs.
    change (gen_of (owners (backend_part b1)) be BackendOwnerTypeHTTPRoute key = None) in O2.
    rw O2 in Hs. by destruct Hs.
  - intros be key loc r Hs Hl Hr. destruct (S5 key loc Hl) as (r' & Hr' & _ & Hk). simplify_eq.
    apply Hk. intros Hst. specialize (P2 key loc r be Hl Hr Hst).
    change (is_Some (gen_of (owners (processRoutes extractGVK (BackendCRs st) (TLSRoutes st) (tlsHeap st)
      (backend_part b1)).1) be BackendOwnerTypeTLSRoute key)) in Hs.
    change (gen_of (owners (processRoutes extractGVK (BackendCRs st) (TLSRoutes st) (tlsHeap st)
      (backend_part b1)).1) be BackendOwnerTypeTLSRoute key = None) in P2.
    rw P2 in Hs. by destruct Hs.
Qed.

Lemma run_routes_total st b t :
  store_ok st →
  ∃ maps files t', run_routes params st b t = Some (set_maps maps b, files, t').
Proof.
  intros [_ _ _ S4 S5 _]. unfold run_routes, processRoutes_maps.
  destruct (fillMapsForHTTPRoutes_total (listenerHeap st) (httpHeap st) (HTTPRoutes st)
    (reset_updates (MapsStorage b))) as [m1 H1].
  { intros key loc Hk. destruct (S4 key loc Hk) as (r & Hr & Hok & _). by exists r. }
  destruct (fillMapsForTLSRoutes_total (listenerHeap st) (tlsHeap st) (TLSRoutes st) m1) as [m2 H2].
  { intros key loc Hk. destruct (S5 key loc Hk) as (r & Hr & Hok & _). by exists r. }
  cbn [fst snd]. rw H1. cbn [mbind option_bind]. rw H2. cbn [mbind option_bind].
  destruct (RuntimeUpdateHaproxy params); cbn [negb].
  - destruct (runtimeMapSync m2 t) as [t' err]. by eexists _, _, _.
  - by eexists _, _, _.
Qed.

(** The steps of a cycle: the manager when the loops over the Gateways and the
    routes are done, and the one at the end. *)
Lemma ComputeDiffs_steps st b t rlm :
  mgr_ok b → store_ok st →
  ∃ b1 b' files t' rlm' need maps,
    run_gateways extractGVK fe_Equal st (start_diffs b) = Some b1 ∧
    ComputeDiffs extractGVK fe_Equal params slices st b t rlm = Some (b', files, t', rlm') ∧
    let b2 := run_tls_routes extractGVK st (run_http_routes extractGVK st b1) in
    let b4 := cleanupAfterFirstSync (set_maps maps (set_ReloadNeed need b2)) in
    fe_tidy (structured b).1 b2 ∧ be_tidy (structured b).2 b2 ∧ owners_filled (backendOwners b2) ∧
    hm_frontendsOwnedbyGateway b' = hm_frontendsOwnedbyGateway b1 ∧
    byUpdatedGateways (hm_frontendsOwnedbyGateway b1) = ∅ ∧
    backend_part b1 = backend_part (start_diffs b) ∧
    backendOwners b' = backendOwners b2 ∧ firstSync b' = firstSync b4 ∧
    c_Frontends (hm_configuration b') = c_Frontends (hm_configuration b4) ∧
    same_backends (structured b).2 (c_Backends (hm_configuration b4)) (c_Backends (hm_configuration b')).
Proof.
  intros Hb Hst. unfold ComputeDiffs.
  destruct (run_gateways_tidy st b Hb Hst) as (b1 & Hb1 & Hf1 & Hup & Hpart). rw Hb1. cbn [mbind option_bind].
  destruct (processCertificates _ _ _ _) as [[t1 rlm1] err].
  destruct (run_all_routes_tidy st b1 (structured b).2) as (Hbe & Hfill & Hr1 & Hr2); [..|done|].
  { change (cycle_inv be_Name (structured b).2 (configuration (backend_part b1))). rw Hpart.
    apply cycle_start, Hb. }
  { change (removed (configuration (backend_part b1)) = ∅). by rw Hpart. }
  { change (owners_filled (owners (backend_part b1))). rw Hpart. apply Hb. }
  set (b2 := run_tls_routes _ _ _) in *.
  destruct (run_routes_total st (set_ReloadNeed (reload_NeedReload rlm1) b2) t1 Hst)
    as (maps & files & t2 & Hrun). rw Hrun. cbn [mbind option_bind].
  set (b3 := set_maps maps _).
  destruct (cleanupAfterFirstSync_tidy (structured b).1 (structured b).2 b3) as [Hf3 Hb3];
    [exact Hf1|exact Hbe|].
  assert (hm_frontendsOwnedbyGateway (cleanupAfterFirstSync b3) = hm_frontendsOwnedbyGateway b1 ∧
    backendOwners (cleanupAfterFirstSync b3) = backendOwners b2) as [E1 E2].
  { unfold cleanupAfterFirstSync. by destruct (negb _). }
  set (b4 := cleanupAfterFirstSync b3) in *. unfold run_endpoints.
  destruct (processEndpointSlices_same (Services st) slices (structured b).2 (Updates_EndpointSlices st)
    (httpHeap st) (HTTPRoutes st) (tlsHeap st) (TLSRoutes st) (backendOwners b4)
    (mkEndpointsCycle (c_Backends (hm_configuration b4)) t2 rlm1 [])) as (c & err' & -> & Hc);
    [apply Hst|by rw E2..|exact Hb3|].
  cbn [mbind option_bind]. eexists b1, _, files, _, _, (reload_NeedReload rlm1), maps.
  split; [done|]. split; [done|]. cbv zeta. fold b2 b3 b4.
  split_and!; [exact Hf1|exact Hbe|exact Hfill|exact E1|exact Hup|exact Hpart|exact E2|done|done|exact Hc].
Qed.

(** A cycle does not panic, its diffs are exact, and the manager is ready for the
    next one. *)
Lemma ComputeDiffs_ok st b t rlm :
  mgr_ok b → store_ok st →
  ∃ b' files t' rlm', ComputeDiffs extractGVK fe_Equal params slices st b t rlm =
      Some (b', files, t', rlm') ∧
    mgr_ok b' ∧ fe_tidy (structured b).1 b' ∧ be_tidy (structured b).2 b'.
Proof.
  intros Hb Hst. destruct (ComputeDiffs_steps st b t rlm Hb Hst)
    as (b1 & b' & files & t' & rlm' & need & maps & _ & Hrun & H1 & H2 & H3 & H4 & H5 & _ & H7 & _ & H8 & H9 & _).
  exists b', files, t', rlm'. split; [exact Hrun|].
  assert (fe_tidy (structured b).1 b') as Hf.
  { rw H8. exact (proj1 (cleanupAfterFirstSync_tidy (structured b).1 (structured b).2
      (set_maps maps (set_ReloadNeed need (run_tls_routes extractGVK st (run_http_routes extractGVK st b1))))
      H1 H2)). }
  split_and!; [|exact Hf|exact H9]. split.
  - apply (inv_wf _ _ _ (proj1 Hf)).
  - apply (inv_wf _ _ _ (proj1 H9)).
  - by rw H4.
  - by rw H7.
Qed.

Lemma cleanupAfterFirstSync_first b :
  flag (firstSync b) = true →
  let b' := cleanupAfterFirstSync b in
  firstSync b' = mkFirstSync ∅ ∅ false ∧
  c_Frontends (hm_configuration b') =
    delete_startup fe_Name (fs_frontends (firstSync b)) (c_Frontends (hm_configuration b)) ∧
  c_Backends (hm_configuration b') =
    delete_startup be_Name (fs_backends (firstSync b)) (c_Backends (hm_configuration b)).
Proof. intros Hf. unfold cleanupAfterFirstSync. by rw Hf. Qed.

(** After the first cycle, the sections the startup left are gone. *)
Lemma first_sync_clean st b t rlm :
  mgr_ok b → store_ok st → firstSync b = mkFirstSync ∅ ∅ true →
  (∀ opts dst spec merged, be_Name spec = "" →
     mergo_Merge (Server := ServerModel) (Extra := Extra) opts dst spec = Ok merged →
     be_Name merged = be_Name dst) →
  ∃ b' files t' rlm', ComputeDiffs extractGVK fe_Equal params slices st b t rlm =
      Some (b', files, t', rlm') ∧ firstSync b' = mkFirstSync ∅ ∅ false ∧
    (∀ n, is_Some ((structured b').1 !! n) → wanted (listenerHeap st) (Gateways st) n) ∧
    (∀ n, is_Some ((structured b').2 !! n) →
       ∃ ty key, is_Some (gen_of (backendOwners b') n ty key)).
Proof.
  intros Hb Hst Hfirst Hmergo. destruct (ComputeDiffs_steps st b t rlm Hb Hst)
    as (b1 & b' & files & t' & rlm' & need & maps & Hgw & Hrun & H1 & H2 & _ & _ & _ & Hpart & Ho & Hfs & Hf & Hbe).
  exists b', files, t', rlm'. split; [exact Hrun|].
  set (b2 := run_tls_routes extractGVK st (run_http_routes extractGVK st b1)) in *.
  assert (flag (firstSync b1) = true) as Hflag.
  { change (firstSync_flag (backend_part b1) = true). by rw Hpart /= Hfirst. }
  destruct (cleanupAfterFirstSync_first (set_maps maps (set_ReloadNeed need b2)) Hflag) as (C1 & C2 & C3).
  rw C1 in Hfs. rw C2 in Hf. rw C3 in Hbe. clear C1 C2 C3.
  assert (kept_owned (backend_part b1)) as K1.
  { split; [exact Hflag|]. rw Hpart. cbn. rw Hfirst. intros n Hn. by apply elem_of_empty in Hn. }
  assert (pass_inv (structured b).2 (backend_part b1)) as P1.
  { rw Hpart. split_and!; [apply cycle_start, Hb|apply Hb|done]. }
  destruct (processRoutes_pass extractGVK (BackendCRs st) (structured b).2 (httpHeap st) (HTTPRoutes st)
    _ P1) as [(_ & P2 & _) _].
  destruct (processRoutes_kept extractGVK (BackendCRs st) Hmergo (httpHeap st) (HTTPRoutes st) _
    (proj1 (proj2 P1)) K1) as [[_ K2] _].
  assert (kept_owned (backend_part (run_http_routes extractGVK st b1))) as K3 by by split.
  destruct (processRoutes_kept extractGVK (BackendCRs st) Hmergo (tlsHeap st) (TLSRoutes st)
    (backend_part (run_http_routes extractGVK st b1)) P2 K3) as [[_ K4] K5].
  split_and!; [exact Hfs| |].
  - intros n Hn. unfold structured in Hn. cbn in Hn. rw lookup_view Hf in Hn.
    assert (n ∈ fs_frontends (firstSync b2)) as Hin.
    { apply (delete_startup_spec fe_Name (structured b).1 _ (c_Frontends (hm_configuration b2)) H1).
      change (c_Frontends (hm_configuration (set_maps maps (set_ReloadNeed need b2)))) with
        (c_Frontends (hm_configuration b2)) in Hn.
      change (firstSync (set_maps maps (set_ReloadNeed need b2))) with (firstSync b2) in Hn.
      destruct (cur _ !! n) as [loc|]; [by eexists|by destruct Hn]. }
    unfold run_gateways in Hgw.
    destruct (processGateways _ _ _ _ _ _) as [[m err]|] eqn:Hrun'; [|done].
    cbn [mbind option_bind] in Hgw. injection Hgw as <-.
    refine (keeps_processGateways extractGVK fe_Equal (listenerHeap st) (Gateways st) _ _ _ _ _ Hrun' n Hin).
    intros n' Hn'. cbn in Hn'. rw Hfirst in Hn'. by apply elem_of_empty in Hn'.
  - intros n Hn. apply (view_is_Some be_Name) in Hn; [|by apply (inv_wf _ _ _ (proj1 (proj1 Hbe)))].
    apply Hbe in Hn. rw Ho. apply K5, K4.
    apply (delete_startup_spec be_Name (structured b).2 _ (c_Backends (hm_configuration b2)) H2).
    exact Hn.
Qed.
End cycle_proofs.

(** ** Batch after batch

    [HandleEventBatch] of handler/batch.go, with the goroutine of
    hug/haproxy/main.go that applies the diffs it is sent; here the diffs of a
    batch are applied before the next batch starts. *)
Section batches.
Context {Extra : Type} {EqE : EqDecision Extra} {BP : BackendParams ServerModel Extra}.
Context {RO : RangeOrder} {ME : MapsEnv} {CE : CertEnv} {SP : ServerParams} {FP : FrontendParams}.
Context {T : Type} {RTC : RuntimeCerts T} {RTM : RuntimeClient T} {RTS : RuntimeServers T}.
Context {H : Type} {HC : HAProxyClient FrontendModel (BackendModel ServerModel (BackendBase Extra)) H}.
Context (extractGVK : ExtractGVK) (fe_Equal : FrontendModel → FrontendModel → bool).
Context (params : HaproxyConfMgrParams).

(** The manager, the runtime client, the reload manager, HAProxy, and the
    results of the applications of the diffs. *)
Record Controller := mkController {
  ct_mgr : HaproxyConfMgrImpl Extra; ct_runtime : T; ct_reload : reloadMgr; ct_haproxy : H;
  ct_results : list (option string)
}.

(** The diffs are sent unless there is nothing in them. *)
Definition transfer (b : HaproxyConfMgrImpl Extra) : bool :=
  let c := GetDiffs b in
  negb (Sections_IsEmpty (c_Frontends c) && Sections_IsEmpty (c_Backends c)) || ReloadNeed c.

Definition handle_batch (st : ControllerStore) (slices : NamespacedName → result (list K8sEndpointSlice))
    (s : Controller) : option Controller :=
  '(b, _, t, rlm) ← ComputeDiffs extractGVK fe_Equal params slices st (ct_mgr s) (ct_runtime s)
     (reload_Reset (ct_reload s));
  let '(h, err) := if transfer b then applyCfgUpdates (GetDiffs b) (ct_haproxy s)
                   else (ct_haproxy s, None) in
  Some (mkController b t rlm h (ct_results s ++ [err])).

Definition handle_batches
    (l : list (ControllerStore * (NamespacedName → result (list K8sEndpointSlice)))) (s : Controller) :
    option Controller := mfold (λ st s, handle_batch st.1 st.2 s) l s.

Context (name : NamespacedName → string → string).
Hypothesis Hnames : names_apart name.
Context (committed pending : H →
  gmap string FrontendModel * gmap string (BackendModel ServerModel (BackendBase Extra))).
Hypothesis laws : client_laws fe_Name committed pending.

(** HAProxy has the configuration of the controller. *)
Definition mirrored (s : Controller) : Prop :=
  mgr_ok (ct_mgr s) ∧ committed (ct_haproxy s) = structured (ct_mgr s) ∧
  Forall (λ err, err = None) (ct_results s).

Lemma handle_batch_mirrored st slices s :
  mirrored s → store_ok st → ∃ s', handle_batch st slices s = Some s' ∧ mirrored s'.
Proof using Hnames laws.
  intros (Hb & Hh & He) Hst. unfold handle_batch.
  destruct (ComputeDiffs_ok extractGVK fe_Equal params slices name Hnames st (ct_mgr s)
    (ct_runtime s) (reload_Reset (ct_reload s)) Hb Hst) as (b' & files & t' & rlm' & -> & Hb' & Hf & Hbe).
  cbn [mbind option_bind].
  assert (∃ h', (if transfer b' then applyCfgUpdates (GetDiffs b') (ct_haproxy s)
                 else (ct_haproxy s, None)) = (h', None) ∧ committed h' = structured b') as (h' & -> & Hh').
  { unfold structured at 1. rw -(cycle_exact fe_Name _ _ (proj1 Hf) (proj2 Hf)).
    rw -(cycle_exact be_Name _ _ (proj1 Hbe) (proj2 Hbe)) -Hh.
    destruct (transfer b') eqn:Ht.
    - destruct Hf as [Hf _], Hbe as [Hbe _]. rw -Hh in Hf. rw -Hh in Hbe.
      by apply (applyCfgUpdates_ok fe_Name committed pending _ _ _ _ laws).
    - unfold transfer in Ht. apply orb_false_iff in Ht as [Ht _]. apply negb_false_iff in Ht.
      apply andb_true_iff in Ht as [H1 H2]. exists (ct_haproxy s). split; [done|].
      rw !(apply_diffs_empty fe_Name committed pending _ _ _ _ (law_writes _ _ _ _ _ _ _ laws)) //. by destruct (committed _). }
  eexists. split; [done|]. split_and!; [exact Hb'|exact Hh'|]. cbn.
  apply Forall_app. by split; [|constructor].
Qed.
End batches.

(** A manager at startup is ready for the first batch. *)
Lemma NewHaproxyConfMgr_ok {Extra} fes (bes : Sections (BackendModel ServerModel (BackendBase Extra))) maps :
  wf_sections fe_Name fes → wf_sections be_Name bes → mgr_ok (NewHaproxyConfMgr fes bes maps).
Proof. intros H1 H2. split; [done|done|done|]. apply map_Forall_empty. Qed.

(** ** Properties *)

(** HAProxy follows the controller, batch after batch.  From a manager that
    was just made, or any one between two batches, when HAProxy has the
    configuration of the controller, the frontend names tell the listeners
    apart, the tree of each batch is one the builders give, and the client keeps
    its promises, then no batch makes the process panic, all the diffs are
    applied without error, and after the last batch HAProxy has exactly the
    frontends and the backends, with their servers, that the controller has. *)
Theorem haproxy_mirrors_controller Extra (EqE : EqDecision Extra) (BP : BackendParams ServerModel Extra)
    (RO : RangeOrder) (ME : MapsEnv) (CE : CertEnv) (SP : ServerParams) (FP : FrontendParams)
    T (RTC : RuntimeCerts T) (RTM : RuntimeClient T) (RTS : RuntimeServers T)
    H (HC : HAProxyClient FrontendModel (BackendModel ServerModel (BackendBase Extra)) H)
    extractGVK fe_Equal params name committed pending batches (s : Controller (T := T)) :
  names_apart name →
  client_laws fe_Name committed pending → Forall (λ batch, store_ok batch.1) batches →
  mgr_ok (ct_mgr s) → committed (ct_haproxy s) = structured (ct_mgr s) → ct_results s = [] →
  ∃ s', handle_batches extractGVK fe_Equal params batches s = Some s' ∧ mgr_ok (ct_mgr s') ∧
    committed (ct_haproxy s') = structured (ct_mgr s') ∧ Forall (λ err, err = None) (ct_results s').
Proof.
  intros Hnames laws Hok Hb Hh Hr.
  apply (mfold_total (mirrored committed)); [split_and!; [done|done|by rw Hr]|].
  intros [st slices] s1 Hin Hs1. eapply Forall_forall in Hok; [|exact Hin].
  by eapply handle_batch_mirrored.
Qed.

(** C7: the first batch takes out of HAProxy what an earlier run left there.  At
    startup the manager takes the configuration HAProxy has; after the first
    batch, each frontend HAProxy has is that of a valid listener of a Gateway
    that was upserted and is valid, and each backend is owned by a route, whatever
    HAProxy had before.  It is asked that the template of the names tells the
    listeners with names of the API apart ([names_apart], which the default
    template does), that the tree of the batch is well formed, as the builders
    leave it, that the sections HAProxy had are under their names, that mergo
    keeps the name of a backend it merges a resource without name into, and that
    client-native accepts the operations and does what it promises ([client_laws];
    a reload gives no error). *)
Theorem first_batch_cleans Extra (EqE : EqDecision Extra) (BP : BackendParams ServerModel Extra)
    (RO : RangeOrder) (ME : MapsEnv) (CE : CertEnv) (SP : ServerParams) (FP : FrontendParams)
    T (RTC : RuntimeCerts T) (RTM : RuntimeClient T) (RTS : RuntimeServers T)
    H (HC : HAProxyClient FrontendModel (BackendModel ServerModel (BackendBase Extra)) H)
    extractGVK fe_Equal params name committed pending st slices fes bes maps (s : Controller (T := T)) :
  names_apart name →
  (∀ opts dst spec merged, be_Name spec = "" →
     mergo_Merge (Server := ServerModel) (Extra := Extra) opts dst spec = Ok merged →
     be_Name merged = be_Name dst) →
  client_laws fe_Name committed pending → store_ok st →
  wf_sections fe_Name fes → wf_sections be_Name bes →
  ct_mgr s = NewHaproxyConfMgr fes bes maps →
  committed (ct_haproxy s) = (view fes (cur fes), view bes (cur bes)) → ct_results s = [] →
  ∃ s', handle_batch extractGVK fe_Equal params st slices s = Some s' ∧
    (∀ n, is_Some ((committed (ct_haproxy s')).1 !! n) → wanted (listenerHeap st) (Gateways st) n) ∧
    (∀ n, is_Some ((committed (ct_haproxy s')).2 !! n) →
       ∃ ty key, is_Some (gen_of (backendOwners (ct_mgr s')) n ty key)).
Proof.
  intros Hnames Hmergo laws Hst Hfes Hbes Hmgr Hh Hr.
  assert (mgr_ok (ct_mgr s)) as Hb by (rw Hmgr; by apply NewHaproxyConfMgr_ok).
  destruct (handle_batch_mirrored extractGVK fe_Equal params name Hnames committed pending laws st
    slices s) as (s' & Hs' & _ & Hmirror & _); [|done|].
  { split_and!; [done|by rw Hh Hmgr|by rw Hr]. }
  exists s'. split; [exact Hs'|]. rw Hmirror.
  destruct (first_sync_clean extractGVK fe_Equal params slices name Hnames st (ct_mgr s)
    (ct_runtime s) (reload_Reset (ct_reload s))) as (b' & files & t' & rlm' & Hrun & _ & Hfe & Hbe);
    [done|done|by rw Hmgr|done|].
  unfold handle_batch in Hs'. rw Hrun in Hs'. cbn [mbind option_bind] in Hs'.
  destruct (if transfer b' then _ else _) as [h' err]. by injection Hs' as <-.
Qed.

(** *** Witnesses *)

(** A client for the models of this manager: the committed configuration and the
    transaction. *)
Abbreviation ExampleConf :=
  (gmap string FrontendModel * gmap string (BackendModel ServerModel (BackendBase bool)))%type.

#[local] Instance example_manager_client :
    HAProxyClient FrontendModel (BackendModel ServerModel (BackendBase bool))
      (ExampleConf * ExampleConf) := {|
  APIStartTransaction t := ((t.1, t.1), None);
  APIFinalCommitTransaction t := ((t.2, t.2), None);
  APIDisposeTransaction t := (t.1, t.1);
  FrontendCreate fe t := ((t.1, (<[fe_Name fe := fe]> t.2.1, t.2.2)), None);
  FrontendEdit fe t := let '(m, err) := example_edit fe_Name t.2.1 fe in ((t.1, (m, t.2.2)), err);
  FrontendDelete n t := let '(m, err) := example_delete t.2.1 n in ((t.1, (m, t.2.2)), err);
  BackendCreate be t := ((t.1, (t.2.1, <[be_Name be := be]> t.2.2)), None);
  BackendEdit be t := let '(m, err) := example_edit be_Name t.2.2 be in ((t.1, (t.2.1, m)), err);
  BackendDelete n t := let '(m, err) := example_delete t.2.2 n in ((t.1, (t.2.1, m)), err);
  NeedReload _ := true;
  Reload t := (t, None)
|}.

Lemma example_manager_client_laws : client_laws fe_Name (@fst ExampleConf ExampleConf) snd.
Proof.
  split; [split|]; intros; cbn; try match goal with H : is_Some _ |- _ => destruct H as [x Hx] end.
  all: unfold example_edit, example_delete; cbn in *; rw ?Hx; by eexists.
Qed.

(** A runtime that is never reached: [RuntimeUpdateHaproxy] is false. *)
#[local] Instance example_no_certs : RuntimeCerts unit := {|
  NewCertEntry _ t := (t, None); SetCertEntry _ _ t := (t, None); CommitCertEntry _ t := (t, None);
  AbortCertEntry _ t := (t, None); DeleteCertEntry _ t := (t, None);
  ShowCrtListEntries _ t := (t, Ok []); AddCrtListEntry _ _ t := (t, None);
  DeleteCrtListEntry _ _ t := (t, None)
|}.

#[local] Instance example_no_maps : RuntimeClient unit := {|
  ShowMaps _ := []; DeleteMapEntry _ _ t := (t, None); SetMapEntry _ _ _ t := (t, None);
  AddMapEntry _ _ _ t := (t, None); already_exists _ := false
|}.

#[local] Instance example_no_servers : RuntimeServers unit := {|
  ExecuteRaw _ t := (t, Ok ""); runtime_DeleteServer _ _ t := (t, None)
|}.

#[local] Existing Instances example_frontend_env example_cert_env example_server_params
  example_frontend_params example_server_backends.

(** The tree has one Gateway, with one valid listener. *)
Definition example_tree : ControllerStore :=
  mkControllerStore example_upserted ∅ (at_heap example_attach) ∅ ∅ ∅ ∅
    (mkFileUpdates ∅ ∅ ∅) (mkFileUpdates ∅ ∅ ∅) ∅ ∅ ∅.

Lemma example_tree_ok : store_ok example_tree.
Proof.
  split; try done.
  intros gw g. cbn [Gateways example_tree]. unfold example_upserted. rw map_fmap_singleton.
  intros [<- <-]%lookup_singleton_Some _. split.
  - eexists. split; [done|]. split; [discriminate|]. by constructor.
  - intros _. split; [by eexists|]. split.
    + intros ln loc. cbn [gt_data gt_Listeners]. intros [<- <-]%lookup_singleton_Some. split; [done|]. eexists. by split.
    + discriminate.
Qed.

(** At startup HAProxy has a frontend nobody wants. *)
Definition example_stale : FrontendModel := mkFrontend "stale" "" ∅ "" "http" [] [] [] [] ∅.

Definition example_startup : Sections FrontendModel :=
  mkSections {[ 0 := example_stale ]} {[ "stale" := 0 ]} ∅ ∅ ∅.

Lemma example_startup_wf : wf_sections fe_Name example_startup.
Proof.
  split; intros n loc Hn; [|by rw lookup_empty in Hn..].
  cbn in Hn. apply lookup_singleton_Some in Hn as [<- <-]. by exists example_stale.
Qed.

Definition example_no_backends : Sections (BackendModel ServerModel (BackendBase bool)) :=
  mkSections ∅ ∅ ∅ ∅ ∅.

Lemma example_no_backends_wf : wf_sections be_Name example_no_backends.
Proof. split; intros n loc Hn; by rw lookup_empty in Hn. Qed.

Definition example_running : ExampleConf := ({[ "stale" := example_stale ]}, ∅).

Definition example_controller : Controller (Extra := bool) (T := unit) (H := ExampleConf * ExampleConf) :=
  mkController (NewHaproxyConfMgr example_startup example_no_backends ∅) tt
    (mkReloadMgr false false false) (example_running, example_running) [].

Definition example_mgr_params : HaproxyConfMgrParams := mkParams false false.

Lemma haproxy_mirrors_controller_witness :
  let r := handle_batches (RO := key_order) example_gvk example_equal example_mgr_params
             [(example_tree, example_slices); (example_tree, example_slices)] example_controller in
  ∃ s', r = Some s' ∧ (ct_haproxy s').1 = structured (ct_mgr s') ∧ ct_results s' = [None; None].
Proof.
  intros r.
  destruct (haproxy_mirrors_controller bool _ example_server_backends key_order example_frontend_env
    example_cert_env example_server_params example_frontend_params unit _ _ _ _ example_manager_client
    example_gvk example_equal example_mgr_params example_name fst snd
    [(example_tree, example_slices); (example_tree, example_slices)] example_controller)
    as (s' & Hrun & _ & Hh & _).
  - exact example_names.
  - exact example_manager_client_laws.
  - do 2 (constructor; [exact example_tree_ok|]). constructor.
  - apply NewHaproxyConfMgr_ok; [exact example_startup_wf|exact example_no_backends_wf].
  - vm_refl.
  - done.
  - exists s'. split; [exact Hrun|]. split; [exact Hh|].
    assert (ct_results <$> r = Some [None; None]) as Hres by vm_refl.
    unfold r in Hres. rw Hrun in Hres. by injection Hres.
Defined.

Lemma first_batch_cleans_witness :
  ∃ s', handle_batch (RO := key_order) example_gvk example_equal example_mgr_params example_tree
      example_slices example_controller = Some s' ∧
    (∀ n, is_Some ((ct_haproxy s').1.1 !! n) → wanted (at_heap example_attach) example_upserted n) ∧
    (ct_haproxy s').1.1 !! "stale" = None ∧
    is_Some ((ct_haproxy s').1.1 !! example_name (NN "ns" "gw") "web").
Proof.
  destruct (first_batch_cleans bool _ example_server_backends key_order example_frontend_env
    example_cert_env example_server_params example_frontend_params unit _ _ _ _ example_manager_client
    example_gvk example_equal example_mgr_params example_name fst snd example_tree example_slices
    example_startup example_no_backends ∅ example_controller) as (s' & Hrun & Hfe & _).
  - exact example_names.
  - by intros opts dst spec merged _ [= <-].
  - exact example_manager_client_laws.
  - exact example_tree_ok.
  - exact example_startup_wf.
  - exact example_no_backends_wf.
  - done.
  - vm_refl.
  - done.
  - exists s'. split; [exact Hrun|]. split; [exact Hfe|].
    assert ((λ s, ((ct_haproxy s).1.1 !! "stale",
        bool_decide (is_Some ((ct_haproxy s).1.1 !! example_name (NN "ns" "gw") "web")))) <$>
      handle_batch (RO := key_order) example_gvk example_equal example_mgr_params example_tree
        example_slices example_controller = Some (None, true)) as Hw by vm_refl.
    rw Hrun in Hw. cbn [fmap option_fmap option_map] in Hw. apply (inj Some) in Hw.
    pose proof (f_equal fst Hw) as Hs. apply (f_equal snd) in Hw. cbn [fst snd] in Hs, Hw.
    split; [exact Hs|]. by apply bool_decide_eq_true in Hw.
Defined.
