(* ===== verification/Client.v ===== *)
(** * Client: hug/haproxy/api, the client of the configuration of HAProxy

    The client writes the models of frontends and backends through client-native,
    in one transaction per cycle: a section first, then its binds, servers and
    rules, replaced one by one.  client-native is a parameter ([ClientNative]);
    what the code relies on is stated by [native_laws].  The client is an instance
    of [HAProxyClient] and keeps the promises [applyCfgUpdates] needs. *)

From S2P Require Import Prelude GoStrings Objects Utils HaproxyConf Backends Servers Frontends.

(** [parser.Section]: what owns binds, servers and rules. *)
Inductive parser_Section := parser_Frontends | parser_Backends.

(** The lists of rules of a backend, in the part of its model the other files
    leave abstract; [x_Base] is its [models.BackendBase], without children. *)
Class BackendLists (Extra : Type) := {
  x_ACLList : Extra → list ACL;
  x_HTTPRequestRuleList : Extra → list HTTPRequestRule;
  x_set_ACLList : list ACL → Extra → Extra;
  x_set_HTTPRequestRuleList : list HTTPRequestRule → Extra → Extra;
  x_Base : Extra → Extra
}.

(** The calls of client-native on the rules of a section, by position, and on its
    binds or servers, by name.  The last arguments are the transaction and the
    state of client-native. *)
Record RuleCalls (N R : Type) := mkRuleCalls {
  GetRules : parser_Section → string → string → N → result (list R);
  DeleteRule : Z → parser_Section → string → string → N → N * option string;
  CreateRule : Z → parser_Section → string → R → string → N → N * option string
}.
Arguments GetRules {N R}.
Arguments DeleteRule {N R}.
Arguments CreateRule {N R}.

Record NamedCalls (N R : Type) := mkNamedCalls {
  GetNamed : parser_Section → string → string → N → result (list R);
  CreateNamed : parser_Section → string → R → string → N → N * option string;
  EditNamed : string → parser_Section → string → R → string → N → N * option string;
  DeleteNamed : string → parser_Section → string → string → N → N * option string
}.
Arguments GetNamed {N R}.
Arguments CreateNamed {N R}.
Arguments EditNamed {N R}.
Arguments DeleteNamed {N R}.

(** client-native: [configuration.Configuration] over a state [N], its files
    included.  [Configuration] fails when there is no configuration client. *)
Class ClientNative (Extra N : Type) := {
  cn_Configuration : N → option string;
  GetVersion : string → N → result Z;
  StartTransaction : Z → N → N * result string;
  (** [GetParser(id)], then [String()] *)
  GetParser : string → N → result string;
  DeleteTransaction : string → N → N * option string;
  CommitTransaction : string → N → N * option string;
  CreateFrontend : FrontendModel → string → N → N * option string;
  EditFrontend : string → FrontendModel → string → N → N * option string;
  DeleteFrontend : string → string → N → N * option string;
  GetFrontend : string → string → N → result FrontendModel;
  GetFrontends : string → N → result (list FrontendModel);
  CreateBackend : BackendModel ServerModel (BackendBase Extra) → string → N → N * option string;
  EditBackend : string → BackendModel ServerModel (BackendBase Extra) → string → N → N * option string;
  DeleteBackend : string → string → N → N * option string;
  GetBackend : string → string → N → result (BackendModel ServerModel (BackendBase Extra));
  GetBackends : string → N → result (list (BackendModel ServerModel (BackendBase Extra)));
  cn_Binds : NamedCalls N Bind;
  cn_Servers : NamedCalls N ServerModel;
  cn_ACLs : RuleCalls N ACL;
  cn_HTTPRequestRules : RuleCalls N HTTPRequestRule;
  cn_TCPRequestRules : RuleCalls N TCPRequestRule;
  (** the section is always a frontend *)
  GetBackendSwitchingRules : string → string → N → result (list BackendSwitchingRule);
  DeleteBackendSwitchingRule : Z → string → string → N → N * option string;
  CreateBackendSwitchingRule : Z → string → BackendSwitchingRule → string → N → N * option string
}.

(** [process.Process]: what [Service] does, given the files client-native wrote. *)
Class ProcessControl (N P : Type) := {
  Service : string → N → P → P * (string * option string)
}.

(** [hex.EncodeToString(md5.Sum(content))] *)
Class Md5 := md5_hex : string → string.

Section client.
Context {RO : RangeOrder} {Extra : Type} {EqE : EqDecision Extra} {BL : BackendLists Extra}.
Context {N P : Type} {CN : ClientNative Extra N} {PC : ProcessControl N P} {MD : Md5}.
Abbreviation Backend := (BackendModel ServerModel (BackendBase Extra)).

(** The client, with the instance of the reload manager and the process it drives. *)
Record App := mkApp {
  nativeAPI : N;
  activeTransaction : string;
  configurationHashAtTransactionStart : string;
  app_reload : reloadMgr;
  app_process : P
}.
Implicit Types (c : App).

Definition set_native (n : N) c : App :=
  mkApp n (activeTransaction c) (configurationHashAtTransactionStart c) (app_reload c) (app_process c).
Definition set_transaction (id : string) c : App :=
  mkApp (nativeAPI c) id (configurationHashAtTransactionStart c) (app_reload c) (app_process c).
Definition set_hash (hash : string) c : App :=
  mkApp (nativeAPI c) (activeTransaction c) hash (app_reload c) (app_process c).
Definition set_reload (rlm : reloadMgr) c : App :=
  mkApp (nativeAPI c) (activeTransaction c) (configurationHashAtTransactionStart c) rlm (app_process c).
Definition set_process (p : P) c : App :=
  mkApp (nativeAPI c) (activeTransaction c) (configurationHashAtTransactionStart c) (app_reload c) p.

(** A call in the active transaction, and the same after
    [configuration, err := c.nativeAPI.Configuration()]. *)
Definition within (f : string → N → N * option string) c : App * option string :=
  let '(n, err) := f (activeTransaction c) (nativeAPI c) in (set_native n c, err).

Definition configured (f : App → App * option string) c : App * option string :=
  match cn_Configuration (nativeAPI c) with Some err => (c, Some err) | None => f c end.

Definition native (f : string → N → N * option string) : App → App * option string :=
  configured (within f).

Definition native_get {A} (f : string → N → result A) c : result A :=
  match cn_Configuration (nativeAPI c) with
  | Some err => Err err
  | None => f (activeTransaction c) (nativeAPI c)
  end.

(** A loop that returns at the first error, and one that logs the errors. *)
Definition until_error {A} (f : A → App → App * option string) (l : list A) c : App * option string :=
  foldl (λ r a, step (f a) r) (c, None) l.

Definition best_effort {A} (f : A → App → App * option string) (l : list A) c : App :=
  foldl (λ c a, (f a c).1) c l.

(** [for index := len(rules) - 1; index >= 0; index--] *)
Definition down_from (n : nat) : list Z := Z.of_nat <$> reverse (seq 0 n).

Definition enumerate {A} (l : list A) : list (Z * A) := imap (λ i a, (Z.of_nat i, a)) l.

Fixpoint each_result {A B} (f : A → result B) (l : list A) : result (list B) :=
  match l with
  | [] => Ok []
  | a :: l =>
      match f a with
      | Err err => Err err
      | Ok b => match each_result f l with Err err => Err err | Ok bs => Ok (b :: bs) end
      end
  end.

(** ** client.go *)
Definition computeConfigurationHash c : result string :=
  match GetParser (activeTransaction c) (nativeAPI c) with
  | Err err => Err err
  | Ok content => Ok (md5_hex content)
  end.

Definition transaction_version (n : N) : Z :=
  match GetVersion "" n with
  | Ok version => if (version <? 1)%Z then 1%Z else version
  | Err _ => 1%Z
  end.

Definition clientNative_APIStartTransaction : App → App * option string :=
  configured (λ c,
    match StartTransaction (transaction_version (nativeAPI c)) (nativeAPI c) with
    | (n, Err err) => (set_native n c, Some err)
    | (n, Ok transaction) =>
        let c := set_transaction transaction (set_native n c) in
        match computeConfigurationHash c with
        | Err err => (c, Some err)
        | Ok hash => (set_hash hash c, None)
        end
    end).

(** A transaction that changed nothing is deleted. *)
Definition APICommitTransaction : App → App * option string :=
  configured (λ c,
    match computeConfigurationHash c with
    | Err err => (c, Some err)
    | Ok hash =>
        if bool_decide (configurationHashAtTransactionStart c = hash)
        then within DeleteTransaction c
        else within CommitTransaction c
    end).

Definition clientNative_APIFinalCommitTransaction : App → App * option string :=
  configured (λ c,
    match computeConfigurationHash c with
    | Err err => (c, Some err)
    | Ok hash =>
        if bool_decide (configurationHashAtTransactionStart c = hash)
        then within DeleteTransaction c
        else within CommitTransaction c
    end).

Definition clientNative_APIDisposeTransaction c : App := set_transaction "" c.

(** ** Rules: acls.go, http-requests.go, tcp-requests.go, backend_switching_rules.go *)
Section rules.
Context {R : Type} (calls : RuleCalls N R).

Definition RuleDeleteAll (parentType : parser_Section) (name : string) c : App * option string :=
  match native_get (GetRules calls parentType name) c with
  | Err err => (c, Some err)
  | Ok rules => until_error (λ index, within (DeleteRule calls index parentType name)) (down_from (length rules)) c
  end.

Definition RuleCreate (index : Z) (parentType : parser_Section) (name : string) (rule : R) c :
    App * option string :=
  native (CreateRule calls index parentType name rule) c.

Definition RuleReplaceAll (parentType : parser_Section) (name : string) (rules : list R) c :
    App * option string :=
  match RuleDeleteAll parentType name c with
  | (c, Some err) => (c, Some err)
  | (c, None) =>
      (best_effort (λ '(index, rule), RuleCreate index parentType name rule) (enumerate rules) c, None)
  end.
End rules.

Definition ACLsDeleteAll := RuleDeleteAll cn_ACLs.
Definition ACLsCreate := RuleCreate cn_ACLs.
Definition ACLReplaceAll := RuleReplaceAll cn_ACLs.
Definition ACLsReplaceAll := RuleReplaceAll cn_ACLs.
Definition HTTPRequestDeleteAll := RuleDeleteAll cn_HTTPRequestRules.
Definition HTTPRequestCreate := RuleCreate cn_HTTPRequestRules.
Definition HTTPRequestReplaceAll := RuleReplaceAll cn_HTTPRequestRules.
Definition TCPRequestDeleteAll := RuleDeleteAll cn_TCPRequestRules.
Definition TCPRequestCreate := RuleCreate cn_TCPRequestRules.
Definition TCPRequestReplaceAll := RuleReplaceAll cn_TCPRequestRules.

Definition cn_BackendSwitchingRules : RuleCalls N BackendSwitchingRule := {|
  GetRules _ := GetBackendSwitchingRules;
  DeleteRule index _ := DeleteBackendSwitchingRule index;
  CreateRule index _ := CreateBackendSwitchingRule index
|}.
Definition UseBackendDeleteAll := RuleDeleteAll cn_BackendSwitchingRules parser_Frontends.
Definition UseBackendCreate (index : Z) := RuleCreate cn_BackendSwitchingRules index parser_Frontends.
Definition UseBackendReplaceAll := RuleReplaceAll cn_BackendSwitchingRules parser_Frontends.

(** ** Binds and servers: bind.go, server.go *)
Section named.
Context {R : Type} (calls : NamedCalls N R) (name_of : R → string).

Definition NamedsGet (parentType : parser_Section) (name : string) c : result (list R) :=
  native_get (GetNamed calls parentType name) c.

Definition NamedCreate (parentType : parser_Section) (name : string) (r : R) c : App * option string :=
  native (CreateNamed calls parentType name r) c.

Definition NamedEdit (parentType : parser_Section) (name : string) (r : R) c : App * option string :=
  native (EditNamed calls (name_of r) parentType name r) c.

Definition NamedDelete (parentType : parser_Section) (name : string) (r : string) c : App * option string :=
  native (DeleteNamed calls r parentType name) c.

Definition NamedDeleteAll (parentType : parser_Section) (name : string) c : App * option string :=
  match native_get (GetNamed calls parentType name) c with
  | Err err => (c, Some err)
  | Ok rs => until_error (λ r, within (DeleteNamed calls (name_of r) parentType name)) rs c
  end.

Definition NamedReplaceAll (parentType : parser_Section) (name : string) (rs : gmap string R) c :
    App * option string :=
  match NamedDeleteAll parentType name c with
  | (c, Some err) => (c, Some err)
  | (c, None) => (best_effort (NamedCreate parentType name) (range rs).*2 c, None)
  end.
End named.

Definition BindsGet := NamedsGet cn_Binds.
Definition BindCreate := NamedCreate cn_Binds.
Definition BindEdit := NamedEdit cn_Binds bind_Name.
Definition BindDelete := NamedDelete cn_Binds.
Definition BindDeleteAll := NamedDeleteAll cn_Binds bind_Name.
Definition BindReplaceAll := NamedReplaceAll cn_Binds bind_Name.
Definition ServersGet := NamedsGet cn_Servers.
Definition ServerCreate := NamedCreate cn_Servers.
Definition ServerEdit := NamedEdit cn_Servers srv_Name.
Definition ServerDelete := NamedDelete cn_Servers.
Definition ServerDeleteAll := NamedDeleteAll cn_Servers srv_Name.
Definition ServerReplaceAll := NamedReplaceAll cn_Servers srv_Name.

(** ** frontend.go *)
Definition reload_needed c : App := set_reload (SetReload (app_reload c)) c.

(** [&models.Frontend{FrontendBase: frontend.FrontendBase}] *)
Definition fe_FrontendBase (fe : FrontendModel) : FrontendModel :=
  mkFrontend (fe_Name fe) (fe_From fe) (fe_Metadata fe) (DefaultBackend fe) (fe_Mode fe) [] [] [] [] ∅.

(** The children of a frontend, in the order the code replaces them. *)
Definition frontend_children (frontend : FrontendModel) (r : App * option string) : App * option string :=
  let r := step (BindReplaceAll parser_Frontends (fe_Name frontend) (Binds frontend)) r in
  let r := step (ACLReplaceAll parser_Frontends (fe_Name frontend) (ACLList frontend)) r in
  let r := step (HTTPRequestReplaceAll parser_Frontends (fe_Name frontend) (HTTPRequestRuleList frontend)) r in
  let r := step (TCPRequestReplaceAll parser_Frontends (fe_Name frontend) (TCPRequestRuleList frontend)) r in
  step (UseBackendReplaceAll (fe_Name frontend) (BackendSwitchingRuleList frontend)) r.

Definition clientNative_FrontendCreate (frontend : FrontendModel) : App → App * option string :=
  configured (λ c,
    let r := match within (CreateFrontend (fe_FrontendBase frontend)) c with
             | (c, None) => (c, None)
             | (c, Some _) => within (EditFrontend (fe_Name frontend) frontend) c
             end in
    frontend_children frontend (step (λ c, (reload_needed c, None)) r)).

Definition clientNative_FrontendDelete (frontendName : string) : App → App * option string :=
  configured (λ c, within (DeleteFrontend frontendName) (reload_needed c)).

(** [frontend.Binds = make(...)] when there is one, then one entry per bind. *)
Definition with_binds (binds : list Bind) (fe : FrontendModel) : FrontendModel :=
  mkFrontend (fe_Name fe) (fe_From fe) (fe_Metadata fe) (DefaultBackend fe) (fe_Mode fe) (ACLList fe)
    (TCPRequestRuleList fe) (HTTPRequestRuleList fe) (BackendSwitchingRuleList fe)
    (foldl (λ m bind, <[bind_Name bind := bind]> m)
       (if bool_decide (length binds = 0%nat) then Binds fe else ∅) binds).

Definition get_Binds c (frontend : FrontendModel) : result FrontendModel :=
  match GetNamed cn_Binds parser_Frontends (fe_Name frontend) (activeTransaction c) (nativeAPI c) with
  | Err err => Err err
  | Ok binds => Ok (with_binds binds frontend)
  end.

Definition bind_result {A B} (f : A → result B) (r : result A) : result B :=
  match r with Err err => Err err | Ok a => f a end.

Definition FrontendGet (frontendName : string) c : result FrontendModel :=
  bind_result (get_Binds c) (native_get (GetFrontend frontendName) c).

Definition FrontendsGet c : result (list FrontendModel) :=
  bind_result (each_result (get_Binds c)) (native_get GetFrontends c).

Definition clientNative_FrontendEdit (frontend : FrontendModel) c : App * option string :=
  let r := native (EditFrontend (fe_Name frontend) (fe_FrontendBase frontend)) c in
  frontend_children frontend (step (λ c, (reload_needed c, None)) r).

(** ** backend.go *)
Definition with_extra (f : Extra → Extra) (be : Backend) : Backend :=
  let '(mkBackendBase mode from balance abort timeout forwardfor check x) := be_Base be in
  mkBackend (be_Name be) (be_Metadata be) (be_Servers be)
    (mkBackendBase mode from balance abort timeout forwardfor check (f x)).

(** [&models.Backend{BackendBase: backend.BackendBase}] *)
Definition be_BackendBase (be : Backend) : Backend := with_servers ∅ (with_extra x_Base be).

Definition be_ACLList (be : Backend) : list ACL := x_ACLList (be_Extra (be_Base be)).
Definition be_HTTPRequestRuleList (be : Backend) : list HTTPRequestRule :=
  x_HTTPRequestRuleList (be_Extra (be_Base be)).

Definition backend_rules (backend : Backend) (r : App * option string) : App * option string :=
  let r := step (ACLReplaceAll parser_Backends (be_Name backend) (be_ACLList backend)) r in
  step (HTTPRequestReplaceAll parser_Backends (be_Name backend) (be_HTTPRequestRuleList backend)) r.

Definition backend_servers (backend : Backend) (r : App * option string) : App * option string :=
  step (ServerReplaceAll parser_Backends (be_Name backend) (be_Servers backend)) r.

Definition clientNative_BackendCreate (backend : Backend) : App → App * option string :=
  configured (λ c,
    let r := match within (CreateBackend (be_BackendBase backend)) c with
             | (c, None) => (c, None)
             | (c, Some _) => within (EditBackend (be_Name backend) backend) c
             end in
    backend_servers backend (backend_rules backend (step (λ c, (reload_needed c, None)) r))).

Definition clientNative_BackendDelete (backendName : string) : App → App * option string :=
  configured (λ c, within (DeleteBackend backendName) (reload_needed c)).

(** [append(backend.ACLList, acls...)], and the same for the other children. *)
Definition with_ACLs (acls : list ACL) : Backend → Backend :=
  with_extra (λ x, x_set_ACLList (x_ACLList x ++ acls) x).
Definition with_HTTPRequests (rules : list HTTPRequestRule) : Backend → Backend :=
  with_extra (λ x, x_set_HTTPRequestRuleList (x_HTTPRequestRuleList x ++ rules) x).
Definition with_server_list (servers : list ServerModel) (be : Backend) : Backend :=
  with_servers (foldl (λ m server, <[srv_Name server := server]> m)
    (if bool_decide (length servers = 0%nat) then be_Servers be else ∅) servers) be.

(** The children of one kind, as client-native gives them. *)
Definition get_ACLs c (backend : Backend) : result Backend :=
  match GetRules cn_ACLs parser_Backends (be_Name backend) (activeTransaction c) (nativeAPI c) with
  | Err err => Err err
  | Ok acls => Ok (with_ACLs acls backend)
  end.
Definition get_HTTPRequests c (backend : Backend) : result Backend :=
  match GetRules cn_HTTPRequestRules parser_Backends (be_Name backend) (activeTransaction c) (nativeAPI c) with
  | Err err => Err err
  | Ok httpRequests => Ok (with_HTTPRequests httpRequests backend)
  end.
Definition get_Servers c (backend : Backend) : result Backend :=
  match GetNamed cn_Servers parser_Backends (be_Name backend) (activeTransaction c) (nativeAPI c) with
  | Err err => Err err
  | Ok servers => Ok (with_server_list servers backend)
  end.

Definition BackendsGet c : result (list Backend) :=
  bind_result (each_result (get_Servers c))
    (bind_result (each_result (get_HTTPRequests c))
      (bind_result (each_result (get_ACLs c)) (native_get GetBackends c))).

Definition BackendGet (backendName : string) c : result Backend :=
  bind_result (get_Servers c) (bind_result (get_HTTPRequests c)
    (bind_result (get_ACLs c) (native_get (GetBackend backendName) c))).

(** When only the servers change, a reload is requested unless the runtime was
    told of some servers in this cycle, and took it. *)
Definition edit_reload (onlyServersUpdated : bool) (rlm : reloadMgr) : reloadMgr :=
  if onlyServersUpdated then
    if DynamicUpdateServerStateAttempted rlm then
      if DynamicUpdateServerStateFailed rlm then SetReload rlm else rlm
    else SetReload rlm
  else SetReload rlm.

Definition clientNative_BackendEdit (backend : Backend) : App → App * option string :=
  configured (λ c,
    match BackendGet (be_Name backend) c with
    | Err err => (c, Some err)
    | Ok previousBackend =>
        let onlyServersUpdated := equal_but_servers previousBackend backend in
        let r := within (EditBackend (be_Name backend) (be_BackendBase backend)) c in
        let r := backend_rules backend r in
        backend_servers backend
          (step (λ c, (set_reload (edit_reload onlyServersUpdated (app_reload c)) c, None)) r)
    end).

(** ** The interface of the manager *)
Definition service_reload c : App * option string :=
  let '(p, (_, err)) := Service "reload" (nativeAPI c) (app_process c) in (set_process p c, err).

#[export] Instance app_client : HAProxyClient FrontendModel Backend App := {|
  APIStartTransaction := clientNative_APIStartTransaction;
  APIFinalCommitTransaction := clientNative_APIFinalCommitTransaction;
  APIDisposeTransaction := clientNative_APIDisposeTransaction;
  FrontendCreate := clientNative_FrontendCreate;
  FrontendEdit := clientNative_FrontendEdit;
  FrontendDelete := clientNative_FrontendDelete;
  BackendCreate := clientNative_BackendCreate;
  BackendEdit := clientNative_BackendEdit;
  BackendDelete := clientNative_BackendDelete;
  NeedReload c := reload_NeedReload (app_reload c);
  Reload := service_reload
|}.
End client.

(** ** What client-native promises *)

(** A part of a model, with its setter. *)
Record field (M C : Type) := mkField {
  f_get : M → C;
  f_set : C → M → M;
  f_get_set c m : f_get (f_set c m) = c;
  f_set_set c c' m : f_set c (f_set c' m) = f_set c m;
  f_set_get m : f_set (f_get m) m = m
}.
Arguments mkField {M C}.
Arguments f_get {M C}.
Arguments f_set {M C}.
Arguments f_get_set {M C}.
Arguments f_set_set {M C}.
Arguments f_set_get {M C}.

Definition f_Binds : field FrontendModel (gmap string Bind).
Proof.
  refine (mkField Binds (λ c f, mkFrontend (fe_Name f) (fe_From f) (fe_Metadata f) (DefaultBackend f)
    (fe_Mode f) (ACLList f) (TCPRequestRuleList f) (HTTPRequestRuleList f) (BackendSwitchingRuleList f) c)
    _ _ _); [done|done|by intros []].
Defined.

Definition f_ACLList : field FrontendModel (list ACL).
Proof.
  refine (mkField ACLList (λ c f, mkFrontend (fe_Name f) (fe_From f) (fe_Metadata f) (DefaultBackend f)
    (fe_Mode f) c (TCPRequestRuleList f) (HTTPRequestRuleList f) (BackendSwitchingRuleList f) (Binds f))
    _ _ _); [done|done|by intros []].
Defined.

Definition f_TCPRequestRuleList : field FrontendModel (list TCPRequestRule).
Proof.
  refine (mkField TCPRequestRuleList (λ c f, mkFrontend (fe_Name f) (fe_From f) (fe_Metadata f)
    (DefaultBackend f) (fe_Mode f) (ACLList f) c (HTTPRequestRuleList f) (BackendSwitchingRuleList f) (Binds f))
    _ _ _); [done|done|by intros []].
Defined.

Definition f_HTTPRequestRuleList : field FrontendModel (list HTTPRequestRule).
Proof.
  refine (mkField HTTPRequestRuleList (λ c f, mkFrontend (fe_Name f) (fe_From f) (fe_Metadata f)
    (DefaultBackend f) (fe_Mode f) (ACLList f) (TCPRequestRuleList f) c (BackendSwitchingRuleList f) (Binds f))
    _ _ _); [done|done|by intros []].
Defined.

Definition f_BackendSwitchingRuleList : field FrontendModel (list BackendSwitchingRule).
Proof.
  refine (mkField BackendSwitchingRuleList (λ c f, mkFrontend (fe_Name f) (fe_From f) (fe_Metadata f)
    (DefaultBackend f) (fe_Mode f) (ACLList f) (TCPRequestRuleList f) (HTTPRequestRuleList f) c (Binds f))
    _ _ _); [done|done|by intros []].
Defined.

(** The lists of a backend are parts of its model, apart from each other and from
    its base. *)
Class BackendListsLaws (Extra : Type) {BL : BackendLists Extra} := {
  x_ACLs_get_set l (x : Extra) : x_ACLList (x_set_ACLList l x) = l;
  x_ACLs_set_set l l' (x : Extra) : x_set_ACLList l (x_set_ACLList l' x) = x_set_ACLList l x;
  x_ACLs_set_get (x : Extra) : x_set_ACLList (x_ACLList x) x = x;
  x_HTTP_get_set l (x : Extra) : x_HTTPRequestRuleList (x_set_HTTPRequestRuleList l x) = l;
  x_HTTP_set_set l l' (x : Extra) :
    x_set_HTTPRequestRuleList l (x_set_HTTPRequestRuleList l' x) = x_set_HTTPRequestRuleList l x;
  x_HTTP_set_get (x : Extra) : x_set_HTTPRequestRuleList (x_HTTPRequestRuleList x) x = x;
  x_HTTP_of_ACLs l (x : Extra) : x_HTTPRequestRuleList (x_set_ACLList l x) = x_HTTPRequestRuleList x;
  x_ACLs_of_HTTP l (x : Extra) : x_ACLList (x_set_HTTPRequestRuleList l x) = x_ACLList x;
  x_Base_ACLs (x : Extra) : x_ACLList (x_Base x) = [];
  x_Base_HTTP (x : Extra) : x_HTTPRequestRuleList (x_Base x) = [];
  x_set_comm a h (x : Extra) :
    x_set_ACLList a (x_set_HTTPRequestRuleList h x) = x_set_HTTPRequestRuleList h (x_set_ACLList a x);
  x_Base_set_ACLs l (x : Extra) : x_Base (x_set_ACLList l x) = x_Base x;
  x_Base_set_HTTP l (x : Extra) : x_Base (x_set_HTTPRequestRuleList l x) = x_Base x;
  x_Base_Base (x : Extra) : x_Base (x_Base x) = x_Base x
}.

Section laws.
Context {RO : RangeOrder} {Extra : Type} {EqE : EqDecision Extra} {BL : BackendLists Extra}.
Context {BLL : BackendListsLaws Extra}.
Abbreviation Backend := (BackendModel ServerModel (BackendBase Extra)).
Abbreviation Conf := (gmap string FrontendModel * gmap string Backend)%type.

Definition b_Servers : field Backend (gmap string ServerModel).
Proof using Type. by refine (mkField be_Servers with_servers _ _ _); [..|intros []]. Defined.

Definition b_extra {C} (F : field Extra C) : field Backend C.
Proof using Type.
  refine (mkField (λ be, f_get F (be_Extra (be_Base be))) (λ l, with_extra (f_set F l)) _ _ _);
    intros; repeat match goal with b : Backend |- _ => destruct b as [? ? ? []] end;
    cbn; rw ?f_get_set ?f_set_set ?f_set_get //.
Defined.

Definition b_ACLList : field Backend (list ACL) :=
  b_extra (mkField x_ACLList x_set_ACLList x_ACLs_get_set x_ACLs_set_set x_ACLs_set_get).
Definition b_HTTPRequestRuleList : field Backend (list HTTPRequestRule) :=
  b_extra (mkField x_HTTPRequestRuleList x_set_HTTPRequestRuleList x_HTTP_get_set x_HTTP_set_set x_HTTP_set_get).

(** The children of one kind: those of the frontends and those of the backends. *)
Definition children (C : Type) : Type := option (field FrontendModel C) * option (field Backend C).

Definition child_get {C} (V : children C) (sec : parser_Section) (name : string) (cf : Conf) : option C :=
  match sec with
  | parser_Frontends => F ← V.1; f_get F <$> cf.1 !! name
  | parser_Backends => F ← V.2; f_get F <$> cf.2 !! name
  end.

Definition child_put {C} (V : children C) (sec : parser_Section) (name : string) (c : C) (cf : Conf) : Conf :=
  match sec with
  | parser_Frontends => (from_option (λ F, alter (f_set F c) name) id V.1 cf.1, cf.2)
  | parser_Backends => (cf.1, from_option (λ F, alter (f_set F c) name) id V.2 cf.2)
  end.

Lemma child_get_put {C} (V : children C) sec name c c' cf :
  child_get V sec name cf = Some c → child_get V sec name (child_put V sec name c' cf) = Some c'.
Proof using Type.
  destruct V as [[F|] [B|]], sec; cbn; try done; rw lookup_alter_eq;
    match goal with |- context [?m !! name] => destruct (m !! name) end; cbn; rw ?f_get_set //.
Qed.

Lemma child_put_put {C} (V : children C) sec name c c' cf :
  child_put V sec name c (child_put V sec name c' cf) = child_put V sec name c cf.
Proof using Type.
  destruct V as [[F|] [B|]], sec; cbn; try done; rw alter_alter_eq; f_equal; apply alter_ext;
    intros; apply f_set_set.
Qed.

Lemma child_put_get {C} (V : children C) sec name c cf :
  child_get V sec name cf = Some c → child_put V sec name c cf = cf.
Proof using Type.
  destruct cf as [fs bs]. destruct V as [[F|] [B|]], sec; cbn; try done; intros Hc; f_equal;
    apply alter_id; intros m Hm; rw Hm in Hc; injection Hc as <-; apply f_set_get.
Qed.

Definition v_Binds : children (gmap string Bind) := (Some f_Binds, None).
Definition v_Servers : children (gmap string ServerModel) := (None, Some b_Servers).
Definition v_ACLs : children (list ACL) := (Some f_ACLList, Some b_ACLList).
Definition v_HTTPRequestRules : children (list HTTPRequestRule) :=
  (Some f_HTTPRequestRuleList, Some b_HTTPRequestRuleList).
Definition v_TCPRequestRules : children (list TCPRequestRule) := (Some f_TCPRequestRuleList, None).
Definition v_BackendSwitchingRules : children (list BackendSwitchingRule) :=
  (Some f_BackendSwitchingRuleList, None).

(** The fields of [models.FrontendBase] of one model, the children of another. *)
Definition frontend_edited (data old : FrontendModel) : FrontendModel :=
  mkFrontend (fe_Name data) (fe_From data) (fe_Metadata data) (DefaultBackend data) (fe_Mode data)
    (ACLList old) (TCPRequestRuleList old) (HTTPRequestRuleList old) (BackendSwitchingRuleList old) (Binds old).

Definition backend_edited (data old : Backend) : Backend :=
  with_servers (be_Servers old) (with_extra (λ x, x_set_HTTPRequestRuleList (be_HTTPRequestRuleList old)
    (x_set_ACLList (be_ACLList old) (x_Base x))) data).

(** client-native, seen through the configuration of its file and those of its
    transactions. *)
Context {N : Type} {CN : ClientNative Extra N}.
Context (file : N → Conf) (conf : N → string → Conf) (is_open : N → string → Prop) (text : Conf → string).

(** What the validation of the models accepts. *)
Class Accepts (R : Type) := accepts : R → Prop.
Context `{AFe : Accepts FrontendModel, ABe : Accepts Backend, ABi : Accepts Bind, ASe : Accepts ServerModel,
  AAc : Accepts ACL, AHt : Accepts HTTPRequestRule, ATc : Accepts TCPRequestRule,
  ABs : Accepts BackendSwitchingRule}.

(** The transaction [id] holds [cf] after a call, and the file has not changed. *)
Definition writes (n : N) (id : string) (cf : Conf) (n' : N) : Prop :=
  is_open n' id ∧ file n' = file n ∧ conf n' id = cf.

Record rule_laws {R} {A : Accepts R} (calls : RuleCalls N R) (V : children (list R)) : Prop := {
  rl_get sec name id n l : is_open n id → child_get V sec name (conf n id) = Some l →
    GetRules calls sec name id n = Ok l;
  rl_delete i sec name id n l : is_open n id → child_get V sec name (conf n id) = Some l → i < length l →
    ∃ n', DeleteRule calls (Z.of_nat i) sec name id n = (n', None) ∧
      writes n id (child_put V sec name (take i l ++ drop (S i) l) (conf n id)) n';
  rl_create i sec name r id n l : is_open n id → child_get V sec name (conf n id) = Some l → i ≤ length l →
    accepts r →
    ∃ n', CreateRule calls (Z.of_nat i) sec name r id n = (n', None) ∧
      writes n id (child_put V sec name (take i l ++ r :: drop i l) (conf n id)) n'
}.

Record named_laws {R} {A : Accepts R} (calls : NamedCalls N R) (name_of : R → string)
    (V : children (gmap string R)) : Prop := {
  nl_get sec name id n m : is_open n id → child_get V sec name (conf n id) = Some m →
    ∃ l, GetNamed calls sec name id n = Ok l ∧ NoDup (name_of <$> l) ∧
      list_to_map ((λ r, (name_of r, r)) <$> l) = m;
  nl_delete r sec name id n m : is_open n id → child_get V sec name (conf n id) = Some m → is_Some (m !! r) →
    ∃ n', DeleteNamed calls r sec name id n = (n', None) ∧
      writes n id (child_put V sec name (delete r m) (conf n id)) n';
  nl_create sec name r id n m : is_open n id → child_get V sec name (conf n id) = Some m →
    m !! name_of r = None → accepts r →
    ∃ n', CreateNamed calls sec name r id n = (n', None) ∧
      writes n id (child_put V sec name (<[name_of r := r]> m) (conf n id)) n'
}.

(** The version a transaction must start from: the one of the file, 1 when it has
    none. *)
Record native_laws (startable : N → Z → Prop) : Prop := {
  cl_configured n : cn_Configuration n = None;
  cl_version n v : GetVersion "" n = Ok v → (1 ≤ v)%Z → startable n v;
  cl_no_version n : (∀ v, GetVersion "" n = Ok v → (v < 1)%Z) → startable n 1%Z;
  cl_start n v : startable n v →
    ∃ n' id, StartTransaction v n = (n', Ok id) ∧ writes n id (file n) n';
  cl_parser n id : is_open n id → GetParser id n = Ok (text (conf n id));
  cl_delete n id : is_open n id → ∃ n', DeleteTransaction id n = (n', None) ∧ file n' = file n;
  cl_commit n id : is_open n id → ∃ n', CommitTransaction id n = (n', None) ∧ file n' = conf n id;
  cl_fe_create f id n : is_open n id → accepts f → (conf n id).1 !! fe_Name f = None →
    ∃ n', CreateFrontend f id n = (n', None) ∧
      writes n id (<[fe_Name f := fe_FrontendBase f]> (conf n id).1, (conf n id).2) n';
  cl_fe_exists f id n : is_open n id → is_Some ((conf n id).1 !! fe_Name f) →
    ∃ n' err, CreateFrontend f id n = (n', Some err) ∧ writes n id (conf n id) n';
  cl_fe_edit f id n old : is_open n id → accepts f → (conf n id).1 !! fe_Name f = Some old →
    ∃ n', EditFrontend (fe_Name f) f id n = (n', None) ∧
      writes n id (<[fe_Name f := frontend_edited f old]> (conf n id).1, (conf n id).2) n';
  cl_fe_delete name id n : is_open n id → is_Some ((conf n id).1 !! name) →
    ∃ n', DeleteFrontend name id n = (n', None) ∧ writes n id (delete name (conf n id).1, (conf n id).2) n';
  cl_be_create b id n : is_open n id → accepts b → (conf n id).2 !! be_Name b = None →
    ∃ n', CreateBackend b id n = (n', None) ∧
      writes n id ((conf n id).1, <[be_Name b := be_BackendBase b]> (conf n id).2) n';
  cl_be_exists b id n : is_open n id → is_Some ((conf n id).2 !! be_Name b) →
    ∃ n' err, CreateBackend b id n = (n', Some err) ∧ writes n id (conf n id) n';
  cl_be_edit b id n old : is_open n id → accepts b → (conf n id).2 !! be_Name b = Some old →
    ∃ n', EditBackend (be_Name b) b id n = (n', None) ∧
      writes n id ((conf n id).1, <[be_Name b := backend_edited b old]> (conf n id).2) n';
  cl_be_delete name id n : is_open n id → is_Some ((conf n id).2 !! name) →
    ∃ n', DeleteBackend name id n = (n', None) ∧ writes n id ((conf n id).1, delete name (conf n id).2) n';
  cl_be_get name id n be : is_open n id → (conf n id).2 !! name = Some be →
    GetBackend name id n = Ok (be_BackendBase be);
  cl_be_named name id n be : is_open n id → (conf n id).2 !! name = Some be → be_Name be = name;
  cl_Binds : named_laws cn_Binds bind_Name v_Binds;
  cl_Servers : named_laws cn_Servers srv_Name v_Servers;
  cl_ACLs : rule_laws cn_ACLs v_ACLs;
  cl_HTTPRequestRules : rule_laws cn_HTTPRequestRules v_HTTPRequestRules;
  cl_TCPRequestRules : rule_laws cn_TCPRequestRules v_TCPRequestRules;
  cl_BackendSwitchingRules : rule_laws cn_BackendSwitchingRules v_BackendSwitchingRules
}.

(** ** Calls in the active transaction *)
Context (startable : N → Z → Prop) (laws : native_laws startable).
Context {P : Type} {PC : ProcessControl N P} {MD : Md5}.
Implicit Types (c : App (N := N) (P := P)).

Definition app_committed c : Conf := file (nativeAPI c).
Definition app_pending c : Conf := conf (nativeAPI c) (activeTransaction c).

(** A transaction is open, and the hash is the one of the file it started from. *)
Definition app_live c : Prop :=
  is_open (nativeAPI c) (activeTransaction c) ∧
  configurationHashAtTransactionStart c = md5_hex (text (app_committed c)).

(** A call that changes the transaction only. *)
Definition acts c (cf : Conf) c' : Prop :=
  moves app_committed app_pending app_live c cf c' ∧
  app_reload c' = app_reload c ∧ app_process c' = app_process c.

Lemma acts_refl c : app_live c → acts c (app_pending c) c.
Proof using Type. by intros. Qed.

Lemma acts_trans c cf c' cf' c'' : acts c cf c' → acts c' cf' c'' → acts c cf' c''.
Proof using Type.
  intros [(L1 & C1 & H1) [R1 P1]] [(L2 & C2 & H2) [R2 P2]]. unfold acts, moves. split_and!; try done; congruence.
Qed.

Lemma within_ok f c cf :
  app_live c →
  (∃ n', f (activeTransaction c) (nativeAPI c) = (n', None) ∧ writes (nativeAPI c) (activeTransaction c) cf n') →
  ∃ c', within f c = (c', None) ∧ acts c cf c'.
Proof using Type.
  intros [_ Hh] (n' & Hf & Ho & Hfile & Hc). unfold within. rw Hf. eexists. split; [done|].
  unfold acts, moves, app_live, app_committed, app_pending in *. cbn. rw Hfile. by split_and!.
Qed.

Lemma configured_eq f c : configured f c = f c.
Proof using laws. unfold configured. by rw (cl_configured _ laws). Qed.

Lemma native_get_eq {A} (f : string → N → result A) c :
  native_get f c = f (activeTransaction c) (nativeAPI c).
Proof using laws. unfold native_get. by rw (cl_configured _ laws). Qed.
(** ** Rules and named children *)
Section child_rules.
Context {R : Type} {A : Accepts R} (calls : RuleCalls N R) (V : children (list R)) (rl : rule_laws calls V).

Lemma RuleDeleteAll_ok sec name c l :
  app_live c → child_get V sec name (app_pending c) = Some l →
  ∃ c', RuleDeleteAll calls sec name c = (c', None) ∧ acts c (child_put V sec name [] (app_pending c)) c'.
Proof using rl laws.
  intros Hlive Hl. unfold RuleDeleteAll. rw native_get_eq (rl_get _ _ rl _ _ _ _ l); [apply Hlive|exact Hl|].
  revert c Hlive Hl. induction l as [|r l IH] using rev_ind; intros c Hlive Hl.
  { exists c. split; [done|]. rw child_put_get //. }
  rw length_app Nat.add_1_r. unfold down_from. rw seq_S reverse_app fmap_app /=.
  destruct (within_ok (DeleteRule calls (Z.of_nat (length l)) sec name) c
    (child_put V sec name l (app_pending c)) Hlive) as (c1 & Hc1 & Hacts).
  { destruct (rl_delete _ _ rl (length l) sec name (activeTransaction c) (nativeAPI c) (l ++ [r]))
      as (n' & Hn' & Hw); [apply Hlive|done|rw length_app /=; lia|].
    exists n'. split; [done|]. move: Hw. rw take_app_length drop_ge ?app_nil_r //. rw length_app /=; lia. }
  unfold until_error. cbn [foldl step fst snd]. rw Hc1.
  destruct Hacts as [(L1 & C1 & H1) Hrest].
  destruct (IH c1 L1) as (c2 & Hc2 & Hacts2).
  { rw H1. by eapply child_get_put. }
  exists c2. split; [exact Hc2|]. rw H1 child_put_put in Hacts2. by eapply acts_trans; [split; [|exact Hrest]|].
Qed.

Lemma RuleCreate_all sec name rules done c :
  app_live c → child_get V sec name (app_pending c) = Some done → Forall accepts rules →
  acts c (child_put V sec name (done ++ rules) (app_pending c))
    (best_effort (λ '(index, rule), RuleCreate calls index sec name rule)
       (imap (λ i r, (Z.of_nat (length done + i), r)) rules) c).
Proof using rl laws.
  revert done c. induction rules as [|r rules IH]; intros done c Hlive Hd Hall.
  { rw app_nil_r child_put_get //. }
  apply Forall_cons in Hall as [Hr Hall]. cbn [imap best_effort foldl fst]. rw Nat.add_0_r.
  destruct (within_ok (CreateRule calls (Z.of_nat (length done)) sec name r) c
    (child_put V sec name (done ++ [r]) (app_pending c)) Hlive) as (c1 & Hc1 & Hacts).
  { destruct (rl_create _ _ rl (length done) sec name r (activeTransaction c) (nativeAPI c) done)
      as (n' & Hn' & Hw); [apply Hlive|done|done|done|].
    exists n'. split; [done|]. move: Hw. by rw firstn_all drop_all. }
  unfold RuleCreate at 2, native. rw configured_eq Hc1. cbn [fst].
  pose proof Hacts as [(L1 & C1 & H1) _]. eapply acts_trans; [exact Hacts|].
  specialize (IH (done ++ [r]) c1 L1). rw H1 child_put_put -app_assoc length_app /= in IH.
  assert (imap (λ i r, (Z.of_nat (length done + 1 + i), r)) rules =
          imap ((λ i r, (Z.of_nat (length done + i), r)) ∘ S) rules) as Himap
    by (apply imap_ext; intros i x _; cbn; do 2 f_equal; lia).
  rw -Himap. apply IH; [by eapply child_get_put|exact Hall].
Qed.

Lemma RuleReplaceAll_ok sec name rules c :
  app_live c → is_Some (child_get V sec name (app_pending c)) → Forall accepts rules →
  ∃ c', RuleReplaceAll calls sec name rules c = (c', None) ∧
    acts c (child_put V sec name rules (app_pending c)) c'.
Proof using rl laws.
  intros Hlive [l Hl] Hall. destruct (RuleDeleteAll_ok sec name c l Hlive Hl) as (c1 & Hc1 & Hacts).
  unfold RuleReplaceAll. rw Hc1. eexists. split; [done|].
  pose proof Hacts as [(L1 & C1 & H1) _]. eapply acts_trans; [exact Hacts|].
  pose proof (RuleCreate_all sec name rules [] c1 L1) as H. rw H1 child_put_put in H.
  apply H; [by eapply child_get_put|done].
Qed.
End child_rules.

Section child_named.
Context {R : Type} {A : Accepts R} (calls : NamedCalls N R) (name_of : R → string).
Context (V : children (gmap string R)) (nl : named_laws calls name_of V).

Lemma NamedDelete_all sec name l c :
  app_live c → NoDup (name_of <$> l) →
  child_get V sec name (app_pending c) = Some (list_to_map ((λ r, (name_of r, r)) <$> l)) →
  ∃ c', until_error (λ r, within (DeleteNamed calls (name_of r) sec name)) l c = (c', None) ∧
    acts c (child_put V sec name ∅ (app_pending c)) c'.
Proof using nl.
  revert c. induction l as [|r l IH]; intros c Hlive Hnd Hm.
  { exists c. split; [done|]. rw child_put_get //. }
  rw fmap_cons in Hnd. rw fmap_cons list_to_map_cons in Hm. apply NoDup_cons in Hnd as [Hr Hnd].
  assert ((list_to_map ((λ r, (name_of r, r)) <$> l) : gmap string R) !! name_of r = None) as Hnone.
  { apply not_elem_of_list_to_map_1. by rw -list_fmap_compose. }
  destruct (within_ok (DeleteNamed calls (name_of r) sec name) c
    (child_put V sec name (list_to_map ((λ r, (name_of r, r)) <$> l)) (app_pending c)) Hlive) as (c1 & Hc1 & Hacts).
  { destruct (nl_delete _ _ _ nl (name_of r) sec name (activeTransaction c) (nativeAPI c) _ (proj1 Hlive) Hm)
      as (n' & Hn' & Hw); [rw lookup_insert_eq; by eexists|].
    exists n'. split; [done|]. move: Hw. by rw delete_insert_id. }
  unfold until_error. cbn [foldl step fst snd]. rw Hc1.
  destruct Hacts as [(L1 & C1 & H1) Hrest].
  destruct (IH c1 L1 Hnd) as (c2 & Hc2 & Hacts2).
  { rw H1. by eapply child_get_put. }
  exists c2. split; [exact Hc2|]. rw H1 child_put_put in Hacts2. by eapply acts_trans; [split; [|exact Hrest]|].
Qed.

(** The values of a map are stored under their names. *)
Definition keyed (m : gmap string R) : Prop := ∀ k r, m !! k = Some r → name_of r = k ∧ accepts r.

Lemma NamedCreate_all sec name rs c :
  app_live c → child_get V sec name (app_pending c) = Some ∅ → keyed rs →
  acts c (child_put V sec name rs (app_pending c)) (best_effort (NamedCreate calls sec name) (range rs).*2 c).
Proof using nl laws.
  intros Hlive Hm Hrs. unfold best_effort. rw foldl_fmap.
  apply (range_fold_ind (λ d c', acts c (child_put V sec name d (app_pending c)) c')
    (λ _ r c, (NamedCreate calls sec name r c).1)).
  { rw child_put_get //. }
  intros k r d c1 Hr Hd _ Hacts. destruct (Hrs k r Hr) as [<- Hok].
  pose proof Hacts as [(L1 & C1 & H1) _].
  assert (child_get V sec name (app_pending c1) = Some d) as Hd1 by (rw H1; by eapply child_get_put).
  destruct (within_ok (CreateNamed calls sec name r) c1
    (child_put V sec name (<[name_of r := r]> d) (app_pending c1)) L1) as (c2 & Hc2 & Hacts2).
  { by apply (nl_create _ _ _ nl); [apply L1| | |]. }
  unfold NamedCreate, native. rw configured_eq Hc2 /=. eapply acts_trans; [exact Hacts|].
  by rw H1 child_put_put in Hacts2.
Qed.

Lemma NamedReplaceAll_ok sec name rs c :
  app_live c → is_Some (child_get V sec name (app_pending c)) → keyed rs →
  ∃ c', NamedReplaceAll calls name_of sec name rs c = (c', None) ∧
    acts c (child_put V sec name rs (app_pending c)) c'.
Proof using nl laws.
  intros Hlive [m Hm] Hrs. unfold NamedReplaceAll, NamedDeleteAll. rw native_get_eq.
  destruct (nl_get _ _ _ nl sec name (activeTransaction c) (nativeAPI c) m (proj1 Hlive) Hm)
    as (l & -> & Hnd & Hl).
  destruct (NamedDelete_all sec name l c Hlive Hnd) as (c1 & -> & Hacts); [by rw Hl|].
  eexists. split; [done|]. pose proof Hacts as [(L1 & C1 & H1) _]. eapply acts_trans; [exact Hacts|].
  pose proof (NamedCreate_all sec name rs c1 L1) as H. rw H1 child_put_put in H.
  apply H; [by eapply child_get_put|done].
Qed.
End child_named.

(** ** Frontends *)
Lemma alter_Some {M} (f : M → M) (m : gmap string M) k x :
  m !! k = Some x → alter f k m = <[k := f x]> m.
Proof using Type.
  intros Hx. apply map_eq. intros k'. destruct (decide (k = k')) as [<-|Hne].
  - by rw lookup_alter_eq lookup_insert_eq Hx.
  - by rw lookup_alter_ne // lookup_insert_ne.
Qed.

(** One kind of children of a frontend that was just written. *)
Lemma frontend_stage {C} (F : field FrontendModel C) B name x c0 c fe fs bs f :
  acts c0 (<[name := fe]> fs, bs) c →
  (∀ c, app_live c → is_Some (child_get (Some F, B) parser_Frontends name (app_pending c)) →
     ∃ c', f c = (c', None) ∧ acts c (child_put (Some F, B) parser_Frontends name x (app_pending c)) c') →
  ∃ c', step f (c, None) = (c', None) ∧ acts c0 (<[name := f_set F x fe]> fs, bs) c'.
Proof using Type.
  intros Hacts Hf. pose proof Hacts as [(L1 & C1 & H1) _]. unfold step. cbn [fst snd].
  destruct (Hf c L1) as (c' & -> & Hacts').
  { rw H1. cbn. rw lookup_insert_eq. by eexists. }
  exists c'. split; [done|]. eapply acts_trans; [exact Hacts|]. rw H1 in Hacts'. cbn in Hacts'.
  by rw (alter_Some _ _ name fe) ?lookup_insert_eq // insert_insert_eq in Hacts'.
Qed.

(** The frontends the client can write. *)
Record fe_ok (fe : FrontendModel) : Prop := {
  ok_frontend : accepts fe ∧ accepts (fe_FrontendBase fe);
  ok_Binds : keyed bind_Name (Binds fe);
  ok_fe_ACLs : Forall accepts (ACLList fe);
  ok_fe_HTTP : Forall accepts (HTTPRequestRuleList fe);
  ok_fe_TCP : Forall accepts (TCPRequestRuleList fe);
  ok_switching : Forall accepts (BackendSwitchingRuleList fe)
}.

Lemma frontend_children_ok fe fe0 c0 c fs bs :
  fe_ok fe → fe_FrontendBase fe0 = fe_FrontendBase fe → acts c0 (<[fe_Name fe := fe0]> fs, bs) c →
  ∃ c', frontend_children fe (c, None) = (c', None) ∧ acts c0 (<[fe_Name fe := fe]> fs, bs) c'.
Proof using laws.
  intros [_ Hb Ha Hh Ht Hs] Hbase Hacts. unfold frontend_children.
  destruct (frontend_stage f_Binds None (fe_Name fe) (Binds fe) c0 c fe0 fs bs
    (BindReplaceAll parser_Frontends (fe_Name fe) (Binds fe)) Hacts) as (c1 & -> & H1).
  { intros c' L G. by apply (NamedReplaceAll_ok _ _ _ (cl_Binds _ laws)). }
  destruct (frontend_stage f_ACLList (Some b_ACLList) _ (ACLList fe) _ _ _ _ _
    (ACLReplaceAll parser_Frontends (fe_Name fe) (ACLList fe)) H1) as (c2 & -> & H2).
  { intros c' L G. by apply (RuleReplaceAll_ok _ _ (cl_ACLs _ laws)). }
  destruct (frontend_stage f_HTTPRequestRuleList (Some b_HTTPRequestRuleList) _ (HTTPRequestRuleList fe) _ _ _ _ _
    (HTTPRequestReplaceAll parser_Frontends (fe_Name fe) (HTTPRequestRuleList fe)) H2) as (c3 & -> & H3).
  { intros c' L G. by apply (RuleReplaceAll_ok _ _ (cl_HTTPRequestRules _ laws)). }
  destruct (frontend_stage f_TCPRequestRuleList None _ (TCPRequestRuleList fe) _ _ _ _ _
    (TCPRequestReplaceAll parser_Frontends (fe_Name fe) (TCPRequestRuleList fe)) H3) as (c4 & -> & H4).
  { intros c' L G. by apply (RuleReplaceAll_ok _ _ (cl_TCPRequestRules _ laws)). }
  destruct (frontend_stage f_BackendSwitchingRuleList None _ (BackendSwitchingRuleList fe) _ _ _ _ _
    (UseBackendReplaceAll (fe_Name fe) (BackendSwitchingRuleList fe)) H4) as (c5 & -> & H5).
  { intros c' L G. by apply (RuleReplaceAll_ok _ _ (cl_BackendSwitchingRules _ laws)). }
  exists c5. split; [done|]. clear -H5 Hbase. destruct fe, fe0. injection Hbase as -> -> -> -> ->.
  exact H5.
Qed.

(** The reload manager changes, and nothing else. *)
Lemma acts_set_reload c cf c' rlm :
  acts c cf c' → acts (set_reload rlm c) cf (set_reload rlm c').
Proof using Type. intros [(L & C & H) [R Q]]. by split_and!. Qed.

Lemma moves_set_reload c cf c' rlm :
  acts (set_reload rlm c) cf c' →
  moves app_committed app_pending app_live c cf c' ∧ app_reload c' = rlm ∧ app_process c' = app_process c.
Proof using Type. intros [(L & C & H) [R Q]]. by split_and!. Qed.

(** A call that asks for a reload. *)
Definition acts_and_reloads c (cf : Conf) c' : Prop :=
  moves app_committed app_pending app_live c cf c' ∧
  app_reload c' = SetReload (app_reload c) ∧ app_process c' = app_process c.

Lemma reload_then (f : App * option string → App * option string) c0 c cf cf' :
  acts c0 cf c →
  (∀ c, acts (set_reload (SetReload (app_reload c0)) c0) cf c →
     ∃ c', f (c, None) = (c', None) ∧ acts (set_reload (SetReload (app_reload c0)) c0) cf' c') →
  ∃ c', f (step (λ c, (reload_needed c, None)) (c, None)) = (c', None) ∧ acts_and_reloads c0 cf' c'.
Proof using Type.
  intros Hacts Hf. pose proof Hacts as [_ [R _]]. unfold step. cbn [fst snd]. unfold reload_needed. rw R.
  destruct (Hf _ (acts_set_reload _ _ _ _ Hacts)) as (c' & -> & H).
  exists c'. split; [done|]. by apply moves_set_reload.
Qed.

Lemma FrontendCreate_ok fe c :
  app_live c → fe_ok fe →
  ∃ c', clientNative_FrontendCreate fe c = (c', None) ∧
    acts_and_reloads c (<[fe_Name fe := fe]> (app_pending c).1, (app_pending c).2) c'.
Proof using laws.
  intros Hlive Hok. unfold clientNative_FrontendCreate. rw configured_eq.
  assert (∃ c1 fe0, match within (CreateFrontend (fe_FrontendBase fe)) c with
    | (c, None) => (c, None)
    | (c, Some _) => within (EditFrontend (fe_Name fe) fe) c
    end = (c1, None) ∧ fe_FrontendBase fe0 = fe_FrontendBase fe ∧
    acts c (<[fe_Name fe := fe0]> (app_pending c).1, (app_pending c).2) c1) as (c1 & fe0 & -> & Hbase & Hacts).
  { destruct Hok as [[H1 H2] _ _ _ _ _].
    destruct ((app_pending c).1 !! fe_Name fe) as [old|] eqn:Hold.
    - destruct (cl_fe_exists _ laws (fe_FrontendBase fe) (activeTransaction c) (nativeAPI c))
        as (n' & err & Hn' & Hw); [apply Hlive|by eexists|].
      unfold within at 1. rw Hn'.
      assert (acts c (app_pending c) (set_native n' c)) as Ha.
      { destruct Hw as (O1 & O2 & O3). destruct Hlive as [L1 L2].
        unfold acts, moves, app_live, app_committed, app_pending in *. cbn. rw O2 O3. by split_and!. }
      pose proof Ha as [(L1 & C1 & E1) _].
      destruct (within_ok (EditFrontend (fe_Name fe) fe) (set_native n' c)
        (<[fe_Name fe := frontend_edited fe old]> (app_pending c).1, (app_pending c).2) L1) as (c1 & Hc1 & Hacts).
      { rw -E1. apply (cl_fe_edit _ laws); [apply L1|done|]. by rw -/(app_pending (set_native n' c)) E1. }
      exists c1, (frontend_edited fe old). split_and!; [done..|]. by eapply acts_trans.
    - destruct (within_ok (CreateFrontend (fe_FrontendBase fe)) c
        (<[fe_Name fe := fe_FrontendBase fe]> (app_pending c).1, (app_pending c).2) Hlive) as (c1 & Hc1 & Hacts).
      { by apply (cl_fe_create _ laws (fe_FrontendBase fe)); [apply Hlive| |]. }
      rw Hc1. by exists c1, (fe_FrontendBase fe). }
  apply (reload_then (frontend_children fe) _ _ _ _ Hacts). intros c2 Hacts2.
  by eapply frontend_children_ok; [done| |exact Hacts2].
Qed.

Lemma FrontendEdit_ok fe c :
  app_live c → fe_ok fe → is_Some ((app_pending c).1 !! fe_Name fe) →
  ∃ c', clientNative_FrontendEdit fe c = (c', None) ∧
    acts_and_reloads c (<[fe_Name fe := fe]> (app_pending c).1, (app_pending c).2) c'.
Proof using laws.
  intros Hlive Hok [old Hold]. unfold clientNative_FrontendEdit, native. rw configured_eq.
  destruct (within_ok (EditFrontend (fe_Name fe) (fe_FrontendBase fe)) c
    (<[fe_Name fe := frontend_edited fe old]> (app_pending c).1, (app_pending c).2) Hlive) as (c1 & -> & Hacts).
  { by apply (cl_fe_edit _ laws (fe_FrontendBase fe)); [apply Hlive|apply Hok|]. }
  apply (reload_then (frontend_children fe) _ _ _ _ Hacts). intros c2 Hacts2.
  by eapply frontend_children_ok; [done| |exact Hacts2].
Qed.

(** A deletion asks for a reload before it is done. *)
Lemma delete_ok f c cf :
  app_live c →
  (∃ n', f (activeTransaction c) (nativeAPI c) = (n', None) ∧ writes (nativeAPI c) (activeTransaction c) cf n') →
  ∃ c', configured (λ c, within f (reload_needed c)) c = (c', None) ∧ acts_and_reloads c cf c'.
Proof using laws.
  intros Hlive Hf. rw configured_eq. destruct (within_ok f (reload_needed c) cf Hlive Hf) as (c' & -> & Hacts).
  exists c'. split; [done|]. by apply moves_set_reload.
Qed.

Lemma FrontendDelete_ok name c :
  app_live c → is_Some ((app_pending c).1 !! name) →
  ∃ c', clientNative_FrontendDelete name c = (c', None) ∧
    acts_and_reloads c (delete name (app_pending c).1, (app_pending c).2) c'.
Proof using laws.
  intros Hlive Hn. apply delete_ok; [done|]. by apply (cl_fe_delete _ laws); [apply Hlive|].
Qed.

Lemma BackendDelete_ok name c :
  app_live c → is_Some ((app_pending c).2 !! name) →
  ∃ c', clientNative_BackendDelete name c = (c', None) ∧
    acts_and_reloads c ((app_pending c).1, delete name (app_pending c).2) c'.
Proof using laws.
  intros Hlive Hn. apply delete_ok; [done|]. by apply (cl_be_delete _ laws); [apply Hlive|].
Qed.

(** ** Backends *)
Lemma backend_stage {C} A (B : field Backend C) name x c0 c be fs bs f :
  acts c0 (fs, <[name := be]> bs) c →
  (∀ c, app_live c → is_Some (child_get (A, Some B) parser_Backends name (app_pending c)) →
     ∃ c', f c = (c', None) ∧ acts c (child_put (A, Some B) parser_Backends name x (app_pending c)) c') →
  ∃ c', step f (c, None) = (c', None) ∧ acts c0 (fs, <[name := f_set B x be]> bs) c'.
Proof using Type.
  intros Hacts Hf. pose proof Hacts as [(L1 & C1 & H1) _]. unfold step. cbn [fst snd].
  destruct (Hf c L1) as (c' & -> & Hacts').
  { rw H1. cbn. rw lookup_insert_eq. by eexists. }
  exists c'. split; [done|]. eapply acts_trans; [exact Hacts|]. rw H1 in Hacts'. cbn in Hacts'.
  by rw (alter_Some _ _ name be) ?lookup_insert_eq // insert_insert_eq in Hacts'.
Qed.

(** A backend with no other children than those the client writes. *)
Definition plain (be : Backend) : Prop :=
  let x := be_Extra (be_Base be) in
  x_set_HTTPRequestRuleList (x_HTTPRequestRuleList x) (x_set_ACLList (x_ACLList x) (x_Base x)) = x.

(** The backends the client can write. *)
Record be_ok (be : Backend) : Prop := {
  ok_backend : accepts be ∧ accepts (be_BackendBase be);
  ok_plain : plain be;
  ok_Servers : keyed srv_Name (be_Servers be);
  ok_be_ACLs : Forall accepts (be_ACLList be);
  ok_be_HTTP : Forall accepts (be_HTTPRequestRuleList be)
}.

(** The base of a backend, with other children. *)
Definition shell (a : list ACL) (h : list HTTPRequestRule) (s : gmap string ServerModel) (be : Backend) : Backend :=
  with_servers s (with_extra (λ x, x_set_HTTPRequestRuleList h (x_set_ACLList a (x_Base x))) be).

Lemma shell_base be : shell [] [] ∅ be = be_BackendBase be.
Proof using BLL.
  destruct be as [? ? ? [? ? ? ? ? ? ? x]]. unfold shell, be_BackendBase. cbn. do 2 f_equal.
  rw -{2}(x_ACLs_set_get (x_Base x)) x_Base_ACLs -{2}(x_HTTP_set_get (x_set_ACLList [] (x_Base x))).
  by rw x_HTTP_of_ACLs x_Base_HTTP.
Qed.

Lemma shell_edited be old : backend_edited be old = shell (be_ACLList old) (be_HTTPRequestRuleList old) (be_Servers old) be.
Proof using Type. done. Qed.

Lemma shell_plain be : plain be → shell (be_ACLList be) (be_HTTPRequestRuleList be) (be_Servers be) be = be.
Proof using Type.
  destruct be as [? ? ? [? ? ? ? ? ? ? x]]. unfold plain, shell, be_ACLList, be_HTTPRequestRuleList. cbn.
  by intros ->.
Qed.

Lemma backend_rules_ok be a h s c0 c fs bs :
  be_ok be → acts c0 (fs, <[be_Name be := shell a h s be]> bs) c →
  ∃ c', backend_rules be (c, None) = (c', None) ∧
    acts c0 (fs, <[be_Name be := shell (be_ACLList be) (be_HTTPRequestRuleList be) s be]> bs) c'.
Proof using laws BLL.
  intros [_ _ _ Ha Hh] Hacts. unfold backend_rules.
  destruct (backend_stage (Some f_ACLList) b_ACLList _ (be_ACLList be) _ _ _ _ _
    (ACLReplaceAll parser_Backends (be_Name be) (be_ACLList be)) Hacts) as (c1 & -> & H1).
  { intros c' L G. by apply (RuleReplaceAll_ok _ _ (cl_ACLs _ laws)). }
  destruct (backend_stage (Some f_HTTPRequestRuleList) b_HTTPRequestRuleList _ (be_HTTPRequestRuleList be) _ _ _ _ _
    (HTTPRequestReplaceAll parser_Backends (be_Name be) (be_HTTPRequestRuleList be)) H1) as (c2 & -> & H2).
  { intros c' L G. by apply (RuleReplaceAll_ok _ _ (cl_HTTPRequestRules _ laws)). }
  exists c2. split; [done|]. clear -H2 BLL. destruct be as [? ? ? [? ? ? ? ? ? ? x]].
  unfold shell in *. cbn in *. by rw x_set_comm x_ACLs_set_set x_HTTP_set_set in H2.
Qed.

Lemma backend_servers_ok be a h s c0 c fs bs :
  be_ok be → acts c0 (fs, <[be_Name be := shell a h s be]> bs) c →
  ∃ c', backend_servers be (c, None) = (c', None) ∧
    acts c0 (fs, <[be_Name be := shell a h (be_Servers be) be]> bs) c'.
Proof using laws.
  intros [_ _ Hs _ _] Hacts. unfold backend_servers.
  apply (backend_stage None b_Servers _ (be_Servers be) _ _ _ _ _
    (ServerReplaceAll parser_Backends (be_Name be) (be_Servers be)) Hacts).
  intros c' L G. by apply (NamedReplaceAll_ok _ _ _ (cl_Servers _ laws)).
Qed.

Lemma backend_children_ok be a h s c0 c fs bs :
  be_ok be → acts c0 (fs, <[be_Name be := shell a h s be]> bs) c →
  ∃ c', backend_servers be (backend_rules be (c, None)) = (c', None) ∧
    acts c0 (fs, <[be_Name be := be]> bs) c'.
Proof using laws BLL.
  intros Hok Hacts. destruct (backend_rules_ok be a h s c0 c fs bs Hok Hacts) as (c1 & -> & H1).
  destruct (backend_servers_ok be _ _ _ _ _ _ _ Hok H1) as (c2 & -> & H2).
  exists c2. split; [done|]. by rw shell_plain in H2; [apply Hok|].
Qed.

Lemma BackendCreate_ok be c :
  app_live c → be_ok be →
  ∃ c', clientNative_BackendCreate be c = (c', None) ∧
    acts_and_reloads c ((app_pending c).1, <[be_Name be := be]> (app_pending c).2) c'.
Proof using laws BLL.
  intros Hlive Hok. unfold clientNative_BackendCreate. rw configured_eq.
  assert (∃ c1 a h s, match within (CreateBackend (be_BackendBase be)) c with
    | (c, None) => (c, None)
    | (c, Some _) => within (EditBackend (be_Name be) be) c
    end = (c1, None) ∧
    acts c ((app_pending c).1, <[be_Name be := shell a h s be]> (app_pending c).2) c1) as (c1 & a & h & s & -> & Hacts).
  { destruct Hok as [[H1 H2] _ _ _ _].
    destruct ((app_pending c).2 !! be_Name be) as [old|] eqn:Hold.
    - destruct (cl_be_exists _ laws (be_BackendBase be) (activeTransaction c) (nativeAPI c))
        as (n' & err & Hn' & Hw); [apply Hlive|destruct be as [? ? ? []]; by eexists|].
      unfold within at 1. rw Hn'.
      assert (acts c (app_pending c) (set_native n' c)) as Ha.
      { destruct Hw as (O1 & O2 & O3). destruct Hlive as [L1 L2].
        unfold acts, moves, app_live, app_committed, app_pending in *. cbn. rw O2 O3. by split_and!. }
      pose proof Ha as [(L1 & C1 & E1) _].
      destruct (within_ok (EditBackend (be_Name be) be) (set_native n' c)
        ((app_pending c).1, <[be_Name be := backend_edited be old]> (app_pending c).2) L1) as (c1 & Hc1 & Hacts).
      { rw -E1. apply (cl_be_edit _ laws); [apply L1|done|]. by rw -/(app_pending (set_native n' c)) E1. }
      exists c1, (be_ACLList old), (be_HTTPRequestRuleList old), (be_Servers old). split_and!; [done..|].
      by eapply acts_trans.
    - assert (be_Name (be_BackendBase be) = be_Name be) as Hname by by destruct be as [? ? ? []].
      destruct (within_ok (CreateBackend (be_BackendBase be)) c
        ((app_pending c).1, <[be_Name be := be_BackendBase be]> (app_pending c).2) Hlive) as (c1 & Hc1 & Hacts).
      { assert (be_BackendBase (be_BackendBase be) = be_BackendBase be) as Hbb.
        { destruct be as [? ? ? []]. unfold be_BackendBase, with_servers. cbn. by rw x_Base_Base. }
        pose proof (cl_be_create _ laws (be_BackendBase be) (activeTransaction c) (nativeAPI c)) as Hc.
        rw Hbb Hname in Hc. by apply Hc; [apply Hlive| |]. }
      rw Hc1. exists c1, [], [], ∅. by rw shell_base. }
  apply (reload_then (λ r, backend_servers be (backend_rules be r)) _ _ _ _ Hacts). intros c2 Hacts2.
  by eapply backend_children_ok.
Qed.

(** What [BackendGet] gives of a backend: its base and the children the client
    knows. *)
Definition managed (be : Backend) : Backend :=
  shell (be_ACLList be) (be_HTTPRequestRuleList be) (be_Servers be) be.

Lemma foldl_insert_named {R} (name_of : R → string) l :
  NoDup (name_of <$> l) →
  foldl (λ m r, <[name_of r := r]> m) ∅ l = list_to_map ((λ r, (name_of r, r)) <$> l) :> gmap string R.
Proof using Type.
  induction l as [|r l IH] using rev_ind; intros Hnd; [done|].
  rw fmap_app in Hnd. apply NoDup_app in Hnd as (Hnd & Hdisj & _).
  rw foldl_app IH //= fmap_app /= list_to_map_snoc //.
  rw -list_fmap_compose. intros Hin. apply (Hdisj (name_of r)); [done|]. by left.
Qed.

Lemma BackendGet_ok name be c :
  app_live c → (app_pending c).2 !! name = Some be → BackendGet name c = Ok (managed be).
Proof using laws BLL.
  intros [Hopen _] Hbe. unfold BackendGet. rw native_get_eq (cl_be_get _ laws _ _ _ be) // [bind_result _ (Ok _)]/=.
  pose proof (cl_be_named _ laws _ _ _ _ Hopen Hbe) as Hname.
  assert (be_Name (be_BackendBase be) = name) as Hb by (rw -Hname; by destruct be as [? ? ? []]).
  destruct (nl_get _ _ _ (cl_Servers _ laws) parser_Backends name (activeTransaction c) (nativeAPI c) (be_Servers be) Hopen)
    as (l & Hl & Hnd & Hm).
  { cbn. by rw Hbe. }
  unfold get_ACLs. rw Hb (rl_get _ _ (cl_ACLs _ laws) _ _ _ _ (be_ACLList be) Hopen); [by cbn; rw Hbe|].
  cbn [bind_result]. unfold get_HTTPRequests.
  assert (∀ acls be', be_Name (with_ACLs acls be') = be_Name be') as Hn1 by by intros ? [? ? ? []].
  assert (∀ rules be', be_Name (with_HTTPRequests rules be') = be_Name be') as Hn2 by by intros ? [? ? ? []].
  rw Hn1 Hb (rl_get _ _ (cl_HTTPRequestRules _ laws) _ _ _ _ (be_HTTPRequestRuleList be) Hopen); [by cbn; rw Hbe|].
  cbn [bind_result]. unfold get_Servers. rw Hn2 Hn1 Hb Hl. f_equal. unfold with_server_list.
  assert ((if bool_decide (length l = 0%nat) then be_Servers (with_HTTPRequests (be_HTTPRequestRuleList be)
    (with_ACLs (be_ACLList be) (be_BackendBase be))) else ∅) = ∅) as ->.
  { case_bool_decide; [|done]. by destruct be as [? ? ? []]. }
  rw foldl_insert_named // Hm. destruct be as [? ? ? [? ? ? ? ? ? ? x]].
  unfold managed, shell, with_HTTPRequests, with_ACLs, be_BackendBase, be_ACLList, be_HTTPRequestRuleList,
    with_servers. cbn.
  by rw x_Base_ACLs x_HTTP_of_ACLs x_Base_HTTP.
Qed.

(** An edition changes the backend, and asks for a reload or not. *)
Lemma BackendEdit_ok be old c :
  app_live c → be_ok be → (app_pending c).2 !! be_Name be = Some old →
  ∃ c', clientNative_BackendEdit be c = (c', None) ∧
    moves app_committed app_pending app_live c ((app_pending c).1, <[be_Name be := be]> (app_pending c).2) c' ∧
    app_reload c' = edit_reload (equal_but_servers (managed old) be) (app_reload c) ∧
    app_process c' = app_process c.
Proof using laws BLL.
  intros Hlive Hok Hold. unfold clientNative_BackendEdit. rw configured_eq (BackendGet_ok _ old) //.
  destruct (within_ok (EditBackend (be_Name be) (be_BackendBase be)) c
    ((app_pending c).1, <[be_Name be := shell (be_ACLList old) (be_HTTPRequestRuleList old) (be_Servers old) be]>
       (app_pending c).2) Hlive) as (c1 & -> & Hacts).
  { pose proof (cl_be_edit _ laws (be_BackendBase be) (activeTransaction c) (nativeAPI c) old) as Hc.
    assert (be_Name (be_BackendBase be) = be_Name be) as Hname by by destruct be as [? ? ? []].
    assert (backend_edited (be_BackendBase be) old =
      shell (be_ACLList old) (be_HTTPRequestRuleList old) (be_Servers old) be) as Hed.
    { destruct be as [? ? ? []]. unfold backend_edited, shell, be_BackendBase, with_servers. cbn.
      by rw x_Base_Base. }
    rw Hname Hed in Hc. apply Hc; [apply Hlive|apply Hok|done]. }
  destruct (backend_rules_ok be _ _ _ _ _ _ _ Hok Hacts) as (c2 & -> & H2).
  pose proof H2 as [_ [R _]]. unfold step at 1. cbn [fst snd]. rw R.
  destruct (backend_servers_ok be _ _ _ _ _ _ _ Hok
    (acts_set_reload _ _ _ (edit_reload (equal_but_servers (managed old) be) (app_reload c)) H2)) as (c3 & -> & H3).
  exists c3. split; [done|]. rw shell_plain in H3; [apply Hok|]. by apply moves_set_reload.
Qed.

(** The two configurations a commit must tell apart have different hashes. *)
Definition hash_tells (cf cf' : Conf) : Prop := md5_hex (text cf) = md5_hex (text cf') → cf = cf'.

Lemma StartTransaction_ok c :
  ∃ c', clientNative_APIStartTransaction c = (c', None) ∧ acts c (app_committed c) c'.
Proof using laws.
  unfold clientNative_APIStartTransaction. rw configured_eq.
  assert (startable (nativeAPI c) (transaction_version (nativeAPI c))) as Hv.
  { unfold transaction_version. destruct (GetVersion "" (nativeAPI c)) as [v|err] eqn:E.
    - destruct (v <? 1)%Z eqn:Hlt.
      + apply Z.ltb_lt in Hlt. apply (cl_no_version _ laws). intros v' Hv'. congruence.
      + apply Z.ltb_ge in Hlt. by apply (cl_version _ laws).
    - apply (cl_no_version _ laws). by rw E. }
  destruct (cl_start _ laws _ _ Hv) as (n' & id & -> & Hw). unfold computeConfigurationHash. cbn.
  destruct Hw as (Ho & Hf & Hc). rw (cl_parser _ laws _ _ Ho) Hc. eexists. split; [done|].
  unfold acts, moves, app_live, app_committed, app_pending. cbn. rw Hf. by split_and!.
Qed.

Lemma FinalCommit_ok c :
  app_live c → hash_tells (app_committed c) (app_pending c) →
  ∃ c', clientNative_APIFinalCommitTransaction c = (c', None) ∧ app_committed c' = app_pending c ∧
    app_reload c' = app_reload c ∧ app_process c' = app_process c.
Proof using laws.
  intros [Hopen Hhash] Htells. unfold clientNative_APIFinalCommitTransaction. rw configured_eq.
  unfold computeConfigurationHash. rw (cl_parser _ laws _ _ Hopen). unfold within. case_bool_decide as Heq.
  - destruct (cl_delete _ laws _ _ Hopen) as (n' & -> & Hf). eexists. split; [done|]. split_and!; [|done..].
    rw -Htells; [|exact Hf]. by rw -Hhash Heq.
  - destruct (cl_commit _ laws _ _ Hopen) as (n' & -> & Hf). by eexists.
Qed.

(** Editions of backends of which only the servers change, when the runtime was
    told of servers: nothing asks for a reload. *)
Lemma server_editions l c rlm :
  app_live c → NoDup (be_Name <$> l) → app_reload c = rlm →
  attempted rlm = true → failed rlm = false →
  (∀ be, be ∈ l → be_ok be ∧
     ∃ old, (app_pending c).2 !! be_Name be = Some old ∧ equal_but_servers (managed old) be = true) →
  ∃ c', call_all clientNative_BackendEdit l (c, []) = (c', []) ∧
    acts c ((app_pending c).1, store_all be_Name (app_pending c).2 l) c'.
Proof using laws BLL.
  intros Hlive Hnd Hrlm Hatt Hfail Hl. unfold call_all.
  apply (foldl_prefix_ind (λ pre (acc : App * Errors), ∃ c', acc = (c', []) ∧
    acts c ((app_pending c).1, store_all be_Name (app_pending c).2 pre) c')).
  { exists c. split; [done|]. cbn. destruct (app_pending c) as [fs bs] eqn:E. rw -E. by apply acts_refl. }
  intros pre be acc [suf Hsuf] (c1 & -> & Hacts). pose proof Hacts as [(L1 & C1 & H1) [R1 P1]].
  assert (be ∈ l) as Hbe by (rw Hsuf; set_solver). destruct (Hl be Hbe) as (Hok & old & Hold & Heq).
  assert (be_Name be ∉ be_Name <$> pre) as Hnew.
  { rw Hsuf !fmap_app in Hnd. apply NoDup_app in Hnd as (Hnd & _ & _).
    apply NoDup_app in Hnd as (_ & Hdisj & _). intros Hin. apply (Hdisj _ Hin). by left. }
  destruct (BackendEdit_ok be old c1 L1 Hok) as (c2 & Hc2 & (L2 & C2 & H2) & R2 & P2).
  { rw H1 /=. by rw store_all_other. }
  exists c2. unfold call. cbn [fst snd]. rw Hc2. split; [done|]. split; [split_and!; [done|congruence|]|].
  - by rw H2 H1 store_all_snoc.
  - split; [|congruence]. rw R2 Heq R1 Hrlm. unfold edit_reload, DynamicUpdateServerStateAttempted,
      DynamicUpdateServerStateFailed. by rw Hatt Hfail.
Qed.

(** The client keeps what [applyCfgUpdates] relies on, up to the reload. *)
Lemma app_write_laws :
  write_laws_on fe_Name app_committed app_pending app_live fe_ok be_ok hash_tells.
Proof using laws BLL.
  split.
  - intros c. destruct (StartTransaction_ok c) as (c' & Hc & H & _). by exists c'.
  - intros c Hl Ht. destruct (FinalCommit_ok c Hl Ht) as (c' & Hc & H & _). by exists c'.
  - done.
  - intros fe c Hl Hok. destruct (FrontendCreate_ok fe c Hl Hok) as (c' & Hc & H & _). by exists c'.
  - intros fe c Hl Hok Hn. destruct (FrontendEdit_ok fe c Hl Hok Hn) as (c' & Hc & H & _). by exists c'.
  - intros n c Hl Hn. destruct (FrontendDelete_ok n c Hl Hn) as (c' & Hc & H & _). by exists c'.
  - intros be c Hl Hok. destruct (BackendCreate_ok be c Hl Hok) as (c' & Hc & H & _). by exists c'.
  - intros be c Hl Hok [old Hold]. destruct (BackendEdit_ok be old c Hl Hok Hold) as (c' & Hc & H & _). by exists c'.
  - intros n c Hl Hn. destruct (BackendDelete_ok n c Hl Hn) as (c' & Hc & H & _). by exists c'.
Qed.


End laws.
