(* ===== verification/ClientRuns.v ===== *)
(** * ClientRuns: what a run of the client does to HAProxy

    The file and the process of HAProxy after the diffs of a cycle: a cycle that
    fails, a cycle that succeeds, and the reload that is not asked for. *)

From S2P Require Import Prelude GoStrings Objects Utils HaproxyConf Backends Servers Frontends Client.

(** ** What every call keeps, whatever client-native answers *)
Section keeps.
Context {RO : RangeOrder} {Extra : Type} {EqE : EqDecision Extra} {BL : BackendLists Extra}.
Context {N P : Type} {CN : ClientNative Extra N} {PC : ProcessControl N P} {MD : Md5}.
Abbreviation Backend := (BackendModel ServerModel (BackendBase Extra)).
Context (Rel : relation (App (N := N) (P := P))) {PO : PreOrder Rel}.
Implicit Types (f : App (N := N) (P := P) → App (N := N) (P := P) * option string).

Definition keeps f : Prop := ∀ c, Rel c (f c).1.

Lemma keeps_after_step f c r : keeps f → Rel c r.1 → Rel c (step f r).1.
Proof using PO. intros Hf Hr. unfold step. destruct r.2; [done|]. by etrans. Qed.

Lemma keeps_until_error {A} (f : A → App → App * option string) l c : (∀ a, keeps (f a)) → Rel c (until_error f l c).1.
Proof using PO.
  intros Hf. apply (foldl_ind (λ r, Rel c r.1)); [done|]. intros r a _. by apply keeps_after_step.
Qed.

Lemma keeps_best_effort {A} (f : A → App → App * option string) l c : (∀ a, keeps (f a)) → Rel c (best_effort f l c).
Proof using PO.
  intros Hf. apply (foldl_ind (Rel c)); [done|]. intros c' a _ Hc. etrans; [exact Hc|apply Hf].
Qed.

Lemma keeps_configured f : keeps f → keeps (configured f).
Proof using PO. intros Hf c. unfold configured. by destruct (cn_Configuration _). Qed.

Definition rule_keeps {R} (calls : RuleCalls N R) : Prop :=
  (∀ i sec name, keeps (within (DeleteRule calls i sec name))) ∧
  (∀ i sec name r, keeps (within (CreateRule calls i sec name r))).

Definition named_keeps {R} (calls : NamedCalls N R) : Prop :=
  (∀ r sec name, keeps (within (DeleteNamed calls r sec name))) ∧
  (∀ sec name r, keeps (within (CreateNamed calls sec name r))).

Lemma RuleReplaceAll_keeps {R} (calls : RuleCalls N R) sec name rules :
  rule_keeps calls → keeps (RuleReplaceAll calls sec name rules).
Proof using PO.
  intros [Hd Hc] c. unfold RuleReplaceAll.
  assert (Rel c (RuleDeleteAll calls sec name c).1) as H.
  { unfold RuleDeleteAll. destruct (native_get _ c); [|done]. by apply keeps_until_error. }
  destruct (RuleDeleteAll calls sec name c) as [c1 [err|]]; [done|]. cbn in *. etrans; [exact H|].
  apply keeps_best_effort. intros [i r]. by apply keeps_configured.
Qed.

Lemma NamedReplaceAll_keeps {R} (calls : NamedCalls N R) name_of sec name rs :
  named_keeps calls → keeps (NamedReplaceAll calls name_of sec name rs).
Proof using PO.
  intros [Hd Hc] c. unfold NamedReplaceAll.
  assert (Rel c (NamedDeleteAll calls name_of sec name c).1) as H.
  { unfold NamedDeleteAll. destruct (native_get _ c); [|done]. by apply keeps_until_error. }
  destruct (NamedDeleteAll calls name_of sec name c) as [c1 [err|]]; [done|]. cbn in *. etrans; [exact H|].
  apply keeps_best_effort. intros r. by apply keeps_configured.
Qed.

(** The calls on children. *)
Record children_keeps : Prop := {
  ck_Binds : named_keeps cn_Binds;
  ck_Servers : named_keeps cn_Servers;
  ck_ACLs : rule_keeps cn_ACLs;
  ck_HTTP : rule_keeps cn_HTTPRequestRules;
  ck_TCP : rule_keeps cn_TCPRequestRules;
  ck_switching : rule_keeps cn_BackendSwitchingRules
}.

Lemma frontend_children_keeps fe c r : children_keeps → Rel c r.1 → Rel c (frontend_children fe r).1.
Proof using PO.
  intros [] Hr. unfold frontend_children.
  repeat (apply keeps_after_step; [by first [apply NamedReplaceAll_keeps|apply RuleReplaceAll_keeps]|]). done.
Qed.

Lemma backend_rules_keeps be c r : children_keeps → Rel c r.1 → Rel c (backend_rules be r).1.
Proof using PO.
  intros [] Hr. unfold backend_rules. repeat (apply keeps_after_step; [by apply RuleReplaceAll_keeps|]). done.
Qed.

Lemma backend_servers_keeps be c r : children_keeps → Rel c r.1 → Rel c (backend_servers be r).1.
Proof using PO. intros [] Hr. apply keeps_after_step; [by apply NamedReplaceAll_keeps|done]. Qed.

(** The calls on sections; the reload manager does not count. *)
Record sections_keep : Prop := {
  sk_children : children_keeps;
  sk_reload c : Rel c (reload_needed c);
  sk_edit_reload b c : Rel c (set_reload (edit_reload b (app_reload c)) c);
  sk_fe_create fe : keeps (within (CreateFrontend fe));
  sk_fe_edit n fe : keeps (within (EditFrontend n fe));
  sk_fe_delete n : keeps (within (DeleteFrontend n));
  sk_be_create be : keeps (within (CreateBackend be));
  sk_be_edit n be : keeps (within (EditBackend n be));
  sk_be_delete n : keeps (within (DeleteBackend n))
}.

Lemma FrontendCreate_keeps fe : sections_keep → keeps (clientNative_FrontendCreate fe).
Proof using PO.
  intros Hs. apply keeps_configured. intros c. apply frontend_children_keeps; [apply Hs|].
  apply keeps_after_step; [intros c'; apply (sk_reload Hs)|].
  pose proof (sk_fe_create Hs (fe_FrontendBase fe) c) as H.
  destruct (within (CreateFrontend (fe_FrontendBase fe)) c) as [c1 [err|]]; cbn in *; [|done].
  etrans; [exact H|apply (sk_fe_edit Hs)].
Qed.

Lemma FrontendEdit_keeps fe : sections_keep → keeps (clientNative_FrontendEdit fe).
Proof using PO.
  intros Hs c. apply frontend_children_keeps; [apply Hs|].
  apply keeps_after_step; [intros c'; apply (sk_reload Hs)|]. apply keeps_configured, Hs.
Qed.

Lemma FrontendDelete_keeps n : sections_keep → keeps (clientNative_FrontendDelete n).
Proof using PO.
  intros Hs. apply keeps_configured. intros c. etrans; [apply (sk_reload Hs)|]. apply (sk_fe_delete Hs).
Qed.

Lemma BackendCreate_keeps be : sections_keep → keeps (clientNative_BackendCreate be).
Proof using PO.
  intros Hs. apply keeps_configured. intros c. apply backend_servers_keeps; [apply Hs|].
  apply backend_rules_keeps; [apply Hs|]. apply keeps_after_step; [intros c'; apply (sk_reload Hs)|].
  pose proof (sk_be_create Hs (be_BackendBase be) c) as H.
  destruct (within (CreateBackend (be_BackendBase be)) c) as [c1 [err|]]; cbn in *; [|done].
  etrans; [exact H|apply (sk_be_edit Hs)].
Qed.

Lemma BackendEdit_keeps be : sections_keep → keeps (clientNative_BackendEdit be).
Proof using PO.
  intros Hs. apply keeps_configured. intros c. destruct (BackendGet _ c); [|done].
  apply backend_servers_keeps; [apply Hs|]. apply keeps_after_step; [intros c'; apply (sk_edit_reload Hs)|].
  apply backend_rules_keeps; [apply Hs|]. apply (sk_be_edit Hs).
Qed.

Lemma BackendDelete_keeps n : sections_keep → keeps (clientNative_BackendDelete n).
Proof using PO.
  intros Hs. apply keeps_configured. intros c. etrans; [apply (sk_reload Hs)|]. apply (sk_be_delete Hs).
Qed.

(** The loops of the manager. *)
Lemma call_all_keeps {A} (f : A → App → App * option string) l acc c :
  (∀ a, keeps (f a)) → Rel c acc.1 → Rel c (call_all f l acc).1.
Proof using PO.
  intros Hf Hacc. apply (foldl_ind (λ acc, Rel c acc.1)); [done|]. intros acc' a _ Hc. unfold call.
  pose proof (Hf a acc'.1) as H. destruct (f a acc'.1). cbn in *. by etrans.
Qed.

Implicit Types (c : Configuration FrontendModel ServerModel (BackendBase Extra)).

Lemma processCreate_keeps c : sections_keep → keeps (processCreate c).
Proof using PO.
  intros Hs t. unfold processCreate. cbn [fst].
  apply call_all_keeps; [intros be; by apply BackendCreate_keeps|].
  apply call_all_keeps; [intros fe; by apply FrontendCreate_keeps|done].
Qed.

Lemma processUpdate_keeps c : sections_keep → keeps (processUpdate c).
Proof using PO.
  intros Hs t. unfold processUpdate. cbn [fst].
  apply call_all_keeps; [intros be; by apply BackendEdit_keeps|].
  apply call_all_keeps; [intros fe; by apply FrontendEdit_keeps|done].
Qed.

Lemma processDelete_keeps c : sections_keep → keeps (processDelete c).
Proof using PO.
  intros Hs t. unfold processDelete. cbn [fst].
  apply call_all_keeps; [intros n; by apply BackendDelete_keeps|].
  apply call_all_keeps; [intros n; by apply FrontendDelete_keeps|done].
Qed.
End keeps.

Section isolation.
Context {RO : RangeOrder} {Extra : Type} {EqE : EqDecision Extra} {BL : BackendLists Extra}.
Context {N P : Type} {CN : ClientNative Extra N} {PC : ProcessControl N P} {MD : Md5}.
Context {F : Type} (file : N → F) (is_open : N → string → Prop).
Implicit Types (t : App (N := N) (P := P)) (c : Configuration FrontendModel ServerModel (BackendBase Extra)).

(** The file stays, and the open transactions stay open. *)
Definition kept (n n' : N) : Prop := file n' = file n ∧ ∀ id, is_open n id → is_open n' id.

Definition quiet (f : string → N → N * option string) : Prop := ∀ id n, kept n (f id n).1.

Definition quiet_rules {R} (calls : RuleCalls N R) : Prop :=
  (∀ i sec name, quiet (DeleteRule calls i sec name)) ∧ (∀ i sec name r, quiet (CreateRule calls i sec name r)).

Definition quiet_named {R} (calls : NamedCalls N R) : Prop :=
  (∀ r sec name, quiet (DeleteNamed calls r sec name)) ∧ (∀ sec name r, quiet (CreateNamed calls sec name r)).

(** Only a commit that succeeds writes the file, and a transaction lives until it
    is deleted or committed; calls may fail in any way. *)
Record native_isolated : Prop := {
  iso_start v n : kept n (StartTransaction v n).1;
  iso_started v n n' id : StartTransaction v n = (n', Ok id) → is_open n' id;
  iso_delete id n : file (DeleteTransaction id n).1 = file n;
  iso_commit id n n' err : CommitTransaction id n = (n', Some err) → file n' = file n;
  iso_fe_create fe : quiet (CreateFrontend fe);
  iso_fe_edit n fe : quiet (EditFrontend n fe);
  iso_fe_delete n : quiet (DeleteFrontend n);
  iso_be_create be : quiet (CreateBackend be);
  iso_be_edit n be : quiet (EditBackend n be);
  iso_be_delete n : quiet (DeleteBackend n);
  iso_Binds : quiet_named cn_Binds;
  iso_Servers : quiet_named cn_Servers;
  iso_ACLs : quiet_rules cn_ACLs;
  iso_HTTP : quiet_rules cn_HTTPRequestRules;
  iso_TCP : quiet_rules cn_TCPRequestRules;
  iso_switching : quiet_rules cn_BackendSwitchingRules
}.
Context (iso : native_isolated).

(** What the calls before the commit keep. *)
Definition undisturbed t t' : Prop :=
  kept (nativeAPI t) (nativeAPI t') ∧ activeTransaction t' = activeTransaction t ∧ app_process t' = app_process t.

#[local] Instance undisturbed_preorder : PreOrder undisturbed.
Proof using Type.
  split; [by intros t; split|]. intros t1 t2 t3 ([F1 O1] & A1 & P1) ([F2 O2] & A2 & P2).
  split_and!; [split; [congruence|auto]|congruence|congruence].
Qed.

Lemma quiet_within f : quiet f → keeps undisturbed (within f).
Proof using Type.
  intros Hf t. unfold within. pose proof (Hf (activeTransaction t) (nativeAPI t)) as H.
  destruct (f (activeTransaction t) (nativeAPI t)). by split_and!.
Qed.

Lemma quiet_rules_within {R} (calls : RuleCalls N R) : quiet_rules calls → rule_keeps undisturbed calls.
Proof using Type. intros [H1 H2]. split; intros; by apply quiet_within. Qed.

Lemma quiet_named_within {R} (calls : NamedCalls N R) : quiet_named calls → named_keeps undisturbed calls.
Proof using Type. intros [H1 H2]. split; intros; by apply quiet_within. Qed.

Lemma sections_undisturbed : sections_keep undisturbed.
Proof using iso.
  destruct iso. split; [split; auto using quiet_rules_within, quiet_named_within|..];
    try (intros; by apply quiet_within); intros; by split_and!.
Qed.

Lemma start_keeps t :
  file (nativeAPI (clientNative_APIStartTransaction t).1) = file (nativeAPI t) ∧
  app_process (clientNative_APIStartTransaction t).1 = app_process t.
Proof using iso.
  unfold clientNative_APIStartTransaction, configured. destruct (cn_Configuration _); [done|].
  pose proof (iso_start iso (transaction_version (nativeAPI t)) (nativeAPI t)) as [H _].
  destruct (StartTransaction _ _) as [n' [id|err]]; [|done]. cbn in *.
  by destruct (computeConfigurationHash _).
Qed.

Lemma start_opens t t' : clientNative_APIStartTransaction t = (t', None) → is_open (nativeAPI t') (activeTransaction t').
Proof using iso.
  unfold clientNative_APIStartTransaction, configured. destruct (cn_Configuration _); [done|].
  destruct (StartTransaction _ _) as [n' [id|err]] eqn:Hs; [|done].
  apply (iso_started iso) in Hs. destruct (computeConfigurationHash _); [|done]. by intros [= <-].
Qed.

Lemma commit_fails t t' err :
  clientNative_APIFinalCommitTransaction t = (t', Some err) →
  file (nativeAPI t') = file (nativeAPI t) ∧ app_process t' = app_process t.
Proof using iso.
  unfold clientNative_APIFinalCommitTransaction, configured. destruct (cn_Configuration _); [by intros [= <- _]|].
  destruct (computeConfigurationHash t) as [hash|e]; [|by intros [= <- _]]. unfold within. case_bool_decide.
  - pose proof (iso_delete iso (activeTransaction t) (nativeAPI t)) as H'.
    destruct (DeleteTransaction _ _). by intros [= <- _].
  - destruct (CommitTransaction _ _) as [n' [e|]] eqn:Hc; [|done]. apply (iso_commit iso) in Hc. by intros [= <- _].
Qed.

Lemma commit_keeps_process t :
  app_process (clientNative_APIFinalCommitTransaction t).1 = app_process t ∧
  app_reload (clientNative_APIFinalCommitTransaction t).1 = app_reload t.
Proof using Type.
  unfold clientNative_APIFinalCommitTransaction, configured. destruct (cn_Configuration _); [done|].
  destruct (computeConfigurationHash t); [|done]. unfold within. case_bool_decide.
  - by destruct (DeleteTransaction _ _).
  - by destruct (CommitTransaction _ _).
Qed.

(** The calls between the start and the commit. *)
Definition process_all c (r : App * option string) : App * option string :=
  step (processDelete c) (step (processUpdate c) (step (processCreate c) r)).

Lemma process_all_undisturbed c r : undisturbed r.1 (process_all c r).1.
Proof using iso.
  pose proof sections_undisturbed as Hs. unfold process_all.
  apply keeps_after_step; [apply _|intros t; apply processDelete_keeps; [apply _|exact Hs]|].
  apply keeps_after_step; [apply _|intros t; apply processUpdate_keeps; [apply _|exact Hs]|].
  apply keeps_after_step; [apply _|intros t; apply processCreate_keeps; [apply _|exact Hs]|]. reflexivity.
Qed.
End isolation.

(** ** Cycles that only edit backends *)
Section backend_updates.
Context {RO : RangeOrder}.

Lemma pointed_empty {M} (s : Sections M) : pointed s ∅ = [].
Proof using Type.
  unfold pointed. assert (range (∅ : gmap string nat) = []) as ->; [|done].
  apply Permutation_nil_r. by rw range_perm map_to_list_empty.
Qed.

Lemma Sections_empty {M} (s : Sections M) :
  Sections_IsEmpty s = true ↔ created s = ∅ ∧ updated s = ∅ ∧ removed s = ∅.
Proof using Type.
  unfold Sections_IsEmpty. rw !andb_true_iff !bool_decide_eq_true. split.
  - intros [[H1%map_size_empty_inv H2%map_size_empty_inv] H3%size_empty_inv]. by apply leibniz_equiv in H3.
  - by intros (-> & -> & ->).
Qed.

Lemma view_pointed {M} (name : M → string) (s : Sections M) m b :
  named name (objs s) m → b ∈ pointed s m → view s m !! name b = Some b.
Proof using Type.
  intros Hm ([n loc] & Hin & Hb)%list_elem_of_omap. apply elem_of_range in Hin. cbn in Hb.
  destruct (Hm _ _ Hin) as (b' & Hb' & Hn). rw Hb in Hb'. injection Hb' as <-. unfold view.
  rw Hn lookup_omap Hin. exact Hb.
Qed.
End backend_updates.

(** ** When a reload is asked for *)
Section reloads.
Context {RO : RangeOrder} {Extra : Type} {EqE : EqDecision Extra} {BL : BackendLists Extra}.
Context {N P : Type} {CN : ClientNative Extra N} {PC : ProcessControl N P} {MD : Md5}.
Abbreviation State := (App (N := N) (P := P)).
Implicit Types (t : State) (c : Configuration FrontendModel ServerModel (BackendBase Extra)).

Definition asked t : Prop := reload (app_reload t) = true.

(** A reload that was asked for is not forgotten. *)
Definition still_asked t t' : Prop := asked t → asked t'.

#[local] Instance still_asked_preorder : PreOrder still_asked.
Proof using Type. split; [by intros t H|]. intros t1 t2 t3 H1 H2 H. by apply H2, H1. Qed.

Lemma within_still_asked f : keeps still_asked (within f).
Proof using Type. intros t H. unfold within. by destruct (f _ _). Qed.

Lemma sections_still_asked : sections_keep still_asked.
Proof using Type.
  split; [repeat split; intros; apply within_still_asked| | |intros; apply within_still_asked..].
  - by intros t.
  - intros b t H. unfold asked, edit_reload in *. cbn. by repeat case_match.
Qed.

Lemma step_None (f : State → State * option string) (r : State * option string) : (step f r).2 = None → r.2 = None.
Proof using Type. unfold step. by destruct r as [t [e|]]. Qed.

(** What succeeds after the reload was asked for. *)
Lemma asked_step (r : State * option string) : (step (λ t, (reload_needed t, None)) r).2 = None → asked (step (λ t, (reload_needed t, None)) r).1.
Proof using Type. unfold step. by destruct r as [t [e|]]. Qed.

Definition asks (f : State → State * option string) : Prop := ∀ t, (f t).2 = None → asked (f t).1.

Lemma asks_configured f : asks f → asks (configured f).
Proof using Type. intros Hf t. unfold configured. destruct (cn_Configuration _); [done|apply Hf]. Qed.

Lemma frontend_children_asked fe (r : State * option string) :
  (r.2 = None → asked r.1) → (frontend_children fe r).2 = None → asked (frontend_children fe r).1.
Proof using Type.
  intros Hr Hok. apply (frontend_children_keeps still_asked fe r.1 r); [apply (sk_children _ sections_still_asked)|done|].
  apply Hr. unfold frontend_children in Hok. by do 5 apply step_None in Hok.
Qed.

Lemma backend_children_asked be (r : State * option string) :
  (r.2 = None → asked r.1) → (backend_servers be (backend_rules be r)).2 = None →
  asked (backend_servers be (backend_rules be r)).1.
Proof using Type.
  intros Hr Hok. apply (backend_servers_keeps still_asked be r.1); [apply (sk_children _ sections_still_asked)| |].
  - apply (backend_rules_keeps still_asked); [apply (sk_children _ sections_still_asked)|done].
  - apply Hr. unfold backend_servers, backend_rules in Hok. by do 3 apply step_None in Hok.
Qed.

Lemma FrontendCreate_asks fe : asks (clientNative_FrontendCreate fe).
Proof using Type. apply asks_configured. intros t. apply frontend_children_asked, asked_step. Qed.

Lemma FrontendEdit_asks fe : asks (clientNative_FrontendEdit fe).
Proof using Type. intros t. apply frontend_children_asked, asked_step. Qed.

Lemma BackendCreate_asks be : asks (clientNative_BackendCreate be).
Proof using Type. apply asks_configured. intros t. apply backend_children_asked, asked_step. Qed.

Lemma deletion_asks f : asks (configured (λ t, within f (reload_needed t))).
Proof using Type.
  apply asks_configured. intros t _. by apply (within_still_asked f (reload_needed t)).
Qed.

Lemma call_all_None {A} (f : A → State → State * option string) l acc :
  (call_all f l acc).2 = [] → acc.2 = [].
Proof using Type.
  revert acc. induction l as [|a l IH]; intros acc Hl; [done|]. apply IH in Hl. unfold call in Hl.
  destruct (f a acc.1) as [t' err]. cbn in Hl. by destruct acc.2, err.
Qed.

Lemma call_all_asks {A} (f : A → State → State * option string) l acc :
  (∀ a, keeps still_asked (f a)) → (∀ a, asks (f a)) →
  (call_all f l acc).2 = [] → l ≠ [] ∨ asked acc.1 → asked (call_all f l acc).1.
Proof using Type.
  intros Hk Hf. revert acc. induction l as [|a l IH]; intros acc Hnil Hl; [by destruct Hl|].
  change (call_all f (a :: l) acc) with (call_all f l (call f acc a)) in *. apply IH; [done|]. right.
  apply call_all_None in Hnil. unfold call in *. specialize (Hf a acc.1).
  destruct (f a acc.1) as [t' [err|]]; cbn in *; [|by apply Hf]. by destruct acc.2.
Qed.

Lemma call_all_still {A} (f : A → State → State * option string) l acc :
  (∀ a, keeps still_asked (f a)) → asked acc.1 → asked (call_all f l acc).1.
Proof using Type. intros Hk. by apply (call_all_keeps still_asked f l acc acc.1). Qed.

(** Diffs that change more than backends in place. *)
Definition structural c : Prop :=
  created (c_Frontends c) ≠ ∅ ∨ updated (c_Frontends c) ≠ ∅ ∨ removed (c_Frontends c) ≠ ∅ ∨
  created (c_Backends c) ≠ ∅ ∨ removed (c_Backends c) ≠ ∅.

Lemma pointed_nonempty {M} (name : M → string) (s : Sections M) m :
  named name (objs s) m → m ≠ ∅ → pointed s m ≠ [].
Proof using Type.
  intros Hm Hne Hnil. destruct (map_choose m Hne) as (n & loc & Hn). destruct (Hm n loc Hn) as (b & Hb & _).
  assert (b ∈ pointed s m) as Hin; [|rw Hnil in Hin; by apply elem_of_nil in Hin].
  apply list_elem_of_omap. exists (n, loc). split; [by apply elem_of_range|done].
Qed.

Lemma range_set_nonempty (X : gset string) : X ≠ ∅ → range_set X ≠ [].
Proof using Type.
  intros Hne Hnil. destruct (set_choose_L X Hne) as [x Hx]. apply elem_of_range_set in Hx.
  rw Hnil in Hx. by apply elem_of_nil in Hx.
Qed.

(** Two loops, one after the other, that record their errors together. *)
Lemma two_loops_ask {A B} (f : A → State → State * option string) (g : B → State → State * option string) lf lg t :
  (∀ a, keeps still_asked (f a)) → (∀ b, keeps still_asked (g b)) → (∀ a, asks (f a)) →
  let acc := call_all g lg (call_all f lf (t, [])) in
  Errors_Result acc.2 = None →
  lf ≠ [] ∨ (lg ≠ [] ∧ ∀ b, asks (g b)) ∨ asked t → asked acc.1.
Proof using Type.
  intros Kf Kg Af acc Hok%Errors_Result_None Hor. pose proof (call_all_None _ _ _ Hok) as Hok1.
  assert (lg ≠ [] ∧ (∀ b, asks (g b)) ∨ asked (call_all f lf (t, [])).1) as [[Hlg Ag]|Ha].
  { destruct Hor as [?|[?|?]]; [right|by left|right]; apply call_all_asks; try done; [by left|by right]. }
  - apply call_all_asks; try done. by left.
  - by apply call_all_still.
Qed.

Definition wf_diffs c : Prop := wf_sections fe_Name (c_Frontends c) ∧ wf_sections be_Name (c_Backends c).

Lemma processCreate_asks c t :
  wf_diffs c → (processCreate c t).2 = None →
  created (c_Frontends c) ≠ ∅ ∨ created (c_Backends c) ≠ ∅ ∨ asked t → asked (processCreate c t).1.
Proof using Type.
  intros [Wf Wb] Hok Hor. pose proof sections_still_asked as Hs. unfold processCreate in *.
  apply two_loops_ask; [intros; apply FrontendCreate_keeps; [apply _|exact Hs]|intros; apply BackendCreate_keeps; [apply _|exact Hs]|
    apply FrontendCreate_asks|done|].
  destruct Hor as [?|[?|?]]; [left|right; left|right; by right].
  - eapply pointed_nonempty; [apply Wf|done].
  - split; [|apply BackendCreate_asks]. eapply pointed_nonempty; [apply Wb|done].
Qed.

Lemma processUpdate_asks c t :
  wf_diffs c → (processUpdate c t).2 = None →
  updated (c_Frontends c) ≠ ∅ ∨ asked t → asked (processUpdate c t).1.
Proof using Type.
  intros [Wf Wb] Hok Hor. pose proof sections_still_asked as Hs. unfold processUpdate in *.
  apply two_loops_ask; [intros; apply FrontendEdit_keeps; [apply _|exact Hs]|intros; apply BackendEdit_keeps; [apply _|exact Hs]|
    apply FrontendEdit_asks|done|].
  destruct Hor as [?|?]; [left|right; by right]. eapply pointed_nonempty; [apply Wf|done].
Qed.

Lemma processDelete_asks c t :
  (processDelete c t).2 = None →
  removed (c_Frontends c) ≠ ∅ ∨ removed (c_Backends c) ≠ ∅ ∨ asked t → asked (processDelete c t).1.
Proof using Type.
  intros Hok Hor. pose proof sections_still_asked as Hs. unfold processDelete in *.
  apply two_loops_ask; [intros; apply FrontendDelete_keeps; [apply _|exact Hs]|intros; apply BackendDelete_keeps; [apply _|exact Hs]|
    intros; apply deletion_asks|done|].
  destruct Hor as [?|[?|?]]; [left; by apply range_set_nonempty|right; left|right; by right].
  split; [by apply range_set_nonempty|intros; apply deletion_asks].
Qed.

Lemma process_all_asks c t :
  wf_diffs c → structural c → (process_all c (t, None)).2 = None → asked (process_all c (t, None)).1.
Proof using Type.
  intros Hwf Hstr Hok. unfold process_all in *. pose proof (step_None _ _ Hok) as Hok2.
  pose proof (step_None _ _ Hok2) as Hok1.
  change (step (processCreate c) (t, None)) with (processCreate c t) in *.
  destruct (processCreate c t) as [t1 e1] eqn:E1. cbn in Hok1. subst e1.
  change (step (processUpdate c) (t1, None)) with (processUpdate c t1) in *.
  destruct (processUpdate c t1) as [t2 e2] eqn:E2. cbn in Hok2. subst e2.
  change (step (processDelete c) (t2, None)) with (processDelete c t2) in *.
  pose proof (processCreate_asks c t Hwf) as H1. rw E1 in H1. pose proof (processUpdate_asks c t1 Hwf) as H2.
  rw E2 in H2. pose proof (processDelete_asks c t2 Hok) as H3. cbn in *.
  specialize (H1 eq_refl). specialize (H2 eq_refl). unfold structural in Hstr. tauto.
Qed.

(** Only the loop over the updated backends does something. *)
Lemma process_all_backend_updates c t t' :
  created (c_Frontends c) = ∅ → updated (c_Frontends c) = ∅ → removed (c_Frontends c) = ∅ →
  created (c_Backends c) = ∅ → removed (c_Backends c) = ∅ →
  call_all clientNative_BackendEdit (pointed (c_Backends c) (updated (c_Backends c))) (t, []) = (t', []) →
  process_all c (t, None) = (t', None).
Proof using Type.
  intros F1 F2 F3 B1 B3 Hrun. unfold process_all, processCreate, processUpdate, processDelete.
  rw F1 F2 F3 B1 B3 !pointed_empty !range_set_empty.
  change (step (λ t, _) (step (λ t, _) (step (λ t, _) (t, None)))) with
    (step (λ t : State, (t, None)) (let acc := call_all clientNative_BackendEdit
      (pointed (c_Backends c) (updated (c_Backends c))) (t, []) in (acc.1, Errors_Result acc.2))).
  by rw Hrun.
Qed.

Lemma structural_nonempty c :
  structural c → Sections_IsEmpty (c_Frontends c) && Sections_IsEmpty (c_Backends c) = false.
Proof using Type.
  intros Hstr. apply not_true_iff_false. rw andb_true_iff /Sections_IsEmpty !andb_true_iff !bool_decide_eq_true.
  intros [[[H1%map_size_empty_inv H2%map_size_empty_inv] H3%size_empty_inv]
          [[H4%map_size_empty_inv _] H5%size_empty_inv]].
  apply leibniz_equiv in H3, H5. unfold structural in Hstr. tauto.
Qed.

(** Nothing but the reload touches the process. *)
Definition same_process t t' : Prop := app_process t' = app_process t.

#[local] Instance same_process_preorder : PreOrder same_process.
Proof using Type. split; [done|]. intros t1 t2 t3 H1 H2. exact (eq_trans H2 H1). Qed.

Lemma within_same_process f : keeps same_process (within f).
Proof using Type. intros t. unfold same_process, within. by destruct (f _ _). Qed.

Lemma sections_same_process : sections_keep same_process.
Proof using Type.
  split; [repeat split; intros; apply within_same_process| | |intros; apply within_same_process..]; done.
Qed.

Lemma process_all_same_process c r : same_process r.1 (process_all c r).1.
Proof using Type.
  pose proof sections_same_process as Hs. unfold process_all.
  apply keeps_after_step; [apply _|intros t; apply processDelete_keeps; [apply _|exact Hs]|].
  apply keeps_after_step; [apply _|intros t; apply processUpdate_keeps; [apply _|exact Hs]|].
  apply keeps_after_step; [apply _|intros t; apply processCreate_keeps; [apply _|exact Hs]|]. reflexivity.
Qed.

Lemma start_same_process t : app_process (clientNative_APIStartTransaction t).1 = app_process t.
Proof using Type.
  unfold clientNative_APIStartTransaction, configured. destruct (cn_Configuration _); [done|].
  destruct (StartTransaction _ _) as [n' [id|err]]; [|done]. by destruct (computeConfigurationHash _).
Qed.

(** A cycle that commits: the file is the one of the commit, and the process is
    left alone or reloaded once on it; it is reloaded when the diffs change more
    than backends in place. *)
Lemma applied_reload c (t t4 : State) :
  wf_diffs c →
  step clientNative_APIFinalCommitTransaction (process_all c (clientNative_APIStartTransaction t)) = (t4, None) →
  let r := step (reload_if_needed (HC := app_client)) (t4, None) in
  nativeAPI r.1 = nativeAPI t4 ∧
  ((r.2 = None ∧ app_process r.1 = app_process t ∧ ¬ structural c) ∨
   ∃ msg, Service "reload" (nativeAPI r.1) (app_process t) = (app_process r.1, (msg, r.2))).
Proof using Type.
  intros Hwf Hcommit. pose proof (start_same_process t) as Hstart.
  pose proof (process_all_same_process c (clientNative_APIStartTransaction t)) as Hproc. unfold same_process in Hproc.
  rw Hstart in Hproc. pose proof (step_None _ _ (eq_trans (f_equal snd Hcommit) eq_refl)) as Hok.
  assert (structural c → asked (process_all c (clientNative_APIStartTransaction t)).1) as Hask.
  { intros Hstr. destruct (clientNative_APIStartTransaction t) as [t0 [e|]].
    - unfold process_all in Hok. by apply step_None, step_None, step_None in Hok.
    - by apply process_all_asks. }
  destruct (process_all c _) as [t3 e3]. cbn in Hok, Hproc, Hask. subst e3.
  change (step clientNative_APIFinalCommitTransaction (t3, None)) with (clientNative_APIFinalCommitTransaction t3) in Hcommit.
  pose proof (commit_keeps_process t3) as [Hp Hr]. rw Hcommit in Hp Hr. cbn in Hp, Hr. rw Hproc in Hp.
  unfold step, reload_if_needed. cbn. unfold reload_NeedReload. rw Hr.
  destruct (reload (app_reload t3)) eqn:Hn.
  - unfold service_reload. destruct (Service "reload" (nativeAPI t4) (app_process t4)) as [p' [msg e]] eqn:Hs.
    split; [done|]. right. exists msg. cbn. by rw -Hp.
  - split; [done|]. left. split_and!; [done|done|]. intros Hstr%Hask. unfold asked in Hstr. congruence.
Qed.
End reloads.

(** ** Properties *)

(** C5: a cycle that fails leaves HAProxy as it was.  Whatever client-native and
    the process answer, when [applyCfgUpdates] returns an error no transaction is
    active any more and either the file of HAProxy and the process are those from
    before, all the changes of the cycle being dropped together, or the file was
    written and it is the reload that failed. *)
Theorem failed_apply_keeps_file (RO : RangeOrder) Extra (EqE : EqDecision Extra) (BL : BackendLists Extra) N P
    (CN : ClientNative Extra N) (PC : ProcessControl N P) (MD : Md5) F (file : N → F) is_open
    (c : Configuration FrontendModel ServerModel (BackendBase Extra)) (t t' : App (N := N) (P := P)) err :
  native_isolated (Extra := Extra) file is_open → applyCfgUpdates c t = (t', Some err) →
  activeTransaction t' = "" ∧
  ((file (nativeAPI t') = file (nativeAPI t) ∧ app_process t' = app_process t) ∨
   (∃ msg, Service "reload" (nativeAPI t') (app_process t) = (app_process t', (msg, Some err)))).
Proof.
  intros iso. unfold applyCfgUpdates. destruct (_ && _ && _); [done|]. cbn zeta.
  change (step (processDelete c) _) with (process_all c (clientNative_APIStartTransaction t)).
  pose proof (start_keeps file is_open iso t) as [S1 S2].
  pose proof (process_all_undisturbed file is_open iso c (clientNative_APIStartTransaction t)) as ([U1 _] & _ & U2).
  destruct (process_all c (clientNative_APIStartTransaction t)) as [t3 [e3|]].
  { intros [= <- <-]. split; [done|]. left. cbn in *. split; congruence. }
  change (step APIFinalCommitTransaction (t3, None)) with (clientNative_APIFinalCommitTransaction t3).
  destruct (clientNative_APIFinalCommitTransaction t3) as [t4 [e4|]] eqn:Hc.
  { destruct (commit_fails file is_open iso _ _ _ Hc). intros [= <- <-]. split; [done|]. left. cbn in *. split; congruence. }
  unfold step, reload_if_needed. cbn. destruct (reload_NeedReload _); [|done]. unfold service_reload.
  destruct (Service "reload" (nativeAPI t4) (app_process t4)) as [p' [msg e]] eqn:Hr. intros [= <- ->].
  split; [done|]. right. exists msg. cbn. rw -Hr.
  pose proof (commit_keeps_process t3) as [Hp _]. rw Hc in Hp. cbn in *. congruence.
Qed.

(** A cycle that fails before the commit leaves its transaction open: the client
    forgets it, and nothing deletes it. *)
Theorem failed_apply_leaks (RO : RangeOrder) Extra (EqE : EqDecision Extra) (BL : BackendLists Extra) N P
    (CN : ClientNative Extra N) (PC : ProcessControl N P) (MD : Md5) F (file : N → F) is_open
    (c : Configuration FrontendModel ServerModel (BackendBase Extra)) (t t0 t1 : App (N := N) (P := P)) err :
  native_isolated (Extra := Extra) file is_open →
  Sections_IsEmpty (c_Frontends c) = false → clientNative_APIStartTransaction t = (t0, None) →
  process_all c (t0, None) = (t1, Some err) →
  ∃ t', applyCfgUpdates c t = (t', Some err) ∧ activeTransaction t' = "" ∧
    is_open (nativeAPI t') (activeTransaction t0).
Proof.
  intros iso Hne Hstart Hall. unfold applyCfgUpdates. rw Hne andb_false_l. cbn zeta.
  change (step (processDelete c) _) with (process_all c (clientNative_APIStartTransaction t)). rw Hstart Hall.
  eexists. split; [done|]. split; [done|]. cbn.
  pose proof (process_all_undisturbed file is_open iso c (t0, None)) as ([_ U] & _ & _). rw Hall in U.
  by apply U, (start_opens file is_open iso t).
Qed.

(** C4: HAProxy is given what the controller decided.  client-native keeping its
    promises, when the file of HAProxy holds the configuration of the start of a
    cycle, the client accepts the sections, and no section that the cycle removed is
    configured again at its end, then whatever the process control
    answers, the file holds the configuration of the end of the cycle, children
    included, and the process was told at most once to reload, on that file: it was
    told when the diffs create or delete a section or edit a frontend; what the
    reload answers is the result of the cycle; and when it was not told, there is no
    error and the process is as before.  (A commit compares MD5 hashes: the two
    configurations must not collide.  Whether a process that was told runs the file
    is the matter of the process control, which answers without error in a case
    where it does not reload.) *)
Theorem client_writes_and_reloads (RO : RangeOrder) Extra (EqE : EqDecision Extra) (BL : BackendLists Extra)
    (BLL : BackendListsLaws Extra) N P (CN : ClientNative Extra N) (PC : ProcessControl N P) (MD : Md5)
    file conf is_open text
    (AFe : Accepts FrontendModel) (ABe : Accepts (BackendModel ServerModel (BackendBase Extra)))
    (ABi : Accepts Bind) (ASe : Accepts ServerModel) (AAc : Accepts ACL) (AHt : Accepts HTTPRequestRule)
    (ATc : Accepts TCPRequestRule) (ABs : Accepts BackendSwitchingRule) startable
    fe_Equal (c : Configuration FrontendModel ServerModel (BackendBase Extra)) ops (t : App (N := N) (P := P)) :
  native_laws file conf is_open text startable →
  wf_configuration fe_Name c →
  let configuration c := (view (c_Frontends c) (cur (c_Frontends c)),
                          view (c_Backends c) (cur (c_Backends c))) in
  let c' := run_cycle fe_Name fe_Equal c ops in
  accepted fe_ok be_ok c' →
  (∀ n, n ∈ removed (c_Frontends c') → cur (c_Frontends c') !! n = None) →
  (∀ n, n ∈ removed (c_Backends c') → cur (c_Backends c') !! n = None) →
  file (nativeAPI t) = configuration c → hash_tells text (configuration c) (configuration c') →
  ∃ t' err, applyCfgUpdates c' t = (t', err) ∧ file (nativeAPI t') = configuration c' ∧
    ((err = None ∧ app_process t' = app_process t ∧ ¬ structural c') ∨
     ∃ msg, Service "reload" (nativeAPI t') (app_process t) = (app_process t', (msg, err))).
Proof.
  intros laws Hwf configuration c' Hacc Hfe Hbe Ht Htells.
  destruct (run_cycle_inv fe_Name fe_Equal c ops Hwf) as [I1 I2]. fold c' in I1, I2.
  pose proof (app_write_laws (P := P) file conf is_open text startable laws) as Hclient.
  assert (Hc : app_committed file t = configuration c) by exact Ht.
  assert (apply_diffs (app_committed file t).1 (c_Frontends c') = (configuration c').1) as D1.
  { rw Hc. by apply (cycle_exact fe_Name). }
  assert (apply_diffs (app_committed file t).2 (c_Backends c') = (configuration c').2) as D2.
  { rw Hc. by apply (cycle_exact be_Name). }
  unfold applyCfgUpdates.
  destruct (Sections_IsEmpty (c_Frontends c') && Sections_IsEmpty (c_Backends c') && _) eqn:He.
  { apply andb_true_iff in He as [He _]. exists t, None. split; [done|].
    pose proof He as [He1 He2]%andb_true_iff. split.
    - change (app_committed file t = configuration c'). apply injective_projections; [rw -D1|rw -D2];
        by rw (apply_diffs_empty fe_Name _ _ _ _ _ _ Hclient).
    - left. split_and!; [done|done|]. intros Hs%structural_nonempty. congruence. }
  destruct (commit_ok fe_Name _ _ _ _ _ _ Hclient c' t) as (t4 & Hcommit & Hfile);
    [by rw Hc|by rw Hc|done|by rw D1 D2 Hc|]. rw D1 D2 in Hfile.
  destruct (applied_reload c' t t4) as [Hn Hor]; [split; [apply I1|apply I2]|exact Hcommit|].
  cbv zeta. rw Hcommit. destruct (step _ (t4, None)) as [t5 e5]. cbn in Hn, Hor.
  eexists _, e5. split; [done|]. split; [|exact Hor].
  change (file (nativeAPI t5) = configuration c'). rw Hn. exact Hfile.
Qed.

(** C40: a server that arrives while another one leaves is not served.  When the
    runtime was told, in this cycle, of servers that go away, and took it, editions
    of backends that only change servers are written to the file and nothing asks
    for a reload: the process goes on without the servers they add. *)
Theorem added_servers_not_loaded (RO : RangeOrder) Extra (EqE : EqDecision Extra) (BL : BackendLists Extra)
    (BLL : BackendListsLaws Extra) N P (CN : ClientNative Extra N) (PC : ProcessControl N P) (MD : Md5)
    file conf is_open text
    (AFe : Accepts FrontendModel) (ABe : Accepts (BackendModel ServerModel (BackendBase Extra)))
    (ABi : Accepts Bind) (ASe : Accepts ServerModel) (AAc : Accepts ACL) (AHt : Accepts HTTPRequestRule)
    (ATc : Accepts TCPRequestRule) (ABs : Accepts BackendSwitchingRule) startable
    (c : Configuration FrontendModel ServerModel (BackendBase Extra)) (t : App (N := N) (P := P)) :
  native_laws file conf is_open text startable →
  Sections_IsEmpty (c_Frontends c) = true → created (c_Backends c) = ∅ → removed (c_Backends c) = ∅ →
  updated (c_Backends c) ≠ ∅ → named be_Name (objs (c_Backends c)) (updated (c_Backends c)) →
  (∀ n be, view (c_Backends c) (updated (c_Backends c)) !! n = Some be → be_ok be ∧
     ∃ old, (file (nativeAPI t)).2 !! n = Some old ∧ equal_but_servers (managed old) be = true) →
  attempted (app_reload t) = true → failed (app_reload t) = false → reload (app_reload t) = false →
  let edited := ((file (nativeAPI t)).1, view (c_Backends c) (updated (c_Backends c)) ∪ (file (nativeAPI t)).2) in
  hash_tells text (file (nativeAPI t)) edited →
  ∃ t', applyCfgUpdates c t = (t', None) ∧ file (nativeAPI t') = edited ∧ app_process t' = app_process t.
Proof.
  intros laws Hfe Hcr Hrm Hup Hnamed Hedits Hatt Hfail Hrel edited Htells.
  assert (Hempty : created (c_Frontends c) = ∅ ∧ updated (c_Frontends c) = ∅ ∧ removed (c_Frontends c) = ∅)
    by by apply Sections_empty.
  destruct Hempty as (F1 & F2 & F3).
  assert (Sections_IsEmpty (c_Backends c) = false) as Hne.
  { apply not_true_iff_false. by intros (_ & H & _)%Sections_empty. }
  unfold applyCfgUpdates. rw Hne andb_false_r andb_false_l. cbn zeta.
  change (step (processDelete c) _) with (process_all c (clientNative_APIStartTransaction t)).
  destruct (StartTransaction_ok file conf is_open text startable laws t) as (t0 & -> & Hacts0).
  pose proof Hacts0 as [(L0 & C0 & P0) [R0 Q0]].
  destruct (server_editions file conf is_open text startable laws
    (pointed (c_Backends c) (updated (c_Backends c))) t0 (app_reload t) L0) as (t1 & Ht1 & Hacts1);
    [by apply NoDup_pointed|done..| |].
  { intros be Hbe. rw P0. apply Hedits. by apply view_pointed. }
  rw (process_all_backend_updates c t0 t1) //.
  pose proof (acts_trans _ _ _ _ _ _ _ _ _ Hacts0 Hacts1) as [(L1 & C1 & P1) [R1 Q1]].
  rw P0 store_all_pointed // in P1.
  destruct (FinalCommit_ok file conf is_open text startable laws t1 L1) as (t2 & Ht2 & Hf & R2 & Q2).
  { rw C1 P1. exact Htells. }
  change (step APIFinalCommitTransaction (t1, None)) with (clientNative_APIFinalCommitTransaction t1). rw Ht2.
  unfold step, reload_if_needed. cbn. unfold reload_NeedReload. rw R2 R1 Hrel. eexists. split; [done|]. cbn.
  split; [|congruence]. change (app_committed file t2 = edited). by rw Hf P1.
Qed.

(** *** A client-native, for the witnesses

    The configuration of the file, and those of the open transactions; binds,
    servers and backends are seen under the names they are stored by. *)
Record ExampleExtra := mkExampleExtra {
  ex_base : bool; ex_ACLs : list ACL; ex_HTTP : list HTTPRequestRule
}.

#[export] Instance ExampleExtra_eq_dec : EqDecision ExampleExtra.
Proof.
  assert (EqDecision HTTPRequestRule) by solve_decision. assert (EqDecision ACL) by solve_decision.
  solve_decision.
Defined.

#[local] Instance example_lists : BackendLists ExampleExtra := {|
  x_ACLList := ex_ACLs;
  x_HTTPRequestRuleList := ex_HTTP;
  x_set_ACLList l x := mkExampleExtra (ex_base x) l (ex_HTTP x);
  x_set_HTTPRequestRuleList l x := mkExampleExtra (ex_base x) (ex_ACLs x) l;
  x_Base x := mkExampleExtra (ex_base x) [] []
|}.

#[local] Instance example_lists_laws : BackendListsLaws ExampleExtra.
Proof. split; intros; by repeat match goal with x : ExampleExtra |- _ => destruct x end. Qed.

Abbreviation ExBackend := (BackendModel ServerModel (BackendBase ExampleExtra)).
Abbreviation ExConf := (gmap string FrontendModel * gmap string ExBackend)%type.

(** Everything under the name it is stored by. *)
Definition renamed {R} (rename : string → R → R) (m : gmap string R) : gmap string R :=
  map_imap (λ k r, Some (rename k r)) m.

Definition named_bind (k : string) (b : Bind) : Bind :=
  mkBind k (bind_Port b) (bind_Address b) (bind_CrtList b) (bind_Ssl b).
Definition named_server (k : string) (s : ServerModel) : ServerModel :=
  mkServer k (srv_Address s) (srv_Port s) (srv_Maintenance s).
Definition seen_frontend (k : string) (f : FrontendModel) : FrontendModel :=
  f_set f_Binds (renamed named_bind (Binds f)) f.
Definition seen_backend (k : string) (b : ExBackend) : ExBackend :=
  mkBackend k (be_Metadata b) (renamed named_server (be_Servers b)) (be_Base b).

Definition seen (cf : ExConf) : ExConf := (renamed seen_frontend cf.1, renamed seen_backend cf.2).

Lemma renamed_lookup {R} (rename : string → R → R) m k : renamed rename m !! k = rename k <$> m !! k.
Proof. unfold renamed. rw map_lookup_imap. by destruct (m !! k). Qed.

Lemma renamed_insert {R} (rename : string → R → R) m k r :
  renamed rename (<[k := r]> m) = <[k := rename k r]> (renamed rename m).
Proof.
  apply map_eq. intros k'. rw renamed_lookup. destruct (decide (k = k')) as [<-|Hne].
  - by rw !lookup_insert_eq.
  - by rw !lookup_insert_ne // renamed_lookup.
Qed.

Lemma renamed_delete {R} (rename : string → R → R) m k : renamed rename (delete k m) = delete k (renamed rename m).
Proof.
  apply map_eq. intros k'. rw renamed_lookup. destruct (decide (k = k')) as [<-|Hne].
  - by rw !lookup_delete_eq.
  - by rw !lookup_delete_ne // renamed_lookup.
Qed.

Lemma renamed_alter {R} (rename : string → R → R) (g g' : R → R) m k :
  (∀ r, rename k (g r) = g' (rename k r)) → renamed rename (alter g k m) = alter g' k (renamed rename m).
Proof.
  intros Hg. apply map_eq. intros k'. rw renamed_lookup. destruct (decide (k = k')) as [<-|Hne].
  - rw !lookup_alter_eq renamed_lookup. destruct (m !! k); cbn; by rw ?Hg.
  - by rw !lookup_alter_ne // renamed_lookup.
Qed.

Lemma renamed_id {R} (rename : string → R → R) m : (∀ k r, m !! k = Some r → rename k r = r) → renamed rename m = m.
Proof.
  intros Hm. apply map_eq. intros k. rw renamed_lookup. destruct (m !! k) as [r|] eqn:Hr; cbn; by rw ?Hm.
Qed.

Lemma seen_put_list {R} F B sec name (x : list R) cf :
  (∀ k f, seen_frontend k (f_set F x f) = f_set F x (seen_frontend k f)) →
  (∀ k b, seen_backend k (f_set B x b) = f_set B x (seen_backend k b)) →
  seen (child_put (Some F, Some B) sec name x cf) = child_put (Some F, Some B) sec name x (seen cf).
Proof. intros HF HB. unfold seen. destruct sec; cbn; f_equal; by apply renamed_alter. Qed.

(** The state: the file, and the open transactions. *)
Record ExNative := mkExNative { ex_file : ExConf; ex_open : gmap string ExConf }.

Definition ex_conf (n : ExNative) (id : string) : ExConf := seen (default (∅, ∅) (ex_open n !! id)).
Definition ex_is_open (n : ExNative) (id : string) : Prop := is_Some (ex_open n !! id).
Definition ex_committed (n : ExNative) : ExConf := seen (ex_file n).

Definition ex_call (f : ExConf → option ExConf) (id : string) (n : ExNative) : ExNative * option string :=
  match ex_open n !! id ≫= f with
  | Some cf => (mkExNative (ex_file n) (<[id := cf]> (ex_open n)), None)
  | None => (n, Some "refused")
  end.

Definition ex_get {A} (f : ExConf → option A) (id : string) (n : ExNative) : result A :=
  match ex_open n !! id with
  | Some cf => match f (seen cf) with Some a => Ok a | None => Err "not found" end
  | None => Err "no transaction"
  end.

Definition ex_end (write : bool) (id : string) (n : ExNative) : ExNative * option string :=
  match ex_open n !! id with
  | Some cf => (mkExNative (if write then cf else ex_file n) (delete id (ex_open n)), None)
  | None => (n, Some "no transaction")
  end.

Definition ex_rules {R} (V : children (Extra := ExampleExtra) (list R)) : RuleCalls ExNative R := {|
  GetRules sec name := ex_get (child_get V sec name);
  DeleteRule i sec name := ex_call (λ cf,
    l ← child_get V sec name (seen cf);
    let i := Z.to_nat i in
    if (i <? length l)%nat then Some (child_put V sec name (take i l ++ drop (S i) l) cf) else None);
  CreateRule i sec name r := ex_call (λ cf,
    l ← child_get V sec name (seen cf);
    let i := Z.to_nat i in
    if (i <=? length l)%nat then Some (child_put V sec name (take i l ++ r :: drop i l) cf) else None)
|}.

Definition ex_named {R} (V : children (Extra := ExampleExtra) (gmap string R)) (name_of : R → string) :
    NamedCalls ExNative R := {|
  GetNamed sec name := ex_get (λ cf, m ← child_get V sec name cf; Some (map_to_list m).*2);
  CreateNamed sec name r := ex_call (λ cf,
    m ← child_get V sec name (seen cf);
    match m !! name_of r with
    | Some _ => None
    | None => Some (child_put V sec name (<[name_of r := r]> m) cf)
    end);
  EditNamed k sec name r := ex_call (λ cf,
    m ← child_get V sec name (seen cf);
    match m !! k with Some _ => Some (child_put V sec name (<[k := r]> m) cf) | None => None end);
  DeleteNamed k sec name := ex_call (λ cf,
    m ← child_get V sec name (seen cf);
    match m !! k with Some _ => Some (child_put V sec name (delete k m) cf) | None => None end)
|}.

(** One kind of section. *)
Definition ex_create {M} (name : M → string) (base : M → M) (b : M) (m : gmap string M) : option (gmap string M) :=
  match m !! name b with Some _ => None | None => Some (<[name b := base b]> m) end.
Definition ex_edit {M} (edited : M → M → M) (n : string) (b : M) (m : gmap string M) : option (gmap string M) :=
  old ← m !! n; Some (<[n := edited b old]> m).
Definition ex_delete {M} (n : string) (m : gmap string M) : option (gmap string M) :=
  match m !! n with Some _ => Some (delete n m) | None => None end.

Definition on_frontends (f : gmap string FrontendModel → option (gmap string FrontendModel)) (cf : ExConf) :
    option ExConf := (λ m, (m, cf.2)) <$> f cf.1.
Definition on_backends (f : gmap string ExBackend → option (gmap string ExBackend)) (cf : ExConf) :
    option ExConf := (λ m, (cf.1, m)) <$> f cf.2.

(** The text of a configuration, as far as the hash needs it. *)
Definition ex_text (cf : ExConf) : string :=
  String.concat "," (elements (dom cf.1 : gset string)) +:+ "/" +:+
  String.concat "," ((λ kb, kb.1 +:+ ":" +:+ String.concat "," (elements (dom (be_Servers kb.2) : gset string))) <$>
    map_to_list cf.2).

#[local] Instance example_native : ClientNative ExampleExtra ExNative := {|
  cn_Configuration _ := None;
  GetVersion _ _ := Ok 1%Z;
  StartTransaction _ n := (mkExNative (ex_file n) (<["tx" := ex_file n]> (ex_open n)), Ok "tx");
  GetParser := ex_get (λ cf, Some (ex_text cf));
  DeleteTransaction := ex_end false;
  CommitTransaction := ex_end true;
  CreateFrontend f := ex_call (on_frontends (ex_create fe_Name fe_FrontendBase f));
  EditFrontend n f := ex_call (on_frontends (ex_edit frontend_edited n f));
  DeleteFrontend n := ex_call (on_frontends (ex_delete n));
  GetFrontend n := ex_get (λ cf, fe_FrontendBase <$> cf.1 !! n);
  GetFrontends := ex_get (λ cf, Some (fe_FrontendBase <$> (map_to_list cf.1).*2));
  CreateBackend b := ex_call (on_backends (ex_create be_Name be_BackendBase b));
  EditBackend n b := ex_call (on_backends (ex_edit backend_edited n b));
  DeleteBackend n := ex_call (on_backends (ex_delete n));
  GetBackend n := ex_get (λ cf, be_BackendBase <$> cf.2 !! n);
  GetBackends := ex_get (λ cf, Some (be_BackendBase <$> (map_to_list cf.2).*2));
  cn_Binds := ex_named v_Binds bind_Name;
  cn_Servers := ex_named v_Servers srv_Name;
  cn_ACLs := ex_rules v_ACLs;
  cn_HTTPRequestRules := ex_rules v_HTTPRequestRules;
  cn_TCPRequestRules := ex_rules v_TCPRequestRules;
  GetBackendSwitchingRules := GetRules (ex_rules v_BackendSwitchingRules) parser_Frontends;
  DeleteBackendSwitchingRule i := DeleteRule (ex_rules v_BackendSwitchingRules) i parser_Frontends;
  CreateBackendSwitchingRule i := CreateRule (ex_rules v_BackendSwitchingRules) i parser_Frontends
|}.

Lemma ex_call_quiet f : quiet ex_committed ex_is_open (ex_call f).
Proof.
  intros id n. unfold ex_call. destruct (ex_open n !! id ≫= f) as [cf|]; [|done]. split; [done|].
  intros id' [cf' H]. unfold ex_is_open. cbn. apply lookup_insert_is_Some'. right. by exists cf'.
Qed.

Lemma example_isolated : native_isolated (Extra := ExampleExtra) ex_committed ex_is_open.
Proof.
  split; try (intros; apply ex_call_quiet); try (split; intros; apply ex_call_quiet).
  - intros v n. split; [done|]. intros id [cf H]. apply lookup_insert_is_Some'. right. by exists cf.
  - intros v n n' id [= <- <-]. apply lookup_insert_is_Some'. by left.
  - intros id n. cbn. unfold ex_end. by destruct (ex_open n !! id).
  - intros id n n' err. cbn. unfold ex_end. destruct (ex_open n !! id); [done|]. by intros [= <- _].
Qed.

#[local] Instance example_accepts {R} : Accepts R := λ _, True.

Lemma ex_call_ok f id n raw cf' cf :
  ex_open n !! id = Some raw → f raw = Some cf' → seen cf' = cf →
  ∃ n', ex_call f id n = (n', None) ∧ writes (Extra := ExampleExtra) ex_committed ex_conf ex_is_open n id cf n'.
Proof.
  intros Hid Hf Hcf. unfold ex_call. rw Hid /= Hf. eexists. split; [done|]. unfold writes, ex_is_open, ex_conf. cbn.
  rw lookup_insert_eq /=. by split_and!.
Qed.

Lemma ex_get_ok {A} (f : ExConf → option A) id n raw a :
  ex_open n !! id = Some raw → f (seen raw) = Some a → ex_get f id n = Ok a.
Proof. intros Hid Hf. unfold ex_get. by rw Hid Hf. Qed.

(** What the setters of lists and of named children do to what is seen. *)
Definition seen_puts {C} (V : children (Extra := ExampleExtra) C) (x : C) : Prop :=
  ∀ sec name cf, seen (child_put V sec name x cf) = child_put V sec name x (seen cf).

Lemma ex_rules_laws {R} (V : children (Extra := ExampleExtra) (list R)) :
  (∀ x, seen_puts V x) → rule_laws ex_committed ex_conf ex_is_open (ex_rules V) V.
Proof.
  intros HV. split; intros *; intros [raw Hraw]; unfold ex_conf; rw Hraw /=; intros Hl.
  - by eapply ex_get_ok.
  - intros Hi. eapply ex_call_ok; [done| |apply HV]. cbv beta. rw Hl Nat2Z.id.
    apply Nat.ltb_lt in Hi. cbn [mbind option_bind]. by rw Hi.
  - intros Hi _. eapply ex_call_ok; [done| |apply HV]. cbv beta. rw Hl Nat2Z.id.
    apply Nat.leb_le in Hi. cbn [mbind option_bind]. by rw Hi.
Qed.

Lemma ex_named_laws {R} (V : children (Extra := ExampleExtra) (gmap string R)) name_of :
  (∀ x, (∀ k r, x !! k = Some r → name_of r = k) → seen_puts V x) →
  (∀ sec name cf x k r, child_get V sec name (seen cf) = Some x → x !! k = Some r → name_of r = k) →
  named_laws ex_committed ex_conf ex_is_open (ex_named V name_of) name_of V.
Proof.
  intros HV Hk. split; intros *; intros [raw Hraw]; unfold ex_conf; rw Hraw /=; intros Hm.
  - assert (∀ kr, kr ∈ map_to_list m → (name_of kr.2, kr.2) = kr) as Hl.
    { intros [k r] Hin%elem_of_map_to_list. cbn. f_equal. by eapply Hk. }
    exists (map_to_list m).*2. split; [by eapply ex_get_ok; [exact Hraw|cbv beta; rw Hm]|].
    assert ((λ r, (name_of r, r)) <$> (map_to_list m).*2 = map_to_list m) as Heq.
    { rw -list_fmap_compose. rw -{2}(list_fmap_id (map_to_list m)).
      apply list_fmap_ext. intros i kr Hin%list_elem_of_lookup_2. by apply Hl. }
    split; [|by rw Heq list_to_map_to_list].
    assert (name_of <$> (map_to_list m).*2 = (map_to_list m).*1) as ->; [|apply NoDup_fst_map_to_list].
    rw -list_fmap_compose. apply list_fmap_ext. intros i kr Hin%list_elem_of_lookup_2. cbn.
    by rw -{2}(Hl kr Hin).
  - intros [x Hx]. eapply ex_call_ok; [done|by cbn; rw Hm /= Hx|]. apply HV.
    intros k' r' [_ Hr']%lookup_delete_Some. by eapply Hk.
  - intros Hx _. eapply ex_call_ok; [done|by cbn; rw Hm /= Hx|]. apply HV.
    intros k' r' [[<- <-]|[_ Hr']]%lookup_insert_Some; [done|]. by eapply Hk.
Qed.

Lemma seen_put_Binds x : (∀ k r, x !! k = Some r → bind_Name r = k) → seen_puts v_Binds x.
Proof.
  intros Hx sec name cf. unfold seen. destruct sec; cbn; f_equal. apply renamed_alter. intros f.
  unfold seen_frontend. cbn. do 2 f_equal. apply renamed_id. intros k r Hr. destruct r. by rw -(Hx _ _ Hr).
Qed.

Lemma seen_put_Servers x : (∀ k r, x !! k = Some r → srv_Name r = k) → seen_puts v_Servers x.
Proof.
  intros Hx sec name cf. unfold seen. destruct sec; cbn; [done|]. f_equal. apply renamed_alter. intros b.
  unfold seen_backend, with_servers. cbn. f_equal. apply renamed_id. intros k r Hr. destruct r. by rw -(Hx _ _ Hr).
Qed.

Lemma seen_Binds sec name cf x k r :
  child_get v_Binds sec name (seen cf) = Some x → x !! k = Some r → bind_Name r = k.
Proof.
  destruct sec; cbn; [|done]. rw renamed_lookup. destruct (cf.1 !! name) as [f|]; cbn; [|done]. intros [= <-].
  rw renamed_lookup. destruct (Binds f !! k); cbn; [|done]. by intros [= <-].
Qed.

Lemma seen_Servers sec name cf x k r :
  child_get v_Servers sec name (seen cf) = Some x → x !! k = Some r → srv_Name r = k.
Proof.
  destruct sec; cbn; [done|]. rw renamed_lookup. destruct (cf.2 !! name) as [b|]; cbn; [|done]. intros [= <-].
  rw renamed_lookup. destruct (be_Servers b !! k); cbn; [|done]. by intros [= <-].
Qed.

Lemma seen_put_frontend {R} (F : field FrontendModel (list R)) x :
  (∀ k f, seen_frontend k (f_set F x f) = f_set F x (seen_frontend k f)) → seen_puts (Some F, None) x.
Proof. intros HF sec name cf. unfold seen. destruct sec; cbn; [|done]. f_equal. by apply renamed_alter. Qed.

Lemma seen_on_frontends f raw m :
  f raw.1 = Some m → on_frontends f raw = Some (m, raw.2).
Proof. unfold on_frontends. by intros ->. Qed.

Lemma seen_on_backends f raw m :
  f raw.2 = Some m → on_backends f raw = Some (raw.1, m).
Proof. unfold on_backends. by intros ->. Qed.

(** A section is stored exactly when it is seen. *)
Lemma ex_stored {R} (rename : string → R → R) (m : gmap string R) k :
  is_Some (renamed rename m !! k) → ∃ r, m !! k = Some r ∧ renamed rename m !! k = Some (rename k r).
Proof. rw renamed_lookup. intros [r' Hr]. destruct (m !! k) as [r|]; [|done]. by exists r. Qed.

Lemma example_native_laws :
  native_laws ex_committed ex_conf ex_is_open ex_text (λ _ _, True).
Proof.
  split.
  - done.
  - done.
  - done.
  - intros n v _. eexists _, "tx". split; [done|]. unfold writes, ex_is_open, ex_conf. cbn.
    rw lookup_insert_eq. by split_and!.
  - intros n id [raw Hraw]. unfold ex_conf. rw Hraw. by eapply ex_get_ok.
  - intros n id [raw Hraw]. cbn. unfold ex_end. rw Hraw. by eexists.
  - intros n id [raw Hraw]. cbn. unfold ex_end, ex_conf. rw Hraw. by eexists.
  - intros f id n [raw Hraw] _. unfold ex_conf. rw Hraw /=. intros Hnone. eapply ex_call_ok; [done| |].
    + apply seen_on_frontends. unfold ex_create. rw renamed_lookup in Hnone.
      destruct (raw.1 !! fe_Name f) eqn:E; done.
    + unfold seen. cbn. by rw renamed_insert.
  - intros f id n [raw Hraw]. unfold ex_conf. rw Hraw /=. intros (old & Hold & _)%ex_stored.
    eexists n, _. split; [by cbn; unfold ex_call; rw Hraw /= /on_frontends /ex_create Hold|].
    unfold writes, ex_conf, ex_is_open. rw Hraw. by split_and!.
  - intros f id n old [raw Hraw] _. unfold ex_conf. rw Hraw /= renamed_lookup. intros Hold.
    destruct (raw.1 !! fe_Name f) as [o|] eqn:E; [|done]. injection Hold as <-.
    eapply ex_call_ok; [done|apply seen_on_frontends; unfold ex_edit; by rw E|]. unfold seen. cbn. by rw renamed_insert.
  - intros k id n [raw Hraw]. unfold ex_conf. rw Hraw /=. intros (old & Hold & _)%ex_stored.
    eapply ex_call_ok; [done|apply seen_on_frontends; unfold ex_delete; by rw Hold|]. unfold seen. cbn. by rw renamed_delete.
  - intros b id n [raw Hraw] _. unfold ex_conf. rw Hraw /=. intros Hnone. eapply ex_call_ok; [done| |].
    + apply seen_on_backends. unfold ex_create. rw renamed_lookup in Hnone.
      destruct (raw.2 !! be_Name b) eqn:E; done.
    + unfold seen. cbn. rw renamed_insert. by destruct b as [? ? ? []].
  - intros b id n [raw Hraw]. unfold ex_conf. rw Hraw /=. intros (old & Hold & _)%ex_stored.
    eexists n, _. split; [by cbn; unfold ex_call; rw Hraw /= /on_backends /ex_create Hold|].
    unfold writes, ex_conf, ex_is_open. rw Hraw. by split_and!.
  - intros b id n old [raw Hraw] _. unfold ex_conf. rw Hraw /= renamed_lookup. intros Hold.
    destruct (raw.2 !! be_Name b) as [o|] eqn:E; [|done]. injection Hold as <-.
    eapply ex_call_ok; [done|apply seen_on_backends; unfold ex_edit; by rw E|]. unfold seen. cbn. rw renamed_insert.
    by destruct b as [? ? ? []].
  - intros k id n [raw Hraw]. unfold ex_conf. rw Hraw /=. intros (old & Hold & _)%ex_stored.
    eapply ex_call_ok; [done|apply seen_on_backends; unfold ex_delete; by rw Hold|]. unfold seen. cbn. by rw renamed_delete.
  - intros k id n be [raw Hraw]. unfold ex_conf. rw Hraw /=. intros Hbe.
    eapply ex_get_ok; [done|]. cbn. by rw Hbe.
  - intros k id n be [raw Hraw]. unfold ex_conf. rw Hraw /= renamed_lookup.
    destruct (raw.2 !! k); cbn; [|done]. by intros [= <-].
  - apply ex_named_laws; [exact seen_put_Binds|exact seen_Binds].
  - apply ex_named_laws; [exact seen_put_Servers|exact seen_Servers].
  - apply ex_rules_laws. intros x sec name cf. apply seen_put_list; [done|by intros k [? ? ? []]].
  - apply ex_rules_laws. intros x sec name cf. apply seen_put_list; [done|by intros k [? ? ? []]].
  - apply ex_rules_laws. intros x. by apply seen_put_frontend.
  - assert (Hs : rule_laws ex_committed ex_conf ex_is_open (ex_rules v_BackendSwitchingRules) v_BackendSwitchingRules)
      by (apply ex_rules_laws; intros x; by apply seen_put_frontend).
    destruct Hs as [Hget Hdel Hcr]. split.
    + intros [|] *; [apply (Hget parser_Frontends)|done].
    + intros i [|] *; [apply (Hdel i parser_Frontends)|done].
    + intros i [|] *; [apply (Hcr i parser_Frontends)|done].
Qed.

#[local] Existing Instance key_order.

(** A process that runs the file it last read. *)
#[local] Instance example_process : ProcessControl ExNative ExConf := {|
  Service action n p := if bool_decide (action = "reload") then (ex_committed n, ("", None)) else (p, ("", None))
|}.

#[local] Instance example_md5 : Md5 := id.

Definition example_be (servers : gmap string ServerModel) : ExBackend :=
  mkBackend "hug_ns_svc_80__" ∅ servers
    (mkBackendBase "http" "" "" "" 0 None "" (mkExampleExtra true [] [])).

Lemma example_be_ok servers : (∀ k s, servers !! k = Some s → srv_Name s = k) → be_ok (example_be servers).
Proof. intros Hs. split; [done|done| |constructor|constructor]. intros k s Hk. split; [by apply Hs|done]. Qed.

Definition example_app (cf : ExConf) (rlm : reloadMgr) : App (N := ExNative) (P := ExConf) :=
  mkApp (mkExNative cf ∅) "" "" rlm cf.

Definition example_fe : FrontendModel :=
  mkFrontend "web" "" ∅ "" "http" (aclList "txn.route" "{") [] [] (backendSwitchingRules "txn.backend")
    {[ "b" := mkBind "b" 80 "0.0.0.0" "" false ]}.

Definition example_empty : Configuration FrontendModel ServerModel (BackendBase ExampleExtra) :=
  mkConfiguration (mkSections ∅ ∅ ∅ ∅ ∅) (mkSections ∅ ∅ ∅ ∅ ∅) false.

Definition example_cycle : list (ConfOp (Frontend := FrontendModel)) :=
  [UpsertFrontend (Some example_fe); UpsertBackend (Some (example_be ∅));
   UpsertServers "hug_ns_svc_80__" {[ "SRV_old" := example_old_server ]}].

Lemma client_writes_and_reloads_witness :
  let c' := run_cycle fe_Name (λ a b, bool_decide (a = b)) example_empty example_cycle in
  ∃ t', applyCfgUpdates c' (example_app (∅, ∅) (mkReloadMgr false false false)) = (t', None) ∧
    app_process t' = ({[ "web" := example_fe ]},
      {[ "hug_ns_svc_80__" := example_be {[ "SRV_old" := example_old_server ]} ]}).
Proof.
  intros c'.
  destruct (client_writes_and_reloads key_order ExampleExtra _ _ _ ExNative ExConf _ _ _ ex_committed ex_conf
    ex_is_open ex_text _ _ _ _ _ _ _ _ _ (λ a b, bool_decide (a = b)) example_empty example_cycle
    (example_app (∅, ∅) (mkReloadMgr false false false)) example_native_laws) as (t' & err & Happ & Hfile & Hor).
  - split; split; intros n loc Hn; cbn in Hn; by apply lookup_empty_Some in Hn.
  - assert (objs (c_Frontends c') = {[ 0 := example_fe ]}) as Hf by vm_refl.
    assert (objs (c_Backends c') = {[ 0 := example_be {[ "SRV_old" := example_old_server ]} ]}) as Hb by vm_refl.
    fold c'. split.
    + rw Hf. intros loc fe [_ <-]%lookup_singleton_Some. split; try done; try by repeat constructor.
      intros k b Hk. cbn in Hk. by apply lookup_singleton_Some in Hk as [<- <-].
    + rw Hb. intros loc be [_ <-]%lookup_singleton_Some. apply example_be_ok.
      intros k s [<- <-]%lookup_singleton_Some. done.
  - intros n Hn. exfalso. by apply (not_elem_of_empty (C := gset string) n).
  - intros n Hn. exfalso. by apply (not_elem_of_empty (C := gset string) n).
  - vm_refl.
  - intros H. exfalso. revert H. vm_compute. intros H. discriminate H.
  - fold c' in Happ, Hfile, Hor. destruct Hor as [(_ & _ & Hno)|[msg Hs]].
    { exfalso. apply Hno. left. intros H. apply (f_equal size) in H. revert H. vm_compute. intros H. discriminate H. }
    assert ((ex_committed (nativeAPI t'), ("", None)) = (app_process t', (msg, err))) as [= Hp _ <-] by exact Hs.
    exists t'. split; [exact Happ|]. rw -Hp Hfile. vm_refl.
Defined.

(** The edition of a frontend the file does not have: nothing is written. *)
Lemma failed_apply_keeps_file_witness :
  let c := mkConfiguration (mkSections {[ 0 := example_fe ]} {[ "web" := 0 ]} ∅ {[ "web" := 0 ]} ∅)
    (c_Backends example_empty) false : Configuration FrontendModel ServerModel (BackendBase ExampleExtra) in
  let t := example_app (∅, {[ "kept" := example_be ∅ ]}) (mkReloadMgr false false false) in
  let r := applyCfgUpdates c t in
  is_Some r.2 ∧ activeTransaction r.1 = "" ∧ ex_committed (nativeAPI r.1) = ex_committed (nativeAPI t) ∧
  app_process r.1 = app_process t.
Proof.
  intros c t r.
  assert (∃ err, r = (r.1, Some err)) as [err Hr].
  { assert (∃ err, r.2 = Some err) as [err He] by (eexists; vm_compute; reflexivity).
    exists err. rw -He. apply surjective_pairing. }
  destruct (failed_apply_keeps_file key_order ExampleExtra _ _ ExNative ExConf _ _ _ _ ex_committed ex_is_open
    c t r.1 _ example_isolated Hr) as (Hact & [[H1 H2]|[msg Hs]]).
  - split_and!; [|done..]. rw Hr. by eexists.
  - exfalso. apply (f_equal (λ x, match x.2.2 with Some _ => true | None => false end)) in Hs.
    match type of Hs with ?l = _ => assert (l = false) as Hl by vm_refl end. rw Hl in Hs. discriminate Hs.
Defined.

(** A pod is replaced by another one: the runtime takes the old server out, and
    HAProxy, which was not reloaded, has none. *)
Definition example_replaced : EndpointsCycle (Extra := ExampleExtra) (T := list string) :=
  process_backend (SP := example_server_params) (RT := example_runtime_servers)
    {[ NN "ns" "svc" := example_service 80 ]} (NN "ns" "svc")
    {[ "IPv4" := mkEndpoints [ {| ep_Addresses := ["10.0.0.1"]; ep_Ready := Some true |} ] (eps_Ports example_slice) ]}
    (mkEndpointsCycle (mkSections {[ 0 := example_be {[ "SRV_old" := example_old_server ]} ]}
       {[ "hug_ns_svc_80__" := 0 ]} ∅ ∅ ∅) [] (mkReloadMgr false false false) [])
    example_be_port.

Lemma added_servers_not_loaded_witness :
  let c := mkConfiguration (c_Frontends example_empty) (ec_conf example_replaced) false in
  let t := example_app (∅, {[ "hug_ns_svc_80__" := example_be {[ "SRV_old" := example_old_server ]} ]})
    (ec_reload example_replaced) in
  ∃ t', applyCfgUpdates c t = (t', None) ∧
    (λ be, dom (be_Servers be)) <$> (ex_committed (nativeAPI t')).2 !! "hug_ns_svc_80__" =
      Some {[ example_server_name ]} ∧
    (λ be, dom (be_Servers be)) <$> (app_process t').2 !! "hug_ns_svc_80__" = Some {[ "SRV_old" ]}.
Proof.
  intros c t.
  assert (view (c_Backends c) (updated (c_Backends c)) = {[ "hug_ns_svc_80__" :=
    example_be {[ example_server_name := mkServer example_server_name "10.0.0.1" 8080 "disabled" ]} ]}) as Hv by vm_refl.
  destruct (added_servers_not_loaded key_order ExampleExtra _ _ _ ExNative ExConf _ _ _ ex_committed ex_conf
    ex_is_open ex_text _ _ _ _ _ _ _ _ _ c t example_native_laws) as (t' & Happ & Hfile & Hproc).
  - vm_refl.
  - vm_refl.
  - vm_refl.
  - intros H. apply (f_equal size) in H. revert H. vm_compute. intros H. discriminate H.
  - intros n loc Hn. assert (updated (c_Backends c) = {[ "hug_ns_svc_80__" := 0 ]}) as Hu by vm_refl.
    rw Hu in Hn. apply lookup_singleton_Some in Hn as [<- <-].
    exists (example_be {[ example_server_name := mkServer example_server_name "10.0.0.1" 8080 "disabled" ]}).
    split; vm_refl.
  - rw Hv. intros n be [<- <-]%lookup_singleton_Some. split.
    + apply example_be_ok. intros k s [<- <-]%lookup_singleton_Some. done.
    + exists (example_be {[ "SRV_old" := example_old_server ]}). split; vm_refl.
  - vm_refl.
  - vm_refl.
  - vm_refl.
  - intros H. exfalso. revert H. vm_compute. intros H. discriminate H.
  - exists t'. split; [exact Happ|]. rw Hfile Hproc Hv. split; vm_refl.
Defined.
