(* ===== verification/Process.v ===== *)
(** * Process: hug/haproxy/process, the processes of HAProxy

    How HAProxy is started, stopped and reloaded: directly, through s6 or through
    pebble; and the goroutine of hug/haproxy/main.go that applies the diffs it
    receives.  The operating system, the master socket and the polling of
    apimachinery are a class [OS] over a state of the world. *)

From Stdlib Require Import Ascii.
From S2P Require Import Prelude GoStrings FileUtils Objects Utils HaproxyConf Backends Servers Frontends Client ClientRuns.

(** ** [strconv.Atoi] *)
Definition digit_of (c : ascii) : option Z :=
  let n := (Z.of_N (N_of_ascii c) - 48)%Z in
  if bool_decide (0 ≤ n ∧ n ≤ 9)%Z then Some n else None.

Fixpoint digits_value (acc : Z) (s : string) : option Z :=
  match s with
  | EmptyString => Some acc
  | String c s => d ← digit_of c; digits_value (10 * acc + d) s
  end.

Definition Atoi (s : string) : result Z :=
  let '(neg, digits) :=
    match s with
    | String "-" s => (true, s)
    | String "+" s => (false, s)
    | _ => (false, s)
    end in
  match digits with
  | EmptyString => Err "invalid syntax"
  | _ =>
      match digits_value 0 digits with
      | None => Err "invalid syntax"
      | Some n =>
          let v := if neg : bool then (- n)%Z else n in
          if bool_decide (- 2 ^ 63 ≤ v < 2 ^ 63)%Z then Ok v else Err "value out of range"
      end
  end.

(** ** haproxyconf_params.go: [HaproxyDirs] *)
Record HaproxyDirs := mkHaproxyDirs {
  CfgDir : string;
  MainCfgFile : string;
  RouteLuaFile : string;
  HaproxyBinary : string;
  RuntimeDir : string;
  StateDir : string;
  AuxDir : string;
  PIDFile : string;
  RuntimeSocket : string;
  MasterSocket : string;
  PatternDir : string;
  ErrFileDir : string;
  CertsDir : string;
  CertListDir : string;
  MapsDir : string
}.

(** ** params/params.go *)
Record Params := mkParams {
  prm_HaproxyDirs :> HaproxyDirs;
  prm_Test : bool;
  ForceRestart : bool;
  UseWiths6Overlay : bool;
  UseWithPebble : bool
}.

(** What the code asks of the operating system, of the master socket of HAProxy
    and of [wait.PollUntilContextTimeout]. *)
Class OS (W : Type) := {
  os_Open : string → W → File;
  os_Stat : string → W → option string;
  os_FindProcess : Z → W → option string;
  (** [Signal(0)], which only tells whether the process is there *)
  Signal_0 : Z → W → option string;
  Signal_SIGUSR1 : Z → W → W * option string;
  cmd_Start : list string → W → W * option string;
  cmd_Run : list string → W → W * option string;
  (** [runtime.New], which waits for the socket *)
  runtime_New : string → W → W * option string;
  masterSocket_Reload : string → W → W * (string * option string);
  PollUntilContextTimeout : (W → bool) → W → W * option string
}.

(** The polling only succeeds on its condition. *)
Class OSLaws W `{OS W} := {
  Poll_ok cond w w' : PollUntilContextTimeout cond w = (w', None) → cond w' = true
}.

Section process.
Context {W : Type} {OSW : OS W}.
Implicit Types (w : W).

(** What [Service] returns, with the world it leaves. *)
Definition Answer : Type := W * (string * option string).

(** ** interface.go *)

(** The first token of a [bufio.Scanner]; none is the empty text. *)
Definition first_line (content : string) : string :=
  match raw_lines content with
  | line :: _ => if Nat.leb max_line (String.length line) then "" else drop_cr line
  | [] => ""
  end.

Definition haproxyProcess (pidFile : string) w : result Z :=
  match os_Open pidFile w with
  | NoFile => Err "no such file or directory"
  | FileError err => Err err
  | Content content =>
      match Atoi (first_line content) with
      | Err err => Err err
      | Ok pid =>
          match os_FindProcess pid w with
          | Some err => Err err
          | None => match Signal_0 pid w with Some err => Err err | None => Ok pid end
          end
      end
  end.

(** ** direct-control.go *)
Record directControl := mkDirect {
  dc_Params : Params;
  useAuxFile : bool;
  masterSocketValid : bool
}.
Implicit Types (d : directControl) (p : Params).

Definition start_args d : list string :=
  let p := dc_Params d in
  [HaproxyBinary p; "-W"; "-S"; MasterSocket p +:+ ",level,admin"; "-f"; MainCfgFile p] ++
  (if useAuxFile d then ["-f"; AuxDir p] else []).

Definition waitUntilGone d w : W * option string :=
  PollUntilContextTimeout (λ w, negb (is_ok (haproxyProcess (PIDFile (dc_Params d)) w))) w.

(** [Service] calls itself; [None] is the end of the fuel. *)
Fixpoint direct_Service_fuel (fuel : nat) d (action : string) w : option Answer :=
  match fuel with
  | O => None
  | S fuel =>
      if prm_Test (dc_Params d) then Some (w, ("", None))
      else
        let process := haproxyProcess (PIDFile (dc_Params d)) w in
        if bool_decide (action = "start") then
          match process with
          | Ok _ =>
              if ForceRestart (dc_Params d) then
                '(w, (msg, err)) ← direct_Service_fuel fuel d "stop" w;
                match err with
                | Some _ => Some (w, (msg, err))
                | None =>
                    match waitUntilGone d w with
                    | (w, Some err) => Some (w, ("", Some err))
                    | (w, None) =>
                        '(w, (msg, err)) ← direct_Service_fuel fuel d "start" w;
                        match err with
                        | Some _ => Some (w, (msg, err))
                        | None => direct_Service_fuel fuel d "reload" w
                        end
                    end
                end
              else direct_Service_fuel fuel d "reload" w
          | Err _ => let '(w, err) := cmd_Start (start_args d) w in Some (w, ("", err))
          end
        else if bool_decide (action = "stop") then
          match process with
          | Err err => Some (w, ("", Some err))
          | Ok pid => let '(w, err) := Signal_SIGUSR1 pid w in Some (w, ("", err))
          end
        else if bool_decide (action = "reload") then
          if masterSocketValid d then
            match masterSocket_Reload (MasterSocket (dc_Params d)) w with
            | (w, (_, None)) => Some (w, ("", None))
            | (w, (msg, Some err)) => Some (w, (msg, Some err))
            end
          else
            match process with
            | Err _ => direct_Service_fuel fuel d "start" w
            | Ok _ => Some (w, ("", None))
            end
        else Some (w, ("", Some ("unknown command '" +:+ action +:+ "'")))
  end.

(** Three calls are enough ([direct_Service_terminates]). *)
Definition direct_Service d (action : string) w : Answer :=
  default (w, ("", Some "out of fuel")) (direct_Service_fuel 3 d action w).

Definition direct_UseAuxFile (b : bool) d : directControl := mkDirect (dc_Params d) b (masterSocketValid d).

(** The answer to the start is not looked at. *)
Definition newDirectControl p w : directControl * W :=
  let dc := mkDirect p false false in
  let '(w, _) := direct_Service dc "start" w in
  match runtime_New (MasterSocket p) w with
  | (w, Some _) => (dc, w)
  | (w, None) => (mkDirect p false true, w)
  end.

(** ** s6-overlay.go, pebble.go *)
Record overlayControl := mkOverlay { oc_Params : Params; oc_masterSocketValid : bool }.
Implicit Types (o : overlayControl).

Definition MASTER_SOCKET_PATH : string := "/var/run/haproxy-master.sock".

Definition newOverlayControl p w : overlayControl * W :=
  let '(w, err) := runtime_New MASTER_SOCKET_PATH w in (mkOverlay p (bool_decide (err = None)), w).

Definition overlay_Service (command : list string) o (action : string) w : Answer :=
  if prm_Test (oc_Params o) then (w, ("", None))
  else if bool_decide (action = "start") then (w, ("", None))
  else if bool_decide (action = "stop") then (w, ("", None))
  else if bool_decide (action = "reload") then
    let restart w : Answer := let '(w, err) := cmd_Run command w in (w, ("", err)) in
    if oc_masterSocketValid o then
      match masterSocket_Reload MASTER_SOCKET_PATH w with
      | (w, (msg, None)) => (w, (msg, None))
      | (w, (_, Some _)) => restart w
      end
    else restart w
  else (w, ("", Some ("unknown command '" +:+ action +:+ "'"))).

Definition s6Control_Service := overlay_Service ["s6-svc"; "-2"; "/run/service/haproxy"].
Definition pebbleControl_Service := overlay_Service ["pebble"; "restart"; "haproxy"].

(** ** [process.Process] and its [New] *)
Inductive Process := Pebble (o : overlayControl) | S6 (o : overlayControl) | Direct (d : directControl).

Definition Process_Service (pr : Process) : string → W → Answer :=
  match pr with
  | Pebble o => pebbleControl_Service o
  | S6 o => s6Control_Service o
  | Direct d => direct_Service d
  end.

Definition UseAuxFile (b : bool) (pr : Process) : Process :=
  match pr with Direct d => Direct (direct_UseAuxFile b d) | _ => pr end.

Definition process_New p w : Process * W :=
  if UseWithPebble p then let '(o, w) := newOverlayControl p w in (Pebble o, w)
  else if UseWiths6Overlay p then let '(o, w) := newOverlayControl p w in (S6 o, w)
  else
    let '(d, w) := newDirectControl p w in
    match os_Stat (AuxDir p) w with
    | None => (UseAuxFile true (Direct d), w)
    | Some _ => (Direct d, w)
    end.

(** The client of the configuration drives a process in its world. *)
#[export] Instance os_process {N} : ProcessControl N (Process * W) := {|
  Service action n pw := let '(w, answer) := Process_Service pw.1 action pw.2 in ((pw.1, w), answer)
|}.

(** ** What [Service] does, without its recursion *)
Definition reload_answer d w : Answer :=
  if masterSocketValid d then
    match masterSocket_Reload (MasterSocket (dc_Params d)) w with
    | (w, (_, None)) => (w, ("", None))
    | (w, (msg, Some err)) => (w, (msg, Some err))
    end
  else if is_ok (haproxyProcess (PIDFile (dc_Params d)) w) then (w, ("", None))
  else let '(w, err) := cmd_Start (start_args d) w in (w, ("", err)).

Definition restart_answer d (pid : Z) w : Answer :=
  match Signal_SIGUSR1 pid w with
  | (w, Some err) => (w, ("", Some err))
  | (w, None) =>
      match waitUntilGone d w with
      | (w, Some err) => (w, ("", Some err))
      | (w, None) =>
          match cmd_Start (start_args d) w with
          | (w, Some err) => (w, ("", Some err))
          | (w, None) => reload_answer d w
          end
      end
  end.

Definition service_answer d (action : string) w : Answer :=
  if prm_Test (dc_Params d) then (w, ("", None))
  else if bool_decide (action = "start") then
    match haproxyProcess (PIDFile (dc_Params d)) w with
    | Ok pid => if ForceRestart (dc_Params d) then restart_answer d pid w else reload_answer d w
    | Err _ => let '(w, err) := cmd_Start (start_args d) w in (w, ("", err))
    end
  else if bool_decide (action = "stop") then
    match haproxyProcess (PIDFile (dc_Params d)) w with
    | Err err => (w, ("", Some err))
    | Ok pid => let '(w, err) := Signal_SIGUSR1 pid w in (w, ("", err))
    end
  else if bool_decide (action = "reload") then reload_answer d w
  else (w, ("", Some ("unknown command '" +:+ action +:+ "'"))).
End process.

Section direct.
Context {W : Type} {OSW : OS W}.
Implicit Types (w : W) (d : directControl).

Lemma Service_reload fuel d w :
  prm_Test (dc_Params d) = false → direct_Service_fuel (2 + fuel) d "reload" w = Some (reload_answer d w).
Proof using Type.
  intros Ht. unfold reload_answer. cbn. rw Ht. destruct (masterSocketValid d).
  { by destruct (masterSocket_Reload _ w) as [w' [msg [err|]]]. }
  destruct (haproxyProcess _ w); [done|]. cbn. by destruct (cmd_Start _ w).
Qed.

Lemma Service_start_idle fuel d w err :
  prm_Test (dc_Params d) = false → haproxyProcess (PIDFile (dc_Params d)) w = Err err →
  direct_Service_fuel (S fuel) d "start" w = Some (let '(w, err) := cmd_Start (start_args d) w in (w, ("", err))).
Proof using Type. intros Ht Hp. cbn. rw Ht Hp. by destruct (cmd_Start _ w). Qed.

Lemma Service_stop fuel d w pid :
  prm_Test (dc_Params d) = false → haproxyProcess (PIDFile (dc_Params d)) w = Ok pid →
  direct_Service_fuel (S fuel) d "stop" w = Some (let '(w, err) := Signal_SIGUSR1 pid w in (w, ("", err))).
Proof using Type. intros Ht Hp. cbn. rw Ht Hp. by destruct (Signal_SIGUSR1 pid w). Qed.

Lemma Service_spec `{!OSLaws W} fuel d action w :
  direct_Service_fuel (3 + fuel) d action w = Some (service_answer d action w).
Proof using Type.
  unfold service_answer. destruct (prm_Test (dc_Params d)) eqn:Ht; [cbn; by rw Ht|].
  pose proof (λ w, Service_reload fuel d w Ht) as Hreload.
  pose proof (λ w err, Service_start_idle (S fuel) d w err Ht) as Hstart.
  pose proof (λ w pid, Service_stop (S fuel) d w pid Ht) as Hstop.
  change (S (S fuel)) with (2 + fuel) in Hstart, Hstop. change (3 + fuel) with (S (2 + fuel)).
  revert Hreload Hstart Hstop. generalize (2 + fuel) as f. intros f Hreload Hstart Hstop.
  cbn [direct_Service_fuel]. rw Ht. case_bool_decide as Hs; [|case_bool_decide].
  - destruct (haproxyProcess _ w) as [pid|err] eqn:Hp; [|by destruct (cmd_Start _ w)].
    destruct (ForceRestart _); [|by apply Hreload].
    rw (Hstop _ _ Hp). unfold restart_answer.
    destruct (Signal_SIGUSR1 pid w) as [w1 [e|]]; [done|]. cbn [mbind option_bind].
    destruct (waitUntilGone d w1) as [w2 [e|]] eqn:Hw; [done|].
    apply Poll_ok in Hw. destruct (haproxyProcess (PIDFile (dc_Params d)) w2) as [|e2] eqn:Hp2; [done|].
    rw (Hstart _ _ Hp2). destruct (cmd_Start _ w2) as [w3 [e|]]; [done|]. apply Hreload.
  - destruct (haproxyProcess _ w); [|done]. by destruct (Signal_SIGUSR1 _ w).
  - case_bool_decide; [|done]. unfold reload_answer. destruct (masterSocketValid d).
    { by destruct (masterSocket_Reload _ w) as [w1 [msg [e|]]]. }
    destruct (haproxyProcess _ w) eqn:Hp; [done|]. by rw (Hstart _ _ Hp).
Qed.
End direct.

(** ** The goroutine of [Run] *)
Section run.
Context {RO : RangeOrder} {Extra : Type} {EqE : EqDecision Extra} {BL : BackendLists Extra}.
Context {N P : Type} {CN : ClientNative Extra N} {PC : ProcessControl N P} {MD : Md5}.
Abbreviation State := (App (N := N) (P := P)).
Abbreviation Conf := (Configuration FrontendModel ServerModel (BackendBase Extra)).
Implicit Types (t : State) (c : Conf).

(** What [select] receives. *)
Inductive AppEvent := CtxDone | HaproxyCfg (c : Conf).

(** The errors are logged. *)
Fixpoint Run (events : list AppEvent) t : State * list string :=
  match events with
  | [] | CtxDone :: _ => (t, [])
  | HaproxyCfg c :: events =>
      let '(t, err) := applyCfgUpdates c t in
      let '(t, errs) := Run events t in (t, option_list err ++ errs)
  end.

Definition Stop t : State := set_process (Service "stop" (nativeAPI t) (app_process t)).1 t.

(** *** [confUpdateProcessed]: what is reported of a cycle *)
Record HaproxyConfUpdateResult := mkUpdateResult {
  res_Error : option string;
  UpdatedSectionsMetaData : gmap string MetaData
}.

Definition addFrontendMetadataToResult (meta : gmap string MetaData) (fe : option FrontendModel) :
    gmap string MetaData :=
  match fe with Some fe => <[fe_Name fe := fe_Metadata fe]> meta | None => meta end.

Definition addBackendMetadataToResult (meta : gmap string MetaData)
    (be : option (BackendModel ServerModel (BackendBase Extra))) : gmap string MetaData :=
  match be with Some be => <[be_Name be := be_Metadata be]> meta | None => meta end.

(** The sections that were deleted are nil. *)
Definition confUpdateProcessed c (err : option string) : HaproxyConfUpdateResult :=
  let fes := c_Frontends c in
  let bes := c_Backends c in
  let meta := foldl addFrontendMetadataToResult ∅ (Some <$> pointed fes (created fes)) in
  let meta := foldl addFrontendMetadataToResult meta (Some <$> pointed fes (updated fes)) in
  let meta := foldl addFrontendMetadataToResult meta ((λ _, None) <$> range_set (removed fes)) in
  let meta := foldl addBackendMetadataToResult meta (Some <$> pointed bes (created bes)) in
  let meta := foldl addBackendMetadataToResult meta (Some <$> pointed bes (updated bes)) in
  let meta := foldl addBackendMetadataToResult meta ((λ _, None) <$> range_set (removed bes)) in
  mkUpdateResult err meta.

Lemma record_metadata {M} (name : M → string) (md : M → MetaData) (meta : gmap string MetaData) (l : list M) n b :
  b ∈ l → name b = n → (∀ b', b' ∈ l → name b' = n → b' = b) →
  foldl (λ meta b, <[name b := md b]> meta) meta l !! n = Some (md b).
Proof using Type.
  intros Hb Hn Huniq. induction l as [|a l IH] using rev_ind; [by apply elem_of_nil in Hb|]. rw foldl_app /=.
  destruct (decide (name a = n)) as [Ha|Ha].
  - rw Ha lookup_insert_eq. f_equal. f_equal. apply Huniq; [|done]. apply elem_of_app. right. by left.
  - rw lookup_insert_ne //. apply IH; [|intros b' Hb'; apply Huniq, elem_of_app; by left].
    apply elem_of_app in Hb as [?|?%list_elem_of_singleton]; [done|]. congruence.
Qed.

(** The report has the metadata of every backend that was edited. *)
Lemma confUpdateProcessed_backend c err n b :
  wf_sections be_Name (c_Backends c) → view (c_Backends c) (updated (c_Backends c)) !! n = Some b →
  UpdatedSectionsMetaData (confUpdateProcessed c err) !! n = Some (be_Metadata b).
Proof using Type.
  intros Hwf Hb. unfold confUpdateProcessed. cbn [UpdatedSectionsMetaData]. cbv zeta.
  assert (∀ (meta : gmap string MetaData) (X : gset string),
    foldl addBackendMetadataToResult meta ((λ _, None) <$> range_set X) = meta) as ->.
  { intros meta X. by induction (range_set X) as [|x l IH]. }
  generalize (foldl addBackendMetadataToResult (foldl addFrontendMetadataToResult (foldl addFrontendMetadataToResult
    (foldl addFrontendMetadataToResult ∅ (Some <$> pointed (c_Frontends c) (created (c_Frontends c))))
    (Some <$> pointed (c_Frontends c) (updated (c_Frontends c))))
    ((λ _, None) <$> range_set (removed (c_Frontends c)))) (Some <$> pointed (c_Backends c) (created (c_Backends c)))).
  intros meta. assert (foldl addBackendMetadataToResult meta (Some <$> pointed (c_Backends c) (updated (c_Backends c))) =
    foldl (λ meta b, <[be_Name b := be_Metadata b]> meta) meta (pointed (c_Backends c) (updated (c_Backends c)))) as ->.
  { generalize (pointed (c_Backends c) (updated (c_Backends c))) as l. intros l. revert meta.
    induction l as [|a l IH]; intros meta; [done|]. apply IH. }
  unfold view in Hb. rw lookup_omap in Hb. destruct (updated (c_Backends c) !! n) as [loc|] eqn:Hn; [|done]. cbn in Hb.
  destruct (wf_updated _ _ Hwf _ _ Hn) as (b' & Hb' & Hname). rw Hb in Hb'. injection Hb' as <-.
  apply (record_metadata be_Name).
  - apply list_elem_of_omap. exists (n, loc). split; [by apply elem_of_range|done].
  - done.
  - intros b' Hin Hname'. pose proof (view_pointed be_Name _ _ _ (wf_updated _ _ Hwf) Hin) as Hv.
    unfold view in Hv. rw Hname' lookup_omap Hn /= Hb in Hv. congruence.
Qed.

(** A cycle up to its reload. *)
Definition committed c t : State * option string :=
  step clientNative_APIFinalCommitTransaction (process_all c (clientNative_APIStartTransaction t)).

Lemma committed_same_process c t : app_process (committed c t).1 = app_process t.
Proof using Type.
  unfold committed, step. destruct (process_all _ _).2 eqn:He.
  - by rw process_all_same_process start_same_process.
  - rw (proj1 (commit_keeps_process _)) process_all_same_process. apply start_same_process.
Qed.

(** The reload at the end of a cycle. *)
Definition reload_after (r : State * option string) : State * option string :=
  step (λ t, if reload_NeedReload (app_reload t) then service_reload t else (t, None)) r.

Lemma applyCfgUpdates_committed c t :
  Sections_IsEmpty (c_Frontends c) && Sections_IsEmpty (c_Backends c) && negb (ReloadNeed c) = false →
  applyCfgUpdates c t = (let r := reload_after (committed c t) in (clientNative_APIDisposeTransaction r.1, r.2)).
Proof using Type. intros H. unfold applyCfgUpdates. by rw H. Qed.
End run.

(** ** Properties *)

(** C31: the service of the process control ends: [Service] calls itself at most
    twice, whatever the action, the state of HAProxy and the settings, so three
    calls are enough fuel; and what it returns is [service_answer], which says
    branch by branch what is sent to the operating system: a start when nothing
    runs, a stop, a wait and a start (then a reload) when a restart is forced, and
    a reload otherwise. *)
Theorem direct_Service_terminates W (OSW : OS W) (OSL : OSLaws W) fuel d action (w : W) :
  3 ≤ fuel →
  direct_Service_fuel fuel d action w = Some (direct_Service d action w) ∧
  direct_Service d action w = service_answer d action w.
Proof.
  intros Hf. unfold direct_Service. rw (Service_spec 0). split; [|done].
  destruct (Nat.le_exists_sub 3 fuel Hf) as (k & -> & _). rw Nat.add_comm. apply Service_spec.
Qed.

(** A reload that is not done is not an error.  When the master socket could
    not be opened at start, the process control of HAProxy keeps no socket: while
    HAProxy runs, a cycle that is committed succeeds, and the process was not told
    to read the new file, whatever the reload manager asked for. *)
Theorem silent_reload (RO : RangeOrder) Extra (EqE : EqDecision Extra) (BL : BackendLists Extra) N W
    (CN : ClientNative Extra N) (OSW : OS W) (MD : Md5) p w0 w pid
    (c : Configuration FrontendModel ServerModel (BackendBase Extra)) (t : App (N := N) (P := Process * W)) :
  UseWithPebble p = false → UseWiths6Overlay p = false →
  (∀ w, is_Some (runtime_New (MasterSocket p) w).2) →
  app_process t = ((process_New p w0).1, w) → haproxyProcess (PIDFile p) w = Ok pid →
  (committed c t).2 = None →
  ∃ t', applyCfgUpdates c t = (t', None) ∧ app_process t' = app_process t.
Proof.
  intros Hp Hs Hsock Ht Hpid Hok.
  assert (∃ d, (process_New p w0).1 = Direct d ∧ masterSocketValid d = false ∧ dc_Params d = p) as (d & Hd & Hv & Hdp).
  { unfold process_New, newDirectControl. rw Hp Hs. destruct (direct_Service _ _ w0) as [w1 a].
    destruct (Hsock w1) as [e He]. destruct (runtime_New _ w1) as [w2 e2]. cbn in He. subst e2.
    by destruct (os_Stat _ w2); eexists. }
  destruct (Sections_IsEmpty (c_Frontends c) && Sections_IsEmpty (c_Backends c) && negb (ReloadNeed c)) eqn:He.
  { exists t. unfold applyCfgUpdates. by rw He. }
  rw applyCfgUpdates_committed //. pose proof (committed_same_process c t) as Hproc.
  destruct (committed c t) as [t1 err]. cbn in Hok, Hproc. subst err.
  assert ((reload_after (t1, None)).2 = None ∧ app_process (reload_after (t1, None)).1 = app_process t) as [Hr Hr'].
  { unfold reload_after, step. cbn. destruct (reload_NeedReload _); [|done].
    unfold service_reload. rw Hproc Ht Hd. cbn. unfold direct_Service. cbn. rw Hdp Hv Hpid. by destruct (prm_Test p). }
  eexists. cbn. rw Hr. by split.
Qed.

(** A forced restart can start two processes.  The control is built without a
    master socket, starts HAProxy, and at once asks for a reload, which looks for
    the process again: if the new process has not written its file by then, HAProxy
    is started a second time. *)
Theorem restart_starts_twice W (OSW : OS W) (OSL : OSLaws W) p (w w1 w2 w3 : W) pid :
  prm_Test p = false → ForceRestart p = true →
  let d := mkDirect p false false in
  haproxyProcess (PIDFile p) w = Ok pid → Signal_SIGUSR1 pid w = (w1, None) →
  waitUntilGone d w1 = (w2, None) → cmd_Start (start_args d) w2 = (w3, None) →
  is_ok (haproxyProcess (PIDFile p) w3) = false →
  direct_Service d "start" w = (let '(w4, err) := cmd_Start (start_args d) w3 in (w4, ("", err))).
Proof.
  intros Ht Hf d Hpid Hsig Hwait Hstart Hgone. unfold direct_Service. rw (Service_spec 0). cbn.
  unfold service_answer, restart_answer, reload_answer. cbn in *.
  rw Ht Hf Hpid Hsig Hwait. by rw Hstart Hgone.
Qed.

(** The auxiliary files are never given to HAProxy at start: the process control
    starts it before it is told to use them, even where their directory exists. *)
Theorem aux_not_passed W (OSW : OS W) p (w : W) err :
  prm_Test p = false → UseWithPebble p = false → UseWiths6Overlay p = false →
  haproxyProcess (PIDFile p) w = Err err → (∀ w, os_Stat (AuxDir p) w = None) →
  let '(w1, _) := cmd_Start [HaproxyBinary p; "-W"; "-S"; MasterSocket p +:+ ",level,admin"; "-f"; MainCfgFile p] w in
  let '(w2, e) := runtime_New (MasterSocket p) w1 in
  process_New p w = (Direct (mkDirect p true (bool_decide (e = None))), w2).
Proof.
  intros Ht Hp Hs Hpid Haux. unfold process_New, newDirectControl. rw Hp Hs.
  assert (direct_Service (mkDirect p false false) "start" w =
    (let '(w1, e) := cmd_Start (start_args (mkDirect p false false)) w in (w1, ("", e)))) as ->.
  { unfold direct_Service. by rw (Service_start_idle 2 (mkDirect p false false) _ _ Ht Hpid). }
  unfold start_args. cbn. destruct (cmd_Start _ w) as [w1 e1].
  destruct (runtime_New _ w1) as [w2 [e|]]; by rw (Haux w2).
Qed.

(** *** Witnesses *)

(** A machine where the master socket never opens, a process ends when it is
    waited for, and a started one has not written its file yet. *)
Record ExWorld := mkExWorld { ex_pid : option string; ex_started : list (list string) }.

#[local] Instance example_os : OS ExWorld := {|
  os_Open path w := match ex_pid w with Some pid => Content pid | None => NoFile end;
  os_Stat path w := None;
  os_FindProcess pid w := None;
  Signal_0 pid w := None;
  Signal_SIGUSR1 pid w := (w, None);
  cmd_Start args w := (mkExWorld (ex_pid w) (ex_started w ++ [args]), None);
  cmd_Run args w := (w, None);
  runtime_New path w := (w, Some "timeout");
  masterSocket_Reload path w := (w, ("", None));
  PollUntilContextTimeout cond w :=
    let w' := mkExWorld None (ex_started w) in (w', if cond w' then None else Some "timeout")
|}.

#[local] Instance example_os_laws : OSLaws ExWorld.
Proof. split. intros cond w w'. cbn. destruct (cond _) eqn:H; [|done]. by intros [= <-]. Qed.

Definition example_params (force : bool) : Params :=
  mkParams {| CfgDir := "etc"; MainCfgFile := "haproxy.cfg"; RouteLuaFile := "route.lua"; HaproxyBinary := "haproxy";
      RuntimeDir := "run"; StateDir := "state"; AuxDir := "aux"; PIDFile := "haproxy.pid"; RuntimeSocket := "api.sock";
      MasterSocket := "master.sock"; PatternDir := "patterns"; ErrFileDir := "errors"; CertsDir := "certs";
      CertListDir := "lists"; MapsDir := "maps" |} false force false false.

Definition example_running : ExWorld := mkExWorld (Some "42") [].

Definition example_start : list string :=
  ["haproxy"; "-W"; "-S"; "master.sock,level,admin"; "-f"; "haproxy.cfg"].

Example Atoi_values : Atoi "42" = Ok 42%Z ∧ Atoi "-7" = Ok (-7)%Z ∧ Atoi "9223372036854775808" = Err "value out of range" ∧
  Atoi "" = Err "invalid syntax" ∧ Atoi "4 2" = Err "invalid syntax".
Proof. by vm_compute. Qed.

Lemma direct_Service_terminates_witness :
  direct_Service_fuel 7 (mkDirect (example_params true) true false) "start" example_running =
    Some (mkExWorld None [example_start ++ ["-f"; "aux"]; example_start ++ ["-f"; "aux"]], ("", None)).
Proof.
  destruct (direct_Service_terminates ExWorld _ _ 7 (mkDirect (example_params true) true false) "start" example_running)
    as [-> ->]; [lia|]. vm_refl.
Defined.

Lemma restart_starts_twice_witness :
  direct_Service (mkDirect (example_params true) false false) "start" example_running =
    (mkExWorld None [example_start; example_start], ("", None)).
Proof.
  pose proof (restart_starts_twice ExWorld _ _ (example_params true) example_running example_running (mkExWorld None [])
    (mkExWorld None [example_start]) 42) as H. cbn zeta in H. rw H; vm_refl.
Defined.

Lemma aux_not_passed_witness :
  process_New (example_params false) (mkExWorld None []) =
    (Direct (mkDirect (example_params false) true false), mkExWorld None [example_start]).
Proof. exact (aux_not_passed ExWorld _ (example_params false) (mkExWorld None []) "no such file or directory" eq_refl eq_refl eq_refl eq_refl (λ _, eq_refl)). Defined.

#[local] Existing Instances key_order example_lists example_native example_md5.

(** A frontend is written; HAProxy was not told. *)
Lemma silent_reload_witness :
  let t := mkApp (mkExNative (∅, ∅) ∅) "" "" (mkReloadMgr true false false)
    ((process_New (example_params false) example_running).1, example_running) in
  let c := mkConfiguration (mkSections {[ 0 := example_fe ]} {[ "web" := 0 ]} {[ "web" := 0 ]} ∅ ∅)
    (mkSections ∅ ∅ ∅ ∅ ∅) true : Configuration FrontendModel ServerModel (BackendBase ExampleExtra) in
  ∃ t', applyCfgUpdates c t = (t', None) ∧ (app_process t').2 = example_running ∧
    fe_Name <$> (ex_committed (nativeAPI t')).1 !! "web" = Some "web".
Proof.
  intros t c.
  destruct (silent_reload key_order ExampleExtra _ _ ExNative ExWorld _ _ _ (example_params false) example_running
    example_running 42 c t) as (t' & Happ & Hproc); [done|done|by eexists|done|vm_refl|vm_refl|].
  exists t'. split; [exact Happ|]. split; [by rw Hproc|].
  assert (t' = (applyCfgUpdates c t).1) as -> by (by rw Happ). vm_refl.
Defined.
