(* ===== verification/Logging.v ===== *)
(** * Logging: logging/logging.go and tree/hug_conf.go

    The filter in front of every logger, with the levels it keeps in package
    variables, and the builder that sets them from the [HugConf] resource. *)

From S2P Require Import Prelude GoStrings Objects Utils Store.

(** ** Levels: slog.Level *)
Definition LevelDebug : Z := -4.
Definition LevelInfo : Z := 0.
Definition LevelWarn : Z := 4.
Definition LevelError : Z := 8.
Definition LevelNone : Z := 100.

(** [v3.Category] *)
Abbreviation Categories := (gmap string Z).
Definition LogCategoryK8s : string := "k8s".

(** The package variables. *)
Record LogSettings := mkLogSettings {
  level : Z;
  logLevelPerCategory : Categories;
  DefaultLevel : Z;
  DefaultLogLevelPerCategory : Categories
}.

(** Their values when the program starts. *)
Definition initial_settings : LogSettings :=
  mkLogSettings 0 ∅ LevelInfo
    (list_to_map [("k8s", LevelWarn); ("gate", LevelInfo); ("app", LevelInfo);
                  ("haproxycfg", LevelInfo); ("batch", LevelInfo); ("status", LevelInfo)]).

(** The parameters of [NewCategoryFilterHandler] that reach the variables. *)
Definition NewCategoryFilterHandler (categories : Categories) (aLevel : Z) (s : LogSettings) :
    LogSettings :=
  mkLogSettings (level s) categories aLevel categories.

Definition LogLevelString2SlogLevel (l : string) : Z :=
  if bool_decide (l = "Info") then LevelInfo
  else if bool_decide (l = "Warn") then LevelWarn
  else if bool_decide (l = "Error") then LevelError
  else if bool_decide (l = "Debug") then LevelDebug
  else if bool_decide (l = "None") then LevelNone
  else LevelInfo.

(** ** Records and handlers *)

(** [slog.Attr], by the kind of its value: the members of a group are strings
    or integers, [OtherAttr] holds the text of a value of another kind. *)
Inductive Attr :=
  | StringAttr (Key Value : string)
  | GroupAttr (Key : string) (Members : list (string * (string + Z)))
  | OtherAttr (Key Value : string).

Record LogRecord := mkLogRecord { r_Level : Z; r_Attrs : list Attr }.

(** [Record.AddAttrs] leaves out the empty groups. *)
Definition AddAttrs (a : Attr) (r : LogRecord) : LogRecord :=
  match a with
  | GroupAttr _ [] => r
  | _ => mkLogRecord (r_Level r) (r_Attrs r ++ [a])
  end.

(** [groupOrAttrs] *)
Inductive groupOrAttrs := Group (name : string) | Attrs (attrs : list Attr).

Record CategoryFilterHandler := mkHandler { categoryKey : string; goas : list groupOrAttrs }.

Definition WithAttrs (attrs : list Attr) (h : CategoryFilterHandler) : CategoryFilterHandler :=
  if bool_decide (length attrs = 0) then h
  else mkHandler (categoryKey h) (goas h ++ [Attrs attrs]).

Definition WithGroup (name : string) (h : CategoryFilterHandler) : CategoryFilterHandler :=
  if bool_decide (name = "") then h else mkHandler (categoryKey h) (goas h ++ [Group name]).

(** The empty string when the attribute is not a category. *)
Definition getCategory (key : string) (a : Attr) : string :=
  match a with
  | StringAttr k v => if bool_decide (k = key) then v else ""
  | _ => ""
  end.

Definition is_category (key : string) (a : Attr) : bool := negb (bool_decide (getCategory key a = "")).

(** The groups at the end of the list; the argument is in reverse order. *)
Fixpoint drop_groups (rev_goas : list groupOrAttrs) : list groupOrAttrs :=
  match rev_goas with
  | Group _ :: rest => drop_groups rest
  | _ => rev_goas
  end.

(** The loop over the attributes of one element: it stops at a category. *)
Fixpoint add_until_category (key : string) (attrs : list Attr) (s : LogRecord * string) :
    LogRecord * string :=
  match attrs with
  | [] => s
  | a :: rest =>
      let r := AddAttrs a s.1 in
      let cat := getCategory key a in
      if negb (bool_decide (cat = "")) then (r, cat) else add_until_category key rest (r, s.2)
  end.

(** [r.Attrs]: the first category of the record. *)
Fixpoint first_category (key : string) (attrs : list Attr) (category : string) : string :=
  match attrs with
  | [] => category
  | a :: rest =>
      let cat := getCategory key a in
      if negb (bool_decide (cat = "")) then cat else first_category key rest category
  end.

Definition LogAttrFileSource (file : string) (line : Z) : Attr :=
  GroupAttr "sourceFile" [("file", inl file); ("line", inr line)].

Definition slash : Ascii.ascii := Ascii.Ascii true true true true false true false false.

(** [filepath.Base] *)
Fixpoint last_component (rev_parts : list string) : string :=
  match rev_parts with
  | [] => "/"
  | part :: rest => if bool_decide (part = "") then last_component rest else part
  end.

Definition filepath_Base (path : string) : string :=
  if bool_decide (path = "") then "." else last_component (reverse (Split slash path)).

Definition shortFilePath (fullPath : string) : string :=
  match String.index 0 "k8s/" fullPath with
  | Some idx => drop_string idx fullPath
  | None =>
      match String.index 0 "controller/" fullPath with
      | Some idx => drop_string idx fullPath
      | None => filepath_Base fullPath
      end
  end.

(** [Handle]: the record the base handler gets, if it gets one.  [Caller] is
    [runtime.Caller]. *)
Definition handled_record (Caller : Z → string * Z) (customSkip : option Z)
    (h : CategoryFilterHandler) (r : LogRecord) : LogRecord * string :=
  let '(file, no) := Caller (3 + default 0 customSkip)%Z in
  let goas := if bool_decide (length (r_Attrs r) = 0) then reverse (drop_groups (reverse (goas h)))
              else goas h in
  let '(r, category) := foldl (λ s goa,
    match goa with
    | Group _ => s
    | Attrs attrs => add_until_category (categoryKey h) attrs s
    end) (r, LogCategoryK8s) goas in
  let category := first_category (categoryKey h) (r_Attrs r) category in
  if bool_decide (category = LogCategoryK8s) then
    (AddAttrs (LogAttrFileSource file no) (AddAttrs (StringAttr (categoryKey h) category) r), category)
  else (AddAttrs (LogAttrFileSource (shortFilePath file) no) r, category).

Definition Handle (Caller : Z → string * Z) (customSkip : option Z) (s : LogSettings)
    (h : CategoryFilterHandler) (r : LogRecord) : option LogRecord :=
  let '(r, category) := handled_record Caller customSkip h r in
  let catLevel := default (level s) (logLevelPerCategory s !! category) in
  if bool_decide (r_Level r < catLevel)%Z || bool_decide (catLevel = LevelNone) then None
  else Some r.

(** ** Reconciling *)
Section settings.
Context {RO : RangeOrder}.

(** [b\[k\]] is the zero level when [b] has no [k]. *)
Definition mapsEqual (a b : Categories) : bool :=
  if negb (size a =? size b)%nat then false
  else forallb (λ kv, bool_decide (default 0%Z (b !! kv.1) = kv.2)) (range a).

Definition ReconcileLogSettings (aLevel : Z) (categories : Categories) (s : LogSettings) :
    LogSettings * bool :=
  let levelChanged := negb (level s =? aLevel)%Z in
  let changed := negb (mapsEqual (logLevelPerCategory s) categories) in
  (mkLogSettings (if levelChanged then aLevel else level s)
     (if changed then categories else logLevelPerCategory s) (DefaultLevel s)
     (DefaultLogLevelPerCategory s), levelChanged || changed).

Definition ResetToDefaults (s : LogSettings) : LogSettings :=
  (ReconcileLogSettings (DefaultLevel s) (DefaultLogLevelPerCategory s) s).1.

(** ** tree/hug_conf.go *)

(** [expectedLogCategoryPerLevel] *)
Definition conf_categories (conf : HugConf) : Categories :=
  foldl (λ m catLevel,
    <[Category catLevel := LogLevelString2SlogLevel (Level catLevel)]> m) ∅
    (CategoryLevelList (hc_Logging conf)).

Definition conf_level (conf : HugConf) : Z :=
  LogLevelString2SlogLevel (Objects.DefaultLevel (hc_Logging conf)).

Definition HugConf_Build (hugConfNsName : NamespacedName) (cs : ClusterStore) (s : LogSettings) :
    LogSettings :=
  let hugConfUpdates := updates (ControllerConfs cs) in
  if bool_decide (size hugConfUpdates = 0) then s
  else
    match hugConfUpdates !! hugConfNsName with
    | None => s
    | Some confUpdate =>
        match UStatus confUpdate with
        | StatusDeleted => ResetToDefaults s
        | StatusUpserted =>
            match objects (ControllerConfs cs) !! hugConfNsName with
            | None => s
            | Some newConf => (ReconcileLogSettings (conf_level newConf) (conf_categories newConf) s).1
            end
        | StatusUnchanged => s
        end
    end.
End settings.

(** ** Lemmas *)
Lemma first_category_app key l1 l2 c :
  first_category key (l1 ++ l2) c = first_category key l1 (first_category key l2 c).
Proof. induction l1 as [|a l1 IH]; cbn; [done|]. by destruct (bool_decide _). Qed.

(** The attributes up to the first category. *)
Fixpoint upto_category (key : string) (attrs : list Attr) : list Attr :=
  match attrs with
  | [] => []
  | a :: rest => if is_category key a then [a] else a :: upto_category key rest
  end.

Definition empty_group (a : Attr) : bool :=
  match a with GroupAttr _ [] => true | _ => false end.

Definition goa_attrs (g : groupOrAttrs) : list Attr :=
  match g with Group _ => [] | Attrs attrs => attrs end.

(** What the logger adds to a record. *)
Definition logger_attrs (h : CategoryFilterHandler) : list Attr :=
  filter (λ a, empty_group a = false)
    (concat ((λ g, upto_category (categoryKey h) (goa_attrs g)) <$> goas h)).

Lemma AddAttrs_eq a r :
  AddAttrs a r = mkLogRecord (r_Level r) (r_Attrs r ++ filter (λ a, empty_group a = false) [a]).
Proof.
  destruct r as [lv attrs]. unfold AddAttrs. rw filter_cons filter_nil.
  destruct a as [| ? [|]|]; cbn; by rw ?app_nil_r.
Qed.

Lemma add_until_eq key attrs r c :
  add_until_category key attrs (r, c) =
  (mkLogRecord (r_Level r) (r_Attrs r ++ filter (λ a, empty_group a = false) (upto_category key attrs)),
   first_category key attrs c).
Proof.
  revert r. induction attrs as [|a attrs IH]; intros r; cbn [add_until_category upto_category first_category].
  - destruct r as [lv l]. cbn. by rw app_nil_r.
  - rw AddAttrs_eq. unfold is_category. destruct (bool_decide (getCategory key a = "")); cbn [negb fst snd]; [|done].
    rw IH. cbn [r_Level r_Attrs]. by rw -app_assoc -filter_app.
Qed.

Lemma first_category_kept key attrs c :
  first_category key (filter (λ a, empty_group a = false) (upto_category key attrs)) c =
  first_category key attrs c.
Proof.
  induction attrs as [|a attrs IH]; [done|]. cbn [upto_category].
  assert (empty_group a = true → getCategory key a = "") as He by by destruct a.
  unfold is_category. destruct (bool_decide_reflect (getCategory key a = "")) as [Hc|Hc]; cbn [negb];
    rw filter_cons ?filter_nil; cbn [first_category].
  - rw (bool_decide_eq_true_2 _ Hc); cbn [negb]. case_decide; cbn [first_category]; [|done].
    by rw (bool_decide_eq_true_2 _ Hc).
  - rw (bool_decide_eq_false_2 _ Hc); cbn [negb]. case_decide as Hg; cbn [first_category].
    + by rw (bool_decide_eq_false_2 _ Hc).
    + destruct Hc. apply He. by destruct (empty_group a).
Qed.

Lemma first_category_found key a attrs c d :
  a ∈ attrs → is_category key a = true → first_category key attrs c = first_category key attrs d.
Proof.
  intros Ha Hc. induction attrs as [|b attrs IH]; [by apply elem_of_nil in Ha|].
  cbn [first_category]. apply elem_of_cons in Ha as [<-|Ha].
  - unfold is_category in Hc. by destruct (bool_decide _).
  - rw IH //.
Qed.

Lemma first_category_none key attrs c :
  first_category key attrs c = c ∨ ∃ a, a ∈ attrs ∧ is_category key a = true.
Proof.
  induction attrs as [|a attrs IH]; cbn [first_category]; [by left|].
  destruct (bool_decide (getCategory key a = "")) eqn:Hb; cbn [negb].
  - destruct IH as [?|(b & ? & ?)]; [by left|right]. exists b. split; [by right|done].
  - right. exists a. split; [by left|]. unfold is_category. by rw Hb.
Qed.

(** The loop over the elements of the handler: the attributes are added, and
    the category, when there is one, is among them. *)
Lemma goas_loop key gs r c :
  let kept := filter (λ a, empty_group a = false)
    (concat ((λ g, upto_category key (goa_attrs g)) <$> gs)) in
  let '(r', c') := foldl (λ s goa,
    match goa with
    | Group _ => s
    | Attrs attrs => add_until_category key attrs s
    end) (r, c) gs in
  r' = mkLogRecord (r_Level r) (r_Attrs r ++ kept) ∧
  (c' = c ∨ ∃ a, a ∈ kept ∧ is_category key a = true).
Proof.
  cbv zeta. revert r c. induction gs as [|[name|attrs] gs IH]; intros r c.
  - cbn. destruct r. cbn. rw app_nil_r. auto.
  - apply IH.
  - cbn [foldl fmap list_fmap concat goa_attrs]. rw add_until_eq.
    set (kept := filter _ (upto_category key attrs)).
    specialize (IH (mkLogRecord (r_Level r) (r_Attrs r ++ kept)) (first_category key attrs c)).
    destruct (foldl _ _ gs) as [r' c']. destruct IH as [-> Hc]. cbn [r_Level r_Attrs].
    rw filter_app -app_assoc. split; [done|]. setoid_rewrite elem_of_app. fold kept.
    destruct Hc as [Hc|(a & ? & ?)]; [|right; exists a; auto]. rw Hc. clear Hc.
    rw -(first_category_kept key attrs c). fold kept.
    destruct (first_category_none key kept c) as [?|(a & ? & ?)]; [by left|right; exists a; auto].
Qed.

Lemma trailing_groups (f : groupOrAttrs → list Attr) gs :
  (∀ name, f (Group name) = []) →
  concat (f <$> reverse (drop_groups (reverse gs))) = concat (f <$> gs).
Proof.
  intros Hf. induction gs as [|[name|attrs] gs IH] using rev_ind; [done| |].
  - rw reverse_app /= IH fmap_app concat_app /= Hf !app_nil_r //.
  - by rw reverse_app /= reverse_cons reverse_involutive.
Qed.

(** The record and its category, whatever the logger. *)
Lemma handled_record_eq Caller skip h r :
  let '(file, no) := Caller (3 + default 0 skip)%Z in
  let attrs := r_Attrs r ++ logger_attrs h in
  let category := first_category (categoryKey h) attrs LogCategoryK8s in
  handled_record Caller skip h r =
  (mkLogRecord (r_Level r) (attrs ++
     if bool_decide (category = LogCategoryK8s)
     then [StringAttr (categoryKey h) LogCategoryK8s; LogAttrFileSource file no]
     else [LogAttrFileSource (shortFilePath file) no]), category).
Proof.
  unfold handled_record. destruct (Caller _) as [file no]. cbv zeta.
  set (gs := if bool_decide _ then _ else _).
  assert (∀ f : groupOrAttrs → list Attr, (∀ name, f (Group name) = []) →
    concat (f <$> gs) = concat (f <$> goas h)) as Hgs.
  { intros f Hf. unfold gs. destruct (bool_decide _); [by apply trailing_groups|done]. }
  pose proof (goas_loop (categoryKey h) gs r LogCategoryK8s) as Hloop. cbv zeta in Hloop.
  destruct (foldl _ _ gs) as [r' c']. destruct Hloop as [-> Hc].
  rw (Hgs (λ g, upto_category (categoryKey h) (goa_attrs g))) // in Hc |- *.
  fold (logger_attrs h) in Hc |- *. cbn [r_Level r_Attrs].
  assert (first_category (categoryKey h) (r_Attrs r ++ logger_attrs h) c' =
    first_category (categoryKey h) (r_Attrs r ++ logger_attrs h) LogCategoryK8s) as ->.
  { destruct Hc as [->|(a & Ha & Hc)]; [done|]. eapply first_category_found; [|done].
    apply elem_of_app. by right. }
  case_bool_decide as Hk; rw !AddAttrs_eq; cbn [r_Level r_Attrs]; rw -!app_assoc //=.
  by rw Hk.
Qed.

Lemma mapsEqual_spec {RO : RangeOrder} a b :
  mapsEqual a b = true ↔
  size a = size b ∧ ∀ k v, a !! k = Some v → default 0%Z (b !! k) = v.
Proof.
  unfold mapsEqual. destruct (Nat.eqb_spec (size a) (size b)) as [Hs|Hs]; cbn [negb].
  - rw forallb_forall. split.
    + intros H. split; [done|]. intros k v Hk. apply (bool_decide_eq_true_1 _ (H (k, v)
        (proj1 (list_elem_of_In _ _) (proj2 (elem_of_range _ _ _) Hk)))).
    + intros [_ H] [k v] Hk%list_elem_of_In%elem_of_range. by apply bool_decide_eq_true, H.
  - split; [done|]. by intros [? _].
Qed.

(** The comparison is exact when no category of the first map is at the level
    whose number is zero. *)
Lemma mapsEqual_exact {RO : RangeOrder} a b :
  map_Forall (λ _ v, v ≠ LevelInfo) a → mapsEqual a b = true ↔ a = b.
Proof.
  intros Ha. rw mapsEqual_spec. split; [|intros ->; split; [done|]; by intros k v ->].
  intros [Hs Hv]. apply map_subseteq_size_eq; [|by rw Hs].
  apply map_subseteq_spec. intros k v Hk. specialize (Hv k v Hk). specialize (Ha k v Hk).
  unfold LevelInfo in Ha. destruct (b !! k) as [w|]; cbn in Hv; congruence.
Qed.

(** ** Properties *)

(** What the filter lets through.  The category of a record is its first
    attribute of that name, looked for in the record, then in the logger, in
    order, and [k8s] when there is none; the record goes to the base handler
    exactly when its level is at least the level of the category (the default
    one when the category has none) and that level is not None; and what it
    carries then is its own attributes, those of the logger up to the first
    category of each [With] call, and its source.  No level filters a record on
    anything else, and groups play no part. *)
Theorem Handle_spec Caller skip (s : LogSettings) h r :
  let category := first_category (categoryKey h) (r_Attrs r ++ logger_attrs h) LogCategoryK8s in
  let catLevel := default (level s) (logLevelPerCategory s !! category) in
  match Handle Caller skip s h r with
  | None => (r_Level r < catLevel)%Z ∨ catLevel = LevelNone
  | Some r' =>
      (catLevel ≤ r_Level r)%Z ∧ catLevel ≠ LevelNone ∧ r_Level r' = r_Level r ∧
      ∃ file no, r_Attrs r' = r_Attrs r ++ logger_attrs h ++
        (if bool_decide (category = LogCategoryK8s)
         then [StringAttr (categoryKey h) LogCategoryK8s] else []) ++ [LogAttrFileSource file no]
  end.
Proof.
  cbv zeta. pose proof (handled_record_eq Caller skip h r) as Heq. unfold Handle.
  destruct (Caller _) as [file no]. cbv zeta in Heq. rw Heq. cbn [r_Level].
  set (category := first_category _ _ _). set (catLevel := default _ _).
  destruct (bool_decide_reflect (r_Level r < catLevel)%Z); cbn [orb]; [by left|].
  destruct (bool_decide_reflect (catLevel = LevelNone)); [by right|].
  cbn [r_Level r_Attrs]. split_and!; [lia|done..|]. rw -app_assoc.
  destruct (bool_decide (category = _)); [exists file, no|exists (shortFilePath file), no]; done.
Qed.

(** The log settings follow the [HugConf] resource.  When a batch upserts
    it and no category is at level Info at that moment, the default level and
    the levels of the categories become those of the resource, in any order of
    the maps; when the batch deletes it they become the defaults; and an update
    of another resource, or none, leaves them. *)
Theorem HugConf_Build_applies (RO : RangeOrder) name cs (s : LogSettings) :
  map_Forall (λ _ v, v ≠ LevelInfo) (logLevelPerCategory s) →
  let s' := HugConf_Build name cs s in
  match updates (ControllerConfs cs) !! name with
  | None => s' = s
  | Some u =>
      match UStatus u, objects (ControllerConfs cs) !! name with
      | StatusUpserted, Some conf =>
          level s' = conf_level conf ∧ logLevelPerCategory s' = conf_categories conf
      | StatusDeleted, _ =>
          level s' = DefaultLevel s ∧ logLevelPerCategory s' = DefaultLogLevelPerCategory s
      | _, _ => s' = s
      end
  end.
Proof.
  intros Hs. cbv zeta. unfold HugConf_Build.
  assert (∀ lv cats, level (ReconcileLogSettings lv cats s).1 = lv ∧
    logLevelPerCategory (ReconcileLogSettings lv cats s).1 = cats) as Hrec.
  { intros lv cats. unfold ReconcileLogSettings. cbn [fst level logLevelPerCategory].
    split; [by destruct (Z.eqb_spec (level s) lv)|].
    destruct (mapsEqual _ cats) eqn:Heq; cbn [negb]; [|done]. by apply mapsEqual_exact in Heq. }
  case_bool_decide as Hsize.
  - apply map_size_empty_inv in Hsize. by rw Hsize lookup_empty.
  - destruct (updates (ControllerConfs cs) !! name) as [u|]; [|done].
    destruct (UStatus u); [|by apply Hrec|done].
    destruct (objects (ControllerConfs cs) !! name); [by apply Hrec|done].
Qed.

(** Levels that are not applied.  When every category of the current
    settings is at level Info and the resource names as many other categories,
    the comparison of the maps takes the two for equal: whatever the levels the
    resource asks for, the categories keep the old ones. *)
Theorem HugConf_Build_ignores (RO : RangeOrder) name cs (s : LogSettings) u conf :
  updates (ControllerConfs cs) !! name = Some u → UStatus u = StatusUpserted →
  objects (ControllerConfs cs) !! name = Some conf →
  size (logLevelPerCategory s) = size (conf_categories conf) →
  map_Forall (λ c v, v = LevelInfo ∧ conf_categories conf !! c = None) (logLevelPerCategory s) →
  logLevelPerCategory (HugConf_Build name cs s) = logLevelPerCategory s.
Proof.
  intros Hu Hst Hconf Hsize Hinfo. unfold HugConf_Build. rw Hu Hst Hconf.
  case_bool_decide; [done|]. unfold ReconcileLogSettings. cbn [fst logLevelPerCategory].
  rw (proj2 (mapsEqual_spec _ _)) //. split; [done|]. intros k v Hk.
  destruct (Hinfo k v Hk) as [-> ->]. done.
Qed.

(** ** Witnesses *)
Definition example_hug_conf (l : string) : HugConf :=
  {| hc_Meta := simple_meta "default" "conf" 1;
     hc_Logging := {| Objects.DefaultLevel := "Warn";
                      CategoryLevelList := [{| Category := "batch"; Level := l |}] |} |}.

Definition example_conf_store (l : string) : ClusterStore :=
  @processBatch key_order example_gvk (mkBatch [UpsertEvent (OHugConf (example_hug_conf l))] 1)
    empty_cluster_store.

Lemma HugConf_Build_applies_witness :
  let s := NewCategoryFilterHandler {[ "gate" := LevelWarn ]} LevelInfo initial_settings in
  let s' := @HugConf_Build key_order (NN "default" "conf") (example_conf_store "Debug") s in
  level s' = LevelWarn ∧ logLevelPerCategory s' = {[ "batch" := LevelDebug ]}.
Proof.
  intros s.
  assert (map_Forall (λ _ v, v ≠ LevelInfo) (logLevelPerCategory s)) as H.
  { cbn. apply map_Forall_singleton. done. }
  exact (HugConf_Build_applies key_order (NN "default" "conf") (example_conf_store "Debug") s H).
Defined.

Lemma HugConf_Build_ignores_witness :
  let s := NewCategoryFilterHandler {[ "gate" := LevelInfo ]} LevelInfo initial_settings in
  logLevelPerCategory (@HugConf_Build key_order (NN "default" "conf") (example_conf_store "Debug") s) =
  {[ "gate" := LevelInfo ]}.
Proof.
  intros s.
  apply (HugConf_Build_ignores key_order (NN "default" "conf") (example_conf_store "Debug") s
    (mkUpdate None (Some (example_hug_conf "Debug")) StatusUpserted false) (example_hug_conf "Debug")).
  - vm_refl.
  - done.
  - vm_refl.
  - vm_refl.
  - intros c v Hc. cbn in Hc. apply lookup_singleton_Some in Hc as [<- <-]. split; [done|vm_refl].
Defined.
