(* ===== verification/GateTree.v ===== *)
(** * GateTree: handler/tree.go

    The builders composed over one state, in the order of [buildGateTree], and
    the invariant each batch keeps: the tree is always one the manager of the
    HAProxy configuration can use.

    A result [None] is a panic of one of the builders. *)

From S2P Require Import Prelude GoStrings FileUtils Objects Utils Conditions Store References TreeCore.
From S2P Require Import InstalledVersions GatewayClass Listener Gateway Route HaproxyConf Backends.
From S2P Require Import RouteMaps Certificates Servers Frontends CertRuntime RouteFill ConfMgr Logging.

(** ** The state *)

(** The routes of one kind, the managed and the unmanaged. *)
Record RoutePart (R Rule : Type) := mkRoutePart {
  part_routes : gmap nat (Route R Rule);
  part_managed : gmap NamespacedName nat;
  part_unmanaged : gmap NamespacedName nat
}.
Arguments mkRoutePart {R Rule}.
Arguments part_routes {R Rule}.
Arguments part_managed {R Rule}.
Arguments part_unmanaged {R Rule}.

(** [tree.ControllerStore], with the tables of the Gateway builder, the
    settings of the loggers and the directory of the certificates. *)
Record TreeState := mkTreeState {
  ts_cluster : ClusterStore;
  ts_references : ReferencedObjects;
  ts_versions : InstalledVersions;
  ts_secrets : gmap NamespacedName Secret;
  ts_services : gmap NamespacedName Service;
  ts_classes : GWCs * GWCs;
  ts_gateways : GatewayTree;
  ts_http : RoutePart K8sHTTPRoute K8sHTTPRouteRule;
  ts_tls : RoutePart K8sTLSRoute K8sTLSRouteRule;
  ts_certs : CertUpdates;
  ts_crts : CrtListUpdates;
  ts_disk : Disk;
  ts_logs : LogSettings
}.

(** What [NewEventHandlerImpl] starts with. *)
Definition initial_tree (disk : Disk) (logs : LogSettings) : TreeState :=
  mkTreeState empty_cluster_store NewReferencedObjects empty_InstalledVersions ∅ ∅ (∅, ∅)
    (mkGatewayTree (∅, ∅) ∅ ∅ ∅) (mkRoutePart ∅ ∅ ∅) (mkRoutePart ∅ ∅ ∅)
    reset_file_updates reset_file_updates disk logs.

(** [GateTreeConfig], and the libraries the builders call. *)
Record TreeConfig := {
  tc_extractGVK : ExtractGVK;
  tc_ControllerName : string;
  tc_ControllerConfNsName : NamespacedName;
  tc_StoreCertificateOnDisk : bool;
  tc_disk_ok : string → bool;
  tc_MergeWithOverwrite : HugGate → HugGate → HugGate;
  tc_Constraint : Type;
  tc_Version : Type;
  tc_NewConstraint : string → option tc_Constraint;
  tc_NewVersion : string → option tc_Version;
  tc_Check : tc_Constraint → tc_Version → bool
}.

Section assembly.
Context {RO : RangeOrder} {GS : GoSort} {FE : FieldErrors} {CE : CertEnv} (cfg : TreeConfig).

(** *** Each builder on the state *)
Definition with_gateways (gt : GatewayTree) (s : TreeState) : TreeState :=
  mkTreeState (ts_cluster s) (ts_references s) (ts_versions s) (ts_secrets s) (ts_services s)
    (ts_classes s) gt (ts_http s) (ts_tls s) (ts_certs s) (ts_crts s) (ts_disk s) (ts_logs s).

Definition with_http (p : RoutePart K8sHTTPRoute K8sHTTPRouteRule) (s : TreeState) : TreeState :=
  mkTreeState (ts_cluster s) (ts_references s) (ts_versions s) (ts_secrets s) (ts_services s)
    (ts_classes s) (ts_gateways s) p (ts_tls s) (ts_certs s) (ts_crts s) (ts_disk s) (ts_logs s).

Definition with_tls (p : RoutePart K8sTLSRoute K8sTLSRouteRule) (s : TreeState) : TreeState :=
  mkTreeState (ts_cluster s) (ts_references s) (ts_versions s) (ts_secrets s) (ts_services s)
    (ts_classes s) (ts_gateways s) (ts_http s) p (ts_certs s) (ts_crts s) (ts_disk s) (ts_logs s).

Definition set_GatewayClasses (m : objectStore K8sGatewayClass) (cs : ClusterStore) : ClusterStore :=
  {| GatewayClasses := m; Store.Gateways := Store.Gateways cs; Store.HTTPRoutes := Store.HTTPRoutes cs;
     Store.TLSRoutes := Store.TLSRoutes cs; Store.Services := Store.Services cs;
     Namespaces := Namespaces cs; Secrets := Secrets cs; ConfigMaps := ConfigMaps cs;
     GatewayAPICRDs := GatewayAPICRDs cs; HugGates := HugGates cs; Store.BackendCRs := Store.BackendCRs cs;
     ControllerConfs := ControllerConfs cs; EndpointSlices := EndpointSlices cs |}.

Definition secretBuilder (s : TreeState) : TreeState :=
  mkTreeState (ts_cluster s) (ts_references s) (ts_versions s)
    (Secret_ComputeTreeUpdates (ts_cluster s) (ts_secrets s)) (ts_services s) (ts_classes s)
    (ts_gateways s) (ts_http s) (ts_tls s) (ts_certs s) (ts_crts s) (ts_disk s) (ts_logs s).

(** The builder adds updates to the cluster store. *)
Definition gatewayClassBuilder (s : TreeState) : TreeState :=
  let '(m, classes) := GatewayClass_ComputeTreeUpdates (ts_cluster s) (ts_versions s) (ts_classes s) in
  mkTreeState (set_GatewayClasses m (ts_cluster s)) (ts_references s) (ts_versions s) (ts_secrets s)
    (ts_services s) classes (ts_gateways s) (ts_http s) (ts_tls s) (ts_certs s) (ts_crts s)
    (ts_disk s) (ts_logs s).

Definition gateway_env (s : TreeState) : GatewayEnv := {|
  env_HugGates := objects (HugGates (ts_cluster s));
  env_GatewayClasses := (ts_classes s).1;
  env_Secrets := ts_secrets s
|}.

Definition gatewayBuilder (s : TreeState) : TreeState :=
  with_gateways (Gateway_ComputeTreeUpdates (tc_MergeWithOverwrite cfg) (gateway_env s)
    (updates (Store.Gateways (ts_cluster s))) (ts_gateways s)) s.

Definition certificateBuilder (s : TreeState) : option TreeState :=
  '(certs, crts, disk) ← Certificate_ComputeTreeUpdates (ts_secrets s) (updates (Secrets (ts_cluster s)))
     (tc_extractGVK cfg) (tc_StoreCertificateOnDisk cfg) (tc_disk_ok cfg) (ts_references s)
     (ts_certs s, ts_crts s, ts_disk s);
  Some (mkTreeState (ts_cluster s) (ts_references s) (ts_versions s) (ts_secrets s) (ts_services s)
    (ts_classes s) (ts_gateways s) (ts_http s) (ts_tls s) certs crts disk (ts_logs s)).

Definition serviceBuilder (s : TreeState) : TreeState :=
  mkTreeState (ts_cluster s) (ts_references s) (ts_versions s) (ts_secrets s)
    (Service_ComputeTreeUpdates (ts_cluster s) (ts_services s)) (ts_classes s)
    (ts_gateways s) (ts_http s) (ts_tls s) (ts_certs s) (ts_crts s) (ts_disk s) (ts_logs s).

(** The routes work on the Gateways and their listeners too. *)
Definition gateway_attach (gt : GatewayTree) : Attach := mkAttach (trees gt) (heap gt).

Definition set_attach (st : Attach) (gt : GatewayTree) : GatewayTree :=
  mkGatewayTree (at_gateways st) (at_heap st) (portsWithOneListener gt) (portsWithMultipleListeners gt).

Definition route_tree {R Rule} (p : RoutePart R Rule) (gt : GatewayTree) : RouteTree R Rule :=
  mkRouteTree (part_routes p) (part_managed p) (part_unmanaged p) (gateway_attach gt).

Definition route_part {R Rule} (t : RouteTree R Rule) : RoutePart R Rule :=
  mkRoutePart (routes t) (managedRoutes t) (unmanagedRoutes t).

Definition httpRouteBuilder (s : TreeState) : TreeState :=
  let t := HTTPRoute_ComputeTreeUpdates (tc_extractGVK cfg) (ts_cluster s) (tc_ControllerName cfg)
    (ts_services s) (route_tree (ts_http s) (ts_gateways s)) in
  with_http (route_part t) (with_gateways (set_attach (attach t) (ts_gateways s)) s).

Definition tlsRouteBuilder (s : TreeState) : TreeState :=
  let t := TLSRoute_ComputeTreeUpdates (tc_extractGVK cfg) (ts_cluster s) (tc_ControllerName cfg)
    (ts_services s) (route_tree (ts_tls s) (ts_gateways s)) in
  with_tls (route_part t) (with_gateways (set_attach (attach t) (ts_gateways s)) s).

(** *** [buildGateTree] *)

(** Each builder cleans its part of the trees. *)
Definition clean_gateways (gt : GatewayTree) : GatewayTree :=
  let clean := @cleanTreeUpdates _ _ _ (Gateway_TreeObject (heap gt)) in
  mkGatewayTree (clean (trees gt).1, clean (trees gt).2) (heap gt) (portsWithOneListener gt)
    (portsWithMultipleListeners gt).

Definition clean_routes {R Rule} (p : RoutePart R Rule) (gt : GatewayTree) : RoutePart R Rule :=
  route_part (Route_CleanTreeUpdates (route_tree p gt)).

Definition startBuild (s : TreeState) : TreeState :=
  mkTreeState (ts_cluster s) (ts_references s) (CleanInstalledVersionsUpdates (ts_versions s))
    (cleanTreeUpdates (ts_secrets s)) (cleanTreeUpdates (ts_services s))
    (cleanTreeUpdates (ts_classes s).1, cleanTreeUpdates (ts_classes s).2)
    (clean_gateways (ts_gateways s)) (clean_routes (ts_http s) (ts_gateways s))
    (clean_routes (ts_tls s) (ts_gateways s)) ResetCertificateUpdates ResetCrtListUpdates
    (ts_disk s) (ts_logs s).

Definition updateReferences (s : TreeState) : TreeState :=
  mkTreeState (ts_cluster s) (UpdateRefences (tc_extractGVK cfg) (ts_cluster s) (ts_references s))
    (ts_versions s) (ts_secrets s) (ts_services s) (ts_classes s) (ts_gateways s) (ts_http s) (ts_tls s)
    (ts_certs s) (ts_crts s) (ts_disk s) (ts_logs s).

Definition buildControllerConfCRDUpdates (s : TreeState) : TreeState :=
  mkTreeState (ts_cluster s) (ts_references s) (ts_versions s) (ts_secrets s) (ts_services s)
    (ts_classes s) (ts_gateways s) (ts_http s) (ts_tls s) (ts_certs s) (ts_crts s) (ts_disk s)
    (HugConf_Build (tc_ControllerConfNsName cfg) (ts_cluster s) (ts_logs s)).

Definition buildInstalledVersionsUpdates (s : TreeState) : option TreeState :=
  versions ← InstalledVersions_Build (tc_NewConstraint cfg) (tc_NewVersion cfg) (tc_Check cfg)
    (ts_cluster s) (ts_versions s);
  Some (mkTreeState (ts_cluster s) (ts_references s) versions (ts_secrets s) (ts_services s)
    (ts_classes s) (ts_gateways s) (ts_http s) (ts_tls s) (ts_certs s) (ts_crts s) (ts_disk s) (ts_logs s)).

(** The builders, in their order. *)
Definition builders : list (TreeState → option TreeState) :=
  [λ s, Some (secretBuilder s); λ s, Some (gatewayClassBuilder s); λ s, Some (gatewayBuilder s);
   certificateBuilder; λ s, Some (serviceBuilder s); λ s, Some (httpRouteBuilder s);
   λ s, Some (tlsRouteBuilder s)].

Definition buildGateTree (s : TreeState) : option TreeState :=
  let s := buildControllerConfCRDUpdates (updateReferences (startBuild s)) in
  s ← buildInstalledVersionsUpdates s;
  mfold (λ builder s, builder s) builders s.

(** [processBatch] and the build of [HandleEventBatch]. *)
Definition with_cluster (cs : ClusterStore) (s : TreeState) : TreeState :=
  mkTreeState cs (ts_references s) (ts_versions s) (ts_secrets s) (ts_services s)
    (ts_classes s) (ts_gateways s) (ts_http s) (ts_tls s) (ts_certs s) (ts_crts s) (ts_disk s) (ts_logs s).

Definition build_batch (batch : EventBatch) (s : TreeState) : option TreeState :=
  buildGateTree (with_cluster (processBatch (tc_extractGVK cfg) batch (ts_cluster s)) s).
End assembly.

(** What the manager of the configuration reads. *)
Definition manager_view (s : TreeState) : ControllerStore :=
  mkControllerStore (trees (ts_gateways s)).1 (trees (ts_gateways s)).2 (heap (ts_gateways s))
    (part_managed (ts_http s)) (part_routes (ts_http s)) (part_managed (ts_tls s))
    (part_routes (ts_tls s)) (ts_certs s) (ts_crts s) (objects (Store.BackendCRs (ts_cluster s)))
    (objects (Store.Services (ts_cluster s))) (updates (EndpointSlices (ts_cluster s))).

(** ** The cluster store *)

(** Every object of the store is at its key, and satisfies [Q]. *)
Definition stored_ok (Q : Object → Prop) (cs : ClusterStore) : Prop :=
  ∀ k key t, objects (store_of k cs) !! key = Some t →
    ∃ o, type_assert k o = Some t ∧ ObjectKeyFromObject o = key ∧ Q o.

Lemma processBatch_stored {RO : RangeOrder} extractGVK Q batch cs :
  (∀ k1 k2, extractGVK k1 = extractGVK k2 → k1 = k2) →
  stored_ok Q cs → (∀ o, UpsertEvent o ∈ Events batch → Q o) →
  stored_ok Q (processBatch extractGVK batch cs).
Proof.
  intros Hinj Hcs Hbatch k. rw store_of_processBatch_steps // resetUpdates_eq.
  apply (foldl_ind (λ m, ∀ key t, objects m !! key = Some t →
    ∃ o, type_assert k o = Some t ∧ ObjectKeyFromObject o = key ∧ Q o)); [exact (Hcs k)|].
  intros m e He Hm key t. unfold store_step. destruct (decide (event_kind e = k)) as [Hk|]; [|apply Hm].
  destruct e as [o|kd n].
  - unfold upsert. destruct (type_assert k o) as [t'|] eqn:Ht; [|apply Hm]. cbn [objects].
    intros [[<- <-]|[_ Ht']]%lookup_insert_Some; [|by apply Hm]. exists o. auto.
  - cbn [objects delete_object]. intros [_ Ht]%lookup_delete_Some. by apply Hm.
Qed.

Section stored.
Context (Q : Object → Prop) (cs : ClusterStore) (Hcs : stored_ok Q cs).

Lemma stored_gateway key gw :
  objects (Store.Gateways cs) !! key = Some gw → meta_key (gw_Meta gw) = key ∧ Q (OGateway gw).
Proof using Hcs. intros Hk. destruct (Hcs KGateway key gw Hk) as ([] & [= ->] & <- & ?). done. Qed.

Lemma stored_class key c :
  objects (GatewayClasses cs) !! key = Some c → meta_key (gwc_Meta c) = key.
Proof using Hcs. intros Hk. destruct (Hcs KGatewayClass key c Hk) as ([] & [= ->] & <- & ?). done. Qed.

Lemma stored_secret key o :
  objects (Secrets cs) !! key = Some o → meta_key (sec_Meta o) = key ∧ Q (OSecret o).
Proof using Hcs. intros Hk. destruct (Hcs KSecret key o Hk) as ([] & [= ->] & <- & ?). done. Qed.

Lemma stored_service key o :
  objects (Store.Services cs) !! key = Some o → meta_key (svc_Meta o) = key.
Proof using Hcs. intros Hk. destruct (Hcs KService key o Hk) as ([] & [= ->] & <- & ?). done. Qed.

Lemma stored_http key o : objects (Store.HTTPRoutes cs) !! key = Some o → Q (OHTTPRoute o).
Proof using Hcs. intros Hk. destruct (Hcs KHTTPRoute key o Hk) as ([] & [= ->] & <- & ?). done. Qed.
End stored.

(** What a batch does to the objects of one kind, for the builders. *)
Definition batch_of {T} (before : gmap NamespacedName T) (m : objectStore T) : Prop :=
  ∀ k, delta_ok before m (is_Some (updates m !! k)) k.

Lemma processBatch_batch_of {RO : RangeOrder} extractGVK batch cs k :
  (∀ k1 k2, extractGVK k1 = extractGVK k2 → k1 = k2) →
  batch_of (objects (store_of k cs)) (store_of k (processBatch extractGVK batch cs)).
Proof. intros Hinj key. eapply delta_ok_touched. by apply processBatch_delta_ok. Qed.

Lemma batch_update {T} before (m : objectStore T) k u :
  batch_of before m → updates m !! k = Some u →
  OldObject u = before !! k ∧ NewObject u = objects m !! k ∧
  match UStatus u with
  | StatusUpserted => is_Some (objects m !! k)
  | StatusDeleted => objects m !! k = None
  | StatusUnchanged => False
  end.
Proof.
  intros Hm Hu. specialize (Hm k). unfold delta_ok in Hm. rw Hu in Hm.
  destruct Hm as (_ & H1 & H2 & H3 & _). split_and!; [done..|]. rw H3 H2. by destruct (objects m !! k).
Qed.

(** ** The Gateways of the tree *)

(** Listeners stay where they are, with their specification. *)
Definition grows (h h' : Listeners) : Prop :=
  ∀ loc l, h !! loc = Some l → ∃ l', h' !! loc = Some l' ∧ lst_K8sResource l' = lst_K8sResource l.

Lemma grows_refl h : grows h h.
Proof. intros loc l Hl. by exists l. Qed.

Lemma grows_trans h1 h2 h3 : grows h1 h2 → grows h2 h3 → grows h1 h3.
Proof.
  intros H1 H2 loc l Hl. destruct (H1 _ _ Hl) as (l' & Hl' & E1).
  destruct (H2 _ _ Hl') as (l'' & ? & E2). exists l''. split; [done|]. by rw E2.
Qed.

(** A Gateway of the tree comes with its resource, or, once it is deleted, with
    the one it had. *)
Definition stored_gw (key : NamespacedName) (g : Gateway) : Prop :=
  match Status (gt_TreeStatus g) with
  | StatusDeleted =>
      gt_K8sResource (gt_data g) = None ∧ gt_Valid (gt_data g) = false ∧
      ∃ old k8s, OldTreeResource (gt_TreeStatus g) = Some old ∧ gt_K8sResource old = Some k8s ∧
        spec_ok key k8s
  | _ => ∃ k8s, gt_K8sResource (gt_data g) = Some k8s ∧ meta_key (gw_Meta k8s) = key ∧
           spec_ok key k8s
  end.

Definition with_listeners (h : Listeners) (key : NamespacedName) (g : Gateway) : Prop :=
  listeners_ok h key g ∧ gt_Listeners (gt_data g) ≠ ∅.

(** A managed Gateway that is valid has its listeners... *)
Definition managed_ok (h : Listeners) (key : NamespacedName) (g : Gateway) : Prop :=
  stored_gw key g ∧ (gt_Valid (gt_data g) = true → with_listeners h key g).

(** ... or will get them in the last loop of the builder. *)
Definition pending_ok (h : Listeners) (key : NamespacedName) (g : Gateway) : Prop :=
  stored_gw key g ∧ (gt_Valid (gt_data g) = true →
    (Status (gt_TreeStatus g) = StatusUpserted ∧ isManaged (gt_data g) = true) ∨ with_listeners h key g).

Definition unmanaged_ok (key : NamespacedName) (g : Gateway) : Prop :=
  stored_gw key g ∧ gt_Valid (gt_data g) = false.

Definition gateways_ok (P : NamespacedName → Gateway → Prop) (ts : GWs * GWs) : Prop :=
  map_Forall P ts.1 ∧ map_Forall unmanaged_ok ts.2 ∧ ∀ k, is_Some (ts.1 !! k) → ts.2 !! k = None.

Lemma with_listeners_grows h h' key g :
  grows h h' → with_listeners h key g → with_listeners h' key g.
Proof.
  intros Hh [Hl Hne]. split; [|done]. intros ln loc Hloc. destruct (Hl ln loc Hloc) as (Hapi & l & H1 & H2).
  destruct (Hh _ _ H1) as (l' & ? & E). split; [done|]. exists l'. split; [done|]. by rw E.
Qed.

Lemma pending_grows h h' key g : grows h h' → pending_ok h key g → pending_ok h' key g.
Proof.
  intros Hh [Hs Hv]. split; [done|]. intros [?|?]%Hv; [by left|right]. by eapply with_listeners_grows.
Qed.

Lemma managed_grows h h' key g : grows h h' → managed_ok h key g → managed_ok h' key g.
Proof. intros Hh [Hs Hv]. split; [done|]. intros ?%Hv. by eapply with_listeners_grows. Qed.

Lemma managed_pending h key g : managed_ok h key g → pending_ok h key g.
Proof. intros [? Hv]. split; [done|]. intros ?%Hv. by right. Qed.

Lemma gateways_ok_impl (P P' : NamespacedName → Gateway → Prop) ts :
  (∀ k g, ts.1 !! k = Some g → P k g → P' k g) → gateways_ok P ts → gateways_ok P' ts.
Proof. intros HP (H1 & H2 & H3). split_and!; [|done..]. intros k g Hk. apply HP; [done|by apply H1]. Qed.

(** Writing at one key where the other tree has nothing. *)
Lemma gateways_ok_managed P key g ts :
  P key g → gateways_ok P ts → gateways_ok P (<[key := g]> ts.1, delete key ts.2).
Proof.
  intros Hg (H1 & H2 & H3). split_and!; cbn.
  - by apply map_Forall_insert_2.
  - by apply map_Forall_delete.
  - intros k [<-|Hk]%lookup_insert_is_Some'; [by apply lookup_delete_eq|].
    apply lookup_delete_None. right. by apply H3.
Qed.

Lemma gateways_ok_unmanaged P key g ts :
  unmanaged_ok key g → gateways_ok P ts → gateways_ok P (delete key ts.1, <[key := g]> ts.2).
Proof.
  intros Hg (H1 & H2 & H3). split_and!; cbn.
  - by apply map_Forall_delete.
  - by apply map_Forall_insert_2.
  - intros k [Hne Hk]%lookup_delete_is_Some. rw lookup_insert_ne //. by apply H3.
Qed.

Lemma gateways_ok_write_back P key g ts :
  P key g → unmanaged_ok key g → gateways_ok P ts → gateways_ok P (gateway_write_back key g ts).
Proof.
  intros Hg Hu (H1 & H2 & H3). unfold gateway_write_back.
  destruct (ts.1 !! key) eqn:E1; [|destruct (ts.2 !! key) eqn:E2; [|done]]; split_and!; cbn; try done.
  - by apply map_Forall_insert_2.
  - intros k [<-|Hk]%lookup_insert_is_Some'; apply H3; [by eexists|done].
  - by apply map_Forall_insert_2.
  - intros k Hk. rw lookup_insert_ne; [|by apply H3]. intros <-. rw E1 in Hk. by destruct Hk.
Qed.

(** Nothing but the key changes. *)
Definition frame (key : NamespacedName) (ts ts' : GWs * GWs) : Prop :=
  ∀ k, k ≠ key → ts'.1 !! k = ts.1 !! k ∧ ts'.2 !! k = ts.2 !! k.

Lemma write_back_frame key g ts : frame key ts (gateway_write_back key g ts).
Proof.
  intros k Hk. unfold gateway_write_back.
  destruct (ts.1 !! key); [|destruct (ts.2 !! key); [|done]]; cbn; by rw lookup_insert_ne.
Qed.

Section management.
Context {RO : RangeOrder} {GS : GoSort} {FE : FieldErrors}.
Context (MergeWithOverwrite : HugGate → HugGate → HugGate) (env : GatewayEnv) (h : Listeners).

(** A Gateway that was just upserted. *)
Definition fresh_gw (key : NamespacedName) (g : Gateway) : Prop :=
  Status (gt_TreeStatus g) = StatusUpserted ∧ gt_Valid (gt_data g) = false ∧
  ∃ k8s, gt_K8sResource (gt_data g) = Some k8s ∧ meta_key (gw_Meta k8s) = key ∧ spec_ok key k8s.

Lemma fresh_unmanaged key g : fresh_gw key g → unmanaged_ok key g.
Proof. intros (Hst & Hv & Hk). split; [|done]. unfold stored_gw. by rw Hst. Qed.

Lemma fresh_pending key g : fresh_gw key g → pending_ok h key g.
Proof. intros Hg. split; [by apply fresh_unmanaged|]. destruct Hg as (_ & -> & _). done. Qed.

Lemma checks_valid (d0 : GatewayData nat) :
  let d := set_gt_Valid (check_Valid (CheckParamsRef d0) && check_Valid (CheckValidGatewayClass d0)) d0 in
  gt_K8sResource d = gt_K8sResource d0 ∧ (gt_Valid d = true → isManaged d = true).
Proof. destruct d0. split; [done|]. by intros [_ ?]%andb_true_iff. Qed.

Lemma processManagementChecks_ok key g ts :
  fresh_gw key g → gateways_ok (pending_ok h) ts →
  gateways_ok (pending_ok h) (processManagementChecks MergeWithOverwrite env key g ts) ∧
  frame key ts (processManagementChecks MergeWithOverwrite env key g ts).
Proof.
  intros Hg Hts. unfold processManagementChecks.
  pose proof Hg as (Hst & Hv & k8s & Hk & Hkey & Hne). rw Hk.
  destruct (negb _).
  { split; [|apply write_back_frame].
    apply gateways_ok_write_back; [exact (fresh_pending _ _ Hg)|exact (fresh_unmanaged _ _ Hg)|exact Hts]. }
  cbv zeta. pose proof (checks_keep_resource MergeWithOverwrite env k8s (gt_data g)) as Hd.
  set (d0 := checkGatewayClassIsValid _ _ _) in *. destruct (checks_valid d0) as [Hd' Hvm].
  rw Hk -Hd' in Hd. clear Hd'. set (d := set_gt_Valid _ d0) in *. clearbody d. clear d0.
  set (g1 := mkGateway d _).
  assert (stored_gw key g1) as Hs by (unfold stored_gw; cbn; rw Hst; by exists k8s).
  pose proof (write_back_frame key g1 ts) as Hwf.
  set (ts1 := gateway_write_back key g1 ts) in *.
  destruct (isManaged d) eqn:Hm; unfold Gateway_SetAsManaged, Gateway_SetAsUnmanaged; cbn [gt_data g1];
    rw Hd Hkey.
  - assert ((<[key:=g1]> ts1.1, delete key ts1.2) = (<[key:=g1]> ts.1, delete key ts.2)) as ->.
    { f_equal; apply map_eq; intros k; destruct (decide (key = k)) as [<-|Hn];
        rw ?lookup_insert_eq ?lookup_delete_eq // ?lookup_insert_ne // ?lookup_delete_ne //; by apply Hwf. }
    split.
    + apply gateways_ok_managed; [|done]. split; [done|]. left. by rw Hst.
    + intros k Hn. cbn. rw lookup_insert_ne // lookup_delete_ne //.
  - assert ((delete key ts1.1, <[key:=g1]> ts1.2) = (delete key ts.1, <[key:=g1]> ts.2)) as ->.
    { f_equal; apply map_eq; intros k; destruct (decide (key = k)) as [<-|Hn];
        rw ?lookup_insert_eq ?lookup_delete_eq // ?lookup_insert_ne // ?lookup_delete_ne //; by apply Hwf. }
    split.
    + apply gateways_ok_unmanaged; [|done]. split; [done|]. cbn. destruct (gt_Valid d); [by specialize (Hvm eq_refl)|done].
    + intros k Hn. cbn. rw lookup_insert_ne // lookup_delete_ne //.
Qed.

(** An update of the cluster, for a Gateway the batch did not touch yet. *)
Definition gateway_update_ok (key : NamespacedName) (u : Store.Update K8sGateway) : Prop :=
  match UStatus u with
  | StatusUpserted => ∃ k8s, NewObject u = Some k8s ∧ meta_key (gw_Meta k8s) = key ∧ spec_ok key k8s
  | _ => True
  end.

Definition untouched (key : NamespacedName) (ts : GWs * GWs) : Prop :=
  ∀ g, ts.1 !! key = Some g ∨ ts.2 !! key = Some g → Status (gt_TreeStatus g) ≠ StatusDeleted.

Lemma computeTreeGatewayUpdate_ok key u ts :
  gateway_update_ok key u → untouched key ts → gateways_ok (pending_ok h) ts →
  gateways_ok (pending_ok h) (computeTreeGatewayUpdate MergeWithOverwrite env h key u ts) ∧
  frame key ts (computeTreeGatewayUpdate MergeWithOverwrite env h key u ts).
Proof.
  intros Hu Hun Hts. unfold computeTreeGatewayUpdate, gateway_update_ok in *.
  destruct (UStatus u); [| |done].
  - destruct Hu as (k8s & Hk & Hkey & Hne). apply processManagementChecks_ok; [|done].
    destruct (match ts.1 !! key with Some g => Some g | None => _ end);
      split_and!; try done; exists k8s; by rw -Hk.
  - destruct (match ts.1 !! key with Some g => Some g | None => _ end) as [g|] eqn:Hg; [|done].
    split; [|apply write_back_frame].
    assert (unmanaged_ok key (Gateway_SetAsDeleted h g)) as Hdel.
    { assert (stored_gw key g ∧ Status (gt_TreeStatus g) ≠ StatusDeleted) as [Hs Hd].
      { destruct (ts.1 !! key) as [g'|] eqn:E; simplify_eq.
        - split; [by apply (proj1 Hts)|]. apply Hun. by left.
        - split; [by apply (proj1 (proj2 Hts))|]. apply Hun. by right. }
      split; [|done]. split_and!; [done..|]. cbn. unfold stored_gw in Hs.
      assert (∃ k8s, gt_K8sResource (gt_data g) = Some k8s ∧ spec_ok key k8s) as (k8s & Hk & Hne).
      { destruct (Status (gt_TreeStatus g)); naive_solver. }
      exists (Gateway_DeepCopy h g), k8s. done. }
    apply gateways_ok_write_back; [|done|done]. split; [apply Hdel|]. by rw (proj2 Hdel).
Qed.

Lemma gateway_updates_ok (ups : gmap NamespacedName (Store.Update K8sGateway)) ts :
  map_Forall gateway_update_ok ups → (∀ k, untouched k ts) → gateways_ok (pending_ok h) ts →
  gateways_ok (pending_ok h) (range_fold (computeTreeGatewayUpdate MergeWithOverwrite env h) ups ts).
Proof.
  intros Hups Hun Hts.
  apply (range_fold_ind (λ d s, gateways_ok (pending_ok h) s ∧ ∀ k, d !! k = None → untouched k s)); [done|].
  intros k u d s Hk Hd _ [IH1 IH2].
  destruct (computeTreeGatewayUpdate_ok k u s) as [H1 H2]; [by apply Hups|by apply IH2|done|].
  split; [done|]. intros k' [Hk' Hne]%lookup_insert_None g. destruct (H2 k' ltac:(done)) as [-> ->].
  by apply IH2.
Qed.

Lemma upsert_conflicted_ok gwKeys ts :
  gateways_ok (pending_ok h) ts →
  gateways_ok (pending_ok h) (upsert_conflicted MergeWithOverwrite env h gwKeys ts).
Proof.
  intros Hts. unfold upsert_conflicted. apply foldl_ind; [done|].
  intros s key _ Hs. destruct (s.1 !! key) as [g|] eqn:Hg; [|done].
  destruct (Status (gt_TreeStatus g)) eqn:Hst; [done..|].
  apply processManagementChecks_ok; [|done].
  destruct (proj1 Hs key g Hg) as [Hk _]. unfold stored_gw in Hk. rw Hst in Hk. by split_and!.
Qed.
End management.

(** *** The last loop of the builder, and the builder *)
Section gateway_build.
Context {RO : RangeOrder} {GS : GoSort} {FE : FieldErrors}.
Context (MergeWithOverwrite : HugGate → HugGate → HugGate) (env : GatewayEnv).

Lemma lst_BuildConditions k8s l : lst_K8sResource (BuildConditions k8s l) = lst_K8sResource l.
Proof. unfold BuildConditions. by repeat case_match. Qed.

Lemma lst_checkRouteGroupKind valid kinds l :
  lst_K8sResource (checkRouteGroupKind valid kinds l) = lst_K8sResource l.
Proof. unfold checkRouteGroupKind. cbv zeta. by repeat case_match. Qed.

Lemma lst_checkProtocol kinds l : lst_K8sResource (checkProtocol kinds l) = lst_K8sResource l.
Proof. unfold checkProtocol. cbv zeta. by case_match. Qed.

Lemma lst_checkConflict valid multi l : lst_K8sResource (checkConflict valid multi l) = lst_K8sResource l.
Proof. unfold checkConflict. cbv zeta. by repeat case_match. Qed.

Lemma lst_checkCertificateRefs valid k8s secrets l :
  lst_K8sResource (checkCertificateRefs valid k8s secrets l) = lst_K8sResource l.
Proof.
  assert (∀ refs l, lst_K8sResource (checkCertificateRefs_loop k8s secrets refs l) = lst_K8sResource l) as Hloop.
  { clear l. induction refs as [|r refs IH]; intros l; cbn [checkCertificateRefs_loop]; [done|].
    cbv zeta. case_match; [done|]. rw IH. by case_match. }
  unfold checkCertificateRefs. by repeat case_match.
Qed.

Lemma lst_check_listener valid k8s secrets multi l :
  lst_K8sResource (check_listener valid k8s secrets multi l) = lst_K8sResource l.
Proof.
  unfold check_listener. cbv zeta.
  destruct (bool_decide _); [|destruct (bool_decide _)];
    by rw lst_checkConflict lst_checkProtocol ?lst_checkCertificateRefs ?lst_checkRouteGroupKind.
Qed.

Lemma process_gateway_ok multi single h key g :
  pending_ok h key g →
  let '(g', h') := process_gateway env multi single g h in managed_ok h' key g' ∧ grows h h'.
Proof.
  intros [Hs Hv]. pose proof (process_gateway_processed env multi single g h) as Hp.
  pose proof (process_gateway_listeners env multi single g h) as Hl.
  destruct (process_gateway env multi single g h) as [g' h'] eqn:Hrun.
  destruct Hp as [(E1 & E2 & E3 & _) Hh].
  assert (grows h h') as Hg.
  { intros loc l Hloc. exists l. split; [|done]. by rw Hh ?Hloc. }
  split; [|done].
  destruct (decide (Status (gt_TreeStatus g) = StatusUpserted ∧ isManaged (gt_data g) = true)) as [[Hst Hm]|Hno].
  - assert (∃ k8s, gt_K8sResource (gt_data g) = Some k8s ∧ meta_key (gw_Meta k8s) = key ∧
      spec_ok key k8s) as (k8s & Hk & Hkey & Hne & Hapi).
    { unfold stored_gw in Hs. by rw Hst in Hs. }
    destruct (Hl k8s Hst Hk Hm) as (H1 & H2 & _). split.
    + unfold stored_gw. rw E1 Hst E2. by exists k8s.
    + intros _. split.
      * intros ln loc Hloc. destruct (H2 ln loc Hloc) as (_ & l & Hin & Hn & Hloc').
        split; [rw -Hn; by eapply Forall_forall in Hapi|]. eexists. split; [exact Hloc'|]. by rw lst_BuildConditions lst_check_listener.
      * intros He. destruct (gw_Listeners k8s) as [|l ls]; [done|].
        destruct (proj2 (H1 (l_Name l))) as [loc Hloc]; [exists l; split; [by left|done]|].
        by rw He lookup_empty in Hloc.
  - assert (g' = g ∧ h' = h) as [-> ->].
    { unfold process_gateway in Hrun. destruct (Status (gt_TreeStatus g)) eqn:Hst; [|by simplify_eq..].
      destruct (gt_K8sResource (gt_data g)); [|by simplify_eq].
      destruct (isManaged (gt_data g)) eqn:Hm; [|by simplify_eq]. by destruct Hno. }
    split; [done|]. by intros [?|?]%Hv.
Qed.

Lemma process_loop_ok multi single (managed : GWs) h :
  map_Forall (pending_ok h) managed →
  let '(managed', h') := range_fold (λ key g acc,
    let '(g, heap) := process_gateway env multi single g acc.2 in (<[key := g]> acc.1, heap))
    managed (managed, h) in
  map_Forall (managed_ok h') managed' ∧ grows h h' ∧ dom managed' = dom managed.
Proof.
  intros Hm.
  enough (let s := range_fold (λ key g acc,
    let '(g, heap) := process_gateway env multi single g acc.2 in (<[key := g]> acc.1, heap))
    managed (managed, h) in
    (∀ k g, s.1 !! k = Some g → is_Some (managed !! k) → managed_ok s.2 k g) ∧ grows h s.2 ∧
    dom s.1 = dom managed) as Hgen.
  { cbv zeta in Hgen. destruct (range_fold _ _ _) as [m' h']. destruct Hgen as (H1 & H2 & H3).
    split_and!; [|done..]. intros k g Hk. apply (H1 k g Hk). apply elem_of_dom. rw -H3. by apply elem_of_dom_2 in Hk. }
  apply (range_fold_ind (λ d s,
    (∀ k g, s.1 !! k = Some g → is_Some (d !! k) → managed_ok s.2 k g) ∧ grows h s.2 ∧
    dom s.1 = dom managed)).
  - split_and!; [|apply grows_refl|done]. intros k g _ Hk. rw lookup_empty in Hk. by destruct Hk.
  - intros key g d [m h1] Hk Hd _ (IH1 & IH2 & IH3). cbn [fst snd] in *.
    pose proof (process_gateway_ok multi single h1 key g) as Hp.
    destruct (process_gateway env multi single g h1) as [g' h2]. cbn [fst snd].
    destruct Hp as [Hg Hh]; [eapply pending_grows; [exact IH2|by apply Hm]|].
    split_and!.
    + intros k g1 [[<- <-]|[Hne Hg1]]%lookup_insert_Some Hin; [done|].
      rw lookup_insert_ne // in Hin. eapply managed_grows; [exact Hh|by apply IH1].
    + by eapply grows_trans.
    + apply elem_of_dom_2 in Hk. rw dom_insert_L IH3. set_solver.
Qed.

(** The Gateways a build starts from. *)
Definition clean_ts (ts : GWs * GWs) : Prop := ∀ k, untouched k ts.

Lemma Gateway_ComputeTreeUpdates_ok ups gt :
  map_Forall gateway_update_ok ups → clean_ts (trees gt) →
  gateways_ok (managed_ok (heap gt)) (trees gt) →
  let gt' := Gateway_ComputeTreeUpdates MergeWithOverwrite env ups gt in
  gateways_ok (managed_ok (heap gt')) (trees gt') ∧ grows (heap gt) (heap gt').
Proof.
  intros Hups Hclean Hts. unfold Gateway_ComputeTreeUpdates, Gateway_computeGateTreeUpdates, builder_checkListenerConflicts.
  set (ts1 := range_fold _ ups _).
  assert (gateways_ok (pending_ok (heap gt)) ts1) as H1.
  { apply gateway_updates_ok; [exact Hups|exact Hclean|].
    eapply gateways_ok_impl; [|exact Hts]. intros k g _. apply managed_pending. }
  destruct (split_ports _) as [multi single]. cbv zeta.
  set (ts2 := upsert_conflicted _ _ _ _ ts1).
  assert (gateways_ok (pending_ok (heap gt)) ts2) as (H2 & H3 & H4) by by apply upsert_conflicted_ok.
  pose proof (process_loop_ok multi single ts2.1 (heap gt) H2) as Hloop.
  destruct (range_fold _ ts2.1 _) as [managed h']. destruct Hloop as (L1 & L2 & L3). cbn [trees heap].
  split; [|done]. split_and!; cbn [fst snd]; [done..|]. intros k Hk%elem_of_dom. apply H4, elem_of_dom. by rw -L3.
Qed.

(** Cleaning keeps the live Gateways, and nothing is deleted any more. *)
Lemma clean_gateways_ok gt :
  gateways_ok (managed_ok (heap gt)) (trees gt) →
  gateways_ok (managed_ok (heap gt)) (trees (clean_gateways gt)) ∧ clean_ts (trees (clean_gateways gt)).
Proof.
  intros (H1 & H2 & H3). unfold clean_gateways. cbn [trees].
  assert (∀ m k g, @cleanTreeUpdates _ _ _ (Gateway_TreeObject (heap gt)) m !! k = Some g →
    ∃ g0, m !! k = Some g0 ∧ Status (gt_TreeStatus g0) ≠ StatusDeleted ∧
      g = mkGateway (gt_data g0) zero_TreeUpdate) as Hc.
  { intros m k g. rw lookup_cleanTreeUpdates. destruct (m !! k) as [g0|]; [|done]. cbn [mbind option_bind].
    unfold clean_one. cbn [GetTreeStatus SetTreeStatus Gateway_TreeObject].
    destruct (Status (gt_TreeStatus g0)) eqn:Hst; intros [= <-]; exists g0; by rw Hst. }
  assert (∀ k g0, stored_gw k g0 → Status (gt_TreeStatus g0) ≠ StatusDeleted →
    stored_gw k (mkGateway (gt_data g0) zero_TreeUpdate)) as Hs.
  { intros k g0. unfold stored_gw. by destruct (Status (gt_TreeStatus g0)). }
  split; [split_and!|]; cbn [fst snd].
  - intros k g (g0 & Hg0 & Hn & ->)%Hc. destruct (H1 k g0 Hg0) as [Hst Hv]. split; [by apply Hs|exact Hv].
  - intros k g (g0 & Hg0 & Hn & ->)%Hc. destruct (H2 k g0 Hg0) as [Hst Hv]. split; [by apply Hs|exact Hv].
  - intros k [g (g0 & Hg0 & _)%Hc]. apply eq_None_not_Some. intros [g' (g1 & Hg1 & _)%Hc].
    rw H3 in Hg1; [by eexists|done].
  - intros k g [(g0 & _ & _ & ->)%Hc|(g0 & _ & _ & ->)%Hc]; done.
Qed.
End gateway_build.

(** *** Attaching routes keeps the Gateways *)
Definition attach_inv (st : Attach) : Prop := gateways_ok (managed_ok (at_heap st)) (at_gateways st).

(** The two functions write one listener and the status of its Gateway. *)
Lemma attach_write loc l l' (f : Gateway → TreeUpdate (GatewayData Listener)) st :
  at_heap st !! loc = Some l → lst_K8sResource l' = lst_K8sResource l → attach_inv st →
  let h := <[loc := l']> (at_heap st) in
  let st' := match (at_gateways st).1 !! lst_Owner l with
    | None => mkAttach (at_gateways st) h
    | Some treeGw =>
        match Status (gt_TreeStatus treeGw) with
        | StatusDeleted => mkAttach (at_gateways st) h
        | _ => mkAttach (<[lst_Owner l := mkGateway (gt_data treeGw)
                 (mkTreeUpdate (OldTreeResource (f treeGw)) StatusUpserted)]> (at_gateways st).1,
               (at_gateways st).2) h
        end
    end in
  attach_inv st' ∧ grows (at_heap st) (at_heap st').
Proof.
  intros Hl Hk Hst h.
  assert (grows (at_heap st) h) as Hh.
  { intros loc' l0 Hl0. unfold h. destruct (decide (loc = loc')) as [<-|Hne].
    - exists l'. rw lookup_insert_eq. split; [done|]. rw Hk. by simplify_eq.
    - exists l0. by rw lookup_insert_ne. }
  assert (gateways_ok (managed_ok h) (at_gateways st)) as Hok.
  { eapply gateways_ok_impl; [|exact Hst]. intros k g _. by apply managed_grows. }
  destruct ((at_gateways st).1 !! lst_Owner l) as [g|] eqn:Hg; [|done].
  destruct (Status (gt_TreeStatus g)) eqn:Hs; [|done|].
  all: split; [|exact Hh]; destruct Hok as (H1 & H2 & H3); split_and!; cbn [at_gateways at_heap fst snd]; try done.
  1, 3: apply map_Forall_insert_2; [|done]; destruct (H1 _ _ Hg) as [Hr Hv]; split; [|exact Hv];
    unfold stored_gw in *; by rw Hs in Hr.
  all: intros k [<-|?]%lookup_insert_is_Some'; apply H3; [by eexists|done].
Qed.

Lemma addAttachedRoute_inv key loc st :
  attach_inv st →
  attach_inv (addAttachedRoute key loc st) ∧ grows (at_heap st) (at_heap (addAttachedRoute key loc st)).
Proof.
  intros Hst. unfold addAttachedRoute. destruct (at_heap st !! loc) as [l|] eqn:Hl; [|split; [done|apply grows_refl]].
  cbv zeta. set (l' := mkListener _ _ _ _ _ _ _ _ _ _).
  apply (attach_write loc l l' (λ treeGw, mkTreeUpdate (Some (Gateway_DeepCopy (<[loc := l']> (at_heap st)) treeGw))
    StatusUpserted)); done.
Qed.

Lemma deleteAttachedRoute_inv key loc st :
  attach_inv st →
  attach_inv (deleteAttachedRoute key loc st) ∧ grows (at_heap st) (at_heap (deleteAttachedRoute key loc st)).
Proof.
  intros Hst. unfold deleteAttachedRoute. destruct (at_heap st !! loc) as [l|] eqn:Hl; [|split; [done|apply grows_refl]].
  cbv zeta. set (l' := mkListener _ _ _ _ _ _ _ _ _ _). apply (attach_write loc l l' gt_TreeStatus); done.
Qed.

(** ** The routes of the tree *)
Section routes_inv.
Context {RO : RangeOrder} {R Rule : Type} {RK : RouteKind R Rule} (extractGVK : ExtractGVK).
(** What the Kubernetes API promises of a rule. *)
Context (RuleOk : Rule → Prop).
Implicit Types (r : Route R Rule) (t : RouteTree R Rule) (d : RouteData R Rule).

Definition rules_ok (rules : list (RouteRule Rule)) : Prop :=
  Forall (λ rule, RuleOk (rule_K8sResource rule)) rules.

Definition resource_ok (o : option R) : Prop := ∃ k8s, o = Some k8s ∧ Forall RuleOk (route_Rules k8s).

Definition data_ok (h : Listeners) d : Prop := ready h d ∧ rules_ok (Rules d).

Definition route_ok (h : Listeners) r : Prop :=
  data_ok h (rt_data r) ∧
  (∀ old, OldTreeResource (rt_TreeStatus r) = Some old → data_ok h old) ∧
  (Status (rt_TreeStatus r) ≠ StatusDeleted → resource_ok (rt_K8sResource (rt_data r))).

(** The two maps name routes that are there. *)
Record routes_inv (t : RouteTree R Rule) : Prop := {
  ri_routes : map_Forall (λ _, route_ok (at_heap (attach t))) (routes t);
  ri_managed key loc : managedRoutes t !! key = Some loc → is_Some (routes t !! loc);
  ri_unmanaged key loc : unmanagedRoutes t !! key = Some loc → is_Some (routes t !! loc);
  ri_attach : attach_inv (attach t)
}.

Lemma ready_grows h h' d : grows h h' → ready h d → ready h' d.
Proof.
  intros Hh Hd pr locs Hlocs l Hl. destruct (Hd pr locs Hlocs l Hl) as [[x Hx] ?].
  destruct (Hh _ _ Hx) as (x' & ? & _). split; [by eexists|done].
Qed.

Lemma route_ok_grows h h' r : grows h h' → route_ok h r → route_ok h' r.
Proof.
  intros Hh ([H1 H2] & H3 & H4). split_and!; [| |done].
  - split; [by eapply ready_grows|done].
  - intros old Hold. destruct (H3 old Hold). split; [by eapply ready_grows|done].
Qed.

Lemma routes_ok_grows h h' (rs : gmap nat (Route R Rule)) :
  grows h h' → map_Forall (λ _, route_ok h) rs → map_Forall (λ _, route_ok h') rs.
Proof. intros Hh Hrs loc r Hr. eapply route_ok_grows; [exact Hh|by eapply Hrs]. Qed.

(** *** Attaching *)
Definition table_in (h : Listeners) (m : KeyMap ParentReference (list nat)) : Prop :=
  map_Forall (λ _ locs, ∀ l, l ∈ locs → is_Some (h !! l)) (data m).

Lemma table_grows h h' m : grows h h' → table_in h m → table_in h' m.
Proof.
  intros Hh Hm pr locs Hlocs l Hl. destruct (Hm pr locs Hlocs l Hl) as [x Hx].
  destruct (Hh _ _ Hx) as (x' & ? & _). by eexists.
Qed.

Definition attached_ok (h : Listeners) (m : KeyMap ParentReference (list nat)) (st : Attach) : Prop :=
  attach_inv st ∧ grows h (at_heap st) ∧ table_in (at_heap st) m.

Lemma attach_listener_ok h k8s pr s loc :
  attached_ok h (al_listeners s) (al_attach s) →
  let s' := attach_listener extractGVK k8s pr s loc in attached_ok h (al_listeners s') (al_attach s').
Proof.
  intros (H1 & H2 & H3). unfold attach_listener.
  destruct (at_heap (al_attach s) !! loc) as [l|] eqn:Hl; [|done].
  destruct (listener_refusal _ _ _); [done|]. cbn [al_listeners al_attach].
  destruct (addAttachedRoute_inv (meta_key (route_Meta k8s)) loc (al_attach s) H1) as [G1 G2].
  split_and!; [done|by eapply grows_trans|].
  pose proof (table_grows _ _ _ G2 H3) as H3'. unfold table_in, KeyMaps.Set_. cbn [data].
  apply map_Forall_insert_2; [|exact H3']. intros l' [Hin|Hin]%elem_of_app.
  - unfold KeyMaps.Get in Hin. destruct (data (al_listeners s) !! _) as [locs|] eqn:Hd; [by eapply H3'|].
    by apply elem_of_nil in Hin.
  - apply list_elem_of_singleton in Hin as ->. destruct (G2 _ _ Hl) as (x & Hx & _). by eexists.
Qed.

Lemma checkParentRef_ok h k8s pr listeners st :
  attached_ok h listeners st →
  let '(_, listeners', st') := checkParentRef extractGVK k8s pr listeners st in
  attached_ok h listeners' st'.
Proof.
  intros H. unfold checkParentRef. destruct (negb _); [done|].
  destruct ((at_gateways st).1 !! _) as [g|]; [|done].
  destruct (Status (gt_TreeStatus g)); [|done|].
  all: destruct (attachable_listeners _ _ _) as [locs|c]; [|done].
  all: assert (let s := foldl (attach_listener extractGVK k8s pr) (mkAttachLoop ∅ [] listeners st) locs in
    attached_ok h (al_listeners s) (al_attach s)) as Hs.
  1, 3: apply (foldl_ind (λ s, attached_ok h (al_listeners s) (al_attach s))); [exact H|];
    intros s loc _; apply attach_listener_ok.
  all: cbv zeta in *; by destruct (bool_decide _).
Qed.

Lemma processChecks_ok h d st :
  attached_ok h (rt_Listeners d) st →
  let '(d', st') := processChecks extractGVK d st in
  attached_ok h (rt_Listeners d') st' ∧ rt_K8sResource d' = rt_K8sResource d ∧ Rules d' = Rules d.
Proof.
  intros H. unfold processChecks, checkParentRefs. destruct (rt_K8sResource d) as [k8s|]; [|done].
  cbn [rt_Listeners rt_K8sResource Rules]. split; [|done].
  apply (foldl_ind (λ s, attached_ok h (pl_listeners s) (pl_attach s))); [exact H|].
  intros s pr _ Hs. unfold check_one_parent.
  pose proof (checkParentRef_ok h k8s pr _ _ Hs) as Hc.
  destruct (checkParentRef _ _ _ _ _) as [[res ls] st']. by destruct (negb _); [|destruct (negb _)].
Qed.

Lemma detach_ok (f : nat → Attach → Attach) key locs h st :
  (∀ loc st, f loc st = deleteAttachedRoute key loc st) →
  attach_inv st ∧ grows h (at_heap st) →
  let st' := foldl (λ st l, f l st) st locs in attach_inv st' ∧ grows h (at_heap st').
Proof.
  intros Hf Hst. apply (foldl_ind (λ st, attach_inv st ∧ grows h (at_heap st))); [done|].
  intros s loc _ [H1 H2]. rw Hf. destruct (deleteAttachedRoute_inv key loc s H1) as [G1 G2].
  split; [done|by eapply grows_trans].
Qed.

(** *** The updates *)
Lemma copied_ok h d : rules_ok (Rules d) → data_ok h (Route_DeepCopy d).2.
Proof.
  intros Hr. split; [by apply ready_no_listeners|]. cbn. apply Forall_fmap. exact Hr.
Qed.

Lemma reset_status_ok h status k8s r :
  rules_ok (Rules (rt_data r)) →
  let r' := Route_ResetChecks (Route_set_status status k8s r) in
  data (rt_Listeners (rt_data r')) = ∅ ∧ rt_K8sResource (rt_data r') = k8s ∧
  rules_ok (Rules (rt_data r')) ∧ Status (rt_TreeStatus r') = status ∧
  ∀ old, OldTreeResource (rt_TreeStatus r') = Some old → data_ok h old.
Proof.
  intros Hr. unfold Route_set_status. cbn. split_and!; try done.
  intros old [= <-]. by apply (copied_ok h (rt_data r)).
Qed.

(** An update comes with its resource. *)
Definition route_update_ok (u : Store.Update R) : Prop :=
  match UStatus u with StatusUpserted => resource_ok (NewObject u) | _ => True end.

Lemma Set_managed_inv key loc t :
  is_Some (routes t !! loc) → routes_inv t → routes_inv (Route_SetAsManaged key loc t).
Proof.
  intros Hloc [H1 H2 H3 (A1 & A2 & A3)]. split; [exact H1| |exact H3|].
  - intros k l Hk. cbn in Hk. apply lookup_insert_Some in Hk as [[_ <-]|[_ Hk]]; [done|by eapply H2].
  - split_and!; [exact A1|by apply map_Forall_delete|]. intros k Hk. cbn.
    apply lookup_delete_None. right. by apply A3.
Qed.

Lemma Set_unmanaged_inv key loc t :
  is_Some (routes t !! loc) → routes_inv t → routes_inv (Route_SetAsUnmanaged key loc t).
Proof.
  intros Hloc [H1 H2 H3 (A1 & A2 & A3)]. split; [exact H1|exact H2| |].
  - intros k l Hk. cbn in Hk. apply lookup_insert_Some in Hk as [[_ <-]|[_ Hk]]; [done|by eapply H3].
  - split_and!; [by apply map_Forall_delete|exact A2|]. intros k Hk. cbn in Hk.
    apply lookup_delete_is_Some in Hk as [_ Hk]. by apply A3.
Qed.

(** Writing one route, after the listeners changed. *)
Lemma write_route_inv loc r st t :
  routes_inv t → attach_inv st → grows (at_heap (attach t)) (at_heap st) → route_ok (at_heap st) r →
  routes_inv (mkRouteTree (<[loc := r]> (routes t)) (managedRoutes t) (unmanagedRoutes t) st).
Proof.
  intros [H1 H2 H3 H4] Hst Hg Hr. split; cbn; [|intros k l Hk..|done].
  - apply map_Forall_insert_2; [done|by eapply routes_ok_grows].
  - apply lookup_insert_is_Some'. right. by eapply H2.
  - apply lookup_insert_is_Some'. right. by eapply H3.
Qed.

Lemma computeTreeRouteUpdate_inv controllerName key u t :
  route_update_ok u → routes_inv t →
  let t' := computeTreeRouteUpdate extractGVK controllerName key u t in
  routes_inv t' ∧ grows (at_heap (attach t)) (at_heap (attach t')).
Proof.
  intros Hu Ht. unfold computeTreeRouteUpdate, route_update_ok in *. cbv zeta.
  set (treeRoute := _ ≫= _).
  assert (∀ loc r, treeRoute = Some (loc, r) → routes t !! loc = Some r) as Hfound.
  { intros loc r. unfold treeRoute. destruct (match managedRoutes t !! key with Some _ => _ | None => _ end); [|done].
    cbn. destruct (routes t !! n) eqn:E; [|done]. cbn. intros [= <- <-]. done. }
  clearbody treeRoute. destruct (UStatus u); [| |split; [done|apply grows_refl]].
  - set (lr := match treeRoute with Some _ => _ | None => _ end).
    assert (data (rt_Listeners (rt_data lr.2)) = ∅ ∧ rt_K8sResource (rt_data lr.2) = NewObject u ∧
      rules_ok (Rules (rt_data lr.2)) ∧ Status (rt_TreeStatus lr.2) = StatusUpserted ∧
      ∀ h old, OldTreeResource (rt_TreeStatus lr.2) = Some old → data_ok h old) as (L1 & L2 & L3 & L4 & L5).
    { unfold lr. destruct treeRoute as [[loc r]|]; cbn [snd].
      - pose proof (ri_routes t Ht loc r (Hfound _ _ eq_refl)) as ([_ Hr] & _ & _).
        destruct (reset_status_ok ∅ StatusUpserted (NewObject u) r Hr) as (R1 & R2 & R3 & R4 & _).
        split_and!; [done..|]. intros h old Hold.
        destruct (reset_status_ok h StatusUpserted (NewObject u) r Hr) as (_ & _ & _ & _ & R5).
        by apply R5.
      - split_and!; try done. apply Forall_nil_2. }
    destruct lr as [loc r]. cbn [snd] in *.
    pose proof (processChecks_ok (at_heap (attach t)) (rt_data r) (attach t)) as Hp.
    destruct (processChecks extractGVK (rt_data r) (attach t)) as [d st].
    destruct Hp as ((P1 & P2 & P3) & P4 & P5).
    { split_and!; [apply Ht|apply grows_refl|]. unfold table_in. rw L1. apply map_Forall_empty. }
    assert (routes_inv (mkRouteTree (<[loc := mkRoute (Route_BuildConditions d) (rt_TreeStatus r)]> (routes t))
      (managedRoutes t) (unmanagedRoutes t) st)) as Hinv.
    { apply write_route_inv; [done..|].
      assert (rt_K8sResource (Route_BuildConditions d) = NewObject u ∧
        rt_Listeners (Route_BuildConditions d) = rt_Listeners d ∧ Rules (Route_BuildConditions d) = Rules d)
        as (B1 & B2 & B3) by (unfold Route_BuildConditions; destruct (negb _); cbn; by rw P4).
      split_and!; cbn [rt_data rt_TreeStatus]; [|by apply L5|by rw B1].
      split; [|by rw B3 P5].
      intros pr locs. rw B2 B1. intros Hlocs l Hl. split; [by eapply P3|].
      destruct Hu as (k8s & -> & _). by eexists. }
    assert (is_Some ((<[loc := mkRoute (Route_BuildConditions d) (rt_TreeStatus r)]> (routes t)) !! loc)) as Hs
      by (rw lookup_insert_eq; by eexists).
    destruct (rt_K8sResource d); [|done].
    destruct (Route_isManaged d); (split; [|done]).
    + by apply Set_managed_inv.
    + by apply Set_unmanaged_inv.
  - destruct treeRoute as [[loc r]|]; [|split; [done|apply grows_refl]].
    pose proof (ri_routes t Ht loc r (Hfound _ _ eq_refl)) as ([_ Hr] & _ & _).
    set (st := match rt_K8sResource (rt_data r) with Some _ => _ | None => _ end).
    assert (attach_inv st ∧ grows (at_heap (attach t)) (at_heap st)) as [S1 S2].
    { assert (attach_inv (attach t) ∧ grows (at_heap (attach t)) (at_heap (attach t))) as H0.
      { split; [apply Ht|apply grows_refl]. }
      unfold st. destruct (rt_K8sResource (rt_data r)) as [k8s|]; [|done].
      apply (range_fold_ind (λ _ s, attach_inv s ∧ grows (at_heap (attach t)) (at_heap s))); [done|].
      intros pr locs _ s _ _ _ Hs. by apply (detach_ok (deleteAttachedRoute (meta_key (route_Meta k8s)))
        (meta_key (route_Meta k8s))). }
    cbn [attach]. split; [|done]. apply write_route_inv; [done..|].
    destruct (reset_status_ok (at_heap st) StatusDeleted None r Hr) as (R1 & R2 & R3 & R4 & R5).
    split_and!; [|done|].
    + split; [by apply ready_no_listeners|done].
    + by intros [].
Qed.

(** *** The second loop and the cleaning *)
Lemma check_one_keeps ns services s b :
  rule_K8sResource (check_one_backendRef extractGVK ns services s b).2 =
  rule_K8sResource (Rule := Rule) s.2.
Proof. unfold check_one_backendRef. destruct s as [v r]. by repeat case_match. Qed.

Lemma checkBackendRef_keeps ns services (r : RouteRule Rule) :
  rule_K8sResource (checkBackendRef extractGVK ns services r) = rule_K8sResource r.
Proof.
  unfold checkBackendRef.
  apply (foldl_ind (λ s : bool * RouteRule Rule, rule_K8sResource s.2 = rule_K8sResource r)); [done|].
  intros s b _ Hs. by rw check_one_keeps.
Qed.

Lemma finish_route_ok h services r : route_ok h r → route_ok h (finish_route extractGVK services r).
Proof.
  intros Hr. unfold finish_route. destruct (Status (rt_TreeStatus r)) eqn:Hst; [|done..].
  destruct Hr as ([H1 H2] & H3 & H4). rw Hst in H4. destruct H4 as (k8s & Hk & Hok); [done|].
  assert (∀ d, rt_Listeners d = rt_Listeners (rt_data r) → rt_K8sResource d = rt_K8sResource (rt_data r) →
    rules_ok (Rules d) → route_ok h (mkRoute (mergeBackendConditions d) (rt_TreeStatus r))) as Hgen.
  { intros d E1 E2 E3. split_and!; cbn [rt_data rt_TreeStatus]; [|done|].
    - split; [|exact E3]. intros pr locs. cbn. rw E1 E2. apply H1.
    - intros _. cbn. rw E2. by exists k8s. }
  destruct (Route_isManaged _); [|by apply Hgen].
  apply Hgen; unfold buildRules; rw Hk; try done. cbn [Rules].
  apply Forall_fmap, Forall_fmap. eapply Forall_impl; [exact Hok|]. intros rule Hrule. cbn.
  by rw checkBackendRef_keeps.
Qed.

Lemma Route_ComputeTreeUpdates_inv controllerName services updates t :
  map_Forall (λ _, route_update_ok) updates → routes_inv t →
  let t' := Route_ComputeTreeUpdates extractGVK controllerName services updates t in
  routes_inv t' ∧ grows (at_heap (attach t)) (at_heap (attach t')).
Proof.
  intros Hu Ht. unfold Route_ComputeTreeUpdates. cbv zeta. set (t1 := range_fold _ updates t).
  assert (routes_inv t1 ∧ grows (at_heap (attach t)) (at_heap (attach t1))) as [[H1 H2 H3 H4] Hg].
  { apply (range_fold_ind (λ _ s, routes_inv s ∧ grows (at_heap (attach t)) (at_heap (attach s)))).
    - split; [done|apply grows_refl].
    - intros k u _ s Hk _ _ [IH1 IH2].
      destruct (computeTreeRouteUpdate_inv controllerName k u s) as [G1 G2]; [by eapply Hu|done|].
      split; [done|by eapply grows_trans]. }
  split; [|done]. cbn [attach routes].
  assert (let rs := range_fold (λ _ loc routes, alter (finish_route extractGVK services) loc routes)
      (managedRoutes t1) (routes t1) in
    map_Forall (λ _, route_ok (at_heap (attach t1))) rs ∧ dom rs = dom (routes t1)) as [R1 R2].
  { apply (range_fold_ind (λ _ rs, map_Forall (λ _, route_ok (at_heap (attach t1))) rs ∧
      dom rs = dom (routes t1))); [done|].
    intros _ loc _ rs _ _ _ [IH1 IH2]. split; [|by rw dom_alter_L].
    intros loc' r. rw lookup_alter_Some. intros [(<- & r' & Hr' & ->)|[_ Hr]]; [|by eapply IH1].
    apply finish_route_ok. by eapply IH1. }
  split; cbn; [done|intros k l Hk..|done]; apply elem_of_dom; rw R2; apply elem_of_dom;
    [by eapply H2|by eapply H3].
Qed.

Lemma clean_route_map_ok h m (rs : gmap nat (Route R Rule)) :
  map_Forall (λ _, route_ok h) rs →
  let '(m', rs') := clean_route_map m rs in
  m' ⊆ m ∧ map_Forall (λ _, route_ok h) rs' ∧ dom rs' = dom rs.
Proof.
  intros Hrs. unfold clean_route_map.
  enough (let s := range_fold (λ key loc acc,
    match acc.2 !! loc with
    | None => acc
    | Some r =>
        match Status (rt_TreeStatus r) with
        | StatusDeleted => (delete key acc.1, acc.2)
        | _ => (acc.1, <[loc := mkRoute (rt_data r) zero_TreeUpdate]> acc.2)
        end
    end) m (m, rs) in s.1 ⊆ m ∧ map_Forall (λ _, route_ok h) s.2 ∧ dom s.2 = dom rs) as Hgen.
  { cbv zeta in Hgen. by destruct (range_fold _ m (m, rs)). }
  apply (range_fold_ind (λ _ s, s.1 ⊆ m ∧ map_Forall (λ _, route_ok h) s.2 ∧ dom s.2 = dom rs)); [done|].
  intros key loc _ [am ars] _ _ _ (IH1 & IH2 & IH3). cbn [fst snd] in *.
  destruct (ars !! loc) as [r|] eqn:Hr; [|done].
  destruct (decide (Status (rt_TreeStatus r) = StatusDeleted)) as [->|Hn].
  - split_and!; [|done..]. transitivity am; [apply delete_subseteq|done].
  - assert (∀ A (x y : A), match Status (rt_TreeStatus r) with StatusDeleted => x | _ => y end = y) as ->
      by (intros; by destruct (Status (rt_TreeStatus r))).
    cbn [fst snd]. split_and!; [done| |].
    + apply map_Forall_insert_2; [|done]. destruct (IH2 loc r Hr) as (H1 & _ & H3).
      split_and!; [exact H1|done|]. intros _. by apply H3.
    + rw dom_insert_L IH3. apply elem_of_dom_2 in Hr. rw IH3 in Hr. set_solver.
Qed.

Lemma Route_CleanTreeUpdates_inv t st :
  routes_inv t → attach_inv st → grows (at_heap (attach t)) (at_heap st) →
  let t' := Route_CleanTreeUpdates t in
  routes_inv (mkRouteTree (routes t') (managedRoutes t') (unmanagedRoutes t') st).
Proof.
  intros [H1 H2 H3 H4] Hst Hg. unfold Route_CleanTreeUpdates.
  pose proof (clean_route_map_ok (at_heap (attach t)) (managedRoutes t) (routes t) H1) as Hc1.
  destruct (clean_route_map (managedRoutes t) (routes t)) as [m1 rs1]. destruct Hc1 as (A1 & A2 & A3).
  pose proof (clean_route_map_ok (at_heap (attach t)) (unmanagedRoutes t) rs1 A2) as Hc2.
  destruct (clean_route_map (unmanagedRoutes t) rs1) as [m2 rs2]. destruct Hc2 as (B1 & B2 & B3).
  split; cbn; [by eapply routes_ok_grows|intros k l Hk..|done]; apply elem_of_dom; rw B3 A3; apply elem_of_dom.
  - eapply H2. by eapply lookup_weaken.
  - eapply H3. by eapply lookup_weaken.
Qed.
End routes_inv.

(** ** The invariant of the tree *)
Section invariant.
Context {RO : RangeOrder} {GS : GoSort} {FE : FieldErrors} {CE : CertEnv} (cfg : TreeConfig).
Hypothesis Hinj : ∀ k1 k2, tc_extractGVK cfg k1 = tc_extractGVK cfg k2 → k1 = k2.

Definition http_rule_ok (rule : K8sHTTPRouteRule) : Prop := Forall match_ok (hr_Matches rule).

(** The objects the controller stands.  The validation of the API promises that
    a Gateway has listeners, with the names of subdomains, and the fields of the
    matches of a route.  The rest it does not promise: that the names of the secrets
    a Gateway refers to have two bytes or more, and no slash, and that a secret has
    no key pair of RSA, ECDSA or DSA.  On a secret with a name of one byte the
    controller panics ([Certificates.short_name_panics]), and such a pair it puts at
    another path ([Certificates.bundle_keeps_last]). *)
Definition valid_object (o : Object) : Prop :=
  match o with
  | OGateway gw =>
      spec_ok (meta_key (gw_Meta gw)) gw ∧ ∀ owned gvk owner,
        certificate_reference (tc_extractGVK cfg) gw owned gvk owner →
        secret_key_ok owned ∧ file_key_ok owner
  | OHTTPRoute r => Forall http_rule_ok (hroute_Rules r)
  | OSecret o => only_tls o
  | _ => True
  end.

(** A CRD or a slice that is deleted was there before the batch.  The API does
    not promise it: on one that is created and deleted within one batch the
    controller panics ([InstalledVersions.InstalledVersions_panics] for a CRD,
    [Servers.endpointSliceUpdatedByService] for a slice). *)
Definition valid_event (before : ClusterStore) (e : Event) : Prop :=
  match e with
  | UpsertEvent o => valid_object o
  | DeleteEvent KCustomResourceDefinition key => is_Some (objects (GatewayAPICRDs before) !! key)
  | DeleteEvent KEndpointSlice key => is_Some (objects (EndpointSlices before) !! key)
  | DeleteEvent _ _ => True
  end.

Definition refs_ok (r : ReferencedBy) : Prop :=
  ∀ owned gvk owner, refers r owned gvk owner → secret_key_ok owned ∧ file_key_ok owner.

(** A tree of leaves shows the objects of the store. *)
Definition leaves_ok {T} (objs : gmap NamespacedName T) (tree : gmap NamespacedName (Leaf T)) : Prop :=
  mirrors objs tree ∧
  ∀ k s, tree !! k = Some s → live s = None → Status (TreeStatus s) = StatusDeleted.

(** An upserted class has its resource. *)
Definition class_ok (g : GatewayClass) : Prop :=
  Status (gc_TreeStatus g) = StatusUpserted → is_Some (gc_K8sResource (gc_data g)).

Definition certificate_files (s : TreeState) : Prop :=
  let current := AllReferenced (ReferencedSecrets (ts_references s)) (tc_extractGVK cfg KGateway) in
  let secrets := objects (Secrets (ts_cluster s)) in
  files_ok current secrets (ts_disk s) ∧ lists_ok current secrets (ts_disk s).

Record tree_inv (s : TreeState) : Prop := {
  ti_store : stored_ok valid_object (ts_cluster s);
  ti_secrets : leaves_ok (objects (Secrets (ts_cluster s))) (ts_secrets s);
  ti_services : leaves_ok (objects (Store.Services (ts_cluster s))) (ts_services s);
  ti_versions : versions_ok (count (objects (GatewayAPICRDs (ts_cluster s)))) (Versions (ts_versions s));
  ti_classes : all_managed (ts_classes s);
  ti_class : map_Forall (λ _, class_ok) (ts_classes s).1;
  ti_refs : refs_ok (ReferencedSecrets (ts_references s));
  ti_gateways : attach_inv (gateway_attach (ts_gateways s));
  ti_http : routes_inv http_rule_ok (route_tree (ts_http s) (ts_gateways s));
  ti_tls : routes_inv (λ _ : K8sTLSRouteRule, True) (route_tree (ts_tls s) (ts_gateways s));
  ti_files : tc_StoreCertificateOnDisk cfg = true → tc_disk_ok cfg = (λ _, true) → certificate_files s
}.

(** The tree the handler starts with. *)
Lemma initial_tree_inv logs : tree_inv (initial_tree ∅ logs).
Proof.
  split; cbn.
  - intros k key t. by destruct k; cbn; rw lookup_empty.
  - split; [intros k; by rw !lookup_empty|intros k l Hk; by rw lookup_empty in Hk].
  - split; [intros k; by rw !lookup_empty|intros k l Hk; by rw lookup_empty in Hk].
  - intros v. by rw lookup_empty.
  - split; [apply map_Forall_empty|done].
  - apply map_Forall_empty.
  - intros owned gvk owner (? & ? & Ho & _)%refers_lookup. by rw lookup_empty in Ho.
  - split_and!; cbn; [apply map_Forall_empty..|]. intros k Hk. by rw lookup_empty.
  - split; cbn; [apply map_Forall_empty|intros ? ? Hk; by rw lookup_empty in Hk..|].
    split_and!; cbn; [apply map_Forall_empty..|]. intros k Hk. by rw lookup_empty.
  - split; cbn; [apply map_Forall_empty|intros ? ? Hk; by rw lookup_empty in Hk..|].
    split_and!; cbn; [apply map_Forall_empty..|]. intros k Hk. by rw lookup_empty.
  - intros _ _. split; intros k Hk; cbn [initial_tree ts_cluster ts_disk].
    + rw !lookup_empty. by destruct (_ !! k).
    + right. split; [by rw lookup_empty|]. apply set_eq. intros x. unfold listed. rw elem_of_filter.
      split; [|by intros ?%elem_of_empty]. intros [[_ Hx] _]. cbn in Hx. rw lookup_empty in Hx. by destruct Hx.
Qed.

(** *** Leaves *)
Lemma leaf_after_ok {T} before (m : objectStore T) tree :
  batch_of before m → (∀ k, tree !! k = leaf_after (before !! k) (updates m !! k) (objects m !! k)) →
  leaves_ok (objects m) tree.
Proof.
  intros Hm Ht. split.
  - intros k. rw Ht. specialize (Hm k). unfold delta_ok in Hm.
    destruct (updates m !! k) as [u|].
    + by destruct (objects m !! k), (before !! k).
    + destruct Hm as [_ ->]. by destruct (before !! k).
  - intros k s. rw Ht. specialize (Hm k). unfold delta_ok in Hm.
    destruct (updates m !! k) as [u|], (objects m !! k), (before !! k);
      cbn; intros; simplify_eq; done.
Qed.

Lemma leaf_build_ok {T} (meta : T → ObjectMeta) before (m : objectStore T) tree :
  batch_of before m → leaves_ok before tree → keyed_by_meta meta (objects m) →
  ∀ k, computeLeafTreeUpdates meta (updates m) (cleanTreeUpdates tree) !! k =
    leaf_after (before !! k) (updates m !! k) (objects m !! k).
Proof. intros Hm [H1 H2] Hk. by apply computeLeafTreeUpdates_lookup; [apply mirrors_clean|..]. Qed.

(** *** References *)
Lemma UpdateRefences_ok cs ro :
  stored_ok valid_object cs → refs_ok (ReferencedSecrets ro) →
  let ro' := UpdateRefences (tc_extractGVK cfg) cs ro in
  PreviousReferencedSecrets ro' = ReferencedSecrets ro ∧ refs_ok (ReferencedSecrets ro').
Proof.
  intros Hcs Hro. unfold UpdateRefences, buildSecretReferences, cleanReferencedObjects.
  destruct (needsReferencedSecretsRebuild cs); simpl; rw ReferencedBy_DeepCopy_eq; (split; [done|]); [|done].
  intros owned gvk owner. rw refers_build CleanOwners_eq refers_lookup.
  intros [(? & ? & Ho & _)|(key & gw & Hgw & Hc)]; [by rw lookup_empty in Ho|].
  destruct (stored_gateway _ _ Hcs key gw Hgw) as [_ [_ Hok]]. by eapply Hok.
Qed.

Lemma AllReferenced_keys r gvk k :
  refs_ok r → is_Some (AllReferenced r gvk !! k) → secret_key_ok k.
Proof.
  intros Hr [ls Hls]. rw lookup_AllReferenced in Hls. case_bool_decide as He; [done|].
  apply set_choose_L in He as [o Ho]. by eapply Hr.
Qed.

Lemma AllReferenced_lists r gvk k l :
  refs_ok r → lists (AllReferenced r gvk) l k → file_key_ok l.
Proof.
  intros Hr (ls & Hls & Hl). rw lookup_AllReferenced in Hls. case_bool_decide; [done|]. simplify_eq.
  by eapply Hr.
Qed.

(** *** Classes *)
Lemma clean_classes_ok (classes : GWCs * GWCs) :
  all_managed classes → map_Forall (λ _, class_ok) classes.1 →
  let classes' := (cleanTreeUpdates classes.1, cleanTreeUpdates classes.2) in
  all_managed classes' ∧ map_Forall (λ _, class_ok) classes'.1.
Proof.
  intros [H1 H2] _. cbn. split; [split|]; cbn [fst snd].
  - intros k g. rw lookup_cleanTreeUpdates. destruct (classes.1 !! k) as [g0|] eqn:Hg; [|done]. cbn.
    unfold clean_one. cbn. destruct (Status (gc_TreeStatus g0)); intros [= <-]; by apply (H1 k g0).
  - rw H2. apply map_eq. intros k. by rw lookup_cleanTreeUpdates lookup_empty.
  - intros k g. rw lookup_cleanTreeUpdates. destruct (classes.1 !! k) as [g0|] eqn:Hg; [|done]. cbn.
    unfold clean_one. cbn. by destruct (Status (gc_TreeStatus g0)); intros [= <-].
Qed.

Lemma class_build_ok cs before iv classes :
  batch_of before (GatewayClasses cs) → stored_ok valid_object cs →
  all_managed classes → map_Forall (λ _, class_ok) classes.1 →
  let '(m, classes') := GatewayClass_ComputeTreeUpdates cs iv classes in
  objects m = objects (GatewayClasses cs) ∧ all_managed classes' ∧ map_Forall (λ _, class_ok) classes'.1.
Proof.
  intros Hb Hcs Hman Hok. unfold GatewayClass_ComputeTreeUpdates.
  set (m := addIndirectGatewayClassesFromInstalledVersions iv (GatewayClasses cs)).
  assert (objects m = objects (GatewayClasses cs)) as Hm
    by apply (lookup_addIndirect RO iv (GatewayClasses cs) (NN "" "")).
  assert (map_Forall update_ok (updates m)) as Hu.
  { intros k u. rw (proj1 (lookup_addIndirect RO iv (GatewayClasses cs) k)).
    destruct (updates (GatewayClasses cs) !! k) as [u0|] eqn:Hu.
    - intros [= <-]. specialize (Hb k). unfold delta_ok in Hb. rw Hu in Hb.
      destruct Hb as (_ & _ & Hn & Hst & _). split; [done|]. intros o Ho. rw Hn in Ho.
      by apply (stored_class _ _ Hcs).
    - destruct (InstalledVersions.Updated iv) as [[]|]; try done.
      destruct (objects (GatewayClasses cs) !! k) eqn:Ho; cbn; [|done]. intros [= <-].
      split; [done|]. intros ? [= <-]. by apply (stored_class _ _ Hcs). }
  destruct (compute_loop (objects (HugGates cs)) (iv_Valid iv) _ _ Hman Hu) as [H1 H2].
  split_and!; [done..|]. intros k g. rw H2. destruct (updates m !! k) as [u|]; [|by apply Hok].
  unfold class_after, class_ok. destruct (NewObject u), (classes.1 !! k); intros; simplify_eq; cbn in *; try done;
    rw class_view_resource; by eexists.
Qed.
End invariant.

(** ** A batch *)
Lemma processBatch_deleted {RO : RangeOrder} extractGVK batch cs k key u :
  (∀ k1 k2, extractGVK k1 = extractGVK k2 → k1 = k2) →
  updates (store_of k (processBatch extractGVK batch cs)) !! key = Some u → UStatus u = StatusDeleted →
  DeleteEvent k key ∈ Events batch.
Proof.
  intros Hinj. rw store_of_processBatch_steps // resetUpdates_eq. revert key u.
  apply (foldl_prefix_ind (λ pre m, ∀ key u, updates m !! key = Some u → UStatus u = StatusDeleted →
    DeleteEvent k key ∈ pre)).
  - intros key u. cbn. by rw lookup_empty.
  - intros pre e m _ Hm key u. unfold store_step. rw elem_of_app list_elem_of_singleton.
    destruct (decide (event_kind e = k)) as [Hk|]; [|intros; left; by eapply Hm].
    destruct e as [o|kd n].
    + unfold upsert. destruct (type_assert k o); [|intros; left; by eapply Hm]. cbn [updates].
      intros [[<- <-]|[_ Hu]]%lookup_insert_Some; [done|]. left. by eapply Hm.
    + cbn in Hk. subst kd. cbn [updates delete_object].
      intros [[<- <-]|[_ Hu]]%lookup_insert_Some; [by right|]. left. by eapply Hm.
Qed.

Section batch_ok.
Context {RO : RangeOrder} {GS : GoSort} {FE : FieldErrors} {CE : CertEnv} (cfg : TreeConfig).
Hypothesis Hinj : ∀ k1 k2, tc_extractGVK cfg k1 = tc_extractGVK cfg k2 → k1 = k2.

Lemma routes_inv_attach {R Rule} {RK : RouteKind R Rule} (RuleOk : Rule → Prop) (t : RouteTree R Rule) st :
  routes_inv RuleOk t → attach_inv st → grows (at_heap (attach t)) (at_heap st) →
  routes_inv RuleOk (mkRouteTree (routes t) (managedRoutes t) (unmanagedRoutes t) st).
Proof. intros [H1 H2 H3 _] Hst Hg. split; [by eapply routes_ok_grows|done..]. Qed.

(** The tree of the manager. *)
Lemma gateway_ok_stored h key g :
  stored_gw key g → (gt_Valid (gt_data g) = true → with_listeners h key g) → gateway_ok h key g.
Proof.
  intros Hs Hv. unfold stored_gw in Hs. split.
  - unfold GetK8sResource. destruct (Status (gt_TreeStatus g)).
    1, 3: destruct Hs as (k8s & Hk & _ & Hne); exists k8s; by rw Hk.
    destruct Hs as (-> & _ & old & k8s & -> & Hk & Hne). exists k8s. by cbn.
  - unfold live_gateway. destruct (Status (gt_TreeStatus g)); [|done..]. intros Hl.
    destruct Hs as (k8s & Hk & _ & _). destruct (Hv Hl). split_and!; [by eexists|done..].
Qed.

Lemma manager_view_ok s :
  tree_inv cfg s → map_Forall (λ _, slice_update_ok) (updates (EndpointSlices (ts_cluster s))) →
  store_ok (manager_view s).
Proof.
  intros [_ _ _ _ _ _ _ (G1 & G2 & G3) [H1 H2 _ _] [T1 T2 _ _] _] Hsl. split.
  - intros key g Hg _. destruct (G1 key g Hg). by eapply gateway_ok_stored.
  - intros key g Hg. destruct (G2 key g Hg) as [? Hv]. eapply gateway_ok_stored; [done|]. by rw Hv.
  - intros key g Hg _. apply G3. by eexists.
  - intros key loc Hloc. destruct (H2 key loc Hloc) as [r Hr]. destruct (H1 loc r Hr) as ([R1 R2] & R3 & R4).
    exists r. split_and!; [done| |].
    + split_and!; [done..|]. intros old Hold. by destruct (R3 old Hold).
    + intros Hst. destruct (R4 Hst) as (k8s & -> & _). by eexists.
  - intros key loc Hloc. destruct (T2 key loc Hloc) as [r Hr]. destruct (T1 loc r Hr) as ([R1 R2] & R3 & R4).
    exists r. split_and!; [done| |].
    + split; [done|]. intros old Hold. by destruct (R3 old Hold).
    + intros Hst. destruct (R4 Hst) as (k8s & -> & _). by eexists.
  - exact Hsl.
Qed.

Lemma gateways_phase env before cs gt :
  batch_of before (Store.Gateways cs) → stored_ok (valid_object cfg) cs → attach_inv (gateway_attach gt) →
  let gt' := Gateway_ComputeTreeUpdates (tc_MergeWithOverwrite cfg) env (updates (Store.Gateways cs))
    (clean_gateways gt) in
  attach_inv (gateway_attach gt') ∧ grows (heap gt) (heap gt').
Proof using Type.
  intros Hb Hcs Hgt. destruct (clean_gateways_ok gt Hgt) as [H1 H2].
  apply (Gateway_ComputeTreeUpdates_ok (tc_MergeWithOverwrite cfg) env _ (clean_gateways gt)); [|done..].
  intros k u Hu. destruct (batch_update _ _ _ _ Hb Hu) as (_ & Hn & Hst). unfold gateway_update_ok.
  destruct (UStatus u); [|done..]. destruct Hst as [gw Hgw].
  destruct (stored_gateway _ _ Hcs k gw Hgw) as [<- [Hne _]]. exists gw. by rw Hn.
Qed.

Lemma routes_phase {R Rule} {RK : RouteKind R Rule} (RuleOk : Rule → Prop) controllerName services
    (ups : gmap NamespacedName (Store.Update R)) (p : RoutePart R Rule) gt gt1 :
  map_Forall (λ _, route_update_ok RuleOk) ups → routes_inv RuleOk (route_tree p gt) →
  attach_inv (gateway_attach gt1) → grows (heap gt) (heap gt1) →
  let t := Route_ComputeTreeUpdates (tc_extractGVK cfg) controllerName services ups
    (route_tree (clean_routes p gt) gt1) in
  routes_inv RuleOk t ∧ grows (heap gt1) (at_heap (attach t)).
Proof using Type.
  intros Hu Hp Hgt Hg. apply (Route_ComputeTreeUpdates_inv _ RuleOk); [done|].
  exact (Route_CleanTreeUpdates_inv RuleOk (route_tree p gt) (gateway_attach gt1) Hp Hgt Hg).
Qed.

Lemma certificates_phase before cs secrets ro disk :
  batch_of before (Secrets cs) →
  (∀ k, secrets !! k = leaf_after (before !! k) (updates (Secrets cs) !! k) (objects (Secrets cs) !! k)) →
  stored_ok (valid_object cfg) cs → refs_ok (PreviousReferencedSecrets ro) → refs_ok (ReferencedSecrets ro) →
  ∃ certs crts disk',
    Certificate_ComputeTreeUpdates secrets (updates (Secrets cs)) (tc_extractGVK cfg)
      (tc_StoreCertificateOnDisk cfg) (tc_disk_ok cfg) ro (ResetCertificateUpdates, ResetCrtListUpdates, disk) =
      Some (certs, crts, disk') ∧
    (tc_StoreCertificateOnDisk cfg = true → tc_disk_ok cfg = (λ _, true) →
       let previous := AllReferenced (PreviousReferencedSecrets ro) (tc_extractGVK cfg KGateway) in
       let current := AllReferenced (ReferencedSecrets ro) (tc_extractGVK cfg KGateway) in
       files_ok previous before disk → lists_ok previous before disk →
       files_ok current (objects (Secrets cs)) disk' ∧ lists_ok current (objects (Secrets cs)) disk').
Proof using Type.
  intros Hb Ht Hcs Hp Hc.
  destruct (certificates_run (tc_extractGVK cfg) before (Secrets cs) secrets ro) as (certs & crts & Hrun & Hdisk).
  - exact Hb.
  - exact Ht.
  - intros k o Hk. by apply (stored_secret _ _ Hcs).
  - intros k o Hk. by apply (stored_secret _ _ Hcs k o Hk).
  - intros k [Hk|Hk]; eapply AllReferenced_keys; [exact Hp|exact Hk|exact Hc|exact Hk].
  - intros k l [Hk|Hk]; eapply AllReferenced_lists; [exact Hp|exact Hk|exact Hc|exact Hk].
  - exists certs, crts. unfold Certificate_ComputeTreeUpdates. rw Hrun. cbn [mbind option_bind].
    eexists. split; [done|]. intros -> -> Hf Hl.
    destruct (Hdisk disk) as [D1 D2]. split; [by eapply files_step|by eapply lists_step].
Qed.

(** The updates of the routes come with their resource. *)
Lemma http_updates before cs :
  batch_of before (Store.HTTPRoutes cs) → stored_ok (valid_object cfg) cs →
  map_Forall (λ _, route_update_ok http_rule_ok) (updates (Store.HTTPRoutes cs)).
Proof using Type.
  intros Hb Hcs k u Hu. destruct (batch_update _ _ _ _ Hb Hu) as (_ & Hn & Hst). unfold route_update_ok.
  destruct (UStatus u); [|done..]. destruct Hst as [r Hr]. exists r. rw Hn. split; [done|].
  exact (stored_http _ _ Hcs k r Hr).
Qed.

Lemma tls_updates before cs :
  batch_of before (Store.TLSRoutes cs) →
  map_Forall (λ _, route_update_ok (λ _ : K8sTLSRouteRule, True)) (updates (Store.TLSRoutes cs)).
Proof using Type.
  intros Hb k u Hu. destruct (batch_update _ _ _ _ Hb Hu) as (_ & Hn & Hst). unfold route_update_ok.
  destruct (UStatus u); [|done..]. destruct Hst as [r Hr]. exists r. rw Hn. split; [done|].
  by apply Forall_true.
Qed.

(** The cluster store the builders see. *)
Lemma batch_store batch s :
  tree_inv cfg s → Forall (valid_event cfg (ts_cluster s)) (Events batch) →
  let cs := processBatch (tc_extractGVK cfg) batch (ts_cluster s) in
  stored_ok (valid_object cfg) cs ∧
  (∀ k, batch_of (objects (store_of k (ts_cluster s))) (store_of k cs)) ∧
  (∀ k u, updates (GatewayAPICRDs cs) !! k = Some u → UStatus u = StatusDeleted → is_Some (OldObject u)) ∧
  map_Forall (λ _, slice_update_ok) (updates (EndpointSlices cs)).
Proof using Hinj.
  intros Hs Hev. rw Forall_forall in Hev. cbv zeta. set (cs := processBatch _ _ _).
  assert (∀ k, batch_of (objects (store_of k (ts_cluster s))) (store_of k cs)) as Hb
    by (intros k; by apply processBatch_batch_of).
  split_and!; [|done| |].
  - apply processBatch_stored; [done|apply Hs|]. intros o Ho. exact (Hev _ Ho).
  - intros k u Hu Hst. destruct (batch_update _ _ _ _ (Hb KCustomResourceDefinition) Hu) as (Ho & _ & _).
    pose proof (processBatch_deleted _ _ _ KCustomResourceDefinition k u Hinj Hu Hst) as Hd.
    destruct (Hev _ Hd) as [x Hx]. exists x. exact (eq_trans Ho Hx).
  - intros k u Hu. destruct (batch_update (T := K8sEndpointSlice) _ _ _ _ (Hb KEndpointSlice) Hu) as (Ho & Hn & Hst).
    unfold slice_update_ok. revert Hst. destruct (UStatus u) eqn:E; intros Hst; [| |done].
    + destruct Hst as [x Hx]. exists x. exact (eq_trans Hn Hx).
    + pose proof (processBatch_deleted _ _ _ KEndpointSlice k u Hinj Hu E) as Hd.
      destruct (Hev _ Hd) as [x Hx]. exists x. exact (eq_trans Ho Hx).
Qed.

(** The state at the end of a build, when no builder panics. *)
Lemma buildGateTree_eq s iv m classes certs crts disk :
  let cs := ts_cluster s in
  let ro := UpdateRefences (tc_extractGVK cfg) cs (ts_references s) in
  let secrets := Secret_ComputeTreeUpdates cs (cleanTreeUpdates (ts_secrets s)) in
  let services := Service_ComputeTreeUpdates cs (cleanTreeUpdates (ts_services s)) in
  let gt1 := Gateway_ComputeTreeUpdates (tc_MergeWithOverwrite cfg)
    {| env_HugGates := objects (HugGates cs); env_GatewayClasses := classes.1; env_Secrets := secrets |}
    (updates (Store.Gateways cs)) (clean_gateways (ts_gateways s)) in
  let t1 := Route_ComputeTreeUpdates (tc_extractGVK cfg) (tc_ControllerName cfg) services
    (updates (Store.HTTPRoutes cs)) (route_tree (clean_routes (ts_http s) (ts_gateways s)) gt1) in
  let gt2 := set_attach (attach t1) gt1 in
  let t2 := Route_ComputeTreeUpdates (tc_extractGVK cfg) (tc_ControllerName cfg) services
    (updates (Store.TLSRoutes cs)) (route_tree (clean_routes (ts_tls s) (ts_gateways s)) gt2) in
  InstalledVersions_Build (tc_NewConstraint cfg) (tc_NewVersion cfg) (tc_Check cfg) cs
    (CleanInstalledVersionsUpdates (ts_versions s)) = Some iv →
  GatewayClass_ComputeTreeUpdates cs iv
    (cleanTreeUpdates (ts_classes s).1, cleanTreeUpdates (ts_classes s).2) = (m, classes) →
  Certificate_ComputeTreeUpdates secrets (updates (Secrets cs)) (tc_extractGVK cfg)
    (tc_StoreCertificateOnDisk cfg) (tc_disk_ok cfg) ro
    (ResetCertificateUpdates, ResetCrtListUpdates, ts_disk s) = Some (certs, crts, disk) →
  buildGateTree cfg s = Some (mkTreeState (set_GatewayClasses m cs) ro iv secrets services classes
    (set_attach (attach t2) gt2) (route_part t1) (route_part t2) certs crts disk
    (HugConf_Build (tc_ControllerConfNsName cfg) cs (ts_logs s))).
Proof using Type.
  cbv zeta. intros Hiv Hclass Hcert. unfold buildGateTree, buildInstalledVersionsUpdates.
  cbn [ts_cluster ts_versions updateReferences buildControllerConfCRDUpdates startBuild].
  rw Hiv. cbn [mbind option_bind]. unfold builders, mfold. cbn [foldl mbind option_bind].
  unfold gatewayClassBuilder.
  cbn [secretBuilder ts_cluster ts_versions ts_classes buildControllerConfCRDUpdates updateReferences startBuild].
  rw Hclass. unfold certificateBuilder.
  cbn [secretBuilder gatewayBuilder with_gateways ts_cluster ts_secrets ts_references ts_certs ts_crts ts_disk
    buildControllerConfCRDUpdates updateReferences startBuild set_GatewayClasses Secrets].
  rw Hcert. reflexivity.
Qed.

(** No batch makes the builders panic, and they leave a tree like the one
    before, which the manager of the configuration can use. *)
Lemma build_batch_ok batch s :
  tree_inv cfg s → Forall (valid_event cfg (ts_cluster s)) (Events batch) →
  ∃ s', build_batch cfg batch s = Some s' ∧ tree_inv cfg s' ∧ store_ok (manager_view s') ∧
    ∃ m, objects m = objects (GatewayClasses (processBatch (tc_extractGVK cfg) batch (ts_cluster s))) ∧
      ts_cluster s' = set_GatewayClasses m (processBatch (tc_extractGVK cfg) batch (ts_cluster s)).
Proof using Hinj.
  intros Hs Hev. destruct (batch_store batch s Hs Hev) as (Hcs & Hb & Hcrd & Hslices).
  unfold build_batch. set (cs := processBatch _ _ _) in *.
  destruct (InstalledVersions_Build_ok RO (tc_NewConstraint cfg) (tc_NewVersion cfg) (tc_Check cfg)
    (objects (GatewayAPICRDs (ts_cluster s))) cs (CleanInstalledVersionsUpdates (ts_versions s))
    (Hb KCustomResourceDefinition) Hcrd) as (iv & Hiv & Hivok).
  { unfold CleanInstalledVersionsUpdates. destruct (InstalledVersions.Updated (ts_versions s)); apply Hs. }
  pose proof (leaf_build_ok sec_Meta _ (Secrets cs) (ts_secrets s) (Hb KSecret) (ti_secrets cfg s Hs)
    (λ k o Hk, proj1 (stored_secret _ _ Hcs k o Hk))) as Hsec.
  pose proof (leaf_build_ok svc_Meta _ (Store.Services cs) (ts_services s) (Hb KService) (ti_services cfg s Hs)
    (stored_service _ _ Hcs)) as Hsvc.
  destruct (clean_classes_ok (ts_classes s) (ti_classes cfg s Hs) (ti_class cfg s Hs)) as [Hc1 Hc2].
  pose proof (class_build_ok cfg cs _ iv _ (Hb KGatewayClass) Hcs Hc1 Hc2) as Hclass.
  destruct (GatewayClass_ComputeTreeUpdates cs iv _) as [m classes] eqn:Ecl.
  destruct Hclass as (Hm & Hman & Hcok).
  destruct (UpdateRefences_ok cfg cs (ts_references s) Hcs (ti_refs cfg s Hs)) as [Hprev Hrefs].
  destruct (certificates_phase _ cs _ _ (ts_disk s) (Hb KSecret) Hsec Hcs
    (eq_ind_r refs_ok (ti_refs cfg s Hs) Hprev) Hrefs) as (certs & crts & disk & Ecert & Hdisk).
  eexists. split; [by apply (buildGateTree_eq (with_cluster cs s) iv m classes certs crts disk)|].
  cbn [with_cluster ts_cluster ts_references ts_secrets ts_services ts_classes ts_gateways ts_http ts_tls
    ts_disk ts_logs].
  set (gt1 := Gateway_ComputeTreeUpdates _ _ _ _).
  destruct (gateways_phase {| env_HugGates := objects (HugGates cs); env_GatewayClasses := classes.1;
    env_Secrets := Secret_ComputeTreeUpdates cs (cleanTreeUpdates (ts_secrets s)) |} _ cs (ts_gateways s)
    (Hb KGateway) Hcs (ti_gateways cfg s Hs)) as [G1 G2]. change (Gateway_ComputeTreeUpdates _ _ _ _) with gt1 in G1, G2.
  destruct (routes_phase http_rule_ok (tc_ControllerName cfg)
    (Service_ComputeTreeUpdates cs (cleanTreeUpdates (ts_services s))) _ (ts_http s) (ts_gateways s) gt1
    (http_updates _ cs (Hb KHTTPRoute) Hcs) (ti_http cfg s Hs) G1 G2) as [T1 T2].
  set (t1 := Route_ComputeTreeUpdates _ _ _ _ (route_tree _ gt1)) in *.
  set (gt2 := set_attach (attach t1) gt1).
  assert (attach_inv (gateway_attach gt2)) as G3 by exact (ri_attach _ _ T1).
  assert (grows (heap (ts_gateways s)) (heap gt2)) as G4 by (eapply grows_trans; [exact G2|exact T2]).
  destruct (routes_phase (λ _ : K8sTLSRouteRule, True) (tc_ControllerName cfg)
    (Service_ComputeTreeUpdates cs (cleanTreeUpdates (ts_services s))) _ (ts_tls s) (ts_gateways s) gt2
    (tls_updates _ cs (Hb KTLSRoute)) (ti_tls cfg s Hs) G3 G4) as [U1 U2].
  set (t2 := Route_ComputeTreeUpdates _ _ _ _ (route_tree _ gt2)) in *.
  match goal with |- tree_inv cfg ?x ∧ _ => assert (tree_inv cfg x) as Hinv end.
  { split; cbn [ts_cluster ts_references ts_versions ts_secrets ts_services ts_classes ts_gateways ts_http ts_tls
      ts_disk].
    - intros k key t Hk. apply (Hcs k key t). destruct k; try exact Hk. cbn in Hk. by rw -Hm.
    - by apply (leaf_after_ok _ _ _ (Hb KSecret)).
    - by apply (leaf_after_ok _ _ _ (Hb KService)).
    - exact Hivok.
    - exact Hman.
    - exact Hcok.
    - exact Hrefs.
    - exact (ri_attach _ _ U1).
    - exact (routes_inv_attach http_rule_ok t1 (gateway_attach (set_attach (attach t2) gt2)) T1
        (ri_attach _ _ U1) U2).
    - exact (routes_inv_attach (λ _ : K8sTLSRouteRule, True) t2 (gateway_attach (set_attach (attach t2) gt2)) U1
        (ri_attach _ _ U1) (grows_refl _)).
    - intros Hon Hok. destruct (ti_files cfg s Hs Hon Hok) as [F1 F2].
      apply Hdisk; [done|done|..]; rw Hprev; [exact F1|exact F2]. }
  split_and!; [exact Hinv|by apply manager_view_ok|by exists m; split].
Qed.
End batch_ok.
