(* ===== verification/Handler.v ===== *)
(** * Handler: handler/batch.go

    The handler of the batches: the cluster store, the build of the tree, the
    configuration of HAProxy and the statuses, one after the other, and the
    theorem on whole runs, from the events to HAProxy and to the files. *)

From S2P Require Import Prelude GoStrings FileUtils Objects Utils Conditions Store References TreeCore.
From S2P Require Import InstalledVersions GatewayClass Listener Gateway Route HaproxyConf Backends.
From S2P Require Import RouteMaps Certificates Servers Frontends CertRuntime RouteFill ConfMgr Logging.
From S2P Require Import Status GateTree.

Section handler.
Context {Extra : Type} {EqE : EqDecision Extra} {BP : BackendParams ServerModel Extra}.
Context {RO : RangeOrder} {GS : GoSort} {FE : FieldErrors}.
Context {ME : MapsEnv} {CE : CertEnv} {SP : ServerParams} {FP : FrontendParams}.
Context {T : Type} {RTC : RuntimeCerts T} {RTM : RuntimeClient T} {RTS : RuntimeServers T}.
Context {H : Type} {HC : HAProxyClient FrontendModel (BackendModel ServerModel (BackendBase Extra)) H}.
Context {W : Type} {SC : StatusClient W} {WT : Wait}.
Context (cfg : TreeConfig) (fe_Equal : FrontendModel → FrontendModel → bool) (params : HaproxyConfMgrParams).

(** The handler, with the API server the statuses are written to. *)
Record HandlerState := mkHandler {
  hd_tree : TreeState;
  hd_controller : Controller (Extra := Extra) (T := T) (H := H);
  hd_cluster : W
}.

(** A batch, with what the client of Kubernetes answers while it is handled: the
    slices of a service, and the time. *)
Record Arrival := mkArrival {
  ar_batch : EventBatch;
  ar_slices : NamespacedName → result (list K8sEndpointSlice);
  ar_now : Z
}.

(** The pointers of the maps, followed. *)
Definition routes_at {R Rule} (p : RoutePart R Rule) : gmap NamespacedName (Route R Rule) :=
  omap (λ loc, part_routes p !! loc) (part_managed p).

(** [statusUpdater.UpdateStatus] on the tree. *)
Definition update_statuses (now : Z) (s : TreeState) (w : W) : option W :=
  UpdateStatus now (ts_classes s).1 (trees (ts_gateways s)).1 (heap (ts_gateways s))
    (routes_at (ts_http s)) (routes_at (ts_tls s)) w.

Definition HandleEventBatch (a : Arrival) (s : HandlerState) : option HandlerState :=
  tree ← build_batch cfg (ar_batch a) (hd_tree s);
  controller ← handle_batch (tc_extractGVK cfg) fe_Equal params (manager_view tree) (ar_slices a)
    (hd_controller s);
  cluster ← update_statuses (ar_now a) tree (hd_cluster s);
  Some (mkHandler tree controller cluster).

Definition HandleEventBatches : list Arrival → HandlerState → option HandlerState := mfold HandleEventBatch.

(** ** Runs *)
Hypothesis Hinj : ∀ k1 k2, tc_extractGVK cfg k1 = tc_extractGVK cfg k2 → k1 = k2.
Context (name : NamespacedName → string → string).
Hypothesis Hnames : names_apart name.
Context (committed pending : H →
  gmap string FrontendModel * gmap string (BackendModel ServerModel (BackendBase Extra))).
Hypothesis laws : client_laws fe_Name committed pending.

(** The events of each batch are valid for the objects the earlier ones left. *)
Fixpoint valid_batches (cs : ClusterStore) (l : list Arrival) : Prop :=
  match l with
  | [] => True
  | a :: l =>
      Forall (valid_event cfg cs) (Events (ar_batch a)) ∧
      valid_batches (processBatch (tc_extractGVK cfg) (ar_batch a) cs) l
  end.

(** The invariant of the handler. *)
Definition handler_inv (s : HandlerState) : Prop :=
  tree_inv cfg (hd_tree s) ∧ mirrored committed (hd_controller s).

Lemma touched_upserted st : touched_status st = true → st = StatusUpserted.
Proof using Type. by destruct st. Qed.

Lemma update_statuses_total now s w : tree_inv cfg s → is_Some (update_statuses now s w).
Proof using Type.
  intros [_ _ _ _ _ I6 _ (G1 & _ & _) [H1 H2 _ _] [T1 T2 _ _] _].
  unfold update_statuses. apply UpdateStatus_total.
  - intros k v Hk Ht%touched_upserted. exact (I6 k v Hk Ht).
  - intros k v Hk Ht%touched_upserted. destruct (G1 k v Hk) as [Hs _]. unfold stored_gw in Hs. rw Ht in Hs.
    destruct Hs as (k8s & Hk8s & _). by exists k8s.
  - intros k r Hk Ht%touched_upserted. unfold routes_at in Hk. rw lookup_omap in Hk. apply bind_Some in Hk as (loc & _ & Hr).
    destruct (H1 loc r Hr) as (_ & _ & R3). destruct R3 as (k8s & Hk8s & _); [by rw Ht|]. by exists k8s.
  - intros k r Hk Ht%touched_upserted. unfold routes_at in Hk. rw lookup_omap in Hk. apply bind_Some in Hk as (loc & _ & Hr).
    destruct (T1 loc r Hr) as (_ & _ & R3). destruct R3 as (k8s & Hk8s & _); [by rw Ht|]. by exists k8s.
Qed.

Lemma HandleEventBatch_ok a s :
  handler_inv s → Forall (valid_event cfg (ts_cluster (hd_tree s))) (Events (ar_batch a)) →
  ∃ s', HandleEventBatch a s = Some s' ∧ handler_inv s' ∧
    ∃ m, objects m = objects (GatewayClasses (processBatch (tc_extractGVK cfg) (ar_batch a) (ts_cluster (hd_tree s)))) ∧
      ts_cluster (hd_tree s') =
        set_GatewayClasses m (processBatch (tc_extractGVK cfg) (ar_batch a) (ts_cluster (hd_tree s))).
Proof.
  intros [Ht Hc] Hev. destruct (build_batch_ok cfg Hinj (ar_batch a) (hd_tree s) Ht Hev)
    as (t & Hrun & Ht' & Hst & Hm).
  destruct (handle_batch_mirrored (tc_extractGVK cfg) fe_Equal params name Hnames committed pending
    laws (manager_view t) (ar_slices a) (hd_controller s) Hc Hst) as (c & Hc1 & Hc2).
  destruct (update_statuses_total (ar_now a) t (hd_cluster s) Ht') as [w Hw].
  exists (mkHandler t c w). unfold HandleEventBatch. rw Hrun. cbn [mbind option_bind].
  rw Hc1. cbn [mbind option_bind]. rw Hw. by split_and!.
Qed.

(** The same objects; the updates of the classes do not count. *)
Definition same_objects (cs cs' : ClusterStore) : Prop :=
  (∀ k, objects (store_of k cs) = objects (store_of k cs')) ∧
  ∀ k, k ≠ KGatewayClass → store_of k cs = store_of k cs'.

Lemma same_objects_batch batch cs cs' :
  same_objects cs cs' →
  same_objects (processBatch (tc_extractGVK cfg) batch cs) (processBatch (tc_extractGVK cfg) batch cs').
Proof using Hinj.
  intros [Hobj Hcs]. split; intros k.
  - rw !store_of_processBatch_steps // (objects_events k _ _ (resetUpdates (store_of k cs'))).
    + rw !resetUpdates_eq. apply Hobj.
    + symmetry. by apply objects_events.
  - intros Hk. rw !store_of_processBatch_steps //. by rw (Hcs k Hk).
Qed.

Lemma valid_batches_same cs cs' l : same_objects cs cs' → valid_batches cs l → valid_batches cs' l.
Proof using Hinj.
  revert cs cs'. induction l as [|a l IH]; intros cs cs' Hcs; [done|]. intros [H1 H2]. split.
  - eapply Forall_impl; [exact H1|]. intros [o|k key]; [done|].
    pose proof (proj1 Hcs KCustomResourceDefinition) as Hcrd. pose proof (proj1 Hcs KEndpointSlice) as Hslice.
    cbn in Hcrd, Hslice. destruct k; try done; cbn; by rw ?Hcrd ?Hslice.
  - eapply IH; [|exact H2]. by apply same_objects_batch.
Qed.

(** The store after the batches, from the events alone. *)
Definition store_after (cs : ClusterStore) (l : list Arrival) : ClusterStore :=
  foldl (λ cs a, processBatch (tc_extractGVK cfg) (ar_batch a) cs) cs l.

Lemma store_after_same l cs cs' : same_objects cs cs' → same_objects (store_after cs l) (store_after cs' l).
Proof using Hinj.
  revert cs cs'. induction l as [|a l IH]; intros cs cs' Hcs; [done|]. apply IH. by apply same_objects_batch.
Qed.

Lemma HandleEventBatches_ok l s :
  handler_inv s → valid_batches (ts_cluster (hd_tree s)) l →
  ∃ s', HandleEventBatches l s = Some s' ∧ handler_inv s' ∧
    same_objects (store_after (ts_cluster (hd_tree s)) l) (ts_cluster (hd_tree s')).
Proof.
  revert s. induction l as [|a l IH]; intros s Hs Hl; [by exists s|]. destruct Hl as [Ha Hl].
  destruct (HandleEventBatch_ok a s Hs Ha) as (s1 & Hrun & Hs1 & m & Hobjs & Hm).
  assert (same_objects (processBatch (tc_extractGVK cfg) (ar_batch a) (ts_cluster (hd_tree s)))
    (ts_cluster (hd_tree s1))) as Hsame.
  { split; intros k; rw Hm; [|by destruct k]. by destruct k. }
  destruct (IH s1 Hs1) as (s' & Hrun' & Hs' & Hobj); [by eapply valid_batches_same|].
  exists s'. split_and!; [|done|].
  - unfold HandleEventBatches. by rw mfold_cons Hrun.
  - destruct (store_after_same l _ _ Hsame) as [S1 S2]. destruct Hobj as [O1 O2].
    split; [intros k; by rw -O1|intros k Hk; by rw -O2 // S2].
Qed.
End handler.

(** ** Properties *)

(** C1: whole runs, from the events of the cluster to HAProxy and to the files.
    From the state at startup, for any sequence of batches of valid events,
    whatever the order of the maps and whatever the clients of the statuses and of
    the runtime answer, no batch makes the process panic, and after the last one:
    the store is the one the events describe; the trees of secrets and services
    show its objects, and the installed versions count its CRDs; the Gateways and
    the routes of the tree come with their resources and their listeners; the files
    of certificates are those the Gateways reference, when they are kept on disk
    and no write fails; and HAProxy, which accepted every transaction, has exactly
    the frontends and the backends of the controller.

    A valid event is one the API accepts, with these exceptions, which the API
    accepts and the controller does not stand: a Gateway that refers to a secret
    whose name has one byte (a panic) or a slash; a secret with a key pair of RSA,
    ECDSA or DSA (another path); the deletion of a CRD or of a slice that
    was not there before the batch (a panic).  It is asked moreover that the kinds have
    different GVKs, that the template of the names tells the listeners with names
    of the API apart ([names_apart], which the default template does), that
    client-native accepts the operations and does what it promises
    ([client_laws]; a reload gives no error), and that HAProxy has at first the
    configuration the manager starts from. *)
Theorem controller_runs Extra (EqE : EqDecision Extra) (BP : BackendParams ServerModel Extra)
    (RO : RangeOrder) (GS : GoSort) (FE : FieldErrors)
    (ME : MapsEnv) (CE : CertEnv) (SP : ServerParams) (FP : FrontendParams)
    T (RTC : RuntimeCerts T) (RTM : RuntimeClient T) (RTS : RuntimeServers T)
    H (HC : HAProxyClient FrontendModel (BackendModel ServerModel (BackendBase Extra)) H)
    W (SC : StatusClient W) (WT : Wait) cfg fe_Equal params name committed pending logs c w l :
  (∀ k1 k2, tc_extractGVK cfg k1 = tc_extractGVK cfg k2 → k1 = k2) →
  names_apart name →
  client_laws fe_Name committed pending →
  mgr_ok (ct_mgr c) → committed (ct_haproxy c) = structured (ct_mgr c) → ct_results c = [] →
  valid_batches cfg empty_cluster_store l →
  ∃ s, HandleEventBatches cfg fe_Equal params l (mkHandler (T := T) (initial_tree ∅ logs) c w) = Some s ∧
    let t := hd_tree s in
    same_objects (store_after cfg empty_cluster_store l) (ts_cluster t) ∧
    (∀ k, ts_secrets t !! k ≫= live = objects (Secrets (ts_cluster t)) !! k) ∧
    (∀ k, ts_services t !! k ≫= live = objects (Store.Services (ts_cluster t)) !! k) ∧
    versions_ok (count (objects (GatewayAPICRDs (ts_cluster t)))) (Versions (ts_versions t)) ∧
    attach_inv (gateway_attach (ts_gateways t)) ∧
    routes_inv http_rule_ok (route_tree (ts_http t) (ts_gateways t)) ∧
    (tc_StoreCertificateOnDisk cfg = true → tc_disk_ok cfg = (λ _, true) → certificate_files cfg t) ∧
    committed (ct_haproxy (hd_controller s)) = structured (ct_mgr (hd_controller s)) ∧
    Forall (λ err, err = None) (ct_results (hd_controller s)).
Proof.
  intros Hinj Hnames laws Hb Hh Hr Hl.
  destruct (HandleEventBatches_ok cfg fe_Equal params Hinj name Hnames committed pending laws l
    (mkHandler (initial_tree ∅ logs) c w)) as (s & Hrun & [I (_ & M1 & M2)] & Hobj).
  - split; [apply initial_tree_inv|]. split_and!; [done|done|by rw Hr].
  - exact Hl.
  - exists s. destruct I as [_ [I2 _] [I3 _] I4 _ _ _ I8 I9 _ I11]. by split_and!.
Qed.

(** C6: the tree the controller keeps is well formed.  The tree it starts with is,
    and no batch of valid events ([valid_event]: those of C1, without what is known
    to make the controller panic) makes the builders panic or leaves a tree that is
    not: the secrets, services and versions are those of the cluster, every class
    has its resource, the listeners and the routes point to each other through
    addresses that exist, the references name keys that can be files, and the
    files of the certificates are those the references ask for; and what the
    manager of the configuration is given of it is well formed. *)
Theorem tree_well_formed (RO : RangeOrder) (GS : GoSort) (FE : FieldErrors) (CE : CertEnv) cfg logs :
  (∀ k1 k2, tc_extractGVK cfg k1 = tc_extractGVK cfg k2 → k1 = k2) →
  tree_inv cfg (initial_tree ∅ logs) ∧
  ∀ batch s, tree_inv cfg s → Forall (valid_event cfg (ts_cluster s)) (Events batch) →
    ∃ s', build_batch cfg batch s = Some s' ∧ tree_inv cfg s' ∧ store_ok (manager_view s').
Proof.
  intros Hinj. split; [apply initial_tree_inv|]. intros batch s Hs Hev.
  destruct (build_batch_ok cfg Hinj batch s Hs Hev) as (s' & Hb & Hs' & Hm & _). by exists s'.
Qed.

(** *** Witness *)
Definition example_tree_config : TreeConfig := {|
  tc_extractGVK := example_gvk;
  tc_ControllerName := "hug";
  tc_ControllerConfNsName := NN "ns" "conf";
  tc_StoreCertificateOnDisk := true;
  tc_disk_ok := λ _, true;
  tc_MergeWithOverwrite := λ _ h, h;
  tc_NewConstraint := Some;
  tc_NewVersion := Some;
  tc_Check := String.eqb
|}.

(** A class and a Gateway arrive, then a route that attaches to it, then the
    Gateway goes away. *)
Definition example_arrivals : list Arrival :=
  let arrival es := mkArrival (mkBatch es 1) example_slices 0 in
  [arrival [UpsertEvent (OGatewayClass example_class);
            UpsertEvent (OGateway (example_gateway [example_listener 80 "HTTP"]))];
   arrival [UpsertEvent (OHTTPRoute (example_route "r" []))];
   arrival [DeleteEvent KGateway (NN "ns" "gw")]].

Lemma example_arrivals_valid (RO : RangeOrder) cfg :
  tc_extractGVK cfg = example_gvk → valid_batches cfg empty_cluster_store example_arrivals.
Proof.
  intros Hgvk. split; [|split; [|split; [|done]]]; cbn [ar_batch Events].
  - constructor; [done|]. constructor; [|done]. split; [split; [discriminate|by constructor]|].
    intros owned gvk owner (x & tls & ref & Hx%list_elem_of_singleton & Htls & _). by subst x.
  - constructor; [|done]. constructor; [|done]. constructor.
  - constructor; done.
Qed.

#[local] Existing Instances example_frontend_env example_cert_env example_server_params
  example_frontend_params example_server_backends example_manager_client example_no_certs example_no_maps
  example_no_servers gone_client.

(** The frontends HAProxy has after some of the batches. *)
Definition frontends_after (n : nat) : option (list string) :=
  (λ s, (map_to_list (ct_haproxy (hd_controller s)).1.1).*1) <$>
    HandleEventBatches (RO := key_order) (GS := stable_sort) (FE := example_errors) example_tree_config
      example_equal example_mgr_params (take n example_arrivals)
      (mkHandler (initial_tree ∅ initial_settings) example_controller tt).

Lemma controller_runs_witness :
  ∃ s, HandleEventBatches (RO := key_order) (GS := stable_sort) (FE := example_errors) example_tree_config
      example_equal example_mgr_params example_arrivals
      (mkHandler (initial_tree ∅ initial_settings) example_controller tt) = Some s ∧
    (ct_haproxy (hd_controller s)).1 = structured (ct_mgr (hd_controller s)) ∧
    frontends_after 0 = Some ["stale"] ∧ frontends_after 2 = Some [example_name (NN "ns" "gw") "web"] ∧
    frontends_after 3 = Some [].
Proof.
  destruct (controller_runs bool _ example_server_backends key_order stable_sort example_errors
    example_frontend_env example_cert_env example_server_params example_frontend_params unit _ _ _ _
    example_manager_client unit gone_client example_wait example_tree_config example_equal example_mgr_params
    example_name fst snd initial_settings example_controller tt example_arrivals) as (s & Hrun & Hall).
  - exact example_gvk_inj.
  - exact example_names.
  - exact example_manager_client_laws.
  - apply NewHaproxyConfMgr_ok; [exact example_startup_wf|exact example_no_backends_wf].
  - vm_refl.
  - done.
  - by apply example_arrivals_valid.
  - exists s. split; [exact Hrun|]. split; [by apply Hall|]. split_and!; vm_refl.
Defined.

(** A class and a Gateway in the first batch. *)
Lemma tree_well_formed_witness :
  ∃ s, build_batch (RO := key_order) (GS := stable_sort) (FE := example_errors) example_tree_config
      (mkBatch [UpsertEvent (OGatewayClass example_class);
                UpsertEvent (OGateway (example_gateway [example_listener 80 "HTTP"]))] 1)
      (initial_tree ∅ initial_settings) = Some s ∧
    store_ok (manager_view s) ∧ size (Gateways (manager_view s)) = 1.
Proof.
  destruct (tree_well_formed key_order stable_sort example_errors example_cert_env example_tree_config initial_settings
    example_gvk_inj) as [Hinit Hstep].
  destruct (Hstep (mkBatch [UpsertEvent (OGatewayClass example_class);
    UpsertEvent (OGateway (example_gateway [example_listener 80 "HTTP"]))] 1) _ Hinit) as (s & Hs & _ & Hm).
  - constructor; [done|]. constructor; [|done]. split; [split; [discriminate|by constructor]|].
    intros owned gvk owner (x & tls & ref & Hx%list_elem_of_singleton & Htls & _). by subst x.
  - exists s. split; [exact Hs|]. split; [exact Hm|].
    assert (∃ n, size <$> (Gateways ∘ manager_view <$> build_batch (RO := key_order) (GS := stable_sort)
      (FE := example_errors) example_tree_config (mkBatch [UpsertEvent (OGatewayClass example_class);
        UpsertEvent (OGateway (example_gateway [example_listener 80 "HTTP"]))] 1)
      (initial_tree ∅ initial_settings)) = Some n ∧ n = 1) as (n & Hn & ->) by (exists 1; split; vm_refl).
    rw Hs in Hn. by injection Hn.
Defined.
