(* ===== verification/Pipeline.v ===== *)
(** * Pipeline: controller.go, from the cluster to HAProxy

    The parts put together the way [Start] of the controller does: what the
    reconcilers send is what the event loop receives, and the batches the loop
    hands over are those the handler is given.  A run of the reconcilers, a run
    of the loop and a run of the handler compose into one refinement: what is in
    the cluster is what the controller shows. *)

From S2P Require Import Prelude GoStrings FileUtils Objects Utils Conditions EventLoop.
From S2P Require Import Store References TreeCore InstalledVersions GatewayClass Listener Gateway Route HaproxyConf Backends.
From S2P Require Import RouteMaps Certificates Servers Frontends CertRuntime RouteFill ConfMgr Logging.
From S2P Require Import Status GateTree Handler Sources.

Section pipeline.
Context {RO : RangeOrder} (extractGVK : ExtractGVK).
Context (Hinj : ∀ k1 k2, extractGVK k1 = extractGVK k2 → k1 = k2).

Lemma objects_store_from k es :
  objects (store_of k (store_from extractGVK es)) = objects (foldl (store_step k) empty_store es).
Proof using Hinj.
  induction es as [|e es IH] using rev_ind; [by destruct k|].
  rw store_from_snoc // foldl_app /=. by apply objects_step.
Qed.

(** How the events are cut into batches does not count. *)
Lemma objects_batches k batches cs es :
  objects (store_of k cs) = objects (foldl (store_step k) empty_store es) →
  objects (store_of k (foldl (λ cs b, processBatch extractGVK b cs) cs batches)) =
    objects (foldl (store_step k) empty_store (es ++ concat (Store.Events <$> batches))).
Proof using Hinj.
  revert cs es. induction batches as [|b batches IH]; intros cs es Hcs; [by rw /= app_nil_r|].
  cbn. rw (assoc_L app). apply IH. rw store_of_processBatch_steps // foldl_app.
  generalize (Store.Events b). intros bs.
  rw (objects_events k bs (resetUpdates _) (resetUpdates (store_of k cs))) //.
  symmetry. apply objects_events. by rw -Hcs resetUpdates_eq.
Qed.
End pipeline.

(** ** The parts together *)

(** The batches of the loop, as the handler gets them. *)
Definition batches_of (l : list Arrival) : list (Z * list (option Event)) :=
  (λ a, (BatchID (ar_batch a), Some <$> Store.Events (ar_batch a))) <$> l.

Lemma batches_of_events l es :
  concat (batches_of l).*2 = Some <$> es → concat (Store.Events <$> (ar_batch <$> l)) = es.
Proof.
  intros Hl. apply (inj (fmap Some)). rw -Hl. unfold batches_of. clear. induction l as [|a l IH]; [done|].
  cbn. by rw fmap_app IH.
Qed.

Lemma store_after_batches cfg {RO : RangeOrder} cs l :
  store_after cfg cs l = foldl (λ cs b, processBatch (tc_extractGVK cfg) b cs) cs (ar_batch <$> l).
Proof. unfold store_after. revert cs. induction l as [|a l IH]; intros cs; [done|]. by cbn. Qed.

(** The kinds whose store shows the cluster: the updates of services and
    configuration maps are not seen. *)
Definition shown_kind (k : ObjKind) : Prop := k ≠ KService ∧ k ≠ KConfigMap.

(** The reconciler of a kind has nothing to do, and what it sent is what the loop
    received of its kind. *)
Definition settled {RP : RuntimePredicates} scfg ours (es : list Event) (k : ObjKind) (s : Source) : Prop :=
  ∃ c, c ∈ controllerRegisterCfgs scfg ∧ objectType c = k ∧ reachable scfg ours c s ∧ queue s = ∅ ∧
    sent s = filter (λ e, event_kind e = k) es.

Section shown.
Context {RO : RangeOrder} {RP : RuntimePredicates} {RPL : RuntimePredicatesLaws} (cfg : TreeConfig).
Context (Hinj : ∀ k1 k2, tc_extractGVK cfg k1 = tc_extractGVK cfg k2 → k1 = k2).

Lemma settled_shows scfg ours es k s l key :
  shown_kind k → settled scfg ours es k s → concat (batches_of l).*2 = Some <$> es → in_scope scfg ours k key →
  shows k (objects (store_of k (store_after cfg empty_cluster_store l))) s key.
Proof using Hinj RPL.
  intros [H1 H2] (c & Hc & <- & Hr & Hq & Hsent) Hl%batches_of_events Hscope.
  pose proof (settled_mirrored (tc_extractGVK cfg) scfg ours Hinj c
    (registered_faithful scfg ours c Hc H1 H2) s key Hr Hq Hscope) as Hm.
  unfold mirrored_at in Hm. rw objects_store_from // in Hm.
  rw store_after_batches (objects_batches _ Hinj (objectType c) _ _ []); [by destruct (objectType c)|].
  rw app_nil_l Hl (objects_events _ _ _ empty_store) // -Hsent. done.
Qed.

(** A secret is shown whole. *)
Lemma shows_secret objs s key :
  (∀ key o, cluster s !! key = Some o → kind_of (ob_Object o) = KSecret) →
  shows KSecret objs s key → objs !! key = cluster s !! key ≫= type_assert KSecret ∘ ob_Object.
Proof using Type.
  intros Hk. unfold shows. destruct (cluster s !! key) as [o|] eqn:Ho; [|done]. intros Hm. cbn.
  destruct Hm as (t & old & Ht & Hold & Hsame); [done|]. change (old = ob_Object o) in Hsame. subst old.
  exact (eq_trans Ht (eq_sym Hold)).
Qed.

Lemma settled_valid scfg ours es k s key o :
  shown_kind k → settled scfg ours es k s → cluster s !! key = Some o → kind_of (ob_Object o) = k.
Proof using Hinj RPL.
  intros [H1 H2] (c & Hc & <- & Hr & _) Ho.
  destruct (reachable_inv (tc_extractGVK cfg) scfg ours Hinj c
    (registered_faithful scfg ours c Hc H1 H2) s Hr) as [Hval _]. by destruct (Hval key o Ho) as [? _].
Qed.
End shown.

(** ** Properties *)

(** C2: from the cluster to HAProxy.  Each reconciler runs on its own, the loop
    interleaves what they send in any order and cuts it into batches as its timer
    goes off, and the handler treats the batches: when the reconcilers have nothing
    left to do, the loop, left alone, hands every event over.  When the batches it
    made are of valid events, the handler then shows, of every kind but services
    and configuration maps, for each key the controller watches, the object of the
    cluster when there is one and nothing when there is none; the secrets of the
    tree are those of the watched namespaces of the cluster, and HAProxy accepted
    the whole configuration of the controller.

    Nothing is said of the keys the controller does not watch: a class of another
    controller that is read again because of its HugGate stays in the store.  A
    class that is deleted and made again is supposed to keep its controller.  The
    events are valid as for C1 ([valid_batches]), which leaves out what the
    controller does not stand; the template of the names tells the listeners with
    names of the API apart ([names_apart], which the default template does); and
    client-native accepts the operations and does what it promises ([client_laws];
    a reload gives no error). *)
Theorem cluster_to_haproxy Extra (EqE : EqDecision Extra) (BP : BackendParams ServerModel Extra)
    (RO : RangeOrder) (GS : GoSort) (FE : FieldErrors)
    (ME : MapsEnv) (CE : CertEnv) (SP : ServerParams) (FP : FrontendParams)
    T (RTC : RuntimeCerts T) (RTM : RuntimeClient T) (RTS : RuntimeServers T)
    H (HC : HAProxyClient FrontendModel (BackendModel ServerModel (BackendBase Extra)) H)
    W (SC : StatusClient W) (WT : Wait) (RP : RuntimePredicates) (RPL : RuntimePredicatesLaws)
    cfg fe_Equal params name committed pending logs c w scfg ours src grow loopCfg ls el :
  (∀ k1 k2, tc_extractGVK cfg k1 = tc_extractGVK cfg k2 → k1 = k2) →
  names_apart name →
  client_laws fe_Name committed pending →
  mgr_ok (ct_mgr c) → committed (ct_haproxy c) = structured (ct_mgr c) → ct_results c = [] →
  Start_run grow loopCfg ls NewEventLoop = Some el → loop_status el = Running →
  (∀ k, shown_kind k → settled scfg ours (received el) k (src k)) →
  ∃ ls' el', Forall internal ls' ∧ Start_run grow loopCfg ls' el = Some el' ∧
    concat (handled el').*2 = Some <$> received el ∧
    ∀ l, batches_of l = handled el' → valid_batches cfg empty_cluster_store l →
    ∃ s, HandleEventBatches cfg fe_Equal params l (mkHandler (T := T) (initial_tree ∅ logs) c w) = Some s ∧
      let t := hd_tree s in
      (∀ k key, shown_kind k → in_scope scfg ours k key → shows k (objects (store_of k (ts_cluster t))) (src k) key) ∧
      (∀ key, watched_namespace scfg key →
        ts_secrets t !! key ≫= live = cluster (src KSecret) !! key ≫= type_assert KSecret ∘ ob_Object) ∧
      committed (ct_haproxy (hd_controller s)) = structured (ct_mgr (hd_controller s)) ∧
      Forall (λ err, err = None) (ct_results (hd_controller s)).
Proof.
  intros Hinj Hnames laws Hb Hh Hr Hel Hst Hsrc.
  destruct (loop_progress grow loopCfg el) as (ls' & el' & Hi & Hrun & Hrec & Hall); [|done|].
  { by eapply Start_run_inv; [apply NewEventLoop_inv|]. }
  exists ls', el'. split_and!; [done..|]. intros l Hl Hv. rw -Hl in Hall.
  destruct (HandleEventBatches_ok cfg fe_Equal params Hinj name Hnames committed pending laws l
    (mkHandler (initial_tree ∅ logs) c w)) as (s & Hs & [I (_ & M1 & M2)] & Hobj); [|exact Hv|].
  { split; [apply initial_tree_inv|]. split_and!; [done|done|by rw Hr]. }
  assert (∀ k key, shown_kind k → in_scope scfg ours k key →
    shows k (objects (store_of k (ts_cluster (hd_tree s)))) (src k) key) as Hshow.
  { intros k key Hk Hscope. rw -(proj1 Hobj k). exact (settled_shows cfg Hinj scfg ours (received el) k (src k) l key Hk (Hsrc k Hk) Hall Hscope). }
  exists s. destruct I as [_ [I2 _] _ _ _ _ _ _ _ _ _]. split; [done|]. split_and!; [done| |done|done].
  intros key Hkey. rw I2. apply shows_secret; [|by apply Hshow].
  intros key' o Ho. by apply (settled_valid cfg Hinj scfg ours (received el) KSecret (src KSecret) key' o); [|apply Hsrc|].
Qed.

(** *** Witness *)

(** Batches of the loop always have arrivals that carry them. *)
Lemma batches_exist bs (es : list Event) : concat bs.*2 = Some <$> es → ∃ l, batches_of l = bs.
Proof.
  revert es. induction bs as [|[id b] bs IH]; intros es Hes; [by exists []|]. cbn in Hes.
  assert (∃ es1 es2, es = es1 ++ es2 ∧ b = Some <$> es1 ∧ concat bs.*2 = Some <$> es2) as (es1 & es2 & -> & -> & Htl).
  { symmetry in Hes. apply fmap_app_inv in Hes as (es1 & es2 & ? & ? & ?). by exists es1, es2. }
  destruct (IH es2 Htl) as [l Hl].
  exists (mkArrival (mkBatch es1 id) (λ _, Ok []) 0 :: l). cbn. by f_equal.
Qed.

Lemma valid_upserts cfg {RO : RangeOrder} cs l :
  (∀ e, e ∈ concat (Store.Events <$> (ar_batch <$> l)) → ∃ o, e = UpsertEvent o ∧ GateTree.valid_object cfg o) →
  valid_batches cfg cs l.
Proof.
  revert cs. induction l as [|a l IH]; intros cs Hl; [done|]. cbn in Hl. split.
  - apply Forall_forall. intros e He. destruct (Hl e) as (o & -> & Ho); [apply elem_of_app; by left|done].
  - apply IH. intros e He. apply Hl, elem_of_app. by right.
Qed.

#[local] Existing Instances example_frontend_env example_cert_env example_server_params
  example_frontend_params example_server_backends example_manager_client example_no_certs example_no_maps
  example_no_servers gone_client example_predicates example_predicates_laws.

(** One secret in the cluster, read by its reconciler. *)
Definition example_settled (k : ObjKind) : Source :=
  if decide (k = KSecret) then
    mkSource {[ NN "ns" "tls" := example_watched_secret ]} ∅ [UpsertEvent (ob_Object example_watched_secret)]
  else mkSource ∅ ∅ [].

Definition example_received : EventLoop Event :=
  default NewEventLoop (Start_run (λ n, n) example_cfg [LEvent (UpsertEvent (ob_Object example_watched_secret))] NewEventLoop).

Lemma every_kind_listed {RP : RuntimePredicates} scfg k : ∃ c, c ∈ controllerRegisterCfgs scfg ∧ objectType c = k.
Proof.
  assert (k ∈ objectType <$> controllerRegisterCfgs scfg) as (c & -> & Hc)%list_elem_of_fmap; [|by exists c].
  destruct k; cbn; set_solver.
Qed.

Lemma example_all_settled k :
  shown_kind k → settled example_sources (λ _, false) (received example_received) k (example_settled k).
Proof.
  intros _. set (o := example_watched_secret). set (key := NN "ns" "tls").
  assert (∀ c, c ∈ controllerRegisterCfgs example_sources → objectType c ≠ KSecret →
    settled example_sources (λ _, false) (received example_received) (objectType c) (example_settled (objectType c))) as Hother.
  { intros c Hc Hk. exists c. unfold example_settled. rw decide_False //. split_and!; [done|done|constructor|done|].
    change (received example_received) with [UpsertEvent (ob_Object o)]. rw filter_cons decide_False //. }
  destruct (decide (k = KSecret)) as [->|Hk].
  - exists (Secret_controller example_sources). split_and!; [unfold controllerRegisterCfgs; set_solver|done| |done|vm_refl].
    eapply rtc_l; [apply (step_create _ _ _ _ key o); [done|]; split_and!; [done|done|by intros gc]|].
    assert (p_Create (source_predicate (Secret_controller example_sources)) (Some o) = true) as -> by vm_refl.
    cbn [enqueue_if cluster queue sent]. eapply rtc_l; [|apply rtc_refl].
    replace (example_settled KSecret) with (mkSource (<[key := o]> ∅) (({[ key ]} ∪ ∅) ∖ {[ key ]})
      ([] ++ option_list (Some (UpsertEvent (ob_Object o))))) by vm_refl.
    pose proof (step_reconcile example_sources (λ _, false) (Secret_controller example_sources)
      (mkSource (<[key := o]> ∅) ({[ key ]} ∪ ∅) []) key (λ _, Found (ob_Object o)) (Some (UpsertEvent (ob_Object o))) None)
      as Hstep. cbn [cluster queue sent] in Hstep. apply Hstep; [set_solver|left; vm_refl|done].
  - destruct (every_kind_listed example_sources k) as (c & Hc & <-). by apply Hother.
Qed.

Lemma cluster_to_haproxy_witness :
  ∃ l s, HandleEventBatches (RO := key_order) (GS := stable_sort) (FE := example_errors) example_tree_config
      example_equal example_mgr_params l (mkHandler (initial_tree ∅ initial_settings) example_controller tt) = Some s ∧
    ts_secrets (hd_tree s) !! NN "ns" "tls" ≫= live = type_assert KSecret (ob_Object example_watched_secret) ∧
    (ct_haproxy (hd_controller s)).1 = structured (ct_mgr (hd_controller s)).
Proof.
  destruct (cluster_to_haproxy bool _ example_server_backends key_order stable_sort example_errors
    example_frontend_env example_cert_env example_server_params example_frontend_params unit _ _ _ _
    example_manager_client unit gone_client example_wait _ _ example_tree_config example_equal example_mgr_params
    example_name fst snd initial_settings example_controller tt example_sources (λ _, false) example_settled
    (λ n, n) example_cfg [LEvent (UpsertEvent (ob_Object example_watched_secret))] example_received)
    as (ls & el & Hint & Hrun & Hrec & Hall).
  - exact example_gvk_inj.
  - exact example_names.
  - exact example_manager_client_laws.
  - apply NewHaproxyConfMgr_ok; [exact example_startup_wf|exact example_no_backends_wf].
  - vm_refl.
  - done.
  - vm_refl.
  - done.
  - exact example_all_settled.
  - destruct (batches_exist _ _ Hrec) as [l Hl]. rw -Hl in Hrec. apply batches_of_events in Hrec.
    destruct (Hall l Hl) as (s & Hs & _ & Hsec & Hh & _).
    + apply valid_upserts. rw Hrec. intros e He. exists (ob_Object example_watched_secret).
      apply list_elem_of_singleton in He. split; [exact He|]. vm_compute. constructor; [by left|].
      constructor; [by left|]. constructor; [by left|]. constructor.
    + exists l, s. split; [exact Hs|]. split; [|exact Hh]. rw Hsec; [by right; left|]. vm_refl.
Defined.
