(* ===== verification/Startup.v ===== *)
(** * Startup: hug/configuration, hug/startup, cmd/start and the options of the gate

    From the flags of the command line to the configuration of the controller:
    the values of the flags, the directories and files that are made, the options
    of the gate library with their defaults, and what is read from and written to
    the configuration file of HAProxy before the controller runs.  The file system,
    the environment and client-native are classes. *)

From Stdlib Require Import Ascii.
From S2P Require Import Prelude GoStrings FileUtils Templates Objects Utils HaproxyConf Backends Servers Frontends Logging Process.

Local Open Scope gate_scope.

(** ** configuration.go: the values of flags *)
Record NamespaceNameValue := mkNamespaceName { nv_Namespace : string; nv_Name : string }.

Definition NamespaceNameValue_String (nv : option NamespaceNameValue) : string :=
  match nv with None => "" | Some nv => nv_Namespace nv +:+ "/" +:+ nv_Name nv end.

Definition NamespaceNameValue_Set (s : string) : result NamespaceNameValue :=
  match SplitN2 "/" s with
  | [ns; name] => Ok (mkNamespaceName ns name)
  | _ => Err "invalid format: expected namespace/name"
  end.

Definition CommaSeparatedValues_String (c : list string) : string := Join c ",".

Definition CommaSeparatedValues_Set (s : string) : list string :=
  if bool_decide (s = "") then [] else Split "," s.

(** ** configuration.go: [HUGConfig] *)
Record External := mkExternal {
  ext_CfgDir : string;
  ext_HaproxyBinary : string;
  ext_RuntimeDir : string;
  ext_StateDir : string;
  ext_AuxDir : string;
  ext_External : bool
}.

Record HUGConfig := mkHUGConfig {
  LogSettings : Categories;
  hug_HaproxyDirs :> HaproxyDirs;
  ControllerConfCRD : NamespaceNameValue;
  hug_ControllerName : string;
  IPV4BindAddr : string;
  IPV6BindAddr : string;
  LogType : string;
  hug_External : External;
  hug_Namespaces : list string;
  StatsPort : Z;
  ControllerPort : Z;
  hug_SyncPeriod : Z;
  hug_StartupSyncPeriod : Z;
  hug_CacheResyncPeriod : Z;
  DefaultLogLevel : Z;
  AddStatsPortToFrontend : bool;
  ForceRestartHaproxyAtStartup : bool;
  hug_Test : bool;
  LeaderElectionEnabled : bool;
  hug_UseWiths6Overlay : bool;
  hug_UseWithPebble : bool;
  hug_DisableIPv4 : bool;
  hug_DisableIPv6 : bool
}.

(** ** configuration/defaults.go *)
Definition externalDefaults : External :=
  mkExternal "/tmp/hug/etc" "/usr/local/sbin/haproxy" "/tmp/hug/run" "/tmp/hug/state/" "/tmp/hug/etc/aux" false.

Definition HaproxyDefaults : HaproxyDirs :=
  {| CfgDir := "/usr/local/hug"; MainCfgFile := ""; RouteLuaFile := ""; HaproxyBinary := "/usr/local/sbin/haproxy";
     RuntimeDir := "/var/run"; StateDir := "/var/state/haproxy"; AuxDir := "/usr/local/hug/aux"; PIDFile := "";
     RuntimeSocket := ""; MasterSocket := ""; PatternDir := ""; ErrFileDir := ""; CertsDir := ""; CertListDir := "";
     MapsDir := "" |}.

Definition defaultControllerPort : Z := 6060.

Definition DefaultCertsDirName : string := "certs".
Definition DefaultCertFilesDirName : string := "certlists".
Definition DefaultMapsDirName : string := "maps".
Definition DefaultErrFilesDirName : string := "errorfiles".
Definition DefaultPatternDirName : string := "patterns".

(** What [os.Stat] tells. *)
Inductive StatResult := Exists | NotExist | StatError (err : string).

Class FileSystem (W : Type) := {
  os_MkdirAll : string → W → W * option string;
  fs_Stat : string → W → StatResult;
  os_WriteFile : string → string → W → W * option string
}.

(** The files embedded in the program. *)
Class EmbeddedFiles := { defaults_HaproxyCfg : string; defaults_RouteLua : string }.

Section init.
Context {W : Type} {FS : FileSystem W} {EF : EmbeddedFiles}.
Implicit Types (w : W) (c : HUGConfig).

(** A loop of calls that returns at the first error. *)
Fixpoint mkdir_all (dirs : list string) w : W * option string :=
  match dirs with
  | [] => (w, None)
  | d :: dirs => match os_MkdirAll d w with (w, None) => mkdir_all dirs w | (w, Some err) => (w, Some err) end
  end.

Definition or_default (s d : string) : string := if bool_decide (s = "") then d else s.

Definition set_dirs (dirs : HaproxyDirs) c : HUGConfig := {| c with hug_HaproxyDirs := dirs |}.

Definition initExternal (external : External) (c : HUGConfig) w : W * result HUGConfig :=
  let c :=
    if ext_External external then
      let external :=
        if negb (bool_decide (ext_HaproxyBinary externalDefaults = "")) then
          let cfgDir := or_default (ext_CfgDir external) (ext_CfgDir externalDefaults) in
          {| ext_CfgDir := cfgDir;
             ext_HaproxyBinary := or_default (ext_HaproxyBinary external) (ext_HaproxyBinary externalDefaults);
             ext_RuntimeDir := or_default (ext_RuntimeDir external) (ext_RuntimeDir externalDefaults);
             ext_StateDir := or_default (ext_StateDir external) (ext_StateDir externalDefaults);
             ext_AuxDir := or_default (ext_AuxDir external) (filepath_Join cfgDir "aux");
             ext_External := ext_External external |}
        else external in
      {| c with hug_External := external;
           hug_HaproxyDirs :=
             {| (hug_HaproxyDirs c) with CfgDir := ext_CfgDir external; HaproxyBinary := ext_HaproxyBinary external;
                RuntimeDir := ext_RuntimeDir external; StateDir := ext_StateDir external;
                AuxDir := ext_AuxDir external |} |}
    else c in
  match mkdir_all [CfgDir c; RuntimeDir c; StateDir c; AuxDir c] w with
  | (w, Some err) => (w, Err err)
  | (w, None) => (w, Ok c)
  end.

(** [os.WriteFile] when there is no file yet. *)
Definition create_if_missing (file content : string) w : W * option string :=
  match fs_Stat file w with
  | NotExist => os_WriteFile file content w
  | StatError err => (w, Some err)
  | Exists => (w, None)
  end.

Definition default_log_settings : Categories :=
  list_to_map [("k8s", LevelInfo); ("gate", LevelDebug); ("status", LevelDebug); ("batch", LevelDebug);
               ("app", LevelDebug); ("certs-storage", LevelDebug)].

(** The names of the files, once the directories are known. *)
Definition with_files c : HUGConfig :=
  set_dirs {| (hug_HaproxyDirs c) with
    MainCfgFile := filepath_Join (CfgDir c) "haproxy.cfg"; RouteLuaFile := filepath_Join (CfgDir c) "route.lua";
    PIDFile := filepath_Join (RuntimeDir c) "haproxy.pid";
    RuntimeSocket := if hug_Test c then "" else filepath_Join (RuntimeDir c) "haproxy-runtime-api.sock";
    MasterSocket := if hug_Test c then "" else filepath_Join (RuntimeDir c) "haproxy-master.sock";
    HaproxyBinary := if hug_Test c then "echo" else HaproxyBinary c |} c.

Definition with_subdirs c : HUGConfig :=
  set_dirs {| (hug_HaproxyDirs c) with
    CertsDir := filepath_Join (CfgDir c) DefaultCertsDirName;
    CertListDir := filepath_Join (CfgDir c) DefaultCertFilesDirName;
    MapsDir := filepath_Join (CfgDir c) DefaultMapsDirName;
    PatternDir := filepath_Join (CfgDir c) DefaultPatternDirName;
    ErrFileDir := filepath_Join (CfgDir c) DefaultErrFilesDirName |} c.

Definition Init (external : External) c w : W * result HUGConfig :=
  let c := set_dirs HaproxyDefaults c in
  let c := if bool_decide (ControllerPort c = 0%Z) then {| c with ControllerPort := defaultControllerPort |} else c in
  let c := if bool_decide (LogType c = "") then {| c with LogType := "json" |} else c in
  match initExternal external c w with
  | (w, Err err) => (w, Err err)
  | (w, Ok c) =>
      if existsb (λ dir, bool_decide (dir = "")) [CfgDir c; RuntimeDir c; StateDir c; AuxDir c]
      then (w, Err "failed to init controller config: missing config directories []")
      else
        let c := if bool_decide (size (LogSettings c) = 0) then {| c with LogSettings := default_log_settings |} else c in
        let c := with_files c in
        match (if hug_Test c then Exists else fs_Stat (HaproxyBinary c) w) with
        | NotExist => (w, Err "no such file or directory")
        | StatError err => (w, Err err)
        | Exists =>
            match create_if_missing (MainCfgFile c) defaults_HaproxyCfg w with
            | (w, Some err) => (w, Err err)
            | (w, None) =>
                match create_if_missing (RouteLuaFile c) defaults_RouteLua w with
                | (w, Some err) => (w, Err err)
                | (w, None) =>
                    let c := with_subdirs c in
                    match mkdir_all [CertsDir c; CertListDir c; MapsDir c; ErrFileDir c; StateDir c; PatternDir c] w with
                    | (w, Some err) => (w, Err err)
                    | (w, None) => (w, Ok c)
                    end
                end
            end
        end
  end.
End init.

(** ** [netip.ParseAddr], the kind of the address only *)
Inductive AddrKind := Is4 | Is6.

Fixpoint decimal_field (val : Z) (digLen : nat) (s : string) : bool :=
  match s with
  | EmptyString => negb (Nat.eqb digLen 0)
  | String c s =>
      match digit_of c with
      | None => false
      | Some d =>
          let val' := (val * 10 + d)%Z in
          negb (Nat.eqb digLen 1 && bool_decide (val = 0%Z)) && bool_decide (val' ≤ 255)%Z && decimal_field val' (S digLen) s
      end
  end.

Definition parseIPv4Fields (s : string) : bool :=
  let fields := Split "." s in
  Nat.eqb (length fields) 4 && forallb (decimal_field 0 0) fields.

Definition is_hex (c : ascii) : bool :=
  let n := N_of_ascii c in
  bool_decide (48 ≤ n ∧ n ≤ 57)%N || bool_decide (97 ≤ n ∧ n ≤ 102)%N || bool_decide (65 ≤ n ∧ n ≤ 70)%N.

(** The leading hexadecimal digits, and the rest. *)
Fixpoint hex_run (s : string) : nat * string :=
  match s with
  | String c s' => if is_hex c then let '(n, rest) := hex_run s' in (S n, rest) else (0, s)
  | EmptyString => (0, s)
  end.

(** The loop over the fields: [i] bytes are read, [ellipsis] tells whether a [::]
    was met.  Every turn reads two bytes of the sixteen. *)
Fixpoint ipv6_fields (fuel : nat) (i : nat) (ellipsis : bool) (s : string) : bool :=
  let done_ i s ellipsis := bool_decide (s = "") && (if Nat.ltb i 16 then ellipsis else negb ellipsis) in
  match fuel with
  | O => done_ i s ellipsis
  | S fuel =>
      let '(off, rest) := hex_run s in
      if Nat.eqb off 0 || Nat.ltb 4 off then false
      else
        match rest with
        | EmptyString => done_ (i + 2) "" ellipsis
        | String "." _ =>
            (ellipsis || Nat.eqb i 12) && Nat.leb (i + 4) 16 && parseIPv4Fields s && done_ (i + 4) "" ellipsis
        | String ":" EmptyString => false
        | String ":" (String ":" rest) =>
            if ellipsis then false
            else if bool_decide (rest = "") then done_ (i + 2) "" true
            else ipv6_fields fuel (i + 2) true rest
        | String ":" rest => ipv6_fields fuel (i + 2) ellipsis rest
        | _ => false
        end
  end.

Definition parseIPv6 (s : string) : bool :=
  let '(s, zone_ok) :=
    match Cut "%" s with
    | Some (s, zone) => (s, negb (bool_decide (zone = "")))
    | None => (s, true)
    end in
  zone_ok &&
  match s with
  | String ":" (String ":" EmptyString) => true
  | String ":" (String ":" rest) => ipv6_fields 8 0 true rest
  | _ => ipv6_fields 8 0 false s
  end.

(** The first of the three bytes decides the family. *)
Fixpoint first_separator (s : string) : option ascii :=
  match s with
  | EmptyString => None
  | String "." _ => Some "."%char
  | String ":" _ => Some ":"%char
  | String "%" _ => Some "%"%char
  | String _ s => first_separator s
  end.

Definition ParseAddr (s : string) : option AddrKind :=
  match first_separator s with
  | Some "."%char => if parseIPv4Fields s then Some Is4 else None
  | Some ":"%char => if parseIPv6 s then Some Is6 else None
  | _ => None
  end.

Example ParseAddr_values :
  ParseAddr <$> ["0.0.0.0"; "10.1.2.255"; "::"; "::1"; "fe80::1%eth0"; "1:2:3:4:5:6:7:8"; "::ffff:1.2.3.4";
                 "1:2:3:4:5:6:1.2.3.4"] =
    [Some Is4; Some Is4; Some Is6; Some Is6; Some Is6; Some Is6; Some Is6; Some Is6] ∧
  ParseAddr <$> [""; "*"; "1.2.3"; "01.2.3.4"; "1.2.3.256"; "1:2"; "1::2::3"; "1:2:3:4:5:6:7::8"; "::1%"; "12345::";
                 "1:2:3:4:5:6:7:8:9"; "[::]"; "1:"] = replicate 13 None.
Proof. by vm_compute. Qed.

(** ** startup.go *)
Definition StatsFrontendName : string := "stats".

(** A bind of the file, which can have no port. *)
Record FileBind := mkFileBind { fb_Name : string; fb_Port : option Z; fb_Address : string }.

(** The frontends of the file, with their binds; the models of backends; the
    runtime APIs of the global section, the others of its settings are [G]. *)
Record FileFrontend := mkFileFrontend { ff_Model : FrontendModel; ff_Binds : gmap string FileBind }.

Record RuntimeAPI (A : Type) := mkRuntimeAPI { ra_Address : option string; ra_Params : option A }.
Arguments mkRuntimeAPI {A}.
Arguments ra_Address {A}.
Arguments ra_Params {A}.

Record LuaOptions (L : Type) := mkLuaOptions { LoadPerThread : string; lua_Others : option L }.
Arguments mkLuaOptions {L}.
Arguments LoadPerThread {L}.
Arguments lua_Others {L}.

Record Global (A L G : Type) := mkGlobal {
  gl_LuaOptions : option (LuaOptions L);
  RuntimeAPIs : list (RuntimeAPI A);
  gl_Others : G
}.
Arguments mkGlobal {A L G}.
Arguments gl_LuaOptions {A L G}.
Arguments RuntimeAPIs {A L G}.
Arguments gl_Others {A L G}.

(** client-native outside a transaction: every change takes the version. *)
Class StartupClient (Extra A L G N : Type) := {
  (** [configuration.New]: the file, the directory of transactions, the program *)
  configuration_New : string → string → string → result N;
  GetStructuredBackends : N → result (list (BackendModel ServerModel (BackendBase Extra)));
  GetStructuredFrontends : N → result (list FileFrontend);
  GetGlobalConfiguration : N → result (Global A L G);
  sc_GetVersion : N → result Z;
  PushGlobalConfiguration : Global A L G → Z → N → N * option string;
  CreateBind : string → FileBind → Z → N → N * option string;
  EditBind : string → string → FileBind → Z → N → N * option string
}.

(** [filepath.Dir] of the path of a file: what comes before its last slash, the slash included. *)
Definition filepath_Dir (path : string) : string :=
  filepath_Clean (Join (removelast (Split "/" path) ++ [""]) "/").

Definition isUnifiedGatewayManaged (metadata : MetaData) : bool :=
  bool_decide (is_Some (metadata !! UnifiedGatewayMetaDataKey)).

Fixpoint alter_last {T} (P : T → bool) (f : T → T) (l : list T) : list T :=
  match l with
  | [] => []
  | x :: l => if P x && negb (existsb P l) then f x :: l else x :: alter_last P f l
  end.

Section startup.
Context {RO : RangeOrder} {Extra A L G N : Type} {SC : StartupClient Extra A L G N}.
Implicit Types (n : N) (c : HUGConfig).
Abbreviation Backend := (BackendModel ServerModel (BackendBase Extra)).

(** The binds of the two families: the loop keeps the last it meets. *)
Definition bind_of_kind (k : AddrKind) (binds : gmap string FileBind) : option FileBind :=
  foldl (λ acc kv,
    match fb_Port kv.2, ParseAddr (fb_Address kv.2), k with
    | Some _, Some Is4, Is4 | Some _, Some Is6, Is6 => Some kv.2
    | _, _, _ => acc
    end) None (range binds).

(** One family: [name] and [address] are those of a new bind. *)
Definition add_stats_bind (bind : option FileBind) (name address : string) (port : Z) n : N * result FileBind :=
  match sc_GetVersion n with
  | Err err => (n, Err err)
  | Ok version =>
      match bind with
      | None =>
          let b := mkFileBind name (Some port) address in
          match CreateBind StatsFrontendName b version n with
          | (n, Some err) => (n, Err err)
          | (n, None) => (n, Ok b)
          end
      | Some b =>
          let b := mkFileBind (fb_Name b) (Some port) (fb_Address b) in
          match EditBind (fb_Name b) StatsFrontendName b version n with
          | (n, Some err) => (n, Err err)
          | (n, None) => (n, Ok b)
          end
      end
  end.

Definition is_stats (fe : FileFrontend) : bool := bool_decide (fe_Name (ff_Model fe) = StatsFrontendName).

(** The binds are written through the frontend the caller holds: the frontends
    are returned. *)
Definition addBindPortToStatsFrontend (frontends : list FileFrontend) c n : N * result (list FileFrontend) :=
  match last (filter is_stats frontends) with
  | None => (n, Ok frontends)
  | Some statsFrontend =>
      let bindv4 := bind_of_kind Is4 (ff_Binds statsFrontend) in
      let bindv6 := bind_of_kind Is6 (ff_Binds statsFrontend) in
      let stored binds := alter_last is_stats (λ fe, mkFileFrontend (ff_Model fe) binds) frontends in
      let '(n, r4) :=
        if hug_DisableIPv4 c then (n, Ok (ff_Binds statsFrontend))
        else match add_stats_bind bindv4 "stats" "0.0.0.0" (StatsPort c) n with
             | (n, Err err) => (n, Err err)
             | (n, Ok b) => (n, Ok (<[fb_Name b := b]> (ff_Binds statsFrontend)))
             end in
      match r4 with
      | Err err => (n, Err err)
      | Ok binds =>
          if hug_DisableIPv6 c then (n, Ok (stored binds))
          else match add_stats_bind bindv6 "v6" "::" (StatsPort c) n with
               | (n, Err err) => (n, Err err)
               | (n, Ok b) => (n, Ok (stored (<[fb_Name b := b]> binds)))
               end
      end
  end.

(** The settings of the global section the controller needs. *)
Definition global_settings c (global : Global A L G) : Global A L G :=
  let lua := default (mkLuaOptions "" None) (gl_LuaOptions global) in
  let lua := mkLuaOptions (filepath_Join (filepath_Dir (MainCfgFile c)) "route.lua") (lua_Others lua) in
  let ours := mkRuntimeAPI (Some (RuntimeSocket c)) None in
  let apis :=
    match RuntimeAPIs global with
    | [] => [ours]
    | api :: apis =>
        if bool_decide (ra_Address api = Some (RuntimeSocket c)) then api :: apis else ours :: api :: apis
    end in
  mkGlobal (Some lua) apis (gl_Others global).

Record Structured := mkStructured {
  st_Frontends : gmap string FileFrontend;
  st_Backends : gmap string Backend
}.

Definition structured_frontends (frontends : list FileFrontend) : gmap string FileFrontend :=
  foldl (λ m fe, if isUnifiedGatewayManaged (fe_Metadata (ff_Model fe))
                 then <[fe_Name (ff_Model fe) := fe]> m else m) ∅ frontends.

Definition structured_backends (backends : list Backend) : gmap string Backend :=
  foldl (λ m be, if isUnifiedGatewayManaged (be_Metadata be) then <[be_Name be := be]> m else m) ∅ backends.

(** The maps hold the pointers of the frontends, whose binds are changed after. *)
Definition StructuredFromFile c : result (N * Structured) :=
  n <-! configuration_New (MainCfgFile c) (CfgDir c) (HaproxyBinary c);
  backends <-! GetStructuredBackends n;
  frontends <-! GetStructuredFrontends n;
  global <-! GetGlobalConfiguration n;
  version <-! sc_GetVersion n;
  match PushGlobalConfiguration (global_settings c global) version n with
  | (n, Some err) => Err err
  | (n, None) =>
      if AddStatsPortToFrontend c then
        match addBindPortToStatsFrontend frontends c n with
        | (n, Err err) => Err err
        | (n, Ok frontends) => Ok (n, mkStructured (structured_frontends frontends) (structured_backends backends))
        end
      else Ok (n, mkStructured (structured_frontends frontends) (structured_backends backends))
  end.
End startup.

(** ** config/config.go, config/defaults.go, config/checker.go *)
Record HaproxyConfParams := mkHaproxyConfParams {
  hp_HaproxyDirs : HaproxyDirs;
  hp_FrontendNameTemplate : string;
  hp_BackendNameTemplate : string;
  hp_ServerNameTemplate : string;
  hp_IPv4BindAddress : string;
  hp_IPv6BindAddress : string;
  hp_DefaultsSectionName : string;
  hp_StoreCertificateStructureType : string;
  hp_StoreMapsStructureType : string;
  hp_LinkID : string;
  hp_TimeoutWaitForRuntime : Z;
  hp_DisableIPv4 : bool;
  hp_DisableIPv6 : bool;
  hp_RuntimeUpdateHaproxy : bool;
  hp_StoreCertificateOnDisk : bool;
  hp_StoreMapsOnDisk : bool
}.

(** The handler under the filter of categories; nil for any other type. *)
Inductive BaseHandler := JSONHandler (level : Z) | TextHandler.

Record BaseLogger := mkBaseLogger { bl_base : option BaseHandler; bl_handler : CategoryFilterHandler }.

Record MetricsConfig := mkMetricsConfig { mc_Port : Z; mc_Enabled : bool; mc_Secure : bool }.
Record LeaderElectionConfig := mkLeaderElection { LockName : string; le_Enabled : bool }.
Record ControllerPodConfig := mkPodConfig { PodIP : string; pod_Namespace : string; pod_Name : string }.

(** [T] is the type of the initial configuration; a channel is its identity. *)
Record Configuration (T : Type) := mkGateConfiguration {
  InitialStructuredHaproxyConf : option T;
  InitialStructuredHaproxyConfOK : bool;
  cfg_Logger : option BaseLogger;
  TransferHaproxyConfChannel : option nat;
  cfg_ControllerPodConfig : ControllerPodConfig;
  HugConfCRD : NamespacedName;
  LogHandlerType : string;
  Kubeconfig : string;
  ControllerName : string;
  cfg_LeaderElectionConfig : LeaderElectionConfig;
  Namespaces : list string;
  HaproxyParams : HaproxyConfParams;
  cfg_MetricsConfig : MetricsConfig;
  SyncPeriod : Z;
  StartupSyncPeriod : Z;
  CacheResyncPeriod : Z;
  (** the variables of the logging package *)
  cfg_log : Logging.LogSettings
}.
Arguments InitialStructuredHaproxyConf {T}.
Arguments InitialStructuredHaproxyConfOK {T}.
Arguments cfg_Logger {T}.
Arguments TransferHaproxyConfChannel {T}.
Arguments cfg_ControllerPodConfig {T}.
Arguments HugConfCRD {T}.
Arguments LogHandlerType {T}.
Arguments Kubeconfig {T}.
Arguments ControllerName {T}.
Arguments cfg_LeaderElectionConfig {T}.
Arguments Namespaces {T}.
Arguments HaproxyParams {T}.
Arguments cfg_MetricsConfig {T}.
Arguments SyncPeriod {T}.
Arguments StartupSyncPeriod {T}.
Arguments CacheResyncPeriod {T}.
Arguments cfg_log {T}.

Definition defaultControllerName : string := "gate.haproxy.org/hug".
Definition defaultLeaderElectionLockName : string := "hug-leader-election-lock".
Definition Second : Z := 1000000000.
Definition defaultSyncPeriod : Z := 5 * Second.
Definition DefaultWaitForRuntimeTimeout : Z := 10 * Second.
Definition gate_DefaultsSectionName : string := "haproxytech".
Definition StructureTypeDefault : string := "default".
Definition defaultBackendNameTemplate : string :=
  "{{ .LINK_ID }}_{{ .SERVICE_NAMESPACE}}_{{ .SERVICE_NAME }}_{{ .SERVICE_PORT}}_{{ .FILTER_HASH}}".
Definition defaultServerNameTemplate : string := "SRV_{{ .POD_IP_PORT_HASH}}".

Definition NewBaseLogger (handlerType : string) (defaultLevel : Z) (categoryLevels : Categories)
    (s : Logging.LogSettings) : BaseLogger * Logging.LogSettings :=
  let base :=
    if bool_decide (handlerType = "json") then Some (JSONHandler defaultLevel)
    else if bool_decide (handlerType = "text") then Some TextHandler else None in
  (mkBaseLogger base (mkHandler "category" []), NewCategoryFilterHandler categoryLevels defaultLevel s).

Section gate.
Context {T : Type}.
Implicit Types (o : Configuration T).

Definition or_zero (n d : Z) : Z := if bool_decide (n = 0%Z) then d else n.

Definition default_params (p : HaproxyConfParams) : HaproxyConfParams :=
  {| p with
    hp_FrontendNameTemplate := or_default (hp_FrontendNameTemplate p) defaultFrontendNameTemplate;
    hp_BackendNameTemplate := or_default (hp_BackendNameTemplate p) defaultBackendNameTemplate;
    hp_ServerNameTemplate := or_default (hp_ServerNameTemplate p) defaultServerNameTemplate;
    hp_LinkID := or_default (hp_LinkID p) "linkid";
    hp_TimeoutWaitForRuntime := or_zero (hp_TimeoutWaitForRuntime p) DefaultWaitForRuntimeTimeout;
    hp_StoreCertificateStructureType := or_default (hp_StoreCertificateStructureType p) StructureTypeDefault;
    hp_StoreMapsStructureType := or_default (hp_StoreMapsStructureType p) StructureTypeDefault;
    hp_HaproxyDirs := {| (hp_HaproxyDirs p) with
      CertsDir := or_default (CertsDir (hp_HaproxyDirs p)) DefaultCertsDirName;
      CertListDir := or_default (CertListDir (hp_HaproxyDirs p)) DefaultCertFilesDirName;
      MapsDir := or_default (MapsDir (hp_HaproxyDirs p)) DefaultMapsDirName;
      ErrFileDir := or_default (ErrFileDir (hp_HaproxyDirs p)) DefaultErrFilesDirName;
      PatternDir := or_default (PatternDir (hp_HaproxyDirs p)) DefaultPatternDirName |} |}.

(** The defaults of the logger are the variables of the logging package. *)
Definition ApplyDefaults o : Configuration T :=
  let logType := or_default (LogHandlerType o) "json" in
  let '(logger, log) := NewBaseLogger logType (Logging.DefaultLevel (cfg_log o))
    (DefaultLogLevelPerCategory (cfg_log o)) (cfg_log o) in
  let syncPeriod := or_zero (SyncPeriod o) defaultSyncPeriod in
  {| o with LogHandlerType := logType; cfg_Logger := Some logger; cfg_log := log;
    cfg_LeaderElectionConfig := {| (cfg_LeaderElectionConfig o) with LockName := defaultLeaderElectionLockName |};
    ControllerName := or_default (ControllerName o) defaultControllerName;
    SyncPeriod := syncPeriod;
    StartupSyncPeriod := or_zero (StartupSyncPeriod o) syncPeriod;
    HaproxyParams := default_params (HaproxyParams o) |}.

Definition Configuration_Check o : option string :=
  if negb (InitialStructuredHaproxyConfOK o) then Some "initial structured configuration is not set"
  else if bool_decide (hp_DefaultsSectionName (HaproxyParams o) = "") then Some "defaults section name is not set"
  else if bool_decide (hp_LinkID (HaproxyParams o) = "") then Some "link ID is not set"
  else None.

(** ** options/ *)
Definition GateOption : Type := Configuration T → result (Configuration T).

(** An option that sets one of the parameters of HAProxy. *)
Definition on_params (f : HaproxyConfParams → HaproxyConfParams) : GateOption := λ o,
  Ok {| o with HaproxyParams := f (HaproxyParams o) |}.

Definition opt_KubeConfig (kubeconfig : string) : GateOption := λ o, Ok {| o with Kubeconfig := kubeconfig |}.
Definition opt_ControllerConfCRD (conf : NamespacedName) : GateOption := λ o, Ok {| o with HugConfCRD := conf |}.
Definition opt_SyncPeriod (period : Z) : GateOption := λ o, Ok {| o with SyncPeriod := period |}.
Definition opt_StartupSyncPeriod (period : Z) : GateOption := λ o, Ok {| o with StartupSyncPeriod := period |}.
Definition opt_CacheReSyncPeriod (period : Z) : GateOption := λ o, Ok {| o with CacheResyncPeriod := period |}.
Definition opt_MetricsConfig (m : MetricsConfig) : GateOption := λ o, Ok {| o with cfg_MetricsConfig := m |}.
Definition opt_LeaderElectionConfig (enabled : bool) : GateOption := λ o,
  Ok {| o with cfg_LeaderElectionConfig := mkLeaderElection "" enabled |}.
Definition opt_ControllerName (name : string) : GateOption := λ o, Ok {| o with ControllerName := name |}.
Definition opt_Namespaces (namespaces : list string) : GateOption := λ o, Ok {| o with Namespaces := namespaces |}.
Definition opt_Logging (handlerType : string) (defaultLevel : Z) (logSettings : Categories) : GateOption := λ o,
  let '(logger, log) := NewBaseLogger handlerType defaultLevel logSettings (cfg_log o) in
  Ok {| o with cfg_Logger := Some logger; LogHandlerType := handlerType; cfg_log := log |}.
Definition opt_HaproxyConfChannel (ch : nat) : GateOption := λ o, Ok {| o with TransferHaproxyConfChannel := Some ch |}.
Definition opt_InitialStructured (conf : T) : GateOption := λ o,
  Ok {| o with InitialStructuredHaproxyConf := Some conf; InitialStructuredHaproxyConfOK := true |}.
Definition opt_IPV4BindAddr (addr : string) : GateOption := on_params (λ p, {| p with hp_IPv4BindAddress := addr |}).
Definition opt_IPV6BindAddr (addr : string) : GateOption := on_params (λ p, {| p with hp_IPv6BindAddress := addr |}).
Definition opt_HaproxyDirs (dirs : HaproxyDirs) : GateOption := on_params (λ p, {| p with hp_HaproxyDirs := dirs |}).
Definition opt_LinkID (id : string) : GateOption := on_params (λ p, {| p with hp_LinkID := id |}).
Definition opt_DefaultsSectionName (name : string) : GateOption :=
  on_params (λ p, {| p with hp_DefaultsSectionName := name |}).
Definition opt_FrontendNameTemplate (template : string) : GateOption :=
  on_params (λ p, {| p with hp_FrontendNameTemplate := template |}).
Definition opt_BackendNameTemplate (template : string) : GateOption :=
  on_params (λ p, {| p with hp_BackendNameTemplate := template |}).
Definition opt_ServerNameTemplate (template : string) : GateOption :=
  on_params (λ p, {| p with hp_ServerNameTemplate := template |}).
Definition opt_RuntimeUpdate (timeout : Z) : GateOption :=
  on_params (λ p, {| p with hp_RuntimeUpdateHaproxy := true; hp_TimeoutWaitForRuntime := timeout |}).
Definition opt_StoreCertificateOnDisk (structureType : string) : GateOption :=
  on_params (λ p, {| p with hp_StoreCertificateOnDisk := true; hp_StoreCertificateStructureType := structureType |}).
Definition opt_StoreMapsOnDisk (structureType : string) : GateOption :=
  on_params (λ p, {| p with hp_StoreMapsOnDisk := true; hp_StoreMapsStructureType := structureType |}).
Definition opt_DisableIPv4 : GateOption := on_params (λ p, {| p with hp_DisableIPv4 := true |}).
Definition opt_DisableIPv6 : GateOption := on_params (λ p, {| p with hp_DisableIPv6 := true |}).

(** ** cmd/start/start.go: [ch] is the new channel *)
Definition SetupGateConfig (c : HUGConfig) (initialStructured : T) (ch : nat) : list GateOption :=
  [opt_KubeConfig "";
   opt_ControllerConfCRD (NN (nv_Namespace (ControllerConfCRD c)) (nv_Name (ControllerConfCRD c)));
   opt_SyncPeriod (hug_SyncPeriod c);
   opt_StartupSyncPeriod (hug_StartupSyncPeriod c);
   opt_MetricsConfig (mkMetricsConfig 6062 false false);
   opt_LeaderElectionConfig (LeaderElectionEnabled c);
   opt_ControllerName (hug_ControllerName c);
   opt_Namespaces (hug_Namespaces c);
   opt_Logging (LogType c) (DefaultLogLevel c) (LogSettings c);
   opt_HaproxyConfChannel ch;
   opt_IPV4BindAddr (IPV4BindAddr c);
   opt_IPV6BindAddr (IPV6BindAddr c);
   opt_HaproxyDirs c;
   opt_LinkID "link1";
   opt_InitialStructured initialStructured;
   opt_CacheReSyncPeriod (hug_CacheResyncPeriod c);
   opt_DefaultsSectionName gate_DefaultsSectionName;
   opt_RuntimeUpdate DefaultWaitForRuntimeTimeout;
   opt_StoreCertificateOnDisk StructureTypeDefault;
   opt_StoreMapsOnDisk StructureTypeDefault] ++
  (if hug_DisableIPv4 c then [opt_DisableIPv4] else []) ++
  (if hug_DisableIPv6 c then [opt_DisableIPv6] else []).

(** ** cmd/controller/main.go: what the process control is made with *)
Definition main_params (c : HUGConfig) : Params :=
  mkParams c (hug_Test c) (ForceRestartHaproxyAtStartup c) (hug_UseWiths6Overlay c) (hug_UseWithPebble c).

(** ** controller.go: [New] *)
Definition getValueFromEnv (env : string → string) (key : string) : result string :=
  if bool_decide (env key = "") then Err ("environment variable " +:+ key +:+ " not set") else Ok (env key).

Definition getControllerPodConfig (env : string → string) : result ControllerPodConfig :=
  podIP <-! getValueFromEnv env "POD_IP";
  ns <-! getValueFromEnv env "POD_NAMESPACE";
  name <-! getValueFromEnv env "POD_NAME";
  Ok (mkPodConfig podIP ns name).

(** [Configuration{}], with the variables of the logging package. *)
Definition empty_params : HaproxyConfParams :=
  mkHaproxyConfParams
    {| CfgDir := ""; MainCfgFile := ""; RouteLuaFile := ""; HaproxyBinary := ""; RuntimeDir := ""; StateDir := "";
       AuxDir := ""; PIDFile := ""; RuntimeSocket := ""; MasterSocket := ""; PatternDir := ""; ErrFileDir := "";
       CertsDir := ""; CertListDir := ""; MapsDir := "" |}
    "" "" "" "" "" "" "" "" "" 0 false false false false false.

Definition empty_configuration (log : Logging.LogSettings) : Configuration T :=
  mkGateConfiguration T None false None None (mkPodConfig "" "" "") (NN "" "") "" "" "" (mkLeaderElection "" false) []
    empty_params (mkMetricsConfig 0 false false) 0 0 0 log.

Fixpoint run_options (options : list GateOption) o : result (Configuration T) :=
  match options with
  | [] => Ok o
  | opt :: options => o <-! opt o; run_options options o
  end.

Definition controller_New (options : list GateOption) (env : string → string) (log : Logging.LogSettings) :
    result (Configuration T) :=
  o <-! run_options options (empty_configuration log);
  let o := ApplyDefaults o in
  pod <-! getControllerPodConfig env;
  Ok {| o with cfg_ControllerPodConfig := pod |}.
End gate.

(** ** The values of flags *)

(** What is printed of a name is read back, as long as the namespace has no slash,
    and what is read is printed as it was. *)
Theorem NamespaceNameValue_roundtrip nv s :
  (has_byte "/" (nv_Namespace nv) = false →
   NamespaceNameValue_Set (NamespaceNameValue_String (Some nv)) = Ok nv) ∧
  (NamespaceNameValue_Set s = Ok nv → NamespaceNameValue_String (Some nv) = s).
Proof.
  unfold NamespaceNameValue_Set, NamespaceNameValue_String, SplitN2. split.
  - intros H. change ("/" +:+ nv_Name nv) with (String "/" (nv_Name nv)). rw Cut_app //. by destruct nv.
  - destruct (Cut "/" s) as [[ns name]|] eqn:Hcut; [|done]. intros [= <-]. by apply Cut_Some in Hcut as [-> _].
Qed.

(** The same for lists: the list of one empty text is the one that is lost. *)
Theorem CommaSeparatedValues_roundtrip c s :
  (c ≠ [""] → Forall (λ v, has_byte "," v = false) c → CommaSeparatedValues_Set (CommaSeparatedValues_String c) = c) ∧
  CommaSeparatedValues_String (CommaSeparatedValues_Set s) = s.
Proof.
  unfold CommaSeparatedValues_Set, CommaSeparatedValues_String. split.
  - intros Hne Hall. destruct c as [|v c]; [done|]. rw bool_decide_false; [|by apply (Split_Join ",")].
    intros H. destruct c as [|v' c]; [cbn in H; congruence|]. cbn in H. by destruct v.
  - case_bool_decide as Hs; [by rw Hs|]. apply (Join_Split ",").
Qed.

(** ** The files that are made at start *)

(** [content] is what a path holds. *)
Class FileSystemLaws {W} (FS : FileSystem W) (content : W → string → option string) := {
  Mkdir_content d w path : content (os_MkdirAll d w).1 path = content w path;
  Stat_content path w : is_Some (content w path) → fs_Stat path w ≠ NotExist;
  WriteFile_other path data w path' : path' ≠ path → content (os_WriteFile path data w).1 path' = content w path';
  WriteFile_ok path data w w' : os_WriteFile path data w = (w', None) → content w' path = Some data
}.

Section files.
Context {W : Type} {FS : FileSystem W} {EF : EmbeddedFiles} (content : W → string → option string).
Context {FSL : FileSystemLaws FS content}.
Implicit Types (w : W) (c : HUGConfig).

(** Every file that was there is as it was. *)
Definition files_kept w w' : Prop := ∀ path data, content w path = Some data → content w' path = Some data.

#[local] Instance files_kept_preorder : PreOrder files_kept.
Proof using Type. split; [by intros w path data|]. intros w1 w2 w3 H1 H2 path data H. by apply H2, H1. Qed.

Lemma mkdir_all_content dirs w path : content (mkdir_all dirs w).1 path = content w path.
Proof using FSL.
  revert w. induction dirs as [|d dirs IH]; intros w; [done|]. cbn. pose proof (Mkdir_content d w path) as H.
  destruct (os_MkdirAll d w) as [w' [err|]]; cbn in *; [done|]. by rw IH.
Qed.

Lemma mkdir_all_kept dirs w : files_kept w (mkdir_all dirs w).1.
Proof using FSL. intros path data. by rw mkdir_all_content. Qed.

Lemma create_if_missing_kept file data w : files_kept w (create_if_missing file data w).1.
Proof using FSL.
  intros path old Hold. unfold create_if_missing. destruct (fs_Stat file w) eqn:Hs; [done| |done].
  rw WriteFile_other //. intros ->. by apply (Stat_content file w).
Qed.

(** What is missing is created with the data. *)
Lemma create_if_missing_creates file data w w' :
  create_if_missing file data w = (w', None) → fs_Stat file w = NotExist → content w' file = Some data.
Proof using FSL. unfold create_if_missing. intros H Hs. rw Hs in H. by eapply WriteFile_ok. Qed.

Lemma initExternal_kept external c w : files_kept w (initExternal external c w).1.
Proof using FSL.
  unfold initExternal. match goal with |- context [mkdir_all ?dirs w] => pose proof (mkdir_all_kept dirs w) as H end.
  by destruct (mkdir_all _ w) as [w' [err|]].
Qed.

(** Starting never changes a file that exists: neither the configuration nor the
    script of an earlier run is overwritten, even by a start that fails half way;
    and a start that succeeds has written the default ones where they were
    missing, in the directory of the configuration it returns. *)
Theorem Init_keeps_files external c w w' r :
  Init external c w = (w', r) →
  files_kept w w' ∧
  (∀ c', r = Ok c' →
     MainCfgFile c' = filepath_Join (CfgDir c') "haproxy.cfg" ∧ RouteLuaFile c' = filepath_Join (CfgDir c') "route.lua" ∧
     ∃ w1, files_kept w w1 ∧ files_kept w1 w' ∧
       (fs_Stat (MainCfgFile c') w1 = NotExist → content w' (MainCfgFile c') = Some defaults_HaproxyCfg)).
Proof using FSL.
  unfold Init. cbv zeta. match goal with |- context [initExternal external ?c0 w] => set (c0' := c0) end.
  pose proof (initExternal_kept external c0' w) as K1.
  destruct (initExternal external c0' w) as [w1 [c1|err]]; [|by intros [= <- <-]]. cbn [fst] in K1.
  destruct (existsb _ _); [by intros [= <- <-]|].
  match goal with |- context [with_files ?c2] => set (c3 := with_files c2) end.
  destruct (if hug_Test c3 then _ else _); [|by intros [= <- <-]..].
  pose proof (create_if_missing_kept (MainCfgFile c3) defaults_HaproxyCfg w1) as K2.
  pose proof (create_if_missing_creates (MainCfgFile c3) defaults_HaproxyCfg w1) as C2.
  destruct (create_if_missing (MainCfgFile c3) _ w1) as [w2 [err|]]; cbn [fst] in K2.
  { intros [= <- <-]. split; [by etrans|done]. }
  pose proof (create_if_missing_kept (RouteLuaFile c3) defaults_RouteLua w2) as K3.
  destruct (create_if_missing (RouteLuaFile c3) _ w2) as [w3 [err|]]; cbn [fst] in K3.
  { intros [= <- <-]. split; [by do 2 etrans|done]. }
  match goal with |- context [mkdir_all ?dirs w3] => pose proof (mkdir_all_kept dirs w3) as K4 end.
  destruct (mkdir_all _ w3) as [w4 [err|]]; cbn [fst] in K4; intros [= <- <-];
    (split; [do 3 (etrans; [eassumption|]); done|]); [done|].
  intros c' [= <-]. split_and!; [done|done|]. exists w1. split_and!; [done|by do 2 (etrans; [eassumption|])|].
  intros Hs. apply K4, K3. exact (C2 w2 eq_refl Hs).
Qed.
End files.

(** ** The configuration of the gate library *)

(** What the options of the program build. *)
Definition setup_configuration {T} (c : HUGConfig) (initial : T) ch log : Configuration T :=
  {| InitialStructuredHaproxyConf := Some initial; InitialStructuredHaproxyConfOK := true;
     cfg_Logger := Some (NewBaseLogger (LogType c) (DefaultLogLevel c) (LogSettings c) log).1;
     TransferHaproxyConfChannel := Some ch; cfg_ControllerPodConfig := mkPodConfig "" "" "";
     HugConfCRD := NN (nv_Namespace (ControllerConfCRD c)) (nv_Name (ControllerConfCRD c)); LogHandlerType := LogType c;
     Kubeconfig := ""; ControllerName := hug_ControllerName c;
     cfg_LeaderElectionConfig := mkLeaderElection "" (LeaderElectionEnabled c); Namespaces := hug_Namespaces c;
     HaproxyParams := {| empty_params with
       hp_HaproxyDirs := c; hp_IPv4BindAddress := IPV4BindAddr c; hp_IPv6BindAddress := IPV6BindAddr c;
       hp_DefaultsSectionName := gate_DefaultsSectionName; hp_LinkID := "link1";
       hp_StoreCertificateStructureType := StructureTypeDefault; hp_StoreMapsStructureType := StructureTypeDefault;
       hp_TimeoutWaitForRuntime := DefaultWaitForRuntimeTimeout; hp_DisableIPv4 := hug_DisableIPv4 c;
       hp_DisableIPv6 := hug_DisableIPv6 c; hp_RuntimeUpdateHaproxy := true; hp_StoreCertificateOnDisk := true;
       hp_StoreMapsOnDisk := true |};
     cfg_MetricsConfig := mkMetricsConfig 6062 false false; SyncPeriod := hug_SyncPeriod c;
     StartupSyncPeriod := hug_StartupSyncPeriod c; CacheResyncPeriod := hug_CacheResyncPeriod c;
     cfg_log := NewCategoryFilterHandler (LogSettings c) (DefaultLogLevel c) log |}.

Lemma run_options_app {T} (l1 l2 : list (GateOption (T := T))) o :
  run_options (l1 ++ l2) o = (o <-! run_options l1 o; run_options l2 o).
Proof. revert o. induction l1 as [|opt l1 IH]; intros o; [done|]. cbn. destruct (opt o); [apply IH|done]. Qed.

Lemma run_SetupGateConfig {T} (c : HUGConfig) (initial : T) ch log :
  run_options (SetupGateConfig c initial ch) (empty_configuration log) = Ok (setup_configuration c initial ch log).
Proof. unfold SetupGateConfig. rw run_options_app. by destruct (hug_DisableIPv4 c) eqn:D4, (hug_DisableIPv6 c) eqn:D6; unfold setup_configuration; rw D4 D6. Qed.

(** The options of the program always give a configuration the controller accepts:
    it fails only without the variables of the pod; the periods are not zero; the
    initial sections, the filter and the directories are those of the flags, so that
    the process is started on the file the client writes; and
    the log settings of the flags survive the defaults, since both go through the
    variables of the logging package.  The handler under the filter is missing
    when the type of log is neither json nor text: that is not checked. *)
Theorem New_spec {T} (c : HUGConfig) (initial : T) ch env log :
  env "POD_IP" ≠ "" → env "POD_NAMESPACE" ≠ "" → env "POD_NAME" ≠ "" → LogType c ≠ "" →
  ∃ o, controller_New (SetupGateConfig c initial ch) env log = Ok o ∧
    Configuration_Check o = None ∧ SyncPeriod o ≠ 0%Z ∧ StartupSyncPeriod o ≠ 0%Z ∧
    (hug_SyncPeriod c ≠ 0%Z → SyncPeriod o = hug_SyncPeriod c) ∧
    InitialStructuredHaproxyConf o = Some initial ∧ Namespaces o = hug_Namespaces c ∧
    ControllerName o = or_default (hug_ControllerName c) defaultControllerName ∧
    Logging.DefaultLevel (cfg_log o) = DefaultLogLevel c ∧ DefaultLogLevelPerCategory (cfg_log o) = LogSettings c ∧
    logLevelPerCategory (cfg_log o) = LogSettings c ∧ level (cfg_log o) = level log ∧
    (bl_base <$> cfg_Logger o = Some None ↔ LogType c ≠ "json" ∧ LogType c ≠ "text") ∧
    MainCfgFile (hp_HaproxyDirs (HaproxyParams o)) = MainCfgFile (main_params c) ∧
    (CertsDir c ≠ "" → CertsDir (hp_HaproxyDirs (HaproxyParams o)) = CertsDir c) ∧
    hp_DisableIPv4 (HaproxyParams o) = hug_DisableIPv4 c ∧ hp_DisableIPv6 (HaproxyParams o) = hug_DisableIPv6 c.
Proof.
  intros H1 H2 H3 Hlog. unfold controller_New, getControllerPodConfig, getValueFromEnv.
  rw run_SetupGateConfig !bool_decide_false //. eexists. split; [reflexivity|].
  assert (∀ n d, d ≠ 0%Z → or_zero n d ≠ 0%Z) as Hz by (intros n d Hd; unfold or_zero; by case_bool_decide).
  assert (or_default (LogType c) "json" = LogType c) as Hd by (unfold or_default; by rw bool_decide_false).
  unfold ApplyDefaults, setup_configuration. cbn. rw Hd. split_and!; try done.
  - by apply Hz.
  - by apply Hz, Hz.
  - intros H. unfold or_zero. by rw bool_decide_false.
  - repeat case_bool_decide; (split; [|intros [? ?]]); try done; by intros [=].
  - intros H. unfold or_default. by rw bool_decide_false.
Qed.

(** ** What is read from the file of HAProxy *)
Section sections.
Context {RO : RangeOrder} {Extra A L G N : Type} {SC : StartupClient Extra A L G N}.

Lemma fold_managed {M} (name : M → string) (managed : M → bool) (l : list M) (m : gmap string M) n x :
  NoDup (name <$> l) → (∀ y, y ∈ l → m !! name y = None) →
  foldl (λ m x, if managed x then <[name x := x]> m else m) m l !! n = Some x ↔
  m !! n = Some x ∨ x ∈ l ∧ name x = n ∧ managed x = true.
Proof using Type.
  revert m. induction l as [|y l IH]; intros m Hnd Hm; cbn.
  { split; [by left|]. intros [?|(H & _)]; [done|]. by apply elem_of_nil in H. }
  apply NoDup_cons in Hnd as [Hy Hnd].
  assert (∀ z, z ∈ l → name y ≠ name z) as Hne.
  { intros z Hz Heq. apply Hy. rw Heq. by apply list_elem_of_fmap_2. }
  etransitivity; [apply IH; [done|];
    destruct (managed y); intros z Hz; [rw lookup_insert_ne; [by apply Hne|]|]; apply Hm; by right|].
  destruct (managed y) eqn:Hmy.
  - rw lookup_insert_Some. split.
    + intros [[[<- <-]|[_ ?]]|(? & ? & ?)]; [right|by left|right]; (split; [|done]); [by left|by right].
    + intros [Hs|(Hin & <- & Hmx)].
      * left. right. split; [|done]. intros Heq. rw -Heq Hm in Hs; [by left|done].
      * apply elem_of_cons in Hin as [->|Hin]; [left; by left|by right].
  - split.
    + intros [?|(? & ? & ?)]; [by left|right]. split; [by right|done].
    + intros [?|(Hin & ? & Hmx)]; [by left|right]. apply elem_of_cons in Hin as [->|?]; [|done]. by rw Hmy in Hmx.
Qed.

(** The binds of the stats frontend are the only thing of it that changes. *)
Lemma alter_last_map {T B} (g : T → B) P f (l : list T) : (∀ x, g (f x) = g x) → g <$> alter_last P f l = g <$> l.
Proof using Type.
  intros Hf. induction l as [|x l IH]; [done|]. cbn. destruct (P x && negb (existsb P l)); cbn; [by rw Hf|by rw IH].
Qed.

Lemma stats_keeps_models frontends c n n' frontends' :
  addBindPortToStatsFrontend (SC := SC) frontends c n = (n', Ok frontends') →
  ff_Model <$> frontends' = ff_Model <$> frontends.
Proof using Type.
  unfold addBindPortToStatsFrontend. destruct (last _) as [fe|]; [|by intros [= _ <-]]. cbv zeta.
  destruct (hug_DisableIPv4 c).
  - destruct (hug_DisableIPv6 c); [intros [= _ <-]; by apply alter_last_map|].
    destruct (add_stats_bind (bind_of_kind Is6 _) _ _ _ _) as [n2 [b|]]; [|done]. intros [= _ <-]. by apply alter_last_map.
  - destruct (add_stats_bind (bind_of_kind Is4 _) _ _ _ _) as [n1 [b|]]; [|done].
    destruct (hug_DisableIPv6 c); [intros [= _ <-]; by apply alter_last_map|].
    destruct (add_stats_bind (bind_of_kind Is6 _) _ _ _ _) as [n2 [b'|]]; [|done]. intros [= _ <-]. by apply alter_last_map.
Qed.

(** The settings of the global section are only added once: the restart of the
    controller on the file it wrote changes nothing. *)
Lemma global_settings_idem c (g : Global A L G) : global_settings c (global_settings c g) = global_settings c g.
Proof using Type.
  unfold global_settings. generalize (filepath_Join (filepath_Dir (MainCfgFile c)) "route.lua") as path. intros path.
  cbn -[bool_decide]. destruct (RuntimeAPIs g) as [|api apis]; cbn -[bool_decide]; [rw bool_decide_true //|].
  case_bool_decide; cbn -[bool_decide]; rw bool_decide_true //.
Qed.

(** The controller starts from the sections of the file that carry its metadata,
    and from no other: the sections that others wrote are never taken for its own,
    whatever is done to the binds of the stats frontend. *)
Theorem startup_managed_only c n s :
  StructuredFromFile (SC := SC) c = Ok (n, s) →
  ∃ n0 backends frontends, configuration_New (MainCfgFile c) (CfgDir c) (HaproxyBinary c) = Ok n0 ∧
    GetStructuredBackends n0 = Ok backends ∧ GetStructuredFrontends n0 = Ok frontends ∧
    (NoDup (be_Name <$> backends) → ∀ name be, st_Backends s !! name = Some be ↔
       be ∈ backends ∧ be_Name be = name ∧ isUnifiedGatewayManaged (be_Metadata be) = true) ∧
    (∃ frontends', ff_Model <$> frontends' = ff_Model <$> frontends ∧
       (NoDup ((λ fe, fe_Name (ff_Model fe)) <$> frontends') → ∀ name fe, st_Frontends s !! name = Some fe ↔
          fe ∈ frontends' ∧ fe_Name (ff_Model fe) = name ∧ isUnifiedGatewayManaged (fe_Metadata (ff_Model fe)) = true)).
Proof.
  unfold StructuredFromFile. destruct (configuration_New _ _ _) as [n0|] eqn:Hnew; [|done]. cbn.
  destruct (GetStructuredBackends n0) as [backends|] eqn:Hbe; [|done]. cbn.
  destruct (GetStructuredFrontends n0) as [frontends|] eqn:Hfe; [|done]. cbn.
  destruct (GetGlobalConfiguration n0) as [g|]; [|done]. cbn.
  destruct (sc_GetVersion n0) as [v|]; [|done]. cbn.
  destruct (PushGlobalConfiguration _ _ _) as [n1 [err|]]; [done|]. intros Hs.
  assert (∃ frontends', ff_Model <$> frontends' = ff_Model <$> frontends ∧
    s = mkStructured (structured_frontends frontends') (structured_backends backends)) as (frontends' & Hf & ->).
  { destruct (AddStatsPortToFrontend c); [|injection Hs as _ <-; by exists frontends].
    destruct (addBindPortToStatsFrontend frontends c n1) as [n2 [fes|]] eqn:Ha; [|done]. injection Hs as _ <-.
    exists fes. split; [|done]. eapply stats_keeps_models, Ha. }
  exists n0, backends, frontends. split_and!; [done|done|done| |].
  - intros Hnd name be. etransitivity; [apply (fold_managed be_Name); [done|intros; apply lookup_empty]|]. rw lookup_empty. naive_solver.
  - exists frontends'. split; [done|]. intros Hnd name fe.
    etransitivity; [apply (fold_managed (λ fe, fe_Name (ff_Model fe))); [done|intros; apply lookup_empty]|]. rw lookup_empty. naive_solver.
Qed.
End sections.

(** *** Witnesses *)
#[local] Instance example_fs : FileSystem (gmap string string) := {|
  os_MkdirAll d w := (w, None);
  fs_Stat path w := match w !! path with Some _ => Exists | None => NotExist end;
  os_WriteFile path data w := (<[path := data]> w, None)
|}.

#[local] Instance example_fs_laws : FileSystemLaws example_fs (λ w path, w !! path).
Proof.
  split.
  - done.
  - intros path w [x Hx]. cbn. by rw Hx.
  - intros path data w path' Hne. by apply lookup_insert_ne.
  - intros path data w w'. cbn. intros [= <-]. apply lookup_insert_eq.
Qed.

#[local] Instance example_embedded : EmbeddedFiles := {| defaults_HaproxyCfg := "global"; defaults_RouteLua := "core" |}.

Definition example_hug_config : HUGConfig :=
  mkHUGConfig ∅ HaproxyDefaults (mkNamespaceName "ns" "conf") "" "" "" "" externalDefaults [] 1024 0 0 0 0 0
    true false true false false false false false.

(** An edited configuration in an external directory, without a script. *)
Lemma Init_keeps_files_witness :
  ∃ w' c', Init (mkExternal "/etc/hug" "" "" "" "" true) example_hug_config
      {[ "/etc/hug/haproxy.cfg" := "mine" ]} = (w', Ok c') ∧
    w' !! "/etc/hug/haproxy.cfg" = Some "mine" ∧ w' !! "/etc/hug/route.lua" = Some "core" ∧
    MainCfgFile c' = "/etc/hug/haproxy.cfg" ∧ CertsDir c' = "/etc/hug/certs".
Proof.
  destruct (Init (mkExternal "/etc/hug" "" "" "" "" true) example_hug_config {[ "/etc/hug/haproxy.cfg" := "mine" ]})
    as [w' r] eqn:Hr.
  assert (match Init (mkExternal "/etc/hug" "" "" "" "" true) example_hug_config {[ "/etc/hug/haproxy.cfg" := "mine" ]} with
    | (w', Ok c') => (w' !! "/etc/hug/route.lua", CfgDir c', CertsDir c') | (_, Err _) => (None, "", "") end =
    (Some "core", "/etc/hug", "/etc/hug/certs")) as Hall by vm_refl.
  rw Hr in Hall. destruct r as [c'|err]; [|done]. injection Hall as Hlua Hcfg Hcerts.
  destruct (Init_keeps_files (λ w path, w !! path) _ _ _ _ _ Hr) as [Hkept Hc].
  destruct (Hc c' eq_refl) as (Hmain & _ & _). exists w', c'. split; [done|].
  split; [by apply (Hkept "/etc/hug/haproxy.cfg")|]. split_and!; [done| |done]. by rw Hmain Hcfg.
Defined.

(** The settings of the program without any flag. *)
Lemma New_spec_witness :
  ∃ o, controller_New (SetupGateConfig (T := nat) {| example_hug_config with LogType := "json" |} 3 0) (λ _, "x")
      initial_settings = Ok o ∧ Configuration_Check o = None ∧ InitialStructuredHaproxyConf o = Some 3 ∧
    ControllerName o = defaultControllerName.
Proof.
  destruct (New_spec (T := nat) {| example_hug_config with LogType := "json" |} 3 0 (λ _, "x") initial_settings)
    as (o & Ho & Hc & _ & _ & _ & Hi & _ & Hn & _); [done..|].
  exists o. split; [exact Ho|]. clear Ho. split; [exact Hc|]. split; [exact Hi|]. exact Hn.
Defined.
