(* ===== verification/CRDs.v ===== *)
(** * CRDs: api/definition/crd-check.go and definitions.go

    The job that installs the definitions of the resources of this program in
    the cluster and upgrades them.  The API server is a class, with laws that
    say what a call that is answered has done; the parsers of YAML and of
    versions are classes too. *)

From S2P Require Import Prelude.

Record CRD (Spec : Type) := mkCRD {
  crd_Name : string;
  crd_Annotations : gmap string string;
  crd_ResourceVersion : string;
  (** the names of [Spec.Versions] *)
  crd_Versions : list string;
  crd_Spec : Spec
}.
Arguments mkCRD {Spec}.
Arguments crd_Name {Spec}.
Arguments crd_Annotations {Spec}.
Arguments crd_ResourceVersion {Spec}.
Arguments crd_Versions {Spec}.
Arguments crd_Spec {Spec}.

(** ** definitions.go: the files embedded in the program *)
Class EmbeddedCRDs := { crds_backends : string; crds_hugConf : string; crds_hugGates : string }.

Definition getCRDs `{EmbeddedCRDs} : gmap string string :=
  {[ "backends.gate.v3.haproxy.org" := crds_backends;
     "huggates.gate.v3.haproxy.org" := crds_hugGates;
     "hugconfs.gate.v3.haproxy.org" := crds_hugConf ]}.

Inductive GetCRD Spec := CrdFound (c : CRD Spec) | CrdNotFound | CrdFailed (err : string).
Arguments CrdFound {Spec}.
Arguments CrdNotFound {Spec}.
Arguments CrdFailed {Spec}.

(** [apiextensionsclientset]: the cluster is [W]. *)
Class CrdClient (Spec W : Type) := {
  clientset_Get : string → W → GetCRD Spec;
  clientset_Create : CRD Spec → W → W * option string;
  clientset_Update : CRD Spec → W → W * option string
}.

Class YamlCRD (Spec : Type) := { yaml_Unmarshal : string → result (CRD Spec) }.

(** [semver.NewVersion], which gives no version with an error, and
    [GreaterThan]. *)
Class Semver (V : Type) := {
  semver_NewVersion : string → result V;
  semver_GreaterThan : V → V → bool
}.

(** The configuration of the client, inside the cluster or outside. *)
Class RestConfig := { restConfig : bool → option string }.

Section refresh.
Context {RO : RangeOrder} {EC : EmbeddedCRDs} {Spec W V : Type}.
Context {CC : CrdClient Spec W} {YC : YamlCRD Spec} {SV : Semver V} {RC : RestConfig}.
Implicit Types (c crd : CRD Spec) (w : W).

(** ** crd-check.go *)
Definition getVersion (annotations : gmap string string) : string * bool :=
  match annotations !! "client-native.haproxy.org/version" with
  | Some version => (version, true)
  | None =>
      match annotations !! "gate.hug/version" with
      | Some version => (version, true)
      | None =>
          match annotations !! "conf.hug/version" with
          | Some version => (version, true)
          | None => ("", false)
          end
      end
  end.

Definition set_ResourceVersion (rv : string) crd : CRD Spec :=
  mkCRD (crd_Name crd) (crd_Annotations crd) rv (crd_Versions crd) (crd_Spec crd).

(** A version that did not parse is replaced; it is nil when the replacement does
    not parse either, and reading it panics. *)
Definition or_zero (v : result V) : option V :=
  match v with
  | Ok v => Some v
  | Err _ => match semver_NewVersion "0.0.0" with Ok v => Some v | Err _ => None end
  end.

Definition is_err {A} (r : result A) : bool := match r with Err _ => true | Ok _ => false end.

(** One pass of the loop of [CRDRefresh]: the cluster and the error it returns with;
    [None] is a panic. *)
Definition refresh_one (crdName crdDef : string) w : option (W * option string) :=
  match yaml_Unmarshal crdDef with
  | Err err => Some (w, Some err)
  | Ok crd =>
      match clientset_Get crdName w with
      | CrdFailed err => Some (w, Some err)
      | CrdNotFound => Some (clientset_Create crd w)
      | CrdFound existingVersion =>
          match crd_Versions existingVersion with
          | [] => Some (w, None)
          | version0 :: _ =>
              let crd := set_ResourceVersion (crd_ResourceVersion existingVersion) crd in
              if bool_decide (version0 = "v3") then
                let '(cnInK8s, ok) := getVersion (crd_Annotations existingVersion) in
                let '(cnNew, _) := getVersion (crd_Annotations crd) in
                let vK8s := semver_NewVersion cnInK8s in
                let vNew := semver_NewVersion cnNew in
                let needUpgrade := negb ok || is_err vK8s || is_err vNew in
                vNew ← or_zero vNew;
                vK8s ← or_zero vK8s;
                if needUpgrade || semver_GreaterThan vNew vK8s then Some (clientset_Update crd w)
                else Some (w, None)
              else Some (clientset_Update crd w)
          end
      end
  end.

Fixpoint refresh_all (crds : list (string * string)) w : option (W * option string) :=
  match crds with
  | [] => Some (w, None)
  | (crdName, crdDef) :: crds =>
      '(w, err) ← refresh_one crdName crdDef w;
      match err with Some err => Some (w, Some err) | None => refresh_all crds w end
  end.

Definition CRDRefresh (external : bool) w : option (W * option string) :=
  match restConfig external with
  | Some err => Some (w, Some err)
  | None => refresh_all (range getCRDs) w
  end.
End refresh.

(** ** The API server

    [stored] relates the spec the server keeps to the one it was sent; [view] is
    what it keeps.  A call that fails may have been carried out. *)
Definition shipped_as {Spec} (stored : Spec → Spec → Prop) (c crd : CRD Spec) : Prop :=
  crd_Name c = crd_Name crd ∧ crd_Annotations c = crd_Annotations crd ∧ crd_Versions c = crd_Versions crd ∧
  stored (crd_Spec c) (crd_Spec crd).

Definition written {Spec} (stored : Spec → Spec → Prop) (crd : CRD Spec) (before after : gmap string (CRD Spec))
    (err : option string) : Prop :=
  (err ≠ None ∧ after = before) ∨ ∃ c, shipped_as stored c crd ∧ after = <[crd_Name crd := c]> before.

Class CrdClientLaws {Spec W} (CC : CrdClient Spec W) (stored : Spec → Spec → Prop)
    (view : W → gmap string (CRD Spec)) := {
  Get_found name w c : clientset_Get name w = CrdFound c → view w !! name = Some c;
  Get_missing name w : clientset_Get name w = CrdNotFound → view w !! name = None;
  Create_written crd w w' err : clientset_Create crd w = (w', err) → written stored crd (view w) (view w') err;
  Update_written crd w w' err : clientset_Update crd w = (w', err) → written stored crd (view w) (view w') err
}.

Section spec.
Context {RO : RangeOrder} {EC : EmbeddedCRDs} {Spec W V : Type}.
Context {CC : CrdClient Spec W} {YC : YamlCRD Spec} {SV : Semver V} {RC : RestConfig}.
Context {stored : Spec → Spec → Prop} {view : W → gmap string (CRD Spec)} {CL : CrdClientLaws CC stored view}.
Implicit Types (c crd ex : CRD Spec) (w : W).

(** The CRD of the cluster is left alone: it has no version, or it is one of [v3]
    that the one of the program is not newer than. *)
Definition up_to_date ex crd : Prop :=
  crd_Versions ex = [] ∨
  head (crd_Versions ex) = Some "v3" ∧ (getVersion (crd_Annotations ex)).2 = true ∧
  ∃ v v' : V, semver_NewVersion (getVersion (crd_Annotations ex)).1 = Ok v ∧
    semver_NewVersion (getVersion (crd_Annotations crd)).1 = Ok v' ∧ semver_GreaterThan v' v = false.

(** What the job means to do with the CRD the file holds, from what the cluster
    has to what it has then. *)
Definition refreshed (crdDef : string) (before after : option (CRD Spec)) : Prop :=
  ∃ crd, yaml_Unmarshal crdDef = Ok crd ∧
    ((∃ ex, before = Some ex ∧ up_to_date ex crd ∧ after = Some ex) ∨
     ((∀ ex, before = Some ex → ¬ up_to_date ex crd) ∧ ∃ c, after = Some c ∧ shipped_as stored c crd)).

(** The step of the loop, against that. *)
Definition one_ok (crdName crdDef : string) (before after : gmap string (CRD Spec)) (err : option string) : Prop :=
  (∀ name, name ≠ crdName → after !! name = before !! name) ∧
  (after !! crdName = before !! crdName ∨ refreshed crdDef (before !! crdName) (after !! crdName)) ∧
  (err = None → refreshed crdDef (before !! crdName) (after !! crdName)).

Hypothesis Hzero : ∃ v, semver_NewVersion "0.0.0" = Ok v.
Hypothesis Hnames : ∀ name data crd, getCRDs !! name = Some data → yaml_Unmarshal data = Ok crd → crd_Name crd = name.

Lemma or_zero_total (r : result V) : ∃ v, or_zero r = Some v ∧ (∀ v', r = Ok v' → v = v').
Proof using Hzero.
  destruct Hzero as [z Hz]. destruct r as [v|err]; cbn.
  - exists v. split; [done|]. by intros v' [= ->].
  - exists z. split; [by rw Hz|done].
Qed.

Lemma written_ok crdName crdDef crd sent before after err :
  getCRDs !! crdName = Some crdDef → yaml_Unmarshal crdDef = Ok crd →
  crd_Name sent = crd_Name crd → (∀ c, shipped_as stored c sent → shipped_as stored c crd) →
  (∀ ex, before !! crdName = Some ex → ¬ up_to_date ex crd) →
  written stored sent before after err → one_ok crdName crdDef before after err.
Proof using Hnames.
  intros Hdef Hcrd Hn Hship Hold. pose proof (Hnames _ _ _ Hdef Hcrd) as Hname.
  intros [[Herr ->]|(c & Hc & ->)].
  - split_and!; [done|by left|]. intros ->. done.
  - rw Hn Hname. split_and!; [intros name Hne; by rw lookup_insert_ne|..].
    all: rw lookup_insert_eq; try right; try intros _.
    all: exists crd; split; [done|right]; split; [done|]; exists c; split; [done|by apply Hship].
Qed.

Lemma kept_ok crdName crdDef crd ex (before : gmap string (CRD Spec)) :
  yaml_Unmarshal crdDef = Ok crd → before !! crdName = Some ex → up_to_date ex crd →
  one_ok crdName crdDef before before None.
Proof using Type.
  intros Hcrd Hex Hup. split_and!; [done|by left|]. intros _. exists crd. split; [done|left]. by exists ex.
Qed.

Lemma refresh_one_ok crdName crdDef w :
  getCRDs !! crdName = Some crdDef →
  ∃ w' err, refresh_one crdName crdDef w = Some (w', err) ∧ one_ok crdName crdDef (view w) (view w') err.
Proof using Hzero Hnames CL.
  intros Hdef. unfold refresh_one. destruct (yaml_Unmarshal crdDef) as [crd|err] eqn:Hcrd.
  2:{ exists w, (Some err). split; [done|]. split_and!; [done|by left|done]. }
  destruct (clientset_Get crdName w) as [ex| |err] eqn:Hget.
  3:{ exists w, (Some err). split; [done|]. split_and!; [done|by left|done]. }
  2:{ destruct (clientset_Create crd w) as [w' err] eqn:Hc. exists w', err. split; [done|].
      apply Create_written in Hc. apply Get_missing in Hget.
      eapply written_ok; [done|done| | | |done]; [done|done|]. by rw Hget. }
  apply Get_found in Hget. destruct (crd_Versions ex) as [|version0 versions] eqn:Hv.
  { exists w, None. split; [done|]. eapply kept_ok; [done|done|]. by left. }
  cbv zeta. set (sent := set_ResourceVersion (crd_ResourceVersion ex) crd).
  assert (∀ w' err, clientset_Update sent w = (w', err) → ¬ up_to_date ex crd →
    one_ok crdName crdDef (view w) (view w') err) as Hwrite.
  { intros w' err Hu%Update_written Hnot. eapply written_ok; [done|done| | | |exact Hu]; [done|done|].
    intros ex' Hex'. rw Hget in Hex'. by injection Hex' as <-. }
  destruct (clientset_Update sent w) as [w' err] eqn:Hu. specialize (Hwrite w' err eq_refl).
  case_bool_decide as H3.
  2:{ exists w', err. split; [done|]. apply Hwrite. unfold up_to_date. rw Hv. intros [?|[[= ?] _]]; done. }
  change (crd_Annotations sent) with (crd_Annotations crd).
  destruct (getVersion (crd_Annotations ex)) as [cnInK8s ok] eqn:Hex.
  destruct (getVersion (crd_Annotations crd)) as [cnNew ok'] eqn:Hnew.
  destruct (or_zero_total (semver_NewVersion cnNew)) as (vNew & -> & HvNew). cbn [mbind option_bind].
  destruct (or_zero_total (semver_NewVersion cnInK8s)) as (vK8s & -> & HvK8s). cbn [mbind option_bind].
  destruct (negb ok || is_err _ || _ || _) eqn:Hup.
  - exists w', err. split; [done|]. apply Hwrite. unfold up_to_date. rw Hv Hex Hnew /=.
    intros [?|(_ & -> & v & v' & H1 & H2 & Hgt)]; [done|]. rw H1 H2 in Hup. cbn in Hup.
    rw (HvNew v' H2) (HvK8s v H1) in Hup. congruence.
  - exists w, None. split; [done|]. eapply kept_ok; [done|done|]. right. rw Hv Hex Hnew. cbn.
    apply orb_false_iff in Hup as [[[Hok%negb_false_iff H1]%orb_false_iff H2]%orb_false_iff Hgt].
    destruct (semver_NewVersion cnInK8s) as [v|]; [|done]. destruct (semver_NewVersion cnNew) as [v'|]; [|done].
    split_and!; [by f_equal|done|]. exists v, v'. split_and!; [done|done|].
    by rw -(HvNew v' eq_refl) -(HvK8s v eq_refl).
Qed.

(** The loop: the keys it has not come to are as they were. *)
Definition all_ok (crds : list (string * string)) (before after : gmap string (CRD Spec)) (err : option string) : Prop :=
  (∀ name, name ∉ crds.*1 → after !! name = before !! name) ∧
  ∀ name data, (name, data) ∈ crds →
    (after !! name = before !! name ∨ refreshed data (before !! name) (after !! name)) ∧
    (err = None → refreshed data (before !! name) (after !! name)).

Lemma refresh_all_ok crds w :
  NoDup crds.*1 → (∀ name data, (name, data) ∈ crds → getCRDs !! name = Some data) →
  ∃ w' err, refresh_all crds w = Some (w', err) ∧ all_ok crds (view w) (view w') err.
Proof using Hzero Hnames CL.
  revert w. induction crds as [|[crdName crdDef] crds IH]; intros w Hnd Hin.
  { exists w, None. split; [done|]. split; [done|]. by intros name data ?%elem_of_nil. }
  apply NoDup_cons in Hnd as [Hnot Hnd]. change ((crdName, crdDef) :: crds).*1 with (crdName :: crds.*1) in *.
  destruct (refresh_one_ok crdName crdDef w) as (w1 & err & Hone & Hother & Hkey & Hdone); [apply Hin; by left|].
  cbn [refresh_all]. rw Hone. cbn [mbind option_bind]. destruct err as [err|].
  - exists w1, (Some err). split; [done|]. split.
    + intros name [Hne _]%not_elem_of_cons. by apply Hother.
    + intros name data [[= -> ->]|Hl]%elem_of_cons; [by split|]. split; [left|done]. apply Hother.
      intros ->. by apply Hnot, (list_elem_of_fmap_2 fst _ (crdName, data)).
  - destruct (IH w1 Hnd) as (w' & err & Hrun & Hrest & Hall); [intros n d Hl; apply Hin; by right|].
    exists w', err. split; [done|]. split.
    + intros name [Hne Hl]%not_elem_of_cons. rw (Hrest name Hl). by apply Hother.
    + intros name data [[= -> ->]|Hl]%elem_of_cons.
      * rw (Hrest crdName Hnot). split; [by right; apply Hdone|by intros _; apply Hdone].
      * assert (name ≠ crdName) as Hne by (intros ->; by apply Hnot, (list_elem_of_fmap_2 fst _ (crdName, data))).
        rw -(Hother name Hne). by apply Hall.
Qed.

Lemma CRDRefresh_ok external w :
  ∃ w' err, CRDRefresh external w = Some (w', err) ∧
    (∀ name, getCRDs !! name = None → view w' !! name = view w !! name) ∧
    ∀ name data, getCRDs !! name = Some data →
      (view w' !! name = view w !! name ∨ refreshed data (view w !! name) (view w' !! name)) ∧
      (err = None → refreshed data (view w !! name) (view w' !! name)).
Proof using Hzero Hnames CL.
  unfold CRDRefresh. destruct (restConfig external) as [err|].
  { exists w, (Some err). split; [done|]. split; [done|]. intros name data _. split; [by left|done]. }
  destruct (refresh_all_ok (range getCRDs) w) as (w' & err & Hrun & Hrest & Hall).
  { apply NoDup_fst_range. }
  { intros name data. apply elem_of_range. }
  exists w', err. split; [done|]. split.
  - intros name Hn. apply Hrest. intros ([n d] & -> & Hl%elem_of_range)%list_elem_of_fmap. cbn in Hn. congruence.
  - intros name data Hl. apply Hall. by apply elem_of_range.
Qed.

(** Where the file of the program is itself of [v3] and carries a version. *)
Definition well_versioned crd : Prop :=
  head (crd_Versions crd) = Some "v3" ∧ (getVersion (crd_Annotations crd)).2 = true ∧
  ∃ v : V, semver_NewVersion (getVersion (crd_Annotations crd)).1 = Ok v ∧ semver_GreaterThan v v = false.

Lemma refreshed_up_to_date crd data before after :
  yaml_Unmarshal data = Ok crd → well_versioned crd → refreshed data before after →
  ∃ c, after = Some c ∧ up_to_date c crd.
Proof using Type.
  intros Hcrd (H1 & H2 & v & H3 & H4) (crd' & Hcrd' & Hr). rw Hcrd in Hcrd'. injection Hcrd' as <-.
  destruct Hr as [(ex & _ & Hup & ->)|(_ & c & -> & (_ & Ha & Hv & _))]; [by exists ex|].
  exists c. split; [done|]. right. rw Ha Hv. split_and!; [done|done|]. by exists v, v.
Qed.
End spec.

(** ** Properties *)

(** C25: what the job leaves in the cluster.  Whatever order the files come in, it
    does not panic; a CRD that is not one of the program is never touched; one that
    is, is left as it was, or, when there is none, when the first version of the one
    there is not [v3], or when it carries no version that parses or an older one, is
    replaced by the one of the program: a newer CRD of [v3] is never replaced by an
    older one, whatever fails.  When the job returns no error all of them are in that state. *)
Theorem CRDRefresh_spec (RO : RangeOrder) (EC : EmbeddedCRDs) {Spec W V} (CC : CrdClient Spec W) (YC : YamlCRD Spec)
    (SV : Semver V) (RC : RestConfig) stored view (CL : CrdClientLaws CC stored view) external w :
  (∃ v, semver_NewVersion "0.0.0" = Ok v) →
  (∀ name data crd, getCRDs !! name = Some data → yaml_Unmarshal data = Ok crd → crd_Name crd = name) →
  ∃ w' err, CRDRefresh external w = Some (w', err) ∧
    (∀ name, getCRDs !! name = None → view w' !! name = view w !! name) ∧
    ∀ name data, getCRDs !! name = Some data →
      (view w' !! name = view w !! name ∨ refreshed (stored := stored) data (view w !! name) (view w' !! name)) ∧
      (err = None → refreshed (stored := stored) data (view w !! name) (view w' !! name)).
Proof. intros Hzero Hnames. by apply CRDRefresh_ok. Qed.

(** C26: the job settles: when the files of the program are of [v3] and carry a
    version that parses, a second run changes nothing, whether it fails or not. *)
Theorem CRDRefresh_settles (RO : RangeOrder) (EC : EmbeddedCRDs) {Spec W V} (CC : CrdClient Spec W)
    (YC : YamlCRD Spec) (SV : Semver V) (RC : RestConfig) stored view (CL : CrdClientLaws CC stored view)
    external w w1 w2 err :
  (∃ v, semver_NewVersion "0.0.0" = Ok v) →
  (∀ name data crd, getCRDs !! name = Some data → yaml_Unmarshal data = Ok crd →
     crd_Name crd = name ∧ well_versioned crd) →
  CRDRefresh external w = Some (w1, None) → CRDRefresh external w1 = Some (w2, err) →
  view w2 = view w1.
Proof.
  intros Hzero Hfiles H1 H2.
  assert (∀ name data crd, getCRDs !! name = Some data → yaml_Unmarshal data = Ok crd → crd_Name crd = name) as Hnames
    by (intros ? ? ? Hd Hc; by destruct (Hfiles _ _ _ Hd Hc)).
  destruct (CRDRefresh_ok Hzero Hnames external w) as (w1' & err1 & Hr1 & _ & Hall1).
  rw H1 in Hr1. injection Hr1 as <- <-.
  destruct (CRDRefresh_ok Hzero Hnames external w1) as (w2' & err2 & Hr2 & Hrest & Hall2).
  rw H2 in Hr2. injection Hr2 as <- <-.
  apply map_eq. intros name. destruct (getCRDs !! name) as [data|] eqn:Hd; [|by apply Hrest].
  destruct (Hall2 name data Hd) as [[Hsame|Hr] _]; [done|].
  destruct Hr as (crd & Hcrd & Hr). destruct (Hfiles _ _ _ Hd Hcrd) as [_ Hv].
  destruct (refreshed_up_to_date crd data _ _ Hcrd Hv (proj2 (Hall1 name data Hd) eq_refl)) as (c & Hc & Hup).
  rw Hc in Hr. rw Hc. destruct Hr as [(ex & [= <-] & _ & ->)|(Hnot & _)]; [done|]. by destruct (Hnot c eq_refl).
Qed.

(** *** Witnesses *)

(** A server that numbers what it stores; the files are their own versions. *)
#[local] Instance example_crd_client : CrdClient unit (gmap string (CRD unit)) := {|
  clientset_Get name w := match w !! name with Some c => CrdFound c | None => CrdNotFound end;
  clientset_Create crd w := (<[crd_Name crd := crd]> w, None);
  clientset_Update crd w := (<[crd_Name crd := crd]> w, None)
|}.

#[local] Instance example_crd_laws : CrdClientLaws example_crd_client (=) id.
Proof.
  split.
  - intros name w c. cbn. by destruct (w !! name); intros [= <-].
  - intros name w. cbn. by destruct (w !! name).
  - intros crd w w' err [= <- <-]. right. by exists crd.
  - intros crd w w' err [= <- <-]. right. by exists crd.
Qed.

#[local] Instance example_embedded : EmbeddedCRDs :=
  {| crds_backends := "backends.gate.v3.haproxy.org"; crds_hugConf := "hugconfs.gate.v3.haproxy.org";
     crds_hugGates := "huggates.gate.v3.haproxy.org" |}.

Definition example_crd (version name : string) : CRD unit :=
  mkCRD name {[ "gate.hug/version" := version ]} "" ["v3"] tt.

#[local] Instance example_yaml : YamlCRD unit := {| yaml_Unmarshal name := Ok (example_crd "2" name) |}.

(** Versions of one number. *)
#[local] Instance example_semver : Semver nat := {|
  semver_NewVersion s :=
    match s with "0.0.0" => Ok 0 | "1" => Ok 1 | "2" => Ok 2 | "3" => Ok 3 | _ => Err "Invalid Semantic Version" end;
  semver_GreaterThan v v' := bool_decide (v' < v)
|}.

#[local] Instance example_config : RestConfig := {| restConfig _ := None |}.
#[local] Existing Instance key_order.

(** One CRD is older, one is newer, one is missing. *)
Definition example_installed : gmap string (CRD unit) :=
  {[ "backends.gate.v3.haproxy.org" := example_crd "1" "backends.gate.v3.haproxy.org";
     "huggates.gate.v3.haproxy.org" := example_crd "3" "huggates.gate.v3.haproxy.org" ]}.

Lemma example_crd_names name data crd :
  getCRDs !! name = Some data → yaml_Unmarshal data = Ok crd → crd_Name crd = name ∧ well_versioned crd.
Proof.
  intros Hd [= <-]. split.
  - unfold getCRDs in Hd. repeat (apply lookup_insert_Some in Hd as [[<- <-]|[_ Hd]]; [done|]).
    by apply lookup_singleton_Some in Hd as [<- <-].
  - split; [done|]. split; [done|]. by exists 2.
Qed.

Lemma CRDRefresh_spec_witness :
  ∃ w, CRDRefresh true example_installed = Some (w, None) ∧
    (getVersion ∘ crd_Annotations <$> w !! "backends.gate.v3.haproxy.org") = Some ("2", true) ∧
    w !! "huggates.gate.v3.haproxy.org" = example_installed !! "huggates.gate.v3.haproxy.org" ∧
    is_Some (w !! "hugconfs.gate.v3.haproxy.org").
Proof.
  destruct (CRDRefresh_spec key_order example_embedded example_crd_client example_yaml example_semver example_config
    (=) id example_crd_laws true example_installed) as (w & err & Hrun & _ & Hall).
  - by exists 0.
  - intros name data crd Hd Hc. by destruct (example_crd_names name data crd Hd Hc).
  - assert (err = None) as ->.
    { assert (snd <$> CRDRefresh true example_installed = Some None) as H by vm_refl. rw Hrun in H. by injection H. }
    destruct (Hall "huggates.gate.v3.haproxy.org" "huggates.gate.v3.haproxy.org" ltac:(vm_refl)) as [_ Hg].
    destruct (Hg eq_refl) as (crd & [= <-] & Hr). exists w. split; [exact Hrun|]. split.
    + assert ((λ p, getVersion ∘ crd_Annotations <$> p.1 !! "backends.gate.v3.haproxy.org") <$>
        CRDRefresh true example_installed = Some (Some ("2", true))) as H by vm_refl.
      rw Hrun in H. by injection H.
    + split.
      * destruct Hr as [(ex & Hb & _ & Ha)|(Hnot & _)]; [exact (eq_trans Ha (eq_sym Hb))|].
        destruct (Hnot (example_crd "3" "huggates.gate.v3.haproxy.org") ltac:(vm_refl)).
        right. split; [vm_refl|]. split; [vm_refl|]. exists 3, 2. split_and!; vm_refl.
      * destruct (Hall "hugconfs.gate.v3.haproxy.org" "hugconfs.gate.v3.haproxy.org" ltac:(vm_refl)) as [_ Hh].
        destruct (Hh eq_refl) as (? & _ & [(ex & Hb & _)|(_ & c & Ha & _)]); [|by exists c].
        assert (id example_installed !! "hugconfs.gate.v3.haproxy.org" = None) as Hno by vm_refl.
        rw Hno in Hb. congruence.
Defined.

(** What the job leaves. *)
Definition example_refreshed : gmap string (CRD unit) :=
  {[ "backends.gate.v3.haproxy.org" := example_crd "2" "backends.gate.v3.haproxy.org";
     "huggates.gate.v3.haproxy.org" := example_crd "3" "huggates.gate.v3.haproxy.org";
     "hugconfs.gate.v3.haproxy.org" := example_crd "2" "hugconfs.gate.v3.haproxy.org" ]}.

Lemma CRDRefresh_settles_witness :
  CRDRefresh true example_installed = Some (example_refreshed, None) ∧
  ∃ err, CRDRefresh true example_refreshed = Some (example_refreshed, err).
Proof.
  assert (CRDRefresh true example_installed = Some (example_refreshed, None)) as H1 by vm_refl. split; [exact H1|].
  destruct (CRDRefresh_ok (CL := example_crd_laws) ltac:(by exists 0)
    (λ name data crd Hd Hc, proj1 (example_crd_names name data crd Hd Hc)) true example_refreshed)
    as (w2 & err & H2 & _). exists err. rw H2. f_equal. f_equal.
  exact (CRDRefresh_settles key_order example_embedded example_crd_client example_yaml example_semver
    example_config (=) id example_crd_laws true example_installed example_refreshed w2 err
    ltac:(by exists 0) example_crd_names H1 H2).
Defined.
