(* ===== verification/Storage.v ===== *)
(** * Storage: haproxy/storage/cert.go, crt-list.go and maps.go

    What the storage does beside writing the files the builders ask for
    (Certificates.v, RouteMaps.v): the directories it makes, empties and
    removes, and the lists of certificates it reads back. *)

From Stdlib Require Import Ascii.
From S2P Require Import Prelude GoStrings FileUtils Objects Utils References HaproxyConf RouteMaps Certificates Startup.

(** ** path/filepath *)

(** [filepath.Ext]: from the last dot of the last element. *)
Fixpoint filepath_Ext (path : string) : string :=
  match path with
  | EmptyString => ""
  | String c rest =>
      if has_byte "/" rest || has_byte "." rest then filepath_Ext rest
      else if bool_decide (c = "."%char) then path else ""
  end.

(** [filepath.Base]: the last element; the slashes at the end do not count. *)
Definition filepath_Base (path : string) : string :=
  if bool_decide (path = "") then "."
  else default "/" (last (filter (λ part, part ≠ "") (Split "/" path))).

Definition TrimSuffix (s suffix : string) : string :=
  if HasSuffix s suffix then String.substring 0 (String.length s - String.length suffix) s else s.

(** ** fileutils/filepath.go: [ReadLines] *)
Definition ReadLines (file : File) : result (list string) :=
  match file with
  | NoFile => Err "no such file or directory"
  | FileError err => Err err
  | Content content =>
      if existsb (λ line, Nat.leb max_line (String.length line)) (raw_lines content)
      then Err "bufio.Scanner: token too long"
      else Ok (ScanLines content)
  end.

(** ** storage/crt-list.go: the keys of a list *)
Definition removeFileExtension (filename : string) : string :=
  TrimSuffix filename (filepath_Ext filename).

Definition secretKeyFromCertificateFullPath (path : string) : result NamespacedName :=
  let withoutExt := removeFileExtension path in
  let fileName := filepath_Base withoutExt in
  match Split underscore fileName with
  | [ns; name] => Ok (NN ns name)
  | _ => Err ("invalid cert file name: " +:+ path)
  end.

(** The loop over the lines, until one is not the path of a certificate. *)
Fixpoint keys_of_lines (crtFullPaths : list string) (secretKeys : gset NamespacedName) : result (gset NamespacedName) :=
  match crtFullPaths with
  | [] => Ok secretKeys
  | crtFullPath :: crtFullPaths =>
      match secretKeyFromCertificateFullPath crtFullPath with
      | Err err => Err err
      | Ok secretKey => keys_of_lines crtFullPaths ({[ secretKey ]} ∪ secretKeys)
      end
  end.

(** The set of keys the function builds, and drops. *)
Definition updated_keys (file : File) (newSecretKeys removedSecretKeys : gset NamespacedName) :
    result (gset NamespacedName) :=
  match ReadLines file with
  | Err err => Err err
  | Ok crtFullPaths =>
      match keys_of_lines crtFullPaths ∅ with
      | Err err => Err err
      | Ok secretKeys => Ok ((secretKeys ∪ newSecretKeys) ∖ removedSecretKeys)
      end
  end.

Section crt_list.
Context {CE : CertEnv}.

(** The disk, and the error that is returned. *)
Definition UpdateCrtListOnDisk (listenerKey : NamespacedName) (newSecretKeys removedSecretKeys : gset NamespacedName)
    (d : gmap string string) : gmap string string * option string :=
  if bool_decide (size newSecretKeys = 0) && bool_decide (size removedSecretKeys = 0) then (d, None)
  else
    let file := match d !! FullPath (CertListPath listenerKey) with Some text => Content text | None => NoFile end in
    match updated_keys file newSecretKeys removedSecretKeys with
    | Err err => (d, Some err)
    | Ok _ => (d, None)
    end.
End crt_list.

(** ** The directories *)

(** [os.ReadDir]: the names, and whether each is a directory. *)
Class Directories (W : Type) := {
  os_ReadDir : string → W → result (list (string * bool));
  os_RemoveAll : string → W → W * option string;
  os_Remove : string → W → W * option string
}.

Section directories.
Context {W : Type} {FS : FileSystem W} {DS : Directories W}.
Implicit Types (w : W).

(** The errors are logged. *)
Definition ensureDirectoryExists (path : string) w : W :=
  match fs_Stat path w with NotExist => (os_MkdirAll path w).1 | _ => w end.

Definition empty_dir (path : string) w : W :=
  match os_RemoveAll path w with
  | (w, Some _) => w
  | (w, None) => (os_MkdirAll path w).1
  end.

Definition deleteIfEmpty (dirPath : string) w : W :=
  match os_ReadDir dirPath w with
  | Err _ => w
  | Ok entries => if bool_decide (length entries = 0) then (os_Remove dirPath w).1 else w
  end.

(** [DeleteEmptyCertsDir] and [DeleteEmptyMapsDir], of the base directory of each. *)
Fixpoint delete_empty (BaseDir : string) (entries : list (string * bool)) w : W * option string :=
  match entries with
  | [] => (w, None)
  | (name, IsDir) :: entries =>
      if negb IsDir then delete_empty BaseDir entries w
      else
        let subdirPath := filepath_Join BaseDir name in
        match os_ReadDir subdirPath w with
        | Err err => (w, Some err)
        | Ok subEntries =>
            if bool_decide (length subEntries = 0) then
              match os_RemoveAll subdirPath w with
              | (w, Some err) => (w, Some err)
              | (w, None) => delete_empty BaseDir entries w
              end
            else delete_empty BaseDir entries w
        end
  end.

Definition DeleteEmptyDirs (BaseDir : string) w : W * option string :=
  match os_ReadDir BaseDir w with
  | Err err => (w, Some err)
  | Ok entries => delete_empty BaseDir entries w
  end.

(** [NewCertificateStorage] empties both directories; [NewMapsStorage] keeps the
    files, which are read back. *)
Definition NewCertificateStorage (structureType certsBaseDir certFileBaseDir : string) w : W * result CertEnv :=
  if bool_decide (structureType = StructureTypeDefault) then
    let w := empty_dir certsBaseDir w in
    let w := empty_dir certFileBaseDir w in
    (w, Ok {| CertsBaseDir := certsBaseDir; CertFilesBaseDir := certFileBaseDir |})
  else (w, Err ("unknown structure type: " +:+ structureType)).

Definition NewMapsStorage (structureType mapsBaseDir : string) w : W * result string :=
  if bool_decide (mapsBaseDir = "") then (w, Err "maps directory is not set")
  else if bool_decide (structureType = StructureTypeDefault) then (w, Ok mapsBaseDir)
  else (w, Err ("unknown structure type: " +:+ structureType)).
End directories.

(** ** The names, read back *)
Lemma Ext_app p ext : has_byte "/" ext = false → has_byte "." ext = false →
  filepath_Ext (p +:+ String "." ext) = String "." ext.
Proof.
  intros Hs Hd. induction p as [|c p IH].
  - rw string_app_nil. cbn. by rw Hs Hd.
  - rw string_app_cons. cbn [filepath_Ext].
    assert (has_byte "." (p +:+ String "." ext) = true) as ->.
    { rw has_byte_app. apply orb_true_iff. by right. }
    by rw orb_true_r.
Qed.

Lemma substring_all s n : n = String.length s → String.substring 0 n s = s.
Proof. intros ->. induction s as [|c s IH]; [done|]. cbn. by rw IH. Qed.

Lemma substring_app a b n : n = String.length a → String.substring 0 n (a +:+ b) = a.
Proof.
  intros ->. induction a as [|c a IH]; [by destruct b|]. rw string_app_cons. cbn. by rw IH.
Qed.

Lemma removeFileExtension_app p ext : has_byte "/" ext = false → has_byte "." ext = false →
  removeFileExtension (p +:+ String "." ext) = p.
Proof.
  intros Hs Hd. unfold removeFileExtension, TrimSuffix. rw Ext_app //.
  rw (proj2 (HasSuffix_spec _ _)); [by exists p|]. apply substring_app. rw string_length_app. lia.
Qed.

Lemma Base_last path f : last (Split "/" path) = Some f → f ≠ "" → filepath_Base path = f.
Proof.
  intros Hl Hf. unfold filepath_Base. rw bool_decide_eq_false_2.
  { intros ->. cbn in Hl. injection Hl as <-. done. }
  apply last_Some in Hl as [parts ->]. rw filter_app last_app filter_cons_True //.
Qed.

(** A key whose name has no underscore: a name the API accepts. *)
Definition plain_key_ok `{CertEnv} (k : NamespacedName) : Prop := secret_key_ok k ∧ has_byte underscore (Name k) = false.

Section keys.
Context {RO : RangeOrder} {CE : CertEnv}.
Implicit Types (k : NamespacedName).

Lemma secretKey_of_file k :
  plain_key_ok k → secretKeyFromCertificateFullPath (FullPath (cert_file k)) = Ok k.
Proof.
  intros [Hk Hu]. pose proof (last_FullPath (cert_file k) (cert_file_plain k Hk)) as Hl.
  destruct Hk as [(Hns & Hus & Hn) Hlen]. set (base := Namespace k +:+ "_" +:+ Name k).
  assert (FileName (cert_file k) = base +:+ ".pem") as Hf.
  { cbn. unfold cert_file_name, base. by rw !string_app_assoc. }
  rw Hf in Hl. unfold secretKeyFromCertificateFullPath.
  assert (∃ p, FullPath (cert_file k) = p +:+ ".pem" ∧ last (Split "/" p) = Some base) as (p & -> & Hp).
  { assert (has_byte "/" base = false) as Hb by (unfold base; by rw !has_byte_app Hns Hn).
    apply last_Some in Hl as [parts Hparts]. pose proof (Join_Split "/" (FullPath (cert_file k))) as Hj.
    rw Hparts Join_snoc in Hj. rw -Hj. destruct parts as [|part parts].
    - exists base. split; [done|]. by rw Split_no_sep.
    - exists (Join (part :: parts) "/" +:+ "/" +:+ base). split; [by rw !string_app_assoc|].
      change ("/" +:+ base) with (String "/" base). rw Split_app_sep (Split_no_sep "/" base) // last_snoc //. }
  change ".pem" with (String "." "pem"). rw removeFileExtension_app //.
  rw (Base_last p base Hp).
  { unfold base. destruct (Namespace k); done. }
  unfold base. change ("_" +:+ Name k) with (String underscore (Name k)). rw Split_app // Split_no_sep //.
  by destruct k.
Qed.

Lemma keys_of_paths ks acc :
  Forall plain_key_ok ks →
  keys_of_lines ((λ k, FullPath (cert_file k)) <$> ks) acc = Ok (list_to_set ks ∪ acc).
Proof.
  intros Hks. revert acc. induction Hks as [|k ks Hk _ IH]; intros acc; cbn [fmap list_fmap keys_of_lines].
  - f_equal. set_solver.
  - rw secretKey_of_file // IH. f_equal. cbn. set_solver.
Qed.

(** The lines of a list. *)
Definition line_ok (line : string) : Prop :=
  has_byte newline line = false ∧ (String.length line < max_line)%nat.

Lemma crt_list_text_of content : crt_list_text content = text_of (SortStrings content).
Proof.
  unfold crt_list_text. generalize (SortStrings content) as l. intros l.
  enough (∀ acc, foldl (λ text line, text +:+ line +:+ String newline "") acc l = acc +:+ text_of l) as H by by rw H.
  induction l as [|line l IH]; intros acc; [by rw string_app_nil_r|].
  cbn [foldl]. rw IH. cbn [text_of foldr]. by rw !string_app_assoc.
Qed.

Lemma cert_path_no_cr k : drop_cr (FullPath (cert_file k)) = FullPath (cert_file k) ∨ ¬ plain_key_ok k.
Proof.
  destruct (decide (last (Split "/" (FullPath (cert_file k))) = Some (FileName (cert_file k)))) as [Hl|Hl];
    [left|right; intros [Hk _]; by apply Hl, last_FullPath, cert_file_plain].
  apply last_Some in Hl as [parts Hparts]. pose proof (Join_Split "/" (FullPath (cert_file k))) as Hj.
  rw Hparts Join_snoc in Hj. rw -Hj.
  replace (FileName (cert_file k)) with ((Namespace k +:+ "_" +:+ Name k) +:+ ".pem")
    by (cbn; unfold cert_file_name; by rw !string_app_assoc).
  destruct parts; rw -?string_app_assoc drop_cr_app //.
Qed.

Lemma read_list X :
  (∀ k, k ∈ X → plain_key_ok k ∧ line_ok (FullPath (cert_file k))) →
  ∃ ks, ks ≡ₚ elements X ∧ ReadLines (Content (list_text X)) = Ok ((λ k, FullPath (cert_file k)) <$> ks).
Proof.
  intros HX. unfold list_text. rw crt_list_text_of.
  assert (SortStrings (list_content X) ≡ₚ (λ k, FullPath (cert_file k)) <$> elements X) as Hp.
  { unfold list_content. unfold SortStrings. by rw !merge_sort_Permutation. }
  apply Permutation_map_inv in Hp as (ks & Hks & Hperm). rw Hks. exists ks. split; [done|].
  assert (Forall (λ k, plain_key_ok k ∧ line_ok (FullPath (cert_file k))) ks) as Hall.
  { apply Forall_forall. intros k Hk. apply HX, elem_of_elements. by rw Hperm. }
  unfold ReadLines, ScanLines. rw raw_lines_text.
  { apply Forall_fmap. eapply Forall_impl; [exact Hall|]. by intros k [_ [H _]]. }
  destruct (existsb _ _) eqn:He.
  { exfalso. apply existsb_exists_elem in He as (line & (k & -> & Hk)%list_elem_of_fmap & Hlen%Nat.leb_le).
    rw Forall_forall in Hall. destruct (Hall k Hk) as [_ [_ ?]]. lia. }
  f_equal. clear Hks Hperm He. induction Hall as [|k ks [Hk _] _ IH]; [done|]. cbn. f_equal; [|exact IH].
  by destruct (cert_path_no_cr k).
Qed.
End keys.

Lemma NoDup_fst_inj {A} (l : list (string * A)) x y : NoDup l.*1 → x ∈ l → y ∈ l → x.1 = y.1 → x = y.
Proof.
  destruct x as [k a], y as [k' b]. cbn. intros Hl Hx Hy <-. f_equal.
  pose proof (elem_of_list_to_map_1 (M := gmap string) l k a Hl Hx) as H1.
  pose proof (elem_of_list_to_map_1 (M := gmap string) l k b Hl Hy) as H2. congruence.
Qed.

(** ** What the operations on directories do

    A directory is known by its entries.  Removing one that is empty takes its
    entry from the parent and touches no file and no directory beside it. *)
Class DirectoriesLaws {W} (DS : Directories W) (content : W → string → option string) := {
  RemoveAll_empty path w p : os_ReadDir path w = Ok [] → content (os_RemoveAll path w).1 p = content w p;
  RemoveAll_parent base e w w' entries :
    os_ReadDir base w = Ok entries → e ∈ entries →
    os_RemoveAll (filepath_Join base e.1) w = (w', None) →
    os_ReadDir base w' = Ok (filter (λ e', e'.1 ≠ e.1) entries);
  RemoveAll_sibling base e e' w entries :
    os_ReadDir base w = Ok entries → e ∈ entries → e' ∈ entries → e'.1 ≠ e.1 →
    os_ReadDir (filepath_Join base e.1) w = Ok [] →
    os_ReadDir (filepath_Join base e'.1) (os_RemoveAll (filepath_Join base e.1) w).1 =
      os_ReadDir (filepath_Join base e'.1) w
}.

Section empty_dirs.
Context {W : Type} {FS : FileSystem W} {DS : Directories W} (content : W → string → option string).
Context {DL : DirectoriesLaws DS content}.
#[local] Arguments filepath_Join : simpl never.
Implicit Types (w : W) (entries : list (string * bool)).

(** The directory has something in it. *)
Definition holds_something base w (name : string) : Prop :=
  ∃ sub, os_ReadDir (filepath_Join base name) w = Ok sub ∧ sub ≠ [].

Lemma delete_empty_content base entries w p : content (delete_empty base entries w).1 p = content w p.
Proof using DL.
  revert w. induction entries as [|[name [|]] entries IH]; intros w; cbn; [done| |apply IH].
  destruct (os_ReadDir (filepath_Join base name) w) as [sub|] eqn:Hs; [|done].
  destruct sub as [|e sub]; cbn; [|apply IH]. pose proof (RemoveAll_empty _ _ p Hs) as Hp.
  destruct (os_RemoveAll (filepath_Join base name) w) as [w' [err|]]; cbn in *; [done|]. by rw IH.
Qed.

(** What the loop makes of the entries [all] of the base, once it has gone through
    [todo]: the directories of [todo] that held nothing are gone, and the others are
    as they were. *)
Definition pruned base (todo all : list (string * bool)) w w' : Prop :=
  ∃ rest, os_ReadDir base w' = Ok rest ∧
    (∀ e, e ∈ rest ↔ e ∈ all ∧ (e ∈ todo → e.2 = true → holds_something base w e.1)) ∧
    (∀ e, e ∈ rest → os_ReadDir (filepath_Join base e.1) w' = os_ReadDir (filepath_Join base e.1) w).

Lemma pruned_skip base e todo all w w' :
  (e.2 = true → holds_something base w e.1) → pruned base todo all w w' → pruned base (e :: todo) all w w'.
Proof using Type.
  intros He (rest & Hr & Hiff & Hsame). exists rest. split_and!; [done| |done].
  intros e'. rw Hiff elem_of_cons. split; [intros [? H]; split; [done|]|intros [? H]; split; [done|]; auto].
  intros [->|?]; [done|by apply H].
Qed.

Lemma pruned_removed base name todo all w w1 w' :
  NoDup all.*1 → os_ReadDir base w = Ok all → (name, true) ∈ all → os_ReadDir (filepath_Join base name) w = Ok [] →
  os_RemoveAll (filepath_Join base name) w = (w1, None) →
  pruned base todo (filter (λ e, e.1 ≠ name) all) w1 w' → pruned base ((name, true) :: todo) all w w'.
Proof using DL.
  intros Hall Hread Hname Hs Hrm (rest & Hr & Hiff & Hsame).
  assert (∀ e, e ∈ all → e.1 ≠ name →
    os_ReadDir (filepath_Join base e.1) w1 = os_ReadDir (filepath_Join base e.1) w) as Hsib.
  { intros e He Hne. pose proof (RemoveAll_sibling base (name, true) e w all Hread Hname He Hne Hs) as H.
    cbn [fst] in H. by rw Hrm in H. }
  exists rest. split_and!; [done| |].
  - intros e. rw Hiff list_elem_of_filter elem_of_cons. split.
    + intros [[Hne He] H]. split; [done|]. intros [->|Ht] Hd; [done|].
      unfold holds_something. rw -(Hsib e He Hne). by apply H.
    + intros [He H]. destruct (decide (e.1 = name)) as [Heq|Hne].
      * assert (e = (name, true)) as -> by (eapply NoDup_fst_inj; [exact Hall|done..]).
        destruct (H (or_introl eq_refl) eq_refl) as (sub & Hsub & ?). cbn [fst] in Hsub. congruence.
      * split; [done|]. intros Ht Hd. unfold holds_something. rw (Hsib e He Hne). apply H; [by right|done].
  - intros e He. rw (Hsame e He). apply Hiff in He as [[? ?]%list_elem_of_filter _]. by apply Hsib.
Qed.

Lemma delete_empty_ok base todo all w w' :
  NoDup all.*1 → os_ReadDir base w = Ok all → NoDup todo.*1 → (∀ e, e ∈ todo → e ∈ all) →
  delete_empty base todo w = (w', None) → pruned base todo all w w'.
Proof using DL.
  revert all w. induction todo as [|[name isdir] todo IH]; intros all w Hall Hread Hnd Hsub Hrun.
  { injection Hrun as <-. exists all. split_and!; [done| |done]. intros e. rw elem_of_nil. naive_solver. }
  cbn [fmap list_fmap fst] in Hnd. apply NoDup_cons in Hnd as [Hnot Hnd].
  cbn [delete_empty] in Hrun. destruct isdir; cbn [negb] in Hrun.
  2:{ apply pruned_skip; [done|]. apply IH; [done..| |done]. intros e He. apply Hsub. by right. }
  destruct (os_ReadDir (filepath_Join base name) w) as [sub|] eqn:Hs; [|done]. destruct sub as [|x sub].
  - rw bool_decide_eq_true_2 // in Hrun.
    destruct (os_RemoveAll (filepath_Join base name) w) as [w1 [err|]] eqn:Hrm; [done|].
    eapply pruned_removed; [done|done|apply Hsub; by left|done|done|].
    apply IH; [| |done| |done].
    + eapply sublist_NoDup; [exact Hall|]. apply fmap_sublist, sublist_filter.
    + apply (RemoveAll_parent base (name, true) w w1); [done|apply Hsub; by left|done].
    + intros e He. apply list_elem_of_filter. split; [|apply Hsub; by right].
      intros <-. by apply Hnot, (list_elem_of_fmap_2 fst _ e).
  - rw bool_decide_eq_false_2 // in Hrun. apply pruned_skip; [by exists (x :: sub)|].
    apply IH; [done..| |done]. intros e He. apply Hsub. by right.
Qed.
End empty_dirs.

(** ** Properties *)

(** A list of certificates can be read back: of the list written for a set of
    secrets, the names of its lines give the set again, whatever the order of the
    map, and with it the keys that are added and taken out.  But the function that
    is meant to update the list on the disk stops there: it writes nothing. *)
Theorem crt_list_roundtrip (RO : RangeOrder) (CE : CertEnv) l X crt d newSecretKeys removedSecretKeys :
  (∀ k, k ∈ X → plain_key_ok k ∧ line_ok (FullPath (cert_file k))) →
  NewCrtListData l X = Some crt →
  let d1 := WriteCrtListOnDisk (λ _, true) crt d in
  (∃ text, d1 !! FullPath (CertListPath l) = Some text ∧
    updated_keys (Content text) newSecretKeys removedSecretKeys = Ok ((X ∪ newSecretKeys) ∖ removedSecretKeys)) ∧
  UpdateCrtListOnDisk l newSecretKeys removedSecretKeys d1 = (d1, None).
Proof.
  intros HX Hcrt. rw NewCrtListData_spec in Hcrt; [by intros k Hk; destruct (HX k Hk) as [[? _] _]|].
  injection Hcrt as <-. cbn zeta. unfold WriteCrtListOnDisk, write_file. cbn.
  assert (updated_keys (Content (list_text X)) newSecretKeys removedSecretKeys =
    Ok ((X ∪ newSecretKeys) ∖ removedSecretKeys)) as Hread.
  { destruct (read_list X HX) as (ks & Hks & Hlines). unfold updated_keys. rw Hlines keys_of_paths.
    - apply Forall_forall. intros k Hk. apply HX, elem_of_elements. by rw -Hks.
    - assert (list_to_set ks ∪ ∅ = X) as ->; [|done]. apply set_eq. intros k.
      rw elem_of_union elem_of_list_to_set Hks elem_of_elements. split; [intros [?|?%elem_of_empty]; done|by left]. }
  split.
  - exists (list_text X). split; [apply lookup_insert_eq|exact Hread].
  - unfold UpdateCrtListOnDisk. destruct (_ && _); [done|]. rw lookup_insert_eq.
    change (crt_list_text (list_content X)) with (list_text X). by rw Hread.
Qed.

(** The clean-up of the directories.  It removes no file; and when it returns no
    error, the entries that are left of the base are those it had but for the
    directories that were empty, with what they had. *)
Theorem DeleteEmptyDirs_spec {W} (DS : Directories W) content (DL : DirectoriesLaws DS content) BaseDir (w : W) :
  (∀ p, content (DeleteEmptyDirs BaseDir w).1 p = content w p) ∧
  ∀ w' all, DeleteEmptyDirs BaseDir w = (w', None) → os_ReadDir BaseDir w = Ok all → NoDup all.*1 →
    ∃ rest, os_ReadDir BaseDir w' = Ok rest ∧
      (∀ e, e ∈ rest ↔ e ∈ all ∧ (e.2 = true → holds_something BaseDir w e.1)) ∧
      (∀ e, e ∈ rest → e.2 = true → holds_something BaseDir w' e.1).
Proof.
  split.
  - intros p. unfold DeleteEmptyDirs. destruct (os_ReadDir BaseDir w); [|done]. apply (delete_empty_content content).
  - intros w' all Hrun Hread Hnd. unfold DeleteEmptyDirs in Hrun. rw Hread in Hrun.
    destruct (delete_empty_ok content BaseDir all all w w' Hnd Hread Hnd (λ e He, He) Hrun) as (rest & Hr & Hiff & Hsame).
    exists rest. split_and!; [done| |].
    + intros e. rw Hiff. split; [intros [He H]; split; [done|by apply H]|intros [He H]; split; [done|by intros _]].
    + intros e He Hd. unfold holds_something. rw (Hsame e He). apply Hiff in He as [He H]. by apply H.
Qed.

(** *** Witnesses *)
#[local] Existing Instances key_order example_cert_env.

Definition example_secret_key : NamespacedName := NN "ns" "tls".

Lemma crt_list_roundtrip_witness :
  ∃ crt text, NewCrtListData (NN "ns" "gw") {[ example_secret_key ]} = Some crt ∧
    WriteCrtListOnDisk (λ _, true) crt ∅ !! FullPath (CertListPath (NN "ns" "gw")) = Some text ∧
    updated_keys (Content text) {[ NN "ns" "other" ]} ∅ = Ok {[ example_secret_key; NN "ns" "other" ]}.
Proof.
  destruct (NewCrtListData (NN "ns" "gw") {[ example_secret_key ]}) as [crt|] eqn:Hcrt; [|by vm_compute in Hcrt].
  destruct (crt_list_roundtrip key_order example_cert_env (NN "ns" "gw") {[ example_secret_key ]} crt ∅
    {[ NN "ns" "other" ]} ∅) as [(text & Htext & Hread) _].
  - intros k ->%elem_of_singleton. split; [split; [split; [split_and!; vm_refl|]|vm_refl]|split; [vm_refl|]].
    + cbn. lia.
    + apply Nat.ltb_lt. vm_refl.
  - exact Hcrt.
  - exists crt, text. split; [done|]. split; [exact Htext|]. rw Hread. f_equal.
Defined.

(** Two directories, one of which is empty until it is removed. *)
#[local] Instance example_directories : Directories bool := {|
  os_ReadDir path w :=
    if bool_decide (path = "/certs") then Ok (("ns", true) :: if w : bool then [("old", true)] else [])
    else if bool_decide (path = "/certs/ns") then Ok [("ns_tls.pem", false)]
    else if bool_decide (path = "/certs/old") && w then Ok []
    else Err "no such file or directory";
  os_RemoveAll path w := if bool_decide (path = "/certs/old") then (false, None) else (w, Some "not permitted");
  os_Remove path w := (w, Some "not permitted")
|}.

#[local] Instance example_directories_laws :
  DirectoriesLaws example_directories (λ _ path, if bool_decide (path = "/certs/ns/ns_tls.pem") then Some "k" else None).
Proof.
  assert (∀ path w entries, os_ReadDir path w = Ok entries → path = "/certs" ∨ path = "/certs/ns" ∨ entries = []) as Hcases.
  { intros path w entries. cbn. do 2 (case_bool_decide; [auto|]).
    destruct (_ && _); intros [= <-]; auto. }
  split.
  - done.
  - intros base e w w' entries Hread He. destruct (Hcases _ _ _ Hread) as [->|[->| ->]]; [..|by apply elem_of_nil in He].
    + destruct w; injection Hread as <-; repeat (apply elem_of_cons in He as [->|He]);
        try (by apply elem_of_nil in He); vm_compute; by intros [= <-].
    + injection Hread as <-. apply list_elem_of_singleton in He as ->. by vm_compute.
  - intros base e e' w entries Hread He He' Hne. destruct (Hcases _ _ _ Hread) as [->|[->| ->]]; [..|by apply elem_of_nil in He].
    + destruct w; injection Hread as <-; repeat (apply elem_of_cons in He as [->|He]);
        repeat (apply elem_of_cons in He' as [->|He']); try (by apply elem_of_nil in He); try (by apply elem_of_nil in He');
        by vm_compute.
    + injection Hread as <-. apply list_elem_of_singleton in He as ->. by apply list_elem_of_singleton in He' as ->.
Qed.

Lemma DeleteEmptyDirs_spec_witness :
  DeleteEmptyDirs "/certs" true = (false, None) ∧
  ∃ rest, os_ReadDir "/certs" false = Ok rest ∧ ∀ e, e ∈ rest → e.2 = true → holds_something "/certs" false e.1.
Proof.
  split; [vm_refl|].
  destruct (DeleteEmptyDirs_spec example_directories _ example_directories_laws "/certs" true) as [_ Hspec].
  destruct (Hspec false [("ns", true); ("old", true)] ltac:(vm_refl) ltac:(vm_refl)) as (rest & Hr & _ & Hholds).
  - apply (bool_decide_eq_true_1 _). vm_refl.
  - by exists rest.
Defined.
