(* ===== verification/Assembly.v ===== *)
(** * Assembly: controller.go, [Add]

    The parts put together at start: the configuration is checked, the controllers
    are registered, the storage is made, and the handler and the loop with it.
    What [New] makes of the flags and of the file of HAProxy is something [Add]
    accepts, and the handler it makes is ready for the first batch. *)

From S2P Require Import Prelude GoStrings FileUtils Templates Objects Utils Conditions EventLoop.
From S2P Require Import Store References TreeCore InstalledVersions GatewayClass Listener Gateway Route HaproxyConf Backends.
From S2P Require Import RouteMaps Certificates Servers Frontends CertRuntime RouteFill ConfMgr Logging.
From S2P Require Import Status GateTree Handler Sources Process Startup Storage.

(** ** haproxyconf_mgr.go: the configuration at start

    The maps of the initial configuration hold a pointer for each section. *)
Definition sections_at {M} (m : gmap string M) : Sections M :=
  let l := map_to_list m in
  mkSections (map_seq 0 l.*2) (list_to_map (zip l.*1 (seq 0 (length l)))) ∅ ∅ ∅.

Section add.
Context {RP : RuntimePredicates} {Extra : Type} {W : Type} {FS : FileSystem W} {DS : Directories W}.
Implicit Types (w : W) (o : Startup.Configuration (Structured (Extra := Extra))).

(** What [Add] hands to the manager of controller-runtime. *)
Record Assembled := mkAssembled {
  as_certificateStorage : CertEnv;
  as_mapsBaseDir : string;
  as_gateTreeConfig : TreeConfig;
  as_haproxyCfgMgrParams : HaproxyConfMgrParams;
  as_haproxyConfMgr : HaproxyConfMgrImpl Extra;
  as_loopCfg : EventLoopConfig
}.

Definition sources_config o : SourcesConfig :=
  mkSourcesConfig (Startup.ControllerName o) (Startup.Namespaces o) (HugConfCRD o).

(** [handler.GateTreeConfig]; [libs] has the libraries the builders call. *)
Definition gateTreeConfig (libs : TreeConfig) o : TreeConfig := {|
  tc_extractGVK := tc_extractGVK libs;
  tc_ControllerName := Startup.ControllerName o;
  tc_ControllerConfNsName := HugConfCRD o;
  tc_StoreCertificateOnDisk := hp_StoreCertificateOnDisk (HaproxyParams o);
  tc_disk_ok := tc_disk_ok libs;
  tc_MergeWithOverwrite := tc_MergeWithOverwrite libs;
  tc_Constraint := tc_Constraint libs;
  tc_Version := tc_Version libs;
  tc_NewConstraint := tc_NewConstraint libs;
  tc_NewVersion := tc_NewVersion libs;
  tc_Check := tc_Check libs
|}.

(** The part of [NewEventHandlerImpl] that is not empty maps. *)
Definition initial_mgr (initialStructuredConf : Structured (Extra := Extra)) : HaproxyConfMgrImpl Extra :=
  NewHaproxyConfMgr (sections_at (ff_Model <$> st_Frontends initialStructuredConf))
    (sections_at (st_Backends initialStructuredConf)) ∅.

(** The environment of the names and of the maps [Add] gives the handler, with the
    files on disk and [html/template]. *)
Definition maps_env o (a : Assembled) (disk : string → File)
    (other : string → (string → option string) → result string) : MapsEnv := {|
  MapsBaseDir := as_mapsBaseDir a;
  disk := disk;
  FrontendNameTemplate := hp_FrontendNameTemplate (HaproxyParams o);
  me_LinkID := hp_LinkID (HaproxyParams o);
  other_template := other
|}.

Definition zero_structured : Structured (Extra := Extra) := mkStructured ∅ ∅.

(** [mgr_Add] is what the manager answers for the loop. *)
Definition Add (libs : TreeConfig) o (mgr : Manager) (mgr_Add : option string) w :
    W * list Registration * result Assembled :=
  match Configuration_Check o with
  | Some err => (w, [], Err ("invalid controller configuration: " +:+ err))
  | None =>
      match registerControllers mgr (sources_config o) with
      | (registered, Some err) => (w, registered, Err ("cannot register controllers: " +:+ err))
      | (registered, None) =>
          let params := HaproxyParams o in
          let dirs := hp_HaproxyDirs params in
          match NewCertificateStorage (hp_StoreCertificateStructureType params) (CertsDir dirs) (CertListDir dirs) w with
          | (w, Err err) => (w, registered, Err err)
          | (w, Ok certificateStorage) =>
              match NewMapsStorage (hp_StoreMapsStructureType params) (MapsDir dirs) w with
              | (w, Err err) => (w, registered, Err err)
              | (w, Ok mapsBaseDir) =>
                  match mgr_Add with
                  | Some err => (w, registered, Err ("cannot register event loop: " +:+ err))
                  | None =>
                      (w, registered, Ok (mkAssembled certificateStorage mapsBaseDir (gateTreeConfig libs o)
                        (ConfMgr.mkParams (hp_RuntimeUpdateHaproxy params) (hp_StoreMapsOnDisk params))
                        (initial_mgr (default zero_structured (InitialStructuredHaproxyConf o)))
                        {| EventLoop.SyncPeriod := Startup.SyncPeriod o;
                           EventLoop.StartupSyncPeriod := Startup.StartupSyncPeriod o |}))
                  end
              end
          end
      end
  end.
End add.

(** ** manager.go *)
Record ManagerOptions := mkManagerOptions {
  BindAddress : string;
  SecureServing : bool;
  LeaderElection : bool;
  LeaderElectionNamespace : string;
  LeaderElectionID : string;
  CacheSyncPeriod : option Z
}.

Definition getMetricsOptions (cfg : MetricsConfig) : string * bool :=
  if mc_Enabled cfg then (":" +:+ pretty (mc_Port cfg), mc_Secure cfg) else ("0", false).

Definition manager_options {T} (o : Startup.Configuration T) : ManagerOptions :=
  let '(address, secure) := getMetricsOptions (cfg_MetricsConfig o) in
  mkManagerOptions address secure (le_Enabled (cfg_LeaderElectionConfig o))
    (pod_Namespace (cfg_ControllerPodConfig o)) (LockName (cfg_LeaderElectionConfig o))
    (if bool_decide (CacheResyncPeriod o = 0%Z) then None else Some (CacheResyncPeriod o)).

(** controller-runtime: the configuration of the client, the manager that is made
    with it and its timeout, and what it answers. *)
Class ControllerRuntime (R M : Type) := {
  ctlr_GetConfig : result R;
  RESTConfigFromKubeConfig : string → result R;
  manager_New : R → Z → ManagerOptions → result M;
  manager_registers : M → Manager;
  manager_Add : M → option string;
  manager_Start : M → option string
}.

Definition createManager {R M T} {CR : ControllerRuntime R M} (o : Startup.Configuration T) : result M :=
  let clusterCfg := if negb (bool_decide (Kubeconfig o = "")) then RESTConfigFromKubeConfig (Kubeconfig o) else ctlr_GetConfig in
  match clusterCfg with
  | Err err => Err err
  | Ok clusterCfg => manager_New clusterCfg (10 * Second)%Z (manager_options o)
  end.

(** [Controller.Run]: the error it returns, once the manager has stopped. *)
Definition Controller_Run `{RuntimePredicates} {Extra W R M} {FS : FileSystem W} {DS : Directories W}
    {CR : ControllerRuntime R M} (libs : TreeConfig) (o : Startup.Configuration (Structured (Extra := Extra))) (w : W) :
    W * option string :=
  match createManager o with
  | Err err => (w, Some ("cannot build runtime manager: " +:+ err))
  | Ok mgr =>
      match Add libs o (manager_registers mgr) (manager_Add mgr) w with
      | (w, _, Err err) => (w, Some err)
      | (w, _, Ok _) =>
          match manager_Start mgr with
          | Some err => (w, Some ("cannot start runtime manager: " +:+ err))
          | None => (w, None)
          end
      end
  end.

(** ** The configuration at start *)
Section sections_at.
Context {M : Type} (name : M → string).
Implicit Types (m : gmap string M).

Lemma sections_at_cur m k loc : cur (sections_at m) !! k = Some loc ↔ (map_to_list m).*1 !! loc = Some k.
Proof using Type.
  unfold sections_at. cbn [cur]. rw -elem_of_list_to_map.
  - rw fst_zip; [rw length_fmap length_seq //|]. apply NoDup_fst_map_to_list.
  - rw list_elem_of_lookup. setoid_rewrite lookup_zip_Some. setoid_rewrite lookup_seq. split.
    + by intros (i & Hk & -> & _).
    + intros Hk. exists loc. split; [done|]. split; [done|].
      apply lookup_lt_Some in Hk. by rw length_fmap in Hk.
Qed.

Lemma sections_at_obj m k loc b :
  (map_to_list m).*1 !! loc = Some k → objs (sections_at m) !! loc = Some b ↔ m !! k = Some b.
Proof using Type.
  intros Hk. unfold sections_at. cbn [objs]. rw lookup_map_seq_0 list_lookup_fmap.
  rw list_lookup_fmap in Hk. destruct (map_to_list m !! loc) as [[k' b']|] eqn:Hl; [|done].
  injection Hk as ->. apply list_elem_of_lookup_2, elem_of_map_to_list in Hl. cbn. rw Hl. done.
Qed.

Lemma sections_at_view m : view (sections_at m) (cur (sections_at m)) = m.
Proof using Type.
  apply map_eq. intros k. apply option_eq. intros b. rw lookup_view bind_Some. split.
  - intros (loc & Hloc%sections_at_cur & Hb). by apply (sections_at_obj m k loc).
  - intros Hb. assert (k ∈ (map_to_list m).*1) as [loc Hloc]%list_elem_of_lookup.
    { apply list_elem_of_fmap. exists (k, b). split; [done|]. by apply elem_of_map_to_list. }
    exists loc. split; [by apply sections_at_cur|]. by apply (sections_at_obj m k loc).
Qed.

Lemma sections_at_wf m : map_Forall (λ k b, name b = k) m → wf_sections name (sections_at m).
Proof using Type.
  intros Hm. split; intros k loc Hk; [|exfalso; cbn in Hk; by rw lookup_empty in Hk..].
  apply sections_at_cur in Hk. pose proof (sections_at_view m) as Hv.
  apply (f_equal (lookup k)) in Hv. rw lookup_view (proj2 (sections_at_cur m k loc) Hk) in Hv.
  change (objs (sections_at m) !! loc = m !! k) in Hv.
  destruct (objs (sections_at m) !! loc) as [b|] eqn:Hb.
  - exists b. split; [done|]. by apply Hm.
  - exfalso. assert (k ∈ (map_to_list m).*1) as ([k' b] & -> & Hin%elem_of_map_to_list)%list_elem_of_fmap
      by (by eapply list_elem_of_lookup_2). cbn [fst] in Hv. congruence.
Qed.
End sections_at.

(** The sections read from the file are under their names. *)
Lemma fold_keyed {M} (name : M → string) (managed : M → bool) (l : list M) (m : gmap string M) :
  map_Forall (λ k x, name x = k) m →
  map_Forall (λ k x, name x = k) (foldl (λ m x, if managed x then <[name x := x]> m else m) m l).
Proof.
  revert m. induction l as [|x l IH]; intros m Hm; [done|]. cbn. apply IH. destruct (managed x); [|done].
  by apply map_Forall_insert_2.
Qed.

Lemma structured_keyed {Extra} frontends (backends : list (BackendModel ServerModel (BackendBase Extra))) :
  map_Forall (λ k fe, fe_Name fe = k) (ff_Model <$> structured_frontends frontends) ∧
  map_Forall (λ k be, be_Name be = k) (structured_backends backends).
Proof.
  split.
  - intros k fe (ff & <- & Hff)%lookup_fmap_Some.
    exact (fold_keyed (λ fe, fe_Name (ff_Model fe)) (λ fe, isUnifiedGatewayManaged (fe_Metadata (ff_Model fe)))
      frontends ∅ (map_Forall_empty _) k ff Hff).
  - exact (fold_keyed be_Name (λ be, isUnifiedGatewayManaged (be_Metadata be)) backends ∅ (map_Forall_empty _)).
Qed.

Lemma StructuredFromFile_keyed (RO : RangeOrder) {Extra A L G N} (SC : StartupClient Extra A L G N) c n s :
  StructuredFromFile (SC := SC) c = Ok (n, s) →
  map_Forall (λ k fe, fe_Name fe = k) (ff_Model <$> st_Frontends s) ∧ map_Forall (λ k be, be_Name be = k) (st_Backends s).
Proof.
  unfold StructuredFromFile. destruct (configuration_New _ _ _) as [n0|]; [|done]. cbn.
  destruct (GetStructuredBackends n0) as [backends|]; [|done]. cbn.
  destruct (GetStructuredFrontends n0) as [frontends|]; [|done]. cbn.
  destruct (GetGlobalConfiguration n0) as [g|]; [|done]. cbn. destruct (sc_GetVersion n0) as [v|]; [|done]. cbn.
  destruct (PushGlobalConfiguration _ _ _) as [n1 [err|]]; [done|].
  destruct (AddStatsPortToFrontend c).
  - destruct (addBindPortToStatsFrontend frontends c n1) as [n2 [fes|]]; [|done]. intros [= _ <-]. apply structured_keyed.
  - intros [= _ <-]. apply structured_keyed.
Qed.

(** What [New] makes of the options of the program. *)
Record ready {T} (o : Startup.Configuration T) : Prop := {
  rd_check : Configuration_Check o = None;
  rd_certificates : hp_StoreCertificateStructureType (HaproxyParams o) = StructureTypeDefault;
  rd_maps : hp_StoreMapsStructureType (HaproxyParams o) = StructureTypeDefault;
  rd_mapsDir : MapsDir (hp_HaproxyDirs (HaproxyParams o)) ≠ "";
  rd_onDisk : hp_StoreCertificateOnDisk (HaproxyParams o) = true ∧ hp_StoreMapsOnDisk (HaproxyParams o) = true ∧
    hp_RuntimeUpdateHaproxy (HaproxyParams o) = true;
  rd_periods : Startup.SyncPeriod o ≠ 0%Z ∧ Startup.StartupSyncPeriod o ≠ 0%Z;
  rd_cluster : Kubeconfig o = "";
  rd_metrics : mc_Enabled (cfg_MetricsConfig o) = false;
  rd_lock : LockName (cfg_LeaderElectionConfig o) = defaultLeaderElectionLockName;
  rd_template : hp_FrontendNameTemplate (HaproxyParams o) = defaultFrontendNameTemplate
}.

Lemma New_ready {T} c (initial : T) ch env log :
  env "POD_IP" ≠ "" → env "POD_NAMESPACE" ≠ "" → env "POD_NAME" ≠ "" → LogType c ≠ "" →
  ∃ o, controller_New (SetupGateConfig c initial ch) env log = Ok o ∧ ready o ∧
    InitialStructuredHaproxyConf o = Some initial ∧
    pod_Namespace (cfg_ControllerPodConfig o) = env "POD_NAMESPACE" ∧
    (LogType c = "json" ∨ LogType c = "text" → ∃ base, bl_base <$> cfg_Logger o = Some (Some base)).
Proof.
  intros H1 H2 H3 Hlog. unfold controller_New, getControllerPodConfig, getValueFromEnv.
  rw run_SetupGateConfig !bool_decide_false //. eexists. split; [reflexivity|].
  assert (∀ n d, d ≠ 0%Z → or_zero n d ≠ 0%Z) as Hz by (intros n d Hd; unfold or_zero; by case_bool_decide).
  split; [|split_and!; [done|done|]; intros [Ht|Ht]; cbn; unfold or_default; rw Ht; cbn; by eexists].
  unfold ApplyDefaults, setup_configuration. split; try done.
  - cbn. unfold or_default. case_bool_decide; [|done]. done.
  - split; [by apply Hz|by apply Hz, Hz].
Qed.

Section add_ok.
Context {RP : RuntimePredicates} {Extra W : Type} {FS : FileSystem W} {DS : Directories W}.
Implicit Types (o : Startup.Configuration (Structured (Extra := Extra))).

(** [Add] on such a configuration, when the manager takes the parts. *)
Lemma Add_ok libs o mgr (w : W) :
  ready o → (∀ k field, mgr_IndexField mgr k field = None) → (∀ rg, mgr_Complete mgr rg = None) →
  ∃ w' registered a, Add libs o mgr None w = (w', registered, Ok a) ∧
    (∀ k, ∃ rg, filter (λ rg, rg_For rg = k) registered = [rg]) ∧
    CertsBaseDir (CertEnv := as_certificateStorage a) = CertsDir (hp_HaproxyDirs (HaproxyParams o)) ∧
    as_mapsBaseDir a = MapsDir (hp_HaproxyDirs (HaproxyParams o)) ∧
    as_gateTreeConfig a = gateTreeConfig libs o ∧ as_haproxyCfgMgrParams a = ConfMgr.mkParams true true ∧
    as_haproxyConfMgr a = initial_mgr (default zero_structured (InitialStructuredHaproxyConf o)) ∧
    as_loopCfg a = {| EventLoop.SyncPeriod := Startup.SyncPeriod o;
                      EventLoop.StartupSyncPeriod := Startup.StartupSyncPeriod o |}.
Proof using Type.
  intros [Hcheck Hc Hm Hdir (_ & H2 & H3) _ _ _ _ _] Hindex Hcomplete. unfold Add. rw Hcheck.
  pose proof (λ k, every_kind_registered RP mgr (sources_config o) k Hindex Hcomplete) as Hreg.
  destruct (registerControllers mgr (sources_config o)) as [registered err].
  assert (err = None) as -> by by destruct (Hreg KService) as (_ & _ & _ & H).
  unfold NewCertificateStorage, NewMapsStorage. rw (bool_decide_eq_false_2 _ Hdir) Hc Hm bool_decide_eq_true_2 //.
  cbn zeta. eexists _, _, _. split; [reflexivity|]. cbn. rw H2 H3. split_and!; try done.
  intros k. destruct (Hreg k) as (r & _ & Hr & _). by eexists.
Qed.

(** The configuration the manager starts from is the one of the file. *)
Lemma initial_mgr_ok (s : Structured (Extra := Extra)) :
  map_Forall (λ k fe, fe_Name fe = k) (ff_Model <$> st_Frontends s) →
  map_Forall (λ k be, be_Name be = k) (st_Backends s) →
  mgr_ok (initial_mgr s) ∧ structured (initial_mgr s) = (ff_Model <$> st_Frontends s, st_Backends s).
Proof using Type.
  intros Hfe Hbe. split; [apply NewHaproxyConfMgr_ok; by apply sections_at_wf|].
  unfold structured, initial_mgr. cbn [hm_configuration NewHaproxyConfMgr c_Frontends c_Backends].
  f_equal; apply sections_at_view.
Qed.
End add_ok.

(** ** Properties *)

(** C3: the program starts, and what it starts works.  When the environment names
    the pod, the type of log is json or text (another one leaves no handler of logs,
    which panics at the first record), the sections are read from the file of
    HAProxy and the manager of controller-runtime takes the parts, then whatever the
    other flags, [New] on the options of the program gives a configuration that has
    a handler of logs and that [Add] accepts: every kind of object has exactly one
    controller, the storage is in the directories of the configuration, the loop
    waits between two batches, the handler keeps the certificates on disk and
    updates the runtime, names the frontends by the default template, and starts
    from the managed sections of the file.  With what [Add] made, on an HAProxy that
    runs those sections and whose client accepts the operations and keeps its
    promises ([client_laws]; a reload gives no error) and with different GVKs for the
    kinds, no sequence of batches of valid events makes the handler panic, and after them
    HAProxy has the configuration of the controller and every transaction was
    accepted.  The valid events are those the API accepts, but for a Gateway that
    refers to a secret whose name has one byte or a slash, a secret with a key pair
    of RSA, ECDSA or DSA, and the deletion of a CRD or of a slice that was not there before
    the batch ([valid_event]). *)
Theorem controller_starts (RO : RangeOrder) {Extra A L G N W} (SC : StartupClient Extra A L G N) (RP : RuntimePredicates)
    (FS : FileSystem W) (DS : Directories W) (libs : TreeConfig) c n initial ch env log mgr (w : W) :
  env "POD_IP" ≠ "" → env "POD_NAMESPACE" ≠ "" → env "POD_NAME" ≠ "" → LogType c = "json" ∨ LogType c = "text" →
  StructuredFromFile (SC := SC) c = Ok (n, initial) →
  (∀ k field, mgr_IndexField mgr k field = None) → (∀ rg, mgr_Complete mgr rg = None) →
  ∃ o w' registered a, controller_New (SetupGateConfig c initial ch) env log = Ok o ∧
    Add libs o mgr None w = (w', registered, Ok a) ∧
    (∃ base, bl_base <$> cfg_Logger o = Some (Some base)) ∧
    (∀ k, ∃ rg, filter (λ rg, rg_For rg = k) registered = [rg]) ∧
    CertsBaseDir (CertEnv := as_certificateStorage a) = CertsDir (hp_HaproxyDirs (HaproxyParams o)) ∧
    as_mapsBaseDir a ≠ "" ∧
    as_gateTreeConfig a = gateTreeConfig libs o ∧
    tc_StoreCertificateOnDisk (as_gateTreeConfig a) = true ∧
    as_haproxyCfgMgrParams a = ConfMgr.mkParams true true ∧
    hp_FrontendNameTemplate (HaproxyParams o) = defaultFrontendNameTemplate ∧
    (EventLoop.SyncPeriod (as_loopCfg a) ≠ 0 ∧ EventLoop.StartupSyncPeriod (as_loopCfg a) ≠ 0)%Z ∧
    structured (as_haproxyConfMgr a) = (ff_Model <$> st_Frontends initial, st_Backends initial) ∧
    ∀ (EqE : EqDecision Extra) (BP : BackendParams ServerModel Extra) (GS : GoSort) (FE : FieldErrors)
      (SP : ServerParams) (FP : FrontendParams) T (RTC : RuntimeCerts T) (RTM : RuntimeClient T) (RTS : RuntimeServers T)
      H (HC : HAProxyClient FrontendModel (BackendModel ServerModel (BackendBase Extra)) H)
      CW (SW : StatusClient CW) (WT : Wait) disk other fe_Equal committed pending logs (t : T) rlm h (cw : CW) l,
      (∀ k1 k2, tc_extractGVK libs k1 = tc_extractGVK libs k2 → k1 = k2) →
      client_laws fe_Name committed pending →
      committed h = (ff_Model <$> st_Frontends initial, st_Backends initial) →
      valid_batches (as_gateTreeConfig a) empty_cluster_store l →
      ∃ s, HandleEventBatches (ME := maps_env o a disk other) (CE := as_certificateStorage a)
          (as_gateTreeConfig a) fe_Equal (as_haproxyCfgMgrParams a) l
          (mkHandler (initial_tree ∅ logs) (mkController (as_haproxyConfMgr a) t rlm h []) cw) = Some s ∧
        committed (ct_haproxy (hd_controller s)) = structured (ct_mgr (hd_controller s)) ∧
        Forall (λ err, err = None) (ct_results (hd_controller s)).
Proof.
  intros H1 H2 H3 Hlog Hfile Hindex Hcomplete.
  destruct (StructuredFromFile_keyed RO SC c n initial Hfile) as [Hfe Hbe].
  destruct (initial_mgr_ok initial Hfe Hbe) as [Hok Hstr].
  destruct (New_ready c initial ch env log H1 H2 H3) as (o & Hnew & Hready & Hinit & _ & Hbase); [by destruct Hlog as [-> | ->]|].
  destruct (Add_ok libs o mgr w Hready Hindex Hcomplete) as (w' & registered & a & Hadd & Hreg & Hcerts & Hmaps & Htree & Hpar & Hmgr & Hloop).
  rw Hinit in Hmgr. cbn in Hmgr. exists o, w', registered, a. unfold maps_env. rw Hmaps Htree Hmgr Hloop Hpar.
  destruct Hready as [_ _ _ Hdir (Hdisk & _) Hper _ _ _ Htemplate].
  do 2 (split; [eassumption|]). split; [by apply Hbase|]. do 2 (split; [eassumption|]). split; [exact Hdir|].
  split; [reflexivity|]. split; [exact Hdisk|]. split; [reflexivity|]. split; [exact Htemplate|].
  split; [exact Hper|]. split; [exact Hstr|].
  intros EqE BP GS FE SP FP T RTC RTM RTS H HC CW SW WT disk other fe_Equal committed pending logs t rlm h cw l
    Hinj laws Hh Hl.
  set (ME := {| MapsBaseDir := _ |}).
  destruct (HandleEventBatches_ok (CE := as_certificateStorage a) (gateTreeConfig libs o) fe_Equal (ConfMgr.mkParams true true) Hinj
    _ (default_names_apart (ME := ME) Htemplate) committed pending laws l
    (mkHandler (initial_tree ∅ logs) (mkController (initial_mgr initial) t rlm h []) cw))
    as (s & Hrun & [_ (_ & Hs1 & Hs2)] & _).
  - split; [apply initial_tree_inv|]. split; [exact Hok|]. split; [exact (eq_trans Hh (eq_sym Hstr))|constructor].
  - exact Hl.
  - exists s. split; [exact Hrun|]. split; [exact Hs1|exact Hs2].
Qed.

(** Run fails only where the manager does: on a configuration [New] made of the
    options of the program, with the client of the cluster the pod has. *)
Theorem Run_spec `{RuntimePredicates} {Extra W R M} {FS : FileSystem W} {DS : Directories W}
    {CR : ControllerRuntime R M} libs c (initial : Structured (Extra := Extra)) ch env log w clusterCfg mgr :
  env "POD_IP" ≠ "" → env "POD_NAMESPACE" ≠ "" → env "POD_NAME" ≠ "" → LogType c ≠ "" →
  ctlr_GetConfig = Ok clusterCfg →
  (∀ opts, LeaderElectionID opts = defaultLeaderElectionLockName → LeaderElectionNamespace opts = env "POD_NAMESPACE" →
     BindAddress opts = "0" → manager_New clusterCfg (10 * Second)%Z opts = Ok mgr) →
  (∀ k field, mgr_IndexField (manager_registers mgr) k field = None) →
  (∀ rg, mgr_Complete (manager_registers mgr) rg = None) → manager_Add mgr = None →
  ∃ o, controller_New (SetupGateConfig c initial ch) env log = Ok o ∧
    (Controller_Run libs o w).2 =
      ((λ err, "cannot start runtime manager: " +:+ err) <$> manager_Start mgr).
Proof.
  intros H1 H2 H3 Hlog Hcfg Hmgr Hindex Hcomplete Hadd.
  destruct (New_ready c initial ch env log H1 H2 H3 Hlog) as (o & Hnew & Hready & _ & Hpod & _).
  exists o. split; [exact Hnew|].
  assert (createManager o = Ok mgr) as Hcreate.
  { destruct Hready as [_ _ _ _ _ _ Hkube Hmetrics Hlock _]. unfold createManager. rw Hkube Hcfg.
    change (manager_New clusterCfg (10 * Second)%Z (manager_options o) = Ok mgr).
    apply Hmgr; unfold manager_options, getMetricsOptions; rw Hmetrics; [exact Hlock|exact Hpod|reflexivity]. }
  unfold Controller_Run. rw Hcreate Hadd.
  destruct (Add_ok libs o (manager_registers mgr) w Hready Hindex Hcomplete) as (w' & registered & a & -> & _).
  by destruct (manager_Start mgr).
Qed.

(** *** Witness *)

(** A file with a frontend of the controller and one of somebody else. *)
Definition example_managed : FrontendModel :=
  {| example_stale with fe_Metadata := {[ UnifiedGatewayMetaDataKey := ∅ ]} |}.
Definition example_foreign : FrontendModel := {| example_stale with fe_Name := "foreign" |}.

#[local] Instance example_startup_client : StartupClient bool unit unit unit unit := {|
  configuration_New _ _ _ := Ok tt;
  GetStructuredBackends _ := Ok [];
  GetStructuredFrontends _ := Ok [mkFileFrontend example_managed ∅; mkFileFrontend example_foreign ∅];
  GetGlobalConfiguration _ := Ok (mkGlobal None [] tt);
  sc_GetVersion _ := Ok 1%Z;
  PushGlobalConfiguration _ _ n := (n, None);
  CreateBind _ _ _ n := (n, None);
  EditBind _ _ _ _ n := (n, None)
|}.

#[local] Existing Instances key_order example_predicates example_fs example_server_params
  example_frontend_params example_server_backends example_manager_client example_no_certs example_no_maps
  example_no_servers gone_client.

#[local] Instance example_no_directories : Directories (gmap string string) := {|
  os_ReadDir _ _ := Ok [];
  os_RemoveAll _ w := (w, None);
  os_Remove _ w := (w, None)
|}.

Definition example_flags : HUGConfig :=
  {| example_hug_config with LogType := "json"; AddStatsPortToFrontend := false; hug_ControllerName := "hug" |}.

Definition example_initial : Structured (Extra := bool) :=
  mkStructured {[ "stale" := mkFileFrontend example_managed ∅ ]} ∅.

Definition example_haproxy : ExampleConf := ({[ "stale" := example_managed ]}, ∅).

(** The class and the Gateway arrive, the route, and the Gateway goes away. *)
Lemma controller_starts_witness :
  ∃ o w registered a s,
    controller_New (SetupGateConfig example_flags example_initial 0) (λ _, "x") initial_settings = Ok o ∧
    Add example_tree_config o (mkManager (λ _ _, None) (λ _, None)) None ∅ = (w, registered, Ok a) ∧
    (∃ rg, filter (λ rg, rg_For rg = KGateway) registered = [rg]) ∧
    dom (structured (as_haproxyConfMgr a)).1 = {[ "stale" ]} ∧
    HandleEventBatches (GS := stable_sort) (FE := example_errors)
      (ME := maps_env o a (λ _, NoFile) (λ _ _, Err "not a name")) (CE := as_certificateStorage a)
      (as_gateTreeConfig a) example_equal (as_haproxyCfgMgrParams a) example_arrivals
      (mkHandler (initial_tree ∅ initial_settings) (mkController (as_haproxyConfMgr a) tt
        (mkReloadMgr false false false) (example_haproxy, example_haproxy) []) tt) = Some s ∧
    (ct_haproxy (hd_controller s)).1 = structured (ct_mgr (hd_controller s)).
Proof.
  destruct (controller_starts key_order example_startup_client example_predicates example_fs
    example_no_directories example_tree_config example_flags tt example_initial 0 (λ _, "x")
    initial_settings (mkManager (λ _ _, None) (λ _, None)) ∅)
    as (o & w & registered & a & Hnew & Hadd & _ & Hreg & _ & _ & Htree & _ & _ & _ & _ & Hstr & Hruns);
    [done..|by left| | | |].
  - vm_refl.
  - done.
  - done.
  - destruct (Hruns _ example_server_backends stable_sort example_errors example_server_params example_frontend_params
      unit _ _ _ _ example_manager_client unit gone_client example_wait (λ _, NoFile) (λ _ _, Err "not a name")
      example_equal fst snd initial_settings tt (mkReloadMgr false false false) (example_haproxy, example_haproxy) tt
      example_arrivals) as (s & Hrun & Hs & _).
    + exact example_gvk_inj.
    + exact example_manager_client_laws.
    + vm_refl.
    + rw Htree. by apply example_arrivals_valid.
    + exists o, w, registered, a, s. split; [exact Hnew|]. split; [exact Hadd|]. split; [exact (Hreg KGateway)|].
      split; [rw Hstr; vm_refl|]. split; [exact Hrun|exact Hs].
Defined.
